(* ===== verification/_CoqProject ===== *)
-Q . S2P
Prelude.v
Mem.v
CString.v
Format.v
Crc.v
Tlv.v
Pktq.v
NvramPort.v
Nvram.v
Flash.v
NvramFlash.v
NvramLinux.v
NvramEarly.v
NvramUser.v
Malloc.v
Tcpbuf.v
Queue.v
Arena.v
Srec.v
Dma.v
Qsort.v
Env.v
Timer.v
Ether.v
Ip.v
IpApi.v
Tcp.v
TcpStream.v
TcpState.v
Udp.v
Tftp.v
TftpFile.v
TftpWrite.v
Fat.v
FatFile.v
Filesys.v
Elf.v
ElfLoad.v
Raw.v
Wifi.v
Background.v
Icmp.v
Dns.v
NetDev.v
NetApi.v
Shutils.v
