(* ===== verification/Prelude.v ===== *)
(** The router firmware library: a verification of the core of this tree.

    The tree holds the firmware of a Broadcom wireless router: the boot loader (CFE), a
    Linux kernel with the board's drivers, and the router's programs.  The development
    models the code of Broadcom and ASUS that the rest stands on, under
    src/broadcom/src: the helper library shared by all of them, the configuration memory
    (nvram) with everything below it down to the flash chip, and the boot loader's memory
    management and program loading.  The target is 32-bit little-endian MIPS.

    * The parts

    The helper library (shared/):
    - [Mem]: memcpy, memmove, memset, memcmp, memchr, strcpy, strncpy, strcat and rand of
      bcmstdlib.c, on a flat memory, word copies included.
    - [CString]: character classes, string comparison and search, number and address
      parsing (bcmstdlib.c, bcmutils.c).
    - [Format]: vsnprintf and its callers, bcmstrbuf, bcm_ether_ntoa.
    - [Crc]: hndcrc8, hndcrc16, hndcrc32 (both variants) and their tables.
    - [Tlv]: bcm_parse_tlvs, bcm_parse_ordered_tlvs, bcm_next_tlv.
    - [Pktq]: the multi-priority packet queue and packet chains (bcmutils.c, bcmutils.h).

    The configuration memory:
    - [NvramPort]: the two allocators of variable values, of the boot loader (nvram_rw.c)
      and of the kernel (nvram_linux.c), behind the class [Port] with its laws [PortLaws].
    - [Nvram]: the table of variables and its image (shared/nvram/nvram.c), over any [Port].
    - [Flash]: the parallel flash chips (include/flash.h) and their driver
      (shared/flashutl.c).
    - [NvramFlash]: the nvram on that flash (shared/nvram/nvram_rw.c), in both builds: the
      one that writes the flash itself, and the boot loader's (_CFE_), which writes through
      its flash device and may have an image compiled in ([cfe_build]).
    - [NvramLinux]: the kernel's nvram on an MTD device (linux/.../bcm947xx/nvram_linux.c),
      over the class [Mtd] with its laws [MtdLaws]; [NvramEarly]: the part used before
      memory management is up.
    - [NvramUser]: the library of the programs (router/nvram/nvram_linux.c), as system calls
      on [NvramLinux].

    The drivers' share:
    - [Dma]: the descriptor rings of the 32-bit DMA engine (shared/hnddma.c), both
      directions, with the chip as the other party.

    The boot loader (cfe/cfe/):
    - [Malloc]: the allocator (lib/lib_malloc.c).
    - [Queue]: the doubly linked queues (lib/lib_queue.c) in a heap.
    - [Arena]: the map of physical memory (lib/lib_arena.c, main/cfe_mem.c and the board's
      part), which every loader consults.
    - [Srec]: the S-record loader (main/cfe_ldr_srec.c), on [Arena].
    - [Fat]: the FAT file system (main/cfe_fatfs.c), over the class [FatApi] of the disk and
      the allocator; [FatFile]: what it promises of a volume, over the laws [FatDisk].
    - [Filesys]: the calls to a file system by name (main/cfe_filesys.c), the raw device
      (main/cfe_rawfs.c) and memory (main/cfe_memfs.c) as file systems, and the laws
      [FileLaws] that the loaders rely on, which the raw device and [Fat] satisfy.
    - [Elf]: the ELF loader (main/cfe_ldr_elf.c) and the table of loaders
      (main/cfe_loader.c), on [Filesys] and [Arena]; [ElfLoad]: what it promises.
    - [Raw]: the raw loader and its boot block (main/cfe_ldr_raw.c,
      include/cfe_bootblock.h), on [Filesys].
    - [Env]: the environment variables (main/env_subr.c, main/nvram_subr.c), on [Malloc] and
      over the class [NvDev] of the device calls with its laws [NvDevLaws].
    - [Qsort]: qsort (lib/lib_qsort.c) on an array of bytes.
    - [Ether]: packet buffers (net/net_ebuf.h) and the Ethernet layer (net/net_ether.c):
      ports, the free list, sending and polling.
    - [Ip]: ARP (net/net_arp.c) and IP (net/net_ip.c) on [Ether]; the protocols above are
      callbacks, functions on the whole stack.
    - [Tcpbuf]: the ring buffer of TCP (net/net_tcpbuf.c), on [Malloc].
    - [IpApi]: the class [IpLayer] of the calls into IP with its laws [IpLaws], which [Ip]
      satisfies, and a layer that records what is sent.
    - [Tcp]: TCP (net/net_tcp.c), over [IpLayer]; [TcpStream]: two hosts on a network that
      loses, repeats and reorders packets, over [IpLaws]; [TcpState]: the state machine.
    - [Udp]: UDP (net/net_udp.c), over [IpLayer].
    - [Tftp]: the TFTP file system and the rescue server (net/net_tftp.c), over the class
      [UdpApi] of the calls of net_api.c; [TftpFile]: a client reading from a server on
      a network that loses and repeats packets, over the laws [TftpPeer]; [TftpWrite]: a
      client writing.
    - [Background]: the tasks that run while a program waits (main/cfe_background.c), and
      the class [PollApi] of what the waiting programs see of the clock, with its laws.
    - [Icmp]: echo replies and ping (net/net_icmp.c), over [IpLayer] and [PollApi].
    - [Dns]: looking names up (net/net_dns.c) and addresses in text (lib/lib_misc.c), over
      the classes of the calls of net_api.c and the laws [DnsPeer].
    - [NetDev]: turning the network on and off with all that it allocates (net/net_api.c,
      net_ether.c, net_ip.c), over the class [Machine] of the devices and the allocator.
    - [NetApi]: the calls of net_api.c over the whole stack, which give the classes that
      [Tftp] and [Dns] are written over.

    The wireless driver's share:
    - [Wifi]: channel specifications (shared/bcmwifi.c, include/bcmwifi.h).

    The router's programs:
    - [Timer]: the POSIX timers over one interval timer (router/shared/linux_timer.c).
    - [Shutils]: lists of words, and the names, units and indices of interfaces
      (router/shared/shutils.c, shutils.h).

    * How the code is represented

    A machine integer is a [Z]; [wrap8], [wrap16], [wrap32] and [wrap64] are the
    wrap-around of the unsigned types, [sint32] and [schar] the signed readings.  A memory
    object is the list of its bytes, and [splice] writes into it; where a pointer is only
    compared and counted on, as [Format]'s output pointer, it is a 32-bit address that
    wraps; an access outside an object, a failed assertion or a [NULL] dereference is [None].  Records have the fields
    of the structs, under the same names.  Chains of nodes are lists in [Malloc], [Arena]
    and [Nvram]; [Pktq] and [Queue] have the links themselves in a heap and prove that they
    represent lists.  What a device or a library outside the tree does is an argument: the
    flash chip's answers ([prog] in [Flash]), the results of the MTD calls, the kernel's
    kmalloc, the results of fs_read, the frames a network device delivers.

    Loops that are not structural take fuel, and the theorems say how much is enough: the
    length of a chain plus one for walks and compaction passes, the number of bytes of a
    file plus one for the loader, the nodes of the heap plus one for queues, the size of the
    area divided by the step for flash, the size of a ring plus one for its descriptors,
    the length of the array for the loops of qsort, the bytes that the window still allows
    for the loop that sends a connection's segments, the four sockets for the search of a
    free port, the number of bytes plus one for reading and writing a file, the number of
    entries for a table of segments.  TFTP's retries are the code's own eight.  Waiting for a
    time takes as many polls as the clock needs, which is finite since the clock goes on
    ([Background.PollLaws]): ping and the lookup of names end with enough fuel, whatever
    arrives.  A chain of
    clusters may have no end: the walk takes a fuel, [Fat.FAT_FUEL] is enough for every
    chain that ends, and with a loop no fuel is ([FatFile.fat_walk_ends]).

    * What the theorems show

    - Safety: a power failure at any moment of a commit leaves the old or the new
      configuration or none at all, never a mixture ([NvramFlash.nvram_commit_crash_safe],
      for the build that writes the flash itself, and [NvramLinux.kernel_commit_crash_safe],
      for drivers whose erase reports its failures); the boot loader's own build has no such
      order ([NvramFlash.cfe_commit_not_atomic]); no file can make the loaders store into the
      firmware, but for sizes that run over the end of the address space
      ([Srec.srecload_safe], [ElfLoad.elf_load_safe]); the allocator's blocks are disjoint and in the pool
      ([Malloc.kmalloc_blocks]); the scanners of untrusted elements stay inside their buffer
      ([Tlv.bcm_parse_tlvs_safe]); bursts of errors are detected ([Crc.crc_detects_burst]).
    - Refinement: the variable table is a map, the packet queue a family of bounded lists,
      the linked queues lists, the ring buffer a bounded queue, the transmit ring a queue the
      chip takes its frames from ([Nvram.nvram_is_map], [Pktq.pktq_refines],
      [Queue.queue_refines], [Tcpbuf.tmb_refines], [Dma.dma_tx_fifo]), the boot loader's
      environment a map with read-only entries ([Env.env_is_map]).
    - Round trips: what was committed is what the next boot reads, in both builds
      ([NvramFlash.nvram_commit_persists], [Nvram.nvram_commit_roundtrip]), what a program
      sets is what programs get ([NvramUser.user_set_get]), what the boot loader saves it
      loads ([Env.env_save_load]), and printed addresses, numbers
      and S-record files are read back ([Format.ether_roundtrip], [Format.print_strtoul],
      [Srec.srec_roundtrip]).
    - Invariants: the memory map tiles its range and is coalesced ([Arena.arena_map]); no
      packet is lost ([Pktq.pktq_conserves]); the flash tables describe the whole chip
      ([Flash.flash_geometry], a lemma).
    - Receiving: the receive ring is filled as asked for, and stays in step with the frames
      whatever lengths arrive ([Dma.dma_rxfill_posts], [Dma.dma_rx_in_step]); a reset of the
      engine always returns ([Dma.dma32_txreset_returns]).
    - Networking: a packet sent by one host is delivered unchanged to the protocol of
      another ([Ip.ip_delivers]); no packet buffer is lost or used twice, whatever frames
      arrive ([Ip.ip_buffers_conserved]); an ARP reply releases exactly the packets that
      wait for it ([Ip.arp_reply_releases]).  TCP's handshake establishes a connection
      ([TcpStream.tcp_handshake]), over which each side reads a prefix of what the other
      wrote ([TcpStream.tcp_stream]); what a packet does to the
      state and the memory of a connection is what a table says ([TcpState.tcp_rx_next]),
      and closing a socket follows the diagram and gives back what an idle connection has
      ([TcpState.tcp_close_edges]).
      A datagram arrives as it was sent ([Udp.udp_delivers]), at one socket
      ([Udp.udp_sockets]); a file is read as the server has it
      ([TftpFile.tftp_reads_file]) and written as it was given ([TftpWrite.tftp_writes_file]).
      A ping is answered and the answer recognised ([Icmp.ping_round_trip]); looking a name
      up comes to an end, with the address of a reply to its own query or an error
      ([Dns.dns_lookup_ends]); and the network gives back all that it took when it is turned
      off ([NetDev.net_lifetime]).
    - Waiting: the background tasks run in the order in which they were added
      ([Background.background_runs]); ping and waiting for a datagram end
      ([Icmp.ping_ends], [NetApi.recv_with_timeout_ends]).
    - Words and names: [foreach] sees the words of a list, also after words were added and
      removed ([Shutils.word_lists]); units are read from names
      ([Shutils.unit_of_name]), and the index set for an interface is found
      ([Shutils.index_round_trip]).
    - Files and loaders: a file of a FAT volume is what its chain of clusters holds, however
      it is read and sought, and a path finds what the directories have
      ([FatFile.fat_reads_file]; the specification [lookup_file] is that of the format, and
      the paths that the code looks up wrongly are left out by [regular_path]); an ELF program is in memory as its headers say
      ([ElfLoad.elf_loads]), also when it comes from a FAT volume
      ([ElfLoad.elf_boots_from_fat]); a boot block loads the part of the disk that it names
      ([Raw.raw_boots]).
    - Channels: a string is parsed as what its number and letters mean
      ([Wifi.aton_parses]), and what is printed parses back
      ([Wifi.chanspec_roundtrip]).
    - Timers: every call is made at the deadline of its timer
      ([Timer.timers_keep_time]).
    - Sorting: qsort ends with a sorted permutation ([Qsort.qsort_sorts]).
    - Liveness: a set that fails for want of room succeeds after compaction
      ([NvramLinux.nvram_set_compacts]); a pool whose blocks are all freed is whole again
      ([Malloc.kfree_restores]).
    - Equivalence: the table-driven CRCs are polynomial division and the word-wise variant
      agrees with the byte-wise one ([Crc.crc_tables_correct], [Crc.hndcrc32_mips]); early
      and late lookups agree but for the defaults that [nvram_rehash] takes from the header
      ([NvramEarly.early_nvram_get_agrees]).
    - Bounds and errors: truncation of formatted output ([Format.vsnprintf_truncates], for
      outputs that do not take the pointer over the top of the address space), the buffer of getall, a queue
      walk whose callback unlinks its element, and the overlapping copy that memmove gets
      wrong ([Mem.memmove_overlap_corrupts]).

    Some lemmas state defects of the code, each on an input that shows it, such as
    [Srec.bad_count_overruns], [Arena.loadcheck_wraps], [Malloc.kmalloc_wraps],
    [Format.bcm_bprintf_underflow], [Format.vsnprintf_pointer_wraps], [Crc.hndcrc32_short], and the examples of
    [TcpState], [Udp], [TftpFile], [FatFile], [ElfLoad], [Wifi], [Icmp], [Dns], [NetDev] and
    [Shutils].

    Where the code goes wrong on some inputs the theorem about it has a hypothesis that
    leaves them out, its comment says so, and a lemma shows what happens there: sizes of
    2^30 and more in [Malloc], rotation, dead chips and empty buffers in [Dma], forged data
    packets in [TftpFile], long records in [Env], lengths that only the header claims in
    [Udp], malformed replies in [Dns], an ARP table that is not given in [NetDev], a program
    that is larger than the boot area in [Raw].

    * Not modelled

    Third-party code kept in the tree (the Linux kernel proper, busybox, iptables, pppd and
    other packages); register-level code (sbutils.c, probing of the flash chip,
    sflash.c, the page table of the boot area); console output and LEDs; the registration
    and mmap of the kernel's nvram device, and interrupts or concurrent callers of it: its
    operations run one at a time, as its spin lock makes them.

    Of the boot loader: DHCP (net_dhcp.c), a client of the same interfaces as [Dns]; the
    calls of net_api.c for TCP, which this board is built without, and net_setnetvars; the
    console, the command line and the dispatch of the device calls; the file systems for HTTP
    and for compressed files.  Of the shared code: the layout tables of the SROM
    (bcmsrom.c).  Of the helpers of the router programs (router/shared/shutils.c): those that
    read files, start programs and wait for descriptors, which only call the kernel.

    * This file

    Notation, machine integers, byte strings, tactics and the lemmas on lists that the
    other files share. *)

From Stdlib Require Import ZArith Lia Bool List String Ascii.
From stdpp Require Import base numbers list gmap.

#[local] Open Scope Z_scope.

(** * Machine integers

    The target is 32-bit little-endian MIPS.  An unsigned value of width w is a
    [Z] in [0, 2^w); the C operators wrap with the functions below. *)

Definition wrap8 (z : Z) : Z := z mod 2 ^ 8.
Definition wrap16 (z : Z) : Z := z mod 2 ^ 16.
Definition wrap32 (z : Z) : Z := z mod 2 ^ 32.

(** Reading an unsigned value back as the signed type of the same width; plain
    [char] is signed on this target. *)
Definition schar (z : Z) : Z := if z <? 2 ^ 7 then z else z - 2 ^ 8.
Definition sint32 (z : Z) : Z :=
  let u := wrap32 z in if u <? 2 ^ 31 then u else u - 2 ^ 32.

(** A C truth value. *)
Definition truthy (z : Z) : bool := negb (z =? 0).

Declare Scope c_scope.
Delimit Scope c_scope with c.
Infix "+u" := (fun a b => wrap32 (a + b)) (at level 50, left associativity) : c_scope.
Infix "-u" := (fun a b => wrap32 (a - b)) (at level 50, left associativity) : c_scope.
Infix "*u" := (fun a b => wrap32 (a * b)) (at level 40, left associativity) : c_scope.

(** The error monad of partial operations: [None] stands for behaviour the C
    program must not reach (an access outside an object, a failed [ASSERT]). *)
Notation "'let?' x := a 'in' b" :=
  (match a with Some x => b | None => None end)
  (at level 10, x pattern, a at level 100, b at level 200,
   format "'[hv' 'let?'  x  :=  '[' a ']'  'in'  '/' '[' b ']' ']'").

(** A guard in that monad. *)
Notation "'assert!' c 'in' b" := (if c then b else None)
  (at level 10, c at level 100, b at level 200).

(** * Characters and strings

    A byte is a [Z]; a NUL-terminated string is the list of the bytes before the
    terminator, so that reading one past its last byte gives 0. *)

Definition ch (a : ascii) : Z := Z.of_N (N_of_ascii a).
Definition str (s : string) : list Z := map ch (list_ascii_of_string s).

Definition byte_ok (c : Z) : Prop := 0 <= c < 256.
Definition char_ok (c : Z) : Prop := 0 < c < 256.
Abbreviation bytes := (list Z).
Abbreviation is_cstr := (Forall char_ok).

(** The byte a pointer into such a string points at, and the [i]-th one after it. *)
Definition deref (s : bytes) : Z := hd 0 s.
Definition at_ (s : bytes) (i : nat) : Z := nth i s 0.

(** The NUL-terminated string at the start of a memory area. *)
Fixpoint cstr (mem : bytes) : bytes :=
  match mem with
  | [] => []
  | c :: t => if c =? 0 then [] else c :: cstr t
  end.

(** Decidable boolean equality of byte strings: [strcmp(a, b) == 0]. *)
Definition bytes_eqb (a b : bytes) : bool := bool_decide (a = b).

Lemma bytes_eqb_true a b : bytes_eqb a b = true <-> a = b.
Proof. apply bool_decide_eq_true. Qed.

Lemma bytes_eqb_refl a : bytes_eqb a a = true.
Proof. by apply bytes_eqb_true. Qed.

Lemma bytes_eqb_false a b : bytes_eqb a b = false <-> a <> b.
Proof. apply bool_decide_eq_false. Qed.

(** [obj] with [s] written over it from offset [i]. *)
Definition splice (obj : bytes) (i : nat) (s : bytes) : bytes :=
  take i obj ++ s ++ drop (i + length s) obj.

(** The elements of all lists of a family but the [i]-th. *)
Definition others {A} (i : nat) (Q : list (list A)) : list A :=
  concat (take i Q) ++ concat (drop (S i) Q).

(** * Lemmas on machine integers *)

Create HintDb mach.
Create Rewrite HintDb mach_rw.

Lemma wrap8_range z : 0 <= wrap8 z < 256.
Proof. apply Z.mod_pos_bound. lia. Qed.
Lemma wrap16_range z : 0 <= wrap16 z < 65536.
Proof. apply Z.mod_pos_bound. lia. Qed.
Lemma wrap32_range z : 0 <= wrap32 z < 4294967296.
Proof. apply Z.mod_pos_bound. lia. Qed.

Lemma wrap8_small z : 0 <= z < 256 -> wrap8 z = z.
Proof. intros. by apply Z.mod_small. Qed.
Lemma wrap16_small z : 0 <= z < 65536 -> wrap16 z = z.
Proof. intros. by apply Z.mod_small. Qed.
Lemma wrap32_small z : 0 <= z < 4294967296 -> wrap32 z = z.
Proof. intros. by apply Z.mod_small. Qed.

(** An int keeps what fits. *)
Lemma sint32_small s : - 2 ^ 31 <= s < 2 ^ 31 -> sint32 s = s.
Proof.
  intros Hs. unfold sint32, wrap32. destruct (Z.le_gt_cases 0 s).
  - rewrite Z.mod_small by lia. by rewrite (proj2 (Z.ltb_lt _ _)) by lia.
  - assert (s mod 2 ^ 32 = s + 2 ^ 32) as ->.
    { replace s with (s + 2 ^ 32 + -1 * 2 ^ 32) at 1 by lia. rewrite Z_mod_plus_full. apply Z.mod_small. lia. }
    rewrite (proj2 (Z.ltb_ge _ _)) by lia. lia.
Qed.

Lemma sint32_range z : - 2 ^ 31 <= sint32 z < 2 ^ 31.
Proof. unfold sint32. pose proof (Z.mod_pos_bound z (2 ^ 32)). unfold wrap32. case_match; lia. Qed.

Lemma wrap32_wrap32 z : wrap32 (wrap32 z) = wrap32 z.
Proof. apply Z.mod_mod. lia. Qed.
Lemma wrap32_add_l a b : wrap32 (wrap32 a + b) = wrap32 (a + b).
Proof. apply Zplus_mod_idemp_l. Qed.
Lemma wrap32_mul_add a b c : wrap32 (wrap32 a * b + c) = wrap32 (a * b + c).
Proof.
  unfold wrap32. rewrite <- (Zplus_mod_idemp_l (_ * _)), Zmult_mod_idemp_l.
  apply Zplus_mod_idemp_l.
Qed.

(** Bit operations stay within a width. *)
Lemma lor_range a b n : 0 <= n -> 0 <= a < 2 ^ n -> 0 <= b < 2 ^ n -> 0 <= Z.lor a b < 2 ^ n.
Proof.
  intros Hn Ha Hb. split; [apply Z.lor_nonneg; lia|].
  destruct (Z.eq_dec (Z.lor a b) 0) as [->|]; [apply Z.pow_pos_nonneg; lia|].
  apply Z.log2_lt_pow2; [pose proof (Z.lor_nonneg a b); lia|].
  destruct (Z.eq_dec n 0) as [->|].
  { assert (a = 0) by lia. assert (b = 0) by lia. by subst. }
  rewrite Z.log2_lor by lia. apply Z.max_lub_lt.
  - destruct (Z.eq_dec a 0) as [->|]; [cbn; lia|]. apply Z.log2_lt_pow2; lia.
  - destruct (Z.eq_dec b 0) as [->|]; [cbn; lia|]. apply Z.log2_lt_pow2; lia.
Qed.

Lemma land_shiftl_range x : 0 <= Z.shiftl (Z.land x 0xffff) 16 < 2 ^ 32.
Proof.
  change 0xffff with (Z.ones 16). rewrite Z.land_ones, Z.shiftl_mul_pow2 by lia.
  pose proof (Z.mod_pos_bound x (2 ^ 16)). lia.
Qed.

#[export] Hint Resolve wrap8_range wrap16_range wrap32_range : mach.
#[export] Hint Rewrite wrap32_wrap32 wrap32_add_l wrap32_mul_add : mach_rw.
#[export] Hint Rewrite wrap8_small wrap16_small wrap32_small using lia : mach_rw.

(** * Tactics *)

(** Split the boolean tests of a goal or hypothesis into propositions. *)
Ltac bool_simpl :=
  repeat match goal with
  | H : (_ && _) = true |- _ => apply andb_prop in H as [? ?]
  | H : (_ || _) = false |- _ => apply orb_false_elim in H as [? ?]
  | H : negb _ = true |- _ => apply negb_true_iff in H
  | H : negb _ = false |- _ => apply negb_false_iff in H
  | H : (_ =? _) = true |- _ => apply Z.eqb_eq in H
  | H : (_ =? _) = false |- _ => apply Z.eqb_neq in H
  | H : (_ <? _) = true |- _ => apply Z.ltb_lt in H
  | H : (_ <? _) = false |- _ => apply Z.ltb_ge in H
  | H : (_ <=? _) = true |- _ => apply Z.leb_le in H
  | H : (_ <=? _) = false |- _ => apply Z.leb_gt in H
  | H : bytes_eqb _ _ = true |- _ => apply bytes_eqb_true in H
  | H : bytes_eqb _ _ = false |- _ => apply bytes_eqb_false in H
  end.

(** Case analysis on the next test of the goal, with its outcome as a
    proposition. *)
Ltac case_test :=
  match goal with
  | |- context [if ?b then _ else _] => let E := fresh "E" in destruct b eqn:E; bool_simpl
  end.

(** * Lemmas on lists *)

Lemma forallb_seq (P : nat -> bool) n :
  forallb P (seq 0 n) = true -> forall i, (i < n)%nat -> P i = true.
Proof.
  intros H i Hi. rewrite forallb_forall in H. apply H. apply in_seq. lia.
Qed.

(** A property of the naturals below a bound, checked by evaluation. *)
Lemma forallb_Z_below (P : Z -> bool) n :
  forallb (fun i => P (Z.of_nat i)) (seq 0 n) = true ->
  forall z, 0 <= z < Z.of_nat n -> P z = true.
Proof.
  intros H z Hz. pose proof (forallb_seq _ _ H (Z.to_nat z)) as Hn.
  cbn in Hn. rewrite Z2Nat.id in Hn by lia. apply Hn. lia.
Qed.

Lemma Forall_take_drop {A} (P : A -> Prop) n l :
  Forall P l <-> Forall P (take n l) /\ Forall P (drop n l).
Proof. rewrite <- Forall_app, take_drop. done. Qed.

Lemma cstr_app s mem : is_cstr s -> cstr (s ++ 0 :: mem) = s.
Proof.
  induction 1 as [|c s [Hc _] _ IH]; cbn; [done|].
  rewrite (proj2 (Z.eqb_neq _ _)) by lia. by rewrite IH.
Qed.

Lemma cstr_all s : is_cstr s -> cstr s = s.
Proof.
  induction 1 as [|c s [Hc _] _ IH]; cbn; [done|].
  rewrite (proj2 (Z.eqb_neq _ _)) by lia. by rewrite IH.
Qed.

Lemma cstr_nonzero mem : Forall (fun c => c <> 0) (cstr mem).
Proof. induction mem as [|c t IH]; cbn; [constructor|]. case_test; constructor; auto. Qed.

(** * Writing over a part of an object *)

Lemma length_splice obj i s :
  (i + length s <= length obj)%nat -> length (splice obj i s) = length obj.
Proof. intros. unfold splice. rewrite !length_app, length_take, length_drop. lia. Qed.

Lemma lookup_splice obj i s j :
  (i + length s <= length obj)%nat ->
  splice obj i s !! j =
  if decide ((i <= j < i + length s)%nat) then s !! (j - i)%nat else obj !! j.
Proof.
  intros H. unfold splice. destruct (decide (j < i)%nat).
  { rewrite decide_False, lookup_app_l, lookup_take_lt by (rewrite ?length_take; lia). done. }
  rewrite lookup_app_r by (rewrite length_take; lia).
  rewrite length_take, Nat.min_l by lia. case_decide.
  - rewrite lookup_app_l by lia. done.
  - rewrite lookup_app_r, lookup_drop by lia. f_equal. lia.
Qed.

Lemma Forall_splice (P : Z -> Prop) obj i s : Forall P obj -> Forall P s -> Forall P (splice obj i s).
Proof. intros. unfold splice. rewrite !Forall_app. auto using Forall_take, Forall_drop. Qed.

Lemma splice_nil obj i : splice obj i [] = obj.
Proof. unfold splice. cbn. by rewrite Nat.add_0_r, take_drop. Qed.

Lemma splice_splice obj i a b :
  (i + length a + length b <= length obj)%nat ->
  splice (splice obj i a) (i + length a) b = splice obj i (a ++ b).
Proof.
  intros H. apply list_eq. intros j.
  rewrite !lookup_splice by (rewrite ?length_splice, ?length_app; lia).
  rewrite length_app. repeat case_decide; try lia; try done.
  - rewrite lookup_app_r by lia. f_equal. lia.
  - by rewrite lookup_app_l by lia.
Qed.

Lemma take_splice obj i s : (i <= length obj)%nat -> take i (splice obj i s) = take i obj.
Proof.
  intros Hi. unfold splice. rewrite take_app_le by (rewrite length_take; lia).
  by rewrite take_take, Nat.min_id.
Qed.

Lemma drop_splice obj i k s :
  (i <= length obj)%nat -> (k <= length s)%nat ->
  drop (i + k) (splice obj i s) = drop k s ++ drop (i + length s) obj.
Proof.
  intros Hi Hk. unfold splice. rewrite drop_app_ge by (rewrite length_take; lia).
  rewrite length_take, Nat.min_l by lia. replace (i + k - i)%nat with k by lia.
  by rewrite drop_app_le by lia.
Qed.

Lemma drop_splice_0 obj i s :
  (i <= length obj)%nat -> drop i (splice obj i s) = s ++ drop (i + length s) obj.
Proof. intros Hi. rewrite <- (Nat.add_0_r i) at 1. rewrite drop_splice by lia. by rewrite drop_0. Qed.

(** Writing a new head over an old one. *)
Lemma splice_again obj i a b r :
  length a = length b -> (i + length (a ++ r) <= length obj)%nat ->
  splice (splice obj i (a ++ r)) i b = splice obj i (b ++ r).
Proof.
  rewrite length_app. intros H1 H2. apply list_eq. intros j.
  rewrite !lookup_splice by (rewrite ?length_splice, ?length_app; rewrite ?length_app; lia).
  rewrite !length_app. repeat case_decide; try lia; try done.
  - by rewrite lookup_app_l by lia.
  - rewrite !lookup_app_r by lia. by rewrite H1.
Qed.

(** Writing at the start of a cleared area. *)
Lemma splice_zeros n s : splice (replicate n 0) 0 s = s ++ replicate (n - length s) 0.
Proof. unfold splice. by rewrite take_0, drop_replicate. Qed.

(** Overwriting the last byte written. *)
Lemma splice_over obj i a x y :
  (i + length a + 1 <= length obj)%nat ->
  splice (splice obj i (a ++ [x])) (i + length a) [y] = splice obj i (a ++ [y]).
Proof.
  intros H. rewrite <- (splice_splice obj i a [x]), <- (splice_splice obj i a [y]) by (cbn; lia).
  assert (length (splice obj i a) = length obj) as Hl by (apply length_splice; lia).
  apply list_eq. intros j.
  rewrite !lookup_splice by (rewrite ?length_splice; cbn; lia).
  repeat case_decide; cbn in *; try lia; done.
Qed.

(** * Lemmas on lists of lists *)

Lemma concat_split {A} (Q : list (list A)) i l : Q !! i = Some l -> concat Q ≡ₚ l ++ others i Q.
Proof.
  intros H. rewrite <- (take_drop_middle Q i l H) at 1. unfold others.
  rewrite concat_app. cbn. rewrite !app_assoc. apply Permutation_app_tail, Permutation_app_comm.
Qed.

Lemma concat_insert {A} (Q : list (list A)) i l l' : Q !! i = Some l -> concat (<[i := l']> Q) ≡ₚ l' ++ others i Q.
Proof.
  intros H. rewrite (insert_take_drop Q i l') by (by eapply lookup_lt_Some). unfold others.
  rewrite concat_app. cbn. rewrite !app_assoc. apply Permutation_app_tail, Permutation_app_comm.
Qed.

Lemma elem_of_concat_lookup {A} (Q : list (list A)) x :
  x ∈ concat Q <-> exists i l, Q !! i = Some l /\ x ∈ l.
Proof.
  split.
  - induction Q as [|l Q IH]; cbn; [by rewrite elem_of_nil|]. rewrite elem_of_app.
    intros [H|H]; [by exists 0%nat, l|]. apply IH in H as (i & l' & ? & ?). by exists (S i), l'.
  - intros (i & l & H & Hx). rewrite (concat_split _ _ _ H). set_solver.
Qed.

(** Distinct lists of a duplicate-free family are disjoint. *)
Lemma lists_disjoint {A} (Q : list (list A)) i j l l' x :
  NoDup (concat Q) -> Q !! i = Some l -> Q !! j = Some l' -> i <> j -> x ∈ l -> x ∉ l'.
Proof.
  intros Hn Hi Hj Hij Hx Hx'.
  rewrite (concat_split _ _ _ Hi), NoDup_app in Hn. destruct Hn as (_ & Hd & _).
  apply (Hd x Hx). unfold others. rewrite elem_of_app, !elem_of_concat_lookup.
  destruct (decide (j < i)%nat).
  - left. exists j, l'. by rewrite lookup_take_lt by lia.
  - right. exists (j - S i)%nat, l'. rewrite lookup_drop. split; [|done]. rewrite <- Hj. f_equal. lia.
Qed.

Lemma all_empty_concat {A} (Q : list (list A)) :
  concat Q = [] <-> forall i l, Q !! i = Some l -> l = [].
Proof.
  split.
  - intros H i l Hi. destruct l as [|x l]; [done|].
    assert (x ∈ concat Q) as Hx by (apply elem_of_concat_lookup; exists i, (x :: l); set_solver).
    rewrite H in Hx. set_solver.
  - intros H. destruct (concat Q) as [|x c] eqn:E; [done|].
    assert (x ∈ concat Q) as Hx by (rewrite E; set_solver).
    apply elem_of_concat_lookup in Hx as (i & l & Hi & Hx). rewrite (H _ _ Hi) in Hx. set_solver.
Qed.

Lemma length_concat_insert {A} (Q : list (list A)) i l l' :
  Q !! i = Some l ->
  Z.of_nat (length (concat (<[i := l']> Q)))
  = Z.of_nat (length (concat Q)) - Z.of_nat (length l) + Z.of_nat (length l').
Proof.
  intros H. rewrite (Permutation_length (concat_insert _ _ _ l' H)).
  rewrite (Permutation_length (concat_split _ _ _ H)), !length_app. lia.
Qed.

Lemma length_list_le {A} (Q : list (list A)) i l :
  Q !! i = Some l -> (length l <= length (concat Q))%nat.
Proof. intros H. rewrite (Permutation_length (concat_split _ _ _ H)), length_app. lia. Qed.

(** If a key tells the number of an element's list, distinct keys within each list are
    distinct in all. *)
Lemma NoDup_map_concat {A B} (f : A -> B) (g : B -> nat) (k : nat) (Q : list (list A)) :
  (forall i l, Q !! i = Some l -> NoDup (map f l) /\ forall t, t ∈ l -> g (f t) = (k + i)%nat) ->
  NoDup (map f (concat Q)).
Proof.
  revert k. induction Q as [|l Q IH]; intros k HQ; cbn; [constructor|].
  destruct (HQ 0%nat l eq_refl) as [Hl Hk]. rewrite map_app. apply NoDup_app. split; [done|].
  split.
  - intros x Hx Hx'. apply list_elem_of_fmap in Hx as (t & -> & Ht).
    apply list_elem_of_fmap in Hx' as (t' & Hf & Ht').
    apply elem_of_concat_lookup in Ht' as (i & l' & Hl' & Ht').
    destruct (HQ (S i) l' Hl') as [_ Hk']. specialize (Hk t Ht). specialize (Hk' t' Ht').
    rewrite Hf in Hk. lia.
  - apply (IH (S k)). intros i l' Hi. destruct (HQ (S i) l' Hi) as [? Ht]. split; [done|].
    intros t Hin. rewrite (Ht t Hin). lia.
Qed.
