(* ===== verification/Mem.v ===== *)
(** The memory routines of shared/bcmstdlib.c: [memcpy], [memmove], [memset],
    [memcmp] and [memchr], the string functions that write, and [rand], on a flat
    memory.

    An address is an index into [mem]; an access outside it is [None]. *)

From S2P Require Import Prelude.
From Stdlib Require Import ZArith Lia Bool List.
From stdpp Require Import base numbers list.

#[local] Open Scope Z_scope.

Definition load (mem : bytes) (a : nat) : option Z := mem !! a.
Definition store8 (mem : bytes) (a : nat) (v : Z) : option bytes :=
  assert! (a <? length mem)%nat in Some (<[a := v]> mem).

(** [*dw++ = *sw++]: the four bytes are read before any is written. *)
Definition copy_word (mem : bytes) (dest src : nat) : option bytes :=
  let? b0 := load mem src in
  let? b1 := load mem (src + 1) in
  let? b2 := load mem (src + 2) in
  let? b3 := load mem (src + 3) in
  let? mem := store8 mem dest b0 in
  let? mem := store8 mem (dest + 1) b1 in
  let? mem := store8 mem (dest + 2) b2 in
  store8 mem (dest + 3) b3.

Fixpoint copy_words (k : nat) (mem : bytes) (dest src : nat) : option bytes :=
  match k with
  | O => Some mem
  | S k => let? mem := copy_word mem dest src in copy_words k mem (dest + 4) (src + 4)
  end.

Fixpoint copy_bytes (n : nat) (mem : bytes) (dest src : nat) : option bytes :=
  match n with
  | O => Some mem
  | S n =>
      let? b := load mem src in
      let? mem := store8 mem dest b in copy_bytes n mem (dest + 1) (src + 1)
  end.

Definition memcpy (mem : bytes) (dest src n : nat) : option bytes :=
  if (4 <=? n)%nat && (src mod 4 =? 0)%nat && (dest mod 4 =? 0)%nat then
    let? mem := copy_words (n / 4) mem dest src in
    copy_bytes (n mod 4) mem (dest + 4 * (n / 4)) (src + 4 * (n / 4))
  else copy_bytes n mem dest src.

(** From the end down; [n] bytes are left. *)
Fixpoint copy_down (n : nat) (mem : bytes) (dest src : nat) : option bytes :=
  match n with
  | O => Some mem
  | S n =>
      let? b := load mem (src + n) in
      let? mem := store8 mem (dest + n) b in copy_down n mem dest src
  end.

Definition memmove (mem : bytes) (dest src n : nat) : option bytes :=
  if (src <? dest)%nat then memcpy mem dest src n else copy_down n mem dest src.

Fixpoint memcmp (s1 s2 : bytes) (n : nat) : option Z :=
  match n with
  | O => Some 0
  | S n =>
      match s1, s2 with
      | a :: s1, b :: s2 =>
          if a <? b then Some (-1) else if b <? a then Some 1 else memcmp s1 s2 n
      | _, _ => None
      end
  end.

Fixpoint set_bytes (n : nat) (mem : bytes) (d : nat) (c : Z) : option bytes :=
  match n with
  | O => Some mem
  | S n => let? mem := store8 mem d c in set_bytes n mem (d + 1) c
  end.

(** [*dw = w] on a little-endian machine. *)
Definition store_word (mem : bytes) (d : nat) (w : Z) : option bytes :=
  let? mem := store8 mem d (Z.land w 255) in
  let? mem := store8 mem (d + 1) (Z.land (Z.shiftr w 8) 255) in
  let? mem := store8 mem (d + 2) (Z.land (Z.shiftr w 16) 255) in
  store8 mem (d + 3) (Z.land (Z.shiftr w 24) 255).

Fixpoint set_words (k : nat) (mem : bytes) (d : nat) (w : Z) : option bytes :=
  match k with
  | O => Some mem
  | S k => let? mem := store_word mem d w in set_words k mem (d + 4) w
  end.

(** The word of four equal bytes. *)
Definition memset_word (c : Z) : Z :=
  if c =? 0 then 0
  else
    let ch := Z.land c 255 in
    let w := Z.lor (Z.shiftl ch 8) ch in
    Z.lor w (wrap32 (Z.shiftl w 16)).

(** The memory and the pointer returned, which is one past the area. *)
Definition memset (mem : bytes) (dest : nat) (c : Z) (n : nat) : option (bytes * nat) :=
  if (8 <=? n)%nat && (dest mod 4 =? 0)%nat then
    let? mem := set_words (n / 4) mem dest (memset_word c) in
    let? mem := set_bytes (n mod 4) mem (dest + 4 * (n / 4)) (wrap8 c) in
    Some (mem, (dest + 4 * (n / 4) + n mod 4)%nat)
  else
    let? mem := set_bytes n mem dest (wrap8 c) in Some (mem, (dest + n)%nat).

(** The offset of the first byte equal to [(unsigned char)c] among the first [n]. *)
Fixpoint memchr (s : bytes) (c : Z) (n : nat) : option (option nat) :=
  match n with
  | O => Some None
  | S n =>
      match s with
      | [] => None
      | b :: s =>
          if b =? wrap8 c then Some (Some 0%nat)
          else let? r := memchr s c n in Some (S <$> r)
      end
  end.

(** The string functions that write; [src] is a string that does not overlap the
    object [mem]. *)
Fixpoint strcpy (mem : bytes) (dest : nat) (src : bytes) : option bytes :=
  match src with
  | [] => store8 mem dest 0
  | c :: src => let? mem := store8 mem dest c in strcpy mem (dest + 1) src
  end.

Fixpoint strncpy (mem : bytes) (dest : nat) (src : bytes) (n : nat) : option bytes :=
  match src, n with
  | c :: src, S n => let? mem := store8 mem dest c in strncpy mem (dest + 1) src n
  | _, O => Some mem
  | [], S _ => store8 mem dest 0
  end.

Definition strcat (mem : bytes) (d : nat) (s : bytes) : option bytes :=
  strcpy mem (d + length (cstr (drop d mem))) s.

(** The new seed, which is also the value returned; [x / y] and [x % y] of C round
    towards zero. *)
Definition rand (seed : Z) : Z :=
  let hi := Z.quot seed 127773 in
  let lo := Z.rem seed 127773 in
  let t := 16807 * lo - 2836 * hi in
  if t <=? 0 then t + 2147483647 else t.

(** * The contract *)

Definition copy_spec (mem : bytes) (dest src n : nat) : bytes :=
  splice mem dest (take n (drop src mem)).

Definition set_spec (mem : bytes) (dest n : nat) (c : Z) : bytes :=
  splice mem dest (replicate n c).

Definition in_range (mem : bytes) (a n : nat) : Prop := (a + n <= length mem)%nat.

(** * Lemmas *)

Lemma store8_splice mem a v :
  (a < length mem)%nat -> store8 mem a v = Some (splice mem a [v]).
Proof.
  intros H. unfold store8. rewrite (proj2 (Nat.ltb_lt _ _)) by lia. f_equal.
  unfold splice. cbn [length]. rewrite Nat.add_1_r. by apply insert_take_drop.
Qed.

(** A store behind what was just written extends it. *)
Lemma store8_append mem d s a v :
  a = (d + length s)%nat -> (a < length mem)%nat ->
  store8 (splice mem d s) a v = Some (splice mem d (s ++ [v])).
Proof.
  intros -> H. rewrite store8_splice by (rewrite length_splice; lia).
  by rewrite splice_splice by (cbn; lia).
Qed.

Lemma take_S_drop (mem : bytes) src n b :
  mem !! src = Some b -> take (S n) (drop src mem) = b :: take n (drop (src + 1) mem).
Proof.
  intros H. rewrite (drop_S _ _ _ H). cbn [take]. by rewrite Nat.add_1_r.
Qed.

(** The part of the source still to be copied is not changed by copying a first
    part forwards. *)
Lemma forward_source mem dest src n c :
  (dest <= src \/ src + n <= dest)%nat -> (c <= n)%nat ->
  in_range mem dest n -> in_range mem src n ->
  take (n - c) (drop (src + c) (copy_spec mem dest src c))
  = take (n - c) (drop (src + c) mem).
Proof.
  unfold in_range, copy_spec. intros Ho Hc Hd Hs. apply list_eq. intros i.
  destruct (decide (i < n - c)%nat).
  - rewrite !lookup_take_lt, !lookup_drop by lia.
    rewrite lookup_splice by (rewrite length_take, length_drop; lia).
    rewrite length_take, length_drop, decide_False by lia. done.
  - rewrite !lookup_take_ge by lia. done.
Qed.

Lemma copy_spec_step mem dest src n c :
  (dest <= src \/ src + n <= dest)%nat -> (c <= n)%nat ->
  in_range mem dest n -> in_range mem src n ->
  copy_spec (copy_spec mem dest src c) (dest + c) (src + c) (n - c)
  = copy_spec mem dest src n.
Proof.
  intros Ho Hc Hd Hs. unfold copy_spec at 1.
  rewrite forward_source by done. unfold in_range, copy_spec in *.
  assert (length (take c (drop src mem)) = c) as Hl by (rewrite length_take, length_drop; lia).
  rewrite <- Hl at 2. rewrite splice_splice by
    (rewrite Hl, length_take, length_drop; lia).
  f_equal. replace n with (c + (n - c))%nat at 2 by lia.
  by rewrite <- drop_drop, <- take_take_drop.
Qed.

Lemma length_copy_spec mem dest src n :
  in_range mem dest n -> length (copy_spec mem dest src n) = length mem.
Proof. intros H. apply length_splice. rewrite length_take. unfold in_range in H. lia. Qed.

Lemma copy_spec_0 mem dest src : copy_spec mem dest src 0 = mem.
Proof. apply splice_nil. Qed.

Lemma copy_bytes_spec n mem dest src :
  (dest <= src \/ src + n <= dest)%nat -> in_range mem dest n -> in_range mem src n ->
  copy_bytes n mem dest src = Some (copy_spec mem dest src n).
Proof.
  revert mem dest src. induction n as [|n IH]; intros mem dest src Ho Hd Hs.
  { by rewrite copy_spec_0. }
  unfold in_range in *. cbn [copy_bytes].
  destruct (lookup_lt_is_Some_2 mem src) as [b Hb]; [lia|].
  unfold load. rewrite Hb, store8_splice by lia.
  assert (splice mem dest [b] = copy_spec mem dest src 1) as ->.
  { unfold copy_spec. by rewrite (take_S_drop _ _ _ _ Hb). }
  rewrite IH by (unfold in_range; rewrite ?length_copy_spec; unfold in_range; lia).
  f_equal. rewrite <- (copy_spec_step mem dest src (S n) 1) by (unfold in_range; lia).
  f_equal. lia.
Qed.

Lemma copy_word_spec mem dest src :
  in_range mem dest 4 -> in_range mem src 4 ->
  copy_word mem dest src = Some (copy_spec mem dest src 4).
Proof.
  unfold in_range, copy_word, load. intros Hd Hs.
  destruct (lookup_lt_is_Some_2 mem src) as [b0 H0]; [lia|].
  destruct (lookup_lt_is_Some_2 mem (src + 1)) as [b1 H1]; [lia|].
  destruct (lookup_lt_is_Some_2 mem (src + 2)) as [b2 H2]; [lia|].
  destruct (lookup_lt_is_Some_2 mem (src + 3)) as [b3 H3]; [lia|].
  rewrite H0, H1, H2, H3.
  rewrite store8_splice, !store8_append by (cbn; lia).
  f_equal. unfold copy_spec. f_equal.
  rewrite (take_S_drop _ _ _ _ H0), (take_S_drop _ _ _ _ H1).
  rewrite <- Nat.add_assoc, (take_S_drop _ _ _ _ H2).
  rewrite <- Nat.add_assoc, (take_S_drop _ _ _ _ H3). done.
Qed.

Lemma copy_words_spec k mem dest src :
  (dest <= src \/ src + 4 * k <= dest)%nat ->
  in_range mem dest (4 * k) -> in_range mem src (4 * k) ->
  copy_words k mem dest src = Some (copy_spec mem dest src (4 * k)).
Proof.
  revert mem dest src. induction k as [|k IH]; intros mem dest src Ho Hd Hs.
  { by rewrite copy_spec_0. }
  unfold in_range in *. cbn [copy_words]. rewrite copy_word_spec by (unfold in_range; lia).
  rewrite IH by (unfold in_range; rewrite ?length_copy_spec; unfold in_range; lia).
  f_equal. rewrite <- (copy_spec_step mem dest src (4 * S k) 4) by (unfold in_range; lia).
  f_equal. lia.
Qed.

Lemma memcpy_spec mem dest src n :
  (dest <= src \/ src + n <= dest)%nat -> in_range mem dest n -> in_range mem src n ->
  memcpy mem dest src n = Some (copy_spec mem dest src n).
Proof.
  intros Ho Hd Hs. unfold memcpy. case_test; [|by apply copy_bytes_spec].
  pose proof (Nat.div_mod_eq n 4) as Hn. unfold in_range in *.
  rewrite copy_words_spec by (unfold in_range; lia).
  rewrite copy_bytes_spec by (unfold in_range; rewrite ?length_copy_spec; unfold in_range; lia).
  f_equal. rewrite <- (copy_spec_step mem dest src n (4 * (n / 4))) by (unfold in_range; lia).
  f_equal. lia.
Qed.

(** Copying downwards is right when the destination is not above the source's end
    part, i.e. from a lower source, or without overlap. *)
Lemma copy_down_spec n mem dest src :
  (src <= dest \/ dest + n <= src)%nat -> in_range mem dest n -> in_range mem src n ->
  copy_down n mem dest src = Some (copy_spec mem dest src n).
Proof.
  revert mem. induction n as [|n IH]; intros mem Ho Hd Hs.
  { by rewrite copy_spec_0. }
  unfold in_range in *. cbn [copy_down].
  destruct (lookup_lt_is_Some_2 mem (src + n)) as [b Hb]; [lia|].
  unfold load. rewrite Hb, store8_splice by lia.
  assert (Hl : length (splice mem (dest + n) [b]) = length mem) by (apply length_splice; cbn; lia).
  rewrite IH by (unfold in_range; rewrite ?Hl; lia). f_equal.
  apply list_eq. intros i. unfold copy_spec.
  rewrite (lookup_splice (splice _ _ _)) by (rewrite length_take, length_drop, Hl; lia).
  rewrite (lookup_splice mem (dest + n)) by (cbn; lia).
  rewrite (lookup_splice mem dest) by (rewrite length_take, length_drop; lia).
  rewrite !length_take, !length_drop, !Hl.
  repeat case_decide; cbn [length] in *; try lia; try done.
  - rewrite !lookup_take_lt, !lookup_drop by lia.
    rewrite (lookup_splice mem (dest + n) [b]) by (cbn; lia).
    rewrite decide_False by (cbn; lia). done.
  - rewrite lookup_take_lt, lookup_drop by lia.
    replace (i - (dest + n))%nat with 0%nat by lia. cbn. rewrite <- Hb. f_equal. lia.
Qed.

Lemma store_word_spec mem d c :
  in_range mem d 4 ->
  store_word mem d (memset_word c) = Some (set_spec mem d 4 (wrap8 c)).
Proof.
  unfold in_range, store_word, set_spec. intros H.
  rewrite store8_splice, !store8_append by (cbn; lia). cbn [app replicate].
  do 2 f_equal. unfold memset_word, wrap8. destruct (c =? 0) eqn:E; bool_simpl; [by subst|].
  change 255 with (Z.ones 8). rewrite (Z.land_ones c 8) by lia.
  assert (Hc : 0 <= c mod 2 ^ 8 < 256) by (apply Z.mod_pos_bound; lia).
  revert Hc. generalize (c mod 2 ^ 8). intros b Hb.
  assert (forallb (fun i => let b := Z.of_nat i in let w := Z.lor (Z.shiftl b 8) b in
    let w := Z.lor w (wrap32 (Z.shiftl w 16)) in
    bytes_eqb [Z.land w (Z.ones 8); Z.land (Z.shiftr w 8) (Z.ones 8);
      Z.land (Z.shiftr w 16) (Z.ones 8); Z.land (Z.shiftr w 24) (Z.ones 8)] [b; b; b; b])
    (seq 0 256) = true) as Hall by (vm_compute; reflexivity).
  assert (Hi : (Z.to_nat b < 256)%nat) by lia.
  pose proof (forallb_seq _ _ Hall _ Hi) as Hn. cbn beta zeta in Hn.
  rewrite Z2Nat.id in Hn by lia. apply bytes_eqb_true in Hn. exact Hn.
Qed.

(** A filled area extended by the next one. *)
Lemma set_spec_step mem d n k c :
  in_range mem d (n + k) ->
  set_spec (set_spec mem d n c) (d + n) k c = set_spec mem d (n + k) c.
Proof.
  unfold in_range, set_spec. intros H.
  rewrite <- (length_replicate n c) at 2.
  rewrite splice_splice by (rewrite !length_replicate; lia).
  by rewrite <- replicate_add.
Qed.

Lemma length_set_spec mem d n c :
  in_range mem d n -> length (set_spec mem d n c) = length mem.
Proof. intros H. apply length_splice. by rewrite length_replicate. Qed.

Lemma set_bytes_spec n mem d c :
  in_range mem d n -> set_bytes n mem d c = Some (set_spec mem d n c).
Proof.
  unfold in_range. revert mem d. induction n as [|n IH]; intros mem d H.
  { unfold set_spec. cbn. by rewrite splice_nil. }
  cbn [set_bytes]. rewrite store8_splice by lia.
  change (splice mem d [c]) with (set_spec mem d 1 c).
  rewrite IH by (rewrite length_set_spec; unfold in_range; lia).
  by rewrite set_spec_step by (unfold in_range; lia).
Qed.

Lemma set_words_spec k mem d c :
  in_range mem d (4 * k) ->
  set_words k mem d (memset_word c) = Some (set_spec mem d (4 * k) (wrap8 c)).
Proof.
  unfold in_range. revert mem d. induction k as [|k IH]; intros mem d H.
  { unfold set_spec. cbn. by rewrite splice_nil. }
  cbn [set_words]. rewrite store_word_spec by (unfold in_range; lia).
  rewrite IH by (rewrite length_set_spec; unfold in_range; lia).
  rewrite set_spec_step by (unfold in_range; lia). do 2 f_equal. lia.
Qed.

Lemma cstr_app_nonzero s mem : Forall (fun c => c <> 0) s -> cstr (s ++ 0 :: mem) = s.
Proof.
  induction 1 as [|c s Hc _ IH]; cbn; [done|].
  by rewrite (proj2 (Z.eqb_neq _ _)), IH by done.
Qed.

Lemma strcpy_spec s mem d :
  in_range mem d (length s + 1) -> strcpy mem d s = Some (splice mem d (s ++ [0])).
Proof.
  unfold in_range. revert mem d. induction s as [|c s IH]; intros mem d H; cbn in *.
  { by rewrite store8_splice by lia. }
  rewrite store8_splice by lia.
  rewrite IH by (rewrite length_splice; cbn; lia).
  change (d + 1)%nat with (d + length [c])%nat.
  by rewrite splice_splice by (rewrite ?length_app; cbn; lia).
Qed.

(** * Properties *)

(** [memmove] and [memcpy] copy exactly [n] bytes when the areas do not overlap,
    on the word path and on the byte path, and touch nothing else. *)
Theorem memmove_disjoint mem dest src n :
  (dest + n <= src \/ src + n <= dest)%nat -> in_range mem dest n -> in_range mem src n ->
  memmove mem dest src n = Some (copy_spec mem dest src n) /\
  memcpy mem dest src n = Some (copy_spec mem dest src n).
Proof.
  intros Ho Hd Hs. rewrite memcpy_spec by (done || lia). split; [|done].
  unfold memmove. case_test; [apply memcpy_spec|apply copy_down_spec]; done || lia.
Qed.

Lemma memmove_disjoint_witness :
  memmove [1; 2; 3; 4; 5; 0; 0; 0; 0; 0] 5 0 5 = Some [1; 2; 3; 4; 5; 1; 2; 3; 4; 5] /\
  memcpy [1; 2; 3; 4; 5; 0; 0; 0; 0; 0] 5 0 5 = Some [1; 2; 3; 4; 5; 1; 2; 3; 4; 5].
Proof.
  apply (memmove_disjoint [1; 2; 3; 4; 5; 0; 0; 0; 0; 0] 5 0 5); unfold in_range; cbn; lia.
Defined.

(** On overlapping areas [memmove] copies in the wrong direction: to a higher
    address it repeats the first bytes, to a lower one the last. *)
Theorem memmove_overlap_corrupts :
  (memmove [1; 2; 3; 4; 5] 1 0 4 = Some [1; 1; 1; 1; 1] /\
   copy_spec [1; 2; 3; 4; 5] 1 0 4 = [1; 1; 2; 3; 4]) /\
  (memmove [1; 2; 3; 4; 5] 0 1 4 = Some [5; 5; 5; 5; 5] /\
   copy_spec [1; 2; 3; 4; 5] 0 1 4 = [2; 3; 4; 5; 5]).
Proof. by vm_compute. Qed.

(** [memset] fills exactly the [n] bytes of the area with the low byte of [c], by
    words or by bytes; the pointer it returns is the end of the area. *)
Theorem memset_fills mem dest c n :
  in_range mem dest n ->
  memset mem dest c n = Some (set_spec mem dest n (wrap8 c), (dest + n)%nat).
Proof.
  intros H. unfold memset. case_test; [|by rewrite set_bytes_spec].
  pose proof (Nat.div_mod_eq n 4) as Hn. unfold in_range in *.
  rewrite set_words_spec by (unfold in_range; lia).
  rewrite set_bytes_spec by (unfold in_range; rewrite length_set_spec; unfold in_range; lia).
  rewrite set_spec_step by (unfold in_range; lia). rewrite <- Hn. do 2 f_equal. lia.
Qed.

Lemma memset_fills_witness :
  memset (replicate 12 7) 0 511 9 = Some (replicate 9 255 ++ [7; 7; 7], 9%nat).
Proof. apply (memset_fills (replicate 12 7) 0 511 9). unfold in_range. cbn. lia. Defined.

(** [rand] is the minimal-standard generator: it returns [16807 * seed] modulo
    [2^31 - 1] without an intermediate value that leaves 32 bits, and the seed never
    becomes zero. *)
Theorem rand_minstd seed :
  0 < seed < 2147483647 ->
  rand seed = (16807 * seed) mod 2147483647 /\ 0 < rand seed < 2147483647 /\
  - 2 ^ 31 <= 16807 * Z.rem seed 127773 - 2836 * Z.quot seed 127773 < 2 ^ 31.
Proof.
  intros H. unfold rand.
  rewrite Z.quot_div_nonneg, Z.rem_mod_nonneg by lia.
  pose proof (Z.div_mod seed 127773 ltac:(discriminate)) as Hd.
  pose proof (Z.mod_pos_bound seed 127773 eq_refl) as Hm.
  revert Hd Hm. generalize (seed / 127773) (seed mod 127773). intros hi lo Hd Hm.
  assert (0 <= hi <= 16807) by lia.
  assert (Ht : 16807 * seed = 2147483647 * hi + (16807 * lo - 2836 * hi)) by lia.
  assert (16807 * lo - 2836 * hi <> 0).
  { intros Hz. assert (2836 * hi = 16807 * lo) by lia.
    assert ((16807 | 2836 * hi)) as Hdiv by (exists lo; lia).
    apply Z.gauss in Hdiv; [|reflexivity]. destruct Hdiv as [q Hq]. lia. }
  case_test; (split; [|split; lia]); rewrite Ht;
    [apply (Z.mod_unique_pos _ _ (hi - 1)) | apply (Z.mod_unique_pos _ _ hi)]; lia.
Qed.

Lemma rand_minstd_witness : rand 1 = 16807 /\ 0 < rand 1.
Proof. destruct (rand_minstd 1) as (H & Hr & _); [lia|]. split; [exact H|lia]. Defined.

(** [strcat] leaves the concatenation of the two strings in the destination. *)
Theorem strcat_appends mem d s :
  is_cstr s -> in_range mem d (length (cstr (drop d mem)) + length s + 1) ->
  exists mem', strcat mem d s = Some mem' /\ length mem' = length mem /\
    take d mem' = take d mem /\ cstr (drop d mem') = cstr (drop d mem) ++ s.
Proof.
  unfold in_range, strcat. intros Hs H. set (t := cstr (drop d mem)) in *.
  rewrite strcpy_spec by (unfold in_range; lia). eexists. split; [done|].
  split; [apply length_splice; rewrite length_app; cbn; lia|].
  unfold splice.
  assert (Ht : take (d + length t) mem = take d mem ++ t).
  { replace (take d mem ++ t) with (take d mem ++ take (length t) (drop d mem)).
    - by rewrite take_take_drop.
    - f_equal. unfold t. generalize (drop d mem). intros m. induction m as [|x m IH]; [done|].
      cbn. case_test; [done|]. cbn. by rewrite IH. }
  rewrite Ht, <- !app_assoc.
  assert (length (take d mem) = d) as Hl by (rewrite length_take; lia). split.
  - by rewrite take_app_le, take_ge by lia.
  - rewrite <- Hl at 1. rewrite drop_app_length, (app_assoc t s). cbn [app].
    rewrite cstr_app_nonzero; [done|]. apply Forall_app. split; [apply cstr_nonzero|].
    eapply Forall_impl; [exact Hs|]. intros x [Hx _]. lia.
Qed.

Lemma strcat_appends_witness :
  exists mem', strcat [9; 97; 0; 0; 0; 0] 1 [98; 99] = Some mem' /\
    cstr (drop 1 mem') = [97; 98; 99].
Proof.
  destruct (strcat_appends [9; 97; 0; 0; 0; 0] 1 [98; 99]) as (m & H & _ & _ & Hc).
  - repeat constructor.
  - unfold in_range. cbn. lia.
  - exists m. split; [exact H|exact Hc].
Defined.
