(* ===== verification/CString.v ===== *)
(** C strings and number parsing.

    The character classes, [bcm_strtoul] and its clients, and the string search
    routines of shared/bcmutils.c, with the comparison and search routines of
    shared/bcmstdlib.c they rest on.  A string is the list of its bytes before
    the NUL; a [char *] into a string is a suffix of it. *)

From S2P Require Import Prelude.
From Stdlib Require Import ZArith Lia Bool List String Ascii.
From stdpp Require Import base numbers list gmap.

#[local] Open Scope Z_scope.

(** * Character classes (bcmutils.h, bcmutils.c) *)

Definition BCM_U := 0x01.   (* upper *)
Definition BCM_L := 0x02.   (* lower *)
Definition BCM_D := 0x04.   (* digit *)
Definition BCM_C := 0x08.   (* cntrl *)
Definition BCM_P := 0x10.   (* punct *)
Definition BCM_S := 0x20.   (* white space *)
Definition BCM_X := 0x40.   (* hex digit *)
Definition BCM_SP := 0x80.  (* hard space *)

Definition bcm_ctype : list Z :=
  [8; 8; 8; 8; 8; 8; 8; 8; 8; 40; 40; 40; 40; 40; 8; 8;
   8; 8; 8; 8; 8; 8; 8; 8; 8; 8; 8; 8; 8; 8; 8; 8;
   160; 16; 16; 16; 16; 16; 16; 16; 16; 16; 16; 16; 16; 16; 16; 16;
   4; 4; 4; 4; 4; 4; 4; 4; 4; 4; 16; 16; 16; 16; 16; 16;
   16; 65; 65; 65; 65; 65; 65; 1; 1; 1; 1; 1; 1; 1; 1; 1;
   1; 1; 1; 1; 1; 1; 1; 1; 1; 1; 1; 16; 16; 16; 16; 16;
   16; 66; 66; 66; 66; 66; 66; 2; 2; 2; 2; 2; 2; 2; 2; 2;
   2; 2; 2; 2; 2; 2; 2; 2; 2; 2; 2; 16; 16; 16; 16; 8;
   0; 0; 0; 0; 0; 0; 0; 0; 0; 0; 0; 0; 0; 0; 0; 0;
   0; 0; 0; 0; 0; 0; 0; 0; 0; 0; 0; 0; 0; 0; 0; 0;
   160; 16; 16; 16; 16; 16; 16; 16; 16; 16; 16; 16; 16; 16; 16; 16;
   16; 16; 16; 16; 16; 16; 16; 16; 16; 16; 16; 16; 16; 16; 16; 16;
   1; 1; 1; 1; 1; 1; 1; 1; 1; 1; 1; 1; 1; 1; 1; 1;
   1; 1; 1; 1; 1; 1; 1; 16; 1; 1; 1; 1; 1; 1; 1; 2;
   2; 2; 2; 2; 2; 2; 2; 2; 2; 2; 2; 2; 2; 2; 2; 2;
   2; 2; 2; 2; 2; 2; 2; 16; 2; 2; 2; 2; 2; 2; 2; 2].

Definition bcm_ismask (x : Z) : Z := nth (Z.to_nat (wrap8 x)) bcm_ctype 0.
Definition bcm_isalpha (c : Z) : bool := truthy (Z.land (bcm_ismask c) (Z.lor BCM_U BCM_L)).
Definition bcm_isdigit (c : Z) : bool := truthy (Z.land (bcm_ismask c) BCM_D).
Definition bcm_islower (c : Z) : bool := truthy (Z.land (bcm_ismask c) BCM_L).
Definition bcm_isspace (c : Z) : bool := truthy (Z.land (bcm_ismask c) BCM_S).
Definition bcm_isupper (c : Z) : bool := truthy (Z.land (bcm_ismask c) BCM_U).
Definition bcm_isxdigit (c : Z) : bool := truthy (Z.land (bcm_ismask c) (Z.lor BCM_D BCM_X)).
Definition bcm_tolower (c : Z) : Z := if bcm_isupper c then c + ch "a" - ch "A" else c.
Definition bcm_toupper (c : Z) : Z := if bcm_islower c then c + ch "A" - ch "a" else c.

(** * The string routines of bcmstdlib.c *)

Fixpoint strlen (s : bytes) : Z :=
  match s with [] => 0 | _ :: t => 1 + strlen t end.

Fixpoint strcmp (s1 s2 : bytes) : Z :=
  match s1, s2 with
  | a :: t1, b :: t2 =>
      if schar a <? schar b then -1
      else if schar b <? schar a then 1
      else strcmp t1 t2
  | _ :: _, [] => 1
  | [], _ :: _ => -1
  | [], [] => 0
  end.

Fixpoint strncmp (s1 s2 : bytes) (n : nat) {struct n} : Z :=
  match n with
  | O => 0
  | S n =>
      match s1, s2 with
      | a :: t1, b :: t2 =>
          if schar a <? schar b then -1
          else if schar b <? schar a then 1
          else strncmp t1 t2 n
      | _ :: _, [] => 1
      | [], _ :: _ => -1
      | [], [] => 0
      end
  end.

Fixpoint strchr (s : bytes) (c : Z) : option bytes :=
  match s with
  | [] => if c =? 0 then Some [] else None
  | x :: t => if x =? c then Some s else strchr t c
  end.

Fixpoint strrchr_loop (s : bytes) (c : Z) (save : option bytes) : option bytes :=
  let save := if deref s =? c then Some s else save in
  match s with
  | [] => save
  | _ :: t => strrchr_loop t c save
  end.
Definition strrchr (s : bytes) (c : Z) : option bytes := strrchr_loop s c None.

(** [index] is [strchr] under its BSD name; [strspn] and [strcspn] count with it. *)
Fixpoint index (s : bytes) (c : Z) : option bytes :=
  match s with
  | [] => if 0 =? c then Some [] else None
  | x :: t => if negb (x =? c) then index t c else Some s
  end.

Fixpoint strspn (s accept : bytes) : Z :=
  match s with
  | c :: t => if bool_decide (is_Some (index accept c)) then 1 + strspn t accept else 0
  | [] => 0
  end.

Fixpoint strcspn (s reject : bytes) : Z :=
  match s with
  | c :: t => if bool_decide (is_Some (index reject c)) then 0 else 1 + strcspn t reject
  | [] => 0
  end.

Fixpoint strstr (s substr : bytes) : option bytes :=
  match s with
  | [] => None
  | _ :: t => if strncmp s substr (Z.to_nat (strlen substr)) =? 0 then Some s
              else strstr t substr
  end.

(** * Number parsing *)

Fixpoint skip_space (cp : bytes) : bytes :=
  match cp with
  | c :: t => if bcm_isspace c then skip_space t else cp
  | [] => []
  end.

(** [value], as [bcm_strtoul] computes it for a hexadecimal digit. *)
Definition digit_value (c : Z) : Z :=
  if bcm_isdigit c then c - ch "0" else bcm_toupper c - ch "A" + 10.

Fixpoint strtoul_digits (base result : Z) (cp : bytes) : Z * bytes :=
  match cp with
  | c :: t =>
      if bcm_isxdigit c && (digit_value c <? base)
      then strtoul_digits base (wrap32 (result * base + digit_value c)) t
      else (result, cp)
  | [] => (result, [])
  end.

Definition is_x (c : Z) : bool := (c =? ch "x") || (c =? ch "X").

Definition strtoul_sign (cp : bytes) : bool * bytes :=
  if deref cp =? ch "+" then (false, drop 1 cp)
  else if deref cp =? ch "-" then (true, drop 1 cp)
  else (false, cp).

Definition strtoul_base (base : Z) (cp : bytes) : Z * bytes :=
  if base =? 0 then
    if deref cp =? ch "0" then
      if is_x (at_ cp 1) then (16, drop 2 cp) else (8, drop 1 cp)
    else (10, cp)
  else if (base =? 16) && (deref cp =? ch "0") && is_x (at_ cp 1)
  then (base, drop 2 cp)
  else (base, cp).

(** The value parsed and the position [*endp]. *)
Definition bcm_strtoul (cp : bytes) (base : Z) : Z * bytes :=
  let cp := skip_space cp in
  let '(minus, cp) := strtoul_sign cp in
  let '(base, cp) := strtoul_base base cp in
  let '(result, cp) := strtoul_digits base 0 cp in
  ((if minus : bool then wrap32 (result * -1) else result), cp).

Definition bcm_atoi (s : bytes) : Z := sint32 (bcm_strtoul s 10).1.

(** * Clients in bcmutils.c *)

(** [haystack], [needle]: [None] is a NULL pointer. *)
Fixpoint bcmstrstr_loop (i : nat) (haystack needle : bytes) : option bytes :=
  match i with
  | O => None
  | S i =>
      if bytes_eqb needle (take (length needle) haystack) then Some haystack
      else bcmstrstr_loop i (drop 1 haystack) needle
  end.

Definition bcmstrstr (haystack needle : option bytes) : option bytes :=
  match haystack, needle with
  | Some h, Some n => bcmstrstr_loop (Z.to_nat (strlen h - strlen n + 1)) h n
  | _, _ => haystack
  end.

(** The loop of [bcm_ether_atoe]: [i] octets are stored in [ea] already; the
    octets and the final [i]. *)
Fixpoint ether_atoe_loop (fuel : nat) (p : bytes) (ea : bytes) : bytes :=
  match fuel with
  | O => ea
  | S fuel =>
      let '(v, p) := bcm_strtoul p 16 in
      let ea := ea ++ [wrap8 v] in
      if (deref p =? 0) || (Nat.eqb (length ea) 6) then ea
      else ether_atoe_loop fuel (drop 1 p) ea
  end.

Definition bcm_ether_atoe (p : bytes) : bool * bytes :=
  let ea := ether_atoe_loop 6 p [] in (Nat.eqb (length ea) 6, ea).

(** Search for a token in a comma separated token string. *)
Fixpoint findmatch_loop (fuel : nat) (string name : bytes) : bool :=
  match fuel with
  | O => false
  | S fuel =>
      match strchr string (ch ",") with
      | Some c =>
          if (strlen name =? strlen string - strlen c)
             && (strncmp string name (Z.to_nat (strlen name)) =? 0)
          then true
          else findmatch_loop fuel (drop 1 c) name
      | None => strcmp string name =? 0
      end
  end.
Definition findmatch (string name : bytes) : bool :=
  findmatch_loop (S (length string)) string name.

(** * Specification vocabulary *)

(** The tokens of a separated list. *)
Fixpoint split_on (c : Z) (s : bytes) : list bytes :=
  match s with
  | [] => [[]]
  | x :: t =>
      if x =? c then [] :: split_on c t
      else match split_on c t with
           | tok :: toks => (x :: tok) :: toks
           | [] => [[x]]
           end
  end.

(** The value of a digit string, before any wrap-around. *)
Definition horner (base r : Z) (ds : bytes) : Z :=
  fold_left (fun r c => r * base + digit_value c) ds r.

Definition is_digit (base c : Z) : Prop :=
  bcm_isxdigit c = true /\ 0 <= digit_value c < base.

(** A character at which [bcm_strtoul] stops. *)
Definition stops (base : Z) (rest : bytes) : Prop :=
  bcm_isxdigit (deref rest) && (digit_value (deref rest) <? base) = false.

(** * Comparison and search *)

Lemma schar_inj a b : byte_ok a -> byte_ok b -> schar a = schar b -> a = b.
Proof. unfold byte_ok, schar. repeat case_test; lia. Qed.

Lemma char_byte_ok c : char_ok c -> byte_ok c.
Proof. unfold char_ok, byte_ok. lia. Qed.

Lemma cstr_bytes s : is_cstr s -> Forall byte_ok s.
Proof. intros H. eapply Forall_impl; [exact H|apply char_byte_ok]. Qed.

#[export] Hint Resolve char_byte_ok cstr_bytes : mach.

Lemma strlen_length s : strlen s = Z.of_nat (length s).
Proof. induction s; cbn [strlen length]; lia. Qed.

#[export] Hint Rewrite strlen_length : mach_rw.

Lemma strcmp_refl s : strcmp s s = 0.
Proof. induction s as [|a s IH]; cbn; [done|]. by rewrite Z.ltb_irrefl. Qed.

Lemma strcmp_eq a b :
  Forall byte_ok a -> Forall byte_ok b -> strcmp a b = 0 <-> a = b.
Proof.
  intros Ha Hb. split; [|intros ->; apply strcmp_refl].
  revert b Hb. induction Ha as [|x a Hx Ha IH]; intros [|y b] Hb H; cbn in H;
    try done. inversion_clear Hb as [|? ? Hy Hb'].
  destruct (schar x <? schar y) eqn:E1, (schar y <? schar x) eqn:E2; bool_simpl; try done.
  f_equal; [apply schar_inj; auto; lia | auto].
Qed.

Lemma strncmp_take a b n :
  Forall byte_ok a -> Forall byte_ok b ->
  strncmp a b n = 0 <-> take n a = take n b.
Proof.
  intros Ha. revert a Ha b. induction n as [|n IH]; [done|].
  intros a Ha b Hb. destruct Ha as [|x a Hx Ha], Hb as [|y b Hy Hb];
    cbn; try (split; intros; done).
  destruct (schar x <? schar y) eqn:E1; bool_simpl.
  { split; [lia|]. intros [= <- _]. lia. }
  destruct (schar y <? schar x) eqn:E2; bool_simpl.
  { split; [lia|]. intros [= <- _]. lia. }
  rewrite IH by done. assert (x = y) as -> by (apply schar_inj; auto; lia).
  split; [by intros ->|by intros [=]].
Qed.

(** [strcmp] is antisymmetric and transitive in its sign, so a total order. *)
Lemma strcmp_antisym a b : strcmp b a = - strcmp a b.
Proof.
  revert b. induction a as [|x a IH]; intros [|y b]; cbn; try done.
  destruct (schar x <? schar y) eqn:E1, (schar y <? schar x) eqn:E2; bool_simpl;
    try lia. apply IH.
Qed.

Lemma strcmp_range a b : strcmp a b = -1 \/ strcmp a b = 0 \/ strcmp a b = 1.
Proof.
  revert b. induction a as [|x a IH]; intros [|y b]; cbn; auto. repeat case_test; auto.
Qed.

Lemma strcmp_trans a b c :
  strcmp a b <= 0 -> strcmp b c <= 0 -> strcmp a c <= 0.
Proof.
  revert b c. induction a as [|x a IH]; intros [|y b] [|z c]; cbn; try lia.
  repeat case_test; try lia; intros; eauto.
Qed.

(** [strchr] finds the first occurrence. *)
Lemma strchr_Some s c r :
  c <> 0 -> strchr s c = Some r ->
  exists p, s = p ++ r /\ (c ∉ p) /\ deref r = c /\ r <> [].
Proof.
  intros Hc. induction s as [|x s IH]; cbn.
  { case_test; [done|discriminate]. }
  case_test.
  - intros [= <-]. exists []. repeat split; [set_solver|done..].
  - intros (p & -> & Hp & Hd & Hr)%IH. exists (x :: p). repeat split; auto.
    set_solver.
Qed.

Lemma strchr_None s c : c <> 0 -> strchr s c = None <-> c ∉ s.
Proof.
  intros Hc. induction s as [|x s IH]; cbn.
  - case_test; [done|]. split; [set_solver|done].
  - case_test; [subst; split; [done|set_solver]|]. rewrite IH. set_solver.
Qed.

Lemma strchr_app p r c :
  c ∉ p -> deref r = c -> c <> 0 -> strchr (p ++ r) c = Some r.
Proof.
  intros Hp Hr Hc. induction p as [|x p IH]; cbn.
  - destruct r as [|y r]; cbn in *; [congruence|]. by rewrite Hr, Z.eqb_refl.
  - apply not_elem_of_cons in Hp as [? Hp].
    rewrite (proj2 (Z.eqb_neq x c)) by congruence. auto.
Qed.

(** ** Tokens of a comma separated list *)

Lemma split_on_app c p r :
  c ∉ p -> split_on c (p ++ c :: r) = p :: split_on c r.
Proof.
  intros Hp. induction p as [|x p IH]; cbn.
  - by rewrite Z.eqb_refl.
  - apply not_elem_of_cons in Hp as [? Hp].
    rewrite (proj2 (Z.eqb_neq x c)) by congruence. by rewrite IH.
Qed.

Lemma split_on_none c s : c ∉ s -> split_on c s = [s].
Proof.
  intros Hs. induction s as [|x s IH]; cbn; [done|].
  apply not_elem_of_cons in Hs as [? Hs].
  rewrite (proj2 (Z.eqb_neq x c)) by congruence. by rewrite IH.
Qed.

Lemma findmatch_loop_spec fuel s name :
  (length s < fuel)%nat -> is_cstr s -> is_cstr name ->
  findmatch_loop fuel s name = true <-> name ∈ split_on (ch ",") s.
Proof.
  revert s. induction fuel as [|fuel IH]; intros s Hf Hs Hn; [lia|].
  cbn [findmatch_loop]. destruct (strchr s (ch ",")) as [r|] eqn:E.
  - apply strchr_Some in E as (p & -> & Hp & Hd & Hr); [|done].
    destruct r as [|x r]; [done|]. cbn in Hd; subst x.
    apply Forall_app in Hs as [Hsp Hsr]. inversion_clear Hsr as [|? ? Hc Hr'].
    rewrite split_on_app by done. rewrite length_app in Hf. cbn in Hf.
    rewrite elem_of_cons, <- (IH r) by (auto; lia). cbn [drop]. rewrite drop_0.
    case_test.
    + assert (name = p) as ->; [|tauto]. autorewrite with mach_rw in *.
      assert (length name = length p) as Hl.
      { rewrite length_app in *. cbn in *. lia. }
      match goal with H : strncmp _ _ _ = 0 |- _ => apply strncmp_take in H end;
        [|apply Forall_app; split; [|constructor]; auto with mach..|auto with mach].
      rewrite Nat2Z.id in *. rewrite (take_ge name) in * by done.
      rewrite Hl, take_app_length in *. done.
    + split; [auto|]. intros [-> |?]; [|done]. exfalso.
      autorewrite with mach_rw in E. rewrite length_app, Nat2Z.id in E.
      rewrite (proj2 (Z.eqb_eq _ _)) in E by (cbn; lia).
      cbn [andb] in E. bool_simpl. apply E, strncmp_take; [|auto with mach|].
      { apply Forall_app; split; [|constructor]; auto with mach. }
      by rewrite take_app_length, take_ge.
  - apply strchr_None in E; [|done]. rewrite split_on_none by done.
    rewrite list_elem_of_singleton, Z.eqb_eq, strcmp_eq by auto with mach. naive_solver.
Qed.

Lemma findmatch_spec s name :
  is_cstr s -> is_cstr name -> findmatch s name = true <-> name ∈ split_on (ch ",") s.
Proof. apply findmatch_loop_spec. lia. Qed.

(** ** Substring search *)

Lemma bcmstrstr_loop_spec i h n :
  match bcmstrstr_loop i h n with
  | Some r => exists k, (k < i)%nat /\ r = drop k h /\ take (length n) r = n /\
                forall j, (j < k)%nat -> take (length n) (drop j h) <> n
  | None => forall j, (j < i)%nat -> take (length n) (drop j h) <> n
  end.
Proof.
  revert h. induction i as [|i IH]; intros h; cbn; [lia|].
  case_test.
  - exists 0%nat. repeat split; [lia|done|lia].
  - specialize (IH (drop 1 h)). destruct (bcmstrstr_loop i (drop 1 h) n) as [r|].
    + destruct IH as (k & ? & -> & ? & IH). exists (S k).
      rewrite drop_drop in *. repeat split; [lia|done|].
      intros [|j] ?; [rewrite drop_0; congruence|]. change (S j) with (1 + j)%nat. rewrite <- drop_drop. apply IH. lia.
    + intros [|j] ?; [rewrite drop_0; congruence|]. change (S j) with (1 + j)%nat. rewrite <- drop_drop. apply IH. lia.
Qed.

(** * Numbers *)

Lemma strtoul_digits_app base r ds rest :
  Forall (is_digit base) ds ->
  strtoul_digits base (wrap32 r) (ds ++ rest) =
  strtoul_digits base (wrap32 (horner base r ds)) rest.
Proof.
  intros H. revert r. induction H as [|c ds [Hx Hc] H IH]; intros r; [done|].
  cbn [app strtoul_digits]. rewrite Hx, (proj2 (Z.ltb_lt _ _)) by lia. cbn [andb].
  autorewrite with mach_rw. apply IH.
Qed.

Lemma strtoul_digits_stop base r rest :
  stops base rest -> strtoul_digits base r rest = (r, rest).
Proof. destruct rest as [|c rest]; [done|]. unfold stops. cbn. by intros ->. Qed.

Lemma strtoul_digits_spec base ds rest :
  Forall (is_digit base) ds -> stops base rest ->
  strtoul_digits base 0 (ds ++ rest) = (wrap32 (horner base 0 ds), rest).
Proof.
  intros Hd Hs. change 0 with (wrap32 0) at 1. rewrite strtoul_digits_app by done.
  by apply strtoul_digits_stop.
Qed.

(** The hexadecimal digits, as a finite table. *)
Lemma isxdigit_char c :
  bcm_isxdigit c = true -> 0 <= c < 256 ->
  bcm_isspace c = false /\ c <> ch "+" /\ c <> ch "-" /\ is_x c = false /\ 0 < c.
Proof.
  intros Hx Hc.
  assert (Hall : forall z, 0 <= z < 256 ->
    implb (bcm_isxdigit z) (negb (bcm_isspace z) && negb (z =? ch "+")
      && negb (z =? ch "-") && negb (is_x z) && (0 <? z)) = true).
  { apply (forallb_Z_below _ 256). by vm_compute. }
  specialize (Hall c Hc). rewrite Hx in Hall. cbn [implb] in Hall. bool_simpl.
  done.
Qed.

(** Parsing an unsigned digit string in a given base other than 0: an optional
    0x prefix of base 16 cannot arise from digits alone. *)
Lemma bcm_strtoul_digits base ds rest :
  base <> 0 -> ds <> [] -> Forall (is_digit base) ds -> Forall byte_ok ds ->
  is_x (deref rest) = false -> stops base rest ->
  bcm_strtoul (ds ++ rest) base = (wrap32 (horner base 0 ds), rest).
Proof.
  intros Hb Hne Hd Hok Hx Hs. pose proof Hd as Hall. destruct ds as [|c ds]; [done|].
  inversion_clear Hd as [|? ? [Hc ?] Hd']. inversion_clear Hok as [|? ? Hcb Hok'].
  apply isxdigit_char in Hc as (Hsp & Hp & Hm & Hxc & ?); [|done].
  unfold bcm_strtoul. cbn [app skip_space]. rewrite Hsp. unfold strtoul_sign. cbn [deref hd].
  rewrite (proj2 (Z.eqb_neq _ _) Hp), (proj2 (Z.eqb_neq _ _) Hm).
  unfold strtoul_base. rewrite (proj2 (Z.eqb_neq _ _) Hb).
  assert (is_x (at_ (c :: ds ++ rest) 1) = false) as ->.
  { destruct ds as [|d ds]; cbn.
    - destruct rest; [done|exact Hx].
    - inversion_clear Hd' as [|? ? [Hdx ?] ?]. inversion_clear Hok'.
      by apply isxdigit_char in Hdx as (_ & _ & _ & ? & _). }
  rewrite andb_false_r. change (c :: ds ++ rest) with ((c :: ds) ++ rest).
  by rewrite strtoul_digits_spec.
Qed.

(** The value is an unsigned long. *)
Lemma strtoul_digits_range base r cp :
  0 <= r < 2 ^ 32 -> 0 <= (strtoul_digits base r cp).1 < 2 ^ 32.
Proof.
  revert r. induction cp as [|c cp IH]; intros r Hr; cbn [strtoul_digits]; [done|].
  case_test; [apply IH, wrap32_range|done].
Qed.

Lemma bcm_strtoul_range cp base : 0 <= (bcm_strtoul cp base).1 < 2 ^ 32.
Proof.
  unfold bcm_strtoul. destruct (strtoul_sign (skip_space cp)) as [minus cp1].
  destruct (strtoul_base base cp1) as [b cp2].
  pose proof (strtoul_digits_range b 0 cp2) as H. destruct (strtoul_digits b 0 cp2) as [r cp3].
  cbn [fst] in *. destruct minus; [apply wrap32_range|]. apply H. lia.
Qed.

(** * Properties *)

(** [strcmp] is a total order on strings: 0 exactly on equal strings, antisymmetric
    and transitive, with the results -1, 0 and 1 only. *)
Theorem strcmp_total_order a b c :
  is_cstr a -> is_cstr b ->
  (strcmp a b = 0 <-> a = b) /\ strcmp b a = - strcmp a b /\
  (strcmp a b <= 0 -> strcmp b c <= 0 -> strcmp a c <= 0) /\
  (strcmp a b = -1 \/ strcmp a b = 0 \/ strcmp a b = 1).
Proof.
  intros Ha Hb. split; [apply strcmp_eq; auto with mach|].
  split; [apply strcmp_antisym|]. split; [apply strcmp_trans|apply strcmp_range].
Qed.

Lemma strcmp_total_order_witness :
  strcmp (str "abc") (str "abd") = -1 /\ strcmp (str "abd") (str "abc") = 1 /\
  (strcmp (str "abc") (str "abd") = 0 <-> str "abc" = str "abd").
Proof.
  destruct (strcmp_total_order (str "abc") (str "abd") []) as (H & Ha & _).
  - repeat constructor.
  - repeat constructor.
  - split; [reflexivity|]. split; [exact Ha|exact H].
Defined.

(** [findmatch] finds a name in a comma separated list exactly when the name is one
    of the tokens between the commas, never when it is only a prefix or a part of
    one. *)
Theorem findmatch_tokens string name :
  is_cstr string -> is_cstr name ->
  findmatch string name = bool_decide (name ∈ split_on (ch ",") string).
Proof.
  intros Hs Hn. apply eq_true_iff_eq. rewrite bool_decide_eq_true.
  by apply findmatch_spec.
Qed.

Lemma findmatch_tokens_witness :
  findmatch (str "wl0,eth10,eth1") (str "eth1") = true /\
  findmatch (str "wl0,eth10") (str "eth1") = false.
Proof.
  split; rewrite findmatch_tokens by (repeat constructor); by vm_compute.
Defined.

(** [bcmstrstr] returns the first place where the needle occurs and [NULL] when there
    is none; an empty needle is found at the start. *)
Theorem bcmstrstr_first haystack needle :
  match bcmstrstr (Some haystack) (Some needle) with
  | Some r => exists k, r = drop k haystack /\ take (length needle) r = needle /\
                forall j, (j < k)%nat -> take (length needle) (drop j haystack) <> needle
  | None => forall k, take (length needle) (drop k haystack) <> needle
  end.
Proof.
  cbn [bcmstrstr]. pose proof (bcmstrstr_loop_spec
    (Z.to_nat (strlen haystack - strlen needle + 1)) haystack needle) as H.
  destruct (bcmstrstr_loop _ _ _) as [r|].
  - destruct H as (k & _ & H). by exists k.
  - intros k Hk. apply (H k); [|done]. rewrite !strlen_length.
    pose proof (f_equal length Hk) as Hl. rewrite length_take, length_drop in Hl.
    destruct needle as [|x needle]; [|cbn [length] in *; lia].
    exfalso. apply (H 0%nat); [rewrite !strlen_length; cbn [length]; lia|done].
Qed.
