(* ===== verification/Format.v ===== *)
(** Formatted output: [vsnprintf] and its helper [__atox] of shared/bcmstdlib.c,
    and the string buffers ([bcm_binit], [bcm_bprintf]), [bcm_ether_ntoa] and
    [bcm_mkiovar] of shared/bcmutils.c built on them.

    A destination buffer is the list of the bytes of the object [buf] points
    into; a write outside it is [None].  The output pointer [optr] and [end] are
    32-bit addresses, and [optr] wraps at 2^32 as it does on the machine. *)

From S2P Require Import Prelude CString.
From Stdlib Require Import ZArith Lia Bool List String Ascii.
From stdpp Require Import base numbers list gmap.

#[local] Open Scope Z_scope.

(** A variadic argument; [VStr None] is a NULL string. *)
Inductive va_arg :=
| VInt (z : Z)
| VStr (s : option bytes).

Definition digits : bytes := str "0123456789ABCDEF".
Definition ldigits : bytes := str "0123456789abcdef".

(** The do-while loop of [__atox]: [buffer], least significant digit first.
    32 iterations are enough for a 32-bit [num] in any radix from 2. *)
Fixpoint atox_digits (fuel : nat) (num radix : Z) (digits : bytes) : bytes :=
  match fuel with
  | O => []
  | S fuel =>
      let d := nth (Z.to_nat (num mod radix)) digits 0 in
      let num := num / radix in
      if num =? 0 then [d] else d :: atox_digits fuel num radix digits
  end.

(** The characters [__atox] stores through [buf]; [None] when the padding runs
    past its 16-byte [buffer]. *)
Definition atox (num radix width : Z) (digits : bytes) : option bytes :=
  let op := atox_digits 32 num radix digits in
  let retval := Z.of_nat (length op) in
  let op := if truthy width && (retval <? width)
            then op ++ repeat (ch "0") (Z.to_nat (width - retval)) else op in
  assert! (length op <=? 16)%nat in Some (rev op).

(** The digit run of a width or a precision, an int that wraps. *)
Fixpoint scan_width (width : Z) (iptr : bytes) : Z * bytes :=
  match iptr with
  | c :: t =>
      if bcm_isdigit c then
        let width := sint32 (width + (c - ch "0")) in
        let width := if bcm_isdigit (deref t) then sint32 (width * 10) else width in
        scan_width width t
      else (width, iptr)
  | [] => (width, [])
  end.

Definition skip_char (c : Z) (iptr : bytes) : bytes :=
  if deref iptr =? c then drop 1 iptr else iptr.

(** The optional precision: [width2] keeps its old value when there is none. *)
Definition scan_precision (width2 : Z) (iptr : bytes) : Z * bytes :=
  if deref iptr =? ch "." then scan_width 0 (drop 1 iptr) else (width2, iptr).

(** A directive without its '%': the characters it emits, the new [width2], the
    rest of the format and the rest of the arguments.  The loops of "%s" count an
    int down to 0, so a negative width is 2^32 more.  [None] for a missing or
    ill-typed argument, an overflow of [__atox]'s buffer, or a format that ends
    inside the directive. *)
Definition directive (iptr : bytes) (ap : list va_arg) (width2 : Z)
  : option (bytes * Z * bytes * list va_arg) :=
  let iptr := skip_char (ch "-") (skip_char (ch "#") iptr) in
  let '(width, iptr) := scan_width 0 iptr in
  let '(width2, iptr) := scan_precision width2 iptr in
  let iptr := skip_char (ch "l") iptr in
  match iptr with
  | [] => None
  | c :: rest =>
      if c =? ch "s" then
        match ap with
        | VStr s :: ap =>
            let tmpptr := default (str "(null)") s in
            if (width =? 0) && (width2 =? 0) then Some (tmpptr, width2, rest, ap)
            else
              let width := Z.to_nat (wrap32 width) in
              Some (take width tmpptr ++ repeat (ch " ") (width - length tmpptr),
                    width2, rest, ap)
        | _ => None
        end
      else if (c =? ch "d") || (c =? ch "i") then
        match ap with
        | VInt i :: ap =>
            let i := sint32 i in
            let? out := atox (wrap32 (Z.abs i)) 10 width digits in
            Some ((if i <? 0 then [ch "-"] else []) ++ out, width2, rest, ap)
        | _ => None
        end
      else if c =? ch "u" then
        match ap with
        | VInt x :: ap =>
            let? out := atox (wrap32 x) 10 width digits in
            Some (out, width2, rest, ap)
        | _ => None
        end
      else if (c =? ch "X") || (c =? ch "x") then
        match ap with
        | VInt x :: ap =>
            let? out := atox (wrap32 x) 16 width (if c =? ch "X" then digits else ldigits) in
            Some (out, width2, rest, ap)
        | _ => None
        end
      else if (c =? ch "p") || (c =? ch "P") then
        match ap with
        | VInt x :: ap =>
            let? out := atox (wrap32 x) 16 8 (if c =? ch "P" then digits else ldigits) in
            Some (out, width2, rest, ap)
        | _ => None
        end
      else if c =? ch "c" then
        match ap with
        | VInt x :: ap => Some ([wrap8 x], width2, rest, ap)
        | _ => None
        end
      else Some ([c], width2, rest, ap)
  end.

(** [*p = c] at an offset of the destination object. *)
Definition store (buf : bytes) (off c : Z) : option bytes :=
  assert! (0 <=? off) && (off <? Z.of_nat (length buf)) in
  Some (<[Z.to_nat off := c]> buf).

(** [if (optr <= end) *optr = c; ++optr;], where the object is at address [base]. *)
Definition put (base end_ : Z) (st : Z * bytes) (c : Z) : option (Z * bytes) :=
  let '(optr, buf) := st in
  if optr <=? end_ then
    let? buf := store buf (optr - base) c in Some (wrap32 (optr + 1), buf)
  else Some (wrap32 (optr + 1), buf).

Fixpoint puts_ (base end_ : Z) (st : Z * bytes) (s : bytes) : option (Z * bytes) :=
  match s with
  | [] => Some st
  | c :: s => let? st := put base end_ st c in puts_ base end_ st s
  end.

(** The main loop; every iteration consumes a character of the format, so
    [S (length fmt)] is enough fuel. *)
Fixpoint vsnprintf_loop (fuel : nat) (base end_ : Z) (iptr : bytes) (ap : list va_arg)
    (width2 : Z) (st : Z * bytes) : option (Z * bytes) :=
  match fuel with
  | O => None
  | S fuel =>
      match iptr with
      | [] => Some st
      | c :: t =>
          if negb (c =? ch "%") then
            let? st := put base end_ st c in vsnprintf_loop fuel base end_ t ap width2 st
          else
            let? (out, width2, iptr, ap) := directive t ap width2 in
            let? st := puts_ base end_ st out in
            vsnprintf_loop fuel base end_ iptr ap width2 st
      end
  end.

(** [end]: [buf + size - 1], or the top of the address space when that sum wraps. *)
Definition vsnprintf_end (addr size : Z) : Z :=
  let e := wrap32 (addr + size - 1) in
  if e <? wrap32 (addr - 1) then 2 ^ 32 - 1 else e.

(** [buf] points at offset [buf] of the object [obj], which is at address [base];
    the result is the object afterwards and the return value. *)
Definition vsnprintf (base : Z) (obj : bytes) (buf size : Z) (fmt : bytes)
    (ap : list va_arg) : option (bytes * Z) :=
  let addr := base + buf in
  let end_ := vsnprintf_end addr size in
  let? (optr, obj) := vsnprintf_loop (S (length fmt)) base end_ fmt ap 0 (addr, obj) in
  if optr <=? end_
  then let? obj := store obj (optr - base) 0 in Some (obj, sint32 (optr - addr))
  else let? obj := store obj (end_ - base) 0 in Some (obj, sint32 (end_ - addr)).

Definition INT_MAX : Z := 2 ^ 31 - 1.

Definition snprintf := vsnprintf.
Definition sprintf (base : Z) (obj : bytes) (buf : Z) (fmt : bytes) (ap : list va_arg) :=
  vsnprintf base obj buf INT_MAX fmt ap.

(** * Clients in bcmutils.c *)

(** [struct bcmstrbuf]: [origbuf] is the object [b_obj] at address [b_base], and
    [b_buf] is [buf - origbuf]. *)
Record bcmstrbuf := BcmStrBuf {
  b_base : Z;
  b_obj : bytes;
  b_buf : Z;
  b_size : Z;
  b_origsize : Z
}.

Definition bcm_binit (base : Z) (obj : bytes) (size : Z) : bcmstrbuf :=
  BcmStrBuf base obj 0 size size.

Definition bcm_bprintf (b : bcmstrbuf) (fmt : bytes) (ap : list va_arg)
  : option (bcmstrbuf * Z) :=
  let? (obj, r) := vsnprintf (b_base b) (b_obj b) (b_buf b) (b_size b) fmt ap in
  let b' := if (r =? -1) || (sint32 (b_size b) <=? r) || (r =? 0)
            then BcmStrBuf (b_base b) obj (b_buf b) 0 (b_origsize b)
            else BcmStrBuf (b_base b) obj (b_buf b + r) (wrap32 (b_size b - r))
                   (b_origsize b) in
  Some (b', r).

Definition ether_fmt : bytes := str "%02x:%02x:%02x:%02x:%02x:%02x".

Definition bcm_ether_ntoa (base : Z) (ea : bytes) (buf : bytes) : option bytes :=
  let? (buf, _) := sprintf base buf 0 ether_fmt
    (map (fun i => VInt (Z.land (at_ ea i) 0xff)) (seq 0 6)) in Some buf.

(** [bcm_mkiovar]: [buf] is an object of at least [buflen] bytes. *)
Definition bcm_mkiovar (name data buf : bytes) (buflen : Z) : bytes * Z :=
  let datalen := Z.of_nat (length data) in
  let len := strlen name + 1 in
  if buflen <? wrap32 (len + datalen) then (buf, 0)
  else (name ++ [0] ++ data ++ drop (Z.to_nat (len + datalen)) buf, len + datalen).

(** * Specification vocabulary *)

(** The whole output of a format, without a buffer. *)
Fixpoint format_loop (fuel : nat) (iptr : bytes) (ap : list va_arg) (width2 : Z)
  : option bytes :=
  match fuel with
  | O => None
  | S fuel =>
      match iptr with
      | [] => Some []
      | c :: t =>
          if negb (c =? ch "%") then
            let? out := format_loop fuel t ap width2 in Some (c :: out)
          else
            let? (out, width2, iptr, ap) := directive t ap width2 in
            let? rest := format_loop fuel iptr ap width2 in Some (out ++ rest)
      end
  end.
Definition format (fmt : bytes) (ap : list va_arg) : option bytes :=
  format_loop (S (length fmt)) fmt ap 0.

(** * Writing *)

(** The string [sprintf] leaves behind. *)
Lemma cstr_splice obj i s :
  (i <= length obj)%nat -> is_cstr s -> cstr (drop i (splice obj i (s ++ [0]))) = s.
Proof.
  intros Hi Hs. unfold splice. rewrite drop_app_length' by (rewrite length_take; lia).
  rewrite <- app_assoc. by apply cstr_app.
Qed.

Lemma store_splice obj off c :
  0 <= off < Z.of_nat (length obj) ->
  store obj off c = Some (splice obj (Z.to_nat off) [c]).
Proof.
  intros H. unfold store. rewrite (proj2 (Z.leb_le _ _)), (proj2 (Z.ltb_lt _ _)) by lia.
  cbn [andb]. f_equal. unfold splice. cbn [length]. rewrite Nat.add_1_r.
  apply insert_take_drop. lia.
Qed.

(** Writing [a] and then [b] under a limit of [k] bytes in all. *)
Lemma splice_take obj i k a b :
  (i + Nat.min k (length (a ++ b)) <= length obj)%nat ->
  splice (splice obj i (take k a)) (i + length a) (take (k - length a) b)
  = splice obj i (take k (a ++ b)).
Proof.
  rewrite length_app. intros H. destruct (decide (length a <= k)%nat).
  - rewrite take_app, (take_ge a) by lia.
    apply splice_splice. rewrite length_take. lia.
  - replace (k - length a)%nat with 0%nat by lia.
    by rewrite take_0, splice_nil, take_app_le by lia.
Qed.

(** [puts_] with [end] at offset [e] of the object and the output pointer at offset
    [o], when the pointer does not wrap. *)
Lemma puts_spec base e o obj s :
  0 <= o -> 0 <= base + o -> base + o + Z.of_nat (length s) < 2 ^ 32 ->
  Z.min (o + Z.of_nat (length s)) (e + 1) <= Z.of_nat (length obj) ->
  puts_ base (base + e) (base + o, obj) s =
  Some (base + (o + Z.of_nat (length s)),
        splice obj (Z.to_nat o) (take (Z.to_nat (e + 1 - o)) s)).
Proof.
  intros Ho Hb Hw He. revert o obj Ho Hb Hw He.
  induction s as [|c s IH]; intros o obj Ho Hb Hw He.
  { cbn. by rewrite take_nil, splice_nil, Z.add_0_r. }
  cbn [puts_ put length] in *. rewrite wrap32_small by lia.
  replace (base + o + 1) with (base + (o + 1)) by lia.
  replace (base + o - base) with o by lia.
  destruct (Z.leb_spec (base + o) (base + e)) as [Hle|Hgt].
  - rewrite store_splice by lia. rewrite IH by (rewrite ?length_splice; cbn; lia).
    f_equal. f_equal; [cbn [length]; lia|].
    replace (Z.to_nat (e + 1 - o)) with (S (Z.to_nat (e + 1 - (o + 1)))) by lia.
    replace (Z.to_nat (o + 1)) with (Z.to_nat o + length [c])%nat by (cbn; lia).
    cbn [take]. rewrite splice_splice; [done|]. rewrite length_take. cbn. lia.
  - rewrite IH by (cbn in *; lia). f_equal. f_equal; [cbn [length]; lia|].
    replace (Z.to_nat (e + 1 - o)) with 0%nat by lia.
    replace (Z.to_nat (e + 1 - (o + 1))) with 0%nat by lia.
    by rewrite !take_0, !splice_nil.
Qed.

Lemma vsnprintf_loop_spec fuel base e fmt ap w out o obj :
  0 <= o -> 0 <= base + o -> base + o + Z.of_nat (length out) < 2 ^ 32 ->
  Z.min (o + Z.of_nat (length out)) (e + 1) <= Z.of_nat (length obj) ->
  format_loop fuel fmt ap w = Some out ->
  vsnprintf_loop fuel base (base + e) fmt ap w (base + o, obj) =
  Some (base + (o + Z.of_nat (length out)),
        splice obj (Z.to_nat o) (take (Z.to_nat (e + 1 - o)) out)).
Proof.
  revert fmt ap w out o obj.
  induction fuel as [|fuel IH]; intros fmt ap w out o obj Ho Hb Hw He Hf; [done|].
  cbn [format_loop vsnprintf_loop] in *. destruct fmt as [|c fmt].
  { injection Hf as <-. by rewrite take_nil, splice_nil, Z.add_0_r. }
  assert (Hstep : forall a b fmt ap w, out = a ++ b ->
    format_loop fuel fmt ap w = Some b ->
    (let? st := puts_ base (base + e) (base + o, obj) a in
     vsnprintf_loop fuel base (base + e) fmt ap w st) =
    Some (base + (o + Z.of_nat (length out)),
          splice obj (Z.to_nat o) (take (Z.to_nat (e + 1 - o)) out))).
  { intros a b fmt' ap' w' -> Hb'. rewrite length_app in He, Hw.
    rewrite puts_spec by lia.
    assert (length (splice obj (Z.to_nat o) (take (Z.to_nat (e + 1 - o)) a))
            = length obj) as Hl.
    { destruct (decide (o <= e + 1)).
      - apply length_splice. rewrite length_take. lia.
      - replace (Z.to_nat (e + 1 - o)) with 0%nat by lia.
        by rewrite take_0, splice_nil. }
    rewrite (IH fmt' ap' w' b) by (rewrite ?Hl; done || lia).
    rewrite length_app. f_equal. f_equal; [lia|].
    replace (Z.to_nat (o + Z.of_nat (length a))) with (Z.to_nat o + length a)%nat by lia.
    replace (Z.to_nat (e + 1 - (o + Z.of_nat (length a))))
      with (Z.to_nat (e + 1 - o) - length a)%nat by lia.
    destruct (decide (o <= e + 1)).
    - apply splice_take. rewrite length_app. lia.
    - replace (Z.to_nat (e + 1 - o)) with 0%nat by lia.
      cbn. by rewrite !splice_nil. }
  destruct (negb (c =? ch "%")).
  - destruct (format_loop fuel fmt ap w) as [b|] eqn:E; [|done]. injection Hf as <-.
    specialize (Hstep [c] b fmt ap w eq_refl E). cbn [puts_] in Hstep.
    by destruct (put base (base + e) (base + o, obj) c).
  - destruct (directive fmt ap w) as [[[[a w'] fmt'] ap']|]; [|done].
    destruct (format_loop fuel fmt' ap' w') as [b|] eqn:E; [|done]. injection Hf as <-.
    by apply (Hstep a b).
Qed.

Lemma vsnprintf_end_cases addr size :
  0 < addr < 2 ^ 32 -> 1 <= size < 2 ^ 32 ->
  vsnprintf_end addr size = Z.min (addr + size - 1) (2 ^ 32 - 1).
Proof.
  intros Hb Hs. unfold vsnprintf_end. rewrite (wrap32_small (addr - 1)) by lia.
  destruct (decide (addr + size - 1 < 2 ^ 32)).
  - rewrite wrap32_small by lia. rewrite (proj2 (Z.ltb_ge _ _)); lia.
  - assert (wrap32 (addr + size - 1) = addr + size - 1 - 2 ^ 32) as ->.
    { unfold wrap32. symmetry. apply Z.mod_unique with 1; lia. }
    rewrite (proj2 (Z.ltb_lt _ _)); lia.
Qed.

(** The contract of [vsnprintf]: the output, truncated to the room there is, its
    NUL, and nothing else.  [n] is the offset from [buf] of the last byte it may
    write. *)
Lemma vsnprintf_format base obj buf size fmt ap out n :
  0 <= buf -> 0 < base + buf -> base + buf + Z.of_nat (length out) < 2 ^ 32 ->
  vsnprintf_end (base + buf) size = base + buf + n -> 0 <= n ->
  buf + Z.min (Z.of_nat (length out)) n < Z.of_nat (length obj) ->
  format fmt ap = Some out ->
  vsnprintf base obj buf size fmt ap =
  Some (splice obj (Z.to_nat buf) (take (Z.to_nat n) out ++ [0]),
        sint32 (Z.min (Z.of_nat (length out)) n)).
Proof.
  intros Hbuf Hb Hw Hn Hn0 Hobj Hf. unfold vsnprintf. cbv zeta. rewrite Hn.
  replace (base + buf + n) with (base + (buf + n)) by lia.
  rewrite (vsnprintf_loop_spec _ _ _ _ _ _ out) by (done || lia).
  replace (Z.to_nat (buf + n + 1 - buf)) with (Z.to_nat (n + 1)) by lia.
  destruct (Z.leb_spec (base + (buf + Z.of_nat (length out))) (base + (buf + n))).
  - rewrite store_splice by (rewrite length_splice; rewrite ?length_take; lia).
    rewrite !take_ge by lia.
    replace (Z.to_nat (base + (buf + Z.of_nat (length out)) - base))
      with (Z.to_nat buf + length out)%nat by lia.
    rewrite splice_splice by (cbn; lia). f_equal. f_equal. f_equal. lia.
  - rewrite store_splice by (rewrite length_splice; rewrite ?length_take; lia).
    replace (Z.to_nat (n + 1)) with (S (Z.to_nat n)) by lia.
    destruct (lookup_lt_is_Some_2 out (Z.to_nat n)) as [x Hx]; [lia|].
    rewrite (take_S_r _ _ x) by done.
    replace (Z.to_nat (base + (buf + n) - base))
      with (Z.to_nat buf + length (take (Z.to_nat n) out))%nat
      by (rewrite length_take; lia).
    rewrite splice_over by (rewrite length_take; lia). f_equal. f_equal. f_equal. lia.
Qed.

(** [sprintf] writes the whole output and its NUL when the object has room. *)
Lemma sprintf_format base obj buf fmt ap out :
  0 < base + buf -> 0 <= buf ->
  buf + Z.of_nat (length out) < Z.of_nat (length obj) ->
  base + Z.of_nat (length obj) <= 2 ^ 32 -> Z.of_nat (length out) < INT_MAX ->
  format fmt ap = Some out ->
  sprintf base obj buf fmt ap =
  Some (splice obj (Z.to_nat buf) (out ++ [0]), Z.of_nat (length out)).
Proof.
  unfold sprintf, INT_MAX. intros Hb Hbuf Hobj Hw Ho Hf.
  rewrite (vsnprintf_format _ _ _ _ _ _ out
             (Z.min (2 ^ 31 - 1 - 1) (2 ^ 32 - 1 - (base + buf))));
    rewrite ?vsnprintf_end_cases by lia; try (done || lia).
  rewrite take_ge by lia. rewrite sint32_small by lia. f_equal. f_equal. lia.
Qed.

(** * Numerals *)

Lemma horner_app base r a b : horner base r (a ++ b) = horner base (horner base r a) b.
Proof. apply fold_left_app. Qed.

Lemma horner_zeros base n : horner base 0 (repeat (ch "0") n) = 0.
Proof. induction n as [|n IH]; [done|]. exact IH. Qed.

(** A digit table of [__atox]. *)
Definition digit_table (tbl : bytes) : Prop := tbl = digits \/ tbl = ldigits.

Lemma digit_table_nth tbl radix d :
  digit_table tbl -> radix = 10 \/ radix = 16 -> 0 <= d < radix ->
  let c := nth (Z.to_nat d) tbl 0 in
  is_digit radix c /\ digit_value c = d /\ char_ok c.
Proof.
  intros Ht Hr Hd. cbn zeta.
  assert (Hall : forall z, 0 <= z < 16 ->
    let c := nth (Z.to_nat z) tbl 0 in
    bcm_isxdigit c && (digit_value c =? z) && (0 <? c) && (c <? 256) = true).
  { apply (forallb_Z_below _ 16). destruct Ht as [-> | ->]; by vm_compute. }
  specialize (Hall d). cbn zeta in Hall. rewrite !andb_true_iff in Hall.
  destruct Hall as [[[Hx Hv] Hl] Hu]; [lia|]. bool_simpl. unfold is_digit, char_ok.
  repeat split; try done; lia.
Qed.

Lemma atox_digits_spec fuel num radix tbl :
  digit_table tbl -> radix = 10 \/ radix = 16 ->
  0 <= num < radix ^ Z.of_nat fuel -> (0 < fuel)%nat ->
  let ds := rev (atox_digits fuel num radix tbl) in
  horner radix 0 ds = num /\ Forall (is_digit radix) ds /\ is_cstr ds /\ ds <> [].
Proof.
  intros Ht Hr. revert num. induction fuel as [|fuel IH]; intros num Hn Hf; [lia|].
  pose proof (Z.mod_pos_bound num radix) as Hm.
  pose proof (digit_table_nth tbl radix (num mod radix) Ht Hr) as (Hd & Hv & Hc); [lia|].
  pose proof (Z.div_mod num radix) as Hdm.
  cbn [atox_digits]. destruct (Z.eqb_spec (num / radix) 0) as [E|E]; cbn [rev app] in *.
  - cbn [horner fold_left]. rewrite Hv. repeat split; try (constructor; auto; fail); [lia|done].
  - assert (num / radix < radix ^ Z.of_nat fuel).
    { apply Z.div_lt_upper_bound; [lia|]. rewrite <- Z.pow_succ_r by lia.
      rewrite <- Nat2Z.inj_succ. lia. }
    assert (0 <= num / radix) by (apply Z.div_pos; lia).
    assert (0 < fuel)%nat. { destruct fuel; [cbn in *; lia|lia]. }
    destruct (IH (num / radix)) as (Hh & Hds & Hcs & Hne); [lia|done|].
    rewrite horner_app, Hh. cbn [horner fold_left]. rewrite Hv.
    repeat split; [lia|..].
    + apply Forall_app. auto.
    + apply Forall_app. auto.
    + intros [? [=]]%app_eq_nil.
Qed.

(** What [__atox] stores is a numeral of its argument. *)
Lemma atox_spec num radix width tbl s :
  digit_table tbl -> radix = 10 \/ radix = 16 -> 0 <= num < 2 ^ 32 ->
  atox num radix width tbl = Some s ->
  horner radix 0 s = num /\ Forall (is_digit radix) s /\ is_cstr s /\ s <> [].
Proof.
  intros Ht Hr Hn Hs. unfold atox in Hs.
  destruct (atox_digits_spec 32 num radix tbl Ht Hr) as (Hh & Hd & Hc & Hne); [|lia|].
  { split; [lia|]. apply Z.lt_le_trans with (2 ^ 32); [lia|].
    destruct Hr as [-> | ->]; vm_compute; discriminate. }
  revert Hs Hh Hd Hc Hne. generalize (atox_digits 32 num radix tbl). intros op Hs ????.
  destruct (_ <=? 16)%nat; [|discriminate]. injection Hs as <-.
  destruct (truthy width && _); [|auto].
  rewrite rev_app_distr, rev_repeat.
  assert (is_digit radix (ch "0")) by (destruct Hr as [-> | ->]; by vm_compute).
  rewrite horner_app, horner_zeros, !Forall_app.
  repeat split; try done; try (apply Forall_forall; intros c ->%list_elem_of_In%repeat_spec; done).
  intros [? ?]%app_eq_nil. done.
Qed.

Lemma atox_digits_length fuel num radix tbl k :
  2 <= radix -> 0 <= num < radix ^ Z.of_nat k -> (0 < k)%nat ->
  (length (atox_digits fuel num radix tbl) <= k)%nat.
Proof.
  intros Hr. revert num k. induction fuel as [|fuel IH]; intros num k Hn Hk; cbn; [lia|].
  destruct (Z.eqb_spec (num / radix) 0) as [E|E]; cbn; [lia|].
  assert (0 < num / radix) by (pose proof (Z.div_pos num radix); lia).
  destruct k as [|[|k]]; [lia| |].
  { exfalso. apply E. apply Z.div_small. rewrite Z.pow_1_r in Hn. lia. }
  apply le_n_S, IH; [|lia]. split; [lia|].
  apply Z.div_lt_upper_bound; [lia|].
  rewrite <- Z.pow_succ_r, <- Nat2Z.inj_succ by lia. lia.
Qed.

Lemma atox_length num radix width tbl s k :
  2 <= radix -> 0 <= num < radix ^ Z.of_nat k -> (0 < k)%nat ->
  atox num radix width tbl = Some s ->
  (length s <= Nat.max k (Z.to_nat width))%nat /\ (Z.to_nat width <= length s)%nat.
Proof.
  intros Hr Hn Hk. unfold atox.
  pose proof (atox_digits_length 32 num radix tbl k Hr Hn Hk) as Hl.
  revert Hl. generalize (atox_digits 32 num radix tbl). intros op Hl.
  destruct (_ <=? 16)%nat; [|discriminate]. intros [= <-]. rewrite length_rev. unfold truthy.
  destruct (Z.eqb_spec width 0); cbn [negb andb]; [subst; cbn; lia|].
  destruct (Z.ltb_spec (Z.of_nat (length op)) width); [|lia].
  rewrite length_app, repeat_length. lia.
Qed.

Lemma atox_total num radix width tbl :
  2 <= radix -> 0 <= num < radix ^ 16 -> width <= 16 ->
  is_Some (atox num radix width tbl).
Proof.
  intros Hr Hn Hw. unfold atox.
  pose proof (atox_digits_length 32 num radix tbl 16 Hr Hn ltac:(lia)) as Hl.
  revert Hl. generalize (atox_digits 32 num radix tbl). intros op Hl.
  assert (forall l : bytes, (length l <= 16)%nat ->
    is_Some (if (length l <=? 16)%nat then Some (rev l) else None)) as Hgo.
  { intros l H. by rewrite (proj2 (Nat.leb_le _ _)). }
  apply Hgo. destruct (truthy width); cbn [andb]; [|lia].
  destruct (Z.ltb_spec (Z.of_nat (length op)) width); [|lia].
  rewrite length_app, repeat_length. lia.
Qed.

(** A numeral is read back by [bcm_strtoul] in its base. *)
Lemma atox_strtoul num radix width tbl s rest :
  digit_table tbl -> radix = 10 \/ radix = 16 -> 0 <= num < 2 ^ 32 ->
  is_x (deref rest) = false -> stops radix rest ->
  atox num radix width tbl = Some s ->
  bcm_strtoul (s ++ rest) radix = (num, rest).
Proof.
  intros Ht Hr Hn Hx Hst Hs.
  destruct (atox_spec num radix width tbl s Ht Hr Hn Hs) as (Hh & Hd & Hc & Hne).
  rewrite bcm_strtoul_digits by (try done; auto with mach; lia).
  rewrite Hh, wrap32_small by lia. done.
Qed.

(** The same behind a "0x" prefix, in base 0. *)
Lemma hex_strtoul num width tbl s rest :
  digit_table tbl -> 0 <= num < 2 ^ 32 -> stops 16 rest ->
  atox num 16 width tbl = Some s ->
  bcm_strtoul (str "0x" ++ s ++ rest) 0 = (num, rest).
Proof.
  intros Ht Hn Hst Hs.
  destruct (atox_spec num 16 width tbl s Ht (or_intror eq_refl) Hn Hs) as (Hh & Hd & _ & _).
  change (bcm_strtoul (str "0x" ++ s ++ rest) 0)
    with (let '(result, cp) := strtoul_digits 16 0 (s ++ rest) in (result, cp)).
  rewrite strtoul_digits_spec by done. by rewrite Hh, wrap32_small by lia.
Qed.

(** The directives the firmware uses. *)
Lemma format_loop_pct fuel t ap w :
  format_loop (S fuel) (ch "%" :: t) ap w =
  let? (out, w, iptr, ap) := directive t ap w in
  let? rest := format_loop fuel iptr ap w in Some (out ++ rest).
Proof. reflexivity. Qed.

Lemma directive_04X x rest ap w :
  directive (str "04X" ++ rest) (VInt x :: ap) w =
  let? out := atox (wrap32 x) 16 4 digits in Some (out, w, rest, ap).
Proof. reflexivity. Qed.

Lemma directive_08X x rest ap w :
  directive (str "08X" ++ rest) (VInt x :: ap) w =
  let? out := atox (wrap32 x) 16 8 digits in Some (out, w, rest, ap).
Proof. reflexivity. Qed.

Lemma directive_02x x rest ap w :
  directive (str "02x" ++ rest) (VInt x :: ap) w =
  let? out := atox (wrap32 x) 16 2 ldigits in Some (out, w, rest, ap).
Proof. reflexivity. Qed.

Lemma directive_d x rest ap w :
  directive (str "d" ++ rest) (VInt x :: ap) w =
  let? out := atox (wrap32 (Z.abs (sint32 x))) 10 0 digits in
  Some ((if sint32 x <? 0 then [ch "-"] else []) ++ out, w, rest, ap).
Proof. reflexivity. Qed.

Lemma directive_s s rest ap :
  directive (str "s" ++ rest) (VStr (Some s) :: ap) 0 = Some (s, 0, rest, ap).
Proof. reflexivity. Qed.

Lemma format_0x04X x s :
  atox (wrap32 x) 16 4 digits = Some s ->
  format (str "0x%04X") [VInt x] = Some (str "0x" ++ s).
Proof.
  intros Hs. change (format (str "0x%04X") [VInt x]) with
    (let? o := (let? o := format_loop 5 (ch "%" :: str "04X" ++ []) [VInt x] 0 in
                Some (ch "x" :: o)) in Some (ch "0" :: o)).
  rewrite format_loop_pct, directive_04X, Hs. cbn [format_loop]. by rewrite app_nil_r.
Qed.

Lemma format_0x08X x s :
  atox (wrap32 x) 16 8 digits = Some s ->
  format (str "0x%08X") [VInt x] = Some (str "0x" ++ s).
Proof.
  intros Hs. change (format (str "0x%08X") [VInt x]) with
    (let? o := (let? o := format_loop 5 (ch "%" :: str "08X" ++ []) [VInt x] 0 in
                Some (ch "x" :: o)) in Some (ch "0" :: o)).
  rewrite format_loop_pct, directive_08X, Hs. cbn [format_loop]. by rewrite app_nil_r.
Qed.

Lemma format_name_value name value :
  format (str "%s=%s") [VStr (Some name); VStr (Some value)]
  = Some (name ++ ch "=" :: value).
Proof.
  change (format (str "%s=%s") [VStr (Some name); VStr (Some value)]) with
    (format_loop 6 (ch "%" :: str "s" ++ str "=%s") [VStr (Some name); VStr (Some value)] 0).
  rewrite format_loop_pct, directive_s.
  change (format_loop 5 (str "=%s") [VStr (Some value)] 0) with
    (let? o := format_loop 4 (ch "%" :: str "s" ++ []) [VStr (Some value)] 0 in
     Some (ch "=" :: o)).
  rewrite format_loop_pct, directive_s. cbn [format_loop]. by rewrite app_nil_r.
Qed.

Lemma format_ether a b c d e f sa sb sc sd se sf :
  let hex x := atox (wrap32 x) 16 2 ldigits in
  hex a = Some sa -> hex b = Some sb -> hex c = Some sc ->
  hex d = Some sd -> hex e = Some se -> hex f = Some sf ->
  format ether_fmt (map VInt [a; b; c; d; e; f]) =
  Some (sa ++ ch ":" :: sb ++ ch ":" :: sc ++ ch ":" :: sd ++ ch ":" :: se ++ ch ":" :: sf).
Proof.
  cbv zeta. intros Ha Hb Hc Hd He Hf.
  assert (Hcolon : forall fuel x s rest ap, atox (wrap32 x) 16 2 ldigits = Some s ->
    format_loop (S (S fuel)) (ch "%" :: str "02x" ++ ch ":" :: rest) (VInt x :: ap) 0 =
    let? o := format_loop fuel rest ap 0 in Some (s ++ ch ":" :: o)).
  { intros fuel x s rest ap Hs. rewrite format_loop_pct, directive_02x, Hs.
    cbn [format_loop]. by destruct (format_loop fuel rest ap 0). }
  change (format ether_fmt (map VInt [a; b; c; d; e; f])) with
    (format_loop 30 (ch "%" :: str "02x" ++ ch ":" :: ch "%" :: str "02x" ++ ch ":" ::
      ch "%" :: str "02x" ++ ch ":" :: ch "%" :: str "02x" ++ ch ":" ::
      ch "%" :: str "02x" ++ ch ":" :: ch "%" :: str "02x" ++ [])
      [VInt a; VInt b; VInt c; VInt d; VInt e; VInt f] 0).
  rewrite (Hcolon _ _ _ _ _ Ha), (Hcolon _ _ _ _ _ Hb), (Hcolon _ _ _ _ _ Hc),
    (Hcolon _ _ _ _ _ Hd), (Hcolon _ _ _ _ _ He).
  rewrite format_loop_pct, directive_02x, Hf. cbn [format_loop]. by rewrite app_nil_r.
Qed.

(** ** Ethernet addresses *)

Definition is_octet (x : Z) (s : bytes) : Prop := atox x 16 2 ldigits = Some s /\ byte_ok x.

Lemma octet_print x :
  byte_ok x -> exists s, atox (wrap32 (Z.land x 0xff)) 16 2 ldigits = Some s /\
    is_octet x s /\ is_cstr s /\ length s = 2%nat.
Proof.
  unfold byte_ok. intros Hx. change 0xff with (Z.ones 8).
  rewrite Z.land_ones, Z.mod_small, wrap32_small by lia.
  destruct (atox_total x 16 2 ldigits) as [s Hs]; [lia..|].
  exists s. pose proof (atox_length x 16 2 ldigits s 2) as Hl.
  destruct (atox_spec x 16 2 ldigits s (or_intror eq_refl) (or_intror eq_refl)) as (_ & _ & Hc & _);
    [lia|done|].
  repeat split; try done; try lia. apply Nat.le_antisymm; apply Hl; try done; lia.
Qed.

Lemma ether_atoe_step fuel x s rest ea :
  is_octet x s -> (length ea < 5)%nat ->
  ether_atoe_loop (S fuel) (s ++ ch ":" :: rest) ea = ether_atoe_loop fuel rest (ea ++ [x]).
Proof.
  intros [Hs Hx] Hl. unfold byte_ok in Hx. cbn [ether_atoe_loop].
  rewrite (atox_strtoul x 16 2 ldigits); [|by right|by right|lia|done|done|done].
  rewrite wrap8_small by lia. cbn [deref hd].
  rewrite (proj2 (Nat.eqb_neq _ _)) by (rewrite length_app; cbn; lia). done.
Qed.

Lemma ether_atoe_last fuel x s ea :
  is_octet x s -> ether_atoe_loop (S fuel) s ea = ea ++ [x].
Proof.
  intros [Hs Hx]. unfold byte_ok in Hx. cbn [ether_atoe_loop].
  rewrite <- (app_nil_r s) at 1.
  rewrite (atox_strtoul x 16 2 ldigits); [|by right|by right|lia|done|done|done].
  by rewrite wrap8_small by lia.
Qed.

(** An Ethernet address printed by [bcm_ether_ntoa] into any buffer of at least
    18 bytes is read back unchanged by [bcm_ether_atoe], and the print stays
    inside the buffer. *)
Theorem ether_roundtrip base ea buf :
  length ea = 6%nat -> Forall byte_ok ea ->
  0 < base -> (18 <= length buf)%nat -> base + Z.of_nat (length buf) <= 2 ^ 32 ->
  exists buf', bcm_ether_ntoa base ea buf = Some buf' /\
    length buf' = length buf /\ bcm_ether_atoe (cstr buf') = (true, ea).
Proof.
  intros Hlen Hok Hb Hbuf Hw.
  destruct ea as [|a [|b [|c [|d [|e [|f [|]]]]]]]; try discriminate.
  rewrite !Forall_cons in Hok. destruct Hok as (Ka & Kb & Kc & Kd & Ke & Kf & _).
  destruct (octet_print a Ka) as (sa & Pa & ? & ? & ?), (octet_print b Kb) as (sb & Pb & ? & ? & ?),
    (octet_print c Kc) as (sc & Pc & ? & ? & ?), (octet_print d Kd) as (sd & Pd & ? & ? & ?),
    (octet_print e Ke) as (se & Pe & ? & ? & ?), (octet_print f Kf) as (sf & Pf & ? & ? & ?).
  pose proof (format_ether _ _ _ _ _ _ _ _ _ _ _ _ Pa Pb Pc Pd Pe Pf) as Hf. cbn [map] in Hf.
  unfold bcm_ether_ntoa. cbn [map seq at_ nth].
  assert (length (sa ++ ch ":" :: sb ++ ch ":" :: sc ++ ch ":" :: sd ++ ch ":" :: se
    ++ ch ":" :: sf) = 17%nat) as Hl by (repeat (rewrite ?length_app; cbn [length]); lia).
  erewrite sprintf_format; [| | | | | |exact Hf]; [|unfold INT_MAX; lia..].
  eexists. split; [reflexivity|]. split.
  { apply length_splice. rewrite length_app, Hl. cbn. lia. }
  change (splice buf (Z.to_nat 0)) with (splice buf 0). rewrite <- (drop_0 (splice buf 0 _)).
  rewrite cstr_splice; [|lia|].
  - unfold bcm_ether_atoe.
    rewrite (ether_atoe_step _ a), (ether_atoe_step _ b), (ether_atoe_step _ c),
      (ether_atoe_step _ d), (ether_atoe_step _ e), (ether_atoe_last _ f)
      by (done || (cbn; lia)).
    done.
  - repeat (rewrite ?Forall_app, ?Forall_cons; split_and?; try done).
Qed.

Lemma ether_roundtrip_witness :
  let ea := [0; 17; 34; 170; 187; 255] in
  exists buf', bcm_ether_ntoa 4096 ea (repeat 1 18) = Some buf' /\
    length buf' = 18%nat /\ bcm_ether_atoe (cstr buf') = (true, ea).
Proof.
  cbv zeta. apply (ether_roundtrip 4096 [0; 17; 34; 170; 187; 255] (repeat 1 18));
    [reflexivity| |lia|cbn; lia|cbn; lia].
  repeat constructor; unfold byte_ok; lia.
Defined.



(** At the top of the address space the end test does not hold the output back: once
    [optr] has wrapped it is below [end] again, and the store is outside the object.
    The same output in the same buffer lower down is truncated. *)
Example vsnprintf_pointer_wraps :
  vsnprintf (2 ^ 32 - 8) (repeat 7 8) 0 8 (str "%20s") [VStr (Some [])] = None /\
  vsnprintf 4096 (repeat 7 8) 0 8 (str "%20s") [VStr (Some [])]
  = Some (repeat (ch " ") 7 ++ [0], 7).
Proof. split; by vm_compute. Qed.

(** A width overflows its int: 2^32 + 3 is a width of 3. *)
Example width_wraps : format (str "%4294967299d") [VInt 7] = Some (str "007").
Proof. by vm_compute. Qed.

(** ** Bounded string buffers *)

(** What [bcm_binit] establishes for a buffer inside its object. *)
Record strbuf_inv (b : bcmstrbuf) : Prop := {
  sb_base : 0 < b_base b;
  sb_buf : 0 <= b_buf b;
  sb_size : 0 <= b_size b < 2 ^ 31;
  sb_room : b_buf b + b_size b <= Z.of_nat (length (b_obj b));
  sb_top : b_base b + Z.of_nat (length (b_obj b)) < 2 ^ 32
}.

Lemma bcm_binit_inv base obj size :
  0 < base -> 0 <= size < 2 ^ 31 -> size <= Z.of_nat (length obj) ->
  base + Z.of_nat (length obj) < 2 ^ 32 -> strbuf_inv (bcm_binit base obj size).
Proof. intros. split; cbn; lia. Qed.

(** A size of 0 makes [vsnprintf] store its NUL one byte before the buffer. *)
Lemma vsnprintf_size_0 base obj buf fmt ap out :
  0 <= buf -> 0 < base + buf < 2 ^ 32 -> buf <= Z.of_nat (length obj) ->
  format fmt ap = Some out ->
  base + buf + Z.of_nat (length out) < 2 ^ 32 ->
  vsnprintf base obj buf 0 fmt ap =
  let? obj := store obj (buf - 1) 0 in Some (obj, -1).
Proof.
  intros Hbuf Hb Hl Hf Hp. unfold vsnprintf, vsnprintf_end. cbv zeta.
  rewrite Z.add_0_r, Z.ltb_irrefl, wrap32_small by lia.
  replace (base + buf - 1) with (base + (buf - 1)) by lia.
  rewrite (vsnprintf_loop_spec _ _ _ _ _ _ out) by (done || lia).
  rewrite (proj2 (Z.leb_gt _ _)) by lia.
  replace (base + (buf - 1) - base) with (buf - 1) by lia.
  replace (base + (buf - 1) - (base + buf)) with (-1) by lia.
  replace (Z.to_nat (buf - 1 + 1 - buf)) with 0%nat by lia. by rewrite take_0, splice_nil.
Qed.

(** Appending to a string buffer never writes outside its object and keeps the
    buffer well formed, except in the one state where no byte was ever written
    and the size is 0, for an output that does not make the pointer wrap. *)
Theorem bcm_bprintf_safe b fmt ap out :
  strbuf_inv b -> 0 < b_buf b \/ 0 < b_size b -> format fmt ap = Some out ->
  b_base b + b_buf b + Z.of_nat (length out) < 2 ^ 32 ->
  exists b' r, bcm_bprintf b fmt ap = Some (b', r) /\ strbuf_inv b' /\
    b_buf b <= b_buf b' /\ b_size b' <= b_size b /\
    length (b_obj b') = length (b_obj b).
Proof.
  intros [Hb Hbuf Hs Hr Ht] Hne Hf Hp. unfold bcm_bprintf.
  destruct (decide (b_size b = 0)) as [Hz|Hz].
  - rewrite Hz, vsnprintf_size_0 with (out := out) by (done || lia).
    rewrite store_splice by lia. do 2 eexists. split; [reflexivity|].
    assert (length (splice (b_obj b) (Z.to_nat (b_buf b - 1)) [0]) = length (b_obj b)) as Hl
      by (apply length_splice; cbn; lia).
    repeat split; cbn; rewrite ?Hl; lia.
  - rewrite (vsnprintf_format _ _ _ _ _ _ out (b_size b - 1)); try (done || lia).
    2: { rewrite vsnprintf_end_cases; lia. }
    rewrite sint32_small by lia.
    set (obj' := splice _ _ _). do 2 eexists. split; [reflexivity|].
    assert (length obj' = length (b_obj b)) as Hl.
    { apply length_splice. rewrite length_app, length_take. cbn. lia. }
    case_test; cbn.
    + repeat split; cbn; rewrite ?Hl; lia.
    + rewrite wrap32_small by lia. repeat split; cbn; rewrite ?Hl; lia.
Qed.

Lemma bcm_bprintf_safe_witness :
  exists b' r, bcm_bprintf (bcm_binit 4096 (repeat 7 4) 4) (str "%d") [VInt 12345] = Some (b', r) /\
    strbuf_inv b' /\ 0 <= b_buf b' /\ b_size b' <= 4 /\ length (b_obj b') = 4%nat.
Proof.
  apply (bcm_bprintf_safe (bcm_binit 4096 (repeat 7 4) 4) (str "%d") [VInt 12345] (str "12345")).
  - apply bcm_binit_inv; cbn; lia.
  - right. cbn. lia.
  - by vm_compute.
  - cbn. lia.
Defined.

(** The excepted state is reachable: appending an empty output first sets the size
    to 0 with [buf] still at the start, and the next append writes before the
    object. *)
Lemma bcm_bprintf_underflow :
  match bcm_bprintf (bcm_binit 4096 (repeat 7 64) 64) (str "%s") [VStr (Some [])] with
  | Some (b, _) => b_size b = 0 /\ bcm_bprintf b (str "x") [] = None
  | None => False
  end.
Proof. split; by vm_compute. Qed.

(** A truncated append leaves a size of 1, not 0: [vsnprintf] returns the number
    of bytes it kept. *)
Lemma bcm_bprintf_truncated :
  match bcm_bprintf (bcm_binit 4096 (repeat 7 4) 4) (str "%d") [VInt 12345] with
  | Some (b, r) => r = 3 /\ b_size b = 1 /\ b_buf b = 3
  | None => False
  end.
Proof. repeat split; by vm_compute. Qed.

(** "%.5s" prints nothing: the precision of a string directive is not used as a
    maximum, and a zero width stops the copy. *)
Lemma precision_prints_nothing s : format (str "%.5s") [VStr (Some s)] = Some [].
Proof. reflexivity. Qed.

(** A 32-bit value printed as "0x%04X" or "0x%08X" is read back unchanged by
    [bcm_strtoul] with base 0, and one printed with "%u" by base 10. *)
Theorem print_strtoul x :
  0 <= x < 2 ^ 32 ->
  (exists s, format (str "0x%04X") [VInt x] = Some s /\ bcm_strtoul s 0 = (x, [])) /\
  (exists s, format (str "0x%08X") [VInt x] = Some s /\ bcm_strtoul s 0 = (x, [])) /\
  (exists s, format (str "%u") [VInt x] = Some s /\ bcm_strtoul s 10 = (x, [])).
Proof.
  intros Hx.
  assert (Hhex : forall w, w <= 16 -> exists s, atox (wrap32 x) 16 w digits = Some s /\
    bcm_strtoul (str "0x" ++ s) 0 = (x, [])).
  { intros w Hw. rewrite wrap32_small by lia.
    destruct (atox_total x 16 w digits) as [s Hs]; [lia..|].
    exists s. split; [done|]. rewrite <- (app_nil_r s).
    apply (hex_strtoul x w digits); [by left|lia|done|done]. }
  split; [|split].
  - destruct (Hhex 4) as (s & Hs & Hp); [lia|]. eexists. split; [|exact Hp].
    by apply format_0x04X.
  - destruct (Hhex 8) as (s & Hs & Hp); [lia|]. eexists. split; [|exact Hp].
    by apply format_0x08X.
  - destruct (atox_total x 10 0 digits) as [s Hs]; [lia..|]. exists s. split.
    + change (format (str "%u") [VInt x]) with
        (let? s := (let? s := atox (wrap32 x) 10 0 digits in Some (s, 0, [] : bytes, [] : list va_arg)) in
         let '(out, w, iptr, ap) := s in
         let? rest := format_loop 2 iptr ap w in Some (out ++ rest)).
      rewrite wrap32_small, Hs by lia. cbn. by rewrite app_nil_r.
    + rewrite <- (app_nil_r s).
      by apply (atox_strtoul x 10 0 digits); [left|left|lia|..].
Qed.

Lemma print_strtoul_witness :
  (exists s, format (str "0x%04X") [VInt 0x154] = Some s /\ bcm_strtoul s 0 = (0x154, [])) /\
  (exists s, format (str "0x%08X") [VInt 0x154] = Some s /\ bcm_strtoul s 0 = (0x154, [])) /\
  (exists s, format (str "%u") [VInt 0x154] = Some s /\ bcm_strtoul s 10 = (0x154, [])).
Proof. apply (print_strtoul 0x154). lia. Defined.
