(* ===== verification/Crc.v ===== *)
(** The CRC routines of shared/bcmutils.c: [hndcrc8], [hndcrc16] and [hndcrc32]
    with their tables, against a bit-serial reference.

    [hndcrc32] is modelled for MIPS, where it consumes the data by aligned words:
    [addr] is the address of [pdata], [mem] the readable bytes from there on. *)

From S2P Require Import Prelude.
From Stdlib Require Import ZArith Lia Bool List.
From stdpp Require Import base numbers list.

#[local] Open Scope Z_scope.

Definition CRC8_INIT_VALUE := 0xff.
Definition CRC8_GOOD_VALUE := 0x9f.
Definition CRC16_INIT_VALUE := 0xffff.
Definition CRC16_GOOD_VALUE := 0xf0b8.
Definition CRC32_INIT_VALUE := 0xffffffff.
Definition CRC32_GOOD_VALUE := 0xdebb20e3.

Definition crc8_table : list Z :=
  [0x00; 0xF7; 0xB9; 0x4E; 0x25; 0xD2; 0x9C; 0x6B; 0x4A; 0xBD; 0xF3; 0x04;
   0x6F; 0x98; 0xD6; 0x21; 0x94; 0x63; 0x2D; 0xDA; 0xB1; 0x46; 0x08; 0xFF;
   0xDE; 0x29; 0x67; 0x90; 0xFB; 0x0C; 0x42; 0xB5; 0x7F; 0x88; 0xC6; 0x31;
   0x5A; 0xAD; 0xE3; 0x14; 0x35; 0xC2; 0x8C; 0x7B; 0x10; 0xE7; 0xA9; 0x5E;
   0xEB; 0x1C; 0x52; 0xA5; 0xCE; 0x39; 0x77; 0x80; 0xA1; 0x56; 0x18; 0xEF;
   0x84; 0x73; 0x3D; 0xCA; 0xFE; 0x09; 0x47; 0xB0; 0xDB; 0x2C; 0x62; 0x95;
   0xB4; 0x43; 0x0D; 0xFA; 0x91; 0x66; 0x28; 0xDF; 0x6A; 0x9D; 0xD3; 0x24;
   0x4F; 0xB8; 0xF6; 0x01; 0x20; 0xD7; 0x99; 0x6E; 0x05; 0xF2; 0xBC; 0x4B;
   0x81; 0x76; 0x38; 0xCF; 0xA4; 0x53; 0x1D; 0xEA; 0xCB; 0x3C; 0x72; 0x85;
   0xEE; 0x19; 0x57; 0xA0; 0x15; 0xE2; 0xAC; 0x5B; 0x30; 0xC7; 0x89; 0x7E;
   0x5F; 0xA8; 0xE6; 0x11; 0x7A; 0x8D; 0xC3; 0x34; 0xAB; 0x5C; 0x12; 0xE5;
   0x8E; 0x79; 0x37; 0xC0; 0xE1; 0x16; 0x58; 0xAF; 0xC4; 0x33; 0x7D; 0x8A;
   0x3F; 0xC8; 0x86; 0x71; 0x1A; 0xED; 0xA3; 0x54; 0x75; 0x82; 0xCC; 0x3B;
   0x50; 0xA7; 0xE9; 0x1E; 0xD4; 0x23; 0x6D; 0x9A; 0xF1; 0x06; 0x48; 0xBF;
   0x9E; 0x69; 0x27; 0xD0; 0xBB; 0x4C; 0x02; 0xF5; 0x40; 0xB7; 0xF9; 0x0E;
   0x65; 0x92; 0xDC; 0x2B; 0x0A; 0xFD; 0xB3; 0x44; 0x2F; 0xD8; 0x96; 0x61;
   0x55; 0xA2; 0xEC; 0x1B; 0x70; 0x87; 0xC9; 0x3E; 0x1F; 0xE8; 0xA6; 0x51;
   0x3A; 0xCD; 0x83; 0x74; 0xC1; 0x36; 0x78; 0x8F; 0xE4; 0x13; 0x5D; 0xAA;
   0x8B; 0x7C; 0x32; 0xC5; 0xAE; 0x59; 0x17; 0xE0; 0x2A; 0xDD; 0x93; 0x64;
   0x0F; 0xF8; 0xB6; 0x41; 0x60; 0x97; 0xD9; 0x2E; 0x45; 0xB2; 0xFC; 0x0B;
   0xBE; 0x49; 0x07; 0xF0; 0x9B; 0x6C; 0x22; 0xD5; 0xF4; 0x03; 0x4D; 0xBA;
   0xD1; 0x26; 0x68; 0x9F].

Definition crc16_table : list Z :=
  [0x0000; 0x1189; 0x2312; 0x329B; 0x4624; 0x57AD; 0x6536; 0x74BF; 0x8C48;
   0x9DC1; 0xAF5A; 0xBED3; 0xCA6C; 0xDBE5; 0xE97E; 0xF8F7; 0x1081; 0x0108;
   0x3393; 0x221A; 0x56A5; 0x472C; 0x75B7; 0x643E; 0x9CC9; 0x8D40; 0xBFDB;
   0xAE52; 0xDAED; 0xCB64; 0xF9FF; 0xE876; 0x2102; 0x308B; 0x0210; 0x1399;
   0x6726; 0x76AF; 0x4434; 0x55BD; 0xAD4A; 0xBCC3; 0x8E58; 0x9FD1; 0xEB6E;
   0xFAE7; 0xC87C; 0xD9F5; 0x3183; 0x200A; 0x1291; 0x0318; 0x77A7; 0x662E;
   0x54B5; 0x453C; 0xBDCB; 0xAC42; 0x9ED9; 0x8F50; 0xFBEF; 0xEA66; 0xD8FD;
   0xC974; 0x4204; 0x538D; 0x6116; 0x709F; 0x0420; 0x15A9; 0x2732; 0x36BB;
   0xCE4C; 0xDFC5; 0xED5E; 0xFCD7; 0x8868; 0x99E1; 0xAB7A; 0xBAF3; 0x5285;
   0x430C; 0x7197; 0x601E; 0x14A1; 0x0528; 0x37B3; 0x263A; 0xDECD; 0xCF44;
   0xFDDF; 0xEC56; 0x98E9; 0x8960; 0xBBFB; 0xAA72; 0x6306; 0x728F; 0x4014;
   0x519D; 0x2522; 0x34AB; 0x0630; 0x17B9; 0xEF4E; 0xFEC7; 0xCC5C; 0xDDD5;
   0xA96A; 0xB8E3; 0x8A78; 0x9BF1; 0x7387; 0x620E; 0x5095; 0x411C; 0x35A3;
   0x242A; 0x16B1; 0x0738; 0xFFCF; 0xEE46; 0xDCDD; 0xCD54; 0xB9EB; 0xA862;
   0x9AF9; 0x8B70; 0x8408; 0x9581; 0xA71A; 0xB693; 0xC22C; 0xD3A5; 0xE13E;
   0xF0B7; 0x0840; 0x19C9; 0x2B52; 0x3ADB; 0x4E64; 0x5FED; 0x6D76; 0x7CFF;
   0x9489; 0x8500; 0xB79B; 0xA612; 0xD2AD; 0xC324; 0xF1BF; 0xE036; 0x18C1;
   0x0948; 0x3BD3; 0x2A5A; 0x5EE5; 0x4F6C; 0x7DF7; 0x6C7E; 0xA50A; 0xB483;
   0x8618; 0x9791; 0xE32E; 0xF2A7; 0xC03C; 0xD1B5; 0x2942; 0x38CB; 0x0A50;
   0x1BD9; 0x6F66; 0x7EEF; 0x4C74; 0x5DFD; 0xB58B; 0xA402; 0x9699; 0x8710;
   0xF3AF; 0xE226; 0xD0BD; 0xC134; 0x39C3; 0x284A; 0x1AD1; 0x0B58; 0x7FE7;
   0x6E6E; 0x5CF5; 0x4D7C; 0xC60C; 0xD785; 0xE51E; 0xF497; 0x8028; 0x91A1;
   0xA33A; 0xB2B3; 0x4A44; 0x5BCD; 0x6956; 0x78DF; 0x0C60; 0x1DE9; 0x2F72;
   0x3EFB; 0xD68D; 0xC704; 0xF59F; 0xE416; 0x90A9; 0x8120; 0xB3BB; 0xA232;
   0x5AC5; 0x4B4C; 0x79D7; 0x685E; 0x1CE1; 0x0D68; 0x3FF3; 0x2E7A; 0xE70E;
   0xF687; 0xC41C; 0xD595; 0xA12A; 0xB0A3; 0x8238; 0x93B1; 0x6B46; 0x7ACF;
   0x4854; 0x59DD; 0x2D62; 0x3CEB; 0x0E70; 0x1FF9; 0xF78F; 0xE606; 0xD49D;
   0xC514; 0xB1AB; 0xA022; 0x92B9; 0x8330; 0x7BC7; 0x6A4E; 0x58D5; 0x495C;
   0x3DE3; 0x2C6A; 0x1EF1; 0x0F78].

Definition crc32_table : list Z :=
  [0x00000000; 0x77073096; 0xEE0E612C; 0x990951BA; 0x076DC419; 0x706AF48F;
   0xE963A535; 0x9E6495A3; 0x0EDB8832; 0x79DCB8A4; 0xE0D5E91E; 0x97D2D988;
   0x09B64C2B; 0x7EB17CBD; 0xE7B82D07; 0x90BF1D91; 0x1DB71064; 0x6AB020F2;
   0xF3B97148; 0x84BE41DE; 0x1ADAD47D; 0x6DDDE4EB; 0xF4D4B551; 0x83D385C7;
   0x136C9856; 0x646BA8C0; 0xFD62F97A; 0x8A65C9EC; 0x14015C4F; 0x63066CD9;
   0xFA0F3D63; 0x8D080DF5; 0x3B6E20C8; 0x4C69105E; 0xD56041E4; 0xA2677172;
   0x3C03E4D1; 0x4B04D447; 0xD20D85FD; 0xA50AB56B; 0x35B5A8FA; 0x42B2986C;
   0xDBBBC9D6; 0xACBCF940; 0x32D86CE3; 0x45DF5C75; 0xDCD60DCF; 0xABD13D59;
   0x26D930AC; 0x51DE003A; 0xC8D75180; 0xBFD06116; 0x21B4F4B5; 0x56B3C423;
   0xCFBA9599; 0xB8BDA50F; 0x2802B89E; 0x5F058808; 0xC60CD9B2; 0xB10BE924;
   0x2F6F7C87; 0x58684C11; 0xC1611DAB; 0xB6662D3D; 0x76DC4190; 0x01DB7106;
   0x98D220BC; 0xEFD5102A; 0x71B18589; 0x06B6B51F; 0x9FBFE4A5; 0xE8B8D433;
   0x7807C9A2; 0x0F00F934; 0x9609A88E; 0xE10E9818; 0x7F6A0DBB; 0x086D3D2D;
   0x91646C97; 0xE6635C01; 0x6B6B51F4; 0x1C6C6162; 0x856530D8; 0xF262004E;
   0x6C0695ED; 0x1B01A57B; 0x8208F4C1; 0xF50FC457; 0x65B0D9C6; 0x12B7E950;
   0x8BBEB8EA; 0xFCB9887C; 0x62DD1DDF; 0x15DA2D49; 0x8CD37CF3; 0xFBD44C65;
   0x4DB26158; 0x3AB551CE; 0xA3BC0074; 0xD4BB30E2; 0x4ADFA541; 0x3DD895D7;
   0xA4D1C46D; 0xD3D6F4FB; 0x4369E96A; 0x346ED9FC; 0xAD678846; 0xDA60B8D0;
   0x44042D73; 0x33031DE5; 0xAA0A4C5F; 0xDD0D7CC9; 0x5005713C; 0x270241AA;
   0xBE0B1010; 0xC90C2086; 0x5768B525; 0x206F85B3; 0xB966D409; 0xCE61E49F;
   0x5EDEF90E; 0x29D9C998; 0xB0D09822; 0xC7D7A8B4; 0x59B33D17; 0x2EB40D81;
   0xB7BD5C3B; 0xC0BA6CAD; 0xEDB88320; 0x9ABFB3B6; 0x03B6E20C; 0x74B1D29A;
   0xEAD54739; 0x9DD277AF; 0x04DB2615; 0x73DC1683; 0xE3630B12; 0x94643B84;
   0x0D6D6A3E; 0x7A6A5AA8; 0xE40ECF0B; 0x9309FF9D; 0x0A00AE27; 0x7D079EB1;
   0xF00F9344; 0x8708A3D2; 0x1E01F268; 0x6906C2FE; 0xF762575D; 0x806567CB;
   0x196C3671; 0x6E6B06E7; 0xFED41B76; 0x89D32BE0; 0x10DA7A5A; 0x67DD4ACC;
   0xF9B9DF6F; 0x8EBEEFF9; 0x17B7BE43; 0x60B08ED5; 0xD6D6A3E8; 0xA1D1937E;
   0x38D8C2C4; 0x4FDFF252; 0xD1BB67F1; 0xA6BC5767; 0x3FB506DD; 0x48B2364B;
   0xD80D2BDA; 0xAF0A1B4C; 0x36034AF6; 0x41047A60; 0xDF60EFC3; 0xA867DF55;
   0x316E8EEF; 0x4669BE79; 0xCB61B38C; 0xBC66831A; 0x256FD2A0; 0x5268E236;
   0xCC0C7795; 0xBB0B4703; 0x220216B9; 0x5505262F; 0xC5BA3BBE; 0xB2BD0B28;
   0x2BB45A92; 0x5CB36A04; 0xC2D7FFA7; 0xB5D0CF31; 0x2CD99E8B; 0x5BDEAE1D;
   0x9B64C2B0; 0xEC63F226; 0x756AA39C; 0x026D930A; 0x9C0906A9; 0xEB0E363F;
   0x72076785; 0x05005713; 0x95BF4A82; 0xE2B87A14; 0x7BB12BAE; 0x0CB61B38;
   0x92D28E9B; 0xE5D5BE0D; 0x7CDCEFB7; 0x0BDBDF21; 0x86D3D2D4; 0xF1D4E242;
   0x68DDB3F8; 0x1FDA836E; 0x81BE16CD; 0xF6B9265B; 0x6FB077E1; 0x18B74777;
   0x88085AE6; 0xFF0F6A70; 0x66063BCA; 0x11010B5C; 0x8F659EFF; 0xF862AE69;
   0x616BFFD3; 0x166CCF45; 0xA00AE278; 0xD70DD2EE; 0x4E048354; 0x3903B3C2;
   0xA7672661; 0xD06016F7; 0x4969474D; 0x3E6E77DB; 0xAED16A4A; 0xD9D65ADC;
   0x40DF0B66; 0x37D83BF0; 0xA9BCAE53; 0xDEBB9EC5; 0x47B2CF7F; 0x30B5FFE9;
   0xBDBDF21C; 0xCABAC28A; 0x53B39330; 0x24B4A3A6; 0xBAD03605; 0xCDD70693;
   0x54DE5729; 0x23D967BF; 0xB3667A2E; 0xC4614AB8; 0x5D681B02; 0x2A6F2B94;
   0xB40BBE37; 0xC30C8EA1; 0x5A05DF1B; 0x2D02EF8D].

Definition tbl (t : list Z) (i : Z) : Z := nth (Z.to_nat i) t 0.

(** [pdata] is the [nbytes] bytes to process. *)
Fixpoint hndcrc8 (pdata : bytes) (crc : Z) : Z :=
  match pdata with
  | [] => crc
  | x :: pdata => hndcrc8 pdata (tbl crc8_table (Z.land (Z.lxor crc x) 0xff))
  end.

(** [CRC_INNER_LOOP(n, c, x)]. *)
Definition CRC_INNER_LOOP (table : list Z) (c x : Z) : Z :=
  Z.lxor (Z.shiftr c 8) (tbl table (Z.land (Z.lxor c x) 0xff)).

Fixpoint hndcrc16 (pdata : bytes) (crc : Z) : Z :=
  match pdata with
  | [] => crc
  | x :: pdata => hndcrc16 pdata (wrap16 (CRC_INNER_LOOP crc16_table crc x))
  end.

(** The byte loops of [hndcrc32]: [n] bytes of [mem]; [None] when the object ends
    first.  The result is the new CRC and the rest of the object. *)
Fixpoint crc32_bytes (mem : bytes) (n crc : Z) : option (Z * bytes) :=
  if n =? 0 then Some (crc, mem)
  else match mem with
       | [] => None
       | x :: mem => crc32_bytes mem (n - 1) (wrap32 (CRC_INNER_LOOP crc32_table crc x))
       end.

(** The word loop: [n] bytes, four at a time through [tmp]. *)
Fixpoint crc32_words (mem : bytes) (n crc : Z) : option (Z * bytes) :=
  if n <=? 0 then Some (crc, mem)
  else match mem with
       | t0 :: t1 :: t2 :: t3 :: mem =>
           let crc := wrap32 (CRC_INNER_LOOP crc32_table crc t0) in
           let crc := wrap32 (CRC_INNER_LOOP crc32_table crc t1) in
           let crc := wrap32 (CRC_INNER_LOOP crc32_table crc t2) in
           let crc := wrap32 (CRC_INNER_LOOP crc32_table crc t3) in
           crc32_words mem (n - 4) crc
       | _ => None
       end.

Definition hndcrc32 (addr : Z) (mem : bytes) (nbytes crc : Z) : option Z :=
  (* in case the beginning of the buffer isn't aligned *)
  let pend := Z.land (wrap32 (addr + 3)) 0xfffffffc in
  let nbytes := wrap32 (nbytes - (pend - addr)) in
  let? (crc, mem) := crc32_bytes mem (pend - addr) crc in
  let pdata := pend in
  (* handle bulk of data as 32-bit words *)
  let pend := wrap32 (pdata + Z.land nbytes 0xfffffffc) in
  let n := if pdata <? pend then pend - pdata else 0 in
  let? (crc, mem) := crc32_words mem n crc in
  let pdata := pdata + n in
  (* 1-3 bytes at end of buffer *)
  let? (crc, _) := crc32_bytes mem (Z.land nbytes 0x03) crc in
  Some crc.

(** The generic path, for other processors. *)
Fixpoint hndcrc32_generic (pdata : bytes) (crc : Z) : Z :=
  match pdata with
  | [] => crc
  | x :: pdata => hndcrc32_generic pdata (wrap32 (CRC_INNER_LOOP crc32_table crc x))
  end.

(** * Reference: one bit at a time

    [poly] is the polynomial in reflected form, without its leading term. *)

Definition crc8_poly := 0xAB.         (* x^8 + x^7 + x^6 + x^4 + x^2 + 1 *)
Definition crc16_poly := 0x8408.      (* x^16 + x^12 + x^5 + 1 *)
Definition crc32_poly := 0xEDB88320.  (* the IEEE 802.3 polynomial *)

Definition crc_bit (poly c : Z) : Z :=
  if Z.testbit c 0 then Z.lxor (Z.shiftr c 1) poly else Z.shiftr c 1.
Fixpoint crc_bits (poly : Z) (n : nat) (c : Z) : Z :=
  match n with O => c | S n => crc_bit poly (crc_bits poly n c) end.
Fixpoint crc_ref (poly : Z) (pdata : bytes) (crc : Z) : Z :=
  match pdata with
  | [] => crc
  | x :: pdata => crc_ref poly pdata (crc_bits poly 8 (Z.lxor crc x))
  end.

(** Little-endian bytes. *)
Fixpoint le_bytes (n : nat) (z : Z) : bytes :=
  match n with
  | O => []
  | S n => z mod 256 :: le_bytes n (z / 256)
  end.

(** The number a byte string spells, least significant byte first. *)
Fixpoint le_value (l : bytes) : Z :=
  match l with
  | [] => 0
  | x :: l => Z.lxor x (Z.shiftl (le_value l) 8)
  end.

(** * The reference is linear *)

Lemma crc_bit_lxor poly a b :
  crc_bit poly (Z.lxor a b) = Z.lxor (crc_bit poly a) (crc_bit poly b).
Proof.
  unfold crc_bit. rewrite Z.lxor_spec, Z.shiftr_lxor.
  generalize (Z.shiftr a 1) (Z.shiftr b 1). intros x y.
  destruct (Z.testbit a 0), (Z.testbit b 0); cbn [xorb];
    apply Z.bits_inj'; intros n _; rewrite !Z.lxor_spec; try ring;
    destruct (Z.testbit x n), (Z.testbit y n), (Z.testbit poly n); reflexivity.
Qed.

Lemma crc_bits_lxor poly n a b :
  crc_bits poly n (Z.lxor a b) = Z.lxor (crc_bits poly n a) (crc_bits poly n b).
Proof.
  induction n as [|n IH]; [done|]. cbn [crc_bits]. by rewrite IH, crc_bit_lxor.
Qed.

Lemma crc_bits_add poly m n c : crc_bits poly (m + n) c = crc_bits poly m (crc_bits poly n c).
Proof. induction m as [|m IH]; [done|]. cbn [Nat.add crc_bits]. by rewrite IH. Qed.

Lemma crc_bits_shiftl poly n z : crc_bits poly n (Z.shiftl z (Z.of_nat n)) = z.
Proof.
  induction n as [|n IH]; [apply Z.shiftl_0_r|].
  replace (S n) with (n + 1)%nat by lia. rewrite crc_bits_add.
  replace (crc_bits poly 1 (Z.shiftl z (Z.of_nat (n + 1)))) with (Z.shiftl z (Z.of_nat n)); [done|].
  cbn [crc_bits]. unfold crc_bit. rewrite Z.shiftl_spec_low by lia.
  rewrite Z.shiftr_shiftl_l by lia. f_equal. lia.
Qed.

Lemma lxor_bound w a b : 0 <= w -> 0 <= a < 2 ^ w -> 0 <= b < 2 ^ w -> 0 <= Z.lxor a b < 2 ^ w.
Proof.
  intros Hw Ha Hb. split; [apply Z.lxor_nonneg; lia|].
  destruct (Z.eq_dec (Z.lxor a b) 0) as [->|Hne]; [lia|].
  assert (0 <= Z.lxor a b) by (apply Z.lxor_nonneg; lia).
  apply Z.log2_lt_pow2; [lia|]. apply Z.le_lt_trans with (Z.max (Z.log2 a) (Z.log2 b)).
  { apply Z.log2_lxor; lia. }
  apply Z.max_lub_lt.
  - destruct (Z.eq_dec a 0) as [->|]; [cbn|apply Z.log2_lt_pow2; lia].
    destruct (Z.eq_dec w 0) as [->|]; [|lia]. change (2 ^ 0) with 1 in *.
    assert (b = 0) as -> by lia. done.
  - destruct (Z.eq_dec b 0) as [->|]; [cbn|apply Z.log2_lt_pow2; lia].
    destruct (Z.eq_dec w 0) as [->|]; [|lia]. change (2 ^ 0) with 1 in *.
    assert (a = 0) as -> by lia. done.
Qed.

Lemma crc_bit_bound w poly c :
  0 < w -> 0 <= poly < 2 ^ w -> 0 <= c < 2 ^ w -> 0 <= crc_bit poly c < 2 ^ w.
Proof.
  intros Hw Hp Hc.
  assert (0 <= Z.shiftr c 1 < 2 ^ w).
  { rewrite Z.shiftr_div_pow2 by lia. change (2 ^ 1) with 2.
    split; [apply Z.div_pos; lia|]. apply Z.div_lt_upper_bound; lia. }
  unfold crc_bit. destruct (Z.testbit c 0); [apply lxor_bound; lia|done].
Qed.

Lemma crc_bits_bound w poly n c :
  0 < w -> 0 <= poly < 2 ^ w -> 0 <= c < 2 ^ w -> 0 <= crc_bits poly n c < 2 ^ w.
Proof. intros. induction n as [|n IH]; [done|]. by apply crc_bit_bound. Qed.

Lemma byte_width w x : 8 <= w -> byte_ok x -> 0 <= x < 2 ^ w.
Proof.
  unfold byte_ok. intros Hw Hx. pose proof (Z.pow_le_mono_r 2 8 w ltac:(lia) Hw).
  change (2 ^ 8) with 256 in *. lia.
Qed.

(** * The tables *)

(** Low byte and rest of a state. *)
Lemma split_byte z : 0 <= z -> z = Z.lxor (Z.shiftl (Z.shiftr z 8) 8) (Z.land z 0xff).
Proof.
  intros Hz. change 0xff with (Z.ones 8). apply Z.bits_inj'. intros n Hn.
  rewrite Z.lxor_spec, Z.land_spec, Z.testbit_ones, (proj2 (Z.leb_le 0 n)) by lia.
  destruct (Z.ltb_spec n 8).
  - rewrite Z.shiftl_spec_low by done. cbn [xorb andb]. by rewrite andb_true_r.
  - rewrite Z.shiftl_spec, Z.shiftr_spec by lia. rewrite andb_false_r, xorb_false_r.
    f_equal. lia.
Qed.

Definition table_ok (poly : Z) (table : list Z) : Prop :=
  forall i, 0 <= i < 256 -> tbl table i = crc_bits poly 8 i.

Lemma table_check poly table :
  forallb (fun i => tbl table (Z.of_nat i) =? crc_bits poly 8 (Z.of_nat i)) (seq 0 256) = true ->
  table_ok poly table.
Proof. intros H i Hi. apply Z.eqb_eq. revert i Hi. by apply (forallb_Z_below _ 256). Qed.

Lemma crc8_table_ok : table_ok crc8_poly crc8_table.
Proof. apply table_check. by vm_compute. Qed.
Lemma crc16_table_ok : table_ok crc16_poly crc16_table.
Proof. apply table_check. by vm_compute. Qed.
Lemma crc32_table_ok : table_ok crc32_poly crc32_table.
Proof. apply table_check. by vm_compute. Qed.

(** One table step is eight steps of the reference. *)
Lemma inner_loop_ref poly table w c x :
  table_ok poly table -> 8 <= w -> 0 <= c < 2 ^ w -> byte_ok x ->
  CRC_INNER_LOOP table c x = crc_bits poly 8 (Z.lxor c x).
Proof.
  intros Ht Hw Hc Hx. pose proof (byte_width w x Hw Hx).
  rewrite (split_byte (Z.lxor c x)) by (apply (lxor_bound w); lia).
  rewrite crc_bits_lxor. rewrite (crc_bits_shiftl poly 8).
  unfold CRC_INNER_LOOP. rewrite Ht.
  - f_equal. rewrite Z.shiftr_lxor.
    rewrite (Z.shiftr_div_pow2 x), (Z.div_small x) by (unfold byte_ok in *; lia).
    by rewrite Z.lxor_0_r.
  - change 0xff with (Z.ones 8). rewrite Z.land_ones by lia. apply Z.mod_pos_bound. lia.
Qed.

Lemma crc_ref_step_bound w poly c x :
  8 <= w -> 0 <= poly < 2 ^ w -> 0 <= c < 2 ^ w -> byte_ok x ->
  0 <= crc_bits poly 8 (Z.lxor c x) < 2 ^ w.
Proof.
  intros. apply crc_bits_bound; [lia|done|]. apply lxor_bound; [lia|done|by apply byte_width].
Qed.

Lemma hndcrc8_spec pdata crc :
  byte_ok crc -> Forall byte_ok pdata -> hndcrc8 pdata crc = crc_ref crc8_poly pdata crc.
Proof.
  intros Hc Hd. revert crc Hc. induction Hd as [|x pdata Hx Hd IH]; intros crc Hc; [done|].
  cbn [hndcrc8 crc_ref].
  assert (tbl crc8_table (Z.land (Z.lxor crc x) 255) = crc_bits crc8_poly 8 (Z.lxor crc x)) as ->.
  { pose proof (inner_loop_ref _ _ 8 crc x crc8_table_ok ltac:(lia) Hc Hx) as H.
    unfold CRC_INNER_LOOP in H. rewrite (Z.shiftr_div_pow2 crc), (Z.div_small crc) in H
      by (unfold byte_ok in *; lia). by rewrite Z.lxor_0_l in H. }
  apply IH. apply (crc_ref_step_bound 8); try done; lia.
Qed.

Lemma hndcrc16_spec pdata crc :
  0 <= crc < 2 ^ 16 -> Forall byte_ok pdata -> hndcrc16 pdata crc = crc_ref crc16_poly pdata crc.
Proof.
  intros Hc Hd. revert crc Hc. induction Hd as [|x pdata Hx Hd IH]; intros crc Hc; [done|].
  cbn [hndcrc16 crc_ref].
  rewrite (inner_loop_ref crc16_poly _ 16) by (done || lia || apply crc16_table_ok).
  assert (0 <= crc_bits crc16_poly 8 (Z.lxor crc x) < 2 ^ 16) as Hb
    by (apply crc_ref_step_bound; done || lia).
  rewrite wrap16_small by lia. by apply IH.
Qed.

Lemma hndcrc32_generic_spec pdata crc :
  0 <= crc < 2 ^ 32 -> Forall byte_ok pdata ->
  hndcrc32_generic pdata crc = crc_ref crc32_poly pdata crc.
Proof.
  intros Hc Hd. revert crc Hc. induction Hd as [|x pdata Hx Hd IH]; intros crc Hc; [done|].
  cbn [hndcrc32_generic crc_ref].
  rewrite (inner_loop_ref crc32_poly _ 32) by (done || lia || apply crc32_table_ok).
  assert (0 <= crc_bits crc32_poly 8 (Z.lxor crc x) < 2 ^ 32) as Hb
    by (apply crc_ref_step_bound; done || lia).
  rewrite wrap32_small by lia. by apply IH.
Qed.

Lemma crc_ref_app poly a b c : crc_ref poly (a ++ b) c = crc_ref poly b (crc_ref poly a c).
Proof. revert c. induction a as [|x a IH]; intros c; [done|]. cbn [app crc_ref]. apply IH. Qed.

Lemma crc_ref_bound w poly l c :
  8 <= w -> 0 <= poly < 2 ^ w -> 0 <= c < 2 ^ w -> Forall byte_ok l ->
  0 <= crc_ref poly l c < 2 ^ w.
Proof.
  intros Hw Hp Hc Hl. revert c Hc. induction Hl as [|x l Hx Hl IH]; intros c Hc; [done|].
  cbn [crc_ref]. apply IH, crc_ref_step_bound; done || lia.
Qed.

(** Feeding bytes is stepping over the number they spell. *)
Lemma crc_ref_le_value poly l c :
  crc_ref poly l c = crc_bits poly (8 * length l) (Z.lxor c (le_value l)).
Proof.
  revert c. induction l as [|x l IH]; intros c; [by rewrite Z.lxor_0_r|].
  cbn [crc_ref]. rewrite IH. cbn [le_value length].
  replace (8 * S (length l))%nat with (8 * length l + 8)%nat by lia.
  rewrite crc_bits_add. f_equal. rewrite <- Z.lxor_assoc, !crc_bits_lxor.
  by rewrite (crc_bits_shiftl poly 8).
Qed.

Lemma shiftl_8_lxor x v : byte_ok x -> Z.lxor x (Z.shiftl v 8) = x + 256 * v.
Proof.
  unfold byte_ok. intros Hx. rewrite <- Z.add_nocarry_lxor.
  { rewrite Z.shiftl_mul_pow2 by lia. lia. }
  apply Z.bits_inj'. intros n Hn. rewrite Z.land_spec, Z.bits_0.
  destruct (Z.ltb_spec n 8).
  - rewrite Z.shiftl_spec_low by lia. apply andb_false_r.
  - rewrite <- (Z.mod_small x (2 ^ 8)), Z.mod_pow2_bits_high by lia. done.
Qed.

Lemma le_value_bound l :
  Forall byte_ok l -> 0 <= le_value l < 2 ^ (8 * Z.of_nat (length l)).
Proof.
  induction 1 as [|x l Hx Hl IH]; [cbn; lia|]. cbn [le_value length].
  rewrite shiftl_8_lxor by done. unfold byte_ok in Hx.
  replace (8 * Z.of_nat (S (length l))) with (8 * Z.of_nat (length l) + 8) by lia.
  rewrite Z.pow_add_r by lia. change (2 ^ 8) with 256. lia.
Qed.

Lemma le_value_inj a b :
  Forall byte_ok a -> Forall byte_ok b -> length a = length b ->
  le_value a = le_value b -> a = b.
Proof.
  intros Ha. revert b. induction Ha as [|x a Hx Ha IH]; intros [|y b] Hb Hl; try done.
  inversion_clear Hb as [|? ? Hy Hb']. cbn [le_value]. rewrite !shiftl_8_lxor by done.
  unfold byte_ok in *. intros H. injection Hl as Hl.
  assert (x = y) as -> by lia. f_equal. apply IH; [done|done|lia].
Qed.

Lemma le_value_le_bytes n z : 0 <= z < 2 ^ (8 * Z.of_nat n) -> le_value (le_bytes n z) = z.
Proof.
  revert z. induction n as [|n IH]; intros z Hz; [change (2 ^ (8 * Z.of_nat 0)) with 1 in Hz; cbn; lia|].
  cbn [le_bytes le_value]. pose proof (Z.mod_pos_bound z 256) as Hm.
  rewrite shiftl_8_lxor by (unfold byte_ok; lia). rewrite IH.
  - pose proof (Z.div_mod z 256). lia.
  - split; [apply Z.div_pos; lia|]. apply Z.div_lt_upper_bound; [lia|].
    replace (8 * Z.of_nat (S n)) with (8 + 8 * Z.of_nat n) in Hz by lia.
    rewrite Z.pow_add_r in Hz by lia. change (2 ^ 8) with 256 in Hz. lia.
Qed.

Lemma le_bytes_ok n z : Forall byte_ok (le_bytes n z).
Proof.
  revert z. induction n as [|n IH]; intros z; constructor; auto.
  unfold byte_ok. apply Z.mod_pos_bound. lia.
Qed.

Lemma length_le_bytes n z : length (le_bytes n z) = n.
Proof. revert z. induction n as [|n IH]; intros z; cbn; auto. Qed.

(** * Residue and burst detection, for any width *)

(** The CRC of data followed by its complemented CRC is a constant. *)
Lemma crc_ref_residue poly n data c :
  (0 < n)%nat -> let w := 8 * Z.of_nat n in
  0 <= poly < 2 ^ w -> 0 <= c < 2 ^ w -> Forall byte_ok data ->
  crc_ref poly (data ++ le_bytes n (Z.lxor (crc_ref poly data c) (Z.ones w))) c
  = crc_bits poly (8 * n) (Z.ones w).
Proof.
  intros Hn w Hp Hc Hd. subst w. rewrite crc_ref_app, crc_ref_le_value, length_le_bytes.
  pose proof (crc_ref_bound (8 * Z.of_nat n) poly data c ltac:(lia) Hp Hc Hd).
  rewrite le_value_le_bytes.
  - by rewrite <- Z.lxor_assoc, Z.lxor_nilpotent, Z.lxor_0_l.
  - apply lxor_bound; [lia|done|]. rewrite Z.ones_equiv.
    pose proof (Z.pow_pos_nonneg 2 (8 * Z.of_nat n) ltac:(lia) ltac:(lia)). lia.
Qed.

Lemma crc_bit_inj w poly a b :
  0 < w -> 0 <= poly < 2 ^ w -> Z.testbit poly (w - 1) = true ->
  0 <= a < 2 ^ w -> 0 <= b < 2 ^ w -> crc_bit poly a = crc_bit poly b -> a = b.
Proof.
  intros Hw Hp Ht Ha Hb H.
  assert (Htop : forall z, 0 <= z < 2 ^ w ->
    Z.testbit (crc_bit poly z) (w - 1) = Z.testbit z 0).
  { intros z Hz. unfold crc_bit.
    assert (Z.testbit (Z.shiftr z 1) (w - 1) = false) as Hs.
    { rewrite Z.shiftr_spec by lia. rewrite <- (Z.mod_small z (2 ^ w)) by done.
      apply Z.mod_pow2_bits_high. lia. }
    destruct (Z.testbit z 0); [|done]. by rewrite Z.lxor_spec, Hs, Ht. }
  assert (Z.testbit a 0 = Z.testbit b 0) as H0 by (rewrite <- !Htop by done; by rewrite H).
  assert (Z.shiftr a 1 = Z.shiftr b 1) as H1.
  { unfold crc_bit in H. rewrite H0 in H. destruct (Z.testbit b 0); [|done].
    apply (f_equal (fun z => Z.lxor z poly)) in H.
    by rewrite !Z.lxor_assoc, Z.lxor_nilpotent, !Z.lxor_0_r in H. }
  rewrite (Z.div2_odd a), (Z.div2_odd b), <- !Z.bit0_odd, H0, !Z.div2_spec, H1. done.
Qed.

Lemma crc_bits_inj w poly n a b :
  0 < w -> 0 <= poly < 2 ^ w -> Z.testbit poly (w - 1) = true ->
  0 <= a < 2 ^ w -> 0 <= b < 2 ^ w -> crc_bits poly n a = crc_bits poly n b -> a = b.
Proof.
  intros Hw Hp Ht Ha Hb. induction n as [|n IH]; [done|]. cbn [crc_bits]. intros H.
  apply IH. apply (crc_bit_inj w poly); auto using crc_bits_bound.
Qed.

Lemma lxor_cancel_l c a b : Z.lxor c a = Z.lxor c b -> a = b.
Proof.
  intros H. apply (f_equal (Z.lxor c)) in H.
  by rewrite <- !Z.lxor_assoc, Z.lxor_nilpotent, !Z.lxor_0_l in H.
Qed.

Lemma crc_ref_inj w poly l a b :
  8 <= w -> 0 <= poly < 2 ^ w -> Z.testbit poly (w - 1) = true ->
  Forall byte_ok l -> 0 <= a < 2 ^ w -> 0 <= b < 2 ^ w ->
  crc_ref poly l a = crc_ref poly l b -> a = b.
Proof.
  intros Hw Hp Ht Hl. revert a b. induction Hl as [|x l Hx Hl IH]; intros a b Ha Hb H; [done|].
  cbn [crc_ref] in H. apply IH in H; [|apply crc_ref_step_bound; done..].
  pose proof (byte_width w x Hw Hx).
  apply (crc_bits_inj w) in H; [|done || lia || (apply lxor_bound; done || lia)..].
  rewrite (Z.lxor_comm a), (Z.lxor_comm b) in H. by apply lxor_cancel_l in H.
Qed.

(** A corruption confined to as many consecutive bytes as the CRC has changes it. *)
Lemma crc_ref_burst n poly pre e1 e2 post c :
  (0 < n)%nat -> let w := 8 * Z.of_nat n in
  0 <= poly < 2 ^ w -> Z.testbit poly (w - 1) = true -> 0 <= c < 2 ^ w ->
  Forall byte_ok (pre ++ e1 ++ post) -> Forall byte_ok e2 ->
  length e1 = length e2 -> (length e1 <= n)%nat ->
  crc_ref poly (pre ++ e1 ++ post) c = crc_ref poly (pre ++ e2 ++ post) c -> e1 = e2.
Proof.
  intros Hn w Hp Ht Hc Hok He2 Hl Hle H. subst w.
  apply Forall_app in Hok as [Hpre [He1 Hpost]%Forall_app].
  rewrite !crc_ref_app in H.
  pose proof (crc_ref_bound (8 * Z.of_nat n) poly pre c ltac:(lia) Hp Hc Hpre) as Hc'.
  revert H Hc'. generalize (crc_ref poly pre c). intros c' H Hc'.
  assert (Hb : forall e, Forall byte_ok e -> 0 <= crc_ref poly e c' < 2 ^ (8 * Z.of_nat n)).
  { intros e He. apply crc_ref_bound; try done; lia. }
  apply (crc_ref_inj (8 * Z.of_nat n)) in H; try done; try lia; auto.
  assert (Hv : forall e, Forall byte_ok e -> (length e <= n)%nat ->
    0 <= le_value e < 2 ^ (8 * Z.of_nat n)).
  { intros e He Hel. pose proof (le_value_bound e He).
    pose proof (Z.pow_le_mono_r 2 (8 * Z.of_nat (length e)) (8 * Z.of_nat n)). lia. }
  rewrite !crc_ref_le_value, <- Hl in H.
  apply (crc_bits_inj (8 * Z.of_nat n)) in H; try done; try lia;
    [|apply lxor_bound; [lia|done|apply Hv; done || lia]..].
  apply lxor_cancel_l in H. by apply le_value_inj.
Qed.

(** * The MIPS word loop *)

Lemma hndcrc32_generic_app a b c :
  hndcrc32_generic (a ++ b) c = hndcrc32_generic b (hndcrc32_generic a c).
Proof. revert c. induction a as [|x a IH]; intros c; [done|]. apply IH. Qed.

Lemma crc32_bytes_spec mem n crc :
  0 <= n ->
  crc32_bytes mem n crc =
  if n <=? Z.of_nat (length mem)
  then Some (hndcrc32_generic (take (Z.to_nat n) mem) crc, drop (Z.to_nat n) mem)
  else None.
Proof.
  revert n crc. induction mem as [|x mem IH]; intros n crc Hn; cbn [crc32_bytes length].
  - destruct (Z.eqb_spec n 0) as [->|]; [done|].
    by rewrite (proj2 (Z.leb_gt _ _)) by (cbn; lia).
  - destruct (Z.eqb_spec n 0) as [->|]; [done|]. rewrite IH by lia.
    replace (Z.to_nat n) with (S (Z.to_nat (n - 1))) by lia.
    destruct (Z.leb_spec (n - 1) (Z.of_nat (length mem))), (Z.leb_spec n (Z.of_nat (S (length mem))));
      try lia; done.
Qed.

Lemma crc32_words_spec k mem crc :
  (4 * k <= length mem)%nat ->
  crc32_words mem (4 * Z.of_nat k) crc =
  Some (hndcrc32_generic (take (4 * k) mem) crc, drop (4 * k) mem).
Proof.
  revert mem crc. induction k as [|k IH]; intros mem crc Hl.
  { by destruct mem. }
  destruct mem as [|t0 [|t1 [|t2 [|t3 mem]]]]; cbn [length] in Hl; try lia.
  cbn [crc32_words]. rewrite (proj2 (Z.leb_gt _ _)) by lia.
  replace (4 * Z.of_nat (S k) - 4) with (4 * Z.of_nat k) by lia.
  rewrite IH by lia. replace (4 * S k)%nat with (S (S (S (S (4 * k)))))%nat by lia. done.
Qed.

(** Number of bytes before the next word boundary. *)
Definition pad (addr : Z) : Z := (- addr) mod 4.

Lemma align_up addr :
  0 <= addr < 2 ^ 32 - 4 -> Z.land (wrap32 (addr + 3)) 0xfffffffc = addr + pad addr.
Proof.
  intros Ha. rewrite wrap32_small by lia. unfold pad.
  replace 0xfffffffc with (Z.ldiff (Z.ones 32) (Z.ones 2)) by reflexivity.
  assert (Z.land (addr + 3) (Z.ldiff (Z.ones 32) (Z.ones 2)) = Z.ldiff (addr + 3) (Z.ones 2)) as ->.
  { apply Z.bits_inj'. intros n Hn. rewrite Z.land_spec, !Z.ldiff_spec, Z.testbit_ones_nonneg by lia.
    destruct (Z.ltb_spec n 32); cbn [andb]; [done|].
    rewrite <- (Z.mod_small (addr + 3) (2 ^ 32)), Z.mod_pow2_bits_high by lia. done. }
  rewrite Z.ldiff_ones_r, Z.shiftl_mul_pow2, Z.shiftr_div_pow2 by lia. change (2 ^ 2) with 4.
  pose proof (Z.div_mod (addr + 3) 4). pose proof (Z.mod_pos_bound (addr + 3) 4).
  pose proof (Z.div_mod (- addr) 4). pose proof (Z.mod_pos_bound (- addr) 4). lia.
Qed.

Lemma land_3 n : Z.land n 3 = n mod 4.
Proof. change 3 with (Z.ones 2). by rewrite Z.land_ones by lia. Qed.

Lemma land_not_3 n : 0 <= n < 2 ^ 32 -> Z.land n 0xfffffffc = 4 * (n / 4).
Proof.
  intros Hn. replace 0xfffffffc with (Z.ldiff (Z.ones 32) (Z.ones 2)) by reflexivity.
  assert (Z.land n (Z.ldiff (Z.ones 32) (Z.ones 2)) = Z.ldiff n (Z.ones 2)) as ->.
  { apply Z.bits_inj'. intros i Hi. rewrite Z.land_spec, !Z.ldiff_spec, Z.testbit_ones_nonneg by lia.
    destruct (Z.ltb_spec i 32); cbn [andb]; [done|].
    rewrite <- (Z.mod_small n (2 ^ 32)), Z.mod_pow2_bits_high by lia. done. }
  rewrite Z.ldiff_ones_r, Z.shiftl_mul_pow2, Z.shiftr_div_pow2 by lia. change (2 ^ 2) with 4. lia.
Qed.

(** The three loops, when the middle one runs over [4 * k] bytes. *)
Lemma hndcrc32_loops addr mem nbytes crc rest k :
  0 < addr < 2 ^ 32 - 4 ->
  let n := wrap32 (nbytes - pad addr) in
  Z.land n 3 = rest ->
  (let pend := wrap32 (addr + pad addr + Z.land n 0xfffffffc) in
   if addr + pad addr <? pend then pend - (addr + pad addr) else 0) = 4 * Z.of_nat k ->
  (Z.to_nat (pad addr) + 4 * k + Z.to_nat rest <= length mem)%nat ->
  hndcrc32 addr mem nbytes crc =
  Some (hndcrc32_generic (take (Z.to_nat (pad addr) + 4 * k + Z.to_nat rest) mem) crc).
Proof.
  intros Ha n Hrest Hk Hl. unfold hndcrc32. cbv zeta in Hk |- *. rewrite align_up by lia.
  replace (addr + pad addr - addr) with (pad addr) by lia. fold n.
  assert (0 <= pad addr < 4) as Hp by (apply Z.mod_pos_bound; lia).
  assert (0 <= rest < 4) as Hr by (rewrite <- Hrest, land_3; apply Z.mod_pos_bound; lia).
  rewrite crc32_bytes_spec, (proj2 (Z.leb_le _ _)) by lia.
  rewrite Hk, crc32_words_spec by (rewrite length_drop; lia).
  rewrite Hrest, crc32_bytes_spec, (proj2 (Z.leb_le _ _)) by (rewrite ?length_drop; lia).
  rewrite <- !hndcrc32_generic_app. f_equal. f_equal.
  rewrite <- Nat.add_assoc, !drop_drop.
  rewrite <- (take_take_drop mem (Z.to_nat (pad addr))). f_equal.
  rewrite <- (take_take_drop (drop _ mem) (4 * k)). by rewrite drop_drop.
Qed.

(** C39 On MIPS [hndcrc32] computes the byte-wise CRC of the [nbytes] bytes of any
    buffer that reaches the next word boundary, whatever its alignment. *)
Theorem hndcrc32_mips addr mem nbytes crc :
  0 < addr -> addr + nbytes < 2 ^ 32 - 4 ->
  pad addr <= nbytes <= Z.of_nat (length mem) ->
  0 <= crc < 2 ^ 32 -> Forall byte_ok mem ->
  hndcrc32 addr mem nbytes crc =
  Some (crc_ref crc32_poly (take (Z.to_nat nbytes) mem) crc).
Proof.
  intros Ha Hw Hn Hc Hm.
  assert (0 <= pad addr < 4) as Hp by (apply Z.mod_pos_bound; lia).
  rewrite <- hndcrc32_generic_spec by (done || by apply Forall_take).
  pose proof (Z.div_mod (nbytes - pad addr) 4). pose proof (Z.mod_pos_bound (nbytes - pad addr) 4).
  rewrite (hndcrc32_loops addr mem nbytes crc ((nbytes - pad addr) mod 4)
    (Z.to_nat ((nbytes - pad addr) / 4))).
  - do 3 f_equal. lia.
  - lia.
  - rewrite wrap32_small by lia. apply land_3.
  - rewrite (wrap32_small (nbytes - pad addr)), land_not_3 by lia.
    rewrite wrap32_small by lia. cbv zeta. case_test; lia.
  - lia.
Qed.

Lemma hndcrc32_mips_witness :
  hndcrc32 0x80001001 [1; 2; 3; 4; 5; 6; 7; 8; 9] 9 CRC32_INIT_VALUE =
  Some (crc_ref crc32_poly [1; 2; 3; 4; 5; 6; 7; 8; 9] CRC32_INIT_VALUE).
Proof.
  apply (hndcrc32_mips 0x80001001 [1; 2; 3; 4; 5; 6; 7; 8; 9] 9 CRC32_INIT_VALUE);
    try (cbn; lia).
  - vm_compute. split; discriminate.
  - vm_compute. split; [discriminate|done].
  - repeat constructor; unfold byte_ok; lia.
Defined.

(** A buffer that ends before the next word boundary: the count wraps, and four
    bytes past its end are included. *)
Lemma hndcrc32_short addr mem nbytes crc :
  0 < addr < 2 ^ 32 - 8 -> 0 <= nbytes < pad addr ->
  nbytes + 4 <= Z.of_nat (length mem) ->
  hndcrc32 addr mem nbytes crc =
  Some (hndcrc32_generic (take (Z.to_nat (nbytes + 4)) mem) crc).
Proof.
  intros Ha Hn Hm.
  assert (0 <= pad addr < 4) as Hp by (apply Z.mod_pos_bound; lia).
  assert (4 <= addr + pad addr) as H4.
  { unfold pad. pose proof (Z.div_mod (- addr) 4). pose proof (Z.mod_pos_bound (- addr) 4). lia. }
  assert (wrap32 (nbytes - pad addr) = 2 ^ 32 - (pad addr - nbytes)) as Hw.
  { unfold wrap32. symmetry. apply Z.mod_unique with (-1); lia. }
  rewrite (hndcrc32_loops addr mem nbytes crc (4 - (pad addr - nbytes)) 0).
  - do 3 f_equal. lia.
  - lia.
  - rewrite Hw, land_3. symmetry. apply Z.mod_unique with (2 ^ 30 - 1); lia.
  - rewrite Hw, land_not_3 by lia.
    assert ((2 ^ 32 - (pad addr - nbytes)) / 4 = 2 ^ 30 - 1) as ->
      by (symmetry; apply Z.div_unique with (4 - (pad addr - nbytes)); lia).
    assert (wrap32 (addr + pad addr + 4 * (2 ^ 30 - 1)) = addr + pad addr - 4) as ->
      by (unfold wrap32; symmetry; apply Z.mod_unique with 1; lia).
    cbv zeta. case_test; lia.
  - lia.
Qed.

(** * Properties *)

(** The table-driven CRCs compute the bit-serial CRC of their documented
    polynomial, from any initial value, so they can be chained over blocks. *)
Theorem crc_tables_correct a b crc8 crc16 :
  Forall byte_ok a -> Forall byte_ok b -> byte_ok crc8 -> 0 <= crc16 < 2 ^ 16 ->
  hndcrc8 b (hndcrc8 a crc8) = crc_ref crc8_poly (a ++ b) crc8 /\
  hndcrc16 b (hndcrc16 a crc16) = crc_ref crc16_poly (a ++ b) crc16.
Proof.
  intros Ha Hb H8 H16. rewrite !crc_ref_app. split.
  - rewrite !hndcrc8_spec; try done. rewrite hndcrc8_spec by done.
    apply (crc_ref_bound 8); done || lia.
  - rewrite !hndcrc16_spec; try done. rewrite hndcrc16_spec by done.
    apply (crc_ref_bound 16); done || lia.
Qed.

Lemma crc_tables_correct_witness :
  hndcrc8 [2; 255] (hndcrc8 [1] CRC8_INIT_VALUE) = crc_ref crc8_poly [1; 2; 255] CRC8_INIT_VALUE /\
  hndcrc16 [2; 255] (hndcrc16 [1] CRC16_INIT_VALUE)
    = crc_ref crc16_poly [1; 2; 255] CRC16_INIT_VALUE.
Proof.
  apply (crc_tables_correct [1] [2; 255] CRC8_INIT_VALUE CRC16_INIT_VALUE);
    try (repeat constructor; unfold byte_ok; lia); vm_compute; split; done || discriminate.
Defined.

(** Appending the complement of a CRC to its data, least significant byte first,
    gives the documented good value: the receiver's check. *)
Theorem crc_good_value data crc8 crc16 crc32 :
  Forall byte_ok data -> byte_ok crc8 -> 0 <= crc16 < 2 ^ 16 -> 0 <= crc32 < 2 ^ 32 ->
  hndcrc8 (data ++ le_bytes 1 (Z.lxor (hndcrc8 data crc8) 0xff)) crc8 = CRC8_GOOD_VALUE /\
  hndcrc16 (data ++ le_bytes 2 (Z.lxor (hndcrc16 data crc16) 0xffff)) crc16 = CRC16_GOOD_VALUE /\
  hndcrc32_generic (data ++ le_bytes 4 (Z.lxor (hndcrc32_generic data crc32) 0xffffffff)) crc32
    = CRC32_GOOD_VALUE.
Proof.
  intros Hd H8 H16 H32.
  assert (forall n z, Forall byte_ok (data ++ le_bytes n z)) as Hok
    by (intros; apply Forall_app; auto using le_bytes_ok).
  split; [|split].
  - rewrite !hndcrc8_spec by done.
    rewrite (crc_ref_residue crc8_poly 1) by (done || lia). by vm_compute.
  - rewrite !hndcrc16_spec by done.
    rewrite (crc_ref_residue crc16_poly 2) by (done || lia). by vm_compute.
  - rewrite !hndcrc32_generic_spec by done.
    rewrite (crc_ref_residue crc32_poly 4) by (done || lia). by vm_compute.
Qed.

Lemma crc_good_value_witness :
  let d := [0x31; 0x32; 0x33] in
  hndcrc8 (d ++ le_bytes 1 (Z.lxor (hndcrc8 d 0xff) 0xff)) 0xff = CRC8_GOOD_VALUE /\
  hndcrc16 (d ++ le_bytes 2 (Z.lxor (hndcrc16 d 0xffff) 0xffff)) 0xffff = CRC16_GOOD_VALUE /\
  hndcrc32_generic (d ++ le_bytes 4 (Z.lxor (hndcrc32_generic d 0xffffffff) 0xffffffff)) 0xffffffff
    = CRC32_GOOD_VALUE.
Proof.
  apply (crc_good_value [0x31; 0x32; 0x33] 0xff 0xffff 0xffffffff);
    try (repeat constructor; unfold byte_ok; lia); vm_compute; split; done || discriminate.
Defined.

(** Any corruption confined to one byte is detected by [hndcrc8], to two
    consecutive bytes by [hndcrc16], and to four by [hndcrc32]. *)
Theorem crc_detects_burst pre e1 e2 post crc8 crc16 crc32 :
  Forall byte_ok (pre ++ e1 ++ post) -> Forall byte_ok e2 -> length e1 = length e2 ->
  byte_ok crc8 -> 0 <= crc16 < 2 ^ 16 -> 0 <= crc32 < 2 ^ 32 -> e1 <> e2 ->
  ((length e1 <= 1)%nat ->
     hndcrc8 (pre ++ e1 ++ post) crc8 <> hndcrc8 (pre ++ e2 ++ post) crc8) /\
  ((length e1 <= 2)%nat ->
     hndcrc16 (pre ++ e1 ++ post) crc16 <> hndcrc16 (pre ++ e2 ++ post) crc16) /\
  ((length e1 <= 4)%nat ->
     hndcrc32_generic (pre ++ e1 ++ post) crc32 <> hndcrc32_generic (pre ++ e2 ++ post) crc32).
Proof.
  intros Hok He2 Hl H8 H16 H32 Hne.
  assert (Forall byte_ok (pre ++ e2 ++ post)) as Hok2.
  { rewrite !Forall_app in *. tauto. }
  split; [|split]; intros Hle H; apply Hne; revert H.
  - rewrite !hndcrc8_spec by done. by apply (crc_ref_burst 1); [lia|..].
  - rewrite !hndcrc16_spec by done. by apply (crc_ref_burst 2); [lia|..].
  - rewrite !hndcrc32_generic_spec by done. by apply (crc_ref_burst 4); [lia|..].
Qed.

Lemma crc_detects_burst_witness :
  ((1 <= 1)%nat -> hndcrc8 [1; 9; 2] 255 <> hndcrc8 [1; 8; 2] 255) /\
  ((1 <= 2)%nat -> hndcrc16 [1; 9; 2] 255 <> hndcrc16 [1; 8; 2] 255) /\
  ((1 <= 4)%nat -> hndcrc32_generic [1; 9; 2] 255 <> hndcrc32_generic [1; 8; 2] 255).
Proof.
  apply (crc_detects_burst [1] [9] [8] [2] 255 255 255);
    try (repeat constructor; unfold byte_ok; lia); try lia; try done; unfold byte_ok; lia.
Defined.
