(* ===== verification/Tlv.v ===== *)
(** The tag/length/value scanners of shared/bcmutils.c ([bcm_next_tlv],
    [bcm_parse_tlvs], [bcm_parse_ordered_tlvs]) and [bcm_valid_tlv] of
    include/bcmutils.h.

    A pointer to an element is the suffix of the buffer it points at; reading a
    byte outside the buffer is [None]. *)

From S2P Require Import Prelude.
From Stdlib Require Import ZArith Lia Bool List Sorted.
From stdpp Require Import base numbers list.

#[local] Open Scope Z_scope.

Definition elt_id (elt : bytes) : option Z := elt !! 0%nat.
Definition elt_len (elt : bytes) : option Z := elt !! 1%nat.

Definition bcm_valid_tlv (elt : bytes) (buflen : Z) : option bool :=
  if 2 <=? buflen then let? len := elt_len elt in Some (2 + len <=? buflen)
  else Some false.

(** The next element, or NULL, and the new [*buflen]. *)
Definition bcm_next_tlv (elt : bytes) (buflen : Z) : option (option bytes * Z) :=
  let? valid := bcm_valid_tlv elt buflen in
  if negb valid then Some (None, buflen)
  else
    let? len := elt_len elt in
    let elt := drop (Z.to_nat (2 + len)) elt in
    let buflen := buflen - (2 + len) in
    let? valid := bcm_valid_tlv elt buflen in
    if negb valid then Some (None, buflen) else Some (Some elt, buflen).

(** The loops; each iteration consumes at least two bytes of [totlen]. *)
Fixpoint parse_tlvs_loop (fuel : nat) (elt : bytes) (totlen key : Z) : option (option bytes) :=
  match fuel with
  | O => None
  | S fuel =>
      if 2 <=? totlen then
        let? len := elt_len elt in
        let? id := elt_id elt in
        if (id =? key) && (len + 2 <=? totlen) then Some (Some elt)
        else parse_tlvs_loop fuel (drop (Z.to_nat (len + 2)) elt) (totlen - (len + 2)) key
      else Some None
  end.

Definition bcm_parse_tlvs (buf : bytes) (buflen key : Z) : option (option bytes) :=
  parse_tlvs_loop (S (Z.to_nat buflen)) buf buflen key.

Fixpoint parse_ordered_loop (fuel : nat) (elt : bytes) (totlen key : Z) : option (option bytes) :=
  match fuel with
  | O => None
  | S fuel =>
      if 2 <=? totlen then
        let? id := elt_id elt in
        let? len := elt_len elt in
        if key <? id then Some None
        else if (id =? key) && (len + 2 <=? totlen) then Some (Some elt)
        else parse_ordered_loop fuel (drop (Z.to_nat (len + 2)) elt) (totlen - (len + 2)) key
      else Some None
  end.

Definition bcm_parse_ordered_tlvs (buf : bytes) (buflen key : Z) : option (option bytes) :=
  parse_ordered_loop (S (Z.to_nat buflen)) buf buflen key.

(** * Specification vocabulary *)

(** A list of (tag, value) pairs as bytes. *)
Definition tlv : Type := Z * bytes.
Definition encode1 (e : tlv) : bytes := e.1 :: Z.of_nat (length e.2) :: e.2.
Definition encode (l : list tlv) : bytes := concat (map encode1 l).

(** The elements from the first one with a given tag on. *)
Fixpoint from_tag (key : Z) (l : list tlv) : option (list tlv) :=
  match l with
  | [] => None
  | e :: t => if e.1 =? key then Some l else from_tag key t
  end.

(** * Lemmas *)

Lemma elt_bytes elt totlen :
  2 <= totlen <= Z.of_nat (length elt) -> Forall byte_ok elt ->
  exists id len, elt_id elt = Some id /\ elt_len elt = Some len /\ byte_ok len.
Proof.
  intros Hl Hok. destruct elt as [|id [|len elt]]; cbn in Hl; try lia.
  rewrite !Forall_cons in Hok. exists id, len. split; [done|]. split; [done|]. tauto.
Qed.

(** What every scan guarantees: it ends, it reads only inside the buffer, and the
    element it returns lies inside the part that was announced. *)
Lemma parse_tlvs_loop_safe fuel elt totlen key :
  (Z.to_nat totlen < fuel)%nat -> totlen <= Z.of_nat (length elt) -> Forall byte_ok elt ->
  exists r, parse_tlvs_loop fuel elt totlen key = Some r /\
    forall e, r = Some e -> exists k len,
      e = drop k elt /\ elt_id e = Some key /\ elt_len e = Some len /\
      Z.of_nat k + 2 + len <= totlen.
Proof.
  revert elt totlen. induction fuel as [|fuel IH]; intros elt totlen Hf Hl Hok; [lia|].
  cbn [parse_tlvs_loop]. case_test; [|by eexists].
  destruct (elt_bytes elt totlen) as (id & len & Hid & Hlen & Hb); [lia|done|].
  rewrite Hid, Hlen. unfold byte_ok in Hb. case_test.
  - eexists. split; [reflexivity|]. intros ? [= <-]. exists 0%nat, len.
    rewrite drop_0. repeat split; try done; [congruence|lia].
  - destruct (decide (len + 2 <= totlen)).
    + destruct (IH (drop (Z.to_nat (len + 2)) elt) (totlen - (len + 2))) as (r & Hr & Hspec);
        [lia|rewrite length_drop; lia|by apply Forall_drop|].
      exists r. split; [done|]. intros e' (k & len' & -> & ? & ? & ?)%Hspec.
      rewrite drop_drop in *. exists (Z.to_nat (len + 2) + k)%nat, len'. repeat split; try done; lia.
    + destruct fuel as [|fuel]; [lia|]. cbn [parse_tlvs_loop].
      rewrite (proj2 (Z.leb_gt _ _)) by lia. by eexists.
Qed.

(** Fuel does not matter once there is enough. *)
Lemma encode_cons e l : encode (e :: l) = encode1 e ++ encode l.
Proof. reflexivity. Qed.

Lemma encode1_length e : length (encode1 e) = (2 + length e.2)%nat.
Proof. reflexivity. Qed.

Lemma drop_encode1 e rest :
  drop (Z.to_nat (Z.of_nat (length e.2) + 2)) (encode1 e ++ rest) = rest.
Proof.
  rewrite drop_app_length'; [done|]. rewrite encode1_length. lia.
Qed.

Lemma parse_tlvs_loop_encode fuel l key :
  (length (encode l) < fuel)%nat ->
  parse_tlvs_loop fuel (encode l) (Z.of_nat (length (encode l))) key
  = Some (encode <$> from_tag key l).
Proof.
  revert fuel. induction l as [|e l IH]; intros [|fuel] Hf; try lia; [done|].
  rewrite encode_cons, length_app, encode1_length in *.
  cbn [parse_tlvs_loop]. rewrite (proj2 (Z.leb_le _ _)) by lia.
  cbn [elt_len elt_id encode1 app lookup list_lookup from_tag].
  destruct (e.1 =? key) eqn:E; cbn [andb].
  - rewrite (proj2 (Z.leb_le _ _)) by lia. done.
  - change (e.1 :: Z.of_nat (length e.2) :: e.2 ++ encode l) with (encode1 e ++ encode l).
    rewrite drop_encode1.
    replace (Z.of_nat (2 + length e.2 + length (encode l)) - (Z.of_nat (length e.2) + 2))
      with (Z.of_nat (length (encode l))) by lia.
    apply IH. lia.
Qed.

Lemma from_tag_above key l :
  Forall (fun e : tlv => key < e.1) l -> from_tag key l = None.
Proof.
  induction 1 as [|e l He _ IH]; [done|]. cbn. rewrite (proj2 (Z.eqb_neq _ _)) by lia. done.
Qed.

Lemma parse_ordered_loop_encode fuel l key :
  (length (encode l) < fuel)%nat ->
  StronglySorted (fun a b : tlv => a.1 <= b.1) l ->
  parse_ordered_loop fuel (encode l) (Z.of_nat (length (encode l))) key
  = Some (encode <$> from_tag key l).
Proof.
  revert fuel. induction l as [|e l IH]; intros [|fuel] Hf Hs; try lia; [done|].
  inversion_clear Hs as [|? ? Hs' Hall].
  rewrite encode_cons, length_app, encode1_length in *.
  cbn [parse_ordered_loop]. rewrite (proj2 (Z.leb_le _ _)) by lia.
  cbn [elt_len elt_id encode1 app lookup list_lookup from_tag].
  destruct (Z.ltb_spec key e.1).
  { rewrite (proj2 (Z.eqb_neq e.1 key)), from_tag_above; [done| |lia].
    eapply Forall_impl; [exact Hall|]. cbn. intros. lia. }
  destruct (e.1 =? key) eqn:E; cbn [andb].
  - rewrite (proj2 (Z.leb_le _ _)) by lia. done.
  - change (e.1 :: Z.of_nat (length e.2) :: e.2 ++ encode l) with (encode1 e ++ encode l).
    rewrite drop_encode1.
    replace (Z.of_nat (2 + length e.2 + length (encode l)) - (Z.of_nat (length e.2) + 2))
      with (Z.of_nat (length (encode l))) by lia.
    apply IH; [lia|done].
Qed.

(** * Properties *)

(** On any buffer of at least [buflen] bytes [bcm_parse_tlvs] terminates, reads
    no byte outside the buffer, and an element it returns has the wanted tag and
    lies, value included, within the first [buflen] bytes. *)
Theorem bcm_parse_tlvs_safe buf buflen key :
  buflen <= Z.of_nat (length buf) -> Forall byte_ok buf ->
  exists r, bcm_parse_tlvs buf buflen key = Some r /\
    forall e, r = Some e -> exists k len,
      e = drop k buf /\ elt_id e = Some key /\ elt_len e = Some len /\
      Z.of_nat k + 2 + len <= buflen.
Proof. apply parse_tlvs_loop_safe. lia. Qed.

Lemma bcm_parse_tlvs_safe_witness :
  exists r, bcm_parse_tlvs [1; 1; 7; 5; 9; 0] 6 5 = Some r /\
    forall e, r = Some e -> exists k len,
      e = drop k [1; 1; 7; 5; 9; 0] /\ elt_id e = Some 5 /\ elt_len e = Some len /\
      Z.of_nat k + 2 + len <= 6.
Proof.
  apply (bcm_parse_tlvs_safe [1; 1; 7; 5; 9; 0] 6 5); [cbn; lia|].
  repeat constructor; unfold byte_ok; lia.
Defined.

(** On an encoded list both scanners return the first element with the tag, the
    ordered one provided the tags do not decrease. *)
Theorem tlv_scanners_find_first l key :
  let buf := encode l in let buflen := Z.of_nat (length buf) in
  bcm_parse_tlvs buf buflen key = Some (encode <$> from_tag key l) /\
  (StronglySorted (fun a b : tlv => a.1 <= b.1) l ->
   bcm_parse_ordered_tlvs buf buflen key = bcm_parse_tlvs buf buflen key).
Proof.
  cbv zeta. split.
  - apply parse_tlvs_loop_encode. lia.
  - intros Hs. unfold bcm_parse_ordered_tlvs, bcm_parse_tlvs.
    rewrite parse_tlvs_loop_encode, parse_ordered_loop_encode by (done || lia). done.
Qed.

Lemma tlv_scanners_find_first_witness :
  let l : list tlv := [(1, [7; 7]); (5, []); (5, [1])] in
  let buf := encode l in let buflen := Z.of_nat (length buf) in
  bcm_parse_tlvs buf buflen 5 = Some (encode <$> from_tag 5 l) /\
  bcm_parse_ordered_tlvs buf buflen 5 = bcm_parse_tlvs buf buflen 5.
Proof.
  cbv zeta. destruct (tlv_scanners_find_first [(1, [7; 7]); (5, []); (5, [1])] 5) as [H1 H2].
  split; [exact H1|]. apply H2. repeat constructor; cbn; lia.
Defined.

(** Walking an encoded list with [bcm_next_tlv] visits its elements in order,
    and leaves in [*buflen] the bytes of the elements not passed yet. *)
Theorem bcm_next_tlv_walks e l :
  bcm_next_tlv (encode (e :: l)) (Z.of_nat (length (encode (e :: l)))) =
  Some (match l with [] => None | _ => Some (encode l) end, Z.of_nat (length (encode l))).
Proof.
  unfold bcm_next_tlv, bcm_valid_tlv. rewrite encode_cons, length_app, encode1_length.
  rewrite (proj2 (Z.leb_le 2 _)) by lia. cbn [elt_len encode1 app lookup list_lookup].
  rewrite (proj2 (Z.leb_le (2 + _) _)) by lia. cbn [negb].
  change (e.1 :: Z.of_nat (length e.2) :: e.2 ++ encode l) with (encode1 e ++ encode l).
  rewrite (Z.add_comm 2), drop_encode1.
  replace (Z.of_nat (2 + length e.2 + length (encode l)) - (Z.of_nat (length e.2) + 2))
    with (Z.of_nat (length (encode l))) by lia.
  destruct l as [|e' l]; [done|].
  rewrite encode_cons, length_app, encode1_length, (proj2 (Z.leb_le 2 _)) by lia.
  cbn [elt_len encode1 app lookup list_lookup]. rewrite (proj2 (Z.leb_le (2 + _) _)) by lia.
  done.
Qed.
