(* ===== verification/Pktq.v ===== *)
(** The packet routines of shared/bcmutils.c: buffer chains ([pktcopy], [pkttotlen],
    [pktlast]) and the multi-precedence packet queue ([pktq_*], with the data
    structures and macros of include/bcmutils.h).

    A packet is an address; its link word ([PKTLINK]) lives in a store shared by all
    queues, absent for [NULL].  A failed [ASSERT] is [None]. *)

From S2P Require Import Prelude.
From Stdlib Require Import ZArith Lia Bool List Permutation.
From stdpp Require Import base numbers list gmap.

#[local] Open Scope Z_scope.

(** * Buffer chains

    A chain is the list of its buffers' contents. *)

Module Chain.

(** Skip [offset] bytes; [None] when the chain ends first. *)
Fixpoint skip (p : list bytes) (offset : Z) : list bytes * Z :=
  match p with
  | [] => ([], offset)
  | b :: next =>
      if offset =? 0 then (p, offset)
      else if offset <? Z.of_nat (length b) then (p, offset)
      else skip next (offset - Z.of_nat (length b))
  end.

(** The bytes written to [buf]; the result of the function is their number. *)
Fixpoint copy (p : list bytes) (offset len : Z) : bytes :=
  match p with
  | [] => []
  | b :: next =>
      if len =? 0 then []
      else
        let n := Z.min (Z.of_nat (length b) - offset) len in
        take (Z.to_nat n) (drop (Z.to_nat offset) b) ++ copy next 0 (len - n)
  end.

Definition pktcopy (p : list bytes) (offset len : Z) : bytes * Z :=
  let len := if len <? 0 then 4096 else len in
  let '(p, offset) := skip p offset in
  let buf := copy p offset len in
  (buf, Z.of_nat (length buf)).

Definition pkttotlen (p : list bytes) : Z :=
  fold_left (fun total b => (total +u Z.of_nat (length b))%c) p 0.

(** The last buffer of a chain whose first buffer is [b]. *)
Fixpoint pktlast (b : bytes) (next : list bytes) : bytes :=
  match next with
  | [] => b
  | b' :: next => pktlast b' next
  end.

Lemma skip_spec p offset p' o :
  0 <= offset -> skip p offset = (p', o) ->
  0 <= o /\ drop (Z.to_nat offset) (concat p) = drop (Z.to_nat o) (concat p') /\
  (p' = [] \/ exists b next, p' = b :: next /\ (o = 0 \/ o < Z.of_nat (length b))).
Proof.
  revert offset. induction p as [|b next IH]; intros offset Ho; cbn [skip]; [by intros [= <- <-]; auto|].
  repeat case_test; [by intros [= <- <-]; eauto 10..|].
  intros H. apply IH in H as (? & Heq & ?); [|lia]. repeat split; [done| |done].
  rewrite <- Heq. cbn. rewrite drop_app, drop_ge by lia. cbn. f_equal. lia.
Qed.

Lemma copy_spec p offset len :
  0 <= offset -> 0 <= len ->
  (p = [] \/ exists b next, p = b :: next /\ (offset = 0 \/ offset < Z.of_nat (length b))) ->
  copy p offset len = take (Z.to_nat len) (drop (Z.to_nat offset) (concat p)).
Proof.
  revert offset len. induction p as [|b next IH]; intros offset len Ho Hl Hp; cbn [copy].
  { cbn. by rewrite drop_nil, take_nil. }
  case_test; [by subst|]. destruct Hp as [|(b' & n' & [= <- <-] & Hb)]; [done|].
  assert (Z.to_nat offset <= length b)%nat by lia.
  rewrite IH; [|lia|lia|destruct next; [by left|right; do 2 eexists; split; [done|by left]]].
  cbn [concat]. rewrite drop_0.
  rewrite drop_app_le by lia.
  rewrite take_app, length_drop. f_equal; [|f_equal; lia].
  destruct (Z.le_gt_cases (Z.of_nat (length b) - offset) len).
  - rewrite Z.min_l, !take_ge by (rewrite ?length_drop; lia). done.
  - by rewrite Z.min_r by lia.
Qed.

Lemma pkttotlen_from (p : list bytes) t :
  0 <= t ->
  fold_left (fun total b => (total +u Z.of_nat (length b))%c) p (wrap32 t)
  = wrap32 (t + Z.of_nat (length (concat p))).
Proof.
  revert t. induction p as [|b p IH]; intros t Ht; cbn [fold_left concat].
  { cbn. by rewrite Z.add_0_r. }
  rewrite wrap32_add_l, IH, length_app by lia. f_equal. lia.
Qed.

(** [pktcopy] copies the bytes of the chain from [offset] on, [len] of them at most
    (4096 when [len] is negative), whatever the buffer boundaries, empty buffers
    included; it returns their number, 0 when the chain is shorter than [offset]. *)
Theorem pktcopy_spec (p : list bytes) offset len :
  0 <= offset ->
  let n := Z.to_nat (if len <? 0 then 4096 else len) in
  pktcopy p offset len =
  (take n (drop (Z.to_nat offset) (concat p)),
   Z.min (Z.of_nat n) (Z.max 0 (Z.of_nat (length (concat p)) - offset))) /\
  pkttotlen p = wrap32 (Z.of_nat (length (concat p))) /\
  (forall b, [pktlast b p] = drop (length p) (b :: p)).
Proof.
  intros Ho n. split; [|split].
  - unfold pktcopy. destruct (skip p offset) as [p' o] eqn:E.
    apply skip_spec in E as (Ho' & Heq & Hp); [|done].
    assert (0 <= (if len <? 0 then 4096 else len)) by (case_test; lia).
    rewrite copy_spec by done. fold n. rewrite <- Heq. f_equal.
    rewrite length_take, length_drop. lia.
  - unfold pkttotlen. change 0 with (wrap32 0) at 1. by rewrite pkttotlen_from.
  - induction p as [|x p IH]; intros b; [done|]. cbn. apply IH.
Qed.

Lemma pktcopy_spec_witness :
  pktcopy [[1; 2]; []; [3; 4; 5]] 1 3 = ([2; 3; 4], 3).
Proof. apply (pktcopy_spec [[1; 2]; []; [3; 4; 5]] 1 3). lia. Defined.

End Chain.

(** * The multi-precedence queue *)

Definition PKTQ_MAX_PREC : nat := 16.

Record pktq_prec := Prec {
  q_head : option Z;
  q_tail : option Z;
  q_len : Z;
  q_max : Z
}.

Record pktq := Pq {
  num_prec : Z;
  hi_prec : Z;
  max : Z;
  len : Z;
  q : list pktq_prec
}.

(** The queue with the packets' link words and the packets given to [PKTFREE]. *)
Record state := State {
  pq : pktq;
  link : gmap Z Z;
  freed : list (Z * bool)
}.

Definition PKTSETLINK (l : gmap Z Z) (p : Z) (x : option Z) : gmap Z Z :=
  partial_alter (fun _ => x) p l.

Definition pktq_full (a : pktq) : bool := max a <=? len a.
Definition pktq_pfull (r : pktq_prec) : bool := q_max r <=? q_len r.

Definition prec_ok (a : pktq) (prec : Z) : bool := (0 <=? prec) && (prec <? num_prec a).

(** [pq->q[prec] = r], [pq->len = n] and [pq->hi_prec = h]. *)
Definition put (a : pktq) (prec : Z) (r : pktq_prec) (n h : Z) : pktq :=
  Pq (num_prec a) h (max a) n (<[Z.to_nat prec := r]> (q a)).

(** [if ((q->head = PKTLINK(p)) == NULL) q->tail = NULL; q->len--]. *)
Definition pop_head (l : gmap Z Z) (r : pktq_prec) (p : Z) : pktq_prec :=
  let h := l !! p in
  Prec h (match h with None => None | Some _ => q_tail r end) (wrap16 (q_len r - 1)) (q_max r).

Definition bump (h prec : Z) : Z := if h <? prec then wrap8 prec else h.

Definition pktq_penq (s : state) (prec p : Z) : option state :=
  let a := pq s in
  assert! prec_ok a prec in
  assert! bool_decide (link s !! p = None) in
  assert! negb (pktq_full a) in
  let? r := q a !! Z.to_nat prec in
  assert! negb (pktq_pfull r) in
  let? (l, h) :=
    match q_head r with
    | Some h => let? t := q_tail r in Some (PKTSETLINK (link s) t (Some p), h)
    | None => Some (link s, p)
    end in
  let r := Prec (Some h) (Some p) (wrap16 (q_len r + 1)) (q_max r) in
  Some (State (put a prec r (wrap16 (len a + 1)) (bump (hi_prec a) prec)) l (freed s)).

Definition pktq_penq_head (s : state) (prec p : Z) : option state :=
  let a := pq s in
  assert! prec_ok a prec in
  assert! bool_decide (link s !! p = None) in
  assert! negb (pktq_full a) in
  let? r := q a !! Z.to_nat prec in
  assert! negb (pktq_pfull r) in
  let t := match q_head r with None => Some p | Some _ => q_tail r end in
  let l := PKTSETLINK (link s) p (q_head r) in
  let r := Prec (Some p) t (wrap16 (q_len r + 1)) (q_max r) in
  Some (State (put a prec r (wrap16 (len a + 1)) (bump (hi_prec a) prec)) l (freed s)).

(** Take the head [p] off [q[prec]]; [h] is the hint. *)
Definition take_head (s : state) (prec : Z) (r : pktq_prec) (p h : Z) : state :=
  let a := pq s in
  State (put a prec (pop_head (link s) r p) (wrap16 (len a - 1)) h)
    (PKTSETLINK (link s) p None) (freed s).

Definition pktq_pdeq (s : state) (prec : Z) : option (option Z * state) :=
  assert! prec_ok (pq s) prec in
  let? r := q (pq s) !! Z.to_nat prec in
  match q_head r with
  | None => Some (None, s)
  | Some p => Some (Some p, take_head s prec r p (hi_prec (pq s)))
  end.

(** [for (prev = NULL; p != q->tail; p = PKTLINK(p)) prev = p]. *)
Fixpoint walk_tail (fuel : nat) (l : gmap Z Z) (prev : option Z) (p : Z) (t : option Z)
    : option (option Z * Z) :=
  match fuel with
  | O => None
  | S fuel =>
      if bool_decide (Some p = t) then Some (prev, p)
      else let? n := l !! p in walk_tail fuel l (Some p) n t
  end.

(** A chain without a repeated packet is shorter than this. *)
Definition chain_fuel (l : gmap Z Z) : nat := S (S (size l)).

(** Take the tail off [q[prec]], whose head is [p]. *)
Definition take_tail (s : state) (prec : Z) (r : pktq_prec) (p : Z) : option (Z * state) :=
  let a := pq s in
  let? (prev, p) := walk_tail (chain_fuel (link s)) (link s) None p (q_tail r) in
  let l := match prev with Some x => PKTSETLINK (link s) x None | None => link s end in
  let h := match prev with Some _ => q_head r | None => None end in
  let r := Prec h prev (wrap16 (q_len r - 1)) (q_max r) in
  Some (p, State (put a prec r (wrap16 (len a - 1)) (hi_prec a)) l (freed s)).

Definition pktq_pdeq_tail (s : state) (prec : Z) : option (option Z * state) :=
  assert! prec_ok (pq s) prec in
  let? r := q (pq s) !! Z.to_nat prec in
  match q_head r with
  | None => Some (None, s)
  | Some p => let? (p, s) := take_tail s prec r p in Some (Some p, s)
  end.

(** The loop of [pktq_pflush] on [q[prec]]. *)
Fixpoint pflush_loop (fuel : nat) (s : state) (prec : Z) (dir : bool) : option state :=
  match fuel with
  | O => None
  | S fuel =>
      let a := pq s in
      let? r := q a !! Z.to_nat prec in
      match q_head r with
      | None => Some s
      | Some p =>
          let r := Prec (link s !! p) (q_tail r) (wrap16 (q_len r - 1)) (q_max r) in
          pflush_loop fuel
            (State (put a prec r (wrap16 (len a - 1)) (hi_prec a))
               (PKTSETLINK (link s) p None) (freed s ++ [(p, dir)])) prec dir
      end
  end.

Definition pktq_pflush (s : state) (prec : Z) (dir : bool) : option state :=
  let? s := pflush_loop (chain_fuel (link s)) s prec dir in
  let? r := q (pq s) !! Z.to_nat prec in
  assert! q_len r =? 0 in
  let a := pq s in
  Some (State (put a prec (Prec (q_head r) None (q_len r) (q_max r)) (len a) (hi_prec a))
          (link s) (freed s)).

(** [for (p = q->head; p && PKTLINK(p) != pktbuf; p = PKTLINK(p))]. *)
Fixpoint find_prev (fuel : nat) (l : gmap Z Z) (p : option Z) (b : Z) : option (option Z) :=
  match fuel with
  | O => None
  | S fuel =>
      match p with
      | None => Some None
      | Some x => if bool_decide (l !! x = Some b) then Some (Some x) else find_prev fuel l (l !! x) b
      end
  end.

Definition pktq_pdel (s : state) (pktbuf : option Z) (prec : Z) : option (bool * state) :=
  let a := pq s in
  assert! prec_ok a prec in
  match pktbuf with
  | None => Some (false, s)
  | Some b =>
      let? r := q a !! Z.to_nat prec in
      if bool_decide (q_head r = Some b) then
        Some (true, take_head s prec r b (hi_prec a))
      else
        let? p := find_prev (chain_fuel (link s)) (link s) (q_head r) b in
        match p with
        | None => Some (false, s)
        | Some x =>
            let l := PKTSETLINK (link s) x (link s !! b) in
            let t := if bool_decide (q_tail r = Some b) then Some x else q_tail r in
            let r := Prec (q_head r) t (wrap16 (q_len r - 1)) (q_max r) in
            Some (true, State (put a prec r (wrap16 (len a - 1)) (hi_prec a))
                          (PKTSETLINK l b None) (freed s))
        end
  end.

(** [n] is the number of elements of the caller's [q] array. *)
Definition pktq_init (s : state) (n : nat) (num_prec max_len : Z) : option state :=
  assert! (0 <? num_prec) && (num_prec <=? Z.of_nat PKTQ_MAX_PREC) in
  assert! (Z.to_nat num_prec <=? n)%nat in
  let m := wrap16 max_len in
  Some (State
    (Pq (wrap16 num_prec) 0 m 0
       (replicate (Z.to_nat num_prec) (Prec None None 0 m) ++
        drop (Z.to_nat num_prec) (q (pq s)))) (link s) (freed s)).

Definition set_q_max (m : Z) (r : pktq_prec) : pktq_prec :=
  Prec (q_head r) (q_tail r) (q_len r) m.

Definition pktq_setmax (s : state) (max_len : Z) : Z * state :=
  let a := pq s in
  if max_len =? 0 then (max a, s)
  else
    let m := wrap16 max_len in
    let n := Z.to_nat (num_prec a) in
    (m, State (Pq (num_prec a) (hi_prec a) m (len a)
                 (map (set_q_max m) (take n (q a)) ++ drop n (q a)))
          (link s) (freed s)).

(** [while ((prec = pq->hi_prec) > 0 && pq->q[prec].head == NULL) pq->hi_prec--]. *)
Fixpoint lower_hi (prec : nat) (qs : list pktq_prec) : option nat :=
  match prec with
  | O => Some O
  | S prec' =>
      let? r := qs !! prec in
      match q_head r with None => lower_hi prec' qs | Some _ => Some prec end
  end.

Definition set_hi (s : state) (h : nat) : state :=
  let a := pq s in
  State (Pq (num_prec a) (Z.of_nat h) (max a) (len a) (q a)) (link s) (freed s).

(** The packet and the precedence stored through [prec_out]. *)
Definition pktq_deq (s : state) : option (option (Z * Z) * state) :=
  if len (pq s) =? 0 then Some (None, s)
  else
    let? prec := lower_hi (Z.to_nat (hi_prec (pq s))) (q (pq s)) in
    let s := set_hi s prec in
    let? r := q (pq s) !! prec in
    match q_head r with
    | None => Some (None, s)
    | Some p => Some (Some (p, Z.of_nat prec), take_head s (Z.of_nat prec) r p (Z.of_nat prec))
    end.

(** [for (prec = 0; prec < pq->hi_prec; prec++) if (pq->q[prec].head) break], with
    [n] levels left below the hint. *)
Fixpoint lowest (n prec : nat) (qs : list pktq_prec) : option nat :=
  match n with
  | O => Some prec
  | S n =>
      let? r := qs !! prec in
      match q_head r with None => lowest n (S prec) qs | Some _ => Some prec end
  end.

Definition pktq_deq_tail (s : state) : option (option (Z * Z) * state) :=
  if len (pq s) =? 0 then Some (None, s)
  else
    let? prec := lowest (Z.to_nat (hi_prec (pq s))) 0 (q (pq s)) in
    let? r := q (pq s) !! prec in
    match q_head r with
    | None => Some (None, s)
    | Some p =>
        let? (p, s) := take_tail s (Z.of_nat prec) r p in
        Some (Some (p, Z.of_nat prec),
              State (pq s) (PKTSETLINK (link s) p None) (freed s))
    end.

(** The packet is [NULL] or not; [prec_out] is written in both cases. *)
Definition pktq_peek (s : state) : option (option (option Z * Z) * state) :=
  if len (pq s) =? 0 then Some (None, s)
  else
    let? prec := lower_hi (Z.to_nat (hi_prec (pq s))) (q (pq s)) in
    let? r := q (pq s) !! prec in
    Some (Some (q_head r, Z.of_nat prec), set_hi s prec).

Definition pktq_peek_tail (s : state) : option (option (option Z * Z)) :=
  if len (pq s) =? 0 then Some None
  else
    let? prec := lowest (Z.to_nat (hi_prec (pq s))) 0 (q (pq s)) in
    let? r := q (pq s) !! prec in
    Some (Some (q_tail r, Z.of_nat prec)).

Fixpoint flush_loop (n : nat) (prec : Z) (s : state) (dir : bool) : option state :=
  match n with
  | O => Some s
  | S n => let? s := pktq_pflush s prec dir in flush_loop n (prec + 1) s dir
  end.

Definition pktq_flush (s : state) (dir : bool) : option state :=
  let? s := flush_loop (Z.to_nat (num_prec (pq s))) 0 s dir in
  assert! len (pq s) =? 0 in
  Some s.

Fixpoint mlen_loop (n : nat) (prec : nat) (qs : list pktq_prec) (prec_bmp acc : Z) : option Z :=
  match n with
  | O => Some acc
  | S n =>
      let? r := qs !! prec in
      mlen_loop n (S prec) qs prec_bmp
        (if truthy (Z.land prec_bmp (Z.shiftl 1 (Z.of_nat prec))) then acc + q_len r else acc)
  end.

Definition pktq_mlen (s : state) (prec_bmp : Z) : option Z :=
  mlen_loop (S (Z.to_nat (hi_prec (pq s)))) 0 (q (pq s)) prec_bmp 0.

(** [while ((prec_bmp & (1 << prec)) == 0 || pq->q[prec].head == NULL)
       if (prec-- == 0) return NULL]. *)
Fixpoint highest_in (prec : nat) (qs : list pktq_prec) (prec_bmp : Z) : option (option nat) :=
  let? r := qs !! prec in
  if negb (truthy (Z.land prec_bmp (Z.shiftl 1 (Z.of_nat prec)))) ||
     bool_decide (q_head r = None)
  then match prec with O => Some None | S prec => highest_in prec qs prec_bmp end
  else Some (Some prec).

Definition pktq_mdeq (s : state) (prec_bmp : Z) : option (option (Z * Z) * state) :=
  if len (pq s) =? 0 then Some (None, s)
  else
    let? prec := lower_hi (Z.to_nat (hi_prec (pq s))) (q (pq s)) in
    let s := set_hi s prec in
    let? m := highest_in prec (q (pq s)) prec_bmp in
    match m with
    | None => Some (None, s)
    | Some m =>
        let? r := q (pq s) !! m in
        match q_head r with
        | None => Some (None, s)
        | Some p => Some (Some (p, Z.of_nat m), take_head s (Z.of_nat m) r p (Z.of_nat prec))
        end
    end.

(** * Operations and their abstract meaning

    Abstractly the queue is one list of packets per precedence, the head first. *)

Inductive op :=
| Penq (prec p : Z) | PenqHead (prec p : Z)
| Pdeq (prec : Z) | PdeqTail (prec : Z)
| Pflush (prec : Z) (dir : bool) | Pdel (pktbuf : option Z) (prec : Z)
| Setmax (max_len : Z)
| Deq | DeqTail | Peek | PeekTail | Flush (dir : bool)
| Mlen (prec_bmp : Z) | Mdeq (prec_bmp : Z).

Inductive result :=
| Unit | Pkt (p : option Z) | Out (o : option (Z * Z)) | Look (o : option (option Z * Z))
| Bool (b : bool) | Int (n : Z).

Definition pktq_run (s : state) (o : op) : option (result * state) :=
  match o with
  | Penq prec p => let? s := pktq_penq s prec p in Some (Pkt (Some p), s)
  | PenqHead prec p => let? s := pktq_penq_head s prec p in Some (Pkt (Some p), s)
  | Pdeq prec => let? (p, s) := pktq_pdeq s prec in Some (Pkt p, s)
  | PdeqTail prec => let? (p, s) := pktq_pdeq_tail s prec in Some (Pkt p, s)
  | Pflush prec dir => let? s := pktq_pflush s prec dir in Some (Unit, s)
  | Pdel b prec => let? (b, s) := pktq_pdel s b prec in Some (Bool b, s)
  | Setmax n => let '(m, s) := pktq_setmax s n in Some (Int m, s)
  | Deq => let? (p, s) := pktq_deq s in Some (Out p, s)
  | DeqTail => let? (p, s) := pktq_deq_tail s in Some (Out p, s)
  | Peek => let? (p, s) := pktq_peek s in Some (Look p, s)
  | PeekTail => let? p := pktq_peek_tail s in Some (Look p, s)
  | Flush dir => let? s := pktq_flush s dir in Some (Unit, s)
  | Mlen b => let? n := pktq_mlen s b in Some (Int n, s)
  | Mdeq b => let? (p, s) := pktq_mdeq s b in Some (Out p, s)
  end.

Fixpoint pktq_runs (s : state) (os : list op) : option (list result * state) :=
  match os with
  | [] => Some ([], s)
  | o :: os =>
      let? (r, s) := pktq_run s o in
      let? (rs, s) := pktq_runs s os in Some (r :: rs, s)
  end.

Record aqueue := AQ {
  lists : list (list Z);
  caps : list Z;
  cap : Z;
  given : list (Z * bool)   (* packets freed so far *)
}.

Definition set_list (A : aqueue) (i : nat) (l : list Z) : aqueue :=
  AQ (<[i := l]> (lists A)) (caps A) (cap A) (given A).

(** [l] is the highest (lowest) non-empty list, among those of a bit mask. *)
Definition top (P : nat -> bool) (Q : list (list Z)) (i : nat) (l : list Z) : Prop :=
  Q !! i = Some l /\ l <> [] /\ P i = true /\
  forall j l', (i < j)%nat -> P j = true -> Q !! j = Some l' -> l' = [].
Definition bottom (Q : list (list Z)) (i : nat) (l : list Z) : Prop :=
  Q !! i = Some l /\ l <> [] /\ forall j l', (j < i)%nat -> Q !! j = Some l' -> l' = [].

Definition in_bmp (b : Z) (i : nat) : bool := truthy (Z.land b (Z.shiftl 1 (Z.of_nat i))).

(** The packets of the lists of a mask, the first list having number [k]. *)
Fixpoint masked_total (b : Z) (k : nat) (Q : list (list Z)) : Z :=
  match Q with
  | [] => 0
  | l :: Q => (if in_bmp b k then Z.of_nat (length l) else 0) + masked_total b (S k) Q
  end.

Inductive astep (A : aqueue) : op -> result -> aqueue -> Prop :=
| SPenq i l p : lists A !! i = Some l ->
    astep A (Penq (Z.of_nat i) p) (Pkt (Some p)) (set_list A i (l ++ [p]))
| SPenqHead i l p : lists A !! i = Some l ->
    astep A (PenqHead (Z.of_nat i) p) (Pkt (Some p)) (set_list A i (p :: l))
| SPdeq i p l : lists A !! i = Some (p :: l) ->
    astep A (Pdeq (Z.of_nat i)) (Pkt (Some p)) (set_list A i l)
| SPdeq_empty i : lists A !! i = Some [] ->
    astep A (Pdeq (Z.of_nat i)) (Pkt None) A
| SPdeqTail i p l : lists A !! i = Some (l ++ [p]) ->
    astep A (PdeqTail (Z.of_nat i)) (Pkt (Some p)) (set_list A i l)
| SPdeqTail_empty i : lists A !! i = Some [] ->
    astep A (PdeqTail (Z.of_nat i)) (Pkt None) A
| SPflush i l dir : lists A !! i = Some l ->
    astep A (Pflush (Z.of_nat i) dir) Unit
      (AQ (<[i := []]> (lists A)) (caps A) (cap A) (given A ++ map (fun p => (p, dir)) l))
| SPdel i l1 b l2 : lists A !! i = Some (l1 ++ b :: l2) ->
    astep A (Pdel (Some b) (Z.of_nat i)) (Bool true) (set_list A i (l1 ++ l2))
| SPdel_none i l b : lists A !! i = Some l -> b ∉ l ->
    astep A (Pdel (Some b) (Z.of_nat i)) (Bool false) A
| SPdel_null prec : astep A (Pdel None prec) (Bool false) A
| SSetmax_get : astep A (Setmax 0) (Int (cap A)) A
| SSetmax n : n <> 0 ->
    astep A (Setmax n) (Int (wrap16 n))
      (AQ (lists A) (map (fun _ => wrap16 n) (caps A)) (wrap16 n) (given A))
| SDeq i p l : top (fun _ => true) (lists A) i (p :: l) ->
    astep A Deq (Out (Some (p, Z.of_nat i))) (set_list A i l)
| SDeq_empty : concat (lists A) = [] -> astep A Deq (Out None) A
| SDeqTail i p l : bottom (lists A) i (l ++ [p]) ->
    astep A DeqTail (Out (Some (p, Z.of_nat i))) (set_list A i l)
| SDeqTail_empty : concat (lists A) = [] -> astep A DeqTail (Out None) A
| SPeek i l : top (fun _ => true) (lists A) i l ->
    astep A Peek (Look (Some (head l, Z.of_nat i))) A
| SPeek_empty : concat (lists A) = [] -> astep A Peek (Look None) A
| SPeekTail i l : bottom (lists A) i l ->
    astep A PeekTail (Look (Some (last l, Z.of_nat i))) A
| SPeekTail_empty : concat (lists A) = [] -> astep A PeekTail (Look None) A
| SFlush dir :
    astep A (Flush dir) Unit
      (AQ (map (fun _ => []) (lists A)) (caps A) (cap A)
          (given A ++ map (fun p => (p, dir)) (concat (lists A))))
| SMlen b : astep A (Mlen b) (Int (masked_total b 0 (lists A))) A
| SMdeq b i p l : top (in_bmp b) (lists A) i (p :: l) ->
    astep A (Mdeq b) (Out (Some (p, Z.of_nat i))) (set_list A i l)
| SMdeq_none b :
    (forall i l, lists A !! i = Some l -> in_bmp b i = true -> l = []) ->
    astep A (Mdeq b) (Out None) A.

(** The links along a list of packets: each points to the next, the last nowhere. *)
Fixpoint linked (l : gmap Z Z) (ps : list Z) : Prop :=
  match ps with
  | [] => True
  | p :: ps => l !! p = head ps /\ linked l ps
  end.

Definition prec_repr (l : gmap Z Z) (ps : list Z) (r : pktq_prec) : Prop :=
  linked l ps /\ q_head r = head ps /\ q_tail r = last ps /\ q_len r = Z.of_nat (length ps).

(** The invariant of the queue, with the hint's: no list above [hi_prec] has a
    packet. *)
Record repr (A : aqueue) (s : state) : Prop := Repr {
  r_num : num_prec (pq s) = Z.of_nat (length (lists A));
  r_pos : (0 < length (lists A) <= PKTQ_MAX_PREC)%nat;
  r_q : forall i l, lists A !! i = Some l ->
    exists r, q (pq s) !! i = Some r /\ prec_repr (link s) l r /\ caps A !! i = Some (q_max r);
  r_caps : length (caps A) = length (lists A);
  r_nodup : NoDup (concat (lists A));
  r_len : len (pq s) = Z.of_nat (length (concat (lists A)));
  r_small : len (pq s) < 65536;
  r_max : max (pq s) = cap A;
  r_cap : cap A < 65536;
  r_hi : 0 <= hi_prec (pq s) < num_prec (pq s);
  r_hint : forall i l, lists A !! i = Some l -> hi_prec (pq s) < Z.of_nat i -> l = [];
  r_freed : freed s = given A
}.

(** What the caller must ensure, the [ASSERT]s included. *)
Definition enabled (A : aqueue) (s : state) (o : op) : Prop :=
  match o with
  | Penq prec p | PenqHead prec p =>
      (0 <= prec < Z.of_nat (length (lists A)) /\ (p ∉ concat (lists A)) /\ link s !! p = None /\
       Z.of_nat (length (concat (lists A))) < cap A) /\
      (forall l c, lists A !! Z.to_nat prec = Some l -> caps A !! Z.to_nat prec = Some c ->
        Z.of_nat (length l) < c)
  | Pdeq prec | PdeqTail prec | Pflush prec _ | Pdel _ prec =>
      0 <= prec < Z.of_nat (length (lists A))
  | _ => True
  end.

(** The operation runs, and does a step of the model. *)
Definition sim (A : aqueue) (s : state) (o : op) : Prop :=
  exists r s' A', pktq_run s o = Some (r, s') /\ astep A o r A' /\ repr A' s'.

(** The abstract queue that [pktq_init] makes. *)
Definition init_model (n : nat) (m : Z) (fr : list (Z * bool)) : aqueue :=
  AQ (replicate n []) (replicate n m) m fr.

(** A sequence of operations whose preconditions hold as it goes. *)
Fixpoint feasible (A : aqueue) (s : state) (os : list op) : Prop :=
  match os with
  | [] => True
  | o :: os =>
      enabled A s o /\
      forall r s' A', pktq_run s o = Some (r, s') -> astep A o r A' -> repr A' s' ->
        feasible A' s' os
  end.

(** The packets an operation takes in, and those it hands back. *)
Definition entered (o : op) : list Z :=
  match o with Penq _ p | PenqHead _ p => [p] | _ => [] end.
Definition left_by (o : op) (r : result) : list Z :=
  match o, r with
  | (Pdeq _ | PdeqTail _), Pkt (Some p) => [p]
  | (Deq | DeqTail | Mdeq _), Out (Some (p, _)) => [p]
  | Pdel (Some b) _, Bool true => [b]
  | _, _ => []
  end.
Fixpoint all_left (os : list op) (rs : list result) : list Z :=
  match os, rs with
  | o :: os, r :: rs => left_by o r ++ all_left os rs
  | _, _ => []
  end.

(** The packets with their precedence, in the order [pktq_deq] must give them. *)
Fixpoint order (k : nat) (Q : list (list Z)) : list (Z * Z) :=
  match Q with
  | [] => []
  | l :: Q => order (S k) Q ++ map (fun p => (p, Z.of_nat k)) l
  end.

(** [n] calls of [pktq_deq]. *)
Fixpoint drain (n : nat) (s : state) : option (list (Z * Z) * state) :=
  match n with
  | O => Some ([], s)
  | S n =>
      let? (o, s) := pktq_deq s in
      let? x := o in
      let? (xs, s) := drain n s in Some (x :: xs, s)
  end.

(** Clearing the links of all packets of a list. *)
Definition unlink (l : gmap Z Z) (ps : list Z) : gmap Z Z :=
  fold_left (fun l p => PKTSETLINK l p None) ps l.

(** A queue of three precedences with three packets and a hint that is too high. *)
Definition ex_model : aqueue := AQ [[11]; [22; 33]; []] [4; 4; 4] 8 [].
Definition ex_state : state :=
  State (Pq 3 2 8 3 [Prec (Some 11) (Some 11) 1 4; Prec (Some 22) (Some 33) 2 4;
                     Prec None None 0 4]) {[22 := 33]} [].

(** * Lemmas on chains *)

Lemma linked_ext l l' ps : (forall x, x ∈ ps -> l' !! x = l !! x) -> linked l ps -> linked l' ps.
Proof.
  induction ps as [|p ps IH]; cbn; [done|]. intros H [Hp Hl].
  split; [rewrite H; [done|left]|]. apply IH; [|done]. intros x Hx. apply H. by right.
Qed.

Lemma setlink_eq l p x : PKTSETLINK l p x !! p = x.
Proof. apply lookup_partial_alter_eq. Qed.
Lemma setlink_ne l p y x : y <> p -> PKTSETLINK l p x !! y = l !! y.
Proof. intros. by apply lookup_partial_alter_ne. Qed.

Lemma linked_setlink l p x ps : p ∉ ps -> linked l ps -> linked (PKTSETLINK l p x) ps.
Proof. intros Hp. apply linked_ext. intros y Hy. apply setlink_ne. set_solver. Qed.

Lemma linked_app_r l ps ps' : linked l (ps ++ ps') -> linked l ps'.
Proof. induction ps as [|p ps IH]; cbn; [done|]. intros [_ H]. auto. Qed.

(** Redirecting the link of [t] replaces what follows it. *)
Lemma linked_replace l ps t rs rs' :
  linked l ((ps ++ [t]) ++ rs) -> t ∉ ps -> t ∉ rs' -> linked l rs' ->
  linked (PKTSETLINK l t (head rs')) ((ps ++ [t]) ++ rs').
Proof.
  intros H Hps Hrs Hl. induction ps as [|p ps IH]; cbn in *.
  { rewrite setlink_eq. split; [done|]. by apply linked_setlink. }
  destruct H as [Hp H]. rewrite setlink_ne by set_solver. split; [|apply IH; set_solver].
  rewrite Hp. by destruct ps.
Qed.

Lemma last_split (ps : list Z) t : last ps = Some t -> exists ps', ps = ps' ++ [t].
Proof. apply last_Some. Qed.

(** A chain uses no more links than the store has. *)
Lemma linked_length l ps : linked l ps -> NoDup ps -> (length ps <= S (size l))%nat.
Proof.
  revert l. induction ps as [|p ps IH]; intros l; cbn; [lia|]. intros [Hp Hl] Hn.
  destruct ps as [|p' ps]; [cbn; lia|]. cbn in Hp. inversion_clear Hn as [|? ? Hnp Hn'].
  rewrite <- (insert_delete_id l p p') by done.
  rewrite map_size_insert_None by apply lookup_delete_eq.
  apply le_n_S. apply IH; [|done]. eapply linked_ext; [|exact Hl].
  intros x Hx. apply lookup_delete_ne. set_solver.
Qed.

Lemma walk_tail_spec fuel l prev ps t h :
  linked l (ps ++ [t]) -> NoDup (ps ++ [t]) -> head (ps ++ [t]) = Some h ->
  (length ps < fuel)%nat ->
  walk_tail fuel l prev h (Some t)
  = Some (match last ps with Some x => Some x | None => prev end, t).
Proof.
  revert prev h fuel. induction ps as [|p ps IH]; intros prev h fuel Hl Hn Hh Hf;
    (destruct fuel as [|fuel]; [cbn in *; lia|]); cbn in *; injection Hh as ->.
  { by rewrite bool_decide_eq_true_2. }
  destruct Hl as [Hp Hl]. inversion_clear Hn as [|? ? Hnp Hn'].
  rewrite bool_decide_eq_false_2 by (intros [= ->]; set_solver).
  rewrite Hp. destruct (ps ++ [t]) as [|h' ps'] eqn:E; [by destruct ps|].
  cbn. rewrite IH with (h := h'); [|done..|lia].
  rewrite last_cons. by destruct (last ps).
Qed.

Lemma find_prev_absent fuel l ps b :
  linked l ps -> b ∉ ps -> (length ps < fuel)%nat -> find_prev fuel l (head ps) b = Some None.
Proof.
  revert fuel. induction ps as [|p ps IH]; intros fuel Hl Hb Hf;
    (destruct fuel as [|fuel]; [cbn in *; lia|]); cbn in *; [done|].
  destruct Hl as [Hp Hl]. rewrite bool_decide_eq_false_2.
  - rewrite Hp. apply IH; [done|set_solver|lia].
  - rewrite Hp. destruct ps; cbn; [done|]. intros [= ->]. set_solver.
Qed.

Lemma find_prev_spec fuel l ps x b ps' :
  linked l ((ps ++ [x]) ++ b :: ps') -> NoDup ((ps ++ [x]) ++ b :: ps') ->
  (length ps < fuel)%nat ->
  find_prev fuel l (head ((ps ++ [x]) ++ b :: ps')) b = Some (Some x).
Proof.
  revert fuel. induction ps as [|p ps IH]; intros fuel Hl Hn Hf;
    (destruct fuel as [|fuel]; [cbn in *; lia|]); cbn in *.
  { destruct Hl as [-> _]. by rewrite bool_decide_eq_true_2. }
  destruct Hl as [Hp Hl]. inversion_clear Hn as [|? ? Hnp Hn'].
  rewrite bool_decide_eq_false_2.
  - rewrite Hp. apply IH; [done..|lia].
  - rewrite Hp. intros Hh. destruct ps as [|p' ps]; cbn in *; injection Hh as ->;
      inversion_clear Hn'; set_solver.
Qed.

Lemma unlink_notin l ps x : x ∉ ps -> unlink l ps !! x = l !! x.
Proof.
  revert l. induction ps as [|p ps IH]; intros l Hx; [done|].
  change (unlink l (p :: ps)) with (unlink (PKTSETLINK l p None) ps).
  rewrite IH by set_solver. apply setlink_ne. set_solver.
Qed.

Lemma pflush_loop_spec fuel s i r ps dir :
  q (pq s) !! i = Some r ->
  linked (link s) ps -> q_head r = head ps -> q_len r = Z.of_nat (length ps) -> NoDup ps ->
  (length ps < fuel)%nat -> q_len r <= len (pq s) < 65536 ->
  pflush_loop fuel s (Z.of_nat i) dir =
  Some (State (put (pq s) (Z.of_nat i) (Prec None (q_tail r) 0 (q_max r))
                   (len (pq s) - Z.of_nat (length ps)) (hi_prec (pq s)))
              (unlink (link s) ps) (freed s ++ map (fun p => (p, dir)) ps)).
Proof.
  revert fuel s r. induction ps as [|p ps IH]; intros fuel s r Hq Hl Hh Hn Hd Hf Hs;
    (destruct fuel as [|fuel]; [cbn in *; lia|]); cbn [pflush_loop].
  - rewrite Nat2Z.id, Hq, Hh. cbn. f_equal. destruct s as [a l fr], r; cbn in *. subst.
    rewrite app_nil_r. unfold put. rewrite Nat2Z.id, list_insert_id by done.
    destruct a; cbn. do 2 f_equal. lia.
  - cbn in Hl, Hh, Hn. destruct Hl as [Hp Hl]. inversion_clear Hd as [|? ? Hnp Hd'].
    rewrite Nat2Z.id, Hq, Hh, Hp. rewrite !wrap16_small by lia. cbn [length] in *.
    pose proof (lookup_lt_Some _ _ _ Hq).
    rewrite (IH _ _ (Prec (head ps) (q_tail r) (q_len r - 1) (q_max r))); cbn [pq link freed].
    + unfold put. cbn. rewrite Nat2Z.id, list_insert_insert_eq.
      rewrite <- app_assoc. do 3 f_equal. lia.
    + cbn. rewrite Nat2Z.id. by apply list_lookup_insert_eq.
    + by apply linked_setlink.
    + done.
    + cbn. lia.
    + done.
    + lia.
    + cbn. lia.
Qed.

(** * Preservation of the invariant

    One list changes, and links are touched only at packets of that list or of no
    list. *)

Lemma repr_set A s i l l' r' lk' n h g :
  repr A s -> lists A !! i = Some l -> prec_repr lk' l' r' -> caps A !! i = Some (q_max r') ->
  (forall x, x ∈ concat (lists A) -> x ∉ l -> lk' !! x = link s !! x) ->
  NoDup l' -> (forall x, x ∈ l' -> x ∈ l \/ x ∉ concat (lists A)) ->
  n = len (pq s) - Z.of_nat (length l) + Z.of_nat (length l') -> n < 65536 ->
  0 <= h < num_prec (pq s) ->
  (forall j lj, <[i := l']> (lists A) !! j = Some lj -> h < Z.of_nat j -> lj = []) ->
  repr (AQ (<[i := l']> (lists A)) (caps A) (cap A) g)
       (State (put (pq s) (Z.of_nat i) r' n h) lk' g).
Proof.
  intros R Hl Hr Hc Hlk Hnd Hnew Hn Hs Hh Hhint.
  pose proof (r_nodup _ _ R) as HN.
  constructor; unfold put; cbn; rewrite ?length_insert; try by apply R.
  - intros j lj Hj. rewrite Nat2Z.id. destruct (decide (i = j)) as [<-|Hij].
    + rewrite list_lookup_insert_eq in Hj by (by eapply lookup_lt_Some).
      injection Hj as <-. exists r'. split; [|done]. apply list_lookup_insert_eq.
      destruct (r_q _ _ R i l Hl) as (r & Hq & _). by eapply lookup_lt_Some.
    + rewrite list_lookup_insert_ne in Hj by done.
      destruct (r_q _ _ R j lj Hj) as (r & Hq & (Hlj & ?) & ?). exists r.
      rewrite list_lookup_insert_ne by done. split; [done|]. split; [|done]. split; [|done].
      eapply linked_ext; [|exact Hlj]. intros x Hx. apply Hlk.
      * apply elem_of_concat_lookup. by exists j, lj.
      * by apply (lists_disjoint (lists A) j i lj l x).
  - rewrite (concat_insert _ _ _ _ Hl). rewrite (concat_split _ _ _ Hl) in HN.
    rewrite NoDup_app in *. destruct HN as (_ & Hd & HN). split; [done|]. split; [|done].
    intros x Hx Hx'. destruct (Hnew x Hx) as [H|H]; [by apply (Hd x)|].
    apply H. rewrite (concat_split _ _ _ Hl). set_solver.
  - rewrite length_concat_insert with (l := l) by done. rewrite Hn, (r_len _ _ R). lia.
  - exact Hs.
  - exact Hh.
  - exact Hhint.
  - done.
Qed.

(** The hint stays right when a list shrinks. *)
Lemma hint_shrink A s i l l' h :
  repr A s -> lists A !! i = Some l -> (l = [] -> l' = []) ->
  (forall j lj, lists A !! j = Some lj -> h < Z.of_nat j -> lj = []) ->
  forall j lj, <[i := l']> (lists A) !! j = Some lj -> h < Z.of_nat j -> lj = [].
Proof.
  intros R Hl Hll Hh j lj Hj Hlt. destruct (decide (i = j)) as [<-|Hij].
  - rewrite list_lookup_insert_eq in Hj by (by eapply lookup_lt_Some). injection Hj as <-.
    apply Hll. by apply (Hh i).
  - rewrite list_lookup_insert_ne in Hj by done. by apply (Hh j).
Qed.

Lemma repr_nodup_list A s i l : repr A s -> lists A !! i = Some l -> NoDup l.
Proof.
  intros R H. pose proof (r_nodup _ _ R) as HN. rewrite (concat_split _ _ _ H) in HN.
  apply NoDup_app in HN. tauto.
Qed.

Lemma repr_len_list A s i l :
  repr A s -> lists A !! i = Some l -> Z.of_nat (length l) <= len (pq s) < 65536.
Proof.
  intros R H. rewrite (r_len _ _ R). split; [apply length_list_le in H; lia|].
  rewrite <- (r_len _ _ R). apply R.
Qed.

Lemma repr_fuel A s i l : repr A s -> lists A !! i = Some l -> (length l < chain_fuel (link s))%nat.
Proof.
  intros R H. destruct (r_q _ _ R _ _ H) as (r & _ & (Hl & _) & _).
  apply linked_length in Hl; [unfold chain_fuel; lia|]. by eapply repr_nodup_list.
Qed.

Lemma repr_prec_ok A s prec :
  repr A s -> 0 <= prec < Z.of_nat (length (lists A)) ->
  prec_ok (pq s) prec = true /\
  exists i l r, prec = Z.of_nat i /\ lists A !! i = Some l /\ q (pq s) !! i = Some r /\
    prec_repr (link s) l r /\ caps A !! i = Some (q_max r).
Proof.
  intros R Hp. split.
  { unfold prec_ok. rewrite (r_num _ _ R). apply andb_true_intro. split; lia. }
  destruct (lookup_lt_is_Some_2 (lists A) (Z.to_nat prec)) as [l Hl]; [lia|].
  destruct (r_q _ _ R _ _ Hl) as (r & ? & ? & ?). exists (Z.to_nat prec), l, r.
  repeat split; try done; try lia; by destruct H0 as (? & ? & ? & ?).
Qed.

(** Emptiness of the whole queue is [len == 0]. *)
Lemma repr_empty A s : repr A s -> (len (pq s) =? 0) = true <-> concat (lists A) = [].
Proof.
  intros R. rewrite Z.eqb_eq, (r_len _ _ R). split; [|by intros ->].
  intros H. apply length_zero_iff_nil. lia.
Qed.

Lemma bump_ok h prec n : 0 <= h < n -> 0 <= prec < n -> n <= 16 ->
  bump h prec = Z.max h prec.
Proof. intros. unfold bump. case_test; [rewrite wrap8_small by lia|]; lia. Qed.

Lemma hint_grow A s i l l' :
  repr A s -> lists A !! i = Some l ->
  0 <= bump (hi_prec (pq s)) (Z.of_nat i) < num_prec (pq s) /\
  forall j lj, <[i := l']> (lists A) !! j = Some lj ->
    bump (hi_prec (pq s)) (Z.of_nat i) < Z.of_nat j -> lj = [].
Proof.
  intros R Hl. pose proof (lookup_lt_Some _ _ _ Hl) as Hi.
  pose proof (r_num _ _ R). pose proof (r_hi _ _ R). pose proof (r_pos _ _ R).
  unfold PKTQ_MAX_PREC in *.
  rewrite (bump_ok _ _ (num_prec (pq s))) by lia. split; [lia|].
  intros j lj Hj Hlt. rewrite list_lookup_insert_ne in Hj by lia.
  apply (r_hint _ _ R _ _ Hj). lia.
Qed.

(** * The operations preserve the invariant and do what the model says *)

Lemma setlink_none_id l p : l !! p = None -> PKTSETLINK l p None = l.
Proof.
  intros H. apply map_eq. intros x. destruct (decide (x = p)) as [->|].
  - by rewrite setlink_eq.
  - by rewrite setlink_ne.
Qed.

Lemma repr_lists_hint A s h :
  repr A s -> (forall j lj, lists A !! j = Some lj -> h < Z.of_nat j -> lj = []) ->
  0 <= h < num_prec (pq s) ->
  repr A (State (Pq (num_prec (pq s)) h (max (pq s)) (len (pq s)) (q (pq s))) (link s) (freed s)).
Proof. intros R Hh Hn. destruct R. by constructor. Qed.

Lemma take_head_repr A s i r p l h :
  repr A s -> lists A !! i = Some (p :: l) ->
  prec_repr (link s) (p :: l) r -> caps A !! i = Some (q_max r) ->
  0 <= h < num_prec (pq s) ->
  (forall j lj, lists A !! j = Some lj -> h < Z.of_nat j -> lj = []) ->
  repr (set_list A i l) (take_head s (Z.of_nat i) r p h).
Proof.
  intros R Hl (Hlk & Hh & Ht & Hn) Hc Hhi Hhint. cbn in Hlk, Hn. destruct Hlk as [Hp Hlk].
  pose proof (repr_len_list _ _ _ _ R Hl) as Hlen. cbn in Hlen.
  pose proof (repr_nodup_list _ _ _ _ R Hl) as Hnd. inversion_clear Hnd as [|? ? Hnp Hnd'].
  unfold set_list, take_head. rewrite (r_freed _ _ R).
  apply (repr_set A s i (p :: l)); try done.
  - unfold pop_head. rewrite Hp. repeat split; cbn.
    + by apply linked_setlink.
    + rewrite Ht. destruct l; [done|]. by rewrite last_cons_cons.
    + rewrite Hn, wrap16_small by lia. lia.
  - intros x _ Hx. apply setlink_ne. set_solver.
  - intros x Hx. left. by right.
  - rewrite wrap16_small by lia. cbn. lia.
  - rewrite wrap16_small by lia. lia.
  - by apply (hint_shrink A s i (p :: l)).
Qed.

Lemma take_tail_repr A s i r p l t :
  repr A s -> lists A !! i = Some (l ++ [t]) -> q_head r = Some p ->
  prec_repr (link s) (l ++ [t]) r -> caps A !! i = Some (q_max r) ->
  exists s', take_tail s (Z.of_nat i) r p = Some (t, s') /\ link s' !! t = None /\
    repr (set_list A i l) s'.
Proof.
  intros R Hl Hp (Hlk & Hh & Ht & Hn) Hc.
  pose proof (repr_len_list _ _ _ _ R Hl) as Hlen.
  pose proof (repr_nodup_list _ _ _ _ R Hl) as Hnd.
  pose proof (repr_fuel _ _ _ _ R Hl) as Hf. rewrite length_app in *. cbn in Hlen, Hf, Hn.
  unfold take_tail. rewrite Ht, last_snoc.
  rewrite (walk_tail_spec _ _ _ l t p) by (done || congruence || lia). eexists. split; [done|].
  assert (Htn : link s !! t = None) by (apply linked_app_r in Hlk; apply Hlk).
  assert (Hd : NoDup l /\ t ∉ l) by (apply NoDup_app in Hnd; set_solver).
  assert (Hlk' : linked (match last l with Some x => PKTSETLINK (link s) x None
                         | None => link s end) l).
  { destruct (last l) as [x|] eqn:Ex; [|by apply last_None in Ex as ->].
    apply last_split in Ex as [l' ->].
    pose proof (linked_replace (link s) l' x [t] []) as H. rewrite app_nil_r in H.
    apply H; try done; [|set_solver]. destruct Hd as [Hd _]. apply NoDup_app in Hd. set_solver. }
  split.
  - cbn. destruct (last l) as [x|] eqn:Ex; [|done]. destruct l; [done|].
    rewrite setlink_ne; [done|]. apply last_split in Ex as [l' Ex]. rewrite Ex in Hd. set_solver.
  - unfold set_list. rewrite (r_freed _ _ R).
    apply (repr_set A s i (l ++ [t])); try done; rewrite ?length_app; cbn [length].
    + repeat split; cbn; [by destruct (last l) eqn:E| |by destruct (last l)|].
      * rewrite Hh. destruct l as [|y l]; [done|]. cbn. by rewrite last_cons; destruct (last l).
      * rewrite Hn, wrap16_small by lia. lia.
    + intros x Hx Hx'. destruct (last l) as [y|] eqn:Ey; [|done].
      apply setlink_ne. apply last_split in Ey as [l' ->]. set_solver.
    + apply Hd.
    + intros x Hx. left. set_solver.
    + rewrite wrap16_small by lia. lia.
    + rewrite wrap16_small by lia. lia.
    + apply R.
    + apply (hint_shrink A s i (l ++ [t])); try done; [by destruct l|apply R].
Qed.

Lemma sim_penq A s prec p : repr A s -> enabled A s (Penq prec p) -> sim A s (Penq prec p).
Proof.
  intros R ((Hprec & Hp & Hlp & Hcap) & Hpcap).
  destruct (repr_prec_ok A s prec R Hprec) as (Hok & i & l & r & -> & Hl & Hq & Hr & Hc).
  rewrite Nat2Z.id in Hpcap. specialize (Hpcap _ _ Hl Hc).
  pose proof (repr_len_list _ _ _ _ R Hl) as Hlen.
  pose proof (repr_nodup_list _ _ _ _ R Hl) as Hnd.
  destruct (hint_grow A s i l (l ++ [p]) R Hl) as [Hb Hhint].
  assert (Hpl : p ∉ l) by (intros H; apply Hp, elem_of_concat_lookup; by exists i, l).
  pose proof (r_len _ _ R). pose proof (r_max _ _ R). pose proof (r_cap _ _ R).
  destruct Hr as (Hlk & Hh & Ht & Hn).
  set (lk := match last l with Some t => PKTSETLINK (link s) t (Some p) | None => link s end).
  assert (Hrun : pktq_penq s (Z.of_nat i) p = Some (State
    (put (pq s) (Z.of_nat i) (Prec (head (l ++ [p])) (Some p) (wrap16 (q_len r + 1)) (q_max r))
       (wrap16 (len (pq s) + 1)) (bump (hi_prec (pq s)) (Z.of_nat i))) lk (freed s))).
  { unfold pktq_penq, pktq_full, pktq_pfull. rewrite Hok, bool_decide_eq_true_2 by done.
    rewrite Nat2Z.id, Hq. do 2 (rewrite (proj2 (Z.leb_gt _ _)) by lia). cbn.
    rewrite Hh, Ht. unfold lk. destruct l as [|x l]; [done|]. cbn [head hd_error].
    destruct (last (x :: l)) eqn:E; [done|]. by apply last_None in E. }
  eexists (Pkt (Some p)), _, (set_list A i (l ++ [p])). split; [cbn; by rewrite Hrun|].
  split; [by apply SPenq|]. unfold set_list. rewrite (r_freed _ _ R).
  apply (repr_set A s i l); try done; rewrite ?length_app; cbn [length].
  - repeat split; cbn; [|by rewrite last_snoc|rewrite wrap16_small, length_app by lia; cbn; lia].
    unfold lk. destruct (last l) as [t|] eqn:E; [|apply last_None in E as ->; by cbn].
    apply last_split in E as [l' ->].
    apply (linked_replace (link s) l' t [] [p]); rewrite ?app_nil_r; try done.
    + apply NoDup_app in Hnd. set_solver.
    + set_solver.
  - intros x _ Hx. unfold lk. destruct (last l) as [t|] eqn:E; [|done].
    apply setlink_ne. apply last_split in E as [l' ->]. set_solver.
  - apply NoDup_app. split; [done|]. split; [set_solver|apply NoDup_singleton].
  - intros x Hx. apply elem_of_app in Hx as [|Hx]; [by left|]. right. set_solver.
  - rewrite wrap16_small by lia. lia.
  - rewrite wrap16_small by lia. lia.
Qed.

Lemma sim_penq_head A s prec p :
  repr A s -> enabled A s (PenqHead prec p) -> sim A s (PenqHead prec p).
Proof.
  intros R ((Hprec & Hp & Hlp & Hcap) & Hpcap).
  destruct (repr_prec_ok A s prec R Hprec) as (Hok & i & l & r & -> & Hl & Hq & Hr & Hc).
  rewrite Nat2Z.id in Hpcap. specialize (Hpcap _ _ Hl Hc).
  pose proof (repr_len_list _ _ _ _ R Hl) as Hlen.
  pose proof (repr_nodup_list _ _ _ _ R Hl) as Hnd.
  destruct (hint_grow A s i l (p :: l) R Hl) as [Hb Hhint].
  assert (Hpl : p ∉ l) by (intros H; apply Hp, elem_of_concat_lookup; by exists i, l).
  pose proof (r_len _ _ R). pose proof (r_max _ _ R). pose proof (r_cap _ _ R).
  destruct Hr as (Hlk & Hh & Ht & Hn).
  eexists (Pkt (Some p)), _, (set_list A i (p :: l)). split; [|split; [by apply SPenqHead|]].
  { cbn. unfold pktq_penq_head, pktq_full, pktq_pfull. rewrite Hok, bool_decide_eq_true_2 by done.
    rewrite Nat2Z.id, Hq. do 2 (rewrite (proj2 (Z.leb_gt _ _)) by lia). cbn. reflexivity. }
  unfold set_list. rewrite (r_freed _ _ R).
  apply (repr_set A s i l); try done; cbn [length].
  - repeat split; cbn.
    + by rewrite setlink_eq.
    + by apply linked_setlink.
    + rewrite Hh, Ht. destruct l; [done|]. by rewrite last_cons_cons.
    + rewrite wrap16_small by lia. lia.
  - intros x Hx _. apply setlink_ne. set_solver.
  - by constructor.
  - intros x Hx. apply elem_of_cons in Hx as [->|]; [by right|by left].
  - rewrite wrap16_small by lia. lia.
  - rewrite wrap16_small by lia. lia.
Qed.

Lemma repr_head_nil A s i l r :
  lists A !! i = Some l -> prec_repr (link s) l r -> q_head r = None <-> l = [].
Proof. intros _ (_ & -> & _). by destruct l. Qed.

Lemma sim_pdeq A s prec : repr A s -> enabled A s (Pdeq prec) -> sim A s (Pdeq prec).
Proof.
  intros R Hprec.
  destruct (repr_prec_ok A s prec R Hprec) as (Hok & i & l & r & -> & Hl & Hq & Hr & Hc).
  unfold sim. cbn [pktq_run]. unfold pktq_pdeq. rewrite Hok, Nat2Z.id, Hq.
  destruct l as [|p l]; (destruct Hr as (Hlk & Hh & Hr); rewrite Hh; cbn [head hd_error]).
  - do 3 eexists. split; [done|]. split; [by apply SPdeq_empty|done].
  - do 3 eexists. split; [done|]. split; [by apply SPdeq|].
    apply take_head_repr; try done; [apply R|]. intros j lj Hj. by apply (r_hint _ _ R).
Qed.

Lemma sim_pdeq_tail A s prec :
  repr A s -> enabled A s (PdeqTail prec) -> sim A s (PdeqTail prec).
Proof.
  intros R Hprec.
  destruct (repr_prec_ok A s prec R Hprec) as (Hok & i & l & r & -> & Hl & Hq & Hr & Hc).
  unfold sim. cbn [pktq_run]. unfold pktq_pdeq_tail. rewrite Hok, Nat2Z.id, Hq.
  destruct (last l) as [t|] eqn:E.
  - apply last_split in E as [l' ->]. destruct (q_head r) as [h|] eqn:Eh.
    + destruct (take_tail_repr A s i r h l' t R Hl Eh Hr Hc) as (s' & -> & _ & R').
      do 3 eexists. split; [done|]. split; [by apply SPdeqTail|done].
    + apply (repr_head_nil _ _ _ _ _ Hl Hr) in Eh. by destruct l'.
  - apply last_None in E as ->. destruct Hr as (_ & -> & _). do 3 eexists.
    split; [done|]. split; [by apply SPdeqTail_empty|done].
Qed.

Lemma pflush_repr A s i l dir :
  repr A s -> lists A !! i = Some l ->
  exists s', pktq_pflush s (Z.of_nat i) dir = Some s' /\
    repr (AQ (<[i := []]> (lists A)) (caps A) (cap A)
             (given A ++ map (fun p => (p, dir)) l)) s'.
Proof.
  intros R Hl. destruct (r_q _ _ R _ _ Hl) as (r & Hq & (Hlk & Hh & Ht & Hn) & Hc).
  pose proof (repr_len_list _ _ _ _ R Hl) as Hlen.
  pose proof (repr_nodup_list _ _ _ _ R Hl) as Hnd.
  pose proof (lookup_lt_Some _ _ _ Hq) as Hi.
  unfold pktq_pflush.
  rewrite (pflush_loop_spec _ s i r l) by (done || lia || by eapply repr_fuel).
  cbn [pq q put link freed len hi_prec]. rewrite Nat2Z.id, list_lookup_insert_eq by done. cbn.
  eexists. split; [done|]. unfold put. cbn. rewrite Nat2Z.id, list_insert_insert_eq.
  rewrite (r_freed _ _ R).
  pose proof (repr_set A s i l [] (Prec None None 0 (q_max r)) (unlink (link s) l)
    (len (pq s) - Z.of_nat (length l)) (hi_prec (pq s))
    (given A ++ map (fun p => (p, dir)) l) R Hl) as H.
  unfold put in H. rewrite Nat2Z.id in H. apply H; try done.
  - intros x _ Hx. by apply unlink_notin.
  - constructor.
  - set_solver.
  - cbn. lia.
  - lia.
  - apply R.
  - apply (hint_shrink A s i l); try done. apply R.
Qed.

Lemma sim_pflush A s prec dir :
  repr A s -> enabled A s (Pflush prec dir) -> sim A s (Pflush prec dir).
Proof.
  intros R Hprec.
  destruct (repr_prec_ok A s prec R Hprec) as (_ & i & l & r & -> & Hl & _).
  destruct (pflush_repr A s i l dir R Hl) as (s' & Hrun & R').
  do 3 eexists. split; [cbn; by rewrite Hrun|]. split; [by apply SPflush|done].
Qed.

(** Taking a packet out of the middle or the end of a list. *)
Lemma pdel_repr A s i r l1 x b l2 :
  repr A s -> lists A !! i = Some ((l1 ++ [x]) ++ b :: l2) ->
  prec_repr (link s) ((l1 ++ [x]) ++ b :: l2) r -> caps A !! i = Some (q_max r) ->
  repr (set_list A i ((l1 ++ [x]) ++ l2))
    (State (put (pq s) (Z.of_nat i)
              (Prec (q_head r) (if bool_decide (q_tail r = Some b) then Some x else q_tail r)
                 (wrap16 (q_len r - 1)) (q_max r)) (wrap16 (len (pq s) - 1)) (hi_prec (pq s)))
       (PKTSETLINK (PKTSETLINK (link s) x (link s !! b)) b None) (freed s)).
Proof.
  intros R Hl (Hlk & Hh & Ht & Hn) Hc.
  pose proof (repr_len_list _ _ _ _ R Hl) as Hlen.
  pose proof (repr_nodup_list _ _ _ _ R Hl) as Hnd. rewrite !length_app in *. cbn in Hlen, Hn.
  assert (Hlb : linked (link s) (b :: l2)) by (by apply linked_app_r in Hlk).
  destruct Hlb as [Hb Hl2]. rewrite Hb.
  assert (Hd : NoDup ((l1 ++ [x]) ++ l2) /\ (b ∉ (l1 ++ [x]) ++ l2) /\ (x ∉ l1) /\ x ∉ l2).
  { rewrite <- Permutation_middle in Hnd. inversion_clear Hnd as [|? ? Hx Hnd'].
    split; [done|]. split; [done|]. rewrite <- app_assoc in Hnd'. apply NoDup_app in Hnd'.
    destruct Hnd' as (_ & H & Hnd'). cbn in *. inversion_clear Hnd'. set_solver. }
  destruct Hd as (Hnd' & Hbn & Hx1 & Hx2).
  unfold set_list. rewrite (r_freed _ _ R).
  apply (repr_set A s i ((l1 ++ [x]) ++ b :: l2)); try done; rewrite ?length_app; cbn [length].
  - repeat split; cbn.
    + apply linked_setlink; [done|]. by apply (linked_replace (link s) l1 x (b :: l2) l2).
    + rewrite Hh. by destruct l1.
    + rewrite Ht. rewrite (last_app (l1 ++ [x]) (b :: l2)), last_cons.
      rewrite (last_app (l1 ++ [x]) l2), last_snoc.
      destruct (last l2) as [y|] eqn:Ey; cbn.
      * rewrite bool_decide_eq_false_2; [done|]. intros [= ->].
        apply last_split in Ey as [l' ->]. set_solver.
      * by rewrite bool_decide_eq_true_2.
    + rewrite Hn, wrap16_small, !length_app by (cbn; lia). cbn. lia.
  - intros y _ Hy. rewrite !setlink_ne by set_solver. done.
  - intros y Hy. left. set_solver.
  - rewrite wrap16_small by lia. lia.
  - rewrite wrap16_small by lia. lia.
  - apply R.
  - apply (hint_shrink A s i ((l1 ++ [x]) ++ b :: l2)); try done; [by destruct l1|apply R].
Qed.

Lemma sim_pdel A s b prec : repr A s -> enabled A s (Pdel b prec) -> sim A s (Pdel b prec).
Proof.
  intros R Hprec.
  destruct (repr_prec_ok A s prec R Hprec) as (Hok & i & l & r & -> & Hl & Hq & Hr & Hc).
  unfold sim. cbn [pktq_run]. unfold pktq_pdel. rewrite Hok.
  destruct b as [b|]; [|do 3 eexists; split; [done|]; split; [by apply SPdel_null|done]].
  rewrite Nat2Z.id, Hq. pose proof Hr as (Hlk & Hh & Ht & Hn).
  pose proof (repr_fuel _ _ _ _ R Hl) as Hf. pose proof (repr_nodup_list _ _ _ _ R Hl) as Hnd.
  destruct (decide (b ∈ l)) as [Hb|Hb].
  - apply list_elem_of_split in Hb as (l1 & l2 & ->). rewrite Hh.
    destruct (last l1) as [x|] eqn:Ex.
    + apply last_split in Ex as [l1' ->].
      rewrite bool_decide_eq_false_2.
      2:{ intros Hb. rewrite <- Permutation_middle in Hnd. inversion_clear Hnd as [|? ? Hx _].
          apply Hx. destruct l1'; cbn in Hb; injection Hb as ->; set_solver. }
      rewrite find_prev_spec by (done || rewrite !length_app in Hf; cbn in Hf; lia).
      do 3 eexists. split; [done|]. split; [by apply (SPdel _ _ (l1' ++ [x]) b l2)|].
      rewrite <- Hh. by apply pdel_repr.
    + apply last_None in Ex as ->. cbn [app head hd_error].
      rewrite bool_decide_eq_true_2 by done. do 3 eexists.
      split; [done|]. split; [by apply (SPdel _ _ [] b l2)|].
      apply take_head_repr; try done; [apply R|]. intros j lj Hj. by apply (r_hint _ _ R).
  - rewrite Hh, bool_decide_eq_false_2.
    2:{ destruct l; cbn; [done|]. intros [= ->]. set_solver. }
    rewrite find_prev_absent by done. do 3 eexists. split; [done|].
    split; [by apply (SPdel_none _ _ l)|done].
Qed.

Lemma sim_setmax A s n : repr A s -> sim A s (Setmax n).
Proof.
  intros R. unfold sim. cbn [pktq_run]. unfold pktq_setmax. case_test.
  { subst. do 3 eexists. split; [done|]. rewrite (r_max _ _ R). split; [apply SSetmax_get|done]. }
  do 3 eexists. split; [done|]. split; [by apply SSetmax|].
  constructor; cbn; try by apply R.
  - intros i l Hl. destruct (r_q _ _ R _ _ Hl) as (r & Hq & Hr & Hc).
    exists (set_q_max (wrap16 n) r). split; [|split].
    + pose proof (lookup_lt_Some _ _ _ Hl). pose proof (r_num _ _ R).
      pose proof (lookup_lt_Some _ _ _ Hq).
      rewrite lookup_app_l by (rewrite length_map, length_take; lia).
      rewrite list_lookup_fmap, lookup_take_lt, Hq by lia. done.
    + exact Hr.
    + by rewrite list_lookup_fmap, Hc.
  - rewrite length_map. apply R.
  - done.
  - apply wrap16_range.
Qed.

Lemma lower_hi_spec A s h :
  repr A s -> Z.of_nat h < num_prec (pq s) ->
  (forall j lj, lists A !! j = Some lj -> (h < j)%nat -> lj = []) ->
  exists h' l r, lower_hi h (q (pq s)) = Some h' /\ (h' <= h)%nat /\
    lists A !! h' = Some l /\ q (pq s) !! h' = Some r /\ prec_repr (link s) l r /\
    caps A !! h' = Some (q_max r) /\ (l = [] -> h' = 0%nat) /\
    (forall j lj, lists A !! j = Some lj -> (h' < j)%nat -> lj = []).
Proof.
  intros R. pose proof (r_num _ _ R) as Hnum. induction h as [|h IH]; intros Hh Habove.
  all: destruct (lookup_lt_is_Some_2 (lists A) 0) as [l0 Hl0]; [lia|].
  { destruct (r_q _ _ R _ _ Hl0) as (r & ? & ? & ?). exists 0%nat, l0, r. cbn. auto 10. }
  destruct (lookup_lt_is_Some_2 (lists A) (S h)) as [l Hl]; [lia|].
  destruct (r_q _ _ R _ _ Hl) as (r & Hq & Hr & Hc). cbn [lower_hi]. rewrite Hq.
  pose proof (repr_head_nil _ _ _ _ _ Hl Hr) as Hnil.
  destruct (q_head r) as [p|].
  - exists (S h), l, r. repeat split; try done; try apply Hr. intros E. by apply Hnil in E.
  - destruct IH as (h' & l' & r' & ? & ? & ?); [lia| |exists h', l', r'; auto].
    intros j lj Hj Hlt. destruct (decide (j = S h)) as [->|]; [|apply (Habove j); [done|lia]].
    rewrite Hl in Hj. injection Hj as <-. by apply Hnil.
Qed.

Lemma repr_lower A s :
  repr A s ->
  exists h l r, lower_hi (Z.to_nat (hi_prec (pq s))) (q (pq s)) = Some h /\
    Z.of_nat h < num_prec (pq s) /\
    lists A !! h = Some l /\ q (pq s) !! h = Some r /\ prec_repr (link s) l r /\
    caps A !! h = Some (q_max r) /\ (concat (lists A) <> [] -> l <> []) /\
    (forall j lj, lists A !! j = Some lj -> Z.of_nat h < Z.of_nat j -> lj = []).
Proof.
  intros R. pose proof (r_hi _ _ R).
  destruct (lower_hi_spec A s (Z.to_nat (hi_prec (pq s))) R) as
    (h & l & r & ? & ? & Hl & ? & ? & ? & Hz & Habove); [lia| |].
  { intros j lj Hj Hlt. apply (r_hint _ _ R j); [done|lia]. }
  exists h, l, r. split; [done|]. split; [lia|]. do 4 (split; [done|]). split.
  - intros Hne ->. apply Hne. apply all_empty_concat. rewrite Hz in * by done.
    intros j lj Hj. destruct j; [congruence|]. apply (Habove (S j)); [done|lia].
  - intros j lj Hj Hlt. apply (Habove j); [done|lia].
Qed.

Lemma repr_set_hi A s h :
  repr A s -> Z.of_nat h < num_prec (pq s) ->
  (forall j lj, lists A !! j = Some lj -> Z.of_nat h < Z.of_nat j -> lj = []) ->
  repr A (set_hi s h).
Proof. intros. apply repr_lists_hint; try done. lia. Qed.

Lemma top_intro A h l :
  lists A !! h = Some l -> l <> [] ->
  (forall j lj, lists A !! j = Some lj -> Z.of_nat h < Z.of_nat j -> lj = []) ->
  top (fun _ => true) (lists A) h l.
Proof. intros. repeat split; try done. intros j l' Hj _ Hl. apply (H1 j); [done|lia]. Qed.

Lemma sim_deq A s : repr A s -> sim A s Deq.
Proof.
  intros R. unfold sim. cbn [pktq_run]. unfold pktq_deq.
  destruct (len (pq s) =? 0) eqn:E.
  { apply (repr_empty _ _ R) in E. do 3 eexists. split; [done|]. split; [by apply SDeq_empty|done]. }
  assert (Hne : concat (lists A) <> []) by (intros H; apply (repr_empty _ _ R) in H; congruence).
  destruct (repr_lower A s R) as (h & l & r & -> & Hh & Hl & Hq & Hr & Hc & Hlne & Habove).
  specialize (Hlne Hne). cbn [set_hi pq q]. rewrite Hq.
  destruct l as [|p l]; [done|]. pose proof Hr as (_ & Hhd & _). rewrite Hhd. cbn [head hd_error].
  do 3 eexists. split; [done|]. split; [apply SDeq; by apply top_intro|].
  change (take_head (set_hi s h)) with (take_head s).
  apply take_head_repr; try done. lia.
Qed.

Lemma sim_peek A s : repr A s -> sim A s Peek.
Proof.
  intros R. unfold sim. cbn [pktq_run]. unfold pktq_peek.
  destruct (len (pq s) =? 0) eqn:E.
  { apply (repr_empty _ _ R) in E. do 3 eexists. split; [done|]. split; [by apply SPeek_empty|done]. }
  assert (Hne : concat (lists A) <> []) by (intros H; apply (repr_empty _ _ R) in H; congruence).
  destruct (repr_lower A s R) as (h & l & r & -> & Hh & Hl & Hq & Hr & Hc & Hlne & Habove).
  specialize (Hlne Hne). rewrite Hq. destruct Hr as (_ & -> & _).
  do 3 eexists. split; [done|]. split; [apply SPeek; by apply top_intro|by apply repr_set_hi].
Qed.

Lemma lowest_spec A s n prec :
  repr A s -> Z.of_nat (n + prec) = hi_prec (pq s) ->
  (forall j lj, lists A !! j = Some lj -> (j < prec)%nat -> lj = []) ->
  concat (lists A) <> [] ->
  exists h l r, lowest n prec (q (pq s)) = Some h /\ bottom (lists A) h l /\
    q (pq s) !! h = Some r /\ prec_repr (link s) l r /\ caps A !! h = Some (q_max r).
Proof.
  intros R. pose proof (r_num _ _ R) as Hnum. pose proof (r_hi _ _ R) as Hhi.
  revert prec. induction n as [|n IH]; intros prec Hp Hbelow Hne;
    (destruct (lookup_lt_is_Some_2 (lists A) prec) as [l Hl]; [lia|]);
    destruct (r_q _ _ R _ _ Hl) as (r & Hq & Hr & Hc); cbn [lowest].
  - exists prec, l, r. repeat split; try done; try apply Hr.
    + intros ->. apply Hne, all_empty_concat. intros j lj Hj.
      destruct (Nat.lt_trichotomy j prec) as [?|[->|?]]; [by apply (Hbelow j)|congruence|].
      apply (r_hint _ _ R j); [done|lia].
    + intros j lj Hlt Hj. by apply (Hbelow j).
  - rewrite Hq. pose proof (repr_head_nil _ _ _ _ _ Hl Hr) as Hnil. destruct (q_head r) as [p|].
    + exists prec, l, r. repeat split; try done; try apply Hr.
      * intros El. by apply Hnil in El.
      * intros j lj Hlt Hj. by apply (Hbelow j).
    + apply IH; [lia| |done]. intros j lj Hj Hlt.
      destruct (decide (j = prec)) as [->|]; [|apply (Hbelow j); [done|lia]].
      rewrite Hl in Hj. injection Hj as <-. by apply Hnil.
Qed.

Lemma repr_lowest A s :
  repr A s -> concat (lists A) <> [] ->
  exists h l r, lowest (Z.to_nat (hi_prec (pq s))) 0 (q (pq s)) = Some h /\
    bottom (lists A) h l /\ q (pq s) !! h = Some r /\ prec_repr (link s) l r /\
    caps A !! h = Some (q_max r).
Proof.
  intros R Hne. pose proof (r_hi _ _ R). apply lowest_spec; try done; [lia|]. lia.
Qed.

Lemma sim_deq_tail A s : repr A s -> sim A s DeqTail.
Proof.
  intros R. unfold sim. cbn [pktq_run]. unfold pktq_deq_tail.
  destruct (len (pq s) =? 0) eqn:E.
  { apply (repr_empty _ _ R) in E. do 3 eexists. split; [done|]. split; [by apply SDeqTail_empty|done]. }
  assert (Hne : concat (lists A) <> []) by (intros H; apply (repr_empty _ _ R) in H; congruence).
  destruct (repr_lowest A s R Hne) as (h & l & r & -> & Hb & -> & Hr & Hc).
  pose proof Hb as (Hl & Hlne & _).
  destruct (last l) as [t|] eqn:Et; [|by apply last_None in Et].
  apply last_split in Et as [l' ->].
  destruct (q_head r) as [p|] eqn:Ep; [|by apply (repr_head_nil _ _ _ _ _ Hl Hr) in Ep].
  destruct (take_tail_repr A s h r p l' t R Hl Ep Hr Hc) as (s' & -> & Ht & R').
  do 3 eexists. split; [done|]. split; [by apply SDeqTail|].
  rewrite setlink_none_id by done. by destruct s'.
Qed.

Lemma sim_peek_tail A s : repr A s -> sim A s PeekTail.
Proof.
  intros R. unfold sim. cbn [pktq_run]. unfold pktq_peek_tail.
  destruct (len (pq s) =? 0) eqn:E.
  { apply (repr_empty _ _ R) in E. do 3 eexists. split; [done|]. split; [by apply SPeekTail_empty|done]. }
  assert (Hne : concat (lists A) <> []) by (intros H; apply (repr_empty _ _ R) in H; congruence).
  destruct (repr_lowest A s R Hne) as (h & l & r & -> & Hb & -> & (_ & _ & -> & _) & Hc).
  do 3 eexists. split; [done|]. split; [by apply SPeekTail|done].
Qed.

Lemma flush_loop_repr A s n k dir :
  repr A s -> length (lists A) = (k + n)%nat ->
  (forall j lj, lists A !! j = Some lj -> (j < k)%nat -> lj = []) ->
  exists s', flush_loop n (Z.of_nat k) s dir = Some s' /\
    repr (AQ (map (fun _ => []) (lists A)) (caps A) (cap A)
             (given A ++ map (fun p => (p, dir)) (concat (lists A)))) s'.
Proof.
  revert A s k. induction n as [|n IH]; intros A s k R Hn Hk.
  - assert (He : concat (lists A) = []).
    { apply all_empty_concat. intros j lj Hj. apply (Hk j); [done|].
      apply lookup_lt_Some in Hj. lia. }
    exists s. split; [done|]. rewrite He. cbn. rewrite app_nil_r.
    assert (map (fun _ => []) (lists A) = lists A) as ->; [|by destruct A].
    apply list_eq. intros j. rewrite list_lookup_fmap.
    destruct (lists A !! j) eqn:E; [|done]. cbn. by rewrite (proj1 (all_empty_concat _) He _ _ E).
  - destruct (lookup_lt_is_Some_2 (lists A) k) as [l Hl]; [lia|].
    destruct (pflush_repr A s k l dir R Hl) as (s1 & Hrun & R1).
    cbn [flush_loop]. rewrite Hrun.
    replace (Z.of_nat k + 1) with (Z.of_nat (S k)) by lia.
    destruct (IH _ s1 (S k) R1) as (s' & Hs' & R'); cbn in *.
    + rewrite length_insert. lia.
    + intros j lj Hj Hlt. destruct (decide (k = j)) as [<-|].
      * rewrite list_lookup_insert_eq in Hj by (by eapply lookup_lt_Some). congruence.
      * rewrite list_lookup_insert_ne in Hj by done. apply (Hk j); [done|lia].
    + exists s'. split; [done|]. revert R'.
      assert (Hc : concat (lists A) = l ++ concat (<[k := []]> (lists A))).
      { assert (Ht : concat (take k (lists A)) = []).
        { apply all_empty_concat. intros j lj Hj. apply lookup_take_Some in Hj as [Hj ?].
          by apply (Hk j). }
        rewrite <- (take_drop_middle (lists A) k l Hl) at 1.
        rewrite (insert_take_drop (lists A) k []) by (by eapply lookup_lt_Some).
        rewrite !concat_app, Ht. done. }
      rewrite Hc, map_app, <- app_assoc.
      assert (map (fun _ => []) (<[k := []]> (lists A)) = map (fun _ => @nil Z) (lists A)) as ->;
        [|done].
      change ((fun _ : list Z => @nil Z) <$> <[k := []]> (lists A)
              = (fun _ : list Z => @nil Z) <$> lists A). rewrite list_fmap_insert.
      apply list_insert_id. by rewrite list_lookup_fmap, Hl.
Qed.

Lemma sim_flush A s dir : repr A s -> sim A s (Flush dir).
Proof.
  intros R. unfold sim. cbn [pktq_run]. unfold pktq_flush. rewrite (r_num _ _ R), Nat2Z.id.
  destruct (flush_loop_repr A s (length (lists A)) 0 dir R) as (s' & Hrun & R'); [done|lia|].
  change (Z.of_nat 0) with 0 in Hrun. rewrite Hrun.
  assert ((len (pq s') =? 0) = true) as ->.
  { apply (repr_empty _ _ R'), all_empty_concat. cbn. intros i l Hi.
    apply list_lookup_fmap_Some in Hi as (? & -> & _). done. }
  do 3 eexists. split; [done|]. split; [apply SFlush|done].
Qed.

Lemma masked_total_empty b k Q : (forall i l, Q !! i = Some l -> l = []) -> masked_total b k Q = 0.
Proof.
  revert k. induction Q as [|l Q IH]; intros k H; [done|]. cbn.
  rewrite (H 0%nat l) by done. rewrite IH; [by case_test|]. intros i l'. apply (H (S i)).
Qed.

Lemma mlen_loop_spec A s n k b acc :
  repr A s -> (k + n <= length (lists A))%nat ->
  (forall j lj, lists A !! j = Some lj -> (k + n <= j)%nat -> lj = []) ->
  mlen_loop n k (q (pq s)) b acc = Some (acc + masked_total b k (drop k (lists A))).
Proof.
  intros R. revert k acc. induction n as [|n IH]; intros k acc Hn Habove; cbn [mlen_loop].
  - rewrite masked_total_empty; [by rewrite Z.add_0_r|].
    intros i l Hi. rewrite lookup_drop in Hi. apply (Habove (k + i)%nat); [done|lia].
  - destruct (lookup_lt_is_Some_2 (lists A) k) as [l Hl]; [lia|].
    destruct (r_q _ _ R _ _ Hl) as (r & -> & (_ & _ & _ & Hr) & _).
    rewrite (drop_S _ _ _ Hl). cbn [masked_total].
    rewrite IH; [|lia|intros j lj Hj ?; apply (Habove j); [done|lia]].
    unfold in_bmp. case_test; f_equal; lia.
Qed.

Lemma sim_mlen A s b : repr A s -> sim A s (Mlen b).
Proof.
  intros R. unfold sim. cbn [pktq_run]. unfold pktq_mlen.
  pose proof (r_hi _ _ R). pose proof (r_num _ _ R).
  rewrite (mlen_loop_spec A s _ 0 b 0 R); [|lia|].
  - do 3 eexists. split; [done|]. split; [apply SMlen|done].
  - intros j lj Hj Hlt. apply (r_hint _ _ R j); [done|lia].
Qed.

Lemma highest_in_spec A s b h :
  repr A s -> Z.of_nat h < num_prec (pq s) ->
  (forall j lj, lists A !! j = Some lj -> in_bmp b j = true -> (h < j)%nat -> lj = []) ->
  (exists h' p l r, highest_in h (q (pq s)) b = Some (Some h') /\
     top (in_bmp b) (lists A) h' (p :: l) /\ q (pq s) !! h' = Some r /\
     prec_repr (link s) (p :: l) r /\ caps A !! h' = Some (q_max r)) \/
  (highest_in h (q (pq s)) b = Some None /\
   forall j lj, lists A !! j = Some lj -> in_bmp b j = true -> lj = []).
Proof.
  intros R. pose proof (r_num _ _ R) as Hnum. induction h as [|h IH]; intros Hh Habove;
    match type of Hh with Z.of_nat ?k < _ =>
      destruct (lookup_lt_is_Some_2 (lists A) k) as [l Hl]; [lia|]; 
      destruct (r_q _ _ R _ _ Hl) as (r & Hq & Hr & Hc); cbn [highest_in]; rewrite Hq;
      fold (in_bmp b k); pose proof (repr_head_nil _ _ _ _ _ Hl Hr) as Hnil;
      destruct (in_bmp b k) eqn:Eb; cbn [negb orb]; [case_bool_decide as Ehd|]
    end.
  2, 5: left; destruct l as [|p l]; [by destruct Ehd; apply Hnil|];
     do 4 eexists; split; [done|]; split; [|split; [done|split; [exact Hr|exact Hc]]];
     split; [done|]; split; [done|]; split; [done|]; intros j l' Hj Hbj Hl'; by apply (Habove j).
  1, 2: right; split; [done|]; intros [|j] lj Hj Hbj; [|apply (Habove (S j)); [done..|lia]].
  1: rewrite Hl in Hj; injection Hj as <-; by apply Hnil.
  1: congruence.
  1, 2: apply IH; [lia|]; intros j lj Hj Hbj Hlt;
    destruct (decide (j = S h)) as [->|]; [|apply (Habove j); [done..|lia]].
  1: rewrite Hl in Hj; injection Hj as <-; by apply Hnil.
  congruence.
Qed.

Lemma sim_mdeq A s b : repr A s -> sim A s (Mdeq b).
Proof.
  intros R. unfold sim. cbn [pktq_run]. unfold pktq_mdeq.
  destruct (len (pq s) =? 0) eqn:E.
  { apply (repr_empty _ _ R) in E. do 3 eexists. split; [done|]. split; [|done].
    apply SMdeq_none. intros i l Hl _. by apply (proj1 (all_empty_concat _) E i). }
  destruct (repr_lower A s R) as (h & l & r & -> & Hh & _ & _ & _ & _ & _ & Habove).
  destruct (highest_in_spec A s b h R Hh) as
    [(h' & p & l' & r' & Hhi & Htop & Hq & Hr & Hc)|[Hhi Hnone]].
  { intros j lj Hj _ Hlt. apply (Habove j); [done|lia]. }
  - cbn [set_hi pq q]. rewrite Hhi, Hq. pose proof Hr as (_ & Hhd & _). rewrite Hhd.
    cbn [head hd_error]. do 3 eexists. split; [done|]. split; [by apply SMdeq|].
    change (take_head (set_hi s h)) with (take_head s).
    apply take_head_repr; try done; [apply Htop|lia].
  - cbn [set_hi pq q]. rewrite Hhi. do 3 eexists. split; [done|].
    split; [by apply SMdeq_none|by apply repr_set_hi].
Qed.

Lemma sim_all A s o : repr A s -> enabled A s o -> sim A s o.
Proof.
  intros R H. destruct o.
  - by apply sim_penq.
  - by apply sim_penq_head.
  - by apply sim_pdeq.
  - by apply sim_pdeq_tail.
  - by apply sim_pflush.
  - by apply sim_pdel.
  - by apply sim_setmax.
  - by apply sim_deq.
  - by apply sim_deq_tail.
  - by apply sim_peek.
  - by apply sim_peek_tail.
  - by apply sim_flush.
  - by apply sim_mlen.
  - by apply sim_mdeq.
Qed.

Lemma init_repr s n max_len k :
  0 < k <= 16 -> (Z.to_nat k <= n)%nat ->
  exists s', pktq_init s n k max_len = Some s' /\
    repr (init_model (Z.to_nat k) (wrap16 max_len) (freed s)) s'.
Proof.
  intros Hk Hn. unfold pktq_init, PKTQ_MAX_PREC.
  rewrite (proj2 (Z.ltb_lt _ _)), (proj2 (Z.leb_le _ _)) by lia. cbn [andb].
  rewrite (proj2 (Nat.leb_le _ _)) by lia. eexists. split; [done|].
  assert (Hc : concat (replicate (Z.to_nat k) (@nil Z)) = []).
  { apply all_empty_concat. intros i l Hl. by apply lookup_replicate in Hl as [-> _]. }
  constructor; cbn; rewrite ?length_replicate, ?Hc, ?wrap16_small by lia; try done; try lia.
  - unfold PKTQ_MAX_PREC. lia.
  - intros i l Hl. apply lookup_replicate in Hl as [-> Hi].
    exists (Prec None None 0 (wrap16 max_len)). split; [|split; [done|]].
    + rewrite lookup_app_l by (rewrite length_replicate; lia).
      by apply lookup_replicate_2.
    + by apply lookup_replicate_2.
  - constructor.
  - apply wrap16_range.
  - intros i l Hl _. by apply lookup_replicate in Hl as [-> _].
Qed.

Lemma concat_map_nil (Q : list (list Z)) : concat (map (fun _ => @nil Z) Q) = [].
Proof. by induction Q. Qed.

Lemma set_list_perm A i l l' x y :
  lists A !! i = Some l -> x ++ l ≡ₚ y ++ l' ->
  x ++ concat (lists A) ++ map fst (given A)
  ≡ₚ y ++ concat (lists (set_list A i l')) ++ map fst (given (set_list A i l')).
Proof.
  intros Hl H. cbn. rewrite (concat_split _ _ _ Hl), (concat_insert _ _ _ l' Hl).
  by rewrite !app_assoc, H.
Qed.

Lemma astep_conserves A o r A' :
  astep A o r A' ->
  entered o ++ concat (lists A) ++ map fst (given A)
  ≡ₚ left_by o r ++ concat (lists A') ++ map fst (given A').
Proof.
  assert (Hfst : forall (l : list Z) (dir : bool), map fst (map (fun p => (p, dir)) l) = l)
    by (intros l dir; rewrite map_map; apply map_id).
  intros H. destruct H as [i l p H|i l p H|i p l H|i H|i p l H|i H|i l dir H|i l1 b l2 H|
    i l b H|prec| |n Hn|i p l (H & _)|H|i p l (H & _)|H|i l H|H|i l H|H|dir|b|b i p l (H & _)|b H];
    cbn [entered left_by]; try done.
  - apply (set_list_perm _ _ _ _ _ [] H). solve_Permutation.
  - apply (set_list_perm _ _ _ _ _ [] H). solve_Permutation.
  - apply (set_list_perm _ _ _ _ [] _ H). solve_Permutation.
  - apply (set_list_perm _ _ _ _ [] _ H). solve_Permutation.
  - cbn. rewrite map_app, Hfst, (concat_insert _ _ _ [] H), (concat_split _ _ _ H).
    solve_Permutation.
  - apply (set_list_perm _ _ _ _ [] _ H). solve_Permutation.
  - apply (set_list_perm _ _ _ _ [] _ H). solve_Permutation.
  - apply (set_list_perm _ _ _ _ [] _ H). solve_Permutation.
  - cbn. rewrite concat_map_nil, map_app, Hfst, app_nil_l. apply Permutation_app_comm.
  - apply (set_list_perm _ _ _ _ [] _ H). solve_Permutation.
Qed.

Lemma runs_conserve os A s :
  repr A s -> feasible A s os ->
  exists rs s' A', pktq_runs s os = Some (rs, s') /\ repr A' s' /\
    concat (map entered os) ++ concat (lists A) ++ map fst (given A)
    ≡ₚ all_left os rs ++ concat (lists A') ++ map fst (given A').
Proof.
  revert A s. induction os as [|o os IH]; intros A s R Hf; cbn in *.
  { by exists [], s, A. }
  destruct Hf as [He Hf].
  destruct (sim_all A s o R He) as (r & s1 & A1 & Hrun & Hstep & R1).
  destruct (IH A1 s1 R1 (Hf _ _ _ Hrun Hstep R1)) as (rs & s' & A' & Hr & R' & Hp).
  rewrite Hrun, Hr. exists (r :: rs), s', A'. split; [done|]. split; [done|]. cbn.
  apply astep_conserves in Hstep.
  rewrite <- !app_assoc, <- Hp.
  rewrite (Permutation_app_swap_app (entered o)), Hstep.
  apply Permutation_app_swap_app.
Qed.

Lemma order_empty k Q : (forall i l, Q !! i = Some l -> l = []) -> order k Q = [].
Proof.
  revert k. induction Q as [|l Q IH]; intros k H; [done|]. cbn.
  rewrite (H 0%nat l) by done. rewrite IH; [done|]. intros i l'. apply (H (S i)).
Qed.

Lemma order_top k Q i p l :
  top (fun _ => true) Q i (p :: l) ->
  order k Q = (p, Z.of_nat (k + i)) :: order k (<[i := l]> Q).
Proof.
  intros (Hl & _ & _ & Habove).
  assert (Ha : forall j lj, (i < j)%nat -> Q !! j = Some lj -> lj = []) by (intros; by eapply Habove).
  clear Habove. revert k i Hl Ha. induction Q as [|l0 Q IH]; intros k i Hl Ha; [done|].
  destruct i as [|i]; cbn in *.
  - injection Hl as ->. rewrite order_empty; [by rewrite Nat.add_0_r|].
    intros j lj Hj. apply (Ha (S j)); [lia|done].
  - rewrite (IH (S k) i Hl); [|intros j lj Hj Hlj; apply (Ha (S j)); [lia|done]].
    cbn. do 2 f_equal. lia.
Qed.

Lemma drain_spec n A s :
  repr A s -> length (concat (lists A)) = n ->
  exists s', drain n s = Some (order 0 (lists A), s') /\
    repr (AQ (map (fun _ => []) (lists A)) (caps A) (cap A) (given A)) s'.
Proof.
  revert A s. induction n as [|n IH]; intros A s R Hn; cbn [drain].
  - apply length_zero_iff_nil in Hn. exists s. pose proof (proj1 (all_empty_concat _) Hn) as He.
    rewrite (order_empty _ _ He). split; [done|].
    assert (map (fun _ => []) (lists A) = lists A) as ->; [|by destruct A].
    apply list_eq. intros j. rewrite list_lookup_fmap.
    destruct (lists A !! j) eqn:E; [|done]. cbn. by rewrite (He _ _ E).
  - destruct (sim_deq A s R) as (r & s1 & A1 & Hrun & Hstep & R1).
    inversion Hstep as [| | | | | | | | | | | |i p l Htop|Hc| | | | | | | | | |]; subst;
      [|by rewrite Hc in Hn].
    cbn in Hrun. destruct (pktq_deq s) as [[o s1']|]; [|done]. injection Hrun as -> ->.
    pose proof (length_concat_insert _ _ _ l (proj1 Htop)) as Hlen. cbn in Hlen.
    destruct (IH _ s1 R1) as (s' & -> & R'); [cbn; lia|].
    exists s'. rewrite (order_top 0 _ _ _ _ Htop). split; [done|]. cbn in R'.
    assert (map (fun _ => @nil Z) (<[i := l]> (lists A)) = map (fun _ => []) (lists A)) as <-;
      [|done].
    change ((fun _ : list Z => @nil Z) <$> <[i := l]> (lists A)
            = (fun _ : list Z => @nil Z) <$> lists A). rewrite list_fmap_insert.
    apply list_insert_id. by rewrite list_lookup_fmap, (proj1 Htop).
Qed.

Lemma ex_repr : repr ex_model ex_state.
Proof.
  constructor; cbn; try done; try lia.
  - unfold PKTQ_MAX_PREC. lia.
  - intros [|[|[|i]]] l; cbn; intros [= <-];
      (eexists; split; [reflexivity|]; split; [|reflexivity]); repeat split.
  - apply (bool_decide_unpack _). by vm_compute.
  - intros [|[|[|i]]] l; cbn; intros [= <-] H; try done; lia.
Qed.

(** * Properties *)

(** C22 Every operation of the packet queue, called as its [ASSERT]s require, terminates
    without reaching one and does exactly one step of the queue of lists; the links, the
    lengths and the [hi_prec] hint keep representing that queue. *)
Theorem pktq_refines A s o :
  repr A s -> enabled A s o ->
  exists r s' A', pktq_run s o = Some (r, s') /\ astep A o r A' /\ repr A' s'.
Proof. exact (sim_all A s o). Qed.

Lemma pktq_refines_witness :
  exists r s' A', pktq_run ex_state (Pdel (Some 33) 1) = Some (r, s') /\
    astep ex_model (Pdel (Some 33) 1) r A' /\ repr A' s'.
Proof. apply (pktq_refines ex_model ex_state (Pdel (Some 33) 1) ex_repr). cbn. lia. Defined.

(** From [pktq_init] on, whatever the sequence of operations, no packet is lost or
    duplicated: those enqueued are, up to order, those handed back, those freed and
    those still queued. *)
Theorem pktq_conserves s n k max_len os :
  0 < k <= 16 -> (Z.to_nat k <= n)%nat -> freed s = [] ->
  (forall s0, pktq_init s n k max_len = Some s0 ->
    feasible (init_model (Z.to_nat k) (wrap16 max_len) []) s0 os) ->
  exists s0 rs s' A', pktq_init s n k max_len = Some s0 /\
    pktq_runs s0 os = Some (rs, s') /\ repr A' s' /\
    concat (map entered os) ≡ₚ all_left os rs ++ concat (lists A') ++ map fst (freed s').
Proof.
  intros Hk Hn Hfr Hf. destruct (init_repr s n max_len k Hk Hn) as (s0 & Hi & R).
  rewrite Hfr in R. destruct (runs_conserve os _ _ R (Hf _ Hi)) as (rs & s' & A' & Hrun & R' & Hp).
  exists s0, rs, s', A'. rewrite (r_freed _ _ R'). split; [done|]. split; [done|]. split; [done|].
  cbn in Hp. rewrite <- Hp. assert (concat (replicate (Z.to_nat k) (@nil Z)) = []) as ->.
  { apply all_empty_concat. intros i l Hl. by apply lookup_replicate in Hl as [-> _]. }
  by rewrite !app_nil_r.
Qed.

(** A packet goes through a queue of two precedences. *)
Lemma pktq_conserves_witness :
  exists s0 rs s', pktq_init (State (Pq 0 0 0 0 []) ∅ []) 16 2 8 = Some s0 /\
    pktq_runs s0 [Penq 0 5; Deq; Flush true] = Some (rs, s') /\
    [5] ≡ₚ all_left [Penq 0 5; Deq; Flush true] rs ++ map fst (freed s').
Proof.
  destruct (pktq_conserves (State (Pq 0 0 0 0 []) ∅ []) 16 2 8 [Penq 0 5; Deq; Flush true])
    as (s0 & rs & s' & A' & Hi & Hr & R & Hp); [lia|lia|done| |].
  - intros s0 Hi. injection Hi as <-. cbn. split; [|done]. repeat split.
    + lia.
    + set_solver.
    + intros l c [= <-] [= <-]. by vm_compute.
  - exists s0, rs, s'. split; [exact Hi|]. split; [exact Hr|].
    injection Hi as <-. vm_compute in Hr. injection Hr as <- <-. reflexivity.
Defined.

(** [pktq_deq] serves strictly by precedence and first-in first-out within one:
    calling it as often as there are packets empties the queue, the highest list first,
    each list from its head. *)
Theorem pktq_deq_priority A s :
  repr A s ->
  exists s', drain (length (concat (lists A))) s = Some (order 0 (lists A), s') /\
    repr (AQ (map (fun _ => []) (lists A)) (caps A) (cap A) (given A)) s'.
Proof. intros R. by apply drain_spec. Qed.

Lemma pktq_deq_priority_witness :
  exists s', drain 3 ex_state = Some ([(22, 1); (33, 1); (11, 0)], s').
Proof.
  destruct (pktq_deq_priority ex_model ex_state ex_repr) as (s' & H & _). exists s'. exact H.
Defined.
