(* ===== verification/NvramPort.v ===== *)
(** What nvram.c requires of the port it is linked with, and the two ports of the
    repository: shared/nvram/nvram_rw.c (the boot loader; every value in a block of its
    own) and arch/mips/brcm-boards/bcm947xx/nvram_linux.c (the kernel; the values in one
    buffer that only grows). *)

From S2P Require Import Prelude CString.
From Stdlib Require Import ZArith Lia Bool List.
From stdpp Require Import base numbers list gmap.

#[local] Open Scope Z_scope.

Definition NVRAM_SPACE := 0x8000.

(** * The port *)

(** [nvram_realloc s t name value] is [_nvram_realloc(t, name, value)]; a free of a
    tuple that is not allocated is [None]. *)
Class Port (S : Type) := {
  t_name : S -> Z -> bytes;
  t_value : S -> Z -> bytes;
  live : S -> gset Z;
  port_wf : S -> Prop;
  nvram_realloc : S -> option Z -> bytes -> bytes -> option Z * S;
  nvram_free_tuple : S -> option Z -> option S
}.

(** The tuples of [s] other than [u] are the same in [s']. *)
Definition others_same {S} `{Port S} (s s' : S) (P : Z -> Prop) : Prop :=
  forall x, x ∈ live s -> P x -> t_name s' x = t_name s x /\ t_value s' x = t_value s x.

Class PortLaws (S : Type) `{Port S} := {
  realloc_some s t name value u s' :
    port_wf s -> is_cstr name -> is_cstr value ->
    (forall x, t = Some x -> x ∈ live s /\ t_name s x = name) ->
    nvram_realloc s t name value = (Some u, s') ->
    port_wf s' /\ t_name s' u = name /\ t_value s' u = value /\
    others_same s s' (fun x => x <> u) /\
    ((t = Some u /\ live s' = live s) \/ ((u ∉ live s) /\ live s' = {[u]} ∪ live s));
  realloc_none s t name value s' :
    port_wf s -> is_cstr name -> is_cstr value ->
    (forall x, t = Some x -> x ∈ live s /\ t_name s x = name) ->
    nvram_realloc s t name value = (None, s') ->
    port_wf s' /\ live s' = live s /\ others_same s s' (fun _ => True);
  free_some s x :
    port_wf s -> x ∈ live s ->
    exists s', nvram_free_tuple s (Some x) = Some s' /\ port_wf s' /\
      live s' = live s ∖ {[x]} /\ others_same s s' (fun y => y <> x);
  free_null s :
    port_wf s -> live s = ∅ ->
    exists s', nvram_free_tuple s None = Some s' /\ port_wf s' /\ live s' = ∅
}.

(** The port's memory as a budget: with [room s k] it can still store values of [k]
    bytes, their NULs included; [port_size] is available after all tuples are freed. *)
Class PortRoom (S : Type) `{Port S} := {
  room : S -> nat -> Prop;
  port_size : nat;
  room_mono s k k' : room s k -> (k' <= k)%nat -> room s k';
  room_realloc s t name value k :
    port_wf s -> is_cstr name -> is_cstr value ->
    (forall x, t = Some x -> x ∈ live s /\ t_name s x = name) ->
    room s (length value + 1 + k) ->
    exists u s', nvram_realloc s t name value = (Some u, s') /\ room s' k;
  room_free s s' :
    port_wf s -> live s = ∅ -> nvram_free_tuple s None = Some s' -> room s' port_size
}.

(** * nvram_rw.c *)

Record rw_port := Rw { rw_heap : gmap Z (bytes * bytes) }.

Section Rw.
(** [MALLOC]: the addresses in use and a size. *)
Variable MALLOC : gset Z -> Z -> option Z.

Definition rw_realloc (s : rw_port) (t : option Z) (name value : bytes) : option Z * rw_port :=
  match MALLOC (dom (rw_heap s)) (12 + strlen name + 1 + strlen value + 1) with
  | None => (None, s)
  | Some t => (Some t, Rw (<[t := (name, value)]> (rw_heap s)))
  end.

Definition rw_free (s : rw_port) (t : option Z) : option rw_port :=
  match t with
  | None => Some s
  | Some t => let? _ := rw_heap s !! t in Some (Rw (delete t (rw_heap s)))
  end.

#[export] Instance rw_Port : Port rw_port := {
  t_name s t := match rw_heap s !! t with Some (n, _) => n | None => [] end;
  t_value s t := match rw_heap s !! t with Some (_, v) => v | None => [] end;
  live s := dom (rw_heap s);
  port_wf _ := True;
  nvram_realloc := rw_realloc;
  nvram_free_tuple := rw_free
}.
End Rw.

(** * nvram_linux.c *)

(** A tuple's value is an offset in [nvram_buf], or [NULL]. *)
Record lx_port := Lx {
  lx_heap : gmap Z (bytes * option nat);
  nvram_buf : bytes;
  nvram_offset : nat
}.

Section Linux.
Variable kmalloc : gset Z -> Z -> option Z.

Definition lx_value (s : lx_port) (v : option nat) : option bytes :=
  let? o := v in Some (cstr (drop o (nvram_buf s))).

Definition lx_realloc (s : lx_port) (t : option Z) (name value : bytes) : option Z * lx_port :=
  if NVRAM_SPACE <? Z.of_nat (nvram_offset s) + strlen value + 1 then (None, s)
  else
    let new :=
      match t with
      | Some t => let? (n, v) := lx_heap s !! t in Some (t, n, v)
      | None =>
          let? t := kmalloc (dom (lx_heap s)) (12 + strlen name + 1) in Some (t, name, None)
      end in
    match new with
    | None => (None, s)
    | Some (t, n, v) =>
        let same := match lx_value s v with
                    | Some old => strcmp old value =? 0
                    | None => false
                    end in
        if same then (Some t, Lx (<[t := (n, v)]> (lx_heap s)) (nvram_buf s) (nvram_offset s))
        else
          (Some t, Lx (<[t := (n, Some (nvram_offset s))]> (lx_heap s))
                      (splice (nvram_buf s) (nvram_offset s) (value ++ [0]))
                      (nvram_offset s + length value + 1))
    end.

Definition lx_free (s : lx_port) (t : option Z) : option lx_port :=
  match t with
  | None => Some (Lx (lx_heap s) (nvram_buf s) 0)
  | Some t =>
      let? _ := lx_heap s !! t in
      Some (Lx (delete t (lx_heap s)) (nvram_buf s) (nvram_offset s))
  end.

(** Every value ends below [nvram_offset]. *)
Definition lx_wf (s : lx_port) : Prop :=
  length (nvram_buf s) = Z.to_nat NVRAM_SPACE /\ Forall byte_ok (nvram_buf s) /\
  (nvram_offset s <= Z.to_nat NVRAM_SPACE)%nat /\
  forall t n v, lx_heap s !! t = Some (n, v) ->
    exists o, v = Some o /\
      (o + length (cstr (drop o (nvram_buf s))) + 1 <= nvram_offset s)%nat.

#[export] Instance lx_Port : Port lx_port := {
  t_name s t := match lx_heap s !! t with Some (n, _) => n | None => [] end;
  t_value s t := match lx_heap s !! t with
                 | Some (_, v) => match lx_value s v with Some v => v | None => [] end
                 | None => []
                 end;
  live s := dom (lx_heap s);
  port_wf := lx_wf;
  nvram_realloc := lx_realloc;
  nvram_free_tuple := lx_free
}.
End Linux.

(** * The ports keep the promise *)

Section RwLaws.
Variable MALLOC : gset Z -> Z -> option Z.
Hypothesis MALLOC_fresh : forall used n a, MALLOC used n = Some a -> a ∉ used.

Lemma rw_laws : @PortLaws rw_port (rw_Port MALLOC).
Proof.
  constructor; cbn.
  - unfold rw_realloc. intros s t name value u s' _ _ _ _ E.
    destruct (MALLOC _ _) as [a|] eqn:Ea; [|done]. injection E as -> <-.
    apply MALLOC_fresh in Ea. cbn. rewrite !lookup_insert_eq, dom_insert_L.
    split; [done|]. split; [done|]. split; [done|]. split; [|by right].
    intros x Hx Hne. cbn. by rewrite lookup_insert_ne.
  - unfold rw_realloc. intros s t name value s' _ _ _ _ E.
    destruct (MALLOC _ _); [done|]. by injection E as <-.
  - intros s x _ Hx. apply elem_of_dom in Hx as [p Hp]. unfold rw_free. rewrite Hp.
    eexists. split; [done|]. split; [done|]. cbn. rewrite dom_delete_L. split; [done|].
    intros y _ Hne. cbn. by rewrite lookup_delete_ne.
  - intros s _ Hs. by exists s.
Qed.

Hypothesis MALLOC_ok : forall used n, is_Some (MALLOC used n).

(** With memory left the boot loader's port stores anything, so any [size] will do. *)
Definition rw_room (size : nat) : @PortRoom rw_port (rw_Port MALLOC).
Proof.
  refine {| room := fun _ _ => True; port_size := size |}; try done.
  cbn. unfold rw_realloc. intros s t name value k _ _ _ _ _.
  destruct (MALLOC_ok (dom (rw_heap s)) (12 + strlen name + 1 + strlen value + 1)) as [a ->].
  by do 2 eexists.
Defined.
End RwLaws.

Lemma cstr_take_app l k x :
  (length (cstr l) < k <= length l)%nat -> cstr (take k l ++ x) = cstr l.
Proof.
  revert k. induction l as [|c l IH]; intros k Hk; [cbn in Hk; lia|].
  destruct k as [|k]; [lia|]. cbn in *. destruct (c =? 0); [done|]. rewrite IH; [done|].
  cbn in Hk. lia.
Qed.

(** Writing behind a string does not change it. *)
Lemma cstr_drop_splice obj o off s :
  (o + length (cstr (drop o obj)) + 1 <= off)%nat -> (off + length s <= length obj)%nat ->
  cstr (drop o (splice obj off s)) = cstr (drop o obj).
Proof.
  intros Ho Hs. unfold splice. rewrite drop_app_le by (rewrite length_take; lia).
  rewrite skipn_firstn_comm. apply cstr_take_app. rewrite length_drop. lia.
Qed.

Section LinuxLaws.
Variable kmalloc : gset Z -> Z -> option Z.
Hypothesis kmalloc_fresh : forall used n a, kmalloc used n = Some a -> a ∉ used.
#[local] Instance lx : Port lx_port := lx_Port kmalloc.

(** The tuple [lx_realloc] works on: the caller's, or a new one without a value. *)
Definition lx_target (s : lx_port) (t : option Z) (name : bytes) (u : Z) (v : option nat) : Prop :=
  match t with
  | Some t => t = u /\ lx_heap s !! u = Some (name, v)
  | None => (u ∉ dom (lx_heap s)) /\ v = None
  end.

Lemma lx_realloc_cases s t name value r :
  lx_wf s -> (forall x, t = Some x -> x ∈ live s /\ t_name s x = name) ->
  lx_realloc kmalloc s t name value = r ->
  r = (None, s) \/
  exists u v, lx_target s t name u v /\
    (nvram_offset s + length value + 1 <= Z.to_nat NVRAM_SPACE)%nat /\
    ((exists old, lx_value s v = Some old /\ strcmp old value = 0 /\
       r = (Some u, Lx (<[u := (name, v)]> (lx_heap s)) (nvram_buf s) (nvram_offset s))) \/
     r = (Some u, Lx (<[u := (name, Some (nvram_offset s))]> (lx_heap s))
                     (splice (nvram_buf s) (nvram_offset s) (value ++ [0]))
                     (nvram_offset s + length value + 1))).
Proof.
  intros Hw Ht <-. unfold lx_realloc. rewrite strlen_length. case_test; [by left|].
  assert (Hroom : (nvram_offset s + length value + 1 <= Z.to_nat NVRAM_SPACE)%nat) by lia.
  assert (Hnew : match
      (match t with
       | Some t => let? (n, v) := lx_heap s !! t in Some (t, n, v)
       | None => let? t := kmalloc (dom (lx_heap s)) (12 + strlen name + 1) in Some (t, name, None)
       end) with
    | None => t = None
    | Some (u, n, v) => n = name /\ lx_target s t name u v
    end).
  { destruct t as [t|].
    - destruct (Ht t eq_refl) as [Hl Hn]. cbn in Hl, Hn.
      destruct (lx_heap s !! t) as [[n v]|] eqn:Eh; [|by apply not_elem_of_dom in Eh].
      cbn in Hn. subst n. done.
    - destruct (kmalloc _ _) as [a|] eqn:Ea; [|done]. split; [done|].
      split; [by apply kmalloc_fresh in Ea|done]. }
  destruct (match t with Some _ => _ | None => _ end) as [[[u n] v]|]; [|by left].
  destruct Hnew as [-> Htar]. right. exists u, v. split; [done|]. split; [done|].
  destruct (lx_value s v) as [old|] eqn:Ev; [|by right].
  destruct (strcmp old value =? 0) eqn:Ec; [|by right]. bool_simpl. left. by exists old.
Qed.

Lemma lx_target_live s t name u v :
  lx_target s t name u v ->
  (t = Some u /\ u ∈ dom (lx_heap s)) \/ (u ∉ dom (lx_heap s)).
Proof.
  destruct t as [t|]; cbn; [|tauto]. intros [-> H]. left. split; [done|]. by eapply elem_of_dom_2.
Qed.

Lemma cstr_Forall (P : Z -> Prop) l : Forall P l -> Forall P (cstr l).
Proof.
  induction 1 as [|c l Hc Hl IH]; cbn; [constructor|]. case_test; constructor; auto.
Qed.

Lemma lx_target_name s t name u v :
  lx_target s t name u v -> forall n w, lx_heap s !! u = Some (n, w) -> n = name /\ w = v.
Proof.
  destruct t as [t|]; cbn.
  - intros [-> H] n w H'. rewrite H in H'. by injection H' as <- <-.
  - intros [H _] n w H'. exfalso. apply H. by eapply elem_of_dom_2.
Qed.

(** The new value is written behind all others. *)
Lemma lx_write s t name value u v :
  lx_wf s -> is_cstr value -> lx_target s t name u v ->
  (nvram_offset s + length value + 1 <= Z.to_nat NVRAM_SPACE)%nat ->
  let s' := Lx (<[u := (name, Some (nvram_offset s))]> (lx_heap s))
               (splice (nvram_buf s) (nvram_offset s) (value ++ [0]))
               (nvram_offset s + length value + 1) in
  lx_wf s' /\ t_value s' u = value /\ others_same s s' (fun x => x <> u).
Proof.
  intros (Hlen & Hok & Hoff & Hheap) Hv Htar Hroom s'.
  assert (Hsl : (nvram_offset s + length (value ++ [0%Z]) <= length (nvram_buf s))%nat)
    by (rewrite length_app; cbn; lia).
  assert (Hold : forall o, (o + length (cstr (drop o (nvram_buf s))) + 1 <= nvram_offset s)%nat ->
    cstr (drop o (nvram_buf s')) = cstr (drop o (nvram_buf s)))
    by (intros o Ho; by apply cstr_drop_splice).
  assert (Hnew : cstr (drop (nvram_offset s) (nvram_buf s')) = value).
  { cbn. unfold splice. rewrite drop_app_length' by (rewrite length_take; lia).
    rewrite <- app_assoc. by apply cstr_app. }
  split; [|split].
  - split; [|split; [|split]]; cbn [s' nvram_buf nvram_offset lx_heap].
    + by rewrite length_splice.
    + unfold splice. rewrite !Forall_app. pose proof Hok as Hok'.
      rewrite (Forall_take_drop _ (nvram_offset s)) in Hok'. split; [tauto|].
      split; [|by apply Forall_drop]. split; [by apply cstr_bytes|].
      constructor; [by unfold byte_ok|constructor].
    + lia.
    + intros x n w Hx. destruct (decide (x = u)) as [->|Hne].
      * rewrite lookup_insert_eq in Hx. injection Hx as <- <-. eexists. split; [done|].
        change (splice _ _ _) with (nvram_buf s'). rewrite Hnew. lia.
      * rewrite lookup_insert_ne in Hx by done. destruct (Hheap x n w Hx) as (o & -> & Ho).
        exists o. split; [done|]. change (splice _ _ _) with (nvram_buf s'). rewrite Hold by done. lia.
  - cbn. rewrite lookup_insert_eq. exact Hnew.
  - intros x Hx Hne. cbn. rewrite lookup_insert_ne by done.
    destruct (lx_heap s !! x) as [[n w]|] eqn:E; [|done]. split; [done|].
    destruct (Hheap x n w E) as (o & -> & Ho). cbn. change (splice _ _ _) with (nvram_buf s').
    by rewrite Hold.
Qed.

Lemma lx_laws : @PortLaws lx_port (lx_Port kmalloc).
Proof.
  constructor.
  - intros s t name value u s' Hw Hn Hv Ht E.
    destruct (lx_realloc_cases s t name value _ Hw Ht E) as [[=]|(u' & v & Htar & Hroom & Hr)].
    assert (u' = u) as -> by (destruct Hr as [(? & _ & _ & [=])|[=]]; congruence).
    assert (Hlive : t = Some u /\ live s' = live s \/ (u ∉ live s) /\ live s' = {[u]} ∪ live s).
    { assert (live s' = {[u]} ∪ live s) as Hl.
      { destruct Hr as [(? & _ & _ & [= ->])|[= ->]]; cbn; apply dom_insert_L. }
      destruct (lx_target_live _ _ _ _ _ Htar) as [[-> Hu]|Hu]; [left|by right].
      split; [done|]. rewrite Hl. cbn. set_solver. }
    destruct Hr as [(old & Hold & Hc & [= ->])|[= ->]].
    + unfold lx_value in Hold. destruct v as [o|]; [|done]. injection Hold as <-.
      apply strcmp_eq in Hc as Hc'; [|apply cstr_Forall, Forall_drop, Hw|by apply cstr_bytes].
      destruct t as [t|]; [|by destruct Htar]. destruct Htar as [-> Hu].
      rewrite insert_id by done. destruct s as [h b f]; cbn in *. rewrite Hu.
      rewrite insert_id in Hlive by done. split; [done|]. split; [done|]. split; [done|].
      by split.
    + destruct (lx_write s t name value u v Hw Hv Htar Hroom) as (Hw' & Hval & Ho).
      split; [done|]. split; [cbn; by rewrite lookup_insert_eq|]. done.
  - intros s t name value s' Hw Hn Hv Ht E.
    destruct (lx_realloc_cases s t name value _ Hw Ht E) as [[=->]|(u & v & _ & _ & Hr)]; [done|].
    destruct Hr as [(? & _ & _ & [=])|[=]].
  - intros s x (Hlen & Hok & Hoff & Hheap) Hx. cbn in Hx. apply elem_of_dom in Hx as [p Hp].
    cbn. rewrite Hp. eexists. split; [done|]. split; [|split].
    + split; [done|]. split; [done|]. split; [done|]. intros t n v Ht. cbn in Ht.
      apply lookup_delete_Some in Ht as [_ Ht]. by apply (Hheap t n v).
    + cbn. by rewrite dom_delete_L.
    + intros y Hy Hne. cbn. by rewrite lookup_delete_ne.
  - intros s (Hlen & Hok & Hoff & Hheap) Hl. eexists. split; [done|]. split; [|done].
    split; [done|]. split; [done|]. split; [cbn; lia|]. intros t n v Ht. cbn in Ht, Hl.
    apply elem_of_dom_2 in Ht. set_solver.
Qed.

Hypothesis kmalloc_ok : forall used n, is_Some (kmalloc used n).

(** The kernel's port holds as many bytes of values as the buffer has left. *)
Definition lx_room : @PortRoom lx_port (lx_Port kmalloc).
Proof.
  refine {| room := fun s k => (nvram_offset s + k <= Z.to_nat NVRAM_SPACE)%nat;
            port_size := Z.to_nat NVRAM_SPACE |}.
  - lia.
  - intros s t name value k _ _ _ Ht Hr. cbn. unfold lx_realloc. rewrite strlen_length.
    rewrite (proj2 (Z.ltb_ge _ _)) by lia.
    assert (exists u n v, (match t with
       | Some t => let? (n, v) := lx_heap s !! t in Some (t, n, v)
       | None => let? t := kmalloc (dom (lx_heap s)) (12 + strlen name + 1) in Some (t, name, None)
       end) = Some (u, n, v)) as (u & n & v & ->).
    { destruct t as [t|].
      - destruct (Ht t eq_refl) as [Hl _]. cbn in Hl. apply elem_of_dom in Hl as [[n v] ->].
        by exists t, n, v.
      - destruct (kmalloc_ok (dom (lx_heap s)) (12 + strlen name + 1)) as [a ->].
        by exists a, name, None. }
    destruct (match lx_value s v with Some old => _ | None => _ end);
      do 2 eexists; (split; [done|]); cbn; lia.
  - intros s s' _ _ [= <-]. cbn. lia.
Defined.
End LinuxLaws.
