(* ===== verification/Nvram.v ===== *)
(** The non-volatile variable store: shared/nvram/nvram.c.

    The variables live in a hash table of 257 chains of tuples, with a list of dead
    tuples.  Tuples belong to the port ([_nvram_realloc], [_nvram_free]): the core keeps
    only their addresses and reaches their name and value through the interface [Port]
    of [NvramPort.v]. *)

From S2P Require Import Prelude CString Format Crc NvramPort.
From Stdlib Require Import ZArith Lia Bool List String Ascii.
From stdpp Require Import base numbers list gmap.

#[local] Open Scope Z_scope.

(** * Data *)

Definition NVRAM_MAGIC := 0x48534C46.
Definition NVRAM_VERSION := 1.
Definition NVRAM_HEADER_SIZE := 20.
Definition NVRAM_CRC_START_POSITION : nat := 9.
Definition NVRAM_CRC_VER_MASK := 0xffffff00.
Definition SDRAM_INIT := 0x419.
Definition SDRAM_CONFIG := 0x0000.
Definition SDRAM_REFRESH := 0x8040.
Definition HASH_SIZE : nat := 257.

Record nvram_header := Header {
  h_magic : Z;
  h_len : Z;
  h_crc_ver_init : Z;
  h_config_refresh : Z;
  h_config_ncdl : Z
}.

(** A block of [NVRAM_SPACE] bytes: the header and the data area behind it. *)
Record image := Image { i_hdr : nvram_header; i_data : bytes }.

Definition DATA_SIZE : nat := Z.to_nat (NVRAM_SPACE - NVRAM_HEADER_SIZE).

(** [char] is signed. *)
Definition hash_step (h c : Z) : Z := wrap32 (31 * h + schar c).
Definition hash (s : bytes) : Z := fold_left hash_step s 0.
Definition bucket_of (name : bytes) : nat := Z.to_nat (hash name mod Z.of_nat HASH_SIZE).

Record nvram {S : Type} := Nv {
  nvram_hash : list (list Z);
  nvram_dead : list Z;
  port : S
}.
Arguments nvram : clear implicits.
Arguments Nv {S}.

Section Core.
Context {S : Type} `{Port S}.

(** The chain before the first tuple named [name], that tuple, and the chain after. *)
Fixpoint find_tuple (s : S) (l : list Z) (name : bytes) : option (list Z * Z * list Z) :=
  match l with
  | [] => None
  | t :: l =>
      if strcmp (t_name s t) name =? 0 then Some ([], t, l)
      else let? (a, u, b) := find_tuple s l name in Some (t :: a, u, b)
  end.

Definition bucket (nv : nvram S) (name : bytes) : list Z :=
  nth (bucket_of name) (nvram_hash nv) [].

Definition _nvram_get (nv : nvram S) (name : bytes) : option bytes :=
  let? (_, t, _) := find_tuple (port nv) (bucket nv name) name in
  Some (t_value (port nv) t).

Definition _nvram_set (nv : nvram S) (name value : bytes) : Z * nvram S :=
  let l := bucket nv name in
  let found := find_tuple (port nv) l name in
  let t := match found with Some (_, t, _) => Some t | None => None end in
  let '(u, s) := nvram_realloc (port nv) t name value in
  match u with
  | None => (-12, Nv (nvram_hash nv) (nvram_dead nv) s)
  | Some u =>
      if bool_decide (t = Some u) then (0, Nv (nvram_hash nv) (nvram_dead nv) s)
      else
        let '(l, dead) :=
          match found with
          | Some (a, t, b) => (a ++ b, t :: nvram_dead nv)
          | None => (l, nvram_dead nv)
          end in
        (0, Nv (<[bucket_of name := u :: l]> (nvram_hash nv)) dead s)
  end.

Definition _nvram_unset (nv : nvram S) (name : bytes) : nvram S :=
  match find_tuple (port nv) (bucket nv name) name with
  | None => nv
  | Some (a, t, b) =>
      Nv (<[bucket_of name := a ++ b]> (nvram_hash nv)) (t :: nvram_dead nv) (port nv)
  end.

Fixpoint free_list (s : S) (l : list Z) : option S :=
  match l with
  | [] => Some s
  | t :: l => let? s := nvram_free_tuple s (Some t) in free_list s l
  end.

Fixpoint free_hash (s : S) (h : list (list Z)) : option S :=
  match h with
  | [] => Some s
  | l :: h => let? s := free_list s l in free_hash s h
  end.

Definition nvram_free (nv : nvram S) : option (nvram S) :=
  let? s := free_hash (port nv) (nvram_hash nv) in
  let? s := free_list s (nvram_dead nv) in
  let? s := nvram_free_tuple s None in
  Some (Nv (replicate HASH_SIZE []) [] s).

(** ** Reading an image *)

(** The parse loop of [nvram_rehash]; each round takes at least one byte. *)
Fixpoint rehash_loop (fuel : nat) (nv : nvram S) (name : bytes) : option (nvram S) :=
  match fuel with
  | O => None
  | Datatypes.S fuel =>
      match cstr name with
      | [] => Some nv
      | entry =>
          match strchr entry (ch "=") with
          | None => Some nv
          | Some eq =>
              let n := take (length entry - length eq) entry in
              let value := drop 1 eq in
              let nv := (_nvram_set nv n value).2 in
              rehash_loop fuel nv (drop (length entry + 1) name)
          end
      end
  end.

(** The buffer [buf] of [nvram_rehash], at address [stack]. *)
Variable stack : Z.

Definition set_default (nv : nvram S) (name fmt : bytes) (x : Z) : option (nvram S) :=
  match _nvram_get nv name with
  | Some _ => Some nv
  | None =>
      let? (buf, _) := sprintf stack (str "0xXXXXXXXX" ++ [0]) 0 fmt [VInt x] in
      Some (_nvram_set nv name (cstr buf)).2
  end.

Definition nvram_rehash (nv : nvram S) (header : image) : option (nvram S) :=
  let? nv := nvram_free nv in
  let data := splice (i_data header) (DATA_SIZE - 2) [0; 0] in
  let? nv := rehash_loop (Datatypes.S DATA_SIZE) nv data in
  let h := i_hdr header in
  let? nv := set_default nv (str "sdram_init") (str "0x%04X")
               (wrap16 (Z.shiftr (h_crc_ver_init h) 16)) in
  let? nv := set_default nv (str "sdram_config") (str "0x%04X")
               (wrap16 (Z.land (h_config_refresh h) 0xffff)) in
  let? nv := set_default nv (str "sdram_refresh") (str "0x%04X")
               (wrap16 (Z.land (Z.shiftr (h_config_refresh h) 16) 0xffff)) in
  set_default nv (str "sdram_ncdl") (str "0x%08X") (h_config_ncdl h).

(** ** Writing an image

    [base] is the address of the buffer [buf]; [fits off need] is the caller's test
    that an entry of [need] bytes may go to offset [off]. *)

Fixpoint write_bucket (base : Z) (fits : Z -> Z -> bool) (s : S) (l : list Z)
    (off : Z) (buf : bytes) : option (Z * bytes) :=
  match l with
  | [] => Some (off, buf)
  | t :: l =>
      if fits off (strlen (t_name s t) + 1 + strlen (t_value s t) + 1) then
        let? (buf, n) := sprintf base buf off (str "%s=%s")
                           [VStr (Some (t_name s t)); VStr (Some (t_value s t))] in
        write_bucket base fits s l (off + n + 1) buf
      else Some (off, buf)
  end.

Fixpoint write_hash (base : Z) (fits : Z -> Z -> bool) (s : S) (h : list (list Z))
    (off : Z) (buf : bytes) : option (Z * bytes) :=
  match h with
  | [] => Some (off, buf)
  | l :: h =>
      let? (off, buf) := write_bucket base fits s l off buf in
      write_hash base fits s h off buf
  end.

(** [buf] afterwards, [count] bytes at address [base]. *)
Definition _nvram_getall (nv : nvram S) (base : Z) (count : nat) : option bytes :=
  let? (_, buf) := write_hash base (fun len need => need <? Z.of_nat count - len)
                     (port nv) (nvram_hash nv) 0 (replicate count 0) in
  Some buf.

Definition ROUNDUP (x y : Z) : Z := (x + (y - 1)) / y * y.

(** The bytes of [struct nvram_header] in memory, as [nvram_calc_crc] builds [tmp]; the
    first two words are not used. *)
Definition crc_header (h : nvram_header) : bytes :=
  drop NVRAM_CRC_START_POSITION
    (replicate 8 0 ++ le_bytes 4 (Z.land (h_crc_ver_init h) NVRAM_CRC_VER_MASK) ++
     le_bytes 4 (h_config_refresh h) ++ le_bytes 4 (h_config_ncdl h)).

Definition nvram_calc_crc (nvh : image) : Z :=
  let crc := hndcrc8 (crc_header (i_hdr nvh)) CRC8_INIT_VALUE in
  hndcrc8 (take (Z.to_nat (h_len (i_hdr nvh) - NVRAM_HEADER_SIZE)) (i_data nvh)) crc.

(** [crc_ver_init], [config_refresh] and [config_ncdl] of the new header. *)
Definition commit_sdram (nv : nvram S) : Z * Z * Z :=
  let ver := Z.shiftl NVRAM_VERSION 8 in
  let num v := (bcm_strtoul v 0).1 in
  match _nvram_get nv (str "sdram_init"), _nvram_get nv (str "sdram_config"),
        _nvram_get nv (str "sdram_refresh"), _nvram_get nv (str "sdram_ncdl") with
  | Some ini, Some config, Some refresh, Some ncdl =>
      (Z.lor ver (Z.shiftl (Z.land (num ini) 0xffff) 16),
       Z.lor (Z.land (num config) 0xffff) (Z.shiftl (Z.land (num refresh) 0xffff) 16),
       num ncdl)
  | _, _, _, _ =>
      (Z.lor ver (Z.shiftl SDRAM_INIT 16), Z.lor SDRAM_CONFIG (Z.shiftl SDRAM_REFRESH 16), 0)
  end.

(** The header [_nvram_commit] leaves in the caller's buffer, whose data area is at
    address [base]. *)
Definition commit_image (nv : nvram S) (base : Z) : option image :=
  let '(crc_ver_init, config_refresh, config_ncdl) := commit_sdram nv in
  let? (off, data) :=
    write_hash base (fun off need => off + need <=? Z.of_nat DATA_SIZE - 2)
      (port nv) (nvram_hash nv) 0 (replicate DATA_SIZE 0) in
  let len := ROUNDUP (NVRAM_HEADER_SIZE + off + 2) 4 in
  let hdr := Header NVRAM_MAGIC len crc_ver_init config_refresh config_ncdl in
  let crc := nvram_calc_crc (Image hdr data) in
  Some (Image (Header NVRAM_MAGIC len (Z.lor crc_ver_init crc) config_refresh config_ncdl) data).

Definition _nvram_commit (nv : nvram S) (base : Z) : option (image * nvram S) :=
  let? img := commit_image nv base in
  let? nv := nvram_rehash nv img in
  Some (img, nv).

(** [mem] is the result of [MALLOC], with whatever the block holds; [read] is
    [_nvram_read].  [bcm_nvram_cache], called last, only reads the table. *)
Definition _nvram_init (nv : nvram S) (mem : option image) (read : image -> Z * image)
    : option (Z * nvram S) :=
  match mem with
  | None => Some (-12, nv)
  | Some header =>
      let '(ret, header) := read header in
      if (ret =? 0) && (h_magic (i_hdr header) =? NVRAM_MAGIC) then
        let? nv := nvram_rehash nv header in Some (ret, nv)
      else Some (ret, nv)
  end.

Definition _nvram_exit (nv : nvram S) : option (nvram S) := nvram_free nv.

End Core.

(** * Specification vocabulary *)

Section Spec.
Context {S : Type} `{Port S}.

(** The variables, in the order of the table. *)
Definition tuple_pair (s : S) (t : Z) : bytes * bytes := (t_name s t, t_value s t).
Definition pairs (nv : nvram S) : list (bytes * bytes) :=
  map (tuple_pair (port nv)) (concat (nvram_hash nv)).

(** The store as a finite map. *)
Definition to_map (nv : nvram S) : gmap bytes bytes := list_to_map (pairs nv).

(** Every tuple is in the chain of its name's hash; a chain holds a name once; the
    allocated tuples are exactly those of the table and of the dead list, each once. *)
Record nvram_ok (nv : nvram S) : Prop := {
  n_size : length (nvram_hash nv) = HASH_SIZE;
  n_home : forall i l t, nvram_hash nv !! i = Some l -> t ∈ l ->
    bucket_of (t_name (port nv) t) = i /\ is_cstr (t_name (port nv) t) /\
    is_cstr (t_value (port nv) t);
  n_once : forall i l, nvram_hash nv !! i = Some l -> NoDup (map (t_name (port nv)) l);
  n_nodup : NoDup (concat (nvram_hash nv) ++ nvram_dead nv);
  n_live : forall t, t ∈ live (port nv) <-> t ∈ concat (nvram_hash nv) ++ nvram_dead nv;
  n_port : port_wf (port nv)
}.

(** The entry of a variable in an image. *)
Definition entry (p : bytes * bytes) : bytes := p.1 ++ ch "=" :: p.2 ++ [0].

(** A name that survives being written as name=value. *)
Definition plain (name : bytes) : Prop := name <> [] /\ ch "=" ∉ name.

Definition storable (p : bytes * bytes) : Prop := plain p.1 /\ is_cstr p.1 /\ is_cstr p.2.

(** The entries of an image, and the bytes they need. *)
Definition entries (ps : list (bytes * bytes)) : bytes := concat (map entry ps).
Definition entries_size (ps : list (bytes * bytes)) : nat := length (entries ps).

(** Setting variables one after the other. *)
Definition set_all (m : gmap bytes bytes) (ps : list (bytes * bytes)) : gmap bytes bytes :=
  fold_left (fun m p => <[p.1 := p.2]> m) ps m.

(** Any mixture of [_nvram_set] and [_nvram_unset], and what it does to a map when the
    results are [rs]. *)
Inductive change := Set_ (name value : bytes) | Unset (name : bytes).

Definition change_ok (c : change) : Prop :=
  match c with Set_ n v => is_cstr n /\ is_cstr v | Unset n => is_cstr n end.

Fixpoint changes (nv : nvram S) (cs : list change) : list Z * nvram S :=
  match cs with
  | [] => ([], nv)
  | c :: cs =>
      let '(r, nv) := match c with
                      | Set_ n v => _nvram_set nv n v
                      | Unset n => (0, _nvram_unset nv n)
                      end in
      let '(rs, nv) := changes nv cs in (r :: rs, nv)
  end.

Fixpoint changes_map (m : gmap bytes bytes) (cs : list change) (rs : list Z) : gmap bytes bytes :=
  match cs, rs with
  | Set_ n v :: cs, r :: rs => changes_map (if r =? 0 then <[n := v]> m else m) cs rs
  | Unset n :: cs, _ :: rs => changes_map (delete n m) cs rs
  | _, _ => m
  end.

Definition header_u32 (h : nvram_header) : Prop :=
  Forall (fun x => 0 <= x < 2 ^ 32)
    [h_magic h; h_len h; h_crc_ver_init h; h_config_refresh h; h_config_ncdl h].

(** What every image written by [_nvram_commit] satisfies. *)
Definition image_ok (img : image) : Prop :=
  let h := i_hdr img in
  h_magic h = NVRAM_MAGIC /\ header_u32 h /\ length (i_data img) = DATA_SIZE /\
  NVRAM_HEADER_SIZE + 2 <= h_len h <= NVRAM_SPACE /\ h_len h mod 4 = 0 /\
  Z.land (Z.shiftr (h_crc_ver_init h) 8) 0xff = NVRAM_VERSION /\
  nvram_calc_crc img = Z.land (h_crc_ver_init h) 0xff.

(** The image holds exactly the variables [ps], closed by two NULs within [len]. *)
Definition image_holds (img : image) (ps : list (bytes * bytes)) : Prop :=
  exists n, i_data img = entries ps ++ replicate n 0 /\
    Z.of_nat (entries_size ps) + 2 <= h_len (i_hdr img) - NVRAM_HEADER_SIZE.

End Spec.

(** The text of [sprintf("0x%04X", x)] and [sprintf("0x%08X", x)]. *)
Definition hex_text (width x : Z) : bytes :=
  match atox (wrap32 x) 16 width digits with Some s => str "0x" ++ s | None => [] end.

(** What [nvram_rehash] adds to the variables read from an image. *)
Definition default_to (name value : bytes) (m : gmap bytes bytes) : gmap bytes bytes :=
  match m !! name with Some _ => m | None => <[name := value]> m end.

Definition sdram_defaults (h : nvram_header) (m : gmap bytes bytes) : gmap bytes bytes :=
  default_to (str "sdram_ncdl") (hex_text 8 (h_config_ncdl h))
   (default_to (str "sdram_refresh") (hex_text 4 (wrap16 (Z.shiftr (h_config_refresh h) 16)))
    (default_to (str "sdram_config") (hex_text 4 (wrap16 (h_config_refresh h)))
     (default_to (str "sdram_init") (hex_text 4 (wrap16 (Z.shiftr (h_crc_ver_init h) 16))) m))).

(** * Lemmas *)

Section Proofs.
Context {S : Type} `{PortLaws S}.

Implicit Types (s : S) (nv : nvram S).

Lemma strcmp_eqb a b : is_cstr a -> is_cstr b -> (strcmp a b =? 0) = bool_decide (a = b).
Proof.
  intros Ha Hb. apply eq_true_iff_eq. rewrite bool_decide_eq_true, Z.eqb_eq.
  apply strcmp_eq; auto with mach.
Qed.

Lemma find_tuple_split s l name :
  is_cstr name -> Forall (fun t => is_cstr (t_name s t)) l ->
  match find_tuple s l name with
  | Some (a, t, b) => l = a ++ t :: b /\ t_name s t = name
  | None => name ∉ map (t_name s) l
  end.
Proof.
  intros Hn. induction 1 as [|t l Ht _ IH]; cbn [find_tuple]; [set_solver|].
  rewrite strcmp_eqb by done. case_bool_decide; [done|].
  destruct (find_tuple s l name) as [[[a u] b]|].
  - destruct IH as [-> ?]. done.
  - cbn. set_solver.
Qed.

Lemma bucket_range name : (bucket_of name < HASH_SIZE)%nat.
Proof. unfold bucket_of. pose proof (Z.mod_pos_bound (hash name) (Z.of_nat HASH_SIZE)). unfold HASH_SIZE in *. lia. Qed.

Lemma bucket_lookup nv name :
  nvram_ok nv -> nvram_hash nv !! bucket_of name = Some (bucket nv name).
Proof.
  intros I. destruct (lookup_lt_is_Some_2 (nvram_hash nv) (bucket_of name)) as [l Hl].
  { rewrite (n_size _ I). apply bucket_range. }
  unfold bucket. by rewrite Hl, (nth_lookup_Some _ _ _ _ Hl).
Qed.

Lemma bucket_names nv i l :
  nvram_ok nv -> nvram_hash nv !! i = Some l -> Forall (fun t => is_cstr (t_name (port nv) t)) l.
Proof. intros I Hl. apply Forall_forall. intros t Ht. by destruct (n_home _ I i l t Hl Ht) as (_ & ? & _). Qed.

(** [find_tuple] on the chain of a name. *)
Lemma find_tuple_bucket nv name :
  nvram_ok nv -> is_cstr name ->
  match find_tuple (port nv) (bucket nv name) name with
  | Some (a, t, b) => bucket nv name = a ++ t :: b /\ t_name (port nv) t = name
  | None => name ∉ map (t_name (port nv)) (bucket nv name)
  end.
Proof.
  intros I Hn. apply find_tuple_split; [done|]. eapply bucket_names; [done|].
  by apply bucket_lookup.
Qed.

(** A tuple of the table is in the chain of its name. *)
Lemma in_bucket nv t :
  nvram_ok nv -> t ∈ concat (nvram_hash nv) -> t ∈ bucket nv (t_name (port nv) t).
Proof.
  intros I Ht. apply elem_of_concat_lookup in Ht as (i & l & Hl & Ht).
  destruct (n_home _ I i l t Hl Ht) as [Hi _]. unfold bucket. by rewrite Hi, (nth_lookup_Some _ _ _ _ Hl).
Qed.

Lemma bucket_in nv name t : nvram_ok nv -> t ∈ bucket nv name -> t ∈ concat (nvram_hash nv).
Proof.
  intros I Ht. apply elem_of_concat_lookup. exists (bucket_of name), (bucket nv name).
  by rewrite bucket_lookup.
Qed.

Lemma names_nodup nv : nvram_ok nv -> NoDup (map (t_name (port nv)) (concat (nvram_hash nv))).
Proof.
  intros I. apply (NoDup_map_concat _ bucket_of 0). intros i l Hl.
  split; [by apply (n_once _ I i)|]. intros t Ht. by apply (n_home _ I i l t).
Qed.

Lemma map_fst_pairs nv : map fst (pairs nv) = map (t_name (port nv)) (concat (nvram_hash nv)).
Proof. unfold pairs. rewrite map_map. done. Qed.

Lemma to_map_Some nv n v :
  nvram_ok nv ->
  to_map nv !! n = Some v <->
  exists t, t ∈ concat (nvram_hash nv) /\ t_name (port nv) t = n /\ t_value (port nv) t = v.
Proof.
  intros I. unfold to_map. rewrite <- elem_of_list_to_map.
  - unfold pairs. rewrite list_elem_of_In, in_map_iff. setoid_rewrite <- list_elem_of_In.
    unfold tuple_pair. split.
    + intros (t & [= <- <-] & Ht). eauto.
    + intros (t & Ht & <- & <-). eauto.
  - change (NoDup (map fst (pairs nv))). rewrite map_fst_pairs. by apply names_nodup.
Qed.

Lemma to_map_None nv n :
  nvram_ok nv -> n ∉ map (t_name (port nv)) (bucket nv n) -> to_map nv !! n = None.
Proof.
  intros I Hn. destruct (to_map nv !! n) as [v|] eqn:E; [|done].
  apply to_map_Some in E as (t & Ht & Hname & _); [|done]. exfalso. apply Hn.
  apply list_elem_of_fmap. exists t. split; [done|]. rewrite <- Hname. by apply in_bucket.
Qed.

(** ** [_nvram_get] *)

Lemma nvram_get_spec nv n : nvram_ok nv -> is_cstr n -> _nvram_get nv n = to_map nv !! n.
Proof.
  intros I Hn. unfold _nvram_get. pose proof (find_tuple_bucket nv n I Hn) as Hf.
  destruct (find_tuple (port nv) (bucket nv n) n) as [[[a t] b]|].
  - destruct Hf as [Hb Ht]. symmetry. apply to_map_Some; [done|]. exists t.
    split; [|done]. apply (bucket_in nv n); [done|]. rewrite Hb. set_solver.
  - symmetry. by apply to_map_None.
Qed.

(** ** [_nvram_unset] *)

Lemma to_map_ext nv nv' (f : gmap bytes bytes -> gmap bytes bytes) :
  (forall n v, to_map nv' !! n = Some v <-> f (to_map nv) !! n = Some v) ->
  to_map nv' = f (to_map nv).
Proof. intros Hx. apply map_eq. intros n. apply option_eq. intros v. apply Hx. Qed.

Lemma chain_shrink_ok nv n a t b :
  nvram_ok nv -> bucket nv n = a ++ t :: b ->
  nvram_ok (Nv (<[bucket_of n := a ++ b]> (nvram_hash nv)) (t :: nvram_dead nv) (port nv)).
Proof.
  intros I Hb. pose proof (bucket_lookup nv n I) as Hl. rewrite Hb in Hl.
  pose proof (concat_split _ _ _ Hl) as Hc. pose proof (concat_insert _ _ _ (a ++ b) Hl) as Hc'.
  assert (Hp : concat (<[bucket_of n := a ++ b]> (nvram_hash nv)) ++ t :: nvram_dead nv
               ≡ₚ concat (nvram_hash nv) ++ nvram_dead nv).
  { rewrite Hc, Hc'. solve_Permutation. }
  assert (Hsub : forall i l, <[bucket_of n := a ++ b]> (nvram_hash nv) !! i = Some l ->
    exists l', nvram_hash nv !! i = Some l' /\ l `sublist_of` l').
  { intros i l Hi. destruct (decide (i = bucket_of n)) as [->|].
    - rewrite list_lookup_insert_eq in Hi by (by eapply lookup_lt_Some).
      injection Hi as <-. exists (a ++ t :: b). split; [done|].
      apply sublist_app; [done|]. by constructor.
    - rewrite list_lookup_insert_ne in Hi by done. by exists l. }
  constructor; cbn.
  - rewrite length_insert. apply I.
  - intros i l x Hi Hx. destruct (Hsub i l Hi) as (l' & Hl' & Hs).
    apply (n_home _ I i l'); [done|]. by eapply elem_of_sublist.
  - intros i l Hi. destruct (Hsub i l Hi) as (l' & Hl' & Hs).
    eapply sublist_NoDup; [by apply (n_once _ I i l')|]. by apply (fmap_sublist (t_name (port nv))).
  - rewrite Hp. apply I.
  - intros x. rewrite Hp. apply I.
  - apply I.
Qed.

Lemma nvram_unset_spec nv n :
  nvram_ok nv -> is_cstr n ->
  nvram_ok (_nvram_unset nv n) /\ to_map (_nvram_unset nv n) = delete n (to_map nv).
Proof.
  intros I Hn. unfold _nvram_unset. pose proof (find_tuple_bucket nv n I Hn) as Hf.
  destruct (find_tuple (port nv) (bucket nv n) n) as [[[a t] b]|].
  - destruct Hf as [Hb Ht]. pose proof (chain_shrink_ok nv n a t b I Hb) as I'.
    split; [done|]. apply to_map_ext. intros m v.
    pose proof (bucket_lookup nv n I) as Hl. rewrite Hb in Hl.
    pose proof (concat_split _ _ _ Hl) as Hc. pose proof (concat_insert _ _ _ (a ++ b) Hl) as Hc'.
    pose proof (names_nodup nv I) as Hnd. rewrite Hc, <- Permutation_middle in Hnd. cbn in Hnd.
    inversion_clear Hnd as [|? ? Hnt _].
    rewrite lookup_delete_Some, !to_map_Some by done. cbn. setoid_rewrite Hc'. setoid_rewrite Hc.
    split.
    + intros (u & Hu & <- & <-). split; [|exists u; set_solver].
      intros ->. apply Hnt. rewrite Ht. apply list_elem_of_fmap. exists u. set_solver.
    + intros (Hne & u & Hu & <- & <-). exists u. split; [|done].
      assert (u <> t) by congruence. set_solver.
  - split; [done|]. rewrite delete_id; [done|]. by apply to_map_None.
Qed.

(** After [_nvram_unset] no tuple of the chain has the name. *)
Lemma unset_absent nv n :
  nvram_ok nv -> is_cstr n -> n ∉ map (t_name (port nv)) (concat (nvram_hash (_nvram_unset nv n))).
Proof.
  intros I Hn Hin. destruct (nvram_unset_spec nv n I Hn) as [I' Hm].
  assert (Hp : port (_nvram_unset nv n) = port nv).
  { unfold _nvram_unset. by destruct (find_tuple _ _ _) as [[[? ?] ?]|]. }
  apply list_elem_of_fmap in Hin as (t & Ht & Hin).
  assert (to_map (_nvram_unset nv n) !! n = Some (t_value (port nv) t)) as E.
  { apply to_map_Some; [done|]. exists t. rewrite Hp. done. }
  rewrite Hm, lookup_delete_eq in E. done.
Qed.

(** ** [_nvram_set] *)

Lemma live_table nv t : nvram_ok nv -> t ∈ concat (nvram_hash nv) -> t ∈ live (port nv).
Proof. intros I Ht. apply (n_live _ I). set_solver. Qed.

(** The port changes nothing the table uses. *)
Lemma port_change_ok nv s' :
  nvram_ok nv -> port_wf s' -> live s' = live (port nv) ->
  others_same (port nv) s' (fun _ => True) ->
  nvram_ok (Nv (nvram_hash nv) (nvram_dead nv) s') /\
  to_map (Nv (nvram_hash nv) (nvram_dead nv) s') = to_map nv.
Proof.
  intros I Hw Hl Ho.
  assert (Hsame : forall t, t ∈ concat (nvram_hash nv) ->
    t_name s' t = t_name (port nv) t /\ t_value s' t = t_value (port nv) t).
  { intros t Ht. apply Ho; [|done]. by apply live_table. }
  assert (Hin : forall i l t, nvram_hash nv !! i = Some l -> t ∈ l -> t ∈ concat (nvram_hash nv)).
  { intros i l t Hi Ht. apply elem_of_concat_lookup. eauto. }
  split.
  - constructor; cbn; try by apply I.
    + intros i l t Hi Ht. destruct (Hsame t (Hin i l t Hi Ht)) as [-> ->].
      by apply (n_home _ I i l).
    + intros i l Hi. replace (map (t_name s') l) with (map (t_name (port nv)) l).
      { by apply (n_once _ I i). }
      apply map_ext_in. intros t Ht. symmetry. apply Hsame. apply (Hin i l); [done|].
      by apply list_elem_of_In.
    + intros t. rewrite Hl. apply I.
    + done.
  - unfold to_map, pairs. cbn. f_equal. apply map_ext_in. intros t Ht. unfold tuple_pair.
    destruct (Hsame t) as [-> ->]; [by apply list_elem_of_In|done].
Qed.

(** The port reuses the tuple [t] of the table for a new value. *)
Lemma reuse_ok nv s' t v :
  nvram_ok nv -> port_wf s' -> live s' = live (port nv) -> t ∈ concat (nvram_hash nv) ->
  t_name s' t = t_name (port nv) t -> t_value s' t = v -> is_cstr v ->
  others_same (port nv) s' (fun x => x <> t) ->
  nvram_ok (Nv (nvram_hash nv) (nvram_dead nv) s') /\
  to_map (Nv (nvram_hash nv) (nvram_dead nv) s') = <[t_name (port nv) t := v]> (to_map nv).
Proof.
  intros I Hw Hl Ht Hn Hv Hvs Ho.
  assert (Hname : forall u, u ∈ concat (nvram_hash nv) -> t_name s' u = t_name (port nv) u).
  { intros u Hu. destruct (decide (u = t)) as [->|]; [done|].
    apply Ho; [|done]. by apply live_table. }
  assert (Hin : forall i l u, nvram_hash nv !! i = Some l -> u ∈ l -> u ∈ concat (nvram_hash nv)).
  { intros i l u Hi Hu. apply elem_of_concat_lookup. eauto. }
  assert (I' : nvram_ok (Nv (nvram_hash nv) (nvram_dead nv) s')).
  { constructor; cbn; try by apply I.
    - intros i l u Hi Hu. rewrite (Hname u) by (by apply (Hin i l)).
      destruct (n_home _ I i l u Hi Hu) as (? & ? & ?). split; [done|]. split; [done|].
      destruct (decide (u = t)) as [->|]; [by rewrite Hv|].
      destruct (Ho u) as [_ ->]; [apply live_table; [done|by apply (Hin i l)]|done..].
    - intros i l Hi. replace (map (t_name s') l) with (map (t_name (port nv)) l).
      { by apply (n_once _ I i). }
      apply map_ext_in. intros u Hu. symmetry. apply Hname. apply (Hin i l); [done|].
      by apply list_elem_of_In.
    - intros u. rewrite Hl. apply I.
    - done. }
  split; [done|]. apply to_map_ext. intros m w.
  rewrite lookup_insert_Some, !to_map_Some by done. cbn. split.
  - intros (u & Hu & <- & <-). rewrite (Hname u) by done.
    destruct (decide (u = t)) as [->|Hut]; [by left|]. right. split.
    + intros He. apply Hut.
      pose proof (names_nodup nv I) as Hnd. apply list_elem_of_lookup in Hu as [iu Hu].
      apply list_elem_of_lookup in Ht as [it Ht].
      assert (iu = it) as ->; [|congruence].
      eapply (NoDup_lookup _ _ _ (t_name (port nv) t) Hnd).
      * change (map ?f ?l) with (f <$> l). rewrite list_lookup_fmap, Hu. cbn. by rewrite He.
      * change (map ?f ?l) with (f <$> l). by rewrite list_lookup_fmap, Ht.
    + exists u. split; [done|]. split; [done|].
      symmetry. apply Ho; [by apply live_table|done].
  - intros [[<- <-]|(Hne & u & Hu & <- & <-)]; [by exists t|].
    exists u. split; [done|]. assert (u <> t) by congruence.
    apply Ho; [by apply live_table|done].
Qed.

(** A new tuple [u] goes to the head of its chain. *)
Lemma add_ok nv s' u n v :
  nvram_ok nv -> port_wf s' -> u ∉ live (port nv) -> live s' = {[u]} ∪ live (port nv) ->
  is_cstr n -> is_cstr v -> t_name s' u = n -> t_value s' u = v ->
  others_same (port nv) s' (fun x => x <> u) ->
  n ∉ map (t_name (port nv)) (concat (nvram_hash nv)) ->
  let nv' := Nv (<[bucket_of n := u :: bucket nv n]> (nvram_hash nv)) (nvram_dead nv) s' in
  nvram_ok nv' /\ to_map nv' = <[n := v]> (to_map nv).
Proof.
  intros I Hw Hu Hl Hn Hv Hun Huv Ho Hnew nv'.
  pose proof (bucket_lookup nv n I) as Hb.
  pose proof (concat_split _ _ _ Hb) as Hc.
  pose proof (concat_insert _ _ _ (u :: bucket nv n) Hb) as Hc'.
  assert (Hp : concat (<[bucket_of n := u :: bucket nv n]> (nvram_hash nv))
               ≡ₚ u :: concat (nvram_hash nv)) by (by rewrite Hc', Hc).
  assert (Hsame : forall t, t ∈ concat (nvram_hash nv) ->
    t <> u /\ t_name s' t = t_name (port nv) t /\ t_value s' t = t_value (port nv) t).
  { intros t Ht. assert (t ∈ live (port nv)) by (by apply live_table).
    assert (t <> u) by (intros ->; done). split; [done|]. by apply Ho. }
  assert (Hin : forall i l t, nvram_hash nv !! i = Some l -> t ∈ l -> t ∈ concat (nvram_hash nv)).
  { intros i l t Hi Ht. apply elem_of_concat_lookup. eauto. }
  assert (Hnames : forall i l, nvram_hash nv !! i = Some l ->
    map (t_name s') l = map (t_name (port nv)) l).
  { intros i l Hi. apply map_ext_in. intros t Ht. apply Hsame. apply (Hin i l); [done|].
    by apply list_elem_of_In. }
  assert (I' : nvram_ok nv').
  { constructor; cbn [nv' nvram_hash nvram_dead port].
    - rewrite length_insert. apply I.
    - intros i l t Hi Ht. destruct (decide (i = bucket_of n)) as [->|].
      + rewrite list_lookup_insert_eq in Hi by (by eapply lookup_lt_Some). injection Hi as <-.
        apply elem_of_cons in Ht as [->|Ht]; [rewrite Hun, Huv; done|].
        destruct (Hsame t) as (_ & -> & ->); [by apply (Hin _ _ t Hb)|].
        by apply (n_home _ I _ _ t Hb).
      + rewrite list_lookup_insert_ne in Hi by done.
        destruct (Hsame t) as (_ & -> & ->); [by apply (Hin i l)|]. by apply (n_home _ I i l).
    - intros i l Hi. destruct (decide (i = bucket_of n)) as [->|].
      + rewrite list_lookup_insert_eq in Hi by (by eapply lookup_lt_Some). injection Hi as <-.
        cbn. rewrite Hun, (Hnames _ _ Hb). constructor; [|by apply (n_once _ I _ _ Hb)].
        intros Hx. apply Hnew. apply list_elem_of_fmap in Hx as (t & -> & Ht).
        apply list_elem_of_fmap. exists t. split; [done|]. by apply (Hin _ _ t Hb).
      + rewrite list_lookup_insert_ne in Hi by done. rewrite (Hnames i l Hi).
        by apply (n_once _ I i).
    - rewrite Hp. cbn. constructor; [|apply I]. intros Hx. apply Hu. by apply (n_live _ I).
    - intros t. rewrite Hl, Hp. cbn. rewrite elem_of_cons, <- (n_live _ I). set_solver.
    - done. }
  split; [done|]. apply to_map_ext. intros m w.
  rewrite lookup_insert_Some, !to_map_Some by done. cbn. setoid_rewrite Hp. split.
  - intros (t & Ht & <- & <-). apply elem_of_cons in Ht as [->|Ht]; [by left|].
    destruct (Hsame t Ht) as (_ & -> & ->). right. split; [|by exists t].
    intros ->. apply Hnew. apply list_elem_of_fmap. by exists t.
  - intros [[<- <-]|(Hne & t & Ht & <- & <-)]; [exists u; set_solver|].
    destruct (Hsame t Ht) as (_ & ? & ?). exists t. set_solver.
Qed.

Lemma nvram_set_spec nv n v :
  nvram_ok nv -> is_cstr n -> is_cstr v ->
  let '(r, nv') := _nvram_set nv n v in
  nvram_ok nv' /\
  (r = 0 /\ to_map nv' = <[n := v]> (to_map nv) \/ r = -12 /\ to_map nv' = to_map nv).
Proof.
  intros I Hn Hv. unfold _nvram_set. pose proof (find_tuple_bucket nv n I Hn) as Hf.
  pose proof (nvram_unset_spec nv n I Hn) as [Iu Hu]. pose proof (unset_absent nv n I Hn) as Ha.
  unfold _nvram_unset in *.
  set (found := find_tuple (port nv) (bucket nv n) n) in *.
  set (t := match found with Some (_, t, _) => Some t | None => None end).
  assert (Ht : forall x, t = Some x -> x ∈ live (port nv) /\ t_name (port nv) x = n /\
             x ∈ concat (nvram_hash nv)).
  { intros x Hx. subst t. destruct found as [[[a t] b]|]; [|done]. injection Hx as ->.
    destruct Hf as [Hb Hx]. assert (x ∈ concat (nvram_hash nv)).
    { apply (bucket_in nv n); [done|]. rewrite Hb. set_solver. }
    split; [by apply live_table|done]. }
  assert (Ht' : forall x, t = Some x -> x ∈ live (port nv) /\ t_name (port nv) x = n).
  { intros x Hx. by destruct (Ht x Hx) as (? & ? & _). }
  pose proof (n_port _ I) as Hw.
  destruct (nvram_realloc (port nv) t n v) as [[u|] s'] eqn:Er.
  - destruct (realloc_some _ _ _ _ _ _ Hw Hn Hv Ht' Er) as (Hw' & Hun & Huv & Ho & Hlive).
    case_bool_decide as Htu.
    + destruct Hlive as [[_ Hl]|[Hul _]].
      2:{ exfalso. apply Hul. by apply Ht'. }
      destruct (Ht u Htu) as (_ & Hname & Hc).
      destruct (reuse_ok nv s' u v) as [I' Hm]; try done; [congruence|].
      split; [done|]. left. split; [done|]. by rewrite Hm, Hname.
    + destruct Hlive as [[? _]|[Hul Hl]]; [congruence|].
      destruct found as [[[a x] b]|].
      * destruct (add_ok _ s' u n v Iu) as [I' Hm]; try done.
        pose proof (bucket_lookup nv n I) as Hbl.
        assert (Hbk : bucket (Nv (<[bucket_of n := a ++ b]> (nvram_hash nv))
                               (x :: nvram_dead nv) (port nv)) n = a ++ b).
        { unfold bucket. cbn. apply nth_lookup_Some, list_lookup_insert_eq.
          by eapply lookup_lt_Some. }
        rewrite Hbk in I', Hm. cbn [nvram_hash nvram_dead port] in I', Hm.
        rewrite list_insert_insert_eq in I', Hm.
        split; [done|]. left. split; [done|]. rewrite Hm, Hu.
        apply insert_delete_eq.
      * destruct (add_ok nv s' u n v I) as [I' Hm]; try done. auto.
  - destruct (realloc_none _ _ _ _ _ Hw Hn Hv Ht' Er) as (Hw' & Hl & Ho).
    destruct (port_change_ok nv s') as [I' Hm]; try done. auto.
Qed.

(** ** [nvram_free] *)

Lemma free_list_spec l s :
  port_wf s -> NoDup l -> (forall x, x ∈ l -> x ∈ live s) ->
  exists s', free_list s l = Some s' /\ port_wf s' /\ live s' = live s ∖ list_to_set l.
Proof.
  revert s. induction l as [|x l IH]; intros s Hw Hn Hl; cbn [free_list].
  { exists s. split; [done|]. split; [done|]. cbn. set_solver. }
  inversion_clear Hn as [|? ? Hx Hn'].
  destruct (free_some s x Hw) as (s1 & -> & Hw1 & Hl1 & _); [apply Hl; set_solver|].
  destruct (IH s1 Hw1 Hn') as (s' & -> & Hw' & Hl').
  { intros y Hy. rewrite Hl1. apply elem_of_difference. split; [apply Hl; set_solver|].
    intros ->%elem_of_singleton. done. }
  exists s'. split; [done|]. split; [done|]. rewrite Hl', Hl1. cbn. set_solver.
Qed.

Lemma free_hash_concat h s : free_hash s h = free_list s (concat h).
Proof.
  assert (Happ : forall a b s,
    free_list s (a ++ b) = (let? r := free_list s a in free_list r b)).
  { induction a as [|x a IH]; intros b s1; [done|]. cbn.
    destruct (nvram_free_tuple s1 (Some x)); [apply IH|done]. }
  revert s. induction h as [|l h IH]; intros s; [done|]. cbn. rewrite Happ.
  destruct (free_list s l); [apply IH|done].
Qed.

Lemma empty_ok s : port_wf s -> live s = ∅ -> nvram_ok (Nv (replicate HASH_SIZE []) [] s).
Proof.
  intros Hw Hl.
  assert (Hc : concat (replicate HASH_SIZE (@nil Z)) = []).
  { apply all_empty_concat. intros i l Hi. by apply lookup_replicate in Hi as [-> _]. }
  constructor; cbn [nvram_hash nvram_dead port]; rewrite ?Hc; try done.
  - intros i l t Hi Ht. apply lookup_replicate in Hi as [-> _]. set_solver.
  - intros i l Hi. apply lookup_replicate in Hi as [-> _]. constructor.
  - constructor.
  - intros t. rewrite Hl. set_solver.
Qed.

Lemma empty_map s d : to_map (Nv (replicate HASH_SIZE []) d s) = ∅.
Proof.
  unfold to_map, pairs. cbn [nvram_hash port].
  assert (concat (replicate HASH_SIZE (@nil Z)) = []) as ->; [|done].
  apply all_empty_concat. intros i l Hi. by apply lookup_replicate in Hi as [-> _].
Qed.

(** Every tuple is freed, once, and the port ends with none. *)
Lemma nvram_free_spec nv :
  nvram_ok nv ->
  exists s s0, nvram_free nv = Some (Nv (replicate HASH_SIZE []) [] s) /\
    port_wf s /\ live s = ∅ /\
    port_wf s0 /\ live s0 = ∅ /\ nvram_free_tuple s0 None = Some s.
Proof.
  intros I. unfold nvram_free. rewrite free_hash_concat.
  pose proof (n_nodup _ I) as Hn. apply NoDup_app in Hn as (Hn1 & Hd & Hn2).
  destruct (free_list_spec (concat (nvram_hash nv)) (port nv)) as (s1 & -> & Hw1 & Hl1);
    [apply I|done|intros x Hx; apply (n_live _ I); set_solver|].
  destruct (free_list_spec (nvram_dead nv) s1) as (s2 & -> & Hw2 & Hl2); [done..| |].
  { intros x Hx. rewrite Hl1. apply elem_of_difference. split.
    - apply (n_live _ I). set_solver.
    - rewrite elem_of_list_to_set. intros Hx'. by apply (Hd x). }
  assert (live s2 = ∅) as He.
  { rewrite Hl2, Hl1. apply set_eq. intros x. rewrite !elem_of_difference, !elem_of_list_to_set.
    rewrite (n_live _ I), elem_of_app. set_solver. }
  destruct (free_null s2 Hw2 He) as (s3 & Hf & Hw3 & Hl3). rewrite Hf. by exists s3, s2.
Qed.

(** ** Writing the entries *)

Lemma entry_length p : Z.of_nat (length (entry p)) = strlen p.1 + 1 + strlen p.2 + 1.
Proof.
  unfold entry. rewrite !strlen_length, length_app. cbn [length].
  rewrite length_app. cbn [length]. lia.
Qed.

Lemma write_bucket_spec base fits lim s l off buf :
  0 < base -> base + Z.of_nat (length buf) <= 2 ^ 32 -> 0 <= off -> Z.of_nat (length buf) < 2 ^ 31 ->
  (forall off need, fits off need = (off + need <=? lim)) -> lim <= Z.of_nat (length buf) ->
  exists ps, ps `sublist_of` map (tuple_pair s) l /\
    write_bucket base fits s l off buf
    = Some (off + Z.of_nat (entries_size ps), splice buf (Z.to_nat off) (entries ps)) /\
    (off <= lim -> off + Z.of_nat (entries_size ps) <= lim) /\
    (off + Z.of_nat (entries_size (map (tuple_pair s) l)) <= lim -> ps = map (tuple_pair s) l).
Proof.
  intros Hb Hlen Ho Hsmall Hfits Hlim. revert off buf Ho Hlen Hsmall Hlim.
  induction l as [|t l IH]; intros off buf Ho Hlen Hsmall Hlim; cbn [write_bucket].
  { exists []. cbn. rewrite splice_nil, Z.add_0_r. done. }
  rewrite Hfits. change (strlen (t_name s t)) with (strlen (tuple_pair s t).1).
  change (strlen (t_value s t)) with (strlen (tuple_pair s t).2).
  rewrite <- entry_length. case_test.
  - assert (Hout : length (entry (tuple_pair s t))
      = Datatypes.S (length ((tuple_pair s t).1 ++ ch "=" :: (tuple_pair s t).2))).
    { unfold entry. rewrite !length_app. cbn [length]. rewrite length_app. cbn. lia. }
    rewrite (sprintf_format base buf off _ _ ((tuple_pair s t).1 ++ ch "=" :: (tuple_pair s t).2))
      by (try apply format_name_value; unfold INT_MAX; lia).
    assert (Heq : ((tuple_pair s t).1 ++ ch "=" :: (tuple_pair s t).2) ++ [0] = entry (tuple_pair s t)).
    { unfold entry. by rewrite <- app_assoc. }
    rewrite Heq.
    destruct (IH (off + Z.of_nat (length ((tuple_pair s t).1 ++ ch "=" :: (tuple_pair s t).2)) + 1)
                 (splice buf (Z.to_nat off) (entry (tuple_pair s t)))) as (ps & Hs & -> & Hle & Hall);
      [lia|rewrite length_splice; lia|rewrite length_splice; lia|rewrite length_splice; lia|].
    exists (tuple_pair s t :: ps). split; [by constructor|].
    unfold entries_size, entries in *. cbn [map concat].
    rewrite (length_app (entry (tuple_pair s t))), (length_app (entry (tuple_pair s t))).
    set (out := (tuple_pair s t).1 ++ ch "=" :: (tuple_pair s t).2) in *.
    split; [|split].
    + f_equal. f_equal; [lia|].
      replace (Z.to_nat (off + Z.of_nat (length out) + 1))
        with (Z.to_nat off + length (entry (tuple_pair s t)))%nat by lia.
      apply splice_splice. lia.
    + lia.
    + intros Hfit. f_equal. apply Hall. lia.
  - exists []. split; [apply sublist_nil_l|]. cbn [entries map concat].
    change (entries_size []) with 0%nat. rewrite splice_nil, Z.add_0_r. split; [done|].
    split; [done|]. intros Hfit. exfalso. unfold entries_size, entries in Hfit.
    cbn [map concat] in Hfit. rewrite length_app in Hfit. lia.
Qed.

Lemma entries_app ps qs : entries (ps ++ qs) = entries ps ++ entries qs.
Proof. unfold entries. by rewrite map_app, concat_app. Qed.

Lemma entries_size_app ps qs : entries_size (ps ++ qs) = (entries_size ps + entries_size qs)%nat.
Proof. unfold entries_size. by rewrite entries_app, length_app. Qed.

Lemma write_hash_spec base fits lim s h off buf :
  0 < base -> base + Z.of_nat (length buf) <= 2 ^ 32 -> 0 <= off -> Z.of_nat (length buf) < 2 ^ 31 ->
  (forall off need, fits off need = (off + need <=? lim)) -> lim <= Z.of_nat (length buf) ->
  off <= lim ->
  exists ps, ps `sublist_of` map (tuple_pair s) (concat h) /\
    write_hash base fits s h off buf
    = Some (off + Z.of_nat (entries_size ps), splice buf (Z.to_nat off) (entries ps)) /\
    off + Z.of_nat (entries_size ps) <= lim /\
    (off + Z.of_nat (entries_size (map (tuple_pair s) (concat h))) <= lim ->
     ps = map (tuple_pair s) (concat h)).
Proof.
  intros Hb Hlen Ho Hsmall Hfits Hlim Hoff. revert off buf Ho Hlen Hsmall Hlim Hoff.
  induction h as [|l h IH]; intros off buf Ho Hlen Hsmall Hlim Hoff; cbn [write_hash concat].
  { exists []. cbn. rewrite splice_nil, Z.add_0_r. done. }
  destruct (write_bucket_spec base fits lim s l off buf) as (ps & Hs & -> & Hle & Hall); [done..|].
  specialize (Hle Hoff).
  assert (Hl : length (splice buf (Z.to_nat off) (entries ps)) = length buf).
  { apply length_splice. unfold entries_size in Hle. lia. }
  destruct (IH (off + Z.of_nat (entries_size ps)) (splice buf (Z.to_nat off) (entries ps)))
    as (qs & Hs' & -> & Hle' & Hall'); [lia|rewrite Hl; lia..|lia|].
  exists (ps ++ qs). rewrite map_app. split; [by apply sublist_app|].
  rewrite entries_app, !entries_size_app. split; [|split].
  - f_equal. f_equal; [lia|].
    replace (Z.to_nat (off + Z.of_nat (entries_size ps))) with (Z.to_nat off + length (entries ps))%nat
      by (unfold entries_size; lia).
    apply splice_splice. unfold entries_size in *. lia.
  - lia.
  - intros Hfit. assert (ps = map (tuple_pair s) l) as -> by (apply Hall; lia).
    by rewrite Hall' by lia.
Qed.

(** ** Reading them back *)

Lemma cstr_entry n v rest :
  is_cstr n -> is_cstr v -> cstr (entry (n, v) ++ rest) = n ++ ch "=" :: v.
Proof.
  intros Hn Hv. assert (entry (n, v) ++ rest = (n ++ ch "=" :: v) ++ 0 :: rest) as ->.
  { unfold entry. cbn. rewrite <- !app_assoc. cbn. by rewrite <- app_assoc. }
  apply cstr_app, Forall_app. split; [done|]. constructor; [|done]. by vm_compute.
Qed.

(** With room for the value, [_nvram_set] succeeds. *)
Lemma set_in_room `{!PortRoom S} nv n v k :
  nvram_ok nv -> is_cstr n -> is_cstr v -> room (port nv) (length v + 1 + k) ->
  (_nvram_set nv n v).1 = 0 /\ room (port (_nvram_set nv n v).2) k /\
  nvram_ok (_nvram_set nv n v).2 /\ to_map (_nvram_set nv n v).2 = <[n := v]> (to_map nv).
Proof.
  intros I Hn Hv Hr. pose proof (nvram_set_spec nv n v I Hn Hv) as Hset.
  assert (Hroom : (_nvram_set nv n v).1 = 0 /\ room (port (_nvram_set nv n v).2) k).
  { unfold _nvram_set. pose proof (find_tuple_bucket nv n I Hn) as Hfind.
    set (found := find_tuple (port nv) (bucket nv n) n) in *.
    destruct (room_realloc (port nv) (match found with Some (_, t, _) => Some t | None => None end)
                n v k) as (u & s' & -> & Hr'); try done.
    - apply I.
    - intros z Hz. destruct found as [[[a t] b]|]; [|done]. injection Hz as ->.
      destruct Hfind as [Hb ?]. split; [|done]. apply live_table; [done|].
      apply (bucket_in nv n); [done|]. rewrite Hb. set_solver.
    - case_bool_decide; [done|]. by destruct found as [[[a t] b]|]. }
  destruct (_nvram_set nv n v) as [r nv1]. cbn [fst snd] in *.
  destruct Hset as [I1 [[_ Hm]|[? _]]]; [|lia]. by destruct Hroom.
Qed.

(** The variables of an area of entries followed by an empty string. *)
Lemma rehash_loop_spec `{!PortRoom S} ps fuel nv rest k :
  nvram_ok nv -> Forall storable ps -> cstr rest = [] ->
  (length ps < fuel)%nat -> room (port nv) (entries_size ps + k) ->
  exists nv', rehash_loop fuel nv (entries ps ++ rest) = Some nv' /\ nvram_ok nv' /\
    to_map nv' = set_all (to_map nv) ps /\ room (port nv') k.
Proof.
  intros I Hps Hrest. revert fuel nv I. induction Hps as [|[n v] ps ((Hne & Heq) & Hn & Hv) Hps IH];
    intros fuel nv I Hf Hr; (destruct fuel as [|fuel]; [cbn in *; lia|]); cbn [rehash_loop].
  { cbn [entries map concat app]. rewrite Hrest. by exists nv. }
  cbn [fst snd] in *. unfold entries in *. cbn [map concat]. rewrite <- app_assoc.
  rewrite cstr_entry by done.
  assert (Hsize : entries_size ((n, v) :: ps) = (length v + 1 + (length n + 1 + entries_size ps))%nat).
  { unfold entries_size, entries, entry. cbn [map concat fst snd].
    rewrite !length_app. cbn [length]. rewrite length_app. cbn. lia. }
  destruct (n ++ ch "=" :: v) as [|x y] eqn:E; [by destruct n|]. rewrite <- E.
  rewrite (strchr_app n (ch "=" :: v) (ch "=")) by done.
  assert (Hlen : (length (n ++ ch "=" :: v) - length (ch "=" :: v) = length n)%nat)
    by (rewrite length_app; lia).
  rewrite Hlen, take_app_length. cbn [drop].
  destruct (set_in_room nv n v (length n + 1 + entries_size ps + k)) as (Hr1 & Hr2 & I1 & Hm);
    [done..|eapply room_mono; [exact Hr|lia]|].
  replace (drop (length (n ++ ch "=" :: v) + 1) (entry (n, v) ++ concat (map entry ps) ++ rest))
    with (concat (map entry ps) ++ rest).
  2:{ rewrite drop_app_length'; [done|]. unfold entry. cbn [fst snd].
      rewrite !length_app. cbn [length]. rewrite length_app. cbn. lia. }
  destruct (IH fuel (_nvram_set nv n v).2 I1) as (nv' & Hrun & I' & Hm' & Hr');
    [cbn in Hf; lia|eapply room_mono; [exact Hr2|lia]|].
  exists nv'. split; [done|]. split; [done|]. split; [|done]. rewrite Hm', Hm. done.
Qed.

(** ** The defaults *)

Lemma hex_text_spec w x :
  w = 4 \/ w = 8 ->
  exists txt, atox (wrap32 x) 16 w digits = Some txt /\ hex_text w x = str "0x" ++ txt /\
    is_cstr (hex_text w x) /\ (length (hex_text w x) <= 10)%nat.
Proof.
  intros Hw. pose proof (wrap32_range x) as Hx.
  destruct (atox_total (wrap32 x) 16 w digits) as [txt Hs]; [lia..|].
  exists txt. unfold hex_text. rewrite Hs. split; [done|]. split; [done|].
  destruct (atox_spec (wrap32 x) 16 w digits txt) as (_ & _ & Hc & _);
    [by left|by right|lia|done|].
  destruct (atox_length (wrap32 x) 16 w digits txt 8) as [Hl _]; [lia..|done|].
  split.
  - apply Forall_app. split; [|done]. repeat constructor.
  - rewrite length_app. cbn. lia.
Qed.

Lemma set_default_spec `{!PortRoom S} stack nv name fmt w x k :
  0 < stack -> stack + 11 <= 2 ^ 32 ->
  (fmt = str "0x%04X" /\ w = 4 \/ fmt = str "0x%08X" /\ w = 8) ->
  nvram_ok nv -> is_cstr name -> room (port nv) (11 + k) ->
  exists nv', set_default stack nv name fmt x = Some nv' /\ nvram_ok nv' /\
    to_map nv' = default_to name (hex_text w x) (to_map nv) /\ room (port nv') k.
Proof.
  intros Hs Hs' Hfmt I Hn Hr. unfold set_default, default_to.
  rewrite nvram_get_spec by done. destruct (to_map nv !! name).
  { exists nv. split; [done|]. split; [done|]. split; [done|]. eapply room_mono; [exact Hr|lia]. }
  destruct (hex_text_spec w x) as (txt & Ha & Ht & Hc & Hl); [tauto|].
  assert (Hfm : format fmt [VInt x] = Some (hex_text w x)).
  { rewrite Ht. destruct Hfmt as [[-> ->]|[-> ->]];
      [by apply format_0x04X|by apply format_0x08X]. }
  set (buf := str "0xXXXXXXXX" ++ [0]).
  assert (length buf = 11%nat) as Hb by reflexivity.
  rewrite (sprintf_format stack buf 0 fmt _ (hex_text w x))
    by (rewrite ?Hb; unfold INT_MAX; try done; lia).
  change (Z.to_nat 0) with 0%nat.
  pose proof (cstr_splice buf 0 (hex_text w x) ltac:(lia) Hc) as Hcs. rewrite drop_0 in Hcs.
  rewrite Hcs.
  destruct (set_in_room nv name (hex_text w x) k) as (_ & Hr' & I' & Hm); try done.
  { eapply room_mono; [exact Hr|lia]. }
  by eexists.
Qed.

Lemma wrap16_land x : wrap16 (Z.land x 0xffff) = wrap16 x.
Proof. change 0xffff with (Z.ones 16). rewrite Z.land_ones by lia. apply Z.mod_mod. lia. Qed.

Lemma sdram_names :
  is_cstr (str "sdram_init") /\ is_cstr (str "sdram_config") /\ is_cstr (str "sdram_refresh") /\
  is_cstr (str "sdram_ncdl").
Proof. repeat split; repeat constructor. Qed.

Lemma length_pairs_entries ps : (length ps <= entries_size ps)%nat.
Proof.
  induction ps as [|p ps IH]; [done|]. change (p :: ps) with ([p] ++ ps).
  rewrite entries_size_app, length_app. apply Nat.add_le_mono; [|done].
  unfold entries_size, entries, entry. cbn [map concat]. rewrite app_nil_r, !length_app. cbn. lia.
Qed.

Lemma DATA_SIZE_Z : Z.of_nat DATA_SIZE = 32748.
Proof. unfold DATA_SIZE. rewrite Z2Nat.id; [done|discriminate]. Qed.

#[local] Opaque DATA_SIZE.

(** The two bytes cleared at the end of the area do not touch the entries. *)
Lemma splice_end ps rest :
  length (entries ps ++ rest) = DATA_SIZE -> (entries_size ps <= DATA_SIZE - 2)%nat ->
  cstr rest = [] ->
  exists rest', splice (entries ps ++ rest) (DATA_SIZE - 2) [0; 0] = entries ps ++ rest' /\
    cstr rest' = [].
Proof.
  unfold entries_size. intros Hl Hs Hc. rewrite length_app in Hl.
  pose proof DATA_SIZE_Z as Hd.
  unfold splice. rewrite take_app, (take_ge (entries ps)) by lia.
  rewrite drop_ge by (rewrite length_app; cbn; lia). rewrite <- app_assoc, app_nil_r.
  eexists. split; [done|].
  destruct (DATA_SIZE - 2 - length (entries ps))%nat as [|m]; [done|].
  destruct rest as [|c rest]; [cbn in Hl; lia|]. cbn in *.
  destruct (c =? 0); [reflexivity|discriminate Hc].
Qed.

(** Rebuilding the table from an image: whatever was there before, the variables are
    those of the entries, and the missing [sdram_] ones from the header. *)
Lemma nvram_rehash_spec `{!PortRoom S} stack nv hdr ps rest k :
  0 < stack -> stack + 11 <= 2 ^ 32 -> nvram_ok nv -> Forall storable ps ->
  length (entries ps ++ rest) = DATA_SIZE -> (entries_size ps <= DATA_SIZE - 2)%nat ->
  cstr rest = [] -> (entries_size ps + (44 + k) <= port_size)%nat ->
  exists nv', nvram_rehash stack nv (Image hdr (entries ps ++ rest)) = Some nv' /\ nvram_ok nv' /\
    to_map nv' = sdram_defaults hdr (set_all ∅ ps) /\ room (port nv') k.
Proof.
  intros Hs Hs' I Hps Hl Hsize Hrest Hroom. unfold nvram_rehash.
  destruct (nvram_free_spec nv I) as (s & s0 & -> & Hw & Hlive & Hw0 & Hlive0 & Hfree).
  destruct (splice_end ps rest Hl Hsize Hrest) as (rest' & Hsp & Hrest'). cbn [i_data i_hdr].
  rewrite Hsp. pose proof (length_pairs_entries ps) as Hlp.
  pose proof (room_free _ _ Hw0 Hlive0 Hfree) as Hr.
  destruct (rehash_loop_spec ps (Datatypes.S DATA_SIZE) (Nv (replicate HASH_SIZE []) [] s) rest' (44 + k))
    as (nv1 & -> & I1 & Hm1 & Hr1); [by apply empty_ok|done|done|lia|by eapply room_mono|].
  destruct sdram_names as (Hn1 & Hn2 & Hn3 & Hn4).
  destruct (set_default_spec stack nv1 (str "sdram_init") (str "0x%04X") 4
    (wrap16 (Z.shiftr (h_crc_ver_init hdr) 16)) (33 + k)) as (nv2 & -> & I2 & Hm2 & Hr2); auto.
  destruct (set_default_spec stack nv2 (str "sdram_config") (str "0x%04X") 4
    (wrap16 (Z.land (h_config_refresh hdr) 0xffff)) (22 + k)) as (nv3 & -> & I3 & Hm3 & Hr3); auto.
  destruct (set_default_spec stack nv3 (str "sdram_refresh") (str "0x%04X") 4
    (wrap16 (Z.land (Z.shiftr (h_config_refresh hdr) 16) 0xffff)) (11 + k)) as (nv4 & -> & I4 & Hm4 & Hr4); auto.
  destruct (set_default_spec stack nv4 (str "sdram_ncdl") (str "0x%08X") 8
    (h_config_ncdl hdr) k) as (nv5 & -> & I5 & Hm5 & Hr5); auto.
  exists nv5. split; [done|]. split; [done|]. split; [|done].
  rewrite Hm5, Hm4, Hm3, Hm2, Hm1, !wrap16_land, empty_map. done.
Qed.

(** ** [_nvram_commit] *)

Lemma crc_join c crc :
  0 <= crc < 256 -> Z.land c 0xff = 0 ->
  Z.land (Z.lor c crc) 0xff = crc /\
  Z.land (Z.lor c crc) NVRAM_CRC_VER_MASK = Z.land c NVRAM_CRC_VER_MASK.
Proof.
  intros Hc Hz. rewrite !Z.land_lor_distr_l, Hz.
  assert (Hall : forall z, 0 <= z < 256 ->
    (Z.land z 0xff =? z) && (Z.land z NVRAM_CRC_VER_MASK =? 0) = true).
  { apply (forallb_Z_below _ 256). by vm_compute. }
  specialize (Hall crc Hc). bool_simpl. rewrite H1, H2, Z.lor_0_r. done.
Qed.

Lemma land_shiftl_low x n : 8 <= n -> Z.land (Z.shiftl x n) 0xff = 0.
Proof.
  intros Hn. change 0xff with (Z.ones 8). rewrite Z.land_ones, Z.shiftl_mul_pow2 by lia.
  replace n with (n - 8 + 8) by lia. rewrite Z.pow_add_r, Z.mul_assoc by lia.
  apply Z.mod_mul. lia.
Qed.

Lemma commit_sdram_low nv c cr nc :
  commit_sdram nv = (c, cr, nc) -> Z.land c 0xff = 0 /\ Z.land (Z.shiftr c 8) 0xff = NVRAM_VERSION.
Proof.
  assert (Hbits : forall x, let c := Z.lor (Z.shiftl NVRAM_VERSION 8) (Z.shiftl x 16) in
    Z.land c 0xff = 0 /\ Z.land (Z.shiftr c 8) 0xff = NVRAM_VERSION).
  { intros x. cbn zeta. rewrite Z.shiftr_lor, !Z.land_lor_distr_l.
    rewrite !land_shiftl_low, Z.shiftr_shiftl_r, Z.shiftr_shiftl_l by lia.
    rewrite land_shiftl_low by lia. done. }
  unfold commit_sdram. repeat case_match; intros [= <- _ _]; apply Hbits.
Qed.

Lemma commit_sdram_range nv c cr nc :
  commit_sdram nv = (c, cr, nc) -> Forall (fun x => 0 <= x < 2 ^ 32) [c; cr; nc].
Proof.
  assert (Hd : forall a b, 0 <= a < 2 ^ 32 -> 0 <= b < 2 ^ 32 -> 0 <= Z.lor a b < 2 ^ 32)
    by (intros; apply lor_range; lia).
  assert (Hl : forall x, 0 <= Z.land x 0xffff < 2 ^ 32).
  { intros x. change 0xffff with (Z.ones 16). rewrite Z.land_ones by lia.
    pose proof (Z.mod_pos_bound x (2 ^ 16)). lia. }
  pose proof land_shiftl_range as Hs.
  unfold commit_sdram. repeat case_match; intros [= <- <- <-]; repeat constructor;
    try (apply Hd); auto; try apply bcm_strtoul_range; vm_compute; intuition congruence.
Qed.

Lemma hndcrc8_range pdata crc : byte_ok crc -> byte_ok (hndcrc8 pdata crc).
Proof.
  assert (Hall : forall z, 0 <= z < 256 ->
    (0 <=? tbl crc8_table z) && (tbl crc8_table z <? 256) = true).
  { apply (forallb_Z_below _ 256). by vm_compute. }
  revert crc. induction pdata as [|x pdata IH]; intros crc Hc; cbn [hndcrc8]; [done|].
  apply IH. change 0xff with (Z.ones 8). rewrite Z.land_ones by lia.
  pose proof (Hall _ (Z.mod_pos_bound (Z.lxor crc x) (2 ^ 8) ltac:(lia))) as Ht.
  bool_simpl. done.
Qed.

Lemma calc_crc_ver nvh c :
  Z.land c NVRAM_CRC_VER_MASK = Z.land (h_crc_ver_init (i_hdr nvh)) NVRAM_CRC_VER_MASK ->
  nvram_calc_crc (Image (Header (h_magic (i_hdr nvh)) (h_len (i_hdr nvh)) c
    (h_config_refresh (i_hdr nvh)) (h_config_ncdl (i_hdr nvh))) (i_data nvh)) = nvram_calc_crc nvh.
Proof. intros Hc. unfold nvram_calc_crc, crc_header. cbn [i_hdr i_data h_crc_ver_init h_len h_config_refresh h_config_ncdl]. by rewrite Hc. Qed.

Lemma roundup_4 x : x <= ROUNDUP x 4 < x + 4 /\ ROUNDUP x 4 mod 4 = 0.
Proof.
  unfold ROUNDUP. split; [|by apply Z.mod_mul].
  pose proof (Z.div_mod (x + (4 - 1)) 4 ltac:(lia)). pose proof (Z.mod_pos_bound (x + (4 - 1)) 4).
  lia.
Qed.

Lemma commit_image_spec nv base :
  0 < base -> base + Z.of_nat DATA_SIZE <= 2 ^ 32 ->
  exists img ps, commit_image nv base = Some img /\ image_ok img /\ image_holds img ps /\
    ps `sublist_of` pairs nv /\ (entries_size ps <= DATA_SIZE - 2)%nat /\
    ((entries_size (pairs nv) <= DATA_SIZE - 2)%nat -> ps = pairs nv).
Proof.
  intros Hb Hb'. unfold commit_image. pose proof DATA_SIZE_Z as Hd.
  destruct (commit_sdram nv) as [[c cr] nc] eqn:Ec.
  pose proof (commit_sdram_range _ _ _ _ Ec) as Hrange.
  apply commit_sdram_low in Ec as [Hlow Hver].
  pose proof (write_hash_spec base (fun off need => off + need <=? Z.of_nat DATA_SIZE - 2)
    (Z.of_nat DATA_SIZE - 2) (port nv) (nvram_hash nv) 0 (replicate DATA_SIZE 0) Hb) as Hw.
  rewrite length_replicate in Hw.
  destruct Hw as (ps & Hsub & -> & Hle & Hall); [lia|lia|lia|reflexivity|lia|lia|].
  set (len := ROUNDUP (NVRAM_HEADER_SIZE + (0 + Z.of_nat (entries_size ps)) + 2) 4).
  set (data := splice (replicate DATA_SIZE 0) (Z.to_nat 0) (entries ps)).
  destruct (roundup_4 (NVRAM_HEADER_SIZE + (0 + Z.of_nat (entries_size ps)) + 2)) as [Hlen Hmod].
  fold len in Hlen, Hmod. unfold NVRAM_HEADER_SIZE in *.
  set (crc := nvram_calc_crc (Image (Header NVRAM_MAGIC len c cr nc) data)).
  assert (Hcrc : 0 <= crc < 256).
  { unfold crc, nvram_calc_crc. apply hndcrc8_range, hndcrc8_range.
    split; [discriminate|reflexivity]. }
  destruct (crc_join c crc Hcrc Hlow) as [Hj1 Hj2].
  assert (Hdata : data = entries ps ++ replicate (DATA_SIZE - entries_size ps) 0).
  { unfold data. by rewrite (splice_zeros DATA_SIZE). }
  eexists _, ps. split; [done|]. split; [|split; [|split; [done|split; [lia|]]]].
  - split; [done|]. cbn [i_hdr i_data h_len h_crc_ver_init]. split.
    { inversion_clear Hrange as [|? ? Hc Hrange']. unfold header_u32.
      cbn [h_magic h_len h_crc_ver_init h_config_refresh h_config_ncdl].
      constructor; [split; [discriminate|reflexivity]|]. constructor; [lia|].
      constructor; [apply lor_range; [discriminate|done|lia]|done]. }
    split.
    { rewrite Hdata, length_app, length_replicate. unfold entries_size in *. lia. }
    assert (len <= NVRAM_SPACE).
    { unfold NVRAM_SPACE. destruct (decide (len <= 32768)); [done|].
      exfalso. apply Z.mod_divide in Hmod as [q Hq]; [|lia]. lia. }
    split; [unfold NVRAM_HEADER_SIZE; lia|]. split; [done|].
    rewrite Hj1. split.
    + rewrite Z.shiftr_lor, Z.land_lor_distr_l, Hver.
      assert (Z.shiftr crc 8 = 0) as ->; [|done]. rewrite Z.shiftr_div_pow2 by lia.
      apply Z.div_small. lia.
    + unfold crc. by apply (calc_crc_ver (Image (Header NVRAM_MAGIC len c cr nc) data)).
  - exists (DATA_SIZE - entries_size ps)%nat. split; [done|].
    cbn [i_hdr h_len]. unfold NVRAM_HEADER_SIZE. lia.
  - intros Hfit. apply Hall. unfold pairs in Hfit. lia.
Qed.

Lemma set_all_spec m ps :
  NoDup (map fst ps) -> set_all m ps = list_to_map ps ∪ m.
Proof.
  revert m. induction ps as [|[n v] ps IH]; intros m Hn.
  { cbn. by rewrite map_empty_union. }
  inversion_clear Hn as [|? ? Hx Hn'].
  change (set_all m ((n, v) :: ps)) with (set_all (<[n := v]> m) ps). rewrite IH by done.
  cbn [list_to_map foldr]. rewrite <- insert_union_l, insert_union_r; [done|].
  by apply not_elem_of_list_to_map_1.
Qed.

Lemma set_all_pairs nv : nvram_ok nv -> set_all ∅ (pairs nv) = to_map nv.
Proof.
  intros I. rewrite set_all_spec, map_union_empty; [done|].
  rewrite map_fst_pairs. by apply names_nodup.
Qed.

(** The image that is read back: the header and the first [len] bytes; [junk] is what
    the buffer held behind them. *)
Lemma rehash_image `{!PortRoom S} stack nv img ps junk k :
  0 < stack -> stack + 11 <= 2 ^ 32 -> nvram_ok nv -> Forall storable ps ->
  image_ok img -> image_holds img ps -> (entries_size ps <= DATA_SIZE - 2)%nat ->
  (entries_size ps + (44 + k) <= port_size)%nat ->
  let n := Z.to_nat (h_len (i_hdr img) - NVRAM_HEADER_SIZE) in
  length (take n (i_data img) ++ junk) = DATA_SIZE ->
  exists nv', nvram_rehash stack nv (Image (i_hdr img) (take n (i_data img) ++ junk)) = Some nv' /\
    nvram_ok nv' /\ to_map nv' = sdram_defaults (i_hdr img) (set_all ∅ ps) /\ room (port nv') k.
Proof.
  intros Hs Hs' I Hps (_ & _ & Hl & Hlen & _) (z & Hdata & Hz) Hsize Hroom n Hn.
  pose proof DATA_SIZE_Z as Hd. unfold NVRAM_HEADER_SIZE, NVRAM_SPACE in *.
  assert (Hes : length (entries ps) = entries_size ps) by done.
  rewrite Hdata in Hl, Hn |- *. rewrite length_app, length_replicate in Hl.
  rewrite take_app, (take_ge (entries ps)), take_replicate, <- app_assoc in Hn |- * by lia.
  destruct (Nat.min (n - length (entries ps)) z) as [|j] eqn:Ej; [lia|].
  apply nvram_rehash_spec; try done.
Qed.

Lemma changes_spec nv cs :
  nvram_ok nv -> Forall change_ok cs ->
  let '(rs, nv') := changes nv cs in
  nvram_ok nv' /\ to_map nv' = changes_map (to_map nv) cs rs /\ Forall (fun r => r = 0 \/ r = -12) rs.
Proof.
  intros I Hcs. revert nv I. induction Hcs as [|c cs Hc Hcs IH]; intros nv I; [done|].
  cbn [changes]. destruct c as [n v|n]; cbn [change_ok] in Hc.
  - destruct Hc as [Hn Hv]. pose proof (nvram_set_spec nv n v I Hn Hv) as Hset.
    destruct (_nvram_set nv n v) as [r nv1]. destruct Hset as [I1 Hset]. specialize (IH nv1 I1).
    destruct (changes nv1 cs) as [rs nv']. destruct IH as (I' & Hm & Hrs).
    split; [done|]. cbn [changes_map].
    destruct Hset as [[-> Hm1]|[-> Hm1]]; rewrite Hm, Hm1; (split; [done|]); constructor; auto.
  - destruct (nvram_unset_spec nv n I Hc) as [I1 Hm1]. specialize (IH _ I1).
    destruct (changes (_nvram_unset nv n) cs) as [rs nv']. destruct IH as (I' & Hm & Hrs).
    split; [done|]. cbn [changes_map]. rewrite Hm, Hm1. split; [done|]. constructor; auto.
Qed.

Lemma pairs_storable nv :
  nvram_ok nv -> (forall n v, to_map nv !! n = Some v -> plain n) -> Forall storable (pairs nv).
Proof.
  intros I Hp. apply Forall_forall. intros p Hin. apply list_elem_of_fmap in Hin as (t & -> & Ht).
  pose proof Ht as Ht'. apply elem_of_concat_lookup in Ht as (i & l & Hl & Ht).
  destruct (n_home _ I i l t Hl Ht) as (_ & Hn & Hv). split; [|done].
  apply (Hp _ (t_value (port nv) t)). apply to_map_Some; [done|]. by exists t.
Qed.

(** ** The properties *)

(** C21 The hash table with its chains, tuples and dead list is a finite map: from the
    empty table, any sequence of sets and unsets leaves the map that the same changes
    make, a set that reports -ENOMEM changing nothing; lookups read that map; and
    [_nvram_exit] then frees every tuple ever allocated, each once. *)
Theorem nvram_is_map s cs n :
  port_wf s -> live s = ∅ -> Forall change_ok cs -> is_cstr n ->
  let '(rs, nv) := changes (Nv (replicate HASH_SIZE []) [] s) cs in
  nvram_ok nv /\ Forall (fun r => r = 0 \/ r = -12) rs /\
  _nvram_get nv n = changes_map ∅ cs rs !! n /\
  exists nv', _nvram_exit nv = Some nv' /\ live (port nv') = ∅ /\ to_map nv' = ∅.
Proof.
  intros Hw Hl Hcs Hn.
  pose proof (changes_spec _ cs (empty_ok s Hw Hl) Hcs) as H'. rewrite empty_map in H'.
  destruct (changes _ cs) as [rs nv]. destruct H' as (I & Hm & Hrs).
  split; [done|]. split; [done|]. split; [by rewrite nvram_get_spec, Hm|].
  destruct (nvram_free_spec nv I) as (s' & _ & Hf & _ & Hl' & _).
  eexists. split; [exact Hf|]. split; [done|apply empty_map].
Qed.

(** [_nvram_commit] always produces a well formed image: magic, version, a length
    within [NVRAM_SPACE] and a multiple of four, a matching CRC and the variables as
    name=value strings closed by two NULs; and the table rebuilt from it has the same
    variables (with the [sdram_] defaults of the header where they were missing) when they
    all fit, and only variables it had before when they do not. *)
Theorem nvram_commit_roundtrip `{!PortRoom S} stack base nv :
  0 < stack -> stack + 11 <= 2 ^ 32 -> 0 < base -> base + Z.of_nat DATA_SIZE <= 2 ^ 32 ->
  nvram_ok nv -> (forall n v, to_map nv !! n = Some v -> plain n) ->
  (Nat.min (DATA_SIZE - 2) (entries_size (pairs nv)) + 44 <= port_size)%nat ->
  exists img nv' ps, _nvram_commit stack nv base = Some (img, nv') /\
    image_ok img /\ image_holds img ps /\ nvram_ok nv' /\
    to_map nv' = sdram_defaults (i_hdr img) (set_all ∅ ps) /\ ps `sublist_of` pairs nv /\
    ((entries_size (pairs nv) <= DATA_SIZE - 2)%nat -> set_all ∅ ps = to_map nv).
Proof.
  intros Hs Hs' Hb Hb' I Hp Hroom. unfold _nvram_commit.
  destruct (commit_image_spec nv base Hb Hb') as (img & ps & -> & Hok & Hh & Hsub & Hsize & Hall).
  pose proof (pairs_storable nv I Hp) as Hst.
  assert (Hps : Forall storable ps).
  { apply Forall_forall. intros p Hin. eapply (proj1 (Forall_forall _ _) Hst).
    by eapply elem_of_sublist. }
  assert (Hle : (entries_size ps <= entries_size (pairs nv))%nat).
  { clear -Hsub. unfold entries_size, entries. induction Hsub; cbn; rewrite ?length_app; lia. }
  destruct (rehash_image stack nv img ps
    (drop (Z.to_nat (h_len (i_hdr img) - NVRAM_HEADER_SIZE)) (i_data img)) 0)
    as (nv' & Hre & I' & Hm & _); try done; [lia|by rewrite take_drop; apply Hok|].
  rewrite take_drop in Hre. destruct img as [h d]. cbn [i_hdr i_data] in *. rewrite Hre.
  exists (Image h d), nv', ps. do 6 (split; [done|]). intros Hfit.
  rewrite Hall by done. by apply set_all_pairs.
Qed.

(** [_nvram_getall] writes name=value strings into the caller's buffer without leaving
    it, always closed by an empty string, and all variables when the buffer is large
    enough. *)
Theorem nvram_getall_spec nv base count :
  0 < base -> base + Z.of_nat count <= 2 ^ 32 -> 0 < Z.of_nat count < 2 ^ 31 ->
  exists buf ps n, _nvram_getall nv base count = Some buf /\ length buf = count /\
    buf = entries ps ++ replicate (Datatypes.S n) 0 /\ ps `sublist_of` pairs nv /\
    ((entries_size (pairs nv) < count)%nat -> ps = pairs nv).
Proof.
  intros Hb Hc Hlt. unfold _nvram_getall.
  pose proof (write_hash_spec base (fun len need => need <? Z.of_nat count - len)
    (Z.of_nat count - 1) (port nv) (nvram_hash nv) 0 (replicate count 0) Hb) as Hw.
  rewrite length_replicate in Hw.
  destruct Hw as (ps & Hsub & -> & Hle & Hall); [lia|lia|lia| |lia|lia|].
  { intros off need. apply eq_true_iff_eq. rewrite Z.ltb_lt, Z.leb_le. lia. }
  change (Z.to_nat 0) with 0%nat.
  eexists _, ps, (count - entries_size ps - 1)%nat. split; [done|].
  assert (splice (replicate count 0) 0 (entries ps)
          = entries ps ++ replicate (Datatypes.S (count - entries_size ps - 1)) 0) as ->.
  { rewrite splice_zeros. do 2 f_equal. unfold entries_size in *. lia. }
  split; [rewrite length_app, length_replicate; unfold entries_size in *; lia|].
  split; [done|]. split; [done|]. intros Hfit. apply Hall. unfold pairs in Hfit. lia.
Qed.

End Proofs.

(** * Instances of the properties *)

Definition ex_malloc (used : gset Z) (size : Z) : option Z := Some (fresh used).

Lemma ex_malloc_fresh used n a : ex_malloc used n = Some a -> a ∉ used.
Proof. intros [= <-]. apply is_fresh. Qed.

#[local] Instance ex_port : Port rw_port := rw_Port ex_malloc.
#[local] Instance ex_laws : PortLaws rw_port := rw_laws ex_malloc ex_malloc_fresh.
#[local] Instance ex_room : PortRoom rw_port :=
  rw_room ex_malloc (fun used n => ltac:(by eexists)) (DATA_SIZE + 44).

Definition ex_changes : list change :=
  [Set_ (str "lan_ifname") (str "br0"); Set_ (str "os") (str "linux");
   Set_ (str "os") (str "none"); Unset (str "lan_ifname")].

Lemma ex_changes_ok : Forall change_ok ex_changes.
Proof. repeat constructor. Qed.

Lemma ex_start : port_wf (Rw ∅) /\ live (Rw ∅) = ∅.
Proof. split; [done|]. apply dom_empty_L. Qed.

Lemma nvram_is_map_witness :
  let '(rs, nv) := changes (Nv (replicate HASH_SIZE []) [] (Rw ∅)) ex_changes in
  rs = [0; 0; 0; 0] /\ _nvram_get nv (str "os") = Some (str "none") /\
  exists nv', _nvram_exit nv = Some nv' /\ live (port nv') = ∅.
Proof.
  pose proof (nvram_is_map (Rw ∅) ex_changes (str "os") (proj1 ex_start) (proj2 ex_start)
    ex_changes_ok ltac:(repeat constructor)) as H.
  assert (Hrs : (changes (Nv (replicate HASH_SIZE []) [] (Rw ∅)) ex_changes).1 = [0; 0; 0; 0])
    by (vm_compute; reflexivity).
  destruct (changes _ ex_changes) as [rs nv]. cbn [fst] in Hrs. subst rs.
  destruct H as (_ & _ & Hget & nv' & Hexit & Hl & _).
  split; [reflexivity|]. split; [rewrite Hget; vm_compute; reflexivity|].
  exists nv'. split; [exact Hexit|exact Hl].
Defined.

(** A table with one variable, and what is written for it. *)
Definition ex_nv : nvram rw_port :=
  (changes (Nv (replicate HASH_SIZE []) [] (Rw ∅)) [Set_ (str "os") (str "linux")]).2.

Lemma ex_nv_ok : nvram_ok ex_nv /\ to_map ex_nv = {[str "os" := str "linux"]}.
Proof.
  pose proof (changes_spec (Nv (replicate HASH_SIZE []) [] (Rw ∅)) [Set_ (str "os") (str "linux")]
    (empty_ok _ (proj1 ex_start) (proj2 ex_start)) ltac:(repeat constructor)) as H.
  assert (Hrs : (changes (Nv (replicate HASH_SIZE []) [] (Rw ∅))
    [Set_ (str "os") (str "linux")]).1 = [0]) by (vm_compute; reflexivity).
  unfold ex_nv. destruct (changes _ _) as [rs nv]. cbn [fst] in Hrs. subst rs. cbn [snd].
  destruct H as (I & Hm & _). split; [exact I|]. rewrite Hm, empty_map. reflexivity.
Qed.

Lemma ex_pairs : pairs ex_nv = [(str "os", str "linux")].
Proof. vm_compute. reflexivity. Qed.

Lemma nvram_commit_roundtrip_witness :
  exists img nv', _nvram_commit 0x1000 ex_nv 0x2000 = Some (img, nv') /\ image_ok img /\
    to_map nv' = sdram_defaults (i_hdr img) {[str "os" := str "linux"]}.
Proof.
  destruct ex_nv_ok as [I Hm].
  destruct (nvram_commit_roundtrip 0x1000 0x2000 ex_nv) as
    (img & nv' & ps & Hc & Hok & _ & _ & Hmap & _ & Hfit).
  - reflexivity.
  - discriminate.
  - reflexivity.
  - rewrite DATA_SIZE_Z. discriminate.
  - exact I.
  - intros n v Hn. rewrite Hm in Hn. apply lookup_singleton_Some in Hn as [<- _].
    split; [discriminate|]. apply (bool_decide_unpack _). vm_compute. exact Logic.I.
  - apply Nat.add_le_mono_r. pose proof DATA_SIZE_Z. lia.
  - exists img, nv'. split; [exact Hc|]. split; [exact Hok|].
    rewrite Hmap, Hfit, Hm; [reflexivity|]. rewrite ex_pairs. pose proof DATA_SIZE_Z.
    change (entries_size [(str "os", str "linux")]) with 9%nat. lia.
Defined.

Lemma nvram_getall_spec_witness :
  exists buf ps n, _nvram_getall ex_nv 0x1000 64 = Some buf /\ length buf = 64%nat /\
    buf = entries ps ++ replicate (S n) 0 /\ ps = pairs ex_nv.
Proof.
  destruct (nvram_getall_spec ex_nv 0x1000 64) as (buf & ps & n & Hg & Hl & Hb & _ & Hall);
    [lia..|]. exists buf, ps, n. split; [exact Hg|]. split; [exact Hl|]. split; [exact Hb|].
  apply Hall. rewrite ex_pairs. change (entries_size [(str "os", str "linux")]) with 9%nat. lia.
Defined.
