(* ===== verification/Flash.v ===== *)
(** The parallel flash: include/flash.h (the tables of chips and commands) and
    shared/flashutl.c.

    The chip is its memory and the bus writes it was sent; a block erase makes every
    byte of the block 0xff, and programming a byte [old] with [d] leaves [prog old d].
    The serial flash of the same interface ([sflash_commit]) is not modelled. *)

From S2P Require Import Prelude.
From Stdlib Require Import ZArith Lia Bool List String Ascii.
From stdpp Require Import base numbers list.

#[local] Open Scope Z_scope.

(** * Tables *)

Inductive flash_type := OLD | BSC | SCS | AMD | SST | SFLASH.

#[export] Instance flash_type_eq_dec : EqDecision flash_type.
Proof. solve_decision. Defined.

Record flash_cmds_t := Cmds {
  c_type : flash_type;
  need_unlock : bool;
  pre_erase : Z;
  erase_block : Z;
  erase_chip : Z;
  write_word : Z;
  write_buf : Z;
  clear_csr : Z;
  read_csr : Z;
  read_id : Z;
  confirm : Z;
  read_array : Z
}.

Definition flash_cmds : list flash_cmds_t := [
  Cmds BSC false 0x00 0x20 0x00 0x40 0x00 0x50 0x70 0x90 0xd0 0xff;
  Cmds SCS false 0x00 0x20 0x00 0x40 0xe8 0x50 0x70 0x90 0xd0 0xff;
  Cmds AMD true 0x80 0x30 0x10 0xa0 0x00 0x00 0x00 0x90 0x00 0xf0;
  Cmds SST true 0x80 0x50 0x10 0xa0 0x00 0x00 0x00 0x90 0x00 0xf0].

(** The unlock writes: address and data. *)
Definition unlock_cmd_amd : list (Z * Z) := [(0x0aaa, 0xaa); (0x0554, 0x55)].
Definition unlock_cmd_sst : list (Z * Z) := [(0xaaaa, 0xaa); (0x5554, 0x55)].
Definition AMD_CMD := 0xaaa.
Definition SST_CMD := 0xaaaa.
Definition INTEL_UNLOCK1 := 0x60.
Definition INTEL_UNLOCK2 := 0xD0.
Definition WBUFSIZE := 32.

Definition blk8x8k : list Z :=
  [0x0; 0x2000; 0x4000; 0x6000; 0x8000; 0xa000; 0xc000; 0xe000; 0x10000].
Definition amd800 : list Z :=
  [0x0; 0x4000; 0xc000; 0xe000; 0x10000; 0x12000; 0x14000; 0x1c000; 0x20000].
Definition amd4112 : list Z := [0x0; 0x8000; 0xa000; 0xc000; 0x10000].
Definition amd2114 : list Z := [0x0; 0x4000; 0x6000; 0x8000; 0x10000].

Record flash_desc_t := Desc {
  mfgid : Z;
  devid : Z;
  size : Z;
  width : Z;
  type : flash_type;
  bsize : Z;
  nb : Z;
  ff : Z;
  lf : Z;
  nsub : nat;
  subblocks : list Z;
  desc : string
}.

Definition flashes : list flash_desc_t := [
  Desc 0x00b0 0x00d0 0x0200000 2 SCS 0x10000 32 0 31 0 [] "Intel 28F160S3/5 1Mx16";
  Desc 0x00b0 0x00d4 0x0400000 2 SCS 0x10000 64 0 63 0 [] "Intel 28F320S3/5 2Mx16";
  Desc 0x0089 0x8890 0x0200000 2 BSC 0x10000 32 0 30 8 blk8x8k "Intel 28F160B3 1Mx16 TopB";
  Desc 0x0089 0x8891 0x0200000 2 BSC 0x10000 32 1 31 8 blk8x8k "Intel 28F160B3 1Mx16 BotB";
  Desc 0x0089 0x8896 0x0400000 2 BSC 0x10000 64 0 62 8 blk8x8k "Intel 28F320B3 2Mx16 TopB";
  Desc 0x0089 0x8897 0x0400000 2 BSC 0x10000 64 1 63 8 blk8x8k "Intel 28F320B3 2Mx16 BotB";
  Desc 0x0089 0x8898 0x0800000 2 BSC 0x10000 128 0 126 8 blk8x8k "Intel 28F640B3 4Mx16 TopB";
  Desc 0x0089 0x8899 0x0800000 2 BSC 0x10000 128 1 127 8 blk8x8k "Intel 28F640B3 4Mx16 BotB";
  Desc 0x0089 0x88C2 0x0200000 2 BSC 0x10000 32 0 30 8 blk8x8k "Intel 28F160C3 1Mx16 TopB";
  Desc 0x0089 0x88C3 0x0200000 2 BSC 0x10000 32 1 31 8 blk8x8k "Intel 28F160C3 1Mx16 BotB";
  Desc 0x0089 0x88C4 0x0400000 2 BSC 0x10000 64 0 62 8 blk8x8k "Intel 28F320C3 2Mx16 TopB";
  Desc 0x0089 0x88C5 0x0400000 2 BSC 0x10000 64 1 63 8 blk8x8k "Intel 28F320C3 2Mx16 BotB";
  Desc 0x0089 0x88CC 0x0800000 2 BSC 0x10000 128 0 126 8 blk8x8k "Intel 28F640C3 4Mx16 TopB";
  Desc 0x0089 0x88CD 0x0800000 2 BSC 0x10000 128 1 127 8 blk8x8k "Intel 28F640C3 4Mx16 BotB";
  Desc 0x0089 0x0014 0x0400000 2 SCS 0x20000 32 0 31 0 [] "Intel 28F320J5 2Mx16";
  Desc 0x0089 0x0015 0x0800000 2 SCS 0x20000 64 0 63 0 [] "Intel 28F640J5 4Mx16";
  Desc 0x0089 0x0016 0x0400000 2 SCS 0x20000 32 0 31 0 [] "Intel 28F320J3 2Mx16";
  Desc 0x0089 0x0017 0x0800000 2 SCS 0x20000 64 0 63 0 [] "Intel 28F640J3 4Mx16";
  Desc 0x0089 0x0018 0x1000000 2 SCS 0x20000 128 0 127 0 [] "Intel 28F128J3 8Mx16";
  Desc 0x00b0 0x00e3 0x0400000 2 BSC 0x10000 64 1 63 8 blk8x8k "Sharp 28F320BJE 2Mx16 BotB";
  Desc 0x0001 0x224a 0x0100000 2 AMD 0x10000 16 0 13 8 amd800 "AMD 29DL800BT 512Kx16 TopB";
  Desc 0x0001 0x22cb 0x0100000 2 AMD 0x10000 16 2 15 8 amd800 "AMD 29DL800BB 512Kx16 BotB";
  Desc 0x0001 0x22c4 0x0200000 2 AMD 0x10000 32 0 30 4 amd2114 "AMD 29lv160DT 1Mx16 TopB";
  Desc 0x0001 0x2249 0x0200000 2 AMD 0x10000 32 1 31 4 amd4112 "AMD 29lv160DB 1Mx16 BotB";
  Desc 0x0001 0x22f6 0x0400000 2 AMD 0x10000 64 0 62 8 blk8x8k "AMD 29lv320DT 2Mx16 TopB";
  Desc 0x0001 0x22f9 0x0400000 2 AMD 0x10000 64 1 63 8 blk8x8k "AMD 29lv320DB 2Mx16 BotB";
  Desc 0x0001 0x00f9 0x0400000 2 AMD 0x10000 64 1 63 8 blk8x8k "AMD 29lv320DB 2Mx16 BotB in BYTE mode";
  Desc 0x0001 0x2201 0x0400000 2 AMD 0x10000 64 0 62 8 blk8x8k "AMD 29lv320MT 2Mx16 TopB";
  Desc 0x0001 0x2200 0x0400000 2 AMD 0x10000 64 1 63 8 blk8x8k "AMD 29lv320MB 2Mx16 BotB";
  Desc 0x0020 0x22CA 0x0400000 2 AMD 0x10000 64 0 62 4 amd4112 "ST 29w320DT 2Mx16 TopB";
  Desc 0x0020 0x22CB 0x0400000 2 AMD 0x10000 64 1 63 4 amd2114 "ST 29w320DB 2Mx16 BotB";
  Desc 0x00C2 0x00A7 0x0400000 2 AMD 0x10000 64 0 62 4 amd4112 "MX29LV320T 2Mx16 TopB";
  Desc 0x00C2 0x00A8 0x0400000 2 AMD 0x10000 64 1 63 4 amd2114 "MX29LV320B 2Mx16 BotB";
  Desc 0x0004 0x22F6 0x0400000 2 AMD 0x10000 64 0 62 4 amd4112 "MBM29LV320TE 2Mx16 TopB";
  Desc 0x0004 0x22F9 0x0400000 2 AMD 0x10000 64 1 63 4 amd2114 "MBM29LV320BE 2Mx16 BotB";
  Desc 0x0098 0x009A 0x0400000 2 AMD 0x10000 64 0 62 4 amd4112 "TC58FVT321 2Mx16 TopB";
  Desc 0x0098 0x009C 0x0400000 2 AMD 0x10000 64 1 63 4 amd2114 "TC58FVB321 2Mx16 BotB";
  Desc 0x00C2 0x22A7 0x0400000 2 AMD 0x10000 64 0 62 4 amd4112 "MX29LV320T 2Mx16 TopB";
  Desc 0x00C2 0x22A8 0x0400000 2 AMD 0x10000 64 1 63 4 amd2114 "MX29LV320B 2Mx16 BotB";
  Desc 0x00BF 0x2783 0x0400000 2 SST 0x10000 64 0 63 0 [] "SST39VF320 2Mx16"].

(** * Geometry *)

Inductive which := BLOCK_BASE | BLOCK_LIM.

(** The search among the sub-blocks, from the [i]-th; [n] are left. *)
Fixpoint subblock (n i : nat) (sb : Z) (sblocks : list Z) (addr : Z) (w : which) : option Z :=
  match n with
  | O => Some 0
  | S n =>
      let? b := sblocks !! i in
      let? l := sblocks !! S i in
      if (sb + b <=? addr) && (addr <? sb + l)
      then Some (match w with BLOCK_BASE => sb + b | BLOCK_LIM => sb + l end)
      else subblock n (S i) sb sblocks addr w
  end.

Definition block (d : flash_desc_t) (addr : Z) (w : which) : option Z :=
  assert! addr <? size d in
  let b := addr / bsize d in
  if (ff d <=? b) && (b <=? lf d) then
    Some (match w with BLOCK_BASE => b | BLOCK_LIM => b + 1 end * bsize d)
  else
    let sb := if ff d =? 0 then bsize d * (lf d + 1) else 0 in
    subblock (nsub d) 0 sb (subblocks d) addr w.

(** * Commands and writing *)

(** The contents, the bus writes so far, and the contents before each change made to
    them: what a power failure at that moment leaves. *)
Record flash := Flash { mem : bytes; bus : list (Z * Z); past : list bytes }.

(** The chip's contents change. *)
Definition set_mem (m : bytes) (f : flash) : flash := Flash m (bus f) (past f ++ [mem f]).

Section Flashutl.
Variable prog : Z -> Z -> Z.
(** [flashutl_desc], [flashutl_cmd] and [flashutl_wsz]. *)
Variable d : flash_desc_t.
Variable fc : flash_cmds_t.
Variable wsz : nat.

Definition flash_writeword (off data : Z) (f : flash) : flash :=
  Flash (mem f) (bus f ++ [(off, data)]) (past f).

Definition scmd (c off : Z) (f : flash) : flash := flash_writeword off c f.

(** [None] is [CMD_ADDR]. *)
Definition cmd (c : Z) (off : option Z) (f : flash) : option flash :=
  let ul := match c_type fc with
            | AMD => Some unlock_cmd_amd
            | SST => Some unlock_cmd_sst
            | _ => None
            end in
  let? f := if need_unlock fc
            then let? ul := ul in
                 Some (fold_left (fun f u => flash_writeword u.1 u.2 f) ul f)
            else Some f in
  let off := match off with
             | Some off => off
             | None => match c_type fc with AMD => AMD_CMD | SST => SST_CMD | _ => 0 end
             end in
  Some (flash_writeword off c f).

Definition cmd_if (c : Z) (off : option Z) (f : flash) : option flash :=
  if truthy c then cmd c off f else Some f.
Definition scmd_if (c off : Z) (f : flash) : flash := if truthy c then scmd c off f else f.

Definition flash_reset (f : flash) : flash :=
  scmd_if (read_array fc) 0 (scmd_if (clear_csr fc) 0 f).

(** The word at an offset, in the width of the bus. *)
Definition readword (m : bytes) (off : nat) : option Z :=
  let? a := m !! off in
  if (wsz =? 1)%nat then Some a else let? b := m !! S off in Some (a + 256 * b).

(** [flash_poll]: the AMD chips answer with the data once it is there, the others with
    a status that becomes [DONE].  0 or -1. *)
Definition flash_poll (off : nat) (data : Z) (f : flash) : option Z :=
  match type d with
  | AMD | SST => let? w := readword (mem f) off in Some (if w =? data then 0 else -1)
  | _ => Some 0
  end.

Definition ones : Z := if (wsz =? 1)%nat then 0xff else 0xffff.

Definition flash_eraseblk (addr : Z) (f : flash) : option (Z * flash) :=
  if size d <=? addr then Some (1, f)
  else
    let? a := block d addr BLOCK_BASE in
    let? lim := block d addr BLOCK_LIM in
    let f := match c_type fc with
             | BSC => scmd INTEL_UNLOCK2 a (scmd INTEL_UNLOCK1 a f)
             | _ => f
             end in
    let? f := cmd_if (pre_erase fc) None f in
    let? f := cmd_if (erase_block fc) (Some a) f in
    let f := scmd_if (confirm fc) a f in
    let f := set_mem (splice (mem f) (Z.to_nat a) (replicate (Z.to_nat (lim - a)) 0xff)) f in
    let? st := flash_poll (Z.to_nat a) ones f in
    Some (st, flash_reset f).

(** Program one byte. *)
Definition program (m : bytes) (off : nat) (c : Z) : option bytes :=
  let? old := m !! off in Some (<[off := prog old c]> m).

(** A data word on the bus. *)
Definition write_data (off : Z) (data : Z) (f : flash) : option flash :=
  let? m := program (mem f) (Z.to_nat off) (Z.land data 0xff) in
  let? m := if (wsz =? 1)%nat then Some m
            else program m (S (Z.to_nat off)) (Z.land (Z.shiftr data 8) 0xff) in
  Some (set_mem m (flash_writeword off data f)).

(** The data of a write buffer, in 16-bit words. *)
Fixpoint write_words (n : nat) (off : Z) (src : bytes) (f : flash) : option flash :=
  match n with
  | O => Some f
  | S n =>
      match src with
      | a :: b :: src =>
          let? m := program (mem f) (Z.to_nat off) a in
          let? m := program m (S (Z.to_nat off)) b in
          write_words n (off + 2) src (set_mem m (flash_writeword off (a + 256 * b) f))
      | _ => None
      end
  end.

(** The loop of [flash_write]; a round writes at least one byte. *)
Fixpoint write_loop (fuel : nat) (off : Z) (src : bytes) (f : flash) : option (Z * flash) :=
  match fuel with
  | O => None
  | S fuel =>
      match src with
      | [] => Some (0, f)
      | _ =>
          if bool_decide (type d = SCS) && truthy (write_buf fc) &&
             (Z.land off (WBUFSIZE - 1) =? 0) then
            let? f := cmd (write_buf fc) (Some off) f in
            let len := Nat.min (length src) (Z.to_nat WBUFSIZE) in
            let? f := cmd (wrap16 (Z.of_nat (len / 2) - 1)) (Some off) f in
            let? f := write_words ((len + 1) / 2) off src f in
            let? f := cmd_if (confirm fc) (Some off) f in
            write_loop fuel (off + Z.of_nat len) (drop len src) f
          else
            let? f := cmd_if (write_word fc) None f in
            let? data := readword src 0 in
            let? f := write_data off data f in
            let? st := flash_poll (Z.to_nat off) data f in
            if truthy st then Some (st, f)
            else
              let len := Nat.min (length src) wsz in
              write_loop fuel (off + Z.of_nat len) (drop len src) f
      end
  end.

Definition flash_write (off : Z) (src : bytes) (f : flash) : option (Z * flash) :=
  if size d <=? off then Some (1, f)
  else
    assert! Z.land off (Z.of_nat wsz - 1) =? 0 in
    let? (st, f) := write_loop (S (length src)) off src f in
    Some (st, flash_reset f).

(** The loop of [sysFlashErase]; every block has at least one byte. *)
Fixpoint erase_loop (fuel : nat) (off end_ : Z) (f : flash) : option (Z * flash) :=
  if off <? end_ then
    match fuel with
    | O => None
    | S fuel =>
        let? (err, f) := flash_eraseblk off f in
        if truthy err then Some (err, f)
        else let? off := block d off BLOCK_LIM in erase_loop fuel off end_ f
    end
  else Some (0, f).

(** [!err]. *)
Definition sysFlashErase (off : Z) (numbytes : nat) (f : flash) : option (bool * flash) :=
  let? (err, f) := erase_loop numbytes off (off + Z.of_nat numbytes) f in
  Some (err =? 0, f).

Definition sysFlashWrite (off : Z) (src : bytes) (f : flash) : option (bool * flash) :=
  let? (ok, f) := sysFlashErase off (length src) f in
  if negb ok then Some (false, f)
  else let? (err, f) := flash_write off src f in Some (err =? 0, f).

(** The words read, as bytes. *)
Definition sysFlashRead (off : Z) (numbytes : nat) (f : flash) : option bytes :=
  assert! (Z.land off (Z.of_nat wsz - 1) =? 0) in
  assert! (Z.land (Z.of_nat numbytes) (Z.of_nat wsz - 1) =? 0) in
  assert! (Z.to_nat off + numbytes <=? length (mem f))%nat in
  Some (take numbytes (drop (Z.to_nat off) (mem f))).

Definition NV_SIZE := 0x8000.

Definition nvWrite (data : bytes) (f : flash) : option flash :=
  let? (_, f) := sysFlashWrite (size d - NV_SIZE) data f in Some f.

Definition nvWriteChars (data : bytes) (f : flash) : option flash :=
  let? (_, f) := flash_write (size d - NV_SIZE) data f in Some f.

End Flashutl.

(** * Specification vocabulary *)

(** A chip description whose full blocks and sub-blocks tile the chip, with
    boundaries at even addresses. *)
Definition desc_ok (d : flash_desc_t) : bool :=
  let s i := nth i (subblocks d) 0 in
  let n := nsub d in
  (0 <? bsize d) && Z.even (bsize d) && (0 <=? ff d) && (ff d <=? lf d) &&
  (if (n =? 0)%nat then (ff d =? 0) && (bsize d * (lf d + 1) =? size d)
   else (length (subblocks d) =? S n)%nat && (s 0%nat =? 0) &&
        forallb (fun x => Z.even x) (subblocks d) &&
        forallb (fun i => forallb (fun j => s i <? s j) (seq (S i) (n - i))) (seq 0 n) &&
        (if ff d =? 0 then bsize d * (lf d + 1) + s n =? size d
         else (s n =? ff d * bsize d) && (bsize d * (lf d + 1) =? size d))).

(** [addr] is in the block from [b] to [l]. *)
Definition in_block (d : flash_desc_t) (addr b l : Z) : Prop :=
  0 <= b <= addr /\ addr < l <= size d /\ Z.even b = true /\ Z.even l = true /\
  forall a w, b <= a < l -> block d a w = Some (match w with BLOCK_BASE => b | BLOCK_LIM => l end).

(** What the model assumes of the chip: an erased byte takes any value, and any byte
    can be cleared. *)
Definition prog_ok (prog : Z -> Z -> Z) : Prop :=
  (forall c, byte_ok c -> prog 0xff c = c) /\ (forall old, byte_ok old -> prog old 0 = 0).

(** A command set that unlocks only chips with a known unlock sequence. *)
Definition cmds_ok (fc : flash_cmds_t) : Prop :=
  need_unlock fc = true -> c_type fc = AMD \/ c_type fc = SST.

(** Memory with everything from [b] up to [l] erased. *)
Definition fill (m : bytes) (b l : Z) : bytes :=
  splice m (Z.to_nat b) (replicate (Z.to_nat (l - b)) 0xff).

(** The chip takes the bytes [src] at [off] without an erase. *)
Definition programmable (prog : Z -> Z -> Z) (m : bytes) (off : nat) (src : bytes) : Prop :=
  forall i c, src !! i = Some c -> exists old, m !! (off + i)%nat = Some old /\ prog old c = c.

(** The states passed through between [f] and [f'] all satisfy [R]. *)
Definition passes (R : bytes -> Prop) (f f' : flash) : Prop :=
  exists l, past f' = past f ++ l /\ Forall R l.

(** Contents with a first part of [src] written at [off]. *)
Definition partly (m : bytes) (off : nat) (src : bytes) (m' : bytes) : Prop :=
  exists k, (k <= length src)%nat /\ m' = splice m off (take k src).

(** Contents with the blocks from [lo] to a boundary below [hi] erased. *)
Definition partly_erased (m : bytes) (lo hi : Z) (m' : bytes) : Prop :=
  exists x, lo <= x <= hi /\ m' = fill m lo x.

Definition wsz_ok (wsz : nat) : Prop := wsz = 1%nat \/ wsz = 2%nat.

(** * Lemmas *)

Lemma subblock_at n i sb l addr w j :
  (forall a b, (i <= a < b)%nat -> (b <= i + n)%nat -> nth a l 0 < nth b l 0) ->
  (i + n < length l)%nat -> (i <= j < i + n)%nat ->
  sb + nth j l 0 <= addr < sb + nth (S j) l 0 ->
  subblock n i sb l addr w
  = Some (match w with BLOCK_BASE => sb + nth j l 0 | BLOCK_LIM => sb + nth (S j) l 0 end).
Proof.
  revert i. induction n as [|n IH]; intros i Hs Hlen Hj Ha; [lia|]. cbn [subblock].
  destruct (nth_lookup_or_length l i 0) as [Hi|]; [|lia].
  destruct (nth_lookup_or_length l (S i) 0) as [Hi'|]; [|lia]. rewrite Hi, Hi'.
  destruct (decide (j = i)) as [->|Hne].
  - rewrite (proj2 (Z.leb_le _ _)), (proj2 (Z.ltb_lt _ _)) by lia. done.
  - assert (nth (S i) l 0 <= nth j l 0).
    { destruct (decide (j = S i)) as [->|]; [done|]. apply Z.lt_le_incl, Hs; lia. }
    rewrite (proj2 (Z.ltb_ge addr (sb + nth (S i) l 0))), andb_false_r by lia.
    apply IH; [|lia|lia|done]. intros a b Hab Hb. apply Hs; lia.
Qed.

Lemma subblock_exists n i (l : list Z) x :
  nth i l 0 <= x < nth (i + n) l 0 ->
  exists j, (i <= j < i + n)%nat /\ nth j l 0 <= x < nth (S j) l 0.
Proof.
  revert i. induction n as [|n IH]; intros i Hx; [rewrite Nat.add_0_r in Hx; lia|].
  destruct (decide (x < nth (S i) l 0)).
  - exists i. lia.
  - destruct (IH (S i)) as (j & ? & ?); [|exists j; lia].
    replace (S i + n)%nat with (i + S n)%nat by lia. lia.
Qed.

Lemma even_nth l i : forallb (fun x => Z.even x) l = true -> Z.even (nth i l 0) = true.
Proof.
  intros H. destruct (nth_in_or_default i l 0) as [Hin| ->]; [|done].
  rewrite forallb_forall in H. by apply H.
Qed.

(** An address in a full block. *)
Lemma full_block d addr :
  0 < bsize d -> Z.even (bsize d) = true -> 0 <= ff d -> (lf d + 1) * bsize d <= size d ->
  ff d <= addr / bsize d <= lf d ->
  in_block d addr (addr / bsize d * bsize d) ((addr / bsize d + 1) * bsize d).
Proof.
  intros Hb He Hf Hs Hq. set (q := addr / bsize d) in *.
  pose proof (Z.div_mod addr (bsize d) ltac:(lia)). pose proof (Z.mod_pos_bound addr (bsize d) Hb).
  fold q in H. split; [nia|]. split; [nia|].
  rewrite !Z.even_mul, He, !orb_true_r. split; [done|]. split; [done|].
  intros a w Ha. assert (a / bsize d = q) as Hqa.
  { symmetry. apply (Z.div_unique_pos a (bsize d) q (a - q * bsize d)); lia. }
  unfold block. rewrite (proj2 (Z.ltb_lt _ _)), Hqa by nia.
  rewrite (proj2 (Z.leb_le _ _)), (proj2 (Z.leb_le _ _)) by lia. by destruct w.
Qed.

(** An address in a sub-block. *)
Lemma sub_block d addr sb :
  0 < bsize d -> Z.even sb = true -> 0 <= sb ->
  sb = (if ff d =? 0 then bsize d * (lf d + 1) else 0) ->
  (forall a, sb <= a < sb + nth (nsub d) (subblocks d) 0 -> (ff d <=? a / bsize d) && (a / bsize d <=? lf d) = false) ->
  sb + nth (nsub d) (subblocks d) 0 <= size d ->
  length (subblocks d) = S (nsub d) -> nth 0 (subblocks d) 0 = 0 ->
  forallb (fun x => Z.even x) (subblocks d) = true ->
  (forall i j, (i < j)%nat -> (j <= nsub d)%nat -> nth i (subblocks d) 0 < nth j (subblocks d) 0) ->
  sb <= addr < sb + nth (nsub d) (subblocks d) 0 ->
  exists b l, in_block d addr b l.
Proof.
  intros Hb He Hsb0 Hsb Hnot Hsize Hlen H0 Hev Hmono Ha.
  destruct (subblock_exists (nsub d) 0 (subblocks d) (addr - sb)) as (j & Hj & Hx);
    [cbn [Nat.add]; lia|].
  exists (sb + nth j (subblocks d) 0), (sb + nth (S j) (subblocks d) 0).
  assert (nth (S j) (subblocks d) 0 <= nth (nsub d) (subblocks d) 0).
  { destruct (decide (S j = nsub d)) as [->|]; [done|]. apply Z.lt_le_incl, Hmono; lia. }
  assert (0 <= nth j (subblocks d) 0).
  { destruct j as [|j]; [lia|]. pose proof (Hmono 0%nat (S j)). lia. }
  split; [lia|]. split; [lia|].
  rewrite !Z.even_add, He, !even_nth by done. split; [done|]. split; [done|].
  intros a w Hw. unfold block. rewrite (proj2 (Z.ltb_lt _ _)), Hnot by lia. rewrite <- Hsb.
  apply subblock_at; [|lia|lia|lia]. intros x y Hxy Hy. apply Hmono; lia.
Qed.

Lemma desc_ok_block d addr :
  desc_ok d = true -> 0 <= addr < size d -> exists b l, in_block d addr b l.
Proof.
  unfold desc_ok. intros H Ha. bool_simpl.
  assert (Hq : 0 <= addr / bsize d) by (apply Z.div_pos; lia).
  pose proof (Z.div_mod addr (bsize d) ltac:(lia)) as Hdm.
  pose proof (Z.mod_pos_bound addr (bsize d) ltac:(lia)) as Hm.
  destruct (nsub d =? 0)%nat eqn:En; bool_simpl.
  { do 2 eexists. apply full_block; try done; [lia|]. split; [lia|].
    apply Z.lt_succ_r, Z.div_lt_upper_bound; lia. }
  destruct (Nat.eqb_spec (length (subblocks d)) (S (nsub d))) as [Hlen|]; [|done].
  assert (Hmono : forall i j, (i < j)%nat -> (j <= nsub d)%nat ->
    nth i (subblocks d) 0 < nth j (subblocks d) 0).
  { intros i j Hij Hj.
    match goal with Hf : forallb _ (seq 0 (nsub d)) = true |- _ =>
      pose proof (forallb_seq _ _ Hf i ltac:(lia)) as Hi end.
    cbn beta in Hi. rewrite forallb_forall in Hi. apply Z.ltb_lt, Hi, in_seq. lia. }
  assert (Hpos : 0 <= nth (nsub d) (subblocks d) 0).
  { destruct (nsub d) as [|n]; [done|]. pose proof (Hmono 0%nat (S n)). lia. }
  destruct (ff d =? 0) eqn:Ef; bool_simpl.
  - destruct (decide (addr / bsize d <= lf d)) as [Hl|Hl].
    { do 2 eexists. apply full_block; try done; lia. }
    assert (lf d + 1 <= addr / bsize d) by lia.
    apply (sub_block d addr (bsize d * (lf d + 1))); rewrite ?Ef, ?Z.eqb_refl; try done; try nia.
    { rewrite Z.even_mul. match goal with He : Z.even (bsize d) = true |- _ => by rewrite He end. }
    intros a Hx. apply andb_false_intro2, Z.leb_gt.
    apply Z.lt_le_trans with (lf d + 1); [lia|]. apply Z.div_le_lower_bound; lia.
  - destruct (decide (ff d <= addr / bsize d)) as [Hl|Hl].
    { do 2 eexists. apply full_block; try done; try lia. split; [done|].
      apply Z.lt_succ_r, Z.div_lt_upper_bound; lia. }
    apply (sub_block d addr 0); try done; try nia.
    + by rewrite (proj2 (Z.eqb_neq _ _)).
    + intros a Hx. apply andb_false_intro1, Z.leb_gt. apply Z.div_lt_upper_bound; lia.
Qed.

Section Proofs.
Variable prog : Z -> Z -> Z.
Variable d : flash_desc_t.
Variable fc : flash_cmds_t.
Variable wsz : nat.
Hypothesis Hd : desc_ok d = true.
Hypothesis Hfc : cmds_ok fc.
Hypothesis Hwsz : wsz_ok wsz.

(** Commands change the bus only. *)
Lemma cmd_mem c off f :
  exists f', cmd fc c off f = Some f' /\ mem f' = mem f /\ past f' = past f.
Proof.
  unfold cmd. destruct (need_unlock fc) eqn:En; [|by eexists].
  destruct (Hfc En) as [-> | ->]; by eexists.
Qed.

Lemma cmd_if_mem c off f :
  exists f', cmd_if fc c off f = Some f' /\ mem f' = mem f /\ past f' = past f.
Proof. unfold cmd_if. case_test; [apply cmd_mem|by exists f]. Qed.

Lemma scmd_if_mem c off f : mem (scmd_if c off f) = mem f /\ past (scmd_if c off f) = past f.
Proof. unfold scmd_if. by case_test. Qed.

Lemma reset_mem f : mem (flash_reset fc f) = mem f /\ past (flash_reset fc f) = past f.
Proof.
  unfold flash_reset. destruct (scmd_if_mem (clear_csr fc) 0 f) as [H1 H2].
  destruct (scmd_if_mem (read_array fc) 0 (scmd_if (clear_csr fc) 0 f)) as [H3 H4].
  by rewrite H3, H4.
Qed.

Lemma passes_trans R f f1 f' : passes R f f1 -> passes R f1 f' -> passes R f f'.
Proof.
  intros (l & H1 & Hl) (l' & H2 & Hl'). exists (l ++ l'). rewrite H2, H1, app_assoc.
  split; [done|]. by apply Forall_app.
Qed.

Lemma passes_impl (R R' : bytes -> Prop) f f' :
  (forall m, R m -> R' m) -> passes R f f' -> passes R' f f'.
Proof. intros Himp (l & H & Hl). exists l. split; [done|]. by eapply Forall_impl. Qed.

Lemma passes_one (R : bytes -> Prop) f f' : past f' = past f ++ [mem f] -> R (mem f) -> passes R f f'.
Proof. intros H HR. exists [mem f]. split; [done|]. by constructor. Qed.

Lemma passes_none R f f' : past f' = past f -> passes R f f'.
Proof. intros H. exists []. rewrite app_nil_r. by split. Qed.

Lemma partly_start m off src : partly m off src m.
Proof. exists 0%nat. split; [lia|]. by rewrite splice_nil. Qed.

(** Blocks do not overlap and leave no gap. *)
Lemma next_block addr b l :
  in_block d addr b l -> l < size d -> exists l', in_block d l l l'.
Proof.
  intros (Hb & Hl & _ & _ & Hblk) Hls.
  destruct (desc_ok_block d l Hd ltac:(lia)) as (b' & l' & Hb' & Hl' & He1 & He2 & Hblk').
  destruct (decide (b' = l)) as [->|Hne].
  - exists l'. split; [done|]. split; [done|]. split; [done|]. split; done.
  - pose proof (Hblk (l - 1) BLOCK_LIM ltac:(lia)) as H1.
    pose proof (Hblk' (l - 1) BLOCK_LIM ltac:(lia)) as H2. rewrite H1 in H2. injection H2 as ->. lia.
Qed.

Lemma length_fill m b l :
  0 <= b <= l -> l <= Z.of_nat (length m) -> length (fill m b l) = length m.
Proof. intros. apply length_splice. rewrite length_replicate. lia. Qed.

Lemma fill_fill m b l h :
  0 <= b <= l -> l <= h -> h <= Z.of_nat (length m) -> fill (fill m b l) l h = fill m b h.
Proof.
  intros. unfold fill.
  replace (Z.to_nat l) with (Z.to_nat b + length (replicate (Z.to_nat (l - b)) 255%Z))%nat
    by (rewrite length_replicate; lia).
  rewrite splice_splice by (rewrite !length_replicate; lia).
  rewrite <- replicate_add. do 2 f_equal. lia.
Qed.

Lemma lookup_fill m b l j :
  0 <= b <= l -> l <= Z.of_nat (length m) -> b <= Z.of_nat j < l -> fill m b l !! j = Some 0xff.
Proof.
  intros. unfold fill. rewrite lookup_splice by (rewrite length_replicate; lia).
  rewrite length_replicate, decide_True by lia. apply lookup_replicate_2. lia.
Qed.

Lemma fill_nil m lo : fill m lo lo = m.
Proof. unfold fill. rewrite Z.sub_diag. apply splice_nil. Qed.

Lemma eraseblk_spec addr b l f :
  length (mem f) = Z.to_nat (size d) -> in_block d addr b l ->
  exists f', flash_eraseblk d fc wsz addr f = Some (0, f') /\ mem f' = fill (mem f) b l /\
    past f' = past f ++ [mem f].
Proof.
  intros Hm (Hb & Hl & He1 & He2 & Hblk). unfold flash_eraseblk.
  rewrite (proj2 (Z.leb_gt _ _)) by lia.
  rewrite (Hblk addr BLOCK_BASE), (Hblk addr BLOCK_LIM) by lia.
  set (f0 := match c_type fc with BSC => _ | _ => f end).
  assert (mem f0 = mem f /\ past f0 = past f) as [H0 P0] by (unfold f0; by destruct (c_type fc)).
  destruct (cmd_if_mem (pre_erase fc) None f0) as (f1 & -> & H1 & P1).
  destruct (cmd_if_mem (erase_block fc) (Some b) f1) as (f2 & -> & H2 & P2).
  destruct (scmd_if_mem (confirm fc) b f2) as [H3 P3].
  rewrite H3, H2, H1, H0. fold (fill (mem f) b l).
  assert (Hw : readword wsz (fill (mem f) b l) (Z.to_nat b) = Some (ones wsz)).
  { unfold readword, ones. rewrite (lookup_fill _ b l) by lia.
    destruct Hwsz as [-> | ->]; [done|]. cbn [Nat.eqb]. rewrite (lookup_fill _ b l); [done|lia|lia|].
    apply Zeven_bool_iff, Zeven_ex in He1 as [x ->]. apply Zeven_bool_iff, Zeven_ex in He2 as [y ->].
    lia. }
  unfold flash_poll. cbn [set_mem mem]. rewrite Hw, Z.eqb_refl.
  assert (Hr : forall f3, mem f3 = fill (mem f) b l -> past f3 = past f ++ [mem f] ->
    mem (flash_reset fc f3) = fill (mem f) b l /\ past (flash_reset fc f3) = past f ++ [mem f]).
  { intros f3 Hm3 Hp3. destruct (reset_mem f3) as [-> ->]. done. }
  destruct (type d); (eexists; split; [done|]; apply Hr; cbn; [done|by rewrite P3, P2, P1, P0, H3, H2, H1, H0]).
Qed.

Lemma erase_loop_spec fuel off end_ f :
  length (mem f) = Z.to_nat (size d) -> 0 <= off < end_ -> end_ <= size d ->
  end_ - off <= Z.of_nat fuel ->
  exists f' lo hi, erase_loop d fc wsz fuel off end_ f = Some (0, f') /\
    block d off BLOCK_BASE = Some lo /\ block d (end_ - 1) BLOCK_LIM = Some hi /\
    0 <= lo <= off /\ end_ <= hi <= size d /\ mem f' = fill (mem f) lo hi /\
    passes (partly_erased (mem f) lo hi) f f'.
Proof.
  revert off f. induction fuel as [|fuel IH]; intros off f Hm Ho He Hf; [lia|].
  cbn [erase_loop]. rewrite (proj2 (Z.ltb_lt _ _)) by lia.
  destruct (desc_ok_block d off Hd ltac:(lia)) as (b & l & Hin).
  destruct (eraseblk_spec off b l f Hm Hin) as (f1 & -> & Hm1 & Hp1). cbn [truthy negb Z.eqb].
  pose proof Hin as (Hb & Hl & _ & _ & Hblk). rewrite (Hblk off BLOCK_LIM) by lia.
  assert (Hfirst : forall hi, b <= hi -> passes (partly_erased (mem f) b hi) f f1).
  { intros hi Hhi. apply passes_one; [done|]. exists b. split; [lia|]. by rewrite fill_nil. }
  destruct (decide (l < end_)) as [Hlt|Hge].
  - destruct (next_block _ _ _ Hin ltac:(lia)) as (l' & Hin').
    destruct (IH l f1) as (f' & lo & hi & -> & Hlo & Hhi & Hr1 & Hr2 & Hm' & Hp');
      [rewrite Hm1, length_fill; lia|lia|lia|lia|].
    destruct Hin' as (_ & ? & _ & _ & Hblk').
    rewrite (Hblk' l BLOCK_BASE) in Hlo by lia. injection Hlo as <-.
    exists f', b, hi. rewrite (Hblk off BLOCK_BASE) by lia.
    split; [done|]. split; [done|]. split; [done|]. split; [lia|]. split; [done|]. split.
    + rewrite Hm', Hm1. apply fill_fill; lia.
    + apply (passes_trans _ _ f1); [apply Hfirst; lia|]. eapply passes_impl; [|exact Hp'].
      intros m (x & Hx & ->). exists x. split; [lia|]. rewrite Hm1. apply fill_fill; lia.
  - exists f1, b, l. rewrite (Hblk off BLOCK_BASE), (Hblk (end_ - 1) BLOCK_LIM) by lia.
    split; [destruct fuel; cbn [erase_loop]; by rewrite (proj2 (Z.ltb_ge _ _)) by lia|].
    split; [done|]. split; [done|]. split; [lia|]. split; [lia|]. split; [done|].
    apply Hfirst. lia.
Qed.

(** ** Programming *)

Lemma programmable_drop m off a b :
  programmable prog m off (a ++ b) -> (off + length a + length b <= length m)%nat ->
  programmable prog (splice m off a) (off + length a) b.
Proof.
  intros Hp Hlen i c Hi. destruct (Hp (length a + i)%nat c) as (old & Ho & Hpo).
  { rewrite lookup_app_r by lia. by replace (length a + i - length a)%nat with i by lia. }
  exists old. split; [|done]. rewrite lookup_splice by lia. rewrite decide_False by lia.
  by rewrite <- Nat.add_assoc.
Qed.

Lemma programmable_app_l m off a b : programmable prog m off (a ++ b) -> programmable prog m off a.
Proof. intros Hp i c Hi. apply (Hp i). by apply lookup_app_l_Some. Qed.

Lemma program_spec m off c :
  programmable prog m off [c] -> program prog m off c = Some (splice m off [c]).
Proof.
  intros Hp. destruct (Hp 0%nat c eq_refl) as (old & Ho & Hc). rewrite Nat.add_0_r in Ho.
  unfold program. rewrite Ho, Hc. f_equal. unfold splice. cbn [length]. rewrite Nat.add_1_r.
  apply insert_take_drop. by eapply lookup_lt_Some.
Qed.

Lemma program_two m off a b :
  programmable prog m off [a; b] -> (off + 2 <= length m)%nat ->
  (let? m := program prog m off a in program prog m (S off) b) = Some (splice m off [a; b]).
Proof.
  intros Hp Hl. rewrite program_spec by (by apply (programmable_app_l m off [a] [b])).
  pose proof (programmable_drop m off [a] [b] Hp) as Hp'. cbn [length] in Hp'.
  replace (S off) with (off + 1)%nat by lia. rewrite program_spec by (apply Hp'; lia).
  f_equal. apply (splice_splice m off [a] [b]). cbn. lia.
Qed.

(** A state partly through the rest of a write is partly through the whole. *)
Lemma partly_drop m off src n m' :
  (n <= length src)%nat -> (off + length src <= length m)%nat ->
  partly (splice m off (take n src)) (off + n) (drop n src) m' -> partly m off src m'.
Proof.
  intros Hn Hl (k & Hk & ->). rewrite length_drop in Hk. exists (n + k)%nat. split; [lia|].
  assert (length (take n src) = n) as Hlt by (rewrite length_take; lia).
  pose proof (splice_splice m off (take n src) (take k (drop n src))) as Hs.
  rewrite Hlt in Hs. rewrite Hs by (rewrite length_take, length_drop; lia).
  by rewrite take_take_drop.
Qed.

Lemma write_words_spec n off src f :
  programmable prog (mem f) off src -> length src = (2 * n)%nat ->
  (off + length src <= length (mem f))%nat ->
  exists f', write_words prog n (Z.of_nat off) src f = Some f' /\ mem f' = splice (mem f) off src /\
    passes (partly (mem f) off src) f f'.
Proof.
  revert off src f. induction n as [|n IH]; intros off src f Hp Hn Hl.
  { destruct src; [|done]. exists f. rewrite splice_nil. split; [done|]. split; [done|].
    by apply passes_none. }
  destruct src as [|a [|b src]]; cbn [length] in *; [lia|lia|].
  cbn [write_words]. rewrite Nat2Z.id.
  pose proof (program_two (mem f) off a b
    (programmable_app_l (mem f) off [a; b] src Hp) ltac:(lia)) as H2.
  destruct (program prog (mem f) off a) as [m1|]; [|done]. rewrite H2.
  replace (Z.of_nat off + 2) with (Z.of_nat (off + 2)) by lia.
  set (f1 := set_mem (splice (mem f) off [a; b]) (flash_writeword (Z.of_nat off) (a + 256 * b) f)).
  destruct (IH (off + 2)%nat src f1) as (f' & -> & Hm' & Hp').
  - apply (programmable_drop (mem f) off [a; b] src); [done|cbn; lia].
  - lia.
  - cbn [f1 set_mem mem]. rewrite length_splice by (cbn; lia). lia.
  - exists f'. split; [done|]. rewrite Hm'. split; [apply (splice_splice (mem f) off [a; b] src); cbn; lia|].
    apply (passes_trans _ _ f1); [apply passes_one; [done|apply partly_start]|].
    eapply passes_impl; [|exact Hp']. intros m. apply (partly_drop (mem f) off (a :: b :: src) 2); cbn; lia.
Qed.

Lemma word_bytes a b :
  byte_ok a -> byte_ok b ->
  Z.land (a + 256 * b) 0xff = a /\ Z.land (Z.shiftr (a + 256 * b) 8) 0xff = b.
Proof.
  unfold byte_ok. intros Ha Hb. change 0xff with (Z.ones 8).
  rewrite !Z.land_ones, Z.shiftr_div_pow2 by lia. change (2 ^ 8) with 256.
  rewrite Z.mul_comm, Z_mod_plus_full, Z.div_add, Z.div_small, Z.add_0_l by lia.
  by rewrite !Z.mod_small.
Qed.

(** One word on the bus: [wsz] bytes. *)
Lemma write_data_spec off chunk data f :
  programmable prog (mem f) off chunk -> length chunk = wsz -> Forall byte_ok chunk ->
  (off + length chunk <= length (mem f))%nat -> readword wsz chunk 0 = Some data ->
  exists f', write_data prog wsz (Z.of_nat off) data f = Some f' /\
    mem f' = splice (mem f) off chunk /\ readword wsz (mem f') off = Some data /\
    past f' = past f ++ [mem f].
Proof.
  intros Hp Hl Hok Hlen Hr. unfold write_data, readword in *. rewrite Nat2Z.id.
  destruct Hwsz as [Hw|Hw]; rewrite Hw in *; cbn [Nat.eqb] in *.
  - destruct chunk as [|a [|]]; try done. cbn in Hr. injection Hr as ->.
    inversion_clear Hok as [|? ? Ha _]. unfold byte_ok in Ha.
    assert (Z.land data 0xff = data) as ->
      by (change 0xff with (Z.ones 8); rewrite Z.land_ones by lia; by apply Z.mod_small).
    rewrite program_spec by done. eexists. split; [done|]. split; [done|]. split; [|done].
    cbn [set_mem mem]. rewrite lookup_splice by (cbn [length] in *; lia).
    rewrite decide_True by (cbn [length]; lia). by rewrite Nat.sub_diag.
  - destruct chunk as [|a [|b [|]]]; try done. cbn in Hr. injection Hr as <-.
    inversion_clear Hok as [|? ? Ha Hok']. inversion_clear Hok' as [|? ? Hb _].
    destruct (word_bytes a b Ha Hb) as [-> ->]. cbn [length] in Hlen.
    pose proof (program_two (mem f) off a b Hp Hlen) as H2.
    destruct (program prog (mem f) off a) as [m1|]; [|done]. rewrite H2.
    eexists. split; [done|]. split; [done|]. split; [|done]. cbn [set_mem mem].
    rewrite !lookup_splice by (cbn [length]; lia).
    rewrite !decide_True by (cbn [length]; lia). rewrite Nat.sub_diag.
    by replace (S off - off)%nat with 1%nat by lia.
Qed.

Lemma readword_chunk src :
  (wsz <= length src)%nat -> exists data, readword wsz src 0 = Some data /\
    readword wsz (take wsz src) 0 = Some data.
Proof.
  intros Hl. unfold readword. destruct Hwsz as [Hw|Hw]; rewrite Hw in *; cbn [Nat.eqb].
  - destruct src; [cbn in Hl; lia|]. by eexists.
  - destruct src as [|a [|b]]; cbn in Hl; try lia. by eexists.
Qed.

Lemma write_loop_spec fuel off src f :
  programmable prog (mem f) off src -> Forall byte_ok src -> (length src < fuel)%nat ->
  (off + length src <= length (mem f))%nat ->
  Nat.Even (off + length src) -> (wsz = 2%nat -> Nat.Even off) ->
  exists f', write_loop prog d fc wsz fuel (Z.of_nat off) src f = Some (0, f') /\
    mem f' = splice (mem f) off src /\ passes (partly (mem f) off src) f f'.
Proof.
  revert off src f. induction fuel as [|fuel IH]; intros off src f Hp Hok Hf Hl He Hw2; [lia|].
  cbn [write_loop]. destruct src as [|c0 src0] eqn:Esrc; 
    [exists f; rewrite splice_nil; split; [done|]; split; [done|by apply passes_none]|].
  rewrite <- Esrc in *. assert (0 < length src)%nat by (rewrite Esrc; cbn; lia).
  assert (Hstep : forall n f1, (0 < n <= length src)%nat -> (wsz = 2%nat -> Nat.Even n) ->
    mem f1 = splice (mem f) off (take n src) -> passes (partly (mem f) off src) f f1 ->
    exists f', write_loop prog d fc wsz fuel (Z.of_nat off + Z.of_nat n) (drop n src) f1 = Some (0, f') /\
      mem f' = splice (mem f) off src /\ passes (partly (mem f) off src) f f').
  { intros n f1 Hn Hev Hm1 Hp1. rewrite <- Nat2Z.inj_add.
    assert (Hlt : length (take n src) = n) by (rewrite length_take; lia).
    assert (Hl1 : length (mem f1) = length (mem f)) by (rewrite Hm1; apply length_splice; lia).
    pose proof Hok as Hok'. rewrite (Forall_take_drop _ n) in Hok'. destruct Hok' as [_ Hokd].
    destruct (IH (off + n)%nat (drop n src) f1) as (f' & -> & Hm' & Hp').
    - pose proof (programmable_drop (mem f) off (take n src) (drop n src)) as Hdrop.
      rewrite take_drop, Hlt in Hdrop. rewrite Hm1. apply Hdrop; [done|]. rewrite length_drop. lia.
    - done.
    - rewrite length_drop. lia.
    - rewrite Hl1, length_drop. lia.
    - rewrite length_drop. by replace (off + n + (length src - n))%nat with (off + length src)%nat by lia.
    - intros Hw. destruct (Hw2 Hw) as [y Hy]. destruct (Hev Hw) as [z Hz]. exists (y + z)%nat. lia.
    - exists f'. split; [done|]. rewrite Hm', Hm1.
      pose proof (splice_splice (mem f) off (take n src) (drop n src)) as Hss.
      rewrite take_drop, Hlt in Hss. split; [apply Hss; rewrite length_drop; lia|].
      apply (passes_trans _ _ f1); [done|]. eapply passes_impl; [|exact Hp'].
      intros m Hx. rewrite Hm1 in Hx. apply (partly_drop _ _ _ n); [lia|lia|done]. }
  destruct (bool_decide (type d = SCS) && truthy (write_buf fc) &&
            (Z.land (Z.of_nat off) (WBUFSIZE - 1) =? 0)) eqn:Escs.
  - apply andb_prop in Escs as [_ Eoff]. apply Z.eqb_eq in Eoff.
    destruct (cmd_mem (write_buf fc) (Some (Z.of_nat off)) f) as (f1 & -> & G1 & P1).
    destruct (cmd_mem (wrap16 (Z.of_nat (Nat.min (length src) (Z.to_nat WBUFSIZE) / 2) - 1))
      (Some (Z.of_nat off)) f1) as (f2 & -> & G2 & P2).
    set (n := Nat.min (length src) (Z.to_nat WBUFSIZE)).
    assert (Hoff : Nat.Even off).
    { change (WBUFSIZE - 1) with (Z.ones 5) in Eoff. rewrite Z.land_ones in Eoff by lia.
      apply Z.mod_divide in Eoff as [x Hx]; [|lia]. exists (Z.to_nat (16 * x)). lia. }
    assert (Hn : Nat.Even n).
    { destruct He as [x Hx]. destruct Hoff as [y Hy]. unfold n.
      destruct (Nat.min_spec (length src) (Z.to_nat WBUFSIZE)) as [[_ ->]|[_ ->]];
        [exists (x - y)%nat; lia|by exists 16%nat]. }
    pose proof Hn as [k Hk]. assert (n <= length src)%nat by (unfold n; lia).
    assert (((n + 1) / 2)%nat = k) as ->.
    { rewrite Hk, Nat.mul_comm, Nat.div_add_l by lia. cbn. lia. }
    assert (Hww : exists f3, write_words prog k (Z.of_nat off) src f2 = Some f3 /\
      mem f3 = splice (mem f) off (take n src) /\ passes (partly (mem f) off (take n src)) f f3).
    { assert (Htake : forall k off s f, write_words prog k off s f
        = write_words prog k off (take (2 * k) s) f).
      { induction k0 as [|k0 IHk]; intros o s g; [done|].
        replace (2 * S k0)%nat with (S (S (2 * k0))) by lia.
        destruct s as [|a [|b s]]; [done..|]. cbn [write_words take].
        destruct (program prog (mem g) (Z.to_nat o) a) as [m1|]; [|done].
        destruct (program prog m1 (S (Z.to_nat o)) b); [apply IHk|done]. }
      rewrite Htake, <- Hk.
      destruct (write_words_spec k off (take n src) f2) as (f3 & -> & G3 & P3).
      - rewrite G2, G1. apply (programmable_app_l _ _ _ (drop n src)). by rewrite take_drop.
      - rewrite length_take. lia.
      - rewrite G2, G1, length_take. lia.
      - exists f3. rewrite G2, G1 in G3, P3. split; [done|]. split; [done|].
        destruct P3 as (l & P3 & Hl3). exists l. by rewrite P3, P2, P1. }
    destruct Hww as (f3 & -> & G3 & P3).
    destruct (cmd_if_mem (confirm fc) (Some (Z.of_nat off)) f3) as (f4 & -> & G4 & P4).
    apply Hstep; [unfold n, WBUFSIZE; lia|done|by rewrite G4, G3|].
    destruct P3 as (l & P3 & Hl3). exists l. rewrite P4. split; [done|].
    eapply Forall_impl; [exact Hl3|]. intros m (j & Hj & ->). rewrite length_take in Hj.
    exists j. split; [lia|]. rewrite take_take. f_equal. f_equal. lia.
  - clear Escs. destruct (cmd_if_mem (write_word fc) None f) as (f1 & -> & H1 & P1).
    assert (Hws : (wsz <= length src)%nat).
    { destruct Hwsz as [-> | ->]; [lia|]. destruct (Hw2 ltac:(done)) as [y Hy].
      destruct He as [x Hx]. lia. }
    destruct (readword_chunk src Hws) as (data & -> & Hr).
    pose proof Hok as Hok'. rewrite (Forall_take_drop _ wsz) in Hok'.
    destruct (write_data_spec off (take wsz src) data f1) as (f2 & -> & H2 & Hr2 & P2).
    + rewrite H1. apply (programmable_app_l _ _ _ (drop wsz src)). by rewrite take_drop.
    + rewrite length_take. lia.
    + tauto.
    + rewrite H1, length_take. lia.
    + done.
    + assert (Hpoll : flash_poll d wsz (Z.to_nat (Z.of_nat off)) data f2 = Some 0).
      { unfold flash_poll. rewrite Nat2Z.id, Hr2, Z.eqb_refl. by destruct (type d). }
      rewrite Hpoll. cbn [truthy negb Z.eqb].
      rewrite Nat.min_r by lia. apply Hstep; [destruct Hwsz; lia| |by rewrite H2, H1|].
      * intros ->. by exists 1%nat.
      * apply passes_one; [by rewrite P2, P1, H1|apply partly_start].
Qed.


Lemma flash_write_spec off src f :
  length (mem f) = Z.to_nat (size d) -> (Z.of_nat (off + length src) <= size d) -> src <> [] ->
  programmable prog (mem f) off src -> Forall byte_ok src ->
  Nat.Even off -> Nat.Even (length src) ->
  exists f', flash_write prog d fc wsz (Z.of_nat off) src f = Some (0, f') /\
    mem f' = splice (mem f) off src /\ passes (partly (mem f) off src) f f'.
Proof.
  intros Hm Hs Hne Hp Hok [x Hx] [y Hy]. assert (length src <> 0%nat) by (by destruct src).
  unfold flash_write. rewrite (proj2 (Z.leb_gt _ _)) by lia.
  assert (Hal : (Z.land (Z.of_nat off) (Z.of_nat wsz - 1) =? 0) = true).
  { apply Z.eqb_eq. destruct Hwsz as [-> | ->]; [apply Z.land_0_r|].
    change (Z.of_nat 2 - 1) with (Z.ones 1). rewrite Z.land_ones by lia.
    apply Z.mod_divide; [lia|]. exists (Z.of_nat x). lia. }
  rewrite Hal. destruct (write_loop_spec (S (length src)) off src f) as (f1 & -> & H1 & P1);
    [done|done|lia|lia|exists (x + y)%nat; lia|intros _; by exists x|].
  eexists. split; [done|]. destruct (reset_mem f1) as [G Q]. rewrite G. split; [done|].
  destruct P1 as (l & P1 & Hl). exists l. by rewrite Q.
Qed.

(** Erasing and writing: the blocks of the range, and nothing else. *)
Lemma sysFlashWrite_spec off src f :
  prog_ok prog -> length (mem f) = Z.to_nat (size d) -> (Z.of_nat (off + length src) <= size d) ->
  src <> [] -> Forall byte_ok src -> Nat.Even off -> Nat.Even (length src) ->
  exists f' lo hi, sysFlashWrite prog d fc wsz (Z.of_nat off) src f = Some (true, f') /\
    block d (Z.of_nat off) BLOCK_BASE = Some lo /\
    block d (Z.of_nat (off + length src) - 1) BLOCK_LIM = Some hi /\
    0 <= lo <= Z.of_nat off /\ Z.of_nat (off + length src) <= hi <= size d /\
    mem f' = splice (fill (mem f) lo hi) off src /\
    passes (fun m => partly_erased (mem f) lo hi m \/ partly (fill (mem f) lo hi) off src m) f f'.
Proof.
  intros [Hp1 _] Hm Hs Hne Hok He1 He2. assert (length src <> 0%nat) by (by destruct src).
  unfold sysFlashWrite, sysFlashErase.
  destruct (erase_loop_spec (length src) (Z.of_nat off) (Z.of_nat off + Z.of_nat (length src)) f)
    as (f1 & lo & hi & -> & Hlo & Hhi & Hr1 & Hr2 & Hm1 & Q1); [done|lia|lia|lia|].
  cbn [Z.eqb negb].
  assert (Hl1 : length (mem f1) = length (mem f)) by (rewrite Hm1; apply length_fill; lia).
  destruct (flash_write_spec off src f1) as (f2 & -> & Hm2 & Q2); try done; [by rewrite Hl1| |].
  { intros i c Hi. pose proof (lookup_lt_Some _ _ _ Hi).
    exists 0xff. rewrite Hm1, lookup_fill by lia. split; [done|]. apply Hp1.
    eapply (proj1 (Forall_lookup _ _) Hok); eauto. }
  exists f2, lo, hi. rewrite Nat2Z.inj_add. split; [done|]. split; [done|].
  split; [done|]. split; [done|]. split; [lia|]. rewrite Hm2, Hm1. split; [done|].
  rewrite Hm1 in Q2. apply (passes_trans _ _ f1);
    (eapply passes_impl; [|eassumption]); intros m Hx; [by left|by right].
Qed.

End Proofs.

Lemma flashes_ok d : d ∈ flashes -> desc_ok d = true.
Proof.
  intros Hd. assert (forallb desc_ok flashes = true) as H by (vm_compute; reflexivity).
  rewrite forallb_forall in H. by apply H, list_elem_of_In.
Qed.

Lemma flash_cmds_ok fc : fc ∈ flash_cmds -> cmds_ok fc.
Proof.
  unfold flash_cmds, cmds_ok. rewrite !elem_of_cons. intros [->|[->|[->|[->|H]]]]; cbn; auto; try done.
  by apply not_elem_of_nil in H.
Qed.

(** * Properties *)

(** On every chip of the table [block] cuts the chip into blocks: each address below
    the size lies in exactly one, the same whichever address of it is asked, and the
    blocks leave no gap. *)
Theorem flash_geometry d addr :
  d ∈ flashes -> 0 <= addr < size d ->
  exists b l, in_block d addr b l /\
    (l = size d \/ exists l', in_block d l l l').
Proof.
  intros Hd Ha. apply flashes_ok in Hd.
  destruct (desc_ok_block d addr Hd Ha) as (b & l & Hin). exists b, l. split; [done|].
  destruct (decide (l = size d)); [by left|]. right.
  apply (next_block d Hd addr b l); [done|]. destruct Hin as (_ & ? & _). lia.
Qed.

Definition ex_chip : flash_desc_t := nth 24 flashes (Desc 0 0 0 0 OLD 0 0 0 0 0 [] "").

Lemma ex_chip_in : ex_chip ∈ flashes.
Proof. apply list_elem_of_In, nth_In. vm_compute. lia. Qed.

(** An address in the 8 KB sub-blocks at the top of an AMD 29lv320DT. *)
Lemma flash_geometry_witness :
  exists b l, in_block ex_chip 0x3fa123 b l /\
    (l = size ex_chip \/ exists l', in_block ex_chip l l l').
Proof. apply (flash_geometry ex_chip 0x3fa123 ex_chip_in). vm_compute. split; congruence. Defined.

(** [sysFlashWrite] erases exactly the blocks that the range touches and leaves the
    source bytes in the range, on every chip and command set of the tables, on 8 and
    16-bit buses, by words or through the write buffer; the erase and the write loop
    terminate. *)
Theorem sysFlashWrite_writes prog d fc wsz off src f :
  d ∈ flashes -> fc ∈ flash_cmds -> wsz_ok wsz -> prog_ok prog ->
  length (mem f) = Z.to_nat (size d) -> (Z.of_nat (off + length src) <= size d) ->
  src <> [] -> Forall byte_ok src -> Nat.Even off -> Nat.Even (length src) ->
  exists f' lo hi, sysFlashWrite prog d fc wsz (Z.of_nat off) src f = Some (true, f') /\
    block d (Z.of_nat off) BLOCK_BASE = Some lo /\
    block d (Z.of_nat (off + length src) - 1) BLOCK_LIM = Some hi /\
    take (length src) (drop off (mem f')) = src /\
    (forall i, Z.of_nat i < lo \/ hi <= Z.of_nat i -> mem f' !! i = mem f !! i) /\
    (forall i, lo <= Z.of_nat i < hi -> (i < off \/ off + length src <= i)%nat ->
       mem f' !! i = Some 0xff).
Proof.
  intros Hd Hfc Hw Hprog Hm Hs Hne Hok He1 He2.
  destruct (sysFlashWrite_spec prog d fc wsz (flashes_ok _ Hd) (flash_cmds_ok _ Hfc) Hw off src f)
    as (f' & lo & hi & Hrun & Hlo & Hhi & Hr1 & Hr2 & Hmem & _); try done.
  exists f', lo, hi. split; [done|]. split; [done|]. split; [done|].
  assert (Hlf : length (fill (mem f) lo hi) = length (mem f)) by (apply length_fill; lia).
  assert (Hfit : (off + length src <= length (fill (mem f) lo hi))%nat) by lia.
  rewrite Hmem. split; [|split].
  - unfold splice. rewrite drop_app_length' by (rewrite length_take; lia).
    by rewrite take_app_length.
  - intros i Hi. rewrite lookup_splice, decide_False by lia. unfold fill.
    rewrite lookup_splice by (rewrite length_replicate; lia).
    rewrite length_replicate, decide_False by lia. done.
  - intros i Hi Hout. rewrite lookup_splice, decide_False by lia. apply lookup_fill; lia.
Qed.

(** Programming a NOR flash clears bits. *)
Lemma land_prog_ok : prog_ok Z.land.
Proof.
  split; [|intros old _; apply Z.land_0_r]. unfold byte_ok. intros c Hc.
  change 0xff with (Z.ones 8). rewrite Z.land_comm, Z.land_ones by lia. by apply Z.mod_small.
Qed.

Definition ex_cmds : flash_cmds_t := nth 2 flash_cmds (Cmds OLD false 0 0 0 0 0 0 0 0 0 0).

Lemma ex_cmds_in : ex_cmds ∈ flash_cmds.
Proof. apply list_elem_of_In, nth_In. vm_compute. lia. Qed.

(** Two bytes in a sub-block: the 8 KB from 0x3f8000 to 0x3fa000 are erased. *)
Lemma sysFlashWrite_writes_witness :
  let f := Flash (replicate (Z.to_nat (size ex_chip)) 0) [] [] in
  exists f', sysFlashWrite Z.land ex_chip ex_cmds 2 (Z.of_nat (Z.to_nat 0x3f8000)) [1; 2] f = Some (true, f') /\
    take 2 (drop (Z.to_nat 0x3f8000) (mem f')) = [1; 2] /\
    mem f' !! Z.to_nat 0x3fa000 = Some 0.
Proof.
  intros f.
  destruct (sysFlashWrite_writes Z.land ex_chip ex_cmds 2 (Z.to_nat 0x3f8000) [1; 2] f)
    as (f' & lo & hi & Hrun & Hlo & Hhi & Htake & Hout & _).
  - exact ex_chip_in.
  - exact ex_cmds_in.
  - right. reflexivity.
  - exact land_prog_ok.
  - apply length_replicate.
  - rewrite Nat2Z.inj_add, Z2Nat.id by lia. vm_compute. congruence.
  - discriminate.
  - unfold byte_ok. repeat (constructor; [lia|]). constructor.
  - exists (Z.to_nat 0x1fc000). lia.
  - exists 1%nat. reflexivity.
  - exists f'. split; [exact Hrun|]. split; [exact Htake|].
    rewrite Hout.
    + apply lookup_replicate_2. apply Z2Nat.inj_lt; [lia|vm_compute; congruence|reflexivity].
    + right. rewrite Z2Nat.id by lia. rewrite Nat2Z.inj_add, Z2Nat.id in Hhi by lia.
      vm_compute in Hhi. injection Hhi as <-. lia.
Defined.
