(* ===== verification/NvramFlash.v ===== *)
(** The variable store on the flash: shared/nvram/nvram_rw.c.

    [nvram_commit] writes the image of [Nvram.v]; [find_nvram], [nvram_init] and [_nvram_read]
    find it and read it back.  The file is compiled in two ways, and both are here: with
    _CFE_, as a part of the boot loader, it writes with the calls of the flash device and has
    an image of its own; without it, in the driver library, it writes with [Flash.v]. *)

From Stdlib Require Import ZArith Lia Bool List String Ascii.
From stdpp Require Import base numbers list gmap.
From S2P Require Import Prelude CString Crc NvramPort Nvram Flash.

#[local] Open Scope Z_scope.

Definition NVRAM_CLEAR_MAGIC := 0x0.
Definition NVRAM_INVALID_MAGIC := 0xFFFFFFFF.

(** [struct nvram_header] in memory (little-endian), and read from it. *)
Definition header_bytes (h : nvram_header) : bytes :=
  le_bytes 4 (h_magic h) ++ le_bytes 4 (h_len h) ++ le_bytes 4 (h_crc_ver_init h) ++
  le_bytes 4 (h_config_refresh h) ++ le_bytes 4 (h_config_ncdl h).
Definition image_bytes (img : image) : bytes := header_bytes (i_hdr img) ++ i_data img.

Definition word_at (b : bytes) (i : nat) : Z := le_value (take 4 (drop i b)).

Definition header_of (b : bytes) : nvram_header :=
  Header (word_at b 0) (word_at b 4) (word_at b 8) (word_at b 12) (word_at b 16).
Definition image_of (b : bytes) : image :=
  Image (header_of b) (take DATA_SIZE (drop 20 b)).

Definition set_magic (m : Z) (img : image) : image :=
  let h := i_hdr img in
  Image (Header m (h_len h) (h_crc_ver_init h) (h_config_refresh h) (h_config_ncdl h)) (i_data img).

(** * Reading *)

(** [_nvram_read]: [header] is what [nvram_header] points at, [buf] the caller's
    buffer.  Data is copied in words while the offset is below both bounds; the byte order
    macros do nothing on this machine. *)
Definition _nvram_read (header : option image) (buf : image) : Z * image :=
  match header with
  | None => (-19, buf)
  | Some src =>
      let n := Z.to_nat (ROUNDUP (Z.min (h_len (i_hdr src)) NVRAM_SPACE - NVRAM_HEADER_SIZE) 4) in
      (0, Image (i_hdr src) (take n (i_data src) ++ drop n (i_data buf)))
  end.

Definition FLASH_MIN := 0x20000.
Definition SB_FLASH1 := 0x1fc00000.
Definition SB_FLASH1_SZ := 0x400000.
Definition SB_FLASH2 := 0x1c000000.
Definition SB_FLASH2_SZ := 0x2000000.

(** The search from [off] up to [lim] for an image that passes [test]; [off] doubles. *)
Fixpoint find_loop (test : Z -> bool) (fuel : nat) (flash_base off lim : Z) : option (option Z) :=
  if off <=? lim then
    match fuel with
    | O => None
    | Datatypes.S fuel =>
        let a := flash_base + off - NVRAM_SPACE in
        if test a then Some (Some a) else find_loop test fuel flash_base (Z.shiftl off 1) lim
    end
  else Some None.

(** What the build with _CFE_ adds: the array [embedded_nvram], and the calls of the device
    "flash0.nvram".  A device may write more than it is asked to, or nothing. *)
Record cfe_build := Cfe {
  embedded_nvram : bytes;
  cfe_open : flash -> Z;
  cfe_writeblk : Z -> Z -> bytes -> flash -> Z * flash;
  cfe_close : Z -> flash -> flash
}.

(** A pointer to a header: into the address space, or to [embedded_nvram]. *)
Inductive nvh_ptr := AtAddr (a : Z) | Embedded.

Section Rw.
Context {S : Type} `{Port S}.
(** The bytes of the address space from an address on. *)
Variable at_addr : Z -> bytes.
(** The build with _CFE_, or [None] for the one without. *)
Variable cfe : option cfe_build.
Variable stack : Z.

Definition is_magic (b : bytes) : bool := h_magic (i_hdr (image_of b)) =? NVRAM_MAGIC.
Definition has_magic (a : Z) : bool := is_magic (at_addr a).

(** The header found, and [*isemb]. *)
Definition find_nvram (flash_base : Z) (embonly : bool) : option (option nvh_ptr * bool) :=
  let? nvh := if embonly then Some None
              else find_loop has_magic 32 flash_base FLASH_MIN
                     (if flash_base =? SB_FLASH1 then SB_FLASH1_SZ else SB_FLASH2_SZ) in
  match nvh with
  | Some a => Some (Some (AtAddr a), false)
  | None =>
      if has_magic (flash_base + 4 * 1024) then Some (Some (AtAddr (flash_base + 4 * 1024)), true)
      else if has_magic (flash_base + 1024) then Some (Some (AtAddr (flash_base + 1024)), true)
      else
        match cfe with
        | Some e => if is_magic (embedded_nvram e) then Some (Some Embedded, true) else Some (None, true)
        | None => Some (None, true)
        end
  end.

Definition header_at (p : option nvh_ptr) : option image :=
  match p with
  | Some (AtAddr a) => Some (image_of (at_addr a))
  | Some Embedded => (fun e => image_of (embedded_nvram e)) <$> cfe
  | None => None
  end.

(** The GPIO of the reset button, or -1. *)
Definition nvram_resetgpio_init (nv : nvram S) : Z :=
  match _nvram_get nv (str "reset_gpio") with
  | None => -1
  | Some value => let gpio := bcm_atoi value in if 7 <? gpio then -1 else gpio
  end.

(** [gpioin k] is the [k]-th read of the inputs. *)
Definition nvram_reset (nv : nvram S) (gpioin : nat -> Z) : bool :=
  let gpio := nvram_resetgpio_init nv in
  if gpio <? 0 then false
  else forallb (fun msec => negb (truthy (Z.land (gpioin msec) (wrap32 (Z.shiftl 1 gpio)))))
         (seq 0 5000).

(** [chipcommon] tells whether the core was found; [mem1] and [mem2] are the results of
    the two allocations. *)
Definition nvram_init (nv : nvram S) (chipcommon : bool) (gpioin : nat -> Z)
    (mem1 mem2 : option image) : option (Z * nvram S) :=
  let flash_base := if chipcommon then SB_FLASH2 else SB_FLASH1 in
  let? (hdr, _) := find_nvram flash_base true in
  let? (ret, nv) := _nvram_init stack nv mem1 (_nvram_read (header_at hdr)) in
  if (ret =? 0) && nvram_reset nv gpioin then Some (1, nv)
  else
    let? nv := if ret =? 0 then _nvram_exit nv else Some nv in
    let? (hdr, isemb) := find_nvram flash_base false in
    let? (ret, nv) := _nvram_init stack nv mem2 (_nvram_read (header_at hdr)) in
    Some (match hdr with
          | Some _ => if (ret =? 0) && isemb then 1 else ret
          | None => ret
          end, nv).

(** * Writing *)

Variable prog : Z -> Z -> Z.
Variable d : flash_desc_t.
Variable fc : flash_cmds_t.
Variable wsz : nat.

(** The three writes: no magic, the image with an invalid magic, the magic. *)
Definition write_image (img : image) (f : flash) : option flash :=
  let? f := nvWriteChars prog d fc wsz (le_bytes 4 NVRAM_CLEAR_MAGIC) f in
  let? f := nvWrite prog d fc wsz (image_bytes (set_magic NVRAM_INVALID_MAGIC img)) f in
  nvWriteChars prog d fc wsz (le_bytes 4 NVRAM_MAGIC) f.

(** [mem] is the address of the block from [MALLOC], [found] whether [sysFlashInit] knows
    the chip.  The boot loader returns the handle of the device, and does not look at what
    writing returns. *)
Definition nvram_commit (nv : nvram S) (mem : option Z) (found : bool) (f : flash)
    : option (Z * nvram S * flash) :=
  match mem with
  | None => Some (-12, nv, f)
  | Some header =>
      let? (img, nv) := _nvram_commit stack nv (header + NVRAM_HEADER_SIZE) in
      match cfe with
      | Some e =>
          let ret := cfe_open e f in
          if 0 <=? ret then
            let '(_, f) := cfe_writeblk e ret 0 (take (Z.to_nat (h_len (i_hdr img))) (image_bytes img)) f in
            Some (ret, nv, cfe_close e ret f)
          else Some (ret, nv, f)
      | None =>
          if found then let? f := write_image img f in Some (0, nv, f)
          else Some (0, nv, f)
      end
  end.

End Rw.

(** * Specification vocabulary *)

(** The variable area at the end of the chip. *)
Definition nv_off (d : flash_desc_t) : nat := Z.to_nat (size d - NV_SIZE).
Definition nv_area (d : flash_desc_t) (m : bytes) : bytes := drop (nv_off d) m.

(** What [find_nvram] takes for an image. *)
Definition valid_at (off : nat) (m : bytes) : Prop :=
  h_magic (i_hdr (image_of (drop off m))) = NVRAM_MAGIC.
Definition valid (d : flash_desc_t) (m : bytes) : Prop := valid_at (nv_off d) m.

(** The states a commit may leave when it is cut short: the old contents, contents
    without a valid image, or the new contents. *)
Definition crash_states (d : flash_desc_t) (old new m : bytes) : Prop :=
  m = old \/ ~ valid d m \/ m = new.

(** The chip in the address space, from [base] on. *)
Definition rom (base : Z) (m : bytes) (a : Z) : bytes := drop (Z.to_nat (a - base)) m.

(** No magic where [find_nvram] looks before it comes to the end of the chip, nor where an
    embedded image would be. *)
Definition no_other_magic (base : Z) (d : flash_desc_t) (m : bytes) : Prop :=
  (forall x, 17 <= x -> 2 ^ x < size d -> has_magic (rom base m) (base + 2 ^ x - NVRAM_SPACE) = false) /\
  has_magic (rom base m) (base + 4 * 1024) = false /\ has_magic (rom base m) (base + 1024) = false.

(** The documented behaviour of the boot loader's flash device: it opens, and writes what it
    is given to its partition, the last [NVRAM_SPACE] bytes of the chip; and an
    [embedded_nvram] as the sources have it, without the magic. *)
Record cfe_laws (d : flash_desc_t) (e : cfe_build) : Prop := {
  law_open f : 0 <= cfe_open e f;
  law_write f data : length (mem f) = Z.to_nat (size d) -> Z.of_nat (length data) <= NVRAM_SPACE ->
    mem (cfe_close e (cfe_open e f) (cfe_writeblk e (cfe_open e f) 0 data f).2) = splice (mem f) (nv_off d) data;
  law_embedded : is_magic (embedded_nvram e) = false
}.

(** * Lemmas *)

Lemma word_at_bytes a x b i :
  length a = i -> 0 <= x < 2 ^ 32 -> word_at (a ++ le_bytes 4 x ++ b) i = x.
Proof.
  intros Hi Hx. unfold word_at. rewrite drop_app_length' by done.
  rewrite take_app_length' by (by rewrite length_le_bytes). by apply le_value_le_bytes.
Qed.

(** Reading back what was laid out. *)
Lemma image_of_header h rest :
  header_u32 h -> image_of (header_bytes h ++ rest) = Image h (take DATA_SIZE rest).
Proof.
  destruct h as [a b c e g]. unfold header_u32.
  cbn [h_magic h_len h_crc_ver_init h_config_refresh h_config_ncdl].
  rewrite !Forall_cons. intros (Ha & Hb & Hc & He & Hg & _).
  unfold image_of, header_of, header_bytes.
  cbn [h_magic h_len h_crc_ver_init h_config_refresh h_config_ncdl].
  rewrite <- !app_assoc. f_equal. f_equal.
  - by apply (word_at_bytes []).
  - by apply (word_at_bytes (le_bytes 4 a)).
  - rewrite app_assoc. by apply (word_at_bytes (le_bytes 4 a ++ le_bytes 4 b)).
  - rewrite app_assoc, app_assoc.
    by apply (word_at_bytes ((le_bytes 4 a ++ le_bytes 4 b) ++ le_bytes 4 c)).
  - rewrite app_assoc, app_assoc, app_assoc.
    by apply (word_at_bytes (((le_bytes 4 a ++ le_bytes 4 b) ++ le_bytes 4 c) ++ le_bytes 4 e)).
Qed.

Lemma image_of_bytes img rest :
  header_u32 (i_hdr img) -> length (i_data img) = DATA_SIZE ->
  image_of (image_bytes img ++ rest) = img.
Proof.
  destruct img as [h data]. cbn [i_hdr i_data]. intros Hu Hl. unfold image_bytes.
  cbn [i_hdr i_data]. rewrite <- app_assoc, image_of_header by done.
  by rewrite take_app_length'.
Qed.

Lemma length_image_bytes img :
  length (i_data img) = DATA_SIZE -> Z.of_nat (length (image_bytes img)) = NV_SIZE.
Proof.
  intros Hl. unfold image_bytes. rewrite length_app, Hl.
  change (length (header_bytes (i_hdr img))) with 20%nat.
  pose proof DATA_SIZE_Z. unfold NV_SIZE. lia.
Qed.

Lemma fill_splice m off src lo hi :
  0 <= lo <= Z.of_nat off -> Z.of_nat (off + length src) <= hi <= Z.of_nat (length m) ->
  fill (splice m off src) lo hi = fill m lo hi.
Proof.
  intros H1 H2. unfold fill. apply list_eq. intros j.
  rewrite !lookup_splice by (rewrite ?length_splice, ?length_replicate; lia).
  rewrite length_replicate. repeat case_decide; try done. lia.
Qed.

Lemma fill_ok m lo hi : Forall byte_ok m -> Forall byte_ok (fill m lo hi).
Proof.
  intros. apply Forall_splice; [done|]. apply Forall_replicate. unfold byte_ok. lia.
Qed.

(** One byte of the magic gives an invalid image away. *)
Lemma not_magic m off i c :
  Forall byte_ok m -> (off + 4 <= length m)%nat ->
  (i < 4)%nat -> m !! (off + i)%nat = Some c -> le_bytes 4 NVRAM_MAGIC !! i <> Some c ->
  ~ valid_at off m.
Proof.
  intros Hok Hl Hi Hm Hne Hv. apply Hne. unfold valid_at in Hv.
  change (word_at (drop off m) 0 = NVRAM_MAGIC) in Hv. unfold word_at in Hv.
  rewrite <- (le_value_le_bytes 4 NVRAM_MAGIC) in Hv by (vm_compute; split; congruence).
  apply le_value_inj in Hv.
  - rewrite <- Hv, lookup_take_lt, drop_0, lookup_drop by done. done.
  - apply Forall_take, Forall_drop, Forall_drop, Hok.
  - apply le_bytes_ok.
  - rewrite length_take, !length_drop, length_le_bytes. lia.
Qed.

Lemma splice_first m off (src : bytes) c k :
  head src = Some c -> (0 < k)%nat -> (off + length (take k src) <= length m)%nat ->
  splice m off (take k src) !! off = Some c.
Proof.
  intros Hh Hk Hl. destruct src as [|x src]; [done|]. injection Hh as ->.
  destruct k as [|k]; [lia|]. cbn [take] in *. rewrite lookup_splice by done.
  rewrite decide_True by (cbn; lia). by rewrite Nat.sub_diag.
Qed.

(** ** The three writes *)

Section Write.
Variable prog : Z -> Z -> Z.
Variable d : flash_desc_t.
Variable fc : flash_cmds_t.
Variable wsz : nat.
Hypothesis Hd : d ∈ flashes.
Hypothesis Hfc : fc ∈ flash_cmds.
Hypothesis Hwsz : wsz_ok wsz.
Hypothesis Hprog : prog_ok prog.

Lemma nv_off_Z : Z.of_nat (nv_off d) = size d - NV_SIZE /\ Nat.Even (nv_off d).
Proof.
  assert (forallb (fun d => (NV_SIZE <=? size d) && Z.even (size d)) flashes = true) as H
    by (vm_compute; reflexivity).
  rewrite forallb_forall in H. specialize (H d (proj1 (list_elem_of_In _ _) Hd)).
  apply andb_prop in H as [H1 H2]. apply Z.leb_le in H1. unfold nv_off.
  split; [by apply Z2Nat.id; lia|].
  apply Zeven_bool_iff, Zeven_ex in H2 as [x Hx]. unfold NV_SIZE in *.
  exists (Z.to_nat (x - 0x4000)). lia.
Qed.

Lemma clear_magic f :
  length (mem f) = Z.to_nat (size d) -> Forall byte_ok (mem f) ->
  exists f', nvWriteChars prog d fc wsz (le_bytes 4 NVRAM_CLEAR_MAGIC) f = Some f' /\
    mem f' = splice (mem f) (nv_off d) [0; 0; 0; 0] /\
    passes (fun m => m = mem f \/ ~ valid d m) f f'.
Proof.
  intros Hm Hbytes. destruct nv_off_Z as [Hoff Heven]. unfold nvWriteChars. rewrite <- Hoff.
  change (le_bytes 4 NVRAM_CLEAR_MAGIC) with [0; 0; 0; 0].
  assert (Hl : (nv_off d + 4 <= length (mem f))%nat) by (unfold NV_SIZE in Hoff; lia).
  destruct (flash_write_spec prog d fc wsz (flash_cmds_ok _ Hfc) Hwsz (nv_off d) [0; 0; 0; 0] f)
    as (f1 & -> & H1 & P1); [done|cbn [length]; lia|done| | |done|by exists 2%nat|].
  - intros i c Hi. pose proof (lookup_lt_Some _ _ _ Hi) as Hlt. cbn in Hlt.
    destruct (lookup_lt_is_Some_2 (mem f) (nv_off d + i)) as [old Ho]; [lia|].
    exists old. split; [done|].
    assert (c = 0) as -> by (do 4 (destruct i as [|i]; [by injection Hi|]); done).
    apply Hprog. eapply (proj1 (Forall_lookup _ _) Hbytes); eauto.
  - unfold byte_ok. repeat (constructor; [lia|]). constructor.
  - exists f1. split; [done|]. split; [done|]. eapply passes_impl; [|exact P1].
    intros m (k & Hk & ->). destruct k as [|k]; [left; apply splice_nil|]. right.
    assert (Hk' : (nv_off d + length (take (S k) [0; 0; 0; 0]%Z) <= length (mem f))%nat)
      by (rewrite length_take; cbn [length]; lia).
    apply (not_magic _ (nv_off d) 0 0); [|rewrite length_splice; lia|lia| |discriminate].
    + apply Forall_splice; [done|]. apply Forall_take. unfold byte_ok. repeat constructor; lia.
    + rewrite Nat.add_0_r. by apply splice_first; [|lia|].
Qed.

Lemma image_bytes_ok img : Forall byte_ok (i_data img) -> Forall byte_ok (image_bytes img).
Proof.
  intros. unfold image_bytes, header_bytes. rewrite !Forall_app. auto 10 using le_bytes_ok.
Qed.

Lemma write_body img f :
  length (i_data img) = DATA_SIZE -> Forall byte_ok (i_data img) ->
  length (mem f) = Z.to_nat (size d) -> Forall byte_ok (mem f) -> mem f !! (nv_off d) = Some 0 ->
  exists f' lo, nvWrite prog d fc wsz (image_bytes (set_magic NVRAM_INVALID_MAGIC img)) f = Some f' /\
    block d (size d - NV_SIZE) BLOCK_BASE = Some lo /\ 0 <= lo <= Z.of_nat (nv_off d) /\
    mem f' = splice (fill (mem f) lo (size d)) (nv_off d)
               (image_bytes (set_magic NVRAM_INVALID_MAGIC img)) /\
    passes (fun m => ~ valid d m) f f'.
Proof.
  intros Hl Hdata Hm Hbytes Hz. destruct nv_off_Z as [Hoff Heven]. unfold nvWrite. rewrite <- Hoff.
  set (inv := set_magic NVRAM_INVALID_MAGIC img).
  pose proof (length_image_bytes inv Hl) as Hlen.
  assert (Hhead : head (image_bytes inv) = Some 0xff) by reflexivity.
  destruct (sysFlashWrite_spec prog d fc wsz (flashes_ok _ Hd) (flash_cmds_ok _ Hfc) Hwsz (nv_off d)
    (image_bytes inv) f) as (f1 & lo & hi & -> & Hlo & Hhi & Hr1 & Hr2 & H1 & P1); try done.
  - unfold NV_SIZE in *. lia.
  - by apply image_bytes_ok.
  - exists (Z.to_nat 0x4000). unfold NV_SIZE in Hlen. lia.
  - assert (hi = size d) as -> by (unfold NV_SIZE in *; lia).
    exists f1, lo. split; [done|]. split; [done|]. split; [done|]. split; [done|].
    eapply passes_impl; [|exact P1]. unfold NV_SIZE in *.
    intros m [(x & Hx & ->)|(k & Hk & ->)].
    + assert (Hlf : length (fill (mem f) lo x) = length (mem f)) by (apply length_fill; lia).
      destruct (decide (Z.of_nat (nv_off d) < x)).
      * apply (not_magic _ (nv_off d) 0 0xff); [by apply fill_ok|lia|lia| |discriminate].
        rewrite Nat.add_0_r. apply lookup_fill; lia.
      * apply (not_magic _ (nv_off d) 0 0); [by apply fill_ok|lia|lia| |discriminate].
        rewrite Nat.add_0_r. unfold fill. rewrite lookup_splice by (rewrite length_replicate; lia).
        rewrite length_replicate, decide_False by lia. done.
    + assert (Hlf : length (fill (mem f) lo (size d)) = length (mem f)) by (apply length_fill; lia).
      assert (Hk' : (nv_off d + length (take k (image_bytes inv)) <= length (mem f))%nat)
        by (rewrite length_take; lia).
      apply (not_magic _ (nv_off d) 0 0xff); [|rewrite length_splice; lia|lia| |discriminate].
      * apply Forall_splice; [by apply fill_ok|]. by apply Forall_take, image_bytes_ok.
      * rewrite Nat.add_0_r.
        destruct k as [|k]; [cbn [take]; rewrite splice_nil; apply lookup_fill; lia|].
        apply splice_first; [done|lia|]. lia.
Qed.

Lemma write_magic f :
  length (mem f) = Z.to_nat (size d) -> Forall byte_ok (mem f) ->
  take 4 (drop (nv_off d) (mem f)) = [0xff; 0xff; 0xff; 0xff] ->
  exists f', nvWriteChars prog d fc wsz (le_bytes 4 NVRAM_MAGIC) f = Some f' /\
    mem f' = splice (mem f) (nv_off d) (le_bytes 4 NVRAM_MAGIC) /\
    passes (fun m => ~ valid d m \/ m = mem f') f f'.
Proof.
  intros Hm Hbytes Hff. destruct nv_off_Z as [Hoff Heven]. unfold nvWriteChars. rewrite <- Hoff.
  assert (Hl : (nv_off d + 4 <= length (mem f))%nat) by (unfold NV_SIZE in Hoff; lia).
  assert (Hone : forall i, (i < 4)%nat -> mem f !! (nv_off d + i)%nat = Some 0xff).
  { intros i Hi. rewrite <- lookup_drop, <- (lookup_take_lt (drop (nv_off d) (mem f)) 4 i) by done.
    rewrite Hff. do 4 (destruct i as [|i]; [done|]). lia. }
  change (le_bytes 4 NVRAM_MAGIC) with [0x46; 0x4c; 0x53; 0x48].
  destruct (flash_write_spec prog d fc wsz (flash_cmds_ok _ Hfc) Hwsz (nv_off d) [0x46; 0x4c; 0x53; 0x48] f)
    as (f1 & -> & H1 & P1); [done|cbn [length]; lia|done| | |done|by exists 2%nat|].
  - intros i c Hi. pose proof (lookup_lt_Some _ _ _ Hi) as Hlt. cbn in Hlt.
    exists 0xff. split; [by apply Hone|]. apply Hprog. unfold byte_ok.
    do 4 (destruct i as [|i]; [injection Hi as <-; lia|]). done.
  - unfold byte_ok. repeat (constructor; [lia|]). constructor.
  - exists f1. split; [done|]. split; [done|]. eapply passes_impl; [|exact P1].
    intros m (k & Hk & ->). cbn [length] in Hk.
    destruct (decide (k = 4%nat)) as [->|]; [by right|]. left.
    assert (Hk' : length (take k [0x46; 0x4c; 0x53; 0x48]) = k)
      by (rewrite length_take; cbn [length]; lia).
    apply (not_magic _ (nv_off d) 3 0xff); [|rewrite length_splice; lia|lia| |discriminate].
    + apply Forall_splice; [done|]. apply Forall_take. unfold byte_ok. repeat constructor; lia.
    + rewrite lookup_splice, Hk', decide_False by lia. apply Hone. lia.
Qed.

Lemma write_image_spec img f :
  image_ok img -> Forall byte_ok (i_data img) -> length (mem f) = Z.to_nat (size d) ->
  Forall byte_ok (mem f) ->
  exists f' lo, write_image prog d fc wsz img f = Some f' /\
    block d (size d - NV_SIZE) BLOCK_BASE = Some lo /\ 0 <= lo <= Z.of_nat (nv_off d) /\
    mem f' = splice (fill (mem f) lo (size d)) (nv_off d) (image_bytes img) /\
    passes (crash_states d (mem f) (mem f')) f f'.
Proof.
  intros (Hmagic & _ & Hl & _) Hdata Hm Hbytes. destruct nv_off_Z as [Hoff Heven].
  set (inv := set_magic NVRAM_INVALID_MAGIC img).
  pose proof (length_image_bytes inv Hl) as Hlen. unfold NV_SIZE in Hoff, Hlen.
  unfold write_image.
  destruct (clear_magic f Hm Hbytes) as (f1 & -> & H1 & P1).
  assert (Hl1 : length (mem f1) = length (mem f)) by (rewrite H1; apply length_splice; cbn [length]; lia).
  destruct (write_body img f1) as (f2 & lo & -> & Hlo & Hr & H2 & P2); [done|done|by rewrite Hl1| | |].
  { rewrite H1. apply Forall_splice; [done|]. unfold byte_ok. repeat constructor; lia. }
  { rewrite H1, lookup_splice, decide_True by (cbn [length]; lia). by rewrite Nat.sub_diag. }
  fold inv in H2.
  assert (Hlf : length (fill (mem f1) lo (size d)) = length (mem f)) by (rewrite length_fill; lia).
  assert (Hl2 : length (mem f2) = length (mem f)) by (rewrite H2, length_splice; lia).
  assert (Hsplit : forall m, image_bytes (set_magic m img)
    = le_bytes 4 m ++ drop 4 (image_bytes img)) by done.
  destruct (write_magic f2) as (f3 & -> & H3 & P3); [by rewrite Hl2| | |].
  { rewrite H2, H1, fill_splice by (cbn [length]; lia).
    apply Forall_splice; [by apply fill_ok|by apply image_bytes_ok]. }
  { rewrite H2. unfold splice. rewrite drop_app_length' by (rewrite length_take; lia).
    by unfold inv; rewrite Hsplit. }
  exists f3, lo. split; [done|]. split; [done|]. split; [done|].
  assert (Himg : image_bytes img = le_bytes 4 NVRAM_MAGIC ++ drop 4 (image_bytes img)).
  { rewrite <- Hsplit. destruct img as [[]]. cbn in Hmagic. by subst. }
  pose proof (length_image_bytes img Hl) as Hlen'. unfold NV_SIZE in Hlen'.
  assert (Hfinal : mem f3 = splice (fill (mem f) lo (size d)) (nv_off d) (image_bytes img)).
  { rewrite H3, H2, H1, fill_splice by (cbn [length]; lia). unfold inv. rewrite Hsplit.
    rewrite splice_again, <- Himg; [done|done|]. rewrite length_app, length_drop, length_fill by lia.
    cbn [length]. rewrite length_le_bytes. lia. }
  split; [done|]. eapply passes_trans; [|eapply passes_trans].
  - eapply passes_impl; [|exact P1]. unfold crash_states. tauto.
  - eapply passes_impl; [|exact P2]. unfold crash_states. tauto.
  - eapply passes_impl; [|exact P3]. unfold crash_states. tauto.
Qed.
End Write.

(** ** Committing and finding the image again *)

Lemma flash_sizes d :
  d ∈ flashes -> exists x, 20 <= x <= 24 /\ size d = 2 ^ x /\
    exists lo, block d (size d - NV_SIZE) BLOCK_BASE = Some lo /\ 2 ^ (x - 1) <= lo.
Proof.
  intros Hd.
  assert (forallb (fun d => let x := Z.log2 (size d) in
    (20 <=? x) && (x <=? 24) && (size d =? 2 ^ x) &&
    match block d (size d - NV_SIZE) BLOCK_BASE with Some lo => 2 ^ (x - 1) <=? lo | None => false end)
    flashes = true) as H by (vm_compute; reflexivity).
  rewrite forallb_forall in H. specialize (H d (proj1 (list_elem_of_In _ _) Hd)). cbv zeta in H.
  rewrite !andb_true_iff, !Z.leb_le, Z.eqb_eq in H. destruct H as [[[H1 H2] H3] H4].
  exists (Z.log2 (size d)). split; [done|]. split; [done|].
  destruct (block _ _ _) as [lo|]; [|done]. exists lo. split; [done|]. by apply Z.leb_le.
Qed.

Lemma block_below d lo : d ∈ flashes -> block d (size d - NV_SIZE) BLOCK_BASE = Some lo -> lo <= size d - NV_SIZE.
Proof.
  intros Hd Hlo.
  assert (forallb (fun d => match block d (size d - NV_SIZE) BLOCK_BASE with Some lo => lo <=? size d - NV_SIZE | None => true end) flashes = true) as H
    by (vm_compute; reflexivity).
  rewrite forallb_forall in H. specialize (H d (proj1 (list_elem_of_In _ _) Hd)). rewrite Hlo in H. by apply Z.leb_le.
Qed.

(** The search doubles its way up to the first magic. *)
Lemma find_loop_finds test base lim x y fuel :
  0 <= y <= x -> 2 ^ x <= lim -> (Z.to_nat (x - y) < fuel)%nat ->
  (forall z, y <= z < x -> test (base + 2 ^ z - NVRAM_SPACE) = false) ->
  test (base + 2 ^ x - NVRAM_SPACE) = true ->
  find_loop test fuel base (2 ^ y) lim = Some (Some (base + 2 ^ x - NVRAM_SPACE)).
Proof.
  revert y. induction fuel as [|fuel IH]; intros y Hy Hlim Hf Hno Hyes; [lia|]. cbn [find_loop].
  assert (2 ^ y <= 2 ^ x) by (apply Z.pow_le_mono_r; lia).
  rewrite (proj2 (Z.leb_le _ _)) by lia. destruct (decide (y = x)) as [->|Hne]; [by rewrite Hyes|].
  rewrite Hno by lia. rewrite Z.shiftl_mul_pow2, <- Z.pow_add_r by lia.
  apply IH; try done; try lia. intros z Hz. apply Hno. lia.
Qed.

(** What [find_nvram] sees depends on four bytes. *)
Lemma has_magic_ext base m m' a lo :
  (forall i, Z.of_nat i < lo -> m' !! i = m !! i) -> base <= a -> a - base + 4 <= lo ->
  has_magic (rom base m') a = has_magic (rom base m) a.
Proof.
  intros Heq Ha Hlo. unfold has_magic, is_magic, rom.
  change (h_magic (i_hdr (image_of ?b))) with (word_at b 0). unfold word_at. do 2 f_equal.
  rewrite !drop_0. apply list_eq. intros j. destruct (decide (j < 4)%nat).
  - rewrite !lookup_take_lt, !lookup_drop by done. apply Heq. lia.
  - rewrite !lookup_take_ge by lia. done.
Qed.

Lemma find_nvram_spec cfe base d m m' lo :
  (forall e, cfe = Some e -> is_magic (embedded_nvram e) = false) -> d ∈ flashes -> size d <= (if base =? SB_FLASH1 then SB_FLASH1_SZ else SB_FLASH2_SZ) ->
  block d (size d - NV_SIZE) BLOCK_BASE = Some lo ->
  (forall i, Z.of_nat i < lo -> m' !! i = m !! i) -> no_other_magic base d m ->
  find_nvram (rom base m') cfe base true = Some (None, true) /\
  (valid d m' ->
   find_nvram (rom base m') cfe base false = Some (Some (AtAddr (base + size d - NVRAM_SPACE)), false)).
Proof.
  intros Hemb Hd Hlim Hlo Heq (Hno & H4 & H1). destruct (flash_sizes d Hd) as (x & Hx & Hsz & lo' & Hlo' & Hle).
  rewrite Hlo in Hlo'. injection Hlo' as <-.
  assert (Hbig : 2 ^ 19 <= 2 ^ (x - 1)) by (apply Z.pow_le_mono_r; lia).
  change (2 ^ 19) with 0x80000 in Hbig. split.
  - unfold find_nvram. rewrite !(has_magic_ext base m m' _ lo), H4, H1 by (try done; lia).
    destruct cfe as [e|]; [by rewrite (Hemb e eq_refl)|done].
  - intros Hv. unfold find_nvram. rewrite Hsz.
    rewrite (find_loop_finds _ _ _ x 17 32); [done|lia|by rewrite <- Hsz|lia| |].
    + intros z Hz. assert (2 ^ 17 <= 2 ^ z) by (apply Z.pow_le_mono_r; lia).
      change (2 ^ 17) with 0x20000 in *. unfold NVRAM_SPACE in *.
      assert (2 ^ z <= 2 ^ (x - 1)) by (apply Z.pow_le_mono_r; lia).
      rewrite (has_magic_ext base m m' _ lo) by (try done; lia). apply Hno; [lia|].
      rewrite Hsz. apply Z.pow_lt_mono_r; lia.
    + unfold has_magic, is_magic, rom. apply Z.eqb_eq. unfold valid, valid_at, nv_off in Hv. rewrite <- Hsz.
      replace (base + size d - NVRAM_SPACE - base) with (size d - NV_SIZE) by
        (unfold NVRAM_SPACE, NV_SIZE; lia). done.
Qed.

Lemma entries_ok ps : Forall storable ps -> Forall byte_ok (entries ps).
Proof.
  induction 1 as [|p ps (_ & Hn & Hv) _ IH]; [constructor|]. cbn. unfold entry.
  rewrite <- app_assoc. cbn [app].
  apply Forall_app. split; [by apply cstr_bytes|]. constructor; [by unfold byte_ok|].
  rewrite <- app_assoc. apply Forall_app. split; [by apply cstr_bytes|].
  constructor; [by unfold byte_ok|done].
Qed.

(** The words [_nvram_read] copies are those that count: what is behind [len] may be
    anything. *)
Lemma read_image img img' buf :
  let n := Z.to_nat (h_len (i_hdr img) - NVRAM_HEADER_SIZE) in
  image_ok img -> i_hdr img' = i_hdr img -> take n (i_data img') = take n (i_data img) -> length (i_data buf) = DATA_SIZE ->
  _nvram_read (Some img') buf = (0, Image (i_hdr img) (take n (i_data img) ++ drop n (i_data buf))) /\
  length (take n (i_data img) ++ drop n (i_data buf)) = DATA_SIZE.
Proof.
  intros n (_ & _ & Hl & Hlen & Hmod & _) Hh Hda Hb. pose proof DATA_SIZE_Z.
  unfold _nvram_read. rewrite Hh, <- Hda. rewrite Z.min_l by lia.
  assert (ROUNDUP (h_len (i_hdr img) - NVRAM_HEADER_SIZE) 4 = h_len (i_hdr img) - NVRAM_HEADER_SIZE) as ->.
  { unfold ROUNDUP, NVRAM_HEADER_SIZE. rewrite Z.mul_comm. symmetry.
    pose proof (Z.div_mod (h_len (i_hdr img)) 4 ltac:(lia)).
    replace (h_len (i_hdr img) - 20 + (4 - 1)) with (3 + (h_len (i_hdr img) / 4 - 5) * 4) by lia.
    rewrite Z.div_add by lia. change (3 / 4) with 0. lia. }
  split; [done|]. rewrite Hda, length_app, length_take, length_drop. fold n.
  unfold NVRAM_HEADER_SIZE, NVRAM_SPACE in *. lia.
Qed.

Lemma default_to_keeps name value m n v : m !! n = Some v -> default_to name value m !! n = Some v.
Proof.
  intros H. unfold default_to. destruct (m !! name) eqn:E; [done|].
  rewrite lookup_insert_ne; [done|]. congruence.
Qed.

Lemma sdram_defaults_keeps h m n v : m !! n = Some v -> sdram_defaults h m !! n = Some v.
Proof. intros H. unfold sdram_defaults. do 4 apply default_to_keeps. done. Qed.

Section Commit.
Context {S : Type} `{PortLaws S} `{!PortRoom S}.
Variable stack header : Z.
Variable nv : nvram S.
Variable prog : Z -> Z -> Z.
Variable d : flash_desc_t.
Variable fc : flash_cmds_t.
Variable wsz : nat.
Variable f : flash.

(** A store whose variables can be written, blocks of memory inside the address space,
    and a chip of the tables. *)
Record commit_ok : Prop := {
  k_stack : 0 < stack /\ stack + 11 <= 2 ^ 32;
  k_header : 0 < header /\ header + NVRAM_SPACE <= 2 ^ 32;
  k_nv : nvram_ok nv;
  k_plain : forall n v, to_map nv !! n = Some v -> plain n;
  k_room : (Nat.min (DATA_SIZE - 2) (entries_size (pairs nv)) + 44 <= port_size)%nat;
  k_chip : d ∈ flashes /\ fc ∈ flash_cmds /\ wsz_ok wsz /\ prog_ok prog;
  k_mem : length (mem f) = Z.to_nat (size d) /\ Forall byte_ok (mem f)
}.

(** The image that is written, and the table that is left. *)
Lemma commit_regenerates :
  commit_ok ->
  exists img nv' ps, _nvram_commit stack nv (header + NVRAM_HEADER_SIZE) = Some (img, nv') /\
    (image_ok img /\ image_holds img ps /\ Forall storable ps) /\
    (ps `sublist_of` pairs nv /\ (entries_size ps <= DATA_SIZE - 2)%nat /\
     (entries_size ps + 44 <= port_size)%nat) /\
    ((entries_size (pairs nv) <= DATA_SIZE - 2)%nat -> set_all ∅ ps = to_map nv) /\
    to_map nv' = sdram_defaults (i_hdr img) (set_all ∅ ps) /\ Forall byte_ok (i_data img).
Proof.
  intros [[Hs Hs'] [Hh Hh'] I Hp Hroom (Hd & Hfc & Hw & Hprog) [Hm Hbytes]].
  pose proof DATA_SIZE_Z as HD. unfold _nvram_commit.
  destruct (commit_image_spec nv (header + NVRAM_HEADER_SIZE)) as
    (img & ps & -> & Hok & Hho & Hsub & Hsize & Hall);
    [unfold NVRAM_HEADER_SIZE; lia|unfold NVRAM_SPACE, NVRAM_HEADER_SIZE in *; lia|].
  assert (Hps : Forall storable ps).
  { apply Forall_forall. intros p Hin.
    eapply (proj1 (Forall_forall _ _) (pairs_storable nv I Hp)). by eapply elem_of_sublist. }
  assert (Hle : (entries_size ps <= entries_size (pairs nv))%nat).
  { clear -Hsub. unfold entries_size, entries. induction Hsub; cbn; rewrite ?length_app; lia. }
  destruct (rehash_image stack nv img ps
    (drop (Z.to_nat (h_len (i_hdr img) - NVRAM_HEADER_SIZE)) (i_data img)) 0)
    as (nv' & Hre & I' & Hmap & _); try done; [lia|by rewrite take_drop; apply Hok|].
  rewrite take_drop in Hre. destruct img as [h da]. cbn [i_hdr i_data] in *. rewrite Hre.
  exists (Image h da), nv', ps. split; [reflexivity|]. split; [tauto|]. split; [split; [exact Hsub|lia]|].
  split; [intros Hfit; rewrite (Hall Hfit); by apply set_all_pairs|]. split; [done|].
  destruct Hho as (k & -> & _). apply Forall_app. split; [by apply entries_ok|].
  apply Forall_replicate. unfold byte_ok. lia.
Qed.

(** The new contents are a valid image. *)
Lemma committed_image img lo m :
  d ∈ flashes -> length m = Z.to_nat (size d) -> 0 <= lo <= size d - NV_SIZE ->
  image_ok img -> m = splice (fill (mem f) lo (size d)) (nv_off d) (image_bytes img) ->
  length (mem f) = Z.to_nat (size d) ->
  image_of (nv_area d m) = img.
Proof.
  intros Hd Hl Hlo (_ & Hu & Hda & _) -> Hm. destruct (nv_off_Z d Hd) as [Hoff _].
  unfold nv_area. unfold splice.
  rewrite drop_app_length' by (rewrite length_take, length_fill; unfold NV_SIZE in *; lia).
  by apply image_of_bytes.
Qed.

(** C1 In the build that writes the flash itself, without _CFE_, [nvram_commit] is atomic under power failure:
    at every moment before it ends the
    flash holds its old contents, or nothing that passes for an image (so that the boot
    falls back on the defaults), or already the finished contents.  It always ends, with a
    valid image, and touches no byte outside the erase block of the variable area. *)
Theorem nvram_commit_crash_safe :
  commit_ok ->
  exists nv' f' lo, nvram_commit None stack prog d fc wsz nv (Some header) true f = Some (0, nv', f') /\
    passes (crash_states d (mem f) (mem f')) f f' /\ valid d (mem f') /\
    block d (size d - NV_SIZE) BLOCK_BASE = Some lo /\
    forall i, Z.of_nat i < lo -> mem f' !! i = mem f !! i.
Proof.
  intros K. destruct (commit_regenerates K) as (img & nv' & ps & Hrun & (Hok & _) & _ & _ & _ & Hdata).
  destruct K as [_ _ _ _ _ (Hd & Hfc & Hw & Hprog) [Hm Hbytes]]. destruct (nv_off_Z d Hd) as [Hoff _].
  destruct (write_image_spec prog d fc wsz Hd Hfc Hw Hprog img f Hok Hdata Hm Hbytes) as
    (f' & lo & Hwr & Hlo & Hr & Hmem & Hpass). rewrite Hoff in Hr.
  assert (Hl : length (fill (mem f) lo (size d)) = length (mem f))
    by (apply length_fill; unfold NV_SIZE in *; lia).
  pose proof (length_image_bytes img (proj1 (proj2 (proj2 Hok)))) as Hi.
  exists nv', f', lo. split; [unfold nvram_commit; rewrite Hrun; cbn [option_bind]; by rewrite Hwr|]. split; [done|]. split; [|split; [done|]].
  - unfold valid, valid_at. fold (nv_area d (mem f')). rewrite (committed_image img lo (mem f')); try done; [apply Hok|].
    rewrite Hmem, length_splice; unfold NV_SIZE in *; lia.
  - intros i Hilt. rewrite Hmem, lookup_splice, decide_False by (unfold NV_SIZE in *; lia).
    unfold fill. rewrite lookup_splice by (rewrite length_replicate; unfold NV_SIZE in *; lia).
    rewrite length_replicate, decide_False by lia. done.
Qed.

(** What a commit leaves of a build's flash: the chip as it was before the erase block, and
    in the area the header and the data of the image up to [len]. *)
Definition leaves (img : image) (f' : flash) : Prop :=
  exists lo, block d (size d - NV_SIZE) BLOCK_BASE = Some lo /\
    (forall i, Z.of_nat i < lo -> mem f' !! i = mem f !! i) /\
    i_hdr (image_of (nv_area d (mem f'))) = i_hdr img /\
    let n := Z.to_nat (h_len (i_hdr img) - NVRAM_HEADER_SIZE) in
    take n (i_data (image_of (nv_area d (mem f')))) = take n (i_data img).

Lemma write_leaves img :
  commit_ok -> image_ok img -> Forall byte_ok (i_data img) ->
  exists f', write_image prog d fc wsz img f = Some f' /\ leaves img f'.
Proof.
  intros [_ _ _ _ _ (Hd & Hfc & Hw & Hprog) [Hm Hbytes]] Hok Hdata. destruct (nv_off_Z d Hd) as [Hoff _].
  destruct (write_image_spec prog d fc wsz Hd Hfc Hw Hprog img f Hok Hdata Hm Hbytes) as
    (f' & lo & Hwr & Hlo & Hr & Hmem & Hpass). rewrite Hoff in Hr.
  assert (Hl : length (fill (mem f) lo (size d)) = length (mem f))
    by (apply length_fill; unfold NV_SIZE in *; lia).
  pose proof (length_image_bytes img (proj1 (proj2 (proj2 Hok)))) as Hi.
  exists f'. split; [done|]. exists lo. split; [done|]. split; [|rewrite (committed_image img lo (mem f')); try done; rewrite Hmem, length_splice; unfold NV_SIZE in *; lia].
  intros i Hilt. rewrite Hmem, lookup_splice, decide_False by (unfold NV_SIZE in *; lia).
  unfold fill. rewrite lookup_splice by (rewrite length_replicate; unfold NV_SIZE in *; lia).
  rewrite length_replicate, decide_False by lia. reflexivity.
Qed.

(** The boot loader writes [len] bytes. *)
Lemma writeblk_leaves e img :
  commit_ok -> cfe_laws d e -> image_ok img ->
  leaves img (cfe_close e (cfe_open e f) (cfe_writeblk e (cfe_open e f) 0 (take (Z.to_nat (h_len (i_hdr img))) (image_bytes img)) f).2).
Proof.
  intros [_ _ _ _ _ (Hd & _) [Hm _]] He (_ & Hu & Hda & Hlen & _). destruct (nv_off_Z d Hd) as [Hoff _]. pose proof DATA_SIZE_Z as HD.
  pose proof (length_image_bytes img Hda) as Hi. set (len := Z.to_nat (h_len (i_hdr img))). unfold NVRAM_HEADER_SIZE, NVRAM_SPACE, NV_SIZE in *.
  assert (Htk : length (take len (image_bytes img)) = len) by (rewrite length_take; lia).
  destruct (flash_sizes d Hd) as (x & _ & _ & lo & Hlo & Hx). pose proof (block_below d lo Hd Hlo) as Hb. exists lo. split; [exact Hlo|].
  rewrite (law_write d e He) by (first [exact Hm|unfold NVRAM_SPACE; lia]). split.
  - intros i Hi'. rewrite lookup_splice by lia. unfold NV_SIZE in *. by rewrite decide_False by lia.
  - assert (Hn : nv_area d (splice (mem f) (nv_off d) (take len (image_bytes img))) = take len (image_bytes img) ++ drop (nv_off d + len) (mem f)).
    { unfold nv_area, splice. rewrite drop_app_length' by (rewrite length_take; lia). by rewrite Htk. }
    assert (Hib : take len (image_bytes img) = header_bytes (i_hdr img) ++ take (len - 20) (i_data img)).
    { unfold image_bytes. rewrite take_app_ge by (change (length (header_bytes (i_hdr img))) with 20%nat; lia). done. }
    rewrite Hn, Hib, <- app_assoc, image_of_header by done. cbn [i_hdr i_data]. split; [done|]. unfold NVRAM_HEADER_SIZE.
    replace (Z.to_nat (h_len (i_hdr img) - 20)) with (len - 20)%nat by lia. rewrite take_take, take_app_le by (rewrite length_take; lia). rewrite take_take. f_equal. lia.
Qed.

(** C2 What was committed is there after a restart: [nvram_init], over the flash
    [nvram_commit] leaves, whatever the table held and the allocator returns, finds the image and loads
    the same variables as the committing store ends with; when the variables fit, no value
    that was set is lost.  This holds of both builds, of the boot loader's with a flash device that
    writes what it is given and no image compiled in. *)
Theorem nvram_commit_persists (cfe : option cfe_build) (chipcommon : bool) (nv0 : nvram S) gpioin mem1 buf :
  let base := if chipcommon then SB_FLASH2 else SB_FLASH1 in
  (forall e, cfe = Some e -> cfe_laws d e) ->
  commit_ok -> nvram_ok nv0 -> length (i_data buf) = DATA_SIZE ->
  size d <= (if base =? SB_FLASH1 then SB_FLASH1_SZ else SB_FLASH2_SZ) ->
  no_other_magic base d (mem f) ->
  exists r nv' f' (nv2 : nvram S),
    nvram_commit cfe stack prog d fc wsz nv (Some header) true f = Some (r, nv', f') /\ 0 <= r /\
    nvram_init (rom base (mem f')) cfe stack nv0 chipcommon gpioin mem1 (Some buf) = Some (0, nv2) /\
    nvram_ok nv2 /\ to_map nv2 = to_map nv' /\
    ((entries_size (pairs nv) <= DATA_SIZE - 2)%nat ->
     forall n v, to_map nv !! n = Some v -> to_map nv2 !! n = Some v).
Proof.
  intros base He K I0 Hbuf Hlim Hno. destruct (commit_regenerates K) as
    (img & nv' & ps & Hrun & (Hok & Hho & Hst) & (_ & Hsize & Hroom) & Hfit & Hmap & Hdata).
  assert (Hcom : exists r f', nvram_commit cfe stack prog d fc wsz nv (Some header) true f = Some (r, nv', f') /\ 0 <= r /\ leaves img f').
  { unfold nvram_commit. rewrite Hrun. cbn [option_bind]. destruct cfe as [e|].
    - specialize (He e eq_refl). rewrite (proj2 (Z.leb_le _ _)) by apply (law_open d e He).
      pose proof (writeblk_leaves e img K He Hok) as Hl. destruct (cfe_writeblk _ _ _ _ _) as [x f1]. eexists _, _. split; [reflexivity|]. split; [apply (law_open d e He)|exact Hl].
    - destruct (write_leaves img K Hok Hdata) as (f' & -> & Hl). eexists _, _. split; [reflexivity|]. by split. }
  destruct Hcom as (r & f' & Hcom & Hr & lo & Hlo & Hsame & Hhdr & Htk).
  destruct K as [[Hs Hs'] _ _ _ _ (Hd & _) [Hm _]]. destruct (nv_off_Z d Hd) as [Hoff _].
  assert (Hemb0 : forall e, cfe = Some e -> is_magic (embedded_nvram e) = false) by (intros e E; apply (law_embedded d e (He e E))).
  destruct (find_nvram_spec cfe base d (mem f) (mem f') lo Hemb0 Hd Hlim Hlo Hsame Hno) as [Hemb Hfind].
  destruct (read_image img _ buf Hok Hhdr Htk Hbuf) as [Hread Hlen].
  destruct (rehash_image stack nv0 img ps _ 0 Hs Hs' I0 Hst Hok Hho Hsize Hroom Hlen)
    as (nv2 & Hre & I2 & Hmap2 & _).
  exists r, nv', f', nv2. split; [exact Hcom|]. split; [exact Hr|]. split; [|split; [exact I2|split; [congruence|]]].
  - unfold nvram_init. fold base. rewrite Hemb, Hfind by (unfold valid, valid_at; fold (nv_area d (mem f')); rewrite Hhdr; apply Hok).
    cbn [header_at option_bind].
    assert (Hat : rom base (mem f') (base + size d - NVRAM_SPACE) = nv_area d (mem f')).
    { unfold rom, nv_area, nv_off. f_equal. unfold NVRAM_SPACE, NV_SIZE. lia. }
    rewrite Hat.
    assert (Hfirst : exists r, _nvram_init stack nv0 mem1 (_nvram_read None) = Some (r, nv0) /\ (r =? 0) = false).
    { destruct mem1; [exists (-19)|exists (-12)]; split; reflexivity. }
    destruct Hfirst as (r' & -> & ->). cbn [andb option_bind].
    unfold _nvram_init. rewrite Hread. cbn [i_hdr].
    rewrite (proj2 (Z.eqb_eq _ _) (proj1 Hok)). change (0 =? 0) with true. cbn [andb].
    rewrite Hre. reflexivity.
  - intros Hf n v Hn. rewrite Hmap2. apply sdram_defaults_keeps. rewrite (Hfit Hf). exact Hn.
Qed.

End Commit.

(** * Instances of the properties *)

#[local] Existing Instances ex_port ex_laws ex_room.

Lemma no_magic_zeros base n a : has_magic (rom base (replicate n 0)) a = false.
Proof.
  unfold has_magic, is_magic, rom. change (h_magic (i_hdr (image_of ?b))) with (word_at b 0).
  unfold word_at. rewrite drop_0, drop_replicate, take_replicate.
  assert (forall k, le_value (replicate k 0) = 0) as -> by (intros k; induction k; [done|cbn; by rewrite IHk]).
  reflexivity.
Qed.

(** A cleared 4 MB chip. *)
Definition ex_flash : flash := Flash (replicate (Z.to_nat (size ex_chip)) 0) [] [].

Lemma ex_commit_ok : commit_ok 0x1000 0x100000 ex_nv Z.land ex_chip ex_cmds 2 ex_flash.
Proof.
  destruct ex_nv_ok as [I Hm]. split.
  - split; [reflexivity|discriminate].
  - split; [reflexivity|discriminate].
  - exact I.
  - intros n v Hn. rewrite Hm in Hn. apply lookup_singleton_Some in Hn as [<- _].
    split; [discriminate|]. apply (bool_decide_unpack _). vm_compute. exact Logic.I.
  - apply Nat.add_le_mono_r. pose proof DATA_SIZE_Z. lia.
  - split; [exact ex_chip_in|]. split; [exact ex_cmds_in|]. split; [right; reflexivity|].
    exact land_prog_ok.
  - split; [apply length_replicate|]. apply Forall_replicate. unfold byte_ok. lia.
Qed.

Lemma nvram_commit_crash_safe_witness :
  exists nv' f', nvram_commit None 0x1000 Z.land ex_chip ex_cmds 2 ex_nv (Some 0x100000) true ex_flash
    = Some (0, nv', f') /\ valid ex_chip (mem f') /\
    forall i, Z.of_nat i < 0x3f8000 -> mem f' !! i = mem ex_flash !! i.
Proof.
  destruct (nvram_commit_crash_safe 0x1000 0x100000 ex_nv Z.land ex_chip ex_cmds 2 ex_flash ex_commit_ok)
    as (nv' & f' & lo & Hrun & _ & Hv & Hlo & Hsame).
  exists nv', f'. split; [exact Hrun|]. split; [exact Hv|].
  assert (block ex_chip (size ex_chip - NV_SIZE) BLOCK_BASE = Some 0x3f8000) as Hb
    by (vm_compute; reflexivity).
  rewrite Hb in Hlo. injection Hlo as <-. exact Hsame.
Defined.

(** A flash device of the boot loader that writes byte after byte. *)
Fixpoint write_bytes (off : nat) (data : bytes) (f : flash) : flash :=
  match data with
  | [] => f
  | c :: data => write_bytes (S off) data (set_mem (<[off := c]> (mem f)) f)
  end.

Definition byte_device (part : nat) : cfe_build :=
  Cfe (replicate 0x1000 0xff) (fun _ => 3) (fun _ off data f => (Z.of_nat (length data), write_bytes (part + Z.to_nat off) data f)) (fun _ f => f).
Definition ex_cfe : cfe_build := byte_device (nv_off ex_chip).

Lemma write_bytes_splice data : forall off f, (off + length data <= length (mem f))%nat -> mem (write_bytes off data f) = splice (mem f) off data.
Proof.
  induction data as [|c data IH]; intros off f Hl; cbn [write_bytes length] in *; [by rewrite splice_nil|].
  rewrite IH by (cbn [set_mem mem]; rewrite length_insert; lia). cbn [set_mem mem]. apply list_eq. intros j.
  rewrite !lookup_splice by (cbn [length]; rewrite ?length_insert; lia). cbn [length]. repeat case_decide; try lia.
  - replace (j - off)%nat with (S (j - S off)) by lia. done.
  - assert (j = off) as -> by lia. rewrite Nat.sub_diag, list_lookup_insert_eq by lia. done.
  - rewrite list_lookup_insert_ne by lia. done.
Qed.

Lemma ex_cfe_laws : cfe_laws ex_chip ex_cfe.
Proof.
  split; [done| |vm_compute; reflexivity]. intros f data Hl Hd. unfold ex_cfe, byte_device. cbn [cfe_open cfe_close cfe_writeblk snd].
  rewrite write_bytes_splice, Nat.add_0_r; [done|]. destruct (nv_off_Z ex_chip ex_chip_in) as [Hoff _]. rewrite Hl. unfold NVRAM_SPACE, NV_SIZE in *. change (size ex_chip) with 0x400000 in *. lia.
Qed.

(** The boot loader's commit is not atomic: while its device writes, the flash has the magic of the new
    image before its data, and [find_nvram] takes it, since it does not look at the checksum. *)
Example cfe_commit_not_atomic :
  match nvram_commit (Some (byte_device 0)) 0x1000 Z.land ex_chip ex_cmds 2 ex_nv (Some 0x100000) true (Flash (replicate 64 0) [] []) with
  | Some (_, _, f') => existsb (fun m => is_magic m && negb (bytes_eqb m (mem f'))) (past f') = true
  | None => False
  end.
Proof. vm_compute. reflexivity. Qed.

Lemma nvram_commit_persists_witness :
  exists r nv' f' nv2,
    nvram_commit (Some ex_cfe) 0x1000 Z.land ex_chip ex_cmds 2 ex_nv (Some 0x100000) true ex_flash = Some (r, nv', f') /\
    nvram_init (rom SB_FLASH2 (mem f')) (Some ex_cfe) 0x1000 ex_nv true (fun _ => 0) None
      (Some (Image (Header 0 0 0 0 0) (replicate DATA_SIZE 0xaa))) = Some (0, nv2) /\
    to_map nv2 !! str "os" = Some (str "linux").
Proof.
  destruct ex_nv_ok as [I Hm].
  destruct (nvram_commit_persists 0x1000 0x100000 ex_nv Z.land ex_chip ex_cmds 2 ex_flash (Some ex_cfe) true ex_nv
    (fun _ => 0) None (Image (Header 0 0 0 0 0) (replicate DATA_SIZE 0xaa)))
    as (r & nv' & f' & nv2 & Hrun & _ & Hinit & _ & _ & Hkeep).
  - intros e [= <-]. exact ex_cfe_laws.
  - exact ex_commit_ok.
  - exact I.
  - cbn [i_data]. apply length_replicate.
  - vm_compute. discriminate.
  - split; [|split]; intros; apply no_magic_zeros.
  - exists r, nv', f', nv2. split; [exact Hrun|]. split; [exact Hinit|]. apply Hkeep.
    + rewrite ex_pairs. pose proof DATA_SIZE_Z.
      change (entries_size [(str "os", str "linux")]) with 9%nat. lia.
    + rewrite Hm. apply lookup_singleton_eq.
Defined.
