(* ===== verification/NvramLinux.v ===== *)
(** The variable store of the kernel: arch/mips/brcm-boards/bcm947xx/nvram_linux.c.

    The port of [NvramPort.v] behind the character device /dev/nvram: setting with a
    compaction when the value buffer is full, committing to an MTD device any of whose
    operations may fail, the read-only access before the device exists, and the copy
    in the boot loader's own sector ([cfe_*]). *)

From Stdlib Require Import ZArith Lia Bool List String Ascii.
From stdpp Require Import base numbers list gmap.
From S2P Require Import Prelude CString Crc NvramPort Nvram Flash NvramFlash.

#[local] Open Scope Z_scope.

(** * MTD devices *)

(** The driver interface: results are the return value, [retlen] and the data; of an erase
    the return value and whether [erase.state] says in the end that it was done.  [chip] is
    what the device holds and has held. *)
Class Mtd (D : Type) := {
  mtd_size : D -> Z;
  mtd_erasesize : D -> Z;
  chip : D -> flash;
  MTD_READ : D -> Z -> Z -> Z * Z * bytes * D;
  MTD_WRITE : D -> Z -> bytes -> Z * Z * D;
  MTD_ERASE : D -> Z -> Z -> Z * bool * D
}.

(** Every byte of [src] can be written at [off] without an erase. *)
Definition takes (m : bytes) (off : nat) (src : bytes) : Prop :=
  forall i c, src !! i = Some c ->
  exists old, m !! (off + i)%nat = Some old /\ (old = 0xff \/ c = 0 \/ old = c).

(** Some bytes of [lo..hi) are erased. *)
Definition worn (m : bytes) (lo hi : Z) (m' : bytes) : Prop :=
  length m' = length m /\
  forall j, m' !! j = m !! j \/ (lo <= Z.of_nat j < hi /\ m' !! j = Some 0xff).

(** What the drivers promise: an operation may fail part of the way, but touches
    nothing else, and has done its work when it reports success; an erase when it
    returns 0 and its state says so too. *)
Class MtdLaws (D : Type) `{Mtd D} := {
  mtd_wf : D -> Prop;
  wf_geometry s : mtd_wf s ->
    0 < mtd_erasesize s /\ NVRAM_SPACE <= mtd_size s < 2 ^ 31 /\
    mtd_size s mod mtd_erasesize s = 0 /\ length (mem (chip s)) = Z.to_nat (mtd_size s) /\
    Forall byte_ok (mem (chip s));
  read_law s off n ret len b s' : mtd_wf s -> 0 <= off -> 0 <= n -> off + n <= mtd_size s ->
    MTD_READ s off n = (ret, len, b, s') ->
    mtd_wf s' /\ mtd_size s' = mtd_size s /\ mtd_erasesize s' = mtd_erasesize s /\
    chip s' = chip s /\ 0 <= len <= n /\ Z.of_nat (length b) = n /\ Forall byte_ok b /\
    (ret = 0 -> len = n -> b = take (Z.to_nat n) (drop (Z.to_nat off) (mem (chip s))));
  write_law s off src ret len s' : mtd_wf s -> Forall byte_ok src ->
    Z.of_nat (off + length src) <= mtd_size s -> takes (mem (chip s)) off src ->
    MTD_WRITE s (Z.of_nat off) src = (ret, len, s') ->
    mtd_wf s' /\ mtd_size s' = mtd_size s /\ mtd_erasesize s' = mtd_erasesize s /\
    passes (partly (mem (chip s)) off src) (chip s) (chip s') /\
    partly (mem (chip s)) off src (mem (chip s')) /\
    (ret = 0 -> len = Z.of_nat (length src) -> mem (chip s') = splice (mem (chip s)) off src);
  erase_law s off ret finished s' : mtd_wf s -> 0 <= off -> off mod mtd_erasesize s = 0 ->
    off + mtd_erasesize s <= mtd_size s ->
    MTD_ERASE s off (mtd_erasesize s) = (ret, finished, s') ->
    mtd_wf s' /\ mtd_size s' = mtd_size s /\ mtd_erasesize s' = mtd_erasesize s /\
    passes (worn (mem (chip s)) off (off + mtd_erasesize s)) (chip s) (chip s') /\
    worn (mem (chip s)) off (off + mtd_erasesize s) (mem (chip s')) /\
    (ret = 0 -> finished = true -> mem (chip s') = fill (mem (chip s)) off (off + mtd_erasesize s))
}.

(** A driver that reports a failed erase in the return value, and returns 0 only once it is done.
    Not all do: the MTD interface allows a driver to return 0 and to say in [erase.state] that
    the erase failed. *)
Definition erase_reports (D : Type) `{Mtd D} : Prop :=
  forall s off n finished s', MTD_ERASE s off n = (0, finished, s') -> finished = true.

(** * The driver *)

Definition CFE_NVRAM_START := 0x00000.
Definition CFE_NVRAM_END := 0x01fff.
Definition CFE_NVRAM_SPACE := 64 * 1024.
Definition CFE_NVRAM_PREFIX : bytes := str "asuscfe".
Definition CFE_NVRAM_COMMIT : bytes := str "asuscfecommit".
Definition CFE_NVRAM_WATCHDOG : bytes := str "asuscfewatchdog".

(** The globals: the table, the MTD devices named "nvram" and "boot" where they exist,
    whether [cfe_mtd] is open, [cfe_buf], [cfe_nvram_header] as an offset into it,
    and whether the watchdog was disabled. *)
Record kern {D : Type} := Kern {
  k_nv : nvram lx_port;
  nvram_mtd : option D;
  boot_mtd : option D;
  cfe_mtd : bool;
  cfe_buf : option bytes;
  cfe_nvram_header : nat;
  watchdog_off : bool
}.
Arguments kern : clear implicits.
Arguments Kern {D}.

Section Kernel.
Context {D : Type} `{Mtd D}.
Variable kmalloc : gset Z -> Z -> option Z.
#[local] Instance k_port : Port lx_port := lx_Port kmalloc.
(** Where [nvram_rehash]'s buffer is. *)
Variable stack : Z.

Definition set_nv (nv : nvram lx_port) (k : kern D) : kern D :=
  Kern nv (nvram_mtd k) (boot_mtd k) (cfe_mtd k) (cfe_buf k) (cfe_nvram_header k) (watchdog_off k).
Definition set_mtd (s : option D) (k : kern D) : kern D :=
  Kern (k_nv k) s (boot_mtd k) (cfe_mtd k) (cfe_buf k) (cfe_nvram_header k) (watchdog_off k).
Definition set_boot (s : option D) (opened : bool) (buf : option bytes) (hdr : nat) (k : kern D) : kern D :=
  Kern (k_nv k) (nvram_mtd k) s opened buf hdr (watchdog_off k).
Definition bcm947xx_watchdog_disable (k : kern D) : kern D :=
  Kern (k_nv k) (nvram_mtd k) (boot_mtd k) (cfe_mtd k) (cfe_buf k) (cfe_nvram_header k) true.

(** The image in the MTD device, or what the early access left in [nvram_buf]. *)
Definition _nvram_read (k : kern D) : image * option D :=
  let early := image_of (nvram_buf (port (k_nv k))) in
  match nvram_mtd k with
  | None => (early, None)
  | Some s =>
      let '(ret, len, b, s) := MTD_READ s (mtd_size s - NVRAM_SPACE) NVRAM_SPACE in
      if truthy ret || negb (len =? NVRAM_SPACE) ||
         negb (h_magic (i_hdr (image_of b)) =? NVRAM_MAGIC)
      then (early, Some s) else (image_of b, Some s)
  end.

(** The call of [_nvram_init] in [dev_nvram_init]; [mem] is the result of its [MALLOC]. *)
Definition load_table (mem : option image) (k : kern D) : option (Z * kern D) :=
  let '(img, s) := _nvram_read k in
  let? (ret, nv) := _nvram_init stack (k_nv k) mem (fun _ => (0, img)) in
  Some (ret, set_nv nv (match mem with Some _ => set_mtd s k | None => k end)).

(** ** [nvram_commit] *)

(** The blocks from [offset] on are erased; the code does not look at [erase.state]. *)
Fixpoint erase_blocks (fuel : nat) (offset end_ : Z) (s : D) : option (Z * D) :=
  if offset <? end_ then
    match fuel with
    | O => None
    | Datatypes.S fuel =>
        let '(ret, _, s) := MTD_ERASE s offset (mtd_erasesize s) in
        if truthy ret then Some (ret, s)
        else erase_blocks fuel (offset + mtd_erasesize s) end_ s
    end
  else Some (0, s).

(** [MTD_WRITE] and its check, which makes every failure [-EIO]. *)
Definition write_all (s : D) (off : Z) (src : bytes) : Z * D :=
  let '(ret, len, s) := MTD_WRITE s off src in
  (if truthy ret || negb (len =? Z.of_nat (length src)) then -5 else 0, s).

(** The backup of the sector's beginning. *)
Definition read_backup (s : D) (offset i : Z) : Z * bytes * D :=
  if 0 <? i then
    let '(ret, len, b, s) := MTD_READ s offset i in
    (if truthy ret || negb (len =? i) then -5 else 0, b, s)
  else (0, [], s).

(** From the erase on: the sector's beginning [b] and the image, then the magic. *)
Definition commit_sector (b : bytes) (img : image) (offset i : Z) (s : D) : option (Z * D) :=
  let len := h_len (i_hdr img) in
  let? (ret, s) := erase_blocks (S (Z.to_nat NVRAM_SPACE)) offset
                     (mtd_size s - NVRAM_SPACE + len) s in
  if truthy ret then Some (ret, s) else
  let '(ret, s) := write_all s offset
    (b ++ take (Z.to_nat len) (image_bytes (set_magic NVRAM_INVALID_MAGIC img))) in
  if truthy ret then Some (ret, s) else
  let '(ret, s) := write_all s (offset + i) (le_bytes 4 NVRAM_MAGIC) in
  if truthy ret then Some (ret, s) else
  let '(ret, _, _, s) := MTD_READ s offset 4 in
  Some (ret, s).

(** [mem] is the address [kmalloc] returns.  [_nvram_commit] always returns 0. *)
Definition nvram_commit (in_interrupt : bool) (mem : option Z) (k : kern D) : option (Z * kern D) :=
  match nvram_mtd k with
  | None => Some (-19, k)
  | Some s =>
      if in_interrupt then Some (-22, k) else
      let erasesize := ROUNDUP NVRAM_SPACE (mtd_erasesize s) in
      match mem with
      | None => Some (-12, k)
      | Some buf =>
          let i := erasesize - NVRAM_SPACE in
          let offset := mtd_size s - erasesize in
          let '(ret, b, s) := read_backup s offset i in
          if truthy ret then Some (ret, set_mtd (Some s) k) else
          let '(ret, s) := write_all s (offset + i) (le_bytes 4 NVRAM_CLEAR_MAGIC) in
          if truthy ret then Some (ret, set_mtd (Some s) k) else
          let? (img, nv) := _nvram_commit stack (k_nv k) (buf + i + NVRAM_HEADER_SIZE) in
          let? (ret, s) := commit_sector b img offset i s in
          Some (ret, set_nv nv (set_mtd (Some s) k))
      end
  end.

(** ** The boot loader's sector *)

(** The first word with the magic; the last word when there is none. *)
Fixpoint find_header (fuel : nat) (i len : nat) (last : nat) (buf : bytes) : nat :=
  match fuel with
  | O => last
  | Datatypes.S fuel =>
      if (i <? len)%nat then
        if word_at buf i =? NVRAM_MAGIC then i else find_header fuel (i + 4) len i buf
      else last
  end.

(** [mem] tells whether [kmalloc] succeeds. *)
Definition cfe_init (mem : bool) (k : kern D) : kern D :=
  match boot_mtd k with
  | None => set_boot None false None (cfe_nvram_header k) k
  | Some s =>
      if negb mem then set_boot (Some s) false None (cfe_nvram_header k) k
      else
        let '(_, len, b, s) := MTD_READ s CFE_NVRAM_START (ROUNDUP CFE_NVRAM_SPACE (mtd_erasesize s)) in
        bcm947xx_watchdog_disable
          (set_boot (Some s) true (Some b)
             (find_header (length b) 0 (Z.to_nat len) (cfe_nvram_header k) b) k)
  end.

Definition cfe_ready (k : kern D) : bool := cfe_mtd k && bool_decide (is_Some (cfe_buf k)).

(** Every occurrence of the keyword has the bytes after the next one overwritten; the
    buffer, and whether there was one. *)
Fixpoint cfe_replace (n i : nat) (buf keyword value : bytes) (found : bool) : option (bytes * bool) :=
  match n with
  | O => Some (buf, found)
  | Datatypes.S n =>
      assert! (i <? length buf)%nat in
      if strncmp (cstr (drop i buf)) keyword (Z.to_nat (strlen keyword)) =? 0 then
        let at_ := (i + length keyword + 1)%nat in
        assert! (at_ + length value <=? length buf)%nat in
        cfe_replace n (i + 1) (splice buf at_ value) keyword value true
      else cfe_replace n (i + 1) buf keyword value found
  end.

(** A variable that is not there yet goes behind the image. *)
Definition cfe_append (buf : bytes) (hdr : nat) (keyword value : bytes) : option bytes :=
  let len := word_at buf (hdr + 4) in
  let entry := keyword ++ ch "=" :: value ++ [0] in
  let at_ := (hdr + Z.to_nat len)%nat in
  assert! (at_ + length entry <=? length buf)%nat in
  Some (splice (splice buf at_ entry) (hdr + 4)
          (le_bytes 4 (wrap32 (len + strlen keyword + strlen value + 2)))).

Definition cfe_crc (buf : bytes) (hdr : nat) : bytes :=
  let ver := word_at buf (hdr + 8) in
  let tmp := replicate 8 0 ++ le_bytes 4 ver ++ le_bytes 4 (word_at buf (hdr + 12)) ++
             le_bytes 4 (word_at buf (hdr + 16)) in
  let crc := hndcrc8 (drop 9 tmp) CRC8_INIT_VALUE in
  let crc := hndcrc8 (take (Z.to_nat (word_at buf (hdr + 4) - NVRAM_HEADER_SIZE))
                        (drop (hdr + 20) buf)) crc in
  splice buf (hdr + 8) (le_bytes 4 (Z.lor (Z.land ver 0xFFFFFF00) crc)).

Definition cfe_update (mem : bool) (keyword value : bytes) (k : kern D) : option (kern D) :=
  let k := if cfe_ready k then k else cfe_init mem k in
  if negb (cfe_ready k) then Some k else
  let? buf := cfe_buf k in
  let? (buf, found) := cfe_replace (Z.to_nat (CFE_NVRAM_END + 1 - CFE_NVRAM_START))
                         (Z.to_nat CFE_NVRAM_START) buf keyword value false in
  let? buf := if found : bool then Some buf else cfe_append buf (cfe_nvram_header k) keyword value in
  Some (set_boot (boot_mtd k) true (Some (cfe_crc buf (cfe_nvram_header k))) (cfe_nvram_header k) k).

Definition cfe_commit (mem : bool) (k : kern D) : option (Z * kern D) :=
  let k := if cfe_ready k then k else cfe_init mem k in
  if negb (cfe_ready k) then
    Some (-12, set_boot (boot_mtd k) false None (cfe_nvram_header k) k)
  else
  match boot_mtd k, cfe_buf k with
  | Some s, Some buf =>
      let? (ret, s) := erase_blocks (S (Z.to_nat CFE_NVRAM_END)) CFE_NVRAM_START (CFE_NVRAM_END + 1) s in
      let '(ret, s) := if truthy ret then (ret, s) else write_all s CFE_NVRAM_START buf in
      Some (ret, set_boot (Some s) false None (cfe_nvram_header k) k)
  | _, _ => None
  end.

(** ** The operations *)

(** [real_nvram_get] with what the caller makes of the pointer: the offset in
    [nvram_buf]. *)
Definition value_off (nv : nvram lx_port) (name : bytes) : option nat :=
  let? (_, t, _) := find_tuple (port nv) (bucket nv name) name in
  let? (_, v) := lx_heap (port nv) !! t in v.

(** [mem] is the block for the compaction, [mem'] whether [cfe_init] gets its buffer,
    [junk] the value of the uninitialised [ret]. *)
Definition nvram_set (junk : Z) (mem : option Z) (mem' : bool) (name value : bytes) (k : kern D)
    : option (Z * kern D) :=
  if strncmp name CFE_NVRAM_PREFIX (Z.to_nat (strlen CFE_NVRAM_PREFIX)) =? 0 then
    if strcmp name CFE_NVRAM_COMMIT =? 0 then
      let? (_, k) := cfe_commit mem' k in Some (junk, k)
    else if strcmp name CFE_NVRAM_WATCHDOG =? 0 then Some (junk, bcm947xx_watchdog_disable k)
    else
      let name := drop (length CFE_NVRAM_PREFIX) name in
      let? k := cfe_update mem' name value k in
      Some (junk, set_nv (_nvram_set (k_nv k) name value).2 k)
  else
    let '(ret, nv) := _nvram_set (k_nv k) name value in
    if truthy ret then
      match mem with
      | None => Some (ret, set_nv nv k)
      | Some header =>
          let? (_, nv) := _nvram_commit stack nv (header + NVRAM_HEADER_SIZE) in
          let '(ret, nv) := _nvram_set nv name value in
          Some (ret, set_nv nv k)
      end
    else Some (ret, set_nv nv k).

Definition nvram_unset (name : bytes) (k : kern D) : Z * kern D :=
  (0, set_nv (_nvram_unset (k_nv k) name) k).

Definition nvram_getall (nv : nvram lx_port) (base : Z) (count : nat) : option bytes :=
  _nvram_getall nv base count.

(** ** /dev/nvram *)

(** The name buffer of the device's read and write: [tmp], or a block from [kmalloc] when
    [mem] says it succeeds.  [tail] is what the memory behind the user's bytes holds. *)
Definition name_buffer (mem : bool) (user tail : bytes) : option bytes :=
  if (100 <? length user)%nat && negb mem then None else Some (user ++ tail).

(** The result and the user's buffer; [base] is the address of the kernel's copy. *)
Definition dev_nvram_read (mem : bool) (tail : bytes) (base : Z) (user : bytes) (k : kern D)
    : option (Z * bytes) :=
  match name_buffer mem user tail with
  | None => Some (-12, user)
  | Some name =>
      match cstr name with
      | [] => let? all := nvram_getall (k_nv k) base (length user) in
              Some (Z.of_nat (length user), all)
      | name =>
          match value_off (k_nv k) name with
          | None => Some (0, user)
          | Some off => Some (4, le_bytes 4 (Z.of_nat off) ++ drop 4 user)
          end
      end
  end.

(** [strsep(&value, "=")]. *)
Definition split_eq (s : bytes) : bytes * option bytes :=
  match strchr s (ch "=") with
  | None => (s, None)
  | Some eq => (take (length s - length eq) s, Some (drop 1 eq))
  end.

Definition dev_nvram_write (junk : Z) (block : option Z) (mem mem' : bool) (tail user : bytes)
    (k : kern D) : option (Z * kern D) :=
  match name_buffer mem user tail with
  | None => Some (-12, k)
  | Some buf =>
      let count := Z.of_nat (length user) in
      let '(name, value) := split_eq (cstr buf) in
      let? (ret, k) := match value with
                       | Some value => nvram_set junk block mem' name value k
                       | None => Some (nvram_unset name k)
                       end in
      Some (if truthy ret then ret else count, k)
  end.

Definition dev_nvram_ioctl (cmd : Z) (in_interrupt : bool) (mem : option Z) (k : kern D)
    : option (Z * kern D) :=
  if negb (cmd =? NVRAM_MAGIC) then Some (-22, k) else nvram_commit in_interrupt mem k.

End Kernel.

(** * Lemmas *)

(** No variable is called like the boot loader's commands. *)
Definition not_cfe (name : bytes) : Prop :=
  strncmp name CFE_NVRAM_PREFIX (Z.to_nat (strlen CFE_NVRAM_PREFIX)) <> 0.

(** A table whose variables can be written out, with room for a value of [k] bytes after a
    compaction. *)
Definition compact_ok {T : Type} `{Port T} (size : nat) (nv : nvram T) (k : nat) : Prop :=
  nvram_ok nv /\ (forall n v, to_map nv !! n = Some v -> plain n) /\
  (entries_size (pairs nv) <= DATA_SIZE - 2)%nat /\
  (entries_size (pairs nv) + (44 + k) <= size)%nat.

Section Set_.
Context {D : Type} `{Mtd D}.
Variable kmalloc : gset Z -> Z -> option Z.
Hypothesis kmalloc_fresh : forall used n a, kmalloc used n = Some a -> a ∉ used.
Hypothesis kmalloc_ok : forall used n, is_Some (kmalloc used n).
#[local] Instance kp : Port lx_port := lx_Port kmalloc.
#[local] Instance kl : PortLaws lx_port := lx_laws kmalloc kmalloc_fresh.
#[local] Instance kr : PortRoom lx_port := lx_room kmalloc kmalloc_ok.
Variable stack : Z.
Hypothesis Hstack : 0 < stack /\ stack + 11 <= 2 ^ 32.

(** A failed set changes nothing. *)
Lemma failed_set nv n v :
  (_nvram_set nv n v).1 <> 0 -> (_nvram_set nv n v).2 = nv.
Proof.
  unfold _nvram_set.
  set (t := match find_tuple _ _ _ with Some (_, t, _) => Some t | None => None end).
  cbn [nvram_realloc kp lx_Port].
  assert (Hn : forall s', lx_realloc kmalloc (port nv) t n v = (None, s') -> s' = port nv).
  { intros s'. unfold lx_realloc. destruct (_ <? _); [congruence|].
    destruct (match t with Some _ => _ | None => _ end) as [[[u m] w]|]; [|congruence].
    destruct (match lx_value _ _ with Some _ => _ | None => _ end); discriminate. }
  destruct (lx_realloc kmalloc (port nv) t n v) as [[u|] s'].
  - case_bool_decide; [by cbn|]. by destruct (find_tuple _ _ _) as [[[a x] b]|]; cbn.
  - intros _. rewrite (Hn s' eq_refl). by destruct nv.
Qed.

(** Writing the table out and reading it back keeps the variables and frees the rest. *)
Lemma compaction nv base k :
  compact_ok (Z.to_nat NVRAM_SPACE) nv k -> 0 < base -> base + Z.of_nat DATA_SIZE <= 2 ^ 32 ->
  exists img nv', _nvram_commit stack nv base = Some (img, nv') /\ nvram_ok nv' /\
    image_ok img /\ image_holds img (pairs nv) /\
    to_map nv' = sdram_defaults (i_hdr img) (to_map nv) /\ room (port nv') k.
Proof.
  intros (I & Hp & Hsize & Hroom) Hb Hb'. unfold _nvram_commit.
  destruct (commit_image_spec nv base Hb Hb') as (img & ps & -> & Hok & Hho & _ & _ & Hall).
  rewrite (Hall Hsize) in Hho.
  destruct (rehash_image stack nv img (pairs nv)
    (drop (Z.to_nat (h_len (i_hdr img) - NVRAM_HEADER_SIZE)) (i_data img)) k)
    as (nv' & Hre & I' & Hmap & Hr); try tauto; [by apply pairs_storable|by rewrite take_drop; apply Hok|].
  rewrite take_drop in Hre. destruct img as [h da]. cbn [i_hdr i_data] in *. rewrite Hre.
  exists (Image h da), nv'. rewrite Hmap, (set_all_pairs nv I). tauto.
Qed.

Lemma set_or_compact junk header mem' name value k :
  compact_ok (Z.to_nat NVRAM_SPACE) (k_nv k) (length value + 1) ->
  is_cstr name -> is_cstr value -> not_cfe name ->
  0 < header -> header + NVRAM_SPACE <= 2 ^ 32 ->
  exists nv', nvram_set kmalloc stack junk (Some header) mem' name value k = Some (0, set_nv nv' k) /\
    nvram_ok nv' /\
    (to_map nv' = <[name := value]> (to_map (k_nv k)) \/
     exists h, to_map nv' = <[name := value]> (sdram_defaults h (to_map (k_nv k)))).
Proof.
  intros K Hn Hv Hcfe Hh Hh'. unfold nvram_set. change (k_port kmalloc) with kp. apply Z.eqb_neq in Hcfe. rewrite Hcfe.
  pose proof (proj1 K) as I. pose proof (nvram_set_spec (k_nv k) name value I Hn Hv) as Hset.
  pose proof (failed_set (k_nv k) name value) as Hfail.
  destruct (_nvram_set (k_nv k) name value) as [r nv1]. cbn [fst snd] in *.
  destruct Hset as [I1 [[-> Hm]|[-> _]]].
  { exists nv1. cbn. auto. }
  rewrite (Hfail ltac:(done)). change (truthy (-12)) with true. cbn match.
  destruct (compaction (k_nv k) (header + NVRAM_HEADER_SIZE) _ K) as
    (img & nv2 & Hc & I2 & _ & _ & Hm2 & Hr2).
  { unfold NVRAM_HEADER_SIZE. lia. }
  { pose proof DATA_SIZE_Z. unfold NVRAM_HEADER_SIZE, NVRAM_SPACE in *. lia. }
  rewrite Hc.
  destruct (set_in_room nv2 name value 0 I2 Hn Hv) as (Hr & _ & I3 & Hm3).
  { by rewrite Nat.add_0_r. }
  destruct (_nvram_set nv2 name value) as [r3 nv3]. cbn [fst snd] in *. subst r3.
  exists nv3. split; [done|]. split; [done|]. right. exists (i_hdr img). by rewrite Hm3, Hm2.
Qed.
(** C37 The kernel's [nvram_set] succeeds whenever the variables and the new value fit into
    the store at all: when the value buffer is full it rewrites the table into the
    smallest space and tries again, and no other variable changes; at most the four
    SDRAM defaults appear. *)
Theorem nvram_set_compacts junk header mem' name value k :
  compact_ok (Z.to_nat NVRAM_SPACE) (k_nv k) (length value + 1) ->
  is_cstr name -> is_cstr value -> not_cfe name ->
  0 < header -> header + NVRAM_SPACE <= 2 ^ 32 ->
  exists nv', nvram_set kmalloc stack junk (Some header) mem' name value k = Some (0, set_nv nv' k) /\
    nvram_ok nv' /\
    (to_map nv' = <[name := value]> (to_map (k_nv k)) \/
     exists h, to_map nv' = <[name := value]> (sdram_defaults h (to_map (k_nv k)))).
Proof. apply set_or_compact. Qed.
End Set_.

(** ** Committing *)

Lemma roundup_spec x y : 0 < y -> x <= ROUNDUP x y < x + y /\ ROUNDUP x y mod y = 0.
Proof.
  intros Hy. unfold ROUNDUP. pose proof (Z.div_mod (x + (y - 1)) y).
  pose proof (Z.mod_pos_bound (x + (y - 1)) y Hy). rewrite Z.mod_mul by lia. lia.
Qed.

Lemma next_multiple a b y : 0 < y -> a mod y = 0 -> b mod y = 0 -> a < b -> a + y <= b.
Proof.
  intros Hy Ha Hb Hlt. apply Z.div_exact in Ha, Hb; [|lia..].
  rewrite Ha, Hb in Hlt |- *. apply Z.mul_lt_mono_pos_l in Hlt; [|done].
  replace (y * (a / y) + y) with (y * (a / y + 1)) by lia. apply Z.mul_le_mono_nonneg_l; lia.
Qed.

Lemma worn_start m lo hi : worn m lo hi m.
Proof. split; [done|]. auto. Qed.

Lemma worn_fill m lo off hi x m' :
  0 <= lo <= off -> off <= Z.of_nat (length m) -> off <= hi -> hi <= x ->
  worn (fill m lo off) off hi m' -> worn m lo x m'.
Proof.
  intros H1 H2 H3 H4 [Hl Hw]. split; [by rewrite Hl, length_fill|].
  intros j. destruct (Hw j) as [->|[? ?]]; [|right; split; [lia|done]].
  unfold fill. rewrite lookup_splice by (rewrite length_replicate; lia).
  rewrite length_replicate. case_decide; [right|by left]. split; [lia|]. apply lookup_replicate_2. lia.
Qed.

Lemma worn_ok m lo hi m' : Forall byte_ok m -> worn m lo hi m' -> Forall byte_ok m'.
Proof.
  intros Hm [_ Hw]. apply Forall_lookup. intros j c Hj. destruct (Hw j) as [H|[_ H]].
  - rewrite H in Hj. by eapply (proj1 (Forall_lookup _ _) Hm).
  - rewrite H in Hj. injection Hj as <-. unfold byte_ok. lia.
Qed.

(** Once the first byte of the magic is cleared, wearing does not bring it back. *)
Lemma worn_not_magic m lo hi m' off :
  Forall byte_ok m -> (off + 4 <= length m)%nat -> m !! off = Some 0 -> worn m lo hi m' ->
  ~ valid_at off m'.
Proof.
  intros Hm Hl H0 Hw. pose proof (worn_ok _ _ _ _ Hm Hw) as Hok. destruct Hw as [Hlen Hw].
  destruct (Hw off) as [H|[_ H]].
  - apply (not_magic _ off 0 0); [done|lia|lia|by rewrite Nat.add_0_r, H|discriminate].
  - apply (not_magic _ off 0 0xff); [done|lia|lia|by rewrite Nat.add_0_r|discriminate].
Qed.

(** The image is on the device, which is unchanged before it. *)
Definition committed (off : nat) (img : image) (m m' : bytes) : Prop :=
  let n := Z.to_nat (h_len (i_hdr img) - NVRAM_HEADER_SIZE) in
  take off m' = take off m /\
  exists junk, image_of (drop off m') = Image (i_hdr img) (take n (i_data img) ++ junk) /\
    length (take n (i_data img) ++ junk) = DATA_SIZE.

Section Commit.
Context {D : Type} `{MtdLaws D}.
Hypothesis Hreports : erase_reports D.

(** The same device, with other contents. *)
Definition same_geometry (s s' : D) : Prop :=
  mtd_wf s' /\ mtd_size s' = mtd_size s /\ mtd_erasesize s' = mtd_erasesize s.

Lemma erase_blocks_spec fuel lo off end_ s m :
  mtd_wf s -> 0 <= lo <= off -> off mod mtd_erasesize s = 0 -> off <= mtd_size s ->
  mem (chip s) = fill m lo off -> Z.of_nat (length m) = mtd_size s -> end_ <= mtd_size s ->
  end_ - off <= Z.of_nat fuel * mtd_erasesize s ->
  exists ret s', erase_blocks fuel off end_ s = Some (ret, s') /\ same_geometry s s' /\
    passes (worn m lo (mtd_size s)) (chip s) (chip s') /\
    worn m lo (mtd_size s) (mem (chip s')) /\
    (ret = 0 -> exists e, off <= e /\ end_ <= e <= mtd_size s /\ mem (chip s') = fill m lo e).
Proof.
  revert off s. induction fuel as [|fuel IH]; intros off s Hwf Hlo Hmod Hoff Hm Hlen Hend Hfuel;
    cbn [erase_blocks];
    assert (Hnow : worn m lo (mtd_size s) (mem (chip s))) by
      (rewrite Hm; apply (worn_fill m lo off off); [lia..|apply worn_start]).
  all: destruct (off <? end_) eqn:E; bool_simpl.
  all: try (exists 0, s; split; [done|]; split; [done|]; split; [by apply passes_none|];
    split; [done|]; intros _; exists off; split; [lia|]; split; [lia|done]).
  - lia.
  - destruct (wf_geometry s Hwf) as (Hes & Hsz & Hsm & _ & _).
    assert (Hfit : off + mtd_erasesize s <= mtd_size s).
    { apply next_multiple; lia. }
    destruct (MTD_ERASE s off (mtd_erasesize s)) as [[ret finished] s1] eqn:Ee.
    destruct (erase_law s off ret finished s1 Hwf ltac:(lia) Hmod Hfit Ee) as (Hw1 & Hs1 & He1 & P1 & W1 & F1).
    rewrite Hm in P1, W1.
    assert (Himp : forall x, worn (fill m lo off) off (off + mtd_erasesize s) x -> worn m lo (mtd_size s) x)
      by (intros x; apply worn_fill; lia).
    destruct (truthy ret) eqn:Er.
    { exists ret, s1. split; [done|]. split; [done|]. split; [by eapply passes_impl|].
      split; [by apply Himp|]. intros ->. done. }
    unfold truthy in Er. bool_simpl. subst ret. pose proof (Hreports _ _ _ _ _ Ee) as ->. rewrite He1.
    destruct (IH (off + mtd_erasesize s) s1) as (ret & s2 & -> & (Hw2 & Hs2 & He2) & P2 & W2 & F2).
    + done.
    + lia.
    + rewrite He1, <- Z.add_mod_idemp_l, Hmod, Z.add_0_l, Z.mod_same by lia. done.
    + lia.
    + rewrite F1, Hm by done. apply fill_fill; lia.
    + lia.
    + lia.
    + rewrite He1. lia.
    + rewrite Hs1 in *. exists ret, s2. split; [done|]. split; [split; [done|lia]|].
      split; [eapply passes_trans; [by eapply passes_impl|done]|]. split; [done|].
      intros Hr. destruct (F2 Hr) as (e & ? & ? & ?). exists e. split; [lia|]. split; [lia|done].
Qed.

Lemma write_all_spec s off src ret s' :
  mtd_wf s -> Forall byte_ok src -> Z.of_nat (off + length src) <= mtd_size s ->
  takes (mem (chip s)) off src -> write_all s (Z.of_nat off) src = (ret, s') ->
  same_geometry s s' /\ passes (partly (mem (chip s)) off src) (chip s) (chip s') /\
  partly (mem (chip s)) off src (mem (chip s')) /\
  (ret = 0 -> mem (chip s') = splice (mem (chip s)) off src).
Proof.
  intros Hw Hb Hfit Ht. unfold write_all.
  destruct (MTD_WRITE s (Z.of_nat off) src) as [[r len] s1] eqn:E. intros [= <- <-].
  destruct (write_law s off src r len s1 Hw Hb Hfit Ht E) as (? & ? & ? & P & W & F).
  split; [done|]. split; [done|]. split; [done|]. unfold truthy.
  destruct (r =? 0) eqn:Er, (len =? _) eqn:El; cbn; try discriminate. bool_simpl. auto.
Qed.

Section Sector.
Variable s : D.
Variable m : bytes.
Variable img : image.
Hypothesis Hwf : mtd_wf s.
Hypothesis Hm : mem (chip s) = m.
Hypothesis Himg : image_ok img.
Hypothesis Hdata : Forall byte_ok (i_data img).

Definition nv_start : nat := Z.to_nat (mtd_size s - NVRAM_SPACE).
Hypothesis Hclear : m !! nv_start = Some 0.

Let erasesize := ROUNDUP NVRAM_SPACE (mtd_erasesize s).
Let i := erasesize - NVRAM_SPACE.
Let off0 := mtd_size s - erasesize.
Let len := h_len (i_hdr img).
Let b := take (Z.to_nat i) (drop (Z.to_nat off0) m).
Let body := b ++ take (Z.to_nat len) (image_bytes (set_magic NVRAM_INVALID_MAGIC img)).

Lemma sector_facts :
  0 < mtd_erasesize s /\ off0 mod mtd_erasesize s = 0 /\ 0 <= off0 /\ 0 <= i /\
  erasesize < NVRAM_SPACE + mtd_erasesize s /\ NVRAM_SPACE <= mtd_size s /\
  Z.of_nat (length m) = mtd_size s /\ Forall byte_ok m /\ 22 <= len <= NVRAM_SPACE /\
  Z.of_nat nv_start = off0 + i /\ Z.of_nat (length b) = i /\
  Z.of_nat (length body) = i + len.
Proof.
  destruct (wf_geometry s Hwf) as (Hes & Hsz & Hsm & Hl & Hok). rewrite Hm in Hl, Hok.
  destruct (roundup_spec NVRAM_SPACE (mtd_erasesize s) Hes) as [Hr Hrm]. fold erasesize in Hr, Hrm.
  assert (Hle : erasesize <= mtd_size s).
  { destruct (Z.le_gt_cases erasesize (mtd_size s)) as [|Hgt]; [done|].
    pose proof (next_multiple _ _ _ Hes Hsm Hrm Hgt). lia. }
  destruct Himg as (_ & _ & Hd & Hlen & _). fold len in Hlen. unfold NVRAM_HEADER_SIZE in Hlen.
  assert (Hb : Z.of_nat (length b) = i).
  { unfold b. rewrite length_take, length_drop. unfold i, off0 in *. lia. }
  split; [done|]. split; [unfold off0; rewrite Zminus_mod, Hsm, Hrm; apply Z.mod_0_l; lia|].
  split; [unfold off0; lia|]. split; [unfold i; lia|]. split; [lia|]. split; [lia|].
  split; [lia|]. split; [done|]. split; [lia|].
  split; [unfold nv_start, off0, i, NVRAM_SPACE in *; lia|]. split; [done|].
  unfold body. rewrite length_app, length_take.
  pose proof (length_image_bytes (set_magic NVRAM_INVALID_MAGIC img) Hd) as Hi. unfold NV_SIZE in Hi.
  unfold NVRAM_SPACE in *. lia.
Qed.

(** The bytes written, by position. *)
Lemma body_magic j : (j < 4)%nat -> body !! (Z.to_nat i + j)%nat = Some 0xff.
Proof.
  intros Hj. destruct sector_facts as (_ & _ & _ & Hi & _ & _ & _ & _ & Hlen & _ & Hb & _).
  unfold body. rewrite lookup_app_r by lia. replace (Z.to_nat i + j - length b)%nat with j by lia.
  rewrite lookup_take_lt by lia. by do 4 (destruct j as [|j]; [done|]); lia.
Qed.

Lemma body_ok : Forall byte_ok body.
Proof.
  destruct sector_facts as (_ & _ & _ & _ & _ & _ & _ & Hok & _).
  unfold body, b. apply Forall_app. split; [by apply Forall_take, Forall_drop|].
  by apply Forall_take, image_bytes_ok.
Qed.

Variable e : Z.
Hypothesis He : off0 <= e /\ mtd_size s - NVRAM_SPACE + len <= e <= mtd_size s.

Lemma erased_takes : takes (fill m off0 e) (Z.to_nat off0) body.
Proof.
  destruct sector_facts as (_ & _ & Ho & Hi & _ & _ & Hm0 & _ & Hlen & Hst & Hb & Hbody).
  intros j c Hj. apply lookup_lt_Some in Hj. exists 0xff. split; [|by left].
  apply lookup_fill; [lia|lia|]. unfold i, off0 in *. lia.
Qed.

Lemma partly_not_magic m' : partly (fill m off0 e) (Z.to_nat off0) body m' -> ~ valid_at nv_start m'.
Proof.
  destruct sector_facts as (_ & _ & Ho & Hi & _ & Hs & Hm0 & Hok & Hlen & Hst & Hb & Hbody).
  assert (Hlf : length (fill m off0 e) = length m) by (apply length_fill; lia).
  assert (Hend : off0 + i + len <= e) by (unfold i, off0 in *; lia).
  intros (k & Hk & ->).
  assert (Hk' : (Z.to_nat off0 + length (take k body) <= length m)%nat) by (rewrite length_take; lia).
  apply (not_magic _ nv_start 0 0xff); [| |lia| |discriminate].
  - apply Forall_splice; [by apply fill_ok|apply Forall_take, body_ok].
  - rewrite length_splice by lia. unfold NVRAM_SPACE in *. lia.
  - rewrite Nat.add_0_r, lookup_splice by lia. rewrite length_take. case_decide.
    + rewrite lookup_take_lt by lia.
      replace (nv_start - Z.to_nat off0)%nat with (Z.to_nat i + 0)%nat by lia. apply body_magic. lia.
    + apply lookup_fill; lia.
Qed.

Definition final : bytes :=
  splice (splice (fill m off0 e) (Z.to_nat off0) body) nv_start (le_bytes 4 NVRAM_MAGIC).

(** What ends up on the device. *)
Lemma final_committed : length final = length m /\ committed nv_start img m final.
Proof.
  destruct sector_facts as (_ & _ & Ho & Hi & _ & Hs & Hm0 & Hok & Hlen & Hst & Hb & Hbody).
  destruct Himg as (Hmagic & Hu & Hd & _).
  assert (Hlf : length (fill m off0 e) = length m) by (apply length_fill; lia).
  assert (Hfit : (Z.to_nat off0 + length body <= length (fill m off0 e))%nat)
    by (unfold NVRAM_SPACE in *; lia).
  assert (Hl4 : length (le_bytes 4 NVRAM_MAGIC) = 4%nat) by done.
  assert (Hfit' : (nv_start + 4 <= length (splice (fill m off0 e) (Z.to_nat off0) body))%nat)
    by (rewrite length_splice by done; unfold NVRAM_SPACE in *; lia).
  unfold final. split; [rewrite length_splice, length_splice by lia; done|]. split.
  - apply list_eq. intros j. destruct (decide (j < nv_start)%nat).
    2:{ rewrite !lookup_take_ge by lia. done. }
    rewrite !lookup_take_lt, lookup_splice, decide_False, lookup_splice by lia. case_decide.
    + unfold body. rewrite lookup_app_l by lia. unfold b. rewrite lookup_take_lt, lookup_drop by lia.
      f_equal. lia.
    + unfold fill. rewrite lookup_splice by (rewrite length_replicate; lia).
      rewrite length_replicate, decide_False by lia. done.
  - set (n := Z.to_nat (h_len (i_hdr img) - NVRAM_HEADER_SIZE)).
    set (rest := drop (nv_start + Z.to_nat len) (fill m off0 e)).
    assert (Hfin : drop nv_start (splice (splice (fill m off0 e) (Z.to_nat off0) body) nv_start
                     (le_bytes 4 NVRAM_MAGIC)) = header_bytes (i_hdr img) ++ take n (i_data img) ++ rest).
    { rewrite drop_splice_0 by lia. rewrite Hl4.
      replace (nv_start + 4)%nat with (Z.to_nat off0 + (Z.to_nat i + 4))%nat by lia.
      rewrite drop_splice by lia. unfold body at 1. rewrite drop_app_ge by lia.
      replace (Z.to_nat i + 4 - length b)%nat with 4%nat by lia.
      replace (Z.to_nat off0 + length body)%nat with (nv_start + Z.to_nat len)%nat by lia.
      fold rest. rewrite app_assoc. rewrite app_assoc. f_equal.
      replace (Z.to_nat len) with (20 + n)%nat by (unfold n, NVRAM_HEADER_SIZE; fold len; lia).
      unfold image_bytes. cbn [i_hdr i_data set_magic]. rewrite take_app_add' by done.
      destruct img as [[]]. cbn in Hmagic. subst. reflexivity. }
    rewrite Hfin, image_of_header by done. rewrite take_app.
    assert (Hn : (n <= DATA_SIZE)%nat).
    { pose proof DATA_SIZE_Z. unfold n. fold len. unfold NVRAM_HEADER_SIZE, NVRAM_SPACE in *. lia. }
    rewrite take_take, Nat.min_r by lia. eexists. split; [done|].
    rewrite length_app, !length_take, Hd. unfold rest. rewrite length_drop, Hlf.
    assert (Z.of_nat n = len - 20) by (unfold n, NVRAM_HEADER_SIZE; fold len; lia).
    pose proof DATA_SIZE_Z. unfold NVRAM_SPACE in *. lia.
Qed.
End Sector.

(** Writing the magic over the invalid one. *)
Lemma magic_write m3 off m' :
  Forall byte_ok m3 -> (off + 4 <= length m3)%nat ->
  (forall j, (j < 4)%nat -> m3 !! (off + j)%nat = Some 0xff) ->
  partly m3 off (le_bytes 4 NVRAM_MAGIC) m' ->
  ~ valid_at off m' \/ m' = splice m3 off (le_bytes 4 NVRAM_MAGIC).
Proof.
  change (le_bytes 4 NVRAM_MAGIC) with [0x46; 0x4c; 0x53; 0x48].
  intros Hok Hl Hff (k & Hk & ->). cbn [length] in Hk.
  destruct (decide (k = 4%nat)) as [->|]; [by right|]. left.
  assert (Hk' : length (take k [0x46; 0x4c; 0x53; 0x48]) = k)
    by (rewrite length_take; cbn [length]; lia).
  apply (not_magic _ off 3 0xff); [|rewrite length_splice; lia|lia| |discriminate].
  - apply Forall_splice; [done|]. apply Forall_take. unfold byte_ok. repeat constructor; lia.
  - rewrite lookup_splice, Hk', decide_False by lia. apply Hff. lia.
Qed.

Lemma magic_takes m3 off :
  (forall j, (j < 4)%nat -> m3 !! (off + j)%nat = Some 0xff) ->
  takes m3 off (le_bytes 4 NVRAM_MAGIC).
Proof.
  intros Hff j c Hj. apply lookup_lt_Some in Hj. exists 0xff. split; [|by left]. by apply Hff.
Qed.

Lemma finish_spec s off0 off m3 :
  mtd_wf s -> mem (chip s) = m3 -> Forall byte_ok m3 -> 0 <= off0 -> off0 + 4 <= mtd_size s ->
  Z.of_nat off + 4 <= mtd_size s -> Z.of_nat (length m3) = mtd_size s ->
  (forall j, (j < 4)%nat -> m3 !! (off + j)%nat = Some 0xff) ->
  let final := splice m3 off (le_bytes 4 NVRAM_MAGIC) in
  let R x := ~ valid_at off x \/ x = final in
  exists ret s', (let '(ret, s) := write_all s (Z.of_nat off) (le_bytes 4 NVRAM_MAGIC) in
                  if truthy ret then Some (ret, s)
                  else let '(ret, _, _, s) := MTD_READ s off0 4 in Some (ret, s)) = Some (ret, s') /\
    same_geometry s s' /\ passes R (chip s) (chip s') /\ R (mem (chip s')) /\
    (ret = 0 -> mem (chip s') = final).
Proof.
  intros Hwf Hm Hok Ho Ho' Hoff Hl Hff final R.
  destruct (write_all s (Z.of_nat off) (le_bytes 4 NVRAM_MAGIC)) as [ret s1] eqn:E.
  assert (Hlen : length (le_bytes 4 NVRAM_MAGIC) = 4%nat) by done.
  destruct (write_all_spec s off (le_bytes 4 NVRAM_MAGIC) ret s1) as ((Hw1 & Hs1 & He1) & P & W & F);
    [done|apply le_bytes_ok|lia|rewrite Hm; by apply magic_takes|done|]. rewrite Hm in P, W, F.
  assert (HR : forall x, partly m3 off (le_bytes 4 NVRAM_MAGIC) x -> R x)
    by (intros x; apply magic_write; [done|lia|done]).
  destruct (truthy ret) eqn:Er.
  { exists ret, s1. split; [done|]. split; [done|]. split; [by eapply passes_impl|].
    split; [by apply HR|]. by intros ->. }
  unfold truthy in Er. bool_simpl. subst ret.
  destruct (MTD_READ s1 off0 4) as [[[ret len] b] s2] eqn:E2.
  destruct (read_law s1 off0 4 ret len b s2 Hw1) as (Hw2 & Hs2 & He2 & Hc & _); [lia..|done|].
  exists ret, s2. rewrite Hc. split; [done|]. split; [split; [done|lia]|].
  split; [by eapply passes_impl|]. split; [by apply HR|]. intros _. by apply F.
Qed.

Lemma commit_sector_spec s m img :
  let erasesize := ROUNDUP NVRAM_SPACE (mtd_erasesize s) in
  let i := erasesize - NVRAM_SPACE in
  let off0 := mtd_size s - erasesize in
  let b := take (Z.to_nat i) (drop (Z.to_nat off0) m) in
  let done_ := committed (nv_start s) img m in
  mtd_wf s -> mem (chip s) = m -> image_ok img -> Forall byte_ok (i_data img) ->
  m !! nv_start s = Some 0 ->
  exists ret s', commit_sector b img off0 i s = Some (ret, s') /\ same_geometry s s' /\
    passes (fun x => ~ valid_at (nv_start s) x \/ done_ x) (chip s) (chip s') /\
    (~ valid_at (nv_start s) (mem (chip s')) \/ done_ (mem (chip s'))) /\
    (ret = 0 -> done_ (mem (chip s'))).
Proof.
  intros erasesize i off0 b done_ Hwf Hm Himg Hdata Hclear.
  destruct (sector_facts s m img Hwf Hm Himg) as
    (Hes & Hmod & Ho & Hi & Her & Hs & Hm0 & Hok & Hlen & Hst & Hb & Hbody).
  pose proof (body_ok s m img Hwf Hm Himg Hdata) as Hbok.
  pose proof (erased_takes s m img Hwf Hm Himg) as Htake.
  pose proof (partly_not_magic s m img Hwf Hm Himg Hdata) as Hpart.
  pose proof (final_committed s m img Hwf Hm Himg Hdata Hclear) as Hfinal.
  pose proof (body_magic s m img Hwf Hm Himg) as Hff. unfold final in Hfinal.
  fold erasesize in Hmod, Ho, Hi, Her, Hst, Hb, Hbody, Hbok, Htake, Hpart, Hfinal, Hff.
  fold i off0 b in Hmod, Ho, Hi, Her, Hst, Hb, Hbody, Hbok, Htake, Hpart, Hfinal, Hff.
  set (len := h_len (i_hdr img)) in *.
  set (body := b ++ take (Z.to_nat len) (image_bytes (set_magic NVRAM_INVALID_MAGIC img))) in *.
  unfold commit_sector. fold len. fold body.
  destruct (erase_blocks_spec (Datatypes.S (Z.to_nat NVRAM_SPACE)) off0 off0
    (mtd_size s - NVRAM_SPACE + len) s m) as (ret & s1 & -> & G1 & P1 & W1 & F1); try done; try lia.
  { by rewrite fill_nil. }
  { rewrite Nat2Z.inj_succ, Z2Nat.id by (unfold NVRAM_SPACE; lia).
    unfold off0, erasesize, NVRAM_SPACE in *. nia. }
  assert (Hw : forall x, worn m off0 (mtd_size s) x -> ~ valid_at (nv_start s) x).
  { intros x. apply worn_not_magic; [done| |done]. unfold NVRAM_SPACE in *. lia. }
  assert (P1' : passes (fun x => ~ valid_at (nv_start s) x \/ done_ x) (chip s) (chip s1))
    by (eapply passes_impl; [|exact P1]; auto).
  destruct (truthy ret) eqn:Er.
  { exists ret, s1. split; [done|]. split; [done|]. split; [done|]. split; [auto|]. by intros ->. }
  unfold truthy in Er. bool_simpl. subst ret. destruct (F1 eq_refl) as (e & He1 & He2 & He).
  specialize (Htake e (conj He1 He2)). specialize (Hpart e (conj He1 He2)).
  specialize (Hfinal e (conj He1 He2)). destruct G1 as (Hw1 & Hs1 & He1').
  destruct (write_all s1 off0 body) as [ret s2] eqn:E2.
  rewrite <- (Z2Nat.id off0) in E2 by lia.
  destruct (write_all_spec s1 (Z.to_nat off0) body ret s2) as ((Hw2 & Hs2 & He2') & P2 & W2 & F2);
    [done|done|lia|by rewrite He|done|]. rewrite He in P2, W2, F2.
  assert (P2' : passes (fun x => ~ valid_at (nv_start s) x \/ done_ x) (chip s) (chip s2)).
  { eapply passes_trans; [exact P1'|]. eapply passes_impl; [|exact P2]. auto. }
  destruct (truthy ret) eqn:Er.
  { exists ret, s2. split; [done|]. split; [split; [done|lia]|]. split; [done|]. split; [auto|].
    by intros ->. }
  unfold truthy in Er. bool_simpl. subst ret. specialize (F2 eq_refl).
  destruct Hfinal as [_ Hfinal].
  assert (Hle : (Z.to_nat off0 + length body <= length m)%nat) by (unfold off0, erasesize, NVRAM_SPACE in *; lia).
  assert (Hlf : length (fill m off0 e) = length m) by (apply length_fill; lia).
  destruct (finish_spec s2 off0 (nv_start s) (mem (chip s2))) as (ret & s3 & Hrun & (? & ? & ?) & P3 & R3 & F3);
    try done; try (unfold NVRAM_SPACE in *; lia).
  { rewrite F2. apply Forall_splice; [by apply fill_ok|done]. }
  { rewrite F2, length_splice; lia. }
  { intros j Hj. rewrite F2, lookup_splice, decide_True by lia.
    rewrite <- (Hff j Hj). f_equal. lia. }
  rewrite Hst in Hrun. rewrite F2 in P3, R3, F3.
  exists ret, s3. split; [exact Hrun|]. split; [split; [done|lia]|].
  assert (HR : forall x, ~ valid_at (nv_start s) x \/ x = splice (splice (fill m off0 e)
    (Z.to_nat off0) body) (nv_start s) (le_bytes 4 NVRAM_MAGIC) -> ~ valid_at (nv_start s) x \/ done_ x).
  { intros x [?| ->]; [by left|by right]. }
  split; [eapply passes_trans; [exact P2'|eapply passes_impl; [exact HR|exact P3]]|]. split; [by apply HR|].
  intros Hr. by rewrite (F3 Hr).
Qed.

Lemma read_backup_spec s off0 i ret b s' :
  mtd_wf s -> 0 <= off0 -> 0 <= i -> off0 + i <= mtd_size s ->
  read_backup s off0 i = (ret, b, s') ->
  same_geometry s s' /\ chip s' = chip s /\
  (ret = 0 -> b = take (Z.to_nat i) (drop (Z.to_nat off0) (mem (chip s)))).
Proof.
  intros Hwf Ho Hi Hfit. unfold read_backup. destruct (0 <? i) eqn:E; bool_simpl.
  - destruct (MTD_READ s off0 i) as [[[r len] x] s1] eqn:Er. intros [= <- <- <-].
    destruct (read_law s off0 i r len x s1 Hwf Ho Hi Hfit Er) as (? & ? & ? & Hc & _ & _ & _ & Hx).
    split; [done|]. split; [done|]. unfold truthy.
    destruct (r =? 0) eqn:E1, (len =? i) eqn:E2; cbn; try discriminate. bool_simpl. auto.
  - intros [= <- <- <-]. split; [done|]. split; [done|]. intros _.
    by replace i with 0 by lia.
Qed.

(** Clearing the magic needs no erase, and one byte of it is enough. *)
Lemma clear_magic_mtd s off ret s' :
  mtd_wf s -> Z.of_nat off + 4 <= mtd_size s ->
  write_all s (Z.of_nat off) (le_bytes 4 NVRAM_CLEAR_MAGIC) = (ret, s') ->
  let R x := x = mem (chip s) \/ ~ valid_at off x in
  same_geometry s s' /\ passes R (chip s) (chip s') /\ R (mem (chip s')) /\
  (ret = 0 -> mem (chip s') = splice (mem (chip s)) off [0; 0; 0; 0]).
Proof.
  change (le_bytes 4 NVRAM_CLEAR_MAGIC) with [0; 0; 0; 0]. intros Hwf Hfit E R.
  destruct (wf_geometry s Hwf) as (_ & _ & _ & Hl & Hok).
  assert (Hz : Forall byte_ok [0; 0; 0; 0]) by (unfold byte_ok; repeat constructor; lia).
  destruct (write_all_spec s off [0; 0; 0; 0] ret s' Hwf Hz) as (G & P & W & F);
    [cbn [length]; lia| |done|].
  { intros j c Hj. pose proof (lookup_lt_Some _ _ _ Hj) as Hlt. cbn [length] in Hlt.
    destruct (lookup_lt_is_Some_2 (mem (chip s)) (off + j)) as [old Ho]; [lia|].
    exists old. split; [done|]. right. left.
    by do 4 (destruct j as [|j]; [by injection Hj|]). }
  assert (HR : forall x, partly (mem (chip s)) off [0; 0; 0; 0] x -> R x).
  { intros x (k & Hk & ->). destruct k as [|k]; [left; apply splice_nil|]. right.
    assert (Hk' : (off + length (take (S k) [0; 0; 0; 0]%Z) <= length (mem (chip s)))%nat)
      by (rewrite length_take; cbn [length]; lia).
    apply (not_magic _ off 0 0); [|rewrite length_splice; lia|lia| |discriminate].
    - apply Forall_splice; [done|]. by apply Forall_take.
    - rewrite Nat.add_0_r. by apply splice_first; [|lia|]. }
  split; [done|]. split; [by eapply passes_impl|]. split; [by apply HR|done].
Qed.

Lemma committed_clear off img m src x :
  (off + length src <= length m)%nat ->
  committed off img (splice m off src) x -> committed off img m x.
Proof.
  intros Hl [Ht Hj]. split; [|done]. by rewrite Ht, take_splice by lia.
Qed.

End Commit.

Section Kernel_commit.
Context {D : Type} `{MtdLaws D}.
Hypothesis Hreports : erase_reports D.
Variable kmalloc : gset Z -> Z -> option Z.
Hypothesis kmalloc_fresh : forall used n a, kmalloc used n = Some a -> a ∉ used.
Hypothesis kmalloc_ok : forall used n, is_Some (kmalloc used n).
#[local] Instance kq : Port lx_port := lx_Port kmalloc.
#[local] Instance kql : PortLaws lx_port := lx_laws kmalloc kmalloc_fresh.
#[local] Instance kqr : PortRoom lx_port := lx_room kmalloc kmalloc_ok.
Variable stack : Z.
Hypothesis Hstack : 0 < stack /\ stack + 11 <= 2 ^ 32.

(** C4 The kernel's [nvram_commit] survives power failures and failing drivers, if the driver reports a
    failed erase in its return value and does not return 0 before the erase is done (the code does not look at the state of
    the erase, which some drivers use for that): for variables that fit into the store, at every
    moment the device holds its old contents, or nothing that passes for an image, or the
    complete new image; this also describes what it leaves behind, whatever its result; and when
    it returns 0 the new image is there, with the rest of the erase block restored. *)
Theorem kernel_commit_crash_safe buf (k : kern D) s :
  nvram_mtd k = Some s -> mtd_wf s -> compact_ok (Z.to_nat NVRAM_SPACE) (k_nv k) 0 ->
  0 < buf -> buf + ROUNDUP NVRAM_SPACE (mtd_erasesize s) <= 2 ^ 32 ->
  exists img ret nv' s', nvram_commit kmalloc stack false (Some buf) k
      = Some (ret, set_nv nv' (set_mtd (Some s') k)) /\
    image_ok img /\ image_holds img (pairs (k_nv k)) /\
    let R m := m = mem (chip s) \/ ~ valid_at (nv_start s) m \/
               committed (nv_start s) img (mem (chip s)) m in
    passes R (chip s) (chip s') /\ R (mem (chip s')) /\
    (ret = 0 -> committed (nv_start s) img (mem (chip s)) (mem (chip s'))).
Proof.
  intros Hs Hwf K Hb Hb'. set (erasesize := ROUNDUP NVRAM_SPACE (mtd_erasesize s)) in *.
  set (i := erasesize - NVRAM_SPACE). set (off0 := mtd_size s - erasesize). set (m := mem (chip s)).
  assert (Hi0 : 0 <= i).
  { destruct (wf_geometry s Hwf) as (Hes & _).
    pose proof (roundup_spec NVRAM_SPACE (mtd_erasesize s) Hes). unfold i, erasesize. lia. }
  destruct (compaction kmalloc kmalloc_fresh kmalloc_ok stack Hstack (k_nv k)
    (buf + i + NVRAM_HEADER_SIZE) 0 K) as (img & nv' & Hc & _ & Himg & Hho & _ & _).
  { unfold NVRAM_HEADER_SIZE. lia. }
  { pose proof DATA_SIZE_Z. unfold i, NVRAM_HEADER_SIZE, NVRAM_SPACE in *. lia. }
  assert (Hdata : Forall byte_ok (i_data img)).
  { destruct Hho as (z & -> & _), K as (I & Hp & _). apply Forall_app.
    split; [by apply entries_ok, pairs_storable|]. apply Forall_replicate. unfold byte_ok. lia. }
  destruct (sector_facts s m img Hwf eq_refl Himg) as
    (Hes & Hmod & Ho & _ & Her & Hsz & Hm0 & Hok & Hlen & Hst & _).
  fold erasesize in Hmod, Ho, Her, Hst. fold off0 i in Hmod, Ho, Hst.
  set (off := nv_start s) in *.
  set (R := fun x => x = m \/ ~ valid_at off x \/ committed off img m x).
  assert (Hresult : exists ret nvx s', nvram_commit kmalloc stack false (Some buf) k
      = Some (ret, set_nv nvx (set_mtd (Some s') k)) /\ passes R (chip s) (chip s') /\
      R (mem (chip s')) /\ (ret = 0 -> committed off img m (mem (chip s')))).
  2:{ destruct Hresult as (ret & nvx & s' & ? & ? & ? & ?). by exists img, ret, nvx, s'. }
  assert (Hearly : forall s1, set_mtd (Some s1) k = set_nv (k_nv k) (set_mtd (Some s1) k))
    by (intros; by destruct k).
  unfold nvram_commit. rewrite Hs. cbv zeta. fold erasesize. fold i off0.
  destruct (read_backup s off0 i) as [[ret b] s1] eqn:E1.
  destruct (read_backup_spec s off0 i ret b s1 Hwf Ho Hi0) as ((Hw1 & Hs1 & He1) & Hc1 & Hb1);
    [unfold off0, i, NVRAM_SPACE; lia|done|].
  destruct (truthy ret) eqn:Er.
  { exists ret, (k_nv k), s1. rewrite <- Hearly, Hc1. split; [done|]. split; [by apply passes_none|].
    split; [by left|]. by intros ->. }
  unfold truthy in Er. bool_simpl. subst ret. specialize (Hb1 eq_refl). fold m in Hb1.
  rewrite <- Hst. destruct (write_all s1 (Z.of_nat off) _) as [ret s2] eqn:E2.
  assert (Hoff4 : Z.of_nat off + 4 <= mtd_size s) by (unfold off0, i, NVRAM_SPACE in *; lia).
  destruct (clear_magic_mtd s1 off ret s2 Hw1) as ((Hw2 & Hs2 & He2) & P2 & W2 & F2);
    [lia|done|]. rewrite Hc1 in P2, W2, F2. fold m in P2, W2, F2.
  assert (P2' : passes R (chip s) (chip s2)) by (eapply passes_impl; [|exact P2]; unfold R; tauto).
  destruct (truthy ret) eqn:Er.
  { exists ret, (k_nv k), s2. rewrite <- Hearly. split; [done|]. split; [done|].
    split; [unfold R; tauto|]. by intros ->. }
  unfold truthy in Er. bool_simpl. subst ret. specialize (F2 eq_refl).
  change (kp kmalloc) with (k_port kmalloc) in Hc. rewrite Hc.
  assert (Hfit : (off + length [0; 0; 0; 0]%Z <= length m)%nat) by (cbn [length]; lia).
  assert (Hst2 : nv_start s2 = off) by (unfold off, nv_start; congruence).
  destruct (commit_sector_spec Hreports s2 (splice m off [0; 0; 0; 0]) img Hw2 F2 Himg Hdata)
    as (ret & s3 & Hrun & _ & P3 & W3 & F3).
  { rewrite Hst2, lookup_splice, decide_True by (cbn [length] in *; lia). by rewrite Nat.sub_diag. }
  rewrite Hst2 in P3, W3, F3. rewrite He2, He1, Hs2, Hs1 in Hrun. fold erasesize in Hrun.
  fold i off0 in Hrun.
  assert (Hbeq : b = take (Z.to_nat i) (drop (Z.to_nat off0) (splice m off [0; 0; 0; 0]))).
  { rewrite Hb1, !take_drop_commute.
    replace (Z.to_nat off0 + Z.to_nat i)%nat with off by lia. by rewrite take_splice by lia. }
  rewrite Hbeq, Hrun. exists ret, nv', s3. split; [done|].
  assert (HR : forall x, ~ valid_at off x \/ committed off img (splice m off [0; 0; 0; 0]) x -> R x).
  { intros x [?|Hx]; [by right; left|]. right; right. by eapply committed_clear. }
  split; [eapply passes_trans; [exact P2'|eapply passes_impl; [exact HR|exact P3]]|]. split; [by apply HR|].
  intros Hr. eapply committed_clear; [exact Hfit|by apply F3].
Qed.
End Kernel_commit.

(** * Instances of the properties *)

(** A 64 KB device of one erase block whose operations fail as planned: [None] for an
    operation that works, [Some n] for one that stops after [n] bytes. *)
Record dev := Dev { d_chip : flash; d_plan : list (option nat) }.

Definition dev_next (s : dev) : option nat := match d_plan s with p :: _ => p | [] => None end.
Definition dev_do (s : dev) (f : flash) : dev := Dev f (tail (d_plan s)).

#[export] Instance dev_Mtd : Mtd dev := {
  mtd_size _ := 0x10000;
  mtd_erasesize _ := 0x10000;
  chip := d_chip;
  MTD_READ s off n :=
    match dev_next s with
    | None => (0, n, take (Z.to_nat n) (drop (Z.to_nat off) (mem (d_chip s))), dev_do s (d_chip s))
    | Some _ => (-5, 0, replicate (Z.to_nat n) 0, dev_do s (d_chip s))
    end;
  MTD_WRITE s off src :=
    let '(ret, src) := match dev_next s with None => (0, src) | Some n => (-5, take n src) end in
    (ret, Z.of_nat (length src),
     dev_do s (set_mem (splice (mem (d_chip s)) (Z.to_nat off) src) (d_chip s)));
  MTD_ERASE s off n :=
    match dev_next s with
    | None => (0, true, dev_do s (set_mem (fill (mem (d_chip s)) off (off + n)) (d_chip s)))
    | Some _ => (-5, false, dev_do s (d_chip s))
    end
}.

Lemma dev_reports : erase_reports dev.
Proof. intros s off n finished s' E. cbn in E. by destruct (dev_next s); injection E. Qed.

Lemma fill_worn m lo hi : 0 <= lo <= hi -> hi <= Z.of_nat (length m) -> worn m lo hi (fill m lo hi).
Proof.
  intros H1 H2. split; [by apply length_fill|]. intros j. unfold fill.
  rewrite lookup_splice by (rewrite length_replicate; lia). rewrite length_replicate.
  case_decide; [right|by left]. split; [lia|]. apply lookup_replicate_2. lia.
Qed.

#[export] Instance dev_laws : MtdLaws dev.
Proof.
  refine {| mtd_wf s := length (mem (d_chip s)) = Z.to_nat 0x10000 /\
                        Forall byte_ok (mem (d_chip s)) |};
    cbn [mtd_size mtd_erasesize chip MTD_READ MTD_WRITE MTD_ERASE dev_Mtd].
  - intros s [Hl Hok]. unfold NVRAM_SPACE. split; [lia|]. split; [lia|]. split; [reflexivity|]. auto.
  - intros s off n ret len b s' [Hl Hok] Ho Hn Hfit E.
    destruct (dev_next s); injection E as <- <- <- <-; cbn [dev_do d_chip].
    + do 4 (split; [done|]). split; [lia|]. split; [rewrite length_replicate; lia|].
      split; [apply Forall_replicate; unfold byte_ok; lia|]. discriminate.
    + do 4 (split; [done|]). split; [lia|].
      split; [rewrite length_take, length_drop; lia|].
      split; [by apply Forall_take, Forall_drop|]. done.
  - intros s off src ret len s' [Hl Hok] Hb Hfit _ E. rewrite Nat2Z.id in E.
    set (part := match dev_next s with None => src | Some n => take n src end).
    assert (Hpart : exists k, (k <= length src)%nat /\ part = take k src).
    { unfold part. destruct (dev_next s) as [n|].
      - exists (Nat.min n (length src)). split; [lia|].
        destruct (decide (n <= length src)%nat); [by rewrite Nat.min_l|].
        rewrite Nat.min_r, !take_ge by lia. done.
      - exists (length src). by rewrite take_ge. }
    assert (E' : s' = dev_do s (set_mem (splice (mem (d_chip s)) off part) (d_chip s)))
      by (unfold part; destruct (dev_next s); congruence).
    destruct Hpart as (k & Hk & Hpart). subst s'. cbn [dev_do d_chip set_mem mem].
    assert (Hlp : (length part <= length src)%nat) by (rewrite Hpart, length_take; lia).
    split; [split; [rewrite length_splice by lia; done|]|].
    { apply Forall_splice; [done|]. rewrite Hpart. by apply Forall_take. }
    do 2 (split; [done|]). split; [|split].
    + apply passes_one; [done|]. apply partly_start.
    + exists k. by rewrite Hpart.
    + intros Hret Hlen. do 2 f_equal. unfold part in *.
      destruct (dev_next s); [|done]. injection E as <- <-. done.
  - intros s off ret finished s' [Hl Hok] Ho Hmod Hfit E. assert (off = 0) as -> by lia.
    destruct (dev_next s); injection E as <- <- <-; cbn [dev_do d_chip set_mem mem].
    + do 3 (split; [done|]). split; [by apply passes_none|]. split; [apply worn_start|]. discriminate.
    + split; [split; [by rewrite length_fill by lia|by apply fill_ok]|]. do 2 (split; [done|]).
      split; [apply passes_one; [done|apply worn_start]|]. split; [|done].
      apply fill_worn; lia.
Defined.

Definition lx_malloc (used : gset Z) (size : Z) : option Z := Some (fresh used).
Lemma lx_malloc_fresh used n a : lx_malloc used n = Some a -> a ∉ used.
Proof. intros [= <-]. apply is_fresh. Qed.
Lemma lx_malloc_ok used n : is_Some (lx_malloc used n).
Proof. by eexists. Qed.

(** A table without variables whose value buffer is used up, on a cleared device. *)
Definition full_nv : nvram lx_port :=
  Nv (replicate HASH_SIZE []) [] (Lx ∅ (replicate (Z.to_nat NVRAM_SPACE) 0) (Z.to_nat NVRAM_SPACE)).

Lemma full_nv_ok : @compact_ok lx_port (lx_Port lx_malloc) (Z.to_nat NVRAM_SPACE) full_nv 100.
Proof.
  assert (I : @nvram_ok lx_port (lx_Port lx_malloc) full_nv).
  { apply (@empty_ok lx_port (lx_Port lx_malloc) (lx_laws lx_malloc lx_malloc_fresh)); [|apply dom_empty_L].
    split; [apply length_replicate|]. split; [apply Forall_replicate; unfold byte_ok; lia|].
    split; [reflexivity|]. intros t n v Hv. discriminate Hv. }
  split; [exact I|]. split.
  - intros n v Hn. unfold full_nv in Hn.
    rewrite (@empty_map lx_port (lx_Port lx_malloc)) in Hn. discriminate Hn.
  - change (entries_size (@pairs lx_port (lx_Port lx_malloc) full_nv)) with 0%nat.
    pose proof DATA_SIZE_Z. unfold NVRAM_SPACE. lia.
Qed.

Definition ex_dev (plan : list (option nat)) : dev :=
  Dev (Flash (replicate (Z.to_nat 0x10000) 0) [] []) plan.
Definition ex_kern (plan : list (option nat)) : kern dev :=
  Kern full_nv (Some (ex_dev plan)) None false None 0 false.

Lemma nvram_set_compacts_witness :
  exists nv', nvram_set lx_malloc 0x1000 7 (Some 0x100000) true (str "os") (str "linux") (ex_kern [])
      = Some (0, set_nv nv' (ex_kern [])) /\
    @to_map lx_port (lx_Port lx_malloc) nv' !! str "os" = Some (str "linux").
Proof.
  destruct (nvram_set_compacts lx_malloc lx_malloc_fresh lx_malloc_ok 0x1000
    ltac:(split; [reflexivity|discriminate]) 7 0x100000 true (str "os") (str "linux") (ex_kern []))
    as (nv' & Hrun & _ & Hmap).
  - destruct full_nv_ok as (I & Hp & Hs & Hr). split; [exact I|]. split; [exact Hp|].
    split; [exact Hs|]. eapply Nat.le_trans; [|exact Hr]. cbn. lia.
  - repeat constructor.
  - repeat constructor.
  - vm_compute. discriminate.
  - reflexivity.
  - discriminate.
  - exists nv'. split; [exact Hrun|].
    change (kp lx_malloc) with (lx_Port lx_malloc) in Hmap.
    destruct Hmap as [Hmap|[h Hmap]]; rewrite Hmap; apply lookup_insert_eq.
Defined.

(** The write of the image fails after 100 bytes: nothing valid is left. *)
Lemma kernel_commit_crash_safe_witness :
  exists img ret nv' s',
    nvram_commit lx_malloc 0x1000 false (Some 0x100000) (ex_kern [None; None; None; Some 100%nat])
      = Some (ret, set_nv nv' (set_mtd (Some s') (ex_kern [None; None; None; Some 100%nat]))) /\
    image_ok img /\ (ret = 0 -> committed (nv_start (ex_dev [])) img (replicate (Z.to_nat 0x10000) 0) (mem (d_chip s'))).
Proof.
  destruct (kernel_commit_crash_safe dev_reports lx_malloc lx_malloc_fresh lx_malloc_ok 0x1000
    ltac:(split; [reflexivity|discriminate]) 0x100000 (ex_kern [None; None; None; Some 100%nat])
    (ex_dev [None; None; None; Some 100%nat])) as (img & ret & nv' & s' & Hrun & Hok & _ & _ & _ & Hdone).
  - reflexivity.
  - split; [apply length_replicate|]. apply Forall_replicate. unfold byte_ok. lia.
  - destruct full_nv_ok as (I & Hp & Hs & Hr). split; [exact I|]. split; [exact Hp|].
    split; [exact Hs|]. eapply Nat.le_trans; [|exact Hr]. cbn. lia.
  - reflexivity.
  - vm_compute. discriminate.
  - exists img, ret, nv', s'. split; [exact Hrun|]. split; [exact Hok|]. exact Hdone.
Defined.

(** The same device, but an erase that fails part of the way says so in its state only, and
    writing can clear bits but not set them. *)
Definition mute_Mtd : Mtd dev := {|
  mtd_size _ := 0x10000;
  mtd_erasesize _ := 0x10000;
  chip := d_chip;
  MTD_READ := @MTD_READ dev dev_Mtd;
  MTD_WRITE s off src :=
    let old := take (length src) (drop (Z.to_nat off) (mem (d_chip s))) in
    (0, Z.of_nat (length src), dev_do s (set_mem (splice (mem (d_chip s)) (Z.to_nat off) (zip_with Z.land old src)) (d_chip s)));
  MTD_ERASE s off n :=
    match dev_next s with
    | None => (0, true, dev_do s (set_mem (fill (mem (d_chip s)) off (off + n)) (d_chip s)))
    | Some k => (0, false, dev_do s (set_mem (fill (mem (d_chip s)) off (off + Z.of_nat k)) (d_chip s)))
    end
|}.

(** With such a driver the commit returns 0, and leaves an image with its magic whose data are
    those of the old contents where the erase did not come to. *)
Example mute_erase_mixes :
  match @nvram_set dev mute_Mtd lx_malloc 0x1000 7 (Some 0x100000) true (str "os") (str "linux")
          (ex_kern [None; None; Some (Z.to_nat 0x8014)]) with
  | Some (_, k) =>
      match @nvram_commit dev mute_Mtd lx_malloc 0x1000 false (Some 0x100000) k with
      | Some (ret, k') =>
          match nvram_mtd k' with
          | Some s =>
              let area := drop (Z.to_nat 0x8000) (mem (d_chip s)) in
              (ret, is_magic area, bytes_eqb (take 8 (drop 20 area)) (str "os=linux")) = (0, true, false)
          | None => False
          end
      | None => False
      end
  | None => False
  end.
Proof. vm_compute. reflexivity. Qed.
