(* ===== verification/NvramEarly.v ===== *)
(** The kernel's variables before the device exists: [early_nvram_init] and
    [early_nvram_get] of nvram_linux.c.

    They read the image on the flash in place; the theorem says that their answers are
    those of the table that [nvram_rehash] builds from the same image, but for the four
    defaults that it adds. *)

From Stdlib Require Import ZArith Lia Bool List String Ascii.
From stdpp Require Import base numbers list gmap.
From S2P Require Import Prelude CString Crc NvramPort Nvram NvramFlash.

#[local] Open Scope Z_scope.

Section Early.
(** The bytes of the address space from an address on. *)
Variable at_addr : Z -> bytes.

Definition crc_magic (a : Z) : bool :=
  let img := image_of (at_addr a) in
  (h_magic (i_hdr img) =? NVRAM_MAGIC) &&
  (nvram_calc_crc img =? Z.land (h_crc_ver_init (i_hdr img)) 0xff).

(** What [early_nvram_init] leaves in [nvram_buf]; [base] and [lim] are those of the
    flash the chip has. *)
Definition early_nvram_init (base lim : Z) (nvram_buf : bytes) : option bytes :=
  let? found := find_loop crc_magic 32 base FLASH_MIN lim in
  let found := match found with
               | Some a => Some a
               | None =>
                   if crc_magic (base + 4 * 1024) then Some (base + 4 * 1024)
                   else if crc_magic (base + 1024) then Some (base + 1024) else None
               end in
  match found with
  | None => Some nvram_buf
  | Some a =>
      let src := at_addr a in
      let n := Z.to_nat (ROUNDUP (Z.max NVRAM_HEADER_SIZE
                 (Z.min (h_len (header_of src)) NVRAM_SPACE)) 4) in
      Some (take n src ++ drop n nvram_buf)
  end.

(** The scan for name=value; each round takes at least one byte. *)
Fixpoint early_get_loop (fuel : nat) (var name : bytes) : option (option bytes) :=
  match fuel with
  | O => None
  | Datatypes.S fuel =>
      match cstr var with
      | [] => Some None
      | entry =>
          match strchr entry (ch "=") with
          | None => Some None
          | Some eq =>
              let value := drop 1 eq in
              let n := (length entry - length eq)%nat in
              if (Z.of_nat n =? strlen name) && (strncmp entry name n =? 0)
              then Some (Some value)
              else early_get_loop fuel (drop (length entry + 1) var) name
          end
      end
  end.

(** The value, and [nvram_buf]. *)
Definition early_nvram_get (base lim : Z) (nvram_buf : bytes) (name : bytes)
    : option (option bytes * bytes) :=
  let? buf := if hd 0 nvram_buf =? 0 then early_nvram_init base lim nvram_buf
              else Some nvram_buf in
  let buf := splice buf (Z.to_nat (NVRAM_SPACE - 2)) [0; 0] in
  let? value := early_get_loop (Datatypes.S (length buf)) (drop 20 buf) name in
  Some (value, buf).

End Early.


(** * Lemmas *)

(** The first entry of that name. *)
Lemma early_get_loop_spec ps fuel rest name :
  Forall storable ps -> is_cstr name -> cstr rest = [] -> (length ps < fuel)%nat ->
  early_get_loop fuel (entries ps ++ rest) name
  = Some ((list_to_map ps : gmap bytes bytes) !! name).
Proof.
  intros Hps Hname Hrest. revert fuel. induction Hps as [|[n v] ps ((Hne & Heq) & Hn & Hv) Hps IH];
    intros fuel Hf; (destruct fuel as [|fuel]; [cbn in *; lia|]); cbn [early_get_loop].
  { cbn [entries map concat app]. by rewrite Hrest. }
  cbn [fst snd] in *. unfold entries in *. cbn [map concat]. rewrite <- app_assoc.
  rewrite cstr_entry by done. destruct (n ++ ch "=" :: v) as [|x y] eqn:E; [by destruct n|].
  rewrite <- E. rewrite (strchr_app n (ch "=" :: v) (ch "=")) by done.
  assert (Hlen : (length (n ++ ch "=" :: v) - length (ch "=" :: v) = length n)%nat)
    by (rewrite length_app; lia).
  rewrite Hlen, strlen_length. cbn [drop].
  replace (drop (length (n ++ ch "=" :: v) + 1) (entry (n, v) ++ concat (map entry ps) ++ rest))
    with (concat (map entry ps) ++ rest).
  2:{ rewrite drop_app_length'; [done|]. unfold entry. cbn [fst snd].
      rewrite !length_app. cbn [length]. rewrite length_app. cbn. lia. }
  cbn [list_to_map foldr uncurry fst snd].
  assert (Htest : (Z.of_nat (length n) =? Z.of_nat (length name)) &&
    (strncmp (n ++ ch "=" :: v) name (length n) =? 0) = bool_decide (n = name)).
  { apply eq_true_iff_eq. rewrite andb_true_iff, !Z.eqb_eq, bool_decide_eq_true.
    rewrite strncmp_take.
    - rewrite take_app_length. split.
      + intros [Hl Hs]. rewrite take_ge in Hs by lia. done.
      + intros ->. by rewrite firstn_all.
    - apply Forall_app. split; [by apply cstr_bytes|]. constructor; [by unfold byte_ok|by apply cstr_bytes].
    - by apply cstr_bytes. }
  rewrite Htest. case_bool_decide as Hnn.
  - subst. by rewrite lookup_insert_eq.
  - rewrite lookup_insert_ne by done. apply IH. cbn in Hf. lia.
Qed.

(** The data behind [len] does not matter for the checksum. *)
Lemma calc_crc_junk img junk :
  image_ok img ->
  nvram_calc_crc (Image (i_hdr img)
    (take (Z.to_nat (h_len (i_hdr img) - NVRAM_HEADER_SIZE)) (i_data img) ++ junk))
  = nvram_calc_crc img.
Proof.
  intros (_ & _ & Hl & Hlen & _). pose proof DATA_SIZE_Z.
  unfold nvram_calc_crc. cbn [i_hdr i_data]. f_equal.
  apply take_app_length'. rewrite length_take, Hl. unfold NVRAM_HEADER_SIZE, NVRAM_SPACE in *. lia.
Qed.

Lemma drop_splice_below obj i k s :
  (k <= i)%nat -> (i + length s <= length obj)%nat ->
  drop k (splice obj i s) = splice (drop k obj) (i - k) s.
Proof.
  intros Hk Hl. apply list_eq. intros j.
  rewrite lookup_drop, !lookup_splice by (rewrite ?length_drop; lia). rewrite lookup_drop.
  repeat case_decide; try lia; [f_equal; lia|done].
Qed.

(** What a search for [NVRAM_MAGIC] with a valid checksum finds first, at the top of a
    region of [2 ^ x] bytes. *)
Definition first_image (at_addr : Z -> bytes) (base lim x : Z) (img : image) : Prop :=
  let n := Z.to_nat (h_len (i_hdr img) - NVRAM_HEADER_SIZE) in
  17 <= x < 32 /\ 2 ^ x <= lim /\
  (forall z, 17 <= z < x -> crc_magic at_addr (base + 2 ^ z - NVRAM_SPACE) = false) /\
  exists junk, image_of (at_addr (base + 2 ^ x - NVRAM_SPACE))
    = Image (i_hdr img) (take n (i_data img) ++ junk) /\
    length (at_addr (base + 2 ^ x - NVRAM_SPACE)) = Z.to_nat NVRAM_SPACE.

(** What the early access leaves in [nvram_buf] up to the image's length. *)
Lemma early_init_spec at_addr base lim x img buf :
  first_image at_addr base lim x img -> image_ok img -> length buf = Z.to_nat NVRAM_SPACE ->
  let n := Z.to_nat (h_len (i_hdr img) - NVRAM_HEADER_SIZE) in
  exists buf' rest, early_nvram_init at_addr base lim buf = Some buf' /\
    length buf' = Z.to_nat NVRAM_SPACE /\ drop 20 buf' = take n (i_data img) ++ rest.
Proof.
  intros (Hx & Hlim & Hno & junk & Himg & Hlen) Hok Hbuf n.
  set (a := base + 2 ^ x - NVRAM_SPACE) in *. fold n in Himg.
  assert (Hmagic : crc_magic at_addr a = true).
  { unfold crc_magic. rewrite Himg. cbv zeta. cbn [i_hdr].
    pose proof (calc_crc_junk img junk Hok) as Hcrc. fold n in Hcrc. rewrite Hcrc.
    destruct Hok as (-> & _ & _ & _ & _ & _ & ->). by rewrite !Z.eqb_refl. }
  destruct Hok as (_ & _ & Hl & Hlen' & Hmod & _). pose proof DATA_SIZE_Z as HD.
  unfold early_nvram_init. change FLASH_MIN with (2 ^ 17).
  assert (Hfind : find_loop (crc_magic at_addr) 32 base (2 ^ 17) lim = Some (Some a)).
  { apply (find_loop_finds (crc_magic at_addr) base lim x 17 32); [lia|exact Hlim|lia|exact Hno|exact Hmagic]. }
  rewrite Hfind.
  assert (Hh : header_of (at_addr a) = i_hdr img) by (by injection Himg).
  rewrite Hh. replace (Z.max _ _) with (NVRAM_HEADER_SIZE + (h_len (i_hdr img) - NVRAM_HEADER_SIZE))
    by (unfold NVRAM_HEADER_SIZE in *; lia).
  assert (Hr : Z.to_nat (ROUNDUP (NVRAM_HEADER_SIZE + (h_len (i_hdr img) - NVRAM_HEADER_SIZE)) 4) = (20 + n)%nat).
  { pose proof (Z.div_mod (h_len (i_hdr img)) 4 ltac:(lia)).
    unfold ROUNDUP, n, NVRAM_HEADER_SIZE in *.
    replace (20 + (h_len (i_hdr img) - 20) + (4 - 1)) with (3 + (h_len (i_hdr img) / 4) * 4) by lia.
    rewrite Z.div_add by lia. change (3 / 4) with 0. lia. }
  rewrite Hr. set (src := at_addr a) in *.
  assert (Hn : (n <= DATA_SIZE /\ 20 + n <= Z.to_nat NVRAM_SPACE)%nat)
    by (unfold n, NVRAM_HEADER_SIZE, NVRAM_SPACE in *; lia).
  exists (take (20 + n) src ++ drop (20 + n) buf), (drop (20 + n) buf). split; [done|].
  split; [rewrite length_app, length_take, length_drop; lia|].
  rewrite drop_app_le by (rewrite length_take; lia). f_equal.
  rewrite <- take_drop_commute.
  assert (Hdata : take DATA_SIZE (drop 20 src) = take n (i_data img) ++ junk) by (by injection Himg).
  transitivity (take n (take DATA_SIZE (drop 20 src))); [by rewrite take_take, Nat.min_l by lia|].
  rewrite Hdata. apply take_app_length'. rewrite length_take. lia.
Qed.

(** The value that the header has for one of the four parameters of the memory. *)
Definition sdram_default (h : nvram_header) (name : bytes) : option bytes :=
  if decide (name = str "sdram_init") then Some (hex_text 4 (wrap16 (Z.shiftr (h_crc_ver_init h) 16)))
  else if decide (name = str "sdram_config") then Some (hex_text 4 (wrap16 (h_config_refresh h)))
  else if decide (name = str "sdram_refresh") then Some (hex_text 4 (wrap16 (Z.shiftr (h_config_refresh h) 16)))
  else if decide (name = str "sdram_ncdl") then Some (hex_text 8 (h_config_ncdl h))
  else None.

Lemma default_to_lookup n v m name : default_to n v m !! name = match m !! name with Some w => Some w | None => if decide (name = n) then Some v else None end.
Proof.
  unfold default_to. destruct (m !! n) as [w|] eqn:E; destruct (decide (name = n)) as [->|Hne].
  - by rewrite E.
  - by destruct (m !! name).
  - by rewrite lookup_insert_eq, E.
  - rewrite lookup_insert_ne by congruence. by destruct (m !! name).
Qed.

Lemma sdram_defaults_lookup h m name : sdram_defaults h m !! name = match m !! name with Some w => Some w | None => sdram_default h name end.
Proof.
  unfold sdram_defaults, sdram_default. rewrite !default_to_lookup. destruct (m !! name); [done|].
  destruct (decide (name = str "sdram_init")); [done|]. destruct (decide (name = str "sdram_config")); [done|].
  destruct (decide (name = str "sdram_refresh")); [done|]. by destruct (decide (name = str "sdram_ncdl")).
Qed.

(** The early access answers with the variables of the image. *)
Lemma early_nvram_get_ok at_addr base lim x img ps buf name :
  first_image at_addr base lim x img -> image_ok img -> image_holds img ps ->
  Forall storable ps -> NoDup (map fst ps) -> length buf = Z.to_nat NVRAM_SPACE ->
  hd 0 buf = 0 -> is_cstr name ->
  exists buf', early_nvram_get at_addr base lim buf name = Some ((set_all ∅ ps : gmap bytes bytes) !! name, buf').
Proof.
  intros Hfirst Hok Hho Hst Hnd Hbuf Hhd Hname.
  destruct (early_init_spec at_addr base lim x img buf Hfirst Hok Hbuf) as (b & rest & Hb & Hlb & Hdrop).
  destruct Hok as (_ & _ & Hl & Hlen & _), Hho as (z & Hdata & Hz). pose proof DATA_SIZE_Z as HD.
  unfold early_nvram_get. rewrite Hhd. change (0 =? 0) with true. cbn match. rewrite Hb.
  assert (Hspace : (Z.to_nat (NVRAM_SPACE - 2) + 2 <= length b)%nat) by (unfold NVRAM_SPACE in *; lia).
  rewrite drop_splice_below by (cbn [length]; unfold NVRAM_SPACE in *; lia).
  replace (Z.to_nat (NVRAM_SPACE - 2) - 20)%nat with (DATA_SIZE - 2)%nat by (unfold NVRAM_SPACE in *; lia).
  set (n := Z.to_nat (h_len (i_hdr img) - NVRAM_HEADER_SIZE)) in *.
  assert (Hn : (entries_size ps + 2 <= n <= DATA_SIZE)%nat)
    by (unfold n, NVRAM_HEADER_SIZE, NVRAM_SPACE in *; lia).
  assert (Htail : exists rest', drop 20 b = entries ps ++ rest' /\ cstr rest' = []).
  { rewrite Hdrop, Hdata, take_app, (take_ge (entries ps)), take_replicate, <- app_assoc
      by (unfold entries_size in *; lia).
    eexists. split; [done|]. destruct (Nat.min _ z) as [|j] eqn:Ej; [|done].
    rewrite Hdata, length_app, length_replicate in Hl. unfold entries_size in *. lia. }
  destruct Htail as (rest' & Hent & Hrest').
  destruct (splice_end ps rest') as (rest2 & Hsp & Hrest2); [|lia|done|].
  { rewrite <- Hent, length_drop. unfold NVRAM_SPACE in *. lia. }
  rewrite Hent, Hsp. eexists.
  rewrite early_get_loop_spec; [|exact Hst|exact Hname|exact Hrest2|].
  - by rewrite set_all_spec, map_union_empty.
  - pose proof (length_pairs_entries ps). rewrite length_splice by (cbn [length]; lia).
    unfold NVRAM_SPACE in *. lia.
Qed.

(** The table that is built from the same image. *)
Section Table.
Context {S : Type} `{PortLaws S} `{!PortRoom S}.

(** C38 The early access answers what the table built from the same image holds: on a flash whose
    first image, at one of the places that both look at, is well formed and has no name twice, for
    every name, the scan
    ends with a value [v] such that [nvram_rehash] of that image, into any table, returns, and
    [_nvram_get] on the new table then gives [v]; only where the early access finds nothing and
    the name is one of the four sdram_ parameters, the table has the value of the header
    instead, which [nvram_rehash] adds and the early access does not know.  The image has room
    for its variables in the memory of the table. *)
Theorem early_nvram_get_agrees at_addr base lim x img ps buf name :
  first_image at_addr base lim x img -> image_ok img -> image_holds img ps -> Forall storable ps -> NoDup (map fst ps) ->
  length buf = Z.to_nat NVRAM_SPACE -> hd 0 buf = 0 -> is_cstr name ->
  (entries_size ps <= DATA_SIZE - 2)%nat -> (entries_size ps + 44 <= port_size)%nat ->
  exists v buf', early_nvram_get at_addr base lim buf name = Some (v, buf') /\
    forall stack (nv : nvram S) junk, 0 < stack -> stack + 11 <= 2 ^ 32 -> nvram_ok nv ->
      let n := Z.to_nat (h_len (i_hdr img) - NVRAM_HEADER_SIZE) in
      length (take n (i_data img) ++ junk) = DATA_SIZE ->
      exists nv', nvram_rehash stack nv (Image (i_hdr img) (take n (i_data img) ++ junk)) = Some nv' /\
        _nvram_get nv' name = match v with Some w => Some w | None => sdram_default (i_hdr img) name end.
Proof.
  intros Hfirst Hok Hho Hst Hnd Hbuf Hhd Hname Hsize Hroom.
  destruct (early_nvram_get_ok at_addr base lim x img ps buf name Hfirst Hok Hho Hst Hnd Hbuf Hhd Hname) as (buf' & E).
  eexists _, buf'. split; [exact E|]. intros stack nv junk Hs Hs' I n Hj.
  destruct (rehash_image stack nv img ps junk 0 Hs Hs' I Hst Hok Hho Hsize ltac:(lia) Hj) as (nv' & Hre & I' & Hm & _).
  exists nv'. split; [exact Hre|]. rewrite nvram_get_spec, Hm by done. apply sdram_defaults_lookup.
Qed.
End Table.

(** * Instances of the property *)

(** The image of one variable, at the top of 128 KB of flash. *)
Definition ex_image : image :=
  match commit_image (S := rw_port) (H := ex_port) ex_nv 0x1000 with
  | Some img => img
  | None => Image (Header 0 0 0 0 0) []
  end.

Definition ex_at (a : Z) : bytes :=
  if a =? 0x1c000000 + 2 ^ 17 - NVRAM_SPACE then image_bytes ex_image else [].

#[local] Existing Instances ex_port ex_laws ex_room.

Lemma early_nvram_get_agrees_witness :
  exists v buf' img junk, early_nvram_get ex_at 0x1c000000 0x2000000 (replicate (Z.to_nat NVRAM_SPACE) 0) (str "os") = Some (v, buf') /\
    exists nv', nvram_rehash (S := rw_port) (H := ex_port) 0x1000 ex_nv (Image (i_hdr img) (take (Z.to_nat (h_len (i_hdr img) - NVRAM_HEADER_SIZE)) (i_data img) ++ junk)) = Some nv' /\
      _nvram_get (H := ex_port) nv' (str "os") = match v with Some w => Some w | None => sdram_default (i_hdr img) (str "os") end.
Proof.
  destruct (commit_image_spec (H := ex_port) ex_nv 0x1000) as
    (img & ps & Hc & Hok & Hho & _ & _ & Hall); [lia|pose proof DATA_SIZE_Z; lia|].
  assert (Hex : ex_image = img) by (unfold ex_image; rewrite Hc; reflexivity).
  rewrite ex_pairs in Hall. specialize (Hall ltac:(pose proof DATA_SIZE_Z;
    change (entries_size [(str "os", str "linux")]) with 9%nat; lia)). subst ps.
  assert (Hlb : length (image_bytes img) = Z.to_nat NVRAM_SPACE).
  { pose proof (length_image_bytes img (proj1 (proj2 (proj2 Hok)))) as Hl.
    unfold NVRAM_SPACE, Flash.NV_SIZE in *. lia. }
  destruct (early_nvram_get_agrees ex_at 0x1c000000 0x2000000 17 img [(str "os", str "linux")]
    (replicate (Z.to_nat NVRAM_SPACE) 0) (str "os")) as (v & buf' & Hget & Htab).
  - assert (Hat : ex_at (0x1c000000 + 2 ^ 17 - NVRAM_SPACE) = image_bytes img)
      by (unfold ex_at; rewrite Z.eqb_refl, Hex; reflexivity).
    split; [lia|]. split; [vm_compute; congruence|]. split; [lia|].
    exists (drop (Z.to_nat (h_len (i_hdr img) - NVRAM_HEADER_SIZE)) (i_data img)).
    rewrite take_drop, Hat. split; [|exact Hlb].
    rewrite <- (app_nil_r (image_bytes img)).
    rewrite image_of_bytes; [destruct img; reflexivity|apply Hok|apply Hok].
  - exact Hok.
  - exact Hho.
  - constructor; [|constructor]. split; [|split; repeat constructor].
    split; [discriminate|]. apply (bool_decide_unpack _). vm_compute. exact Logic.I.
  - apply NoDup_singleton.
  - apply length_replicate.
  - reflexivity.
  - repeat constructor.
  - pose proof DATA_SIZE_Z. change (entries_size [(str "os", str "linux")]) with 9%nat. lia.
  - change (entries_size [(str "os", str "linux")]) with 9%nat. cbv delta [port_size ex_room rw_room] beta iota. pose proof DATA_SIZE_Z. lia.
  - exists v, buf', img, (drop (Z.to_nat (h_len (i_hdr img) - NVRAM_HEADER_SIZE)) (i_data img)). split; [exact Hget|].
    apply Htab; [lia|lia|exact (proj1 ex_nv_ok)|]. rewrite take_drop. apply Hok.
Defined.

(** A name that the image does not have: nothing early, the header's value in the table. *)
Example early_knows_no_defaults :
  (option_map fst (early_nvram_get ex_at 0x1c000000 0x2000000 (replicate (Z.to_nat NVRAM_SPACE) 0) (str "sdram_init")) = Some None) /\
  sdram_default (i_hdr ex_image) (str "sdram_init") = Some (str "0x0419").
Proof. split; vm_compute; reflexivity. Qed.
