(* ===== verification/NvramUser.v ===== *)
(** The variables as programs see them: router/nvram/nvram_linux.c, the user half of
    /dev/nvram.

    A read returns an offset into the kernel's value buffer, which the library maps; a
    write sends name=value.  The theorem composes the library with the driver of
    [NvramLinux.v], the table of [Nvram.v] and the value buffer of [NvramPort.v]. *)

From Stdlib Require Import ZArith Lia Bool List String Ascii.
From stdpp Require Import base numbers list gmap.
From S2P Require Import Prelude CString Format Crc NvramPort Nvram NvramFlash NvramLinux.

#[local] Open Scope Z_scope.

Section User.
Context {D : Type} `{Mtd D}.
Variable kmalloc : gset Z -> Z -> option Z.
#[local] Instance u_port : Port lx_port := lx_Port kmalloc.
(** Where [nvram_rehash]'s buffer and the driver's copy of a name are. *)
Variable stack base : Z.
(** The memory behind the bytes the driver copies. *)
Variable tail : bytes.
(** Whether [nvram_init] succeeds, and the allocations of the library, the driver's
    copy, and [cfe_init]. *)
Variable ready umem kmem cmem : bool.
(** The compaction's block, and the driver's uninitialised result. *)
Variable block : option Z.
Variable junk : Z.

(** The C library's [read] and [write]: errors are -1. *)
Definition syscall (ret : Z) : Z := if ret <? 0 then -1 else ret.

Definition nvram_get (name : bytes) (k : kern D) : option (option bytes) :=
  let count := (length name + 1)%nat in
  if negb ready then Some None
  else if (100 <? count)%nat && negb umem then Some None
  else
    let? (ret, off) := dev_nvram_read kmalloc kmem tail base (name ++ [0]) k in
    Some (if syscall ret =? 4
          then Some (cstr (drop (Z.to_nat (le_value (take 4 off))) (nvram_buf (port (k_nv k)))))
          else None).

(** The result, and the buffer; [buf] is what it held. *)
Definition nvram_getall (buf : bytes) (k : kern D) : option (Z * bytes) :=
  if negb ready then Some (-1, buf)
  else match buf with
       | [] => Some (0, buf)
       | _ :: rest =>
           let? (ret, all) := dev_nvram_read kmalloc kmem tail base (0 :: rest) k in
           let ret := syscall ret in
           Some (if ret =? Z.of_nat (length buf) then 0 else ret, all)
       end.

(** [sprintf("%02X")] of a byte. *)
Definition hex2 (c : Z) : bytes := [nth (Z.to_nat (c / 16)) digits 0; nth (Z.to_nat (c mod 16)) digits 0].

(** The value that is really sent; [vtail] is the memory behind the value. *)
Definition wsc_value (wsc_set : bool) (vtail name : bytes) (value : option bytes) : option (option bytes) :=
  let? value := if wsc_set && (strncmp name (str "wl_key1") 7 =? 0)
                then let? v := value in
                     Some (Some (cstr (concat (map hex2 (take 13 (v ++ 0 :: vtail))))))
                else Some value in
  if wsc_set && (strcmp name (str "wl_ssid") =? 0)
  then let? v := value in Some (Some (if 32 <? strlen v then take 32 v else v))
  else Some value.

Definition _nvram_set (vtail name : bytes) (value : option bytes) (k : kern D)
    : option (Z * kern D) :=
  let? wsc := nvram_get (str "wsc_set") k in
  let wsc_set := match wsc with Some v => strcmp v (str "1") =? 0 | None => false end in
  let? value := wsc_value wsc_set vtail name value in
  if negb ready then Some (-1, k)
  else
    let buf := match value with
               | Some v => name ++ ch "=" :: v ++ [0]
               | None => name ++ [0]
               end in
    if (100 <? length buf)%nat && negb umem then Some (-12, k)
    else
      let? (ret, k) := dev_nvram_write kmalloc stack junk block kmem cmem tail buf k in
      let ret := syscall ret in
      Some (if ret =? Z.of_nat (length buf) then 0 else ret, k).

Definition nvram_set (vtail name value : bytes) (k : kern D) : option (Z * kern D) :=
  _nvram_set vtail name (Some value) k.
Definition nvram_unset (name : bytes) (k : kern D) : option (Z * kern D) :=
  _nvram_set [] name None k.

(** The argument of the driver's [nvram_commit]: not in an interrupt. *)
Definition nvram_commit (mem : option Z) (k : kern D) : option (Z * kern D) :=
  if negb ready then Some (-1, k)
  else let? (ret, k) := dev_nvram_ioctl kmalloc stack NVRAM_MAGIC false mem k in
       Some (syscall ret, k).

End User.

(** * Lemmas *)

Section Round.
Context {D : Type} `{Mtd D}.
Variable kmalloc : gset Z -> Z -> option Z.
Hypothesis kmalloc_fresh : forall used n a, kmalloc used n = Some a -> a ∉ used.
Hypothesis kmalloc_ok : forall used n, is_Some (kmalloc used n).
#[local] Instance ru : Port lx_port := lx_Port kmalloc.
#[local] Instance rul : PortLaws lx_port := lx_laws kmalloc kmalloc_fresh.
#[local] Instance rur : PortRoom lx_port := lx_room kmalloc kmalloc_ok.
Variable stack base : Z.
Hypothesis Hstack : 0 < stack /\ stack + 11 <= 2 ^ 32.
Variable tail : bytes.
Variable block junk : Z.
Hypothesis Hblock : 0 < block /\ block + NVRAM_SPACE <= 2 ^ 32.

(** Everything that can be allocated is. *)
Definition get (name : bytes) (k : kern D) : option (option bytes) :=
  nvram_get kmalloc base tail true true true name k.
Definition set (vtail name value : bytes) (k : kern D) : option (Z * kern D) :=
  nvram_set kmalloc stack base tail true true true true (Some block) junk vtail name value k.

(** The offset the driver hands out is that of the value. *)
Lemma value_off_spec nv name :
  nvram_ok nv -> is_cstr name ->
  match to_map nv !! name with
  | Some v => exists o, value_off kmalloc nv name = Some o /\ cstr (drop o (nvram_buf (port nv))) = v /\
                0 <= Z.of_nat o < 2 ^ 32
  | None => value_off kmalloc nv name = None
  end.
Proof.
  intros I Hn. rewrite <- nvram_get_spec by done. unfold _nvram_get, value_off.
  pose proof (find_tuple_bucket nv name I Hn) as Hf.
  change (lx_Port kmalloc) with ru in *.
  destruct (find_tuple (port nv) (bucket nv name) name) as [[[a t] b]|]; [|done].
  destruct Hf as [Hb _].
  assert (Ht : t ∈ live (port nv)).
  { apply (live_table nv t I), (bucket_in nv name t I). rewrite Hb. set_solver. }
  cbn [ru lx_Port live t_value] in *. apply elem_of_dom in Ht as [[n v] Ht]. rewrite Ht.
  destruct (n_port _ I) as (_ & _ & Hoff & Hheap). destruct (Hheap t n v Ht) as (o & -> & Ho).
  exists o. split; [done|]. split; [done|]. unfold NVRAM_SPACE in *. lia.
Qed.

(** [nvram_get] of the library is a lookup in the kernel's table. *)
Lemma user_get_spec name k :
  nvram_ok (k_nv k) -> is_cstr name -> name <> [] ->
  get name k = Some (to_map (k_nv k) !! name).
Proof.
  intros I Hn Hne. unfold get, nvram_get. cbn [negb andb]. rewrite andb_false_r.
  unfold dev_nvram_read, name_buffer. cbn [negb andb]. rewrite andb_false_r.
  rewrite <- app_assoc. cbn [app]. rewrite cstr_app by done. destruct name as [|c name']; [done|].
  pose proof (value_off_spec (k_nv k) (c :: name') I Hn) as Hv.
  set (name := c :: name') in *. change (u_port kmalloc) with ru.
  destruct (to_map (k_nv k) !! name) as [v|]; [|by rewrite Hv].
  destruct Hv as (o & -> & Hcs & Ho). change (syscall 4 =? 4) with true. cbn match.
  rewrite take_app_length' by done. rewrite le_value_le_bytes by done. by rewrite Nat2Z.id, Hcs.
Qed.

Lemma split_eq_entry n v : ch "=" ∉ n -> split_eq (n ++ ch "=" :: v) = (n, Some v).
Proof.
  intros Hn. unfold split_eq. rewrite (strchr_app n (ch "=" :: v) (ch "=")) by done.
  f_equal. rewrite length_app, Nat.add_sub. apply take_app_length.
Qed.

(** C3 The user's [nvram_set] followed by [nvram_get] returns the value, and other
    variables keep theirs, through the library, the driver, the table and the kernel's
    value buffer, even when the driver has to compact the buffer first.  This holds of every name without an = that does
    not begin with asuscfe (those are commands to the boot loader's copy), of every value that fits
    into the store with the others after a compaction, when allocations succeed, and,
    while the variable wsc_set is 1, of names other than wl_ssid and those that begin with wl_key1, whose values
    the library then changes. *)
Theorem user_set_get vtail name value k :
  compact_ok (Z.to_nat NVRAM_SPACE) (k_nv k) (length value + 1) ->
  plain name -> is_cstr name -> is_cstr value -> not_cfe name ->
  (to_map (k_nv k) !! str "wsc_set" = Some (str "1") -> strncmp name (str "wl_key1") 7 <> 0 /\ strcmp name (str "wl_ssid") <> 0) ->
  exists k', set vtail name value k = Some (0, k') /\ nvram_ok (k_nv k') /\
    get name k' = Some (Some value) /\
    forall n v, n <> name -> is_cstr n -> n <> [] -> get n k = Some (Some v) ->
      get n k' = Some (Some v).
Proof.
  intros K [Hne Heq] Hn Hv Hcfe Hwsc. destruct K as (I & K).
  assert (Hset : exists nv', NvramLinux.nvram_set kmalloc stack junk (Some block) true name value k
      = Some (0, set_nv nv' k) /\ nvram_ok nv' /\
    (to_map nv' = <[name := value]> (to_map (k_nv k)) \/
     exists h, to_map nv' = <[name := value]> (sdram_defaults h (to_map (k_nv k))))).
  { apply (set_or_compact kmalloc kmalloc_fresh kmalloc_ok stack Hstack); try done; tauto. }
  destruct Hset as (nv' & Hset & I' & Hmap). exists (set_nv nv' k).
  assert (Hrun : set vtail name value k = Some (0, set_nv nv' k)).
  { unfold set, nvram_set, _nvram_set.
    pose proof (user_get_spec (str "wsc_set") k I ltac:(repeat constructor) ltac:(done)) as Hw.
    unfold get in Hw. rewrite Hw. set (wsc := match to_map _ !! _ with Some _ => _ | None => _ end).
    assert (wsc_value wsc vtail name (Some value) = Some (Some value)) as ->.
    { assert (Hw1 : wsc = true -> to_map (k_nv k) !! str "wsc_set" = Some (str "1")).
      { unfold wsc. destruct (to_map (k_nv k) !! str "wsc_set") as [w|] eqn:Ew; [|done].
        intros Hc%Z.eqb_eq. f_equal. apply strcmp_eq in Hc; [done| |apply cstr_bytes; repeat constructor].
        apply elem_of_list_to_map_2 in Ew.
        pose proof (pairs_storable (k_nv k) I (proj1 K)) as Hst.
        apply cstr_bytes. by apply (proj1 (Forall_forall _ _) Hst) in Ew as (_ & _ & ?). }
      unfold wsc_value. destruct wsc; [|done]. destruct (Hwsc (Hw1 eq_refl)) as [H1 H2].
      apply Z.eqb_neq in H1, H2. by rewrite H1, H2. }
    cbn [andb negb option_bind]. rewrite andb_false_r.
    unfold dev_nvram_write, name_buffer. cbn [negb andb]. rewrite andb_false_r.
    replace ((name ++ ch "=" :: value ++ [0]) ++ tail) with ((name ++ ch "=" :: value) ++ 0 :: tail)
      by (rewrite <- !app_assoc; cbn [app]; by rewrite <- app_assoc).
    rewrite cstr_app by (apply Forall_app; split; [done|constructor; [by unfold char_ok|done]]).
    rewrite split_eq_entry by done. rewrite Hset.
    change (truthy 0) with false. cbn match. unfold syscall.
    rewrite (proj2 (Z.ltb_ge _ _)) by lia. by rewrite Z.eqb_refl. }
  split; [exact Hrun|]. split; [exact I'|].
  rewrite (user_get_spec name (set_nv nv' k)) by done. split.
  - destruct Hmap as [Hm|[h Hm]]; cbn [k_nv set_nv]; by rewrite Hm, lookup_insert_eq.
  - intros n v Hnn Hcn Hnne. rewrite !user_get_spec by done. intros [= Hold].
    destruct Hmap as [Hm|[h Hm]]; cbn [k_nv set_nv]; rewrite Hm, lookup_insert_ne by done.
    + by rewrite Hold.
    + by rewrite (sdram_defaults_keeps _ _ _ _ Hold).
Qed.
End Round.

(** * Instances of the property *)

(** The kernel's buffer is used up when the variable is set. *)
Lemma user_set_get_witness :
  exists k', set lx_malloc 0x1000 0x2000 [] 0x100000 7 [] (str "os") (str "linux") (ex_kern [])
      = Some (0, k') /\
    get lx_malloc 0x2000 [] (str "os") k' = Some (Some (str "linux")).
Proof.
  destruct (user_set_get lx_malloc lx_malloc_fresh lx_malloc_ok 0x1000 0x2000
    ltac:(split; [reflexivity|discriminate]) [] 0x100000 7 ltac:(split; [reflexivity|discriminate])
    [] (str "os") (str "linux") (ex_kern [])) as (k' & Hset & _ & Hget & _).
  - destruct full_nv_ok as (I & Hp & Hs & Hr). split; [exact I|]. split; [exact Hp|].
    split; [exact Hs|]. eapply Nat.le_trans; [|exact Hr]. cbn. lia.
  - split; [discriminate|]. apply (bool_decide_unpack _). vm_compute. exact Logic.I.
  - repeat constructor.
  - repeat constructor.
  - vm_compute. discriminate.
  - cbn [k_nv ex_kern]. unfold full_nv.
    change (ru lx_malloc) with (lx_Port lx_malloc).
    rewrite (@empty_map lx_port (lx_Port lx_malloc)). discriminate.
  - exists k'. split; [exact Hset|exact Hget].
Defined.
