(* ===== verification/Malloc.v ===== *)
(** The boot loader's allocator: cfe/cfe/lib/lib_malloc.c.

    A pool is a chain of nodes, each a header of [sizeof(memnode_t)] bytes followed by
    [length] bytes of data; the node of an allocated block is found through a pointer
    stored just before the block. *)

From S2P Require Import Prelude.
From Stdlib Require Import ZArith Lia Bool List.
From stdpp Require Import base numbers list gmap.

#[local] Open Scope Z_scope.

Definition MEMNODE_SEAL := 0xFAAFA123.
Definition MINBLKSIZE := 64.

(** A node at [n_addr]; the field [next] is the order of the chain, [n_status] tells
    whether it is allocated. *)
Record memnode := Node {
  n_addr : Z;
  n_seal : Z;
  n_length : Z;
  n_status : bool;
  n_data : Z
}.

Definition sizeof_memnode := 24.
Definition memnode_data (m : memnode) : Z := n_addr m + sizeof_memnode.

(** The chain, the back pointers in memory, and the region. *)
Record mempool := Pool {
  root : list memnode;
  backptr : gmap Z Z;
  p_base : Z;
  p_length : Z
}.

Definition kmeminit (buffer length : Z) : mempool :=
  Pool [Node buffer MEMNODE_SEAL (wrap32 (length - sizeof_memnode)) false (buffer + sizeof_memnode)]
       ∅ buffer length.

Definition kmempoolbase (pool : mempool) : Z := p_base pool.
Definition kmempoolsize (pool : mempool) : Z := p_length pool.

(** One pass over the chain: the chain, how many nodes went, and whether every seal seen
    was good.  After a merge the pass goes on behind the merged node. *)
Fixpoint compact_pass (l : list memnode) : list memnode * nat * bool :=
  match l with
  | [] => ([], 0%nat, true)
  | m :: rest =>
      if negb (n_seal m =? MEMNODE_SEAL) then (l, 0%nat, false)
      else
        match rest with
        | n :: rest' =>
            if negb (n_status m) && negb (n_status n) then
              let m := Node (n_addr m) (n_seal m)
                         (wrap32 (n_length m + (sizeof_memnode + n_length n))) false (n_data m) in
              let '(l, c, ok) := compact_pass rest' in (m :: l, S c, ok)
            else let '(l, c, ok) := compact_pass rest in (m :: l, c, ok)
        | [] => ([m], 0%nat, true)
        end
  end.

(** Passes until one does nothing. *)
Fixpoint kmemcompact (fuel : nat) (l : list memnode) : option (list memnode) :=
  match fuel with
  | O => None
  | S fuel =>
      let '(l, c, ok) := compact_pass l in
      if ok && (0 <? c)%nat then kmemcompact fuel l else Some l
  end.

(** The node at an address is marked free. *)
Fixpoint mark_free (a : Z) (l : list memnode) : option (list memnode) :=
  match l with
  | [] => None
  | m :: l =>
      if n_addr m =? a then Some (Node (n_addr m) (n_seal m) (n_length m) false (n_data m) :: l)
      else let? l := mark_free a l in Some (m :: l)
  end.

(** A back pointer that does not lead to a node of the chain is [None]. *)
Definition kfree (pool : mempool) (ptr : Z) : option mempool :=
  if (ptr <? p_base pool) || (p_base pool + p_length pool <=? ptr) then Some pool
  else
    let? a := backptr pool !! (ptr - 4) in
    let? m := find (fun m => n_addr m =? a) (root pool) in
    if negb (n_seal m =? MEMNODE_SEAL) then Some pool
    else
      let? l := mark_free a (root pool) in
      let? l := kmemcompact (S (length l)) l in
      Some (Pool l (backptr pool) (p_base pool) (p_length pool)).

(** Rounding up to a power of two the way the code does, when it is not there yet. *)
Definition align_up (x align : Z) : Z :=
  if truthy (Z.land x (align - 1)) then Z.ldiff (wrap32 (x + align)) (align - 1) else x.

Definition round_size (size : Z) : Z :=
  let size := if size =? 0 then 4 else size in align_up size 4.

Definition realsize (m : memnode) (size ptralign : Z) : Z :=
  let daddr := memnode_data m in
  let extra := if truthy (Z.land daddr (ptralign - 1))
               then wrap32 (size + (ptralign - Z.land daddr (ptralign - 1))) else 0 in
  wrap32 (size + extra).

(** The first free node that is big enough, between the nodes before and after. *)
Fixpoint find_node (l : list memnode) (size ptralign : Z) : option (list memnode * memnode * list memnode) :=
  match l with
  | [] => None
  | m :: l =>
      if n_status m || (n_length m <? realsize m size ptralign) then
        let? (a, n, b) := find_node l size ptralign in Some (m :: a, n, b)
      else Some ([], m, l)
  end.

(** 0 is [NULL]. *)
Definition kmalloc (pool : mempool) (size align : Z) : Z * mempool :=
  let ptralign := if align <? 4 then 8 else align in
  let size := round_size size in
  match find_node (root pool) size ptralign with
  | None => (0, pool)
  | Some (a, m, b) =>
      let daddr := align_up (memnode_data m) ptralign in
      let bp := <[daddr - 4 := n_addr m]> (backptr pool) in
      let real := realsize m size ptralign in
      let nodes :=
        if wrap32 (n_length m - real) <? MINBLKSIZE
        then [Node (n_addr m) (n_seal m) (n_length m) true daddr]
        else
          let next := align_up (wrap32 (daddr + size)) 4 in
          let blkend := wrap32 (memnode_data m + n_length m) in
          [Node (n_addr m) (n_seal m) (wrap32 (next - memnode_data m)) true daddr;
           Node next MEMNODE_SEAL (wrap32 (blkend - (next + sizeof_memnode))) false (next + sizeof_memnode)]
        in
      (daddr, Pool (a ++ nodes ++ b) bp (p_base pool) (p_length pool))
  end.

Record memstats := Stats {
  mem_totalbytes : Z;
  mem_allocbytes : Z;
  mem_freebytes : Z;
  mem_allocnodes : Z;
  mem_freenodes : Z;
  mem_largest : Z
}.

Definition count_node (m : memnode) (s : memstats) : memstats :=
  if n_status m
  then Stats (mem_totalbytes s) (mem_allocbytes s + n_length m) (mem_freebytes s)
         (mem_allocnodes s + 1) (mem_freenodes s) (mem_largest s)
  else Stats (mem_totalbytes s) (mem_allocbytes s) (mem_freebytes s + n_length m)
         (mem_allocnodes s) (mem_freenodes s + 1) (Z.max (mem_largest s) (n_length m)).

(** The walk over the chain with its checks: 0, or -1 at the first corrupt node. *)
Fixpoint stats_loop (bp : gmap Z Z) (l : list memnode) (s : memstats) : Z * memstats :=
  match l with
  | [] => (0, s)
  | m :: l =>
      let s := count_node m s in
      let next_bad := match l with
                      | [] => false
                      | n :: _ => negb (memnode_data m + n_length m =? n_addr n) || (n_addr n <? n_addr m)
                      end in
      if negb (n_seal m =? MEMNODE_SEAL) || next_bad || (n_data m <? n_addr m) ||
         (n_status m && negb (bool_decide (bp !! (n_data m - 4) = Some (n_addr m))))
      then (-1, s) else stats_loop bp l s
  end.

Definition kmemstats (pool : mempool) : Z * memstats :=
  stats_loop (backptr pool) (root pool) (Stats (p_length pool) 0 0 0 0 0).

(** * Specification vocabulary *)

(** The nodes fill the memory from [a] to [e]. *)
Fixpoint tiles (a : Z) (l : list memnode) (e : Z) : Prop :=
  match l with
  | [] => a = e
  | m :: l => n_addr m = a /\ n_seal m = MEMNODE_SEAL /\ 0 <= n_length m /\ n_addr m <= n_data m /\
              tiles (memnode_data m + n_length m) l e
  end.

(** No two free neighbours. *)
Fixpoint no_adj (l : list memnode) : Prop :=
  match l with
  | [] => True
  | m :: l' => match l' with
               | [] => True
               | n :: _ => (n_status m || n_status n = true) /\ no_adj l'
               end
  end.

Definition alloc_nodes (l : list memnode) : list memnode := List.filter n_status l.

(** The blocks the callers hold: address, size and alignment. *)
Abbreviation blocks := (gmap Z (Z * Z)).

(** Where the block of an allocated node lies. *)
Definition node_block (bp : gmap Z Z) (m : memnode) (s al : Z) : Prop :=
  memnode_data m <= n_data m /\ 4 <= s /\ n_data m + s <= memnode_data m + n_length m /\
  bp !! (n_data m - 4) = Some (n_addr m) /\ (al <> 0 -> n_data m mod al = 0).

Record pool_ok (pool : mempool) (live : blocks) : Prop := {
  ok_tiles : tiles (p_base pool) (root pool) (p_base pool + p_length pool);
  ok_bounds : 0 < p_base pool /\ sizeof_memnode <= p_length pool /\
              p_base pool + p_length pool <= 2 ^ 32;
  ok_adj : no_adj (root pool);
  ok_alloc : forall m, m ∈ alloc_nodes (root pool) ->
    exists s al, live !! n_data m = Some (s, al) /\ node_block (backptr pool) m s al;
  ok_live : forall p x, live !! p = Some x -> exists m, m ∈ alloc_nodes (root pool) /\ n_data m = p
}.

(** Calls; a pointer that is not held is not freed. *)
Inductive mop := Kmalloc (size align : Z) | Kfree (ptr : Z).

Definition mop_ok (o : mop) : Prop :=
  match o with
  | Kmalloc size align =>
      0 <= size < 2 ^ 30 /\ (align = 0 \/ exists k, 0 <= k <= 30 /\ align = 2 ^ k)
  | Kfree _ => True
  end.

Definition mstep (o : mop) (st : mempool * blocks) : option (mempool * blocks) :=
  let '(pool, live) := st in
  match o with
  | Kmalloc size align =>
      let '(p, pool) := kmalloc pool size align in
      Some (pool, if p =? 0 then live else <[p := (Z.max 4 size, align)]> live)
  | Kfree p =>
      match live !! p with
      | None => Some (pool, live)
      | Some _ => let? pool := kfree pool p in Some (pool, delete p live)
      end
  end.

Fixpoint mrun (os : list mop) (st : mempool * blocks) : option (mempool * blocks) :=
  match os with
  | [] => Some st
  | o :: os => let? st := mstep o st in mrun os st
  end.

(** * Lemmas *)

(** ** Alignment *)

Lemma land_mask x k : 0 <= k -> Z.land x (2 ^ k - 1) = x mod 2 ^ k.
Proof. intros. rewrite Z.sub_1_r, <- Z.ones_equiv. by apply Z.land_ones. Qed.

Lemma ldiff_mask x k : 0 <= k -> Z.ldiff x (2 ^ k - 1) = x - x mod 2 ^ k.
Proof.
  intros Hk. rewrite Z.sub_1_r, <- Z.ones_equiv, Z.ldiff_ones_r by done.
  rewrite Z.shiftl_mul_pow2, Z.shiftr_div_pow2 by done.
  pose proof (Z.div_mod x (2 ^ k) ltac:(lia)). lia.
Qed.

(** The bytes that are missing to the next multiple. *)
Definition pad (x k : Z) : Z := (- x) mod 2 ^ k.

Lemma pad_eq x k :
  0 <= k -> pad x k = if x mod 2 ^ k =? 0 then 0 else 2 ^ k - x mod 2 ^ k.
Proof.
  intros Hk. unfold pad. case_test.
  - by apply Z.mod_opp_l_z; [lia|].
  - by apply Z.mod_opp_l_nz; [lia|].
Qed.

Lemma pad_mod x k : 0 <= k -> (x + pad x k) mod 2 ^ k = 0 /\ 0 <= pad x k < 2 ^ k.
Proof.
  intros Hk. split; [|apply Z.mod_pos_bound; lia].
  unfold pad. rewrite Zplus_mod_idemp_r, Z.add_opp_diag_r. apply Z.mod_0_l. lia.
Qed.

Lemma align_up_spec x k :
  0 <= x -> 0 <= k < 32 -> x + pad x k < 2 ^ 32 -> align_up x (2 ^ k) = x + pad x k.
Proof.
  intros Hx Hk Hlt. unfold align_up. rewrite land_mask by lia. unfold truthy.
  pose proof (pad_mod x k ltac:(lia)) as [Hm Hp].
  rewrite pad_eq in * by lia. destruct (x mod 2 ^ k =? 0) eqn:E; cbn [negb]; bool_simpl; [lia|].
  rewrite ldiff_mask by lia.
  assert (Hup : x + (2 ^ k - x mod 2 ^ k) + 2 ^ k <= 2 ^ 32).
  { apply Z.div_exact in Hm; [|lia]. set (q := (x + (2 ^ k - x mod 2 ^ k)) / 2 ^ k) in *.
    assert (H32 : 2 ^ 32 = 2 ^ k * 2 ^ (32 - k)) by (rewrite <- Z.pow_add_r by lia; f_equal; lia).
    rewrite H32 in *. rewrite Hm in Hlt |- *. apply Z.mul_lt_mono_pos_l in Hlt; [|lia].
    replace (2 ^ k * q + 2 ^ k) with (2 ^ k * (q + 1)) by lia.
    apply Z.mul_le_mono_nonneg_l; lia. }
  pose proof (Z.mod_pos_bound x (2 ^ k) ltac:(lia)).
  unfold wrap32. rewrite Z.mod_small by lia.
  rewrite <- (Z.add_mod_idemp_r x (2 ^ k) (2 ^ k)), Z.mod_same, Z.add_0_r by lia. lia.
Qed.

Lemma round_size_spec size :
  0 <= size < 2 ^ 30 -> Z.max 4 size <= round_size size <= 2 ^ 30.
Proof.
  intros Hs. unfold round_size. set (x := if size =? 0 then 4 else size).
  assert (Hx : x = if size =? 0 then 4 else size) by done. clearbody x.
  change (align_up x 4) with (align_up x (2 ^ 2)). pose proof (pad_mod x 2 ltac:(lia)) as [Hm Hp].
  assert (Hr : 0 < x < 2 ^ 30 /\ size <= x) by (destruct (size =? 0) eqn:E; bool_simpl; lia). change (2 ^ 2) with 4 in Hp.
  change (2 ^ 30) with 1073741824 in *.
  rewrite align_up_spec by lia.
  assert (4 <= x + pad x 2).
  { change (2 ^ 2) with 4 in Hm. apply Z.div_exact in Hm; lia. }
  apply Z.div_exact in Hm; [|lia]. change (2 ^ 2) with 4 in Hm. lia.
Qed.

Lemma realsize_spec m r k :
  0 <= memnode_data m -> 4 <= r <= 2 ^ 30 -> 0 <= k <= 30 ->
  r + pad (memnode_data m) k <= realsize m r (2 ^ k).
Proof.
  intros Hd Hr Hk. unfold realsize. rewrite !land_mask by lia.
  pose proof (pad_mod (memnode_data m) k ltac:(lia)) as [_ Hp].
  rewrite pad_eq in * by lia.
  assert (2 ^ k <= 2 ^ 30) by (apply Z.pow_le_mono_r; lia).
  pose proof (Z.mod_pos_bound (memnode_data m) (2 ^ k) ltac:(lia)) as Hx.
  set (x := memnode_data m mod 2 ^ k) in *. clearbody x.
  change (2 ^ 30) with 1073741824 in *. unfold truthy, wrap32.
  destruct (x =? 0); cbn [negb].
  - rewrite Z.add_0_r, Z.mod_small; lia.
  - rewrite (Z.mod_small (r + (2 ^ k - x))), Z.mod_small by lia. lia.
Qed.

(** ** Tilings *)

Lemma tiles_app a l1 l2 e :
  tiles a (l1 ++ l2) e <-> exists x, tiles a l1 x /\ tiles x l2 e.
Proof.
  revert a. induction l1 as [|m l1 IH]; intros a; cbn.
  - split; [by exists a|]. by intros (x & -> & ?).
  - rewrite IH. split.
    + intros (? & ? & ? & ? & x & ? & ?). exists x. tauto.
    + intros (x & (? & ? & ? & ? & ?) & ?). do 4 (split; [done|]). by exists x.
Qed.

Lemma tiles_le a l e : tiles a l e -> a <= e.
Proof.
  revert a. induction l as [|m l IH]; intros a; cbn; [lia|].
  intros (<- & _ & ? & _ & H). apply IH in H. unfold memnode_data, sizeof_memnode in *. lia.
Qed.

Lemma tiles_elem a l e m :
  tiles a l e -> m ∈ l ->
  a <= n_addr m /\ memnode_data m + n_length m <= e /\ 0 <= n_length m /\
  n_seal m = MEMNODE_SEAL /\ n_addr m <= n_data m.
Proof.
  intros Ht Hm. apply list_elem_of_split in Hm as (l1 & l2 & ->).
  apply tiles_app in Ht as (x & H1 & H2). cbn in H2. destruct H2 as (-> & ? & ? & ? & H2).
  apply tiles_le in H1, H2. unfold memnode_data, sizeof_memnode in *. lia.
Qed.

(** Two nodes of a chain are the same or do not meet. *)
Lemma tiles_disjoint a l e m n :
  tiles a l e -> m ∈ l -> n ∈ l ->
  m = n \/ memnode_data m + n_length m <= n_addr n \/ memnode_data n + n_length n <= n_addr m.
Proof.
  intros Ht Hm Hn. apply list_elem_of_split in Hm as (l1 & l2 & ->).
  apply tiles_app in Ht as (x & H1 & H2). pose proof H2 as H2'. cbn in H2. destruct H2 as (-> & _ & _ & _ & H2).
  apply elem_of_app in Hn as [Hn|Hn].
  - right; right. eapply tiles_elem in Hn; [|exact H1]. lia.
  - apply elem_of_cons in Hn as [->|Hn]; [by left|]. right; left.
    eapply tiles_elem in Hn; [|exact H2]. lia.
Qed.

Lemma alloc_nodes_app l1 l2 : alloc_nodes (l1 ++ l2) = alloc_nodes l1 ++ alloc_nodes l2.
Proof. apply List.filter_app. Qed.

Lemma alloc_nodes_cons m l : alloc_nodes (m :: l) = if n_status m then m :: alloc_nodes l else alloc_nodes l.
Proof. done. Qed.

Lemma elem_of_alloc l m : m ∈ alloc_nodes l <-> m ∈ l /\ n_status m = true.
Proof. rewrite !list_elem_of_In. apply List.filter_In. Qed.

(** ** Compaction *)

Lemma compact_pass_spec l a e :
  tiles a l e -> 0 <= a -> e <= 2 ^ 32 ->
  let '(l', c, ok) := compact_pass l in
  ok = true /\ tiles a l' e /\ alloc_nodes l' = alloc_nodes l /\
  (length l' + c = length l)%nat /\ (c = 0%nat -> l' = l /\ no_adj l).
Proof.
  revert a. induction l as [l IH] using (induction_ltof1 _ (@length _)); unfold ltof in IH.
  intros a Ht Ha He. destruct l as [|m l]; [done|]. cbn [compact_pass].
  cbn in Ht. destruct Ht as (Haddr & Hs & Hl & Hd & Ht). rewrite Hs, Z.eqb_refl. cbn [negb].
  assert (Hnext : 0 <= memnode_data m + n_length m) by (unfold memnode_data, sizeof_memnode; lia).
  destruct l as [|n l].
  { cbn. cbn in Ht. split; [done|]. split; [done|]. split; [done|]. split; [done|]. done. }
  destruct (negb (n_status m) && negb (n_status n)) eqn:Ef.
  - apply andb_prop in Ef as [Em En]. apply negb_true_iff in Em, En.
    cbn in Ht. destruct Ht as (Haddr' & Hs' & Hl' & Hd' & Ht).
    pose proof (tiles_le _ _ _ Ht) as Hle.
    assert (Hlen : wrap32 (n_length m + (sizeof_memnode + n_length n))
                   = n_length m + (sizeof_memnode + n_length n)).
    { apply Z.mod_small. unfold memnode_data, sizeof_memnode in *. lia. }
    specialize (IH l ltac:(cbn; lia) _ Ht ltac:(unfold memnode_data, sizeof_memnode in *; lia) He).
    destruct (compact_pass l) as [[l' c] ok]. destruct IH as (-> & Ht' & Hal & Hc & _).
    split; [done|]. split; [|split; [|split; [cbn; lia|lia]]].
    + cbn [tiles n_addr n_seal n_length n_data]. rewrite Hlen. split; [done|]. split; [done|].
      split; [unfold sizeof_memnode; lia|]. split; [done|].
      replace (_ + (n_length m + (sizeof_memnode + n_length n))) with (memnode_data n + n_length n); [done|].
      unfold memnode_data in *. cbn [n_addr]. lia.
    + cbn [alloc_nodes List.filter n_status]. rewrite Em, En. done.
  - specialize (IH (n :: l) ltac:(cbn; lia) _ Ht ltac:(lia) He).
    destruct (compact_pass (n :: l)) as [[l' c] ok]. destruct IH as (-> & Ht' & Hal & Hc & Hno).
    split; [done|]. split; [by cbn|]. split; [|split; [cbn in *; lia|]].
    + by rewrite alloc_nodes_cons, Hal, <- alloc_nodes_cons.
    + intros Hc0. destruct (Hno Hc0) as [-> Hadj]. split; [done|].
      split; [|exact Hadj]. by destruct (n_status m), (n_status n).
Qed.

Lemma kmemcompact_spec fuel l a e :
  tiles a l e -> 0 <= a -> e <= 2 ^ 32 -> (length l < fuel)%nat ->
  exists l', kmemcompact fuel l = Some l' /\ tiles a l' e /\ no_adj l' /\
    alloc_nodes l' = alloc_nodes l.
Proof.
  revert l. induction fuel as [|fuel IH]; intros l Ht Ha He Hf; [lia|]. cbn [kmemcompact].
  pose proof (compact_pass_spec l a e Ht Ha He) as H.
  destruct (compact_pass l) as [[l' c] ok]. destruct H as (-> & Ht' & Hal & Hc & Hno). cbn [andb].
  destruct (0 <? c)%nat eqn:Ec.
  - apply Nat.ltb_lt in Ec. destruct (IH l') as (l2 & -> & ? & ? & Hal2); [done|done|done|lia|].
    exists l2. by rewrite Hal2, Hal.
  - apply Nat.ltb_ge in Ec. destruct (Hno ltac:(lia)) as [-> Hadj]. by exists l.
Qed.

(** ** Splitting a chain at a node *)

Lemma tiles_around a l1 m l2 e n :
  tiles a (l1 ++ m :: l2) e -> n ∈ l1 ++ l2 ->
  memnode_data m + n_length m <= n_addr n \/ memnode_data n + n_length n <= n_addr m.
Proof.
  intros Ht Hn. apply tiles_app in Ht as (x & H1 & H2). cbn in H2. destruct H2 as (-> & _ & _ & _ & H2).
  apply elem_of_app in Hn as [Hn|Hn].
  - right. eapply tiles_elem in Hn; [|exact H1]. lia.
  - left. eapply tiles_elem in Hn; [|exact H2]. lia.
Qed.

Definition free_node (m : memnode) : memnode :=
  Node (n_addr m) (n_seal m) (n_length m) false (n_data m).

Lemma before_node a l1 m l2 e n : tiles a (l1 ++ m :: l2) e -> n ∈ l1 -> n_addr n <> n_addr m.
Proof.
  intros Ht Hn. assert (Hin : n ∈ l1 ++ m :: l2) by (apply elem_of_app; by left).
  pose proof (tiles_elem _ _ _ _ Ht Hin).
  assert (Hm : m ∈ l1 ++ m :: l2) by (apply elem_of_app; right; left).
  pose proof (tiles_elem _ _ _ _ Ht Hm).
  assert (Hn' : n ∈ l1 ++ l2) by (apply elem_of_app; by left).
  pose proof (tiles_around _ _ _ _ _ _ Ht Hn'). unfold memnode_data, sizeof_memnode in *. lia.
Qed.

Lemma mark_free_spec a l1 m l2 e :
  tiles a (l1 ++ m :: l2) e ->
  mark_free (n_addr m) (l1 ++ m :: l2) = Some (l1 ++ free_node m :: l2) /\
  find (fun n => n_addr n =? n_addr m) (l1 ++ m :: l2) = Some m.
Proof.
  intros Ht. assert (Hne : forall n, n ∈ l1 -> n_addr n <> n_addr m)
    by (intros n; by apply (before_node a l1 m l2 e)).
  clear Ht. induction l1 as [|n l1 IH]; cbn; [by rewrite Z.eqb_refl|].
  rewrite (proj2 (Z.eqb_neq _ _)) by (apply Hne; left).
  destruct IH as [-> ->]; [|done]. intros x Hx. apply Hne. by right.
Qed.

Lemma tiles_same a l1 m m' l2 e :
  n_addr m' = n_addr m -> n_seal m' = n_seal m -> n_length m' = n_length m -> n_addr m <= n_data m' ->
  tiles a (l1 ++ m :: l2) e -> tiles a (l1 ++ m' :: l2) e.
Proof.
  intros Ha Hs Hl Hd. rewrite !tiles_app. intros (x & H1 & H2). exists x. split; [done|].
  cbn in *. unfold memnode_data in *. rewrite Ha, Hs, Hl. tauto.
Qed.

(** The blocks of other nodes do not begin inside a node. *)
Lemma other_data bp a l1 m l2 e n s al p :
  tiles a (l1 ++ m :: l2) e -> n ∈ l1 ++ l2 -> node_block bp n s al ->
  memnode_data m <= p <= memnode_data m + n_length m - 4 -> n_data n <> p.
Proof.
  intros Ht Hn (H1 & H2 & H3 & _) Hp. pose proof (tiles_around _ _ _ _ _ _ Ht Hn).
  unfold memnode_data, sizeof_memnode in *. lia.
Qed.

Lemma alloc_around l1 m l2 n :
  n ∈ alloc_nodes (l1 ++ l2) -> n ∈ alloc_nodes (l1 ++ m :: l2) /\ n ∈ l1 ++ l2.
Proof.
  rewrite !elem_of_alloc, !elem_of_app, elem_of_cons. tauto.
Qed.

Lemma kfree_spec pool live p x :
  pool_ok pool live -> live !! p = Some x ->
  exists pool', kfree pool p = Some pool' /\ pool_ok pool' (delete p live) /\
    p_base pool' = p_base pool /\ p_length pool' = p_length pool.
Proof.
  intros [Ht (Hb0 & Hb1 & Hb2) Hadj Hal Hli] Hp. destruct (Hli p x Hp) as (m & Hm & Hd).
  destruct (Hal m Hm) as (s & al & _ & Hblk). pose proof Hblk as (H1 & H2 & H3 & H4 & _).
  pose proof Hm as Hm'. apply elem_of_alloc in Hm' as [Hin Hst].
  pose proof (tiles_elem _ _ _ _ Ht Hin) as (He1 & He2 & He3 & He4 & He5).
  unfold kfree. rewrite Hd in *.
  rewrite (proj2 (Z.ltb_ge _ _)), (proj2 (Z.leb_gt _ _))
    by (unfold memnode_data, sizeof_memnode in *; lia). cbn [orb]. rewrite H4.
  apply list_elem_of_split in Hin as (l1 & l2 & Hl). rewrite Hl in *.
  destruct (mark_free_spec _ _ _ _ _ Ht) as [-> ->]. rewrite He4, Z.eqb_refl. cbn [negb].
  assert (Ht' : tiles (p_base pool) (l1 ++ free_node m :: l2) (p_base pool + p_length pool))
    by (eapply tiles_same; [..|exact Ht]; try done; cbn; lia).
  destruct (kmemcompact_spec (S (length (l1 ++ free_node m :: l2))) _ _ _ Ht') as
    (l' & -> & Htl & Hadj' & Hal'); [lia|lia|lia|].
  eexists. split; [done|]. split; [|done].
  assert (Hall : alloc_nodes l' = alloc_nodes (l1 ++ l2))
    by (by rewrite Hal', !alloc_nodes_app, alloc_nodes_cons).
  split; cbn [root backptr p_base p_length]; try done.
  - intros n Hn. rewrite Hall in Hn. destruct (alloc_around l1 m l2 n Hn) as [Hn1 Hn2].
    destruct (Hal n Hn1) as (s' & al' & Hl' & Hblk'). exists s', al'. split; [|done].
    rewrite lookup_delete_ne; [done|]. apply not_eq_sym.
    eapply other_data; [exact Ht|exact Hn2|exact Hblk'|lia].
  - intros q y Hq. apply lookup_delete_Some in Hq as [Hne Hq].
    destruct (Hli q y Hq) as (n & Hn & Hnd). exists n. split; [|done]. rewrite Hall.
    rewrite elem_of_alloc in Hn |- *. destruct Hn as [Hn ?]. split; [|done].
    rewrite elem_of_app, elem_of_cons in Hn. rewrite elem_of_app.
    destruct Hn as [?|[->|?]]; [by left|congruence|by right].
Qed.

(** ** Allocation *)

Lemma find_node_spec l r pa :
  match find_node l r pa with
  | Some (a, m, b) => l = a ++ m :: b /\ n_status m = false /\ realsize m r pa <= n_length m
  | None => forall m, m ∈ l -> n_status m = true \/ n_length m < realsize m r pa
  end.
Proof.
  induction l as [|m l IH]; cbn; [set_solver|].
  destruct (n_status m) eqn:Es; cbn [orb]; [|destruct (n_length m <? realsize m r pa) eqn:El].
  3:{ bool_simpl. done. }
  all: destruct (find_node l r pa) as [[[a n] b]|];
    [destruct IH as (-> & ? & ?); done|].
  all: intros x Hx; apply elem_of_cons in Hx as [->|Hx]; auto.
  right. by bool_simpl.
Qed.

(** Using up a free node keeps free nodes apart. *)
Lemma no_adj_use a m b m1 rest :
  no_adj (a ++ m :: b) -> n_status m = false -> n_status m1 = true ->
  (rest = [] \/ exists m2, rest = [m2] /\ n_status m2 = false) ->
  no_adj (a ++ m1 :: rest ++ b).
Proof.
  intros Hadj Hm H1 Hrest.
  assert (Htail : no_adj (m1 :: rest ++ b)).
  { assert (Hb : no_adj (m :: b)).
    { clear -Hadj. induction a as [|x a IH]; [done|]. cbn in Hadj. apply IH.
      destruct (a ++ m :: b) eqn:E; [by destruct a|]. tauto. }
    destruct Hrest as [->|(m2 & -> & H2)]; cbn in Hb |- *; rewrite H1.
    - destruct b; [done|]. split; [done|tauto].
    - split; [done|]. destruct b; [done|]. rewrite Hm in Hb. rewrite H2. tauto. }
  revert Hadj. induction a as [|x a IH]; [done|]. intros Hadj.
  destruct a as [|y a]; cbn [app] in *.
  - destruct Hadj as [Hx _]. rewrite Hm, orb_false_r in Hx.
    split; [by rewrite Hx|exact Htail].
  - destruct Hadj as [Hx Hadj]. split; [exact Hx|by apply IH].
Qed.

(** The exponent of the alignment that [kmalloc] uses. *)
Lemma ptralign_pow align :
  align = 0 \/ (exists k, 0 <= k <= 30 /\ align = 2 ^ k) ->
  exists k, 0 <= k <= 30 /\ (if align <? 4 then 8 else align) = 2 ^ k /\
    forall x, x mod 2 ^ k = 0 -> align <> 0 -> x mod align = 0.
Proof.
  intros [->|(k & Hk & ->)]; [by exists 3|].
  destruct (2 ^ k <? 4) eqn:E; bool_simpl.
  - exists 3. split; [lia|]. split; [done|]. intros x Hx _.
    apply Z.mod_divide in Hx; [|lia]. apply Z.mod_divide; [lia|].
    eapply Z.divide_trans; [|exact Hx]. exists (2 ^ (3 - k)).
    assert (k < 2).
    { destruct (Z.lt_ge_cases k 2); [done|].
      pose proof (Z.pow_le_mono_r 2 2 k ltac:(lia) ltac:(lia)). change (2 ^ 2) with 4 in *. lia. }
    rewrite <- Z.pow_add_r by lia. f_equal. lia.
  - by exists k.
Qed.

(** The nodes that take the place of a free node. *)
Lemma use_node_spec m r k e :
  0 < n_addr m -> 4 <= r <= 2 ^ 30 -> 0 <= k <= 30 -> n_seal m = MEMNODE_SEAL ->
  realsize m r (2 ^ k) <= n_length m -> memnode_data m + n_length m = e -> e <= 2 ^ 32 ->
  let daddr := align_up (memnode_data m) (2 ^ k) in
  let next := align_up (wrap32 (daddr + r)) 4 in
  memnode_data m <= daddr /\ daddr + r <= e /\ daddr mod 2 ^ k = 0 /\
  exists m1 rest, n_addr m1 = n_addr m /\ n_data m1 = daddr /\ n_status m1 = true /\
    daddr + r <= memnode_data m1 + n_length m1 /\
    (rest = [] \/ exists m2, rest = [m2] /\ n_status m2 = false) /\
    tiles (n_addr m) (m1 :: rest) e /\
    (if wrap32 (n_length m - realsize m r (2 ^ k)) <? MINBLKSIZE
     then [Node (n_addr m) (n_seal m) (n_length m) true daddr]
     else [Node (n_addr m) (n_seal m) (wrap32 (next - memnode_data m)) true daddr;
           Node next MEMNODE_SEAL
             (wrap32 (wrap32 (memnode_data m + n_length m) - (next + sizeof_memnode)))
             false (next + sizeof_memnode)]) = m1 :: rest.
Proof.
  intros Ha Hr Hk Hs Hreal He Hmax daddr next.
  assert (Hd0 : 0 < memnode_data m) by (unfold memnode_data, sizeof_memnode; lia).
  pose proof (realsize_spec m r k ltac:(lia) Hr Hk) as Hrs.
  pose proof (pad_mod (memnode_data m) k ltac:(lia)) as [Hpm Hp].
  set (real := realsize m r (2 ^ k)) in *. clearbody real.
  change (2 ^ 32) with 4294967296 in Hmax. change (2 ^ 30) with 1073741824 in Hr.
  assert (Hd : daddr = memnode_data m + pad (memnode_data m) k)
    by (apply align_up_spec; [lia|lia|change (2 ^ 32) with 4294967296; lia]).
  rewrite <- Hd in Hpm. split; [lia|]. split; [lia|]. split; [done|].
  assert (Hw : wrap32 (n_length m - real) = n_length m - real).
  { apply Z.mod_small. change (2 ^ 32) with 4294967296. lia. }
  rewrite Hw. unfold MINBLKSIZE. destruct (n_length m - real <? 64) eqn:El; bool_simpl.
  - exists (Node (n_addr m) (n_seal m) (n_length m) true daddr), []. cbn [n_addr n_data n_status n_length n_seal]. do 3 (split; [done|]).
    split; [unfold memnode_data in *; cbn [n_addr]; lia|]. split; [by left|]. split; [|done].
    cbn [tiles n_addr n_seal n_length n_data memnode_data]. do 2 (split; [done|]).
    unfold memnode_data, sizeof_memnode in *. cbn [n_addr]. lia.
  - assert (Hw' : wrap32 (daddr + r) = daddr + r).
    { apply Z.mod_small. change (2 ^ 32) with 4294967296. lia. }
    pose proof (pad_mod (daddr + r) 2 ltac:(lia)) as [_ Hp4]. change (2 ^ 2) with 4 in Hp4.
    assert (Hn : next = daddr + r + pad (daddr + r) 2).
    { unfold next. rewrite Hw'. change 4 with (2 ^ 2). apply align_up_spec; [lia|lia|].
      change (2 ^ 32) with 4294967296. lia. }
    clearbody next. set (p4 := pad (daddr + r) 2) in *. clearbody p4.
    assert (Hl1 : wrap32 (next - memnode_data m) = next - memnode_data m).
    { apply Z.mod_small. change (2 ^ 32) with 4294967296. lia. }
    assert (Hl2 : wrap32 (wrap32 (memnode_data m + n_length m) - (next + sizeof_memnode))
                  = e - (next + sizeof_memnode)).
    { unfold wrap32. rewrite Zminus_mod_idemp_l, He. apply Z.mod_small.
      change (2 ^ 32) with 4294967296. unfold sizeof_memnode. lia. }
    rewrite Hl1, Hl2.
    exists (Node (n_addr m) (n_seal m) (next - memnode_data m) true daddr),
      [Node next MEMNODE_SEAL (e - (next + sizeof_memnode)) false (next + sizeof_memnode)].
    cbn [n_addr n_data n_status n_length n_seal]. do 3 (split; [done|]).
    split; [unfold memnode_data in *; cbn [n_addr]; lia|]. split; [right; by eexists|]. split; [|done].
    cbn [tiles n_addr n_seal n_length n_data memnode_data]. do 2 (split; [done|]).
    unfold memnode_data, sizeof_memnode in *. cbn [n_addr] in *. repeat (split; try done); lia.
Qed.

Lemma kmalloc_spec pool live size align :
  pool_ok pool live -> mop_ok (Kmalloc size align) ->
  let '(p, pool') := kmalloc pool size align in
  p_base pool' = p_base pool /\ p_length pool' = p_length pool /\
  ((p = 0 /\ pool' = pool) \/
   (p <> 0 /\ live !! p = None /\ pool_ok pool' (<[p := (Z.max 4 size, align)]> live))).
Proof.
  intros [Ht (Hb0 & Hb1 & Hb2) Hadj Hal Hli] [Hsize Halign]. unfold kmalloc.
  destruct (ptralign_pow align Halign) as (k & Hk & -> & Hdiv).
  pose proof (round_size_spec size Hsize) as Hr. set (r := round_size size) in *. clearbody r.
  pose proof (find_node_spec (root pool) r (2 ^ k)) as Hf.
  destruct (find_node (root pool) r (2 ^ k)) as [[[a m] b]|]; [|by auto].
  destruct Hf as (Hl & Hfree & Hreal). rewrite Hl in *.
  assert (Hin : m ∈ a ++ m :: b) by (apply elem_of_app; right; left).
  pose proof (tiles_elem _ _ _ _ Ht Hin) as (He1 & He2 & He3 & He4 & He5).
  destruct (use_node_spec m r k (memnode_data m + n_length m)) as
    (Hd1 & Hd2 & Hdm & m1 & rest & Ha1 & Hdata & Hst & Hd3 & Hrest & Htn & ->);
    [lia|lia|done|done|done|done|lia|].
  set (daddr := align_up (memnode_data m) (2 ^ k)) in *.
  split; [done|]. split; [done|]. right.
  assert (Hnz : daddr <> 0) by (unfold memnode_data, sizeof_memnode in *; lia).
  assert (Hothers : forall n s al, n ∈ a ++ b -> node_block (backptr pool) n s al -> n_data n <> daddr).
  { intros n s al Hn Hblk. eapply other_data; [exact Ht|exact Hn|exact Hblk|lia]. }
  assert (Hnone : live !! daddr = None).
  { destruct (live !! daddr) as [x|] eqn:E; [|done]. exfalso.
    destruct (Hli daddr x E) as (n & Hn & Hnd). destruct (Hal n Hn) as (s & al & _ & Hblk).
    rewrite elem_of_alloc, elem_of_app, elem_of_cons in Hn. destruct Hn as [Hn Hns].
    apply (Hothers n s al); [rewrite elem_of_app|done|done].
    destruct Hn as [?|[->|?]]; [by left|congruence|by right]. }
  split; [done|]. split; [done|].
  assert (Hall : forall n, n ∈ alloc_nodes (a ++ (m1 :: rest) ++ b) <-> n = m1 \/ n ∈ alloc_nodes (a ++ b)).
  { intros n. rewrite !alloc_nodes_app, alloc_nodes_cons, Hst.
    assert (alloc_nodes rest = []) as ->.
    { destruct Hrest as [->|(m2 & -> & H2)]; [done|]. by rewrite alloc_nodes_cons, H2. }
    cbn [app]. rewrite !elem_of_app, elem_of_cons. tauto. }
  split; cbn [root backptr p_base p_length].
  - apply tiles_app in Ht as (x & H1 & H2). cbn in H2. destruct H2 as (<- & _ & _ & _ & H2).
    apply tiles_app. exists (n_addr m). split; [done|]. apply tiles_app. by eexists.
  - done.
  - apply (no_adj_use a m b); done.
  - intros n Hn. apply Hall in Hn as [->|Hn].
    + exists (Z.max 4 size), align. rewrite Hdata, lookup_insert_eq. split; [done|].
      assert (Hmd : memnode_data m1 = memnode_data m) by (unfold memnode_data; lia).
      split; [lia|]. split; [lia|]. split; [lia|].
      split; [by rewrite Hdata, lookup_insert_eq, Ha1|]. rewrite Hdata. auto.
    + destruct (alloc_around a m b n Hn) as [Hn1 Hn2].
      destruct (Hal n Hn1) as (s & al & Hlv & Hblk). exists s, al.
      pose proof (Hothers n s al Hn2 Hblk) as Hne. rewrite lookup_insert_ne by done.
      split; [done|]. destruct Hblk as (B1 & B2 & B3 & B4 & B5).
      do 3 (split; [done|]). rewrite lookup_insert_ne by lia. done.
  - intros q y Hq. apply lookup_insert_Some in Hq as [[<- _]|[Hne Hq]].
    + exists m1. split; [apply Hall; by left|done].
    + destruct (Hli q y Hq) as (n & Hn & Hnd). exists n. split; [|done]. apply Hall. right.
      rewrite elem_of_alloc, elem_of_app in *. rewrite elem_of_cons in Hn. destruct Hn as [Hn Hns].
      split; [|done]. destruct Hn as [?|[->|?]]; [by left|congruence|by right].
Qed.

(** ** Room

    A free node big enough for a request, with what alignment and the header of the next node
    may cost, makes the request succeed. *)

Definition has_room (pool : mempool) (L : Z) : Prop :=
  exists m, m ∈ root pool /\ n_status m = false /\ L <= n_length m.

Lemma has_room_le pool L L' : L' <= L -> has_room pool L -> has_room pool L'.
Proof. intros H (m & ? & ? & ?). exists m. split; [done|]. split; [done|lia]. Qed.

(** The whole size is counted twice when the block must be moved up to be aligned. *)
Lemma realsize_le m r : 4 <= r <= 2 ^ 30 -> realsize m r 8 <= 2 * r + 8.
Proof.
  intros Hr. unfold realsize. change 8 with (2 ^ 3) at 1 2 3. rewrite !land_mask by lia. change (2 ^ 3) with 8.
  pose proof (Z.mod_pos_bound (memnode_data m) 8 ltac:(lia)). change (2 ^ 30) with 1073741824 in Hr. unfold truthy.
  destruct (_ =? 0); cbn [negb].
  - rewrite Z.add_0_r, wrap32_small; lia.
  - rewrite (wrap32_small (r + (8 - memnode_data m mod 8))), wrap32_small by lia. lia.
Qed.

Lemma round_size_le size : 0 <= size < 2 ^ 30 -> round_size size <= size + 4.
Proof.
  intros Hs. unfold round_size. set (x := if size =? 0 then 4 else size).
  assert (Hx : 0 <= x /\ x < 2 ^ 30 /\ (x = size \/ x = 4 /\ size = 0)).
  { unfold x. destruct (Z.eqb_spec size 0); [subst|]; (split; [lia|]); (split; [lia|]); auto. }
  destruct Hx as (H0 & H1 & H2). clearbody x. pose proof (pad_mod x 2 ltac:(lia)) as [_ Hp]. change (2 ^ 2) with 4 in Hp.
  change (align_up x 4) with (align_up x (2 ^ 2)). rewrite align_up_spec by (change (2 ^ 30) with 1073741824 in *; change (2 ^ 32) with 4294967296; lia).
  destruct H2 as [->|[-> ->]]; [lia|]. change (pad 4 2) with 0. lia.
Qed.

Lemma kmalloc_room pool live size L : pool_ok pool live -> 0 <= size < 2 ^ 29 -> has_room pool L -> 2 * size + 80 <= L ->
  (kmalloc pool size 0).1 <> 0 /\ has_room (kmalloc pool size 0).2 (L - size - 40).
Proof.
  intros [Ht (Hb0 & Hb1 & Hb2) _ _ _] Hsize (m0 & Hin & Hst & HL) Hcost. change (2 ^ 29) with 536870912 in Hsize.
  pose proof (round_size_spec size) as Hr. pose proof (round_size_le size) as Hr2. change (2 ^ 30) with 1073741824 in *.
  specialize (Hr ltac:(lia)). specialize (Hr2 ltac:(lia)). unfold kmalloc. change (0 <? 4) with true. cbv iota.
  set (r := round_size size) in *. clearbody r. pose proof (find_node_spec (root pool) r 8) as Hf.
  destruct (find_node (root pool) r 8) as [[[a m] b]|].
  2: { exfalso. destruct (Hf m0 Hin) as [H|H]; [congruence|]. pose proof (realsize_le m0 r). lia. }
  destruct Hf as (Hl & Hfree & Hreal). rewrite Hl in *. assert (Hm : m ∈ a ++ m :: b) by (apply elem_of_app; right; left).
  pose proof (tiles_elem _ _ _ _ Ht Hm) as (He1 & He2 & He3 & He4 & He5).
  pose proof (pad_mod (memnode_data m) 3 ltac:(lia)) as [_ Hp3]. change (2 ^ 3) with 8 in Hp3.
  pose proof (realsize_spec m r 3) as Hrs. change (2 ^ 30) with 1073741824 in Hrs. change (2 ^ 3) with 8 in Hrs.
  assert (Hd0 : 0 < memnode_data m) by (unfold memnode_data, sizeof_memnode; lia). specialize (Hrs ltac:(lia) ltac:(lia) ltac:(lia)).
  change (2 ^ 32) with 4294967296 in Hb2.
  assert (Hd : align_up (memnode_data m) 8 = memnode_data m + pad (memnode_data m) 3)
    by (change 8 with (2 ^ 3); apply align_up_spec; change (2 ^ 32) with 4294967296; lia).
  rewrite Hd. cbn [fst snd]. split; [lia|].
  apply elem_of_app in Hin as [Hin|Hin]; [|apply elem_of_cons in Hin as [->|Hin]].
  - exists m0. cbn [root]. split; [apply elem_of_app; by left|]. split; [done|lia].
  - pose proof (realsize_le m r ltac:(change (2 ^ 30) with 1073741824; lia)) as Hrl.
    rewrite (wrap32_small (n_length m - _)) by lia. unfold MINBLKSIZE. rewrite (proj2 (Z.ltb_ge _ _)) by lia.
    rewrite (wrap32_small (_ + r)) by lia. set (d := memnode_data m + pad (memnode_data m) 3) in *.
    pose proof (pad_mod (d + r) 2 ltac:(lia)) as [_ Hp4]. change (2 ^ 2) with 4 in Hp4.
    assert (Hn : align_up (d + r) 4 = d + r + pad (d + r) 2) by (change 4 with (2 ^ 2); apply align_up_spec; change (2 ^ 32) with 4294967296; lia).
    rewrite Hn. eexists. split; [cbn [root]; rewrite !elem_of_app, !elem_of_cons; right; left; right; left; reflexivity|].
    cbn [n_status n_length]. split; [done|]. unfold wrap32 at 1 2. rewrite Zminus_mod_idemp_l, Z.mod_small; unfold sizeof_memnode;
      change (2 ^ 32) with 4294967296; lia.
  - exists m0. cbn [root]. split; [rewrite !elem_of_app; by right; right|]. split; [done|lia].
Qed.

Lemma compact_pass_room l a e m L : tiles a l e -> 0 <= a -> e <= 2 ^ 32 -> m ∈ l -> n_status m = false -> L <= n_length m ->
  exists m', m' ∈ (compact_pass l).1.1 /\ n_status m' = false /\ L <= n_length m'.
Proof.
  revert a m. induction l as [l IH] using (induction_ltof1 _ (@length _)); unfold ltof in IH.
  intros a m Ht Ha He Hm Hst HL. destruct l as [|x l]; [by apply elem_of_nil in Hm|]. cbn [compact_pass].
  cbn in Ht. destruct Ht as (Haddr & Hs & Hl & Hd & Ht). rewrite Hs, Z.eqb_refl. cbn [negb].
  assert (Hnext : 0 <= memnode_data x + n_length x) by (unfold memnode_data, sizeof_memnode; lia).
  destruct l as [|n l]; [by exists m|].
  destruct (negb (n_status x) && negb (n_status n)) eqn:Ef.
  - cbn in Ht. destruct Ht as (Haddr' & Hs' & Hl' & Hd' & Ht). pose proof (tiles_le _ _ _ Ht) as Hle.
    assert (Hlen : wrap32 (n_length x + (sizeof_memnode + n_length n)) = n_length x + (sizeof_memnode + n_length n)).
    { apply Z.mod_small. unfold memnode_data, sizeof_memnode in *. lia. }
    destruct (compact_pass l) as [[l' c] ok] eqn:Ec. cbn [fst].
    assert (Hcase : m = x \/ m = n \/ m ∈ l) by (rewrite !elem_of_cons in Hm; tauto).
    destruct Hcase as [->|[->|Hml]]; [eexists; split; [by left|]; cbn; rewrite Hlen; unfold sizeof_memnode; split; [done|lia]..|].
    destruct (IH l ltac:(cbn; lia) _ m Ht ltac:(unfold memnode_data, sizeof_memnode in *; lia) He Hml Hst HL) as (m' & Hm' & ? & ?).
    rewrite Ec in Hm'. exists m'. split; [by right|done].
  - destruct (compact_pass (n :: l)) as [[l' c] ok] eqn:Ec. cbn [fst]. apply elem_of_cons in Hm as [->|Hm]; [exists x; split; [by left|done]|].
    destruct (IH (n :: l) ltac:(cbn; lia) _ m Ht ltac:(lia) He Hm Hst HL) as (m' & Hm' & ? & ?).
    rewrite Ec in Hm'. exists m'. split; [by right|done].
Qed.

Lemma kmemcompact_room fuel l a e m L l' : tiles a l e -> 0 <= a -> e <= 2 ^ 32 -> m ∈ l -> n_status m = false -> L <= n_length m ->
  kmemcompact fuel l = Some l' -> exists m', m' ∈ l' /\ n_status m' = false /\ L <= n_length m'.
Proof.
  revert l m. induction fuel as [|fuel IH]; intros l m Ht Ha He Hm Hst HL Hc; [done|]. cbn [kmemcompact] in Hc.
  destruct (compact_pass_room l a e m L Ht Ha He Hm Hst HL) as (m' & Hm' & Hst' & HL').
  pose proof (compact_pass_spec l a e Ht Ha He) as H. destruct (compact_pass l) as [[l1 c] ok]. cbn [fst] in Hm'.
  destruct H as (-> & Ht' & _). destruct (true && _); [by apply (IH l1 m')|]. injection Hc as <-. by exists m'.
Qed.

Lemma kfree_room pool live p x pool' L : pool_ok pool live -> live !! p = Some x -> kfree pool p = Some pool' -> has_room pool L ->
  has_room pool' L.
Proof.
  intros [Ht (Hb0 & Hb1 & Hb2) Hadj Hal Hli] Hp Hk (m0 & Hin0 & Hst0 & HL). destruct (Hli p x Hp) as (m & Hm & Hd).
  destruct (Hal m Hm) as (s & al & _ & Hblk). pose proof Hblk as (H1 & H2 & H3 & H4 & _). apply elem_of_alloc in Hm as [Hin Hst].
  pose proof (tiles_elem _ _ _ _ Ht Hin) as (He1 & He2 & He3 & He4 & He5). revert Hk. unfold kfree. rewrite Hd in *.
  rewrite (proj2 (Z.ltb_ge _ _)), (proj2 (Z.leb_gt _ _)) by (unfold memnode_data, sizeof_memnode in *; lia). cbn [orb]. rewrite H4.
  apply list_elem_of_split in Hin as (l1 & l2 & Hl). rewrite Hl in *.
  destruct (mark_free_spec _ _ _ _ _ Ht) as [-> ->]. rewrite He4, Z.eqb_refl. cbn [negb].
  destruct (kmemcompact _ _) as [l'|] eqn:Ec; [|done]. intros [= <-].
  assert (Hm0 : m0 ∈ l1 ++ free_node m :: l2).
  { rewrite elem_of_app, elem_of_cons in Hin0 |- *. destruct Hin0 as [?|[->|?]]; [by left|congruence|by right; right]. }
  refine (kmemcompact_room _ _ (p_base pool) (p_base pool + p_length pool) m0 L l' _ _ _ Hm0 Hst0 HL Ec); [|lia|lia].
  eapply tiles_same; [..|exact Ht]; try done; cbn; lia.
Qed.

Lemma mrun_spec os pool live :
  pool_ok pool live -> Forall mop_ok os ->
  exists pool' live', mrun os (pool, live) = Some (pool', live') /\ pool_ok pool' live' /\
    p_base pool' = p_base pool /\ p_length pool' = p_length pool.
Proof.
  intros K Hos. revert pool live K. induction Hos as [|o os Ho Hos IH]; intros pool live K.
  { by exists pool, live. }
  assert (Hstep : exists pool1 live1, mstep o (pool, live) = Some (pool1, live1) /\
    pool_ok pool1 live1 /\ p_base pool1 = p_base pool /\ p_length pool1 = p_length pool).
  { destruct o as [size align|p]; cbn [mstep].
    - pose proof (kmalloc_spec pool live size align K Ho) as H.
      destruct (kmalloc pool size align) as [p pool1].
      destruct H as (Hb & Hl & [[-> ->]|(Hnz & _ & K')]).
      + exists pool, live. by rewrite Z.eqb_refl.
      + rewrite (proj2 (Z.eqb_neq _ _)) by done. by do 2 eexists.
    - destruct (live !! p) as [x|] eqn:E; [|by exists pool, live].
      destruct (kfree_spec pool live p x K E) as (pool1 & -> & K' & ? & ?). by do 2 eexists. }
  destruct Hstep as (pool1 & live1 & Hs & K1 & Hb & Hl). cbn [mrun]. rewrite Hs.
  destruct (IH pool1 live1 K1) as (pool2 & live2 & ? & ? & ? & ?).
  exists pool2, live2. split; [done|]. split; [done|]. lia.
Qed.

Lemma kmeminit_ok base length :
  0 < base -> sizeof_memnode <= length -> base + length <= 2 ^ 32 ->
  pool_ok (kmeminit base length) ∅.
Proof.
  intros Hb Hl He.
  assert (Hw : wrap32 (length - sizeof_memnode) = length - sizeof_memnode)
    by (apply Z.mod_small; unfold sizeof_memnode in *; lia).
  split; cbn [kmeminit root backptr p_base p_length].
  - rewrite Hw. cbn. unfold memnode_data, sizeof_memnode in *. cbn. repeat (split; try done); lia.
  - done.
  - done.
  - intros m Hm. cbn in Hm. set_solver.
  - intros p x Hx. by rewrite lookup_empty in Hx.
Qed.

Lemma stats_ok pool live : pool_ok pool live -> (kmemstats pool).1 = 0.
Proof.
  intros [Ht _ _ Hal _]. unfold kmemstats. generalize (Stats (p_length pool) 0 0 0 0 0).
  assert (Hbp : forall m, m ∈ root pool -> n_status m = true -> backptr pool !! (n_data m - 4) = Some (n_addr m)).
  { intros m Hm Hs. destruct (Hal m) as (s & al & _ & _ & _ & _ & ? & _); [by apply elem_of_alloc|done]. }
  clear Hal. revert Ht Hbp. generalize (p_base pool + p_length pool) as e. intros e.
  generalize (p_base pool). induction (root pool) as [|m l IH]; intros a Ht Hbp st; [done|].
  cbn [stats_loop]. cbn in Ht. destruct Ht as (Ha & -> & Hl & Hd & Ht). rewrite Z.eqb_refl.
  rewrite (proj2 (Z.ltb_ge _ _)) by done. cbn [negb orb].
  assert (Hnext : match l with
                  | [] => false
                  | n :: _ => negb (memnode_data m + n_length m =? n_addr n) || (n_addr n <? n_addr m)
                  end = false).
  { destruct l as [|n l]; [done|]. destruct Ht as (-> & _). rewrite Z.eqb_refl. cbn.
    apply Z.ltb_ge. unfold memnode_data, sizeof_memnode. lia. }
  rewrite Hnext. cbn [orb].
  assert (Hb : n_status m && negb (bool_decide (backptr pool !! (n_data m - 4) = Some (n_addr m))) = false).
  { destruct (n_status m) eqn:Es; [|done]. rewrite bool_decide_true; [done|]. apply Hbp; [left|done]. }
  rewrite Hb. apply (IH _ Ht). intros n Hn. apply Hbp. by right.
Qed.

(** C7 The allocator never hands out memory twice: after any calls on a fresh pool that ask for
    less than 2^30 bytes at an alignment of 0 or a power of two up to 2^30, and that free only
    blocks that are held, the blocks that are held lie inside the pool behind their headers, are
    at least as large as asked for, aligned as asked for and pairwise disjoint; every call
    returns, and the chain passes the allocator's own consistency check.  (Requests near 2^32
    wrap around and are given a block that is too small, see [kmalloc_wraps].) *)
Theorem kmalloc_blocks base length os :
  0 < base -> sizeof_memnode <= length -> base + length <= 2 ^ 32 -> Forall mop_ok os ->
  exists pool live, mrun os (kmeminit base length, ∅) = Some (pool, live) /\
    (kmemstats pool).1 = 0 /\
    (forall p s al, live !! p = Some (s, al) ->
       base + sizeof_memnode <= p /\ p + s <= base + length /\ (al <> 0 -> p mod al = 0)) /\
    (forall p q x y, live !! p = Some x -> live !! q = Some y -> p <> q ->
       p + x.1 <= q \/ q + y.1 <= p).
Proof.
  intros Hb Hl He Hos.
  destruct (mrun_spec os _ _ (kmeminit_ok base length Hb Hl He) Hos) as
    (pool & live & Hrun & K & Hbase & Hlen). cbn in Hbase, Hlen.
  exists pool, live. split; [done|]. split; [by eapply stats_ok|].
  assert (Hblk : forall p x, live !! p = Some x -> exists m, m ∈ root pool /\ n_data m = p /\
    node_block (backptr pool) m x.1 x.2).
  { intros p x Hp. destruct (ok_live _ _ K p x Hp) as (m & Hm & Hd). exists m.
    destruct (ok_alloc _ _ K m Hm) as (s & al & Hlv & Hblk). rewrite Hd, Hp in Hlv.
    injection Hlv as ->. apply elem_of_alloc in Hm as [Hm _]. done. }
  pose proof (ok_tiles _ _ K) as Ht. rewrite Hbase, Hlen in Ht. split.
  - intros p s al Hp. destruct (Hblk p (s, al) Hp) as (m & Hm & <- & B1 & B2 & B3 & B4 & B5).
    pose proof (tiles_elem _ _ _ _ Ht Hm). cbn [fst snd] in *.
    unfold memnode_data in *. split; [lia|]. split; [lia|done].
  - intros p q x y Hp Hq Hne. destruct (Hblk p x Hp) as (m & Hm & <- & A1 & A2 & A3 & _).
    destruct (Hblk q y Hq) as (n & Hn & <- & B1 & B2 & B3 & _).
    destruct (tiles_disjoint _ _ _ _ _ Ht Hm Hn) as [->|[?|?]]; [done|left|right];
      unfold memnode_data, sizeof_memnode in *; lia.
Qed.

(** Nothing leaks: once every block is freed, the pool is a single free node of
    the initial size again, however the calls were mixed. *)
Theorem kfree_restores base length os pool :
  0 < base -> sizeof_memnode <= length -> base + length <= 2 ^ 32 -> Forall mop_ok os ->
  mrun os (kmeminit base length, ∅) = Some (pool, ∅) ->
  exists d, root pool = [Node base MEMNODE_SEAL (length - sizeof_memnode) false d].
Proof.
  intros Hb Hl He Hos Hrun.
  destruct (mrun_spec os _ _ (kmeminit_ok base length Hb Hl He) Hos) as
    (pool' & live & Hrun' & [Ht _ Hadj Hal _] & Hbase & Hlen). cbn in Hbase, Hlen.
  rewrite Hrun in Hrun'. injection Hrun' as <- <-.
  rewrite Hbase, Hlen in Ht.
  assert (Hfree : forall m, m ∈ root pool -> n_status m = false).
  { intros m Hm. destruct (n_status m) eqn:E; [|done].
    destruct (Hal m) as (s & al & Hlv & _); [by apply elem_of_alloc|].
    by rewrite lookup_empty in Hlv. }
  destruct (root pool) as [|[a se ln st d] [|n l]].
  - cbn in Ht. unfold sizeof_memnode in *. lia.
  - cbn in Ht. destruct Ht as (-> & -> & ? & ? & Hend). exists d.
    specialize (Hfree _ (list_elem_of_here _ _)). cbn in Hfree. subst st.
    unfold memnode_data in Hend. cbn in Hend. do 2 f_equal. lia.
  - exfalso. pose proof (Hfree _ (list_elem_of_here _ _)) as H1.
    pose proof (Hfree n ltac:(right; left)) as H2. destruct Hadj as [Ha _].
    by rewrite H1, H2 in Ha.
Qed.

(** Sizes near [2 ^ 32] wrap around: a request for all of memory returns a block. *)
Lemma kmalloc_wraps :
  exists p, (kmalloc (kmeminit 0x10000 0x1000) 0xffffffff 0).1 = p /\ p <> 0.
Proof. eexists. split; [vm_compute; reflexivity|]. discriminate. Qed.

(** * Instances of the properties *)

Definition ex_ops : list mop := [Kmalloc 100 0; Kmalloc 40 64; Kfree 0x10018].

Lemma ex_ops_ok : Forall mop_ok ex_ops.
Proof.
  unfold ex_ops. apply Forall_cons; split; [split; [lia|by left]|].
  apply Forall_cons; split; [split; [lia|right; exists 6; split; [lia|reflexivity]]|].
  apply Forall_cons; split; [exact I|apply Forall_nil; exact I].
Qed.

Lemma kmalloc_blocks_witness :
  exists pool live, mrun ex_ops (kmeminit 0x10000 0x1000, ∅) = Some (pool, live) /\
    (kmemstats pool).1 = 0.
Proof.
  destruct (kmalloc_blocks 0x10000 0x1000 ex_ops) as (pool & live & Hrun & Hs & _);
    [lia|unfold sizeof_memnode; lia|lia|exact ex_ops_ok|].
  exists pool, live. split; [exact Hrun|exact Hs].
Defined.

Lemma kfree_restores_witness :
  exists pool d, mrun [Kmalloc 100 0; Kfree 0x10018] (kmeminit 0x10000 0x1000, ∅) = Some (pool, ∅) /\
    root pool = [Node 0x10000 MEMNODE_SEAL 0xfe8 false d].
Proof.
  assert (exists pool, mrun [Kmalloc 100 0; Kfree 0x10018] (kmeminit 0x10000 0x1000, ∅) = Some (pool, ∅))
    as [pool Hrun] by (eexists; vm_compute; reflexivity).
  exists pool. destruct (kfree_restores 0x10000 0x1000 [Kmalloc 100 0; Kfree 0x10018] pool)
    as [d Hd]; [lia|unfold sizeof_memnode; lia|lia| |exact Hrun|].
  - apply Forall_cons; split; [split; [lia|by left]|].
    apply Forall_cons; split; [exact I|apply Forall_nil; exact I].
  - exists d. split; [exact Hrun|exact Hd].
Defined.
