(* ===== verification/Tcpbuf.v ===== *)
(** The modulo buffer of the boot loader's TCP: cfe/cfe/net/net_tcpbuf.c.

    A ring of [tmb_bufsize] bytes with an add and a remove position, on memory taken
    from the allocator of [Malloc]; it is shown to implement a bounded queue of bytes. *)

From S2P Require Import Prelude Malloc.
From Stdlib Require Import ZArith Lia Bool List String.
From stdpp Require Import base numbers list gmap.

#[local] Open Scope Z_scope.

(** [tmb_ptr] is the address of the block, 0 for [NULL]; [tmb_buf] is what it holds. *)
Record tcpmodbuf := Tmb {
  tmb_ptr : Z;
  tmb_buf : bytes;
  tmb_bufsize : Z;
  tmb_addptr : Z;
  tmb_remptr : Z;
  tmb_len : Z
}.

Definition tmb_remlen (b : tcpmodbuf) : Z := tmb_bufsize b - tmb_len b.
Definition tmb_curlen (b : tcpmodbuf) : Z := tmb_len b.

Definition tmb_init (b : tcpmodbuf) : tcpmodbuf := Tmb (tmb_ptr b) (tmb_buf b) (tmb_bufsize b) 0 0 0.

(** [%] truncates towards zero; a zero divisor traps. *)
Definition tmb_adjust (b : tcpmodbuf) (amt : Z) : option tcpmodbuf :=
  assert! truthy (tmb_bufsize b) in
  Some (Tmb (tmb_ptr b) (tmb_buf b) (tmb_bufsize b) (tmb_addptr b)
          (Z.rem (tmb_remptr b + amt) (tmb_bufsize b)) (tmb_len b - amt)).

(** [mem] is what happens to be in the block. *)
Definition tmb_alloc (pool : mempool) (mem : bytes) (b : tcpmodbuf) (size : Z) : Z * mempool * tcpmodbuf :=
  let '(p, pool) := kmalloc pool (wrap32 size) 0 in
  if p =? 0 then (-1, pool, Tmb 0 [] (tmb_bufsize b) (tmb_addptr b) (tmb_remptr b) (tmb_len b))
  else (0, pool, tmb_init (Tmb p mem size (tmb_addptr b) (tmb_remptr b) (tmb_len b))).

Definition tmb_free (pool : mempool) (b : tcpmodbuf) : option (mempool * tcpmodbuf) :=
  let? pool := if truthy (tmb_ptr b) then kfree pool (tmb_ptr b) else Some pool in
  Some (pool, Tmb 0 [] (tmb_bufsize b) (tmb_addptr b) (tmb_remptr b) (tmb_len b)).

(** [memcpy] out of and into an object: it must stay inside. *)
Definition copy_from (obj : bytes) (i l : Z) : option bytes :=
  assert! (0 <=? i) && (0 <=? l) && (i + l <=? Z.of_nat (length obj)) in
  Some (take (Z.to_nat l) (drop (Z.to_nat i) obj)).

Definition copy_into (obj : bytes) (i : Z) (src : bytes) (l : Z) : option bytes :=
  let? s := copy_from src 0 l in
  assert! (0 <=? i) && (i + l <=? Z.of_nat (length obj)) in Some (splice obj (Z.to_nat i) s).

Definition tmb_copyin (tmb : tcpmodbuf) (buf : bytes) (len : Z) (update : bool) : option (Z * tcpmodbuf) :=
  if len =? 0 then Some (0, tmb)
  else
    let maxlen := tmb_bufsize tmb - tmb_len tmb in
    let maxlen := if len <? maxlen then len else maxlen in
    let retlen := maxlen in
    let l := tmb_bufsize tmb - tmb_addptr tmb in
    let l := if maxlen <? l then maxlen else l in
    let? mem := copy_into (tmb_buf tmb) (tmb_addptr tmb) buf l in
    let maxlen := maxlen - l in
    let buf := drop (Z.to_nat l) buf in
    let? (mem, newptr) :=
      if truthy maxlen then let? mem := copy_into mem 0 buf maxlen in Some (mem, maxlen)
      else Some (mem, tmb_addptr tmb + l) in
    Some (retlen,
          if update then Tmb (tmb_ptr tmb) mem (tmb_bufsize tmb) newptr (tmb_remptr tmb) (tmb_len tmb + retlen)
          else Tmb (tmb_ptr tmb) mem (tmb_bufsize tmb) (tmb_addptr tmb) (tmb_remptr tmb) (tmb_len tmb)).

(** The bytes written to the caller's buffer are part of the result. *)
Definition tmb_copyout (tmb : tcpmodbuf) (len : Z) (update : bool) : option (Z * bytes * tcpmodbuf) :=
  let maxlen := tmb_len tmb in
  let maxlen := if len <? maxlen then len else maxlen in
  let retlen := maxlen in
  let l := tmb_bufsize tmb - tmb_remptr tmb in
  let l := if maxlen <? l then maxlen else l in
  let? out := copy_from (tmb_buf tmb) (tmb_remptr tmb) l in
  let maxlen := maxlen - l in
  let? (out, newptr) :=
    if truthy maxlen then let? s := copy_from (tmb_buf tmb) 0 maxlen in Some (out ++ s, maxlen)
    else Some (out, tmb_remptr tmb + l) in
  Some (retlen, out,
        if update then Tmb (tmb_ptr tmb) (tmb_buf tmb) (tmb_bufsize tmb) (tmb_addptr tmb) newptr (tmb_len tmb - retlen)
        else tmb).

Definition tmb_copyout2 (tmb : tcpmodbuf) (offset len : Z) : option (Z * bytes) :=
  let maxlen := tmb_len tmb - offset in
  if maxlen <=? 0 then Some (0, [])
  else
    let maxlen := if len <? maxlen then len else maxlen in
    let retlen := maxlen in
    assert! truthy (tmb_bufsize tmb) in
    let remptr := Z.rem (tmb_remptr tmb + offset) (tmb_bufsize tmb) in
    let l := tmb_bufsize tmb - remptr in
    let l := if maxlen <? l then maxlen else l in
    let? out := copy_from (tmb_buf tmb) remptr l in
    let maxlen := maxlen - l in
    let? out := if truthy maxlen then let? s := copy_from (tmb_buf tmb) 0 maxlen in Some (out ++ s)
                else Some out in
    Some (retlen, out).

(** * The bounded queue it implements *)

Inductive top :=
  | Copyin (data : bytes) (len : Z) (update : bool)
  | Copyout (len : Z) (update : bool)
  | Copyout2 (offset len : Z)
  | Adjust (amt : Z)
  | Init.

Abbreviation res := (Z * bytes)%type.

Definition tstep (o : top) (b : tcpmodbuf) : option (res * tcpmodbuf) :=
  match o with
  | Copyin data len update => let? (r, b) := tmb_copyin b data len update in Some ((r, []), b)
  | Copyout len update => let? (r, out, b) := tmb_copyout b len update in Some ((r, out), b)
  | Copyout2 offset len => let? (r, out) := tmb_copyout2 b offset len in Some ((r, out), b)
  | Adjust amt => let? b := tmb_adjust b amt in Some ((0, []), b)
  | Init => Some ((0, []), tmb_init b)
  end.

(** The same on a queue of at most [n] bytes. *)
Definition qstep (n : Z) (o : top) (q : bytes) : res * bytes :=
  match o with
  | Copyin data len update =>
      let r := Z.min len (n - Z.of_nat (length q)) in
      ((r, []), if update then q ++ take (Z.to_nat r) data else q)
  | Copyout len update =>
      let r := Z.min len (Z.of_nat (length q)) in
      ((r, take (Z.to_nat r) q), if update then drop (Z.to_nat r) q else q)
  | Copyout2 offset len =>
      let r := Z.min len (Z.max 0 (Z.of_nat (length q) - offset)) in
      ((r, take (Z.to_nat r) (drop (Z.to_nat offset) q)), q)
  | Adjust amt => ((0, []), drop (Z.to_nat amt) q)
  | Init => ((0, []), [])
  end.

(** What a caller must respect: lengths are not negative and covered by its buffer, and
    it moves on over no more bytes than there are. *)
Definition top_ok (o : top) (q : bytes) : Prop :=
  match o with
  | Copyin data len _ => 0 <= len <= Z.of_nat (length data)
  | Copyout len _ => 0 <= len
  | Copyout2 offset len => 0 <= offset /\ 0 <= len
  | Adjust amt => 0 <= amt <= Z.of_nat (length q)
  | Init => True
  end.

(** The byte at a position of the ring, and the bytes from a position on. *)
Definition byte_at (m : bytes) (n i : Z) : Z := nth (Z.to_nat (i mod n)) m 0.
Definition ring (m : bytes) (n i l : Z) : bytes := byte_at m n <$> seqZ i l.

Definition contents (b : tcpmodbuf) : bytes := ring (tmb_buf b) (tmb_bufsize b) (tmb_remptr b) (tmb_len b).

(** Below [2 ^ 30] bytes no sum of two positions leaves the range of [int]. *)
Record tmb_ok (n : Z) (b : tcpmodbuf) : Prop := {
  ok_size : tmb_bufsize b = n /\ Z.of_nat (length (tmb_buf b)) = n /\ 0 < n < 2 ^ 30;
  ok_len : 0 <= tmb_len b <= n;
  ok_rem : 0 <= tmb_remptr b <= n;
  ok_add : 0 <= tmb_addptr b <= n;
  ok_pos : (tmb_remptr b + tmb_len b) mod n = tmb_addptr b mod n
}.

(** * Rings *)

Lemma ring_length m n i l : length (ring m n i l) = Z.to_nat l.
Proof. unfold ring. by rewrite length_fmap, length_seqZ. Qed.

Lemma ring_app m n i a b : 0 <= a -> 0 <= b -> ring m n i (a + b) = ring m n i a ++ ring m n (i + a) b.
Proof. intros. unfold ring. rewrite seqZ_app by done. apply fmap_app. Qed.

Lemma ring_ext m m' n i l :
  (forall k, 0 <= k < l -> byte_at m n (i + k) = byte_at m' n (i + k)) -> ring m n i l = ring m' n i l.
Proof.
  intros H. apply list_fmap_ext. intros k x Hx. apply lookup_seqZ in Hx as [-> Hk]. apply H. lia.
Qed.

Lemma ring_mod m n i j l : i mod n = j mod n -> ring m n i l = ring m n j l.
Proof.
  intros H. apply list_eq. intros k. unfold ring. rewrite !list_lookup_fmap.
  destruct (decide (Z.of_nat k < l)).
  - rewrite !lookup_seqZ_lt by lia. cbn. unfold byte_at.
    by rewrite Zplus_mod, H, <- Zplus_mod.
  - by rewrite !lookup_seqZ_ge by lia.
Qed.

(** A stretch that does not wrap is a slice of the memory. *)
Lemma ring_flat m n i l :
  Z.of_nat (length m) = n -> 0 <= i -> 0 <= l -> i + l <= n ->
  ring m n i l = take (Z.to_nat l) (drop (Z.to_nat i) m).
Proof.
  intros Hm Hi Hl Hn. apply list_eq. intros k. unfold ring. rewrite list_lookup_fmap.
  destruct (decide (Z.of_nat k < l)).
  - rewrite lookup_seqZ_lt by lia. cbn. rewrite lookup_take_lt, lookup_drop by lia. unfold byte_at.
    rewrite Z.mod_small by lia. replace (Z.to_nat (i + Z.of_nat k)) with (Z.to_nat i + k)%nat by lia.
    destruct (m !! (Z.to_nat i + k)%nat) eqn:E.
    + by rewrite nth_lookup, E.
    + apply lookup_ge_None in E. lia.
  - rewrite lookup_seqZ_ge by lia. cbn. by rewrite lookup_take_ge by lia.
Qed.

Lemma ring_take m n i l k : 0 <= k <= l -> take (Z.to_nat k) (ring m n i l) = ring m n i k.
Proof.
  intros H. replace l with (k + (l - k)) by lia. rewrite ring_app by lia.
  by rewrite take_app_length' by (rewrite ring_length; lia).
Qed.

Lemma ring_drop m n i l k : 0 <= k <= l -> drop (Z.to_nat k) (ring m n i l) = ring m n (i + k) (l - k).
Proof.
  intros H. replace l with (k + (l - k)) at 1 by lia. rewrite ring_app by lia.
  by rewrite drop_app_length' by (rewrite ring_length; lia).
Qed.

Lemma copy_from_ring m n i l :
  Z.of_nat (length m) = n -> 0 <= i -> 0 <= l -> i + l <= n -> copy_from m i l = Some (ring m n i l).
Proof.
  intros Hm Hi Hl Hn. unfold copy_from. rewrite !(proj2 (Z.leb_le _ _)) by lia. cbn.
  by rewrite (ring_flat m n) by lia.
Qed.

(** Reading [k] bytes in at most two pieces. *)
Lemma read_ring m n p k :
  Z.of_nat (length m) = n -> 0 < n -> 0 <= p <= n -> 0 <= k <= n ->
  let l := if k <? n - p then k else n - p in
  copy_from m p l = Some (ring m n p l) /\
  (if truthy (k - l) then (let? s := copy_from m 0 (k - l) in Some (ring m n p l ++ s, k - l))
   else Some (ring m n p l, p + l)) =
  Some (ring m n p k, if k <=? n - p then p + k else p + k - n).
Proof.
  intros Hm Hn Hp Hk l. assert (Hl : 0 <= l /\ l <= k /\ l <= n - p) by (unfold l; case_test; lia).
  split; [apply copy_from_ring; lia|]. unfold truthy. destruct (k - l =? 0) eqn:E; bool_simpl; cbn.
  - assert (l = k) as -> by lia. by rewrite (proj2 (Z.leb_le _ _)) by lia.
  - assert (l = n - p) as Hln by (revert E; unfold l; case_test; lia).
    rewrite (copy_from_ring m n) by lia. rewrite (proj2 (Z.leb_gt _ _)) by lia.
    replace k with (l + (k - l)) at 3 by lia. rewrite ring_app by lia.
    rewrite (ring_mod m n (p + l) 0) by (rewrite Hln; replace (p + (n - p)) with (0 + 1 * n) by lia;
      by rewrite Z_mod_plus_full). do 2 f_equal. lia.
Qed.

(** What is in the ring after writing [k] bytes of [s] at [p]. *)
Definition written (m s : bytes) (n p k : Z) (m' : bytes) : Prop :=
  length m' = length m /\
  forall j, byte_at m' n j =
    if (j - p) mod n <? k then nth (Z.to_nat ((j - p) mod n)) s 0 else byte_at m n j.

Lemma wrapped_diff n p j : 0 < n -> 0 <= p <= n ->
  (j - p) mod n = if p <=? j mod n then j mod n - p else j mod n - p + n.
Proof.
  intros Hn Hp. pose proof (Z.mod_pos_bound j n Hn). rewrite Zminus_mod.
  replace ((j mod n - p mod n) mod n) with ((j mod n - p) mod n) by (by rewrite Zminus_mod_idemp_r).
  case_test.
  - apply Z.mod_small. lia.
  - rewrite <- (Z_mod_plus_full _ 1), Z.mod_small; lia.
Qed.

Lemma nth_splice m i s j : (i + length s <= length m)%nat ->
  nth j (splice m i s) 0 = if decide ((i <= j < i + length s)%nat) then nth (j - i) s 0 else nth j m 0.
Proof. intros. rewrite !nth_lookup, lookup_splice by done. by case_decide. Qed.

Lemma nth_take (s : bytes) i k : (i < k)%nat -> nth i (take k s) 0 = nth i s 0.
Proof. intros. by rewrite !nth_lookup, lookup_take_lt. Qed.

Lemma copy_into_ok m i s l :
  0 <= i -> 0 <= l <= Z.of_nat (length s) -> i + l <= Z.of_nat (length m) ->
  copy_into m i s l = Some (splice m (Z.to_nat i) (take (Z.to_nat l) s)).
Proof.
  intros Hi Hl Hm. unfold copy_into, copy_from. rewrite !(proj2 (Z.leb_le _ _)) by lia. cbn.
  by rewrite drop_0.
Qed.

(** Writing [k] bytes in at most two pieces. *)
Lemma write_ring m n p k s :
  Z.of_nat (length m) = n -> 0 < n -> 0 <= p <= n -> 0 <= k <= n -> k <= Z.of_nat (length s) ->
  let l := if k <? n - p then k else n - p in
  exists m1 m', copy_into m p s l = Some m1 /\
    (if truthy (k - l) then (let? m2 := copy_into m1 0 (drop (Z.to_nat l) s) (k - l) in Some (m2, k - l))
     else Some (m1, p + l)) = Some (m', if k <=? n - p then p + k else p + k - n) /\
    written m s n p k m'.
Proof.
  intros Hm Hn Hp Hk Hs l. assert (Hl : 0 <= l /\ l <= k /\ l <= n - p) by (unfold l; case_test; lia).
  assert (Hll : l < k -> l = n - p) by (unfold l; case_test; lia). clearbody l.
  rewrite copy_into_ok by lia. set (m1 := splice m _ _). exists m1.
  assert (Hm1 : length m1 = length m) by (apply length_splice; rewrite length_take; lia).
  unfold truthy. destruct (k - l =? 0) eqn:E; bool_simpl; cbn [negb].
  - assert (l = k) as -> by lia. exists m1. rewrite (proj2 (Z.leb_le _ _)) by lia.
    split; [done|split; [done|split; [done|]]]. intros j. rewrite (wrapped_diff n p j) by lia.
    pose proof (Z.mod_pos_bound j n Hn). unfold byte_at, m1.
    rewrite nth_splice by (rewrite length_take; lia). rewrite length_take.
    case_decide; destruct (Z.leb_spec p (j mod n)); case_test; try lia; try done. rewrite nth_take by lia. f_equal. lia.
  - assert (l = n - p) as Hln by (apply Hll; lia). pose proof (length_drop s (Z.to_nat l)) as Hd.
    rewrite copy_into_ok by lia. eexists.
    rewrite (proj2 (Z.leb_gt _ _)) by lia. split; [done|].
    split; [do 2 f_equal; lia|]. set (s2 := take _ (drop _ s)).
    assert (Hs2 : Z.of_nat (length s2) = k - l) by (unfold s2; rewrite length_take, length_drop; lia).
    split; [rewrite length_splice, Hm1 by lia; done|]. intros j. rewrite (wrapped_diff n p j) by lia.
    pose proof (Z.mod_pos_bound j n Hn). unfold byte_at. rewrite nth_splice by lia.
    unfold m1. rewrite nth_splice by (rewrite length_take; lia). rewrite length_take.
    repeat case_decide; destruct (Z.leb_spec p (j mod n)); case_test; try lia; try done.
    + unfold s2. rewrite nth_take by lia. rewrite !nth_lookup, lookup_drop. do 2 f_equal. lia.
    + rewrite nth_take by lia. f_equal. lia.
Qed.

(** The written part, and the rest of the ring. *)
Lemma written_ring m s n p k m' :
  0 < n -> 0 <= k <= n -> k <= Z.of_nat (length s) -> written m s n p k m' ->
  ring m' n p k = take (Z.to_nat k) s /\
  forall q l, 0 <= l -> l + k <= n -> (q + l) mod n = p mod n -> ring m' n q l = ring m n q l.
Proof.
  intros Hn Hk Hs [Hlen Hw]. split.
  - apply list_eq. intros i. unfold ring. rewrite list_lookup_fmap. destruct (decide (Z.of_nat i < k)).
    + rewrite lookup_seqZ_lt, lookup_take_lt by lia. cbn. rewrite Hw.
      replace (p + Z.of_nat i - p) with (Z.of_nat i) by lia. rewrite Z.mod_small by lia.
      rewrite (proj2 (Z.ltb_lt _ _)) by lia. rewrite Nat2Z.id, nth_lookup.
      destruct (s !! i) eqn:E; [done|]. apply lookup_ge_None in E. lia.
    + rewrite lookup_seqZ_ge by lia. cbn. by rewrite lookup_take_ge by lia.
  - intros q l Hl Hkl Hq. apply ring_ext. intros i Hi. rewrite Hw.
    assert ((q + i - p) mod n = n - (l - i)) as ->.
    { replace (q + i - p) with (q + l - p + (i - l)) by lia. rewrite <- Zplus_mod_idemp_l.
      rewrite (Zminus_mod (q + l) p), Hq, Z.sub_diag, Zmod_0_l, Z.add_0_l.
      rewrite <- (Z_mod_plus_full _ 1), Z.mod_small; lia. }
    by rewrite (proj2 (Z.ltb_ge _ _)) by lia.
Qed.

(** * The operations *)

Lemma contents_length n b : tmb_ok n b -> Z.of_nat (length (contents b)) = tmb_len b.
Proof. intros [_ Hl _ _ _]. unfold contents. rewrite ring_length. lia. Qed.

Lemma pos_wrap p k n : 0 < n -> (if k <=? n - p then p + k else p + k - n) mod n = (p + k) mod n.
Proof.
  intros Hn. case_test; [done|]. rewrite <- (Z_mod_plus_full (p + k - n) 1). f_equal. lia.
Qed.

Lemma pos_range p k n : 0 <= p <= n -> 0 <= k <= n -> 0 <= (if k <=? n - p then p + k else p + k - n) <= n.
Proof. intros. case_test; lia. Qed.

Lemma tmb_copyin_spec n b data len update :
  tmb_ok n b -> 0 <= len <= Z.of_nat (length data) ->
  let r := Z.min len (n - tmb_len b) in
  exists b', tmb_copyin b data len update = Some (r, b') /\ tmb_ok n b' /\
    contents b' = if update then contents b ++ take (Z.to_nat r) data else contents b.
Proof.
  intros [(Hs & Hb & Hn) Hl Hrem Hadd Hpos] Hlen r. unfold tmb_copyin, contents.
  destruct (len =? 0) eqn:E0; bool_simpl.
  { exists b. assert (r = 0) as -> by lia. split; [done|]. split; [by split|].
    cbn. rewrite app_nil_r. by destruct update. }
  rewrite Hs. replace (if len <? n - tmb_len b then len else n - tmb_len b) with r by (case_test; lia).
  destruct (write_ring (tmb_buf b) n (tmb_addptr b) r data) as (m1 & m' & -> & Hw & Hwr); try lia.
  rewrite Hw. clear Hw.
  destruct (written_ring (tmb_buf b) data n (tmb_addptr b) r m') as [Hnew Hold]; try lia; [done|].
  pose proof (Hold (tmb_remptr b) (tmb_len b) ltac:(lia) ltac:(lia) Hpos) as Hrest.
  destruct Hwr as [Hlm _]. eexists. split; [done|]. destruct update; cbn.
  - split.
    + split; cbn; [lia|lia|done|apply pos_range; lia|].
      rewrite pos_wrap, Z.add_assoc by lia. by rewrite Zplus_mod, Hpos, <- Zplus_mod.
    + rewrite ring_app, Hrest by lia. f_equal. by rewrite (ring_mod _ _ _ _ _ Hpos), Hnew.
  - by split; [split; cbn; try lia|].
Qed.

Lemma tmb_copyout_spec n b len update :
  tmb_ok n b -> 0 <= len ->
  let r := Z.min len (tmb_len b) in
  exists b', tmb_copyout b len update = Some (r, take (Z.to_nat r) (contents b), b') /\ tmb_ok n b' /\
    contents b' = if update then drop (Z.to_nat r) (contents b) else contents b.
Proof.
  intros [(Hs & Hb & Hn) Hl Hrem Hadd Hpos] Hlen r. unfold tmb_copyout.
  rewrite Hs. replace (if len <? tmb_len b then len else tmb_len b) with r by (case_test; lia).
  destruct (read_ring (tmb_buf b) n (tmb_remptr b) r) as [-> Hr]; try lia. rewrite Hr. clear Hr.
  unfold contents. rewrite ring_take, ring_drop by lia. rewrite Hs. eexists. split; [done|].
  destruct update; cbn; [|by split; [split|rewrite Hs]]. split.
  - split; cbn; [done|lia|apply pos_range; lia|done|].
    rewrite <- Hpos, <- Zplus_mod_idemp_l, pos_wrap, Zplus_mod_idemp_l by lia. f_equal. lia.
  - apply ring_mod. apply pos_wrap. lia.
Qed.

Lemma tmb_copyout2_spec n b offset len :
  tmb_ok n b -> 0 <= offset -> 0 <= len ->
  let r := Z.min len (Z.max 0 (tmb_len b - offset)) in
  tmb_copyout2 b offset len = Some (r, take (Z.to_nat r) (drop (Z.to_nat offset) (contents b))).
Proof.
  intros K Ho Hlen r. pose proof (contents_length n b K) as Hcl.
  destruct K as [(Hs & Hb & Hn) Hl Hrem Hadd Hpos]. unfold tmb_copyout2. case_test.
  { assert (r = 0) as -> by lia. done. }
  rewrite Hs. replace (if len <? tmb_len b - offset then len else tmb_len b - offset) with r by (case_test; lia).
  unfold truthy at 1. rewrite (proj2 (Z.eqb_neq _ _)) by lia. cbn [negb].
  rewrite Z.rem_mod_nonneg by lia. pose proof (Z.mod_pos_bound (tmb_remptr b + offset) n) as Hp.
  destruct (read_ring (tmb_buf b) n ((tmb_remptr b + offset) mod n) r) as [-> Hr]; try lia.
  unfold contents. rewrite Hs, ring_drop, ring_take by lia.
  rewrite (ring_mod _ _ (tmb_remptr b + offset) ((tmb_remptr b + offset) mod n)) by (by rewrite Zmod_mod).
  destruct (truthy _).
  - destruct (copy_from _ 0 _); [|done]. by injection Hr as <- _.
  - by injection Hr as <- _.
Qed.

Lemma tmb_adjust_spec n b amt :
  tmb_ok n b -> 0 <= amt <= tmb_len b ->
  exists b', tmb_adjust b amt = Some b' /\ tmb_ok n b' /\
    contents b' = drop (Z.to_nat amt) (contents b).
Proof.
  intros [(Hs & Hb & Hn) Hl Hrem Hadd Hpos] Ha. unfold tmb_adjust, truthy. rewrite Hs.
  rewrite (proj2 (Z.eqb_neq _ _)) by lia. eexists. split; [done|].
  rewrite Z.rem_mod_nonneg by lia. pose proof (Z.mod_pos_bound (tmb_remptr b + amt) n). split.
  - split; cbn; [done|lia|lia|done|]. rewrite Zplus_mod_idemp_l, <- Hpos. f_equal. lia.
  - unfold contents. cbn. rewrite Hs, ring_drop by lia. apply ring_mod. by rewrite Zmod_mod.
Qed.

Lemma tmb_init_ok n b : tmb_ok n b -> tmb_ok n (tmb_init b) /\ contents (tmb_init b) = [].
Proof. intros [(? & ? & ?) ? ? ? ?]. split; [split; cbn; try done; lia|done]. Qed.

Lemma tstep_refines n o b :
  tmb_ok n b -> top_ok o (contents b) ->
  exists b', tstep o b = Some ((qstep n o (contents b)).1, b') /\ tmb_ok n b' /\
    contents b' = (qstep n o (contents b)).2.
Proof.
  intros K Ho. pose proof (contents_length n b K) as Hl. destruct o as [data len u|len u|off len|amt|]; cbn in *.
  - destruct (tmb_copyin_spec n b data len u K Ho) as (b' & -> & Hb & Hc). rewrite Hl. by exists b'.
  - destruct (tmb_copyout_spec n b len u K Ho) as (b' & -> & Hb & Hc). rewrite Hl. by exists b'.
  - destruct Ho. rewrite (tmb_copyout2_spec n b off len) by done. rewrite Hl. by exists b.
  - rewrite Hl in Ho. destruct (tmb_adjust_spec n b amt K Ho) as (b' & -> & Hb & Hc). by exists b'.
  - exists (tmb_init b). split; [done|by apply tmb_init_ok].
Qed.

(** A sequence of operations, on the buffer and on the queue. *)
Fixpoint trun (os : list top) (b : tcpmodbuf) : option (list res * tcpmodbuf) :=
  match os with
  | [] => Some ([], b)
  | o :: os => let? (r, b) := tstep o b in let? (rs, b) := trun os b in Some (r :: rs, b)
  end.

Fixpoint qrun (n : Z) (os : list top) (q : bytes) : list res * bytes :=
  match os with
  | [] => ([], q)
  | o :: os => let '(r, q) := qstep n o q in let '(rs, q) := qrun n os q in (r :: rs, q)
  end.

Fixpoint tops_ok (n : Z) (os : list top) (q : bytes) : Prop :=
  match os with
  | [] => True
  | o :: os => top_ok o q /\ tops_ok n os (qstep n o q).2
  end.

Lemma trun_refines n os b :
  tmb_ok n b -> tops_ok n os (contents b) ->
  exists b', trun os b = Some ((qrun n os (contents b)).1, b') /\ tmb_ok n b' /\
    contents b' = (qrun n os (contents b)).2.
Proof.
  revert b. induction os as [|o os IH]; intros b K Ho; [by exists b|]. destruct Ho as [Ho Hos].
  destruct (tstep_refines n o b K Ho) as (b1 & Hst & K1 & Hc). cbn [trun qrun]. rewrite Hst.
  destruct (qstep n o (contents b)) as [r q]. cbn [fst snd] in *. subst q.
  destruct (IH b1 K1 Hos) as (b2 & -> & K2 & Hc2). destruct (qrun n os (contents b1)) as [rs q].
  exists b2. done.
Qed.

Lemma trun_frame os b rs b' : trun os b = Some (rs, b') -> tmb_ptr b' = tmb_ptr b.
Proof.
  revert b rs. induction os as [|o os IH]; intros b rs H; cbn in H; [by injection H as <- <-|].
  destruct (tstep o b) as [[r b1]|] eqn:Ho; [|done].
  destruct (trun os b1) as [[rs1 b2]|] eqn:Hr; [|done]. injection H as <- <-.
  rewrite (IH _ _ Hr). clear IH Hr. revert Ho.
  destruct o as [data len u|len u|off len|amt|]; cbn.
  - unfold tmb_copyin. repeat (case_match; try done); intros; by simplify_eq/=.
  - unfold tmb_copyout. repeat (case_match; try done); intros; by simplify_eq/=.
  - destruct (tmb_copyout2 b off len) as [[??]|]; [|done]. intros; by simplify_eq.
  - unfold tmb_adjust. destruct (truthy _); [|done]. intros; by simplify_eq.
  - intros; by simplify_eq.
Qed.

(** C23 The modulo buffer is a bounded queue of bytes: whatever is copied in, peeked at,
    skipped and copied out between allocation and release, every call returns the count
    and the bytes that a plain queue of the same capacity gives, and releasing the buffer
    gives exactly its block back to the allocator.  A failed allocation changes nothing. *)
Theorem tmb_refines pool live mem b size os :
  pool_ok pool live -> 0 < size < 2 ^ 30 -> Z.of_nat (length mem) = size -> tops_ok size os [] ->
  let '(r, pool1, b1) := tmb_alloc pool mem b size in
  (r = -1 /\ pool1 = pool /\ tmb_ptr b1 = 0) \/
  (r = 0 /\ exists b2 b3 pool2,
     trun os b1 = Some ((qrun size os []).1, b2) /\ contents b2 = (qrun size os []).2 /\
     tmb_free pool1 b2 = Some (pool2, b3) /\ pool_ok pool2 live).
Proof.
  intros K Hn Hm Hos. unfold tmb_alloc. rewrite wrap32_small by lia.
  assert (Ho : mop_ok (Kmalloc size 0)) by (split; [lia|by left]).
  pose proof (kmalloc_spec pool live size 0 K Ho) as Hk.
  destruct (kmalloc pool size 0) as [p pool1]. destruct Hk as (_ & _ & [[-> ->]|(Hp & Hfresh & Hpool)]).
  { by left. }
  rewrite (proj2 (Z.eqb_neq _ _)) by done. right. split; [done|].
  set (b1 := Tmb _ _ _ _ _ _). assert (K1 : tmb_ok size (tmb_init b1)) by (split; cbn; try done; lia).
  destruct (trun_refines size os (tmb_init b1) K1 Hos) as (b2 & Hr & _ & Hc).
  change (contents (tmb_init b1)) with (@nil Z) in *. pose proof (trun_frame _ _ _ _ Hr) as Hptr.
  destruct (kfree_spec pool1 _ p (Z.max 4 size, 0) Hpool) as (pool2 & Hf & Hpool2 & _);
    [by rewrite lookup_insert_eq|].
  rewrite delete_insert_id in Hpool2 by done.
  eexists b2, _, pool2. split; [done|]. split; [done|]. split; [|done].
  unfold tmb_free, truthy. rewrite Hptr. cbn. by rewrite (proj2 (Z.eqb_neq _ _)), Hf by done.
Qed.

(** * Instances of the properties *)

Definition ex_tops : list top :=
  [Copyin (str "abcdef"%string) 6 true; Copyout 4 true; Copyin (str "ghijkl"%string) 6 true;
   Copyout2 1 3; Adjust 2; Copyout 10 true].

(** The second [Copyin] wraps around the end of the eight bytes and is cut short by none;
    the last [Copyout] gets what is left. *)
Lemma tmb_refines_witness :
  exists b2, trun ex_tops (tmb_alloc (kmeminit 0x10000 0x1000) (replicate 8 0) (Tmb 0 [] 0 0 0 0) 8).2
    = Some ([(6, []); (4, str "abcd"%string); (6, []); (3, str "fgh"%string); (0, []); (6, str "ghijkl"%string)], b2).
Proof.
  assert (K : pool_ok (kmeminit 0x10000 0x1000) ∅)
    by (apply kmeminit_ok; [lia|unfold sizeof_memnode; lia|lia]).
  assert (Hos : tops_ok 8 ex_tops []) by (vm_compute; intuition discriminate).
  pose proof (tmb_refines (kmeminit 0x10000 0x1000) ∅ (replicate 8 0) (Tmb 0 [] 0 0 0 0) 8 ex_tops
    K ltac:(lia) eq_refl Hos) as H.
  destruct (tmb_alloc _ _ _ _) as [[r pool1] b1] eqn:E. vm_compute in E. injection E as <- <- <-.
  destruct H as [(H & _)|(_ & b2 & _ & _ & H & _)]; [discriminate|]. exists b2. exact H.
Defined.
