(* ===== verification/Queue.v ===== *)
(** The boot loader's doubly linked queues: cfe/cfe/lib/lib_queue.c and the macros of
    cfe/cfe/include/lib_queue.h.

    Queue blocks and items are nodes of one heap, linked in a ring through the block; the
    operations are shown to implement lists, for any number of queues in the heap. *)

From S2P Require Import Prelude.
From Stdlib Require Import ZArith Lia Bool List.
From stdpp Require Import base numbers list gmap.

#[local] Open Scope Z_scope.

Record queue_t := Qn { q_next : Z; q_prev : Z }.

(** The nodes in memory, by address; 0 is [NULL] and holds none. *)
Abbreviation heap := (gmap Z queue_t).

Definition next (h : heap) (a : Z) : option Z := q_next <$> h !! a.
Definition prev (h : heap) (a : Z) : option Z := q_prev <$> h !! a.

Definition set_next (h : heap) (a v : Z) : option heap :=
  let? n := h !! a in Some (<[a := Qn v (q_prev n)]> h).
Definition set_prev (h : heap) (a v : Z) : option heap :=
  let? n := h !! a in Some (<[a := Qn (q_next n) v]> h).

Definition q_init (h : heap) (q : Z) : option heap := let? h := set_prev h q q in set_next h q q.
Definition q_isempty (h : heap) (q : Z) : option bool := let? n := next h q in Some (n =? q).
Definition q_getfirst (h : heap) (q : Z) : option Z := next h q.
Definition q_getlast (h : heap) (q : Z) : option Z := prev h q.

Definition q_enqueue (h : heap) (qb item : Z) : option heap :=
  let? p := prev h qb in
  let? h := set_next h p item in
  let? h := set_next h item qb in
  let? p := prev h qb in
  let? h := set_prev h item p in
  set_prev h qb item.

Definition q_dequeue (h : heap) (item : Z) : option heap :=
  let? p := prev h item in
  let? n := next h item in
  let? h := set_next h p n in
  let? n := next h item in
  let? p := prev h item in
  set_prev h n p.

Definition q_deqnext (h : heap) (qb : Z) : option (Z * heap) :=
  let? n := next h qb in
  if n =? qb then Some (0, h)
  else
    let qb := n in
    let? p := prev h qb in
    let? n := next h qb in
    let? h := set_next h p n in
    let? n := next h qb in
    let? p := prev h qb in
    let? h := set_prev h n p in
    Some (qb, h).

Section q_map.
(** The function called for each element: it may change the heap and a state of its own. *)
Context {T : Type} (func : Z -> heap -> T -> option (Z * heap * T)).

Fixpoint q_map_loop (fuel : nat) (h : heap) (s : T) (qb qe : Z) : option (Z * heap * T) :=
  match fuel with
  | O => None
  | S fuel =>
      if qe =? qb then Some (0, h, s)
      else
        let? nextq := next h qe in
        let? (res, h, s) := func qe h s in
        if truthy res then Some (res, h, s) else q_map_loop fuel h s qb nextq
  end.

Definition q_map (fuel : nat) (h : heap) (s : T) (qb : Z) : option (Z * heap * T) :=
  let? qe := next h qb in q_map_loop fuel h s qb qe.
End q_map.

Fixpoint count_loop (fuel : nat) (h : heap) (qb qe res : Z) : option Z :=
  match fuel with
  | O => None
  | S fuel =>
      let? n := next h qe in
      if n =? qb then Some res else count_loop fuel h qb n (res + 1)
  end.

Definition q_count (fuel : nat) (h : heap) (qb : Z) : option Z := count_loop fuel h qb qb 0.

Fixpoint find_loop (fuel : nat) (h : heap) (qb item q res : Z) : option Z :=
  match fuel with
  | O => None
  | S fuel =>
      if q =? item then Some res
      else if q =? qb then Some 0
      else let? q := next h q in find_loop fuel h qb item q (res + 1)
  end.

Definition q_find (fuel : nat) (h : heap) (qb item : Z) : option Z :=
  let? q := next h qb in find_loop fuel h qb item q 1.

(** * Lists in the heap *)

(** From [a] over the nodes [l] to [e], linked both ways. *)
Fixpoint linked (h : heap) (a : Z) (l : list Z) (e : Z) : Prop :=
  match l with
  | [] => next h a = Some e /\ prev h e = Some a
  | x :: l => next h a = Some x /\ prev h x = Some a /\ linked h x l e
  end.

Definition queue (h : heap) (qb : Z) (l : list Z) : Prop := NoDup (qb :: l) /\ linked h qb l qb.

Fixpoint lastof (a : Z) (l : list Z) : Z := match l with [] => a | x :: l => lastof x l end.
Definition firstof (l : list Z) (e : Z) : Z := match l with [] => e | x :: _ => x end.

Lemma linked_app h a l1 x l2 e : linked h a (l1 ++ x :: l2) e <-> linked h a l1 x /\ linked h x l2 e.
Proof. revert a. induction l1 as [|y l1 IH]; intros a; cbn; [tauto|]. rewrite IH. tauto. Qed.

Lemma linked_ends h a l e : linked h a l e -> next h a = Some (firstof l e) /\ prev h e = Some (lastof a l).
Proof. revert a. induction l as [|x l IH]; intros a; cbn; [done|]. intros (H1 & H2 & H). split; [done|]. by apply IH. Qed.

Lemma lastof_in a l : lastof a l ∈ a :: l.
Proof. revert a. induction l as [|x l IH]; intros a; cbn; [left|]. right. apply IH. Qed.

Lemma lastof_snoc a l x : lastof a (l ++ [x]) = x.
Proof. revert a. induction l as [|y l IH]; intros a; cbn; [done|]. apply IH. Qed.

Lemma firstof_in l e : firstof l e ∈ l ++ [e].
Proof. destruct l; left. Qed.

(** The same nodes between other links. *)
Lemma linked_frame h h' a l e :
  linked h a l e -> (forall x, x ∈ a :: l -> next h' x = next h x) ->
  (forall x, x ∈ l ++ [e] -> prev h' x = prev h x) -> linked h' a l e.
Proof.
  revert a. induction l as [|x l IH]; intros a; cbn.
  - intros [<- <-] Hn Hp. split; [apply Hn; left|apply Hp; left].
  - intros (<- & <- & Hl) Hn Hp. split; [apply Hn; left|]. split; [apply Hp; left|].
    apply IH; [done|intros y Hy; apply Hn; by right|intros y Hy; apply Hp; by right].
Qed.

(** Nodes given a new end. *)
Lemma linked_retarget h h' a l e e' :
  NoDup (a :: l) -> linked h a l e ->
  (forall x, x ∈ a :: l -> x <> lastof a l -> next h' x = next h x) -> next h' (lastof a l) = Some e' ->
  (forall x, x ∈ l -> prev h' x = prev h x) -> prev h' e' = Some (lastof a l) -> linked h' a l e'.
Proof.
  revert a. induction l as [|x l IH]; intros a; cbn.
  - intros _ _ _ -> _ ->. done.
  - intros Hnd (<- & Hxa & Hl) Hn He Hp He'. apply NoDup_cons in Hnd as [Ha Hnd].
    split; [apply Hn; [left|intros ->; apply Ha, lastof_in]|].
    split; [rewrite Hp; [done|left]|].
    apply IH; [done|done|intros y Hy; apply Hn; by right|done|intros y Hy; apply Hp; by right|done].
Qed.

(** * Stores *)

Lemma set_next_spec h a v : is_Some (h !! a) -> exists h', set_next h a v = Some h' /\
  (forall x, next h' x = if decide (x = a) then Some v else next h x) /\ (forall x, prev h' x = prev h x) /\
  (forall x, is_Some (h' !! x) <-> is_Some (h !! x)) /\ (forall x, x <> a -> h' !! x = h !! x).
Proof.
  intros [n Hn]. unfold set_next. rewrite Hn. eexists. split; [done|].
  split; [|split; [|split]]; intros x; unfold next, prev; destruct (decide (x = a)) as [->|Hx];
    rewrite ?lookup_insert_eq, ?lookup_insert_ne, ?Hn by congruence; try done.
Qed.

Lemma set_prev_spec h a v : is_Some (h !! a) -> exists h', set_prev h a v = Some h' /\
  (forall x, prev h' x = if decide (x = a) then Some v else prev h x) /\ (forall x, next h' x = next h x) /\
  (forall x, is_Some (h' !! x) <-> is_Some (h !! x)) /\ (forall x, x <> a -> h' !! x = h !! x).
Proof.
  intros [n Hn]. unfold set_prev. rewrite Hn. eexists. split; [done|].
  split; [|split; [|split]]; intros x; unfold next, prev; destruct (decide (x = a)) as [->|Hx];
    rewrite ?lookup_insert_eq, ?lookup_insert_ne, ?Hn by congruence; try done.
Qed.

Lemma next_some h a v : next h a = Some v -> is_Some (h !! a).
Proof. unfold next. destruct (h !! a); [by eexists|done]. Qed.
Lemma prev_some h a v : prev h a = Some v -> is_Some (h !! a).
Proof. unfold prev. destruct (h !! a); [by eexists|done]. Qed.
#[local] Hint Resolve next_some prev_some : core.

Lemma linked_some h a l e x : linked h a l e -> x ∈ a :: l -> is_Some (h !! x).
Proof.
  revert a. induction l as [|y l IH]; intros a; cbn.
  - intros [H _] Hx. apply list_elem_of_singleton in Hx as ->. by eauto.
  - intros (H & _ & Hl) Hx. apply elem_of_cons in Hx as [->|Hx]; [by eauto|]. by eapply IH.
Qed.

Lemma queue_some h qb l x : queue h qb l -> x ∈ qb :: l -> is_Some (h !! x).
Proof. intros [_ Hl]. by apply linked_some with qb. Qed.

(** The nodes two heaps agree on, in the same memory. *)
Definition agree_off (xs : list Z) (h h' : heap) : Prop :=
  (forall x, is_Some (h' !! x) <-> is_Some (h !! x)) /\ (forall x, x ∉ xs -> h' !! x = h !! x).

Lemma queue_frame h h' xs qb l :
  queue h qb l -> agree_off xs h h' -> (forall x, x ∈ qb :: l -> x ∉ xs) -> queue h' qb l.
Proof.
  intros [Hnd Hl] [_ Ha] Hd. split; [done|]. eapply linked_frame; [done| |]; intros x Hx;
    unfold next, prev; (rewrite Ha; [done|]); apply Hd; [done|].
  apply elem_of_app in Hx as [Hx|Hx]; [by right|]. apply list_elem_of_singleton in Hx as ->. left.
Qed.

Lemma q_init_spec h q : is_Some (h !! q) ->
  exists h', q_init h q = Some h' /\ queue h' q [] /\ agree_off [q] h h'.
Proof.
  intros Hq. unfold q_init. destruct (set_prev_spec h q q Hq) as (h1 & -> & P1 & N1 & D1 & F1).
  destruct (set_next_spec h1 q q) as (h2 & -> & N2 & P2 & D2 & F2); [by apply D1|].
  exists h2. split; [done|]. split; [split; [apply NoDup_singleton|]|].
  - cbn. rewrite N2, P2, P1. by rewrite !decide_True by done.
  - split; [intros x; by rewrite D2, D1|]. intros x Hx. rewrite list_elem_of_singleton in Hx.
    by rewrite F2, F1.
Qed.

Lemma q_enqueue_spec h qb l item :
  queue h qb l -> item ∉ qb :: l -> is_Some (h !! item) ->
  exists h', q_enqueue h qb item = Some h' /\ queue h' qb (l ++ [item]) /\ agree_off (qb :: l ++ [item]) h h'.
Proof.
  intros [Hnd Hl] Hi Hs. destruct (linked_ends _ _ _ _ Hl) as [_ Hlast]. unfold q_enqueue. rewrite Hlast.
  set (p := lastof qb l) in *. assert (Hp : p ∈ qb :: l) by apply lastof_in.
  assert (Hqi : qb <> item) by (intros ->; apply Hi; left). assert (Hpi : p <> item) by (by intros ->).
  destruct (set_next_spec h p item) as (h1 & -> & N1 & P1 & D1 & F1); [by eapply linked_some|].
  destruct (set_next_spec h1 item qb) as (h2 & -> & N2 & P2 & D2 & F2); [by apply D1|].
  rewrite P2, P1, Hlast. destruct (set_prev_spec h2 item p) as (h3 & -> & P3 & N3 & D3 & F3); [by apply D2, D1|].
  destruct (set_prev_spec h3 qb item) as (h4 & -> & P4 & N4 & D4 & F4); [apply D3, D2, D1; eauto|].
  exists h4. split; [done|]. split.
  - split.
    + apply NoDup_cons in Hnd as [Hq Hnd]. apply not_elem_of_cons in Hi as [_ Hi]. apply NoDup_cons. split.
      * rewrite elem_of_app, list_elem_of_singleton. tauto.
      * apply NoDup_app. split; [done|]. split; [|apply NoDup_singleton].
        intros x Hx ->%list_elem_of_singleton. done.
    + apply linked_app. split.
      * eapply linked_retarget; [done|exact Hl|..]; fold p.
        -- intros x Hx Hxp. rewrite N4, N3, N2, N1. rewrite !decide_False; [done|done|by intros ->].
        -- rewrite N4, N3, N2, N1. by rewrite decide_False, decide_True.
        -- intros x Hx. apply NoDup_cons in Hnd as [Hq _]. rewrite P4, P3, P2, P1.
           rewrite !decide_False; [done| |by intros ->]. intros ->. apply Hi. by right.
        -- rewrite P4, P3. by rewrite decide_False, decide_True.
      * cbn. rewrite N4, N3, N2, P4. by rewrite !decide_True by done.
  - split; [intros x; by rewrite D4, D3, D2, D1|]. intros x Hx.
    rewrite elem_of_cons, elem_of_app, list_elem_of_singleton in Hx.
    rewrite F4, F3, F2, F1; try tauto; intros ->; rewrite elem_of_cons in Hp; tauto.
Qed.

Lemma NoDup_head_split (qb item : Z) l1 l2 : NoDup (qb :: l1 ++ item :: l2) ->
  (item ∉ qb :: l1 ++ l2) /\ NoDup (qb :: l1 ++ l2).
Proof.
  intros H. assert (Hp : (qb :: l1 ++ item :: l2) ≡ₚ (item :: qb :: l1 ++ l2)).
  { rewrite <- Permutation_middle. apply Permutation_swap. }
  rewrite Hp in H. by apply NoDup_cons in H.
Qed.

Lemma lastof_app a l1 x l2 : lastof a (l1 ++ x :: l2) = lastof x l2.
Proof. revert a. induction l1 as [|y l1 IH]; intros a; cbn; [done|apply IH]. Qed.

(** The two stores that unlink a node. *)
Lemma unlink_spec h qb l1 item l2 p n :
  queue h qb (l1 ++ item :: l2) -> p = lastof qb l1 -> n = firstof l2 qb ->
  exists h1 h', set_next h p n = Some h1 /\ next h1 item = Some n /\ prev h1 item = Some p /\
    set_prev h1 n p = Some h' /\ queue h' qb (l1 ++ l2) /\ agree_off (qb :: l1 ++ l2) h h'.
Proof.
  intros [Hnd Hl] -> ->. destruct (NoDup_head_split _ _ _ _ Hnd) as [Hi Hnd'].
  apply linked_app in Hl as [H1 H2].
  destruct (linked_ends _ _ _ _ H1) as [_ Hpi]. destruct (linked_ends _ _ _ _ H2) as [Hni Hpq].
  set (p := lastof qb l1) in *. assert (Hp : p ∈ qb :: l1) by apply lastof_in.
  set (n := firstof l2 qb) in *. assert (Hn : n ∈ l2 ++ [qb]) by apply firstof_in.
  assert (Hp' : p <> item) by (intros ->; apply Hi; set_solver).
  assert (Hn' : n <> item) by (intros ->; apply Hi; set_solver).
  destruct (set_next_spec h p n) as (h1 & -> & N1 & P1 & D1 & F1); [exact (linked_some _ _ _ _ _ H1 Hp)|].
  assert (Hs : is_Some (h !! n)).
  { apply elem_of_app in Hn as [Hn|Hn]; [eapply linked_some; [exact H2|by right]|].
    apply list_elem_of_singleton in Hn as ->. eauto. }
  destruct (set_prev_spec h1 n p) as (h2 & Hh2 & P2 & N2 & D2 & F2); [by apply D1|].
  exists h1, h2. split; [done|]. rewrite N1, P1. split; [by rewrite decide_False|].
  split; [done|]. split; [done|]. split.
  - split; [done|]. assert (Hr : linked h2 qb l1 n).
    { eapply linked_retarget; [|exact H1|..]; fold p.
      - apply NoDup_cons in Hnd' as [Hq Hnd']. apply NoDup_app in Hnd' as (? & _).
        apply NoDup_cons. split; [|done]. set_solver.
      - intros x Hx Hxp. by rewrite N2, N1, decide_False.
      - by rewrite N2, N1, decide_True.
      - intros x Hx. rewrite P2, P1. rewrite decide_False; [done|]. intros ->.
        apply NoDup_cons in Hnd' as [Hq Hnd']. apply NoDup_app in Hnd' as (_ & Hd & _).
        apply elem_of_app in Hn as [Hn|Hn]; [by apply (Hd n)|].
        apply list_elem_of_singleton in Hn. apply Hq. rewrite <- Hn. set_solver.
      - by rewrite P2, decide_True. }
    destruct l2 as [|y l2]; [by rewrite app_nil_r|]. apply linked_app. split; [exact Hr|].
    cbn in H2. destruct H2 as (_ & _ & H2). apply NoDup_cons in Hnd' as [Hq Hnd'].
    apply NoDup_app in Hnd' as (_ & Hd & Hy). apply NoDup_cons in Hy as [Hy _].
    eapply linked_frame; [exact H2|..].
    + intros x Hx. rewrite N2, N1, decide_False; [done|]. intros ->.
      apply elem_of_cons in Hp as [Hp|Hp]; [apply Hq; rewrite <- Hp; set_solver|by apply (Hd p)].
    + intros x Hx. cbn in n. rewrite P2, P1, decide_False; [done|]. intros ->.
      apply elem_of_app in Hx as [Hx|Hx]; [done|]. apply list_elem_of_singleton in Hx.
      apply Hq. rewrite <- Hx. set_solver.
  - split; [intros x; by rewrite D2, D1|]. intros x Hx. rewrite F2, F1; [done| |]; intros ->; set_solver.
Qed.

Lemma q_dequeue_spec h qb l1 item l2 : queue h qb (l1 ++ item :: l2) ->
  exists h', q_dequeue h item = Some h' /\ queue h' qb (l1 ++ l2) /\ agree_off (qb :: l1 ++ l2) h h'.
Proof.
  intros K. destruct (unlink_spec h qb l1 item l2 _ _ K eq_refl eq_refl) as (h1 & h' & H1 & N1 & P1 & H2 & Hq).
  destruct K as [_ [Ha Hb]%linked_app]. unfold q_dequeue.
  destruct (linked_ends _ _ _ _ Ha) as [_ ->]. destruct (linked_ends _ _ _ _ Hb) as [-> _].
  rewrite H1, N1, P1. by exists h'.
Qed.

Lemma q_deqnext_spec h qb l : queue h qb l ->
  exists h', q_deqnext h qb = Some (firstof l 0, h') /\ queue h' qb (tail l) /\ agree_off (qb :: l) h h'.
Proof.
  intros K. pose proof K as [Hnd Hl]. destruct (linked_ends _ _ _ _ Hl) as [Hn _]. unfold q_deqnext. rewrite Hn.
  destruct l as [|x l]; cbn [firstof tail].
  { rewrite Z.eqb_refl. exists h. split; [done|]. split; [done|]. split; [done|]. done. }
  assert (x <> qb) by (intros ->; apply NoDup_cons in Hnd as [Hd _]; apply Hd; left).
  rewrite (proj2 (Z.eqb_neq _ _)) by done.
  destruct (unlink_spec h qb [] x l _ _ K eq_refl eq_refl) as (h1 & h' & H1 & N1 & P1 & H2 & Hq & Hf).
  cbn in Hl. destruct Hl as (_ & -> & Hl). destruct (linked_ends _ _ _ _ Hl) as [-> _].
  cbn [lastof] in *. rewrite H1, N1, P1, H2. exists h'. split; [done|]. split; [done|].
  destruct Hf as [Hf1 Hf2]. split; [done|]. intros y Hy. apply Hf2. cbn. set_solver.
Qed.

Lemma count_loop_spec h qb a l fuel res :
  linked h a l qb -> qb ∉ l -> (length l < fuel)%nat ->
  count_loop fuel h qb a res = Some (res + Z.of_nat (length l)).
Proof.
  revert a fuel res. induction l as [|x l IH]; intros a [|fuel] res Hl Hq Hf; cbn in Hf; try lia; cbn.
  - destruct Hl as [-> _]. rewrite Z.eqb_refl. f_equal. lia.
  - destruct Hl as (-> & _ & Hl). apply not_elem_of_cons in Hq as [Hx Hq].
    rewrite (proj2 (Z.eqb_neq _ _)) by congruence. rewrite IH by (done || lia). f_equal. lia.
Qed.

Lemma q_count_spec h qb l fuel :
  queue h qb l -> (length l < fuel)%nat -> q_count fuel h qb = Some (Z.of_nat (length l)).
Proof. intros [[Hq _]%NoDup_cons Hl] Hf. unfold q_count. by rewrite (count_loop_spec h qb qb l) by done. Qed.

(** The position of an address among the nodes, from 1; 0 when it is not there. *)
Fixpoint position (l : list Z) (item : Z) : Z :=
  match l with
  | [] => 0
  | x :: l => if x =? item then 1 else let p := position l item in if p =? 0 then 0 else p + 1
  end.

Lemma position_range l item : 0 <= position l item.
Proof. induction l as [|x l IH]; cbn; [lia|]. repeat case_test; lia. Qed.

Lemma find_loop_spec h qb item a l fuel res :
  linked h a l qb -> qb ∉ l -> (length l < fuel)%nat ->
  find_loop fuel h qb item (firstof l qb) res =
  Some (let p := position (l ++ [qb]) item in if p =? 0 then 0 else p + res - 1).
Proof.
  revert a fuel res. induction l as [|x l IH]; intros a [|fuel] res Hl Hq Hf; cbn in Hf; try lia; cbn -[Z.add Z.sub].
  - destruct (qb =? item); [f_equal; cbv zeta; case_test; lia|]. by rewrite Z.eqb_refl.
  - destruct Hl as (_ & _ & Hl). apply not_elem_of_cons in Hq as [Hx Hq].
    destruct (x =? item); [f_equal; cbv zeta; case_test; lia|]. rewrite (proj2 (Z.eqb_neq _ _)) by congruence.
    destruct (linked_ends _ _ _ _ Hl) as [-> _]. rewrite (IH x) by (done || lia). f_equal. cbn zeta.
    pose proof (position_range (l ++ [qb]) item). repeat case_test; lia.
Qed.

Lemma q_find_spec h qb item l fuel :
  queue h qb l -> (length l < fuel)%nat -> q_find fuel h qb item = Some (position (l ++ [qb]) item).
Proof.
  intros [[Hq _]%NoDup_cons Hl] Hf. unfold q_find. destruct (linked_ends _ _ _ _ Hl) as [-> _].
  rewrite (find_loop_spec h qb item qb l) by done. f_equal. cbn zeta. case_test; lia.
Qed.

(** * Any number of queues in one heap *)

(** The queues by their blocks. *)
Abbreviation family := (gmap Z (list Z)).

Definition owned (Q : family) (x : Z) : Prop := exists q l, Q !! q = Some l /\ x ∈ q :: l.

Record heap_ok (h : heap) (Q : family) : Prop := {
  ok_queue : forall q l, Q !! q = Some l -> queue h q l;
  ok_disj : forall q q' l l' x, Q !! q = Some l -> Q !! q' = Some l' -> x ∈ q :: l -> x ∈ q' :: l' -> q = q'
}.

(** One queue changed, and its nodes were its own or free. *)
Lemma heap_ok_update h h' Q q l' xs :
  heap_ok h Q -> queue h' q l' -> agree_off xs h h' ->
  (forall x, x ∈ xs \/ x ∈ q :: l' -> forall q' m, Q !! q' = Some m -> x ∈ q' :: m -> q' = q) ->
  heap_ok h' (<[q := l']> Q).
Proof.
  intros [Hq Hd] Hl Ha Hx. split.
  - intros q1 l1 [[<- <-]|[Hne H1]]%lookup_insert_Some; [done|].
    apply (queue_frame h h' xs); [by apply Hq|done|]. intros x Hin Hxs.
    apply Hne. symmetry. by apply (Hx x (or_introl Hxs) q1 l1).
  - intros q1 q2 l1 l2 x [[<- <-]|[Hn1 H1]]%lookup_insert_Some [[<- <-]|[Hn2 H2]]%lookup_insert_Some Hx1 Hx2.
    + done.
    + symmetry. by apply (Hx x (or_intror Hx1) q2 l2).
    + by apply (Hx x (or_intror Hx2) q1 l1).
    + by apply (Hd q1 q2 l1 l2 x).
Qed.

Inductive qop :=
  | Init (q : Z) | Enqueue (q item : Z) | Dequeue (item : Z) | Deqnext (q : Z)
  | Count (q : Z) | Find (q item : Z).

(** The fuel of the loops over a queue is more than the nodes the heap holds. *)
Definition hfuel (h : heap) : nat := S (size h).

Definition run_op (o : qop) (h : heap) : option (Z * heap) :=
  match o with
  | Init q => let? h := q_init h q in Some (0, h)
  | Enqueue q item => let? h := q_enqueue h q item in Some (0, h)
  | Dequeue item => let? h := q_dequeue h item in Some (0, h)
  | Deqnext q => q_deqnext h q
  | Count q => let? n := q_count (hfuel h) h q in Some (n, h)
  | Find q item => let? n := q_find (hfuel h) h q item in Some (n, h)
  end.

(** The same on the lists. *)
Definition spec_op (o : qop) (Q : family) : Z * family :=
  match o with
  | Init q => (0, <[q := []]> Q)
  | Enqueue q item => (0, <[q := (Q !!! q) ++ [item]]> Q)
  | Dequeue item => (0, (fun l => List.filter (fun x => negb (x =? item)) l) <$> Q)
  | Deqnext q => (firstof (Q !!! q) 0, <[q := tail (Q !!! q)]> Q)
  | Count q => (Z.of_nat (length (Q !!! q)), Q)
  | Find q item => (position ((Q !!! q) ++ [q]) item, Q)
  end.

(** An item goes on a queue only when it is on none, and comes off only when it is on one. *)
Definition op_ok (o : qop) (mem : gset Z) (Q : family) : Prop :=
  match o with
  | Init q => q ∈ mem /\ ~ owned Q q
  | Enqueue q item => is_Some (Q !! q) /\ item ∈ mem /\ ~ owned Q item
  | Dequeue item => exists q l, Q !! q = Some l /\ item ∈ l
  | Deqnext q | Count q | Find q _ => is_Some (Q !! q)
  end.

(** * The heap of queues refines the lists *)

Lemma queue_fuel h q l : queue h q l -> (length l < hfuel h)%nat.
Proof.
  intros K. pose proof K as [[_ Hnd]%NoDup_cons _]. unfold hfuel.
  assert (H : (list_to_set l : gset Z) ⊆ dom h).
  { intros x Hx%elem_of_list_to_set. apply elem_of_dom. eapply queue_some; [done|by right]. }
  apply subseteq_size in H. rewrite size_list_to_set, size_dom in H by done. lia.
Qed.

Lemma agree_off_dom xs h h' : agree_off xs h h' -> dom h' = dom h.
Proof. intros [H _]. apply set_eq. intros x. by rewrite !elem_of_dom. Qed.

Lemma filter_ne_notin (l : list Z) item : item ∉ l -> List.filter (fun x => negb (x =? item)) l = l.
Proof.
  induction l as [|x l IH]; intros H; cbn; [done|]. apply not_elem_of_cons in H as [H1 H2].
  rewrite (proj2 (Z.eqb_neq _ _)) by congruence. cbn. by rewrite IH.
Qed.

Lemma filter_ne_split l1 item l2 : item ∉ l1 -> item ∉ l2 ->
  List.filter (fun x => negb (x =? item)) (l1 ++ item :: l2) = l1 ++ l2.
Proof.
  intros H1 H2. rewrite List.filter_app. cbn. rewrite Z.eqb_refl. cbn. by rewrite !filter_ne_notin.
Qed.

Lemma dequeue_family h Q q l1 item l2 :
  heap_ok h Q -> Q !! q = Some (l1 ++ item :: l2) ->
  (spec_op (Dequeue item) Q).2 = <[q := l1 ++ l2]> Q.
Proof.
  intros [Hq Hd] HQ. pose proof (Hq _ _ HQ) as [Hnd _].
  destruct (NoDup_head_split _ _ _ _ Hnd) as [Hi _]. apply map_eq. intros q'. cbn. rewrite lookup_fmap.
  destruct (decide (q' = q)) as [->|Hne].
  - rewrite HQ, lookup_insert_eq. cbn. f_equal. apply filter_ne_split; intros H; apply Hi; set_solver.
  - rewrite lookup_insert_ne by done. destruct (Q !! q') as [l'|] eqn:E; [|done]. cbn. f_equal.
    apply filter_ne_notin. intros Hin. apply Hne.
    apply (Hd q' q l' _ item E HQ); [by right|]. right. apply elem_of_app. right. left.
Qed.

Lemma family_total (Q : family) q l : Q !! q = Some l -> Q !!! q = l.
Proof. apply lookup_total_correct. Qed.

Lemma run_op_refines o h Q :
  heap_ok h Q -> op_ok o (dom h) Q ->
  exists h', run_op o h = Some ((spec_op o Q).1, h') /\ heap_ok h' (spec_op o Q).2 /\ dom h' = dom h.
Proof.
  intros K Ho. pose proof K as [Hq Hd].
  assert (Hown : forall q l x q' m, Q !! q = Some l -> x ∈ q :: l -> Q !! q' = Some m -> x ∈ q' :: m -> q' = q)
    by (intros q l x q' m ????; symmetry; by apply (Hd q q' l m x)).
  destruct o as [q|q item|item|q|q|q item]; cbn [run_op op_ok] in *.
  - destruct Ho as [Hm Hn]. apply elem_of_dom in Hm.
    destruct (q_init_spec h q Hm) as (h' & -> & Hl & Ha). exists h'. split; [done|].
    split; [|by eapply agree_off_dom]. eapply (heap_ok_update _ _ _ _ _ _ K Hl Ha).
    intros x Hx q' m Hm' Hx'. exfalso. apply Hn. exists q', m. split; [done|]. set_solver.
  - destruct Ho as ([l HQ] & Hm & Hn). apply elem_of_dom in Hm.
    assert (Hi : item ∉ q :: l) by (intros Hi; apply Hn; by exists q, l).
    destruct (q_enqueue_spec h q l item (Hq _ _ HQ) Hi Hm) as (h' & -> & Hl & Ha). exists h'.
    split; [done|]. split; [|by eapply agree_off_dom]. cbn [snd spec_op]. rewrite (family_total _ _ _ HQ).
    eapply (heap_ok_update _ _ _ _ _ _ K Hl Ha). intros x Hx q' m Hm' Hx'.
    assert (x = item \/ x ∈ q :: l) as [->|Hx2] by set_solver; [exfalso; apply Hn; by exists q', m|].
    by apply (Hown q l x q' m).
  - destruct Ho as (q & l & HQ & Hin). apply list_elem_of_split in Hin as (l1 & l2 & ->).
    destruct (q_dequeue_spec h q l1 item l2 (Hq _ _ HQ)) as (h' & -> & Hl & Ha). exists h'.
    split; [done|]. split; [|by eapply agree_off_dom]. rewrite (dequeue_family h Q q l1 item l2 K HQ).
    eapply (heap_ok_update _ _ _ _ _ _ K Hl Ha). intros x Hx q' m Hm' Hx'.
    apply (Hown q (l1 ++ item :: l2) x q' m HQ); [|done|done]. set_solver.
  - destruct Ho as [l HQ]. destruct (q_deqnext_spec h q l (Hq _ _ HQ)) as (h' & -> & Hl & Ha). exists h'.
    cbn [fst snd spec_op]. rewrite (family_total _ _ _ HQ).
    split; [done|]. split; [|by eapply agree_off_dom].
    eapply (heap_ok_update _ _ _ _ _ _ K Hl Ha). intros x Hx q' m Hm' Hx'.
    apply (Hown q l x q' m HQ); [|done|done]. destruct l; set_solver.
  - destruct Ho as [l HQ]. exists h. cbn [fst snd spec_op]. rewrite (family_total _ _ _ HQ).
    by rewrite (q_count_spec h q l) by (eauto using queue_fuel).
  - destruct Ho as [l HQ]. exists h. cbn [fst snd spec_op]. rewrite (family_total _ _ _ HQ).
    by rewrite (q_find_spec h q item l) by (eauto using queue_fuel).
Qed.

Fixpoint run_ops (os : list qop) (h : heap) : option (list Z * heap) :=
  match os with
  | [] => Some ([], h)
  | o :: os => let? (r, h) := run_op o h in let? (rs, h) := run_ops os h in Some (r :: rs, h)
  end.

Fixpoint spec_ops (os : list qop) (Q : family) : list Z * family :=
  match os with
  | [] => ([], Q)
  | o :: os => let '(r, Q) := spec_op o Q in let '(rs, Q) := spec_ops os Q in (r :: rs, Q)
  end.

Fixpoint ops_ok (os : list qop) (mem : gset Z) (Q : family) : Prop :=
  match os with
  | [] => True
  | o :: os => op_ok o mem Q /\ ops_ok os mem (spec_op o Q).2
  end.

Lemma heap_ok_empty h : heap_ok h ∅.
Proof. split; intros *; by rewrite lookup_empty. Qed.

Lemma run_ops_refines os h Q :
  heap_ok h Q -> ops_ok os (dom h) Q ->
  exists h', run_ops os h = Some ((spec_ops os Q).1, h') /\ heap_ok h' (spec_ops os Q).2.
Proof.
  revert h Q. induction os as [|o os IH]; intros h Q K Ho; [by exists h|]. destruct Ho as [Ho Hos].
  destruct (run_op_refines o h Q K Ho) as (h1 & Hr & K1 & Hdom). cbn [run_ops spec_ops]. rewrite Hr.
  destruct (spec_op o Q) as [r Q1]. cbn [fst snd] in *. rewrite <- Hdom in Hos.
  destruct (IH h1 Q1 K1 Hos) as (h2 & -> & K2). destruct (spec_ops os Q1) as [rs Q2]. by exists h2.
Qed.

(** * Mapping over a queue *)

(** A rule for [q_map]: [P] holds of the elements still to come, and lets the walk read
    the link before the callback runs. *)
Lemma q_map_rule {T} (func : Z -> heap -> T -> option (Z * heap * T)) (qb : Z)
    (P : list Z -> heap -> T -> Prop) (R : Z * heap * T -> Prop) :
  (forall x rest h s, P (x :: rest) h s -> x <> qb /\ next h x = Some (firstof rest qb) /\
     exists res h' s', func x h s = Some (res, h', s') /\
       if truthy res then R (res, h', s') else P rest h' s') ->
  (forall h s, P [] h s -> R (0, h, s)) ->
  forall l h s fuel, P l h s -> next h qb = Some (firstof l qb) -> (length l < fuel)%nat ->
  exists r, q_map func fuel h s qb = Some r /\ R r.
Proof.
  intros Hstep Hend l h s fuel HP Hn Hf. unfold q_map. rewrite Hn. clear Hn. revert h s fuel HP Hf.
  induction l as [|x l IH]; intros h s [|fuel] HP Hf; cbn in Hf; try lia; cbn.
  - rewrite Z.eqb_refl. eauto.
  - destruct (Hstep _ _ _ _ HP) as (Hx & Hn & res & h' & s' & Hfunc & Hres).
    rewrite (proj2 (Z.eqb_neq _ _)), Hn, Hfunc by done. destruct (truthy res); [by eauto|].
    apply IH; [done|lia].
Qed.

(** What a walk that stops at the first nonzero value visits, and what it leaves. *)
Fixpoint visit (f : Z -> Z) (l : list Z) : Z * list Z * list Z :=
  match l with
  | [] => (0, [], [])
  | x :: l => if truthy (f x) then (f x, [x], l)
              else let '(r, v, rest) := visit f l in (r, x :: v, rest)
  end.

(** A callback that takes its element off the queue, remembers it and returns [f] of it. *)
Definition take_off (f : Z -> Z) (x : Z) (h : heap) (s : list Z) : option (Z * heap * list Z) :=
  let? h := q_dequeue h x in Some (f x, h, s ++ [x]).

(** Mapping a callback over a queue that unlinks each element it is given still visits
    every element once and in order, stops at the first nonzero result and returns it, and
    leaves exactly the elements behind it on the queue. *)
Theorem q_map_unlinking f h qb l :
  queue h qb l ->
  exists h', q_map (take_off f) (hfuel h) h [] qb = Some ((visit f l).1.1, h', (visit f l).1.2) /\
    queue h' qb (visit f l).2.
Proof.
  intros K. pose proof (queue_fuel _ _ _ K) as Hfuel. pose proof K as [Hnd Hl].
  set (P := fun rest (h : heap) (s : list Z) => queue h qb rest /\
    visit f l = let '(r, v, rest) := visit f rest in (r, s ++ v, rest)).
  set (R := fun r : Z * heap * list Z => (r.1.1, r.2) = (visit f l).1 /\ queue r.1.2 qb (visit f l).2).
  destruct (q_map_rule (take_off f) qb P R) with (l := l) (h := h) (s := @nil Z) (fuel := hfuel h)
    as ([[r h'] s] & Hm & HR); [| | | |done|].
  - intros x rest h1 s [K1 Hv]. pose proof K1 as [[Hq _]%NoDup_cons (_ & _ & Hl1)].
    apply not_elem_of_cons in Hq as [Hq _]. split; [congruence|].
    split; [by apply (linked_ends _ _ _ _ Hl1)|].
    destruct (q_dequeue_spec h1 qb [] x rest K1) as (h2 & Hd & K2 & _).
    unfold take_off. rewrite Hd. eexists _, _, _. split; [done|]. cbn in Hv.
    destruct (truthy (f x)); [unfold R; by rewrite Hv|].
    split; [done|]. rewrite Hv. destruct (visit f rest) as [[r v] rest']. by rewrite <- app_assoc.
  - intros h1 s [K1 Hv]. cbn in Hv. unfold R. by rewrite Hv, app_nil_r.
  - split; [done|]. by destruct (visit f l) as [[??]?].
  - by apply (linked_ends _ _ _ _ Hl).
  - destruct HR as [HR1 HR2]. cbn in HR1, HR2. exists h'. rewrite Hm, <- HR1. done.
Qed.

(** C33 The doubly linked queues implement lists: from any contents of memory, whatever
    queues are set up in it, enqueueing at the tail, taking from the head, unlinking an
    item in the middle, counting and searching give what plain lists give, and afterwards
    every queue is linked through its nodes in both directions in the order of its list. *)
Theorem queue_refines os h :
  ops_ok os (dom h) ∅ ->
  exists h', run_ops os h = Some ((spec_ops os ∅).1, h') /\
    forall q l, (spec_ops os ∅).2 !! q = Some l -> queue h' q l.
Proof.
  intros Ho. destruct (run_ops_refines os h ∅ (heap_ok_empty h) Ho) as (h' & Hr & [K _]). by exists h'.
Qed.

(** * Instances of the properties *)

(** A decidable goal on closed terms, by evaluation. *)
#[local] Ltac by_compute := apply (bool_decide_unpack _); vm_compute; exact I.

Definition ex_heap : heap := list_to_map ((fun a => (a, Qn 0 0)) <$> [8; 16; 24; 32; 40]).

Definition ex_qops : list qop :=
  [Init 8; Init 16; Enqueue 8 24; Enqueue 8 32; Enqueue 8 40; Dequeue 32; Enqueue 16 32;
   Count 8; Find 8 40; Find 8 32; Deqnext 8].

Lemma queue_refines_witness :
  exists h', run_ops ex_qops ex_heap = Some ([0; 0; 0; 0; 0; 0; 0; 2; 2; 0; 24], h') /\
    queue h' 8 [40] /\ queue h' 16 [32].
Proof.
  destruct (queue_refines ex_qops ex_heap) as (h' & Hr & Hq).
  - assert (Hno : forall Q x, (set_Forall (fun q => x ∉ q :: Q !!! q) (dom Q)) -> ~ owned Q x).
    { intros Q x H (q & l & HQ & Hx). apply (H q); [by apply elem_of_dom|]. by rewrite (family_total _ _ _ HQ). }
    repeat split; cbn [spec_op snd]; try (apply Hno; by_compute); try by_compute;
      try (eexists; vm_compute; reflexivity).
  - exists h'. split; [exact Hr|]. split; apply Hq; vm_compute; reflexivity.
Defined.

Lemma q_map_unlinking_witness :
  exists h', q_map (take_off (fun x => if x =? 24 then 5 else 0)) (hfuel ex_heap)
    (<[8 := Qn 16 32]> (<[16 := Qn 24 8]> (<[24 := Qn 32 16]> (<[32 := Qn 8 24]> ex_heap)))) [] 8
    = Some (5, h', [16; 24]) /\ queue h' 8 [32].
Proof.
  destruct (q_map_unlinking (fun x => if x =? 24 then 5 else 0)
    (<[8 := Qn 16 32]> (<[16 := Qn 24 8]> (<[24 := Qn 32 16]> (<[32 := Qn 8 24]> ex_heap)))) 8 [16; 24; 32])
    as (h' & Hm & Hq).
  - split; [by_compute|]. vm_compute. tauto.
  - exists h'. split; [exact Hm|exact Hq].
Defined.
