(* ===== verification/Arena.v ===== *)
(** The boot loader's map of physical memory: cfe/cfe/lib/lib_arena.c, its use in
    cfe/cfe/main/cfe_mem.c, and the map of this board in
    cfe/cfe/arch/mips/cpu/bcmcore/src/bcmcore_arena.c and
    cfe/cfe/arch/mips/common/src/mips_arena.c.

    The ring of nodes is represented by its list (see [Queue]).  The nodes come from the
    firmware's heap; the code does not check for [NULL], so running out of memory is
    [None] here, and how many more nodes the heap has room for is part of the state. *)

From S2P Require Import Prelude.
From Stdlib Require Import ZArith Lia Bool List.
From stdpp Require Import base numbers list gmap.

#[local] Open Scope Z_scope.

Definition wrap64 (z : Z) : Z := z mod 2 ^ 64.

(** A description is a pointer, 0 for [NULL], or [None] where no code ever stored one. *)
Record arena_node := An {
  an_address : Z;
  an_length : Z;
  an_type : Z;
  an_descr : option Z
}.

Record arena_t := Arena {
  arena_list : list arena_node;
  arena_base : Z;
  arena_size : Z
}.

Definition set_list (a : arena_t) (l : list arena_node) : arena_t := Arena l (arena_base a) (arena_size a).

Definition arena_init (room : nat) (physmembase physmemsize : Z) : option (nat * arena_t) :=
  match room with
  | O => None
  | S room => Some (room, Arena [An physmembase physmemsize 0 (Some 0)] physmembase physmemsize)
  end.

(** The node that contains a point, between the nodes before and after it. *)
Fixpoint arena_find (l : list arena_node) (pt : Z) : option (list arena_node * arena_node * list arena_node) :=
  match l with
  | [] => None
  | an :: l =>
      if (an_address an <=? pt) && (pt <? wrap64 (an_address an + an_length an)) then Some ([], an, l)
      else let? (l1, n, l2) := arena_find l pt in Some (an :: l1, n, l2)
  end.

Definition arena_split (room : nat) (a : arena_t) (splitpoint : Z) : option (Z * nat * arena_t) :=
  if splitpoint =? wrap64 (arena_base a + arena_size a) then Some (0, room, a)
  else
    match arena_find (arena_list a) splitpoint with
    | None => Some (-1, room, a)
    | Some (l1, node, l2) =>
        if an_address node =? splitpoint then Some (0, room, a)
        else
          match room with
          | O => None
          | S room =>
              let off := wrap64 (splitpoint - an_address node) in
              let newnode := An splitpoint (wrap64 (an_length node - off)) (an_type node) None in
              let node := An (an_address node) off (an_type node) (an_descr node) in
              Some (0, room, set_list a (l1 ++ node :: newnode :: l2))
          end
    end.

(** One pass: a node that has taken in its neighbour is left behind. *)
Fixpoint coalesce_pass (l : list arena_node) : list arena_node * nat :=
  match l with
  | [] => ([], 0%nat)
  | node :: rest =>
      match rest with
      | [] => ([node], 0%nat)
      | nextnode :: rest' =>
          if an_type node =? an_type nextnode then
            let node := An (an_address node) (wrap64 (an_length node + an_length nextnode))
                          (an_type node) (an_descr node) in
            let '(l, removed) := coalesce_pass rest' in (node :: l, S removed)
          else let '(l, removed) := coalesce_pass rest in (node :: l, removed)
      end
  end.

Fixpoint coalesce_loop (fuel room : nat) (l : list arena_node) : option (nat * list arena_node) :=
  match fuel with
  | O => None
  | S fuel =>
      let '(l, removed) := coalesce_pass l in
      match removed with
      | O => Some (room, l)
      | S _ => coalesce_loop fuel (room + removed) l
      end
  end.

(** A pass that goes on removes a node, so the nodes bound the passes. *)
Definition arena_coalesce (room : nat) (a : arena_t) : option (nat * arena_t) :=
  let? (room, l) := coalesce_loop (S (length (arena_list a))) room (arena_list a) in
  Some (room, set_list a l).

Definition mark_node (address length type descr : Z) (node : arena_node) : arena_node :=
  if (address <=? an_address node) &&
     (wrap64 (an_address node + an_length node) <=? wrap64 (address + length))
  then An (an_address node) (an_length node) type (Some descr) else node.

Definition arena_markrange (room : nat) (a : arena_t) (address length type descr : Z) : option (Z * nat * arena_t) :=
  if (address <? arena_base a) || (wrap64 (arena_base a + arena_size a) <? wrap64 (address + length))
  then Some (-1, room, a)
  else
    let? (r, room, a) := arena_split room a address in
    if r <? 0 then Some (-1, room, a)
    else
      let? (r, room, a) := arena_split room a (wrap64 (address + length)) in
      if r <? 0 then let? (room, a) := arena_coalesce room a in Some (-1, room, a)
      else
        let a := set_list a (map (mark_node address length type descr) (arena_list a)) in
        let? (room, a) := arena_coalesce room a in Some (0, room, a).

(** * The memory map of the firmware *)

Definition MEMTYPE_DRAM_AVAILABLE := 1.
Definition MEMTYPE_DRAM_NOTINSTALLED := 2.
Definition MEMTYPE_DRAM_USEDBYFIRMWARE := 3.
Definition MEMTYPE_BOOTROM := 4.

Definition CFE_ERR_NOMORE := -28.
Definition BOOT_START_ADDRESS := 0x20000000.
Definition BOOT_AREA_SIZE := 256 * 1024.
Definition PAGESIZE := 4096.

(** [va & (K0SIZE - 1)] *)
Definition PHYSADDR (va : Z) : Z := Z.land va (0x20000000 - 1).

Fixpoint enum_loop (l : list arena_node) (idx : Z) (allrecs : bool) : option arena_node :=
  match l with
  | [] => None
  | node :: l =>
      if allrecs || (an_type node =? MEMTYPE_DRAM_AVAILABLE) then
        if idx =? 0 then Some node else enum_loop l (idx - 1) allrecs
      else enum_loop l idx allrecs
  end.

(** The result and the type, start and size stored through the pointers. *)
Definition cfe_arena_enum (a : arena_t) (idx : Z) (allrecs : bool) : Z * option (Z * Z * Z) :=
  match enum_loop (arena_list a) idx allrecs with
  | Some node => (0, Some (an_type node, an_address node, an_length node))
  | None => (CFE_ERR_NOMORE, None)
  end.

(** [start + size] is computed in 32 bits. *)
Definition cfe_arena_loadcheck (a : arena_t) (start size : Z) : bool :=
  if (BOOT_START_ADDRESS <=? start) && (wrap32 (start + size) <=? BOOT_START_ADDRESS + BOOT_AREA_SIZE) then true
  else
    let start := PHYSADDR start in
    existsb (fun node =>
      (an_address node <=? start) &&
      (wrap32 (start + size) <=? wrap64 (an_address node + an_length node)) &&
      (an_type node =? MEMTYPE_DRAM_AVAILABLE)) (arena_list a).

(** [ARENA_RANGE] marks from the first to the last address. *)
Definition ARENA_RANGE (room : nat) (a : arena_t) (bottom top type : Z) : option (Z * nat * arena_t) :=
  arena_markrange room a bottom (wrap64 (top - bottom + 1)) type 0.

Definition bcmcore_arena_init (room : nat) (mem_totalsize : Z) : option (nat * arena_t) :=
  let? (room, a) := arena_init room 0 0x100000000 in
  let? (_, room, a) := ARENA_RANGE room a 0 0x000FFFFFFF MEMTYPE_DRAM_NOTINSTALLED in
  let memleft := Z.shiftl mem_totalsize 10 in
  let? (_, room, a) := arena_markrange room a 0 memleft MEMTYPE_DRAM_AVAILABLE 0 in
  let? (_, room, a) := arena_markrange room a 0x1FC00000 (2 * 1024 * 1024) MEMTYPE_BOOTROM 0 in
  Some (room, a).

(** Rounding up to a page. *)
Definition page_up (z : Z) : Z := Z.ldiff (wrap32 (z + (PAGESIZE - 1))) (PAGESIZE - 1).

(** The boot area: its physical address, above or below the firmware. *)
Definition bootarea_start (mem_totalsize mem_bottomofmem mem_topofmem : Z) : Z :=
  let topmem := if 256 * 1024 <? mem_totalsize then 256 * (1024 * 1024) else wrap32 (Z.shiftl mem_totalsize 10) in
  let botcfe := PHYSADDR mem_bottomofmem in
  let topcfe := PHYSADDR mem_topofmem in
  if wrap32 (topmem - topcfe) <? botcfe
  then wrap32 (Z.ldiff (wrap32 (botcfe - (PAGESIZE - 1))) (PAGESIZE - 1) - BOOT_AREA_SIZE)
  else page_up topcfe.

(** The firmware lies between the two addresses. *)
Definition cfe_arena_init (room : nat) (mem_totalsize mem_bottomofmem mem_topofmem : Z) : option (nat * arena_t) :=
  let? (room, a) := bcmcore_arena_init room mem_totalsize in
  let memhi := PHYSADDR (page_up mem_topofmem) in
  let memlo := Z.ldiff (PHYSADDR mem_bottomofmem) (PAGESIZE - 1) in
  let? (_, room, a) := ARENA_RANGE room a memlo (wrap64 (memhi - 1)) MEMTYPE_DRAM_USEDBYFIRMWARE in
  Some (room, a).

(** * What an arena means *)

(** The nodes cover the addresses from [a] to [e], in order and without gaps. *)
Fixpoint tiles (a : Z) (l : list arena_node) (e : Z) : Prop :=
  match l with
  | [] => a = e
  | m :: l => an_address m = a /\ 0 < an_length m /\ tiles (a + an_length m) l e
  end.

(** No two neighbours of the same type. *)
Fixpoint coalesced (l : list arena_node) : Prop :=
  match l with
  | [] => True
  | m :: l' => match l' with [] => True | n :: _ => an_type m <> an_type n end /\ coalesced l'
  end.

(** The type of the memory at an address. *)
Fixpoint type_at (l : list arena_node) (x : Z) : option Z :=
  match l with
  | [] => None
  | m :: l => if (an_address m <=? x) && (x <? an_address m + an_length m) then Some (an_type m) else type_at l x
  end.

Record wf (a : arena_t) : Prop := {
  wf_range : 0 <= arena_base a /\ arena_base a + arena_size a < 2 ^ 64;
  wf_tiles : tiles (arena_base a) (arena_list a) (arena_base a + arena_size a);
  wf_coalesced : coalesced (arena_list a)
}.

(** No node reaches across a point. *)
Definition edge (l : list arena_node) (pt : Z) : Prop :=
  Forall (fun m => an_address m + an_length m <= pt \/ pt <= an_address m) l.

(** Case analysis on the range tests of a goal. *)
Ltac ranges :=
  repeat match goal with
  | |- context [?c && ?d] => destruct (c && d) eqn:?
  | H : (_ && _) = false |- _ => apply andb_false_iff in H as [H|H]
  end; bool_simpl; try lia; try done.

Lemma wrap64_small z : 0 <= z < 2 ^ 64 -> wrap64 z = z.
Proof. intros. by apply Z.mod_small. Qed.

Lemma map_tiles_app a l1 l2 e : tiles a (l1 ++ l2) e <-> exists m, tiles a l1 m /\ tiles m l2 e.
Proof.
  revert a. induction l1 as [|n l1 IH]; intros a; cbn.
  - split; [by eauto|]. by intros (m & -> & H).
  - rewrite IH. naive_solver.
Qed.

Lemma tiles_bounds a l e : tiles a l e ->
  a <= e /\ Forall (fun m => a <= an_address m /\ an_address m + an_length m <= e /\ 0 < an_length m) l.
Proof.
  revert a. induction l as [|m l IH]; intros a; cbn; [intros ->; split; [lia|constructor]|].
  intros (Ha & Hl & Ht). destruct (IH _ Ht) as [He Hf]. split; [lia|]. constructor; [lia|].
  eapply Forall_impl; [exact Hf|]. cbn. lia.
Qed.

Lemma map_tiles_elem a l e m : tiles a l e -> m ∈ l -> a <= an_address m /\ an_address m + an_length m <= e /\ 0 < an_length m.
Proof. intros Ht Hm. destruct (tiles_bounds _ _ _ Ht) as [_ Hf]. rewrite Forall_forall in Hf. by apply Hf. Qed.

Lemma type_at_app l1 l2 x :
  type_at (l1 ++ l2) x = match type_at l1 x with Some t => Some t | None => type_at l2 x end.
Proof. induction l1 as [|m l1 IH]; cbn; [done|]. by case_test. Qed.

Lemma type_at_outside a l e x : tiles a l e -> x < a \/ e <= x -> type_at l x = None.
Proof.
  revert a. induction l as [|m l IH]; intros a; cbn; [done|]. intros (Ha & Hl & Ht) Hx.
  destruct (tiles_bounds _ _ _ Ht) as [He _]. destruct ((_ <=? x) && _) eqn:E; bool_simpl; [lia|].
  apply (IH _ Ht). lia.
Qed.

Lemma type_at_inside a l e x : tiles a l e -> a <= x < e -> exists m, m ∈ l /\
  an_address m <= x < an_address m + an_length m /\ type_at l x = Some (an_type m).
Proof.
  revert a. induction l as [|m l IH]; intros a; cbn; [lia|]. intros (Ha & Hl & Ht) Hx.
  destruct ((_ <=? x) && _) eqn:E; bool_simpl.
  - exists m. split; [left|]. split; [lia|done].
  - destruct (IH _ Ht) as (n & Hn & ?); [|exists n; split; [by right|done]].
    apply andb_false_iff in E as [E|E]; bool_simpl; lia.
Qed.

Lemma arena_find_spec a l e pt : tiles a l e -> 0 <= a -> e < 2 ^ 64 -> a <= pt < e ->
  exists l1 n l2, arena_find l pt = Some (l1, n, l2) /\ l = l1 ++ n :: l2 /\
    an_address n <= pt < an_address n + an_length n.
Proof.
  revert a. induction l as [|m l IH]; intros a; cbn; [lia|]. intros (Ha & Hl & Ht) Ha0 He Hpt.
  destruct (tiles_bounds _ _ _ Ht) as [Hle _]. rewrite wrap64_small by lia.
  destruct ((_ <=? pt) && _) eqn:E; bool_simpl.
  - exists [], m, l. split; [done|]. split; [done|lia].
  - destruct (IH _ Ht) as (l1 & n & l2 & -> & -> & Hn); [lia|done|..|].
    + apply andb_false_iff in E as [E|E]; bool_simpl; lia.
    + exists (m :: l1), n, l2. done.
Qed.

(** Splitting changes no types; it leaves an edge at the point and keeps all others. *)
Lemma arena_split_spec room a pt :
  0 <= arena_base a -> arena_base a + arena_size a < 2 ^ 64 ->
  tiles (arena_base a) (arena_list a) (arena_base a + arena_size a) ->
  arena_base a <= pt <= arena_base a + arena_size a -> (0 < room)%nat ->
  exists room' l, arena_split room a pt = Some (0, room', set_list a l) /\
    tiles (arena_base a) l (arena_base a + arena_size a) /\
    (forall x, type_at l x = type_at (arena_list a) x) /\
    (room' + length l = room + length (arena_list a))%nat /\ (room <= S room')%nat /\
    edge l pt /\ (forall q, edge (arena_list a) q -> edge l q).
Proof.
  intros H0 He Ht Hpt Hr. unfold arena_split. rewrite wrap64_small by lia.
  assert (Hself : a = set_list a (arena_list a)) by (by destruct a).
  destruct (tiles_bounds _ _ _ Ht) as [_ Hb]. destruct (pt =? _) eqn:E; bool_simpl.
  { exists room, (arena_list a). rewrite <- Hself.
    repeat (split; [done || lia|]). split; [|done]. eapply Forall_impl; [exact Hb|]. cbn. lia. }
  destruct (arena_find_spec _ _ _ pt Ht) as (l1 & n & l2 & Hf & Hl & Hn); [done|done|lia|]. rewrite Hf.
  rewrite Hl in Ht. apply map_tiles_app in Ht as (m & T1 & T2). cbn in T2. destruct T2 as (Hm & Hlen & T2).
  destruct (tiles_bounds _ _ _ T1) as [Hm1 B1]. destruct (tiles_bounds _ _ _ T2) as [Hm2 B2].
  assert (E1 : edge l1 pt) by (eapply Forall_impl; [exact B1|]; cbn; lia).
  assert (E2 : edge l2 pt) by (eapply Forall_impl; [exact B2|]; cbn; lia).
  destruct (an_address n =? pt) eqn:E'; bool_simpl.
  - exists room, (arena_list a). rewrite <- Hself. split; [done|].
    rewrite Hl. split; [apply map_tiles_app; exists m; done|]. repeat (split; [done || lia|]).
    split; [|done]. apply Forall_app. split; [done|]. constructor; [lia|done].
  - destruct room as [|room]; [lia|]. rewrite (wrap64_small (pt - _)), wrap64_small by lia.
    eexists room, _. split; [done|]. rewrite Hl. split; [|split; [|split; [|split; [|split]]]].
    + apply map_tiles_app. exists m. cbn. repeat (split; [done || lia|]).
      replace (m + (pt - an_address n) + (an_length n - (pt - an_address n))) with (m + an_length n) by lia. done.
    + intros x. rewrite !type_at_app. destruct (type_at l1 x); [done|]. cbn.
      ranges.
    + rewrite !length_app. cbn. lia.
    + lia.
    + apply Forall_app. split; [done|]. constructor; [cbn; lia|]. constructor; [cbn; lia|done].
    + intros q Hq. apply Forall_app in Hq as [Q1 Q2]. apply Forall_cons in Q2 as [Q Q2].
      apply Forall_app. split; [done|]. constructor; [cbn; lia|]. constructor; [cbn; lia|done].
Qed.

Lemma coalesce_pass_spec n l : (length l <= n)%nat -> forall a e,
  tiles a l e -> 0 <= a -> e < 2 ^ 64 ->
  let '(l', c) := coalesce_pass l in
  tiles a l' e /\ (forall x, type_at l' x = type_at l x) /\ (length l' + c = length l)%nat /\
  (c = 0%nat -> l' = l /\ coalesced l).
Proof.
  revert l. induction n as [|n IH]; intros [|m l] Hn a e Ht Ha He; cbn in Hn; try lia; try done.
  cbn [coalesce_pass]. destruct l as [|k l]; [done|]. cbn in Ht.
  destruct Ht as (Hm & Hml & Hk & Hkl & Ht). destruct (tiles_bounds _ _ _ Ht) as [Hle _].
  destruct (an_type m =? an_type k) eqn:E; bool_simpl.
  - specialize (IH l ltac:(cbn in Hn; lia) _ _ Ht ltac:(lia) He). destruct (coalesce_pass l) as [l' c].
    destruct IH as (T & Hty & Hlen & _). rewrite wrap64_small by lia. split; [|split; [|split]].
    + cbn. rewrite Z.add_assoc. repeat (split; [done || lia|]). done.
    + intros x. cbn. rewrite Hty, E. destruct (type_at l x); ranges.
    + cbn. lia.
    + done.
  - assert (Ht' : tiles (a + an_length m) (k :: l) e) by (cbn; done).
    specialize (IH (k :: l) ltac:(cbn in *; lia) _ _ Ht' ltac:(lia) He).
    destruct (coalesce_pass (k :: l)) as [l' c]. destruct IH as (T & Hty & Hlen & Hc).
    split; [done|]. split; [intros x; cbn [type_at]; by rewrite Hty|]. split; [cbn [length] in *; lia|].
    intros ->. destruct (Hc eq_refl) as [-> Hco]. done.
Qed.

Lemma coalesce_loop_spec fuel room l a e :
  (length l < fuel)%nat -> tiles a l e -> 0 <= a -> e < 2 ^ 64 ->
  exists room' l', coalesce_loop fuel room l = Some (room', l') /\ tiles a l' e /\ coalesced l' /\
    (forall x, type_at l' x = type_at l x) /\ (room' + length l' = room + length l /\ room <= room')%nat.
Proof.
  revert room l. induction fuel as [|fuel IH]; intros room l Hf Ht Ha He; [lia|]. cbn.
  pose proof (coalesce_pass_spec _ l (le_n _) a e Ht Ha He) as Hp. destruct (coalesce_pass l) as [l1 c].
  destruct Hp as (T & Hty & Hlen & Hc). destruct c as [|c].
  - destruct (Hc eq_refl) as [-> Hco]. by exists room, l.
  - destruct (IH (room + S c)%nat l1) as (room' & l' & -> & T' & Hco & Hty' & Hlen'); try done; [lia|].
    exists room', l'. split; [done|]. split; [done|]. split; [done|]. split; [|lia].
    intros x. by rewrite Hty', Hty.
Qed.

Lemma arena_coalesce_spec room a :
  0 <= arena_base a -> arena_base a + arena_size a < 2 ^ 64 ->
  tiles (arena_base a) (arena_list a) (arena_base a + arena_size a) ->
  exists room' l, arena_coalesce room a = Some (room', set_list a l) /\ wf (set_list a l) /\
    (forall x, type_at l x = type_at (arena_list a) x) /\
    (room' + length l = room + length (arena_list a) /\ room <= room')%nat.
Proof.
  intros H0 He Ht. unfold arena_coalesce.
  destruct (coalesce_loop_spec (S (length (arena_list a))) room (arena_list a) _ _ ltac:(lia) Ht H0 He)
    as (room' & l & -> & T & Hco & Hty & Hlen).
  by exists room', l.
Qed.

Lemma mark_node_spec address length type descr m :
  0 <= an_address m + an_length m < 2 ^ 64 -> 0 <= address + length < 2 ^ 64 ->
  let m' := mark_node address length type descr m in
  an_address m' = an_address m /\ an_length m' = an_length m /\
  an_type m' = if (address <=? an_address m) && (an_address m + an_length m <=? address + length)
               then type else an_type m.
Proof. intros H1 H2. unfold mark_node. rewrite !wrap64_small by lia. by destruct (_ && _). Qed.

(** Marking between two edges. *)
Lemma mark_nodes_spec a l e address length type descr :
  tiles a l e -> 0 <= a -> e < 2 ^ 64 -> 0 <= address -> 0 <= length -> address + length <= e ->
  edge l address -> edge l (address + length) ->
  tiles a (map (mark_node address length type descr) l) e /\
  forall x, a <= x < e -> type_at (map (mark_node address length type descr) l) x =
    if (address <=? x) && (x <? address + length) then Some type else type_at l x.
Proof.
  intros Ht Ha He H1 H2 H3 E1 E2. revert a Ht Ha.
  induction l as [|m l IH]; intros a Ht Ha; cbn in *; [split; [done|lia]|].
  destruct Ht as (Hm & Hlen & Ht). destruct (tiles_bounds _ _ _ Ht) as [Hle _].
  apply Forall_cons in E1 as [E1 E1']. apply Forall_cons in E2 as [E2 E2'].
  destruct (IH E1' E2' _ Ht ltac:(lia)) as [T Hty]. clear IH.
  destruct (mark_node_spec address length type descr m) as (-> & -> & Hmt); try lia.
  split; [done|]. intros x Hx. rewrite Hmt.
  assert (Ho : x < a + an_length m \/ a + an_length m <= x < e) by lia.
  destruct Ho as [Ho|Ho]; [|rewrite (Hty x Ho)]; ranges.
Qed.

(** Whether the arena covers a region. *)
Definition covers (a : arena_t) (address length : Z) : bool :=
  (arena_base a <=? address) && (address + length <=? arena_base a + arena_size a).

Lemma set_list_set a l l' : set_list (set_list a l) l' = set_list a l'.
Proof. done. Qed.

(** What a call of [arena_markrange] does to the types and the heap. *)
Definition marked (room : nat) (a : arena_t) (address length type : Z) (room' : nat) (a' : arena_t) : Prop :=
  wf a' /\ arena_base a' = arena_base a /\ arena_size a' = arena_size a /\
  (room' + List.length (arena_list a') = room + List.length (arena_list a) /\ room <= room' + 2)%nat /\
  forall x, arena_base a <= x < arena_base a + arena_size a ->
    type_at (arena_list a') x =
    if covers a address length && (address <=? x) && (x <? address + length)
    then Some type else type_at (arena_list a) x.

Lemma arena_markrange_spec room a address length type descr :
  wf a -> 0 <= address -> 0 <= length -> address + length < 2 ^ 64 -> (2 <= room)%nat ->
  exists room' a', arena_markrange room a address length type descr =
      Some (if covers a address length then 0 else -1, room', a') /\
    marked room a address length type room' a' /\
    (covers a address length = false -> room' = room /\ a' = a).
Proof.
  intros [(H0 & He) Ht Hco] Ha Hl Hal Hroom. unfold arena_markrange, marked, covers.
  destruct (tiles_bounds _ _ _ Ht) as [Hsz _]. rewrite !(wrap64_small (_ + _)) by lia.
  destruct ((address <? _) || _) eqn:E.
  { assert (Hc : (arena_base a <=? address) && (address + length <=? arena_base a + arena_size a) = false).
    { apply andb_false_iff. apply orb_true_iff in E as [E|E]; [left|right]; apply Z.leb_gt, Z.ltb_lt; done. }
    rewrite Hc. exists room, a. split; [done|]. split; [|done].
    split; [by split|]. repeat (split; [done || lia|]). done. }
  bool_simpl. rewrite !(proj2 (Z.leb_le _ _)) by lia. cbn [andb].
  destruct (arena_split_spec room a address H0 He Ht ltac:(lia) ltac:(lia))
    as (room1 & l1 & -> & T1 & Y1 & N1 & R1 & E1 & _). cbn.
  destruct (arena_split_spec room1 (set_list a l1) (address + length) H0 He T1 ltac:(cbn; lia) ltac:(lia))
    as (room2 & l2 & -> & T2 & Y2 & N2 & R2 & E2 & K2). cbn in *.
  destruct (mark_nodes_spec _ _ _ address length type descr T2 H0 He Ha Hl ltac:(lia) (K2 _ E1) E2) as [T3 Y3].
  rewrite !set_list_set.
  destruct (arena_coalesce_spec room2
    (set_list a (map (mark_node address length type descr) l2)) H0 He T3) as (room3 & l3 & -> & W & Y & N).
  cbn in *. exists room3, (set_list a l3). split; [done|]. split; [|done]. split; [done|].
  split; [done|]. split; [done|]. rewrite length_map in N. split; [cbn; lia|]. intros x Hx. cbn.
  rewrite Y, Y3, Y2, Y1 by done. done.
Qed.

Lemma arena_init_wf room base size : 0 <= base -> 0 < size -> base + size < 2 ^ 64 -> (0 < room)%nat ->
  exists room' a, arena_init room base size = Some (room', a) /\ wf a /\
    arena_base a = base /\ arena_size a = size /\ length (arena_list a) = 1%nat /\ S room' = room /\
    forall x, base <= x < base + size -> type_at (arena_list a) x = Some 0.
Proof.
  intros Hb Hs He Hr. destruct room as [|room]; [lia|]. eexists _, _. split; [done|]. split.
  - split; cbn; [lia|done|done].
  - cbn. repeat (split; [done || lia|]). intros x Hx. ranges.
Qed.

(** A list is coalesced exactly in stretches: a run of one type lies in one node. *)
Lemma run_in_node a l e p q t :
  tiles a l e -> coalesced l -> a <= p < q -> q <= e ->
  (forall x, p <= x < q -> type_at l x = Some t) ->
  exists m, m ∈ l /\ an_address m <= p /\ q <= an_address m + an_length m /\ an_type m = t.
Proof.
  revert a. induction l as [|m l IH]; intros a Ht Hc Hp Hq Hr; cbn in *; [lia|].
  destruct Ht as (Hm & Hl & Ht), Hc as [Hn Hc]. destruct (Z.lt_ge_cases p (a + an_length m)) as [Hin|Hout].
  - assert (an_type m = t) as Hmt.
    { specialize (Hr p ltac:(lia)). rewrite (proj2 (Z.leb_le _ _)), (proj2 (Z.ltb_lt _ _)) in Hr by lia.
      cbn in Hr. congruence. }
    exists m. split; [left|]. split; [lia|]. split; [|done].
    destruct (Z.le_gt_cases q (an_address m + an_length m)) as [|Hgt]; [done|exfalso].
    destruct l as [|n l]; [cbn in Ht; lia|]. cbn in Ht. destruct Ht as (Hna & Hnl & Ht).
    specialize (Hr (a + an_length m) ltac:(lia)). revert Hr. cbn. ranges. congruence.
  - destruct (IH _ Ht Hc ltac:(lia) Hq) as (n & Hn' & ?).
    + intros x Hx. specialize (Hr x Hx). revert Hr. ranges.
    + exists n. split; [by right|done].
Qed.

(** * The map after a sequence of marks *)

Record mark := Mark { mk_address : Z; mk_length : Z; mk_type : Z; mk_descr : Z }.

Definition mark_ok (m : mark) : Prop :=
  0 <= mk_address m /\ 0 <= mk_length m /\ mk_address m + mk_length m < 2 ^ 64.

Fixpoint run_marks (room : nat) (a : arena_t) (ms : list mark) : option (nat * arena_t) :=
  match ms with
  | [] => Some (room, a)
  | m :: ms =>
      let? (_, room, a) := arena_markrange room a (mk_address m) (mk_length m) (mk_type m) (mk_descr m) in
      run_marks room a ms
  end.

(** The later mark wins; marks outside the region are ignored. *)
Definition overlay (base size : Z) (ms : list mark) (x t : Z) : Z :=
  fold_left (fun t m =>
    if (base <=? mk_address m) && (mk_address m + mk_length m <=? base + size) &&
       (mk_address m <=? x) && (x <? mk_address m + mk_length m) then mk_type m else t) ms t.

Lemma run_marks_spec ms room a (f : Z -> Z) :
  wf a -> Forall mark_ok ms -> (2 * length ms <= room)%nat ->
  (forall x, arena_base a <= x < arena_base a + arena_size a -> type_at (arena_list a) x = Some (f x)) ->
  exists room' a', run_marks room a ms = Some (room', a') /\ wf a' /\
    (room' + length (arena_list a') = room + length (arena_list a))%nat /\
    arena_base a' = arena_base a /\ arena_size a' = arena_size a /\
    forall x, arena_base a <= x < arena_base a + arena_size a ->
      type_at (arena_list a') x = Some (overlay (arena_base a) (arena_size a) ms x (f x)).
Proof.
  revert room a f. induction ms as [|m ms IH]; intros room a f W Hms Hr Hty; cbn in Hr |- *.
  { exists room, a. done. }
  apply Forall_cons in Hms as [(M1 & M2 & M3) Hms].
  destruct (arena_markrange_spec room a (mk_address m) (mk_length m) (mk_type m) (mk_descr m) W M1 M2 M3 ltac:(lia))
    as (room1 & a1 & -> & (W1 & B1 & S1 & (N1 & R1) & T1) & _).
  destruct (IH room1 a1 (fun x => if covers a (mk_address m) (mk_length m) && (mk_address m <=? x)
      && (x <? mk_address m + mk_length m) then mk_type m else f x) W1 Hms ltac:(lia))
    as (room2 & a2 & -> & W2 & N2 & B2 & S2 & T2).
  { intros x Hx. rewrite B1, S1 in Hx. rewrite T1, Hty by done. by destruct (_ && _). }
  rewrite B1, S1 in *. exists room2, a2. split; [done|]. split; [done|]. split; [lia|].
  split; [done|]. split; [done|]. intros x Hx. rewrite T2 by done. done.
Qed.

(** C8 The arena is the memory map its marks describe: after any sequence of marks over a
    fresh arena, overlapping, nested, empty or outside it, each address has the type of the
    last mark that covers it, the nodes tile the arena without gaps, no two neighbours have
    the same type, and every node of the heap is either in the list or free again. *)
Theorem arena_map room base size ms :
  0 <= base -> 0 < size -> base + size < 2 ^ 64 -> Forall mark_ok ms -> (2 * length ms < room)%nat ->
  exists room0 a0 room' a, arena_init room base size = Some (room0, a0) /\
    run_marks room0 a0 ms = Some (room', a) /\
    tiles base (arena_list a) (base + size) /\ coalesced (arena_list a) /\
    (room' + length (arena_list a) = room)%nat /\
    forall x, base <= x < base + size -> type_at (arena_list a) x = Some (overlay base size ms x 0).
Proof.
  intros Hb Hs He Hms Hr.
  destruct (arena_init_wf room base size Hb Hs He ltac:(lia)) as (room0 & a0 & H0 & W0 & B0 & S0 & L0 & N0 & T0).
  pose proof H0 as Hlen. unfold arena_init in Hlen. destruct room as [|n]; [done|]. injection Hlen as <- <-.
  destruct (run_marks_spec ms n _ (fun _ => 0) W0 Hms ltac:(lia) T0) as (room' & a & Hrun & W & N & B & S & T).
  cbn in *. eexists n, _, room', a. split; [done|]. split; [exact Hrun|].
  destruct W as [_ Ht Hc]. rewrite B, S in Ht. split; [done|]. split; [done|]. split; [lia|done].
Qed.

(** * Loading a program *)

Lemma PHYSADDR_range z : 0 <= PHYSADDR z < 2 ^ 29.
Proof.
  unfold PHYSADDR. change (0x20000000 - 1) with (Z.ones 29). rewrite Z.land_ones by lia.
  apply Z.mod_pos_bound. lia.
Qed.

Lemma PHYSADDR_le z : 0 <= z -> PHYSADDR z <= z.
Proof.
  intros Hz. unfold PHYSADDR. change (0x20000000 - 1) with (Z.ones 29). rewrite Z.land_ones by lia.
  apply Z.mod_le; lia.
Qed.

(** [cfe_arena_loadcheck] is exact as long as the region does not wrap around the 32-bit
    address space; this needs the list to be coalesced. *)
Lemma loadcheck_spec a start size :
  wf a -> 0 <= start -> 0 < size -> start + size < 2 ^ 32 ->
  arena_base a = 0 -> 2 ^ 32 <= arena_size a ->
  cfe_arena_loadcheck a start size = true <->
  (BOOT_START_ADDRESS <= start /\ start + size <= BOOT_START_ADDRESS + BOOT_AREA_SIZE) \/
  forall x, PHYSADDR start <= x < PHYSADDR start + size -> type_at (arena_list a) x = Some MEMTYPE_DRAM_AVAILABLE.
Proof.
  intros [(H0 & He) Ht Hco] Hst Hsz Hw Hb Has. unfold cfe_arena_loadcheck.
  pose proof (PHYSADDR_range start). pose proof (PHYSADDR_le start Hst).
  rewrite !wrap32_small by lia. destruct (_ && _) eqn:E; bool_simpl; [split; [by left|done]|].
  apply andb_false_iff in E. rewrite existsb_exists. split.
  - intros (m & Hm & Hc). apply list_elem_of_In in Hm. bool_simpl.
    destruct (map_tiles_elem _ _ _ _ Ht Hm) as (M1 & M2 & M3). rewrite wrap64_small in * by lia. right. intros x Hx.
    destruct (list_elem_of_split _ _ Hm) as (l1 & l2 & Hl). rewrite Hl in Ht |- *.
    apply map_tiles_app in Ht as (k & T1 & (Hk & _)). rewrite type_at_app.
    rewrite (type_at_outside _ _ _ x T1) by lia. cbn. ranges. congruence.
  - intros [[B1 B2]|Hr].
    + destruct E as [E|E]; bool_simpl; lia.
    + destruct (run_in_node _ _ _ (PHYSADDR start) (PHYSADDR start + size) MEMTYPE_DRAM_AVAILABLE Ht Hco)
        as (m & Hm & M1 & M2 & M3); [lia|lia|done|].
      exists m. split; [by apply list_elem_of_In|]. destruct (map_tiles_elem _ _ _ _ Ht Hm) as (? & ? & ?).
      rewrite wrap64_small by lia. rewrite !(proj2 (Z.leb_le _ _)) by lia. by rewrite M3.
Qed.

Lemma ldiff_page z : Z.ldiff z (PAGESIZE - 1) = z - z mod PAGESIZE.
Proof.
  change (PAGESIZE - 1) with (Z.ones 12). rewrite Z.ldiff_ones_r, Z.shiftr_div_pow2, Z.shiftl_mul_pow2 by lia.
  change (2 ^ 12) with PAGESIZE. pose proof (Z.div_mod z PAGESIZE ltac:(done)). lia.
Qed.

(** Where the firmware lies in physical memory. *)
Definition memlo (mem_bottomofmem : Z) : Z := Z.ldiff (PHYSADDR mem_bottomofmem) (PAGESIZE - 1).
Definition memhi (mem_topofmem : Z) : Z := PHYSADDR (page_up mem_topofmem).

Lemma memlo_range bot : 0 <= memlo bot < 2 ^ 29.
Proof.
  unfold memlo. rewrite ldiff_page. pose proof (PHYSADDR_range bot).
  pose proof (Z.mod_pos_bound (PHYSADDR bot) PAGESIZE ltac:(done)).
  pose proof (Z.mod_le (PHYSADDR bot) PAGESIZE ltac:(lia) ltac:(done)). lia.
Qed.

Definition init_marks (tot bot top : Z) : list mark :=
  [Mark 0 0x10000000 MEMTYPE_DRAM_NOTINSTALLED 0; Mark 0 (Z.shiftl tot 10) MEMTYPE_DRAM_AVAILABLE 0;
   Mark 0x1FC00000 (2 * 1024 * 1024) MEMTYPE_BOOTROM 0;
   Mark (memlo bot) (memhi top - memlo bot) MEMTYPE_DRAM_USEDBYFIRMWARE 0].

Lemma cfe_arena_init_marks room tot bot top : memlo bot < memhi top ->
  cfe_arena_init room tot bot top =
  let? (room, a) := arena_init room 0 0x100000000 in run_marks room a (init_marks tot bot top).
Proof.
  intros Hlt. pose proof (memlo_range bot). pose proof (PHYSADDR_range (page_up top)). fold (memhi top) in *.
  unfold cfe_arena_init, bcmcore_arena_init, ARENA_RANGE. fold (memlo bot) (memhi top).
  destruct (arena_init room 0 4294967296) as [[r a]|]; [|done]. unfold init_marks. cbn [run_marks mk_address mk_length mk_type mk_descr].
  change (wrap64 (268435455 - 0 + 1)) with 0x10000000.
  replace (wrap64 (wrap64 (memhi top - 1) - memlo bot + 1)) with (memhi top - memlo bot)
    by (rewrite (wrap64_small (memhi top - 1)), wrap64_small by lia; lia).
  do 3 (destruct (arena_markrange _ _ _ _ _ _) as [[[? ?] ?]|]; [|done]).
  by destruct (arena_markrange _ _ _ _ _ _) as [[[? ?] ?]|].
Qed.

(** The regions a program may be loaded to. *)
Definition loadable (tot bot top start size : Z) : Prop :=
  (BOOT_START_ADDRESS <= start /\ start + size <= BOOT_START_ADDRESS + BOOT_AREA_SIZE) \/
  forall x, PHYSADDR start <= x < PHYSADDR start + size ->
    x < 1024 * tot /\ ~ (0x1FC00000 <= x < 0x1FE00000) /\ ~ (memlo bot <= x < memhi top).

Lemma shiftl_10 z : Z.shiftl z 10 = 1024 * z.
Proof. rewrite Z.shiftl_mul_pow2 by lia. lia. Qed.

Lemma overlay_init tot bot top x :
  0 <= tot <= 2 ^ 22 -> memlo bot < memhi top -> 0 <= x ->
  overlay 0 0x100000000 (init_marks tot bot top) x 0 = MEMTYPE_DRAM_AVAILABLE <->
  x < 1024 * tot /\ ~ (0x1FC00000 <= x < 0x1FE00000) /\ ~ (memlo bot <= x < memhi top).
Proof.
  intros Htot Hlt Hx. pose proof (memlo_range bot). pose proof (PHYSADDR_range (page_up top)). fold (memhi top) in *.
  unfold overlay, init_marks. cbn [fold_left mk_address mk_length mk_type mk_descr]. rewrite shiftl_10.
  unfold MEMTYPE_DRAM_AVAILABLE, MEMTYPE_BOOTROM, MEMTYPE_DRAM_NOTINSTALLED, MEMTYPE_DRAM_USEDBYFIRMWARE.
  repeat match goal with |- context [if ?c then _ else _] => destruct c eqn:? end; ranges.
Qed.

Lemma firmware_map room tot bot top :
  (9 <= room)%nat -> 0 <= tot <= 2 ^ 22 -> memlo bot < memhi top ->
  exists room' a, cfe_arena_init room tot bot top = Some (room', a) /\ wf a /\
    arena_base a = 0 /\ arena_size a = 2 ^ 32 /\
    forall start size, 0 <= start -> 0 < size -> start + size < 2 ^ 32 ->
      cfe_arena_loadcheck a start size = true <-> loadable tot bot top start size.
Proof.
  intros Hr Htot Hlt. rewrite cfe_arena_init_marks by done.
  pose proof (memlo_range bot). pose proof (PHYSADDR_range (page_up top)). fold (memhi top) in *.
  destruct (arena_init_wf room 0 0x100000000 ltac:(lia) ltac:(lia) ltac:(lia) ltac:(lia))
    as (room0 & a0 & -> & W0 & B0 & S0 & L0 & N0 & T0).
  destruct (run_marks_spec (init_marks tot bot top) room0 a0 (fun _ => 0) W0) as (room' & a & -> & W & N & B & S & T).
  - repeat constructor; cbn; rewrite ?shiftl_10; lia.
  - cbn. lia.
  - by rewrite B0, S0.
  - rewrite B0, S0 in *. exists room', a. split; [done|]. split; [done|]. split; [done|]. split; [done|].
    intros start size Hst Hsz Hw. pose proof (PHYSADDR_range start). pose proof (PHYSADDR_le start Hst).
    etransitivity; [apply loadcheck_spec; try done; rewrite S; lia|].
    split; (intros [?|Hall]; [by left|right]); intros x Hx; specialize (Hall x Hx).
    + rewrite T in Hall by lia. apply (overlay_init tot bot top x); [done|done|lia|congruence].
    + rewrite T by lia. f_equal. apply (overlay_init tot bot top x); [done|done|lia|done].
Qed.

(** Loading a program never touches the firmware: on the memory map the boot loader sets
    up, the check every loader makes accepts a region exactly when it lies in the mapped
    boot area, or wholly in installed memory outside the boot ROM and outside the pages the
    firmware occupies. *)
Theorem firmware_protected room tot bot top :
  (9 <= room)%nat -> 0 <= tot <= 2 ^ 22 -> memlo bot < memhi top ->
  exists room' a, cfe_arena_init room tot bot top = Some (room', a) /\
    forall start size, 0 <= start -> 0 < size -> start + size < 2 ^ 32 ->
      cfe_arena_loadcheck a start size = true <-> loadable tot bot top start size.
Proof.
  intros Hr Htot Hlt. destruct (firmware_map room tot bot top Hr Htot Hlt) as (room' & a & H & _ & _ & _ & Hc).
  by exists room', a.
Qed.

Lemma page_up_spec z : 0 <= z -> z + PAGESIZE <= 2 ^ 32 ->
  z <= page_up z < z + PAGESIZE /\ page_up z mod PAGESIZE = 0.
Proof.
  intros Hz Hw. unfold page_up. rewrite ldiff_page. change PAGESIZE with 4096 in *.
  rewrite wrap32_small by lia. pose proof (Z.mod_pos_bound (z + (4096 - 1)) 4096 ltac:(lia)).
  split; [lia|]. rewrite Zminus_mod, Zmod_mod, Z.sub_diag. done.
Qed.

(** Rounding commutes with taking the physical address. *)
Lemma page_up_PHYSADDR z : 0 <= z -> z + PAGESIZE <= 2 ^ 32 -> PHYSADDR z + PAGESIZE <= 2 ^ 29 ->
  PHYSADDR (page_up z) = page_up (PHYSADDR z).
Proof.
  intros Hz Hw Hp. pose proof (PHYSADDR_range z). unfold page_up. rewrite !ldiff_page.
  unfold PHYSADDR in *. change (0x20000000 - 1) with (Z.ones 29) in *. rewrite !Z.land_ones in * by lia.
  change PAGESIZE with 4096 in *. change (2 ^ 29) with (4096 * 131072) in *. rewrite !wrap32_small by lia.
  set (k := z / (4096 * 131072)). set (r := z mod (4096 * 131072)) in *.
  assert (Hzk : z = 4096 * (131072 * k) + r) by (unfold k, r; pose proof (Z.div_mod z (4096 * 131072)); lia).
  clearbody k r. subst z.
  replace ((4096 * (131072 * k) + r + (4096 - 1)) mod 4096) with ((r + (4096 - 1)) mod 4096).
  - pose proof (Z.mod_pos_bound (r + (4096 - 1)) 4096 ltac:(lia)).
    rewrite <- (Z_mod_plus_full _ (- k)), Z.mod_small; lia.
  - rewrite <- (Z_mod_plus_full (r + (4096 - 1)) (131072 * k)). f_equal. lia.
Qed.

(** The boot area is page aligned, in memory and apart from the firmware, when there is
    room for it on one side. *)
Lemma bootarea_disjoint tot bot top :
  let topmem := Z.min (2 ^ 28) (1024 * tot) in
  0 <= tot < 2 ^ 22 -> 0 <= top -> top + PAGESIZE <= 2 ^ 32 ->
  PHYSADDR bot <= PHYSADDR top <= topmem ->
  BOOT_AREA_SIZE + 2 * PAGESIZE <= Z.max (PHYSADDR bot) (topmem - PHYSADDR top) ->
  let s := bootarea_start tot bot top in
  s mod PAGESIZE = 0 /\ 0 <= s /\ s + BOOT_AREA_SIZE <= topmem /\
  (s + BOOT_AREA_SIZE <= memlo bot \/ memhi top <= s).
Proof.
  intros topmem Htot Htop Hw Hbt Hroom s.
  assert (Hs : s = if topmem - PHYSADDR top <? PHYSADDR bot
    then wrap32 (Z.ldiff (wrap32 (PHYSADDR bot - (PAGESIZE - 1))) (PAGESIZE - 1) - BOOT_AREA_SIZE)
    else page_up (PHYSADDR top)).
  { unfold s, bootarea_start. rewrite shiftl_10.
    replace (if 256 * 1024 <? tot then 256 * (1024 * 1024) else wrap32 (1024 * tot)) with topmem
      by (rewrite wrap32_small by lia; unfold topmem; case_test; lia).
    pose proof (PHYSADDR_range top). pose proof (PHYSADDR_range bot).
    by rewrite (wrap32_small (topmem - _)) by lia. }
  rewrite Hs. clear Hs s. pose proof (PHYSADDR_range bot). pose proof (PHYSADDR_range top).
  unfold memlo, memhi. rewrite page_up_PHYSADDR by (change PAGESIZE with 4096 in *; lia).
  destruct (page_up_spec (PHYSADDR top) ltac:(lia) ltac:(change PAGESIZE with 4096; lia)) as [P1 P2].
  change BOOT_AREA_SIZE with (64 * PAGESIZE) in *. destruct (Z.ltb_spec (topmem - PHYSADDR top) (PHYSADDR bot)).
  - rewrite !ldiff_page. change PAGESIZE with 4096 in *. rewrite (wrap32_small (_ - (4096 - 1))) by lia.
    pose proof (Z.mod_pos_bound (PHYSADDR bot - (4096 - 1)) 4096 ltac:(lia)).
    pose proof (Z.mod_pos_bound (PHYSADDR bot) 4096 ltac:(lia)).
    rewrite wrap32_small by lia. split; [|lia].
    rewrite Zminus_mod, (Zminus_mod (_ - _)), Zmod_mod, Z.sub_diag. done.
  - change PAGESIZE with 4096 in *. split; [done|]. lia.
Qed.

(** * Flaws *)

(** The end of the region wraps around: nearly all of the address space from a
    megabyte on passes the check. *)
Lemma loadcheck_wraps :
  exists r a, cfe_arena_init 9 (16 * 1024) 0x80700000 0x80800000 = Some (r, a) /\
    cfe_arena_loadcheck a 0x80100000 0xfff00000 = true.
Proof.
  destruct (cfe_arena_init 9 (16 * 1024) 0x80700000 0x80800000) as [[r a]|] eqn:E; vm_compute in E; [|done].
  exists r, a. split; [done|]. injection E as <- <-. vm_compute. reflexivity.
Qed.

(** Marking the middle of a described region leaves the rest behind it with a
    description nobody stored. *)
Lemma split_loses_descr :
  match run_marks 9 (Arena [An 0 1000 0 (Some 0)] 0 1000) [Mark 0 1000 1 77; Mark 40 20 2 78] with
  | Some (_, a) => map an_descr (arena_list a) = [Some 77; Some 78; None]
  | None => False
  end.
Proof. vm_compute. reflexivity. Qed.

(** * Instances of the properties *)

Lemma arena_map_witness :
  exists room' a, run_marks 19 (Arena [An 0 1000 0 (Some 0)] 0 1000)
      [Mark 0 1000 1 77; Mark 40 20 2 78; Mark 50 100 3 0] = Some (room', a) /\
    type_at (arena_list a) 45 = Some 2 /\ type_at (arena_list a) 55 = Some 3 /\ type_at (arena_list a) 150 = Some 1.
Proof.
  destruct (arena_map 20 0 1000 [Mark 0 1000 1 77; Mark 40 20 2 78; Mark 50 100 3 0])
    as (room0 & a0 & room' & a & H0 & Hrun & _ & _ & _ & Hty).
  - lia.
  - lia.
  - lia.
  - repeat (apply Forall_cons; split; [split; cbn; lia|]). apply Forall_nil. exact Logic.I.
  - cbn. lia.
  - cbn in H0. injection H0 as <- <-. exists room', a. split; [exact Hrun|].
    split; [rewrite (Hty 45) by lia; reflexivity|]. split; [rewrite (Hty 55) by lia; reflexivity|].
    rewrite (Hty 150) by lia. reflexivity.
Defined.

(** Sixteen megabytes with the firmware in the eighth: a load just below it is accepted,
    one that reaches into it is not. *)
Lemma firmware_protected_witness :
  exists room' a, cfe_arena_init 9 (16 * 1024) 0x80700000 0x80800000 = Some (room', a) /\
    cfe_arena_loadcheck a 0x806ff000 0x1000 = true /\ cfe_arena_loadcheck a 0x806ff000 0x1001 <> true.
Proof.
  destruct (firmware_protected 9 (16 * 1024) 0x80700000 0x80800000) as (room' & a & H & Hc).
  - lia.
  - lia.
  - vm_compute. reflexivity.
  - exists room', a. split; [exact H|].
    change (memlo 0x80700000) with 0x700000 in Hc. unfold loadable in Hc.
    split.
    + apply Hc; [lia|lia|lia|]. right. intros x Hx. change (PHYSADDR 0x806ff000) with 0x6ff000 in Hx.
      change (memlo 0x80700000) with 0x700000. lia.
    + intros Hn. apply Hc in Hn; [|lia|lia|lia]. destruct Hn as [[_ Hn]|Hn].
      * unfold BOOT_START_ADDRESS, BOOT_AREA_SIZE in Hn. lia.
      * specialize (Hn 0x700000). change (PHYSADDR 0x806ff000) with 0x6ff000 in Hn.
        change (memlo 0x80700000) with 0x700000 in Hn. change (memhi 0x80800000) with 0x800000 in Hn. lia.
Defined.
