(* ===== verification/Srec.v ===== *)
(** The boot loader's S-record loader: cfe/cfe/main/cfe_ldr_srec.c.

    A program arrives as text over a file or a serial line.  The file layer is the
    sequence of results of [fs_read], which ends with 0 for ever (the end of a file) or with an error; what the loader stores in memory is the sequence of
    its [memcpy] calls.  Every store is checked against the memory map of [Arena]. *)

From S2P Require Import Prelude Arena.
From Stdlib Require Import ZArith Lia Bool List String Ascii.
From stdpp Require Import base numbers list gmap.

#[local] Open Scope Z_scope.

(** What [fs_read] gives after its last bytes: 0 for ever, at the end of the file, or an
    error. *)
Inductive file_end := AtEof | AtError.

(** [linebuf] holds the [buflen] bytes of the last read; [reads] is what the next calls of
    [fs_read] give, the empty list for 0, and [then_] what they give after that. *)
Record linebuf_t := Lb {
  linebuf : bytes;
  curidx : nat;
  eof : bool;
  reads : list bytes;
  then_ : file_end
}.

Definition initlinebuf (reads : list bytes) (e : file_end) : linebuf_t := Lb [] 0 false reads e.

(** The loop around [fs_read] in [readchar]: a result of 0 is tried again.  Since 0 is what
    [fs_read] gives at the end of a file, the loop then does not end. *)
Inductive read_result := Got (b : bytes) (reads : list bytes) | Failed | Forever.
Fixpoint next_read (reads : list bytes) (e : file_end) : read_result :=
  match reads with
  | [] => match e with AtEof => Forever | AtError => Failed end
  | [] :: reads => next_read reads e
  | b :: reads => Got b reads
  end.

(** [None] is a call that does not return. *)
Definition readchar (f : linebuf_t) : option (Z * linebuf_t) :=
  if eof f then Some (-1, f)
  else
    let get f := (schar (at_ (linebuf f) (curidx f)), Lb (linebuf f) (S (curidx f)) (eof f) (reads f) (then_ f)) in
    if (curidx f =? length (linebuf f))%nat then
      match next_read (reads f) (then_ f) with
      | Forever => None
      | Failed => Some (-1, Lb (linebuf f) (curidx f) true [] (then_ f))
      | Got b r => Some (get (Lb b 0 (eof f) r (then_ f)))
      end
    else Some (get f).

(** No line is the result -1; [n] is the room that is left in the buffer. *)
Fixpoint readline_loop (n : nat) (f : linebuf_t) (line : bytes) : option (option bytes * linebuf_t) :=
  match n with
  | O => Some (Some line, f)
  | S n =>
      let? (ch, f) := readchar f in
      if (ch =? -1) || (ch =? 27) then Some (None, f)
      else if (ch =? 10) || (ch =? 13) then Some (Some line, f)
      else readline_loop n f (line ++ [wrap8 ch])
  end.

Definition readline (f : linebuf_t) (maxlen : nat) : option (option bytes * linebuf_t) := readline_loop (maxlen - 1) f [].

Definition getxdigit (c : Z) : Z :=
  if (ch "0"%char <=? c) && (c <=? ch "9"%char) then c - ch "0"%char
  else if (ch "A"%char <=? c) && (c <=? ch "F"%char) then c - ch "A"%char + 10
  else if (ch "a"%char <=? c) && (c <=? ch "f"%char) then c - ch "a"%char + 10
  else -1.

Definition getbyte (line : bytes) : Z * bytes :=
  let c1 := getxdigit (at_ line 0) in
  if c1 <? 0 then (-1, line)
  else
    let c2 := getxdigit (at_ line 1) in
    if c2 <? 0 then (-1, line) else (c1 * 16 + c2, drop 2 line).

(** [b = getbyte(&line)] into an [unsigned char]. *)
Definition getb (line : bytes) : Z * bytes := let '(r, line) := getbyte line in (wrap8 r, line).

(** One address byte: [chksum += b; addr <<= 8; addr += b;] *)
Definition addr_byte (st : bytes * Z * Z) : bytes * Z * Z :=
  let '(line, addr, chksum) := st in
  let '(b, line) := getb line in
  (line, wrap32 (wrap32 (Z.shiftl addr 8) + b), wrap32 (chksum + b)).

(** The data bytes go to [data[idx]]; [room] is what is left of the buffer of 256 bytes
    from [idx] on, and a byte behind it is [None]. *)
Fixpoint data_loop (room : nat) (idx len : Z) (line data : bytes) (chksum : Z) : option (bytes * bytes * Z) :=
  if len <=? idx then Some (line, data, chksum)
  else
    match room with
    | O => None
    | S room =>
        let '(b, line) := getb line in
        data_loop room (idx + 1) len line (splice data (Z.to_nat idx) [b]) (wrap32 (chksum + b))
    end.

(** The caller's variables. *)
Record srec_vars := Vars { loadaddr : Z; blklen : Z; data : bytes }.

(** Types '1' to '3': a data record with [n] address bytes. *)
Definition data_record (line : bytes) (n : nat) (v : srec_vars) : option (Z * srec_vars) :=
  let minlen := Z.of_nat n + 1 in
  let '(r, line) := getbyte line in
  let linelen := wrap32 r in
  if linelen <? minlen then Some (-1, v)
  else
    let '(line, addr, chksum) := Nat.iter n addr_byte (line, 0, linelen) in
    let len := wrap32 (linelen - minlen) in
    let? (line, d, chksum) := data_loop 256 0 len line (data v) chksum in
    let v := Vars addr len d in
    let '(b, line) := getb line in
    let chksum := Z.land (Z.lnot chksum) 0xff in
    if negb (chksum =? b) then Some (-1, v) else Some (1, v).

(** Types '7' to '9': the entry point. *)
Definition end_record (line : bytes) (n : nat) (v : srec_vars) : Z * srec_vars :=
  let '(_, line) := getbyte line in
  let '(_, addr, _) := Nat.iter n addr_byte (line, 0, 0) in
  (-2, Vars addr (blklen v) (data v)).

Definition procsrec (line : bytes) (v : srec_vars) : option (Z * srec_vars) :=
  if negb (at_ line 0 =? ch "S"%char) then Some (-1, v)
  else
    let rectype := at_ line 1 in
    let line := drop 2 line in
    if rectype =? ch "0"%char then Some (0, v)
    else if rectype =? ch "3"%char then data_record line 4 v
    else if rectype =? ch "2"%char then data_record line 3 v
    else if rectype =? ch "1"%char then data_record line 2 v
    else if rectype =? ch "9"%char then Some (end_record line 2 v)
    else if rectype =? ch "8"%char then Some (end_record line 3 v)
    else if rectype =? ch "7"%char then Some (end_record line 4 v)
    else Some (-1, v).

(** What the loader is asked for: [LOADFLG_SPECADDR] with [la_address]. *)
Record cfe_loadargs := La { la_specaddr : bool; la_address : Z }.

Record load_state := Ls {
  lb : linebuf_t;
  vars : srec_vars;
  cnt : Z;
  specaddr : Z;
  firstrec : bool;
  stores : list (Z * bytes)
}.

(** How the loader ends: with the result and the entry point it stores in [la], with a
    byte stored behind its buffer on the stack, reading at the end of the file for ever, or not within the fuel. *)
Inductive outcome :=
  | Loaded (res : Z) (entrypt : option Z) (stores : list (Z * bytes))
  | Overrun (stores : list (Z * bytes))
  | Waiting (stores : list (Z * bytes))
  | Running.

Definition load_end (res : Z) (s : load_state) : outcome :=
  if res =? -2 then Loaded 0 (Some (loadaddr (vars s))) (stores s) else Loaded res None (stores s).

Section load.
Context (la : cfe_loadargs) (a : arena_t).

(** The loop body after a line was read: the end of the loop, or the next round. *)
Definition load_line (line : bytes) (s : load_state) : outcome + load_state :=
  if at_ line 0 =? 0 then inr s
  else
    match procsrec line (vars s) with
    | None => inl (Overrun (stores s))
    | Some (res, v) =>
        let s := Ls (lb s) v (cnt s) (specaddr s) (firstrec s) (stores s) in
        if res <? 0 then inl (load_end res s)
        else
          let s :=
            if (res =? 1) && la_specaddr la then
              let base := if firstrec s then loadaddr v else specaddr s in
              Ls (lb s) (Vars (wrap32 (la_address la + wrap32 (loadaddr v - base))) (blklen v) (data v))
                (cnt s) base false (stores s)
            else s in
          let s := Ls (lb s) (vars s) (cnt s + 1) (specaddr s) (firstrec s) (stores s) in
          if res =? 1 then
            let v := vars s in
            if negb (cfe_arena_loadcheck a (loadaddr v) (blklen v)) then inl (load_end (-1) s)
            else inr (Ls (lb s) v (cnt s) (specaddr s) (firstrec s)
                        (stores s ++ [(loadaddr v, take (Z.to_nat (blklen v)) (data v))]))
          else inr s
    end.

Fixpoint load_loop (fuel : nat) (s : load_state) : outcome :=
  match fuel with
  | O => Running
  | S fuel =>
      match readline (lb s) 256 with
      | None => Waiting (stores s)
      | Some (r, f) =>
          let s := Ls f (vars s) (cnt s) (specaddr s) (firstrec s) (stores s) in
          match r with
          | None => load_end (-1) s
          | Some line =>
              match load_line line s with
              | inl o => o
              | inr s => load_loop fuel s
              end
          end
      end
  end.

(** [v] is what the uninitialised variables hold; [fs_init], [fs_hook] and [fs_open] give
    the results [open]. *)
Definition cfe_srecload (fuel : nat) (open : Z * Z * Z) (compressed : bool) (reads : list bytes) (e : file_end) (v : srec_vars) : outcome :=
  let '(init, hook, opened) := open in
  if negb (init =? 0) then Loaded init None []
  else if compressed && negb (hook =? 0) then Loaded hook None []
  else if negb (opened =? 0) then Loaded opened None []
  else load_loop fuel (Ls (initlinebuf reads e) v 0 0 true []).
End load.

(** * Writing S-records *)

Definition hexdigit (n : Z) : Z := if n <? 10 then ch "0"%char + n else ch "A"%char + (n - 10).
Definition hexbyte (b : Z) : bytes := [hexdigit (b / 16); hexdigit (b mod 16)].
Definition hexbytes (l : bytes) : bytes := concat (map hexbyte l).

(** [n] bytes of an address, the highest first. *)
Fixpoint addr_bytes (n : nat) (addr : Z) : bytes :=
  match n with
  | O => []
  | S n => (addr / 256 ^ Z.of_nat n) mod 256 :: addr_bytes n addr
  end.

Fixpoint sum (l : bytes) : Z := match l with [] => 0 | b :: l => b + sum l end.

(** The hex part of a record: count, address, data, checksum. *)
Definition body (n : nat) (addr : Z) (d : bytes) : bytes :=
  let l := Z.of_nat (n + length d + 1) :: addr_bytes n addr ++ d in
  hexbytes (l ++ [255 - sum l mod 256]).

(** A data record with [n] address bytes is of type n - 1, an end record of type 11 - n. *)
Record srec := Srec { s_n : nat; s_addr : Z; s_data : bytes }.

Definition data_line (r : srec) : bytes :=
  [ch "S"%char; ch "0"%char + Z.of_nat (s_n r) - 1] ++ body (s_n r) (s_addr r) (s_data r).
Definition end_line (n : nat) (entry : Z) : bytes := [ch "S"%char; ch "9"%char + 2 - Z.of_nat n] ++ body n entry [].

(** A record's line of text and its line feed must fit the loader's line buffer. *)
Definition srec_ok (r : srec) : Prop :=
  (2 <= s_n r <= 4)%nat /\ 0 <= s_addr r < 256 ^ Z.of_nat (s_n r) /\ Forall byte_ok (s_data r) /\
  (s_n r + length (s_data r) <= 124)%nat.

(** * Reading them back *)

Lemma getxdigit_hexdigit n : 0 <= n < 16 -> getxdigit (hexdigit n) = n.
Proof.
  intros Hn. apply Z.eqb_eq. revert n Hn. apply (forallb_Z_below (fun n => getxdigit (hexdigit n) =? n) 16).
  by vm_compute.
Qed.

Lemma getb_hexbyte b rest : byte_ok b -> getb (hexbyte b ++ rest) = (b, rest).
Proof.
  intros Hb. unfold byte_ok in Hb. unfold getb, getbyte, hexbyte. cbn [app at_ nth].
  assert (0 <= b / 16 < 16) by (split; [apply Z.div_pos; lia|apply Z.div_lt_upper_bound; lia]).
  pose proof (Z.mod_pos_bound b 16). rewrite !getxdigit_hexdigit by lia.
  rewrite !(proj2 (Z.ltb_ge _ _)) by lia. cbn. f_equal. rewrite wrap8_small; pose proof (Z.div_mod b 16); lia.
Qed.

Lemma getbyte_hexbyte b rest : byte_ok b -> getbyte (hexbyte b ++ rest) = (b, rest).
Proof.
  intros Hb. unfold byte_ok in Hb. unfold getbyte, hexbyte. cbn [app at_ nth].
  assert (0 <= b / 16 < 16) by (split; [apply Z.div_pos; lia|apply Z.div_lt_upper_bound; lia]).
  pose proof (Z.mod_pos_bound b 16). rewrite !getxdigit_hexdigit by lia.
  rewrite !(proj2 (Z.ltb_ge _ _)) by lia. cbn. f_equal. pose proof (Z.div_mod b 16). lia.
Qed.

Lemma hexbytes_cons b l : hexbytes (b :: l) = hexbyte b ++ hexbytes l.
Proof. done. Qed.
Lemma hexbytes_app l1 l2 : hexbytes (l1 ++ l2) = hexbytes l1 ++ hexbytes l2.
Proof. unfold hexbytes. by rewrite map_app, concat_app. Qed.

Lemma sum_app l1 l2 : sum (l1 ++ l2) = sum l1 + sum l2.
Proof. induction l1 as [|x l1 IH]; cbn; [done|]. lia. Qed.

Lemma addr_bytes_ok n addr : Forall byte_ok (addr_bytes n addr).
Proof. induction n; constructor; [apply Z.mod_pos_bound; lia|done]. Qed.

Lemma length_addr_bytes n addr : length (addr_bytes n addr) = n.
Proof. induction n; cbn; congruence. Qed.

Lemma length_hexbytes l : length (hexbytes l) = (2 * length l)%nat.
Proof. induction l as [|b l IH]; cbn; [done|]. fold (hexbytes l). lia. Qed.

Lemma sum_bounds l : Forall byte_ok l -> 0 <= sum l <= 255 * Z.of_nat (length l).
Proof. induction 1 as [|b l Hb _ IH]; cbn; [lia|]. unfold byte_ok in Hb. lia. Qed.

Lemma addr_loop n addr a0 rest c :
  0 <= a0 -> 0 <= c -> 0 <= addr -> (a0 + 1) * 256 ^ Z.of_nat n <= 2 ^ 32 -> c + 255 * Z.of_nat n < 2 ^ 32 ->
  Nat.iter n addr_byte (hexbytes (addr_bytes n addr) ++ rest, a0, c) =
  (rest, a0 * 256 ^ Z.of_nat n + addr mod 256 ^ Z.of_nat n, c + sum (addr_bytes n addr)).
Proof.
  revert a0 c. induction n as [|n IH]; intros a0 c Ha Hc Had Hw Hcw.
  { cbn. rewrite Z.mod_1_r. do 2 f_equal; lia. }
  pose proof (Z.pow_pos_nonneg 256 (Z.of_nat n) ltac:(lia) ltac:(lia)) as Hp.
  rewrite Nat2Z.inj_succ, Z.pow_succ_r in * by lia. set (p := 256 ^ Z.of_nat n) in *.
  rewrite Nat.iter_succ_r. cbn [addr_bytes]. fold p. rewrite hexbytes_cons, <- app_assoc.
  pose proof (Z.mod_pos_bound (addr / p) 256 ltac:(lia)) as Hb. unfold addr_byte at 2.
  rewrite getb_hexbyte by done. rewrite Z.shiftl_mul_pow2 by lia.
  change (2 ^ 8) with 256. assert (Hle : (a0 + 1) * 256 <= (a0 + 1) * (256 * p)) by nia.
  rewrite (wrap32_small (a0 * 256)), !wrap32_small by lia. rewrite IH by nia. cbn [sum].
  f_equal; [f_equal|lia]. rewrite (Z.mul_comm 256 p), Z.rem_mul_r by lia. fold p. ring.
Qed.

Lemma data_loop_spec d room idx rest buf c :
  Forall byte_ok d -> 0 <= idx -> (length d <= room)%nat ->
  (Z.to_nat idx + length d <= length buf)%nat -> 0 <= c -> c + 255 * Z.of_nat (length d) < 2 ^ 32 ->
  data_loop room idx (idx + Z.of_nat (length d)) (hexbytes d ++ rest) buf c =
  Some (rest, splice buf (Z.to_nat idx) d, c + sum d).
Proof.
  intros Hd. revert room idx buf c.
  induction Hd as [|b d Hb Hd IH]; intros room idx buf c Hi Hr Hl Hc Hw; cbn [length] in *.
  { rewrite Z.add_0_r. unfold data_loop. destruct room; rewrite Z.leb_refl, splice_nil; cbn; do 2 f_equal; lia. }
  unfold byte_ok in Hb. destruct room as [|room]; [lia|]. cbn [data_loop].
  rewrite (proj2 (Z.leb_gt _ _)) by lia. rewrite hexbytes_cons, <- app_assoc, getb_hexbyte by done.
  rewrite wrap32_small by lia.
  replace (idx + Z.of_nat (S (length d))) with (idx + 1 + Z.of_nat (length d)) by lia.
  rewrite IH by (rewrite ?length_splice; cbn; lia). f_equal. cbn [sum]. f_equal; [f_equal|lia].
  replace (Z.to_nat (idx + 1)) with (Z.to_nat idx + length [b])%nat by (cbn; lia).
  rewrite splice_splice by (cbn; lia). done.
Qed.

Lemma chksum_byte c : 0 <= c -> Z.land (Z.lnot c) 0xff = 255 - c mod 256.
Proof.
  intros Hc. change (Z.land (Z.lnot c) 0xff) with (Z.land (Z.lnot c) (Z.ones 8)). rewrite Z.land_ones by lia. unfold Z.lnot. change (2 ^ 8) with 256.
  pose proof (Z.mod_pos_bound c 256). rewrite <- (Z.mod_small (255 - c mod 256) 256) by lia.
  rewrite (Zminus_mod_idemp_r 255 c). rewrite <- (Z_mod_plus_full (Z.pred (- c)) 1). f_equal. lia.
Qed.

(** A data record that was written is read back. *)
Lemma data_record_body n addr d v rest :
  (2 <= n <= 4)%nat -> 0 <= addr < 256 ^ Z.of_nat n -> Forall byte_ok d -> (n + length d <= 254)%nat ->
  length (data v) = 256%nat ->
  data_record (body n addr d ++ rest) n v = Some (1, Vars addr (Z.of_nat (length d)) (splice (data v) 0 d)).
Proof.
  intros Hn Ha Hd Hl Hv. unfold data_record, body. set (k := Z.of_nat (n + length d + 1)).
  set (cs := 255 - _). rewrite <- app_comm_cons, hexbytes_cons, !hexbytes_app, <- !app_assoc.
  rewrite getbyte_hexbyte by (unfold byte_ok, k; lia). rewrite wrap32_small by (unfold k; lia).
  rewrite (proj2 (Z.ltb_ge _ _)) by (unfold k; lia).
  assert (Hp : 256 ^ Z.of_nat n <= 2 ^ 32).
  { change (2 ^ 32) with (256 ^ 4). apply Z.pow_le_mono_r; lia. }
  rewrite addr_loop by (unfold k; lia). rewrite Z.mod_small, Z.mul_0_l, Z.add_0_l by lia.
  pose proof (sum_bounds _ (addr_bytes_ok n addr)) as Hs. rewrite length_addr_bytes in Hs.
  pose proof (sum_bounds _ Hd) as Hs2. rewrite wrap32_small by (unfold k; lia).
  replace (k - (Z.of_nat n + 1)) with (0 + Z.of_nat (length d)) by (unfold k; lia).
  rewrite data_loop_spec by (try done; unfold k; lia).
  assert (Hcs : sum (k :: addr_bytes n addr ++ d) = k + sum (addr_bytes n addr) + sum d).
  { cbn [sum]. rewrite sum_app. lia. }
  unfold cs. rewrite Hcs, chksum_byte by (unfold k; lia).
  pose proof (Z.mod_pos_bound (k + sum (addr_bytes n addr) + sum d) 256 ltac:(lia)).
  rewrite hexbytes_cons, <- app_assoc, getb_hexbyte by (unfold byte_ok; lia).
  by rewrite Z.eqb_refl.
Qed.

Lemma pow256_le n : (n <= 4)%nat -> 256 ^ Z.of_nat n <= 2 ^ 32.
Proof. intros. change (2 ^ 32) with (256 ^ 4). apply Z.pow_le_mono_r; lia. Qed.

Lemma end_record_body n entry v :
  (2 <= n <= 4)%nat -> 0 <= entry < 256 ^ Z.of_nat n ->
  end_record (body n entry []) n v = (-2, Vars entry (blklen v) (data v)).
Proof.
  intros Hn He. unfold end_record, body. rewrite <- app_comm_cons, hexbytes_cons, app_nil_r, hexbytes_app.
  rewrite getbyte_hexbyte by (unfold byte_ok; cbn; lia). pose proof (pow256_le n ltac:(lia)).
  rewrite addr_loop by lia. do 2 f_equal. rewrite Z.mod_small by lia. lia.
Qed.

Lemma procsrec_data r v : srec_ok r -> length (data v) = 256%nat ->
  procsrec (data_line r) v = Some (1, Vars (s_addr r) (Z.of_nat (length (s_data r))) (splice (data v) 0 (s_data r))).
Proof.
  intros (Hn & Ha & Hd & Hl) Hv. unfold data_line.
  pose proof (data_record_body (s_n r) (s_addr r) (s_data r) v [] Hn Ha Hd ltac:(lia) Hv) as H.
  rewrite app_nil_r in H. unfold procsrec. cbn [app at_ nth drop]. rewrite Z.eqb_refl. cbn [negb].
  assert (s_n r = 2 \/ s_n r = 3 \/ s_n r = 4)%nat as [E|[E|E]] by lia; rewrite E in *; exact H.
Qed.

Lemma procsrec_end n entry v : (2 <= n <= 4)%nat -> 0 <= entry < 256 ^ Z.of_nat n ->
  procsrec (end_line n entry) v = Some (-2, Vars entry (blklen v) (data v)).
Proof.
  intros Hn He. unfold end_line. pose proof (end_record_body n entry v Hn He) as H.
  unfold procsrec. cbn [app at_ nth drop]. rewrite Z.eqb_refl. cbn [negb].
  assert (n = 2 \/ n = 3 \/ n = 4)%nat as [E|[E|E]] by lia; subst n; rewrite <- H; reflexivity.
Qed.

(** * Reading lines *)

(** The bytes of the file that have not been consumed. *)
Definition remaining (f : linebuf_t) : bytes := drop (curidx f) (linebuf f) ++ concat (reads f).

Definition lb_ok (f : linebuf_t) : Prop := eof f = false /\ (curidx f <= length (linebuf f))%nat.

Lemma next_read_spec reads e c t : concat reads = c :: t ->
  exists b r, next_read reads e = Got (c :: b) r /\ b ++ concat r = t.
Proof.
  induction reads as [|[|x b] reads IH]; cbn; [done|done|]. intros [= -> <-]. by exists b, reads.
Qed.

Lemma next_read_end reads e : concat reads = [] -> next_read reads e = match e with AtEof => Forever | AtError => Failed end.
Proof. induction reads as [|[|x b] reads IH]; cbn; [done|done|done]. Qed.

Lemma readchar_spec f c t : lb_ok f -> remaining f = c :: t ->
  exists f', readchar f = Some (schar c, f') /\ lb_ok f' /\ remaining f' = t /\ then_ f' = then_ f.
Proof.
  intros [He Hc] Hr. unfold readchar. rewrite He. destruct (Nat.eqb_spec (curidx f) (length (linebuf f))) as [E|E].
  - unfold remaining in Hr. rewrite E, drop_all in Hr. destruct (next_read_spec _ (then_ f) _ _ Hr) as (b & r & -> & <-).
    eexists. split; [reflexivity|]. split; [split; cbn; lia|]. done.
  - unfold remaining in Hr. destruct (lookup_lt_is_Some_2 (linebuf f) (curidx f) ltac:(lia)) as [x Hx].
    rewrite (drop_S _ _ _ Hx) in Hr. cbn in Hr. injection Hr as -> <-.
    eexists. split; [do 2 f_equal; unfold at_; by rewrite nth_lookup, Hx|]. by split; [split; cbn; [done|lia]|].
Qed.

Lemma readchar_end f : lb_ok f -> remaining f = [] ->
  match then_ f with AtEof => readchar f = None | AtError => exists f', readchar f = Some (-1, f') end.
Proof.
  intros [He Hc] [H1 H2]%app_eq_nil. unfold readchar. rewrite He, next_read_end by done.
  apply (f_equal length) in H1. rewrite length_drop in H1. cbn in H1.
  destruct (Nat.eqb_spec (curidx f) (length (linebuf f))); [|lia]. destruct (then_ f); [done|by eexists].
Qed.

(** A character of a line: not special to [readline]. *)
Definition plain (c : Z) : Prop := 0 <= c < 128 /\ c <> 10 /\ c <> 13 /\ c <> 27.

Lemma readline_loop_spec n f acc line e t :
  lb_ok f -> remaining f = line ++ e :: t -> Forall plain line -> e = 10 \/ e = 13 -> (length line < n)%nat ->
  exists f', readline_loop n f acc = Some (Some (acc ++ line), f') /\ lb_ok f' /\ remaining f' = t /\ then_ f' = then_ f.
Proof.
  intros Hf Hr Hl. revert n f acc Hf Hr.
  induction Hl as [|c line (Hc & H10 & H13 & H27) Hl IH]; intros [|n] f acc Hf Hr He Hn; cbn in Hn; try lia; cbn in *.
  - destruct (readchar_spec f e t Hf Hr) as (f' & -> & Hf' & Hr'). exists f'. rewrite app_nil_r.
    by destruct He as [-> | ->].
  - destruct (readchar_spec f c _ Hf Hr) as (f' & -> & Hf' & Hr' & Ht'). cbn [option_bind].
    unfold schar. rewrite (proj2 (Z.ltb_lt _ _)), !(proj2 (Z.eqb_neq _ _)) by lia. cbn [orb].
    destruct (IH n f' (acc ++ [wrap8 c]) Hf' Hr' He ltac:(lia)) as (f2 & -> & Hf2 & Hr2 & Ht2).
    exists f2. rewrite wrap8_small by lia. rewrite <- app_assoc, Ht2. done.
Qed.

Lemma hexdigit_plain n : 0 <= n < 16 -> plain (hexdigit n).
Proof. intros. unfold hexdigit, plain. change (ch "0"%char) with 48. change (ch "A"%char) with 65. case_test; lia. Qed.

Lemma hexbytes_plain l : Forall byte_ok l -> Forall plain (hexbytes l).
Proof.
  induction 1 as [|b l Hb _ IH]; [constructor|]. rewrite hexbytes_cons. unfold byte_ok in Hb.
  constructor; [|constructor; [|done]]; apply hexdigit_plain.
  - split; [apply Z.div_pos; lia|apply Z.div_lt_upper_bound; lia].
  - apply Z.mod_pos_bound. lia.
Qed.

Lemma body_plain n addr d : Forall byte_ok d -> (n + length d <= 254)%nat -> Forall plain (body n addr d).
Proof.
  intros Hd Hl. unfold body. apply hexbytes_plain. rewrite <- app_comm_cons. constructor; [unfold byte_ok; lia|].
  apply Forall_app. split; [apply Forall_app; split; [apply addr_bytes_ok|done]|].
  constructor; [|constructor]. unfold byte_ok. match goal with |- context [?x mod 256] => pose proof (Z.mod_pos_bound x 256) end. lia.
Qed.

Lemma length_body n addr d : length (body n addr d) = (2 * (n + length d + 2))%nat.
Proof. unfold body. rewrite length_hexbytes, length_app. cbn. rewrite length_app, length_addr_bytes. cbn. lia. Qed.

Lemma data_line_plain r : srec_ok r -> Forall plain (data_line r) /\ (length (data_line r) < 255)%nat /\ at_ (data_line r) 0 <> 0.
Proof.
  intros (Hn & Ha & Hd & Hl). unfold data_line. split; [|split; [|done]].
  - apply Forall_app. split; [|apply body_plain; [done|lia]].
    repeat constructor; change (ch "S"%char) with 83; change (ch "0"%char) with 48; lia.
  - rewrite length_app, length_body. cbn. lia.
Qed.

Lemma end_line_plain n entry : (2 <= n <= 4)%nat -> Forall plain (end_line n entry) /\ (length (end_line n entry) < 255)%nat /\ at_ (end_line n entry) 0 <> 0.
Proof.
  intros Hn. unfold end_line. split; [|split; [|done]].
  - apply Forall_app. split; [|apply body_plain; [done|cbn; lia]].
    repeat constructor; change (ch "S"%char) with 83; change (ch "9"%char) with 57; lia.
  - rewrite length_app, length_body. cbn. lia.
Qed.

(** * Loading a file that was written *)

Definition eols : list bytes := [[10]; [13]; [13; 10]].

Definition srec_file (rs : list srec) (n : nat) (entry : Z) (eol : bytes) : bytes :=
  concat (map (fun r => data_line r ++ eol) rs) ++ end_line n entry ++ eol.

(** Where a record goes: to its address, or relative to the first record's. *)
Definition target (la : cfe_loadargs) (base : Z) (r : srec) : Z :=
  if la_specaddr la then wrap32 (la_address la + wrap32 (s_addr r - base)) else s_addr r.

Definition first_addr (rs : list srec) : Z := match rs with [] => 0 | r :: _ => s_addr r end.

Section roundtrip.
Context (la : cfe_loadargs) (a : arena_t) (n : nat) (entry : Z) (eol : bytes) (base : Z).
Hypothesis Hn : (2 <= n <= 4)%nat.
Hypothesis He : 0 <= entry < 256 ^ Z.of_nat n.
Hypothesis Heol : eol ∈ eols.

(** One line and its end, which may leave a line feed behind. *)
Lemma load_line_step fuel s line t : lb_ok (lb s) -> remaining (lb s) = line ++ eol ++ t -> Forall plain line ->
  (length line < 255)%nat ->
  exists f t', (t' = t \/ t' = 10 :: t) /\ lb_ok f /\ remaining f = t' /\
  load_loop la a (S fuel) s =
    match load_line la a line (Ls f (vars s) (cnt s) (specaddr s) (firstrec s) (stores s)) with
    | inl o => o
    | inr s => load_loop la a fuel s
    end.
Proof.
  intros Hf Hr Hp Hl. cbn [load_loop]. unfold readline. change (256 - 1)%nat with 255%nat.
  unfold eols in Heol. rewrite !elem_of_cons, elem_of_nil in Heol. destruct Heol as [->|[->|[->|[]]]]; cbn [app] in Hr.
  - destruct (readline_loop_spec 255 (lb s) [] line 10 t Hf Hr Hp (or_introl eq_refl) Hl) as (f & -> & Hf' & Hr' & _).
    exists f, t. split; [by left|done].
  - destruct (readline_loop_spec 255 (lb s) [] line 13 t Hf Hr Hp (or_intror eq_refl) Hl) as (f & -> & Hf' & Hr' & _).
    exists f, t. split; [by left|done].
  - destruct (readline_loop_spec 255 (lb s) [] line 13 _ Hf Hr Hp (or_intror eq_refl) Hl) as (f & -> & Hf' & Hr' & _).
    exists f, (10 :: t). split; [by right|done].
Qed.

(** A line feed that was left behind is an empty line. *)
Lemma load_skip fuel s t : lb_ok (lb s) -> remaining (lb s) = 10 :: t ->
  exists f, lb_ok f /\ remaining f = t /\
    load_loop la a (S fuel) s = load_loop la a fuel (Ls f (vars s) (cnt s) (specaddr s) (firstrec s) (stores s)).
Proof.
  intros Hf Hr. destruct (readline_loop_spec 255 (lb s) [] [] 10 t Hf Hr ltac:(constructor) (or_introl eq_refl) ltac:(cbn; lia))
    as (f & H & Hf' & Hr' & _). exists f. split; [done|]. split; [done|]. cbn [load_loop]. unfold readline.
  change (256 - 1)%nat with 255%nat. by rewrite H.
Qed.

(** What the special-address mode remembers between records. *)
Definition base_ok (s : load_state) (rs : list srec) : Prop :=
  if firstrec s then match rs with [] => True | r :: _ => s_addr r = base end else specaddr s = base.

Lemma load_line_data r rs s : srec_ok r -> length (data (vars s)) = 256%nat ->
  (la_specaddr la = true -> base_ok s (r :: rs)) ->
  cfe_arena_loadcheck a (target la base r) (Z.of_nat (length (s_data r))) = true ->
  exists s', load_line la a (data_line r) s = inr s' /\ lb s' = lb s /\ length (data (vars s')) = 256%nat /\
    (la_specaddr la = true -> forall rs, base_ok s' rs) /\
    stores s' = stores s ++ [(target la base r, s_data r)].
Proof.
  intros Hr Hd Hb Hc. unfold load_line. destruct (data_line_plain r Hr) as (_ & _ & H0).
  rewrite (proj2 (Z.eqb_neq _ _)) by done. rewrite procsrec_data by done.
  destruct Hr as (_ & _ & _ & Hl). assert (Hs : length (splice (data (vars s)) 0 (s_data r)) = 256%nat)
    by (rewrite length_splice; lia).
  assert (Ht : take (Z.to_nat (Z.of_nat (length (s_data r)))) (splice (data (vars s)) 0 (s_data r)) = s_data r).
  { rewrite Nat2Z.id. unfold splice. rewrite take_0. cbn. by rewrite take_app_length. }
  unfold target, base_ok in *. change (1 <? 0) with false. cbn [negb]. rewrite Z.eqb_refl.
  destruct (la_specaddr la); cbn [andb vars loadaddr blklen data firstrec specaddr lb cnt stores] in *.
  - assert (Hbase : (if firstrec s then s_addr r else specaddr s) = base) by (specialize (Hb eq_refl); by destruct (firstrec s)).
    rewrite Hbase, Hc, Ht. cbn [negb]. eexists. split; [done|]. cbn. done.
  - rewrite Hc, Ht. cbn [negb]. eexists. split; [done|]. cbn. done.
Qed.

Lemma load_line_end s : load_line la a (end_line n entry) s = inl (Loaded 0 (Some entry) (stores s)).
Proof.
  unfold load_line. destruct (end_line_plain n entry Hn) as (_ & _ & H0).
  rewrite (proj2 (Z.eqb_neq _ _)) by done. by rewrite procsrec_end.
Qed.

Lemma load_loop_file rs s fuel :
  Forall srec_ok rs ->
  Forall (fun r => cfe_arena_loadcheck a (target la base r) (Z.of_nat (length (s_data r))) = true) rs ->
  lb_ok (lb s) -> remaining (lb s) = srec_file rs n entry eol ->
  length (data (vars s)) = 256%nat -> (la_specaddr la = true -> base_ok s rs) ->
  (2 * length rs < fuel)%nat ->
  load_loop la a fuel s =
  Loaded 0 (Some entry) (stores s ++ map (fun r => (target la base r, s_data r)) rs).
Proof.
  intros Hrs. revert s fuel. induction Hrs as [|r rs Hr Hrs IH]; intros s fuel Hc Hf Hrem Hd Hb Hfuel;
    cbn [length map] in *; (destruct fuel as [|fuel]; [lia|]); unfold srec_file in Hrem; cbn [map concat app] in Hrem.
  - rewrite <- (app_nil_r eol) in Hrem. destruct (end_line_plain n entry Hn) as (Hp & Hl & _).
    destruct (load_line_step fuel s _ [] Hf Hrem Hp Hl) as (f & t' & _ & _ & _ & ->).
    by rewrite load_line_end, app_nil_r.
  - apply Forall_cons in Hc as [Hc Hcs]. destruct (data_line_plain r Hr) as (Hp & Hl & _).
    rewrite <- !app_assoc in Hrem. fold (srec_file rs n entry eol) in Hrem.
    destruct (load_line_step fuel s _ _ Hf Hrem Hp Hl) as (f & t' & Ht & Hf' & Hrem' & ->).
    set (s0 := Ls f _ _ _ _ _).
    destruct (load_line_data r rs s0 Hr Hd Hb Hc) as (s' & -> & Hlb & Hd' & Hb' & Hst).
    cbn [lb s0 stores] in Hlb, Hst.
    rewrite <- Hlb in Hf', Hrem'. destruct Ht as [->| ->].
    + rewrite (IH s' fuel Hcs Hf' Hrem' Hd' (fun E => Hb' E rs)) by lia. by rewrite Hst, <- app_assoc.
    + destruct fuel as [|fuel]; [lia|]. destruct (load_skip fuel s' _ Hf' Hrem') as (f2 & Hf2 & Hrem2 & ->).
      rewrite IH; cbn [lb vars stores]; try done; [by rewrite Hst, <- app_assoc|intros E; exact (Hb' E rs)|lia].
Qed.
End roundtrip.

(** * Safety *)

Lemma getb_range line : 0 <= (getb line).1 < 256.
Proof. unfold getb. destruct (getbyte line) as [r l]. apply wrap8_range. Qed.

(** A data loop that comes back stored all its bytes inside the buffer. *)
Lemma data_loop_inside room idx len line d c r : 0 <= idx ->
  data_loop room idx len line d c = Some r -> (Z.to_nat idx + room = length d)%nat ->
  len <= Z.of_nat (length d) \/ len <= idx.
Proof.
  revert idx line d c. induction room as [|room IH]; intros idx line d c Hi H Hl; cbn in H.
  - destruct (Z.leb_spec len idx); [by right|done].
  - destruct (Z.leb_spec len idx) as [|Hlt]; [by right|left]. destruct (getb line) as [b l].
    assert (Hs : length (splice d (Z.to_nat idx) [b]) = length d) by (apply length_splice; cbn; lia).
    destruct (IH (idx + 1) _ _ _ ltac:(lia) H ltac:(lia)) as [H1|H1]; lia.
Qed.

Lemma data_loop_length room idx len line d c l' d' c' : 0 <= idx ->
  data_loop room idx len line d c = Some (l', d', c') -> (Z.to_nat idx + room = length d)%nat ->
  length d' = length d.
Proof.
  revert idx line d c. induction room as [|room IH]; intros idx line d c Hi H Hl; cbn in H.
  - destruct (len <=? idx); [congruence|done].
  - destruct (len <=? idx); [congruence|]. destruct (getb line) as [b l].
    assert (Hs : length (splice d (Z.to_nat idx) [b]) = length d) by (apply length_splice; cbn; lia).
    by rewrite (IH (idx + 1) _ _ _ ltac:(lia) H) by lia.
Qed.

(** The caller's variables between records. *)
Definition vars_ok (v : srec_vars) : Prop := length (data v) = 256%nat.

(** A data record the loader is going to store. *)
Definition record_ok (v : srec_vars) : Prop :=
  vars_ok v /\ 0 <= loadaddr v < 2 ^ 32 /\ 0 <= blklen v <= 256.

Lemma addr_iter_range n st : (0 < n)%nat -> 0 <= (Nat.iter n addr_byte st).1.2 < 2 ^ 32.
Proof.
  destruct n as [|n]; [lia|]. intros _. cbn [Nat.iter nat_rect]. unfold Nat.iter.
  destruct (nat_rect _ _ _ _) as [[l x] c]. cbn. destruct (getb l) as [b l']. cbn. apply wrap32_range.
Qed.

Lemma data_record_safe line n v r v' : (0 < n)%nat -> vars_ok v -> data_record line n v = Some (r, v') ->
  vars_ok v' /\ (r = 1 -> record_ok v').
Proof.
  intros Hn Hv H. unfold data_record in H. destruct (getbyte line) as [ll l1].
  destruct (_ <? _); [by simplify_eq|].
  pose proof (addr_iter_range n (l1, 0, wrap32 ll) Hn) as Ha.
  destruct (Nat.iter n addr_byte (l1, 0, wrap32 ll)) as [[l2 addr] c]. cbn in Ha.
  destruct (data_loop _ _ _ _ _ _) as [[[l3 d] c2]|] eqn:Ed; [|done].
  pose proof (data_loop_inside 256 0 _ _ _ _ _ ltac:(lia) Ed ltac:(by rewrite Hv)) as Hin.
  pose proof (data_loop_length 256 0 _ _ _ _ _ _ _ ltac:(lia) Ed ltac:(by rewrite Hv)) as Hlen.
  rewrite Hv in *. pose proof (wrap32_range (wrap32 ll - (Z.of_nat n + 1))).
  destruct (getb l3) as [b l4]. destruct (negb _); simplify_eq; (split; [done|]); [done|].
  intros _. split; [done|]. cbn. lia.
Qed.

Lemma procsrec_safe line v r v' : vars_ok v -> procsrec line v = Some (r, v') ->
  vars_ok v' /\ (r = 1 -> record_ok v').
Proof.
  intros Hv H. unfold procsrec in H.
  repeat match type of H with (if ?c then _ else _) = _ => destruct c end;
    try (by eapply data_record_safe; [| |exact H]; [lia|]); try (by simplify_eq);
    unfold end_record in H; destruct (getbyte _) as [? ?]; destruct (Nat.iter _ _ _) as [[? ?] ?]; by simplify_eq.
Qed.

Definition outcome_stores (o : outcome) : list (Z * bytes) :=
  match o with Loaded _ _ st => st | Overrun st => st | Waiting st => st | Running => [] end.

(** What the check of the loader lets through. *)
Definition store_ok (a : arena_t) (st : Z * bytes) : Prop :=
  0 <= st.1 < 2 ^ 32 /\ cfe_arena_loadcheck a st.1 (Z.of_nat (length st.2)) = true.

Lemma load_line_safe la a line s : vars_ok (vars s) -> Forall (store_ok a) (stores s) ->
  match load_line la a line s with
  | inl o => o <> Running /\ (forall st, o <> Waiting st) /\ Forall (store_ok a) (outcome_stores o)
  | inr s' => lb s' = lb s /\ vars_ok (vars s') /\ Forall (store_ok a) (stores s')
  end.
Proof.
  intros Hv Hs. unfold load_line. destruct (_ =? 0); [done|].
  destruct (procsrec line (vars s)) as [[res v]|] eqn:Ep; [|done].
  destruct (procsrec_safe _ _ _ _ Hv Ep) as [Hv' Hrec].
  assert (Hend : forall res s, Forall (store_ok a) (stores s) ->
    load_end res s <> Running /\ (forall st, load_end res s <> Waiting st) /\ Forall (store_ok a) (outcome_stores (load_end res s)))
    by (intros res' s' ?; unfold load_end; by destruct (_ =? _)).
  destruct (res <? 0); [by apply Hend|]. destruct (res =? 1) eqn:E1; bool_simpl; cbn [andb]; [|done].
  destruct (Hrec E1) as (_ & Hla & Hbl).
  assert (Hlen : forall x, length (take (Z.to_nat (blklen v)) (data v)) = x -> Z.of_nat x = blklen v)
    by (intros x <-; rewrite length_take, Hv'; lia).
  assert (Hst : forall ad, 0 <= ad < 2 ^ 32 -> cfe_arena_loadcheck a ad (blklen v) = true ->
    Forall (store_ok a) (stores s ++ [(ad, take (Z.to_nat (blklen v)) (data v))])).
  { intros ad Had Hc. apply Forall_app. split; [done|]. constructor; [|constructor]. split; [done|].
    cbn [fst snd]. by rewrite (Hlen _ eq_refl). }
  destruct (la_specaddr la); cbn [vars loadaddr blklen data stores];
    (destruct (cfe_arena_loadcheck _ _ _) eqn:Ec; cbn [negb]; [|by apply Hend]);
    (split; [done|]); (split; [done|]); (apply Hst; [|done]); [apply wrap32_range|done].
Qed.

(** A line takes at least one byte of the file. *)
Lemma readline_loop_progress n f acc line f' : lb_ok f -> Forall byte_ok (remaining f) ->
  readline_loop n f acc = Some (Some line, f') ->
  lb_ok f' /\ then_ f' = then_ f /\ Forall byte_ok (remaining f') /\ (length (remaining f') <= length (remaining f))%nat /\
  ((0 < n)%nat -> (length (remaining f') < length (remaining f))%nat).
Proof.
  revert f acc. induction n as [|n IH]; intros f acc Hf Hb H; cbn in H.
  { injection H as _ <-. do 3 (split; [done|]). lia. }
  destruct (remaining f) as [|c t] eqn:Er.
  { pose proof (readchar_end f Hf Er) as He. destruct (then_ f); [by rewrite He in H|]. destruct He as [f1 He]. by rewrite He in H. }
  destruct (readchar_spec f c t Hf Er) as (f1 & Hrc & Hf1 & Hr1 & Ht1). rewrite Hrc in H. cbn [option_bind] in H.
  apply Forall_cons in Hb as [_ Hb]. destruct (_ || _); [done|]. destruct (_ || _).
  - injection H as _ <-. rewrite Hr1. do 3 (split; [done|]). cbn. lia.
  - rewrite <- Hr1 in Hb. destruct (IH _ _ Hf1 Hb H) as (H1 & Ht & H2 & H3 & _). rewrite Hr1 in H3.
    split; [done|]. split; [congruence|]. split; [done|]. cbn. lia.
Qed.

(** Only the end of a file makes a line wait. *)
Lemma readline_loop_waits n f acc : lb_ok f -> readline_loop n f acc = None -> then_ f = AtEof.
Proof.
  revert f acc. induction n as [|n IH]; intros f acc Hf H; cbn in H; [done|].
  destruct (remaining f) as [|c t] eqn:Er.
  { pose proof (readchar_end f Hf Er) as He. destruct (then_ f); [done|]. destruct He as [f1 He]. by rewrite He in H. }
  destruct (readchar_spec f c t Hf Er) as (f1 & Hrc & Hf1 & Hr1 & Ht1). rewrite Hrc in H. cbn [option_bind] in H.
  destruct (_ || _); [done|]. destruct (_ || _); [done|]. rewrite <- Ht1. by eapply IH.
Qed.

Lemma load_loop_safe la a fuel s : lb_ok (lb s) -> Forall byte_ok (remaining (lb s)) ->
  vars_ok (vars s) -> Forall (store_ok a) (stores s) -> (length (remaining (lb s)) < fuel)%nat ->
  load_loop la a fuel s <> Running /\ (forall st, load_loop la a fuel s = Waiting st -> then_ (lb s) = AtEof) /\
  Forall (store_ok a) (outcome_stores (load_loop la a fuel s)).
Proof.
  revert s. induction fuel as [|fuel IH]; intros s Hf Hb Hv Hs Hfuel; [lia|]. cbn [load_loop].
  destruct (readline (lb s) 256) as [[[line|] f]|] eqn:Er; unfold readline in Er; [|done|].
  2:{ split; [done|]. split; [|done]. intros _ _. by eapply readline_loop_waits. }
  destruct (readline_loop_progress _ _ _ _ _ Hf Hb Er) as (Hf' & Ht' & Hb' & _ & Hlt). specialize (Hlt ltac:(lia)).
  pose proof (load_line_safe la a line (Ls f (vars s) (cnt s) (specaddr s) (firstrec s) (stores s)) Hv Hs) as Hl.
  destruct (load_line _ _ _ _) as [o|s']; [destruct Hl as (? & Hw & ?); split; [done|]; split; [by intros st ->; destruct (Hw st)|done]|].
  destruct Hl as (Hlb & Hv' & Hs'). cbn in Hlb. rewrite <- Ht', <- Hlb.
  apply IH; rewrite ?Hlb; try done. lia.
Qed.

(** C34 The loader is the inverse of the S-record writer: a file of data records and an end
    record, whatever their address widths, with lines ended by LF, CR or both, and however
    the reads cut it up, is loaded completely: every record's bytes are stored at its
    address (in special-address mode relative to the first record, at the caller's address),
    in order, and the entry point is the one of the end record; if every target passes the loader's check of
    addresses, and whatever the file layer gives after the file. *)
Theorem srec_roundtrip la a rs n entry eol reads e v fuel :
  Forall srec_ok rs -> (2 <= n <= 4)%nat -> 0 <= entry < 256 ^ Z.of_nat n -> eol ∈ eols ->
  concat reads = srec_file rs n entry eol ->
  Forall (fun r => cfe_arena_loadcheck a (target la (first_addr rs) r) (Z.of_nat (length (s_data r))) = true) rs ->
  length (data v) = 256%nat -> (2 * length rs < fuel)%nat ->
  cfe_srecload la a fuel (0, 0, 0) false reads e v =
  Loaded 0 (Some entry) (map (fun r => (target la (first_addr rs) r, s_data r)) rs).
Proof.
  intros Hrs Hn He Heol Hreads Hc Hv Hfuel. unfold cfe_srecload. cbn [negb andb Z.eqb].
  apply (load_loop_file la a n entry eol (first_addr rs) Hn He Heol rs); try done.
  intros _. by destruct rs.
Qed.

(** C5 No file can make the loader overwrite the firmware: for any contents whatever, cut into reads in any way,
    each of the loader's stores lies in the boot area or in installed
    memory clear of the firmware and the boot ROM, unless it is empty or runs over the end of the address space.
    After a last read that fails the loader always returns; it also does at the end of a file, unless it comes
    there looking for more text: then it reads on for ever, since the code takes 0, the result of reading at the
    end, for a reason to try again.
    (With a count that is not hexadecimal it also overruns its own buffer.) *)
Theorem srecload_safe room tot bot top la reads e v :
  (9 <= room)%nat -> 0 <= tot <= 2 ^ 22 -> memlo bot < memhi top ->
  Forall (Forall byte_ok) reads -> length (data v) = 256%nat ->
  exists room' a, cfe_arena_init room tot bot top = Some (room', a) /\
    let o := cfe_srecload la a (S (length (concat reads))) (0, 0, 0) false reads e v in
    o <> Running /\ (forall st, o = Waiting st -> e = AtEof) /\
    Forall (fun st => st.2 = [] \/ 2 ^ 32 <= st.1 + Z.of_nat (length st.2) \/
                      loadable tot bot top st.1 (Z.of_nat (length st.2))) (outcome_stores o).
Proof.
  intros Hr Htot Hlt Hb Hv. destruct (firmware_map room tot bot top Hr Htot Hlt) as (room' & a & Ha & _ & _ & _ & Hc).
  exists room', a. split; [done|]. cbn zeta.
  destruct (load_loop_safe la a (S (length (concat reads))) (Ls (initlinebuf reads e) v 0 0 true [])) as (Ho & Hw & Hst).
  - split; cbn; [done|lia].
  - cbn. by apply Forall_concat.
  - done.
  - constructor.
  - cbn. lia.
  - split; [exact Ho|]. split; [exact Hw|]. eapply Forall_impl; [exact Hst|]. intros [ad d] [Had Hchk]. cbn [fst snd] in *.
    destruct d as [|b d]; [by left|right]. destruct (Z.le_gt_cases (2 ^ 32) (ad + Z.of_nat (length (b :: d)))) as [|Hw']; [by left|right].
    apply Hc; [lia|cbn; lia|lia|done].
Qed.

(** * Flaws *)

(** A count that is not hexadecimal reads as 2 ^ 32 - 1 and passes the length test; the data
    loop then writes behind the loader's buffer. *)
Lemma bad_count_overruns a :
  cfe_srecload (La false 0) a 2 (0, 0, 0) false [str "S1zz"%string ++ [10]] AtEof (Vars 0 0 (replicate 256 0)) = Overrun [].
Proof. vm_compute. reflexivity. Qed.

(** A file that stops before its end record, or only lacks the last line feed, makes the loader wait for ever. *)
Lemma no_end_record_waits a :
  cfe_srecload (La false 0) a 3 (0, 0, 0) false [str "S00000"%string ++ [10]] AtEof (Vars 0 0 (replicate 256 0)) = Waiting [] /\
  cfe_srecload (La false 0) a 3 (0, 0, 0) false [end_line 2 0] AtEof (Vars 0 0 (replicate 256 0)) = Waiting [].
Proof. vm_compute. done. Qed.

(** * Instances of the properties *)

Definition ex_recs : list srec := [Srec 2 0x1000 [1; 2; 0xff]; Srec 4 0x80002000 (str "hello"%string)].

Lemma ex_recs_ok : Forall srec_ok ex_recs.
Proof.
  unfold ex_recs. apply Forall_cons; split; [|apply Forall_cons; split; [|apply Forall_nil; exact Logic.I]];
    (split; [cbn; lia|]; split; [cbn; lia|]; split; [|cbn; lia]);
    apply (bool_decide_unpack _); vm_compute; exact Logic.I.
Qed.

Definition ex_arena : arena_t := Arena [An 0 0x10000 1 (Some 0); An 0x10000 0xffff0000 2 None] 0 0x100000000.

Lemma srec_roundtrip_witness :
  cfe_srecload (La false 0) ex_arena 8 (0, 0, 0) false
    [take 20 (srec_file ex_recs 4 0x80001000 [13; 10]); []; drop 20 (srec_file ex_recs 4 0x80001000 [13; 10])]
    AtEof (Vars 0 0 (replicate 256 0)) =
  Loaded 0 (Some 0x80001000) [(0x1000, [1; 2; 0xff]); (0x80002000, str "hello"%string)].
Proof.
  apply (srec_roundtrip (La false 0) ex_arena ex_recs 4 0x80001000 [13; 10]).
  - exact ex_recs_ok.
  - lia.
  - lia.
  - apply (bool_decide_unpack _). vm_compute. exact Logic.I.
  - vm_compute. reflexivity.
  - apply (bool_decide_unpack _). vm_compute. exact Logic.I.
  - reflexivity.
  - cbn. lia.
Defined.

(** A record aimed at the firmware is refused, the one before it is stored. *)
Lemma srecload_safe_witness :
  exists room' a, cfe_arena_init 9 (16 * 1024) 0x80700000 0x80800000 = Some (room', a) /\
    Forall (fun st => st.2 = [] \/ 2 ^ 32 <= st.1 + Z.of_nat (length st.2) \/
                      loadable (16 * 1024) 0x80700000 0x80800000 st.1 (Z.of_nat (length st.2)))
      (outcome_stores (cfe_srecload (La false 0) a 42 (0, 0, 0) false
        [srec_file [Srec 2 0x1000 [1]; Srec 4 0x80700000 [2]] 2 0 [10]] AtEof (Vars 0 0 (replicate 256 0)))).
Proof.
  destruct (srecload_safe 9 (16 * 1024) 0x80700000 0x80800000 (La false 0)
    [srec_file [Srec 2 0x1000 [1]; Srec 4 0x80700000 [2]] 2 0 [10]] AtEof (Vars 0 0 (replicate 256 0))) as (room' & a & Ha & _ & _ & Hs).
  - lia.
  - lia.
  - vm_compute. reflexivity.
  - apply (bool_decide_unpack _). vm_compute. exact Logic.I.
  - reflexivity.
  - exists room', a. split; [exact Ha|]. exact Hs.
Defined.
