(* ===== verification/Dma.v ===== *)
(** The DMA engine library of the wireless and Ethernet drivers: shared/hnddma.c with the
    register layout of include/sbhnddma.h, for the 32-bit engine (the tree is built without
    BCMDMA64).

    A transmit ring and a receive ring of descriptors are shared with the chip, which only
    reads them; what the chip says about its progress is the status register, an argument
    of the operations that read it.  The rings are shown to be queues. *)

From S2P Require Import Prelude.
From Stdlib Require Import ZArith Lia Bool List.
From stdpp Require Import base numbers list gmap.

#[local] Open Scope Z_scope.

(** * Descriptors *)

Definition CTRL_BC_MASK := 0x1fff.
Definition CTRL_AE_SHIFT := 16.
Definition CTRL_EOT := Z.shiftl 1 28.
Definition CTRL_IOC := Z.shiftl 1 29.
Definition CTRL_EOF := Z.shiftl 1 30.
Definition CTRL_SOF := Z.shiftl 1 31.
Definition XS_CD_MASK := 0x0fff.
Definition RS_CD_MASK := 0x0fff.
Definition XS_AD_MASK := 0xfff00000.
Definition XS_AD_SHIFT := 20.
Definition PCI32ADDR_HIGH := 0xc0000000.
Definition PCI32ADDR_HIGH_SHIFT := 30.
Definition SB_PCI_DMA := 0x40000000.

Record dma32dd := Dd { d_ctrl : Z; d_addr : Z }.
Definition sizeof_dd := 8.

(** [XXD]: the index of a descriptor, for a ring of [n], a power of two; [B2I] and [I2B]
    convert between byte offsets and indexes. *)
Definition XXD (x n : Z) : Z := Z.land (wrap32 x) (n - 1).
Definition B2I (b : Z) : Z := b / sizeof_dd.
Definition I2B (i : Z) : Z := i * sizeof_dd.

(** A packet: the handle of its first buffer, and for each buffer of the chain the physical
    address [DMA_MAP] gives for its data, and its length. *)
Record packet := Pkt { p_id : Z; p_bufs : list (Z * Z) }.

(** The transmit side of [dma_info_t], the engine's registers, and the packets freed. *)
Record dma_tx := Tx {
  ntxd : Z;
  txin : Z;
  txout : Z;
  txd32 : list dma32dd;
  txp : list (option Z);
  txavail : Z;
  txnobuf : Z;
  tx_control : Z;
  tx_ptr : Z;
  tx_addr : Z;
  tx_freed : list Z
}.

Definition TXD (t : dma_tx) (x : Z) : Z := XXD x (ntxd t).
Definition NEXTTXD (t : dma_tx) (i : Z) : Z := TXD t (i + 1).
Definition PREVTXD (t : dma_tx) (i : Z) : Z := TXD t (i - 1).
Definition NTXDACTIVE (t : dma_tx) : Z := TXD t (txout t - txin t).

Definition flow_control (t : dma_tx) : Z := ntxd t - NTXDACTIVE t - 1.

Section dd_upd.
(** The offset from physical to bus addresses, and whether the engine knows the address
    extension. *)
Context (dataoffsetlow : Z) (addrext : bool).

(** The descriptor and the flags written for a buffer. *)
Definition dd_val (pa flags bufcount : Z) : option (dma32dd * Z) :=
  let flags := Z.lor flags (Z.land bufcount CTRL_BC_MASK) in
  if negb (dataoffsetlow =? SB_PCI_DMA) || negb (truthy (Z.land pa PCI32ADDR_HIGH))
  then Some (Dd flags (wrap32 (pa + dataoffsetlow)), flags)
  else
    assert! addrext in
    let ae := Z.shiftr (Z.land pa PCI32ADDR_HIGH) PCI32ADDR_HIGH_SHIFT in
    let pa := Z.ldiff pa PCI32ADDR_HIGH in
    let flags := Z.lor flags (Z.shiftl ae CTRL_AE_SHIFT) in
    Some (Dd flags (wrap32 (pa + dataoffsetlow)), flags).

Definition dma32_dd_upd (ring : list dma32dd) (pa outidx flags bufcount : Z) : option (list dma32dd * Z) :=
  let? (d, flags) := dd_val pa flags bufcount in
  assert! (outidx <? Z.of_nat (length ring)) in
  Some (<[Z.to_nat outidx := d]> ring, flags).

(** * Transmitting *)

Definition XC_XE := Z.shiftl 1 0.
Definition XC_SE := Z.shiftl 1 1.

Definition XC_AE := Z.shiftl 3 16.
Definition XC_AE_SHIFT := 16.

(** [dma32_txinit] with the table at [dpa]: its [_dma_ddtable_init] writes the address
    register and, on PCI, the address extension bits. *)
Definition dma_ddtable_init (ddoffsetlow pa control : Z) : option (Z * Z) :=
  if negb (ddoffsetlow =? SB_PCI_DMA) || negb (truthy (Z.land pa PCI32ADDR_HIGH))
  then Some (wrap32 (pa + ddoffsetlow), control)
  else
    assert! addrext in
    let ae := Z.shiftr (Z.land pa PCI32ADDR_HIGH) PCI32ADDR_HIGH_SHIFT in
    let pa := Z.ldiff pa PCI32ADDR_HIGH in
    Some (wrap32 (pa + ddoffsetlow), Z.lor (Z.ldiff control XC_AE) (Z.shiftl ae XC_AE_SHIFT)).

Definition dma32_txinit (ddoffsetlow dpa : Z) (t : dma_tx) : option dma_tx :=
  if ntxd t =? 0 then Some t
  else
    let? (addr, control) := dma_ddtable_init ddoffsetlow dpa XC_XE in
    Some (Tx (ntxd t) 0 0 (map (fun _ => Dd 0 0) (txd32 t)) (txp t) (ntxd t - 1) (txnobuf t) control (tx_ptr t) addr
            (tx_freed t)).

Definition dma32_txenabled (t : dma_tx) : bool :=
  negb (tx_control t =? 0xffffffff) && truthy (Z.land (tx_control t) XC_XE).
Definition set_control (t : dma_tx) (c : Z) : dma_tx :=
  Tx (ntxd t) (txin t) (txout t) (txd32 t) (txp t) (txavail t) (txnobuf t) c (tx_ptr t) (tx_addr t) (tx_freed t).
Definition dma32_txsuspend (t : dma_tx) : dma_tx :=
  if ntxd t =? 0 then t else set_control t (Z.lor (tx_control t) XC_SE).
Definition dma32_txresume (t : dma_tx) : dma_tx :=
  if ntxd t =? 0 then t else set_control t (Z.ldiff (tx_control t) XC_SE).
Definition dma32_txsuspended (t : dma_tx) : bool :=
  (ntxd t =? 0) || (Z.land (tx_control t) XC_SE =? XC_SE).

Definition set_txavail (t : dma_tx) (n : Z) : dma_tx :=
  Tx (ntxd t) (txin t) (txout t) (txd32 t) (txp t) n (txnobuf t) (tx_control t) (tx_ptr t) (tx_addr t) (tx_freed t).
Definition dma_txblock (t : dma_tx) : dma_tx := set_txavail t 0.
Definition dma_txunblock (t : dma_tx) : dma_tx := set_txavail t (flow_control t).
Definition dma_txactive (t : dma_tx) : Z := NTXDACTIVE t.

(** The walk over the chain of buffers: the ring, and unless the descriptors ran out, the
    next index and the flags of the last descriptor.  [first] tells the head of the chain. *)
Fixpoint tx_loop (t : dma_tx) (bufs : list (Z * Z)) (first : bool) (txout flags : Z) (ring : list dma32dd)
    : option (option (Z * Z) * list dma32dd) :=
  match bufs with
  | [] => Some (Some (txout, flags), ring)
  | (pa, len) :: next =>
      if NEXTTXD t txout =? txin t then Some (None, ring)
      else if len =? 0 then tx_loop t next false txout flags ring
      else
        let flags := if first then CTRL_SOF else 0 in
        let flags := match next with [] => Z.lor flags (Z.lor CTRL_IOC CTRL_EOF) | _ => flags end in
        let flags := if txout =? ntxd t - 1 then Z.lor flags CTRL_EOT else flags in
        let? (ring, flags) := dma32_dd_upd ring pa txout flags len in
        assert! bool_decide (txp t !! Z.to_nat txout = Some None) in
        tx_loop t next false (NEXTTXD t txout) flags ring
  end.

Definition dma32_txfast (t : dma_tx) (p : packet) (commit : bool) : option (Z * dma_tx) :=
  let? (r, ring) := tx_loop t (p_bufs p) true (txout t) 0 (txd32 t) in
  match r with
  | None =>
      Some (-1, Tx (ntxd t) (txin t) (txout t) ring (txp t) 0 (txnobuf t + 1) (tx_control t) (tx_ptr t) (tx_addr t)
                  (tx_freed t ++ [p_id p]))
  | Some (out, flags) =>
      let last := PREVTXD t out in
      let? ring :=
        if truthy (Z.land flags CTRL_EOF) then Some ring
        else
          let? d := ring !! Z.to_nat last in
          Some (<[Z.to_nat last := Dd (Z.lor flags (Z.lor CTRL_IOC CTRL_EOF)) (d_addr d)]> ring) in
      assert! (last <? Z.of_nat (length (txp t))) in
      let t := Tx (ntxd t) (txin t) out ring (<[Z.to_nat last := Some (p_id p)]> (txp t)) (txavail t) (txnobuf t)
                 (tx_control t) (if commit then I2B out else tx_ptr t) (tx_addr t) (tx_freed t) in
      Some (0, set_txavail t (flow_control t))
  end.

(** The walk that reclaims descriptors up to [end_] or the first one with a packet. *)
Fixpoint reclaim_loop (fuel : nat) (t : dma_tx) (i end_ : Z) : option (Z * option Z * dma_tx) :=
  match fuel with
  | O => None
  | S fuel =>
      if i =? end_ then Some (i, None, t)
      else
        let? d := txd32 t !! Z.to_nat i in
        let? p := txp t !! Z.to_nat i in
        let t := Tx (ntxd t) (txin t) (txout t) (<[Z.to_nat i := Dd (d_ctrl d) 0xdeadbeef]> (txd32 t))
                   (<[Z.to_nat i := None]> (txp t)) (txavail t) (txnobuf t) (tx_control t) (tx_ptr t) (tx_addr t) (tx_freed t) in
        match p with
        | Some _ => Some (NEXTTXD t i, p, t)
        | None => reclaim_loop fuel t (NEXTTXD t i) end_
        end
  end.

(** [status] is what the status register reads. *)
Definition dma32_getnexttxp (t : dma_tx) (status : Z) (forceall : bool) : option (option Z * dma_tx) :=
  if ntxd t =? 0 then Some (None, t)
  else
    let end_ := if forceall then txout t else B2I (Z.land status XS_CD_MASK) in
    if (txin t =? 0) && (txout t <? end_) then Some (None, t)
    else
      let? (i, p, t) := reclaim_loop (S (Z.to_nat (ntxd t))) t (txin t) end_ in
      let t := Tx (ntxd t) i (txout t) (txd32 t) (txp t) (txavail t) (txnobuf t) (tx_control t) (tx_ptr t) (tx_addr t) (tx_freed t) in
      Some (p, set_txavail t (flow_control t)).

(** [while ((p = dma32_getnexttxp(di, forceall))) PKTFREE(p)], the status read each time. *)
Fixpoint dma32_txreclaim (fuel : nat) (t : dma_tx) (status : Z) (forceall : bool) : option dma_tx :=
  match fuel with
  | O => None
  | S fuel =>
      let? (p, t) := dma32_getnexttxp t status forceall in
      match p with
      | None => Some t
      | Some p =>
          dma32_txreclaim fuel
            (Tx (ntxd t) (txin t) (txout t) (txd32 t) (txp t) (txavail t) (txnobuf t) (tx_control t) (tx_ptr t) (tx_addr t)
               (tx_freed t ++ [p])) status forceall
      end
  end.

(** Like [dma32_getnexttxp] but nothing is reclaimed. *)
Fixpoint peek_loop (fuel : nat) (t : dma_tx) (i end_ : Z) : option (option Z) :=
  match fuel with
  | O => None
  | S fuel =>
      if i =? end_ then Some None
      else
        let? p := txp t !! Z.to_nat i in
        match p with Some _ => Some p | None => peek_loop fuel t (NEXTTXD t i) end_ end
  end.

Definition dma_peeknexttxp (t : dma_tx) (status : Z) : option (option Z) :=
  if ntxd t =? 0 then Some None
  else peek_loop (S (Z.to_nat (ntxd t))) t (txin t) (B2I (Z.land status XS_CD_MASK)).
End dd_upd.

(** * Receiving *)

Definition RC_RE := Z.shiftl 1 0.
Definition RC_RO_SHIFT := 1.

Record dma_rx_side := Rx {
  nrxd : Z;
  rxin : Z;
  rxout : Z;
  rxd32 : list dma32dd;
  rxp : list (option Z);
  rxbufsize : Z;
  nrxpost : Z;
  rxoffset : Z;
  rxgiants : Z;
  rxnobuf : Z;
  rx_control : Z;
  rx_ptr : Z;
  rx_addr : Z;
  rx_freed : list Z
}.

Definition RXD (r : dma_rx_side) (x : Z) : Z := XXD x (nrxd r).
Definition NEXTRXD (r : dma_rx_side) (i : Z) : Z := RXD r (i + 1).
Definition NRXDACTIVE (r : dma_rx_side) : Z := RXD r (rxout r - rxin r).

Definition set_ring (r : dma_rx_side) (i o : Z) (ring : list dma32dd) (p : list (option Z)) (ptr : Z) : dma_rx_side :=
  Rx (nrxd r) i o ring p (rxbufsize r) (nrxpost r) (rxoffset r) (rxgiants r) (rxnobuf r) (rx_control r) ptr (rx_addr r) (rx_freed r).

Definition dma_rxenable (r : dma_rx_side) : dma_rx_side :=
  Rx (nrxd r) (rxin r) (rxout r) (rxd32 r) (rxp r) (rxbufsize r) (nrxpost r) (rxoffset r) (rxgiants r) (rxnobuf r)
    (Z.lor (wrap32 (Z.shiftl (rxoffset r) RC_RO_SHIFT)) RC_RE) (rx_ptr r) (rx_addr r) (rx_freed r).

Definition dma_rxinit (addrext : bool) (ddoffsetlow dpa : Z) (r : dma_rx_side) : option dma_rx_side :=
  if nrxd r =? 0 then Some r
  else
    let r := dma_rxenable (set_ring r 0 0 (map (fun _ => Dd 0 0) (rxd32 r)) (rxp r) (rx_ptr r)) in
    let? (addr, control) := dma_ddtable_init addrext ddoffsetlow dpa (rx_control r) in
    Some (Rx (nrxd r) (rxin r) (rxout r) (rxd32 r) (rxp r) (rxbufsize r) (nrxpost r) (rxoffset r) (rxgiants r) (rxnobuf r)
            control (rx_ptr r) addr (rx_freed r)).

Definition dma32_rxidle (r : dma_rx_side) (status : Z) : bool :=
  (nrxd r =? 0) || (Z.land status RS_CD_MASK =? rx_ptr r).

Definition dma32_rxenabled (r : dma_rx_side) : bool :=
  negb (rx_control r =? 0xffffffff) && truthy (Z.land (rx_control r) RC_RE).

Section rx.
Context (dataoffsetlow : Z) (addrext : bool).

(** [n] buffers to post; [gets] is what [PKTGET] gives, a packet with the physical address
    of its data, or [None] for [NULL]. *)
Fixpoint fill_loop (r : dma_rx_side) (n : nat) (gets : list (option (Z * Z))) (out nobuf : Z)
    (ring : list dma32dd) (ps : list (option Z)) : option (Z * Z * list dma32dd * list (option Z)) :=
  match n with
  | O => Some (out, nobuf, ring, ps)
  | S n =>
      match gets with
      | [] | None :: _ => Some (out, nobuf + 1, ring, ps)
      | Some (p, pa) :: gets =>
          assert! Z.land pa 3 =? 0 in
          assert! bool_decide (ps !! Z.to_nat out = Some None) in
          let flags := if out =? nrxd r - 1 then CTRL_EOT else 0 in
          let? (ring, _) := dma32_dd_upd dataoffsetlow addrext ring pa out flags (rxbufsize r) in
          fill_loop r n gets (NEXTRXD r out) nobuf ring (<[Z.to_nat out := Some p]> ps)
      end
  end.

Definition dma_rxfill (r : dma_rx_side) (gets : list (option (Z * Z))) : option dma_rx_side :=
  let n := wrap32 (nrxpost r - NRXDACTIVE r) in
  let? (out, nobuf, ring, ps) := fill_loop r (Z.to_nat n) gets (rxout r) (rxnobuf r) (rxd32 r) (rxp r) in
  let r := set_ring r (rxin r) out ring ps (I2B out) in
  Some (Rx (nrxd r) (rxin r) (rxout r) (rxd32 r) (rxp r) (rxbufsize r) (nrxpost r) (rxoffset r) (rxgiants r) nobuf
          (rx_control r) (rx_ptr r) (rx_addr r) (rx_freed r)).
End rx.

Definition dma32_getnextrxp (r : dma_rx_side) (status : Z) (forceall : bool) : option (option Z * dma_rx_side) :=
  assert! negb forceall || negb (dma32_rxenabled r) in
  let i := rxin r in
  if i =? rxout r then Some (None, r)
  else if negb forceall && (i =? B2I (Z.land status RS_CD_MASK)) then Some (None, r)
  else
    let? p := rxp r !! Z.to_nat i in
    let? p := p in
    let? d := rxd32 r !! Z.to_nat i in
    Some (Some p, set_ring r (NEXTRXD r i) (rxout r) (<[Z.to_nat i := Dd (d_ctrl d) 0xdeadbeef]> (rxd32 r))
                    (<[Z.to_nat i := None]> (rxp r)) (rx_ptr r)).

Definition dma_getnextrxp (r : dma_rx_side) (status : Z) (forceall : bool) : option (option Z * dma_rx_side) :=
  if nrxd r =? 0 then Some (None, r) else dma32_getnextrxp r status forceall.

Definition rx_free (r : dma_rx_side) (p giants : Z) : dma_rx_side :=
  Rx (nrxd r) (rxin r) (rxout r) (rxd32 r) (rxp r) (rxbufsize r) (nrxpost r) (rxoffset r) giants (rxnobuf r)
    (rx_control r) (rx_ptr r) (rx_addr r) (rx_freed r ++ [p]).

(** [status] is what the register reads; [frame_len] is the length the chip has put at the
    front of a buffer.  The result is the packet and the length set in it. *)
Fixpoint rx_loop (fuel : nat) (r : dma_rx_side) (status : Z) (frame_len : Z -> Z) (skiplen : Z)
    : option (option (Z * Z) * dma_rx_side) :=
  match fuel with
  | O => None
  | S fuel =>
      let? (p, r) := dma_getnextrxp r status false in
      match p with
      | None => Some (None, r)
      | Some p =>
          if 0 <? skiplen then
            rx_loop fuel (rx_free r p (rxgiants r)) status frame_len
              (let s := sint32 (skiplen - rxbufsize r) in if s <? 0 then 0 else s)
          else
            let len := frame_len p in
            let room := wrap32 (rxbufsize r - rxoffset r) in
            if room <? len then
              rx_loop fuel (rx_free r p (rxgiants r + 1)) status frame_len
                (if 0 <? len then sint32 (len - room) else skiplen)
            else Some (Some (p, wrap32 (rxoffset r + len)), r)
      end
  end.

Definition dma_rx (fuel : nat) (r : dma_rx_side) (status : Z) (frame_len : Z -> Z) : option (option (Z * Z) * dma_rx_side) :=
  rx_loop fuel r status frame_len 0.

Fixpoint dma_rxreclaim (fuel : nat) (r : dma_rx_side) (status : Z) : option dma_rx_side :=
  match fuel with
  | O => None
  | S fuel =>
      let? (p, r) := dma_getnextrxp r status true in
      match p with
      | None => Some r
      | Some p => dma_rxreclaim fuel (rx_free r p (rxgiants r)) status
      end
  end.

(** Moving all active transmit descriptors forward to where the chip is. *)
Fixpoint rotate_loop (fuel : nat) (t : dma_tx) (rot stop old : Z) : option dma_tx :=
  match fuel with
  | O => None
  | S fuel =>
      if old =? stop then Some t
      else
        let new := TXD t (old + rot) in
        let? d := txd32 t !! Z.to_nat old in
        let w := Z.ldiff (d_ctrl d) CTRL_EOT in
        let w := if new =? ntxd t - 1 then Z.lor w CTRL_EOT else w in
        assert! new <? Z.of_nat (length (txd32 t)) in
        let ring := <[Z.to_nat new := Dd w (d_addr d)]> (txd32 t) in
        let? o := ring !! Z.to_nat old in
        let ring := <[Z.to_nat old := Dd (d_ctrl o) 0xdeadbeef]> ring in
        assert! bool_decide (txp t !! Z.to_nat new = Some None) in
        let? p := txp t !! Z.to_nat old in
        let ps := <[Z.to_nat old := None]> (<[Z.to_nat new := p]> (txp t)) in
        rotate_loop fuel
          (Tx (ntxd t) (txin t) (txout t) ring ps (txavail t) (txnobuf t) (tx_control t) (tx_ptr t) (tx_addr t) (tx_freed t))
          rot stop (PREVTXD t old)
  end.

(** The engine must be suspended and idle. *)
Definition dma32_txrotate (t : dma_tx) (status : Z) : option dma_tx :=
  let nactive := dma_txactive t in
  let ad := B2I (Z.shiftr (Z.land status XS_AD_MASK) XS_AD_SHIFT) in
  let rot := TXD t (ad - txin t) in
  assert! rot <? ntxd t in
  if wrap32 (ntxd t - nactive) <=? rot then Some t
  else
    let? t := rotate_loop (S (Z.to_nat (ntxd t))) t rot (PREVTXD t (txin t)) (PREVTXD t (txout t)) in
    let out := TXD t (txout t + rot) in
    let t := Tx (ntxd t) ad out (txd32 t) (txp t) (txavail t) (txnobuf t) (tx_control t) (I2B out) (tx_addr t) (tx_freed t) in
    Some (set_txavail t (flow_control t)).

(** * Stopping the engine *)

Definition XS_XS_MASK := 0xf000.
Definition XS_XS_DISABLED := 0x0000.
Definition XS_XS_IDLE := 0x2000.
Definition XS_XS_STOPPED := 0x3000.
Definition RS_RS_MASK := 0xf000.
Definition RS_RS_DISABLED := 0x0000.
Definition RS_RS_STOPPED := 0x3000.

Definition dma32_txstopped (status : Z) : bool := Z.land status XS_XS_MASK =? XS_XS_STOPPED.
Definition dma32_rxstopped (status : Z) : bool := Z.land status RS_RS_MASK =? RS_RS_STOPPED.

(** [SPINWAIT]: the register is read until it no longer says busy, or the countdown is over.
    [reads] is the sequence of values the register reads; the result is the last one read
    and the rest of the sequence is from the position returned. *)
Fixpoint spin (fuel : nat) (mask : Z) (busy : Z -> bool) (reads : nat -> Z) (k : nat) (countdown : Z) : option (Z * nat) :=
  match fuel with
  | O => None
  | S fuel =>
      let status := Z.land (reads k) mask in
      if busy status && (10 <=? countdown) then spin fuel mask busy reads (S k) (countdown - 10)
      else Some (status, S k)
  end.

Definition spinwait (mask : Z) (busy : Z -> bool) (us : Z) (reads : nat -> Z) (k : nat) : option (Z * nat) :=
  spin (S (Z.to_nat (us + 9))) mask busy reads k (us + 9).

Definition dma32_txreset (t : dma_tx) (reads : nat -> Z) : option (bool * dma_tx) :=
  if ntxd t =? 0 then Some (true, t)
  else
    let t := set_control t XC_SE in
    let? (_, k) :=
      spinwait XS_XS_MASK
        (fun s => negb (s =? XS_XS_DISABLED) && negb (s =? XS_XS_IDLE) && negb (s =? XS_XS_STOPPED)) 10000 reads 0 in
    let t := set_control t 0 in
    let? (status, _) := spinwait XS_XS_MASK (fun s => negb (s =? XS_XS_DISABLED)) 10000 reads k in
    Some (status =? XS_XS_DISABLED, t).

Definition dma32_rxreset (r : dma_rx_side) (reads : nat -> Z) : option (bool * dma_rx_side) :=
  if nrxd r =? 0 then Some (true, r)
  else
    let r := Rx (nrxd r) (rxin r) (rxout r) (rxd32 r) (rxp r) (rxbufsize r) (nrxpost r) (rxoffset r) (rxgiants r)
               (rxnobuf r) 0 (rx_ptr r) (rx_addr r) (rx_freed r) in
    let? (status, _) := spinwait RS_RS_MASK (fun s => negb (s =? RS_RS_DISABLED)) 10000 reads 0 in
    Some (status =? RS_RS_DISABLED, r).

(** The two status reads are two microseconds apart. *)
Definition dma32_txsuspendedidle (t : dma_tx) (status1 status2 : Z) : bool :=
  if ntxd t =? 0 then true
  else if negb (truthy (Z.land (tx_control t) XC_SE)) then false
  else if negb (Z.land status1 XS_XS_MASK =? XS_XS_IDLE) then false
  else Z.land status2 XS_XS_MASK =? XS_XS_IDLE.

(** [dma32_alloc]: where the ring is in the memory [DMA_ALLOC_CONSISTENT] gives at [va] and
    the physical address [pa], [align] being its alignment: the ring, what was added, the
    physical address of the ring and the size asked for. *)
Definition D32RINGALIGN := 4096.

Definition dma32_alloc_size (align ndesc : Z) : Z :=
  let size := ndesc * sizeof_dd in
  if align mod D32RINGALIGN =? 0 then size else size + D32RINGALIGN.

Definition dma32_alloc (align ndesc va pa : Z) : Z * Z * Z * Z :=
  let ring := (va + (D32RINGALIGN - 1)) / D32RINGALIGN * D32RINGALIGN in
  (ring, ring - va, pa + (ring - va), dma32_alloc_size align ndesc).

(** * The transmit ring as a queue of descriptors *)

(** One descriptor in flight: whether it starts or ends a frame, its buffer, and the packet
    to give back when it is reclaimed. *)
Record slot := Slot { s_sof : bool; s_eof : bool; s_pa : Z; s_len : Z; s_id : option Z }.

Fixpoint slots_of (id : Z) (first : bool) (bufs : list (Z * Z)) : list slot :=
  match bufs with
  | [] => []
  | (pa, len) :: next =>
      let last := match next with [] => true | _ => false end in
      Slot first last pa len (if last then Some id else None) :: slots_of id false next
  end.

Definition frame (p : packet) : list slot := slots_of (p_id p) true (p_bufs p).

(** What the chip finds in a descriptor. *)
Definition shows (s : slot) (eot : bool) (d : dma32dd) : Prop :=
  d_addr d = s_pa s /\ Z.land (d_ctrl d) CTRL_BC_MASK = s_len s /\
  Z.testbit (d_ctrl d) 31 = s_sof s /\ Z.testbit (d_ctrl d) 30 = s_eof s /\ Z.testbit (d_ctrl d) 28 = eot.

Definition index (n a : Z) (j : nat) : nat := Z.to_nat ((a + Z.of_nat j) mod n).

(** The descriptors from [a] on. *)
Definition ring_holds (n a : Z) (ring : list dma32dd) (sl : list slot) : Prop :=
  forall j s, sl !! j = Some s -> exists d, ring !! index n a j = Some d /\ shows s (Z.of_nat (index n a j) =? n - 1) d.

(** The ring seen from the descriptor [a]. *)
Record tx_view (n a : Z) (t : dma_tx) (sl : list slot) : Prop := {
  tx_n : ntxd t = n /\ Z.of_nat (length (txd32 t)) = n /\ Z.of_nat (length (txp t)) = n;
  tx_in : 0 <= a < n;
  tx_len : Z.of_nat (length sl) <= n - 1;
  tx_ring : ring_holds n a (txd32 t) sl;
  tx_ps : forall j, (j < Z.to_nat n)%nat -> txp t !! index n a j = Some (sl !! j ≫= s_id)
}.

Definition tx_ok (n : Z) (t : dma_tx) (sl : list slot) : Prop :=
  tx_view n (txin t) t sl /\ txout t = (txin t + Z.of_nat (length sl)) mod n.

Definition ring_size (n : Z) : Prop := exists k, 1 <= k <= 9 /\ n = 2 ^ k.

Lemma XXD_mod x k n : 0 <= k <= 32 -> n = 2 ^ k -> XXD x n = x mod n.
Proof.
  intros Hk ->. unfold XXD. rewrite Z.sub_1_r, <- Z.ones_equiv.
  rewrite Z.land_ones by lia. unfold wrap32. replace (2 ^ 32) with (2 ^ k * 2 ^ (32 - k)) by (rewrite <- Z.pow_add_r; f_equal; lia).
  rewrite Z.rem_mul_r by (try apply Z.pow_nonzero; lia || apply Z.pow_pos_nonneg; lia).
  rewrite Z.mul_comm, Z_mod_plus_full, Zmod_mod. done.
Qed.

Lemma index_lt n a j : 0 < n -> (index n a j < Z.to_nat n)%nat.
Proof. intros. unfold index. pose proof (Z.mod_pos_bound (a + Z.of_nat j) n). lia. Qed.

Lemma mod_inj n a i j : 0 <= i < n -> 0 <= j < n -> (a + i) mod n = (a + j) mod n -> i = j.
Proof.
  intros Hi Hj H. assert (Hd : (i - j) mod n = 0).
  { replace (i - j) with (a + i - (a + j)) by lia. by rewrite Zminus_mod, H, Z.sub_diag. }
  apply Z.mod_divide in Hd as [q Hq]; [|lia]. assert (q = 0) by nia. lia.
Qed.

Lemma index_inj n a i j : (i < Z.to_nat n)%nat -> (j < Z.to_nat n)%nat -> index n a i = index n a j -> i = j.
Proof.
  intros Hi Hj H. assert (0 < n) by lia. pose proof (Z.mod_pos_bound (a + Z.of_nat i) n). pose proof (Z.mod_pos_bound (a + Z.of_nat j) n).
  assert (Z.of_nat i = Z.of_nat j); [|lia]. apply (mod_inj n a); [lia|lia|]. unfold index in H. lia.
Qed.

Lemma index_next n a j : 0 < n -> (Z.of_nat (index n a j) + 1) mod n = Z.of_nat (index n a (S j)).
Proof.
  intros Hn. unfold index. pose proof (Z.mod_pos_bound (a + Z.of_nat j) n). pose proof (Z.mod_pos_bound (a + Z.of_nat (S j)) n).
  rewrite !Z2Nat.id by lia. rewrite Zplus_mod_idemp_l. f_equal. lia.
Qed.

Lemma index_from_next n a j : 0 < n -> index n ((a + 1) mod n) j = index n a (S j).
Proof. intros Hn. unfold index. rewrite Zplus_mod_idemp_l. do 2 f_equal. lia. Qed.

Lemma index_0 n a : 0 <= a < n -> index n a 0 = Z.to_nat a.
Proof. intros. unfold index. by rewrite Z.add_0_r, Z.mod_small. Qed.

(** Every index of the ring is some number of steps from the first one. *)
Lemma index_onto n a i : 0 <= a < n -> (i < Z.to_nat n)%nat -> exists j, (j < Z.to_nat n)%nat /\ index n a j = i.
Proof.
  intros Ha Hi. exists (Z.to_nat ((Z.of_nat i - a) mod n)). pose proof (Z.mod_pos_bound (Z.of_nat i - a) n).
  split; [lia|]. unfold index. rewrite Z2Nat.id by lia. rewrite Zplus_mod_idemp_r.
  replace (a + (Z.of_nat i - a)) with (Z.of_nat i) by lia. rewrite Z.mod_small; lia.
Qed.

(** The flags [dma32_txfast] computes for a buffer. *)
Definition tx_flags (first last eot : bool) : Z :=
  let flags := if first then CTRL_SOF else 0 in
  let flags := if last then Z.lor flags (Z.lor CTRL_IOC CTRL_EOF) else flags in
  if eot then Z.lor flags CTRL_EOT else flags.

Lemma small_testbit x i : 0 <= x < 2 ^ 13 -> 13 <= i -> Z.testbit x i = false.
Proof.
  intros Hx Hi. destruct (Z.eq_dec x 0) as [->|]; [apply Z.bits_0|].
  apply Z.bits_above_log2; [lia|]. apply Z.lt_le_trans with 13; [|lia]. apply Z.log2_lt_pow2; lia.
Qed.

Lemma dd_val_shows ext pa first last eot len id :
  0 <= pa < 2 ^ 32 -> 0 <= len <= CTRL_BC_MASK ->
  exists d, dd_val 0 ext pa (tx_flags first last eot) len = Some (d, d_ctrl d) /\
    shows (Slot first last pa len id) eot d /\ truthy (Z.land (d_ctrl d) CTRL_EOF) = last.
Proof.
  intros Hpa Hlen. unfold CTRL_BC_MASK in Hlen. unfold dd_val. cbn [Z.eqb negb orb SB_PCI_DMA].
  rewrite Z.add_0_r, wrap32_small by lia.
  assert (Hbc : Z.land len CTRL_BC_MASK = len).
  { unfold CTRL_BC_MASK. change 0x1fff with (Z.ones 13). rewrite Z.land_ones by lia. apply Z.mod_small. lia. }
  rewrite Hbc. exists (Dd (Z.lor (tx_flags first last eot) len) pa). split; [reflexivity|].
  unfold shows. cbn [d_addr d_ctrl s_pa s_len s_sof s_eof].
  rewrite !Z.lor_spec, !(small_testbit len), !orb_false_r by lia. rewrite !Z.land_lor_distr_l, Hbc.
  assert (He : Z.land len CTRL_EOF = 0).
  { apply Z.bits_inj'. intros i Hi. rewrite Z.land_spec, Z.bits_0. destruct (Z.lt_ge_cases i 13).
    - rewrite andb_comm. change CTRL_EOF with (2 ^ 30). by rewrite Z.pow2_bits_false by lia.
    - by rewrite small_testbit by lia. }
  rewrite He, Z.lor_0_r. by destruct first, last, eot.
Qed.

Lemma tx_active n t (sl : list slot) k : n = 2 ^ k -> 1 <= k <= 9 -> ntxd t = n -> 0 <= txin t < n ->
  txout t = (txin t + Z.of_nat (length sl)) mod n -> Z.of_nat (length sl) <= n - 1 ->
  flow_control t = n - 1 - Z.of_nat (length sl).
Proof.
  intros Hn Hk Ht Hi Ho Hl. unfold flow_control, NTXDACTIVE, TXD. rewrite Ht, (XXD_mod _ k n), Ho by (lia || done).
  rewrite Zminus_mod_idemp_l. replace (txin t + Z.of_nat (length sl) - txin t) with (Z.of_nat (length sl)) by lia.
  rewrite Z.mod_small by lia. lia.
Qed.

Lemma ring_snoc n a ring sl s d : 0 < n -> Z.of_nat (length ring) = n -> Z.of_nat (length sl) < n ->
  ring_holds n a ring sl -> shows s (Z.of_nat (index n a (length sl)) =? n - 1) d ->
  ring_holds n a (<[index n a (length sl) := d]> ring) (sl ++ [s]).
Proof.
  intros Hn Hlen Hsl Hr Hs j s' Hj. pose proof (lookup_lt_Some _ _ _ Hj) as Hlt. rewrite length_app in Hlt. cbn in Hlt.
  destruct (decide (j = length sl)) as [->|Hne].
  - rewrite list_lookup_middle in Hj by done. injection Hj as <-. exists d. split; [|done].
    apply list_lookup_insert_eq. pose proof (index_lt n a (length sl) Hn). lia.
  - rewrite lookup_app_l in Hj by lia. destruct (Hr j s' Hj) as (d' & Hd & Hs'). exists d'. split; [|done].
    rewrite list_lookup_insert_ne; [done|]. intros He. apply index_inj in He; lia.
Qed.

Lemma ring_prefix n a ring sl sl' : ring_holds n a ring (sl ++ sl') -> ring_holds n a ring sl.
Proof. intros H j s Hj. apply H. by apply lookup_app_l_Some. Qed.

Definition buf_ok (b : Z * Z) : Prop := 0 <= b.1 < 2 ^ 32 /\ 0 < b.2 <= CTRL_BC_MASK.

(** The walk fills in the descriptors of the frame, or stops when the ring is full. *)
Lemma tx_loop_spec ext n k t id bufs first sl flags ring :
  n = 2 ^ k -> 1 <= k <= 9 -> ntxd t = n -> 0 <= txin t < n -> Z.of_nat (length ring) = n ->
  Forall buf_ok bufs -> Z.of_nat (length sl) <= n - 1 -> ring_holds n (txin t) ring sl ->
  (forall j, (length sl <= j < Z.to_nat n)%nat -> txp t !! index n (txin t) j = Some None) ->
  exists r ring', tx_loop 0 ext t bufs first (Z.of_nat (index n (txin t) (length sl))) flags ring = Some (r, ring') /\
    Z.of_nat (length ring') = n /\
    if Z.of_nat (length sl + length bufs) <=? n - 1
    then (exists f, r = Some (Z.of_nat (index n (txin t) (length sl + length bufs)), f) /\
                    (bufs <> [] -> truthy (Z.land f CTRL_EOF) = true)) /\
         ring_holds n (txin t) ring' (sl ++ slots_of id first bufs)
    else r = None /\ ring_holds n (txin t) ring' sl.
Proof.
  intros Hn Hk Ht Hi Hlen Hb. revert first sl flags ring Hlen.
  induction Hb as [|[pa len] bufs [Hpa Hl] Hb IH]; intros first sl flags ring Hlen Hsl Hr Hps.
  { exists (Some (Z.of_nat (index n (txin t) (length sl)), flags)), ring. split; [done|]. split; [done|].
    cbn [length slots_of]. rewrite Nat.add_0_r, app_nil_r, (proj2 (Z.leb_le _ _)) by lia. split; [|done].
    by exists flags. }
  cbn [tx_loop length fst snd] in *.
  assert (Hnext : NEXTTXD t (Z.of_nat (index n (txin t) (length sl))) = Z.of_nat (index n (txin t) (S (length sl)))).
  { unfold NEXTTXD, TXD. rewrite Ht, (XXD_mod _ k n) by (done || lia). apply index_next. lia. }
  rewrite Hnext. destruct (_ =? txin t) eqn:E; bool_simpl.
  - exists None, ring. split; [done|]. split; [done|].
    assert (Hfull : Z.of_nat (length sl) = n - 1).
    { destruct (Z.eq_dec (Z.of_nat (length sl)) (n - 1)) as [|Hne]; [done|exfalso].
      assert (S (length sl) = 0)%nat; [|lia]. apply (index_inj n (txin t)); [lia|lia|]. rewrite index_0 by lia. lia. }
    by rewrite (proj2 (Z.leb_gt _ _)) by lia.
  - rewrite (proj2 (Z.eqb_neq len 0)) by lia.
    assert (Hlt : Z.of_nat (length sl) < n - 1).
    { destruct (Z.eq_dec (Z.of_nat (length sl)) (n - 1)) as [Heq|]; [exfalso|lia]. apply E. unfold index.
      replace (txin t + Z.of_nat (S (length sl))) with (txin t + 1 * n) by lia.
      rewrite Z_mod_plus_full, Z.mod_small by lia. lia. }
    set (i := index n (txin t) (length sl)) in *. pose proof (index_lt n (txin t) (length sl) ltac:(lia)) as Hilt. fold i in Hilt.
    set (last := match bufs with [] => true | _ => false end).
    destruct (dd_val_shows ext pa first last (Z.of_nat i =? n - 1) len (if last then Some id else None) Hpa ltac:(lia))
      as (d & Hd & Hsh & Heof).
    assert (Hflags : (if Z.of_nat i =? ntxd t - 1
        then Z.lor match bufs with [] => Z.lor (if first then CTRL_SOF else 0) (Z.lor CTRL_IOC CTRL_EOF)
                                 | _ :: _ => if first then CTRL_SOF else 0 end CTRL_EOT
        else match bufs with [] => Z.lor (if first then CTRL_SOF else 0) (Z.lor CTRL_IOC CTRL_EOF)
                           | _ :: _ => if first then CTRL_SOF else 0 end) = tx_flags first last (Z.of_nat i =? n - 1))
      by (rewrite Ht; unfold last; by destruct bufs).
    rewrite Hflags. unfold dma32_dd_upd. rewrite Hd, (proj2 (Z.ltb_lt _ _)) by lia. rewrite Nat2Z.id.
    assert (Hpi : txp t !! i = Some None) by (apply Hps; lia). rewrite Hpi, bool_decide_true by done.
    destruct (IH false (sl ++ [Slot first last pa len (if last then Some id else None)]) (d_ctrl d) (<[i := d]> ring))
      as (r & ring' & Hloop & Hlen' & Hres).
    + by rewrite length_insert.
    + rewrite length_app. cbn. lia.
    + apply ring_snoc; [lia|done|lia|done|exact Hsh].
    + intros j. rewrite length_app. cbn. intros Hj. apply Hps. lia.
    + rewrite length_app in Hloop, Hres. cbn [length] in Hloop, Hres. replace (length sl + 1)%nat with (S (length sl)) in Hloop by lia.
      exists r, ring'. rewrite Hloop. split; [done|]. split; [done|].
      replace (length sl + 1 + length bufs)%nat with (length sl + S (length bufs))%nat in Hres by lia.
      destruct (_ <=? _).
      * destruct Hres as [(f & -> & Hf) Hr']. rewrite <- app_assoc in Hr'. cbn in Hr'. split; [|exact Hr'].
        exists f. split; [done|]. intros _. destruct bufs as [|b bufs]; [|by apply Hf].
        cbn in Hloop. injection Hloop as _ <- _. exact Heof.
      * destruct Hres as [-> Hr']. split; [done|]. by eapply ring_prefix.
Qed.

Lemma length_slots_of id first bufs : length (slots_of id first bufs) = length bufs.
Proof. revert first. induction bufs as [|[pa len] bufs IH]; intros first; cbn; [done|]. by rewrite IH. Qed.

Lemma slots_of_id id first bufs j : (j < length bufs)%nat ->
  slots_of id first bufs !! j ≫= s_id = if decide (S j = length bufs) then Some id else None.
Proof.
  revert first j. induction bufs as [|[pa len] bufs IH]; intros first j Hj; cbn in Hj; [lia|].
  destruct j as [|j]; cbn.
  - destruct bufs; case_decide; cbn in *; try lia; done.
  - rewrite IH by lia. repeat case_decide; lia || done.
Qed.

Lemma dma32_txfast_spec ext n t sl p commit :
  ring_size n -> tx_ok n t sl -> p_bufs p <> [] -> Forall buf_ok (p_bufs p) ->
  exists t', dma32_txfast 0 ext t p commit =
      Some (if Z.of_nat (length sl + length (p_bufs p)) <=? n - 1 then 0 else -1, t') /\
    if Z.of_nat (length sl + length (p_bufs p)) <=? n - 1
    then tx_ok n t' (sl ++ frame p) /\ tx_freed t' = tx_freed t /\ txin t' = txin t /\
         tx_ptr t' = (if commit then I2B (txout t') else tx_ptr t) /\
         txavail t' = n - 1 - Z.of_nat (length sl + length (p_bufs p))
    else tx_ok n t' sl /\ tx_freed t' = tx_freed t ++ [p_id p] /\ txin t' = txin t /\ tx_ptr t' = tx_ptr t /\
         txavail t' = 0.
Proof.
  intros (k & Hk & Hn) [[(Hnt & Hld & Hlp) Hin Hlen Hring Hps] Hout] Hne Hb. unfold dma32_txfast.
  assert (Ho : txout t = Z.of_nat (index n (txin t) (length sl))).
  { rewrite Hout. unfold index. pose proof (Z.mod_pos_bound (txin t + Z.of_nat (length sl)) n). lia. }
  destruct (tx_loop_spec ext n k t (p_id p) (p_bufs p) true sl 0 (txd32 t)) as (r & ring' & Hloop & Hlr & Hres);
    try done.
  { intros j Hj. rewrite Hps by lia. by rewrite lookup_ge_None_2 by lia. }
  rewrite Ho, Hloop. destruct (Z.leb_spec (Z.of_nat (length sl + length (p_bufs p))) (n - 1)) as [Hle|Hgt].
  - destruct Hres as [(f & -> & Hf) Hr']. rewrite (Hf Hne). set (m := (length sl + length (p_bufs p))%nat) in *.
    assert (0 < length (p_bufs p))%nat by (destruct (p_bufs p); [done|cbn; lia]).
    assert (Hlast : PREVTXD t (Z.of_nat (index n (txin t) m)) = Z.of_nat (index n (txin t) (m - 1))).
    { clear Hr' Hf Hloop. unfold PREVTXD, TXD. rewrite Hnt, (XXD_mod _ k n) by (done || lia). unfold index.
      assert (0 < n) by lia. pose proof (Z.mod_pos_bound (txin t + Z.of_nat m) n). pose proof (Z.mod_pos_bound (txin t + Z.of_nat (m - 1)) n).
      rewrite !Z2Nat.id, Zminus_mod_idemp_l by lia. f_equal. lia. }
    rewrite Hlast. pose proof (index_lt n (txin t) (m - 1) ltac:(lia)).
    rewrite (proj2 (Z.ltb_lt _ _)) by lia. rewrite Nat2Z.id. eexists. split; [reflexivity|].
    assert (Hlf : length (sl ++ frame p) = m) by (unfold frame; by rewrite length_app, length_slots_of).
    assert (Hfo : Z.of_nat (index n (txin t) m) = (txin t + Z.of_nat (length (sl ++ frame p))) mod n).
    { rewrite Hlf. unfold index. pose proof (Z.mod_pos_bound (txin t + Z.of_nat m) n). lia. }
    split.
    + split; [|exact Hfo]. split; cbn; [split; [done|]; split; [done|by rewrite length_insert]|done|rewrite Hlf; lia|done|].
      intros j Hj. destruct (decide (j = m - 1)%nat) as [->|Hjm].
      * rewrite list_lookup_insert_eq by lia. rewrite lookup_app_r by lia. unfold frame.
        rewrite slots_of_id, decide_True by lia. done.
      * rewrite list_lookup_insert_ne by (intros E; apply index_inj in E; lia). rewrite Hps by done. f_equal.
        destruct (decide (j < length sl)%nat) as [Hjs|Hjs]; [by rewrite lookup_app_l by done|].
        rewrite (lookup_ge_None_2 sl) by lia. rewrite lookup_app_r by lia. cbn.
        destruct (decide (j < m)%nat).
        -- unfold frame. by rewrite slots_of_id, decide_False by lia.
        -- rewrite lookup_ge_None_2; [done|]. unfold frame. rewrite length_slots_of. lia.
    + split; [done|]. split; [done|]. split; [done|]. cbn [txavail set_txavail].
      replace (Z.of_nat m) with (Z.of_nat (length (sl ++ frame p))) by (by rewrite Hlf).
      apply (tx_active n _ (sl ++ frame p) k); cbn [ntxd txin txout]; [done|done|done|done|exact Hfo|rewrite Hlf; exact Hle].
  - destruct Hres as [-> Hr']. eexists. split; [reflexivity|]. split; [|done].
    split; [|cbn; by rewrite <- Ho]. by split; cbn.
Qed.

(** What reclaiming up to [k] descriptors does to the queue. *)
Fixpoint pop (k : nat) (sl : list slot) : option Z * list slot :=
  match k, sl with
  | S k, s :: sl => match s_id s with Some p => (Some p, sl) | None => pop k sl end
  | _, _ => (None, sl)
  end.

(** The first descriptor taken off. *)
Lemma view_pop n a t s sl d p : 0 < n -> tx_view n a t (s :: sl) ->
  txd32 t !! Z.to_nat a = Some d -> txp t !! Z.to_nat a = Some p ->
  p = s_id s /\
  tx_view n ((a + 1) mod n)
    (Tx (ntxd t) (txin t) (txout t) (<[Z.to_nat a := Dd (d_ctrl d) 0xdeadbeef]> (txd32 t))
       (<[Z.to_nat a := None]> (txp t)) (txavail t) (txnobuf t) (tx_control t) (tx_ptr t) (tx_addr t) (tx_freed t)) sl.
Proof.
  intros Hn [(Hnt & Hld & Hlp) Hin Hlen Hring Hps] Hd Hp. pose proof (Z.mod_pos_bound (a + 1) n Hn). cbn in Hlen.
  pose proof (Hps 0%nat ltac:(lia)) as Hp0. rewrite (index_0 n a Hin), Hp in Hp0. cbn in Hp0. injection Hp0 as ->.
  split; [done|]. split; cbn; [split; [done|]; by rewrite !length_insert|lia|lia| |].
  - intros j x Hj. destruct (Hring (S j) x Hj) as (d' & Hd' & Hs). exists d'.
    pose proof (lookup_lt_Some _ _ _ Hj). rewrite index_from_next by done. split; [|done].
    rewrite list_lookup_insert_ne; [done|]. rewrite <- (index_0 n a Hin). intros E. apply index_inj in E; lia.
  - intros j Hj. rewrite index_from_next by done. destruct (decide (S j < Z.to_nat n)%nat) as [Hjn|Hjn].
    + rewrite list_lookup_insert_ne; [by apply (Hps (S j))|].
      rewrite <- (index_0 n a Hin). intros E. apply index_inj in E; lia.
    + assert (index n a (S j) = Z.to_nat a) as ->.
      { unfold index. replace (a + Z.of_nat (S j)) with (a + 1 * n) by lia. by rewrite Z_mod_plus_full, Z.mod_small. }
      rewrite list_lookup_insert_eq by lia. by rewrite lookup_ge_None_2 by lia.
Qed.

Lemma reclaim_loop_spec n j a t sl fuel m :
  ring_size n -> tx_view n a t sl -> (m <= length sl)%nat -> (m < fuel)%nat -> j = Z.of_nat (index n a m) ->
  exists m' t', reclaim_loop fuel t a j = Some (Z.of_nat (index n a m'), (pop m sl).1, t') /\
    (m' + length (pop m sl).2 = length sl)%nat /\
    tx_view n (Z.of_nat (index n a m')) t' (pop m sl).2 /\ txout t' = txout t /\ txin t' = txin t /\
    tx_ptr t' = tx_ptr t /\ tx_freed t' = tx_freed t.
Proof.
  intros (k & Hk & Hn) V Hm Hf ->. revert a t sl fuel V Hm Hf.
  induction m as [|m IH]; intros a t sl [|fuel] V Hm Hf; try lia; cbn [reclaim_loop]; pose proof V as [(Hnt & Hld & Hlp) Hin Hlen Hring Hps].
  - rewrite (index_0 n a Hin), Z2Nat.id, Z.eqb_refl by lia. exists 0%nat, t.
    rewrite (index_0 n a Hin), Z2Nat.id by lia. cbn [pop fst snd]. done.
  - destruct sl as [|s sl]; cbn in Hm; [lia|]. cbn in Hlen.
    assert (Hne : a <> Z.of_nat (index n a (S m))).
    { intros E. assert (0 = S m)%nat; [|lia]. apply (index_inj n a); [lia|lia|]. rewrite (index_0 n a Hin). lia. }
    rewrite (proj2 (Z.eqb_neq _ _)) by done.
    destruct (Hring 0%nat s eq_refl) as (d & Hd & _). rewrite (index_0 n a Hin) in Hd. rewrite Hd.
    destruct (lookup_lt_is_Some_2 (txp t) (Z.to_nat a) ltac:(lia)) as [p Hp]. rewrite Hp.
    destruct (view_pop n a t s sl d p ltac:(lia) V Hd Hp) as [-> V'].
    assert (Hnext : forall t0 : dma_tx, ntxd t0 = n -> NEXTTXD t0 a = (a + 1) mod n)
      by (intros t0 H0; unfold NEXTTXD, TXD; rewrite H0; apply (XXD_mod _ k); [lia|done]).
    rewrite Hnext by done. cbn [pop]. pose proof (Z.mod_pos_bound (a + 1) n ltac:(lia)) as Hb.
    assert (H1 : (a + 1) mod n = Z.of_nat (index n a 1)) by (unfold index; rewrite Z2Nat.id; lia).
    destruct (s_id s) as [p|].
    + exists 1%nat. eexists. rewrite H1 in *. split; [reflexivity|]. cbn [fst snd length]. done.
    + destruct (IH ((a + 1) mod n) _ sl fuel V' ltac:(lia) ltac:(lia)) as (m' & t' & Hl & Hlm & V2 & Ho & Hi & Hnb & Hfr).
      rewrite index_from_next in Hl by lia. rewrite (index_from_next n a m') in Hl, V2 by lia.
      exists (S m'), t'. split; [exact Hl|]. split; [cbn; lia|]. done.
Qed.

Lemma pop_le m sl : (length (pop m sl).2 <= length sl)%nat.
Proof.
  revert sl. induction m as [|m IH]; intros [|s sl]; cbn; try lia. destruct (s_id s); cbn; [lia|].
  specialize (IH sl). lia.
Qed.

(** The status register when the chip has gone past [m] descriptors. *)
Definition reads (n : Z) (t : dma_tx) (m : nat) (status : Z) : Prop :=
  Z.land status XS_CD_MASK = I2B (Z.of_nat (index n (txin t) m)).

Lemma dma32_getnexttxp_spec n t sl m (status : Z) (forceall : bool) :
  ring_size n -> tx_ok n t sl -> (m <= length sl)%nat ->
  (if forceall then m = length sl else reads n t m status) ->
  exists t', dma32_getnexttxp t status forceall = Some ((pop m sl).1, t') /\ tx_ok n t' (pop m sl).2 /\
    tx_freed t' = tx_freed t /\ tx_ptr t' = tx_ptr t /\ txavail t' = n - 1 - Z.of_nat (length (pop m sl).2) /\
    exists q, (q + length (pop m sl).2 = length sl)%nat /\ txin t' = Z.of_nat (index n (txin t) q).
Proof.
  intros (k & Hk & Hn) [V Hout] Hm Hst. pose proof V as [(Hnt & Hld & Hlp) Hin Hlen Hring Hps].
  unfold dma32_getnexttxp. rewrite Hnt, (proj2 (Z.eqb_neq _ _)) by lia.
  assert (He : (if forceall then txout t else B2I (Z.land status XS_CD_MASK)) = Z.of_nat (index n (txin t) m)).
  { destruct forceall.
    - rewrite Hout, Hst. unfold index. pose proof (Z.mod_pos_bound (txin t + Z.of_nat (length sl)) n). lia.
    - unfold reads in Hst. rewrite Hst. unfold B2I, I2B, sizeof_dd. apply Z.div_mul. lia. }
  rewrite He.
  assert (Hb : (txin t =? 0) && (txout t <? Z.of_nat (index n (txin t) m)) = false).
  { destruct (Z.eqb_spec (txin t) 0) as [E|]; [cbn|done]. apply Z.ltb_ge. rewrite Hout. unfold index.
    rewrite E, !Z.add_0_l, !Z.mod_small by lia. lia. }
  rewrite Hb. destruct (reclaim_loop_spec n (Z.of_nat (index n (txin t) m)) (txin t) t sl (S (Z.to_nat n)) m)
    as (m' & t' & -> & Hl & V' & Ho & _ & Hnb & Hfr); [by exists k|done|done|lia|done|].
  eexists. split; [reflexivity|].
  assert (Ho' : txout t' = (Z.of_nat (index n (txin t) m') + Z.of_nat (length (pop m sl).2)) mod n).
  { rewrite Ho, Hout. unfold index. pose proof (Z.mod_pos_bound (txin t + Z.of_nat m') n ltac:(lia)).
    rewrite Z2Nat.id, Zplus_mod_idemp_l by lia. f_equal. lia. }
  destruct V' as [(? & ? & ?) ? ? ? ?]. split; [|split; [exact Hfr|split; [exact Hnb|split]]].
  - split; [by split; cbn|exact Ho'].
  - apply (tx_active n _ (pop m sl).2 k); done.
  - exists m'. cbn. split; [lia|done].
Qed.

(** The slots taken off are a prefix, with at most one packet. *)
Lemma pop_spec m sl q : (m <= length sl)%nat -> (q + length (pop m sl).2 = length sl)%nat ->
  (q <= m)%nat /\ (pop m sl).2 = drop q sl /\ omap s_id (take q sl) = option_list (pop m sl).1.
Proof.
  revert sl q. induction m as [|m IH]; intros [|s sl] q Hm Hq; cbn in *; try lia.
  1-2: assert (q = 0%nat) as -> by lia; done.
  destruct (s_id s) as [p|] eqn:E; cbn in Hq.
  - assert (q = 1%nat) as -> by lia. split; [lia|]. cbn. by rewrite E, drop_0, take_0.
  - pose proof (pop_le m sl). destruct q as [|q]; [lia|]. destruct (IH sl q) as (? & ? & ?); [lia|lia|].
    split; [lia|]. cbn. by rewrite E.
Qed.

(** Looking does not change the ring, and shows what reclaiming would give. *)
Lemma peek_loop_spec n a t sl fuel m :
  ring_size n -> tx_view n a t sl -> (m <= length sl)%nat -> (m < fuel)%nat ->
  peek_loop fuel t a (Z.of_nat (index n a m)) = Some (pop m sl).1.
Proof.
  intros (k & Hk & Hn) V Hm Hf. pose proof V as [(Hnt & _) Hin Hlen _ Hps].
  enough (H : forall j i, (j + i <= length sl)%nat -> (i < fuel)%nat ->
    peek_loop fuel t (Z.of_nat (index n a j)) (Z.of_nat (index n a (j + i))) = Some (pop i (drop j sl)).1).
  { specialize (H 0%nat m ltac:(lia) Hf). rewrite (index_0 n a Hin), Z2Nat.id in H by lia. exact H. }
  clear m Hm Hf. intros j i. revert fuel j. induction i as [|i IH]; intros [|f] j Hi Hf; try lia; cbn [peek_loop].
  - by rewrite Nat.add_0_r, Z.eqb_refl.
  - rewrite (proj2 (Z.eqb_neq _ _)) by (intros E; apply Nat2Z.inj, index_inj in E; lia).
    rewrite Nat2Z.id, Hps by lia. destruct (lookup_lt_is_Some_2 sl j ltac:(lia)) as [s Hs].
    rewrite Hs, (drop_S sl s j Hs). cbn [pop mbind option_bind]. destruct (s_id s); [done|].
    assert (Hx : NEXTTXD t (Z.of_nat (index n a j)) = Z.of_nat (index n a (S j))).
    { unfold NEXTTXD, TXD. rewrite Hnt, (XXD_mod _ k n) by (done || lia). apply index_next. lia. }
    rewrite Hx. replace (j + S i)%nat with (S j + i)%nat by lia. apply IH; lia.
Qed.

(** * The transmit side and the chip *)

(** What the driver and the chip do, in any order.  The chip reads the descriptors one by
    one as far as the pointer register allows it, while it is enabled and not suspended; the
    status it shows has the offset of its current descriptor in the low 12 bits. *)
Inductive tx_event :=
  | TxPost (p : packet) (commit : bool)
  | TxReap (hi : Z)
  | TxSuspend
  | TxResume
  | TxBlock
  | TxUnblock
  | TxChip.

Record tx_world := World {
  w_tx : dma_tx;
  w_cur : Z;
  w_sent : list dma32dd;
  w_acc : list packet;
  w_rej : list packet;
  w_ret : list Z
}.

Definition with_tx (w : tx_world) (t : dma_tx) : tx_world :=
  World t (w_cur w) (w_sent w) (w_acc w) (w_rej w) (w_ret w).

Definition tx_step (ext : bool) (w : tx_world) (e : tx_event) : option tx_world :=
  let t := w_tx w in
  match e with
  | TxPost p commit =>
      let? (rc, t) := dma32_txfast 0 ext t p commit in
      Some (if rc =? 0 then World t (w_cur w) (w_sent w) (w_acc w ++ [p]) (w_rej w) (w_ret w)
            else World t (w_cur w) (w_sent w) (w_acc w) (w_rej w ++ [p]) (w_ret w))
  | TxReap hi =>
      let? (p, t) := dma32_getnexttxp t (hi * 2 ^ 12 + I2B (w_cur w)) false in
      Some (World t (w_cur w) (w_sent w) (w_acc w) (w_rej w) (w_ret w ++ option_list p))
  | TxSuspend => Some (with_tx w (dma32_txsuspend t))
  | TxResume => Some (with_tx w (dma32_txresume t))
  | TxBlock => Some (with_tx w (dma_txblock t))
  | TxUnblock => Some (with_tx w (dma_txunblock t))
  | TxChip =>
      if dma32_txenabled t && negb (dma32_txsuspended t) && negb (w_cur w =? B2I (tx_ptr t)) then
        let? d := txd32 t !! Z.to_nat (w_cur w) in
        Some (World t ((w_cur w + 1) mod ntxd t) (w_sent w ++ [d]) (w_acc w) (w_rej w) (w_ret w))
      else Some w
  end.

Fixpoint tx_run (ext : bool) (w : tx_world) (evs : list tx_event) : option tx_world :=
  match evs with
  | [] => Some w
  | e :: evs => let? w := tx_step ext w e in tx_run ext w evs
  end.

Definition tx_event_ok (e : tx_event) : Prop :=
  match e with TxPost p _ => p_bufs p <> [] /\ Forall buf_ok (p_bufs p) | _ => True end.

(** The [j]-th descriptor the chip reads is the [j]-th of the frames, and the end-of-table
    mark is on the ring's last descriptor. *)
Definition transmitted (n : Z) (frames : list slot) (sent : list dma32dd) : Prop :=
  forall j d, sent !! j = Some d -> exists s, frames !! j = Some s /\ shows s (Z.of_nat j mod n =? n - 1) d.

Record tx_inv (n : Z) (w : tx_world) (gone sl : list slot) (ptr : nat) : Prop := {
  i_ok : tx_ok n (w_tx w) sl;
  i_in : txin (w_tx w) = Z.of_nat (length gone) mod n;
  i_acc : flat_map frame (w_acc w) = gone ++ sl;
  i_ret : w_ret w = omap s_id gone;
  i_le : (length gone <= length (w_sent w) <= ptr)%nat /\ (ptr <= length gone + length sl)%nat;
  i_cur : w_cur w = Z.of_nat (length (w_sent w)) mod n;
  i_ptr : tx_ptr (w_tx w) = I2B (Z.of_nat ptr mod n);
  i_sent : transmitted n (gone ++ sl) (w_sent w);
  i_freed : tx_freed (w_tx w) = map p_id (w_rej w);
  i_avail : txavail (w_tx w) + Z.of_nat (length sl) <= n - 1
}.

Lemma index_abs n g j : 0 < n -> index n (Z.of_nat g mod n) j = Z.to_nat (Z.of_nat (g + j) mod n).
Proof. intros Hn. unfold index. rewrite Zplus_mod_idemp_l. do 2 f_equal. lia. Qed.

Lemma transmitted_app n l l' sent : transmitted n l sent -> transmitted n (l ++ l') sent.
Proof.
  intros H j d Hj. destruct (H j d Hj) as (s & Hs & Hsh). exists s. split; [|done]. by apply lookup_app_l_Some.
Qed.

Lemma tx_ok_same n t t' sl : tx_ok n t sl -> ntxd t' = ntxd t -> txin t' = txin t -> txout t' = txout t ->
  txd32 t' = txd32 t -> txp t' = txp t -> tx_ok n t' sl.
Proof.
  intros [[Hl Hi Hn Hr Hp] Ho] E1 E2 E3 E4 E5. split; [split|]; rewrite ?E1, ?E2, ?E3, ?E4, ?E5; done.
Qed.

Lemma inv_with n w t' gone sl ptr : tx_inv n w gone sl ptr -> ntxd t' = ntxd (w_tx w) ->
  txin t' = txin (w_tx w) -> txout t' = txout (w_tx w) -> txd32 t' = txd32 (w_tx w) -> txp t' = txp (w_tx w) ->
  tx_ptr t' = tx_ptr (w_tx w) -> tx_freed t' = tx_freed (w_tx w) -> txavail t' + Z.of_nat (length sl) <= n - 1 ->
  tx_inv n (with_tx w t') gone sl ptr.
Proof.
  intros I E1 E2 E3 E4 E5 E6 E7 E8. destruct I. split; cbn; try congruence; try done. by eapply tx_ok_same.
Qed.

Lemma inv_post ext n w gone sl ptr p commit : ring_size n -> tx_inv n w gone sl ptr ->
  p_bufs p <> [] -> Forall buf_ok (p_bufs p) ->
  exists w' sl' ptr', tx_step ext w (TxPost p commit) = Some w' /\ tx_inv n w' gone sl' ptr'.
Proof.
  intros Hn I Hne Hb. pose proof I as [Hok Hin Hacc Hret Hle Hcur Hptr Hsent Hfreed Hav].
  destruct (dma32_txfast_spec ext n (w_tx w) sl p commit Hn Hok Hne Hb) as (t' & Hx & Hres).
  cbn [tx_step]. rewrite Hx. cbn [option_bind].
  destruct (Z.leb_spec (Z.of_nat (length sl + length (p_bufs p))) (n - 1)) as [Hfit|Hfull].
  - destruct Hres as (Hok' & Hfr & Hin' & Hp' & Hav').
    assert (Hlf : length (frame p) = length (p_bufs p)) by apply length_slots_of.
    eexists _, (sl ++ frame p), (if commit then length gone + length (sl ++ frame p) else ptr)%nat.
    split; [reflexivity|]. split; cbn; try done; try congruence.
    + rewrite flat_map_app, Hacc. cbn. by rewrite app_nil_r, app_assoc.
    + rewrite length_app. destruct commit; lia.
    + rewrite Hp'. destruct commit; [|done]. destruct Hok' as [_ ->]. rewrite Hin', Hin, Zplus_mod_idemp_l.
      do 2 f_equal. lia.
    + rewrite app_assoc. by apply transmitted_app.
    + rewrite length_app. lia.
  - destruct Hres as (Hok' & Hfr & Hin' & Hp' & Hav'). eexists _, sl, ptr. split; [reflexivity|].
    destruct Hok as [[] _]. split; cbn; try done; try congruence; [by rewrite map_app, Hfr, Hfreed|lia].
Qed.

Lemma inv_reap ext n w gone sl ptr hi : ring_size n -> tx_inv n w gone sl ptr ->
  exists w' gone' sl', tx_step ext w (TxReap hi) = Some w' /\ tx_inv n w' gone' sl' ptr.
Proof.
  intros Hn I. pose proof I as [Hok Hin Hacc Hret Hle Hcur Hptr Hsent Hfreed Hav].
  assert (Hn0 : 0 < n <= 512).
  { destruct Hn as (k & Hk & ->). change 512 with (2 ^ 9). split; [apply Z.pow_pos_nonneg; lia|apply Z.pow_le_mono_r; lia]. }
  set (m := (length (w_sent w) - length gone)%nat).
  destruct (dma32_getnexttxp_spec n (w_tx w) sl m (hi * 2 ^ 12 + I2B (w_cur w)) false Hn Hok) as (t' & Hx & Hok' & Hfr & Hp' & Hav' & q & Hq & Hin').
  { subst m. lia. }
  { unfold reads. rewrite Hin, (index_abs n _ m) by lia. rewrite Hcur.
    replace (length gone + m)%nat with (length (w_sent w)) by (subst m; lia).
    pose proof (Z.mod_pos_bound (Z.of_nat (length (w_sent w))) n ltac:(lia)). rewrite Z2Nat.id by lia.
    change XS_CD_MASK with (Z.ones 12). rewrite Z.land_ones by lia. unfold I2B, sizeof_dd in *.
    rewrite Z.add_comm, Z_mod_plus_full. apply Z.mod_small. change (2 ^ 12) with 4096. lia. }
  destruct (pop_spec m sl q) as (Hqm & Hd & Hr); [subst m; lia|done|]. rewrite Hd in *.
  cbn [tx_step]. rewrite Hx. eexists _, (gone ++ take q sl), (drop q sl). split; [reflexivity|].
  assert (Hlt : length (take q sl) = q) by (rewrite length_take; lia).
  assert (Hsplit : (gone ++ take q sl) ++ drop q sl = gone ++ sl) by (by rewrite <- app_assoc, take_drop).
  split; cbn; try done; try congruence; rewrite ?Hsplit, ?length_app, ?Hlt; try done; try lia.
  - rewrite Hin', Hin, index_abs by lia. pose proof (Z.mod_pos_bound (Z.of_nat (length gone + q)) n ltac:(lia)). lia.
  - by rewrite omap_app, Hret, Hr.
Qed.

Lemma inv_chip ext n w gone sl ptr : ring_size n -> tx_inv n w gone sl ptr ->
  exists w', tx_step ext w TxChip = Some w' /\ tx_inv n w' gone sl ptr.
Proof.
  intros Hn I. pose proof I as [Hok Hin Hacc Hret Hle Hcur Hptr Hsent Hfreed Hav]. cbn [tx_step].
  assert (Hn0 : 0 < n) by (destruct Hn as (k & Hk & ->); apply Z.pow_pos_nonneg; lia).
  destruct (_ && _ && _) eqn:E; [|by exists w]. apply andb_true_iff in E as [_ E]. apply negb_true_iff, Z.eqb_neq in E.
  pose proof Hok as [[(Hnt & Hld & Hlp) Ha Hlen Hring Hps] Hout].
  set (m := (length (w_sent w) - length gone)%nat).
  assert (Hm : (m < length sl)%nat).
  { assert (length (w_sent w) <> ptr); [|subst m; lia]. intros Hp. apply E. rewrite Hcur, Hptr, Hp. unfold B2I, I2B, sizeof_dd.
    rewrite Z.div_mul; lia. }
  destruct (lookup_lt_is_Some_2 sl m Hm) as [s Hs]. destruct (Hring m s Hs) as (d & Hd & Hsh).
  assert (Hi : index n (txin (w_tx w)) m = Z.to_nat (w_cur w)).
  { rewrite Hin, index_abs, Hcur by lia. do 3 f_equal. subst m. lia. }
  pose proof (Z.mod_pos_bound (Z.of_nat (length (w_sent w))) n Hn0).
  rewrite Hi in Hd, Hsh. rewrite Hd. eexists. split; [reflexivity|]. rewrite Z2Nat.id in Hsh by lia.
  split; cbn; try done; rewrite ?length_app; cbn [length].
  - assert (length (w_sent w) <> ptr); [|lia]. intros Hp. apply E. rewrite Hcur, Hptr, Hp. unfold B2I, I2B, sizeof_dd.
    rewrite Z.div_mul; lia.
  - rewrite Hnt, Hcur, Zplus_mod_idemp_l. f_equal. lia.
  - intros j x Hj. destruct (decide (j = length (w_sent w))) as [->|Hne].
    + rewrite list_lookup_middle in Hj by done. injection Hj as <-. exists s. rewrite <- Hcur. split; [|done].
      rewrite lookup_app_r by lia. exact Hs.
    + pose proof (lookup_lt_Some _ _ _ Hj) as Hl. rewrite length_app in Hl. cbn in Hl.
      apply Hsent. rewrite lookup_app_l in Hj by lia. exact Hj.
Qed.

Lemma inv_step ext n w gone sl ptr e : ring_size n -> tx_inv n w gone sl ptr -> tx_event_ok e ->
  exists w' gone' sl' ptr', tx_step ext w e = Some w' /\ tx_inv n w' gone' sl' ptr'.
Proof.
  intros Hn I He. pose proof (i_ok _ _ _ _ _ I) as [[(Hnt & _) Hin Hlen _ _] Hout]. pose proof (i_avail _ _ _ _ _ I).
  destruct e as [p commit|hi| | | | |].
  - destruct He as [Hne Hb]. destruct (inv_post ext n w gone sl ptr p commit Hn I Hne Hb) as (w' & sl' & ptr' & ? & ?).
    by exists w', gone, sl', ptr'.
  - destruct (inv_reap ext n w gone sl ptr hi Hn I) as (w' & gone' & sl' & ? & ?). by exists w', gone', sl', ptr.
  - eexists _, gone, sl, ptr. split; [reflexivity|]. unfold dma32_txsuspend. destruct (_ =? _); by apply (inv_with n w).
  - eexists _, gone, sl, ptr. split; [reflexivity|]. unfold dma32_txresume. destruct (_ =? _); by apply (inv_with n w).
  - eexists _, gone, sl, ptr. split; [reflexivity|]. apply (inv_with n w); done.
  - eexists _, gone, sl, ptr. split; [reflexivity|]. apply (inv_with n w); try done. cbn. destruct Hn as (k & Hk & Hn).
    rewrite (tx_active n (w_tx w) sl k) by done. lia.
  - destruct (inv_chip ext n w gone sl ptr Hn I) as (w' & ? & ?). by exists w', gone, sl, ptr.
Qed.

(** A ring as [dma_attach] leaves it: descriptors and slots for [n] entries, no packets. *)
Definition tx_fresh (n : Z) (t : dma_tx) : Prop :=
  ntxd t = n /\ Z.of_nat (length (txd32 t)) = n /\ txp t = replicate (Z.to_nat n) None /\ tx_ptr t = 0 /\ tx_freed t = [].

Definition tx_start (t : dma_tx) (evs : list tx_event) (ext : bool) (dpa : Z) : option tx_world :=
  let? t := dma32_txinit ext 0 dpa t in
  tx_run ext (World t 0 [] [] [] []) evs.

Lemma inv_init n ext dpa t : ring_size n -> tx_fresh n t ->
  exists t', dma32_txinit ext 0 dpa t = Some t' /\ tx_inv n (World t' 0 [] [] [] []) [] [] 0.
Proof.
  intros (k & Hk & Hn) (Hnt & Hl & Hp & Hptr & Hf). assert (0 < n) by (subst n; apply Z.pow_pos_nonneg; lia).
  unfold dma32_txinit. rewrite (proj2 (Z.eqb_neq _ _)) by lia. eexists. split; [reflexivity|].
  split; cbn; try done; try lia; try (by rewrite Z.mod_0_l by lia).
  - split; cbn; [|by rewrite Z.mod_0_l by lia]. split; cbn; try lia.
    + split; [done|]. rewrite length_map, Hp, length_replicate. split; lia.
    + intros j s Hj. done.
    + intros j Hj. rewrite Hp. apply lookup_replicate_2. by apply index_lt.
Qed.

Lemma frame_id p : p_bufs p <> [] -> omap s_id (frame p) = [p_id p].
Proof.
  unfold frame. generalize true. induction (p_bufs p) as [|[pa len] [|b l] IH]; intros first H; [done|done|].
  exact (IH false ltac:(done)).
Qed.

Lemma frames_ids acc : Forall (fun p => p_bufs p <> []) acc -> omap s_id (flat_map frame acc) = map p_id acc.
Proof. induction 1 as [|p acc Hp _ IH]; cbn; [done|]. by rewrite omap_app, frame_id, IH. Qed.

(** Only packets with buffers are ever accepted. *)
Lemma tx_step_acc ext w e w' : tx_event_ok e -> tx_step ext w e = Some w' ->
  Forall (fun p => p_bufs p <> []) (w_acc w) -> Forall (fun p => p_bufs p <> []) (w_acc w').
Proof.
  intros He Hs Ha. destruct e; cbn in Hs; repeat case_match; simplify_eq/=; try done.
  apply Forall_app. split; [done|]. constructor; [apply He|constructor].
Qed.

Lemma tx_run_spec ext n evs w gone sl ptr : ring_size n -> tx_inv n w gone sl ptr ->
  Forall (fun p => p_bufs p <> []) (w_acc w) -> Forall tx_event_ok evs ->
  exists w' gone' sl' ptr', tx_run ext w evs = Some w' /\ tx_inv n w' gone' sl' ptr' /\
    Forall (fun p => p_bufs p <> []) (w_acc w').
Proof.
  intros Hn I Ha Hev. revert w gone sl ptr I Ha. induction Hev as [|e evs He Hev IH]; intros w gone sl ptr I Ha; cbn.
  - by exists w, gone, sl, ptr.
  - destruct (inv_step ext n w gone sl ptr e Hn I He) as (w1 & g1 & s1 & p1 & Hs & I1). rewrite Hs. cbn.
    apply (IH w1 g1 s1 p1 I1). by eapply tx_step_acc.
Qed.


Definition ring4 : dma_tx := Tx 4 0 0 (replicate 4 (Dd 7 7)) (replicate 4 None) 0 0 0 0 0 [].


(** * Reclaiming everything *)

(** [dma32_txreclaim] with [forceall], after a reset, frees the packets in the ring, in
    order, and empties it, whatever the status register reads. *)
Theorem dma32_txreclaim_all n t sl status fuel : ring_size n -> tx_ok n t sl -> (length sl < fuel)%nat ->
  exists t', dma32_txreclaim fuel t status true = Some t' /\ tx_freed t' = tx_freed t ++ omap s_id sl /\
    tx_ok n t' [] /\ txavail t' = n - 1.
Proof.
  intros Hn. remember (length sl) as l eqn:Hl. revert t sl fuel Hl. induction (lt_wf l) as [l _ IH].
  intros t sl [|fuel] -> Hok Hf; [lia|]. cbn [dma32_txreclaim].
  destruct (dma32_getnexttxp_spec n t sl (length sl) status true Hn Hok (Nat.le_refl _) eq_refl)
    as (t' & -> & Hok' & Hfr & Hp & Hav & q & Hq & Hin).
  destruct (pop_spec (length sl) sl q (Nat.le_refl _) Hq) as (Hqm & Hd & Hr). cbn [option_bind].
  destruct ((pop (length sl) sl).1) as [p|] eqn:Ep.
  - destruct q as [|q]; [by rewrite take_0 in Hr|]. set (u := Tx _ _ _ _ _ _ _ _ _ _ _).
    destruct (IH (length (pop (length sl) sl).2) ltac:(lia) u (pop (length sl) sl).2 fuel eq_refl) as (t'' & -> & Hf2 & Hok2 & Hav2).
    + by apply (tx_ok_same n t').
    + lia.
    + exists t''. split; [done|]. split; [|done]. rewrite Hf2. cbn. rewrite Hfr, <- app_assoc, Hd. f_equal.
      rewrite <- (take_drop (S q) sl) at 2. by rewrite omap_app, Hr.
  - exists t'. split; [done|].
    assert (Hz : (pop (length sl) sl).2 = [] /\ omap s_id sl = []).
    { clear -Ep. induction sl as [|s sl IH]; [done|]. cbn in *. destruct (s_id s); [done|]. by apply IH. }
    destruct Hz as [Hz1 Hz2]. rewrite Hz1 in *. rewrite Hz2, app_nil_r. split; [done|]. split; [done|]. cbn in Hav. lia.
Qed.

(** A ring with a packet of two buffers and one of one. *)
Lemma dma32_txreclaim_all_witness :
  exists t, (let? t := dma32_txinit false 0 0x8000 ring4 in
             let? (_, t) := dma32_txfast 0 false t (Pkt 1 [(0x1000, 60); (0x2000, 40)]) true in
             let? (_, t) := dma32_txfast 0 false t (Pkt 2 [(0x3000, 100)]) true in Some t) = Some t /\
  exists t', dma32_txreclaim 5 t 0 true = Some t' /\ tx_freed t' = tx_freed t ++ [1; 2] /\ tx_ok 4 t' [] /\ txavail t' = 4 - 1.
Proof.
  eexists. split; [vm_compute; reflexivity|].
  apply (dma32_txreclaim_all 4 _ (frame (Pkt 1 [(0x1000, 60); (0x2000, 40)]) ++ frame (Pkt 2 [(0x3000, 100)]))).
  - exists 2. split; [lia|reflexivity].
  - split; [|reflexivity]. split; [done| |vm_compute; discriminate| |].
    + vm_compute. split; [discriminate|reflexivity].
    + intros [|[|[|j]]] s Hs; cbn in Hs; try discriminate; injection Hs as <-; eexists; (split; [reflexivity|done]).
    + intros [|[|[|[|j]]]] Hj; try reflexivity. vm_compute in Hj. lia.
  - vm_compute. lia.
Defined.

(** ** Stopping *)

Lemma spin_spec fuel mask busy reads k c : 0 <= c -> (Z.to_nat c < fuel)%nat ->
  exists j, spin fuel mask busy reads k c = Some (Z.land (reads (k + j)%nat) mask, S (k + j)) /\
    (Z.of_nat j <= c / 10) /\
    (forall i, (i < j)%nat -> busy (Z.land (reads (k + i)%nat) mask) = true) /\
    (busy (Z.land (reads (k + j)%nat) mask) = true -> Z.of_nat j = c / 10).
Proof.
  revert k c. induction fuel as [|fuel IH]; intros k c Hc Hf; [lia|]. cbn [spin].
  destruct (busy (Z.land (reads k) mask)) eqn:Eb; cbn [andb]; [destruct (Z.leb_spec 10 c)|].
  - destruct (IH (S k) (c - 10)) as (j & Hs & Hj & Hb & He); [lia|lia|]. exists (S j).
    assert (Hd : c / 10 = (c - 10) / 10 + 1) by (rewrite <- Z.div_add by lia; f_equal; lia).
    rewrite !Nat.add_succ_r. cbn [Nat.add] in *. split; [exact Hs|]. split; [lia|]. split; [|intros H1; specialize (He H1); lia].
    intros [|i] Hi; [by rewrite Nat.add_0_r|]. rewrite Nat.add_succ_r. apply (Hb i). lia.
  - exists 0%nat. rewrite Nat.add_0_r. rewrite (Z.div_small c 10) by lia. split; [done|]. split; [lia|]. split; [lia|done].
  - exists 0%nat. rewrite Nat.add_0_r. split; [done|]. split; [pose proof (Z.div_pos c 10); lia|]. split; [lia|]. congruence.
Qed.

Lemma spinwait_spec mask busy reads k : exists j,
  spinwait mask busy 10000 reads k = Some (Z.land (reads (k + j)%nat) mask, S (k + j)) /\ (j <= 1000)%nat /\
  (forall i, (i < j)%nat -> busy (Z.land (reads (k + i)%nat) mask) = true) /\
  (busy (Z.land (reads (k + j)%nat) mask) = true -> j = 1000%nat).
Proof.
  unfold spinwait. destruct (spin_spec (S (Z.to_nat (10000 + 9))) mask busy reads k (10000 + 9)) as (j & Hs & Hj & Hb & He); [lia|lia|].
  change ((10000 + 9) / 10) with 1000 in Hj, He. exists j. split; [done|]. split; [lia|]. split; [done|]. intros H. specialize (He H). lia.
Qed.

(** Resetting the transmit engine always returns, after at most 1001 reads of the status for
    each of its two waits, whatever the chip answers; the engine is left switched off; and
    [TRUE] is returned exactly when, counting from the end of the first wait at read [k], one
    of the next 1001 reads says that the engine is disabled. *)
Theorem dma32_txreset_returns t reads : ntxd t <> 0 -> exists ok k, (k <= 1001)%nat /\
  dma32_txreset t reads = Some (ok, set_control t 0) /\
  (ok = true <-> exists j, (j <= 1000)%nat /\ Z.land (reads (k + j)%nat) XS_XS_MASK = XS_XS_DISABLED) /\
  (forall i, (S i < k)%nat -> ~ In (Z.land (reads i) XS_XS_MASK) [XS_XS_DISABLED; XS_XS_IDLE; XS_XS_STOPPED]).
Proof.
  intros Hn. unfold dma32_txreset. rewrite (proj2 (Z.eqb_neq _ _)) by done.
  edestruct (spinwait_spec XS_XS_MASK
    (fun s => negb (s =? XS_XS_DISABLED) && negb (s =? XS_XS_IDLE) && negb (s =? XS_XS_STOPPED)) reads 0) as (j1 & -> & Hj1 & Hb1 & _).
  cbn [option_bind Nat.add].
  edestruct (spinwait_spec XS_XS_MASK (fun s => negb (s =? XS_XS_DISABLED)) reads (S j1)) as (j2 & -> & Hj2 & Hb2 & He2).
  cbn [option_bind]. eexists _, (S j1). split; [lia|]. split; [reflexivity|]. split.
  - rewrite Z.eqb_eq. split; [intros H; by exists j2|]. intros (j & Hj & Hd).
    destruct (Z.eqb_spec (Z.land (reads (S j1 + j2)%nat) XS_XS_MASK) XS_XS_DISABLED) as [|Hne]; [done|exfalso].
    assert (j2 = 1000%nat) by (by apply He2).
    destruct (decide (j = j2)) as [->|]; [done|]. specialize (Hb2 j ltac:(lia)). by rewrite Hd in Hb2.
  - intros i Hi Hin. specialize (Hb1 i ltac:(lia)). cbn in Hb1.
    destruct Hin as [E|[E|[E|[]]]]; rewrite <- E in Hb1; done.
Qed.

(** A chip that is idle at the third read and disabled four reads later. *)
Lemma dma32_txreset_returns_witness :
  let reads := fun i => if (i <? 2)%nat then 0x1008 else if (i <? 7)%nat then 0x2008 else 0 in
  ntxd ring4 <> 0 /\ exists ok k, (k <= 1001)%nat /\
  dma32_txreset ring4 reads = Some (ok, set_control ring4 0) /\
  (ok = true <-> exists j, (j <= 1000)%nat /\ Z.land (reads (k + j)%nat) XS_XS_MASK = XS_XS_DISABLED) /\
  (forall i, (S i < k)%nat -> ~ In (Z.land (reads i) XS_XS_MASK) [XS_XS_DISABLED; XS_XS_IDLE; XS_XS_STOPPED]).
Proof. split; [done|]. apply dma32_txreset_returns. done. Defined.

(** * The receive ring as a queue of buffers *)

(** A posted buffer: the packet and the physical address of its data. *)
Definition rx_slot (size : Z) (b : Z * Z) : slot := Slot false false b.2 size (Some b.1).

Record rx_ok (n : Z) (r : dma_rx_side) (q : list (Z * Z)) : Prop := {
  rx_n : nrxd r = n /\ Z.of_nat (length (rxd32 r)) = n /\ Z.of_nat (length (rxp r)) = n;
  rx_in : 0 <= rxin r < n;
  rx_len : Z.of_nat (length q) <= n - 1;
  rx_out : rxout r = (rxin r + Z.of_nat (length q)) mod n;
  rx_ring : ring_holds n (rxin r) (rxd32 r) (map (rx_slot (rxbufsize r)) q);
  rx_ps : forall j, (j < Z.to_nat n)%nat -> rxp r !! index n (rxin r) j = Some (fst <$> q !! j)
}.

(** The buffers that are posted when [k] are asked for. *)
Fixpoint posted (k : nat) (gets : list (option (Z * Z))) : list (Z * Z) :=
  match k, gets with S k, Some b :: gets => b :: posted k gets | _, _ => [] end.

Definition get_ok (g : option (Z * Z)) : Prop :=
  match g with Some (_, pa) => 0 <= pa < 2 ^ 32 /\ Z.land pa 3 = 0 | None => True end.

Lemma index_out n a k : 0 <= a < n -> (a + Z.of_nat k) mod n = Z.of_nat (index n a k).
Proof. intros. unfold index. pose proof (Z.mod_pos_bound (a + Z.of_nat k) n). lia. Qed.

Lemma fill_loop_spec ext n r k gets q nobuf ring ps a :
  ring_size n -> nrxd r = n -> 0 <= a < n -> 0 <= rxbufsize r <= CTRL_BC_MASK -> Forall get_ok gets ->
  Z.of_nat (length q + k) <= n - 1 -> Z.of_nat (length ring) = n -> Z.of_nat (length ps) = n ->
  ring_holds n a ring (map (rx_slot (rxbufsize r)) q) ->
  (forall j, (j < Z.to_nat n)%nat -> ps !! index n a j = Some (fst <$> q !! j)) ->
  exists ring' ps', fill_loop 0 ext r k gets (Z.of_nat (index n a (length q))) nobuf ring ps =
      Some (Z.of_nat (index n a (length (q ++ posted k gets))),
            nobuf + (if (length (posted k gets) <? k)%nat then 1 else 0), ring', ps') /\
    Z.of_nat (length ring') = n /\ Z.of_nat (length ps') = n /\
    ring_holds n a ring' (map (rx_slot (rxbufsize r)) (q ++ posted k gets)) /\
    (forall j, (j < Z.to_nat n)%nat -> ps' !! index n a j = Some (fst <$> (q ++ posted k gets) !! j)).
Proof.
  intros (k2 & Hk2 & Hn) Hr Ha Hb Hg. revert gets q ring ps Hg.
  induction k as [|k IH]; intros gets q ring ps Hg Hl Hlr Hlp Hring Hps; cbn [fill_loop posted].
  { exists ring, ps. rewrite app_nil_r, Z.add_0_r. done. }
  destruct Hg as [|g gets Hg1 Hg]; [exists ring, ps; by rewrite app_nil_r|].
  destruct g as [[id pa]|]; [|exists ring, ps; by rewrite app_nil_r].
  destruct Hg1 as [Hpa Hal]. rewrite (proj2 (Z.eqb_eq _ _) Hal).
  set (i := index n a (length q)) in *. pose proof (index_lt n a (length q) ltac:(lia)) as Hi. fold i in Hi.
  assert (Hpi : ps !! i = Some None) by (subst i; rewrite Hps by lia; by rewrite lookup_ge_None_2 by lia).
  rewrite Nat2Z.id, Hpi, bool_decide_true by done.
  destruct (dd_val_shows ext pa false false (Z.of_nat i =? n - 1) (rxbufsize r) (Some id) Hpa Hb) as (d & Hd & Hsh & _).
  rewrite Hr. change (if Z.of_nat i =? n - 1 then CTRL_EOT else 0) with (tx_flags false false (Z.of_nat i =? n - 1)).
  unfold dma32_dd_upd. rewrite Hd, (proj2 (Z.ltb_lt _ _)), Nat2Z.id by lia. cbn [option_bind].
  assert (Hx : NEXTRXD r (Z.of_nat i) = Z.of_nat (index n a (length (q ++ [(id, pa)])))).
  { unfold NEXTRXD, RXD. rewrite Hr, (XXD_mod _ k2 n) by (done || lia). subst i. rewrite index_next by lia.
    rewrite length_app. cbn. do 2 f_equal. lia. }
  rewrite Hx.
  destruct (IH gets (q ++ [(id, pa)]) (<[i := d]> ring) (<[i := Some id]> ps) Hg) as (ring' & ps' & Hf & H1 & H2 & H3 & H4).
  - rewrite length_app. cbn. lia.
  - by rewrite length_insert.
  - by rewrite length_insert.
  - rewrite map_app. subst i. rewrite <- (length_map (rx_slot (rxbufsize r)) q) in *. apply ring_snoc; try done; lia.
  - intros j Hj. destruct (decide (j = length q)) as [->|Hne].
    + rewrite list_lookup_insert_eq by lia. by rewrite list_lookup_middle.
    + rewrite list_lookup_insert_ne by (intros E; apply index_inj in E; lia). rewrite Hps by done. f_equal. f_equal.
      destruct (decide (j < length q)%nat); [by rewrite lookup_app_l|].
      rewrite !lookup_ge_None_2; [done|rewrite length_app; cbn; lia|lia].
  - exists ring', ps'. rewrite Hf. rewrite <- !app_assoc in *. cbn in *. by repeat split.
Qed.

(** Posting receive buffers fills the ring up to [nrxpost] buffers, or as far as [PKTGET]
    goes, in which case [rxnobuf] counts it; the chip is told how far it may go, and no
    assertion fails. *)
Theorem dma_rxfill_posts ext n r q gets : ring_size n -> rx_ok n r q ->
  Z.of_nat (length q) <= nrxpost r <= n - 1 -> 0 <= rxbufsize r <= CTRL_BC_MASK -> Forall get_ok gets ->
  let need := Z.to_nat (nrxpost r - Z.of_nat (length q)) in
  exists r', dma_rxfill 0 ext r gets = Some r' /\ rx_ok n r' (q ++ posted need gets) /\ rx_ptr r' = I2B (rxout r') /\
    rxnobuf r' = rxnobuf r + (if (length (posted need gets) <? need)%nat then 1 else 0).
Proof.
  intros Hn [(Hr & Hlr & Hlp) Ha Hlen Ho Hring Hps] Hp Hb Hg need. unfold dma_rxfill.
  assert (Hac : wrap32 (nrxpost r - NRXDACTIVE r) = nrxpost r - Z.of_nat (length q)).
  { destruct Hn as (k & Hk & Hn). assert (n <= 512) by (subst n; change 512 with (2 ^ 9); apply Z.pow_le_mono_r; lia).
    unfold NRXDACTIVE, RXD. rewrite Hr, Ho, (XXD_mod _ k n) by (lia || done). rewrite Zminus_mod_idemp_l.
    replace (rxin r + Z.of_nat (length q) - rxin r) with (Z.of_nat (length q)) by lia. rewrite Z.mod_small by lia.
    apply wrap32_small. lia. }
  rewrite Hac, Ho, index_out by lia. fold need.
  assert (Hpl : (length (posted need gets) <= need)%nat).
  { clear. revert gets. induction need as [|k IH]; intros [|[b|] gets]; cbn; try lia. specialize (IH gets). lia. }
  destruct (fill_loop_spec ext n r need gets q (rxnobuf r) (rxd32 r) (rxp r) (rxin r) Hn Hr Ha Hb Hg ltac:(lia) Hlr Hlp Hring Hps)
    as (ring' & ps' & -> & H1 & H2 & H3 & H4). cbn [option_bind].
  eexists. split; [reflexivity|]. split; [|done]. split; cbn; try done.
  - rewrite length_app. lia.
  - by rewrite index_out by lia.
Qed.

Definition rx4 : dma_rx_side := Rx 4 3 3 (replicate 4 (Dd 7 7)) (replicate 4 None) 1500 3 28 0 0 1 24 0 [].

(** Two of three buffers are got, and go round the end of the ring. *)
Lemma dma_rxfill_posts_witness :
  exists r', dma_rxfill 0 false rx4 [Some (1, 0x1000); Some (2, 0x2000); None] = Some r' /\ rx_ok 4 r' [(1, 0x1000); (2, 0x2000)] /\
    rx_ptr r' = I2B (rxout r') /\ rxnobuf r' = 0 + 1.
Proof.
  apply (dma_rxfill_posts false 4 rx4 []).
  - exists 2. split; [lia|reflexivity].
  - split; try done. intros [|[|[|[|j]]]] Hj; try reflexivity. vm_compute in Hj. lia.
  - cbn. lia.
  - cbn. unfold CTRL_BC_MASK. lia.
  - repeat constructor; cbn; lia.
Defined.

Lemma rx_free_ok n r q p g : rx_ok n r q -> rx_ok n (rx_free r p g) q.
Proof. intros []. by split. Qed.

Definition rx_reads (n : Z) (r : dma_rx_side) (m : nat) (status : Z) : Prop :=
  Z.land status RS_CD_MASK = I2B (Z.of_nat (index n (rxin r) m)).

(** The oldest buffer is given back if the chip has gone past it. *)
Lemma dma_getnextrxp_spec n r q m status : ring_size n -> rx_ok n r q -> (m <= length q)%nat -> rx_reads n r m status ->
  match q, m with
  | b :: q, S m =>
      exists r', dma_getnextrxp r status false = Some (Some b.1, r') /\ rx_ok n r' q /\ rx_reads n r' m status /\
        rxbufsize r' = rxbufsize r /\ rxoffset r' = rxoffset r /\ rxgiants r' = rxgiants r /\ rx_freed r' = rx_freed r
  | _, _ => dma_getnextrxp r status false = Some (None, r)
  end.
Proof.
  intros (k & Hk & Hn) [(Hr & Hlr & Hlp) Ha Hlen Ho Hring Hps] Hm Hst. unfold dma_getnextrxp, dma32_getnextrxp.
  rewrite Hr, (proj2 (Z.eqb_neq n 0)) by lia. cbn [negb orb andb].
  assert (Hb : B2I (Z.land status RS_CD_MASK) = Z.of_nat (index n (rxin r) m)).
  { rewrite Hst. unfold B2I, I2B, sizeof_dd. apply Z.div_mul. lia. }
  rewrite Hb, Ho, index_out by lia.
  assert (H0 : rxin r = Z.of_nat (index n (rxin r) 0)) by (rewrite index_0 by lia; lia).
  destruct q as [|[id pa] q]; cbn [length] in *.
  - rewrite <- H0, Z.eqb_refl. done.
  - rewrite (proj2 (Z.eqb_neq _ _)) by (intros E; rewrite H0 in E at 1; apply Nat2Z.inj, index_inj in E; lia).
    destruct m as [|m]; [by rewrite <- H0, Z.eqb_refl|].
    rewrite (proj2 (Z.eqb_neq _ _)) by (intros E; rewrite H0 in E at 1; apply Nat2Z.inj, index_inj in E; lia).
    pose proof (Hps 0%nat ltac:(lia)) as Hp0. rewrite index_0 in Hp0 by lia. rewrite Hp0. cbn.
    destruct (Hring 0%nat _ eq_refl) as (d & Hd & _). rewrite index_0 in Hd by lia. rewrite Hd.
    eexists. split; [reflexivity|].
    assert (Hx : NEXTRXD r (rxin r) = (rxin r + 1) mod n) by (unfold NEXTRXD, RXD; rewrite Hr; apply (XXD_mod _ k); lia || done).
    pose proof (Z.mod_pos_bound (rxin r + 1) n ltac:(lia)).
    split; [|split; [|done]]; [split; cbn; rewrite ?Hx|].
    + split; [done|]. by rewrite !length_insert.
    + done.
    + lia.
    + rewrite Zplus_mod_idemp_l, <- index_out by lia. f_equal. lia.
    + intros j s Hj. pose proof (lookup_lt_Some _ _ _ Hj) as Hjl. rewrite length_map in Hjl.
      destruct (Hring (S j) s Hj) as (d' & Hd' & Hs). exists d'. rewrite index_from_next by lia. split; [|done].
      rewrite list_lookup_insert_ne; [done|]. rewrite <- (index_0 n (rxin r)) by lia. intros E. apply index_inj in E; lia.
    + intros j Hj. rewrite index_from_next by lia. destruct (decide (S j < Z.to_nat n)%nat).
      * rewrite list_lookup_insert_ne; [by rewrite (Hps (S j))|]. rewrite <- (index_0 n (rxin r)) by lia. intros E. apply index_inj in E; lia.
      * assert (index n (rxin r) (S j) = Z.to_nat (rxin r)) as ->.
        { unfold index. replace (rxin r + Z.of_nat (S j)) with (rxin r + 1 * n) by lia. by rewrite Z_mod_plus_full, Z.mod_small. }
        rewrite list_lookup_insert_eq by lia. by rewrite lookup_ge_None_2 by lia.
    + unfold rx_reads. cbn. rewrite Hx, index_from_next by lia. exact Hst.
Qed.

(** A frame the chip has received: the length in its header, and the buffers it fills, the
    first with [rxoffset] bytes in front. *)
Record rx_frame := RxFrame { f_len : Z; f_head : Z * Z; f_more : list (Z * Z) }.

Definition f_bufs (f : rx_frame) : list (Z * Z) := f_head f :: f_more f.

Definition extra (size s : Z) : Z := (s + size - 1) / size.

Definition rx_frame_ok (size offset : Z) (frame_len : Z -> Z) (f : rx_frame) : Prop :=
  0 <= f_len f < 2 ^ 16 /\ frame_len (f_head f).1 = f_len f /\
  Z.of_nat (length (f_more f)) = extra size (Z.max 0 (f_len f - (size - offset))).

(** What one call of [dma_rx] should do with the received frames: the frame it gives, the
    buffers it frees, the giants it counts and the buffers it leaves. *)
Fixpoint rx_expect (size offset : Z) (fs : list rx_frame) : option (Z * Z) * list Z * Z * list (Z * Z) :=
  match fs with
  | [] => (None, [], 0, [])
  | f :: fs =>
      if f_len f <=? size - offset then (Some ((f_head f).1, offset + f_len f), [], 0, flat_map f_bufs fs)
      else
        let '(res, freed, giants, kept) := rx_expect size offset fs in
        (res, map fst (f_bufs f) ++ freed, giants + 1, kept)
  end.

Lemma extra_pos size s : 0 < size -> 0 < s -> extra size s = 1 + extra size (Z.max 0 (s - size)).
Proof.
  intros Hz Hs. unfold extra. destruct (Z.le_gt_cases s size).
  - rewrite Z.max_l by lia. rewrite (Z.div_small (0 + size - 1)) by lia.
    replace (s + size - 1) with (1 * size + (s - 1)) by lia. rewrite Z.div_add_l, Z.div_small by lia. lia.
  - rewrite Z.max_r by lia. replace (s + size - 1) with (1 * size + (s - size + size - 1)) by lia. rewrite Z.div_add_l by lia. done.
Qed.

Lemma extra_0 size : 0 < size -> extra size 0 = 0.
Proof. intros. unfold extra. apply Z.div_small. lia. Qed.

(** The rest of a giant is freed. *)
Lemma rx_skip n status frame_len bs s r q m fuel : ring_size n -> 0 < rxbufsize r <= CTRL_BC_MASK -> 0 <= s < 2 ^ 17 ->
  Z.of_nat (length bs) = extra (rxbufsize r) s -> rx_ok n r (bs ++ q) -> (m <= length q)%nat ->
  rx_reads n r (length bs + m) status ->
  exists r', rx_loop (length bs + fuel) r status frame_len s = rx_loop fuel r' status frame_len 0 /\
    rx_ok n r' q /\ rx_reads n r' m status /\ rx_freed r' = rx_freed r ++ map fst bs /\
    rxbufsize r' = rxbufsize r /\ rxoffset r' = rxoffset r /\ rxgiants r' = rxgiants r.
Proof.
  intros Hn. unfold CTRL_BC_MASK. revert s r. induction bs as [|b bs IH]; intros s r Hz Hs Hl Hok Hm Hst.
  - assert (s = 0) as ->.
    { destruct (Z.eq_dec s 0); [done|]. cbn in Hl. rewrite extra_pos in Hl by lia. unfold extra in Hl.
      pose proof (Z.div_pos (Z.max 0 (s - rxbufsize r) + rxbufsize r - 1) (rxbufsize r)). lia. }
    exists r. rewrite app_nil_r. done.
  - assert (0 < s) by (destruct (Z.eq_dec s 0) as [->|]; [rewrite extra_0 in Hl by lia; cbn in Hl; lia|lia]).
    rewrite extra_pos in Hl by lia. cbn [length Nat.add rx_loop] in *.
    assert (Hm1 : (S (length bs + m) <= length (b :: bs ++ q))%nat) by (cbn; rewrite length_app; lia).
    pose proof (dma_getnextrxp_spec n r (b :: bs ++ q) (S (length bs + m)) status Hn Hok Hm1 Hst) as Hg. cbn in Hg.
    destruct Hg as (r1 & -> & Hok1 & Hst1 & Hb1 & Ho1 & Hg1 & Hf1). cbn [option_bind].
    rewrite (proj2 (Z.ltb_lt 0 s)), sint32_small by lia. rewrite Hb1.
    replace (if s - rxbufsize r <? 0 then 0 else s - rxbufsize r) with (Z.max 0 (s - rxbufsize r)) by (destruct (Z.ltb_spec (s - rxbufsize r) 0); lia).
    destruct (IH (Z.max 0 (s - rxbufsize r)) (rx_free r1 b.1 (rxgiants r1))) as (r' & Hr & Hok' & Hst' & Hf' & Hb' & Ho' & Hg').
    + cbn. by rewrite Hb1.
    + lia.
    + cbn. rewrite Hb1. lia.
    + by apply rx_free_ok.
    + done.
    + done.
    + exists r'. rewrite Hr. split; [done|]. split; [done|]. split; [done|]. cbn in Hf', Hb', Ho', Hg'.
      rewrite Hf', Hf1, <- app_assoc. cbn. repeat split; congruence.
Qed.

(** [dma_rx] gives the first received frame that fits a buffer, with its length, after
    freeing every buffer of the giants before it and counting each once: the driver stays
    in step with the frames whatever lengths arrive, and leaves the later frames and the
    posted buffers in the ring. *)
Theorem dma_rx_in_step n r fs rest status frame_len fuel : ring_size n ->
  0 <= rxoffset r <= rxbufsize r -> 0 < rxbufsize r <= CTRL_BC_MASK ->
  Forall (rx_frame_ok (rxbufsize r) (rxoffset r) frame_len) fs ->
  rx_ok n r (flat_map f_bufs fs ++ rest) -> rx_reads n r (length (flat_map f_bufs fs)) status ->
  (length (flat_map f_bufs fs) < fuel)%nat ->
  let '(res, freed, giants, kept) := rx_expect (rxbufsize r) (rxoffset r) fs in
  exists r', dma_rx fuel r status frame_len = Some (res, r') /\ rx_ok n r' (kept ++ rest) /\
    rx_freed r' = rx_freed r ++ freed /\ rxgiants r' = rxgiants r + giants.
Proof.
  intros Hn Hoff Hz Hfs. unfold dma_rx. revert r fuel Hoff Hz Hfs.
  induction fs as [|f fs IH]; intros r fuel Hoff Hz Hfs Hok Hst Hf; (destruct fuel as [|fuel]; [lia|]); cbn [rx_expect].
  - cbn [rx_loop]. pose proof (dma_getnextrxp_spec n r rest 0 status Hn Hok ltac:(lia) Hst) as Hg.
    assert (dma_getnextrxp r status false = Some (None, r)) as -> by (destruct rest; exact Hg).
    exists r. rewrite app_nil_r, Z.add_0_r. done.
  - inversion Hfs as [|? ? (Hlen & Hfl & Hm) Hfs']; subst.
    set (tl := f_more f ++ flat_map f_bufs fs).
    assert (Hm1 : (S (length tl) <= length (f_head f :: tl ++ rest))%nat) by (cbn; rewrite length_app; lia).
    pose proof (dma_getnextrxp_spec n r (f_head f :: tl ++ rest) (S (length tl)) status Hn Hok Hm1 Hst) as Hg. cbn in Hg. subst tl.
    destruct Hg as (r1 & Hg & Hok1 & Hst1 & Hb1 & Ho1 & Hg1 & Hf1). cbn [rx_loop]. rewrite Hg. cbn [option_bind].
    change (0 <? 0) with false. cbv iota. rewrite Hfl, Hb1, Ho1.
    assert (Hroom : wrap32 (rxbufsize r - rxoffset r) = rxbufsize r - rxoffset r).
    { unfold CTRL_BC_MASK in Hz. apply wrap32_small. lia. }
    rewrite Hroom. unfold CTRL_BC_MASK in Hz. destruct (Z.leb_spec (f_len f) (rxbufsize r - rxoffset r)) as [Hfit|Hgiant].
    + rewrite (proj2 (Z.ltb_ge _ _)), wrap32_small by lia. exists r1. rewrite app_nil_r, Z.add_0_r, Hg1, Hf1.
      split; [done|]. split; [|done]. rewrite Z.max_l, extra_0 in Hm by lia.
      destruct (f_more f); cbn in Hm; [exact Hok1|lia].
    + rewrite (proj2 (Z.ltb_lt _ _)) by lia. rewrite (proj2 (Z.ltb_lt 0 (f_len f))), sint32_small by lia.
      rewrite Z.max_r in Hm by lia. cbn in Hf. rewrite length_app in Hf.
      destruct (rx_skip n status frame_len (f_more f) (f_len f - (rxbufsize r - rxoffset r)) (rx_free r1 (f_head f).1 (rxgiants r1 + 1))
        (flat_map f_bufs fs ++ rest) (length (flat_map f_bufs fs)) (fuel - length (f_more f)) Hn)
        as (r2 & Hl2 & Hok2 & Hst2 & Hf2 & Hb2 & Ho2 & Hg2).
      * cbn. rewrite Hb1. unfold CTRL_BC_MASK. lia.
      * lia.
      * cbn. by rewrite Hb1.
      * apply rx_free_ok. rewrite app_assoc. exact Hok1.
      * rewrite length_app. lia.
      * rewrite length_app in Hst1. exact Hst1.
      * cbn in Hf2, Hb2, Ho2, Hg2. replace (length (f_more f) + (fuel - length (f_more f)))%nat with fuel in Hl2 by lia. rewrite Hl2.
        assert (Hsame : rxbufsize r2 = rxbufsize r /\ rxoffset r2 = rxoffset r) by (split; congruence). destruct Hsame as [Hs1 Hs2].
        specialize (IH r2 (fuel - length (f_more f))%nat). rewrite Hs1, Hs2 in IH.
        specialize (IH Hoff ltac:(unfold CTRL_BC_MASK; lia) Hfs' Hok2 Hst2 ltac:(lia)).
        destruct (rx_expect _ _ fs) as [[[res freed] giants] kept]. destruct IH as (r3 & Hr3 & Hok3 & Hf3 & Hg3).
        exists r3. split; [exact Hr3|]. split; [exact Hok3|]. rewrite Hf3, Hf2, Hf1, Hg3, Hg2, Hg1. split; [|lia].
        cbn. by rewrite <- !app_assoc.
Qed.

Definition rx_full : dma_rx_side :=
  match dma_rxfill 0 false rx4 [Some (1, 0x1000); Some (2, 0x2000); Some (3, 0x3000)] with Some r => r | None => rx4 end.

Definition frame_lens (p : Z) : Z := if p =? 1 then 2000 else 60.

Lemma rx_full_ok : rx_ok 4 rx_full [(1, 0x1000); (2, 0x2000); (3, 0x3000)].
Proof.
  split; [done|done|done|done| |].
  - intros [|[|[|j]]] s Hs; cbn in Hs; try discriminate; injection Hs as <-; eexists; (split; [reflexivity|done]).
  - intros [|[|[|[|j]]]] Hj; try reflexivity. vm_compute in Hj. lia.
Qed.

(** A giant of two buffers and a frame that fits. *)
Lemma dma_rx_in_step_witness :
  exists r', dma_rx 4 rx_full 0x1010 frame_lens = Some (Some (3, 88), r') /\ rx_ok 4 r' [] /\
    rx_freed r' = rx_freed rx_full ++ [1; 2] /\ rxgiants r' = rxgiants rx_full + 1.
Proof.
  apply (dma_rx_in_step 4 rx_full [RxFrame 2000 (1, 0x1000) [(2, 0x2000)]; RxFrame 60 (3, 0x3000) []] []).
  - exists 2. split; [lia|reflexivity].
  - split; vm_compute; discriminate.
  - split; vm_compute; [reflexivity|discriminate].
  - constructor; [|constructor; [|constructor]]; (split; [split; vm_compute; [discriminate|reflexivity]|split; [reflexivity|vm_compute; reflexivity]]).
  - exact rx_full_ok.
  - reflexivity.
  - cbn. lia.
Defined.

(** * Limits *)

(** The bytes of a giant still to skip are forgotten when [dma_rx] runs out of received
    buffers: if the chip is one buffer into the giant, the next call takes the rest of it for
    a frame of its own. *)
Lemma giant_cut_short :
  option_map fst (dma_rx 4 rx_full 0x1000 frame_lens) = Some None /\
  option_map fst (let? (_, r) := dma_rx 4 rx_full 0x1000 frame_lens in dma_rx 4 r 0x1008 frame_lens) = Some (Some (2, 88)).
Proof. split; vm_compute; reflexivity. Qed.

Definition ring4_up : dma_tx := match dma32_txinit false 0 0x8000 ring4 with Some t => t | None => ring4 end.

(** A packet whose only buffer is empty is accepted: the descriptor before the ring's end,
    of the previous frame, is rewritten with a zero length, and the previous packet is
    forgotten. *)
Lemma empty_packet_forgets :
  (let? (_, t) := dma32_txfast 0 false ring4_up (Pkt 1 [(0x1000, 60)]) true in
   let? (rc, t) := dma32_txfast 0 false t (Pkt 2 [(0x2000, 0)]) true in
   Some (rc, txout t, txp t, option_map d_ctrl (txd32 t !! 0%nat)))
  = Some (0, 1, [Some 2; None; None; None], Some (Z.lor CTRL_IOC CTRL_EOF)).
Proof. vm_compute. reflexivity. Qed.

(** With a dead chip, which reads all ones, and an empty ring, reclaiming never ends: the
    walk goes round the ring without meeting its end. *)
Lemma dead_chip_hangs n t a fuel : ring_size n -> n < 512 -> ntxd t = n -> Z.of_nat (length (txd32 t)) = n ->
  (forall i, (i < Z.to_nat n)%nat -> txp t !! i = Some None) -> 0 <= a < n ->
  reclaim_loop fuel t a (B2I (Z.land 0xffffffff XS_CD_MASK)) = None.
Proof.
  intros (k & Hk & Hn) H512 Hnt Hld Hall Ha. change (B2I (Z.land 0xffffffff XS_CD_MASK)) with 511.
  revert t a Hnt Hld Hall Ha. induction fuel as [|fuel IH]; intros t a Hnt Hld Hall Ha; [done|]. cbn [reclaim_loop].
  rewrite (proj2 (Z.eqb_neq _ _)) by lia.
  destruct (lookup_lt_is_Some_2 (txd32 t) (Z.to_nat a) ltac:(lia)) as [d ->]. rewrite Hall by lia. cbn [option_bind].
  unfold NEXTTXD, TXD. cbn [ntxd]. rewrite Hnt, (XXD_mod _ k n) by (lia || done).
  apply IH; cbn; [done|by rewrite length_insert| |apply Z.mod_pos_bound; lia].
  intros i Hi. destruct (decide (i = Z.to_nat a)) as [->|]; [|by rewrite list_lookup_insert_ne by done; apply Hall].
  apply list_lookup_insert_eq. by eapply lookup_lt_Some, Hall.
Qed.

(** Rotating by nothing, when the chip is where the ring starts, finds the slot it moves to
    taken. *)
Lemma rotate_by_nothing :
  (let? (_, t) := dma32_txfast 0 false ring4_up (Pkt 1 [(0x1000, 60)]) true in dma32_txrotate t 0x2000) = None.
Proof. vm_compute. reflexivity. Qed.

(** The ring is aligned and within what was allocated, whatever the alignment the allocator
    promises. *)
Lemma dma32_alloc_fits align ndesc va pa : 0 < align -> va mod align = 0 -> 0 <= ndesc ->
  let '(ring, added, dpa, size) := dma32_alloc align ndesc va pa in
  ring mod D32RINGALIGN = 0 /\ va <= ring /\ ring + ndesc * sizeof_dd <= va + size /\ dpa - pa = ring - va.
Proof.
  intros Ha Hv Hn. unfold dma32_alloc, dma32_alloc_size, D32RINGALIGN, sizeof_dd.
  split; [apply Z_mod_mult|]. pose proof (Z.div_mod (va + (4096 - 1)) 4096). pose proof (Z.mod_pos_bound (va + (4096 - 1)) 4096).
  split; [lia|]. split; [|lia]. destruct (Z.eqb_spec (align mod 4096) 0) as [He|]; [|lia].
  apply Z.mod_divide in He as [q Hq]; [|lia]. apply Z.mod_divide in Hv as [u Hu]; [|lia].
  assert ((va + (4096 - 1)) / 4096 * 4096 = va); [|lia].
  rewrite Hu, Hq. replace (u * (q * 4096)) with (u * q * 4096) by lia. rewrite Z.div_add_l, Z.div_small by lia. lia.
Qed.
