(* ===== verification/Qsort.v ===== *)
(** The boot loader's qsort (cfe/cfe/lib/lib_qsort.c), which orders the windows of the PCI
    configuration: a quicksort on an array of bytes, with an explicit stack of segments of
    fixed depth.

    Pointers are offsets from [base], the address of the array; reading or writing outside
    the array, an unaligned word access, and a push on a full stack are [None]. *)

From S2P Require Import Prelude.
From Stdlib Require Import ZArith Lia Bool List Sorting.Sorted.
From stdpp Require Import base numbers list.

#[local] Open Scope Z_scope.

(** * The code *)

Definition CHAR_BIT := 8.
Definition sizeof_int := 4.
Definition MAXSTACK := sizeof_int * CHAR_BIT.

Definition get (mem : bytes) (off : Z) (n : nat) : option bytes :=
  if (0 <=? off) && (off + Z.of_nat n <=? Z.of_nat (length mem))
  then Some (take n (drop (Z.to_nat off) mem)) else None.

Definition put (mem : bytes) (off : Z) (s : bytes) : option bytes :=
  if (0 <=? off) && (off + Z.of_nat (length s) <=? Z.of_nat (length mem))
  then Some (splice mem (Z.to_nat off) s) else None.

Section qsort.
Context (base : Z) (size : nat) (compar : bytes -> bytes -> Z).

(** Exchanging [n] bytes at two places. *)
Definition exchange_chunk (mem : bytes) (a b : Z) (n : nat) : option bytes :=
  let? t := get mem a n in
  let? u := get mem b n in
  let? mem := put mem a u in
  put mem b t.

Fixpoint swap_words (fuel : nat) (mem : bytes) (a b i : Z) : option (bytes * Z * Z * Z) :=
  match fuel with
  | O => None
  | S fuel =>
      if i <=? Z.of_nat size then
        assert! ((base + a) mod sizeof_int =? 0) && ((base + b) mod sizeof_int =? 0) in
        let? mem := exchange_chunk mem a b 4 in
        swap_words fuel mem (a + sizeof_int) (b + sizeof_int) (i + sizeof_int)
      else Some (mem, a, b, i)
  end.

Fixpoint swap_bytes (fuel : nat) (mem : bytes) (a b i : Z) : option bytes :=
  match fuel with
  | O => None
  | S fuel =>
      if i <=? Z.of_nat size then
        let? mem := exchange_chunk mem a b 1 in
        swap_bytes fuel mem (a + 1) (b + 1) (i + 1)
      else Some mem
  end.

Definition qsexchange (mem : bytes) (a b : Z) : option bytes :=
  let? (mem, a, b, i) := swap_words (S size) mem a b sizeof_int in
  swap_bytes (S size) mem a b (i - sizeof_int + 1).

(** [while (i < j && compar(lb, i) > 0) i += size] *)
Fixpoint scan_up (fuel : nat) (mem : bytes) (lb i j : Z) : option Z :=
  match fuel with
  | O => None
  | S fuel =>
      if i <? j then
        let? x := get mem lb size in
        let? y := get mem i size in
        if 0 <? compar x y then scan_up fuel mem lb (i + Z.of_nat size) j else Some i
      else Some i
  end.

(** [while (j >= i && compar(j, lb) > 0) j -= size] *)
Fixpoint scan_down (fuel : nat) (mem : bytes) (lb i j : Z) : option Z :=
  match fuel with
  | O => None
  | S fuel =>
      if i <=? j then
        let? y := get mem j size in
        let? x := get mem lb size in
        if 0 <? compar y x then scan_down fuel mem lb i (j - Z.of_nat size) else Some j
      else Some j
  end.

(** The partition loop: the memory and the place of the pivot. *)
Fixpoint partition (fuel : nat) (mem : bytes) (lb i j : Z) : option (bytes * Z) :=
  match fuel with
  | O => None
  | S f =>
      let? i := scan_up (S (length mem)) mem lb i j in
      let? j := scan_down (S (length mem)) mem lb i j in
      if j <=? i then Some (mem, j)
      else
        let? mem := qsexchange mem i j in
        partition f mem lb (i + Z.of_nat size) (j - Z.of_nat size)
  end.

Definition push (stack : list (Z * Z)) (seg : Z * Z) : option (list (Z * Z)) :=
  assert! Z.of_nat (length stack) <? MAXSTACK in Some (seg :: stack).

(** The pivot, from the middle, is moved to the front, and after the partition to its place,
    which is returned. *)
Definition pivot (mem : bytes) (lb ub : Z) : option (bytes * Z) :=
  let sz := Z.of_nat size in
  let offset := Z.shiftr (ub - lb) 1 in
  let P := lb + offset - offset mod sz in
  let? mem := qsexchange mem lb P in
  let? (mem, j) := partition (S (length mem)) mem lb (lb + sz) ub in
  let? mem := qsexchange mem lb j in
  Some (mem, j).

(** [while (lb < ub)]: the smaller part is gone on with, the other one put on the stack. *)
Fixpoint segment (fuel : nat) (mem : bytes) (lb ub : Z) (stack : list (Z * Z)) : option (bytes * list (Z * Z)) :=
  match fuel with
  | O => None
  | S fuel =>
      if lb <? ub then
        let sz := Z.of_nat size in
        let? (mem, m) := pivot mem lb ub in
        if m - lb <=? ub - m then
          let? stack := if m + sz <? ub then push stack (m + sz, ub) else Some stack in
          segment fuel mem lb (m - sz) stack
        else
          let? stack := if lb <? m - sz then push stack (lb, m - sz) else Some stack in
          segment fuel mem (m + sz) ub stack
      else Some (mem, stack)
  end.

(** [for (sp = 0; sp >= 0; sp--)]: the stack holds the segments below [sp]. *)
Fixpoint segments (fuel : nat) (mem : bytes) (stack : list (Z * Z)) : option bytes :=
  match fuel with
  | O => None
  | S fuel =>
      match stack with
      | [] => Some mem
      | (lb, ub) :: stack =>
          let? (mem, stack) := segment (S (length mem)) mem lb ub stack in
          segments fuel mem stack
      end
  end.

Definition qsort (mem : bytes) (nmemb : Z) : option bytes :=
  segments (S (S (length mem))) mem [(0, (nmemb - 1) * Z.of_nat size)].

(** * Elements *)

Definition uniform (es : list bytes) : Prop := Forall (fun e => length e = size) es.

(** The words that are exchanged are aligned. *)
Definition words_aligned : Prop := (size < 4)%nat \/ base mod 4 = 0 /\ (Z.of_nat size) mod 4 = 0.

Definition at_elem (i : Z) : Z := i * Z.of_nat size.

Definition swap {A} (i j : nat) (l : list A) : list A :=
  match l !! i, l !! j with
  | Some x, Some y => <[j := x]> (<[i := y]> l)
  | _, _ => l
  end.

Lemma length_concat_uniform es : uniform es -> length (concat es) = (length es * size)%nat.
Proof. induction 1 as [|e es He _ IH]; cbn; [done|]. rewrite length_app, He, IH. lia. Qed.

Lemma lookup_concat es i e k : uniform es -> es !! i = Some e -> (k < size)%nat -> concat es !! (i * size + k)%nat = e !! k.
Proof.
  intros Hu. revert i. induction Hu as [|e' es He Hu IH]; intros i Hi Hk; [done|].
  destruct i as [|i]; cbn in Hi |- *.
  - injection Hi as ->. by rewrite lookup_app_l by lia.
  - rewrite lookup_app_r by lia. rewrite <- (IH i Hi Hk). f_equal. lia.
Qed.

Lemma get_elem es i e : uniform es -> es !! i = Some e -> get (concat es) (at_elem (Z.of_nat i)) size = Some e.
Proof.
  intros Hu Hi. pose proof (lookup_lt_Some _ _ _ Hi) as Hl. unfold get, at_elem. rewrite length_concat_uniform by done.
  assert (length e = size) as He by (by apply (Forall_lookup_1 _ _ i e) in Hu).
  assert (Hb : (i * size + size <= length es * size)%nat) by nia.
  rewrite (proj2 (Z.leb_le 0 _)), (proj2 (Z.leb_le _ (Z.of_nat _))) by nia. cbn [andb]. f_equal.
  replace (Z.to_nat _) with (i * size)%nat by nia. apply list_eq. intros k.
  destruct (decide (k < size)%nat).
  - rewrite lookup_take_lt, lookup_drop by done. by apply lookup_concat.
  - rewrite !lookup_ge_None_2; [done|lia|]. rewrite length_take. lia.
Qed.

(** [mem'] is [mem] with the first [k] bytes at [a] and [b] exchanged. *)
Definition swapped (mem mem' : bytes) (a b k : nat) : Prop :=
  length mem' = length mem /\
  forall p, mem' !! p = if decide (a <= p < a + k)%nat then mem !! (p - a + b)%nat
                        else if decide (b <= p < b + k)%nat then mem !! (p - b + a)%nat else mem !! p.

Lemma swapped_0 mem a b : swapped mem mem a b 0.
Proof. split; [done|]. intros p. by rewrite !decide_False by lia. Qed.

Lemma exchange_more mem mem' a b k c : (a = b \/ a + k + c <= b \/ b + k + c <= a)%nat ->
  (a + k + c <= length mem)%nat -> (b + k + c <= length mem)%nat -> swapped mem mem' a b k ->
  exists mem'', exchange_chunk mem' (Z.of_nat (a + k)) (Z.of_nat (b + k)) c = Some mem'' /\ swapped mem mem'' a b (k + c).
Proof.
  intros Hd Ha Hb [Hl H]. unfold exchange_chunk, get, put.
  assert (Hla : length (take c (drop (a + k) mem')) = c) by (rewrite length_take, length_drop; lia).
  assert (Hlb : length (take c (drop (b + k) mem')) = c) by (rewrite length_take, length_drop; lia).
  rewrite !Nat2Z.id. rewrite !(proj2 (Z.leb_le _ _)) by lia. cbn [andb].
  rewrite !Hlb, !(proj2 (Z.leb_le _ _)) by lia. cbn [andb].
  assert (Hls : length (splice mem' (a + k) (take c (drop (b + k) mem'))) = length mem') by (apply length_splice; lia).
  rewrite Hla, Hls, !(proj2 (Z.leb_le _ _)) by lia. cbn [andb]. eexists. split; [done|].
  split; [rewrite length_splice; lia|]. intros p.
  rewrite lookup_splice by lia. rewrite Hla. rewrite lookup_splice by lia. rewrite Hlb.
  repeat case_decide; try lia; rewrite ?lookup_take_lt, ?lookup_drop by lia; rewrite H; repeat case_decide; try lia; f_equal; lia.
Qed.

Lemma swap_words_spec fuel mem mem' a b k : words_aligned ->
  (a = b \/ a + size <= b \/ b + size <= a)%nat -> (a + size <= length mem)%nat -> (b + size <= length mem)%nat ->
  (exists q, Z.of_nat a = q * Z.of_nat size) -> (exists q, Z.of_nat b = q * Z.of_nat size) ->
  (exists q, k = 4 * q)%nat -> (k <= size)%nat -> (size - k < fuel)%nat -> swapped mem mem' a b k ->
  exists k' mem'', swap_words fuel mem' (Z.of_nat (a + k)) (Z.of_nat (b + k)) (Z.of_nat k + 4) =
      Some (mem'', Z.of_nat (a + k'), Z.of_nat (b + k'), Z.of_nat k' + 4) /\
    (k' <= size)%nat /\ swapped mem mem'' a b k'.
Proof.
  intros Hal Hd Ha Hb Hqa Hqb. revert k mem'. induction fuel as [|fuel IH]; intros k mem' Hk Hks Hf Hs; [lia|]. cbn [swap_words].
  destruct (Z.leb_spec (Z.of_nat k + 4) (Z.of_nat size)); [|by exists k, mem'].
  assert (Hz : forall x, (exists q, Z.of_nat x = q * Z.of_nat size) -> (base + Z.of_nat (x + k)) mod sizeof_int = 0).
  { intros x [q Hx]. destruct Hal as [|[H1 H2]]; [lia|]. destruct Hk as [q' ->]. unfold sizeof_int.
    apply Z.mod_divide in H1 as [u Hu]; [|lia]. apply Z.mod_divide in H2 as [v Hv]; [|lia].
    apply Z.mod_divide; [lia|]. exists (u + q * v + Z.of_nat q'). rewrite Nat2Z.inj_add, Hx, Hv, Hu. lia. }
  rewrite (Hz a Hqa), (Hz b Hqb), Z.eqb_refl. cbn [andb].
  destruct (exchange_more mem mem' a b k 4) as (mem'' & -> & Hs'); [lia|lia|lia|done|].
  destruct (IH (k + 4)%nat mem'') as (k' & m & He & Hk' & Hm); [destruct Hk as [q ->]; exists (S q); lia|lia|lia|done|].
  exists k', m. split; [|done]. rewrite <- He. unfold sizeof_int. f_equal; lia.
Qed.

Lemma swap_bytes_spec fuel mem mem' a b k :
  (a = b \/ a + size <= b \/ b + size <= a)%nat -> (a + size <= length mem)%nat -> (b + size <= length mem)%nat ->
  (k <= size)%nat -> (size - k < fuel)%nat -> swapped mem mem' a b k ->
  exists mem'', swap_bytes fuel mem' (Z.of_nat (a + k)) (Z.of_nat (b + k)) (Z.of_nat k + 1) = Some mem'' /\ swapped mem mem'' a b size.
Proof.
  intros Hd Ha Hb. revert k mem'. induction fuel as [|fuel IH]; intros k mem' Hks Hf Hs; [lia|]. cbn [swap_bytes].
  destruct (Z.leb_spec (Z.of_nat k + 1) (Z.of_nat size)).
  - destruct (exchange_more mem mem' a b k 1) as (mem'' & -> & Hs'); [lia|lia|lia|done|].
    destruct (IH (k + 1)%nat mem'') as (m & He & Hm); [lia|lia|done|]. exists m. split; [|done]. rewrite <- He. f_equal; lia.
  - exists mem'. split; [done|]. assert (k = size) as <- by lia. done.
Qed.

Lemma length_swap {A} i j (l : list A) : length (swap i j l) = length l.
Proof. unfold swap. repeat case_match; by rewrite ?length_insert. Qed.

Lemma uniform_swap i j es : uniform es -> uniform (swap i j es).
Proof.
  intros Hu. unfold swap. destruct (es !! i) as [x|] eqn:Hi, (es !! j) as [y|] eqn:Hj; try done.
  pose proof (Forall_lookup_1 _ _ _ _ Hu Hi). pose proof (Forall_lookup_1 _ _ _ _ Hu Hj). unfold uniform. auto using Forall_insert.
Qed.

Lemma lookup_swap {A} i j (l : list A) k : (i < length l)%nat -> (j < length l)%nat ->
  swap i j l !! k = if decide (k = i) then l !! j else if decide (k = j) then l !! i else l !! k.
Proof.
  intros Hi Hj. unfold swap. destruct (lookup_lt_is_Some_2 l i Hi) as [x Hx]. destruct (lookup_lt_is_Some_2 l j Hj) as [y Hy].
  rewrite Hx, Hy. destruct (decide (k = j)) as [->|].
  - rewrite list_lookup_insert_eq by (by rewrite length_insert). case_decide; congruence.
  - rewrite list_lookup_insert_ne by done. case_decide; subst; [by rewrite list_lookup_insert_eq|by rewrite list_lookup_insert_ne].
Qed.

Lemma swap_perm {A} i j (l : list A) : swap i j l ≡ₚ l.
Proof.
  unfold swap. destruct (l !! i) as [x|] eqn:Hi, (l !! j) as [y|] eqn:Hj; try done.
  apply Permutation_inj. split; [by rewrite !length_insert|].
  exists (fun k => if decide (k = i) then j else if decide (k = j) then i else k). split.
  - intros a b. repeat case_decide; congruence.
  - intros k. pose proof (lookup_lt_Some _ _ _ Hi). pose proof (lookup_lt_Some _ _ _ Hj).
    assert (Hs : swap i j l = <[j:=x]> (<[i:=y]> l)) by (unfold swap; by rewrite Hi, Hj).
    rewrite <- Hs, lookup_swap by done. by repeat case_decide.
Qed.

Lemma qsexchange_spec es i j : words_aligned -> (0 < size)%nat -> uniform es -> (i < length es)%nat -> (j < length es)%nat ->
  qsexchange (concat es) (at_elem (Z.of_nat i)) (at_elem (Z.of_nat j)) = Some (concat (swap i j es)).
Proof.
  intros Hal Hsz Hu Hi Hj. pose proof (length_concat_uniform es Hu) as Hlen. unfold qsexchange, at_elem.
  set (a := (i * size)%nat). set (b := (j * size)%nat).
  assert (Ha : Z.of_nat i * Z.of_nat size = Z.of_nat (a + 0)) by lia. assert (Hb : Z.of_nat j * Z.of_nat size = Z.of_nat (b + 0)) by lia.
  assert (Hd : (a = b \/ a + size <= b \/ b + size <= a)%nat).
  { destruct (lt_eq_lt_dec i j) as [[|]|]; [right; left; unfold a, b; nia|left; unfold a, b; nia|right; right; unfold a, b; nia]. }
  assert (Hla : (a + size <= length (concat es))%nat) by (unfold a; nia).
  assert (Hlb : (b + size <= length (concat es))%nat) by (unfold b; nia).
  rewrite Ha, Hb. change sizeof_int with (Z.of_nat 0 + 4) at 1.
  destruct (swap_words_spec (S size) (concat es) (concat es) a b 0) as (k & m & -> & Hk & Hm);
    [done|done|done|done|by exists (Z.of_nat i); lia|by exists (Z.of_nat j); lia|by exists 0%nat|lia|lia|apply swapped_0|].
  replace (Z.of_nat k + 4 - sizeof_int + 1) with (Z.of_nat k + 1) by (unfold sizeof_int; lia).
  destruct (swap_bytes_spec (S size) (concat es) m a b k) as (m' & -> & Hl & Hm'); [done..|lia|done|]. f_equal.
  apply list_eq. intros p. rewrite Hm'.
  pose proof (uniform_swap i j es Hu) as Hu'. pose proof (length_concat_uniform _ Hu') as Hlen'. rewrite length_swap in Hlen'.
  destruct (decide (p < length es * size)%nat) as [Hp|Hp].
  - set (q := (p / size)%nat). set (r := (p mod size)%nat).
    assert (Hpq : p = (q * size + r)%nat) by (unfold q, r; rewrite Nat.mul_comm; apply Nat.div_mod; lia).
    assert (Hr : (r < size)%nat) by (apply Nat.mod_upper_bound; lia).
    assert (Hq : (q < length es)%nat) by nia. clearbody q r. subst p.
    destruct (lookup_lt_is_Some_2 (swap i j es) q ltac:(by rewrite length_swap)) as [e He].
    rewrite (lookup_concat (swap i j es) q e r) by done. rewrite lookup_swap in He by done. unfold a, b.
    destruct (decide (q = i)) as [->|Hqi]; [|destruct (decide (q = j)) as [->|Hqj]].
    + rewrite decide_True by lia. rewrite <- (lookup_concat es j e r Hu He Hr). f_equal. lia.
    + rewrite decide_False by nia. rewrite decide_True by lia. rewrite <- (lookup_concat es i e r Hu He Hr). f_equal. lia.
    + rewrite decide_False by nia. rewrite decide_False by nia. by apply lookup_concat.
  - rewrite (lookup_ge_None_2 (concat (swap i j es))) by lia. unfold a, b. rewrite !decide_False by nia. apply lookup_ge_None_2. lia.
Qed.

(** * Scans and the partition *)

Lemma at_elem_lt i j : (0 < size)%nat -> (at_elem i <? at_elem j) = (i <? j).
Proof. intros. unfold at_elem. destruct (Z.ltb_spec i j); [apply Z.ltb_lt|apply Z.ltb_ge]; nia. Qed.

Lemma at_elem_le i j : (0 < size)%nat -> (at_elem i <=? at_elem j) = (i <=? j).
Proof. intros. unfold at_elem. destruct (Z.leb_spec i j); [apply Z.leb_le|apply Z.leb_gt]; nia. Qed.

Lemma at_elem_succ i : at_elem i + Z.of_nat size = at_elem (i + 1).
Proof. unfold at_elem. lia. Qed.

Lemma at_elem_pred i : at_elem i - Z.of_nat size = at_elem (i - 1).
Proof. unfold at_elem. lia. Qed.

Lemma scan_up_spec fuel es l i j x : (0 < size)%nat -> uniform es -> es !! l = Some x -> (j < length es)%nat -> (j - i < fuel)%nat ->
  exists i', scan_up fuel (concat es) (at_elem (Z.of_nat l)) (at_elem (Z.of_nat i)) (at_elem (Z.of_nat j)) = Some (at_elem (Z.of_nat i')) /\
    (i <= i' <= Nat.max i j)%nat /\
    (forall k y, (i <= k < i')%nat -> es !! k = Some y -> 0 < compar x y) /\
    ((i' < j)%nat -> forall y, es !! i' = Some y -> compar x y <= 0).
Proof.
  intros Hsz Hu Hx Hj. revert i. induction fuel as [|fuel IH]; intros i Hf; [lia|]. cbn [scan_up].
  rewrite at_elem_lt by done. destruct (Z.ltb_spec (Z.of_nat i) (Z.of_nat j)).
  - rewrite (get_elem es l x) by done. destruct (lookup_lt_is_Some_2 es i ltac:(lia)) as [y Hy].
    rewrite (get_elem es i y) by done. destruct (Z.ltb_spec 0 (compar x y)).
    + rewrite at_elem_succ. replace (Z.of_nat i + 1) with (Z.of_nat (S i)) by lia.
      destruct (IH (S i)) as (i' & -> & Hi & Ha & Hb); [lia|]. exists i'. split; [done|]. split; [lia|]. split; [|done].
      intros k z Hk Hz. destruct (decide (k = i)) as [->|]; [congruence|apply (Ha k); [lia|done]].
    + exists i. split; [done|]. split; [lia|]. split; [lia|]. intros _ z Hz. simplify_eq. lia.
  - exists i. split; [done|]. split; [lia|]. split; lia.
Qed.

Lemma scan_down_spec fuel es l i j x : (0 < size)%nat -> uniform es -> es !! l = Some x -> (j < length es)%nat -> (0 < i <= S j)%nat ->
  (S j - i < fuel)%nat ->
  exists j', scan_down fuel (concat es) (at_elem (Z.of_nat l)) (at_elem (Z.of_nat i)) (at_elem (Z.of_nat j)) = Some (at_elem (Z.of_nat j')) /\
    (i <= S j')%nat /\ (j' <= j)%nat /\
    (forall k y, (j' < k <= j)%nat -> es !! k = Some y -> 0 < compar y x) /\
    ((i <= j')%nat -> forall y, es !! j' = Some y -> compar y x <= 0).
Proof.
  intros Hsz Hu Hx. revert j. induction fuel as [|fuel IH]; intros j Hj Hi Hf; [lia|]. cbn [scan_down].
  rewrite at_elem_le by done. destruct (Z.leb_spec (Z.of_nat i) (Z.of_nat j)).
  - destruct (lookup_lt_is_Some_2 es j ltac:(lia)) as [y Hy]. rewrite (get_elem es j y), (get_elem es l x) by done.
    destruct (Z.ltb_spec 0 (compar y x)).
    + rewrite at_elem_pred. replace (Z.of_nat j - 1) with (Z.of_nat (j - 1)) by lia.
      destruct (IH (j - 1)%nat) as (j' & -> & H1 & H2 & Ha & Hb); [lia|lia|lia|]. exists j'. split; [done|]. split; [lia|]. split; [lia|].
      split; [|done]. intros k z Hk Hz. destruct (decide (k = j)) as [->|]; [congruence|apply (Ha k); [lia|done]].
    + exists j. split; [done|]. split; [lia|]. split; [lia|]. split; [lia|]. intros _ z Hz. simplify_eq. lia.
  - exists j. split; [done|]. split; [lia|]. split; [lia|]. split; lia.
Qed.

(** What the partition knows of an element on the left or on the right of the pivot [x]. *)
Definition low (x y : bytes) : Prop := 0 < compar x y \/ compar y x <= 0.
Definition high (x y : bytes) : Prop := 0 < compar y x \/ compar x y <= 0.

(** [es'] is [es] with the elements from [a] up to [b] in another order. *)
Record shuffled {A} (a b : nat) (es es' : list A) : Prop := {
  sh_perm : es' ≡ₚ es;
  sh_out : forall k, (k < a \/ b <= k)%nat -> es' !! k = es !! k;
  sh_in : forall k, (a <= k < b)%nat -> exists k', (a <= k' < b)%nat /\ es' !! k = es !! k'
}.

Lemma shuffled_refl {A} a b (es : list A) : shuffled a b es es.
Proof. split; [done|done|]. intros k Hk. by exists k. Qed.

Lemma shuffled_trans {A} a b (es1 es2 es3 : list A) : shuffled a b es1 es2 -> shuffled a b es2 es3 -> shuffled a b es1 es3.
Proof.
  intros [P1 O1 I1] [P2 O2 I2]. split.
  - by rewrite P2.
  - intros k Hk. by rewrite O2, O1.
  - intros k Hk. destruct (I2 k Hk) as (k' & Hk' & ->). destruct (I1 k' Hk') as (k'' & ? & ->). by exists k''.
Qed.

Lemma shuffled_swap {A} a b i j (es : list A) : (a <= i < b)%nat -> (a <= j < b)%nat -> (b <= length es)%nat -> shuffled a b es (swap i j es).
Proof.
  intros Hi Hj Hb. split; [apply swap_perm| |]; intros k Hk; rewrite lookup_swap by lia.
  - by rewrite !decide_False by lia.
  - repeat case_decide; eauto.
Qed.

Lemma shuffled_wider {A} a b a' b' (es es' : list A) : (a' <= a)%nat -> (b <= b')%nat -> shuffled a b es es' -> shuffled a' b' es es'.
Proof.
  intros Ha Hb [P O I]. split; [done|intros k Hk; apply O; lia|]. intros k Hk.
  destruct (decide (a <= k < b)%nat) as [Hin|].
  - destruct (I k Hin) as (k' & ? & ?). exists k'. split; [lia|done].
  - exists k. split; [done|]. apply O. lia.
Qed.

Lemma shuffled_length {A} a b (es es' : list A) : shuffled a b es es' -> length es' = length es.
Proof. intros [P _ _]. by rewrite P. Qed.

Lemma partition_spec fuel es l i j x : words_aligned -> (0 < size)%nat -> uniform es -> es !! l = Some x ->
  (l < i)%nat -> (i <= S j)%nat -> (j < length es)%nat -> (S j - i < fuel)%nat ->
  exists es' m, partition fuel (concat es) (at_elem (Z.of_nat l)) (at_elem (Z.of_nat i)) (at_elem (Z.of_nat j)) =
      Some (concat es', at_elem (Z.of_nat m)) /\ uniform es' /\ shuffled i (S j) es es' /\ (i <= S m)%nat /\ (m <= j)%nat /\
    (forall k y, (i <= k <= m)%nat -> es' !! k = Some y -> low x y) /\
    (forall k y, (m < k <= j)%nat -> es' !! k = Some y -> high x y).
Proof.
  intros Hal Hsz. revert es i j. induction fuel as [|fuel IH]; intros es i j Hu Hx Hli Hij Hj Hf; [lia|]. cbn [partition].
  pose proof (length_concat_uniform es Hu) as Hlen. assert (length es <= length (concat es))%nat by nia.
  destruct (scan_up_spec (S (length (concat es))) es l i j x) as (i1 & -> & Hi1 & Ha & Hb); [done|done|done|done|lia|].
  destruct (scan_down_spec (S (length (concat es))) es l i1 j x) as (j1 & -> & Hj1 & Hj2 & Hc & Hd); [done|done|done|done|lia|lia|].
  rewrite at_elem_le by done. destruct (Z.leb_spec (Z.of_nat j1) (Z.of_nat i1)) as [Hend|Hgo].
  - exists es, j1. split; [done|]. split; [done|]. split; [apply shuffled_refl|]. split; [lia|]. split; [lia|]. split.
    + intros k y Hk Hy. destruct (decide (k < i1)%nat); [left; apply (Ha k); [lia|done]|].
      right. apply Hd; [lia|]. assert (j1 = k) as -> by lia. done.
    + intros k y Hk Hy. left. by apply (Hc k).
  - rewrite qsexchange_spec by (done || lia). rewrite at_elem_succ, at_elem_pred.
    replace (Z.of_nat i1 + 1) with (Z.of_nat (S i1)) by lia. replace (Z.of_nat j1 - 1) with (Z.of_nat (j1 - 1)) by lia.
    pose proof (uniform_swap i1 j1 es Hu) as Hu1.
    destruct (lookup_lt_is_Some_2 es i1 ltac:(lia)) as [yi Hyi]. destruct (lookup_lt_is_Some_2 es j1 ltac:(lia)) as [yj Hyj].
    destruct (IH (swap i1 j1 es) (S i1) (j1 - 1)%nat) as (es' & m & -> & Hu' & Hsh & Hm1 & Hm2 & Hlo & Hhi);
      [done|rewrite lookup_swap, !decide_False by lia; done|lia|lia|rewrite length_swap; lia|lia|].
    pose proof (sh_out _ _ _ _ Hsh) as Hout. exists es', m. split; [done|]. split; [done|].
    split; [apply (shuffled_trans _ _ _ (swap i1 j1 es)); [apply shuffled_swap; lia|apply (shuffled_wider (S i1) (S (j1 - 1))); [lia|lia|done]]|].
    split; [lia|]. split; [lia|]. split.
    + intros k y Hk Hy. destruct (decide (S i1 <= k)%nat); [apply (Hlo k); [lia|done]|].
      rewrite Hout, lookup_swap in Hy by lia. destruct (decide (k = i1)) as [->|].
      * right. apply Hd; [lia|]. congruence.
      * rewrite decide_False in Hy by lia. left. apply (Ha k); [lia|done].
    + intros k y Hk Hy. destruct (decide (k <= j1 - 1)%nat); [apply (Hhi k); [lia|done]|].
      rewrite Hout, lookup_swap in Hy by lia. rewrite decide_False in Hy by lia. destruct (decide (k = j1)) as [->|].
      * right. apply Hb; [lia|]. congruence.
      * left. apply (Hc k); [lia|done].
Qed.

(** * Segments

    A segment is given by the index of its first element and the one after its last. *)

Definition seg_ptrs (s : nat * nat) : Z * Z := (at_elem (Z.of_nat s.1), at_elem (Z.of_nat s.2 - 1)).

Definition seg_in (n : nat) (s : nat * nat) : Prop := (s.1 <= s.2 <= n)%nat.
Definition seg_size (s : nat * nat) : nat := s.2 - s.1.
Definition apart (s t : nat * nat) : Prop := (s.2 <= t.1 \/ t.2 <= s.1)%nat.
Definition holds (s : nat * nat) (k : nat) : Prop := (s.1 <= k < s.2)%nat.

Fixpoint disjoint_segs (l : list (nat * nat)) : Prop :=
  match l with [] => True | s :: l => Forall (apart s) l /\ disjoint_segs l end.

(** The comparison orders the elements. *)
Definition preorder : Prop :=
  (forall x y, 0 < compar x y -> compar y x <= 0) /\
  (forall x y z, compar x y <= 0 -> compar y z <= 0 -> compar x z <= 0).

(** Elements are in order unless a segment still holds both. *)
Definition ordered (es : list bytes) (segs : list (nat * nat)) : Prop :=
  forall p q x y, (p < q)%nat -> es !! p = Some x -> es !! q = Some y ->
    compar x y <= 0 \/ exists s, In s segs /\ holds s p /\ holds s q.

(** The depth of a segment on the stack halves its size. *)
Fixpoint depth_ok (n : nat) (l : list (nat * nat)) : Prop :=
  match l with [] => True | s :: l => Z.of_nat (seg_size s) * 2 ^ Z.of_nat (length l) <= Z.of_nat n /\ depth_ok n l end.

Definition weight (l : list (nat * nat)) : nat := list_sum (map (fun s => Nat.max 1 (seg_size s)) l).

Record segs_ok (es : list bytes) (l : list (nat * nat)) : Prop := {
  so_in : Forall (seg_in (length es)) l;
  so_disj : disjoint_segs l;
  so_depth : depth_ok (length es) l;
  so_ord : preorder -> ordered es l
}.

(** One partition: the pivot is in its place. *)
Lemma pivot_step es l e : words_aligned -> (0 < size)%nat -> uniform es -> (S l < e)%nat -> (e <= length es)%nat ->
  exists es' m x,
    pivot (concat es) (at_elem (Z.of_nat l)) (at_elem (Z.of_nat e - 1)) = Some (concat es', at_elem (Z.of_nat m)) /\
    (l <= m < e)%nat /\ uniform es' /\ shuffled l e es es' /\ es' !! m = Some x /\
    (forall k y, (l <= k < m)%nat -> es' !! k = Some y -> low x y) /\
    (forall k y, (m < k < e)%nat -> es' !! k = Some y -> high x y).
Proof.
  intros Hal Hsz Hu Hle He. unfold pivot. cbv zeta.
  assert (Hp : exists p, at_elem (Z.of_nat l) + Z.shiftr (at_elem (Z.of_nat e - 1) - at_elem (Z.of_nat l)) 1 -
    Z.shiftr (at_elem (Z.of_nat e - 1) - at_elem (Z.of_nat l)) 1 mod Z.of_nat size = at_elem (Z.of_nat p) /\ (l <= p < e)%nat).
  { set (off := Z.shiftr _ _). assert (0 <= off <= at_elem (Z.of_nat e - 1) - at_elem (Z.of_nat l)) as [Ho1 Ho2].
    { unfold off. rewrite Z.shiftr_div_pow2 by lia. change (2 ^ 1) with 2. unfold at_elem.
      assert (0 <= (Z.of_nat e - 1) * Z.of_nat size - Z.of_nat l * Z.of_nat size) by nia.
      split; [apply Z.div_pos; lia|apply Z.div_le_upper_bound; lia]. }
    exists (l + Z.to_nat (off / Z.of_nat size))%nat. pose proof (Z.div_mod off (Z.of_nat size) ltac:(lia)).
    pose proof (Z.div_pos off (Z.of_nat size) Ho1 ltac:(lia)). unfold at_elem in *. split.
    - rewrite Nat2Z.inj_add, Z2Nat.id by lia. lia.
    - assert (off / Z.of_nat size <= Z.of_nat e - 1 - Z.of_nat l); [apply Z.div_le_upper_bound; nia|lia]. }
  destruct Hp as (p & -> & Hp). rewrite qsexchange_spec by (done || lia).
  pose proof (uniform_swap l p es Hu) as Hu1. assert (Hl1 : length (swap l p es) = length es) by apply length_swap.
  destruct (lookup_lt_is_Some_2 (swap l p es) l ltac:(lia)) as [x Hx].
  rewrite at_elem_succ. replace (Z.of_nat l + 1) with (Z.of_nat (S l)) by lia. replace (Z.of_nat e - 1) with (Z.of_nat (e - 1)) by lia.
  pose proof (length_concat_uniform _ Hu1) as Hc1.
  destruct (partition_spec (S (length (concat (swap l p es)))) (swap l p es) l (S l) (e - 1) x) as (es2 & m & -> & Hu2 & Hs2 & Hm1 & Hm2 & Hlo & Hhi);
    [done|done|done|done|lia|lia|lia|nia|].
  pose proof (shuffled_length _ _ _ _ Hs2) as Hl2. rewrite qsexchange_spec by (done || lia).
  assert (Hx2 : es2 !! l = Some x) by (rewrite (sh_out _ _ _ _ Hs2) by lia; done).
  exists (swap l m es2), m, x. split; [done|]. split; [lia|]. split; [by apply uniform_swap|].
  assert (He2 : S (e - 1) = e) by lia. rewrite He2 in Hs2. split.
  { apply (shuffled_trans _ _ _ es2); [|apply shuffled_swap; lia].
    apply (shuffled_trans _ _ _ (swap l p es)); [apply shuffled_swap; lia|apply (shuffled_wider (S l) e); [lia|lia|done]]. }
  split; [rewrite lookup_swap by lia; destruct (decide (m = l)) as [->|]; [done|by rewrite decide_True by done]|].
  split; intros k y Hk Hy; rewrite lookup_swap in Hy by lia.
  - destruct (decide (k = l)) as [->|]; [apply (Hlo m); [lia|done]|]. rewrite decide_False in Hy by lia. apply (Hlo k); [lia|done].
  - rewrite !decide_False in Hy by lia. apply (Hhi k); [lia|done].
Qed.

Lemma ordered_split es es' l e m x rest : shuffled l e es es' -> (l <= m < e)%nat -> Forall (apart (l, e)) rest ->
  es' !! m = Some x -> (forall k y, (l <= k < m)%nat -> es' !! k = Some y -> low x y) ->
  (forall k y, (m < k < e)%nat -> es' !! k = Some y -> high x y) ->
  preorder -> ordered es ((l, e) :: rest) -> ordered es' ((l, m) :: (S m, e) :: rest).
Proof.
  intros [_ Hout Hin] Hm Hap Hx Hlo Hhi [Htot Htr] Hord p q a b Hpq Ha Hb.
  assert (Hlow : forall k y, (l <= k <= m)%nat -> es' !! k = Some y -> compar y x <= 0).
  { intros k y Hk Hy. destruct (decide (k = m)) as [->|].
    - simplify_eq. destruct (Z.lt_ge_cases 0 (compar x x)) as [H|H]; [by apply Htot|lia].
    - destruct (Hlo k y) as [H|H]; [lia|done|by apply Htot|done]. }
  assert (Hhigh : forall k y, (m <= k < e)%nat -> es' !! k = Some y -> compar x y <= 0).
  { intros k y Hk Hy. destruct (decide (k = m)) as [->|].
    - simplify_eq. destruct (Z.lt_ge_cases 0 (compar x x)) as [H|H]; [by apply Htot|lia].
    - destruct (Hhi k y) as [H|H]; [lia|done|by apply Htot|done]. }
  assert (Hsrc : forall k y, es' !! k = Some y -> exists k', es !! k' = Some y /\
      (k' = k /\ (k < l \/ e <= k)%nat \/ (l <= k < e)%nat /\ (l <= k' < e)%nat)).
  { intros k y Hy. destruct (decide (l <= k < e)%nat) as [Hk|Hk].
    - destruct (Hin k Hk) as (k' & Hk' & E). exists k'. rewrite <- E. auto.
    - exists k. rewrite <- Hout by lia. split; [done|]. left. lia. }
  destruct (decide (l <= p /\ q < e)%nat) as [[Hlp Hqe]|Hno].
  { destruct (decide (q < m)%nat); [right; exists (l, m); cbn; unfold holds; cbn; split; [by left|lia]|].
    destruct (decide (m < p)%nat); [right; exists (S m, e); unfold holds; cbn; split; [by right; left|lia]|].
    left. apply (Htr a x b); [apply (Hlow p); [lia|done]|apply (Hhigh q); [lia|done]]. }
  destruct (Hsrc p a Ha) as (p' & Ep & Hp'). destruct (Hsrc q b Hb) as (q' & Eq & Hq').
  destruct (Hord p' q' a b) as [H|(s & Hs & H1 & H2)]; [lia|done|done|by left|]. unfold holds in H1, H2.
  destruct Hs as [<-|Hs]; cbn in H1, H2; [lia|].
  pose proof (proj1 (Forall_forall _ _) Hap s (proj2 (list_elem_of_In _ _) Hs)) as [Hs1|Hs1]; cbn in Hs1.
  all: right; exists s; split; [by right; right|unfold holds; lia].
Qed.

Lemma apart_sub s t s' : apart s t -> (s.1 <= s'.1)%nat -> (s'.2 <= s.2)%nat -> apart s' t.
Proof. unfold apart. lia. Qed.

Lemma apart_all_sub s l s' : Forall (apart s) l -> (s.1 <= s'.1)%nat -> (s'.2 <= s.2)%nat -> Forall (apart s') l.
Proof. intros H H1 H2. eapply Forall_impl; [exact H|]. intros t Ht. by apply (apart_sub s). Qed.

Lemma ordered_drop es s l : (s.2 <= S (s.1))%nat -> ordered es (s :: l) -> ordered es l.
Proof.
  intros Hs H p q x y Hpq Hx Hy. destruct (H p q x y Hpq Hx Hy) as [|(t & [<-|Ht] & H1 & H2)]; [by left| |right; by exists t].
  unfold holds in *. lia.
Qed.

Lemma ordered_swap es s t l : ordered es (s :: t :: l) -> ordered es (t :: s :: l).
Proof.
  intros H p q x y Hpq Hx Hy. destruct (H p q x y Hpq Hx Hy) as [|(r & Hr & H1 & H2)]; [by left|].
  right. exists r. split; [|done]. cbn in *. tauto.
Qed.

(** Going on with the smaller part, [s], after the other, [t], was put on the stack if it
    has more than one element. *)
Lemma segs_next es es' l e s t rest : segs_ok es ((l, e) :: rest) -> length es' = length es ->
  (l <= s.1 <= s.2)%nat -> (s.2 <= e)%nat -> (l <= t.1 <= t.2)%nat -> (t.2 <= e)%nat -> apart s t ->
  (seg_size s <= seg_size t)%nat -> (seg_size s + seg_size t < e - l)%nat -> (preorder -> ordered es' (s :: t :: rest)) ->
  Z.of_nat (length es) < 2 ^ 31 ->
  let rest' := if (1 <? seg_size t)%nat then t :: rest else rest in
  (if (1 <? seg_size t)%nat then push (map seg_ptrs rest) (seg_ptrs t) else Some (map seg_ptrs rest)) = Some (map seg_ptrs rest') /\
  segs_ok es' (s :: rest') /\ (seg_size s + weight rest' < e - l + weight rest)%nat.
Proof.
  intros [Hin Hdis Hdep Hord] Hlen Hs1 Hs2 Ht1 Ht2 Hap Hsz Hsum Ho Hn. cbv zeta.
  inversion Hin as [|? ? Hc Hin']; subst. destruct Hdis as [Hdis Hdis']. destruct Hdep as [Hdep Hdep']. unfold seg_in, seg_size in *. cbn [fst snd length] in *.
  assert (Hs : Forall (apart s) rest) by (apply (apart_all_sub (l, e)); [done|cbn; lia|cbn; lia]).
  assert (Ht : Forall (apart t) rest) by (apply (apart_all_sub (l, e)); [done|cbn; lia|cbn; lia]).
  assert (Hp : 0 < 2 ^ Z.of_nat (length rest)) by (apply Z.pow_pos_nonneg; lia).
  destruct (Nat.ltb_spec 1 (t.2 - t.1)).
  - split; [|split; [split|]].
    + unfold push. rewrite length_map, (proj2 (Z.ltb_lt _ _)); [done|]. unfold MAXSTACK, sizeof_int, CHAR_BIT.
      destruct (Z.lt_ge_cases (Z.of_nat (length rest)) 31); [lia|].
      assert (2 ^ 31 <= 2 ^ Z.of_nat (length rest)) by (apply Z.pow_le_mono_r; lia). nia.
    + rewrite Hlen. constructor; [unfold seg_in; lia|]. constructor; [unfold seg_in; lia|done].
    + cbn. split; [constructor; done|]. done.
    + cbn. rewrite Hlen. unfold seg_size. rewrite Nat2Z.inj_succ, Z.pow_succ_r by lia.
      split; [|split; [nia|done]].
      assert (2 * Z.of_nat (s.2 - s.1) <= Z.of_nat (e - l)) by lia. nia.
    + intros P. apply (Ho P).
    + change (weight (t :: rest)) with (Nat.max 1 (seg_size t) + weight rest)%nat. unfold seg_size. lia.
  - split; [done|]. split; [split|].
    + rewrite Hlen. constructor; [unfold seg_in; lia|done].
    + cbn. done.
    + cbn. rewrite Hlen. unfold seg_size. split; [|done]. assert (Z.of_nat (s.2 - s.1) <= Z.of_nat (e - l)) by lia. nia.
    + intros P. apply (ordered_drop es' t); [lia|]. by apply ordered_swap, Ho.
    + lia.
Qed.

Lemma weight_cons s l : weight (s :: l) = (Nat.max 1 (seg_size s) + weight l)%nat.
Proof. done. Qed.

Lemma segment_spec fuel es l e rest : words_aligned -> (0 < size)%nat -> uniform es -> Z.of_nat (length es) < 2 ^ 31 ->
  segs_ok es ((l, e) :: rest) -> (e - l < fuel)%nat ->
  exists es' rest', segment fuel (concat es) (at_elem (Z.of_nat l)) (at_elem (Z.of_nat e - 1)) (map seg_ptrs rest) =
      Some (concat es', map seg_ptrs rest') /\ uniform es' /\ es' ≡ₚ es /\ segs_ok es' rest' /\
    (weight rest' < weight ((l, e) :: rest))%nat.
Proof.
  intros Hal Hsz. revert es l e rest. induction fuel as [|fuel IH]; intros es l e rest Hu Hn Hok Hf; [lia|]. cbn [segment].
  rewrite at_elem_lt by done. change (weight ((l, e) :: rest)) with (Nat.max 1 (e - l) + weight rest)%nat.
  pose proof Hok as [Hin Hdis _ Hord]. inversion Hin as [|? ? Hle _]; subst. unfold seg_in in Hle. cbn [fst snd] in Hle.
  destruct (Z.ltb_spec (Z.of_nat l) (Z.of_nat e - 1)).
  2: { exists es, rest. split; [done|]. split; [done|]. split; [done|]. split; [|lia].
       destruct Hok as [H1 [_ H2] [_ H3] H4]. split; [by inversion H1|done|done|].
       intros P. apply (ordered_drop es (l, e)); [cbn; lia|by apply H4]. }
  destruct (pivot_step es l e) as (es1 & m & x & -> & Hm & Hu1 & Hsh & Hx & Hlo & Hhi); [done|done|done|lia|lia|].
  pose proof (shuffled_length _ _ _ _ Hsh) as Hl1. rewrite !at_elem_succ, !at_elem_pred.
  assert (Ho : preorder -> ordered es1 ((l, m) :: (S m, e) :: rest)).
  { intros P. eapply ordered_split; try done; [apply Hdis|by apply Hord]. }
  rewrite !at_elem_lt by done.
  replace (at_elem (Z.of_nat m) - at_elem (Z.of_nat l) <=? at_elem (Z.of_nat e - 1) - at_elem (Z.of_nat m))
    with (m - l <=? e - 1 - m)%nat by (unfold at_elem; destruct (Nat.leb_spec (m - l) (e - 1 - m)); symmetry; [apply Z.leb_le|apply Z.leb_gt]; nia).
  destruct (Nat.leb_spec (m - l) (e - 1 - m)).
  - destruct (segs_next es es1 l e (l, m) (S m, e) rest) as (Hp & Hok' & Hw); try done; try (unfold apart, seg_size; cbn [fst snd]; lia).
    replace (Z.of_nat m + 1 <? Z.of_nat e - 1) with (1 <? seg_size (S m, e))%nat
      by (unfold seg_size; cbn [fst snd]; destruct (Nat.ltb_spec 1 (e - S m)); symmetry; [apply Z.ltb_lt|apply Z.ltb_ge]; lia).
    replace (at_elem (Z.of_nat m + 1), at_elem (Z.of_nat e - 1)) with (seg_ptrs (S m, e)) by (unfold seg_ptrs; cbn [fst snd]; do 2 f_equal; lia).
    rewrite Hp. unfold seg_size at 1 in Hw. cbn [fst snd] in Hw.
    edestruct (IH es1 l m) as (es2 & rest2 & -> & ? & Hp2 & ? & Hw2); [done|by rewrite Hl1|exact Hok'|lia|].
    exists es2, rest2. split; [done|]. split; [done|]. split; [by rewrite Hp2, (sh_perm _ _ _ _ Hsh)|]. split; [done|].
    rewrite weight_cons in Hw2. change (seg_size (l, m)) with (m - l)%nat in Hw2. lia.
  - destruct (segs_next es es1 l e (S m, e) (l, m) rest) as (Hp & Hok' & Hw); try done; try (unfold apart, seg_size; cbn [fst snd]; lia);
      [by intros P; apply ordered_swap, Ho|].
    replace (Z.of_nat l <? Z.of_nat m - 1) with (1 <? seg_size (l, m))%nat
      by (unfold seg_size; cbn [fst snd]; destruct (Nat.ltb_spec 1 (m - l)); symmetry; [apply Z.ltb_lt|apply Z.ltb_ge]; lia).
    change (at_elem (Z.of_nat l), at_elem (Z.of_nat m - 1)) with (seg_ptrs (l, m)).
    rewrite Hp. unfold seg_size at 1 in Hw. cbn [fst snd] in Hw. replace (Z.of_nat m + 1) with (Z.of_nat (S m)) by lia.
    edestruct (IH es1 (S m) e) as (es2 & rest2 & -> & ? & Hp2 & ? & Hw2); [done|by rewrite Hl1|exact Hok'|lia|].
    exists es2, rest2. split; [done|]. split; [done|]. split; [by rewrite Hp2, (sh_perm _ _ _ _ Hsh)|]. split; [done|].
    rewrite weight_cons in Hw2. change (seg_size (S m, e)) with (e - S m)%nat in Hw2. lia.
Qed.

Lemma segments_spec fuel es segs : words_aligned -> (0 < size)%nat -> uniform es -> Z.of_nat (length es) < 2 ^ 31 ->
  segs_ok es segs -> (weight segs < fuel)%nat ->
  exists es', segments fuel (concat es) (map seg_ptrs segs) = Some (concat es') /\ uniform es' /\ es' ≡ₚ es /\
    (preorder -> ordered es' []).
Proof.
  intros Hal Hsz. revert es segs. induction fuel as [|fuel IH]; intros es segs Hu Hn Hok Hf; [lia|]. cbn [segments].
  destruct segs as [|[l e] rest]; cbn [map].
  - exists es. split; [done|]. split; [done|]. split; [done|]. apply Hok.
  - unfold seg_ptrs at 1. cbn [fst snd]. pose proof (length_concat_uniform es Hu) as Hlen.
    destruct (segment_spec (S (length (concat es))) es l e rest) as (es1 & rest1 & -> & Hu1 & Hp1 & Hok1 & Hw1); try done.
    { destruct Hok as [Hin _ _ _]. inversion Hin as [|? ? Hle _]; subst. unfold seg_in in Hle. cbn [fst snd] in Hle. nia. }
    destruct (IH es1 rest1) as (es2 & -> & ? & Hp2 & ?); [done|by rewrite Hp1|done|lia|].
    exists es2. split; [done|]. split; [done|]. split; [by rewrite Hp2|done].
Qed.

Lemma ordered_sorted es : ordered es [] -> StronglySorted (fun x y => compar x y <= 0) es.
Proof.
  induction es as [|x es IH]; intros H; [constructor|]. constructor.
  - apply IH. intros p q a b Hpq Ha Hb. destruct (H (S p) (S q) a b) as [|(s & [] & _)]; [lia|done|done|by left].
  - apply Forall_lookup_2. intros q b Hb. destruct (H 0%nat (S q) x b) as [|(s & [] & _)]; [lia|done|done|done].
Qed.
End qsort.

(** C35 For any array whose words are aligned, and any comparison function, even one that is not
    an order, qsort ends, stays inside the array and its stack of 32 segments, and leaves a
    permutation of the elements; when the comparison is a total preorder, they are sorted. *)
Theorem qsort_sorts base size compar es : (0 < size)%nat -> uniform size es -> words_aligned base size ->
  Z.of_nat (length es) * Z.of_nat size < 2 ^ 31 ->
  exists es', qsort base size compar (concat es) (Z.of_nat (length es)) = Some (concat es') /\ uniform size es' /\
    es' ≡ₚ es /\ (preorder compar -> StronglySorted (fun x y => compar x y <= 0) es').
Proof.
  intros Hsz Hu Hal Hn. unfold qsort. pose proof (length_concat_uniform size es Hu) as Hlen.
  destruct (segments_spec base size compar (S (S (length (concat es)))) es [(0, length es)%nat]) as (es' & He & Hu' & Hp & Ho); try done.
  - nia.
  - split; cbn.
    + constructor; [unfold seg_in; cbn; lia|constructor].
    + done.
    + unfold seg_size. cbn. split; [lia|done].
    + intros _ p q x y Hpq Hx Hy. right. exists (0, length es)%nat. split; [by left|].
      pose proof (lookup_lt_Some _ _ _ Hx). pose proof (lookup_lt_Some _ _ _ Hy). unfold holds. cbn. lia.
  - unfold weight, seg_size. cbn. nia.
  - exists es'. split; [|split; [done|split; [done|intros P; by apply ordered_sorted, Ho]]].
    rewrite <- He. f_equal.
Qed.

(** Little-endian 32-bit keys with a byte of data, in elements of 8 bytes. *)
Definition cmp_first (x y : bytes) : Z := hd 0 x - hd 0 y.

Lemma qsort_sorts_witness :
  let es := map (fun k => [k; 0; 0; 0; k + 100; 0; 0; 0]) [5; 3; 9; 1; 3; 7; 2] in
  (exists es', qsort 0x1000 8 cmp_first (concat es) 7 = Some (concat es') /\ uniform 8 es' /\ es' ≡ₚ es /\
    (preorder cmp_first -> StronglySorted (fun x y => cmp_first x y <= 0) es')) /\
  preorder cmp_first /\
  qsort 0x1000 8 cmp_first (concat es) 7 = Some (concat (map (fun k => [k; 0; 0; 0; k + 100; 0; 0; 0]) [1; 2; 3; 3; 5; 7; 9])).
Proof.
  split; [|split].
  - apply (qsort_sorts 0x1000 8 cmp_first); [lia|repeat constructor|right; split; reflexivity|cbn; lia].
  - split; unfold cmp_first; intros; lia.
  - vm_compute. reflexivity.
Defined.

(** Elements larger than a word and not a multiple of one are exchanged with unaligned word
    accesses, which the processor does not allow. *)
Lemma odd_size_unaligned : qsort 0x1000 5 cmp_first (concat [[2; 0; 0; 0; 0]; [1; 0; 0; 0; 0]; [3; 0; 0; 0; 0]]) 3 = None.
Proof. vm_compute. reflexivity. Qed.
