(* ===== verification/Env.v ===== *)
(** The environment variables of the boot loader: cfe/cfe/main/env_subr.c, and the access to
    the device they are kept on, cfe/cfe/main/nvram_subr.c.

    The variables are a queue of blocks of the allocator of [Malloc]; the queue operations
    are those of [Queue], which implement the list used here.  The device behind the handle
    is given by the class [NvDev], its documented behaviour by [NvDevLaws]. *)

From S2P Require Import Prelude Malloc.
From Stdlib Require Import ZArith Lia Bool List String Ascii.
From stdpp Require Import base numbers list gmap.

#[local] Open Scope Z_scope.

Definition CFE_ERR_IOERR := -4.
Definition CFE_ERR_NOMEM := -5.
Definition CFE_ERR_DEVNOTFOUND := -6.
Definition CFE_ERR_ENVNOTFOUND := -9.
Definition CFE_ERR_ENVREADONLY := -10.

Definition ENV_LENGTH_8BITS := 1.
Definition ENV_TLV_TYPE_END := 0.
Definition ENV_TLV_TYPE_ENV := 1.
Definition ENV_FLG_BUILTIN := 1.
Definition ENV_FLG_READONLY := 2.
Definition ENV_FLG_MASK := 0xff.
Definition ENV_FLG_ADMIN := 0x100.
Definition CFE_INIT_SAFE := 0x00010000.

(** * The list in memory *)

(** [v_ptr] is the address of the block, which holds the name and the value behind the
    fields. *)
Record cfe_envvar := EnvVar { v_ptr : Z; v_flags : Z; v_name : bytes; v_value : bytes }.
Definition sizeof_envvar := 20.

Record env_state := Env { kmempool : mempool; env_envvars : list cfe_envvar; cfe_startflags : Z }.

(** The variable of a name, with the queue before and behind it. *)
Fixpoint split_env (l : list cfe_envvar) (name : bytes) : option (list cfe_envvar * cfe_envvar * list cfe_envvar) :=
  match l with
  | [] => None
  | v :: l =>
      if bytes_eqb (v_name v) name then Some ([], v, l)
      else let? (a, w, b) := split_env l name in Some (v :: a, w, b)
  end.

Definition env_findenv (s : env_state) (name : bytes) : option cfe_envvar :=
  let? (_, v, _) := split_env (env_envvars s) name in Some v.

(** What [xstrncpy] writes: [cnt] is a [size_t]. *)
Fixpoint xstrncpy_bytes (src : bytes) (cnt : Z) : bytes :=
  match src with
  | [] => [0]
  | c :: src => if 1 <? cnt then c :: xstrncpy_bytes src (cnt - 1) else [0]
  end.

(** The destination and the number of characters copied. *)
Definition xstrncpy (dest src : bytes) (cnt : Z) : option (bytes * Z) :=
  let s := xstrncpy_bytes src (wrap32 cnt) in
  assert! (length s <=? length dest)%nat in
  Some (splice dest 0 s, Z.of_nat (length s) - 1).

(** The result, and the buffers with their lengths. *)
Definition env_enum (s : env_state) (idx : nat) (name : bytes) (namelen : Z) (val : bytes) (vallen : Z)
    : option (Z * bytes * Z * bytes * Z) :=
  match env_envvars s !! idx with
  | None => Some (CFE_ERR_ENVNOTFOUND, name, namelen, val, vallen)
  | Some v =>
      let? (name, namelen) := xstrncpy name (v_name v) namelen in
      let? (val, vallen) := xstrncpy val (v_value v) vallen in
      Some (0, name, namelen, val, vallen)
  end.

Definition env_envtype (s : env_state) (name : bytes) : Z :=
  match env_findenv s name with Some v => v_flags v | None => CFE_ERR_ENVNOTFOUND end.

Definition env_getenv (s : env_state) (name : bytes) : option bytes :=
  let? v := env_findenv s name in Some (v_value v).

Definition env_delenv (s : env_state) (name : bytes) : option (Z * env_state) :=
  match split_env (env_envvars s) name with
  | None => Some (0, s)
  | Some (a, v, b) =>
      if negb (truthy (Z.land (v_flags v) ENV_FLG_READONLY)) then
        let? pool := kfree (kmempool s) (v_ptr v) in
        Some (0, Env pool (a ++ b) (cfe_startflags s))
      else Some (CFE_ERR_ENVNOTFOUND, s)
  end.

(** The old block is freed before the new one is filled: a caller that passes a value inside
    the variable's own block has it read after it was freed, which is outside this model (a
    value is its bytes). *)
Definition env_setenv (s : env_state) (name value : bytes) (flags : Z) : option (Z * env_state) :=
  let blocked := negb (truthy (Z.land flags ENV_FLG_ADMIN)) in
  let found := split_env (env_envvars s) name in
  let readonly := match found with Some (_, v, _) => truthy (Z.land (v_flags v) ENV_FLG_READONLY) | None => false end in
  if blocked && readonly then Some (CFE_ERR_ENVREADONLY, s)
  else
    let? s :=
      match found with
      | None => Some s
      | Some (a, v, b) =>
          let? pool := kfree (kmempool s) (v_ptr v) in
          Some (Env pool (a ++ b) (cfe_startflags s))
      end in
    let namelen := Z.of_nat (length name) in
    let '(p, pool) := kmalloc (kmempool s) (wrap32 (sizeof_envvar + namelen + 1 + Z.of_nat (length value) + 1)) 0 in
    if p =? 0 then Some (CFE_ERR_NOMEM, Env pool (env_envvars s) (cfe_startflags s))
    else Some (0, Env pool (env_envvars s ++ [EnvVar p (Z.land flags ENV_FLG_MASK) name value]) (cfe_startflags s)).

(** * The device *)

Record nvram_info_t := Info { nvram_offset : Z; nvram_size : Z; nvram_eraseflg : bool }.

Definition IOCTL_NVRAM_GETINFO := 1.
Definition IOCTL_NVRAM_ERASE := 2.
Definition IOCTL_NVRAM_UNLOCK := 9.

(** The device calls: a handle or an error; a result and what GETINFO returns; the number of
    bytes read, with the bytes; the number of bytes written. *)
Class NvDev (D : Type) := {
  cfe_open : D -> bytes -> Z * D;
  cfe_close : D -> Z -> D;
  cfe_ioctl : D -> Z -> Z -> nvram_info_t -> Z * nvram_info_t * D;
  cfe_readblk : D -> Z -> Z -> Z -> Z * bytes * D;
  cfe_writeblk : D -> Z -> Z -> bytes -> Z * D
}.

Section nvram_subr.
Context {D : Type} `{!NvDev D}.

(** The globals of nvram_subr.c, and the device. *)
Record nv_state := Nv { nvram_handle : Z; nvram_info : nvram_info_t; nvram_devname : option bytes; dev : D }.

Definition nvram_getinfo (n : nv_state) : Z * nv_state :=
  if nvram_handle n =? -1 then (-1, n)
  else
    let '(_, _, d) := cfe_ioctl (dev n) (nvram_handle n) IOCTL_NVRAM_UNLOCK (nvram_info n) in
    let '(r, info, d) := cfe_ioctl d (nvram_handle n) IOCTL_NVRAM_GETINFO (nvram_info n) in
    (if r =? 0 then 0 else -1, Nv (nvram_handle n) info (nvram_devname n) d).

Definition nvram_close (n : nv_state) : nv_state :=
  if nvram_handle n =? -1 then n
  else Nv (-1) (nvram_info n) (nvram_devname n) (cfe_close (dev n) (nvram_handle n)).

Definition nvram_open (n : nv_state) : Z * nv_state :=
  let n := nvram_close n in
  match nvram_devname n with
  | None => (CFE_ERR_DEVNOTFOUND, n)
  | Some name =>
      let '(h, d) := cfe_open (dev n) name in
      let n := Nv h (nvram_info n) (nvram_devname n) d in
      if h <? 0 then (CFE_ERR_DEVNOTFOUND, n)
      else
        let '(r, n) := nvram_getinfo n in
        if r <? 0 then (CFE_ERR_IOERR, nvram_close n) else (0, n)
  end.

Definition nvram_getsize (n : nv_state) : Z := if nvram_handle n <? 0 then 0 else nvram_size (nvram_info n).

Definition set_dev (n : nv_state) (d : D) : nv_state := Nv (nvram_handle n) (nvram_info n) (nvram_devname n) d.

Definition nvram_read (n : nv_state) (offset length : Z) : Z * bytes * nv_state :=
  if nvram_handle n =? -1 then (-1, [], n)
  else
    let '(r, data, d) := cfe_readblk (dev n) (nvram_handle n) (offset + nvram_offset (nvram_info n)) length in
    (r, data, set_dev n d).

Definition nvram_write (n : nv_state) (offset : Z) (data : bytes) : Z * nv_state :=
  if nvram_handle n =? -1 then (-1, n)
  else
    let '(r, d) := cfe_writeblk (dev n) (nvram_handle n) (offset + nvram_offset (nvram_info n)) data in
    (r, set_dev n d).

Definition nvram_erase (n : nv_state) : Z * nv_state :=
  if nvram_handle n <? 0 then (-1, n)
  else if negb (nvram_eraseflg (nvram_info n)) then (0, n)
  else
    let '(r, info, d) := cfe_ioctl (dev n) (nvram_handle n) IOCTL_NVRAM_ERASE (nvram_info n) in
    (if r =? 0 then 0 else -1, Nv (nvram_handle n) info (nvram_devname n) d).

(** * Loading and saving *)

(** [strnchr]: how far the character is, among [cnt] bytes before a NUL.  Running over the
    end of the object is [None]. *)
Fixpoint strnchr (s : bytes) (c cnt : Z) : option (option nat) :=
  if cnt <=? 0 then Some None
  else
    match s with
    | [] => None
    | x :: s =>
        if x =? 0 then Some None
        else if x =? c then Some (Some 0%nat)
        else let? r := strnchr s c (cnt - 1) in Some (option_map S r)
    end.

(** The data of a record, [reclen] bytes, at the start of the buffer. *)
Definition load_record (s : env_state) (buffer : bytes) (reclen : Z) : option env_state :=
  let? flg := buffer !! 0%nat in
  let ptr := drop 1 buffer in
  let? pos := strnchr ptr (ch "="%char) (wrap32 (reclen - 1)) in
  match pos with
  | None => Some s
  | Some k =>
      let n := wrap32 (reclen - 1 - Z.of_nat (S k)) in
      assert! (n <? 256) && (Z.of_nat (S k) + n <=? Z.of_nat (length ptr)) in
      let? (_, s) := env_setenv s (take k ptr) (cstr (take (Z.to_nat n) (drop (S k) ptr))) flg in
      Some s
  end.

(** A read of [length] bytes to the start of the buffer. *)
Definition read_buf (n : nv_state) (buffer : bytes) (offset len : Z) : option (Z * bytes * nv_state) :=
  let '(r, data, n) := nvram_read n offset len in
  assert! (length data <=? length buffer)%nat in
  Some (r, splice buffer 0 data, n).

(** The loop over the records, entered with the type of the next one read: the result, which
    is -1 until the end is reached. *)
Fixpoint load_loop (fuel : nat) (s : env_state) (n : nv_state) (buffer : bytes) (offset size : Z)
    : option (Z * env_state * nv_state) :=
  match fuel with
  | O => None
  | S fuel =>
      let? rectype := buffer !! 0%nat in
      if negb (rectype =? ENV_TLV_TYPE_END) && (1 <? size) then
        let offset := offset + 1 in
        let size := size - 1 in
        let lenlen := if truthy (Z.land rectype ENV_LENGTH_8BITS) then 1 else 2 in
        let? (r, buffer, n) := read_buf n buffer offset lenlen in
        if negb (r =? lenlen) then Some (CFE_ERR_IOERR, s, n)
        else
          let? b0 := buffer !! 0%nat in
          let? reclen := if lenlen =? 1 then Some b0 else let? b1 := buffer !! 1%nat in Some (Z.shiftl b0 8 + b1) in
          let size := size - lenlen in
          let offset := offset + lenlen in
          if wrap32 size <? reclen then Some (0, s, n)
          else
            let next (s : env_state) (n : nv_state) (buffer : bytes) :=
              let size := size - reclen in
              let offset := offset + reclen in
              let? (r, buffer, n) := read_buf n buffer offset 1 in
              if negb (r =? 1) then Some (-1, s, n) else load_loop fuel s n buffer offset size in
            if rectype =? ENV_TLV_TYPE_ENV then
              let? (r, buffer, n) := read_buf n buffer offset reclen in
              if negb (r =? reclen) then Some (-1, s, n)
              else
                let? s := load_record s buffer reclen in
                next s n buffer
            else next s n buffer
      else Some (0, s, n)
  end.

(** [junk] is what happens to be in the buffer. *)
Definition env_load (s : env_state) (n : nv_state) (junk : bytes) : option (Z * env_state * nv_state) :=
  if truthy (Z.land (cfe_startflags s) CFE_INIT_SAFE)
  then Some (0, Env (kmempool s) (env_envvars s) (Z.ldiff (cfe_startflags s) CFE_INIT_SAFE), n)
  else
    let '(flg, n) := nvram_open n in
    if flg <? 0 then Some (flg, s, n)
    else
      let size := nvram_getsize n in
      let '(p, pool) := kmalloc (kmempool s) (wrap32 size) 0 in
      let s := Env pool (env_envvars s) (cfe_startflags s) in
      if p =? 0 then Some (CFE_ERR_NOMEM, s, n)
      else
        let? (r, buffer, n) := read_buf n junk 0 1 in
        let? (retval, s, n) :=
          if negb (r =? 1) then Some (CFE_ERR_IOERR, s, n)
          else load_loop (S (Z.to_nat size)) s n buffer 0 size in
        let? pool := kfree (kmempool s) p in
        Some (retval, Env pool (env_envvars s) (cfe_startflags s), nvram_close n).

(** The records of the variables, as far as they fit. *)
Definition env_record (v : cfe_envvar) : bytes :=
  [ENV_TLV_TYPE_ENV; wrap8 (Z.of_nat (length (v_name v)) + Z.of_nat (length (v_value v)) + 1 + 1); wrap8 (v_flags v)]
  ++ v_name v ++ [ch "="%char] ++ v_value v.

Fixpoint save_loop (l : list cfe_envvar) (out : bytes) (size : Z) : bytes :=
  match l with
  | [] => out
  | v :: l =>
      if truthy (Z.land (v_flags v) ENV_FLG_BUILTIN) then save_loop l out size
      else if size <? Z.of_nat (length out) + 2 + Z.of_nat (length (v_name v)) + Z.of_nat (length (v_value v)) + 1 + 1 + 1
      then out
      else save_loop l (out ++ env_record v) size
  end.

Definition env_save (s : env_state) (n : nv_state) : option (Z * env_state * nv_state) :=
  let '(flg, n) := nvram_open n in
  if flg <? 0 then Some (flg, s, n)
  else
    let '(_, n) := nvram_erase n in
    let size := nvram_getsize n in
    let '(p, pool) := kmalloc (kmempool s) (wrap32 size) 0 in
    let s := Env pool (env_envvars s) (cfe_startflags s) in
    if p =? 0 then Some (CFE_ERR_NOMEM, s, n)
    else
      let out := save_loop (env_envvars s) [] size in
      assert! Z.of_nat (length out) <? size in
      let out := out ++ [ENV_TLV_TYPE_END] in
      let '(r, n) := nvram_write n 0 out in
      let? pool := kfree (kmempool s) p in
      Some (if r =? Z.of_nat (length out) then 0 else CFE_ERR_IOERR,
            Env pool (env_envvars s) (cfe_startflags s), nvram_close n).

(** The name is copied to a block of its own. *)
Definition cfe_set_envdevice (s : env_state) (n : nv_state) (name junk : bytes) : option (Z * env_state * nv_state) :=
  let '(p, pool) := kmalloc (kmempool s) (wrap32 (Z.of_nat (length name) + 1)) 0 in
  let s := Env pool (env_envvars s) (cfe_startflags s) in
  let n := Nv (nvram_handle n) (nvram_info n) (if p =? 0 then None else Some name) (dev n) in
  let '(res, n) := nvram_open n in
  if negb (res =? 0) then Some (res, s, n)
  else env_load s (nvram_close n) junk.
End nvram_subr.

(** * The variables as a map *)

Definition var_size (name value : bytes) : Z := sizeof_envvar + Z.of_nat (length name) + 1 + Z.of_nat (length value) + 1.

Definition var_blocks (l : list cfe_envvar) : blocks :=
  list_to_map (map (fun v => (v_ptr v, (Z.max 4 (var_size (v_name v) (v_value v)), 0))) l).

Definition to_map (l : list cfe_envvar) : gmap bytes (Z * bytes) :=
  list_to_map (map (fun v => (v_name v, (v_flags v, v_value v))) l).

(** The blocks in use are those of the variables, one each, and [other]. *)
Record env_ok (s : env_state) (other : blocks) : Prop := {
  eo_pool : pool_ok (kmempool s) (var_blocks (env_envvars s) ∪ other);
  eo_disj : var_blocks (env_envvars s) ##ₘ other;
  eo_ptrs : NoDup (map v_ptr (env_envvars s));
  eo_names : NoDup (map v_name (env_envvars s))
}.

Inductive env_op := EnvSet (name value : bytes) (flags : Z) | EnvDel (name : bytes).

Definition env_op_ok (o : env_op) : Prop := match o with EnvSet n v _ => var_size n v < 2 ^ 29 | EnvDel _ => True end.

Definition env_step (s : env_state) (o : env_op) : option (Z * env_state) :=
  match o with EnvSet n v f => env_setenv s n v f | EnvDel n => env_delenv s n end.

Definition is_readonly (m : gmap bytes (Z * bytes)) (name : bytes) : bool :=
  match m !! name with Some (f, _) => truthy (Z.land f ENV_FLG_READONLY) | None => false end.

(** What a call may do to the map, with its result. *)
Inductive env_spec (m : gmap bytes (Z * bytes)) : env_op -> Z -> gmap bytes (Z * bytes) -> Prop :=
  | set_readonly name value flags : is_readonly m name = true -> Z.land flags ENV_FLG_ADMIN = 0 ->
      env_spec m (EnvSet name value flags) CFE_ERR_ENVREADONLY m
  | set_done name value flags : is_readonly m name = false \/ Z.land flags ENV_FLG_ADMIN <> 0 ->
      env_spec m (EnvSet name value flags) 0 (<[name := (Z.land flags ENV_FLG_MASK, value)]> m)
  | set_nomem name value flags : is_readonly m name = false \/ Z.land flags ENV_FLG_ADMIN <> 0 ->
      env_spec m (EnvSet name value flags) CFE_ERR_NOMEM (delete name m)
  | del_readonly name : is_readonly m name = true -> env_spec m (EnvDel name) CFE_ERR_ENVNOTFOUND m
  | del_done name : is_readonly m name = false -> env_spec m (EnvDel name) 0 (delete name m).

Lemma split_env_some l name a v b : split_env l name = Some (a, v, b) -> l = a ++ v :: b /\ v_name v = name /\
  Forall (fun w => v_name w <> name) a.
Proof.
  revert a v b. induction l as [|w l IH]; intros a v b H; cbn in H; [done|].
  destruct (bytes_eqb (v_name w) name) eqn:E.
  - injection H as <- <- <-. by apply bytes_eqb_true in E.
  - destruct (split_env l name) as [[[a' w'] b']|]; [|done]. injection H as <- <- <-.
    destruct (IH a' w' b' eq_refl) as (-> & Hn & Ha). apply bytes_eqb_false in E. by repeat constructor.
Qed.

Lemma split_env_none l name : split_env l name = None -> Forall (fun w => v_name w <> name) l.
Proof.
  induction l as [|w l IH]; cbn; intros H; [constructor|]. destruct (bytes_eqb (v_name w) name) eqn:E; [done|].
  destruct (split_env l name) as [[[a' w'] b']|]; [done|]. apply bytes_eqb_false in E. constructor; auto.
Qed.

Lemma to_map_none l name : Forall (fun w => v_name w <> name) l -> to_map l !! name = None.
Proof.
  intros H. apply not_elem_of_list_to_map_1. rewrite list_elem_of_fmap. intros (p & -> & Hp).
  apply list_elem_of_fmap in Hp as (v & -> & Hv). rewrite Forall_forall in H. by apply (H v).
Qed.

Lemma map_middle (A B : Type) (f : A -> B) a v b : map f (a ++ v :: b) ≡ₚ f v :: map f (a ++ b).
Proof. rewrite !map_app. cbn. by rewrite Permutation_middle. Qed.

Lemma to_map_middle a v b : NoDup (map v_name (a ++ v :: b)) ->
  to_map (a ++ v :: b) = <[v_name v := (v_flags v, v_value v)]> (to_map (a ++ b)).
Proof.
  intros H. unfold to_map. rewrite <- list_to_map_cons. apply list_to_map_proper; [|by rewrite map_middle].
  rewrite <- list_fmap_compose. exact H.
Qed.

Lemma blocks_middle a v b : NoDup (map v_ptr (a ++ v :: b)) ->
  var_blocks (a ++ v :: b) = <[v_ptr v := (Z.max 4 (var_size (v_name v) (v_value v)), 0)]> (var_blocks (a ++ b)).
Proof.
  intros H. unfold var_blocks. rewrite <- list_to_map_cons. apply list_to_map_proper; [|by rewrite map_middle].
  rewrite <- list_fmap_compose. exact H.
Qed.

Lemma NoDup_middle {A B} (f : A -> B) a v b : NoDup (map f (a ++ v :: b)) -> ~ f v ∈ map f (a ++ b) /\ NoDup (map f (a ++ b)).
Proof. rewrite map_middle. intros H. by apply NoDup_cons in H. Qed.

Lemma blocks_none l p : ~ p ∈ map v_ptr l -> var_blocks l !! p = None.
Proof.
  intros H. apply not_elem_of_list_to_map_1. intros Hp. apply H. rewrite <- list_fmap_compose in Hp. exact Hp.
Qed.

Lemma to_map_lookup_middle a v b : NoDup (map v_name (a ++ v :: b)) ->
  to_map (a ++ v :: b) !! v_name v = Some (v_flags v, v_value v) /\ delete (v_name v) (to_map (a ++ v :: b)) = to_map (a ++ b).
Proof.
  intros H. rewrite to_map_middle by done. split; [apply lookup_insert_eq|]. apply delete_insert_id.
  destruct (NoDup_middle v_name a v b H) as [Hn _]. apply to_map_none, Forall_forall. intros w Hw E. apply Hn. rewrite <- E.
  by apply list_elem_of_fmap_2.
Qed.

(** Taking a variable off the queue and freeing it. *)
Lemma env_remove s other a v b : env_ok s other -> env_envvars s = a ++ v :: b ->
  exists pool, kfree (kmempool s) (v_ptr v) = Some pool /\ env_ok (Env pool (a ++ b) (cfe_startflags s)) other /\
    forall L, has_room (kmempool s) L -> has_room pool L.
Proof.
  intros [Hp Hd Hn1 Hn2] Hl. rewrite Hl in *. destruct (NoDup_middle v_ptr a v b Hn1) as [Hnp Hn1'].
  destruct (NoDup_middle v_name a v b Hn2) as [_ Hn2']. pose proof (blocks_middle a v b Hn1) as Hb. rewrite Hb in Hp, Hd.
  apply map_disjoint_insert_l in Hd as [Ho Hd].
  assert (Hlive : (<[v_ptr v := (Z.max 4 (var_size (v_name v) (v_value v)), 0)]> (var_blocks (a ++ b)) ∪ other) !! v_ptr v
    = Some (Z.max 4 (var_size (v_name v) (v_value v)), 0)) by (apply lookup_union_Some_l; apply lookup_insert_eq).
  destruct (kfree_spec _ _ _ _ Hp Hlive) as (pool & Hk & Hp' & _). exists pool. split; [done|]. split.
  - split; cbn; try done. rewrite delete_union, delete_insert_id in Hp' by (by apply blocks_none). by rewrite (delete_id other) in Hp' by done.
  - intros L HL. exact (kfree_room _ _ _ _ _ L Hp Hlive Hk HL).
Qed.

(** Allocating a variable and putting it at the end. *)
Lemma env_append s other name value flags : env_ok s other -> var_size name value < 2 ^ 29 ->
  Forall (fun w => v_name w <> name) (env_envvars s) ->
  let '(p, pool) := kmalloc (kmempool s) (wrap32 (sizeof_envvar + Z.of_nat (length name) + 1 + Z.of_nat (length value) + 1)) 0 in
  (forall L, 2 * var_size name value + 80 <= L -> has_room (kmempool s) L -> p <> 0 /\ has_room pool (L - var_size name value - 40)) /\
  if p =? 0 then env_ok (Env pool (env_envvars s) (cfe_startflags s)) other
  else env_ok (Env pool (env_envvars s ++ [EnvVar p (Z.land flags ENV_FLG_MASK) name value]) (cfe_startflags s)) other.
Proof.
  intros [Hp Hd Hn1 Hn2] Hsz Hnew. fold (var_size name value). change (2 ^ 29) with 536870912 in Hsz.
  assert (H0 : 0 < var_size name value) by (unfold var_size, sizeof_envvar; lia). rewrite wrap32_small by lia.
  pose proof (kmalloc_spec _ _ (var_size name value) 0 Hp) as H.
  pose proof (fun L => kmalloc_room _ _ (var_size name value) L Hp) as Hroom.
  destruct (kmalloc (kmempool s) (var_size name value) 0) as [p pool]. cbn [fst snd] in Hroom. split.
  { intros L HL HR. apply Hroom; [change (2 ^ 29) with 536870912; lia|done|lia]. }
  destruct H as (_ & _ & H); [split; [change (2 ^ 30) with 1073741824; lia|by left]|].
  destruct H as [[-> ->]|(Hnz & Hnone & Hp')]; [by rewrite Z.eqb_refl; split|].
  rewrite (proj2 (Z.eqb_neq _ _)) by done. apply lookup_union_None in Hnone as [Hb Ho].
  assert (Hnp : ~ p ∈ map v_ptr (env_envvars s)).
  { intros Hin. apply list_elem_of_fmap in Hin as (w & -> & Hw). apply list_elem_of_split in Hw as (a & b & Hl). rewrite Hl in *.
    by rewrite blocks_middle, lookup_insert_eq in Hb by done. }
  assert (Hnd : NoDup (map v_ptr (env_envvars s ++ [EnvVar p (Z.land flags ENV_FLG_MASK) name value]))).
  { rewrite map_middle, app_nil_r. by apply NoDup_cons. }
  split; cbn [kmempool env_envvars].
  - rewrite blocks_middle, app_nil_r by done. cbn [v_ptr v_name v_value]. by rewrite <- insert_union_l.
  - rewrite blocks_middle, app_nil_r by done. cbn [v_ptr]. by apply map_disjoint_insert_l.
  - exact Hnd.
  - rewrite map_middle, app_nil_r. apply NoDup_cons. split; [|done]. cbn [v_name]. intros Hin.
    apply list_elem_of_fmap in Hin as (w & E & Hw). rewrite Forall_forall in Hnew. by apply (Hnew w Hw).
Qed.

Lemma is_readonly_spec l name : NoDup (map v_name l) ->
  (match split_env l name with Some (_, v, _) => truthy (Z.land (v_flags v) ENV_FLG_READONLY) | None => false end) = is_readonly (to_map l) name.
Proof.
  intros Hn. unfold is_readonly. destruct (split_env l name) as [[[a v] b]|] eqn:E.
  - destruct (split_env_some _ _ _ _ _ E) as (-> & <- & _). by destruct (to_map_lookup_middle a v b Hn) as [-> _].
  - by rewrite (to_map_none _ _ (split_env_none _ _ E)).
Qed.

Lemma names_absent a v b : NoDup (map v_name (a ++ v :: b)) -> Forall (fun w => v_name w <> v_name v) (a ++ b).
Proof.
  intros H. destruct (NoDup_middle v_name a v b H) as [Hn _]. apply Forall_forall. intros w Hw E. apply Hn. rewrite <- E.
  by apply list_elem_of_fmap_2.
Qed.

Lemma to_map_snoc l v : NoDup (map v_name (l ++ [v])) -> to_map (l ++ [v]) = <[v_name v := (v_flags v, v_value v)]> (to_map l).
Proof. intros H. by rewrite to_map_middle, app_nil_r. Qed.

Lemma env_setenv_spec s other name value flags : env_ok s other -> var_size name value < 2 ^ 29 ->
  exists rc s', env_setenv s name value flags = Some (rc, s') /\ env_ok s' other /\
    env_spec (to_map (env_envvars s)) (EnvSet name value flags) rc (to_map (env_envvars s')) /\
    cfe_startflags s' = cfe_startflags s /\
    (forall L, has_room (kmempool s) L -> 2 * var_size name value + 80 <= L ->
       rc <> CFE_ERR_NOMEM /\ has_room (kmempool s') (L - var_size name value - 40)).
Proof.
  intros Hok Hsz. unfold env_setenv. pose proof (eo_names _ _ Hok) as Hnames. rewrite (is_readonly_spec _ _ Hnames).
  destruct (negb (truthy (Z.land flags ENV_FLG_ADMIN)) && is_readonly (to_map (env_envvars s)) name) eqn:Ero.
  { apply andb_true_iff in Ero as [E1 E2]. apply negb_true_iff in E1. unfold truthy in E1. apply negb_false_iff, Z.eqb_eq in E1.
    exists CFE_ERR_ENVREADONLY, s. split; [done|]. split; [done|]. split; [by constructor|]. split; [done|].
    intros L HL H. split; [done|]. apply (has_room_le _ L); [unfold var_size, sizeof_envvar; lia|done]. }
  assert (Hallow : is_readonly (to_map (env_envvars s)) name = false \/ Z.land flags ENV_FLG_ADMIN <> 0).
  { apply andb_false_iff in Ero as [E|E]; [right|by left]. apply negb_false_iff in E. unfold truthy in E. by apply negb_true_iff, Z.eqb_neq in E. }
  assert (Hmid : exists s1, (match split_env (env_envvars s) name with
      | None => Some s
      | Some (a, v, b) => let? pool := kfree (kmempool s) (v_ptr v) in Some (Env pool (a ++ b) (cfe_startflags s))
      end) = Some s1 /\ env_ok s1 other /\ Forall (fun w => v_name w <> name) (env_envvars s1) /\
      to_map (env_envvars s1) = delete name (to_map (env_envvars s)) /\ cfe_startflags s1 = cfe_startflags s /\
      forall L, has_room (kmempool s) L -> has_room (kmempool s1) L).
  { destruct (split_env (env_envvars s) name) as [[[a v] b]|] eqn:E.
    - destruct (split_env_some _ _ _ _ _ E) as (Hl & <- & _).
      destruct (env_remove s other a v b Hok Hl) as (pool & -> & Hok1 & Hr). eexists. split; [reflexivity|]. split; [done|]. cbn.
      rewrite Hl in Hnames |- *. split; [by apply names_absent|]. split; [|done]. by destruct (to_map_lookup_middle a v b Hnames) as [_ ->].
    - exists s. split; [done|]. split; [done|]. split; [by apply split_env_none|]. split; [|done].
      symmetry. apply delete_id, to_map_none, split_env_none, E. }
  destruct Hmid as (s1 & -> & Hok1 & Hnew & Hmap & Hfl & Hroom). cbn [option_bind].
  pose proof (env_append s1 other name value flags Hok1 Hsz Hnew) as Hap.
  destruct (kmalloc (kmempool s1) _ 0) as [p pool]. destruct Hap as [HL Hap]. destruct (Z.eqb_spec p 0) as [Hz|Hz].
  - do 2 eexists. split; [reflexivity|]. split; [done|]. split; [cbn [env_envvars]; rewrite Hmap; by constructor|]. split; [done|].
    intros L H1 H2. destruct (HL L H2 (Hroom L H1)). congruence.
  - do 2 eexists. split; [reflexivity|]. split; [done|]. cbn [env_envvars cfe_startflags]. rewrite to_map_snoc by apply (eo_names _ _ Hap).
    cbn [v_name v_flags v_value]. rewrite Hmap, insert_delete_eq.
    split; [by constructor|]. split; [done|]. intros L H1 H2. split; [done|]. by apply HL, Hroom.
Qed.

Lemma env_delenv_spec s other name : env_ok s other ->
  exists rc s', env_delenv s name = Some (rc, s') /\ env_ok s' other /\
    env_spec (to_map (env_envvars s)) (EnvDel name) rc (to_map (env_envvars s')).
Proof.
  intros Hok. unfold env_delenv. pose proof (eo_names _ _ Hok) as Hnames. pose proof (is_readonly_spec _ name Hnames) as Hro.
  destruct (split_env (env_envvars s) name) as [[[a v] b]|] eqn:E.
  - rewrite Hro. destruct (is_readonly (to_map (env_envvars s)) name) eqn:Er; cbn [negb].
    + do 2 eexists. split; [reflexivity|]. split; [done|]. by constructor.
    + destruct (split_env_some _ _ _ _ _ E) as (Hl & <- & _). destruct (env_remove s other a v b Hok Hl) as (pool & -> & Hok1 & _).
      do 2 eexists. split; [reflexivity|]. split; [done|]. cbn [env_envvars]. rewrite Hl in Hnames, Er |- *.
      destruct (to_map_lookup_middle a v b Hnames) as [_ <-]. by constructor.
  - do 2 eexists. split; [reflexivity|]. split; [done|].
    rewrite <- (delete_id (to_map (env_envvars s)) name) at 2 by (by apply to_map_none, split_env_none). by constructor.
Qed.

Fixpoint env_run (s : env_state) (os : list env_op) : option (list Z * env_state) :=
  match os with
  | [] => Some ([], s)
  | o :: os =>
      let? (rc, s) := env_step s o in
      let? (rcs, s) := env_run s os in
      Some (rc :: rcs, s)
  end.

Inductive env_specs : gmap bytes (Z * bytes) -> list env_op -> list Z -> gmap bytes (Z * bytes) -> Prop :=
  | specs_nil m : env_specs m [] [] m
  | specs_cons m o rc m1 os rcs m2 : env_spec m o rc m1 -> env_specs m1 os rcs m2 -> env_specs m (o :: os) (rc :: rcs) m2.

Lemma env_run_spec os s other : env_ok s other -> Forall env_op_ok os ->
  exists rcs s', env_run s os = Some (rcs, s') /\ env_ok s' other /\ env_specs (to_map (env_envvars s)) os rcs (to_map (env_envvars s')).
Proof.
  intros Hok Hos. revert s Hok. induction Hos as [|o os Ho Hos IH]; intros s Hok; cbn [env_run].
  { exists [], s. split; [done|]. split; [done|constructor]. }
  assert (H : exists rc s1, env_step s o = Some (rc, s1) /\ env_ok s1 other /\ env_spec (to_map (env_envvars s)) o rc (to_map (env_envvars s1))).
  { destruct o as [name value flags|name]; cbn [env_step].
    - destruct (env_setenv_spec s other name value flags Hok Ho) as (rc & s1 & H1 & H2 & H3 & _). by exists rc, s1.
    - by apply env_delenv_spec. }
  destruct H as (rc & s1 & -> & Hok1 & Hs1). cbn [option_bind].
  destruct (IH s1 Hok1) as (rcs & s2 & -> & Hok2 & Hs2). exists (rc :: rcs), s2. split; [done|]. split; [done|]. by econstructor.
Qed.

Lemma env_findenv_map s other name : env_ok s other ->
  (fun v => (v_flags v, v_value v)) <$> env_findenv s name = to_map (env_envvars s) !! name.
Proof.
  intros Hok. pose proof (eo_names _ _ Hok) as Hn. unfold env_findenv. destruct (split_env (env_envvars s) name) as [[[a v] b]|] eqn:E.
  - destruct (split_env_some _ _ _ _ _ E) as (Hl & <- & _). rewrite Hl in Hn |- *. by destruct (to_map_lookup_middle a v b Hn) as [-> _].
  - cbn. symmetry. by apply to_map_none, split_env_none.
Qed.

(** C19 The environment is a map from names to values with flags: whatever variables of less than
    2^29 bytes are set and deleted, from a pool in use by others too, no call goes wrong in memory, each call does
    what its result says to the map ([env_spec]: a read-only variable is neither changed nor
    deleted unless ADMIN is given, and a set that is out of memory deletes the old value), the
    queries answer from the map, and the pool's blocks are those of the variables and of the
    others, so nothing leaks. *)
Theorem env_is_map pool other flags os : pool_ok pool other -> Forall env_op_ok os ->
  exists rcs s, env_run (Env pool [] flags) os = Some (rcs, s) /\
    env_specs ∅ os rcs (to_map (env_envvars s)) /\
    (forall name, env_getenv s name = snd <$> to_map (env_envvars s) !! name /\
       env_envtype s name = default CFE_ERR_ENVNOTFOUND (fst <$> to_map (env_envvars s) !! name)) /\
    pool_ok (kmempool s) (var_blocks (env_envvars s) ∪ other) /\ var_blocks (env_envvars s) ##ₘ other.
Proof.
  intros Hp Hos. assert (Hok : env_ok (Env pool [] flags) other).
  { split; cbn; [by rewrite map_empty_union|apply map_disjoint_empty_l|constructor|constructor]. }
  destruct (env_run_spec os _ other Hok Hos) as (rcs & s & Hr & Hok' & Hs). exists rcs, s. split; [done|]. split; [done|].
  split; [|split; [apply Hok'|apply Hok']]. intros name. rewrite <- (env_findenv_map s other name Hok').
  unfold env_getenv, env_envtype. by destruct (env_findenv s name).
Qed.

Lemma env_is_map_witness :
  let os := [EnvSet (str "CPU") (str "BCM4704") 2; EnvSet (str "lan") (str "192.168.1.1") 0; EnvSet (str "CPU") (str "x") 0;
             EnvDel (str "CPU"); EnvSet (str "lan") (str "10.0.0.1") 0; EnvDel (str "wan"); EnvSet (str "CPU") (str "y") 0x100] in
  pool_ok (kmeminit 0x10000 4096) ∅ /\ Forall env_op_ok os /\
  (exists rcs s, env_run (Env (kmeminit 0x10000 4096) [] 0) os = Some (rcs, s) /\
    env_specs ∅ os rcs (to_map (env_envvars s)) /\
    (forall name, env_getenv s name = snd <$> to_map (env_envvars s) !! name /\
       env_envtype s name = default CFE_ERR_ENVNOTFOUND (fst <$> to_map (env_envvars s) !! name)) /\
    pool_ok (kmempool s) (var_blocks (env_envvars s) ∪ ∅) /\ var_blocks (env_envvars s) ##ₘ ∅) /\
  option_map (fun r => (r.1, map (fun v => (v_flags v, v_value v)) (env_envvars r.2))) (env_run (Env (kmeminit 0x10000 4096) [] 0) os)
    = Some ([0; 0; -10; -9; 0; 0; 0], [(0, str "10.0.0.1"); (0, str "y")]).
Proof.
  assert (Hp : pool_ok (kmeminit 0x10000 4096) ∅) by (apply kmeminit_ok; unfold sizeof_memnode; lia).
  assert (Ho : Forall env_op_ok [EnvSet (str "CPU") (str "BCM4704") 2; EnvSet (str "lan") (str "192.168.1.1") 0; EnvSet (str "CPU") (str "x") 0;
             EnvDel (str "CPU"); EnvSet (str "lan") (str "10.0.0.1") 0; EnvDel (str "wan"); EnvSet (str "CPU") (str "y") 0x100])
    by (repeat constructor).
  split; [exact Hp|]. split; [exact Ho|]. split; [by apply env_is_map|]. vm_compute. reflexivity.
Defined.

(** * What is saved is loaded *)

(** The device of a name: [store] is its area, [erased] tells that it may be written.  Its
    information is fixed, opening and closing leave the area alone, reads within the area
    give its bytes, and writes to an area that was erased, or needs not be, change it. *)
Class NvDevLaws (D : Type) `{!NvDev D} (store : D -> bytes) (erased : D -> Prop) (name : bytes) (info : nvram_info_t) : Prop := {
  law_size d : Z.of_nat (length (store d)) = nvram_size info;
  law_open d : 0 <= (cfe_open d name).1 /\ store (cfe_open d name).2 = store d;
  law_close d h : store (cfe_close d h) = store d;
  law_unlock d h i : store (cfe_ioctl d h IOCTL_NVRAM_UNLOCK i).2 = store d;
  law_getinfo d h i : exists d', cfe_ioctl d h IOCTL_NVRAM_GETINFO i = (0, info, d') /\ store d' = store d;
  law_erase d h : exists r d', cfe_ioctl d h IOCTL_NVRAM_ERASE info = (r, info, d') /\ erased d';
  law_no_erase d : nvram_eraseflg info = false -> erased d;
  law_read d h off len : 0 <= off -> 0 <= len -> off + len <= nvram_size info ->
    exists d', cfe_readblk d h (off + nvram_offset info) len = (len, take (Z.to_nat len) (drop (Z.to_nat off) (store d)), d') /\ store d' = store d;
  law_write d h off s : erased d -> Forall byte_ok s -> 0 <= off -> off + Z.of_nat (length s) <= nvram_size info ->
    exists d', cfe_writeblk d h (off + nvram_offset info) s = (Z.of_nat (length s), d') /\ store d' = splice (store d) (Z.to_nat off) s
}.

Definition var_ok (v : cfe_envvar) : Prop :=
  is_cstr (v_name v) /\ Forall (fun c => c <> ch "="%char) (v_name v) /\ is_cstr (v_value v) /\
  Z.of_nat (length (v_name v)) + Z.of_nat (length (v_value v)) + 2 <= 255 /\ 0 <= v_flags v < 256.

Definition saved (l : list cfe_envvar) : list cfe_envvar :=
  List.filter (fun v => negb (truthy (Z.land (v_flags v) ENV_FLG_BUILTIN))) l.

Definition records (l : list cfe_envvar) : bytes := concat (map env_record l).

Definition var_data (v : cfe_envvar) : bytes * Z * bytes := (v_name v, v_flags v, v_value v).

(** Room for the blocks of the variables. *)
Fixpoint room_for (l : list cfe_envvar) : Z :=
  match l with [] => 0 | v :: l => var_size (v_name v) (v_value v) + 40 + room_for l end.

Lemma env_setenv_new s other name value flags L : env_ok s other -> var_size name value < 2 ^ 29 ->
  Forall (fun w => v_name w <> name) (env_envvars s) -> has_room (kmempool s) L -> 2 * var_size name value + 80 <= L ->
  exists pool p, env_setenv s name value flags =
      Some (0, Env pool (env_envvars s ++ [EnvVar p (Z.land flags ENV_FLG_MASK) name value]) (cfe_startflags s)) /\
    env_ok (Env pool (env_envvars s ++ [EnvVar p (Z.land flags ENV_FLG_MASK) name value]) (cfe_startflags s)) other /\
    has_room pool (L - var_size name value - 40).
Proof.
  intros Hok Hsz Hnew HR HL. pose proof (env_append s other name value flags Hok Hsz Hnew) as Hap. unfold env_setenv.
  assert (split_env (env_envvars s) name = None) as ->.
  { destruct (split_env (env_envvars s) name) as [[[a v] b]|] eqn:E; [|done].
    destruct (split_env_some _ _ _ _ _ E) as (Hl & Hn & _). rewrite Hl in Hnew. apply Forall_app in Hnew as [_ Hnew]. by inversion Hnew. }
  rewrite andb_false_r. cbn [option_bind]. destruct (kmalloc (kmempool s) _ 0) as [p pool]. destruct Hap as [Hr Hap].
  destruct (Hr L HL HR) as [Hz Hroom]. rewrite (proj2 (Z.eqb_neq _ _)) in Hap |- * by done. by exists pool, p.
Qed.

Lemma strnchr_finds name rest cnt : is_cstr name -> Forall (fun c => c <> ch "="%char) name -> Z.of_nat (length name) < cnt ->
  strnchr (name ++ ch "="%char :: rest) (ch "="%char) cnt = Some (Some (length name)).
Proof.
  intros Hn He. revert cnt. induction name as [|c name IH]; intros cnt Hc; cbn [app strnchr length] in *.
  - rewrite (proj2 (Z.leb_gt _ _)) by lia. done.
  - inversion Hn as [|? ? Hc0 Hn']; inversion He as [|? ? Hc1 He']; subst. unfold char_ok in Hc0.
    rewrite (proj2 (Z.leb_gt _ _)), (proj2 (Z.eqb_neq c 0)), (proj2 (Z.eqb_neq c _)) by (done || lia).
    rewrite IH by (done || lia). done.
Qed.

Lemma record_data v : var_ok v ->
  env_record v = [ENV_TLV_TYPE_ENV; Z.of_nat (length (v_name v)) + Z.of_nat (length (v_value v)) + 2]
                 ++ v_flags v :: v_name v ++ ch "="%char :: v_value v.
Proof.
  intros (_ & _ & _ & Hl & Hf). unfold env_record. rewrite !wrap8_small by lia. cbn. do 2 f_equal. lia.
Qed.

Lemma load_record_spec s other v buffer L : env_ok s other -> var_ok v -> Forall (fun w => v_name w <> v_name v) (env_envvars s) ->
  has_room (kmempool s) L -> 640 <= L ->
  (exists tail, buffer = v_flags v :: v_name v ++ ch "="%char :: v_value v ++ tail) ->
  exists pool p, load_record s buffer (Z.of_nat (length (v_name v)) + Z.of_nat (length (v_value v)) + 2) =
      Some (Env pool (env_envvars s ++ [EnvVar p (v_flags v) (v_name v) (v_value v)]) (cfe_startflags s)) /\
    env_ok (Env pool (env_envvars s ++ [EnvVar p (v_flags v) (v_name v) (v_value v)]) (cfe_startflags s)) other /\
    has_room pool (L - var_size (v_name v) (v_value v) - 40).
Proof.
  intros Hok (Hn & He & Hv & Hl & Hf) Hnew HR HL (tail & ->). unfold load_record. cbn [lookup list_lookup].
  change (drop 1 (v_flags v :: v_name v ++ ch "="%char :: v_value v ++ tail)) with (v_name v ++ ch "="%char :: v_value v ++ tail).
  change (?x !! 0%nat) with (hd_error x). cbn [hd_error].
  rewrite wrap32_small by lia. rewrite strnchr_finds by (done || lia).
  replace (Z.of_nat (length (v_name v)) + Z.of_nat (length (v_value v)) + 2 - 1 - Z.of_nat (S (length (v_name v)))) with (Z.of_nat (length (v_value v))) by lia.
  rewrite wrap32_small by lia. rewrite (proj2 (Z.ltb_lt _ _)) by lia.
  rewrite (proj2 (Z.leb_le _ _)) by (rewrite length_app; cbn [length]; rewrite length_app; lia). cbn [andb].
  rewrite take_app_length. replace (S (length (v_name v))) with (length (v_name v) + 1)%nat by lia.
  rewrite <- drop_drop, drop_app_length. cbn [drop]. rewrite drop_0, Nat2Z.id, take_app_length, cstr_all by done.
  assert (Hs : var_size (v_name v) (v_value v) <= 275) by (unfold var_size, sizeof_envvar; lia).
  destruct (env_setenv_new s other (v_name v) (v_value v) (v_flags v) L) as (pool & p & Hset & Hok' & Hr');
    [done|change (2 ^ 29) with 536870912; lia|done|done|lia|].
  assert (Hm : Z.land (v_flags v) ENV_FLG_MASK = v_flags v).
  { unfold ENV_FLG_MASK. change 0xff with (Z.ones 8). rewrite Z.land_ones by lia. apply Z.mod_small. lia. }
  rewrite Hm in *. rewrite Hset. by exists pool, p.
Qed.

Section device.
Context {D : Type} `{!NvDev D} {store : D -> bytes} {erased : D -> Prop} {name : bytes} {info : nvram_info_t}
  `{!NvDevLaws D store erased name info}.

Record nv_ready (n : @nv_state D) : Prop := {
  nr_handle : 0 <= nvram_handle n;
  nr_info : nvram_info n = info;
  nr_name : nvram_devname n = Some name
}.

Lemma nvram_open_ok (n : @nv_state D) : nvram_devname n = Some name ->
  exists n', nvram_open n = (0, n') /\ nv_ready n' /\ store (dev n') = store (dev n).
Proof.
  intros Hn. unfold nvram_open.
  assert (Hc : nvram_devname (nvram_close n) = Some name /\ store (dev (nvram_close n)) = store (dev n)).
  { unfold nvram_close. destruct (_ =? _); [done|]. cbn. by rewrite law_close. }
  destruct Hc as [-> Hst]. destruct (law_open (dev (nvram_close n))) as [Hh Ho].
  destruct (cfe_open (dev (nvram_close n)) name) as [h d]. cbn [fst snd] in Hh, Ho.
  rewrite (proj2 (Z.ltb_ge _ _)) by done. unfold nvram_getinfo. cbn [nvram_handle dev].
  rewrite (proj2 (Z.eqb_neq _ _)) by lia.
  pose proof (law_unlock d h (nvram_info (nvram_close n))) as Hu. cbn [nvram_info].
  destruct (cfe_ioctl d h IOCTL_NVRAM_UNLOCK _) as [[r i] d1]. cbn [snd] in Hu.
  destruct (law_getinfo d1 h (nvram_info (nvram_close n))) as (d2 & -> & Hg). cbn.
  eexists. split; [reflexivity|]. split; [by split|]. cbn. congruence.
Qed.

Lemma nvram_close_ok (n : @nv_state D) : nvram_handle (nvram_close n) = -1 /\ nvram_devname (nvram_close n) = nvram_devname n /\
  store (dev (nvram_close n)) = store (dev n).
Proof.
  unfold nvram_close. destruct (Z.eqb_spec (nvram_handle n) (-1)) as [H|]; [done|]. cbn. by rewrite law_close.
Qed.

Lemma slice_at (pre x post : bytes) : take (length x) (drop (length pre) (pre ++ x ++ post)) = x.
Proof. by rewrite drop_app_length, take_app_length. Qed.

Lemma read_buf_ok (n : @nv_state D) buffer pre x post : nv_ready n -> store (dev n) = pre ++ x ++ post ->
  Z.of_nat (length buffer) = nvram_size info ->
  exists n', read_buf n buffer (Z.of_nat (length pre)) (Z.of_nat (length x)) = Some (Z.of_nat (length x), splice buffer 0 x, n') /\
    nv_ready n' /\ store (dev n') = store (dev n) /\ length (splice buffer 0 x) = length buffer.
Proof.
  intros [Hh Hi Hn] Hst Hb. pose proof (law_size (dev n)) as Hsz. rewrite Hst, !length_app in Hsz.
  unfold read_buf, nvram_read. rewrite (proj2 (Z.eqb_neq _ _)) by lia. rewrite Hi.
  destruct (law_read (dev n) (nvram_handle n) (Z.of_nat (length pre)) (Z.of_nat (length x))) as (d' & -> & Hd); [lia|lia|lia|].
  rewrite !Nat2Z.id, Hst, slice_at. rewrite (proj2 (Nat.leb_le _ _)) by lia.
  eexists. split; [reflexivity|]. split; [split; cbn; done|]. split; [cbn; congruence|]. apply length_splice. lia.
Qed.

Lemma splice_front (buffer x : bytes) : splice buffer 0 x = x ++ drop (length x) buffer.
Proof. done. Qed.

(** The loop loads the records one by one. *)
Lemma load_records vs fuel s (n : @nv_state D) buffer pre rest other L :
  nv_ready n -> store (dev n) = pre ++ records vs ++ ENV_TLV_TYPE_END :: rest ->
  Z.of_nat (length buffer) = nvram_size info -> buffer !! 0%nat = (records vs ++ [ENV_TLV_TYPE_END]) !! 0%nat ->
  env_ok s other -> Forall var_ok vs -> NoDup (map v_name (env_envvars s ++ vs)) ->
  has_room (kmempool s) L -> 640 + room_for vs <= L -> (length vs < fuel)%nat -> nvram_size info < 2 ^ 29 ->
  exists s' n', load_loop fuel s n buffer (Z.of_nat (length pre)) (nvram_size info - Z.of_nat (length pre)) = Some (0, s', n') /\
    env_ok s' other /\ map var_data (env_envvars s') = map var_data (env_envvars s ++ vs) /\ cfe_startflags s' = cfe_startflags s /\
    nv_ready n' /\ store (dev n') = store (dev n).
Proof.
  intros Hrd Hst Hb Hb0 Hok Hvs. revert fuel s n buffer pre L Hrd Hst Hb Hb0 Hok.
  induction Hvs as [|v vs Hv Hvs IH]; intros [|fuel] s n buffer pre L Hrd Hst Hb Hb0 Hok Hnd HR HL Hf Hsz; try (cbn in Hf; lia); cbn [load_loop].
  - rewrite Hb0. cbn. exists s, n. by rewrite app_nil_r.
  - pose proof (law_size (dev n)) as Hlen. pose proof (record_data v Hv) as Hrec.
    set (rl := Z.of_nat (length (v_name v)) + Z.of_nat (length (v_value v)) + 2) in *.
    set (data := v_flags v :: v_name v ++ ch "="%char :: v_value v) in *.
    assert (Hdl : Z.of_nat (length data) = rl) by (subst data rl; cbn; rewrite length_app; cbn; lia).
    assert (Hrange : 0 <= rl <= 255) by (subst rl; destruct Hv as (_ & _ & _ & H & _); lia).
    unfold records in Hst, Hb0. cbn [map concat] in Hst, Hb0. fold (records vs) in Hst, Hb0. rewrite Hrec in Hst, Hb0. rewrite Hb0. cbn [app lookup list_lookup].
    change ((ENV_TLV_TYPE_ENV :: rl :: data ++ records vs ++ [ENV_TLV_TYPE_END]) !! 0%nat) with (Some ENV_TLV_TYPE_ENV).
    cbn [app] in Hst. set (post := records vs ++ ENV_TLV_TYPE_END :: rest) in *.
    assert (Hst0 : store (dev n) = pre ++ ENV_TLV_TYPE_ENV :: rl :: data ++ post) by (rewrite Hst; subst post; by rewrite <- !app_assoc).
    clear Hst. assert (Hpost : (0 < length post)%nat) by (subst post; rewrite length_app; cbn; lia).
    rewrite Hst0, !length_app in Hlen. cbn [length] in Hlen. rewrite length_app in Hlen.
    change (ENV_TLV_TYPE_ENV =? ENV_TLV_TYPE_END) with false. cbn [negb andb].
    rewrite (proj2 (Z.ltb_lt _ _)) by lia. change (truthy (Z.land ENV_TLV_TYPE_ENV ENV_LENGTH_8BITS)) with true. cbv iota.
    change (ENV_TLV_TYPE_ENV =? ENV_TLV_TYPE_ENV) with true. cbv iota.
    destruct (read_buf_ok n buffer (pre ++ [ENV_TLV_TYPE_ENV]) [rl] (data ++ post)) as (n1 & Hr1 & Hrd1 & Hst1 & Hb1);
      [done|rewrite Hst0, <- app_assoc; done|done|].
    rewrite length_app in Hr1. cbn [length] in Hr1. rewrite Nat2Z.inj_add in Hr1. change (Z.of_nat 1) with 1 in Hr1.
    rewrite Hr1. cbn [option_bind negb Z.eqb Pos.eqb]. change (splice buffer 0 [rl]) with (rl :: drop 1 buffer) in *.
    change ((rl :: drop 1 buffer) !! 0%nat) with (Some rl). cbn [option_bind].
    rewrite wrap32_small by lia. rewrite (proj2 (Z.ltb_ge _ _)) by lia.
    destruct (read_buf_ok n1 (rl :: drop 1 buffer) (pre ++ [ENV_TLV_TYPE_ENV; rl]) data post) as (n2 & Hr2 & Hrd2 & Hst2 & Hb2);
      [done|rewrite Hst1, Hst0, <- app_assoc; done|rewrite Hb1; exact Hb|].
    rewrite length_app in Hr2. cbn [length] in Hr2. rewrite Nat2Z.inj_add in Hr2. change (Z.of_nat 2) with 2 in Hr2. rewrite Hdl in Hr2.
    replace (Z.of_nat (length pre) + 1 + 1) with (Z.of_nat (length pre) + 2) by lia. rewrite Hr2. cbn [option_bind]. rewrite Z.eqb_refl. cbn [negb].
    destruct (NoDup_middle v_name (env_envvars s) v vs Hnd) as [Hnv _].
    cbn [room_for] in HL. assert (Hvs0 : 0 <= room_for vs) by (clear; induction vs; cbn [room_for]; unfold var_size, sizeof_envvar in *; lia).
    assert (Hv0 : 0 <= var_size (v_name v) (v_value v)) by (unfold var_size, sizeof_envvar; lia).
    destruct (load_record_spec s other v (splice (rl :: drop 1 buffer) 0 data) L) as (pool & p & Hlr & Hok' & HR');
      [done|done| |done|lia|rewrite splice_front; subst data; eexists; cbn; rewrite <- app_assoc; done|].
    { apply Forall_forall. intros w Hw E. apply Hnv. rewrite map_app. apply elem_of_app. left. rewrite <- E. by apply list_elem_of_fmap_2. }
    fold rl in Hlr. rewrite Hlr. cbn [option_bind].
    set (v' := EnvVar p (v_flags v) (v_name v) (v_value v)) in *.
    destruct post as [|b0 post'] eqn:Epost; [cbn in Hpost; lia|].
    destruct (read_buf_ok n2 (splice (rl :: drop 1 buffer) 0 data) (pre ++ ENV_TLV_TYPE_ENV :: rl :: data) [b0] post') as (n3 & Hr3 & Hrd3 & Hst3 & Hb3);
      [done|rewrite Hst2, Hst1, Hst0, <- app_assoc; done|rewrite Hb2; rewrite Hb1; exact Hb|].
    assert (Hpl : Z.of_nat (length (pre ++ ENV_TLV_TYPE_ENV :: rl :: data)) = Z.of_nat (length pre) + 2 + rl) by (rewrite length_app; cbn [length]; lia).
    rewrite Hpl in Hr3. change (Z.of_nat (length [b0])) with 1 in Hr3. rewrite Hr3. cbn [option_bind negb Z.eqb Pos.eqb].
    destruct (IH fuel (Env pool (env_envvars s ++ [v']) (cfe_startflags s)) n3 (splice (splice (rl :: drop 1 buffer) 0 data) 0 [b0])
      (pre ++ ENV_TLV_TYPE_ENV :: rl :: data) (L - var_size (v_name v) (v_value v) - 40)) as (s' & n' & Hl & Hok'' & Hm & Hfl & Hrd' & Hst');
      [done| | | |done| |done|lia|cbn in Hf; lia|done|].
    + rewrite Hst3, Hst2, Hst1, Hst0, <- Epost. subst post. rewrite <- app_assoc. done.
    + rewrite Hb3, Hb2. rewrite Hb1. exact Hb.
    + rewrite splice_front. cbn [app]. subst post. destruct (records vs) as [|c l]; cbn in Epost |- *; injection Epost as -> _; done.
    + cbn [env_envvars]. rewrite <- app_assoc. cbn. rewrite map_app in Hnd |- *. exact Hnd.
    + rewrite Hpl in Hl. replace (nvram_size info - Z.of_nat (length pre) - 1 - 1 - rl) with (nvram_size info - (Z.of_nat (length pre) + 2 + rl)) by lia.
      rewrite Hl. exists s', n'. split; [done|]. split; [done|]. split; [|split; [done|split; [done|congruence]]].
      rewrite Hm. cbn [env_envvars]. by rewrite <- app_assoc, !map_app.
Qed.

(** A buffer next to the variables. *)
Lemma env_buffer s other size L : env_ok s other -> 0 <= size < 2 ^ 29 -> has_room (kmempool s) L -> 2 * size + 80 <= L ->
  exists p pool, kmalloc (kmempool s) (wrap32 size) 0 = (p, pool) /\ p <> 0 /\ other !! p = None /\
    env_ok (Env pool (env_envvars s) (cfe_startflags s)) (<[p := (Z.max 4 size, 0)]> other) /\ has_room pool (L - size - 40).
Proof.
  intros [Hp Hd Hn1 Hn2] Hsz HR HL. pose proof (kmalloc_spec _ _ size 0 Hp) as H. pose proof (kmalloc_room _ _ size L Hp Hsz HR HL) as [Hz Hr].
  change (2 ^ 29) with 536870912 in Hsz. rewrite wrap32_small by lia. destruct (kmalloc (kmempool s) size 0) as [p pool]. cbn [fst snd] in Hz, Hr.
  exists p, pool. split; [done|]. split; [done|].
  destruct H as (_ & _ & [[? _]|(_ & Hnone & Hp')]); [split; [change (2 ^ 30) with 1073741824; lia|by left]|done|].
  apply lookup_union_None in Hnone as [Hb Ho]. split; [done|]. split; [|done]. split; cbn [kmempool env_envvars]; [|by apply map_disjoint_insert_r|done|done].
  by rewrite <- insert_union_r.
Qed.

Lemma env_unbuffer s other p x : env_ok s (<[p := x]> other) -> other !! p = None ->
  exists pool, kfree (kmempool s) p = Some pool /\ env_ok (Env pool (env_envvars s) (cfe_startflags s)) other.
Proof.
  intros [Hp Hd Hn1 Hn2] Ho. apply map_disjoint_insert_r in Hd as [Hb Hd]. rewrite <- insert_union_r in Hp by done.
  destruct (kfree_spec _ _ p x Hp) as (pool & Hk & Hp' & _); [apply lookup_insert_eq|]. exists pool. split; [done|].
  rewrite delete_insert_id in Hp' by (by apply lookup_union_None). by split.
Qed.

Lemma length_env_record v : Z.of_nat (length (env_record v)) = Z.of_nat (length (v_name v)) + Z.of_nat (length (v_value v)) + 4.
Proof. unfold env_record. rewrite !length_app. cbn. lia. Qed.

Lemma save_loop_spec l out size : Z.of_nat (length out) + Z.of_nat (length (records (saved l))) + 1 <= size ->
  save_loop l out size = out ++ records (saved l).
Proof.
  revert out. induction l as [|v l IH]; intros out H; cbn [save_loop saved List.filter] in *; [by rewrite app_nil_r|].
  fold (saved l) in *. destruct (truthy (Z.land (v_flags v) ENV_FLG_BUILTIN)); cbn [negb] in *; [by apply IH|].
  unfold records in H |- *. cbn [map concat] in H |- *. fold (records (saved l)) in H |- *. rewrite length_app in H.
  pose proof (length_env_record v). rewrite (proj2 (Z.ltb_ge _ _)) by lia. rewrite IH by (rewrite length_app; lia). by rewrite <- app_assoc.
Qed.

Lemma records_bytes l : Forall var_ok l -> Forall byte_ok (records l).
Proof.
  assert (Hc : forall s, is_cstr s -> Forall byte_ok s) by (intros s H; eapply Forall_impl; [exact H|]; unfold char_ok, byte_ok; intros; lia).
  induction 1 as [|v l (H1 & _ & H3 & _) _ IH]; [constructor|]. unfold records. cbn [map concat]. apply Forall_app. split; [|exact IH].
  unfold env_record. apply Forall_app. split.
  { apply Forall_cons. split; [by cbv|]. apply Forall_cons. split; [apply wrap8_range|]. apply Forall_singleton, wrap8_range. }
  apply Forall_app. split; [by apply Hc|]. constructor; [by cbv|by apply Hc].
Qed.

Lemma nvram_erase_ok (n : @nv_state D) : nv_ready n -> exists r n', nvram_erase n = (r, n') /\ nv_ready n' /\ erased (dev n').
Proof.
  intros [H1 H2 H3]. unfold nvram_erase. rewrite (proj2 (Z.ltb_ge _ _)) by done. rewrite H2.
  destruct (nvram_eraseflg info) eqn:Ef; cbn [negb].
  - destruct (law_erase (dev n) (nvram_handle n)) as (r & d' & -> & Hd). eexists _, _. split; [reflexivity|]. by split.
  - exists 0, n. split; [done|]. split; [done|]. by apply law_no_erase.
Qed.

Lemma nvram_getsize_ok (n : @nv_state D) : nv_ready n -> nvram_getsize n = nvram_size info.
Proof. intros [H1 H2 _]. unfold nvram_getsize. by rewrite (proj2 (Z.ltb_ge _ _)), H2 by done. Qed.

Lemma env_save_ok s other (n : @nv_state D) L :
  env_ok s other -> nvram_devname n = Some name -> Forall var_ok (saved (env_envvars s)) -> nvram_size info < 2 ^ 29 ->
  Z.of_nat (length (records (saved (env_envvars s)))) + 1 <= nvram_size info ->
  has_room (kmempool s) L -> 2 * nvram_size info + 80 <= L ->
  exists s1 n1 rest, env_save s n = Some (0, s1, n1) /\ env_envvars s1 = env_envvars s /\ env_ok s1 other /\
    store (dev n1) = records (saved (env_envvars s)) ++ ENV_TLV_TYPE_END :: rest.
Proof.
  intros Hok Hname Hvars Hsz Hfit HR HL. set (vs := saved (env_envvars s)) in *. unfold env_save.
  destruct (nvram_open_ok n Hname) as (n0 & -> & Hrd & Hst). change (0 <? 0) with false. cbv iota.
  destruct (nvram_erase_ok n0 Hrd) as (r & n1 & -> & Hrd1 & Her). rewrite (nvram_getsize_ok n1 Hrd1). destruct Hrd1 as [H1 H2 H3].
  destruct (env_buffer s other (nvram_size info) L Hok) as (p & pool & -> & Hp & Hpo & Hok1 & _); [lia|done|done|].
  rewrite (proj2 (Z.eqb_neq p 0)) by done. cbn [env_envvars kmempool cfe_startflags].
  rewrite save_loop_spec by (cbn [length]; fold vs; lia). fold vs. cbn [app].
  rewrite (proj2 (Z.ltb_lt _ _)) by lia. unfold nvram_write. rewrite (proj2 (Z.eqb_neq _ _)) by lia. rewrite H2.
  destruct (law_write (dev n1) (nvram_handle n1) 0 (records vs ++ [ENV_TLV_TYPE_END])) as (d' & -> & Hd');
    [done|apply Forall_app; split; [by apply records_bytes|by repeat constructor]|lia|rewrite length_app; cbn; lia|].
  destruct (env_unbuffer _ _ _ _ Hok1 Hpo) as (pool1 & Hk & Hok2). cbn [kmempool env_envvars cfe_startflags] in Hk, Hok2 |- *. rewrite Hk.
  cbn [option_bind]. rewrite Z.eqb_refl. eexists _, _, (drop (length (records vs ++ [ENV_TLV_TYPE_END])) (store (dev n1))).
  split; [reflexivity|]. split; [done|]. split; [done|].
  destruct (nvram_close_ok (set_dev n1 d')) as (_ & _ & ->). cbn [set_dev dev]. rewrite Hd'. change (Z.to_nat 0) with 0%nat.
  by rewrite splice_front, <- app_assoc.
Qed.

Lemma length_records l : (length l <= length (records l))%nat.
Proof.
  induction l as [|v l IH]; [done|]. unfold records. cbn [map concat]. fold (records l). rewrite length_app. pose proof (length_env_record v). cbn. lia.
Qed.

Lemma room_for_pos l : 0 <= room_for l.
Proof. induction l; cbn [room_for]; unfold var_size, sizeof_envvar in *; lia. Qed.

Lemma env_load_ok s other (n : @nv_state D) junk vs rest :
  nvram_devname n = Some name -> store (dev n) = records vs ++ ENV_TLV_TYPE_END :: rest -> env_ok s other ->
  Z.land (cfe_startflags s) CFE_INIT_SAFE = 0 -> Z.of_nat (length junk) = nvram_size info -> nvram_size info < 2 ^ 29 ->
  Forall var_ok vs -> NoDup (map v_name (env_envvars s ++ vs)) -> has_room (kmempool s) (2 * nvram_size info + 720 + room_for vs) ->
  exists s' n', env_load s n junk = Some (0, s', n') /\ env_ok s' other /\ map var_data (env_envvars s') = map var_data (env_envvars s ++ vs).
Proof.
  intros Hn Hst Hok Hsafe Hj Hsz Hvs Hnd HR. unfold env_load. rewrite Hsafe. change (truthy 0) with false. cbv iota.
  destruct (nvram_open_ok n Hn) as (n3 & -> & Hrd3 & Hst3). change (0 <? 0) with false. cbv iota.
  rewrite (nvram_getsize_ok n3 Hrd3). pose proof (room_for_pos vs) as Hpos.
  destruct (env_buffer s other (nvram_size info) _ Hok ltac:(lia) HR ltac:(lia)) as (p & pool & -> & Hp & Hpo & Hok4 & HR4).
  rewrite (proj2 (Z.eqb_neq p 0)) by done.
  assert (Hhd : exists b post, records vs ++ ENV_TLV_TYPE_END :: rest = b :: post /\ (records vs ++ [ENV_TLV_TYPE_END]) !! 0%nat = Some b).
  { destruct (records vs) as [|c l]; [by exists ENV_TLV_TYPE_END, rest|]. by exists c, (l ++ ENV_TLV_TYPE_END :: rest). }
  destruct Hhd as (b & post & Hhd & Hb).
  destruct (read_buf_ok n3 junk [] [b] post) as (n4 & Hr & Hrd4 & Hst4 & Hl4); [done|by rewrite Hst3, Hst, Hhd|done|].
  change (Z.of_nat (length [])) with 0 in Hr. change (Z.of_nat (length [b])) with 1 in Hr. rewrite Hr. cbn [option_bind negb Z.eqb Pos.eqb].
  pose proof (length_records vs) as Hlv. pose proof (law_size (dev n)) as Hls. rewrite Hst, length_app in Hls.
  destruct (load_records vs (S (Z.to_nat (nvram_size info))) (Env pool (env_envvars s) (cfe_startflags s)) n4 (splice junk 0 [b]) [] rest
    (<[p := (Z.max 4 (nvram_size info), 0)]> other) (2 * nvram_size info + 720 + room_for vs - nvram_size info - 40))
    as (s3 & n5 & Hl & Hok5 & Hdata & _); [done|by rewrite Hst4, Hst3, Hst|lia|by rewrite Hb, splice_front|done|done|done|done|lia|lia|done|].
  change (Z.of_nat (length [])) with 0 in Hl. rewrite Z.sub_0_r in Hl. rewrite Hl. cbn [option_bind].
  destruct (env_unbuffer _ _ _ _ Hok5 Hpo) as (pool3 & Hk3 & Hok6). rewrite Hk3. cbn [option_bind].
  eexists _, _. split; [reflexivity|]. split; [done|]. exact Hdata.
Qed.

(** C20 The variables survive a restart, if their names have no equals sign and each name and
    value have at most 253 bytes together (a longer record is cut off, see [long_value_cut]):
    what env_save writes, with enough memory and a device that is large enough for all records,
    env_load finds after it, if no name is set already: the saved variables, all but the built-in
    ones, with their flags and values and in their order, behind those already set; and the
    buffers are given back. *)
Theorem env_save_load s other (n : @nv_state D) L :
  env_ok s other -> nvram_devname n = Some name -> Forall var_ok (saved (env_envvars s)) -> nvram_size info < 2 ^ 29 ->
  Z.of_nat (length (records (saved (env_envvars s)))) + 1 <= nvram_size info ->
  has_room (kmempool s) L -> 2 * nvram_size info + 80 <= L ->
  exists s1 n1, env_save s n = Some (0, s1, n1) /\ env_envvars s1 = env_envvars s /\ env_ok s1 other /\
  forall s2 other2 (n2 : @nv_state D) junk,
    nvram_devname n2 = Some name -> store (dev n2) = store (dev n1) -> env_ok s2 other2 ->
    Z.land (cfe_startflags s2) CFE_INIT_SAFE = 0 -> Z.of_nat (length junk) = nvram_size info ->
    NoDup (map v_name (env_envvars s2 ++ saved (env_envvars s))) ->
    has_room (kmempool s2) (2 * nvram_size info + 720 + room_for (saved (env_envvars s))) ->
    exists s3 n3, env_load s2 n2 junk = Some (0, s3, n3) /\ env_ok s3 other2 /\
      map var_data (env_envvars s3) = map var_data (env_envvars s2 ++ saved (env_envvars s)).
Proof.
  intros Hok Hname Hvars Hsz Hfit HR HL. destruct (env_save_ok s other n L) as (s1 & n1 & rest & Hs & He & Hok1 & Hst); try done.
  exists s1, n1. split; [done|]. split; [done|]. split; [done|]. intros s2 other2 n2 junk Hn2 Hst2 Hok2 Hsafe Hj Hnd HR2.
  by apply (env_load_ok s2 other2 n2 junk _ rest); try done; rewrite Hst2.
Qed.
End device.

(** * A flash device, and examples *)

(** An area of [sz] bytes of NOR flash: erasing sets all bits, writing clears bits. *)
Section flash.
Context (sz : nat).

Definition flash_store (d : bytes) : bytes := resize sz 0xff d.
Definition flash_info : nvram_info_t := Info 0x100 (Z.of_nat sz) true.
Definition flash_erased (d : bytes) : Prop := flash_store d = replicate sz 0xff.

Definition flash_dev : NvDev bytes := {|
  cfe_open d name := (3, d);
  cfe_close d h := d;
  cfe_ioctl d h cmd i :=
    if cmd =? IOCTL_NVRAM_GETINFO then (0, flash_info, d)
    else if cmd =? IOCTL_NVRAM_ERASE then (0, i, replicate sz 0xff) else (0, i, d);
  cfe_readblk d h off len := (len, take (Z.to_nat len) (drop (Z.to_nat (off - 0x100)) (flash_store d)), d);
  cfe_writeblk d h off s :=
    let o := Z.to_nat (off - 0x100) in
    (Z.of_nat (length s), splice (flash_store d) o (zip_with Z.land s (drop o (flash_store d))))
|}.

Lemma zip_land_ones s k : Forall byte_ok s -> (length s <= k)%nat -> zip_with Z.land s (replicate k 0xff) = s.
Proof.
  intros H. revert k. induction H as [|c s Hc _ IH]; intros [|k] Hk; cbn in *; try lia; [done|done|].
  rewrite IH by lia. f_equal. change 255 with (Z.ones 8). rewrite Z.land_ones by lia. apply Z.mod_small. exact Hc.
Qed.

Lemma flash_laws name : @NvDevLaws bytes flash_dev flash_store flash_erased name flash_info.
Proof.
  assert (Hl : forall d, length (flash_store d) = sz) by (intros d; apply length_resize).
  split; try done.
  - intros d. by rewrite Hl.
  - intros d h i. by exists d.
  - intros d h. exists 0, (replicate sz 0xff). split; [done|]. unfold flash_erased, flash_store. apply resize_all_alt. by rewrite length_replicate.
  - intros d h off len Ho Hn Hs. exists d. split; [|done]. cbn. by replace (off + 0x100 - 0x100) with off by lia.
  - intros d h off s He Hs Ho Hn. cbn in Hn |- *. replace (off + 0x100 - 0x100) with off by lia.
    eexists. split; [reflexivity|]. rewrite He, drop_replicate, zip_land_ones by (done || lia). unfold flash_store at 1.
    apply resize_all_alt. rewrite length_splice; rewrite length_replicate; lia.
Qed.
End flash.

Lemma has_room_dec pool L : existsb (fun m => negb (n_status m) && (L <=? n_length m)) (root pool) = true -> has_room pool L.
Proof.
  intros H. apply existsb_exists in H as (m & Hm & Hb). apply andb_true_iff in Hb as [H1 H2]. exists m.
  split; [by apply list_elem_of_In|]. split; [by apply negb_true_iff|by apply Z.leb_le].
Qed.

Definition ex_env_ops : list env_op :=
  [EnvSet (str "CFE_VERSION") (str "1.0.37") 1; EnvSet (str "lan") (str "192.168.1.1") 0; EnvSet (str "boot") (str "-z flash0.trx") 2].

Definition ex_env : env_state :=
  match env_run (Env (kmeminit 0x10000 4096) [] 0) ex_env_ops with Some (_, s) => s | None => Env (kmeminit 0x10000 4096) [] 0 end.

Lemma ex_env_ok : env_ok ex_env ∅.
Proof.
  assert (Hok : env_ok (Env (kmeminit 0x10000 4096) [] 0) ∅).
  { split; cbn; [|apply map_disjoint_empty_l|constructor|constructor]. rewrite map_empty_union. apply kmeminit_ok; unfold sizeof_memnode; lia. }
  destruct (env_run_spec ex_env_ops _ ∅ Hok) as (rcs & s & Hr & Hok' & _); [by repeat constructor|].
  unfold ex_env. by rewrite Hr.
Qed.

Definition ex_nv : @nv_state bytes := Nv (-1) (Info 0 0 false) (Some (str "flash0.nvram")) (replicate 100 7).

Lemma env_save_load_witness :
  (exists s1 n1, @env_save bytes (flash_dev 128) ex_env ex_nv = Some (0, s1, n1) /\ env_envvars s1 = env_envvars ex_env /\ env_ok s1 ∅ /\
   forall s2 other2 (n2 : @nv_state bytes) junk,
    nvram_devname n2 = Some (str "flash0.nvram") -> flash_store 128 (dev n2) = flash_store 128 (dev n1) -> env_ok s2 other2 ->
    Z.land (cfe_startflags s2) CFE_INIT_SAFE = 0 -> Z.of_nat (length junk) = nvram_size (flash_info 128) ->
    NoDup (map v_name (env_envvars s2 ++ saved (env_envvars ex_env))) ->
    has_room (kmempool s2) (2 * nvram_size (flash_info 128) + 720 + room_for (saved (env_envvars ex_env))) ->
    exists s3 n3, @env_load bytes (flash_dev 128) s2 n2 junk = Some (0, s3, n3) /\ env_ok s3 other2 /\
      map var_data (env_envvars s3) = map var_data (env_envvars s2 ++ saved (env_envvars ex_env))) /\
  (let? (_, _, n) := @env_save bytes (flash_dev 128) ex_env ex_nv in
   let? (rc, s, _) := @env_load bytes (flash_dev 128) (Env (kmeminit 0x20000 4096) [] 0) n (replicate 128 0) in
   Some (rc, map var_data (env_envvars s)))
  = Some (0, [(str "lan", 0, str "192.168.1.1"); (str "boot", 2, str "-z flash0.trx")]).
Proof.
  split; [|vm_compute; reflexivity].
  apply (@env_save_load bytes (flash_dev 128) (flash_store 128) (flash_erased 128) (str "flash0.nvram") (flash_info 128)
    (flash_laws 128 (str "flash0.nvram")) ex_env ∅ ex_nv 1000).
  - exact ex_env_ok.
  - reflexivity.
  - vm_compute. repeat constructor; discriminate.
  - reflexivity.
  - vm_compute. discriminate.
  - apply has_room_dec. vm_compute. reflexivity.
  - vm_compute. discriminate.
Defined.

(** * Limits *)

(** A record of more than 255 bytes is saved with its length cut to a byte: what is loaded is
    not what was saved. *)
Lemma long_value_cut :
  (let? (_, s) := env_setenv (Env (kmeminit 0x10000 4096) [] 0) (str "a") (replicate 300 120) 0 in
   let? (rc, _, n) := @env_save bytes (flash_dev 512) s ex_nv in
   let? (rc2, s, _) := @env_load bytes (flash_dev 512) (Env (kmeminit 0x20000 4096) [] 0) n (replicate 512 0) in
   Some (rc, map (fun v => length (v_value v)) (env_envvars s))) = Some (0, [44%nat]).
Proof. vm_compute. reflexivity. Qed.

(** Saving erases the device before it allocates its buffer: out of memory, the saved
    environment is lost. *)
Lemma save_erases_first :
  (let? (rc, _, n) := @env_save bytes (flash_dev 128) (Env (kmeminit 0x10000 64) [] 0) ex_nv in Some (rc, dev n))
  = Some (CFE_ERR_NOMEM, replicate 128 0xff).
Proof. vm_compute. reflexivity. Qed.

(** Variables that do not fit are left out, and the result is still 0. *)
Lemma save_leaves_out :
  (let? (rc, _, n) := @env_save bytes (flash_dev 16) ex_env ex_nv in Some (rc, hd 1 (dev n))) = Some (0, ENV_TLV_TYPE_END).
Proof. vm_compute. reflexivity. Qed.

(** A set that is out of memory has already deleted the old value. *)
Lemma set_out_of_memory_deletes :
  (let? (_, s) := env_setenv (Env (kmeminit 0x10000 128) [] 0) (str "a") (str "1") 0 in
   let? (rc, s) := env_setenv s (str "a") (replicate 200 120) 0 in Some (rc, env_envvars s)) = Some (CFE_ERR_NOMEM, []).
Proof. vm_compute. reflexivity. Qed.

(** With a length of 0 the enumeration still writes a NUL into the buffer. *)
Lemma enum_zero_length : env_enum ex_env 0 [] 0 [] 0 = None.
Proof. reflexivity. Qed.
