(* ===== verification/Timer.v ===== *)
(** The timers of the router programs: router/shared/linux_timer.c, timers for a process on the
    one interval timer it has.

    The pending timers are a queue of events in which each has the time from the one before
    it; the interval timer runs for the first.  Events are kept in a store under their
    addresses and the queue is the list of them; putting an event on the queue twice, which
    would tie the list into a knot, is [None], as a failed assertion is.  The kernel's part
    is the remaining time of the interval timer. *)

From S2P Require Import Prelude.
From Stdlib Require Import ZArith Lia Bool List.
From stdpp Require Import base numbers list gmap.

#[local] Open Scope Z_scope.

(** * Times *)

Definition US_PER_SEC := 1000000.

Record timeval := TV { tv_sec : Z; tv_usec : Z }.

(** The macros of <sys/time.h>. *)
Definition timerisset (t : timeval) : bool := truthy (tv_sec t) || truthy (tv_usec t).
Definition timerclear : timeval := TV 0 0.
Definition timer_lt (a b : timeval) : bool :=
  if tv_sec a =? tv_sec b then tv_usec a <? tv_usec b else tv_sec a <? tv_sec b.
Definition timersub (a b : timeval) : timeval :=
  let s := tv_sec a - tv_sec b in
  let u := tv_usec a - tv_usec b in
  if u <? 0 then TV (s - 1) (u + US_PER_SEC) else TV s u.
Definition timeradd (a b : timeval) : timeval :=
  let s := tv_sec a + tv_sec b in
  let u := tv_usec a + tv_usec b in
  if US_PER_SEC <=? u then TV (s + 1) (u - US_PER_SEC) else TV s u.

(** A [timespec] has nanoseconds. *)
Definition TIMESPEC_TO_TIMEVAL (ts : Z * Z) : timeval := TV ts.1 (Z.quot ts.2 1000).

Definition ROUNDUP (x y : Z) : Z := Z.quot (x + y - 1) y * y.

Definition timerroundup (t : timeval) (g : Z) : timeval :=
  let t := if negb (timerisset t) then TV (tv_sec t) 1 else t in
  if tv_sec t =? 0 then TV (tv_sec t) (ROUNDUP (tv_usec t) g) else t.

(** * Events *)

Definition TFLAG_NONE := 0.
Definition TFLAG_CANCELLED := 1.
Definition TFLAG_DELETED := 2.

Record event := Event { it_interval : timeval; it_value : timeval; func : Z; arg : Z; flags : Z }.

(** The globals, with the store of the events; [itimer] is the time that remains on the
    interval timer of the process, zero when it is off. *)
Record timers := Timers {
  events : gmap Z event;
  event_queue : list Z;
  event_freelist : list Z;
  g_granularity : Z;
  g_maxevents : Z;
  block_count : Z;
  itimer : timeval
}.

Definition set_events (t : timers) (e : gmap Z event) : timers :=
  Timers e (event_queue t) (event_freelist t) (g_granularity t) (g_maxevents t) (block_count t) (itimer t).
Definition set_queue (t : timers) (q : list Z) : timers :=
  Timers (events t) q (event_freelist t) (g_granularity t) (g_maxevents t) (block_count t) (itimer t).
Definition set_freelist (t : timers) (l : list Z) : timers :=
  Timers (events t) (event_queue t) l (g_granularity t) (g_maxevents t) (block_count t) (itimer t).
Definition setitimer (t : timers) (v : timeval) : timers :=
  Timers (events t) (event_queue t) (event_freelist t) (g_granularity t) (g_maxevents t) (block_count t) v.
Definition set_block (t : timers) (n : Z) : timers :=
  Timers (events t) (event_queue t) (event_freelist t) (g_granularity t) (g_maxevents t) n (itimer t).

Definition with_value (e : event) (v : timeval) : event := Event (it_interval e) v (func e) (arg e) (flags e).
Definition with_flags (e : event) (f : Z) : event := Event (it_interval e) (it_value e) (func e) (arg e) f.

(** A change of one event. *)
Definition update (t : timers) (id : Z) (f : event -> event) : option timers :=
  let? e := events t !! id in Some (set_events t (<[id := f e]> (events t))).

(** The events are numbered from [base] on; [granularity] is what the kernel rounds an
    interval of a microsecond to. *)
Definition init_event_queue (n : nat) (base granularity : Z) : timers :=
  let ids := map (fun i => base + Z.of_nat i) (seq 0 n) in
  let zero := Event (TV 0 0) (TV 0 0) 0 0 0 in
  Timers (list_to_map (map (fun id => (id, zero)) ids)) [] ids granularity (Z.of_nat n) 0 (TV 0 0).

Definition block_timer (t : timers) : timers := set_block t (block_count t + 1).
Definition unblock_timer (t : timers) : timers := set_block t (block_count t - 1).

Definition timer_create (t : timers) : option (Z * timers) :=
  match event_freelist t with
  | [] => None
  | id :: free =>
      let? t := update t id (fun e => with_flags e TFLAG_NONE) in
      Some (id, set_freelist t free)
  end.

Definition timer_connect (t : timers) (id routine a : Z) : option timers :=
  assert! truthy routine in
  update t id (fun e => Event (it_interval e) (it_value e) routine a (flags e)).

Definition timer_change_settime (t : timers) (id : Z) (interval value : Z * Z) : option timers :=
  update t id (fun e => Event (TIMESPEC_TO_TIMEVAL interval) (TIMESPEC_TO_TIMEVAL value) (func e) (arg e) (flags e)).

(** The interval timer for the first event; the assertions are that it is not too short. *)
Definition reissue (t : timers) : option timers :=
  match event_queue t with
  | [] => None
  | id :: _ =>
      let? t := update t id (fun e => with_value e (timerroundup (it_value e) (g_granularity t))) in
      let? e := events t !! id in
      let v := if negb (timerisset (it_value e)) then TV 0 1 else it_value e in
      Some (setitimer t v)
  end.

Definition long_enough (t : timers) (v : timeval) : bool := (0 <? tv_sec v) || (g_granularity t <=? tv_usec v).

Definition reissue_checked (t : timers) : option timers :=
  let? t := reissue t in
  let? id := hd_error (event_queue t) in
  let? e := events t !! id in
  assert! long_enough t (itimer t) && long_enough t (it_value e) in
  Some t.

(** The march down the queue: where a timer of [v] goes, and what remains of [v] there. *)
Fixpoint march (evs : gmap Z event) (q : list Z) (v : timeval) : option (gmap Z event * list Z * timeval * list Z) :=
  match q with
  | [] => Some (evs, [], v, [])
  | id :: q' =>
      let? e := evs !! id in
      if timer_lt v (it_value e) then Some (<[id := with_value e (timersub (it_value e) v)]> evs, [], v, q)
      else
        let? (evs, a, v, b) := march evs q' (timersub v (it_value e)) in
        Some (evs, id :: a, v, b)
  end.

(** Linking an event, whose value is [it_value], into the queue. *)
Definition enqueue (t : timers) (id : Z) : option timers :=
  assert! negb (bool_decide (id ∈ event_queue t)) in
  let? e := events t !! id in
  let? (evs, a, v, b) := march (events t) (event_queue t) (it_value e) in
  let? e := evs !! id in
  Some (set_queue (set_events t (<[id := with_value e v]> evs)) (a ++ id :: b)).

Fixpoint remove_id (id : Z) (q : list Z) : list Z :=
  match q with [] => [] | x :: q => if x =? id then q else x :: remove_id id q end.

Definition timer_cancel (t : timers) (id : Z) : option timers :=
  let? e := events t !! id in
  if truthy (Z.land (flags e) TFLAG_CANCELLED) then Some t
  else
    let t := block_timer t in
    let? t :=
      if bool_decide (id ∈ event_queue t) then
        let? t :=
          match event_queue t with
          | first :: next :: _ =>
              if first =? id then
                let v := timersub (it_value e) (itimer t) in
                let? t := update t id (fun e => with_value e v) in
                update t next (fun n => with_value n (timeradd (it_value n) v))
              else Some t
          | _ => Some t
          end in
        let t := set_queue t (remove_id id (event_queue t)) in
        match event_queue t with
        | [] => Some (setitimer t timerclear)
        | _ => reissue_checked t
        end
      else Some t in
    let? t := update t id (fun e => with_flags e (Z.lor (flags e) TFLAG_CANCELLED)) in
    Some (unblock_timer t).

Definition timer_delete (t : timers) (id : Z) : option (Z * timers) :=
  let? e := events t !! id in
  if truthy (Z.land (flags e) TFLAG_DELETED) then Some (1, t)
  else
    let? t := timer_cancel t id in
    let? t := update t id (fun e => with_flags e (Z.lor (flags e) TFLAG_DELETED)) in
    Some (0, set_freelist t (id :: event_freelist t)).

Definition timer_cancel_all (t : timers) : timers := set_queue (setitimer t timerclear) [].

Definition timer_settime (t : timers) (id : Z) (interval value : Z * Z) : option timers :=
  let? t := timer_change_settime t id interval value in
  let? e := events t !! id in
  if negb (timerisset (it_value e)) then timer_cancel t id
  else
    let t := block_timer t in
    let? t := update t id (fun e => with_value e (timerroundup (it_value e) (g_granularity t))) in
    let? t :=
      match event_queue t with
      | first :: _ =>
          let? f := events t !! first in
          if timerisset (itimer t) && negb (timer_lt (it_value f) (itimer t))
          then update t first (fun f => with_value f (itimer t)) else Some t
      | [] => Some t
      end in
    let? t := enqueue t id in
    let? t := if bool_decide (hd_error (event_queue t) = Some id) then reissue_checked t else Some t in
    let? t := update t id (fun e => with_flags e (Z.ldiff (flags e) TFLAG_CANCELLED)) in
    Some (unblock_timer t).

(** What the callbacks do: routine, event and argument. *)
Section alarm.
Context (callback : Z -> Z -> Z -> timers -> option timers).

(** One turn of the handler's loop; the event whose callback was called. *)
Definition expire (t : timers) : option (Z * timers) :=
  match event_queue t with
  | [] => None
  | id :: q =>
      let t := set_queue t q in
      let? e := events t !! id in
      let? t := callback (func e) id (arg e) t in
      let? e := events t !! id in
      if negb (truthy (Z.land (flags e) TFLAG_CANCELLED)) && timerisset (it_interval e) then
        let? t := update t id (fun e => with_value e (timerroundup (it_interval e) (g_granularity t))) in
        let? t := enqueue t id in
        Some (id, t)
      else Some (id, t)
  end.

Fixpoint expire_loop (fuel : nat) (t : timers) : option (list Z * timers) :=
  match fuel with
  | O => None
  | S fuel =>
      let? (id, t) := expire t in
      match event_queue t with
      | [] => Some ([id], t)
      | first :: _ =>
          let? f := events t !! first in
          if timer_lt (it_value f) (TV 0 (g_granularity t / 2)) then
            let? (ids, t) := expire_loop fuel t in Some (id :: ids, t)
          else Some ([id], t)
      end
  end.

(** The events whose callbacks were called, in order. *)
Definition alarm_handler (fuel : nat) (t : timers) : option (list Z * timers) :=
  let t := block_timer t in
  let? (ids, t) := expire_loop fuel t in
  let? t := match event_queue t with [] => Some t | _ => reissue t end in
  Some (ids, unblock_timer t).
End alarm.

(** The interface of bcmtimer.h. *)
Definition bcm_timer_module_init (timer_entries : nat) (base granularity : Z) : timers := init_event_queue timer_entries base granularity.
Definition bcm_timer_module_enable (t : timers) (enable : bool) : timers := if enable then unblock_timer t else block_timer t.
Definition bcm_timer_create (t : timers) : option (Z * timers) := timer_create t.
Definition bcm_timer_delete (t : timers) (id : Z) : option (Z * timers) := timer_delete t id.
Definition bcm_timer_settime (t : timers) (id : Z) (interval value : Z * Z) : option timers := timer_settime t id interval value.
Definition bcm_timer_connect (t : timers) (id f data : Z) : option timers := timer_connect t id f data.
Definition bcm_timer_cancel (t : timers) (id : Z) : option timers := timer_cancel t id.
Definition bcm_timer_change_expirytime (t : timers) (id : Z) (interval value : Z * Z) : option timers := timer_change_settime t id interval value.

(** * Times in microseconds *)

Definition usec (t : timeval) : Z := tv_sec t * US_PER_SEC + tv_usec t.

(** A normal time that is a multiple of the granularity. *)
Record on_grid (g : Z) (t : timeval) : Prop := {
  grid_sec : 0 <= tv_sec t;
  grid_usec : 0 <= tv_usec t < US_PER_SEC;
  grid_mult : tv_usec t mod g = 0
}.

Definition granule (g : Z) : Prop := 1 < g < US_PER_SEC /\ US_PER_SEC mod g = 0.

Lemma timer_lt_usec g a b : on_grid g a -> on_grid g b -> timer_lt a b = (usec a <? usec b).
Proof.
  intros [? ? _] [? ? _]. unfold timer_lt, usec, US_PER_SEC in *. destruct (Z.eqb_spec (tv_sec a) (tv_sec b)) as [->|].
  - destruct (Z.ltb_spec (tv_usec a) (tv_usec b)); symmetry; [apply Z.ltb_lt|apply Z.ltb_ge]; lia.
  - destruct (Z.ltb_spec (tv_sec a) (tv_sec b)); symmetry; [apply Z.ltb_lt|apply Z.ltb_ge]; lia.
Qed.

Lemma timersub_usec g a b : granule g -> on_grid g a -> on_grid g b -> usec b <= usec a ->
  on_grid g (timersub a b) /\ usec (timersub a b) = usec a - usec b.
Proof.
  intros [Hg Hgs] [Ha1 Ha2 Ha3] [Hb1 Hb2 Hb3] Hle. unfold timersub, usec, US_PER_SEC in *.
  assert (Hm : (tv_usec a - tv_usec b) mod g = 0) by (rewrite Zminus_mod, Ha3, Hb3; apply Z.mod_0_l; lia).
  destruct (Z.ltb_spec (tv_usec a - tv_usec b) 0); cbn [tv_sec tv_usec]; (split; [split; cbn [tv_sec tv_usec]|]); unfold US_PER_SEC; try lia.
  rewrite <- Zplus_mod_idemp_l, Hm. exact Hgs.
Qed.

Lemma timerisset_usec g t : on_grid g t -> timerisset t = negb (usec t =? 0).
Proof.
  intros [? ? _]. unfold timerisset, truthy, usec, US_PER_SEC in *. rewrite <- negb_andb. f_equal.
  destruct (Z.eqb_spec (tv_sec t) 0), (Z.eqb_spec (tv_usec t) 0); symmetry; (apply Z.eqb_eq || apply Z.eqb_neq); lia.
Qed.

Lemma usec_nonneg g t : on_grid g t -> 0 <= usec t.
Proof. intros [? ? _]. unfold usec, US_PER_SEC in *. lia. Qed.

Lemma usec_zero g t : on_grid g t -> usec t = 0 -> t = timerclear.
Proof. destruct t as [s u]. intros [H1 H2 _]. cbn in H1, H2. unfold usec, timerclear, US_PER_SEC in *. cbn. intros. f_equal; lia. Qed.

(** Rounding changes nothing that is on the grid and set. *)
Lemma timerroundup_id g t : granule g -> on_grid g t -> usec t <> 0 -> timerroundup t g = t.
Proof.
  intros [Hg _] Ht Hnz. pose proof (timerisset_usec g t Ht) as Hs. destruct Ht as [Ht1 Ht2 Ht3]. unfold timerroundup. rewrite Hs.
  destruct (Z.eqb_spec (usec t) 0); [done|]. cbn [negb]. destruct (Z.eqb_spec (tv_sec t) 0); [|done]. destruct t as [s u]. cbn in *. f_equal.
  unfold ROUNDUP. apply Z.div_exact in Ht3; [|lia]. rewrite Ht3 at 1. rewrite Z.quot_div_nonneg by nia.
  replace (g * (u / g) + g - 1) with (u / g * g + (g - 1)) by lia. rewrite Z.div_add_l, (Z.div_small (g - 1)) by lia. lia.
Qed.

Lemma usec_mult g t : granule g -> on_grid g t -> usec t mod g = 0.
Proof.
  intros [Hg Hgs] [_ _ H]. unfold usec. rewrite <- Zplus_mod_idemp_l, Zmult_mod, Hgs, Z.mul_0_r, Z.mod_0_l, Z.add_0_l by lia. done.
Qed.

(** * The schedule *)

(** A pending timer: when it expires, the event, and the interval it is set again with. *)
Abbreviation entry := (Z * Z * Z)%type.
Definition e_at (x : entry) : Z := x.1.1.
Definition e_id (x : entry) : Z := x.1.2.
Definition e_every (x : entry) : Z := x.2.

(** A timer goes behind those that expire at the same time. *)
Fixpoint ins (x : entry) (l : list entry) : list entry :=
  match l with
  | [] => [x]
  | y :: l => if e_at x <? e_at y then x :: y :: l else y :: ins x l
  end.

(** The queue with the times counted from [b]. *)
Fixpoint deadlines (b : Z) (evs : gmap Z event) (q : list Z) : list entry :=
  match q with
  | [] => []
  | id :: q =>
      match evs !! id with
      | None => []
      | Some e => (b + usec (it_value e), id, usec (it_interval e)) :: deadlines (b + usec (it_value e)) evs q
      end
  end.

Definition queued_ok (g : Z) (evs : gmap Z event) (id : Z) : Prop :=
  exists e, evs !! id = Some e /\ on_grid g (it_value e) /\ on_grid g (it_interval e).

Definition armed (evs : gmap Z event) (id : Z) : Prop := exists e, evs !! id = Some e /\ Z.land (flags e) TFLAG_CANCELLED = 0.

Lemma deadlines_ext b evs evs' q : (forall id, id ∈ q -> evs' !! id = evs !! id) -> deadlines b evs' q = deadlines b evs q.
Proof.
  revert b. induction q as [|id q IH]; intros b H; [done|]. cbn. rewrite H by left. destruct (evs !! id) as [e|]; [|done].
  rewrite IH; [done|]. intros x Hx. apply H. by right.
Qed.

(** Only values and intervals matter. *)
Lemma deadlines_flags b evs id e f q : evs !! id = Some e -> deadlines b (<[id := with_flags e f]> evs) q = deadlines b evs q.
Proof.
  intros He. revert b. induction q as [|k q IH]; intros b; [done|]. cbn. destruct (decide (k = id)) as [->|].
  - rewrite lookup_insert_eq, He. cbn. by rewrite IH.
  - rewrite lookup_insert_ne by done. destruct (evs !! k); [by rewrite IH|done].
Qed.

Lemma queued_ok_flags g evs id e f q : evs !! id = Some e -> Forall (queued_ok g evs) q -> Forall (queued_ok g (<[id := with_flags e f]> evs)) q.
Proof.
  intros He H. eapply Forall_impl; [exact H|]. intros k (h & Hh & H1 & H2). destruct (decide (k = id)) as [->|].
  - rewrite He in Hh. injection Hh as <-. exists (with_flags e f). rewrite lookup_insert_eq. done.
  - exists h. by rewrite lookup_insert_ne by done.
Qed.

Lemma ids_deadlines b g evs q : Forall (queued_ok g evs) q -> map e_id (deadlines b evs q) = q.
Proof.
  intros H. revert b. induction H as [|id q (e & He & _) _ IH]; intros b; [done|]. cbn. rewrite He. cbn. by rewrite IH.
Qed.

(** The march finds the place of a new timer and keeps all others in theirs. *)
Lemma march_spec g evs q v b id e : granule g -> Forall (queued_ok g evs) q -> NoDup q -> on_grid g v -> ~ id ∈ q ->
  evs !! id = Some e ->
  exists evs' x v' y, march evs q v = Some (evs', x, v', y) /\ q = x ++ y /\ on_grid g v' /\ evs' !! id = Some e /\
    (forall k, ~ k ∈ q -> evs' !! k = evs !! k) /\
    (forall k f, k ∈ q -> evs !! k = Some f -> exists w, evs' !! k = Some (with_value f w) /\ on_grid g w) /\
    deadlines b (<[id := with_value e v']> evs') (x ++ id :: y) = ins (b + usec v, id, usec (it_interval e)) (deadlines b evs q).
Proof.
  intros Hg Hq. revert v b. induction Hq as [|k q (f & Hf & Hfv & Hfi) Hq IH]; intros v b Hnd Hv Hid He; cbn [march].
  - exists evs, [], v, []. split; [done|]. split; [done|]. split; [done|]. split; [done|]. split; [done|]. split; [intros k f H; by apply elem_of_nil in H|].
    cbn. by rewrite lookup_insert_eq.
  - rewrite Hf. apply NoDup_cons in Hnd as [Hk Hnd]. rewrite elem_of_cons in Hid. apply Decidable.not_or in Hid as [Hik Hid].
    rewrite (timer_lt_usec g) by done. destruct (Z.ltb_spec (usec v) (usec (it_value f))) as [Hlt|Hge].
    + destruct (timersub_usec g (it_value f) v Hg Hfv Hv ltac:(lia)) as [Hw1 Hw2].
      exists (<[k := with_value f (timersub (it_value f) v)]> evs), [], v, (k :: q). split; [done|]. split; [done|]. split; [done|].
      split; [by rewrite lookup_insert_ne by congruence|]. split; [intros j Hj; rewrite elem_of_cons in Hj; rewrite lookup_insert_ne; [done|intros ->; tauto]|].
      split.
      * intros j h Hj Hh. destruct (decide (j = k)) as [->|Hjk].
        { rewrite lookup_insert_eq. assert (h = f) as -> by congruence. by eexists. }
        rewrite lookup_insert_ne by congruence. apply elem_of_cons in Hj as [->|Hj]; [done|].
        pose proof (proj1 (Forall_forall _ _) Hq j Hj) as (h' & Hh' & Hv' & _). exists (it_value h). rewrite Hh. split; [by destruct h|congruence].
      * cbn. rewrite lookup_insert_eq. cbn. rewrite lookup_insert_ne, lookup_insert_eq by congruence. rewrite Hf. cbn. rewrite Hw2.
        unfold e_at. cbn. rewrite (proj2 (Z.ltb_lt _ _)) by lia.
        replace (b + usec v + (usec (it_value f) - usec v)) with (b + usec (it_value f)) by lia. do 2 f_equal. apply deadlines_ext.
        intros j Hj. rewrite !lookup_insert_ne; [done|intros ->; tauto|intros ->; tauto].
    + destruct (timersub_usec g v (it_value f) Hg Hv Hfv Hge) as [Hw1 Hw2].
      destruct (IH (timersub v (it_value f)) (b + usec (it_value f)) Hnd Hw1 Hid He) as (evs' & x & v' & y & -> & Hxy & Hv' & He' & Hout & Hin & Hd).
      exists evs', (k :: x), v', y. split; [done|]. split; [by rewrite Hxy|]. split; [done|]. split; [done|].
      assert (Hk' : evs' !! k = Some f) by (rewrite Hout; done).
      split; [intros j Hj; rewrite elem_of_cons in Hj; apply Hout; tauto|]. split.
      * intros j h Hj Hh. apply elem_of_cons in Hj as [->|Hj]; [|by apply Hin]. assert (h = f) as -> by congruence.
        exists (it_value f). rewrite Hk'. split; [by destruct f|done].
      * cbn. rewrite lookup_insert_ne, Hk', Hf by congruence. cbn [ins e_at fst snd]. rewrite (proj2 (Z.ltb_ge _ _)) by lia.
        rewrite Hd, Hw2. f_equal. f_equal. do 2 f_equal. lia.
Qed.

Lemma enqueue_spec g t id e b : granule g -> Forall (queued_ok g (events t)) (event_queue t) -> NoDup (event_queue t) ->
  ~ id ∈ event_queue t -> events t !! id = Some e -> on_grid g (it_value e) -> on_grid g (it_interval e) ->
  exists evs v x y, enqueue t id = Some (set_queue (set_events t evs) (x ++ id :: y)) /\ event_queue t = x ++ y /\
    evs !! id = Some (with_value e v) /\ on_grid g v /\
    (forall k, ~ k ∈ event_queue t -> k <> id -> evs !! k = events t !! k) /\
    (forall k f, k ∈ event_queue t -> events t !! k = Some f -> exists w, evs !! k = Some (with_value f w) /\ on_grid g w) /\
    deadlines b evs (x ++ id :: y) = ins (b + usec (it_value e), id, usec (it_interval e)) (deadlines b (events t) (event_queue t)).
Proof.
  intros Hg Hq Hnd Hid He Hv Hi. unfold enqueue. rewrite bool_decide_false by done. cbn [negb]. rewrite He. cbn [option_bind].
  destruct (march_spec g (events t) (event_queue t) (it_value e) b id e Hg Hq Hnd Hv Hid He) as (evs & x & v & y & -> & Hxy & Hv' & He' & Hout & Hin & Hd).
  cbn [option_bind]. rewrite He'. eexists _, v, x, y. split; [reflexivity|]. split; [done|]. split; [apply lookup_insert_eq|]. split; [done|].
  split; [intros k H1 H2; rewrite lookup_insert_ne by done; by apply Hout|]. split; [|exact Hd].
  intros k f Hk Hf. rewrite lookup_insert_ne by (intros ->; done). by apply Hin.
Qed.

(** The queue after linking an event in. *)
Lemma enqueue_ok g t evs id e v x y : Forall (queued_ok g (events t)) (event_queue t) -> NoDup (event_queue t) ->
  ~ id ∈ event_queue t -> event_queue t = x ++ y -> evs !! id = Some (with_value e v) -> on_grid g v -> on_grid g (it_interval e) ->
  (forall k f, k ∈ event_queue t -> events t !! k = Some f -> exists w, evs !! k = Some (with_value f w) /\ on_grid g w) ->
  Forall (queued_ok g evs) (x ++ id :: y) /\ NoDup (x ++ id :: y) /\
  (Forall (armed (events t)) (event_queue t) -> Forall (armed evs) (x ++ y)).
Proof.
  intros Hq Hnd Hid Hxy He Hv Hi Hin.
  assert (Hall : forall P : Z -> Prop, P id -> (forall k, k ∈ event_queue t -> P k) -> Forall P (x ++ id :: y)).
  { intros P H1 H2. apply Forall_forall. intros k Hk. rewrite elem_of_app, elem_of_cons in Hk.
    destruct Hk as [Hk|[->|Hk]]; [apply H2; rewrite Hxy, elem_of_app; by left|done|apply H2; rewrite Hxy, elem_of_app; by right]. }
  split; [|split].
  - apply Hall; [by exists (with_value e v)|]. intros k Hk. pose proof (proj1 (Forall_forall _ _) Hq k Hk) as (f & Hf & H1 & H2).
    destruct (Hin k f Hk Hf) as (w & Hw & Hg). by exists (with_value f w).
  - rewrite Hxy in Hnd, Hid. rewrite <- Permutation_middle. by apply NoDup_cons.
  - intros Ha. rewrite <- Hxy. apply Forall_forall. intros k Hk. pose proof (proj1 (Forall_forall _ _) Ha k Hk) as (f & Hf1 & H1).
    destruct (Hin k f Hk Hf1) as (w & Hw & Hg). by exists (with_value f w).
Qed.

(** The pending timers, seen at [now]: the interval timer runs for the first. *)
Record timers_ok (g now : Z) (t : timers) (sched : list entry) : Prop := {
  to_g : g_granularity t = g;
  to_q : Forall (queued_ok g (events t)) (event_queue t);
  to_armed : Forall (armed (events t)) (event_queue t);
  to_nd : NoDup (event_queue t);
  to_timer : match event_queue t with
             | [] => itimer t = timerclear /\ sched = []
             | id :: q => exists e, events t !! id = Some e /\ on_grid g (itimer t) /\ 0 < usec (itimer t) <= usec (it_value e) /\
                 sched = (now + usec (itimer t), id, usec (it_interval e)) :: deadlines (now + usec (itimer t)) (events t) q
             end
}.

Lemma armed_flags evs id e f q : evs !! id = Some e -> Z.land f TFLAG_CANCELLED = 0 -> Forall (armed evs) q ->
  Forall (armed (<[id := with_flags e f]> evs)) q.
Proof.
  intros He Hf H. eapply Forall_impl; [exact H|]. intros k (h & Hh & H1). destruct (decide (k = id)) as [->|].
  - exists (with_flags e f). by rewrite lookup_insert_eq.
  - exists h. by rewrite lookup_insert_ne by done.
Qed.

Lemma ins_head x y l z l' : ins x (y :: l) = z :: l' -> (z = x /\ e_at x < e_at y) \/ (z = y /\ e_at y <= e_at x).
Proof. cbn. destruct (Z.ltb_spec (e_at x) (e_at y)); intros [= -> _]; [by left|right; by split]. Qed.

(** The interval timer is set for the first event. *)
Lemma reissue_ok g t id q e : granule g -> g_granularity t = g -> event_queue t = id :: q -> events t !! id = Some e ->
  on_grid g (it_value e) -> usec (it_value e) <> 0 ->
  reissue t = Some (setitimer t (it_value e)) /\ reissue_checked t = Some (setitimer t (it_value e)).
Proof.
  intros Hg Htg Hq He Hv Hnz. assert (Hr : reissue t = Some (setitimer t (it_value e))).
  { unfold reissue. rewrite Hq. unfold update. rewrite He. cbn [option_bind]. rewrite Htg, timerroundup_id by done.
    cbn [set_events events]. rewrite lookup_insert_eq. cbn [option_bind]. rewrite (timerisset_usec g) by done. cbn [it_value with_value].
    rewrite (proj2 (Z.eqb_neq _ _)) by done. cbn [negb]. do 2 f_equal. destruct t as [evs qq fl gg mx bc it]. cbn in *. unfold set_events. cbn.
    f_equal. apply insert_id. rewrite He. by destruct e. }
  split; [done|]. unfold reissue_checked. rewrite Hr. cbn [option_bind]. cbn [event_queue setitimer]. rewrite Hq. cbn [hd_error option_bind events setitimer].
  rewrite He. cbn [option_bind itimer setitimer]. assert (Hlong : long_enough (setitimer t (it_value e)) (it_value e) = true); [|by rewrite Hlong].
  unfold long_enough. cbn [g_granularity setitimer]. rewrite Htg. destruct Hg as [Hg _], Hv as [H1 H2 H3]. unfold usec, US_PER_SEC in Hnz.
  destruct (Z.ltb_spec 0 (tv_sec (it_value e))); [done|]. cbn [orb]. apply Z.leb_le. apply Z.div_exact in H3; [|lia].
  assert (0 < tv_usec (it_value e) / g); [|nia]. pose proof (Z.div_pos (tv_usec (it_value e)) g). nia.
Qed.

Lemma timers_ok_schedule g now t sched b : timers_ok g now t sched -> event_queue t <> [] -> 
  (forall id q e, event_queue t = id :: q -> events t !! id = Some e -> b + usec (it_value e) = now + usec (itimer t)) ->
  deadlines b (events t) (event_queue t) = sched.
Proof.
  intros [_ _ _ _ Ht] Hne Hb. destruct (event_queue t) as [|id q]; [done|]. destruct Ht as (e & He & _ & _ & ->). cbn. rewrite He.
  by rewrite (Hb id q e).
Qed.

(** Changing an event that is not queued. *)
Lemma timers_ok_other g now t sched id e : timers_ok g now t sched -> ~ id ∈ event_queue t ->
  timers_ok g now (set_events t (<[id := e]> (events t))) sched.
Proof.
  intros [H1 H2 H3 H4 H5] Hid. assert (Hne : forall k, k ∈ event_queue t -> <[id := e]> (events t) !! k = events t !! k)
    by (intros k Hk; rewrite lookup_insert_ne; [done|by intros ->]).
  split; cbn; try done.
  - apply Forall_forall. intros k Hk. pose proof (proj1 (Forall_forall _ _) H2 k Hk) as (f & Hf & ?). exists f. by rewrite Hne.
  - apply Forall_forall. intros k Hk. pose proof (proj1 (Forall_forall _ _) H3 k Hk) as (f & Hf & ?). exists f. by rewrite Hne.
  - destruct (event_queue t) as [|k q]; [done|]. destruct H5 as (f & Hf & H6 & H7 & ->). exists f. rewrite Hne by left. split; [done|].
    split; [done|]. split; [done|]. f_equal. symmetry. apply deadlines_ext. intros j Hj. apply Hne. by right.
Qed.

Lemma update_dom t id f t' : update t id f = Some t' -> dom (events t') = dom (events t).
Proof.
  unfold update. destruct (events t !! id) as [e|] eqn:E; [|done]. cbn. intros [= <-]. cbn. rewrite dom_insert_lookup_L; [done|by eexists].
Qed.

Lemma march_dom evs q v evs' x v' y : march evs q v = Some (evs', x, v', y) -> dom evs' = dom evs.
Proof.
  revert v x. induction q as [|k q IH]; intros v x; cbn [march]; [intros [= <- <- <- <-]; done|].
  destruct (evs !! k) as [e|] eqn:E; [|done]. cbn. destruct (timer_lt v (it_value e)).
  - intros [= <- <- <- <-]. rewrite dom_insert_lookup_L; [done|by eexists].
  - destruct (march evs q _) as [[[[evs1 a] w] b]|] eqn:Em; [|done]. cbn. intros [= -> <- -> ->]. by apply IH in Em.
Qed.

Lemma enqueue_dom t id t' : enqueue t id = Some t' -> dom (events t') = dom (events t).
Proof.
  unfold enqueue. destruct (negb _); [|done]. destruct (events t !! id) as [e|]; [|done]. cbn [option_bind].
  destruct (march _ _ _) as [[[[evs x] v] y]|] eqn:Em; [|done]. cbn [option_bind]. apply march_dom in Em. destruct (evs !! id) as [f|] eqn:E; [|done].
  cbn. intros [= <-]. cbn. rewrite dom_insert_lookup_L; [done|by eexists].
Qed.

(** The first event is given the time that remains for it. *)
Lemma catch_up g now t sched : timers_ok g now t sched ->
  exists t', (match event_queue t with
      | first :: _ =>
          let? f := events t !! first in
          if timerisset (itimer t) && negb (timer_lt (it_value f) (itimer t))
          then update t first (fun f => with_value f (itimer t)) else Some t
      | [] => Some t
      end) = Some t' /\ timers_ok g now t' sched /\ deadlines now (events t') (event_queue t') = sched /\
    itimer t' = itimer t /\ event_queue t' = event_queue t /\ block_count t' = block_count t /\
    (forall k, ~ k ∈ event_queue t -> events t' !! k = events t !! k) /\
    (forall id q, event_queue t = id :: q -> exists e, events t' !! id = Some e /\ it_value e = itimer t) /\
    dom (events t') = dom (events t).
Proof.
  intros Hok. pose proof Hok as [H1 H2 H3 H4 H5]. destruct (event_queue t) as [|id q] eqn:Eq.
  { exists t. rewrite Eq. split; [done|]. split; [done|]. split; [by destruct H5 as [_ ->]|done]. }
  destruct H5 as (f & Hf & H6 & H7 & Hs). rewrite Hf. cbn [option_bind].
  apply Forall_cons in H2 as [(f' & Hf' & Hv & Hi) H2']. rewrite Hf in Hf'. injection Hf' as <-.
  rewrite (timerisset_usec g), (timer_lt_usec g) by done.
  rewrite (proj2 (Z.eqb_neq _ _)), (proj2 (Z.ltb_ge _ _)) by lia. cbn [negb andb]. unfold update. rewrite Hf. cbn [option_bind].
  eexists. split; [reflexivity|]. apply Forall_cons in H3 as [Ha H3']. apply NoDup_cons in H4 as [Hn H4].
  assert (Hne : forall k, k ∈ q -> <[id := with_value f (itimer t)]> (events t) !! k = events t !! k)
    by (intros k Hk; rewrite lookup_insert_ne; [done|by intros ->]).
  split; [|split; [|split; [done|split; [done|split; [done|split; [|split]]]]]].
  - split; cbn; rewrite ?Eq; try done.
    + constructor; [exists (with_value f (itimer t)); by rewrite lookup_insert_eq|]. apply Forall_forall. intros k Hk.
      pose proof (proj1 (Forall_forall _ _) H2' k Hk) as (h & Hh & ?). exists h. by rewrite Hne.
    + constructor; [exists (with_value f (itimer t)); rewrite lookup_insert_eq; destruct Ha as (h & Hh & ?); split; [done|cbn; congruence]|].
      apply Forall_forall. intros k Hk. pose proof (proj1 (Forall_forall _ _) H3' k Hk) as (h & Hh & ?). exists h. by rewrite Hne.
    + by apply NoDup_cons.
    + exists (with_value f (itimer t)). rewrite lookup_insert_eq. split; [done|]. split; [done|]. split; [cbn; lia|]. cbn [it_interval with_value].
      rewrite Hs. f_equal. symmetry. by apply deadlines_ext.
  - cbn. rewrite Eq. cbn. rewrite lookup_insert_eq, Hs. cbn. f_equal. by apply deadlines_ext.
  - intros k Hk. cbn. rewrite lookup_insert_ne; [done|]. intros ->. apply Hk. by left.
  - intros i r [= <- <-]. eexists. cbn. rewrite lookup_insert_eq. split; [done|done].
  - cbn. rewrite dom_insert_lookup_L; [done|by eexists].
Qed.

(** Arming a timer that is not pending puts it into the schedule, rounded to the grid, and
    moves no other; the interval timer is set again when it is the first. *)
Lemma timer_settime_spec g now t sched id e interval value : granule g -> timers_ok g now t sched -> ~ id ∈ event_queue t ->
  events t !! id = Some e -> on_grid g (TIMESPEC_TO_TIMEVAL interval) -> on_grid g (TIMESPEC_TO_TIMEVAL value) ->
  usec (TIMESPEC_TO_TIMEVAL value) <> 0 ->
  exists t', timer_settime t id interval value = Some t' /\
    timers_ok g now t' (ins (now + usec (TIMESPEC_TO_TIMEVAL value), id, usec (TIMESPEC_TO_TIMEVAL interval)) sched) /\
    block_count t' = block_count t /\ dom (events t') = dom (events t).
Proof.
  intros Hg Hok Hid He Hi Hv Hnz. set (iv := TIMESPEC_TO_TIMEVAL interval) in *. set (v := TIMESPEC_TO_TIMEVAL value) in *.
  unfold timer_settime, timer_change_settime, update. rewrite He. cbn [option_bind events set_events]. rewrite lookup_insert_eq. cbn [option_bind it_value].
  fold v. fold iv. rewrite (timerisset_usec g v Hv), (proj2 (Z.eqb_neq _ _)) by done.
  cbn [negb block_timer set_block set_events events g_granularity]. rewrite lookup_insert_eq.
  cbn [option_bind it_value]. rewrite (to_g _ _ _ _ Hok), timerroundup_id by done. rewrite insert_insert_eq.
  change (with_value (Event iv v (func e) (arg e) (flags e)) v) with (Event iv v (func e) (arg e) (flags e)).
  set (e1 := Event iv v (func e) (arg e) (flags e)).
  match goal with |- context [match event_queue ?T with _ => _ end] => set (t1 := T) end.
  assert (Hok1 : timers_ok g now t1 sched).
  { subst t1. pose proof (timers_ok_other g now t sched id e1 Hok Hid) as [A1 A2 A3 A4 A5]. by split. }
  destruct (catch_up g now t1 sched Hok1) as (t2 & Hc & Hok2 & Hd2 & Hit & Hqq & Hbc & Hout & Hfirst & Hdom2). unfold update in Hc. rewrite Hc. cbn [option_bind].
  assert (Hid2 : ~ id ∈ event_queue t2) by (rewrite Hqq; exact Hid).
  assert (He2 : events t2 !! id = Some e1) by (rewrite Hout by exact Hid; subst t1; cbn; apply lookup_insert_eq).
  destruct (enqueue_spec g t2 id e1 now Hg (to_q _ _ _ _ Hok2) (to_nd _ _ _ _ Hok2) Hid2 He2 Hv Hi) as (evs & w & x & y & Hen & Hxy & Hew & Hw & Hkeep & Hin & Hd).
  destruct (enqueue_ok g t2 evs id e1 w x y (to_q _ _ _ _ Hok2) (to_nd _ _ _ _ Hok2) Hid2 Hxy Hew Hw Hi Hin) as (Hq3 & Hnd3 & Harm3).
  pose proof (enqueue_dom _ _ _ Hen) as Hdom3. rewrite Hen. cbn [events set_queue set_events] in Hdom3.
  assert (Hdom : forall fl, dom (<[id := with_flags (with_value e1 w) fl]> evs) = dom (events t)).
  { intros fl. rewrite dom_insert_lookup_L by (by eexists). rewrite Hdom3, Hdom2. subst t1. cbn. rewrite dom_insert_lookup_L; [done|by eexists]. }
  cbn [option_bind]. cbn [it_value e1 it_interval] in Hd. rewrite Hd2 in Hd.
  specialize (Harm3 (to_armed _ _ _ _ Hok2)). pose proof (to_g _ _ _ _ Hok2) as Hg2. cbn [event_queue set_queue].
  set (fl := Z.ldiff (flags e) TFLAG_CANCELLED). assert (Hfl : Z.land fl TFLAG_CANCELLED = 0) by apply Z.land_ldiff.
  assert (Hbc2 : block_count t2 = block_count t + 1) by (rewrite Hbc; done).
  assert (Hfin : forall it, on_grid g it -> (forall k q' h, x ++ id :: y = k :: q' -> evs !! k = Some h -> usec (it_value h) = usec it /\ 0 < usec it) ->
    timers_ok g now (unblock_timer (set_events (setitimer (set_queue (set_events t2 evs) (x ++ id :: y)) it) (<[id := with_flags (with_value e1 w) fl]> evs)))
      (ins (now + usec v, id, usec iv) sched)).
  { intros it Hgit Hh. split; cbn; try done.
    - by apply queued_ok_flags.
    - rewrite <- Permutation_middle. constructor; [exists (with_flags (with_value e1 w) fl); by rewrite lookup_insert_eq|].
      by apply armed_flags.
    - rewrite <- Hd. destruct (x ++ id :: y) as [|k q'] eqn:Exy; [by destruct x|].
      apply Forall_cons in Hq3 as [(h & Hh0 & Hh1 & Hh2) _]. destruct (Hh k q' h eq_refl Hh0) as [E1 E2].
      assert (Hk : exists h', <[id:=with_flags (with_value e1 w) fl]> evs !! k = Some h' /\ it_value h' = it_value h /\ it_interval h' = it_interval h).
      { destruct (decide (k = id)) as [->|]; [|exists h; by rewrite lookup_insert_ne].
        eexists. rewrite lookup_insert_eq. split; [done|]. rewrite Hew in Hh0. injection Hh0 as <-. done. }
      destruct Hk as (h' & Hk & Ev & Ei). exists h'. split; [done|]. split; [done|]. split; [rewrite Ev; lia|]. cbn. rewrite Hh0, Ei, E1. f_equal.
      symmetry. by apply deadlines_flags. }
  destruct x as [|k x]; cbn [app hd_error] in *.
  - rewrite bool_decide_true by done.
    assert (Hwv : usec w = usec v).
    { cbn [deadlines] in Hd. rewrite Hew in Hd. cbn [with_value it_value it_interval] in Hd. destruct sched as [|z sched]; [cbn in Hd; injection Hd; lia|]. symmetry in Hd. apply ins_head in Hd as [[Hd _]|[Hd _]]; [injection Hd; lia|].
      exfalso. apply Hid2. rewrite <- (ids_deadlines now g (events t2) (event_queue t2)) by apply Hok2. rewrite Hd2, <- Hd. by left. }
    destruct (reissue_ok g (set_queue (set_events t2 evs) (id :: y)) id y (with_value e1 w)) as [_ ->]; try done; [change (usec w <> 0); by rewrite Hwv|].
    cbn [option_bind events setitimer set_queue set_events]. rewrite Hew. cbn [option_bind]. eexists. split; [reflexivity|]. split; [|split; [cbn; lia|apply Hdom]].
    apply (Hfin w Hw). intros k q' h [= <- <-] Hk. rewrite Hew in Hk. injection Hk as <-. pose proof (usec_nonneg g w Hw). cbn. lia.
  - assert (Hki : k <> id) by (intros ->; apply Hid2; rewrite Hxy; by left).
    rewrite bool_decide_false by congruence. cbn [option_bind events set_queue set_events]. rewrite Hew. cbn [option_bind].
    assert (Hqt1 : event_queue t1 = k :: x ++ y) by (rewrite <- Hqq; done).
    destruct (Hfirst k (x ++ y) Hqt1) as (h & Hh & Hhv). pose proof (to_timer _ _ _ _ Hok2) as Ht2. rewrite Hxy in Ht2. destruct Ht2 as (h' & Hh' & G1 & G2 & Hs).
    destruct (Hin k h ltac:(rewrite Hxy; by left) Hh) as (w' & Hk' & Hgw).
    eexists. split; [reflexivity|]. split; [|split; [cbn; lia|apply Hdom]].
    pose proof (Hfin (itimer t2) G1) as Hf2. destruct t2 as [ev2 qq2 fl2 gg2 mx2 bc2 it2]. apply Hf2. intros j q' f [= <- <-] Hj. cbn in *.
    rewrite Hk' in Hj. injection Hj as <-. cbn. cbn [deadlines] in Hd. rewrite Hk' in Hd. cbn [with_value it_value it_interval] in Hd. rewrite Hs in Hd. symmetry in Hd. apply ins_head in Hd as [[Hd _]|[Hd _]].
    + injection Hd. congruence.
    + injection Hd. lia.
Qed.

(** * The alarm *)

(** The timers that are due, and the schedule after they have expired: those with an interval
    are set again, in the order in which they expired. *)
Definition due (now : Z) (l : list entry) : list entry := List.filter (fun x => e_at x <=? now) l.
Definition pending (now : Z) (l : list entry) : list entry := List.filter (fun x => negb (e_at x <=? now)) l.
Definition again (now : Z) (l : list entry) (x : entry) : list entry :=
  if e_every x =? 0 then l else ins (now + e_every x, e_id x, e_every x) l.
Definition later (now : Z) (l : list entry) : list entry := fold_left (again now) (due now l) (pending now l).

Lemma due_ins now x l : now < e_at x -> due now (ins x l) = due now l.
Proof.
  intros Hx. assert (E : forall m, due now (x :: m) = due now m) by (intros m; cbn; by rewrite (proj2 (Z.leb_gt _ _))).
  induction l as [|y l IH]; [apply E|]. cbn [ins]. destruct (e_at x <? e_at y); [apply E|]. cbn. unfold due in IH. by rewrite IH.
Qed.

Lemma pending_ins now x l : now < e_at x -> pending now (ins x l) = ins x (pending now l).
Proof.
  intros Hx. assert (E : forall m, pending now (x :: m) = x :: pending now m) by (intros m; cbn; by rewrite (proj2 (Z.leb_gt _ _))).
  induction l as [|y l IH]; [apply E|]. cbn [ins]. destruct (Z.ltb_spec (e_at x) (e_at y)).
  - rewrite E. cbn. rewrite (proj2 (Z.leb_gt (e_at y) now)) by lia. cbn. by rewrite (proj2 (Z.ltb_lt _ _)).
  - cbn. unfold pending in IH. destruct (Z.leb_spec (e_at y) now); cbn; rewrite IH; [done|]. by rewrite (proj2 (Z.ltb_ge _ _)).
Qed.

Lemma due_again now l x : 0 <= e_every x -> due now (again now l x) = due now l.
Proof. intros H. unfold again. destruct (Z.eqb_spec (e_every x) 0); [done|]. apply due_ins. unfold e_at. cbn. lia. Qed.
Lemma pending_again now l x : 0 <= e_every x -> pending now (again now l x) = again now (pending now l) x.
Proof. intros H. unfold again. destruct (Z.eqb_spec (e_every x) 0); [done|]. apply pending_ins. unfold e_at. cbn. lia. Qed.

Lemma due_head now x l : e_at x <= now -> due now (x :: l) = x :: due now l /\ pending now (x :: l) = pending now l.
Proof. intros H. unfold due, pending. cbn. by rewrite (proj2 (Z.leb_le _ _)). Qed.

Lemma none_due now l : Forall (fun x => now < e_at x) l -> due now l = [] /\ pending now l = l.
Proof.
  induction 1 as [|x l Hx _ [IH1 IH2]]; [done|]. unfold due, pending in *. cbn. rewrite (proj2 (Z.leb_gt _ _)) by done. cbn. by rewrite IH1, IH2.
Qed.

Lemma deadlines_ge g b evs q : Forall (queued_ok g evs) q -> Forall (fun x => b <= e_at x) (deadlines b evs q).
Proof.
  intros H. revert b. induction H as [|id q (e & He & Hv & _) _ IH]; intros b; [constructor|]. cbn. rewrite He.
  pose proof (usec_nonneg g _ Hv). constructor; [unfold e_at; cbn; lia|]. eapply Forall_impl; [apply IH|]. cbn. lia.
Qed.

(** The queue while the alarm is handled, the times counted from [now]. *)
Record expiring (g now : Z) (t : timers) (l : list entry) : Prop := {
  ex_g : g_granularity t = g;
  ex_q : Forall (queued_ok g (events t)) (event_queue t);
  ex_armed : Forall (armed (events t)) (event_queue t);
  ex_nd : NoDup (event_queue t);
  ex_sched : deadlines now (events t) (event_queue t) = l
}.

(** What the handler does not touch. *)
Definition same_rest (t t' : timers) : Prop :=
  itimer t' = itimer t /\ block_count t' = block_count t /\ dom (events t') = dom (events t).

Section alarm_spec.
Context (callback : Z -> Z -> Z -> timers -> option timers).
Hypothesis callback_inert : forall f id a t, callback f id a t = Some t.

Lemma expire_spec g now t id q e l : granule g -> event_queue t = id :: q -> expiring g now (set_queue t q) l -> ~ id ∈ q ->
  events t !! id = Some e -> on_grid g (it_interval e) -> Z.land (flags e) TFLAG_CANCELLED = 0 ->
  exists t', expire callback t = Some (id, t') /\ expiring g now t' (again now l (now, id, usec (it_interval e))) /\ same_rest t t'.
Proof.
  intros Hg Hq [H1 H2 H3 H4 H5] Hid He Hi Hf. cbn in H1, H2, H3, H4, H5. unfold expire. rewrite Hq. cbn [events set_queue]. rewrite He. cbn [option_bind].
  rewrite callback_inert. cbn [option_bind events set_queue]. rewrite He. cbn [option_bind]. rewrite Hf. unfold truthy at 1. cbn [Z.eqb negb andb].
  rewrite (timerisset_usec g) by done. unfold again. cbn [e_every fst snd e_id]. destruct (Z.eqb_spec (usec (it_interval e)) 0) as [Hz|Hz]; cbn [negb].
  { exists (set_queue t q). split; [done|]. split; [by split|done]. }
  unfold update. cbn [events set_queue]. rewrite He. cbn [option_bind g_granularity set_queue]. rewrite H1, timerroundup_id by done.
  set (e1 := with_value e (it_interval e)). set (t1 := set_events _ _).
  assert (Hne : forall k, k ∈ q -> <[id := e1]> (events t) !! k = events t !! k) by (intros k Hk; rewrite lookup_insert_ne; [done|by intros ->]).
  assert (Hq1 : Forall (queued_ok g (events t1)) (event_queue t1)).
  { apply Forall_forall. intros k Hk. pose proof (proj1 (Forall_forall _ _) H2 k Hk) as (f & Hf' & ?). exists f. cbn. by rewrite Hne. }
  assert (Ha1 : Forall (armed (events t1)) (event_queue t1)).
  { apply Forall_forall. intros k Hk. pose proof (proj1 (Forall_forall _ _) H3 k Hk) as (f & Hf' & ?). exists f. cbn. by rewrite Hne. }
  assert (He1 : events t1 !! id = Some e1) by apply lookup_insert_eq.
  destruct (enqueue_spec g t1 id e1 now Hg Hq1 H4 Hid He1 Hi Hi) as (evs & w & x & y & Hen & Hxy & Hew & Hw & Hkeep & Hin & Hd).
  destruct (enqueue_ok g t1 evs id e1 w x y Hq1 H4 Hid Hxy Hew Hw Hi Hin) as (Hq3 & Hnd3 & Harm3).
  pose proof (enqueue_dom _ _ _ Hen) as Hdom. rewrite Hen. cbn [option_bind]. eexists. split; [reflexivity|].
  split; [split; cbn; try done|split; [done|split; [done|]]].
  - rewrite <- Permutation_middle. constructor; [by exists (with_value e1 w)|]. by apply Harm3.
  - rewrite Hd. f_equal. rewrite <- H5. by apply deadlines_ext.
  - rewrite Hdom. cbn. rewrite dom_insert_lookup_L; [done|by eexists].
Qed.

(** Which event is due: one with no time left. *)
Lemma small_iff g v : granule g -> on_grid g v -> timer_lt v (TV 0 (g / 2)) = (usec v =? 0).
Proof.
  intros Hg Hv. pose proof (usec_mult g v Hg Hv) as Hm. destruct Hg as [Hg _]. destruct Hv as [H1 H2 _]. unfold timer_lt. cbn [tv_sec tv_usec].
  pose proof (Z.div_str_pos g 2 ltac:(lia)). pose proof (Z.div_lt g 2 ltac:(lia) ltac:(lia)).
  apply Z.div_exact in Hm; [|lia]. unfold usec, US_PER_SEC in *. destruct (Z.eqb_spec (tv_sec v) 0) as [E|E].
  - rewrite E, Z.mul_0_l, Z.add_0_l in *. destruct (Z.eqb_spec (tv_usec v) 0) as [->|Hn]; [by apply Z.ltb_lt|]. apply Z.ltb_ge.
    assert (1 <= tv_usec v / g) by (pose proof (Z.div_pos (tv_usec v) g); nia). nia.
  - rewrite (proj2 (Z.ltb_ge _ _)) by lia. symmetry. apply Z.eqb_neq. lia.
Qed.

Lemma expire_loop_spec g now fuel t id q e l : granule g -> event_queue t = id :: q -> expiring g now (set_queue t q) l -> ~ id ∈ q ->
  events t !! id = Some e -> on_grid g (it_interval e) -> Z.land (flags e) TFLAG_CANCELLED = 0 -> (length (due now l) < fuel)%nat ->
  exists t', expire_loop callback fuel t = Some (id :: map e_id (due now l), t') /\ same_rest t t' /\
    expiring g now t' (fold_left (again now) ((now, id, usec (it_interval e)) :: due now l) (pending now l)) /\
    (forall k p h, event_queue t' = k :: p -> events t' !! k = Some h -> usec (it_value h) <> 0).
Proof.
  intros Hg. revert t id q e l. induction fuel as [|fuel IH]; intros t id q e l Hq Hex Hid He Hi Hf Hl; [lia|].
  destruct (expire_spec g now t id q e l Hg Hq Hex Hid He Hi Hf) as (t1 & H1 & Hex1 & Hsame). cbn [expire_loop]. rewrite H1. cbn [option_bind].
  set (x := (now, id, usec (it_interval e))) in *. assert (Hx : 0 <= e_every x) by apply (usec_nonneg g _ Hi).
  pose proof Hex1 as [A1 A2 A3 A4 A5]. pose proof (due_again now l x Hx) as Hdue. pose proof (pending_again now l x Hx) as Hpend.
  destruct (event_queue t1) as [|k p] eqn:Eq.
  { cbn in A5. rewrite <- A5 in Hdue, Hpend. cbn in Hdue, Hpend. rewrite <- Hdue. cbn [fold_left]. rewrite <- Hpend. exists t1. split; [done|]. split; [done|].
    split; [|by rewrite Eq]. by rewrite A5. }
  apply Forall_cons in A2 as [(f & Hf1 & Hfv & Hfi) A2]. rewrite Hf1. cbn [option_bind]. rewrite A1, (small_iff g) by done.
  apply Forall_cons in A3 as [(f' & Hf2 & Hff) A3]. assert (f' = f) as -> by congruence. apply NoDup_cons in A4 as [Hkp A4].
  cbn [deadlines] in A5. rewrite Hf1 in A5. destruct (Z.eqb_spec (usec (it_value f)) 0) as [Hz|Hz].
  - rewrite Hz, Z.add_0_r in A5. set (l1 := deadlines now (events t1) p) in *.
    destruct (due_head now (now, k, usec (it_interval f)) l1) as [D1 D2]; [unfold e_at; cbn; lia|].
    rewrite <- A5, D1 in Hdue. rewrite <- A5, D2 in Hpend.
    destruct (IH t1 k p f l1 Eq) as (t2 & -> & Hs2 & Hex2 & Hh); try done.
    { apply (f_equal (@length entry)) in Hdue. cbn in Hdue. lia. }
    exists t2. split; [cbn [option_bind]; by rewrite <- Hdue|]. split; [destruct Hsame as (?&?&?), Hs2 as (?&?&?); split; [congruence|split; congruence]|].
    split; [|done]. rewrite Hpend, Hdue in Hex2. exact Hex2.
  - pose proof (usec_nonneg g _ Hfv). assert (Hnone : Forall (fun y => now < e_at y) (again now l x)).
    { rewrite <- A5. constructor; [unfold e_at; cbn; lia|]. eapply Forall_impl; [by apply (deadlines_ge g)|]. cbn. lia. }
    apply none_due in Hnone as [N1 N2]. rewrite N1 in Hdue. rewrite <- Hdue. cbn [fold_left map]. rewrite <- Hpend, N2.
    exists t1. split; [done|]. split; [done|]. split; [done|]. intros j r h. rewrite Eq. intros [= <- <-]. rewrite Hf1. by intros [= <-].
Qed.

(** The interval timer has run down: all that is due is called, in the order of the queue. *)
Lemma alarm_handler_spec g now t id q e l fuel : granule g -> event_queue t = id :: q -> expiring g now (set_queue t q) l -> ~ id ∈ q ->
  events t !! id = Some e -> on_grid g (it_interval e) -> Z.land (flags e) TFLAG_CANCELLED = 0 -> (length (due now l) < fuel)%nat ->
  itimer t = timerclear ->
  exists t', alarm_handler callback fuel t = Some (id :: map e_id (due now l), t') /\
    timers_ok g now t' (later now ((now, id, usec (it_interval e)) :: l)) /\
    block_count t' = block_count t /\ dom (events t') = dom (events t).
Proof.
  intros Hg Hq Hex Hid He Hi Hf Hl Hit. unfold alarm_handler.
  destruct (expire_loop_spec g now fuel (block_timer t) id q e l Hg Hq) as (t1 & -> & (S1 & S2 & S3) & Hex1 & Hhead); try done.
  { destruct Hex as [A1 A2 A3 A4 A5]. by split. }
  cbn [option_bind]. unfold later. destruct (due_head now (now, id, usec (it_interval e)) l) as [-> ->]; [unfold e_at; cbn; lia|].
  destruct Hex1 as [A1 A2 A3 A4 A5]. cbn in S1, S2, S3. destruct (event_queue t1) as [|k p] eqn:Eq.
  - cbn [option_bind]. eexists. split; [reflexivity|]. split; [split; cbn; try done; rewrite ?Eq; try done|split; [cbn; lia|done]].
    split; [congruence|]. symmetry. exact A5.
  - apply Forall_cons in A2 as [(f & Hf1 & Hfv & Hfi) A2]. specialize (Hhead k p f eq_refl Hf1).
    destruct (reissue_ok g t1 k p f Hg A1 Eq Hf1 Hfv Hhead) as [-> _]. cbn [option_bind]. eexists. split; [reflexivity|].
    pose proof (usec_nonneg g _ Hfv). split; [split; cbn; try done; rewrite ?Eq; try done|split; [cbn; lia|done]].
    + constructor; [by exists f|done].
    + exists f. split; [done|]. split; [done|]. split; [lia|]. symmetry. cbn [deadlines] in A5. rewrite Hf1 in A5. exact A5.
Qed.
End alarm_spec.

(** * A process and its timers *)

(** The program arms timers, and the interval timer of the process counts down by the
    granularity with every tick of the kernel and calls the handler when it reaches zero
    (setitimer(2) with no interval). *)
Inductive action := Arm (id : Z) (interval value : Z * Z) | Tick.

Section process.
Context (callback : Z -> Z -> Z -> timers -> option timers).

Definition tick (t : timers) : option (list Z * timers) :=
  if timerisset (itimer t) then
    let v := timersub (itimer t) (TV 0 (g_granularity t)) in
    let t := setitimer t v in
    if timerisset v then Some ([], t) else alarm_handler callback (S (length (event_queue t))) t
  else Some ([], t).

(** The callbacks that are made, each with its time. *)
Fixpoint run (acts : list action) (now : Z) (t : timers) : option (list (Z * Z) * timers) :=
  match acts with
  | [] => Some ([], t)
  | Arm id interval value :: acts => let? t := timer_settime t id interval value in run acts now t
  | Tick :: acts =>
      let now := now + g_granularity t in
      let? (ids, t) := tick t in
      let? (log, t) := run acts now t in
      Some (map (fun id => (now, id)) ids ++ log, t)
  end.
End process.

(** The same on a schedule.  A timer that is pending is not armed again, and times are
    multiples of the granularity. *)
Definition on_gridb (g : Z) (t : timeval) : bool :=
  (0 <=? tv_sec t) && (0 <=? tv_usec t) && (tv_usec t <? US_PER_SEC) && (tv_usec t mod g =? 0).

Fixpoint plan (g : Z) (known : gset Z) (acts : list action) (now : Z) (l : list entry) : option (list (Z * Z) * list entry) :=
  match acts with
  | [] => Some ([], l)
  | Arm id interval value :: acts =>
      let i := TIMESPEC_TO_TIMEVAL interval in
      let v := TIMESPEC_TO_TIMEVAL value in
      assert! on_gridb g i && on_gridb g v && (0 <? usec v) && bool_decide (id ∈ known) && negb (bool_decide (id ∈ map e_id l)) in
      plan g known acts now (ins (now + usec v, id, usec i) l)
  | Tick :: acts =>
      let now := now + g in
      let? (log, m) := plan g known acts now (later now l) in
      Some (map (fun x => (now, e_id x)) (due now l) ++ log, m)
  end.

Lemma on_gridb_spec g t : on_gridb g t = true -> on_grid g t.
Proof. unfold on_gridb. rewrite !andb_true_iff, !Z.leb_le, Z.ltb_lt, Z.eqb_eq. intros [[[? ?] ?] ?]. by split. Qed.


Section process_spec.
Context (callback : Z -> Z -> Z -> timers -> option timers).
Hypothesis callback_inert : forall f id a t, callback f id a t = Some t.

Lemma tick_spec g now t l : granule g -> timers_ok g now t l ->
  exists t', tick callback t = Some (map e_id (due (now + g) l), t') /\ timers_ok g (now + g) t' (later (now + g) l) /\
    block_count t' = block_count t /\ dom (events t') = dom (events t).
Proof.
  intros Hg [H1 H2 H3 H4 H5]. unfold tick. rewrite H1. destruct (event_queue t) as [|id q] eqn:Eq.
  { destruct H5 as [Hit ->]. rewrite Hit. cbn. exists t. split; [done|]. split; [|done]. split; rewrite ?Eq; done. }
  destruct H5 as (e & He & Hit & Hle & Hl). rewrite (timerisset_usec g), (proj2 (Z.eqb_neq _ _)) by (done || lia). cbn [negb].
  assert (Hgg : on_grid g (TV 0 g)) by (destruct Hg as [Hg _]; split; cbn; [lia|lia|apply Z.mod_same; lia]).
  pose proof (usec_mult g _ Hg Hit) as Hm. assert (Hge : g <= usec (itimer t)).
  { destruct Hg as [Hg _]. apply Z.div_exact in Hm; [|lia]. revert Hm. generalize (usec (itimer t) / g). intros k Hm. destruct (Z.le_gt_cases k 0); nia. }
  assert (Hu : usec (TV 0 g) = g) by (unfold usec; cbn; lia).
  destruct (timersub_usec g (itimer t) (TV 0 g) Hg Hit Hgg ltac:(lia)) as [Hv1 Hv2]. rewrite Hu in Hv2. set (v := timersub _ _) in *.
  apply Forall_cons in H2 as [(e' & He' & Hev & Hei) H2]. assert (e' = e) as -> by congruence.
  apply Forall_cons in H3 as [(e' & He'' & Hef) H3]. assert (e' = e) as -> by congruence. apply NoDup_cons in H4 as [Hn H4].
  rewrite (timerisset_usec g) by done. destruct (Z.eqb_spec (usec v) 0) as [Hz|Hz]; cbn [negb].
  - assert (Hend : now + usec (itimer t) = now + g) by lia. rewrite Hend in Hl. cbn [event_queue setitimer]. rewrite Eq.
    destruct (alarm_handler_spec callback callback_inert g (now + g) (setitimer t v) id q e (deadlines (now + g) (events t) q) (S (length (id :: q))) Hg) as (t' & -> & Hok & Hb & Hd); try done.
    + rewrite <- (ids_deadlines (now + g) g (events t) q) at 2 by done. cbn [length]. rewrite length_map.
      pose proof (filter_length_le (fun x => e_at x <=? now + g) (deadlines (now + g) (events t) q)). unfold due. lia.
    + by apply (usec_zero g).
    + exists t'. rewrite Hl. destruct (due_head (now + g) (now + g, id, usec (it_interval e)) (deadlines (now + g) (events t) q)) as [-> _]; [unfold e_at; cbn; lia|].
      split; [done|]. split; [done|]. split; [done|]. exact Hd.
  - assert (Hnone : Forall (fun x => now + g < e_at x) l).
    { rewrite Hl. pose proof (usec_nonneg g v Hv1). constructor; [unfold e_at; cbn; lia|]. eapply Forall_impl; [by apply (deadlines_ge g)|]. cbn. lia. }
    apply none_due in Hnone as [N1 N2]. unfold later. rewrite N1, N2. cbn [fold_left map]. exists (setitimer t v). split; [done|]. split; [|done].
    pose proof (usec_nonneg g v Hv1). split; cbn; rewrite ?Eq; try done; [by constructor; [exists e|]|by constructor; [exists e|]|by apply NoDup_cons|].
    exists e. split; [done|]. split; [done|]. split; [destruct Hg; lia|]. rewrite Hl. replace (now + g + usec v) with (now + usec (itimer t)) by lia. done.
Qed.

Lemma plan_run g acts now t l log l' : granule g -> timers_ok g now t l ->
  plan g (dom (events t)) acts now l = Some (log, l') ->
  exists t' now', run callback acts now t = Some (log, t') /\ timers_ok g now' t' l' /\ block_count t' = block_count t.
Proof.
  intros Hg. revert now t l log. induction acts as [|[id i v|] acts IH]; intros now t l log Hok; cbn [plan run].
  - intros [= <- <-]. by exists t, now.
  - destruct (_ && _) eqn:E; [|done]. rewrite !andb_true_iff, Z.ltb_lt, negb_true_iff, bool_decide_eq_true, bool_decide_eq_false in E.
    destruct E as [[[[E1 E2] E3] E4] E5]. apply on_gridb_spec in E1, E2. apply elem_of_dom in E4 as [e He]. intros Hp.
    assert (Hid : ~ id ∈ event_queue t).
    { destruct Hok as [_ O2 _ _ O5]. destruct (event_queue t) as [|k q] eqn:Eq; [intros H; by apply elem_of_nil in H|].
      destruct O5 as (h & Hh & _ & _ & ->). apply Forall_cons in O2 as [_ O2]. cbn in E5. by rewrite (ids_deadlines _ g) in E5. }
    destruct (timer_settime_spec g now t l id e i v Hg Hok Hid He E1 E2 ltac:(lia)) as (t1 & -> & Hok1 & Hb & Hd). cbn [option_bind].
    rewrite <- Hd in Hp. destruct (IH _ _ _ _ Hok1 Hp) as (t2 & n2 & -> & Hok2 & Hb2). exists t2, n2. by rewrite Hb2, Hb.
  - destruct (plan g _ acts _ _) as [[log1 l1]|] eqn:Ep; [|done]. cbn [option_bind]. intros [= <- <-].
    destruct (tick_spec g now t l Hg Hok) as (t1 & -> & Hok1 & Hb & Hd). cbn [option_bind]. rewrite (to_g _ _ _ _ Hok).
    rewrite <- Hd in Ep. destruct (IH _ _ _ _ Hok1 Ep) as (t2 & n2 & -> & Hok2 & Hb2). cbn [option_bind]. exists t2, n2. rewrite map_map. by rewrite Hb2, Hb.
Qed.
End process_spec.

(** C24 Timers keep time: for any sequence of arming timers that are not pending (with times on
    the grid of the clock) and of ticks, and callbacks that leave the timers alone, every
    callback is made at exactly the time its timer was armed for, those of the same time in
    the order in which they were armed, a timer with an interval again after each interval;
    the queue is the schedule of what is still to come, and no alarm stays blocked. *)
Theorem timers_keep_time callback g t acts log l : (forall f id a t, callback f id a t = Some t) -> granule g ->
  g_granularity t = g -> event_queue t = [] -> itimer t = timerclear ->
  plan g (dom (events t)) acts 0 [] = Some (log, l) ->
  exists t', run callback acts 0 t = Some (log, t') /\ event_queue t' = map e_id l /\ block_count t' = block_count t.
Proof.
  intros Hcb Hg Htg Hq Hit Hp. assert (Hok : timers_ok g 0 t []) by (split; rewrite ?Hq; done || constructor).
  destruct (plan_run callback Hcb g acts 0 t [] log l Hg Hok Hp) as (t' & now' & Hr & Hok' & Hb). exists t'. split; [done|]. split; [|done].
  destruct Hok' as [_ O2 _ _ O5]. destruct (event_queue t') as [|k q]; [by destruct O5 as [_ ->]|].
  destruct O5 as (e & _ & _ & _ & ->). apply Forall_cons in O2 as [_ O2]. cbn. by rewrite (ids_deadlines _ g).
Qed.

(** A kernel of 100 ticks a second, and three timers: one every 20 ms, one after 20 ms, one
    after 1.02 s. *)
Definition three := init_event_queue 3 100 10000.
Definition inert (f id a : Z) (t : timers) : option timers := Some t.
Definition some_acts : list action :=
  [Arm 100 (0, 20000000) (0, 20000000); Arm 102 (0, 0) (1, 20000000); Tick; Arm 101 (0, 0) (0, 20000000); Tick; Tick; Tick].

Lemma timers_keep_time_witness :
  plan 10000 (dom (events three)) some_acts 0 [] = Some ([(20000, 100); (30000, 101); (40000, 100)], [(60000, 100, 20000); (1020000, 102, 0)]) /\
  exists t', run inert some_acts 0 three = Some ([(20000, 100); (30000, 101); (40000, 100)], t') /\ event_queue t' = [100; 102] /\ block_count t' = 0.
Proof.
  assert (H : plan 10000 (dom (events three)) some_acts 0 [] = Some ([(20000, 100); (30000, 101); (40000, 100)], [(60000, 100, 20000); (1020000, 102, 0)]))
    by (vm_compute; reflexivity).
  split; [exact H|]. apply (timers_keep_time inert 10000 three some_acts _ [(60000, 100, 20000); (1020000, 102, 0)]); [reflexivity|split; [unfold US_PER_SEC; lia|reflexivity]|reflexivity|reflexivity|reflexivity|exact H].
Defined.

(** * Cancelling *)

Fixpoint ticks (n : nat) : list action := match n with O => [] | S n => Tick :: ticks n end.
Definition ms (n : Z) : Z * Z := (0, n * 1000000).
Definition log_of (r : option (list (Z * Z) * timers)) : option (list (Z * Z)) := let? (log, _) := r in Some log.

(** Cancelling the first timer adds the time that has passed, where it should be the time
    that remains, to the next one: a timer for 100 ms is called after 90. *)
Example cancel_first_early :
  (let? (_, t) := run inert [Arm 100 (ms 0) (ms 30); Arm 101 (ms 0) (ms 100); Tick] 0 three in
   let? t := timer_cancel t 100 in log_of (run inert (ticks 12) 10000 t)) = Some [(90000, 101)].
Proof. vm_compute. reflexivity. Qed.

(** Cancelling another timer loses its share of the time of those behind it, and runs the
    interval timer for the first from its start again. *)
Example cancel_middle_early :
  (let? (_, t) := run inert [Arm 100 (ms 0) (ms 30); Arm 101 (ms 0) (ms 50); Arm 102 (ms 0) (ms 100)] 0 three in
   let? t := timer_cancel t 101 in log_of (run inert (ticks 12) 0 t)) = Some [(30000, 100); (80000, 102)].
Proof. vm_compute. reflexivity. Qed.

Example cancel_restarts_first :
  (let? (_, t) := run inert [Arm 100 (ms 0) (ms 30); Arm 101 (ms 0) (ms 50); Tick; Tick] 0 three in
   let? t := timer_cancel t 101 in log_of (run inert (ticks 12) 20000 t)) = Some [(50000, 100)].
Proof. vm_compute. reflexivity. Qed.

(** Rounding up can leave a time with a million microseconds, which setitimer refuses. *)
Example roundup_not_normal : timerroundup (TV 0 999999) 10000 = TV 0 1000000.
Proof. vm_compute. reflexivity. Qed.
