(* ===== verification/Ether.v ===== *)
(** The boot loader's Ethernet layer: cfe/cfe/net/net_ether.c and the packet buffers of
    net_ebuf.h.

    A packet buffer is owned by one party at a time: the free list, a queue of the protocol
    above, or the function that holds it; so a buffer is a value that moves between them, and
    the doubly linked queues they are kept on are lists (see [Queue]).  The device is the
    frames handed to cfe_write, and what cfe_read returns is an argument.  Reading or writing
    outside the data of a buffer is [None]. *)

From S2P Require Import Prelude.
From Stdlib Require Import ZArith Lia Bool List.
From stdpp Require Import base numbers list.

#[local] Open Scope Z_scope.

Definition ENET_MAX_PKT := 1514.
Definition ENET_ADDR_LEN := 6.
Definition ENET_DIX_HEADER := 14.

(** * Packet buffers *)

(** [eb_addr] is the address of the structure, [eb_ptr] an offset into [eb_data]. *)
Record ebuf := Ebuf {
  eb_addr : Z;
  eb_length : Z;
  eb_status : Z;
  eb_port : Z;
  eb_ptr : Z;
  eb_data : bytes
}.

Definition eb_size : nat := 0x5F0.

Definition ebuf_set (b : ebuf) (len ptr : Z) : ebuf := Ebuf (eb_addr b) len (eb_status b) (eb_port b) ptr (eb_data b).
Definition ebuf_store (b : ebuf) (data : bytes) : ebuf :=
  Ebuf (eb_addr b) (eb_length b) (eb_status b) (eb_port b) (eb_ptr b) data.

Definition ebuf_init_rx (b : ebuf) : ebuf := Ebuf (eb_addr b) 0 0 (eb_port b) 0 (eb_data b).
Definition ebuf_init_tx (b : ebuf) : ebuf := Ebuf (eb_addr b) 0 0 (eb_port b) 0 (eb_data b).

Definition ebuf_prepend (b : ebuf) (amt : Z) : ebuf := ebuf_set b (wrap32 (eb_length b + amt)) (eb_ptr b - amt).
Definition ebuf_seek (b : ebuf) (amt : Z) : ebuf := ebuf_set b (eb_length b) (eb_ptr b + amt).
Definition ebuf_skip (b : ebuf) (amt : Z) : ebuf := ebuf_set b (wrap32 (eb_length b - amt)) (eb_ptr b + amt).
Definition ebuf_setlength (b : ebuf) (amt : Z) : ebuf := ebuf_set b (wrap32 amt) (eb_ptr b).

(** The bytes from an offset on, and storing bytes there. *)
Definition eb_read (b : ebuf) (i n : Z) : option bytes :=
  assert! (0 <=? i) && (0 <=? n) && (i + n <=? Z.of_nat (length (eb_data b))) in
  Some (take (Z.to_nat n) (drop (Z.to_nat i) (eb_data b))).
Definition eb_write (b : ebuf) (i : Z) (s : bytes) : option ebuf :=
  assert! (0 <=? i) && (i + Z.of_nat (length s) <=? Z.of_nat (length (eb_data b))) in
  Some (ebuf_store b (splice (eb_data b) (Z.to_nat i) s)).

(** The bytes of a number in network order. *)
Definition be16 (w : Z) : bytes := [Z.land (Z.shiftr w 8) 0xFF; Z.land w 0xFF].
Definition be32 (w : Z) : bytes :=
  [Z.land (Z.shiftr w 24) 0xFF; Z.land (Z.shiftr w 16) 0xFF; Z.land (Z.shiftr w 8) 0xFF; Z.land w 0xFF].

Definition ebuf_append_bytes (b : ebuf) (s : bytes) : option ebuf :=
  let? b := eb_write b (eb_ptr b + eb_length b) s in
  Some (ebuf_set b (wrap32 (eb_length b + Z.of_nat (length s))) (eb_ptr b)).
Definition ebuf_append_u8 (b : ebuf) (v : Z) : option ebuf := ebuf_append_bytes b [wrap8 v].
Definition ebuf_append_u16_be (b : ebuf) (w : Z) : option ebuf := ebuf_append_bytes b (be16 w).
Definition ebuf_append_u32_be (b : ebuf) (w : Z) : option ebuf := ebuf_append_bytes b (be32 w).

Definition ebuf_put_bytes (b : ebuf) (s : bytes) : option ebuf :=
  let? b := eb_write b (eb_ptr b) s in Some (ebuf_set b (eb_length b) (eb_ptr b + Z.of_nat (length s))).
Definition ebuf_put_u8 (b : ebuf) (v : Z) : option ebuf := ebuf_put_bytes b [wrap8 v].
Definition ebuf_put_u16_be (b : ebuf) (w : Z) : option ebuf := ebuf_put_bytes b (be16 w).

Definition ebuf_get_bytes (b : ebuf) (n : Z) : option (bytes * ebuf) :=
  let? s := eb_read b (eb_ptr b) n in Some (s, ebuf_skip b n).

(** Numbers from bytes in network order. *)
Definition of_be (s : bytes) : Z := fold_left (fun v c => Z.lor (Z.shiftl v 8) c) s 0.

Definition ebuf_get_u8 (b : ebuf) : option (Z * ebuf) := let? (s, b) := ebuf_get_bytes b 1 in Some (of_be s, b).
Definition ebuf_get_u16_be (b : ebuf) : option (Z * ebuf) := let? (s, b) := ebuf_get_bytes b 2 in Some (of_be s, b).
Definition ebuf_get_u32_be (b : ebuf) : option (Z * ebuf) := let? (s, b) := ebuf_get_bytes b 4 in Some (of_be s, b).

(** * The Ethernet layer *)

Definition ETH_MAX_PORTS : nat := 4.
Definition ETH_MAX_BUFFERS : nat := 8.
Definition ETH_PTYPE_NONE := 0.
Definition ETH_PTYPE_DIX := 1.
Definition ETH_KEEP := 1.
Definition ETH_DROP := 0.
Definition CFE_ERR_NOHANDLES := -25.
Definition CFE_ERR_UNSUPPORTED := -19.

Definition eth_broadcast : bytes := replicate 6 0xFF.

Record ether_port := EPort {
  ep_dev : Z;
  ep_proto : bytes;
  ep_ptype : Z;
  ep_mtu : Z;
  ep_rxcallback : Z;
  ep_ref : Z
}.

(** [eth_wire] is what was given to cfe_write. *)
Record ether_info := Eth {
  eth_ports : list ether_port;
  eth_freelist : list ebuf;
  eth_hwaddr : bytes;
  eth_devhandle : Z;
  eth_wire : list bytes
}.

Definition set_ports (e : ether_info) (p : list ether_port) : ether_info :=
  Eth p (eth_freelist e) (eth_hwaddr e) (eth_devhandle e) (eth_wire e).
Definition set_freelist (e : ether_info) (l : list ebuf) : ether_info :=
  Eth (eth_ports e) l (eth_hwaddr e) (eth_devhandle e) (eth_wire e).
Definition set_hwaddr (e : ether_info) (a : bytes) : ether_info :=
  Eth (eth_ports e) (eth_freelist e) a (eth_devhandle e) (eth_wire e).
Definition cfe_write (e : ether_info) (frame : bytes) : ether_info :=
  Eth (eth_ports e) (eth_freelist e) (eth_hwaddr e) (eth_devhandle e) (eth_wire e ++ [frame]).

(** An index into the table of ports. *)
Definition port_at (e : ether_info) (i : Z) : option ether_port :=
  assert! 0 <=? i in eth_ports e !! Z.to_nat i.

Fixpoint free_port (i : nat) (ports : list ether_port) : option nat :=
  match ports with
  | [] => None
  | p :: ports => if ep_rxcallback p =? 0 then Some i else free_port (S i) ports
  end.

Definition eth_open (e : ether_info) (ptype : Z) (pdata : Z * Z) (cb ref : Z) : Z * ether_info :=
  match free_port 0 (eth_ports e) with
  | None => (CFE_ERR_NOHANDLES, e)
  | Some i =>
      match eth_ports e !! i with
      | None => (CFE_ERR_NOHANDLES, e)
      | Some p =>
          if ptype =? ETH_PTYPE_DIX then
            let p := EPort (eth_devhandle e) (pdata.1 :: pdata.2 :: drop 2 (ep_proto p)) ptype
                       (ENET_MAX_PKT - ENET_DIX_HEADER) cb ref in
            (Z.of_nat i, set_ports e (<[i := p]> (eth_ports e)))
          else (CFE_ERR_UNSUPPORTED, e)
      end
  end.

Definition eth_close (e : ether_info) (port : Z) : option ether_info :=
  let? p := port_at e port in
  let p := EPort 0 (replicate 8 0) 0 (ep_mtu p) 0 (ep_ref p) in
  Some (set_ports e (<[Z.to_nat port := p]> (eth_ports e))).

Definition eth_free (e : ether_info) (b : ebuf) : ether_info := set_freelist e (eth_freelist e ++ [b]).

Definition eth_alloc (e : ether_info) (port : Z) : option (option ebuf * ether_info) :=
  match eth_freelist e with
  | [] => Some (None, e)
  | b :: l =>
      let b := ebuf_init_tx (Ebuf (eb_addr b) (eb_length b) 0 port (eb_ptr b) (eb_data b)) in
      let? p := port_at e port in
      let b := if ep_ptype p =? ETH_PTYPE_DIX then ebuf_seek b ENET_DIX_HEADER else b in
      Some (Some (ebuf_setlength b 0), set_freelist e l)
  end.

(** The buffer stays with the caller, who frees it. *)
Definition eth_send (e : ether_info) (b : ebuf) (dest : bytes) : option (ebuf * ether_info) :=
  let? p := port_at e (eb_port b) in
  if ep_ptype p =? ETH_PTYPE_DIX then
    let b := ebuf_seek b (- ENET_DIX_HEADER) in
    let? b := ebuf_put_bytes b dest in
    let? b := ebuf_put_bytes b (eth_hwaddr e) in
    let? b := ebuf_put_bytes b (take 2 (ep_proto p)) in
    let b := ebuf_prepend b ENET_DIX_HEADER in
    let? frame := eb_read b (eb_ptr b) (eb_length b) in
    Some (b, cfe_write e frame)
  else Some (b, eth_free e b).

(** The port a packet is for, with the packet behind its header. *)
Fixpoint findport_loop (i : nat) (ports : list ether_port) (proto : bytes) : option (nat * ether_port) :=
  match ports with
  | [] => None
  | p :: ports =>
      if truthy (ep_rxcallback p) && (ep_ptype p =? ETH_PTYPE_DIX) && bytes_eqb (take 2 (ep_proto p)) proto then Some (i, p)
      else findport_loop (S i) ports proto
  end.

Definition eth_findport (e : ether_info) (b : ebuf) : option (option (nat * ether_port) * ebuf) :=
  let? src := eb_read b (eb_ptr b + 6) 1 in
  if truthy (Z.land (deref src) 1) then Some (None, b)
  else if eb_length b <? 60 then Some (None, b)
  else
    let? proto := eb_read b (eb_ptr b + 12) 2 in
    match findport_loop 0 (eth_ports e) proto with
    | None => Some (None, b)
    | Some p => Some (Some p, ebuf_skip b ENET_DIX_HEADER)
    end.

(** What the device has: nothing, an error, or a frame. *)
Inductive rx_input := NoInput | RxError | RxFrame (frame : bytes).

(** What a callback made of a packet. *)
Inductive rx_result := Dropped (b : ebuf) | Kept.

(** The callbacks are functions on the whole stack, of which the Ethernet layer is a part. *)
Section poll.
Context {W : Type} (eth : W -> ether_info) (set_eth : W -> ether_info -> W).
Context (rxcallback : Z -> Z -> W -> ebuf -> option (rx_result * W)).

Definition eth_poll (w : W) (input : rx_input) : option W :=
  match input with
  | NoInput => Some w
  | _ =>
      match eth_freelist (eth w) with
      | [] => Some w
      | b :: l =>
          let w := set_eth w (set_freelist (eth w) l) in
          let b := ebuf_init_rx b in
          match input with
          | RxFrame frame =>
              let? b := eb_write b (eb_ptr b) (take (Z.to_nat ENET_MAX_PKT) frame) in
              let b := ebuf_setlength b (Z.min (Z.of_nat (length frame)) ENET_MAX_PKT) in
              let? (p, b) := eth_findport (eth w) b in
              match p with
              | None => Some (set_eth w (eth_free (eth w) b))
              | Some (i, p) =>
                  let b := Ebuf (eb_addr b) (eb_length b) (eb_status b) (Z.of_nat i) (eb_ptr b) (eb_data b) in
                  let? (r, w) := rxcallback (ep_rxcallback p) (ep_ref p) w b in
                  match r with
                  | Dropped b => Some (set_eth w (eth_free (eth w) b))
                  | Kept => Some w
                  end
              end
          | _ => Some (set_eth w (eth_free (eth w) b))
          end
      end
  end.
End poll.

Definition eth_getmtu (e : ether_info) (port : Z) : option Z := let? p := port_at e port in Some (ep_mtu p).
Definition eth_gethwaddr (e : ether_info) : bytes := eth_hwaddr e.
Definition eth_sethwaddr (e : ether_info) (a : bytes) : ether_info := set_hwaddr e a.

(** [hwaddr] is the address of the device, [pool] where its buffers lie and [data] what is
    in them. *)
Definition eth_init (devhandle : Z) (hwaddr : bytes) (pool sizeof_ebuf : Z) (data : nat -> bytes) : ether_info :=
  let no_port := EPort 0 (replicate 8 0) 0 0 0 0 in
  let buf i := Ebuf (pool + Z.of_nat i * sizeof_ebuf) 0 0 0 0 (data i) in
  Eth (replicate ETH_MAX_PORTS no_port) (map buf (seq 0 ETH_MAX_BUFFERS)) hwaddr devhandle [].

(** * Network order *)

Lemma lor_byte v c : 0 <= c < 256 -> Z.lor (Z.shiftl v 8) c = v * 256 + c.
Proof.
  intros Hc. assert (Hz : Z.land (Z.shiftl v 8) c = 0).
  { apply Z.bits_inj'. intros n Hn. rewrite Z.land_spec, Z.bits_0. destruct (Z.lt_ge_cases n 8).
    - by rewrite Z.shiftl_spec_low.
    - replace c with (c mod 2 ^ 8) by (apply Z.mod_small; lia). rewrite Z.mod_pow2_bits_high by lia. apply andb_false_r. }
  rewrite <- Z.lxor_lor, <- Z.add_nocarry_lxor by done. rewrite Z.shiftl_mul_pow2 by lia. lia.
Qed.

Lemma of_be_cons c s : of_be (s ++ [c]) = Z.lor (Z.shiftl (of_be s) 8) c.
Proof. unfold of_be. by rewrite fold_left_app. Qed.

Lemma land_ff x : Z.land x 0xFF = x mod 256.
Proof. change 0xFF with (Z.ones 8). rewrite Z.land_ones by lia. done. Qed.

Lemma of_be_16 x : 0 <= x < 65536 -> of_be (be16 x) = x.
Proof.
  intros H. unfold be16. change [?a; ?b] with ([a] ++ [b]). rewrite of_be_cons, !land_ff, Z.shiftr_div_pow2 by lia.
  change (of_be [?a]) with (Z.lor (Z.shiftl 0 8) a). change (2 ^ 8) with 256.
  rewrite !lor_byte by (apply Z.mod_pos_bound; lia). rewrite (Z.mod_small (x / 256)).
  - pose proof (Z.div_mod x 256). lia.
  - pose proof (Z.div_lt_upper_bound x 256 256). pose proof (Z.div_pos x 256). lia.
Qed.

Lemma of_be_32 x : 0 <= x < 2 ^ 32 -> of_be (be32 x) = x.
Proof.
  intros H. unfold be32. change [?a; ?b; ?c; ?d] with ((([a] ++ [b]) ++ [c]) ++ [d]). rewrite !of_be_cons, !land_ff, !Z.shiftr_div_pow2 by lia.
  change (of_be [?a]) with (Z.lor (Z.shiftl 0 8) a). rewrite !lor_byte by (apply Z.mod_pos_bound; lia).
  change (2 ^ 8) with 256. change (2 ^ 16) with (256 * 256). change (2 ^ 24) with (256 * (256 * 256)). rewrite <- !Z.div_div by lia.
  pose proof (Z.div_mod x 256). pose proof (Z.div_mod (x / 256) 256). pose proof (Z.div_mod (x / 256 / 256) 256).
  rewrite (Z.mod_small (x / 256 / 256 / 256)); [lia|]. rewrite !Z.div_div by lia. split; [apply Z.div_pos; lia|]. apply Z.div_lt_upper_bound; lia.
Qed.

(** * Buffers *)

(** What a buffer holds, and that it holds it inside its data. *)
Definition payload (b : ebuf) : bytes := take (Z.to_nat (eb_length b)) (drop (Z.to_nat (eb_ptr b)) (eb_data b)).

Record holds (b : ebuf) : Prop := {
  h_size : length (eb_data b) = eb_size;
  h_ptr : 0 <= eb_ptr b;
  h_len : 0 <= eb_length b;
  h_end : eb_ptr b + eb_length b <= Z.of_nat eb_size
}.

(** The same buffer of the same port. *)
Definition same_buf (b b' : ebuf) : Prop := eb_addr b' = eb_addr b /\ eb_port b' = eb_port b.

Lemma payload_length b : holds b -> Z.of_nat (length (payload b)) = eb_length b.
Proof. intros [H1 H2 H3 H4]. unfold payload. rewrite length_take, length_drop, H1. lia. Qed.

Lemma eb_read_ok b i n : length (eb_data b) = eb_size -> 0 <= i -> 0 <= n -> i + n <= Z.of_nat eb_size ->
  eb_read b i n = Some (take (Z.to_nat n) (drop (Z.to_nat i) (eb_data b))).
Proof. intros Hs Hi Hn H. unfold eb_read. rewrite Hs, !(proj2 (Z.leb_le _ _)) by lia. done. Qed.

Lemma eb_write_ok b i s : length (eb_data b) = eb_size -> 0 <= i -> i + Z.of_nat (length s) <= Z.of_nat eb_size ->
  eb_write b i s = Some (ebuf_store b (splice (eb_data b) (Z.to_nat i) s)).
Proof. intros Hs Hi H. unfold eb_write. rewrite Hs, !(proj2 (Z.leb_le _ _)) by lia. done. Qed.

Lemma read_payload b : holds b -> eb_read b (eb_ptr b) (eb_length b) = Some (payload b).
Proof. intros [H1 H2 H3 H4]. by rewrite eb_read_ok. Qed.

Lemma be16_length w : length (be16 w) = 2%nat.
Proof. done. Qed.
Lemma be32_length w : length (be32 w) = 4%nat.
Proof. done. Qed.

(** Appending. *)
Lemma append_ok b s : holds b -> eb_ptr b + eb_length b + Z.of_nat (length s) <= Z.of_nat eb_size ->
  exists b', ebuf_append_bytes b s = Some b' /\ holds b' /\ same_buf b b' /\ eb_ptr b' = eb_ptr b /\
    eb_length b' = eb_length b + Z.of_nat (length s) /\ payload b' = payload b ++ s.
Proof.
  intros [H1 H2 H3 H4] Hs. unfold ebuf_append_bytes. rewrite eb_write_ok by (done || lia). unfold eb_size in *.
  assert (Hl : wrap32 (eb_length b + Z.of_nat (length s)) = eb_length b + Z.of_nat (length s)) by (apply wrap32_small; lia).
  eexists. split; [reflexivity|]. cbn. rewrite Hl. split; [split; cbn; rewrite ?length_splice by lia; unfold eb_size; lia|].
  split; [done|]. split; [done|]. split; [done|]. unfold payload. cbn. apply list_eq. intros k.
  destruct (decide (k < Z.to_nat (eb_length b + Z.of_nat (length s)))%nat).
  - rewrite lookup_take_lt, lookup_drop, lookup_splice by lia. case_decide.
    + rewrite lookup_app_r by (rewrite length_take, length_drop; lia). rewrite length_take, length_drop. f_equal. lia.
    + rewrite lookup_app_l, lookup_take_lt, lookup_drop by (rewrite ?length_take, ?length_drop; lia). done.
  - rewrite lookup_take_ge by lia. symmetry. apply lookup_ge_None. rewrite length_app, length_take, length_drop. lia.
Qed.

(** A header before what a buffer holds: written at its place, and taken into the length. *)
Lemma put_ok b s : length (eb_data b) = eb_size -> 0 <= eb_ptr b -> eb_ptr b + Z.of_nat (length s) <= Z.of_nat eb_size ->
  ebuf_put_bytes b s = Some (Ebuf (eb_addr b) (eb_length b) (eb_status b) (eb_port b) (eb_ptr b + Z.of_nat (length s))
                              (splice (eb_data b) (Z.to_nat (eb_ptr b)) s)).
Proof. intros H1 H2 H3. unfold ebuf_put_bytes. by rewrite eb_write_ok. Qed.

Lemma put_put b s1 s2 : length (eb_data b) = eb_size -> 0 <= eb_ptr b ->
  eb_ptr b + Z.of_nat (length s1) + Z.of_nat (length s2) <= Z.of_nat eb_size ->
  (let? b := ebuf_put_bytes b s1 in ebuf_put_bytes b s2) = ebuf_put_bytes b (s1 ++ s2).
Proof.
  intros H1 H2 H3. rewrite (put_ok b s1), (put_ok b (s1 ++ s2)) by (rewrite ?length_app; lia).
  rewrite put_ok; cbn; rewrite ?length_splice, ?length_app by lia; [|lia..].
  f_equal. f_equal; [lia|]. rewrite Z2Nat.inj_add, Nat2Z.id by lia. apply splice_splice. lia.
Qed.

Lemma put_bind {A} b s1 s2 (k : ebuf -> option A) : length (eb_data b) = eb_size -> 0 <= eb_ptr b ->
  eb_ptr b + Z.of_nat (length (s1 ++ s2)) <= Z.of_nat eb_size ->
  (let? b := ebuf_put_bytes b s1 in let? b := ebuf_put_bytes b s2 in k b) = let? b := ebuf_put_bytes b (s1 ++ s2) in k b.
Proof.
  rewrite length_app. intros H1 H2 H3. rewrite <- put_put by lia. by destruct (ebuf_put_bytes b s1).
Qed.

(** Changing a part of what a buffer holds. *)
Lemma write_ok b i s : holds b -> 0 <= i -> i + Z.of_nat (length s) <= eb_length b ->
  exists b', eb_write b (eb_ptr b + i) s = Some b' /\ holds b' /\ same_buf b b' /\ eb_ptr b' = eb_ptr b /\ eb_length b' = eb_length b /\
    payload b' = splice (payload b) (Z.to_nat i) s.
Proof.
  intros [H1 H2 H3 H4] Hi Hs. unfold eb_size in *. rewrite eb_write_ok by (unfold eb_size; lia). eexists. split; [reflexivity|]. cbn.
  split; [split; cbn; rewrite ?length_splice by lia; unfold eb_size; lia|]. split; [done|]. split; [done|]. split; [done|].
  unfold payload. cbn. apply list_eq. intros k. destruct (decide (k < Z.to_nat (eb_length b))%nat).
  - rewrite lookup_take_lt, lookup_drop, !lookup_splice by (rewrite ?length_take, ?length_drop; lia).
    repeat case_decide; try lia; [f_equal; lia|]. by rewrite lookup_take_lt, lookup_drop by lia.
  - rewrite lookup_take_ge by lia. symmetry. apply lookup_ge_None. rewrite length_splice; rewrite length_take, length_drop; lia.
Qed.

Lemma prepend_ok b h n : holds b -> Z.of_nat (length h) = n -> n <= eb_ptr b ->
  exists b', ebuf_put_bytes (ebuf_seek b (- n)) h = Some b' /\ holds (ebuf_prepend b' n) /\ same_buf b (ebuf_prepend b' n) /\
    eb_ptr (ebuf_prepend b' n) = eb_ptr b - n /\ eb_length (ebuf_prepend b' n) = eb_length b + n /\
    payload (ebuf_prepend b' n) = h ++ payload b.
Proof.
  intros [H1 H2 H3 H4] Hn Hp. rewrite put_ok by (cbn; lia). eexists. split; [reflexivity|]. cbn. unfold eb_size in *.
  assert (Hl : wrap32 (eb_length b + n) = eb_length b + n) by (apply wrap32_small; lia).
  split; [split; cbn; rewrite ?Hl, ?length_splice by lia; unfold eb_size; lia|]. split; [done|]. split; [lia|]. split; [done|].
  unfold payload. cbn. rewrite Hl. apply list_eq. intros k. destruct (decide (k < Z.to_nat (eb_length b + n))%nat).
  - rewrite lookup_take_lt, lookup_drop, lookup_splice by lia. case_decide.
    + rewrite lookup_app_l by lia. f_equal. lia.
    + rewrite lookup_app_r, lookup_take_lt, lookup_drop by lia. f_equal. lia.
  - rewrite lookup_take_ge by lia. symmetry. apply lookup_ge_None. rewrite length_app, length_take, length_drop. lia.
Qed.

(** Taking a header off again. *)
Lemma get_ok b n : holds b -> 0 <= n <= eb_length b ->
  exists b', ebuf_get_bytes b n = Some (take (Z.to_nat n) (payload b), b') /\ b' = ebuf_skip b n.
Proof.
  intros [H1 H2 H3 H4] Hn. unfold ebuf_get_bytes. rewrite eb_read_ok by lia. eexists. split; [|reflexivity]. do 2 f_equal.
  unfold payload. rewrite take_take. f_equal. lia.
Qed.

Lemma skip_ok b n : holds b -> 0 <= n <= eb_length b -> holds (ebuf_skip b n) /\ same_buf b (ebuf_skip b n) /\
  eb_length (ebuf_skip b n) = eb_length b - n /\ payload (ebuf_skip b n) = drop (Z.to_nat n) (payload b).
Proof.
  intros [H1 H2 H3 H4] Hn. unfold eb_size in *. assert (Hl : wrap32 (eb_length b - n) = eb_length b - n) by (apply wrap32_small; lia).
  cbn. rewrite Hl. split; [split; cbn; rewrite ?Hl; unfold eb_size; lia|]. split; [done|]. split; [done|]. unfold payload. cbn. rewrite Hl.
  rewrite skipn_firstn_comm, drop_drop. f_equal; [lia|]. f_equal. lia.
Qed.

(** * Ports *)

Definition dix (e : ether_info) (i : Z) (proto : bytes) : Prop :=
  exists p, port_at e i = Some p /\ ep_ptype p = ETH_PTYPE_DIX /\ take 2 (ep_proto p) = proto /\ length proto = 2%nat.

Lemma eth_send_ok e b dest proto : holds b -> dix e (eb_port b) proto -> length (eth_hwaddr e) = 6%nat -> length dest = 6%nat ->
  ENET_DIX_HEADER <= eb_ptr b ->
  exists b', eth_send e b dest = Some (b', cfe_write e (dest ++ eth_hwaddr e ++ proto ++ payload b)) /\ holds b' /\ same_buf b b'.
Proof.
  intros Hb (p & Hp & Ht & Hpr & Hpl) Hh Hd Hptr. unfold eth_send. rewrite Hp. cbn [option_bind]. rewrite Ht, Z.eqb_refl, Hpr.
  unfold ENET_DIX_HEADER in *.
  assert (Hl : Z.of_nat (length (dest ++ eth_hwaddr e ++ proto)) = 14) by (rewrite !length_app; lia).
  destruct (prepend_ok b (dest ++ eth_hwaddr e ++ proto) 14 Hb Hl Hptr) as (b' & Hput & Hh' & Hsame & Hp' & Hl' & Hpay).
  destruct Hb as [H1 H2 H3 H4]. rewrite app_assoc in Hput.
  do 2 rewrite put_bind by (cbn; rewrite ?length_app; lia). rewrite Hput. rewrite read_payload by done. eexists. split; [|split; [exact Hh'|exact Hsame]].
  do 2 f_equal. rewrite Hpay. by rewrite <- !app_assoc.
Qed.

Lemma eth_alloc_ok e i proto b l : dix e i proto -> eth_freelist e = b :: l -> length (eb_data b) = eb_size ->
  exists b', eth_alloc e i = Some (Some b', set_freelist e l) /\ holds b' /\ eb_addr b' = eb_addr b /\ eb_port b' = i /\
    eb_ptr b' = ENET_DIX_HEADER /\ eb_length b' = 0 /\ payload b' = [].
Proof.
  intros (p & Hp & Ht & _) Hl Hb. unfold eth_alloc. rewrite Hl. cbn [option_bind]. rewrite Hp. cbn [option_bind]. rewrite Ht, Z.eqb_refl.
  eexists. split; [reflexivity|]. split; [split; [exact Hb|by vm_compute..]|done].
Qed.

(** * The free list *)

Definition sized (b : ebuf) : Prop := length (eb_data b) = eb_size.

Record eth_ok (e : ether_info) : Prop := {
  eo_hw : length (eth_hwaddr e) = 6%nat;
  eo_free : Forall sized (eth_freelist e)
}.

Definition same_eth (e e' : ether_info) : Prop := eth_ports e' = eth_ports e /\ eth_hwaddr e' = eth_hwaddr e.
Definition free_addrs (e : ether_info) : list Z := map eb_addr (eth_freelist e).

#[export] Instance same_eth_preorder : PreOrder same_eth.
Proof. split; [done|]. intros e1 e2 e3 [? ?] [? ?]. split; congruence. Qed.

Lemma same_eth_dix e e' i p : same_eth e e' -> dix e i p -> dix e' i p.
Proof. intros [Hp _]. unfold dix, port_at. by rewrite Hp. Qed.

Lemma eth_free_ok e b : eth_ok e -> sized b -> eth_ok (eth_free e b).
Proof. intros [H1 H2] Hb. split; [done|]. cbn. apply Forall_app. by split; [|constructor]. Qed.

Lemma eth_free_addrs e b : free_addrs (eth_free e b) = free_addrs e ++ [eb_addr b].
Proof. unfold free_addrs. cbn. by rewrite map_app. Qed.

(** Sending and freeing, as every caller does. *)
Lemma send_free_ok e b dest proto : eth_ok e -> holds b -> dix e (eb_port b) proto -> length dest = 6%nat -> ENET_DIX_HEADER <= eb_ptr b ->
  exists b', eth_send e b dest = Some (b', cfe_write e (dest ++ eth_hwaddr e ++ proto ++ payload b)) /\
    let e' := eth_free (cfe_write e (dest ++ eth_hwaddr e ++ proto ++ payload b)) b' in
    eth_ok e' /\ same_eth e e' /\ free_addrs e' = free_addrs e ++ [eb_addr b] /\
    eth_wire e' = eth_wire e ++ [dest ++ eth_hwaddr e ++ proto ++ payload b].
Proof.
  intros He Hb Hd Hl Hp. destruct (eth_send_ok e b dest proto Hb Hd (eo_hw e He) Hl Hp) as (b' & Hs & Hb' & Ha & _).
  exists b'. split; [exact Hs|]. split; [apply eth_free_ok; [by destruct He|apply Hb']|]. split; [done|]. split; [|done].
  rewrite eth_free_addrs. by rewrite Ha.
Qed.

Lemma free_all_ok e q : eth_ok e -> Forall sized q -> let e' := fold_left eth_free q e in
  eth_ok e' /\ same_eth e e' /\ free_addrs e' = free_addrs e ++ map eb_addr q /\ eth_wire e' = eth_wire e.
Proof.
  revert e. induction q as [|b q IH]; intros e He Hq; cbn; [by rewrite app_nil_r|]. apply Forall_cons in Hq as [Hb Hq].
  destruct (IH (eth_free e b) (eth_free_ok e b He Hb) Hq) as (H1 & [H2 H2'] & H3 & H4). split; [done|]. split; [done|].
  split; [|done]. rewrite H3, eth_free_addrs, <- app_assoc. done.
Qed.

(** * Receiving *)

(** A frame written into a buffer of the free list. *)
Lemma rx_frame_holds b frame : sized b -> (length frame <= 1514)%nat ->
  exists b', eb_write (ebuf_init_rx b) (eb_ptr (ebuf_init_rx b)) (take (Z.to_nat ENET_MAX_PKT) frame) = Some b' /\
    let b'' := ebuf_setlength b' (Z.min (Z.of_nat (length frame)) ENET_MAX_PKT) in
    holds b'' /\ eb_addr b'' = eb_addr b /\ payload b'' = frame.
Proof.
  intros Hs Hl. unfold sized, ENET_MAX_PKT in *. rewrite take_ge by lia. rewrite eb_write_ok by (cbn [ebuf_init_rx eb_data eb_ptr]; unfold eb_size in *; done || lia).
  eexists. split; [reflexivity|]. cbn zeta. unfold ebuf_setlength, ebuf_set, ebuf_store, ebuf_init_rx. cbn [eb_data eb_ptr eb_length eb_addr eb_status eb_port]. rewrite Z.min_l by lia.
  rewrite !wrap32_small by lia.
  change (Z.to_nat 0) with 0%nat. unfold splice. cbn [take app]. assert (Hd : length (frame ++ drop (0 + length frame) (eb_data b)) = eb_size).
  { rewrite length_app, length_drop, Hs. unfold eb_size. lia. }
  split; [split; cbn [eb_data eb_ptr eb_length]; unfold eb_size in *; done || lia|]. split; [done|].
  unfold payload. cbn [eb_data eb_ptr eb_length]. rewrite Nat2Z.id. change (Z.to_nat 0) with 0%nat. rewrite drop_0. exact (take_app_length frame _).
Qed.

(** A frame of a protocol some port takes is handed to this port's callback, without its header. *)
Lemma eth_poll_frame {W} (eth : W -> ether_info) (set_eth : W -> ether_info -> W) rxcallback w b0 l dst src proto body n p :
  (forall w e, eth (set_eth w e) = e) -> eth_freelist (eth w) = b0 :: l -> sized b0 ->
  length dst = 6%nat -> length src = 6%nat -> length proto = 2%nat -> Z.land (deref src) 1 = 0 ->
  (60 <= 14 + length body <= 1514)%nat -> findport_loop 0 (eth_ports (eth w)) proto = Some (n, p) ->
  exists b, holds b /\ eb_addr b = eb_addr b0 /\ payload b = body /\ eb_port b = Z.of_nat n /\
    eth_poll eth set_eth rxcallback w (RxFrame (dst ++ src ++ proto ++ body)) =
    let? (r, w) := rxcallback (ep_rxcallback p) (ep_ref p) (set_eth w (set_freelist (eth w) l)) b in
    match r with Dropped b => Some (set_eth w (eth_free (eth w) b)) | Kept => Some w end.
Proof.
  intros Hset El Hs Ld Ls Lp Hmc Hlen Hfp. set (frame := dst ++ src ++ proto ++ body).
  assert (Hfl : length frame = (14 + length body)%nat) by (unfold frame; rewrite !length_app; lia).
  destruct (rx_frame_holds b0 frame Hs) as (b1 & Hw & Hb & Ha & Hpay); [lia|]. unfold eth_poll. rewrite El, Hw. cbn [option_bind].
  set (b2 := ebuf_setlength _ _) in *. pose proof (payload_length b2 Hb) as Hpl. rewrite Hpay, Hfl in Hpl. rewrite Hset. unfold eth_findport.
  assert (Hrd : forall i k, (i + k <= 14)%nat -> eb_read b2 (eb_ptr b2 + Z.of_nat i) (Z.of_nat k) = Some (take k (drop i frame))).
  { intros i k Hik. destruct Hb as [B1 B2 B3 B4]. rewrite eb_read_ok by lia. f_equal. rewrite <- Hpay. unfold payload.
    apply list_eq. intros m. destruct (decide (m < k)%nat); [|by rewrite !lookup_take_ge by lia].
    rewrite !lookup_take_lt, !lookup_drop, lookup_take_lt, lookup_drop by lia. f_equal. lia. }
  pose proof (Hrd 6%nat 1%nat ltac:(lia)) as H6. pose proof (Hrd 12%nat 2%nat ltac:(lia)) as H12. change (Z.of_nat 6) with 6 in H6. change (Z.of_nat 1) with 1 in H6.
  change (Z.of_nat 12) with 12 in H12. change (Z.of_nat 2) with 2 in H12. rewrite H6, H12. cbn [option_bind].
  assert (D6 : drop 6 frame = src ++ proto ++ body) by (unfold frame; by rewrite drop_app_length').
  assert (D12 : drop 12 frame = proto ++ body) by (change 12%nat with (6 + 6)%nat; rewrite <- drop_drop, D6; by rewrite drop_app_length').
  rewrite D6, D12. replace (deref (take 1 (src ++ proto ++ body))) with (deref src) by (by destruct src). rewrite Hmc. change (truthy 0) with false. cbv iota.
  rewrite (proj2 (Z.ltb_ge _ _)) by lia. rewrite take_app_length' by done.
  change (eth_ports (set_freelist (eth w) l)) with (eth_ports (eth w)). rewrite Hfp. cbn [option_bind].
  destruct (skip_ok b2 14 Hb) as (Hh & [Hx _] & _ & Hy); [lia|]. eexists. split; [|split; [|split; [|split; [|reflexivity]]]].
  - destruct Hh as [G1 G2 G3 G4]. split; done.
  - cbn [eb_addr]. unfold ENET_DIX_HEADER. congruence.
  - unfold payload in *. cbn [eb_data eb_ptr eb_length]. unfold ENET_DIX_HEADER. rewrite Hy, Hpay. change (Z.to_nat 14) with (12 + 2)%nat.
    rewrite <- drop_drop, D12. by rewrite drop_app_length'.
  - done.
Qed.
