(* ===== verification/Ip.v ===== *)
(** The boot loader's ARP and IP layers: cfe/cfe/net/net_arp.c and net_ip.c, on [Ether].

    The ARP table resolves addresses and keeps the packets that wait for an answer; IP puts
    its header before a packet of the protocol above and takes it off again.  The protocols
    above are callbacks on the whole stack.  Packet buffers move between the free list of
    [Ether], the queues of the ARP table and the protocols above: none is lost and none is
    freed twice. *)

From S2P Require Import Prelude Ether.
From Stdlib Require Import ZArith Lia Bool List.
From stdpp Require Import base numbers list.

#[local] Open Scope Z_scope.

Definition IP_ADDR_LEN := 4.

Definition ARP_OPCODE_REQUEST := 1.
Definition ARP_OPCODE_REPLY := 2.
Definition ARP_HWADDRSPACE_ETHERNET := 1.
Definition PROTOSPACE_IP := 0x0800.
Definition PROTOSPACE_ARP := 0x0806.
Definition ARP_KEEP_TIMER := 60.
Definition ARP_QUERY_TIMER := 1.
Definition ARP_QUERY_RETRIES := 4.
Definition ARP_TXWAIT_MAX := 2.
Definition ARP_TABLE_SIZE : nat := 8.

Definition IPHDR_VER_4 := 0x40.
Definition IPHDR_LEN_20 := 0x05.
Definition IPHDR_LENGTH := 20.
Definition IPHDR_TOS_DEFAULT := 0x00.
Definition IPHDR_TTL_DEFAULT := 100.
Definition IPHDR_MOREFRAGMENTS := 0x2000.
Definition IPHDR_FRAGOFFSET := 0x1FFF.
Definition IP_MAX_PROTOCOLS : nat := 4.

(** * State *)

Inductive arpstate := ae_unused | ae_arping | ae_established.

#[export] Instance arpstate_eq_dec : EqDecision arpstate.
Proof. solve_decision. Defined.

Record arpentry := Ae {
  ae_state : arpstate;
  ae_usage : Z;
  ae_timer : Z;
  ae_retries : Z;
  ae_permanent : bool;
  ae_ipaddr : bytes;
  ae_ethaddr : bytes;
  ae_txqueue : list ebuf
}.

Record net_info := NetInfo {
  ip_addr : bytes;
  ip_netmask : bytes;
  ip_gateway : bytes;
  ip_nameserver : bytes;
  ip_domain : option bytes;
  ip_hostname : option bytes
}.

Record ip_protodisp := Pdisp { pd_protocol : Z; pd_cb : Z; pd_ref : Z }.

(** [arp_table] is [None] for a null pointer. *)
Record ip_info := IpInfo {
  net_inf : net_info;
  eth_info : ether_info;
  ip_id : Z;
  ip_port : Z;
  ip_protocols : list ip_protodisp;
  arp_table : option (list arpentry);
  arp_port : Z;
  arp_hwaddr : bytes
}.

Definition set_eth (i : ip_info) (e : ether_info) : ip_info :=
  IpInfo (net_inf i) e (ip_id i) (ip_port i) (ip_protocols i) (arp_table i) (arp_port i) (arp_hwaddr i).
Definition set_net (i : ip_info) (n : net_info) : ip_info :=
  IpInfo n (eth_info i) (ip_id i) (ip_port i) (ip_protocols i) (arp_table i) (arp_port i) (arp_hwaddr i).
Definition set_table (i : ip_info) (t : list arpentry) : ip_info :=
  IpInfo (net_inf i) (eth_info i) (ip_id i) (ip_port i) (ip_protocols i) (Some t) (arp_port i) (arp_hwaddr i).
Definition set_protocols (i : ip_info) (p : list ip_protodisp) : ip_info :=
  IpInfo (net_inf i) (eth_info i) (ip_id i) (ip_port i) p (arp_table i) (arp_port i) (arp_hwaddr i).
Definition set_id (i : ip_info) (n : Z) : ip_info :=
  IpInfo (net_inf i) (eth_info i) n (ip_port i) (ip_protocols i) (arp_table i) (arp_port i) (arp_hwaddr i).

(** A change of one entry of the ARP table. *)
Definition entry_at (i : ip_info) (n : nat) : option arpentry := let? t := arp_table i in t !! n.
Definition put_entry (i : ip_info) (n : nat) (ae : arpentry) : option ip_info :=
  let? t := arp_table i in Some (set_table i (<[n := ae]> t)).

Definition with_timer (ae : arpentry) (n : Z) : arpentry :=
  Ae (ae_state ae) (ae_usage ae) n (ae_retries ae) (ae_permanent ae) (ae_ipaddr ae) (ae_ethaddr ae) (ae_txqueue ae).
Definition with_queue (ae : arpentry) (q : list ebuf) : arpentry :=
  Ae (ae_state ae) (ae_usage ae) (ae_timer ae) (ae_retries ae) (ae_permanent ae) (ae_ipaddr ae) (ae_ethaddr ae) q.

(** * Addresses *)

Definition ip_addriszero (a : bytes) : bool := forallb (Z.eqb 0) a.
Definition ip_addrisbcast (a : bytes) : bool := forallb (Z.eqb 0xFF) a.
Definition ip_mask (a m : bytes) : bytes := zip_with Z.land a m.
Definition ip_compareaddr (a b : bytes) : bool := bytes_eqb a b.

(** * ARP *)

(** [None] of the buffer is that there was none. *)
Definition arp_tx_query (i : ip_info) (destaddr : bytes) : option ip_info :=
  let? (b, e) := eth_alloc (eth_info i) (arp_port i) in
  match b with
  | None => Some i
  | Some b =>
      let? b := ebuf_append_u16_be b ARP_HWADDRSPACE_ETHERNET in
      let? b := ebuf_append_u16_be b PROTOSPACE_IP in
      let? b := ebuf_append_u8 b ENET_ADDR_LEN in
      let? b := ebuf_append_u8 b IP_ADDR_LEN in
      let? b := ebuf_append_u16_be b ARP_OPCODE_REQUEST in
      let? b := ebuf_append_bytes b (arp_hwaddr i) in
      let? b := ebuf_append_bytes b (ip_addr (net_inf i)) in
      let? b := ebuf_append_bytes b (replicate 6 0) in
      let? b := ebuf_append_bytes b destaddr in
      let? (b, e) := eth_send e b eth_broadcast in
      Some (set_eth i (eth_free e b))
  end.

(** The entry afterwards, and its buffers freed. *)
Definition arp_delete (e : ether_info) (ae : arpentry) : arpentry * ether_info :=
  (Ae ae_unused 0 0 0 (ae_permanent ae) (ae_ipaddr ae) (ae_ethaddr ae) [], fold_left eth_free (ae_txqueue ae) e).

Fixpoint send_all (e : ether_info) (q : list ebuf) (dest : bytes) : option ether_info :=
  match q with
  | [] => Some e
  | b :: q => let? (b, e) := eth_send e b dest in send_all (eth_free e b) q dest
  end.

Definition arp_tx_waiting (e : ether_info) (ae : arpentry) : option (arpentry * ether_info) :=
  let? e := send_all e (ae_txqueue ae) (ae_ethaddr ae) in Some (with_queue ae [], e).

(** The entry of an address; looking at it resets its timer. *)
Fixpoint find_loop (n : nat) (t : list arpentry) (addr : bytes) : option nat :=
  match t with
  | [] => None
  | ae :: t =>
      if negb (bool_decide (ae_state ae = ae_unused)) && bytes_eqb (ae_ipaddr ae) addr then Some n
      else find_loop (S n) t addr
  end.

Definition arp_find_entry (i : ip_info) (addr : bytes) : option (option nat * ip_info) :=
  let? t := arp_table i in
  match find_loop 0 t addr with
  | None => Some (None, i)
  | Some n =>
      let? ae := t !! n in
      if bool_decide (ae_state ae = ae_established)
      then Some (Some n, set_table i (<[n := with_timer ae ARP_KEEP_TIMER]> t))
      else Some (Some n, i)
  end.

Fixpoint first_unused (n : nat) (t : list arpentry) : option nat :=
  match t with
  | [] => None
  | ae :: t => if bool_decide (ae_state ae = ae_unused) then Some n else first_unused (S n) t
  end.

Fixpoint least_used (n : nat) (t : list arpentry) (victim : nat) (minusage : Z) : nat :=
  match t with
  | [] => victim
  | ae :: t => if ae_usage ae <? minusage then least_used (S n) t n (ae_usage ae) else least_used (S n) t victim minusage
  end.

Definition arp_new_entry (i : ip_info) : option (nat * ip_info) :=
  let? t := arp_table i in
  match first_unused 0 t with
  | Some n => Some (n, i)
  | None =>
      let n := least_used 0 t 0 0x7FFFFFFF in
      let? ae := t !! n in
      let '(ae, e) := arp_delete (eth_info i) ae in
      Some (n, set_table (set_eth i e) (<[n := ae]> t))
  end.

Definition _arp_add (i : ip_info) (destip desthw : bytes) : option ip_info :=
  let? (n, i) := arp_find_entry i (take 4 desthw) in
  let? (n, i) := match n with Some n => Some (n, i) | None => arp_new_entry i end in
  let? ae := entry_at i n in
  let ae := Ae ae_established (ae_usage ae) 0 0 true destip desthw (ae_txqueue ae) in
  let? (ae, e) := arp_tx_waiting (eth_info i) ae in
  put_entry (set_eth i e) n ae.

Definition _arp_lookup (i : ip_info) (destip : bytes) : option (option bytes * ip_info) :=
  let? (n, i) := arp_find_entry i destip in
  match n with
  | None => Some (None, i)
  | Some n => let? ae := entry_at i n in Some (Some (ae_ethaddr ae), i)
  end.

Definition _arp_lookup_and_send (i : ip_info) (b : ebuf) (dest : bytes) : option ip_info :=
  let? (n, i) := arp_find_entry i dest in
  match n with
  | None =>
      let? (n, i) := arp_new_entry i in
      let? ae := entry_at i n in
      let ae := Ae ae_arping (ae_usage ae) ARP_QUERY_TIMER ARP_QUERY_RETRIES (ae_permanent ae) dest (ae_ethaddr ae)
                  (ae_txqueue ae ++ [b]) in
      let? i := put_entry i n ae in
      arp_tx_query i (ae_ipaddr ae)
  | Some n =>
      let? ae := entry_at i n in
      if bool_decide (ae_state ae = ae_established) then
        let ae := Ae (ae_state ae) (sint32 (ae_usage ae + 1)) (if ae_permanent ae then ae_timer ae else ARP_KEEP_TIMER) (ae_retries ae)
                    (ae_permanent ae) (ae_ipaddr ae) (ae_ethaddr ae) (ae_txqueue ae) in
        let? i := put_entry i n ae in
        let? (b, e) := eth_send (eth_info i) b (ae_ethaddr ae) in
        Some (set_eth i (eth_free e b))
      else if Z.of_nat (length (ae_txqueue ae)) <? ARP_TXWAIT_MAX then put_entry i n (with_queue ae (ae_txqueue ae ++ [b]))
      else Some (set_eth i (eth_free (eth_info i) b))
  end.

Definition arp_rx_query (i : ip_info) (srcaddr targethw targetip : bytes) : option ip_info :=
  let? (b, e) := eth_alloc (eth_info i) (arp_port i) in
  match b with
  | None => Some i
  | Some b =>
      let? b := ebuf_append_u16_be b ARP_HWADDRSPACE_ETHERNET in
      let? b := ebuf_append_u16_be b PROTOSPACE_IP in
      let? b := ebuf_append_u8 b ENET_ADDR_LEN in
      let? b := ebuf_append_u8 b IP_ADDR_LEN in
      let? b := ebuf_append_u16_be b ARP_OPCODE_REPLY in
      let? b := ebuf_append_bytes b (arp_hwaddr i) in
      let? b := ebuf_append_bytes b (ip_addr (net_inf i)) in
      let? b := ebuf_append_bytes b targethw in
      let? b := ebuf_append_bytes b targetip in
      let? (b, e) := eth_send e b srcaddr in
      Some (set_eth i (eth_free e b))
  end.

Definition respond (senderhw senderip : bytes) (e : ether_info) (ae : arpentry) : option (arpentry * ether_info) :=
  if negb (bool_decide (ae_state ae = ae_unused)) && bytes_eqb (ae_ipaddr ae) senderip then
    arp_tx_waiting e (Ae ae_established (ae_usage ae) ARP_KEEP_TIMER 0 false (ae_ipaddr ae) senderhw (ae_txqueue ae))
  else Some (ae, e).

(** A pass over the table by a function on entries. *)
Fixpoint table_pass (f : ether_info -> arpentry -> option (arpentry * ether_info)) (e : ether_info) (t : list arpentry) :
    option (list arpentry * ether_info) :=
  match t with
  | [] => Some ([], e)
  | ae :: t =>
      let? (ae, e) := f e ae in
      let? (t, e) := table_pass f e t in
      Some (ae :: t, e)
  end.

Definition arp_rx_response (i : ip_info) (senderhw senderip : bytes) : option ip_info :=
  let? t := arp_table i in
  let? (t, e) := table_pass (respond senderhw senderip) (eth_info i) t in
  Some (set_table (set_eth i e) t).

Definition arp_rx_callback (i : ip_info) (b : ebuf) : option (rx_result * ip_info) :=
  if eb_length b <? 28 then Some (Dropped b, i)
  else
    let? (t16, b) := ebuf_get_u16_be b in
    if negb (t16 =? ARP_HWADDRSPACE_ETHERNET) then Some (Dropped b, i)
    else
      let? (t16, b) := ebuf_get_u16_be b in
      if negb (t16 =? PROTOSPACE_IP) then Some (Dropped b, i)
      else
        let? (t8, b) := ebuf_get_u8 b in
        if negb (t8 =? ENET_ADDR_LEN) then Some (Dropped b, i)
        else
          let? (t8, b) := ebuf_get_u8 b in
          if negb (t8 =? IP_ADDR_LEN) then Some (Dropped b, i)
          else
            let? (opcode, b) := ebuf_get_u16_be b in
            let? (senderhw, b) := ebuf_get_bytes b ENET_ADDR_LEN in
            let? (senderip, b) := ebuf_get_bytes b IP_ADDR_LEN in
            let? (targethw, b) := ebuf_get_bytes b ENET_ADDR_LEN in
            let? (targetip, b) := ebuf_get_bytes b IP_ADDR_LEN in
            if negb (bytes_eqb targetip (ip_addr (net_inf i))) then Some (Dropped b, i)
            else
              let? i :=
                if opcode =? ARP_OPCODE_REQUEST then
                  let? srcaddr := eb_read b 6 6 in arp_rx_query i srcaddr senderhw senderip
                else if opcode =? ARP_OPCODE_REPLY then arp_rx_response i senderhw senderip
                else Some i in
              Some (Dropped b, i).

(** One entry when the timer ticks; the query uses the whole of [i]. *)
Definition arp_tick (i : ip_info) (n : nat) : option ip_info :=
  let? ae := entry_at i n in
  match ae_state ae with
  | ae_unused => Some i
  | ae_arping =>
      let ae := with_timer ae (ae_timer ae - 1) in
      if ae_timer ae <=? 0 then
        if ae_retries ae =? 0 then let '(ae, e) := arp_delete (eth_info i) ae in put_entry (set_eth i e) n ae
        else
          let ae := Ae (ae_state ae) (ae_usage ae) ARP_QUERY_TIMER (ae_retries ae - 1) (ae_permanent ae) (ae_ipaddr ae)
                      (ae_ethaddr ae) (ae_txqueue ae) in
          let? i := put_entry i n ae in arp_tx_query i (ae_ipaddr ae)
      else put_entry i n ae
  | ae_established =>
      if ae_timer ae =? 0 then Some i
      else
        let ae := with_timer ae (ae_timer ae - 1) in
        if ae_timer ae =? 0 then let '(ae, e) := arp_delete (eth_info i) ae in put_entry (set_eth i e) n ae
        else put_entry i n ae
  end.

Fixpoint arp_ticks (i : ip_info) (ns : list nat) : option ip_info :=
  match ns with [] => Some i | n :: ns => let? i := arp_tick i n in arp_ticks i ns end.

Definition _arp_timer_tick (i : ip_info) : option ip_info := arp_ticks i (seq 0 ARP_TABLE_SIZE).

Definition _arp_send_gratuitous (i : ip_info) : option ip_info :=
  if ip_addriszero (ip_addr (net_inf i)) then Some i else arp_tx_query i (ip_addr (net_inf i)).

(** [table] is what KMALLOC gave, [None] for a null pointer.  A failure to get the table
    is not reported: it returns NULL, which is 0. *)
Definition arp_cb := 1.
Definition ip_cb := 2.

Definition _arp_init (i : ip_info) (table : option (list arpentry)) : option (Z * ip_info) :=
  match table with
  | None => Some (0, IpInfo (net_inf i) (eth_info i) (ip_id i) (ip_port i) (ip_protocols i) None (arp_port i) (arp_hwaddr i))
  | Some t =>
      let clear ae := Ae ae_unused 0 0 0 false (ae_ipaddr ae) (ae_ethaddr ae) [] in
      let '(port, e) := eth_open (eth_info i) ETH_PTYPE_DIX (Z.land (Z.shiftr PROTOSPACE_ARP 8) 0xFF, Z.land PROTOSPACE_ARP 0xFF) arp_cb 0 in
      if port <? 0 then Some (-1, IpInfo (net_inf i) e (ip_id i) (ip_port i) (ip_protocols i) None port (arp_hwaddr i))
      else
        let i := IpInfo (net_inf i) e (ip_id i) (ip_port i) (ip_protocols i) (Some (map clear t)) port (eth_gethwaddr e) in
        let? i := _arp_send_gratuitous i in Some (0, i)
  end.

Definition close_entry (e : ether_info) (ae : arpentry) : option (arpentry * ether_info) :=
  Some (if bool_decide (ae_state ae = ae_unused) then (ae, e) else arp_delete e ae).

Definition _arp_uninit (i : ip_info) : option ip_info :=
  let? e := eth_close (eth_info i) (arp_port i) in
  let? t := arp_table i in
  let? (_, e) := table_pass close_entry e t in
  Some (IpInfo (net_inf i) e (ip_id i) (ip_port i) (ip_protocols i) None (-1) (arp_hwaddr i)).

Fixpoint enum_loop (t : list arpentry) (n : Z) : option (bytes * bytes) :=
  match t with
  | [] => None
  | ae :: t =>
      if bool_decide (ae_state ae = ae_unused) then enum_loop t n
      else if n =? 0 then Some (ae_ipaddr ae, ae_ethaddr ae)
      else enum_loop t (n - 1)
  end.

Definition _arp_enumerate (i : ip_info) (entrynum : Z) : option (Z * option (bytes * bytes)) :=
  let? t := arp_table i in
  match enum_loop t entrynum with Some r => Some (0, Some r) | None => Some (-1, None) end.

Definition _arp_delete (i : ip_info) (addr : bytes) : option (Z * ip_info) :=
  let? (n, i) := arp_find_entry i addr in
  match n with
  | None => Some (-1, i)
  | Some n =>
      let? ae := entry_at i n in
      let '(ae, e) := arp_delete (eth_info i) ae in
      let? i := put_entry (set_eth i e) n ae in Some (0, i)
  end.

(** * IP *)

(** The sum of the 16-bit words, a last odd byte being the high one. *)
Fixpoint sum_words (s : bytes) (cksum : Z) : Z :=
  match s with
  | a :: b :: s => sum_words s (wrap32 (cksum + (Z.shiftl a 8 + b)))
  | [a] => wrap32 (cksum + Z.shiftl a 8)
  | [] => cksum
  end.

Fixpoint fold_carries (fuel : nat) (cksum : Z) : option Z :=
  match fuel with
  | O => None
  | S fuel =>
      if truthy (Z.shiftr cksum 16) then fold_carries fuel (wrap32 (Z.land cksum 0xFFFF + Z.shiftr cksum 16))
      else Some cksum
  end.

Definition ip_chksum (initcksum : Z) (s : bytes) : option Z := fold_carries 4 (sum_words s initcksum).

(** On [len] bytes of a buffer from offset [i]; of a negative length only an odd last byte
    counts, which is read from the start. *)
Definition chksum_at (initcksum : Z) (b : ebuf) (i len : Z) : option Z :=
  let? s := eb_read b i (if len <? 0 then Z.land len 1 else len) in ip_chksum initcksum s.

Definition not16 (c : Z) : Z := wrap16 (Z.lnot c).

Definition _ip_alloc (i : ip_info) : option (option ebuf * ip_info) :=
  let? (b, e) := eth_alloc (eth_info i) (ip_port i) in
  match b with
  | None => Some (None, set_eth i e)
  | Some b => Some (Some (ebuf_setlength (ebuf_seek b IPHDR_LENGTH) 0), set_eth i e)
  end.

Definition _ip_free (i : ip_info) (b : ebuf) : ip_info := set_eth i (eth_free (eth_info i) b).

Definition _ip_send (i : ip_info) (b : ebuf) (destaddr : bytes) (proto : Z) : option ip_info :=
  let b := ebuf_seek b (- IPHDR_LENGTH) in
  let pktlen := sint32 (eb_length b + IPHDR_LENGTH) in
  let i := set_id i (wrap16 (ip_id i + 1)) in
  let? b := ebuf_put_u8 b (Z.lor IPHDR_VER_4 IPHDR_LEN_20) in
  let? b := ebuf_put_u8 b IPHDR_TOS_DEFAULT in
  let? b := ebuf_put_u16_be b pktlen in
  let? b := ebuf_put_u16_be b (ip_id i) in
  let? b := ebuf_put_u16_be b 0 in
  let? b := ebuf_put_u8 b IPHDR_TTL_DEFAULT in
  let? b := ebuf_put_u8 b proto in
  let? b := ebuf_put_u16_be b 0 in
  let? b := ebuf_put_bytes b (ip_addr (net_inf i)) in
  let? b := ebuf_put_bytes b destaddr in
  let b := ebuf_prepend b IPHDR_LENGTH in
  let? cksum := chksum_at 0 b (eb_ptr b) IPHDR_LENGTH in
  let cksum := not16 cksum in
  let? b := eb_write b (eb_ptr b + 10) [Z.land (Z.shiftr cksum 8) 0xFF; Z.land cksum 0xFF] in
  if ip_addrisbcast destaddr then
    let? (b, e) := eth_send (eth_info i) b eth_broadcast in Some (set_eth i (eth_free e b))
  else if ip_addriszero (ip_netmask (net_inf i)) then _arp_lookup_and_send i b destaddr
  else
    let masksrc := ip_mask destaddr (ip_netmask (net_inf i)) in
    let maskdest := ip_mask (ip_addr (net_inf i)) (ip_netmask (net_inf i)) in
    if ip_compareaddr masksrc maskdest then _arp_lookup_and_send i b destaddr
    else if ip_addriszero (ip_gateway (net_inf i)) then Some (set_eth i (eth_free (eth_info i) b))
    else _arp_lookup_and_send i b (ip_gateway (net_inf i)).

Fixpoint find_protocol (ps : list ip_protodisp) (proto : Z) : option ip_protodisp :=
  match ps with
  | [] => None
  | p :: ps => if truthy (pd_cb p) && (pd_protocol p =? proto) then Some p else find_protocol ps proto
  end.

(** A packet that is passed up, or that is to be dropped. *)
Inductive ip_packet := IpDrop (b : ebuf) | IpData (proto : Z) (dstip srcip : bytes) (b : ebuf).

Definition ip_parse (i : ip_info) (b : ebuf) : option ip_packet :=
  let hdr := eb_ptr b in
  let? (tmp, b) := ebuf_get_u8 b in
  if negb (Z.land tmp 0xF0 =? IPHDR_VER_4) then Some (IpDrop b)
  else
    let hdrlen := Z.land tmp 0x0F * 4 in
    if hdrlen <? IPHDR_LENGTH then Some (IpDrop b)
    else
      let? orig := eb_read b (hdr + 10) 2 in
      let origchksum := of_be orig in
      let? b := eb_write b (hdr + 10) [0; 0] in
      let? calc := chksum_at 0 b hdr hdrlen in
      if negb (not16 calc =? origchksum) then Some (IpDrop b)
      else
        let b := ebuf_skip b 1 in
        let? (length, b) := ebuf_get_u16_be b in
        let b := ebuf_skip b 2 in
        let? (tmp16, b) := ebuf_get_u16_be b in
        if truthy (Z.land tmp16 (Z.lor IPHDR_FRAGOFFSET IPHDR_MOREFRAGMENTS)) then Some (IpDrop b)
        else
          let b := ebuf_skip b 1 in
          let? (proto, b) := ebuf_get_u8 b in
          let b := ebuf_skip b 2 in
          let? (srcip, b) := ebuf_get_bytes b IP_ADDR_LEN in
          let? (dstip, b) := ebuf_get_bytes b IP_ADDR_LEN in
          let b := ebuf_skip b (hdrlen - IPHDR_LENGTH) in
          let b := ebuf_setlength b (length - hdrlen) in
          if negb (ip_addriszero (ip_addr (net_inf i))) && negb (ip_compareaddr dstip (ip_addr (net_inf i))) &&
             negb (ip_addrisbcast dstip) then Some (IpDrop b)
          else Some (IpData proto dstip srcip b).

(** The protocols above are callbacks on the whole stack. *)
Section dispatch.
Context {W : Type} (ip : W -> ip_info) (set_ip : W -> ip_info -> W).
Context (protocol : Z -> Z -> W -> ebuf -> bytes -> bytes -> option (rx_result * W)).

Definition ip_rx_callback (w : W) (b : ebuf) : option (rx_result * W) :=
  let? p := ip_parse (ip w) b in
  match p with
  | IpDrop b => Some (Dropped b, w)
  | IpData proto dstip srcip b =>
      match find_protocol (ip_protocols (ip w)) proto with
      | Some pd => protocol (pd_cb pd) (pd_ref pd) w b dstip srcip
      | None => Some (Dropped b, w)
      end
  end.

(** The callbacks of the two ports. *)
Definition net_rx (cb ref : Z) (w : W) (b : ebuf) : option (rx_result * W) :=
  if cb =? arp_cb then let? (r, i) := arp_rx_callback (ip w) b in Some (r, set_ip w i)
  else if cb =? ip_cb then ip_rx_callback w b
  else None.

Definition net_poll (w : W) (input : rx_input) : option W :=
  eth_poll (fun w => eth_info (ip w)) (fun w e => set_ip w (set_eth (ip w) e)) net_rx w input.
End dispatch.

(** [got] is whether KMALLOC gave the structure, [table] what it gave for the ARP table. *)
Definition _ip_init (e : ether_info) (got : bool) (table : option (list arpentry)) : option (option ip_info * ether_info) :=
  if negb got then Some (None, e)
  else
    let zero := replicate 4 0 in
    let i := IpInfo (NetInfo zero zero zero zero None None) e 0 0 (replicate IP_MAX_PROTOCOLS (Pdisp 0 0 0)) None 0 (replicate 6 0) in
    let? (res, i) := _arp_init i table in
    if res <? 0 then Some (None, eth_info i)
    else
      let '(port, e) := eth_open (eth_info i) ETH_PTYPE_DIX (Z.land (Z.shiftr PROTOSPACE_IP 8) 0xFF, Z.land PROTOSPACE_IP 0xFF) ip_cb 0 in
      let i := IpInfo (net_inf i) e (ip_id i) port (ip_protocols i) (arp_table i) (arp_port i) (arp_hwaddr i) in
      if port <? 0 then let? i := _arp_uninit i in Some (None, eth_info i)
      else Some (Some i, e).

Definition _ip_uninit (i : ip_info) : option ether_info :=
  let? e := eth_close (eth_info i) (ip_port i) in
  let? i := _arp_uninit (set_eth i e) in
  Some (eth_info i).

Definition _ip_timer_tick (i : ip_info) : option ip_info := _arp_timer_tick i.

Definition _ip_getaddr (i : ip_info) : bytes := ip_addr (net_inf i).

Inductive ip_param :=
  | NET_IPADDR | NET_NETMASK | NET_GATEWAY | NET_NAMESERVER | NET_HWADDR | NET_DOMAIN | NET_HOSTNAME | NET_SPEED | NET_LOOPBACK.

Definition _ip_getparam (i : ip_info) (param : ip_param) : option bytes :=
  match param with
  | NET_IPADDR => Some (ip_addr (net_inf i))
  | NET_NETMASK => Some (ip_netmask (net_inf i))
  | NET_GATEWAY => Some (ip_gateway (net_inf i))
  | NET_NAMESERVER => Some (ip_nameserver (net_inf i))
  | NET_HWADDR => Some (arp_hwaddr i)
  | NET_DOMAIN => ip_domain (net_inf i)
  | NET_HOSTNAME => ip_hostname (net_inf i)
  | NET_SPEED | NET_LOOPBACK => None
  end.

(** [ptr] is what the pointer points to, [got] whether strdup had memory, [ioctl] the
    result of the device. *)
Definition _ip_setparam (i : ip_info) (param : ip_param) (ptr : option bytes) (got : bool) (ioctl : Z) : option (Z * ip_info) :=
  let n := net_inf i in
  let dup s := if got then Some s else None in
  match param, ptr with
  | NET_IPADDR, Some p =>
      let i := set_net i (NetInfo (take 4 p) (ip_netmask n) (ip_gateway n) (ip_nameserver n) (ip_domain n) (ip_hostname n)) in
      let? i := _arp_send_gratuitous i in Some (0, i)
  | NET_NETMASK, Some p =>
      Some (0, set_net i (NetInfo (ip_addr n) (take 4 p) (ip_gateway n) (ip_nameserver n) (ip_domain n) (ip_hostname n)))
  | NET_GATEWAY, Some p =>
      Some (0, set_net i (NetInfo (ip_addr n) (ip_netmask n) (take 4 p) (ip_nameserver n) (ip_domain n) (ip_hostname n)))
  | NET_NAMESERVER, Some p =>
      Some (0, set_net i (NetInfo (ip_addr n) (ip_netmask n) (ip_gateway n) (take 4 p) (ip_domain n) (ip_hostname n)))
  | NET_HWADDR, Some p =>
      Some (0, IpInfo n (eth_sethwaddr (eth_info i) (take 6 p)) (ip_id i) (ip_port i) (ip_protocols i) (arp_table i) (arp_port i) (take 6 p))
  | NET_DOMAIN, _ =>
      let d := let? s := ptr in dup s in
      Some (-1, set_net i (NetInfo (ip_addr n) (ip_netmask n) (ip_gateway n) (ip_nameserver n) d (ip_hostname n)))
  | NET_HOSTNAME, _ =>
      let h := let? s := ptr in dup s in
      Some (-1, set_net i (NetInfo (ip_addr n) (ip_netmask n) (ip_gateway n) (ip_nameserver n) (ip_domain n) h))
  | (NET_SPEED | NET_LOOPBACK), Some _ => Some (ioctl, i)
  | _, None => None
  end.

Fixpoint register_loop (ps : list ip_protodisp) (p : ip_protodisp) : list ip_protodisp :=
  match ps with
  | [] => []
  | q :: ps => if pd_cb q =? 0 then p :: ps else q :: register_loop ps p
  end.

Definition _ip_register (i : ip_info) (proto cb ref : Z) : ip_info :=
  set_protocols i (register_loop (ip_protocols i) (Pdisp (wrap8 proto) cb ref)).

Definition _ip_deregister (i : ip_info) (proto : Z) : ip_info :=
  set_protocols i (map (fun p => if pd_protocol p =? wrap8 proto then Pdisp 0 0 0 else p) (ip_protocols i)).

(** * The checksum *)

(** The sum of the big-endian words. *)
Fixpoint wsum (s : bytes) : Z :=
  match s with
  | a :: b :: s => (a * 256 + b) + wsum s
  | [a] => a * 256
  | [] => 0
  end.

Lemma list_ind2 {A} (P : list A -> Prop) : P [] -> (forall a, P [a]) -> (forall a b l, P l -> P (a :: b :: l)) -> forall l, P l.
Proof. intros H0 H1 H2. fix IH 1. intros [|a [|b l]]; [done|done|]. apply H2, IH. Qed.

Lemma wsum_bound s : Forall byte_ok s -> 0 <= wsum s <= 65535 * Z.of_nat (length s).
Proof.
  induction s as [| a | a b s IH] using list_ind2; intros H; cbn [wsum length]; [lia| |].
  - apply Forall_cons in H as [Ha _]. unfold byte_ok in Ha. lia.
  - apply Forall_cons in H as [Ha H]. apply Forall_cons in H as [Hb H]. unfold byte_ok in *. specialize (IH H). lia.
Qed.

Lemma sum_words_spec s c : Forall byte_ok s -> 0 <= c -> c + 65535 * Z.of_nat (length s) < 2 ^ 32 -> sum_words s c = c + wsum s.
Proof.
  revert c. induction s as [| a | a b s IH] using list_ind2; intros c H Hc Hl; cbn [wsum sum_words]; [lia| |].
  - apply Forall_cons in H as [Ha _]. unfold byte_ok in Ha. cbn in Hl. rewrite Z.shiftl_mul_pow2 by lia. apply wrap32_small. lia.
  - apply Forall_cons in H as [Ha H]. apply Forall_cons in H as [Hb H]. unfold byte_ok in *. cbn [length] in Hl.
    rewrite Z.shiftl_mul_pow2 by lia. rewrite wrap32_small by lia. rewrite IH by (done || lia). lia.
Qed.

Lemma fold_step c : 0 <= c < 2 ^ 32 -> wrap32 (Z.land c 0xFFFF + Z.shiftr c 16) = c mod 65536 + c / 65536.
Proof.
  intros H. change 0xFFFF with (Z.ones 16). rewrite Z.land_ones, Z.shiftr_div_pow2 by lia. change (2 ^ 16) with 65536.
  apply wrap32_small. pose proof (Z.mod_pos_bound c 65536). pose proof (Z.div_le_upper_bound c 65536 65536). pose proof (Z.div_pos c 65536). lia.
Qed.

(** Folding the carries is arithmetic modulo 65535, with 65535 for a multiple that is not 0. *)
Lemma fold_carries_spec c : 0 <= c < 2 ^ 32 ->
  fold_carries 4 c = Some (if c =? 0 then 0 else let r := c mod 65535 in if r =? 0 then 65535 else r).
Proof.
  intros Hc. assert (Hbig : forall x, 0 <= x -> truthy (Z.shiftr x 16) = negb (x <? 65536)).
  { intros x Hx. unfold truthy. rewrite Z.shiftr_div_pow2 by lia. f_equal. change (2 ^ 16) with 65536.
    destruct (Z.ltb_spec x 65536); [rewrite Z.div_small by lia; done|]. apply Z.eqb_neq. pose proof (Z.div_str_pos x 65536). lia. }
  assert (Hend : forall x n, 0 <= x < 65536 -> fold_carries (S n) x = Some (if x =? 0 then 0 else let r := x mod 65535 in if r =? 0 then 65535 else r)).
  { intros x n Hx. cbn. rewrite Hbig, (proj2 (Z.ltb_lt _ _)) by lia. cbn. f_equal. destruct (Z.eqb_spec x 0); [done|].
    destruct (Z.eq_dec x 65535) as [->|]; [done|]. rewrite Z.mod_small by lia. by rewrite (proj2 (Z.eqb_neq _ _)). }
  assert (Hstep : forall x n, 65536 <= x < 2 ^ 32 -> fold_carries (S n) x = fold_carries n (x mod 65536 + x / 65536) /\
      0 < x mod 65536 + x / 65536 <= 65535 + x / 65536 /\ (x mod 65536 + x / 65536) mod 65535 = x mod 65535).
  { intros x n Hx. cbn. rewrite Hbig, (proj2 (Z.ltb_ge _ _)) by lia. cbn. rewrite fold_step by lia. split; [done|].
    pose proof (Z.mod_pos_bound x 65536). pose proof (Z.div_str_pos x 65536). split; [lia|].
    rewrite (Z.div_mod x 65536) at 3 by lia. rewrite <- (Z_mod_plus_full _ (x / 65536) 65535). f_equal. lia. }
  assert (Hres : forall x y, 0 < x -> 0 < y -> x mod 65535 = y mod 65535 ->
      (if x =? 0 then 0 else let r := x mod 65535 in if r =? 0 then 65535 else r) = (if y =? 0 then 0 else let r := y mod 65535 in if r =? 0 then 65535 else r)).
  { intros x y Hx Hy E. rewrite !(proj2 (Z.eqb_neq _ 0)) by lia. by rewrite E. }
  destruct (Z.lt_ge_cases c 65536); [apply Hend; lia|]. destruct (Hstep c 3%nat) as (-> & B1 & M1); [lia|].
  set (c1 := c mod 65536 + c / 65536) in *. assert (c1 <= 131070) by (pose proof (Z.div_lt_upper_bound c 65536 65536); lia).
  destruct (Z.lt_ge_cases c1 65536); [rewrite Hend by lia; f_equal; apply Hres; lia|]. destruct (Hstep c1 2%nat) as (-> & B2 & M2); [lia|].
  assert (c1 / 65536 = 1) by (symmetry; apply Z.div_unique with (c1 - 65536); lia). assert (c1 mod 65536 = c1 - 65536) by (symmetry; apply Z.mod_unique with 1; lia).
  rewrite Hend by lia. f_equal. apply Hres; lia.
Qed.

(** The checksum is the ones' complement sum of the words. *)
Lemma ip_chksum_spec init s : Forall byte_ok s -> 0 <= init < 65536 -> Z.of_nat (length s) <= 65535 ->
  ip_chksum init s = Some (if init + wsum s =? 0 then 0 else let r := (init + wsum s) mod 65535 in if r =? 0 then 65535 else r).
Proof.
  intros Hs Hi Hl. unfold ip_chksum. rewrite sum_words_spec by (done || lia). apply fold_carries_spec.
  pose proof (wsum_bound s Hs). lia.
Qed.

Lemma ip_chksum_range init s : Forall byte_ok s -> 0 <= init < 65536 -> Z.of_nat (length s) <= 65535 ->
  exists c, ip_chksum init s = Some c /\ 0 <= c < 65536.
Proof.
  intros Hs Hi Hl. rewrite ip_chksum_spec by done. eexists. split; [reflexivity|]. destruct (_ =? 0); [lia|]. cbn.
  pose proof (Z.mod_pos_bound (init + wsum s) 65535). destruct (_ =? 0); lia.
Qed.

(** * The invariant *)

(** A packet that waits: its headers fit before it. *)
Record tx_ready (port : Z) (b : ebuf) : Prop := {
  tr_holds : holds b;
  tr_port : eb_port b = port;
  tr_room : ENET_DIX_HEADER <= eb_ptr b
}.

Record entry_ok (port : Z) (ae : arpentry) : Prop := {
  en_ip : length (ae_ipaddr ae) = 4%nat;
  en_eth : length (ae_ethaddr ae) = 6%nat;
  en_max : (length (ae_txqueue ae) <= 2)%nat;
  en_unused : ae_state ae = ae_unused -> ae_txqueue ae = [];
  en_queue : Forall (tx_ready port) (ae_txqueue ae)
}.

Record ip_ok (i : ip_info) : Prop := {
  io_eth : eth_ok (eth_info i);
  io_arp : dix (eth_info i) (arp_port i) [8; 6];
  io_ip : dix (eth_info i) (ip_port i) [8; 0];
  io_table : exists t, arp_table i = Some t /\ length t = ARP_TABLE_SIZE /\ Forall (entry_ok (ip_port i)) t;
  io_hw : length (arp_hwaddr i) = 6%nat;
  io_addr : length (ip_addr (net_inf i)) = 4%nat;
  io_gw : length (ip_gateway (net_inf i)) = 4%nat;
  io_cbs : Forall (fun p => ep_rxcallback p = 0 \/ ep_rxcallback p = arp_cb \/ ep_rxcallback p = ip_cb) (eth_ports (eth_info i))
}.

(** The buffers of the layer: those on the free list and those that wait. *)
Definition queued (t : list arpentry) : list ebuf := concat (map ae_txqueue t).
Definition waiting (i : ip_info) : list Z := match arp_table i with Some t => map eb_addr (queued t) | None => [] end.
Definition owned (i : ip_info) : list Z := free_addrs (eth_info i) ++ waiting i.

(** What the operations on packets leave alone. *)
Definition same_cfg (i i' : ip_info) : Prop :=
  same_eth (eth_info i) (eth_info i') /\ ip_port i' = ip_port i /\ arp_port i' = arp_port i /\ net_inf i' = net_inf i /\
  arp_hwaddr i' = arp_hwaddr i /\ ip_protocols i' = ip_protocols i.

#[export] Instance same_cfg_preorder : PreOrder same_cfg.
Proof. split; [repeat split|]. intros a b c (?&?&?&?&?&?) (?&?&?&?&?&?). split; [by etransitivity|]. repeat split; congruence. Qed.

(** A step keeps the invariant and the configuration, and takes in the buffers [new]. *)
Definition moves (new : list Z) (i i' : ip_info) : Prop :=
  ip_ok i' /\ same_cfg i i' /\ owned i' ≡ₚ new ++ owned i.

Lemma moves_trans n1 n2 a b c : moves n1 a b -> moves n2 b c -> moves (n2 ++ n1) a c.
Proof. intros (H1 & H2 & H3) (H4 & H5 & H6). split; [done|]. split; [by etransitivity|]. by rewrite H6, H3, app_assoc. Qed.

Lemma moves_trans_0 n a b c : moves n a b -> moves [] b c -> moves n a c.
Proof. intros H1 H2. apply (moves_trans n [] a b c H1 H2). Qed.

Lemma moves_0_trans n a b c : moves [] a b -> moves n b c -> moves n a c.
Proof. intros H1 H2. rewrite <- (app_nil_r n). by apply (moves_trans [] n a b c). Qed.

Lemma moves_refl i : ip_ok i -> moves [] i i.
Proof. intros H. split; [done|]. by split. Qed.

(** Putting another Ethernet layer or table in. *)
Lemma ip_ok_with i e t : ip_ok i -> eth_ok e -> same_eth (eth_info i) e -> length t = ARP_TABLE_SIZE -> Forall (entry_ok (ip_port i)) t ->
  ip_ok (set_table (set_eth i e) t) /\ same_cfg i (set_table (set_eth i e) t).
Proof.
  intros [H1 H2 H3 H4 H5 H6 H7 H8] He Hs Hl Ht. split; [split; cbn; try done; [by eapply same_eth_dix|by eapply same_eth_dix|by exists t|by rewrite (proj1 Hs)]|].
  by split.
Qed.

Lemma ip_ok_eth i e : ip_ok i -> eth_ok e -> same_eth (eth_info i) e -> ip_ok (set_eth i e) /\ same_cfg i (set_eth i e).
Proof.
  intros [H1 H2 H3 H4 H5 H6 H7 H8] He Hs. split; [split; cbn; try done; [by eapply same_eth_dix|by eapply same_eth_dix|by rewrite (proj1 Hs)]|]. by split.
Qed.

Lemma queued_insert t n ae ae' : t !! n = Some ae ->
  map eb_addr (queued (<[n := ae']> t)) ++ map eb_addr (ae_txqueue ae) ≡ₚ map eb_addr (queued t) ++ map eb_addr (ae_txqueue ae').
Proof.
  intros H. unfold queued. rewrite <- !map_app. apply (Permutation_map eb_addr).
  rewrite (concat_split (map ae_txqueue t) n (ae_txqueue ae)) by (by rewrite list_lookup_fmap, H).
  change (map ae_txqueue (<[n:=ae']> t)) with (ae_txqueue <$> <[n:=ae']> t). rewrite list_fmap_insert.
  rewrite (concat_insert (ae_txqueue <$> t) n (ae_txqueue ae)) by (by rewrite list_lookup_fmap, H).
  change (map ae_txqueue t) with (ae_txqueue <$> t). rewrite (Permutation_app_comm (_ ++ _) (ae_txqueue ae)), <- app_assoc.
  apply Permutation_app_head, Permutation_app_comm.
Qed.

(** Replacing an entry: the buffers that come in and those that go. *)
Lemma put_moves i e t n ae ae' new : ip_ok i -> arp_table i = Some t -> t !! n = Some ae -> entry_ok (ip_port i) ae' ->
  eth_ok e -> same_eth (eth_info i) e ->
  free_addrs e ++ map eb_addr (ae_txqueue ae') ≡ₚ new ++ free_addrs (eth_info i) ++ map eb_addr (ae_txqueue ae) ->
  moves new i (set_table (set_eth i e) (<[n := ae']> t)).
Proof.
  intros Hok Ht Hn Hae' He Hs Hp. destruct (io_table i Hok) as (t' & Ht' & Hl & Hall). assert (t' = t) as -> by congruence.
  destruct (ip_ok_with i e (<[n := ae']> t) Hok He Hs) as [H1 H2]; [by rewrite length_insert|by apply Forall_insert|].
  split; [done|]. split; [done|]. unfold owned, waiting. cbn. rewrite Ht.
  apply (Permutation_app_inv_r (map eb_addr (ae_txqueue ae))). rewrite <- !app_assoc, queued_insert by done.
  rewrite (Permutation_app_comm (map eb_addr (queued t)) (map eb_addr (ae_txqueue ae'))), app_assoc, Hp, <- !app_assoc.
  do 2 apply Permutation_app_head. apply Permutation_app_comm.
Qed.

Lemma entry_lookup i t n ae : ip_ok i -> arp_table i = Some t -> t !! n = Some ae -> entry_ok (ip_port i) ae.
Proof. intros Hok Ht Hn. destruct (io_table i Hok) as (t' & Ht' & _ & Hall). assert (t' = t) as -> by congruence. by eapply Forall_lookup_1. Qed.

(** * ARP messages *)

(** One more field of a message. *)
Ltac append_step :=
  match goal with
  | Hb : holds ?b |- context [ebuf_append_bytes ?b ?s] =>
      let b' := fresh "b" in let H := fresh "Hs" in let Hh := fresh "Hh" in
      destruct (append_ok b s Hb) as (b' & H & Hh & ? & ? & ? & ?); [cbn [length] in *; unfold eb_size; lia|];
      rewrite H; clear H
  end.

Definition arp_message (op : Z) (hw ip thw tip : bytes) : bytes :=
  be16 ARP_HWADDRSPACE_ETHERNET ++ be16 PROTOSPACE_IP ++ [6] ++ [4] ++ be16 op ++ hw ++ ip ++ thw ++ tip.

Lemma arp_fill {A} b op hw ip thw tip (k : ebuf -> option A) : holds b -> eb_ptr b = ENET_DIX_HEADER -> eb_length b = 0 ->
  payload b = [] -> length hw = 6%nat -> length ip = 4%nat -> length thw = 6%nat -> length tip = 4%nat ->
  exists b', holds b' /\ same_buf b b' /\ eb_ptr b' = ENET_DIX_HEADER /\ payload b' = arp_message op hw ip thw tip /\
   (let? b := ebuf_append_u16_be b ARP_HWADDRSPACE_ETHERNET in
    let? b := ebuf_append_u16_be b PROTOSPACE_IP in
    let? b := ebuf_append_u8 b ENET_ADDR_LEN in
    let? b := ebuf_append_u8 b IP_ADDR_LEN in
    let? b := ebuf_append_u16_be b op in
    let? b := ebuf_append_bytes b hw in
    let? b := ebuf_append_bytes b ip in
    let? b := ebuf_append_bytes b thw in
    let? b := ebuf_append_bytes b tip in k b) = k b'.
Proof.
  intros Hb Hp Hl Hpay L1 L2 L3 L4. unfold ENET_DIX_HEADER in *. unfold ebuf_append_u16_be, ebuf_append_u8. change (wrap8 ENET_ADDR_LEN) with 6. change (wrap8 IP_ADDR_LEN) with 4.
  unfold be16. do 9 append_step. eexists. split; [eassumption|]. split; [unfold same_buf in *; split; intuition congruence|].
  split; [congruence|]. split; [|reflexivity]. unfold arp_message, be16. repeat match goal with H : payload _ = _ |- _ => rewrite H; clear H end.
  by rewrite <- !app_assoc.
Qed.

(** Sending an ARP message that was built in a fresh buffer. *)
Lemma arp_send_ok i dest op thw tip : ip_ok i -> length dest = 6%nat -> length thw = 6%nat -> length tip = 4%nat ->
  exists i', (let? (b, e) := eth_alloc (eth_info i) (arp_port i) in
      match b with
      | None => Some i
      | Some b =>
          let? b := ebuf_append_u16_be b ARP_HWADDRSPACE_ETHERNET in
          let? b := ebuf_append_u16_be b PROTOSPACE_IP in
          let? b := ebuf_append_u8 b ENET_ADDR_LEN in
          let? b := ebuf_append_u8 b IP_ADDR_LEN in
          let? b := ebuf_append_u16_be b op in
          let? b := ebuf_append_bytes b (arp_hwaddr i) in
          let? b := ebuf_append_bytes b (ip_addr (net_inf i)) in
          let? b := ebuf_append_bytes b thw in
          let? b := ebuf_append_bytes b tip in
          let? (b, e) := eth_send e b dest in
          Some (set_eth i (eth_free e b))
      end) = Some i' /\ moves [] i i' /\ arp_table i' = arp_table i /\
    eth_wire (eth_info i') = eth_wire (eth_info i) ++
      match eth_freelist (eth_info i) with
      | [] => []
      | _ => [dest ++ eth_hwaddr (eth_info i) ++ [8; 6] ++ arp_message op (arp_hwaddr i) (ip_addr (net_inf i)) thw tip]
      end.
Proof.
  intros Hok Ld L1 L2. pose proof (io_eth i Hok) as [He1 He2]. destruct (eth_freelist (eth_info i)) as [|b l] eqn:El.
  { unfold eth_alloc. rewrite El. cbn. exists i. split; [done|]. split; [by apply moves_refl|]. split; [done|]. by rewrite app_nil_r. }
  apply Forall_cons in He2 as [Hb Hl].
  destruct (eth_alloc_ok _ _ _ b l (io_arp i Hok) El Hb) as (b1 & -> & Hb1 & Ha & Hp & Hptr & Hlen & Hpay). cbn [option_bind].
  destruct (arp_fill b1 op (arp_hwaddr i) (ip_addr (net_inf i)) thw tip
    (fun b => let? (b, e) := eth_send (set_freelist (eth_info i) l) b dest in Some (set_eth i (eth_free e b)))
    Hb1 Hptr Hlen Hpay (io_hw i Hok) (io_addr i Hok) L1 L2) as (b2 & Hb2 & [Ha2 Hp2] & Hptr2 & Hpay2 & ->).
  set (e1 := set_freelist (eth_info i) l). assert (He1' : eth_ok e1) by (by split).
  assert (Hs1 : same_eth (eth_info i) e1) by done.
  destruct (send_free_ok e1 b2 dest [8; 6] He1' Hb2) as (b3 & -> & He3 & Hs3 & Hf3 & Hw3); [rewrite Hp2, Hp; by apply (same_eth_dix _ _ _ _ Hs1), io_arp|done|lia|].
  cbn [option_bind]. eexists. split; [reflexivity|]. destruct (ip_ok_eth i _ Hok He3) as [Hok' Hcfg]; [by etransitivity|].
  split; [|split; [done|]].
  - split; [done|]. split; [done|]. unfold owned, waiting. cbn [eth_info set_eth arp_table]. rewrite Hf3. cbn [app]. apply Permutation_app_tail.
    unfold free_addrs. cbn. rewrite El. cbn. rewrite Ha2, Ha. by rewrite Permutation_app_comm.
  - cbn [eth_info set_eth]. rewrite Hw3. cbn. by rewrite Hpay2.
Qed.

Lemma arp_tx_query_ok i dest : ip_ok i -> length dest = 4%nat ->
  exists i', arp_tx_query i dest = Some i' /\ moves [] i i' /\ arp_table i' = arp_table i.
Proof.
  intros Hok Hd. destruct (arp_send_ok i eth_broadcast ARP_OPCODE_REQUEST (replicate 6 0) dest Hok) as (i' & H1 & H2 & H3 & _); [done..|].
  by exists i'.
Qed.

Lemma arp_rx_query_ok i src thw tip : ip_ok i -> length src = 6%nat -> length thw = 6%nat -> length tip = 4%nat ->
  exists i', arp_rx_query i src thw tip = Some i' /\ moves [] i i' /\ arp_table i' = arp_table i.
Proof. intros Hok L1 L2 L3. destruct (arp_send_ok i src ARP_OPCODE_REPLY thw tip Hok L1 L2 L3) as (i' & H1 & H2 & H3 & _). by exists i'. Qed.

(** * The ARP table *)

Lemma tx_ready_sized port q : Forall (tx_ready port) q -> Forall sized q.
Proof. intros H. eapply Forall_impl; [exact H|]. by intros b [[? _ _ _] _ _]. Qed.

Lemma send_all_ok e q dest port proto : eth_ok e -> Forall (tx_ready port) q -> dix e port proto -> length dest = 6%nat ->
  exists e', send_all e q dest = Some e' /\ eth_ok e' /\ same_eth e e' /\ free_addrs e' = free_addrs e ++ map eb_addr q /\
    eth_wire e' = eth_wire e ++ map (fun b => dest ++ eth_hwaddr e ++ proto ++ payload b) q.
Proof.
  revert e. induction q as [|b q IH]; intros e He Hq Hd Hl; cbn [send_all].
  { exists e. rewrite !app_nil_r. done. }
  apply Forall_cons in Hq as [[Hb <- Hr] Hq].
  destruct (send_free_ok e b dest proto He Hb Hd Hl Hr) as (b' & -> & H1 & H2 & H3 & H4). cbn [option_bind].
  set (e1 := eth_free _ _) in *. destruct (IH e1 H1 Hq (same_eth_dix _ _ _ _ H2 Hd) Hl) as (e2 & -> & H5 & H6 & H7 & H8).
  exists e2. split; [done|]. split; [done|]. split; [by etransitivity|]. rewrite H7, H3, H8, H4, <- !app_assoc. split; [done|].
  destruct H2 as [_ ->]. done.
Qed.

Lemma arp_find_spec n t addr m : find_loop n t addr = Some m ->
  exists ae, (n <= m)%nat /\ t !! (m - n)%nat = Some ae /\ ae_state ae <> ae_unused /\ ae_ipaddr ae = addr.
Proof.
  revert n. induction t as [|ae t IH]; intros n; cbn; [done|]. destruct (negb _ && _) eqn:E.
  - intros [= <-]. apply andb_prop in E as [E1 E2]. apply negb_true_iff, bool_decide_eq_false in E1. apply bytes_eqb_true in E2.
    exists ae. by rewrite Nat.sub_diag.
  - intros H. apply IH in H as (ae' & Hn & H & H'). exists ae'. split; [lia|]. by replace (m - n)%nat with (S (m - S n)) by lia.
Qed.

Lemma first_unused_spec n t m : first_unused n t = Some m ->
  exists ae, (n <= m)%nat /\ t !! (m - n)%nat = Some ae /\ ae_state ae = ae_unused.
Proof.
  revert n. induction t as [|ae t IH]; intros n; cbn; [done|]. case_bool_decide.
  - intros [= <-]. exists ae. by rewrite Nat.sub_diag.
  - intros H'. apply IH in H' as (ae' & Hn & H1 & H2). exists ae'. split; [lia|]. by replace (m - n)%nat with (S (m - S n)) by lia.
Qed.

Lemma least_used_lt n t v m : (v < n + length t)%nat -> (least_used n t v m < n + length t)%nat.
Proof.
  revert n v m. induction t as [|ae t IH]; intros n v m H; cbn [least_used length] in *; [done|].
  destruct (_ <? _); [assert (n < S n + length t)%nat by lia|assert (v < S n + length t)%nat by lia];
    match goal with |- (least_used _ _ ?v ?m < _)%nat => specialize (IH (S n) v m) end; lia.
Qed.

Lemma entry_with_timer port ae k : entry_ok port ae -> entry_ok port (with_timer ae k).
Proof. by intros [? ? ? ? ?]. Qed.

Lemma find_entry_ok i addr : ip_ok i ->
  exists r i', arp_find_entry i addr = Some (r, i') /\ moves [] i i' /\ eth_info i' = eth_info i /\
    match r with
    | Some n => exists t ae, arp_table i' = Some t /\ t !! n = Some ae /\ ae_state ae <> ae_unused /\ ae_ipaddr ae = addr
    | None => True
    end.
Proof.
  intros Hok. pose proof (io_table i Hok) as (t & Ht & Hl & Hall). unfold arp_find_entry. rewrite Ht. cbn [option_bind].
  destruct (find_loop 0 t addr) as [n|] eqn:Ef.
  - apply arp_find_spec in Ef as (ae & _ & Hn & Hs & Ha). rewrite Nat.sub_0_r in Hn. rewrite Hn. cbn [option_bind].
    assert (Hae : entry_ok (ip_port i) ae) by (by eapply Forall_lookup_1). case_bool_decide as Hest.
    + eexists _, _. split; [reflexivity|]. split; [|split; [done|]].
      * pose proof (put_moves i (eth_info i) t n ae (with_timer ae ARP_KEEP_TIMER) [] Hok Ht Hn (entry_with_timer _ _ _ Hae) (io_eth i Hok)) as Hm.
        destruct i. by apply Hm.
      * eexists _, _. split; [reflexivity|]. rewrite list_lookup_insert_eq by (by eapply lookup_lt_Some). done.
    + eexists _, _. split; [reflexivity|]. split; [by apply moves_refl|]. split; [done|]. by exists t, ae.
  - eexists _, _. split; [reflexivity|]. split; [by apply moves_refl|done].
Qed.

Lemma entry_deleted port ae : entry_ok port ae -> entry_ok port (Ae ae_unused 0 0 0 (ae_permanent ae) (ae_ipaddr ae) (ae_ethaddr ae) []).
Proof. intros [H1 H2 H3 H4 H5]. split; cbn; try done. lia. Qed.

(** Deleting an entry frees what it kept. *)
Lemma delete_moves i t n ae : ip_ok i -> arp_table i = Some t -> t !! n = Some ae ->
  let r := arp_delete (eth_info i) ae in moves [] i (set_table (set_eth i r.2) (<[n := r.1]> t)).
Proof.
  intros Hok Ht Hn. pose proof (entry_lookup i t n ae Hok Ht Hn) as Hae.
  destruct (free_all_ok (eth_info i) (ae_txqueue ae) (io_eth i Hok)) as (H1 & H2 & H3 & _); [by eapply tx_ready_sized, en_queue|].
  apply (put_moves i _ t n ae); try done; [by apply entry_deleted|]. cbn [arp_delete snd fst ae_txqueue map app]. by rewrite H3, app_nil_r.
Qed.

Lemma new_entry_ok i : ip_ok i ->
  exists n i' t ae, arp_new_entry i = Some (n, i') /\ moves [] i i' /\ arp_table i' = Some t /\ t !! n = Some ae /\ ae_txqueue ae = [].
Proof.
  intros Hok. pose proof (io_table i Hok) as (t & Ht & Hl & Hall). unfold arp_new_entry. rewrite Ht. cbn [option_bind].
  destruct (first_unused 0 t) as [n|] eqn:Ef.
  - apply first_unused_spec in Ef as (ae & _ & Hn & Hs). rewrite Nat.sub_0_r in Hn. eexists _, _, t, ae. split; [reflexivity|].
    split; [by apply moves_refl|]. split; [done|]. split; [done|]. by apply (en_unused (ip_port i)); [by eapply Forall_lookup_1|].
  - set (n := least_used 0 t 0 _). assert (Hn : (n < length t)%nat) by (apply (least_used_lt 0); rewrite Hl; unfold ARP_TABLE_SIZE; lia).
    destruct (lookup_lt_is_Some_2 t n Hn) as [ae Hae]. rewrite Hae. cbn [option_bind].
    pose proof (delete_moves i t n ae Hok Ht Hae) as Hm. destruct (arp_delete (eth_info i) ae) as [ae' e] eqn:Ed.
    eexists _, _, _, ae'. split; [reflexivity|]. split; [exact Hm|]. split; [reflexivity|].
    split; [by apply list_lookup_insert_eq|]. unfold arp_delete in Ed. by injection Ed as <- <-.
Qed.

(** Waiting packets of an entry go out to its address. *)
Lemma tx_waiting_moves i t n ae ae1 : ip_ok i -> arp_table i = Some t -> t !! n = Some ae -> entry_ok (ip_port i) ae1 -> ae_txqueue ae1 = ae_txqueue ae ->
  exists e, arp_tx_waiting (eth_info i) ae1 = Some (with_queue ae1 [], e) /\
    moves [] i (set_table (set_eth i e) (<[n := with_queue ae1 []]> t)) /\
    eth_wire e = eth_wire (eth_info i) ++ map (fun b => ae_ethaddr ae1 ++ eth_hwaddr (eth_info i) ++ [8; 0] ++ payload b) (ae_txqueue ae1).
Proof.
  intros Hok Ht Hn Hae1 Hq. unfold arp_tx_waiting.
  destruct (send_all_ok (eth_info i) (ae_txqueue ae1) (ae_ethaddr ae1) (ip_port i) [8; 0] (io_eth i Hok) (en_queue _ _ Hae1) (io_ip i Hok) (en_eth _ _ Hae1))
    as (e & -> & H1 & H2 & H3 & H4). cbn [option_bind]. exists e. split; [done|]. split; [|done].
  apply (put_moves i e t n ae); try done.
  - destruct Hae1 as [? ? ? ? ?]. split; cbn; try done. lia.
  - cbn [with_queue ae_txqueue map app]. by rewrite H3, app_nil_r, Hq.
Qed.

Lemma tx_ready_port i i' b : same_cfg i i' -> tx_ready (ip_port i) b -> tx_ready (ip_port i') b.
Proof. intros (_ & -> & _). done. Qed.

Lemma entry_at_table i t n : arp_table i = Some t -> entry_at i n = t !! n.
Proof. intros H. unfold entry_at. by rewrite H. Qed.

Lemma put_entry_table i t n ae : arp_table i = Some t -> put_entry i n ae = Some (set_table i (<[n := ae]> t)).
Proof. intros H. unfold put_entry. by rewrite H. Qed.

Lemma set_eth_same i : set_eth i (eth_info i) = i.
Proof. by destruct i. Qed.

(** Freeing a buffer that was with the caller. *)
Lemma free_moves i b : ip_ok i -> sized b -> moves [eb_addr b] i (set_eth i (eth_free (eth_info i) b)).
Proof.
  intros Hok Hb. destruct (ip_ok_eth i (eth_free (eth_info i) b) Hok) as [H1 H2]; [by apply eth_free_ok; [apply Hok|]|done|].
  split; [done|]. split; [done|]. unfold owned, waiting. cbn [eth_info set_eth arp_table]. rewrite eth_free_addrs. solve_Permutation.
Qed.

(** A packet with its IP header sent to a hardware address, and freed. *)
Lemma send_moves i b dest : ip_ok i -> tx_ready (ip_port i) b -> length dest = 6%nat ->
  exists i', (let? (b, e) := eth_send (eth_info i) b dest in Some (set_eth i (eth_free e b))) = Some i' /\ moves [eb_addr b] i i' /\
    eth_wire (eth_info i') = eth_wire (eth_info i) ++ [dest ++ eth_hwaddr (eth_info i) ++ [8; 0] ++ payload b].
Proof.
  intros Hok [Hb1 Hb2 Hb3] Hd.
  destruct (send_free_ok (eth_info i) b dest [8; 0] (io_eth _ Hok) Hb1) as (b' & -> & H1 & H2 & H3 & H4);
    [rewrite Hb2; by apply io_ip|done|done|]. cbn [option_bind]. eexists. split; [reflexivity|].
  destruct (ip_ok_eth i _ Hok H1 H2) as [Hok3 Hc3]. split; [|exact H4]. split; [done|]. split; [done|].
  unfold owned, waiting. cbn [eth_info set_eth arp_table]. rewrite H3. solve_Permutation.
Qed.

Lemma entry_queued i b ae : tx_ready (ip_port i) b -> entry_ok (ip_port i) ae -> (length (ae_txqueue ae) < 2)%nat -> ae_state ae <> ae_unused ->
  entry_ok (ip_port i) (with_queue ae (ae_txqueue ae ++ [b])).
Proof.
  intros Hb [H1 H2 H3 H4 H5] Hl Hs. split; cbn; try done; [rewrite length_app; cbn; lia|]. apply Forall_app. by split; [|constructor].
Qed.

(** A packet on its way is sent, queued or dropped, and its buffer with it. *)
Lemma lookup_send_ok i b dest : ip_ok i -> tx_ready (ip_port i) b -> length dest = 4%nat ->
  exists i', _arp_lookup_and_send i b dest = Some i' /\ moves [eb_addr b] i i'.
Proof.
  intros Hok Hb Hd. unfold _arp_lookup_and_send.
  destruct (find_entry_ok i dest Hok) as (r & i1 & -> & Hm1 & He1 & Hr). cbn [option_bind]. pose proof Hm1 as (Hok1 & Hc1 & _).
  apply (tx_ready_port _ _ _ Hc1) in Hb. destruct r as [n|].
  - destruct Hr as (t & ae & Ht & Hn & Hs & Ha). rewrite (entry_at_table _ _ _ Ht), Hn. cbn [option_bind].
    pose proof (entry_lookup i1 t n ae Hok1 Ht Hn) as Hae.
    assert (Hput : forall ae1 new, entry_ok (ip_port i1) ae1 -> map eb_addr (ae_txqueue ae1) ≡ₚ new ++ map eb_addr (ae_txqueue ae) ->
        moves new i1 (set_table i1 (<[n := ae1]> t))).
    { intros ae1 new H1 H2. rewrite <- (set_eth_same i1) at 2. apply (put_moves i1 _ t n ae); try done; [by apply Hok1|]. rewrite H2. solve_Permutation. }
    case_bool_decide as Hest.
    + rewrite (put_entry_table _ _ _ _ Ht). cbn [option_bind]. set (ae1 := Ae _ _ _ _ _ _ _ _).
      pose proof (Hput ae1 [] ltac:(destruct Hae; by split) ltac:(done)) as Hm2. pose proof Hm2 as (Hok2 & Hc2 & _).
      destruct (send_moves _ b (ae_ethaddr ae1) Hok2 (tx_ready_port _ _ _ Hc2 Hb)) as (i3 & -> & Hm3 & _); [by apply Hae|].
      exists i3. split; [done|]. by do 2 (eapply moves_0_trans; [eassumption|]).
    + case_test.
      * rewrite (put_entry_table _ _ _ _ Ht). eexists. split; [reflexivity|]. eapply moves_0_trans; [exact Hm1|]. unfold ARP_TXWAIT_MAX in E.
        apply Hput; [apply entry_queued; done || lia|]. cbn. rewrite map_app. solve_Permutation.
      * eexists. split; [reflexivity|]. eapply moves_0_trans; [exact Hm1|]. apply free_moves; [done|]. by destruct Hb as [[? _ _ _] _ _].
  - destruct (new_entry_ok i1 Hok1) as (n & i2 & t & ae & -> & Hm2 & Ht & Hn & Hq). cbn [option_bind]. pose proof Hm2 as (Hok2 & Hc2 & _).
    apply (tx_ready_port _ _ _ Hc2) in Hb. rewrite (entry_at_table _ _ _ Ht), Hn. cbn [option_bind]. rewrite Hq. cbn [app].
    rewrite (put_entry_table _ _ _ _ Ht). cbn [option_bind]. set (ae1 := Ae _ _ _ _ _ _ _ _).
    pose proof (entry_lookup i2 t n ae Hok2 Ht Hn) as Hae.
    assert (Hm3 : moves [eb_addr b] i2 (set_table i2 (<[n := ae1]> t))).
    { rewrite <- (set_eth_same i2) at 2. apply (put_moves i2 _ t n ae); try done; [|by apply Hok2|rewrite Hq; cbn; solve_Permutation].
      destruct Hae. split; cbn; try done; [lia|by constructor]. }
    destruct (arp_tx_query_ok _ dest (proj1 Hm3) Hd) as (i4 & H4 & Hm4 & _). cbn [ae1 ae_ipaddr]. rewrite H4. exists i4. split; [done|].
    do 2 (eapply moves_0_trans; [eassumption|]). eapply moves_trans_0; eassumption.
Qed.

Lemma arp_add_ok i destip desthw : ip_ok i -> length destip = 4%nat -> length desthw = 6%nat ->
  exists i', _arp_add i destip desthw = Some i' /\ moves [] i i'.
Proof.
  intros Hok L1 L2. unfold _arp_add. destruct (find_entry_ok i (take 4 desthw) Hok) as (r & i1 & -> & Hm1 & _ & Hr). cbn [option_bind].
  assert (H : exists n i2 t ae, (match r with Some n => Some (n, i1) | None => arp_new_entry i1 end) = Some (n, i2) /\ moves [] i1 i2 /\
    arp_table i2 = Some t /\ t !! n = Some ae).
  { destruct r as [n|].
    - destruct Hr as (t & ae & Ht & Hn & _). exists n, i1, t, ae. split; [done|]. split; [by apply moves_refl; destruct Hm1|done].
    - destruct (new_entry_ok i1 (proj1 Hm1)) as (n & i2 & t & ae & H1 & H2 & H3 & H4 & _). by exists n, i2, t, ae. }
  destruct H as (n & i2 & t & ae & -> & Hm2 & Ht & Hn). cbn [option_bind]. rewrite (entry_at_table _ _ _ Ht), Hn. cbn [option_bind].
  set (ae1 := Ae _ _ _ _ _ _ _ _). pose proof (entry_lookup i2 t n ae (proj1 Hm2) Ht Hn) as Hae.
  destruct (tx_waiting_moves i2 t n ae ae1 (proj1 Hm2) Ht Hn) as (e & -> & Hm3 & _); [destruct Hae; by split|done|]. cbn [option_bind].
  unfold put_entry. cbn [set_eth arp_table]. rewrite Ht. cbn [option_bind]. eexists. split; [reflexivity|].
  do 2 (eapply moves_0_trans; [eassumption|]). exact Hm3.
Qed.

Lemma arp_lookup_ok i addr : ip_ok i -> exists r i', _arp_lookup i addr = Some (r, i') /\ moves [] i i'.
Proof.
  intros Hok. unfold _arp_lookup. destruct (find_entry_ok i addr Hok) as (r & i1 & -> & Hm1 & _ & Hr). cbn [option_bind]. destruct r as [n|].
  - destruct Hr as (t & ae & Ht & Hn & _). rewrite (entry_at_table _ _ _ Ht), Hn. by eexists _, _.
  - by eexists _, _.
Qed.

Lemma arp_delete_ok i addr : ip_ok i -> exists r i', _arp_delete i addr = Some (r, i') /\ moves [] i i'.
Proof.
  intros Hok. unfold _arp_delete. destruct (find_entry_ok i addr Hok) as (r & i1 & -> & Hm1 & _ & Hr). cbn [option_bind]. destruct r as [n|].
  - destruct Hr as (t & ae & Ht & Hn & _). rewrite (entry_at_table _ _ _ Ht), Hn. cbn [option_bind].
    pose proof (delete_moves i1 t n ae (proj1 Hm1) Ht Hn) as Hm2. destruct (arp_delete (eth_info i1) ae) as [ae' e] eqn:Ed.
    unfold put_entry. cbn [set_eth arp_table]. rewrite Ht. cbn [option_bind]. eexists _, _. split; [reflexivity|]. eapply moves_0_trans; eassumption.
  - by eexists _, _.
Qed.

(** A pass over the table that keeps each entry and the buffers keeps them all. *)
Lemma table_pass_ok port (f : ether_info -> arpentry -> option (arpentry * ether_info)) e t :
  (forall e1 ae, eth_ok e1 -> same_eth e e1 -> entry_ok port ae ->
     exists ae' e2, f e1 ae = Some (ae', e2) /\ entry_ok port ae' /\ eth_ok e2 /\ same_eth e1 e2 /\
       free_addrs e2 ++ map eb_addr (ae_txqueue ae') ≡ₚ free_addrs e1 ++ map eb_addr (ae_txqueue ae)) ->
  eth_ok e -> Forall (entry_ok port) t ->
  exists t' e', table_pass f e t = Some (t', e') /\ length t' = length t /\ Forall (entry_ok port) t' /\ eth_ok e' /\ same_eth e e' /\
    free_addrs e' ++ map eb_addr (queued t') ≡ₚ free_addrs e ++ map eb_addr (queued t).
Proof.
  intros Hf He Ht. enough (H : forall e1, eth_ok e1 -> same_eth e e1 -> exists t' e', table_pass f e1 t = Some (t', e') /\ length t' = length t /\
    Forall (entry_ok port) t' /\ eth_ok e' /\ same_eth e1 e' /\ free_addrs e' ++ map eb_addr (queued t') ≡ₚ free_addrs e1 ++ map eb_addr (queued t)) by (by apply H).
  clear He. induction Ht as [|ae t Hae Ht IH]; intros e1 He1 Hs1; cbn [table_pass].
  { exists [], e1. done. }
  destruct (Hf e1 ae He1 Hs1 Hae) as (ae' & e2 & -> & H1 & H2 & H3 & H4). cbn [option_bind].
  destruct (IH e2 H2) as (t' & e3 & -> & H5 & H6 & H7 & H8 & H9); [by etransitivity|]. cbn [option_bind].
  exists (ae' :: t'), e3. split; [done|]. split; [cbn; by rewrite H5|]. split; [by constructor|]. split; [done|]. split; [by etransitivity|].
  unfold queued in *. cbn. rewrite !map_app, (Permutation_app_comm (map eb_addr (ae_txqueue ae'))), app_assoc, H9.
  rewrite <- app_assoc, (Permutation_app_comm (map eb_addr (concat _))), app_assoc, H4. by rewrite <- app_assoc.
Qed.

Lemma respond_ok i hw ip : ip_ok i -> length hw = 6%nat ->
  exists i', arp_rx_response i hw ip = Some i' /\ moves [] i i'.
Proof.
  intros Hok Hl. pose proof (io_table i Hok) as (t & Ht & Hlen & Hall). unfold arp_rx_response. rewrite Ht. cbn [option_bind].
  destruct (table_pass_ok (ip_port i) (respond hw ip) (eth_info i) t) as (t' & e' & -> & H1 & H2 & H3 & H4 & H5); [|by apply Hok|done|].
  - intros e1 ae He1 Hs1 Hae. unfold respond. destruct (_ && _) eqn:E; [|by eexists _, _].
    apply andb_prop in E as [E _]. apply negb_true_iff, bool_decide_eq_false in E. unfold arp_tx_waiting. cbn [ae_txqueue ae_ethaddr].
    destruct (send_all_ok e1 (ae_txqueue ae) hw (ip_port i) [8; 0] He1 (en_queue _ _ Hae)) as (e2 & -> & G1 & G2 & G3 & _);
      [by eapply same_eth_dix, io_ip|done|]. cbn [option_bind]. eexists _, _. split; [reflexivity|].
    split; [destruct Hae; split; cbn; try done; lia|]. split; [done|]. split; [done|]. cbn. by rewrite G3, app_nil_r.
  - cbn [option_bind]. eexists. split; [reflexivity|]. destruct (ip_ok_with i e' t' Hok H3 H4) as [G1 G2]; [congruence|done|].
    split; [done|]. split; [done|]. unfold owned, waiting. cbn. by rewrite Ht, H5.
Qed.

(** Reading the fields of a message off a buffer. *)
Lemma holds_skip b n : holds b -> 0 <= n <= eb_length b -> holds (ebuf_skip b n) /\ same_buf b (ebuf_skip b n) /\ eb_length (ebuf_skip b n) = eb_length b - n.
Proof. intros H1 H2. destruct (skip_ok b n H1 H2) as (? & ? & ? & _). done. Qed.

Ltac get_step n :=
  match goal with
  | Hb : holds ?b |- context [ebuf_get_bytes ?b n] =>
      let H := fresh "Hg" in let Hh := fresh "Hh" in
      destruct (get_ok b n Hb) as (? & H & ->); [lia|]; rewrite H; clear H; cbn [option_bind];
      destruct (holds_skip b n Hb) as (Hh & ? & ?); [lia|]
  end.

Lemma arp_rx_ok i b : ip_ok i -> holds b ->
  exists b' i', arp_rx_callback i b = Some (Dropped b', i') /\ sized b' /\ eb_addr b' = eb_addr b /\ moves [] i i'.
Proof.
  intros Hok Hb. unfold arp_rx_callback, ebuf_get_u16_be, ebuf_get_u8, ENET_ADDR_LEN, IP_ADDR_LEN. case_test.
  { exists b, i. split; [done|]. split; [apply Hb|]. split; [done|]. by apply moves_refl. }
  assert (Hdrop : forall b', holds b' -> same_buf b b' ->
    exists b1 i', Some (Dropped b', i) = Some (Dropped b1, i') /\ sized b1 /\ eb_addr b1 = eb_addr b /\ moves [] i i').
  { intros b' Hb' [Ha _]. exists b', i. split; [done|]. split; [apply Hb'|]. split; [done|]. by apply moves_refl. }
  assert (Hpl : forall c, holds c -> forall n, 0 <= n <= eb_length c -> length (take (Z.to_nat n) (payload c)) = Z.to_nat n).
  { intros c Hc n Hn. pose proof (payload_length c Hc). rewrite length_take. lia. }
  get_step 2. case_test; [apply Hdrop; [done|unfold same_buf in *; intuition congruence]|].
  get_step 2. case_test; [apply Hdrop; [done|unfold same_buf in *; intuition congruence]|].
  get_step 1. case_test; [apply Hdrop; [done|unfold same_buf in *; intuition congruence]|].
  get_step 1. case_test; [apply Hdrop; [done|unfold same_buf in *; intuition congruence]|].
  get_step 2. get_step 6. get_step 4. get_step 6. get_step 4.
  case_test; [apply Hdrop; [done|unfold same_buf in *; intuition congruence]|].
  match goal with |- context [Dropped ?c] => set (bl := c); assert (Hl : holds bl /\ same_buf b bl) by (subst bl; split; [done|unfold same_buf in *; intuition congruence]) end.
  assert (Hfin : forall o, (exists i', o = Some i' /\ moves [] i i') ->
    exists b1 i', (let? i := o in Some (Dropped bl, i)) = Some (Dropped b1, i') /\ sized b1 /\ eb_addr b1 = eb_addr b /\ moves [] i i').
  { intros o (i' & -> & Hm). exists bl, i'. split; [done|]. split; [apply Hl|]. split; [apply Hl|done]. }
  apply Hfin. case_test; [|case_test].
  - rewrite eb_read_ok by (apply Hl || (unfold eb_size; lia)). destruct (arp_rx_query_ok i (take (Z.to_nat 6) (drop (Z.to_nat 6) (eb_data bl)))
      (take (Z.to_nat 6) (payload (ebuf_skip (ebuf_skip (ebuf_skip (ebuf_skip (ebuf_skip b 2) 2) 1) 1) 2)))
      (take (Z.to_nat 4) (payload (ebuf_skip (ebuf_skip (ebuf_skip (ebuf_skip (ebuf_skip (ebuf_skip b 2) 2) 1) 1) 2) 6))) Hok) as (i' & H' & Hm & _).
    + rewrite length_take, length_drop, (h_size bl) by apply Hl. done.
    + rewrite Hpl by (done || lia). done.
    + rewrite Hpl by (done || lia). done.
    + by exists i'.
  - destruct (respond_ok i (take (Z.to_nat 6) (payload (ebuf_skip (ebuf_skip (ebuf_skip (ebuf_skip (ebuf_skip b 2) 2) 1) 1) 2)))
      (take (Z.to_nat 4) (payload (ebuf_skip (ebuf_skip (ebuf_skip (ebuf_skip (ebuf_skip (ebuf_skip b 2) 2) 1) 1) 2) 6))) Hok) as (i' & H' & Hm).
    + rewrite Hpl by (done || lia). done.
    + by exists i'.
  - exists i. split; [done|]. by apply moves_refl.
Qed.

(** * The timer *)

Lemma arp_tick_ok i n : ip_ok i -> (n < ARP_TABLE_SIZE)%nat -> exists i', arp_tick i n = Some i' /\ moves [] i i'.
Proof.
  intros Hok Hn. pose proof (io_table i Hok) as (t & Ht & Hl & Hall). rewrite <- Hl in Hn.
  destruct (lookup_lt_is_Some_2 t n Hn) as [ae Hae]. pose proof (entry_lookup i t n ae Hok Ht Hae) as Ho.
  assert (Hput : forall ae1, entry_ok (ip_port i) ae1 -> ae_txqueue ae1 = ae_txqueue ae ->
      put_entry i n ae1 = Some (set_table i (<[n := ae1]> t)) /\ moves [] i (set_table i (<[n := ae1]> t))).
  { intros ae1 H1 H2. split; [by apply put_entry_table|]. rewrite <- (set_eth_same i) at 2. apply (put_moves i _ t n ae); try done; [by apply Hok|].
    by rewrite H2. }
  assert (Hdel : forall k, exists i', (let '(ae', e) := arp_delete (eth_info i) (with_timer ae k) in put_entry (set_eth i e) n ae') = Some i' /\ moves [] i i').
  { intros k. destruct (Hput (with_timer ae k)) as [_ Hm1]; [by apply entry_with_timer|done|]. pose proof (delete_moves i t n ae Hok Ht Hae) as Hm.
    unfold arp_delete in *. cbn [with_timer ae_txqueue ae_permanent ae_ipaddr ae_ethaddr fst snd] in *. unfold put_entry. cbn [set_eth arp_table].
    rewrite Ht. cbn [option_bind]. by eexists. }
  unfold arp_tick. rewrite (entry_at_table _ _ _ Ht), Hae. cbn [option_bind]. destruct (ae_state ae) eqn:Es.
  - exists i. split; [done|]. by apply moves_refl.
  - case_test; [case_test; [apply Hdel|]|].
    + set (ae1 := Ae _ _ _ _ _ _ _ _). destruct (Hput ae1) as [-> Hm]; [destruct Ho; by split|done|]. cbn [option_bind].
      destruct (arp_tx_query_ok _ (ae_ipaddr ae1) (proj1 Hm) (en_ip _ _ Ho)) as (i2 & -> & Hm2 & _). exists i2. split; [done|]. by eapply moves_0_trans.
    + destruct (Hput (with_timer ae (ae_timer ae - 1))) as [-> Hm]; [by apply entry_with_timer|done|]. by eexists.
  - case_test; [exists i; split; [done|]; by apply moves_refl|]. case_test; [apply Hdel|].
    destruct (Hput (with_timer ae (ae_timer ae - 1))) as [-> Hm]; [by apply entry_with_timer|done|]. by eexists.
Qed.

Lemma timer_tick_ok i : ip_ok i -> exists i', _arp_timer_tick i = Some i' /\ moves [] i i'.
Proof.
  unfold _arp_timer_tick. assert (H : Forall (fun n => n < ARP_TABLE_SIZE)%nat (seq 0 ARP_TABLE_SIZE)) by (apply Forall_forall; intros n [? ?]%elem_of_seq; lia).
  revert i. induction H as [|n ns Hn _ IH]; intros i Hok; cbn [arp_ticks]; [exists i; split; [done|]; by apply moves_refl|].
  destruct (arp_tick_ok i n Hok Hn) as (i1 & -> & Hm1). cbn [option_bind]. destruct (IH i1 (proj1 Hm1)) as (i2 & -> & Hm2).
  exists i2. split; [done|]. by eapply moves_0_trans.
Qed.

(** * Sending *)

Lemma ip_chksum_total init s : 0 <= init < 65536 -> exists c, ip_chksum init s = Some c /\ 0 <= c < 65536.
Proof.
  intros Hi. unfold ip_chksum. assert (H : 0 <= sum_words s init < 2 ^ 32).
  { assert (H : 0 <= init < 2 ^ 32) by lia. clear Hi. revert init H. induction s as [| a | a b s IH] using list_ind2; intros c Hc; cbn [sum_words]; [done| |].
    - apply wrap32_range.
    - apply IH, wrap32_range. }
  rewrite fold_carries_spec by done. eexists. split; [reflexivity|]. destruct (_ =? 0); [lia|]. cbn.
  pose proof (Z.mod_pos_bound (sum_words s init) 65535). destruct (_ =? 0); lia.
Qed.

(** The header, and a packet with its checksum. *)
Definition ip_header (len id proto : Z) (cksum src dst : bytes) : bytes :=
  [0x45; 0] ++ be16 len ++ be16 id ++ [0; 0; 100; wrap8 proto] ++ cksum ++ src ++ dst.
Definition header_chksum (len id proto : Z) (src dst : bytes) : Z :=
  match ip_chksum 0 (ip_header len id proto [0; 0] src dst) with Some c => not16 c | None => 0 end.
Definition ip_packet_bytes (id proto : Z) (src dst data : bytes) : bytes :=
  let len := 20 + Z.of_nat (length data) in
  ip_header len id proto (be16 (header_chksum len id proto src dst)) src dst ++ data.

Lemma ip_header_length len id proto ck src dst : length ck = 2%nat -> length src = 4%nat -> length dst = 4%nat ->
  length (ip_header len id proto ck src dst) = 20%nat.
Proof. intros H1 H2 H3. unfold ip_header. rewrite !length_app, H1, H2, H3. done. Qed.

Lemma header_splice len id proto ck src dst data : length ck = 2%nat ->
  splice (ip_header len id proto [0; 0] src dst ++ data) 10 ck = ip_header len id proto ck src dst ++ data.
Proof.
  intros H. destruct ck as [|c1 [|c2 [|]]]; [done..| |done]. unfold splice, ip_header, be16. cbn [app]. by rewrite <- !app_assoc.
Qed.

Lemma payload_take b n : holds b -> 0 <= n <= eb_length b -> eb_read b (eb_ptr b) n = Some (take (Z.to_nat n) (payload b)).
Proof.
  intros [H1 H2 H3 H4] Hn. rewrite eb_read_ok by lia. f_equal. unfold payload. rewrite take_take. f_equal. lia.
Qed.

(** The header that [_ip_send] writes. *)
Lemma ip_header_ok {A} i b dst proto (k : ebuf -> option A) : ip_ok i -> holds b -> IPHDR_LENGTH <= eb_ptr b -> length dst = 4%nat ->
  exists b', holds b' /\ same_buf b b' /\ eb_ptr b' = eb_ptr b - IPHDR_LENGTH /\
    payload b' = ip_packet_bytes (ip_id i) proto (ip_addr (net_inf i)) dst (payload b) /\
   (let b := ebuf_seek b (- IPHDR_LENGTH) in
    let pktlen := sint32 (eb_length b + IPHDR_LENGTH) in
    let? b := ebuf_put_u8 b (Z.lor IPHDR_VER_4 IPHDR_LEN_20) in
    let? b := ebuf_put_u8 b IPHDR_TOS_DEFAULT in
    let? b := ebuf_put_u16_be b pktlen in
    let? b := ebuf_put_u16_be b (ip_id i) in
    let? b := ebuf_put_u16_be b 0 in
    let? b := ebuf_put_u8 b IPHDR_TTL_DEFAULT in
    let? b := ebuf_put_u8 b proto in
    let? b := ebuf_put_u16_be b 0 in
    let? b := ebuf_put_bytes b (ip_addr (net_inf i)) in
    let? b := ebuf_put_bytes b dst in
    let b := ebuf_prepend b IPHDR_LENGTH in
    let? cksum := chksum_at 0 b (eb_ptr b) IPHDR_LENGTH in
    let cksum := not16 cksum in
    let? b := eb_write b (eb_ptr b + 10) [Z.land (Z.shiftr cksum 8) 0xFF; Z.land cksum 0xFF] in k b) = k b'.
Proof.
  intros Hok Hb Hp Hd. pose proof (io_addr i Hok) as Ha. pose proof (payload_length b Hb) as Hlen. pose proof Hb as [B1 B2 B3 B4]. unfold eb_size in *. unfold IPHDR_LENGTH in *.
  cbn zeta. cbn [ebuf_seek ebuf_set eb_length]. replace (sint32 (eb_length b + 20)) with (20 + Z.of_nat (length (payload b))).
  2:{ unfold sint32. rewrite wrap32_small by lia. rewrite (proj2 (Z.ltb_lt _ _)) by lia. lia. }
  set (len := 20 + Z.of_nat (length (payload b))). set (h := ip_header len (ip_id i) proto [0; 0] (ip_addr (net_inf i)) dst).
  assert (Hh : Z.of_nat (length h) = 20) by (unfold h; rewrite ip_header_length by done; lia).
  destruct (prepend_ok b h 20 Hb Hh ltac:(lia)) as (b1 & Hput & Hb1 & Hs1 & Hp1 & Hl1 & Hpay1).
  unfold ebuf_put_u8, ebuf_put_u16_be. change (ebuf_set b (eb_length b) (eb_ptr b + - (20))) with (ebuf_seek b (- (20))).
  do 9 rewrite put_bind by (cbn [ebuf_seek ebuf_set eb_data eb_ptr]; unfold eb_size; rewrite ?length_app; cbn [length be16]; lia).
  match goal with |- context [ebuf_put_bytes _ ?s] => assert (Heq : s = h) by (unfold h, ip_header; rewrite <- !app_assoc; reflexivity); rewrite Heq end.
  rewrite Hput. unfold chksum_at. cbn [Z.ltb Z.compare]. rewrite payload_take by (done || lia). cbn [option_bind].
  rewrite Hpay1. rewrite take_app_length' by lia. destruct (ip_chksum_total 0 h) as (c & Hc & Hcr); [lia|]. rewrite Hc. cbn [option_bind].
  destruct (write_ok (ebuf_prepend b1 20) 10 (be16 (not16 c)) Hb1) as (b2 & Hw & Hb2 & Hs2 & Hp2 & Hl2 & Hpay2); [lia|cbn [length be16]; lia|].
  exists b2. split; [done|]. split; [unfold same_buf in *; intuition congruence|]. split; [lia|]. split.
  - rewrite Hpay2, Hpay1. change (Z.to_nat 10) with 10%nat. unfold h. rewrite header_splice by done. unfold ip_packet_bytes, header_chksum. fold len. fold h. by rewrite Hc.
  - unfold be16 in Hw. by rewrite Hw.
Qed.

Lemma set_id_moves i n : ip_ok i -> moves [] i (set_id i n).
Proof. intros [H1 H2 H3 H4 H5 H6 H7 H8]. split; [by split|]. split; [by repeat split|done]. Qed.

(** Where a packet goes once it has its header. *)
Definition route_send (i : ip_info) (b : ebuf) (dst : bytes) : option ip_info :=
  if ip_addrisbcast dst then let? (b, e) := eth_send (eth_info i) b eth_broadcast in Some (set_eth i (eth_free e b))
  else if ip_addriszero (ip_netmask (net_inf i)) then _arp_lookup_and_send i b dst
  else if ip_compareaddr (ip_mask dst (ip_netmask (net_inf i))) (ip_mask (ip_addr (net_inf i)) (ip_netmask (net_inf i)))
    then _arp_lookup_and_send i b dst
  else if ip_addriszero (ip_gateway (net_inf i)) then Some (set_eth i (eth_free (eth_info i) b))
  else _arp_lookup_and_send i b (ip_gateway (net_inf i)).

Lemma ip_send_route i b dst proto : ip_ok i -> holds b -> IPHDR_LENGTH <= eb_ptr b -> length dst = 4%nat ->
  exists b', holds b' /\ same_buf b b' /\ eb_ptr b' = eb_ptr b - IPHDR_LENGTH /\
    payload b' = ip_packet_bytes (wrap16 (ip_id i + 1)) proto (ip_addr (net_inf i)) dst (payload b) /\
    _ip_send i b dst proto = route_send (set_id i (wrap16 (ip_id i + 1))) b' dst.
Proof.
  intros Hok Hb Hp Hd. destruct (set_id_moves i (wrap16 (ip_id i + 1)) Hok) as (Hok' & _).
  destruct (ip_header_ok (set_id i (wrap16 (ip_id i + 1))) b dst proto (fun b => route_send (set_id i (wrap16 (ip_id i + 1))) b dst) Hok' Hb Hp Hd)
    as (b' & H1 & H2 & H3 & H4 & H5). exists b'. split; [done|]. split; [done|]. split; [done|]. split; [done|]. exact H5.
Qed.

Lemma ip_send_ok i b dst proto : ip_ok i -> holds b -> eb_port b = ip_port i -> IPHDR_LENGTH + ENET_DIX_HEADER <= eb_ptr b -> length dst = 4%nat ->
  exists i', _ip_send i b dst proto = Some i' /\ moves [eb_addr b] i i'.
Proof.
  intros Hok Hb Hpt Hp Hd. unfold IPHDR_LENGTH, ENET_DIX_HEADER in *.
  destruct (ip_send_route i b dst proto Hok Hb) as (b' & Hb' & [Ha Hpt'] & Hp' & _ & ->); [unfold IPHDR_LENGTH; lia|done|].
  pose proof (set_id_moves i (wrap16 (ip_id i + 1)) Hok) as Hm. set (i1 := set_id i _) in *. pose proof Hm as (Hok1 & Hc1 & _).
  assert (Hr : tx_ready (ip_port i1) b') by (apply (tx_ready_port _ _ _ Hc1); split; [done|congruence|unfold IPHDR_LENGTH, ENET_DIX_HEADER in *; lia]).
  assert (H : exists i', route_send i1 b' dst = Some i' /\ moves [eb_addr b'] i1 i').
  { unfold route_send. case_test.
    { destruct (send_moves i1 b' eth_broadcast Hok1 Hr) as (i2 & H1 & H2 & _); [done|]. by exists i2. }
    case_test; [by apply lookup_send_ok|]. case_test; [by apply lookup_send_ok|]. case_test; [|by apply lookup_send_ok; [..|apply Hok1]].
    eexists. split; [reflexivity|]. apply free_moves; [done|apply Hb']. }
  destruct H as (i2 & -> & Hm2). exists i2. split; [done|]. rewrite <- Ha. by eapply moves_0_trans.
Qed.

(** A buffer taken for a packet. *)
Lemma ip_alloc_ok i : ip_ok i ->
  (eth_freelist (eth_info i) = [] /\ _ip_alloc i = Some (None, i)) \/
  exists b i', _ip_alloc i = Some (Some b, i') /\ ip_ok i' /\ same_cfg i i' /\ owned i ≡ₚ eb_addr b :: owned i' /\
    holds b /\ eb_port b = ip_port i /\ eb_ptr b = IPHDR_LENGTH + ENET_DIX_HEADER /\ eb_length b = 0 /\ payload b = [].
Proof.
  intros Hok. unfold _ip_alloc. destruct (eth_freelist (eth_info i)) as [|b l] eqn:El.
  { left. split; [done|]. unfold eth_alloc. rewrite El. cbn. by rewrite set_eth_same. }
  right. pose proof (io_eth i Hok) as [He1 He2]. rewrite El in He2. apply Forall_cons in He2 as [Hb Hl].
  destruct (eth_alloc_ok _ _ _ b l (io_ip i Hok) El Hb) as (b1 & -> & Hb1 & Ha & Hp & Hptr & Hlen & Hpay). cbn [option_bind].
  eexists _, _. split; [reflexivity|]. destruct (ip_ok_eth i (set_freelist (eth_info i) l) Hok) as [H1 H2]; [by split|done|].
  split; [done|]. split; [done|]. split.
  { unfold owned, waiting, free_addrs. cbn. rewrite El, Ha. done. }
  unfold ENET_DIX_HEADER, IPHDR_LENGTH in *. cbn. change (wrap32 0) with 0. split; [split; cbn; change (wrap32 0) with 0; [apply Hb1|lia|lia|unfold eb_size; lia]|].
  split; [done|]. split; [lia|done].
Qed.

(** * Receiving *)

Lemma get_raw b n : sized b -> 0 <= eb_ptr b -> 0 <= n -> eb_ptr b + n <= Z.of_nat eb_size ->
  ebuf_get_bytes b n = Some (take (Z.to_nat n) (drop (Z.to_nat (eb_ptr b)) (eb_data b)), ebuf_skip b n).
Proof. intros H1 H2 H3 H4. unfold ebuf_get_bytes. by rewrite eb_read_ok. Qed.

Definition packet_buf (p : ip_packet) : ebuf := match p with IpDrop b | IpData _ _ _ b => b end.

(** Whatever is received, parsing reads no byte outside the buffer. *)
Lemma ip_parse_ok i b : sized b -> eb_ptr b = ENET_DIX_HEADER ->
  exists p, ip_parse i b = Some p /\ eb_addr (packet_buf p) = eb_addr b /\ sized (packet_buf p).
Proof.
  intros Hb Hp. unfold ip_parse, ebuf_get_u16_be, ebuf_get_u8, ENET_DIX_HEADER, IPHDR_LENGTH, IP_ADDR_LEN in *.
  assert (Hraw : forall c n, sized c -> 0 <= eb_ptr c <= 100 -> 0 <= n <= 100 ->
    ebuf_get_bytes c n = Some (take (Z.to_nat n) (drop (Z.to_nat (eb_ptr c)) (eb_data c)), ebuf_skip c n)) by (intros c n H1 H2 H3; apply get_raw; unfold eb_size; done || lia).
  rewrite Hraw by (done || lia). cbn [option_bind]. set (v := of_be _). case_test; [by eexists|]. case_test; [by eexists|].
  assert (Hhl : 0 <= Z.land v 15 <= 15) by (pose proof (Z.land_ones v 4 ltac:(lia)) as Hv; change (Z.ones 4) with 15 in Hv; rewrite Hv; pose proof (Z.mod_pos_bound v (2 ^ 4)); lia).
  rewrite eb_read_ok by (done || (unfold eb_size; cbn; lia)). cbn [option_bind].
  rewrite eb_write_ok by (done || (unfold eb_size; cbn; lia)). cbn [option_bind]. set (b1 := ebuf_store _ _).
  assert (Hb1 : sized b1) by (unfold sized in *; unfold b1; cbn -[Z.to_nat]; unfold eb_size in *; rewrite length_splice; [done|cbn [length]; lia]).
  assert (Hp1 : eb_ptr b1 = 15) by (cbn; lia). assert (Ha1 : eb_addr b1 = eb_addr b) by done.
  unfold chksum_at. rewrite (proj2 (Z.ltb_ge _ _)) by lia. rewrite eb_read_ok by (done || (unfold eb_size; lia)). cbn [option_bind].
  destruct (ip_chksum_total 0 (take (Z.to_nat (Z.land v 15 * 4)) (drop (Z.to_nat (eb_ptr b)) (eb_data b1)))) as (c & -> & _); [lia|]. cbn [option_bind].
  case_test; [by eexists|]. clearbody b1. rewrite Hraw by (done || (cbn; lia)). cbn [option_bind]. rewrite Hraw by (done || (cbn; lia)). cbn [option_bind]. case_test; [by eexists|].
  do 3 (rewrite Hraw by (done || (cbn; lia)); cbn [option_bind]). case_test; by eexists.
Qed.

(** * A host and its buffers *)

(** What the rest of the boot loader does with the layer: it sends packets, keeps buffers
    for a while, polls the device, lets time pass, and changes the configuration and the
    table.  [keep] is whether the protocol above keeps a packet it is given. *)
Inductive ip_op :=
  | OSend (data dst : bytes) (proto : Z)
  | OHold
  | OFree (k : nat)
  | OPoll (input : rx_input) (keep : bool)
  | OTick
  | OArpAdd (ip hw : bytes)
  | OArpLookup (ip : bytes)
  | OArpDelete (ip : bytes)
  | OSetAddr (ip : bytes)
  | OSetMask (mask : bytes)
  | OSetGateway (ip : bytes)
  | ORegister (proto cb : Z)
  | ODeregister (proto : Z).

Abbreviation host := (ip_info * list ebuf)%type.

Definition protocol_above (keep : bool) (cb ref : Z) (w : host) (b : ebuf) (dst src : bytes) : option (rx_result * host) :=
  if keep then Some (Kept, (w.1, w.2 ++ [b])) else Some (Dropped b, w).

Definition set_host_ip (w : host) (i : ip_info) : host := (i, w.2).

Definition ip_step (o : ip_op) (w : host) : option host :=
  let '(i, held) := w in
  match o with
  | OSend data dst proto =>
      let? (b, i) := _ip_alloc i in
      match b with
      | None => Some (i, held)
      | Some b => let? b := ebuf_append_bytes b data in let? i := _ip_send i b dst proto in Some (i, held)
      end
  | OHold => let? (b, i) := _ip_alloc i in Some (i, match b with None => held | Some b => held ++ [b] end)
  | OFree k => match held !! k with None => Some w | Some b => Some (_ip_free i b, delete k held) end
  | OPoll input keep => net_poll fst set_host_ip (protocol_above keep) w input
  | OTick => let? i := _ip_timer_tick i in Some (i, held)
  | OArpAdd ip hw => let? i := _arp_add i ip hw in Some (i, held)
  | OArpLookup ip => let? (_, i) := _arp_lookup i ip in Some (i, held)
  | OArpDelete ip => let? (_, i) := _arp_delete i ip in Some (i, held)
  | OSetAddr ip => let? (_, i) := _ip_setparam i NET_IPADDR (Some ip) true 0 in Some (i, held)
  | OSetMask m => let? (_, i) := _ip_setparam i NET_NETMASK (Some m) true 0 in Some (i, held)
  | OSetGateway ip => let? (_, i) := _ip_setparam i NET_GATEWAY (Some ip) true 0 in Some (i, held)
  | ORegister proto cb => Some (_ip_register i proto cb 0, held)
  | ODeregister proto => Some (_ip_deregister i proto, held)
  end.

Fixpoint ip_run (os : list ip_op) (w : host) : option host :=
  match os with [] => Some w | o :: os => let? w := ip_step o w in ip_run os w end.

(** Addresses have their lengths, and a packet fits its buffer. *)
Definition ip_op_ok (o : ip_op) : Prop :=
  match o with
  | OSend data dst _ => (length data <= eb_size - 34)%nat /\ length dst = 4%nat
  | OArpAdd ip hw => length ip = 4%nat /\ length hw = 6%nat
  | OSetAddr ip | OSetMask ip | OSetGateway ip => (4 <= length ip)%nat
  | _ => True
  end.

Definition host_ok (w : host) : Prop := ip_ok w.1 /\ Forall sized w.2.
Definition buffers (w : host) : list Z := owned w.1 ++ map eb_addr w.2.

Lemma moves_host i i' held : moves [] i i' -> Forall sized held -> host_ok (i', held) /\ buffers (i', held) ≡ₚ buffers (i, held).
Proof. intros (H1 & _ & H3) H. split; [done|]. unfold buffers. cbn. by rewrite H3. Qed.

Lemma owned_same_eth i e : eth_freelist e = eth_freelist (eth_info i) -> owned (set_eth i e) = owned i.
Proof. intros H. unfold owned, free_addrs. cbn. by rewrite H. Qed.

(** Taking a buffer from the free list of a host. *)
Lemma taken_ok i held b l : ip_ok i -> eth_freelist (eth_info i) = b :: l ->
  let i' := set_eth i (set_freelist (eth_info i) l) in ip_ok i' /\ sized b /\ buffers (i, held) = eb_addr b :: buffers (i', held).
Proof.
  intros Hok El. pose proof (io_eth i Hok) as [H1 H2]. rewrite El in H2. apply Forall_cons in H2 as [Hb Hl].
  destruct (ip_ok_eth i (set_freelist (eth_info i) l) Hok) as [H3 _]; [by split|done|].
  split; [done|]. split; [done|]. unfold buffers, owned, waiting, free_addrs. cbn. by rewrite El.
Qed.

Lemma freed_ok i held b : ip_ok i -> Forall sized held -> sized b ->
  let w := (set_eth i (eth_free (eth_info i) b), held) in host_ok w /\ buffers w ≡ₚ eb_addr b :: buffers (i, held).
Proof.
  intros Hok Hh Hb. destruct (free_moves i b Hok Hb) as (H1 & _ & H3). split; [done|]. unfold buffers. cbn [fst snd]. by rewrite H3.
Qed.

Lemma findport_sized e b p b' : eth_findport e b = Some (p, b') -> sized b -> sized b' /\ eb_addr b' = eb_addr b /\
  (p <> None -> eb_ptr b' = eb_ptr b + ENET_DIX_HEADER /\ eb_length b' = wrap32 (eb_length b - ENET_DIX_HEADER) /\ 60 <= eb_length b).
Proof.
  unfold eth_findport. intros H Hb. destruct (eb_read b (eb_ptr b + 6) 1); [|done]. destruct (truthy _); [by injection H as <- <-|].
  destruct (Z.ltb_spec (eb_length b) 60); [by injection H as <- <-|]. destruct (eb_read b _ 2); [|done]. destruct (findport_loop _ _ _); injection H as <- <-; [|done].
  split; [done|]. done.
Qed.

Lemma findport_total e b : sized b -> eb_ptr b = 0 -> exists p b', eth_findport e b = Some (p, b').
Proof.
  intros Hb Hp. unfold eth_findport. rewrite Hp, eb_read_ok by (done || (unfold eb_size; lia)). cbn [option_bind]. case_test; [by eexists _, _|].
  case_test; [by eexists _, _|]. rewrite eb_read_ok by (done || (unfold eb_size; lia)). cbn [option_bind]. destruct (findport_loop _ _ _); by eexists _, _.
Qed.

Lemma findport_cb e b i p b' : eth_findport e b = Some (Some (i, p), b') ->
  ep_rxcallback p <> 0 /\ p ∈ eth_ports e.
Proof.
  unfold eth_findport. destruct (eb_read b (eb_ptr b + 6) 1); [|done]. destruct (truthy _); [done|]. destruct (_ <? 60); [done|].
  destruct (eb_read b _ 2) as [proto|]; [|done]. destruct (findport_loop _ _ _) as [[j q]|] eqn:E; [|done]. intros [= <- <- _].
  revert E. generalize 0%nat. induction (eth_ports e) as [|r ps IH]; intros n; cbn; [done|]. destruct (_ && _ && _) eqn:Ec.
  - intros [= _ ->]. apply andb_prop in Ec as [[Ec _]%andb_prop _]. unfold truthy in Ec. apply negb_true_iff, Z.eqb_neq in Ec. split; [done|by left].
  - intros H. apply IH in H as [H1 H2]. split; [done|by right].
Qed.

(** A frame as it lies in a buffer. *)
Lemma frame_holds b frame : sized b -> exists b', eb_write (ebuf_init_rx b) 0 (take (Z.to_nat ENET_MAX_PKT) frame) = Some b' /\
  let b' := ebuf_setlength b' (Z.min (Z.of_nat (length frame)) ENET_MAX_PKT) in
  holds b' /\ eb_addr b' = eb_addr b /\ eb_ptr b' = 0 /\ eb_length b' = Z.min (Z.of_nat (length frame)) ENET_MAX_PKT /\
  payload b' = take (Z.to_nat ENET_MAX_PKT) frame.
Proof.
  intros Hb. unfold ENET_MAX_PKT. rewrite eb_write_ok by (try done; unfold eb_size; rewrite ?length_take; lia). eexists. split; [reflexivity|].
  assert (Hl : wrap32 (Z.min (Z.of_nat (length frame)) 1514) = Z.min (Z.of_nat (length frame)) 1514) by (apply wrap32_small; lia).
  unfold sized in Hb. cbn -[Z.to_nat]. rewrite Hl. unfold eb_size in *.
  split; [split; cbn -[Z.to_nat]; rewrite ?Hl; rewrite ?length_splice; rewrite ?length_take; unfold eb_size; lia|].
  split; [done|]. split; [done|]. split; [done|]. unfold payload. cbn -[Z.to_nat]. rewrite Hl. change (Z.to_nat 0) with 0%nat. rewrite drop_0.
  unfold splice. rewrite take_0, app_nil_l. apply take_app_length'. rewrite length_take. lia.
Qed.

Lemma poll_ok i held input keep : ip_ok i -> Forall sized held ->
  exists w, net_poll fst set_host_ip (protocol_above keep) (i, held) input = Some w /\ host_ok w /\ buffers w ≡ₚ buffers (i, held).
Proof.
  intros Hok Hh. unfold net_poll, eth_poll. cbn [fst].
  assert (Hsame : exists w, Some (i, held) = Some w /\ host_ok w /\ buffers w ≡ₚ buffers (i, held)) by (by eexists).
  assert (Hfree : forall i1 b b', eth_freelist (eth_info i) = b :: eth_freelist (eth_info i1) -> i1 = set_eth i (set_freelist (eth_info i) (eth_freelist (eth_info i1))) ->
     eb_addr b' = eb_addr b -> sized b' -> forall i2, moves [] i1 i2 ->
     exists w, Some (set_eth i2 (eth_free (eth_info i2) b'), held) = Some w /\ host_ok w /\ buffers w ≡ₚ buffers (i, held)).
  { intros i1 b b' El Hi1 Ha Hb' i2 Hm. destruct (taken_ok i held b _ Hok El) as (H1 & H2 & H3). rewrite <- Hi1 in H1, H3.
    destruct (freed_ok i2 held b' (proj1 Hm) Hh Hb') as [H4 H5]. eexists. split; [reflexivity|]. split; [done|]. rewrite H5, H3, Ha.
    destruct (moves_host i1 i2 held Hm Hh) as [_ ->]. done. }
  destruct input as [| |frame]; [exact Hsame| |]; destruct (eth_freelist (eth_info i)) as [|b l] eqn:El; try exact Hsame; cbn [set_host_ip fst snd];
    set (i1 := set_eth i (set_freelist (eth_info i) l)); destruct (taken_ok i held b l Hok El) as (Hok1 & Hb & _); fold i1 in Hok1.
  - cbn [eth_info set_eth]. apply (Hfree i1 b); [done|done|done|done|by apply moves_refl].
  - destruct (frame_holds b frame Hb) as (b1 & Hw & Hb1 & Ha1 & Hp1 & Hl1 & _). change (eb_ptr (ebuf_init_rx b)) with 0. rewrite Hw. cbn [option_bind]. set (b2 := ebuf_setlength b1 _) in *.
    destruct (findport_total (eth_info i1) b2) as (p & b3 & Hf); [apply Hb1|done|]. rewrite Hf. cbn [option_bind].
    destruct (findport_sized _ _ _ _ Hf (h_size _ Hb1)) as (Hs3 & Ha3 & Hp3). destruct p as [[n p]|].
    2:{ apply (Hfree i1 b); [done|done|congruence|done|by apply moves_refl]. }
    destruct (Hp3 ltac:(done)) as (Hptr & Hlen & H60). destruct (findport_cb _ _ _ _ _ Hf) as [Hcb0 Hcb].
    pose proof (proj1 (Forall_forall _ _) (io_cbs i1 Hok1) p Hcb) as Hcbs. cbn beta in Hcbs. unfold ENET_DIX_HEADER, ENET_MAX_PKT in *.
    set (b4 := Ebuf _ _ _ _ _ _). assert (Hb4 : holds b4).
    { split; cbn [eb_data eb_ptr eb_length b4]; [done|lia| |]; rewrite Hlen, wrap32_small by lia; [lia|]. unfold eb_size. lia. }
    assert (Ha4 : eb_addr b4 = eb_addr b) by (cbn; congruence). unfold net_rx. destruct Hcbs as [?|[->| ->]]; [done| |].
    + cbn [Z.eqb arp_cb Pos.eqb set_host_ip fst snd]. destruct (arp_rx_ok i1 b4 Hok1 Hb4) as (b5 & i2 & -> & Hb5 & Ha5 & Hm). cbn [option_bind].
      apply (Hfree i1 b); try done. congruence.
    + change (set_host_ip (i, held) i1) with (i1, held). cbn [Z.eqb arp_cb ip_cb Pos.eqb]. unfold ip_rx_callback. cbn [fst].
      destruct (ip_parse_ok i1 b4) as (pk & -> & Hpa & Hps); [done|change (eb_ptr b3 = 14); lia|]. cbn [option_bind].
      destruct pk as [b5|proto dst src b5]; cbn [packet_buf] in *.
      * cbn [option_bind]. apply (Hfree i1 b); try done; first [congruence|by apply moves_refl].
      * destruct (find_protocol _ _) as [pd|]; [|cbn [option_bind]; apply (Hfree i1 b); try done; first [congruence|by apply moves_refl]].
        unfold protocol_above. destruct keep; cbn [option_bind]; [|apply (Hfree i1 b); try done; first [congruence|by apply moves_refl]].
        eexists. split; [reflexivity|]. split; [split; [done|cbn; apply Forall_app; by split; [|constructor]]|].
        destruct (taken_ok i held b l Hok El) as (_ & _ & H3). rewrite H3. fold i1. unfold buffers. cbn [fst snd]. rewrite map_app. cbn.
        rewrite Hpa, Ha4. solve_Permutation.
Qed.

Lemma set_net_ok i n : ip_ok i -> length (ip_addr n) = 4%nat -> length (ip_gateway n) = 4%nat -> ip_ok (set_net i n) /\ owned (set_net i n) = owned i.
Proof. intros [H1 H2 H3 H4 H5 H6 H7 H8] L1 L2. by split. Qed.

Lemma set_protocols_ok i ps : ip_ok i -> ip_ok (set_protocols i ps) /\ owned (set_protocols i ps) = owned i.
Proof. intros [H1 H2 H3 H4 H5 H6 H7 H8]. by split. Qed.

Lemma take_4 (s : bytes) : (4 <= length s)%nat -> length (take 4 s) = 4%nat.
Proof. intros H. rewrite length_take. lia. Qed.

Lemma send_step_ok i held data dst proto : ip_ok i -> Forall sized held -> ip_op_ok (OSend data dst proto) ->
  exists w, ip_step (OSend data dst proto) (i, held) = Some w /\ host_ok w /\ buffers w ≡ₚ buffers (i, held).
Proof.
  intros Hok Hh [L1 L2]. cbn [ip_step]. destruct (ip_alloc_ok i Hok) as [[_ ->]|(b & i1 & -> & Hok1 & Hc1 & Ho1 & Hb & Hp & Hptr & Hl & _)].
  { by eexists. }
  cbn [option_bind]. unfold eb_size, IPHDR_LENGTH, ENET_DIX_HEADER in *.
  destruct (append_ok b data Hb) as (b1 & -> & Hb1 & [Ha Hp1] & Hptr1 & _); [unfold eb_size; lia|]. cbn [option_bind].
  destruct (ip_send_ok i1 b1 dst proto Hok1 Hb1) as (i2 & -> & Hm); [destruct Hc1 as (_ & -> & _); congruence|unfold IPHDR_LENGTH, ENET_DIX_HEADER; lia|done|].
  eexists. split; [reflexivity|]. destruct Hm as (H1 & _ & H3). split; [done|]. unfold buffers. cbn [fst snd]. by rewrite H3, Ho1, Ha.
Qed.

Lemma ip_step_ok o w : host_ok w -> ip_op_ok o -> exists w', ip_step o w = Some w' /\ host_ok w' /\ buffers w' ≡ₚ buffers w.
Proof.
  destruct w as [i held]. intros [Hok Hh] Ho. cbn [fst snd] in *.
  assert (Hmv : forall i', moves [] i i' -> exists w', Some (i', held) = Some w' /\ host_ok w' /\ buffers w' ≡ₚ buffers (i, held)).
  { intros i' Hm. destruct (moves_host i i' held Hm Hh). by eexists. }
  assert (Hsm : forall i', ip_ok i' /\ owned i' = owned i -> exists w', Some (i', held) = Some w' /\ host_ok w' /\ buffers w' ≡ₚ buffers (i, held)).
  { intros i' [H1 H2]. eexists. split; [reflexivity|]. split; [done|]. unfold buffers. cbn [fst snd]. by rewrite H2. }
  destruct o as [data dst proto| |k|input keep| |ip hw|ip|ip|ip|m|ip|proto cb|proto]; cbn [ip_step ip_op_ok] in *.
  - by apply send_step_ok.
  - destruct (ip_alloc_ok i Hok) as [[_ ->]|(b & i1 & -> & Hok1 & Hc1 & Ho1 & Hb & _)]; cbn [option_bind].
    + by eexists.
    + eexists. split; [reflexivity|]. split; [split; [done|cbn; apply Forall_app; split; [done|constructor; [apply Hb|constructor]]]|].
      unfold buffers. cbn [fst snd]. rewrite map_app, Ho1. cbn. solve_Permutation.
  - destruct (held !! k) as [b|] eqn:Ek; [|by eexists]. assert (Hb : sized b) by (by eapply Forall_lookup_1).
    eexists. split; [reflexivity|]. unfold _ip_free. destruct (freed_ok i (delete k held) b Hok) as [H1 H2]; [by apply Forall_delete|done|].
    split; [done|]. rewrite H2. unfold buffers. cbn [fst snd]. rewrite (delete_Permutation held k b Ek) at 2. cbn. solve_Permutation.
  - by apply poll_ok.
  - destruct (timer_tick_ok i Hok) as (i1 & Hi & Hm). unfold _ip_timer_tick. rewrite Hi. by apply Hmv.
  - destruct Ho as [L1 L2]. destruct (arp_add_ok i ip hw Hok L1 L2) as (i1 & -> & Hm). by apply Hmv.
  - destruct (arp_lookup_ok i ip Hok) as (r & i1 & -> & Hm). by apply Hmv.
  - destruct (arp_delete_ok i ip Hok) as (r & i1 & -> & Hm). by apply Hmv.
  - cbn [_ip_setparam]. set (n := NetInfo _ _ _ _ _ _). destruct (set_net_ok i n Hok (take_4 _ Ho) (io_gw i Hok)) as [H1 H2].
    unfold _arp_send_gratuitous. destruct (ip_addriszero _); cbn [option_bind]; [by apply Hsm|].
    destruct (arp_tx_query_ok (set_net i n) (ip_addr n) H1 (take_4 _ Ho)) as (i2 & E & Hm & _). cbn [net_inf set_net] in *. rewrite E. cbn [option_bind].
    destruct (moves_host _ i2 held Hm Hh) as [G1 G2]. eexists. split; [reflexivity|]. split; [done|]. rewrite G2. unfold buffers. cbn [fst snd]. by rewrite H2.
  - cbn [_ip_setparam option_bind]. apply Hsm, set_net_ok; [done|apply Hok|apply Hok].
  - cbn [_ip_setparam option_bind]. apply Hsm, set_net_ok; [done|apply Hok|by apply take_4].
  - apply Hsm, set_protocols_ok. done.
  - apply Hsm, set_protocols_ok. done.
Qed.

Lemma ip_run_ok os w : host_ok w -> Forall ip_op_ok os -> exists w', ip_run os w = Some w' /\ host_ok w' /\ buffers w' ≡ₚ buffers w.
Proof.
  intros Hw Ho. revert w Hw. induction Ho as [|o os Ho _ IH]; intros w Hw; cbn [ip_run]; [by eexists|].
  destruct (ip_step_ok o w Hw Ho) as (w1 & -> & Hw1 & Hb1). cbn [option_bind]. destruct (IH w1 Hw1) as (w2 & -> & Hw2 & Hb2).
  eexists. split; [reflexivity|]. split; [done|]. by rewrite Hb2.
Qed.

(** A freshly initialised host. *)
Definition table_ok (t : list arpentry) : Prop :=
  length t = ARP_TABLE_SIZE /\ Forall (fun ae => length (ae_ipaddr ae) = 4%nat /\ length (ae_ethaddr ae) = 6%nat) t.

Lemma ip_init_ok dev hw pool size data t : length hw = 6%nat -> (forall n, length (data n) = eb_size) -> table_ok t ->
  exists i e, _ip_init (eth_init dev hw pool size data) true (Some t) = Some (Some i, e) /\ ip_ok i /\
    owned i = map (fun n => pool + Z.of_nat n * size) (seq 0 ETH_MAX_BUFFERS).
Proof.
  intros Hhw Hdata [Ht1 Ht2]. eexists _, _. split; [reflexivity|]. split.
  - split; cbn; try done.
    + split; [done|]. cbn. repeat constructor; apply Hdata.
    + by eexists.
    + by eexists.
    + eexists. split; [reflexivity|]. split; [by rewrite length_map|]. apply Forall_map. eapply Forall_impl; [exact Ht2|]. intros ae [? ?]. split; cbn; try done. lia.
    + repeat (apply Forall_cons_2; [cbn; auto|]). constructor.
  - unfold owned, waiting, free_addrs, queued. cbn -[seq]. rewrite !map_map. cbn -[seq].
    replace (concat (map _ t)) with (@nil ebuf); [by rewrite app_nil_r|]. clear. induction t as [|ae t IH]; [done|]. cbn. done.
Qed.

(** C26 No packet buffer is lost or freed twice: from the initialisation of the network on,
    whatever is sent and received, whatever frames the device delivers, however time passes and
    addresses are added, looked up and deleted, every call returns without leaving a buffer's
    data, provided what is sent fits its buffer, and the eight buffers are at every moment
    divided between the free list, the packets that wait in the ARP table (two at most for an address) and those the protocols
    above hold. *)
Theorem ip_buffers_conserved dev hw pool size data t os i e : length hw = 6%nat -> (forall n, length (data n) = eb_size) -> table_ok t ->
  _ip_init (eth_init dev hw pool size data) true (Some t) = Some (Some i, e) -> Forall ip_op_ok os ->
  exists i' held, ip_run os (i, []) = Some (i', held) /\
    free_addrs (eth_info i') ++ waiting i' ++ map eb_addr held ≡ₚ map (fun n => pool + Z.of_nat n * size) (seq 0 ETH_MAX_BUFFERS) /\
    exists t', arp_table i' = Some t' /\ Forall (fun ae => (length (ae_txqueue ae) <= 2)%nat) t'.
Proof.
  intros Hhw Hd Ht Hi Hos. destruct (ip_init_ok dev hw pool size data t Hhw Hd Ht) as (i0 & e0 & E & Hok & Ho).
  assert (i0 = i) as -> by congruence. destruct (ip_run_ok os (i, [])) as ([i' held] & Hr & [Hok' _] & Hb); [by split|done|].
  exists i', held. split; [done|]. split.
  - unfold buffers in Hb. cbn [fst snd map] in Hb. rewrite app_nil_r, Ho in Hb. unfold owned in Hb. by rewrite <- app_assoc in Hb.
  - destruct (io_table i' Hok') as (t' & Ht' & _ & Hall). exists t'. split; [done|]. eapply Forall_impl; [exact Hall|]. intros ae [? ? ? ? ?]. done.
Qed.

Definition ex_table : list arpentry := replicate 8 (Ae ae_unused 0 0 0 false [0; 0; 0; 0] [0; 0; 0; 0; 0; 0] []).
Definition ex_hw : bytes := [0; 16; 24; 1; 2; 3].
Definition ex_ip (e : ether_info) : ip_info :=
  match _ip_init e true (Some ex_table) with Some (Some i, _) => i | _ => IpInfo (NetInfo [] [] [] [] None None) e 0 0 [] None 0 [] end.
Definition ex_eth : ether_info := eth_init 1 ex_hw 4096 1600 (fun _ => replicate eb_size 0).

(** A host that sends to an unknown address, gets the answer, and keeps a packet. *)
Definition ex_reply : bytes :=
  ex_hw ++ [0; 16; 24; 9; 9; 9] ++ [8; 6] ++ arp_message 2 [0; 16; 24; 9; 9; 9] [10; 0; 0; 2] ex_hw [10; 0; 0; 1] ++ replicate 18 0.
Definition ex_ip_ops : list ip_op :=
  [OSetAddr [10; 0; 0; 1]; OSend [1; 2; 3] [10; 0; 0; 2] 17; OSend [4; 5] [10; 0; 0; 2] 17; OHold; OPoll (RxFrame ex_reply) false; OTick; OFree 0].

Lemma ip_buffers_conserved_witness : exists i' held,
  ip_run ex_ip_ops (ex_ip ex_eth, []) = Some (i', held) /\
  free_addrs (eth_info i') ++ waiting i' ++ map eb_addr held ≡ₚ [4096; 5696; 7296; 8896; 10496; 12096; 13696; 15296] /\
  exists t', arp_table i' = Some t' /\ Forall (fun ae => (length (ae_txqueue ae) <= 2)%nat) t'.
Proof.
  apply (ip_buffers_conserved 1 ex_hw 4096 1600 (fun _ => replicate eb_size 0) ex_table ex_ip_ops _ (eth_info (ex_ip ex_eth))).
  - reflexivity.
  - intros n. apply length_replicate.
  - split; [reflexivity|]. repeat constructor.
  - vm_compute. reflexivity.
  - repeat (constructor; [cbn; try split; unfold eb_size; cbn; lia|]); constructor.
Defined.

(** * Delivery *)


(** Where a packet to [dst] goes: the hardware address it is sent to at once. *)
Definition resolved (i : ip_info) (hop hw : bytes) : Prop :=
  exists t n ae, arp_table i = Some t /\ find_loop 0 t hop = Some n /\ t !! n = Some ae /\ ae_state ae = ae_established /\ ae_ethaddr ae = hw.

Definition goes_to (i : ip_info) (dst hw : bytes) : Prop :=
  if ip_addrisbcast dst then hw = eth_broadcast
  else if ip_addriszero (ip_netmask (net_inf i)) then resolved i dst hw
  else if ip_compareaddr (ip_mask dst (ip_netmask (net_inf i))) (ip_mask (ip_addr (net_inf i)) (ip_netmask (net_inf i))) then resolved i dst hw
  else ip_addriszero (ip_gateway (net_inf i)) = false /\ resolved i (ip_gateway (net_inf i)) hw.

Definition ip_frame (i : ip_info) (hw dst data : bytes) (proto : Z) : bytes :=
  hw ++ eth_hwaddr (eth_info i) ++ [8; 0] ++ ip_packet_bytes (wrap16 (ip_id i + 1)) proto (ip_addr (net_inf i)) dst data.

Lemma lookup_send_wire i b hop hw : ip_ok i -> tx_ready (ip_port i) b -> resolved i hop hw ->
  exists i', _arp_lookup_and_send i b hop = Some i' /\
    eth_wire (eth_info i') = eth_wire (eth_info i) ++ [hw ++ eth_hwaddr (eth_info i) ++ [8; 0] ++ payload b].
Proof.
  intros Hok Hb (t & n & ae & Ht & Hf & Hn & Hs & Hhw). unfold _arp_lookup_and_send, arp_find_entry. rewrite Ht. cbn [option_bind]. rewrite Hf, Hn. cbn [option_bind].
  pose proof (entry_lookup i t n ae Hok Ht Hn) as Hae. pose proof (lookup_lt_Some _ _ _ Hn) as Hlt. rewrite bool_decide_true by done. cbn [option_bind].
  unfold entry_at. cbn [arp_table set_table]. cbn [option_bind]. rewrite list_lookup_insert_eq by done. cbn [option_bind].
  rewrite bool_decide_true by done. unfold put_entry. cbn [arp_table set_table]. cbn [option_bind]. rewrite list_insert_insert_eq. set (ae1 := Ae _ _ _ _ _ _ _ _).
  match goal with |- context [eth_send (eth_info ?j) b _] => set (i2 := j) end.
  assert (Hok2 : ip_ok i2 /\ same_cfg i i2).
  { destruct (put_moves i (eth_info i) t n ae ae1 [] Hok Ht Hn) as (H1 & H2 & _); [destruct Hae; by split|apply Hok|done|done|]. unfold i2. destruct i. by split. }
  destruct Hok2 as [Hok2 Hc2]. destruct (send_moves i2 b (ae_ethaddr ae1) Hok2 (tx_ready_port _ _ _ Hc2 Hb)) as (i3 & E & _ & Hw); [apply Hae|].
  exists i3. split; [exact E|]. rewrite Hw. cbn. by rewrite Hhw.
Qed.

(** A packet whose next hop is known is put on the wire at once. *)
Lemma ip_send_wire i b dst hw proto : ip_ok i -> holds b -> eb_port b = ip_port i -> IPHDR_LENGTH + ENET_DIX_HEADER <= eb_ptr b ->
  length dst = 4%nat -> goes_to i dst hw ->
  exists i', _ip_send i b dst proto = Some i' /\ eth_wire (eth_info i') = eth_wire (eth_info i) ++ [ip_frame i hw dst (payload b) proto].
Proof.
  intros Hok Hb Hpt Hp Hd Hgo. unfold IPHDR_LENGTH, ENET_DIX_HEADER in *.
  destruct (ip_send_route i b dst proto Hok Hb) as (b' & Hb' & [Ha Hpt'] & Hp' & Hpay & ->); [unfold IPHDR_LENGTH; lia|done|].
  destruct (set_id_moves i (wrap16 (ip_id i + 1)) Hok) as (Hok1 & Hc1 & _). set (i1 := set_id i _) in *.
  assert (Hr : tx_ready (ip_port i1) b') by (apply (tx_ready_port _ _ _ Hc1); split; [done|congruence|unfold IPHDR_LENGTH, ENET_DIX_HEADER in *; lia]).
  assert (Hres : forall hop, resolved i hop hw -> exists i', _arp_lookup_and_send i1 b' hop = Some i' /\
    eth_wire (eth_info i') = eth_wire (eth_info i) ++ [ip_frame i hw dst (payload b) proto]).
  { intros hop H. destruct (lookup_send_wire i1 b' hop hw Hok1 Hr H) as (i2 & H1 & H2). exists i2. split; [done|]. rewrite H2, Hpay. done. }
  unfold goes_to in Hgo. unfold route_send. change (net_inf i1) with (net_inf i). case_test.
  { destruct (send_moves i1 b' eth_broadcast Hok1 Hr) as (i2 & H1 & _ & H3); [done|]. exists i2. split; [done|]. rewrite H3, Hgo, Hpay. done. }
  case_test; [by apply Hres|]. case_test; [by apply Hres|]. destruct Hgo as [-> Hgo]. by apply Hres.
Qed.

Lemma eb_read_at b i n : holds b -> 0 <= i -> 0 <= n -> i + n <= eb_length b ->
  eb_read b (eb_ptr b + i) n = Some (take (Z.to_nat n) (drop (Z.to_nat i) (payload b))).
Proof.
  intros [H1 H2 H3 H4] Hi Hn H. rewrite eb_read_ok by lia. f_equal. unfold payload. 
  apply list_eq. intros k. destruct (decide (k < Z.to_nat n)%nat); [|by rewrite !lookup_take_ge by lia].
  rewrite !lookup_take_lt, !lookup_drop, lookup_take_lt, lookup_drop by lia. f_equal. lia.
Qed.

Lemma write_skip b n i s : eb_write (ebuf_skip b n) i s = let? b := eb_write b i s in Some (ebuf_skip b n).
Proof. unfold eb_write. cbn [ebuf_skip ebuf_set eb_data]. by destruct (_ && _). Qed.

Lemma header_splice_any len id proto ck ck' src dst data : length ck = 2%nat -> length ck' = 2%nat ->
  splice (ip_header len id proto ck' src dst ++ data) 10 ck = ip_header len id proto ck src dst ++ data.
Proof.
  intros H H'. destruct ck as [|c1 [|c2 [|]]]; [done..| |done]. destruct ck' as [|d1 [|d2 [|]]]; [done..| |done].
  unfold splice, ip_header, be16. cbn [app]. by rewrite <- !app_assoc.
Qed.

Lemma header_chksum_range len id proto src dst : 0 <= header_chksum len id proto src dst < 65536.
Proof. unfold header_chksum. destruct (ip_chksum _ _); [apply wrap16_range|lia]. Qed.

(** Reading the next [n] bytes of a packet. *)
Lemma next_bytes b n P Q : holds b -> payload b = P ++ Q -> Z.of_nat (length P) = n ->
  holds (ebuf_skip b n) /\ eb_addr (ebuf_skip b n) = eb_addr b /\ payload (ebuf_skip b n) = Q /\
  ebuf_get_bytes b n = Some (P, ebuf_skip b n).
Proof.
  intros Hb HP Hn. pose proof (payload_length b Hb) as Hpc. rewrite HP, length_app in Hpc.
  destruct (skip_ok b n Hb) as (S1 & [S2 _] & S3 & S4); [lia|]. rewrite HP, drop_app_length' in S4 by lia.
  destruct (get_ok b n Hb) as (c1 & -> & ->); [lia|]. rewrite HP, take_app_length' by lia. done.
Qed.

(** The fields behind the length byte, up to the addresses. *)
Definition ip_fields (i : ip_info) (hdrlen : Z) (b : ebuf) : option ip_packet :=
  let b := ebuf_skip b 1 in
  let? (length, b) := ebuf_get_u16_be b in
  let b := ebuf_skip b 2 in
  let? (tmp16, b) := ebuf_get_u16_be b in
  if truthy (Z.land tmp16 (Z.lor IPHDR_FRAGOFFSET IPHDR_MOREFRAGMENTS)) then Some (IpDrop b)
  else
    let b := ebuf_skip b 1 in
    let? (proto, b) := ebuf_get_u8 b in
    let b := ebuf_skip b 2 in
    let? (srcip, b) := ebuf_get_bytes b IP_ADDR_LEN in
    let? (dstip, b) := ebuf_get_bytes b IP_ADDR_LEN in
    let b := ebuf_skip b (hdrlen - IPHDR_LENGTH) in
    let b := ebuf_setlength b (length - hdrlen) in
    if negb (ip_addriszero (ip_addr (net_inf i))) && negb (ip_compareaddr dstip (ip_addr (net_inf i))) &&
       negb (ip_addrisbcast dstip) then Some (IpDrop b)
    else Some (IpData proto dstip srcip b).

Lemma ip_fields_ok j b tos len id ttl proto ck src dst data pad : holds b ->
  payload b = [tos] ++ be16 len ++ id ++ [0; 0] ++ [ttl] ++ [proto] ++ ck ++ src ++ dst ++ data ++ pad ->
  length id = 2%nat -> length ck = 2%nat -> length src = 4%nat -> length dst = 4%nat -> 0 <= proto < 256 ->
  len = Z.of_nat (length data) + 20 -> len < 65536 ->
  ip_addriszero (ip_addr (net_inf j)) = true \/ ip_addr (net_inf j) = dst \/ ip_addrisbcast dst = true ->
  exists b', ip_fields j 20 b = Some (IpData proto dst src b') /\ holds b' /\ eb_addr b' = eb_addr b /\ payload b' = data.
Proof.
  intros H0 P0 Li Lc Ls Ld Hpr -> Hlen Hj. unfold ip_fields, ebuf_get_u8, ebuf_get_u16_be, IP_ADDR_LEN, IPHDR_LENGTH.
  destruct (next_bytes b 1 _ _ H0 P0) as (H1 & A1 & P1 & _); [done|]. revert H1 A1 P1. generalize (ebuf_skip b 1). intros b1 H1 A1 P1.
  destruct (next_bytes b1 2 _ _ H1 P1) as (H2 & A2 & P2 & ->); [done|]. revert H2 A2 P2. generalize (ebuf_skip b1 2). intros b2 H2 A2 P2. cbn [option_bind].
  destruct (next_bytes b2 2 _ _ H2 P2) as (H3 & A3 & P3 & _); [lia|]. revert H3 A3 P3. generalize (ebuf_skip b2 2). intros b3 H3 A3 P3.
  destruct (next_bytes b3 2 _ _ H3 P3) as (H4 & A4 & P4 & ->); [done|]. revert H4 A4 P4. generalize (ebuf_skip b3 2). intros b4 H4 A4 P4. cbn [option_bind].
  change (truthy (Z.land (of_be [0; 0]) _)) with false. cbv iota.
  destruct (next_bytes b4 1 _ _ H4 P4) as (H5 & A5 & P5 & _); [done|]. revert H5 A5 P5. generalize (ebuf_skip b4 1). intros b5 H5 A5 P5.
  destruct (next_bytes b5 1 _ _ H5 P5) as (H6 & A6 & P6 & ->); [done|]. revert H6 A6 P6. generalize (ebuf_skip b5 1). intros b6 H6 A6 P6. cbn [option_bind].
  destruct (next_bytes b6 2 _ _ H6 P6) as (H7 & A7 & P7 & _); [lia|]. revert H7 A7 P7. generalize (ebuf_skip b6 2). intros b7 H7 A7 P7.
  destruct (next_bytes b7 4 _ _ H7 P7) as (H8 & A8 & P8 & ->); [lia|]. revert H8 A8 P8. generalize (ebuf_skip b7 4). intros b8 H8 A8 P8. cbn [option_bind].
  destruct (next_bytes b8 4 _ _ H8 P8) as (H9 & A9 & P9 & ->); [lia|]. revert H9 A9 P9. generalize (ebuf_skip b8 4). intros b9 H9 A9 P9. cbn [option_bind].
  change (20 - 20) with 0. destruct (next_bytes b9 0 [] _ H9 P9) as (Hm & Am & Pm & _); [done|]. revert Hm Am Pm. generalize (ebuf_skip b9 0). intros bm Hm Am Pm.
  assert (Hg : (negb (ip_addriszero (ip_addr (net_inf j))) && negb (ip_compareaddr dst (ip_addr (net_inf j))) && negb (ip_addrisbcast dst)) = false).
  { destruct Hj as [-> |[-> | ->]]; [done| |by rewrite andb_false_r]. unfold ip_compareaddr. by rewrite bytes_eqb_refl, andb_false_r. }
  rewrite Hg, of_be_16 by lia. exists (ebuf_setlength bm (Z.of_nat (length data) + 20 - 20)). split; [reflexivity|].
  assert (Hw : wrap32 (Z.of_nat (length data) + 20 - 20) = Z.of_nat (length data)) by (rewrite wrap32_small; lia).
  pose proof (payload_length bm Hm) as Hbm. rewrite Pm, length_app in Hbm. destruct Hm as [G1 G2 G3 G4].
  split; [split; cbn [ebuf_setlength ebuf_set eb_data eb_ptr eb_length]; rewrite ?Hw; done || lia|].
  split; [cbn [ebuf_setlength ebuf_set eb_addr]; congruence|].
  unfold payload. cbn [ebuf_setlength ebuf_set eb_data eb_ptr eb_length]. rewrite Hw, Nat2Z.id. unfold payload in Pm.
  transitivity (take (length data) (data ++ pad)); [|apply take_app_length]. rewrite <- Pm, take_take. f_equal. clear - Hbm G4. lia.
Qed.

Lemma ip_header_ver len id proto ck src dst data : take 1 (ip_header len id proto ck src dst ++ data) = [0x45].
Proof. reflexivity. Qed.

Lemma ip_header_ck len id proto ck src dst data : length ck = 2%nat -> take 2 (drop 10 (ip_header len id proto ck src dst ++ data)) = ck.
Proof. intros H. destruct ck as [|c1 [|c2 [|]]]; done. Qed.

Lemma header_chksum_eq len id proto src dst : exists c, ip_chksum 0 (ip_header len id proto [0; 0] src dst) = Some c /\
  header_chksum len id proto src dst = not16 c.
Proof. destruct (ip_chksum_total 0 (ip_header len id proto [0; 0] src dst)) as (c & Hc & _); [lia|]. exists c. unfold header_chksum. by rewrite Hc. Qed.

(** Reading back a packet, whatever follows it in the frame: first the version, the length and
    the checksum, ... *)
Lemma ip_parse_checked j b id proto src dst data pad : holds b -> payload b = ip_packet_bytes id proto src dst data ++ pad ->
  length src = 4%nat -> length dst = 4%nat ->
  exists b', ip_parse j b = ip_fields j 20 b' /\ holds b' /\ eb_addr b' = eb_addr b /\
    payload b' = [0] ++ be16 (20 + Z.of_nat (length data)) ++ be16 id ++ [0; 0] ++ [100] ++ [wrap8 proto] ++ [0; 0] ++ src ++ dst ++ data ++ pad.
Proof.
  intros Hb Hpay Ls Ld. pose proof (payload_length b Hb) as Hpl. rewrite Hpay in Hpl. unfold ip_packet_bytes in Hpay, Hpl. revert Hpay Hpl.
  generalize (20 + Z.of_nat (length data)). intros len Hpay Hpl.
  destruct (header_chksum_eq len id proto src dst) as (c & Hc & Hck). pose proof (header_chksum_range len id proto src dst) as Hr.
  revert Hpay Hpl Hck Hr. generalize (header_chksum len id proto src dst). intros ck Hpay Hpl Hck Hr.
  assert (Hhl : forall c, length c = 2%nat -> length (ip_header len id proto c src dst) = 20%nat) by (intros; by apply ip_header_length).
  rewrite !length_app, Hhl in Hpl by done. rewrite <- app_assoc in Hpay. unfold ip_parse, ebuf_get_u8.
  destruct (get_ok b 1 Hb) as (b1 & -> & ->); [lia|]. cbn [option_bind].
  rewrite Hpay. change (Z.to_nat 1) with 1%nat. rewrite ip_header_ver.
  change (of_be [0x45]) with 0x45. change (negb (Z.land 0x45 0xF0 =? IPHDR_VER_4)) with false. change (Z.land 0x45 0x0F * 4) with 20. change (20 <? IPHDR_LENGTH) with false. cbv iota.
  change (eb_read (ebuf_skip b 1) (eb_ptr b + 10) 2) with (eb_read b (eb_ptr b + 10) 2). rewrite eb_read_at by (done || lia). cbn [option_bind].
  rewrite Hpay. change (Z.to_nat 10) with 10%nat. change (Z.to_nat 2) with 2%nat. rewrite ip_header_ck by done. rewrite of_be_16 by done.
  rewrite write_skip. destruct (write_ok b 10 [0; 0] Hb) as (b1 & -> & Hb1 & [Ha1 _] & Hp1 & Hl1 & Hpay1); [lia|cbn [length]; lia|]. cbn [option_bind].
  rewrite Hpay in Hpay1. change (Z.to_nat 10) with 10%nat in Hpay1. rewrite header_splice_any in Hpay1 by done.
  change (chksum_at 0 (ebuf_skip b1 1) (eb_ptr b) 20) with (chksum_at 0 b1 (eb_ptr b) 20). rewrite <- Hp1. unfold chksum_at. cbn [Z.ltb Z.compare].
  rewrite payload_take by (done || lia). cbn [option_bind]. rewrite Hpay1, take_app_length' by (rewrite Hhl; done). rewrite Hc. cbn [option_bind].
  rewrite Hck, Z.eqb_refl. cbn [negb]. exists (ebuf_skip b1 1). unfold ip_header in Hpay1. rewrite <- !app_assoc in Hpay1.
  destruct (next_bytes b1 1 [0x45] _ Hb1 Hpay1) as (H1 & A1 & P1 & _); [done|]. split; [reflexivity|]. split; [done|]. split; [congruence|]. by rewrite P1.
Qed.

(** ... then the fields. *)
Lemma ip_parse_packet j b id proto src dst data pad : holds b -> payload b = ip_packet_bytes id proto src dst data ++ pad ->
  length src = 4%nat -> length dst = 4%nat -> 0 <= proto < 256 -> Z.of_nat (length data) + 20 < 65536 ->
  ip_addriszero (ip_addr (net_inf j)) = true \/ ip_addr (net_inf j) = dst \/ ip_addrisbcast dst = true ->
  exists b', ip_parse j b = Some (IpData proto dst src b') /\ holds b' /\ eb_addr b' = eb_addr b /\ payload b' = data.
Proof.
  intros Hb Hpay Ls Ld Hpr Hlen Hj. destruct (ip_parse_checked j b id proto src dst data pad Hb Hpay Ls Ld) as (b1 & -> & Hb1 & A1 & P1).
  rewrite wrap8_small in P1 by done.
  destruct (ip_fields_ok j b1 _ _ _ _ _ _ _ _ _ _ Hb1 P1) as (b2 & E & H2 & A2 & P2); try done; try lia.
  exists b2. split; [exact E|]. split; [done|]. split; [congruence|done].
Qed.

(** C25 What one host sends another receives: a packet that fits a frame and whose next hop is in
    the ARP table is put on the wire at once, and a host with the destination's address that
    polls this frame, padded in any way by the network, hands the protocol registered for
    it exactly the bytes that were sent, with the addresses of both hosts, when it has a free
    buffer to receive into. *)
Theorem ip_delivers {W} (ip : W -> ip_info) (set_ip : W -> ip_info -> W) protocol i b dst proto hw pad w b0 l n p pd :
  (forall w i, ip (set_ip w i) = i) ->
  ip_ok i -> holds b -> eb_port b = ip_port i -> IPHDR_LENGTH + ENET_DIX_HEADER <= eb_ptr b -> length dst = 4%nat -> 0 <= proto < 256 ->
  goes_to i dst hw -> length hw = 6%nat -> Z.land (deref (eth_hwaddr (eth_info i))) 1 = 0 ->
  60 <= Z.of_nat (length (ip_frame i hw dst (payload b) proto ++ pad)) <= ENET_MAX_PKT ->
  ip_ok (ip w) -> eth_freelist (eth_info (ip w)) = b0 :: l ->
  ip_addriszero (ip_addr (net_inf (ip w))) = true \/ ip_addr (net_inf (ip w)) = dst \/ ip_addrisbcast dst = true ->
  findport_loop 0 (eth_ports (eth_info (ip w))) [8; 0] = Some (n, p) -> ep_rxcallback p = ip_cb ->
  find_protocol (ip_protocols (ip w)) proto = Some pd ->
  (exists i', _ip_send i b dst proto = Some i' /\
     eth_wire (eth_info i') = eth_wire (eth_info i) ++ [ip_frame i hw dst (payload b) proto]) /\
  exists b', holds b' /\ eb_addr b' = eb_addr b0 /\ payload b' = payload b /\
    net_poll ip set_ip protocol w (RxFrame (ip_frame i hw dst (payload b) proto ++ pad)) =
    let? (r, w) := protocol (pd_cb pd) (pd_ref pd) (set_ip w (set_eth (ip w) (set_freelist (eth_info (ip w)) l))) b' dst (ip_addr (net_inf i)) in
    match r with Dropped b => Some (set_ip w (set_eth (ip w) (eth_free (eth_info (ip w)) b))) | Kept => Some w end.
Proof.
  intros Hset Hi Hb Hpt Hp Hd Hpr Hgo Hhw Hmc Hlen Hj El Haddr Hfp Hcb Hpd.
  split; [by apply ip_send_wire|]. unfold ip_frame in *. rewrite <- !app_assoc in *.
  pose proof (io_addr i Hi) as Hla. pose proof (eo_hw _ (io_eth i Hi)) as Hle. pose proof (eo_free _ (io_eth _ Hj)) as Hfr. rewrite El in Hfr.
  apply Forall_cons in Hfr as [Hs0 _]. set (q := ip_packet_bytes _ _ _ _ _) in *. rewrite !length_app, Hle, Hhw in Hlen. unfold ENET_MAX_PKT in Hlen.
  assert (Hql : length q = (20 + length (payload b))%nat) by (unfold q, ip_packet_bytes; rewrite length_app, ip_header_length; done).
  unfold net_poll. destruct (eth_poll_frame (fun w => eth_info (ip w)) (fun w e => set_ip w (set_eth (ip w) e)) (net_rx ip set_ip protocol)
    w b0 l hw (eth_hwaddr (eth_info i)) [8; 0] (q ++ pad) n p) as (b1 & Hb1 & Ha1 & Hp1 & _ & ->); try done.
  { intros w' e. rewrite Hset. by destruct (ip w'). }
  { rewrite length_app. cbn [length] in Hlen. lia. }
  unfold net_rx. rewrite Hcb. change (ip_cb =? arp_cb) with false. change (ip_cb =? ip_cb) with true. cbv iota. unfold ip_rx_callback. rewrite Hset.
  destruct (ip_parse_packet (set_eth (ip w) (set_freelist (eth_info (ip w)) l)) b1 _ _ _ _ _ _ Hb1 Hp1) as (b2 & -> & Hb2 & Ha2 & Hp2); try done.
  { lia. }
  cbn [option_bind]. change (ip_protocols (set_eth (ip w) _)) with (ip_protocols (ip w)). rewrite Hpd. exists b2. split; [done|]. split; [congruence|]. by split.
Qed.

(** Two hosts: the first has learned the second's address, the second takes protocol 17. *)
Definition ex_far_hw : bytes := [0; 16; 24; 9; 9; 9].
Definition ex_host (hw : bytes) (os : list ip_op) : ip_info :=
  match ip_run os (ex_ip (eth_init 1 hw 4096 1600 (fun _ => replicate eb_size 0)), []) with Some (i, _) => i | None => ex_ip ex_eth end.
Definition ex_near : ip_info := ex_host ex_hw [OSetAddr [10; 0; 0; 1]; OSend [4; 5] [10; 0; 0; 2] 17; OPoll (RxFrame ex_reply) false].
Definition ex_far : ip_info := ex_host ex_far_hw [OSetAddr [10; 0; 0; 2]; ORegister 17 5].
Definition ex_packet : ip_info * ebuf :=
  match _ip_alloc ex_near with
  | Some (Some b, i) => (i, default b (ebuf_append_bytes b [1; 2; 3]))
  | _ => (ex_near, Ebuf 0 0 0 0 0 [])
  end.
Definition ex_dropping (cb ref : Z) (i : ip_info) (b : ebuf) (dst src : bytes) : option (rx_result * ip_info) := Some (Dropped b, i).

Lemma ex_ip_ok hw : length hw = 6%nat -> ip_ok (ex_ip (eth_init 1 hw 4096 1600 (fun _ => replicate eb_size 0))).
Proof.
  intros Hh. unfold ex_ip. destruct (ip_init_ok 1 hw 4096 1600 (fun _ => replicate eb_size 0) ex_table) as (i & e & -> & Hi & _); [done| | |done].
  - intros n. apply length_replicate.
  - split; [reflexivity|]. repeat constructor.
Qed.

Lemma ex_host_ok hw os : length hw = 6%nat -> Forall ip_op_ok os -> ip_ok (ex_host hw os).
Proof.
  intros Hh Ho. unfold ex_host. destruct (ip_run_ok os (ex_ip (eth_init 1 hw 4096 1600 (fun _ => replicate eb_size 0)), [])) as ([i held] & -> & [Hi _] & _); try done.
  split; [by apply ex_ip_ok|constructor].
Qed.

Lemma ex_near_ok : ip_ok ex_near.
Proof. apply ex_host_ok; [done|]. repeat (constructor; [cbn; lia|]). constructor. Qed.

Lemma ex_far_ok : ip_ok ex_far.
Proof. apply ex_host_ok; [done|]. repeat (constructor; [cbn; lia|]). constructor. Qed.

Lemma ex_packet_ok : ip_ok ex_packet.1 /\ holds ex_packet.2 /\ payload ex_packet.2 = [1; 2; 3].
Proof.
  unfold ex_packet. destruct (ip_alloc_ok ex_near ex_near_ok) as [[Hf _]|(b & i1 & -> & Hok1 & _ & _ & Hb & _ & Hptr & Hl & Hp0)]; [vm_compute in Hf; discriminate|].
  destruct (append_ok b [1; 2; 3] Hb) as (b1 & -> & Hb1 & _ & _ & _ & Hp); [rewrite Hptr, Hl; unfold eb_size, IPHDR_LENGTH, ENET_DIX_HEADER; cbn; lia|].
  cbn. by rewrite Hp, Hp0.
Qed.

Lemma ip_delivers_witness : exists i' b' far,
  _ip_send ex_packet.1 ex_packet.2 [10; 0; 0; 2] 17 = Some i' /\
  net_poll (fun i => i) (fun _ i => i) ex_dropping ex_far (RxFrame (ip_frame ex_packet.1 ex_far_hw [10; 0; 0; 2] [1; 2; 3] 17 ++ replicate 23 0)) = Some far /\
  payload b' = [1; 2; 3].
Proof.
  pose proof ex_packet_ok as (H1 & H2 & H3).
  destruct (eth_freelist (eth_info ex_far)) as [|b0 l] eqn:El; [vm_compute in El; discriminate|].
  destruct (ip_delivers (fun i => i) (fun _ i => i) ex_dropping ex_packet.1 ex_packet.2 [10; 0; 0; 2] 17 ex_far_hw (replicate 23 0) ex_far b0 l 1
    (EPort 1 [8; 0; 0; 0; 0; 0; 0; 0] ETH_PTYPE_DIX 1500 ip_cb 0) (Pdisp 17 5 0)) as ((i' & Hi & _) & b' & _ & _ & Hb & Hpoll).
  - done.
  - exact H1.
  - exact H2.
  - vm_compute; reflexivity.
  - vm_compute; discriminate.
  - done.
  - lia.
  - unfold goes_to. change (ip_addrisbcast _) with false. cbv iota.
    match goal with |- if ?c then _ else _ => replace c with true by (vm_compute; reflexivity) end. 
    exists (default [] (arp_table ex_packet.1)), 0%nat, (default (Ae ae_unused 0 0 0 false [] [] []) (default [] (arp_table ex_packet.1) !! 0%nat)).
    refine (conj _ (conj _ (conj _ (conj _ _)))); vm_compute; reflexivity.
  - done.
  - vm_compute; reflexivity.
  - rewrite H3. vm_compute. split; discriminate.
  - exact ex_far_ok.
  - exact El.
  - right; left; vm_compute; reflexivity.
  - vm_compute; reflexivity.
  - done.
  - vm_compute; reflexivity.
  - rewrite H3 in Hb, Hpoll. eexists _, _, _. split; [exact Hi|]. split; [exact Hpoll|exact Hb].
Defined.

(** * Resolution *)

Definition asks (ip : bytes) (ae : arpentry) : bool := negb (bool_decide (ae_state ae = ae_unused)) && bytes_eqb (ae_ipaddr ae) ip.
Definition resolve (hw ip : bytes) (ae : arpentry) : arpentry :=
  if asks ip ae then Ae ae_established (ae_usage ae) ARP_KEEP_TIMER 0 false (ae_ipaddr ae) hw [] else ae.
Definition released (ip : bytes) (t : list arpentry) : list ebuf := concat (map (fun ae => if asks ip ae then ae_txqueue ae else []) t).

Lemma respond_pass hw ip port e t : length hw = 6%nat -> eth_ok e -> dix e port [8; 0] -> Forall (entry_ok port) t ->
  exists e', table_pass (respond hw ip) e t = Some (map (resolve hw ip) t, e') /\ same_eth e e' /\
    free_addrs e' = free_addrs e ++ map eb_addr (released ip t) /\
    eth_wire e' = eth_wire e ++ map (fun b => hw ++ eth_hwaddr e ++ [8; 0] ++ payload b) (released ip t).
Proof.
  intros Hl He Hd Ht. revert e He Hd. induction Ht as [|ae t Hae Ht IH]; intros e He Hd; cbn [table_pass map released concat].
  { exists e. cbn. by rewrite !app_nil_r. }
  unfold respond at 1. fold (asks ip ae). unfold resolve at 1. destruct (asks ip ae) eqn:Ea.
  - unfold arp_tx_waiting. cbn [ae_txqueue ae_ethaddr].
    destruct (send_all_ok e (ae_txqueue ae) hw port [8; 0] He (en_queue _ _ Hae) Hd Hl) as (e2 & -> & G1 & G2 & G3 & G4). cbn [option_bind].
    destruct (IH e2 G1 (same_eth_dix _ _ _ _ G2 Hd)) as (e3 & -> & H2 & H3 & H4). cbn [option_bind]. exists e3. split; [done|]. split; [by etransitivity|].
    unfold released in *. rewrite H3, G3, H4, G4, !map_app, <- !app_assoc. destruct G2 as [_ ->]. done.
  - cbn [option_bind]. destruct (IH e He Hd) as (e3 & -> & H2 & H3 & H4). cbn [option_bind]. by exists e3.
Qed.

(** A reply resolves every entry that asks for its sender, and only those: they become
    established with the address of the reply, every packet that waited is put on the wire
    in the order it was queued, addressed to that host, and its buffer freed. *)
Theorem arp_reply_releases i hw ip t : ip_ok i -> length hw = 6%nat -> arp_table i = Some t ->
  exists i', arp_rx_response i hw ip = Some i' /\ arp_table i' = Some (map (resolve hw ip) t) /\
    eth_wire (eth_info i') = eth_wire (eth_info i) ++ map (fun b => hw ++ eth_hwaddr (eth_info i) ++ [8; 0] ++ payload b) (released ip t) /\
    free_addrs (eth_info i') = free_addrs (eth_info i) ++ map eb_addr (released ip t).
Proof.
  intros Hok Hl Ht. destruct (io_table i Hok) as (t' & Ht' & _ & Hall). rewrite Ht in Ht'. injection Ht' as <-.
  destruct (respond_pass hw ip (ip_port i) (eth_info i) t Hl (io_eth i Hok) (io_ip i Hok) Hall) as (e' & E & _ & H3 & H4).
  unfold arp_rx_response. rewrite Ht. cbn [option_bind]. rewrite E. cbn [option_bind]. eexists. split; [reflexivity|]. done.
Qed.

Definition ex_asking : ip_info := ex_host ex_hw [OSetAddr [10; 0; 0; 1]; OSend [1; 2; 3] [10; 0; 0; 2] 17; OSend [4; 5] [10; 0; 0; 2] 17].

Lemma arp_reply_releases_witness : exists i',
  arp_rx_response ex_asking ex_far_hw [10; 0; 0; 2] = Some i' /\ length (eth_wire (eth_info i')) = (length (eth_wire (eth_info ex_asking)) + 2)%nat.
Proof.
  destruct (arp_reply_releases ex_asking ex_far_hw [10; 0; 0; 2] (default [] (arp_table ex_asking))) as (i' & H1 & _ & H3 & _).
  - apply ex_host_ok; [done|]. repeat (constructor; [cbn; lia|]). constructor.
  - done.
  - vm_compute; reflexivity.
  - exists i'. split; [exact H1|]. rewrite H3, length_app, length_map. f_equal; vm_compute; reflexivity.
Defined.

(** * What the layer does not check *)

(** The length in the header is not compared with what was received: a frame of sixty bytes
    becomes a packet said to hold 65515. *)
Definition ex_overlong : ebuf :=
  Ebuf 4096 46 0 1 14 (replicate 14 0 ++ ip_header 0xFFFF 1 17 (be16 (header_chksum 0xFFFF 1 17 [10; 0; 0; 2] [10; 0; 0; 1])) [10; 0; 0; 2] [10; 0; 0; 1] ++ replicate (eb_size - 34) 0).
Example ip_length_trusted : exists b, holds ex_overlong /\ ip_parse ex_near ex_overlong = Some (IpData 17 [10; 0; 0; 1] [10; 0; 0; 2] b) /\
  eb_length b = 65515.
Proof. eexists. split; [split; vm_compute; done|]. split; vm_compute; reflexivity. Qed.

(** Adding an address twice fills two entries: the search is by the hardware address. *)
Example arp_add_duplicates : exists i t,
  (let? i := _arp_add ex_near [10; 0; 0; 7] ex_far_hw in _arp_add i [10; 0; 0; 7] ex_hw) = Some i /\ arp_table i = Some t /\
  length (filter (fun ae => ae_ipaddr ae = [10; 0; 0; 7]) t) = 2%nat.
Proof. eexists _, _. split; [vm_compute; reflexivity|]. split; vm_compute; reflexivity. Qed.

(** A permanent entry that is looked up is deleted a minute later. *)
Fixpoint ticks (n : nat) (i : ip_info) : option ip_info :=
  match n with O => Some i | S n => let? i := _ip_timer_tick i in ticks n i end.

Example arp_permanent_expires : exists i i1 i2 r,
  _arp_add ex_near [10; 0; 0; 7] ex_hw = Some i /\ _arp_lookup i [10; 0; 0; 7] = Some (Some ex_hw, i1) /\
  ticks 60 i1 = Some i2 /\ _arp_lookup i2 [10; 0; 0; 7] = Some (None, r).
Proof. eexists _, _, _, _. split; [vm_compute; reflexivity|]. split; [vm_compute; reflexivity|]. split; vm_compute; reflexivity. Qed.

(** A caller of [_arp_lookup] gets the address of an entry that is still being resolved. *)
Example arp_lookup_unresolved : exists i, _arp_lookup ex_asking [10; 0; 0; 2] = Some (Some [0; 0; 0; 0; 0; 0], i).
Proof. eexists. vm_compute. reflexivity. Qed.
