(* ===== verification/IpApi.v ===== *)
(** The interface between IP and the protocols on it: the class [IpLayer] of the calls, its
    laws [IpLaws], both with the instance of [Ip], and a layer that records the packets it
    is given. *)

From S2P Require Import Prelude Ether Ip.
From Stdlib Require Import ZArith Lia Bool List String.
From stdpp Require Import base numbers list.

#[local] Open Scope Z_scope.

(** * The layer below *)

(** What TCP and UDP call. *)
Class IpLayer (W : Type) := {
  ip_alloc : W -> option (option ebuf * W);
  ip_free : W -> ebuf -> W;
  ip_send : W -> ebuf -> bytes -> Z -> option W;
  ip_getaddr : W -> bytes;
  ip_register : W -> Z -> Z -> Z -> W;
  ip_deregister : W -> Z -> W
}.

#[export] Instance ip_info_layer : IpLayer ip_info := {
  ip_alloc := _ip_alloc;
  ip_free := _ip_free;
  ip_send := _ip_send;
  ip_getaddr := _ip_getaddr;
  ip_register := _ip_register;
  ip_deregister := _ip_deregister
}.

(** What they rely on: a buffer that is handed out is empty and has room for the headers,
    and a buffer of this kind can always be sent. *)
Class IpLaws (W : Type) `{IpLayer W} := {
  ip_wf : W -> Prop;
  ip_txport : W -> Z;
  law_addr w : ip_wf w -> length (ip_getaddr w) = 4%nat;
  law_alloc w : ip_wf w -> exists o w', ip_alloc w = Some (o, w') /\ ip_wf w' /\ ip_getaddr w' = ip_getaddr w /\ ip_txport w' = ip_txport w /\
    match o with
    | None => True
    | Some b => holds b /\ eb_port b = ip_txport w' /\ eb_ptr b = IPHDR_LENGTH + ENET_DIX_HEADER /\ payload b = []
    end;
  law_send w b dst proto : ip_wf w -> holds b -> eb_port b = ip_txport w -> IPHDR_LENGTH + ENET_DIX_HEADER <= eb_ptr b ->
    length dst = 4%nat -> exists w', ip_send w b dst proto = Some w' /\ ip_wf w' /\ ip_getaddr w' = ip_getaddr w /\ ip_txport w' = ip_txport w;
  law_free w b : ip_wf w -> sized b -> ip_wf (ip_free w b) /\ ip_getaddr (ip_free w b) = ip_getaddr w /\ ip_txport (ip_free w b) = ip_txport w
}.

#[export] Instance ip_info_laws : IpLaws ip_info.
Proof.
  refine {| ip_wf := ip_ok; ip_txport := ip_port |}.
  - apply io_addr.
  - intros i Hi. cbn [ip_alloc ip_getaddr ip_info_layer]. destruct (ip_alloc_ok i Hi) as [[_ ->]|(b & i' & -> & H1 & H2 & _ & H3 & H4 & H5 & _ & H6)].
    + by eexists _, _.
    + destruct H2 as (_ & Hp & _ & Hn & _). eexists _, _. split; [reflexivity|]. split; [done|]. split; [unfold _ip_getaddr; by rewrite Hn|]. split; [done|]. split; [done|]. split; [congruence|done].
  - intros i b dst proto Hi Hb Hp Hr Hd. cbn [ip_send ip_getaddr ip_info_layer].
    destruct (ip_send_ok i b dst proto Hi Hb Hp Hr Hd) as (i' & -> & H1 & (_ & Hpt & _ & Hn & _) & _). exists i'. split; [done|]. split; [done|]. split; [unfold _ip_getaddr; by rewrite Hn|done].
  - intros i b Hi Hb. cbn [ip_free ip_getaddr ip_info_layer]. by destruct (free_moves i b Hi Hb) as (Ho & _ & _).
Defined.

(** A layer that keeps a record of the packets it was given: where to, and what. *)
Record recorded (W : Type) := Rec { rec_ip : W; rec_sent : list (bytes * bytes) }.
Arguments Rec {W}.
Arguments rec_ip {W}.
Arguments rec_sent {W}.

#[export] Instance recorded_layer {W} `{IpLayer W} : IpLayer (recorded W) := {
  ip_alloc r := let? (b, ip) := ip_alloc (rec_ip r) in Some (b, Rec ip (rec_sent r));
  ip_free r b := Rec (ip_free (rec_ip r) b) (rec_sent r);
  ip_send r b dst proto := let? ip := ip_send (rec_ip r) b dst proto in Some (Rec ip (rec_sent r ++ [(dst, payload b)]));
  ip_getaddr r := ip_getaddr (rec_ip r);
  ip_register r proto cb ref := Rec (ip_register (rec_ip r) proto cb ref) (rec_sent r);
  ip_deregister r proto := Rec (ip_deregister (rec_ip r) proto) (rec_sent r)
}.

(** * Filling and reading buffers *)

(** A buffer that holds [s] at a place with room for more. *)
Record filled (b0 b : ebuf) (s : bytes) : Prop := {
  fl_holds : holds b;
  fl_port : eb_port b = eb_port b0;
  fl_ptr : eb_ptr b = eb_ptr b0;
  fl_payload : payload b = s
}.

Lemma filled_length b0 b s : filled b0 b s -> eb_length b = Z.of_nat (length s).
Proof. intros [H _ _ <-]. by rewrite payload_length. Qed.

Lemma append_filled b0 b s x : filled b0 b s -> eb_ptr b0 + Z.of_nat (length (s ++ x)) <= Z.of_nat eb_size ->
  exists b', ebuf_append_bytes b x = Some b' /\ filled b0 b' (s ++ x).
Proof.
  intros Hf Hr. pose proof (filled_length _ _ _ Hf) as Hl. destruct Hf as [Hb Hp Hq Hs]. rewrite length_app in Hr.
  destruct (append_ok b x Hb) as (b' & -> & H1 & [_ H2] & H3 & _ & H5); [rewrite Hq, Hl; lia|]. exists b'. split; [done|].
  split; [done|congruence|congruence|by rewrite H5, Hs].
Qed.

(** Reading numbers back. *)
Lemma next_u16 b v Q : holds b -> payload b = be16 v ++ Q -> 0 <= v < 65536 ->
  ebuf_get_u16_be b = Some (v, ebuf_skip b 2) /\ holds (ebuf_skip b 2) /\ payload (ebuf_skip b 2) = Q.
Proof.
  intros Hb HP Hv. destruct (next_bytes b 2 _ _ Hb HP) as (H1 & _ & H3 & H4); [done|]. unfold ebuf_get_u16_be. rewrite H4. cbn [option_bind].
  rewrite of_be_16 by done. done.
Qed.

Lemma next_u32 b v Q : holds b -> payload b = be32 v ++ Q -> 0 <= v < 2 ^ 32 ->
  ebuf_get_u32_be b = Some (v, ebuf_skip b 4) /\ holds (ebuf_skip b 4) /\ payload (ebuf_skip b 4) = Q.
Proof.
  intros Hb HP Hv. destruct (next_bytes b 4 _ _ Hb HP) as (H1 & _ & H3 & H4); [done|]. unfold ebuf_get_u32_be. rewrite H4. cbn [option_bind].
  rewrite of_be_32 by done. done.
Qed.

(** * A recorded layer *)

Section recorded.
Context {W : Type} {IL : IpLayer W} {WL : IpLaws W}.

Definition rec_ok (src : bytes) (r : recorded W) : Prop := ip_wf (rec_ip r) /\ ip_getaddr (rec_ip r) = src.

Lemma rec_alloc src r : rec_ok src r -> exists o r', ip_alloc r = Some (o, r') /\ rec_ok src r' /\ rec_sent r' = rec_sent r /\
  match o with
  | None => True
  | Some b => holds b /\ eb_port b = ip_txport (rec_ip r') /\ eb_ptr b = 34 /\ payload b = []
  end.
Proof.
  intros [Hw Ha]. destruct (law_alloc _ Hw) as (o & w' & E & H1 & H2 & _ & H3). eexists o, (Rec w' (rec_sent r)).
  cbn [ip_alloc recorded_layer]. rewrite E. split; [done|]. split; [split; [done|cbn; congruence]|]. done.
Qed.

Lemma rec_send src r b0 b dst proto s : rec_ok src r -> eb_port b0 = ip_txport (rec_ip r) -> eb_ptr b0 = 34 -> filled b0 b s -> length dst = 4%nat ->
  exists r', ip_send r b dst proto = Some r' /\ rec_ok src r' /\ rec_sent r' = rec_sent r ++ [(dst, s)].
Proof.
  intros [Hw Ha] Hp0 Hq0 [Hb Hp Hq <-] Hd. destruct (law_send (rec_ip r) b dst proto Hw Hb) as (w' & E & H1 & H2 & _); [congruence|unfold IPHDR_LENGTH, ENET_DIX_HEADER; lia|done|].
  eexists. cbn [ip_send recorded_layer]. rewrite E. split; [reflexivity|]. split; [split; [done|cbn; congruence]|done].
Qed.
End recorded.
