(* ===== verification/Tcp.v ===== *)
(** TCP of the boot loader: cfe/cfe/net/net_tcp.c with net_tcp_internal.h.

    The control blocks, the socket calls, sending and receiving segments with their
    checksums, the state machine and the timers, on the ring buffers of [Tcpbuf] and the
    allocator of [Malloc].  IP is the class [IpLayer], with an instance for [Ip]. *)

From S2P Require Import Prelude Malloc Tcpbuf Ether Ip IpApi.
From Stdlib Require Import ZArith Lia Bool List String.
From stdpp Require Import base numbers list gmap.

#[local] Open Scope Z_scope.

(** * Constants *)

Definition CFE_HZ := 10.
Definition IPPROTO_TCP := 6.
Definition CFE_ERR_NOMEM := -5.
Definition CFE_ERR_INV_PARAM := -8.
Definition CFE_ERR_NOTCONN := -39.
Definition CFE_ERR_ADDRINUSE := -40.

Definition TCP_MAX_PORTS : nat := 8.
Definition TCP_MAX_TCBS := 16.
Definition TCP_BUF_SIZE := 65536.
Definition TCP_MAX_SEG_SIZE := 1400.
Definition TCP_RETX_TIMER := 1 * CFE_HZ.
Definition TCP_TIMEWAIT_TIMER := 30 * CFE_HZ.
Definition TCP_FAST_TIMER := CFE_HZ / 5.
Definition TCP_KEEPALIVE_TIMER := CFE_HZ * 60.

Definition TCPFLG_FIN := 0x0001.
Definition TCPFLG_SYN := 0x0002.
Definition TCPFLG_RST := 0x0004.
Definition TCPFLG_ACK := 0x0010.
Definition TCPHDRSIZE (flg : Z) : Z := Z.shiftr flg 12 * 4.
Definition TCPHDRFLG (size : Z) : Z := Z.shiftl (size / 4) 12.
Definition TCP_HDR_LENGTH := 20.
Definition TCP_MAX_SEG_OPT := 0x0204.

Definition TCPFLG_NODELAY := 1.
Definition TCPFLG_NBIO := 2.
Definition TCPSTATUS_NOTCONN := 0.
Definition TCPSTATUS_CONNECTING := 1.
Definition TCPSTATUS_CONNECTED := 2.

Definition TCPSTATE_CLOSED := 0.
Definition TCPSTATE_LISTEN := 1.
Definition TCPSTATE_SYN_SENT := 2.
Definition TCPSTATE_SYN_RECEIVED := 3.
Definition TCPSTATE_ESTABLISHED := 4.
Definition TCPSTATE_CLOSE_WAIT := 5.
Definition TCPSTATE_FINWAIT_1 := 6.
Definition TCPSTATE_FINWAIT_2 := 7.
Definition TCPSTATE_CLOSING := 8.
Definition TCPSTATE_LAST_ACK := 9.
Definition TCPSTATE_TIME_WAIT := 10.

(** Sets of states are bit vectors. *)
Definition m_states (l : list Z) : Z := fold_right (fun s m => Z.lor (Z.shiftl 1 s) m) 0 l.
Definition TCPSTATE_IN_SET (state set : Z) : bool := truthy (Z.land (Z.shiftl 1 state) set).

Definition M_TCPSTATE_ABORTSTATES : Z :=
  m_states [TCPSTATE_SYN_SENT; TCPSTATE_SYN_RECEIVED; TCPSTATE_ESTABLISHED; TCPSTATE_FINWAIT_1; TCPSTATE_FINWAIT_2;
            TCPSTATE_CLOSING; TCPSTATE_LAST_ACK; TCPSTATE_CLOSE_WAIT].
Definition M_TCPSTATE_SEND_OK : Z := m_states [TCPSTATE_ESTABLISHED; TCPSTATE_CLOSE_WAIT].
Definition M_TCPSTATE_RECV_OK : Z := m_states [TCPSTATE_ESTABLISHED; TCPSTATE_CLOSE_WAIT].
Definition M_TCPSTATE_PEERADDR_OK : Z := M_TCPSTATE_ABORTSTATES.
Definition M_TCPSTATE_RESETKEEPALIVE : Z :=
  m_states [TCPSTATE_ESTABLISHED; TCPSTATE_CLOSE_WAIT; TCPSTATE_FINWAIT_1; TCPSTATE_FINWAIT_2; TCPSTATE_CLOSING;
            TCPSTATE_LAST_ACK].
Definition M_TCPSTATE_CONNINPROGRESS : Z := m_states [TCPSTATE_LISTEN; TCPSTATE_SYN_SENT; TCPSTATE_SYN_RECEIVED].

Definition TCB_FLG_OUTPUT := 1.
Definition TCB_FLG_SENDMSG := 2.
Definition TCB_FLG_DLYACK := 4.

(** Differences of sequence numbers are read as signed. *)
Definition TCPSEQ_DIFF (a b : Z) : Z := sint32 (a - b).
Definition TCPSEQ_LT (a b : Z) : bool := TCPSEQ_DIFF a b <? 0.
Definition TCPSEQ_LEQ (a b : Z) : bool := TCPSEQ_DIFF a b <=? 0.
Definition TCPSEQ_GT (a b : Z) : bool := 0 <? TCPSEQ_DIFF a b.

(** * Control blocks *)

Record tcb := Tcb {
  tcb_socknum : Z;
  tcb_state : Z;
  tcb_peeraddr : bytes;
  tcb_peerport : Z;
  tcb_lclport : Z;
  tcb_txflags : Z;
  tcb_timer_2msl : Z;
  tcb_timer_keep : Z;
  tcb_timer_retx : Z;
  tcb_timer_pers : Z;
  tcb_retrycnt : Z;
  tcb_mtu : Z;
  tcb_flags : Z;
  tcb_sockflags : Z;
  tcb_txbuf : tcpmodbuf;
  tcb_rxbuf : tcpmodbuf;
  tcb_sendunack : Z;
  tcb_sendnext : Z;
  tcb_sendwindow : Z;
  tcb_rcvnext : Z;
  tcb_rcvack : Z;
  tcb_dup_ackcnt : Z
}.

Definition set_socknum (t : tcb) (v : Z) : tcb :=
  Tcb v (tcb_state t) (tcb_peeraddr t) (tcb_peerport t) (tcb_lclport t) (tcb_txflags t) (tcb_timer_2msl t) (tcb_timer_keep t)
    (tcb_timer_retx t) (tcb_timer_pers t) (tcb_retrycnt t) (tcb_mtu t) (tcb_flags t) (tcb_sockflags t) (tcb_txbuf t) (tcb_rxbuf t)
    (tcb_sendunack t) (tcb_sendnext t) (tcb_sendwindow t) (tcb_rcvnext t) (tcb_rcvack t) (tcb_dup_ackcnt t).
Definition set_state (t : tcb) (v : Z) : tcb :=
  Tcb (tcb_socknum t) v (tcb_peeraddr t) (tcb_peerport t) (tcb_lclport t) (tcb_txflags t) (tcb_timer_2msl t) (tcb_timer_keep t)
    (tcb_timer_retx t) (tcb_timer_pers t) (tcb_retrycnt t) (tcb_mtu t) (tcb_flags t) (tcb_sockflags t) (tcb_txbuf t) (tcb_rxbuf t)
    (tcb_sendunack t) (tcb_sendnext t) (tcb_sendwindow t) (tcb_rcvnext t) (tcb_rcvack t) (tcb_dup_ackcnt t).
Definition set_peeraddr (t : tcb) (v : bytes) : tcb :=
  Tcb (tcb_socknum t) (tcb_state t) v (tcb_peerport t) (tcb_lclport t) (tcb_txflags t) (tcb_timer_2msl t) (tcb_timer_keep t)
    (tcb_timer_retx t) (tcb_timer_pers t) (tcb_retrycnt t) (tcb_mtu t) (tcb_flags t) (tcb_sockflags t) (tcb_txbuf t) (tcb_rxbuf t)
    (tcb_sendunack t) (tcb_sendnext t) (tcb_sendwindow t) (tcb_rcvnext t) (tcb_rcvack t) (tcb_dup_ackcnt t).
Definition set_peerport (t : tcb) (v : Z) : tcb :=
  Tcb (tcb_socknum t) (tcb_state t) (tcb_peeraddr t) v (tcb_lclport t) (tcb_txflags t) (tcb_timer_2msl t) (tcb_timer_keep t)
    (tcb_timer_retx t) (tcb_timer_pers t) (tcb_retrycnt t) (tcb_mtu t) (tcb_flags t) (tcb_sockflags t) (tcb_txbuf t) (tcb_rxbuf t)
    (tcb_sendunack t) (tcb_sendnext t) (tcb_sendwindow t) (tcb_rcvnext t) (tcb_rcvack t) (tcb_dup_ackcnt t).
Definition set_lclport (t : tcb) (v : Z) : tcb :=
  Tcb (tcb_socknum t) (tcb_state t) (tcb_peeraddr t) (tcb_peerport t) v (tcb_txflags t) (tcb_timer_2msl t) (tcb_timer_keep t)
    (tcb_timer_retx t) (tcb_timer_pers t) (tcb_retrycnt t) (tcb_mtu t) (tcb_flags t) (tcb_sockflags t) (tcb_txbuf t) (tcb_rxbuf t)
    (tcb_sendunack t) (tcb_sendnext t) (tcb_sendwindow t) (tcb_rcvnext t) (tcb_rcvack t) (tcb_dup_ackcnt t).
Definition set_txflags (t : tcb) (v : Z) : tcb :=
  Tcb (tcb_socknum t) (tcb_state t) (tcb_peeraddr t) (tcb_peerport t) (tcb_lclport t) v (tcb_timer_2msl t) (tcb_timer_keep t)
    (tcb_timer_retx t) (tcb_timer_pers t) (tcb_retrycnt t) (tcb_mtu t) (tcb_flags t) (tcb_sockflags t) (tcb_txbuf t) (tcb_rxbuf t)
    (tcb_sendunack t) (tcb_sendnext t) (tcb_sendwindow t) (tcb_rcvnext t) (tcb_rcvack t) (tcb_dup_ackcnt t).
Definition set_timer_2msl (t : tcb) (v : Z) : tcb :=
  Tcb (tcb_socknum t) (tcb_state t) (tcb_peeraddr t) (tcb_peerport t) (tcb_lclport t) (tcb_txflags t) v (tcb_timer_keep t)
    (tcb_timer_retx t) (tcb_timer_pers t) (tcb_retrycnt t) (tcb_mtu t) (tcb_flags t) (tcb_sockflags t) (tcb_txbuf t) (tcb_rxbuf t)
    (tcb_sendunack t) (tcb_sendnext t) (tcb_sendwindow t) (tcb_rcvnext t) (tcb_rcvack t) (tcb_dup_ackcnt t).
Definition set_timer_keep (t : tcb) (v : Z) : tcb :=
  Tcb (tcb_socknum t) (tcb_state t) (tcb_peeraddr t) (tcb_peerport t) (tcb_lclport t) (tcb_txflags t) (tcb_timer_2msl t) v
    (tcb_timer_retx t) (tcb_timer_pers t) (tcb_retrycnt t) (tcb_mtu t) (tcb_flags t) (tcb_sockflags t) (tcb_txbuf t) (tcb_rxbuf t)
    (tcb_sendunack t) (tcb_sendnext t) (tcb_sendwindow t) (tcb_rcvnext t) (tcb_rcvack t) (tcb_dup_ackcnt t).
Definition set_timer_retx (t : tcb) (v : Z) : tcb :=
  Tcb (tcb_socknum t) (tcb_state t) (tcb_peeraddr t) (tcb_peerport t) (tcb_lclport t) (tcb_txflags t) (tcb_timer_2msl t) (tcb_timer_keep t)
    v (tcb_timer_pers t) (tcb_retrycnt t) (tcb_mtu t) (tcb_flags t) (tcb_sockflags t) (tcb_txbuf t) (tcb_rxbuf t)
    (tcb_sendunack t) (tcb_sendnext t) (tcb_sendwindow t) (tcb_rcvnext t) (tcb_rcvack t) (tcb_dup_ackcnt t).
Definition set_timer_pers (t : tcb) (v : Z) : tcb :=
  Tcb (tcb_socknum t) (tcb_state t) (tcb_peeraddr t) (tcb_peerport t) (tcb_lclport t) (tcb_txflags t) (tcb_timer_2msl t) (tcb_timer_keep t)
    (tcb_timer_retx t) v (tcb_retrycnt t) (tcb_mtu t) (tcb_flags t) (tcb_sockflags t) (tcb_txbuf t) (tcb_rxbuf t)
    (tcb_sendunack t) (tcb_sendnext t) (tcb_sendwindow t) (tcb_rcvnext t) (tcb_rcvack t) (tcb_dup_ackcnt t).
Definition set_retrycnt (t : tcb) (v : Z) : tcb :=
  Tcb (tcb_socknum t) (tcb_state t) (tcb_peeraddr t) (tcb_peerport t) (tcb_lclport t) (tcb_txflags t) (tcb_timer_2msl t) (tcb_timer_keep t)
    (tcb_timer_retx t) (tcb_timer_pers t) v (tcb_mtu t) (tcb_flags t) (tcb_sockflags t) (tcb_txbuf t) (tcb_rxbuf t)
    (tcb_sendunack t) (tcb_sendnext t) (tcb_sendwindow t) (tcb_rcvnext t) (tcb_rcvack t) (tcb_dup_ackcnt t).
Definition set_mtu (t : tcb) (v : Z) : tcb :=
  Tcb (tcb_socknum t) (tcb_state t) (tcb_peeraddr t) (tcb_peerport t) (tcb_lclport t) (tcb_txflags t) (tcb_timer_2msl t) (tcb_timer_keep t)
    (tcb_timer_retx t) (tcb_timer_pers t) (tcb_retrycnt t) v (tcb_flags t) (tcb_sockflags t) (tcb_txbuf t) (tcb_rxbuf t)
    (tcb_sendunack t) (tcb_sendnext t) (tcb_sendwindow t) (tcb_rcvnext t) (tcb_rcvack t) (tcb_dup_ackcnt t).
Definition set_flags (t : tcb) (v : Z) : tcb :=
  Tcb (tcb_socknum t) (tcb_state t) (tcb_peeraddr t) (tcb_peerport t) (tcb_lclport t) (tcb_txflags t) (tcb_timer_2msl t) (tcb_timer_keep t)
    (tcb_timer_retx t) (tcb_timer_pers t) (tcb_retrycnt t) (tcb_mtu t) v (tcb_sockflags t) (tcb_txbuf t) (tcb_rxbuf t)
    (tcb_sendunack t) (tcb_sendnext t) (tcb_sendwindow t) (tcb_rcvnext t) (tcb_rcvack t) (tcb_dup_ackcnt t).
Definition set_sockflags (t : tcb) (v : Z) : tcb :=
  Tcb (tcb_socknum t) (tcb_state t) (tcb_peeraddr t) (tcb_peerport t) (tcb_lclport t) (tcb_txflags t) (tcb_timer_2msl t) (tcb_timer_keep t)
    (tcb_timer_retx t) (tcb_timer_pers t) (tcb_retrycnt t) (tcb_mtu t) (tcb_flags t) v (tcb_txbuf t) (tcb_rxbuf t)
    (tcb_sendunack t) (tcb_sendnext t) (tcb_sendwindow t) (tcb_rcvnext t) (tcb_rcvack t) (tcb_dup_ackcnt t).
Definition set_txbuf (t : tcb) (v : tcpmodbuf) : tcb :=
  Tcb (tcb_socknum t) (tcb_state t) (tcb_peeraddr t) (tcb_peerport t) (tcb_lclport t) (tcb_txflags t) (tcb_timer_2msl t) (tcb_timer_keep t)
    (tcb_timer_retx t) (tcb_timer_pers t) (tcb_retrycnt t) (tcb_mtu t) (tcb_flags t) (tcb_sockflags t) v (tcb_rxbuf t)
    (tcb_sendunack t) (tcb_sendnext t) (tcb_sendwindow t) (tcb_rcvnext t) (tcb_rcvack t) (tcb_dup_ackcnt t).
Definition set_rxbuf (t : tcb) (v : tcpmodbuf) : tcb :=
  Tcb (tcb_socknum t) (tcb_state t) (tcb_peeraddr t) (tcb_peerport t) (tcb_lclport t) (tcb_txflags t) (tcb_timer_2msl t) (tcb_timer_keep t)
    (tcb_timer_retx t) (tcb_timer_pers t) (tcb_retrycnt t) (tcb_mtu t) (tcb_flags t) (tcb_sockflags t) (tcb_txbuf t) v
    (tcb_sendunack t) (tcb_sendnext t) (tcb_sendwindow t) (tcb_rcvnext t) (tcb_rcvack t) (tcb_dup_ackcnt t).
Definition set_sendunack (t : tcb) (v : Z) : tcb :=
  Tcb (tcb_socknum t) (tcb_state t) (tcb_peeraddr t) (tcb_peerport t) (tcb_lclport t) (tcb_txflags t) (tcb_timer_2msl t) (tcb_timer_keep t)
    (tcb_timer_retx t) (tcb_timer_pers t) (tcb_retrycnt t) (tcb_mtu t) (tcb_flags t) (tcb_sockflags t) (tcb_txbuf t) (tcb_rxbuf t)
    v (tcb_sendnext t) (tcb_sendwindow t) (tcb_rcvnext t) (tcb_rcvack t) (tcb_dup_ackcnt t).
Definition set_sendnext (t : tcb) (v : Z) : tcb :=
  Tcb (tcb_socknum t) (tcb_state t) (tcb_peeraddr t) (tcb_peerport t) (tcb_lclport t) (tcb_txflags t) (tcb_timer_2msl t) (tcb_timer_keep t)
    (tcb_timer_retx t) (tcb_timer_pers t) (tcb_retrycnt t) (tcb_mtu t) (tcb_flags t) (tcb_sockflags t) (tcb_txbuf t) (tcb_rxbuf t)
    (tcb_sendunack t) v (tcb_sendwindow t) (tcb_rcvnext t) (tcb_rcvack t) (tcb_dup_ackcnt t).
Definition set_sendwindow (t : tcb) (v : Z) : tcb :=
  Tcb (tcb_socknum t) (tcb_state t) (tcb_peeraddr t) (tcb_peerport t) (tcb_lclport t) (tcb_txflags t) (tcb_timer_2msl t) (tcb_timer_keep t)
    (tcb_timer_retx t) (tcb_timer_pers t) (tcb_retrycnt t) (tcb_mtu t) (tcb_flags t) (tcb_sockflags t) (tcb_txbuf t) (tcb_rxbuf t)
    (tcb_sendunack t) (tcb_sendnext t) v (tcb_rcvnext t) (tcb_rcvack t) (tcb_dup_ackcnt t).
Definition set_rcvnext (t : tcb) (v : Z) : tcb :=
  Tcb (tcb_socknum t) (tcb_state t) (tcb_peeraddr t) (tcb_peerport t) (tcb_lclport t) (tcb_txflags t) (tcb_timer_2msl t) (tcb_timer_keep t)
    (tcb_timer_retx t) (tcb_timer_pers t) (tcb_retrycnt t) (tcb_mtu t) (tcb_flags t) (tcb_sockflags t) (tcb_txbuf t) (tcb_rxbuf t)
    (tcb_sendunack t) (tcb_sendnext t) (tcb_sendwindow t) v (tcb_rcvack t) (tcb_dup_ackcnt t).
Definition set_rcvack (t : tcb) (v : Z) : tcb :=
  Tcb (tcb_socknum t) (tcb_state t) (tcb_peeraddr t) (tcb_peerport t) (tcb_lclport t) (tcb_txflags t) (tcb_timer_2msl t) (tcb_timer_keep t)
    (tcb_timer_retx t) (tcb_timer_pers t) (tcb_retrycnt t) (tcb_mtu t) (tcb_flags t) (tcb_sockflags t) (tcb_txbuf t) (tcb_rxbuf t)
    (tcb_sendunack t) (tcb_sendnext t) (tcb_sendwindow t) (tcb_rcvnext t) v (tcb_dup_ackcnt t).
Definition set_dup_ackcnt (t : tcb) (v : Z) : tcb :=
  Tcb (tcb_socknum t) (tcb_state t) (tcb_peeraddr t) (tcb_peerport t) (tcb_lclport t) (tcb_txflags t) (tcb_timer_2msl t) (tcb_timer_keep t)
    (tcb_timer_retx t) (tcb_timer_pers t) (tcb_retrycnt t) (tcb_mtu t) (tcb_flags t) (tcb_sockflags t) (tcb_txbuf t) (tcb_rxbuf t)
    (tcb_sendunack t) (tcb_sendnext t) (tcb_sendwindow t) (tcb_rcvnext t) (tcb_rcvack t) v.

Definition sizeof_tcb := 144.
Definition zero_tcb : tcb :=
  let buf := Tmb 0 [] 0 0 0 0 in Tcb 0 0 (replicate 4 0) 0 0 0 0 0 0 0 0 0 0 0 buf buf 0 0 0 0 0 0.

Definition _tcp_setstate (t : tcb) (state : Z) : tcb := set_state t state.
Definition or_flags (t : tcb) (f : Z) : tcb := set_flags t (Z.lor (tcb_flags t) f).
Definition clear_flags (t : tcb) (f : Z) : tcb := set_flags t (Z.ldiff (tcb_flags t) f).
Definition _tcp_preparectlmsg (t : tcb) (flags : Z) : tcb := or_flags (set_txflags t flags) TCB_FLG_SENDMSG.
Definition _tcp_canceltimers (t : tcb) : tcb :=
  set_timer_pers (set_timer_2msl (set_timer_keep (set_timer_retx t 0) 0) 0) 0.

(** * Segments *)

(** The twelve bytes that the checksum covers besides the segment. *)
Definition pseudoheader (src dst : bytes) (len : Z) : bytes :=
  src ++ dst ++ [0; IPPROTO_TCP; Z.land (Z.shiftr len 8) 0xFF; Z.land len 0xFF].

(** The fixed part of the header, and where its checksum is. *)
Definition put_header (t : tcb) (flags window : Z) (b : ebuf) : option (Z * ebuf) :=
  let? b := ebuf_append_u16_be b (tcb_lclport t) in
  let? b := ebuf_append_u16_be b (tcb_peerport t) in
  let? b := ebuf_append_u32_be b (tcb_sendnext t) in
  let? b := ebuf_append_u32_be b (tcb_rcvack t) in
  let? b := ebuf_append_u16_be b flags in
  let? b := ebuf_append_u16_be b window in
  let cksumptr := eb_ptr b + eb_length b in
  let? b := ebuf_append_u16_be b 0 in
  let? b := ebuf_append_u16_be b 0 in
  Some (cksumptr, b).

Definition put_checksum (src dst : bytes) (b : ebuf) (tcphdr cksumptr len : Z) : option ebuf :=
  let? cksum := ip_chksum 0 (pseudoheader src dst len) in
  let? cksum := chksum_at cksum b tcphdr len in
  let cksum := not16 cksum in
  eb_write b cksumptr [Z.land (Z.shiftr cksum 8) 0xFF; Z.land cksum 0xFF].

(** The window is whatever it takes to fill the buffer. *)
Definition rx_window (t : tcb) : Z :=
  let window := tmb_remlen (tcb_rxbuf t) in if 65000 <? window then 65000 else window.

Section tcp.
Context {W : Type} `{IpLayer W}.

(** Timers are set from the time [ticks]. *)
Definition output_sendmax (t : tcb) : Z :=
  let sendmax := wrap32 (tcb_sendunack t + tmb_curlen (tcb_txbuf t)) in
  let windowmax := wrap32 (tcb_sendunack t + tcb_sendwindow t) in
  let cwndmax := wrap32 (tcb_sendunack t + 5 * 1400) in
  let sendmax := if TCPSEQ_GT sendmax windowmax then windowmax else sendmax in
  if TCPSEQ_GT sendmax cwndmax then cwndmax else sendmax.

Fixpoint output_loop (fuel : nat) (ticks window sendmax : Z) (ip : W) (t : tcb) : option (tcb * W) :=
  if TCPSEQ_LT (tcb_sendnext t) sendmax then
    match fuel with
    | O => None
    | S fuel =>
        let offset := TCPSEQ_DIFF (tcb_sendnext t) (tcb_sendunack t) in
        let? (b, ip) := ip_alloc ip in
        match b with
        | None => Some (t, ip)
        | Some b =>
            let tcphdr := eb_ptr b + eb_length b in
            let flags := Z.lor TCPFLG_ACK (TCPHDRFLG TCP_HDR_LENGTH) in
            let hdrlen := TCP_HDR_LENGTH in
            let t := set_rcvack t (tcb_rcvnext t) in
            let? (cksumptr, b) := put_header t flags window b in
            let? (tcplen, data) := tmb_copyout2 (tcb_txbuf t) offset (tcb_mtu t) in
            let? b := eb_write b (eb_ptr b + eb_length b) data in
            let b := ebuf_setlength b (eb_length b + tcplen) in
            let t := set_sendnext t (wrap32 (tcb_sendnext t + tcplen)) in
            let? b := put_checksum (ip_getaddr ip) (tcb_peeraddr t) b tcphdr cksumptr (tcplen + hdrlen) in
            let? ip := ip_send ip b (tcb_peeraddr t) IPPROTO_TCP in
            let t := set_timer_retx t (ticks + TCP_RETX_TIMER) in
            let t := clear_flags t TCB_FLG_DLYACK in
            output_loop fuel ticks window sendmax ip t
        end
    end
  else Some (t, ip).

Definition _tcp_output (ticks : Z) (ip : W) (t : tcb) : option (tcb * W) :=
  let sendmax := output_sendmax t in
  output_loop (Z.to_nat (TCPSEQ_DIFF sendmax (tcb_sendnext t))) ticks (rx_window t) sendmax ip t.

Definition _tcp_protosend (ip : W) (t : tcb) : option (tcb * W) :=
  let? (b, ip) := ip_alloc ip in
  match b with
  | None => Some (t, ip)
  | Some b =>
      let tcphdr := eb_ptr b + eb_length b in
      let t := clear_flags t (Z.lor TCB_FLG_SENDMSG TCB_FLG_DLYACK) in
      let '(flags, hdrlen) :=
        if truthy (Z.land (tcb_txflags t) TCPFLG_SYN)
        then (Z.lor (tcb_txflags t) (TCPHDRFLG (TCP_HDR_LENGTH + 4)), TCP_HDR_LENGTH + 4)
        else (Z.lor (tcb_txflags t) (TCPHDRFLG TCP_HDR_LENGTH), TCP_HDR_LENGTH) in
      let window := rx_window t in
      let t := set_rcvack t (tcb_rcvnext t) in
      let? (cksumptr, b) := put_header t flags window b in
      let? b :=
        if truthy (Z.land flags TCPFLG_SYN) then
          let? b := ebuf_append_u16_be b TCP_MAX_SEG_OPT in ebuf_append_u16_be b TCP_MAX_SEG_SIZE
        else Some b in
      let tcplen := 0 in
      let t := if truthy (Z.land flags (Z.lor TCPFLG_SYN TCPFLG_FIN)) then set_sendnext t (wrap32 (tcb_sendnext t + 1)) else t in
      let? b := put_checksum (ip_getaddr ip) (tcb_peeraddr t) b tcphdr cksumptr (tcplen + hdrlen) in
      let? ip := ip_send ip b (tcb_peeraddr t) IPPROTO_TCP in
      Some (t, ip)
  end.

(** The reset is sent for a control block made up for it. *)
Definition _tcp_sendreset (ip : W) (dstipaddr : bytes) (ack srcport dstport : Z) : option W :=
  let t := set_rcvnext (set_txflags (set_lclport (set_peerport (set_peeraddr zero_tcb dstipaddr) dstport) srcport)
             (Z.lor TCPFLG_RST TCPFLG_ACK)) ack in
  let? (t, ip) := _tcp_protosend ip t in Some ip.

Definition _tcp_sendctlmsg (ticks : Z) (ip : W) (t : tcb) (flags timeout : Z) : option (tcb * W) :=
  let t := set_retrycnt (set_txflags t flags) 0 in
  let t := if 0 <=? timeout then set_timer_retx t (if truthy timeout then ticks + timeout else 0) else t in
  _tcp_protosend ip t.

Definition _tcp_closetcb (t : tcb) : tcb :=
  let t := _tcp_canceltimers (set_flags (_tcp_setstate t TCPSTATE_CLOSED) 0) in
  set_rxbuf (set_txbuf t (tmb_init (tcb_txbuf t))) (tmb_init (tcb_rxbuf t)).

Definition _tcp_aborttcb (ticks : Z) (ip : W) (t : tcb) : option (tcb * W) :=
  let? (t, ip) :=
    if TCPSTATE_IN_SET (tcb_state t) M_TCPSTATE_ABORTSTATES
    then _tcp_sendctlmsg ticks ip (_tcp_canceltimers t) (Z.lor TCPFLG_ACK TCPFLG_RST) 0
    else Some (t, ip) in
  Some (_tcp_closetcb t, ip).

(** * Receiving *)

Definition _tcp_procack (ticks : Z) (t : tcb) (ack flags : Z) : option tcb :=
  let unacklen := tmb_curlen (tcb_txbuf t) in
  if tcb_state t =? TCPSTATE_ESTABLISHED then
    if negb (TCPSEQ_LEQ (tcb_sendunack t) ack && TCPSEQ_LEQ ack (wrap32 (tcb_sendunack t + unacklen))) then Some t
    else
      let ackamt := TCPSEQ_DIFF ack (tcb_sendunack t) in
      let? t :=
        if 0 <? ackamt then
          let? buf := tmb_adjust (tcb_txbuf t) ackamt in
          Some (set_dup_ackcnt (set_sendunack (set_txflags (set_txbuf t buf) TCPFLG_ACK) ack) 0)
        else Some (set_dup_ackcnt t (tcb_dup_ackcnt t + 1)) in
      if truthy (tmb_curlen (tcb_txbuf t)) then Some (or_flags t TCB_FLG_OUTPUT) else Some (set_timer_retx t 0)
  else if tcb_state t =? TCPSTATE_FINWAIT_1 then
    let ackamt := TCPSEQ_DIFF ack (tcb_sendunack t) in
    if ackamt =? 1 then
      let t := set_sendunack t ack in
      if truthy (Z.land flags TCPFLG_FIN) then
        let t := _tcp_preparectlmsg (_tcp_canceltimers (_tcp_setstate t TCPSTATE_TIME_WAIT)) TCPFLG_ACK in
        Some (set_timer_2msl t (ticks + TCP_TIMEWAIT_TIMER))
      else Some (_tcp_setstate t TCPSTATE_FINWAIT_2)
    else Some t
  else Some t.

(** The new data of a segment; [None] inside for a segment out of sequence, which ends
    the processing of the packet. *)
Definition procdata_data (t : tcb) (seqnum : Z) (buf : ebuf) : option (option tcb) :=
  let datalen := sint32 (eb_length buf) in
  if datalen =? 0 then Some (Some t)
  else
    let endseqnum := wrap32 (seqnum + datalen) in
    if negb (TCPSEQ_LEQ seqnum (tcb_rcvnext t) && TCPSEQ_LT (tcb_rcvnext t) endseqnum) then Some None
    else
      let reallen := sint32 (endseqnum - tcb_rcvnext t) in
      let bp := eb_ptr buf + wrap32 (tcb_rcvnext t - seqnum) in
      if 0 <? reallen then
        let? (reallen, rxbuf) := tmb_copyin (tcb_rxbuf t) (drop (Z.to_nat bp) (eb_data buf)) reallen true in
        let t := set_rcvnext (set_rxbuf t rxbuf) (wrap32 (tcb_rcvnext t + reallen)) in
        Some (Some (if truthy (Z.land (tcb_flags t) TCB_FLG_DLYACK) then _tcp_preparectlmsg t TCPFLG_ACK
                    else or_flags t TCB_FLG_DLYACK))
      else Some (Some t).

Definition procdata_fin (ticks : Z) (ip : W) (t : tcb) (flags : Z) : option (tcb * W) :=
  let t := set_rcvnext t (wrap32 (tcb_rcvnext t + 1)) in
  if tcb_state t =? TCPSTATE_ESTABLISHED then
    let t := _tcp_setstate (clear_flags t TCB_FLG_DLYACK) TCPSTATE_CLOSE_WAIT in
    _tcp_sendctlmsg ticks ip t TCPFLG_ACK (-1)
  else if tcb_state t =? TCPSTATE_FINWAIT_1 then
    if truthy (Z.land flags TCPFLG_ACK) then
      let t := _tcp_setstate (_tcp_preparectlmsg (_tcp_canceltimers t) TCPFLG_ACK) TCPSTATE_TIME_WAIT in
      Some (set_timer_2msl t (ticks + TCP_TIMEWAIT_TIMER), ip)
    else Some (_tcp_preparectlmsg (_tcp_setstate t TCPSTATE_CLOSING) TCPFLG_ACK, ip)
  else if tcb_state t =? TCPSTATE_FINWAIT_2 then
    let t := _tcp_setstate (_tcp_preparectlmsg (_tcp_canceltimers t) TCPFLG_ACK) TCPSTATE_TIME_WAIT in
    Some (set_timer_2msl t (ticks + TCP_TIMEWAIT_TIMER), ip)
  else Some (t, ip).

Definition _tcp_procdata (ticks : Z) (ip : W) (t : tcb) (seqnum flags : Z) (buf : ebuf) : option (tcb * W) :=
  let? r := procdata_data t seqnum buf in
  match r with
  | None => Some (t, ip)
  | Some t => if truthy (Z.land flags TCPFLG_FIN) then procdata_fin ticks ip t flags else Some (t, ip)
  end.

(** What follows the switch on the state. *)
Definition rx_finish (ticks : Z) (ip : W) (t : tcb) : option (tcb * W) :=
  let? (t, ip) :=
    if truthy (Z.land (tcb_flags t) TCB_FLG_OUTPUT) then
      let? (t, ip) := _tcp_output ticks ip t in Some (clear_flags t (Z.lor TCB_FLG_OUTPUT TCB_FLG_SENDMSG), ip)
    else Some (t, ip) in
  if truthy (Z.land (tcb_flags t) TCB_FLG_SENDMSG) then _tcp_protosend ip t else Some (t, ip).

(** What the switch does: return at once, go on, or free the control block and go on. *)
Inductive rx_outcome := RxReturn (t : tcb) (ip : W) | RxGoOn (t : tcb) (ip : W) | RxFree (t : tcb) (ip : W).

Definition rx_listen (ticks : Z) (ip : W) (t : tcb) (srcaddr : bytes) (srcport seqnum flags : Z) : option (tcb * W) :=
  if truthy (Z.land flags TCPFLG_SYN) then
    let t := set_peeraddr (set_peerport (set_rcvnext t (wrap32 (seqnum + 1))) srcport) srcaddr in
    let t := _tcp_setstate (set_timer_keep t (ticks + TCP_KEEPALIVE_TIMER)) TCPSTATE_SYN_RECEIVED in
    _tcp_sendctlmsg ticks ip t (Z.lor TCPFLG_SYN TCPFLG_ACK) TCP_RETX_TIMER
  else Some (t, ip).

Definition rx_syn_sent (ticks : Z) (ip : W) (t : tcb) (seqnum acknum flags : Z) : option (tcb * W) :=
  if truthy (Z.land flags TCPFLG_SYN) then
    if truthy (Z.land flags TCPFLG_ACK) && (acknum =? wrap32 (tcb_sendunack t + 1)) then
      let t := _tcp_setstate (set_timer_keep t (ticks + TCP_KEEPALIVE_TIMER)) TCPSTATE_ESTABLISHED in
      let t := set_rcvnext (set_sendnext (set_sendunack t acknum) acknum) (wrap32 (seqnum + 1)) in
      _tcp_sendctlmsg ticks ip t TCPFLG_ACK 0
    else
      let t := _tcp_setstate (set_rcvnext t (wrap32 (tcb_rcvnext t + 1))) TCPSTATE_SYN_RECEIVED in
      _tcp_sendctlmsg ticks ip t (Z.lor TCPFLG_SYN TCPFLG_ACK) TCP_RETX_TIMER
  else Some (t, ip).

Definition rx_syn_received (ticks : Z) (ip : W) (t : tcb) (acknum flags : Z) : option (tcb * W) :=
  let? (t, ip) :=
    if truthy (Z.land flags TCPFLG_SYN) then _tcp_sendctlmsg ticks ip t (Z.lor TCPFLG_SYN TCPFLG_ACK) TCP_RETX_TIMER
    else Some (t, ip) in
  if truthy (Z.land flags TCPFLG_ACK) && (acknum =? wrap32 (tcb_sendunack t + 1)) then
    let? (t, ip) := _tcp_sendctlmsg ticks ip t TCPFLG_ACK 0 in
    let t := set_timer_keep (set_sendnext (set_sendunack t acknum) acknum) (ticks + TCP_KEEPALIVE_TIMER) in
    Some (_tcp_setstate t TCPSTATE_ESTABLISHED, ip)
  else Some (t, ip).

Definition rx_data (ticks : Z) (ip : W) (t : tcb) (seqnum acknum flags : Z) (buf : ebuf) : option (tcb * W) :=
  let? t := if truthy (Z.land flags TCPFLG_ACK) then _tcp_procack ticks t acknum flags else Some t in
  _tcp_procdata ticks ip t seqnum flags buf.

Definition rx_state (ticks : Z) (ip : W) (t : tcb) (srcaddr : bytes) (srcport seqnum acknum flags : Z) (buf : ebuf) : option rx_outcome :=
  let s := tcb_state t in
  let returns r := match r with Some (t, ip) => Some (RxReturn t ip) | None => None end in
  let goes_on r := match r with Some (t, ip) => Some (RxGoOn t ip) | None => None end in
  if s =? TCPSTATE_LISTEN then returns (rx_listen ticks ip t srcaddr srcport seqnum flags)
  else if s =? TCPSTATE_SYN_SENT then returns (rx_syn_sent ticks ip t seqnum acknum flags)
  else if s =? TCPSTATE_SYN_RECEIVED then returns (rx_syn_received ticks ip t acknum flags)
  else if (s =? TCPSTATE_ESTABLISHED) || (s =? TCPSTATE_FINWAIT_1) || (s =? TCPSTATE_FINWAIT_2)
    then goes_on (rx_data ticks ip t seqnum acknum flags buf)
  else if s =? TCPSTATE_CLOSING then
    if acknum =? wrap32 (tcb_sendunack t + 1)
    then Some (RxGoOn (set_timer_2msl (_tcp_canceltimers (_tcp_setstate t TCPSTATE_TIME_WAIT)) (ticks + TCP_TIMEWAIT_TIMER)) ip)
    else Some (RxGoOn t ip)
  else if s =? TCPSTATE_LAST_ACK then
    if acknum =? wrap32 (tcb_sendunack t + 1) then Some (RxFree (_tcp_closetcb t) ip)
    else goes_on (_tcp_sendctlmsg ticks ip t (Z.lor TCPFLG_ACK TCPFLG_FIN) TCP_RETX_TIMER)
  else if s =? TCPSTATE_TIME_WAIT then
    if negb (truthy (Z.land flags TCPFLG_RST))
    then goes_on (_tcp_protosend ip (set_timer_2msl (set_txflags t TCPFLG_ACK) (ticks + TCP_TIMEWAIT_TIMER)))
    else Some (RxGoOn t ip)
  else Some (RxGoOn t ip).

(** * The layer *)

(** [ti_tcblist] holds the addresses of the control blocks, [ti_tcbs] what is at them; a
    block that has been freed keeps its contents until it is allocated again, and the code
    still looks at it then.  [cfe_ticks] and the pool of memory are globals. *)
Record tcp_info := Ti {
  ti_ipinfo : W;
  ti_fasttimer : Z;
  ti_tcblist : list Z;
  ti_onqueue : Z;
  ti_iss : Z;
  ti_ports : list (option Z);
  ti_tcbs : gmap Z tcb;
  kmempool : mempool;
  cfe_ticks : Z
}.

Definition set_ipinfo (ti : tcp_info) (ip : W) : tcp_info :=
  Ti ip (ti_fasttimer ti) (ti_tcblist ti) (ti_onqueue ti) (ti_iss ti) (ti_ports ti) (ti_tcbs ti) (kmempool ti) (cfe_ticks ti).
Definition put_tcb (ti : tcp_info) (p : Z) (t : tcb) : tcp_info :=
  Ti (ti_ipinfo ti) (ti_fasttimer ti) (ti_tcblist ti) (ti_onqueue ti) (ti_iss ti) (ti_ports ti) (<[p := t]> (ti_tcbs ti))
    (kmempool ti) (cfe_ticks ti).
Definition set_sockets (ti : tcp_info) (ports : list (option Z)) : tcp_info :=
  Ti (ti_ipinfo ti) (ti_fasttimer ti) (ti_tcblist ti) (ti_onqueue ti) (ti_iss ti) ports (ti_tcbs ti) (kmempool ti) (cfe_ticks ti).
Definition set_pool (ti : tcp_info) (pool : mempool) : tcp_info :=
  Ti (ti_ipinfo ti) (ti_fasttimer ti) (ti_tcblist ti) (ti_onqueue ti) (ti_iss ti) (ti_ports ti) (ti_tcbs ti) pool (cfe_ticks ti).
Definition set_list (ti : tcp_info) (l : list Z) (n : Z) : tcp_info :=
  Ti (ti_ipinfo ti) (ti_fasttimer ti) l n (ti_iss ti) (ti_ports ti) (ti_tcbs ti) (kmempool ti) (cfe_ticks ti).
Definition set_ticks (ti : tcp_info) (ticks : Z) : tcp_info :=
  Ti (ti_ipinfo ti) (ti_fasttimer ti) (ti_tcblist ti) (ti_onqueue ti) (ti_iss ti) (ti_ports ti) (ti_tcbs ti) (kmempool ti) ticks.

Definition get_tcb (ti : tcp_info) (p : Z) : option tcb := ti_tcbs ti !! p.

(** A change of one control block that may send. *)
Definition with_tcb (ti : tcp_info) (p : Z) (f : Z -> W -> tcb -> option (tcb * W)) : option tcp_info :=
  let? t := get_tcb ti p in
  let? (t, ip) := f (cfe_ticks ti) (ti_ipinfo ti) t in
  Some (set_ipinfo (put_tcb ti p t) ip).

(** The socket table; an index outside it is undefined. *)
Definition socket_at (ti : tcp_info) (s : Z) : option (option Z) :=
  assert! (0 <=? s) in ti_ports ti !! Z.to_nat s.

(** [got] is whether KMALLOC gave the structure; [ticks] is the cycle counter. *)
Definition tcp_rx_cb := 3.
Definition _tcp_init (ip : W) (got : bool) (ref : Z) (pool : mempool) (now ticks : Z) : option tcp_info :=
  if negb got then None
  else Some (Ti (ip_register ip IPPROTO_TCP tcp_rx_cb ref) (now + TCP_FAST_TIMER) [] 0 (wrap32 ticks)
               (replicate TCP_MAX_PORTS None) ∅ pool now).

Definition _tcp_freetcb (ti : tcp_info) (p : Z) : option tcp_info :=
  let? t := get_tcb ti p in
  let ti := if 0 <=? tcb_socknum t then set_sockets ti (<[Z.to_nat (tcb_socknum t) := None]> (ti_ports ti)) else ti in
  let t := set_socknum t (-1) in
  let ti := set_list ti (filter (fun q => q <> p) (ti_tcblist ti)) (ti_onqueue ti - 1) in
  let? (pool, txbuf) := tmb_free (kmempool ti) (tcb_txbuf t) in
  let? (pool, rxbuf) := tmb_free pool (tcb_rxbuf t) in
  let t := set_rxbuf (set_txbuf t txbuf) rxbuf in
  let? pool := kfree pool p in
  Some (set_pool (put_tcb ti p t) pool).

Fixpoint free_all (fuel : nat) (ti : tcp_info) : option tcp_info :=
  match ti_tcblist ti with
  | [] => Some ti
  | p :: _ => match fuel with O => None | S fuel => let? ti := _tcp_freetcb ti p in free_all fuel ti end
  end.

Definition _tcp_uninit (ti : tcp_info) : option W :=
  let? ti := free_all (length (ti_tcblist ti)) ti in
  Some (ip_deregister (ti_ipinfo ti) IPPROTO_TCP).

Fixpoint find_list (tcbs : gmap Z tcb) (l : list Z) (f : tcb -> bool) : option (option Z) :=
  match l with
  | [] => Some None
  | p :: l => let? t := tcbs !! p in if f t then Some (Some p) else find_list tcbs l f
  end.

Definition _tcp_find_lclport (ti : tcp_info) (port : Z) : option (option Z) :=
  find_list (ti_tcbs ti) (ti_tcblist ti) (fun t => tcb_lclport t =? port).

Definition _tcp_find_tcb (ti : tcp_info) (srcport dstport : Z) (saddr : bytes) : option (option Z) :=
  let? r := find_list (ti_tcbs ti) (ti_tcblist ti) (fun t =>
    negb (tcb_peerport t =? 0) && (tcb_lclport t =? dstport) && (tcb_peerport t =? srcport) && bytes_eqb saddr (tcb_peeraddr t)) in
  match r with
  | Some p => Some (Some p)
  | None => find_list (ti_tcbs ti) (ti_tcblist ti) (fun t => (tcb_peerport t =? 0) && (tcb_lclport t =? dstport))
  end.

Fixpoint unused_port (fuel : nat) (ti : tcp_info) (port : Z) : option Z :=
  let? r := _tcp_find_lclport ti port in
  match r with
  | None => Some port
  | Some _ =>
      match fuel with
      | O => None
      | S fuel => let port := wrap16 (port + 1) in unused_port fuel ti (if port =? 0 then 1024 else port)
      end
  end.

Fixpoint free_socket (i : Z) (ports : list (option Z)) : Z :=
  match ports with
  | [] => i
  | None :: _ => i
  | Some _ :: ports => free_socket (i + 1) ports
  end.

(** [txmem] and [rxmem] are what happens to be in the memory of the two buffers. *)
Definition _tcp_socket (ti : tcp_info) (txmem rxmem : bytes) : option (Z * tcp_info) :=
  let idx := free_socket 0 (ti_ports ti) in
  if idx =? Z.of_nat TCP_MAX_PORTS then Some (CFE_ERR_NOHANDLES, ti)
  else if TCP_MAX_TCBS <=? ti_onqueue ti then Some (CFE_ERR_NOMEM, ti)
  else
    let '(p, pool) := kmalloc (kmempool ti) sizeof_tcb 0 in
    if p =? 0 then Some (CFE_ERR_NOMEM, set_pool ti pool)
    else
      let error t pool :=
        let? (pool, _) := tmb_free pool (tcb_txbuf t) in
        let? (pool, _) := tmb_free pool (tcb_rxbuf t) in
        let? pool := kfree pool p in Some (CFE_ERR_NOMEM, set_pool ti pool) in
      let t := zero_tcb in
      let '(res, pool, txbuf) := tmb_alloc pool txmem (tcb_txbuf t) TCP_BUF_SIZE in
      let t := set_txbuf t txbuf in
      if res <? 0 then error t pool
      else
        let '(res, pool, rxbuf) := tmb_alloc pool rxmem (tcb_rxbuf t) TCP_BUF_SIZE in
        let t := set_rxbuf t rxbuf in
        if res <? 0 then error t pool
        else
          let t := _tcp_setstate (set_sockflags (set_mtu t 1400) TCPFLG_NBIO) TCPSTATE_CLOSED in
          let? port := unused_port (length (ti_tcblist ti)) ti (wrap16 (wrap16 (cfe_ticks ti) + 1024)) in
          let t := set_socknum (set_lclport t port) idx in
          let ti := set_sockets (set_pool ti pool) (<[Z.to_nat idx := Some p]> (ti_ports ti)) in
          Some (idx, put_tcb (set_list ti (ti_tcblist ti ++ [p]) (ti_onqueue ti + 1)) p t).

Definition _tcp_connect (ti : tcp_info) (s : Z) (dest : bytes) (port : Z) : option (Z * tcp_info) :=
  let? o := socket_at ti s in
  match o with
  | None => Some (CFE_ERR_INV_PARAM, ti)
  | Some p =>
      let? ti := with_tcb ti p (fun ticks ip t =>
        let t := set_rcvack (set_rcvnext (set_peerport (set_peeraddr t (take 4 dest)) port) 0) 0 in
        let t := set_sendwindow (set_sendunack (set_sendnext t (ti_iss ti)) (ti_iss ti)) 0 in
        let t := set_rxbuf (set_txbuf t (tmb_init (tcb_txbuf t))) (tmb_init (tcb_rxbuf t)) in
        let t := _tcp_setstate (set_timer_keep t (ticks + TCP_KEEPALIVE_TIMER)) TCPSTATE_SYN_SENT in
        _tcp_sendctlmsg ticks ip t TCPFLG_SYN TCP_RETX_TIMER) in
      Some (0, ti)
  end.

Definition _tcp_close (ti : tcp_info) (s : Z) : option (Z * tcp_info) :=
  let? o := socket_at ti s in
  match o with
  | None => Some (CFE_ERR_INV_PARAM, ti)
  | Some p =>
      let ti := set_sockets ti (<[Z.to_nat s := None]> (ti_ports ti)) in
      let? t := get_tcb ti p in
      let t := set_socknum t (-1) in
      let ti := put_tcb ti p t in
      let finish state := with_tcb ti p (fun ticks ip t =>
        _tcp_sendctlmsg ticks ip (_tcp_setstate t state) (Z.lor TCPFLG_ACK TCPFLG_FIN) TCP_RETX_TIMER) in
      let st := tcb_state t in
      let? ti :=
        if (st =? TCPSTATE_SYN_RECEIVED) || (st =? TCPSTATE_ESTABLISHED) then finish TCPSTATE_FINWAIT_1
        else if (st =? TCPSTATE_CLOSED) || (st =? TCPSTATE_LISTEN) || (st =? TCPSTATE_SYN_SENT)
          then _tcp_freetcb (put_tcb ti p (_tcp_closetcb t)) p
        else if st =? TCPSTATE_CLOSE_WAIT then finish TCPSTATE_LAST_ACK
        else Some ti in
      Some (0, ti)
  end.

Definition send_tcb (buf : bytes) (len ticks : Z) (ip : W) (t : tcb) : option (Z * tcb * W) :=
  if negb (TCPSTATE_IN_SET (tcb_state t) M_TCPSTATE_SEND_OK) then Some (CFE_ERR_NOTCONN, t, ip)
  else
    let curlen := tmb_curlen (tcb_txbuf t) in
    let? (retlen, txbuf) := tmb_copyin (tcb_txbuf t) buf len true in
    let t := set_txbuf t txbuf in
    let? (t, ip) :=
      if (curlen =? 0) || truthy (Z.land (tcb_sockflags t) TCPFLG_NODELAY) then _tcp_output ticks ip t else Some (t, ip) in
    Some (retlen, t, ip).

Definition _tcp_send (ti : tcp_info) (s : Z) (buf : bytes) (len : Z) : option (Z * tcp_info) :=
  let? o := socket_at ti s in
  match o with
  | None => Some (CFE_ERR_INV_PARAM, ti)
  | Some p =>
      let? t := get_tcb ti p in
      let? (r, t, ip) := send_tcb buf len (cfe_ticks ti) (ti_ipinfo ti) t in
      Some (r, set_ipinfo (put_tcb ti p t) ip)
  end.

(** The bytes stored in the caller's buffer are part of the result. *)
Definition recv_tcb (len : Z) (t : tcb) : option (Z * bytes * tcb) :=
  if negb (TCPSTATE_IN_SET (tcb_state t) M_TCPSTATE_RECV_OK) then Some (CFE_ERR_NOTCONN, [], t)
  else let? (retlen, out, rxbuf) := tmb_copyout (tcb_rxbuf t) len true in Some (retlen, out, set_rxbuf t rxbuf).

Definition _tcp_recv (ti : tcp_info) (s len : Z) : option (Z * bytes * tcp_info) :=
  let? o := socket_at ti s in
  match o with
  | None => Some (CFE_ERR_INV_PARAM, [], ti)
  | Some p =>
      let? t := get_tcb ti p in
      let? (r, out, t) := recv_tcb len t in
      Some (r, out, put_tcb ti p t)
  end.

Definition _tcp_bind (ti : tcp_info) (s port : Z) : option (Z * tcp_info) :=
  let? o := socket_at ti s in
  match o with
  | None => Some (CFE_ERR_INV_PARAM, ti)
  | Some p =>
      let? q := _tcp_find_lclport ti port in
      match q with
      | Some _ => Some (CFE_ERR_ADDRINUSE, ti)
      | None => let? t := get_tcb ti p in Some (0, put_tcb ti p (set_lclport t port))
      end
  end.

Definition _tcp_setflags (ti : tcp_info) (s flags : Z) : option (Z * tcp_info) :=
  let? o := socket_at ti s in
  match o with
  | None => Some (CFE_ERR_INV_PARAM, ti)
  | Some p => let? t := get_tcb ti p in Some (0, put_tcb ti p (set_sockflags t flags))
  end.

Definition _tcp_getflags (ti : tcp_info) (s : Z) : option (Z * option Z) :=
  let? o := socket_at ti s in
  match o with
  | None => Some (CFE_ERR_INV_PARAM, None)
  | Some p => let? t := get_tcb ti p in Some (0, Some (tcb_sockflags t))
  end.

Definition _tcp_peeraddr (ti : tcp_info) (s : Z) : option (Z * option (bytes * Z)) :=
  let? o := socket_at ti s in
  match o with
  | None => Some (CFE_ERR_INV_PARAM, None)
  | Some p =>
      let? t := get_tcb ti p in
      if negb (TCPSTATE_IN_SET (tcb_state t) M_TCPSTATE_PEERADDR_OK) then Some (CFE_ERR_NOTCONN, None)
      else Some (0, Some (tcb_peeraddr t, tcb_peerport t))
  end.

Definition _tcp_listen (ti : tcp_info) (s port : Z) : option (Z * tcp_info) :=
  let? q := find_list (ti_tcbs ti) (ti_tcblist ti) (fun t =>
    (tcb_lclport t =? port) && (tcb_state t =? TCPSTATE_LISTEN) && (tcb_peerport t =? 0)) in
  match q with
  | Some _ => Some (CFE_ERR_ADDRINUSE, ti)
  | None =>
      let? o := socket_at ti s in
      match o with
      | None => Some (CFE_ERR_INV_PARAM, ti)
      | Some p =>
          let? t := get_tcb ti p in
          let t := _tcp_setstate (set_lclport t port) TCPSTATE_LISTEN in
          let t := _tcp_canceltimers (set_sendwindow (set_sendunack (set_sendnext t 0) 0) 0) in
          let t := set_rcvack (set_rcvnext t 0) 0 in
          let t := set_rxbuf (set_txbuf t (tmb_init (tcb_txbuf t))) (tmb_init (tcb_rxbuf t)) in
          Some (0, put_tcb ti p (set_txflags t 0))
      end
  end.

(** The connection status, the bytes that are ready, and whether the peer has finished. *)
Definition _tcp_status (ti : tcp_info) (s : Z) : option (Z * option (Z * Z * Z)) :=
  let? o := socket_at ti s in
  match o with
  | None => Some (CFE_ERR_INV_PARAM, None)
  | Some p =>
      let? t := get_tcb ti p in
      let rxlen := tmb_curlen (tcb_rxbuf t) in
      let connflag :=
        if (tcb_state t =? TCPSTATE_ESTABLISHED) || (truthy rxlen && (tcb_state t =? TCPSTATE_CLOSE_WAIT))
        then TCPSTATUS_CONNECTED
        else if TCPSTATE_IN_SET (tcb_state t) M_TCPSTATE_CONNINPROGRESS then TCPSTATUS_CONNECTING
        else TCPSTATUS_NOTCONN in
      let rxeof := if (tcb_state t =? TCPSTATE_CLOSE_WAIT) || (tcb_state t =? TCPSTATE_LAST_ACK) then 1 else 0 in
      Some (0, Some (connflag, rxlen, rxeof))
  end.

(** * Packets *)

(** The header of a segment whose checksum is good, and the buffer past it. *)
Record segment := Seg {
  sg_srcport : Z;
  sg_dstport : Z;
  sg_seqnum : Z;
  sg_acknum : Z;
  sg_flags : Z;
  sg_window : Z
}.

Definition rx_header (buf : ebuf) (destaddr srcaddr : bytes) : option (option segment * ebuf) :=
  let tcplen := sint32 (eb_length buf) in
  let tcphdr := eb_ptr buf in
  let? orig := eb_read buf (tcphdr + 16) 2 in
  let origcksum := of_be orig in
  let? buf := eb_write buf (tcphdr + 16) [0; 0] in
  let? calccksum := ip_chksum 0 (pseudoheader (take 4 srcaddr) (take 4 destaddr) tcplen) in
  let? calccksum := chksum_at calccksum buf tcphdr tcplen in
  if negb (not16 calccksum =? origcksum) then Some (None, buf)
  else
    let? (srcport, buf) := ebuf_get_u16_be buf in
    let? (dstport, buf) := ebuf_get_u16_be buf in
    let? (seqnum, buf) := ebuf_get_u32_be buf in
    let? (acknum, buf) := ebuf_get_u32_be buf in
    let? (flags, buf) := ebuf_get_u16_be buf in
    let? (window, buf) := ebuf_get_u16_be buf in
    let buf := ebuf_skip buf 4 in
    if TCPHDRSIZE flags <? TCP_HDR_LENGTH then Some (None, buf)
    else Some (Some (Seg srcport dstport seqnum acknum flags window), ebuf_skip buf (TCPHDRSIZE flags - TCP_HDR_LENGTH)).

Definition rx_tcb (ti : tcp_info) (p : Z) (g : segment) (srcaddr : bytes) (buf : ebuf) : option tcp_info :=
  let ticks := cfe_ticks ti in
  let? t := get_tcb ti p in
  let t := if TCPSTATE_IN_SET (tcb_state t) M_TCPSTATE_RESETKEEPALIVE
           then set_timer_keep t (ticks + TCP_KEEPALIVE_TIMER) else t in
  if truthy (Z.land (sg_flags g) TCPFLG_RST) then
    Some (put_tcb ti p (if tcb_state t =? TCPSTATE_SYN_RECEIVED then _tcp_setstate t TCPSTATE_LISTEN else _tcp_closetcb t))
  else
    let t := set_sendwindow t (sg_window g) in
    let? r := rx_state ticks (ti_ipinfo ti) t (take 4 srcaddr) (sg_srcport g) (sg_seqnum g) (sg_acknum g) (sg_flags g) buf in
    match r with
    | RxReturn t ip => Some (set_ipinfo (put_tcb ti p t) ip)
    | RxGoOn t ip => with_tcb (set_ipinfo (put_tcb ti p t) ip) p rx_finish
    | RxFree t ip => let? ti := _tcp_freetcb (set_ipinfo (put_tcb ti p t) ip) p in with_tcb ti p rx_finish
    end.

Definition _tcp_rx_callback (ti : tcp_info) (buf : ebuf) (destaddr srcaddr : bytes) : option (rx_result * tcp_info) :=
  let? (g, buf) := rx_header buf destaddr srcaddr in
  match g with
  | None => Some (Dropped buf, ti)
  | Some g =>
      let? o := _tcp_find_tcb ti (sg_srcport g) (sg_dstport g) srcaddr in
      match o with
      | None =>
          let? ip := _tcp_sendreset (ti_ipinfo ti) (take 4 srcaddr) (wrap32 (sg_seqnum g + 1)) (sg_dstport g) (sg_srcport g) in
          Some (Dropped buf, set_ipinfo ti ip)
      | Some p => let? ti := rx_tcb ti p g srcaddr buf in Some (Dropped buf, ti)
      end
  end.

(** * Timers *)

Definition TIMER_EXPIRED (now x : Z) : bool := truthy x && (x <? now).

Definition fasttimo_tcb (ticks : Z) (ip : W) (t : tcb) : option (tcb * W) :=
  if truthy (Z.land (tcb_flags t) TCB_FLG_DLYACK)
  then _tcp_sendctlmsg ticks ip (clear_flags t TCB_FLG_DLYACK) TCPFLG_ACK (-1)
  else Some (t, ip).

Fixpoint each_tcb (f : tcp_info -> Z -> option tcp_info) (ti : tcp_info) (l : list Z) : option tcp_info :=
  match l with [] => Some ti | p :: l => let? ti := f ti p in each_tcb f ti l end.

Definition _tcp_fasttimo (ti : tcp_info) : option tcp_info :=
  let ti := Ti (ti_ipinfo ti) (cfe_ticks ti + TCP_FAST_TIMER) (ti_tcblist ti) (ti_onqueue ti) (ti_iss ti) (ti_ports ti)
              (ti_tcbs ti) (kmempool ti) (cfe_ticks ti) in
  let? ti := each_tcb (fun ti p => with_tcb ti p fasttimo_tcb) ti (ti_tcblist ti) in
  Some (Ti (ti_ipinfo ti) (ti_fasttimer ti) (ti_tcblist ti) (ti_onqueue ti) (wrap32 (ti_iss ti + 25600)) (ti_ports ti)
          (ti_tcbs ti) (kmempool ti) (cfe_ticks ti)).

(** The retransmission timer of a control block, ... *)
Definition poll_retx (ticks : Z) (ip : W) (t : tcb) : option (tcb * W) :=
  if TIMER_EXPIRED ticks (tcb_timer_retx t) then
    let t := set_timer_retx t 0 in
    if tcb_state t =? TCPSTATE_ESTABLISHED then
      let t := set_timer_retx t (ticks + TCP_RETX_TIMER) in
      _tcp_output ticks ip (set_sendnext (set_retrycnt t (tcb_retrycnt t + 1)) (tcb_sendunack t))
    else if tcb_state t =? TCPSTATE_SYN_SENT then
      let t := set_timer_retx t (ticks + sint32 (Z.shiftl TCP_RETX_TIMER (tcb_retrycnt t))) in
      _tcp_protosend ip (set_sendnext (set_retrycnt t (tcb_retrycnt t + 1)) (tcb_sendunack t))
    else Some (t, ip)
  else Some (t, ip).

(** ... the keepalive timer, ... *)
Definition poll_keep (ticks : Z) (ip : W) (t : tcb) : option (tcb * W) :=
  if TIMER_EXPIRED ticks (tcb_timer_keep t) then
    let t := set_timer_keep t 0 in
    if TCPSTATE_IN_SET (tcb_state t) M_TCPSTATE_CONNINPROGRESS then _tcp_aborttcb ticks ip t else Some (t, ip)
  else Some (t, ip).

(** ... and the timer of TIME_WAIT, after which the loop goes on from the block it freed. *)
Definition poll_tcb (ti : tcp_info) (p : Z) : option tcp_info :=
  let? ti := with_tcb ti p poll_retx in
  let? ti := with_tcb ti p poll_keep in
  let? t := get_tcb ti p in
  if TIMER_EXPIRED (cfe_ticks ti) (tcb_timer_2msl t) then
    let t := set_timer_2msl t 0 in
    if tcb_state t =? TCPSTATE_TIME_WAIT then _tcp_freetcb (put_tcb ti p (_tcp_closetcb t)) p
    else Some (put_tcb ti p t)
  else Some ti.

Definition _tcp_poll (ti : tcp_info) : option tcp_info :=
  let? ti := if TIMER_EXPIRED (cfe_ticks ti) (ti_fasttimer ti) then _tcp_fasttimo ti else Some ti in
  each_tcb poll_tcb ti (ti_tcblist ti).

End tcp.
