(* ===== verification/TcpStream.v ===== *)
(** What TCP promises: the segments it writes are read back, and two hosts whose
    connection is established pass bytes to each other in order, whatever a network that
    loses, repeats and reorders packets does. *)

From S2P Require Import Prelude Malloc Tcpbuf Ether Ip IpApi Tcp.
From Stdlib Require Import ZArith Lia Bool List String.
From stdpp Require Import base numbers list gmap.

#[local] Open Scope Z_scope.

(** * Segments *)

Definition tcp_header (lport pport seq ack flags window : Z) (ck : bytes) : bytes :=
  be16 lport ++ be16 pport ++ be32 seq ++ be32 ack ++ be16 flags ++ be16 window ++ ck ++ [0; 0].

Definition tcp_cksum (src dst s : bytes) : Z :=
  match ip_chksum 0 (pseudoheader src dst (Z.of_nat (length s))) with
  | Some c => match ip_chksum c s with Some c => not16 c | None => 0 end
  | None => 0
  end.

Definition tcp_bytes (src dst : bytes) (lport pport seq ack flags window : Z) (rest : bytes) : bytes :=
  let h := tcp_header lport pport seq ack flags window in
  h (be16 (tcp_cksum src dst (h [0; 0] ++ rest))) ++ rest.

Lemma tcp_header_length lport pport seq ack flags window ck : length ck = 2%nat ->
  length (tcp_header lport pport seq ack flags window ck) = 20%nat.
Proof. intros H. unfold tcp_header. rewrite !length_app, H. done. Qed.

Lemma tcp_header_ck lport pport seq ack flags window ck rest : length ck = 2%nat ->
  take 2 (drop 16 (tcp_header lport pport seq ack flags window ck ++ rest)) = ck.
Proof. intros H. destruct ck as [|c1 [|c2 [|]]]; done. Qed.

Lemma tcp_header_splice lport pport seq ack flags window ck ck' rest : length ck = 2%nat -> length ck' = 2%nat ->
  splice (tcp_header lport pport seq ack flags window ck' ++ rest) 16 ck = tcp_header lport pport seq ack flags window ck ++ rest.
Proof. intros H H'. destruct ck as [|c1 [|c2 [|]]]; [done..| |done]. destruct ck' as [|d1 [|d2 [|]]]; done. Qed.

Lemma tcp_cksum_eq src dst s : exists c1 c2, ip_chksum 0 (pseudoheader src dst (Z.of_nat (length s))) = Some c1 /\ 0 <= c1 < 65536 /\
  ip_chksum c1 s = Some c2 /\ tcp_cksum src dst s = not16 c2.
Proof.
  destruct (ip_chksum_total 0 (pseudoheader src dst (Z.of_nat (length s)))) as (c1 & H1 & R1); [lia|].
  destruct (ip_chksum_total c1 s R1) as (c2 & H2 & _). exists c1, c2. unfold tcp_cksum. by rewrite H1, H2.
Qed.

Lemma tcp_cksum_range src dst s : 0 <= tcp_cksum src dst s < 65536.
Proof. destruct (tcp_cksum_eq src dst s) as (c1 & c2 & _ & _ & _ & ->). apply wrap16_range. Qed.

Lemma put_header_ok t flags window b0 : holds b0 -> payload b0 = [] -> eb_ptr b0 + 20 <= Z.of_nat eb_size ->
  exists b, put_header t flags window b0 = Some (eb_ptr b0 + 16, b) /\
    filled b0 b (tcp_header (tcb_lclport t) (tcb_peerport t) (tcb_sendnext t) (tcb_rcvack t) flags window [0; 0]).
Proof.
  intros Hb Hp Hr. assert (H0 : filled b0 b0 []) by done. unfold put_header, ebuf_append_u16_be, ebuf_append_u32_be.
  destruct (append_filled _ _ _ (be16 (tcb_lclport t)) H0) as (b1 & -> & H1); [cbn [app length be16]; lia|]. cbn [option_bind].
  destruct (append_filled _ _ _ (be16 (tcb_peerport t)) H1) as (b2 & -> & H2); [cbn [app length be16]; lia|].
  destruct (append_filled _ _ _ (be32 (tcb_sendnext t)) H2) as (b3 & -> & H3); [cbn [app length be16 be32]; lia|].
  destruct (append_filled _ _ _ (be32 (tcb_rcvack t)) H3) as (b4 & -> & H4); [cbn [app length be16 be32]; lia|].
  destruct (append_filled _ _ _ (be16 flags) H4) as (b5 & -> & H5); [cbn [app length be16 be32]; lia|].
  destruct (append_filled _ _ _ (be16 window) H5) as (b6 & -> & H6); [cbn [app length be16 be32]; lia|].
  destruct (append_filled _ _ _ (be16 0) H6) as (b7 & -> & H7); [cbn [app length be16 be32]; lia|].
  destruct (append_filled _ _ _ (be16 0) H7) as (b8 & -> & H8); [cbn [app length be16 be32]; lia|].
  exists b8. split; [|done]. rewrite (fl_ptr _ _ _ H6), (filled_length _ _ _ H6). done.
Qed.

Lemma put_checksum_ok src dst b0 b lport pport seq ack flags window rest :
  filled b0 b (tcp_header lport pport seq ack flags window [0; 0] ++ rest) ->
  exists b', put_checksum src dst b (eb_ptr b0) (eb_ptr b0 + 16) (20 + Z.of_nat (length rest)) = Some b' /\
    filled b0 b' (tcp_bytes src dst lport pport seq ack flags window rest).
Proof.
  intros Hf. pose proof (filled_length _ _ _ Hf) as Hl. unfold tcp_bytes. set (s := tcp_header _ _ _ _ _ _ [0; 0] ++ rest) in *.
  destruct Hf as [Hb Hp Hq Hs].
  assert (Hsl : Z.of_nat (length s) = 20 + Z.of_nat (length rest)) by (unfold s; rewrite length_app, tcp_header_length by done; lia).
  destruct (tcp_cksum_eq src dst s) as (c1 & c2 & E1 & _ & E2 & Eck). unfold put_checksum. rewrite <- Hsl, E1. cbn [option_bind].
  unfold chksum_at. rewrite (proj2 (Z.ltb_ge _ _)) by lia. rewrite <- Hq, <- Hl, read_payload, Hs, E2 by done. cbn [option_bind].
  rewrite <- Eck. change [Z.land (Z.shiftr (tcp_cksum src dst s) 8) 0xFF; Z.land (tcp_cksum src dst s) 0xFF] with (be16 (tcp_cksum src dst s)).
  destruct (write_ok b 16 (be16 (tcp_cksum src dst s)) Hb) as (b' & -> & H1 & [_ H2] & H3 & _ & H5); [lia|rewrite be16_length; lia|].
  exists b'. split; [done|]. split; [done|congruence|congruence|]. rewrite H5, Hs. change (Z.to_nat 16) with 16%nat. unfold s at 1. by rewrite tcp_header_splice.
Qed.

(** Reading a segment back. *)
Lemma rx_fields {A} b lport pport seq ack flags window rest (k : Z -> Z -> Z -> Z -> Z -> Z -> ebuf -> option A) :
  holds b -> payload b = tcp_header lport pport seq ack flags window [0; 0] ++ rest ->
  0 <= lport < 65536 -> 0 <= pport < 65536 -> 0 <= seq < 2 ^ 32 -> 0 <= ack < 2 ^ 32 -> 0 <= flags < 65536 -> 0 <= window < 65536 ->
  exists b', holds b' /\ payload b' = rest /\
  (let? (srcport, b) := ebuf_get_u16_be b in
   let? (dstport, b) := ebuf_get_u16_be b in
   let? (seqnum, b) := ebuf_get_u32_be b in
   let? (acknum, b) := ebuf_get_u32_be b in
   let? (flags, b) := ebuf_get_u16_be b in
   let? (window, b) := ebuf_get_u16_be b in
   k srcport dstport seqnum acknum flags window (ebuf_skip b 4)) = k lport pport seq ack flags window b'.
Proof.
  intros H0 P0 R1 R2 R3 R4 R5 R6. unfold tcp_header in P0. rewrite <- !app_assoc in P0.
  destruct (next_u16 b _ _ H0 P0 R1) as (-> & H1 & P1). revert H1 P1. generalize (ebuf_skip b 2). intros b1 H1 P1. cbn [option_bind].
  destruct (next_u16 b1 _ _ H1 P1 R2) as (-> & H2 & P2). revert H2 P2. generalize (ebuf_skip b1 2). intros b2 H2 P2.
  destruct (next_u32 b2 _ _ H2 P2 R3) as (-> & H3 & P3). revert H3 P3. generalize (ebuf_skip b2 4). intros b3 H3 P3.
  destruct (next_u32 b3 _ _ H3 P3 R4) as (-> & H4 & P4). revert H4 P4. generalize (ebuf_skip b3 4). intros b4 H4 P4.
  destruct (next_u16 b4 _ _ H4 P4 R5) as (-> & H5 & P5). revert H5 P5. generalize (ebuf_skip b4 2). intros b5 H5 P5.
  destruct (next_u16 b5 _ _ H5 P5 R6) as (-> & H6 & P6). revert H6 P6. generalize (ebuf_skip b5 2). intros b6 H6 P6.
  change ([0; 0] ++ [0; 0] ++ rest) with ([0; 0; 0; 0] ++ rest) in P6. destruct (next_bytes b6 4 _ _ H6 P6) as (H7 & _ & P7 & _); [done|].
  exists (ebuf_skip b6 4). done.
Qed.

Lemma rx_header_ok b src dst lport pport seq ack flags window opts data :
  holds b -> payload b = tcp_bytes src dst lport pport seq ack flags window (opts ++ data) -> length src = 4%nat -> length dst = 4%nat ->
  0 <= lport < 65536 -> 0 <= pport < 65536 -> 0 <= seq < 2 ^ 32 -> 0 <= ack < 2 ^ 32 -> 0 <= flags < 65536 -> 0 <= window < 65536 ->
  TCPHDRSIZE flags = 20 + Z.of_nat (length opts) ->
  exists b', rx_header b dst src = Some (Some (Seg lport pport seq ack flags window), b') /\ holds b' /\ payload b' = data.
Proof.
  intros Hb Hpay Ls Ld R1 R2 R3 R4 R5 R6 Hsz. pose proof (payload_length b Hb) as Hpl. pose proof Hb as [B1 B2 B3 B4]. unfold tcp_bytes in Hpay.
  rewrite Hpay, length_app, tcp_header_length in Hpl by done. set (s := tcp_header _ _ _ _ _ _ [0; 0] ++ opts ++ data) in *.
  assert (Hsl : Z.of_nat (length s) = eb_length b) by (unfold s; rewrite length_app, tcp_header_length by done; lia).
  pose proof (tcp_cksum_range src dst s) as Hr. destruct (tcp_cksum_eq src dst s) as (c1 & c2 & E1 & _ & E2 & Eck). revert Hpay Hr Eck. generalize (tcp_cksum src dst s).
  intros ck Hpay Hr Eck. unfold rx_header. rewrite eb_read_at by (done || lia). cbn [option_bind]. rewrite Hpay. change (Z.to_nat 16) with 16%nat. change (Z.to_nat 2) with 2%nat.
  rewrite tcp_header_ck, of_be_16 by done. destruct (write_ok b 16 [0; 0] Hb) as (b1 & -> & H1 & _ & H3 & H4 & H5); [lia|cbn [length]; lia|]. cbn [option_bind].
  rewrite Hpay in H5. change (Z.to_nat 16) with 16%nat in H5. rewrite tcp_header_splice in H5 by done. fold s in H5.
  unfold eb_size in B4. assert (Hsg : sint32 (eb_length b) = eb_length b) by (unfold sint32; rewrite wrap32_small by lia; rewrite (proj2 (Z.ltb_lt _ _)) by lia; lia).
  rewrite Hsg, <- Hsl, !take_ge, E1 by lia. cbn [option_bind]. unfold chksum_at. rewrite (proj2 (Z.ltb_ge _ _)) by lia.
  rewrite Hsl, <- H3, <- H4, read_payload, H5, E2 by done. cbn [option_bind]. rewrite <- Eck, Z.eqb_refl. cbn [negb].
  destruct (rx_fields b1 lport pport seq ack flags window (opts ++ data) (fun a b c d e f buf => if TCPHDRSIZE e <? TCP_HDR_LENGTH then Some (None, buf)
    else Some (Some (Seg a b c d e f), ebuf_skip buf (TCPHDRSIZE e - TCP_HDR_LENGTH))) H1 H5 R1 R2 R3 R4 R5 R6) as (b2 & H6 & H7 & ->).
  unfold TCP_HDR_LENGTH. rewrite (proj2 (Z.ltb_ge _ _)) by lia. eexists. split; [reflexivity|]. rewrite Hsz.
  destruct (next_bytes b2 (20 + Z.of_nat (length opts) - 20) _ _ H6 H7) as (H8 & _ & H9 & _); [lia|]. done.
Qed.

(** * Sending on a recorded layer *)

Section stream.
Context {W : Type} {IL : IpLayer W} {WL : IpLaws W}.

Abbreviation rip := (recorded W).
(** A control message. *)
Definition ctl_syn (t : tcb) : bool := truthy (Z.land (tcb_txflags t) TCPFLG_SYN).
Definition ctl_flags (t : tcb) : Z := Z.lor (tcb_txflags t) (if ctl_syn t then TCPHDRFLG 24 else TCPHDRFLG 20).
Definition ctl_opts (t : tcb) : bytes := if ctl_syn t then be16 TCP_MAX_SEG_OPT ++ be16 TCP_MAX_SEG_SIZE else [].
Definition ctl_bytes (src : bytes) (t : tcb) : bytes :=
  tcp_bytes src (tcb_peeraddr t) (tcb_lclport t) (tcb_peerport t) (tcb_sendnext t) (tcb_rcvnext t) (ctl_flags t) (rx_window t) (ctl_opts t).
Definition ctl_sent (t : tcb) : tcb :=
  let t := set_rcvack (clear_flags t (Z.lor TCB_FLG_SENDMSG TCB_FLG_DLYACK)) (tcb_rcvnext t) in
  if truthy (Z.land (tcb_txflags t) (Z.lor TCPFLG_SYN TCPFLG_FIN)) then set_sendnext t (wrap32 (tcb_sendnext t + 1)) else t.

Lemma land_hdr f n m : Z.land n m = 0 -> Z.land (Z.lor f n) m = Z.land f m.
Proof. intros Hn. rewrite Z.land_lor_distr_l, Hn. apply Z.lor_0_r. Qed.

Lemma protosend_ok src r t : rec_ok src r -> length (tcb_peeraddr t) = 4%nat ->
  exists t' r', _tcp_protosend r t = Some (t', r') /\ rec_ok src r' /\
    ((t' = t /\ rec_sent r' = rec_sent r) \/
     (t' = ctl_sent t /\ rec_sent r' = rec_sent r ++ [(tcb_peeraddr t, ctl_bytes src t)])).
Proof.
  intros Hr Hp. unfold _tcp_protosend. destruct (rec_alloc src r Hr) as (o & r1 & -> & Hr1 & Hs1 & Hb). cbn [option_bind].
  destruct o as [b0|]; [|by eexists _, _; split; [reflexivity|]; split; [done|]; left]. destruct Hb as (Hb & Hport & Hptr & Hpay).
  assert (Hl0 : eb_length b0 = 0) by (rewrite <- (payload_length b0 Hb), Hpay; done). rewrite Hl0, Z.add_0_r.
  set (t1 := set_rcvack _ _).
  change (tcb_txflags (clear_flags t (Z.lor TCB_FLG_SENDMSG TCB_FLG_DLYACK))) with (tcb_txflags t).
  assert (E : (if truthy (Z.land (tcb_txflags t) TCPFLG_SYN) then (Z.lor (tcb_txflags t) (TCPHDRFLG (TCP_HDR_LENGTH + 4)), TCP_HDR_LENGTH + 4)
               else (Z.lor (tcb_txflags t) (TCPHDRFLG TCP_HDR_LENGTH), TCP_HDR_LENGTH)) = (ctl_flags t, 20 + Z.of_nat (length (ctl_opts t)))).
  { unfold ctl_flags, ctl_opts, ctl_syn. by destruct (truthy _). }
  rewrite E. destruct (put_header_ok t1 (ctl_flags t) (rx_window t) b0 Hb Hpay) as (b1 & E1 & Hf1); [rewrite Hptr; unfold eb_size; lia|].
  change (rx_window (clear_flags t (Z.lor TCB_FLG_SENDMSG TCB_FLG_DLYACK))) with (rx_window t). rewrite E1. cbn [option_bind]. clear E E1.
  assert (Hsyn : truthy (Z.land (ctl_flags t) TCPFLG_SYN) = ctl_syn t).
  { unfold ctl_flags. rewrite land_hdr; [done|by destruct (ctl_syn t)]. }
  rewrite Hsyn. assert (Hopt : exists b2, (if ctl_syn t then let? b := ebuf_append_u16_be b1 TCP_MAX_SEG_OPT in ebuf_append_u16_be b TCP_MAX_SEG_SIZE else Some b1) = Some b2 /\
    filled b0 b2 (tcp_header (tcb_lclport t) (tcb_peerport t) (tcb_sendnext t) (tcb_rcvnext t) (ctl_flags t) (rx_window t) [0; 0] ++ ctl_opts t)).
  { unfold ctl_opts. destruct (ctl_syn t); [|exists b1; by rewrite app_nil_r]. unfold ebuf_append_u16_be.
    destruct (append_filled _ _ _ (be16 TCP_MAX_SEG_OPT) Hf1) as (b2 & -> & Hf2); [rewrite length_app, tcp_header_length, Hptr by done; unfold eb_size; cbn; lia|]. cbn [option_bind].
    destruct (append_filled _ _ _ (be16 TCP_MAX_SEG_SIZE) Hf2) as (b3 & -> & Hf3); [rewrite !length_app, tcp_header_length, Hptr by done; unfold eb_size; cbn; lia|].
    exists b3. split; [done|]. by rewrite app_assoc. }
  destruct Hopt as (b2 & -> & Hf2). cbn [option_bind].
  destruct (put_checksum_ok (ip_getaddr r1) (tcb_peeraddr t) b0 b2 _ _ _ _ _ _ _ Hf2) as (b3 & Hck & Hf3).
  assert (Hsf : truthy (Z.land (ctl_flags t) (Z.lor TCPFLG_SYN TCPFLG_FIN)) = truthy (Z.land (tcb_txflags t) (Z.lor TCPFLG_SYN TCPFLG_FIN))).
  { unfold ctl_flags. rewrite land_hdr; [done|by destruct (ctl_syn t)]. }
  rewrite Hsf. change (if truthy (Z.land (tcb_txflags t) (Z.lor TCPFLG_SYN TCPFLG_FIN)) then set_sendnext t1 (wrap32 (tcb_sendnext t1 + 1)) else t1) with (ctl_sent t).
  assert (Hpa : tcb_peeraddr (ctl_sent t) = tcb_peeraddr t) by (unfold ctl_sent; by destruct (truthy (Z.land (tcb_txflags _) (Z.lor _ _)))).
  rewrite Hpa, Hptr in *. change (0 + (20 + Z.of_nat (length (ctl_opts t)))) with (20 + Z.of_nat (length (ctl_opts t))). rewrite Hck. cbn [option_bind].
  destruct (rec_send src r1 b0 b3 (tcb_peeraddr t) IPPROTO_TCP _ Hr1 Hport Hptr Hf3 Hp) as (r2 & -> & Hr2 & Hs2). cbn [option_bind].
  eexists _, _. split; [reflexivity|]. split; [done|]. right. split; [done|]. rewrite Hs2, Hs1. replace (ip_getaddr r1) with src by (symmetry; apply Hr1). done.
Qed.

(** * An established connection *)

(** One end: the addresses and ports, and the sequence numbers of the first byte in each
    direction. *)
Record endpoint := Ep { e_addr : bytes; e_peer : bytes; e_lport : Z; e_pport : Z; e_base : Z; e_rbase : Z }.

Record ep_ok (e : endpoint) : Prop := {
  ep_addr : length (e_addr e) = 4%nat;
  ep_peer : length (e_peer e) = 4%nat;
  ep_lport : 0 <= e_lport e < 65536;
  ep_pport : 0 < e_pport e < 65536
}.

Definition slen (s : bytes) : Z := Z.of_nat (length s).

(** [S] is what has been given to the connection to send so far, [R] what it has received;
    [U] bytes of [S] are acknowledged, [N] have been sent, [D] bytes of [R] have been
    handed to the user. *)
Record est (e : endpoint) (S R : bytes) (U N D : Z) (t : tcb) : Prop := {
  es_state : tcb_state t = TCPSTATE_ESTABLISHED;
  es_peer : tcb_peeraddr t = e_peer e;
  es_pport : tcb_peerport t = e_pport e;
  es_lport : tcb_lclport t = e_lport e;
  es_txflags : tcb_txflags t = TCPFLG_ACK;
  es_mtu : tcb_mtu t = 1400;
  es_tx : tmb_ok TCP_BUF_SIZE (tcb_txbuf t);
  es_rx : tmb_ok TCP_BUF_SIZE (tcb_rxbuf t);
  es_txbuf : contents (tcb_txbuf t) = drop (Z.to_nat U) S;
  es_rxbuf : contents (tcb_rxbuf t) = drop (Z.to_nat D) R;
  es_sendunack : tcb_sendunack t = wrap32 (e_base e + U);
  es_sendnext : tcb_sendnext t = wrap32 (e_base e + N);
  es_rcvnext : tcb_rcvnext t = wrap32 (e_rbase e + slen R);
  es_U : 0 <= U <= N;
  es_N : N <= slen S;
  es_D : 0 <= D <= slen R;
  es_S : slen S < 2 ^ 30;
  es_R : slen R < 2 ^ 30;
  es_window : 0 <= tcb_sendwindow t < 65536
}.

(** A packet from the end [e] carries bytes of [S] at their place and acknowledges no more
    than [R]. *)
Record seg_ok (e : endpoint) (S R : bytes) (seq ack flags window : Z) (opts data : bytes) : Prop := {
  so_seq : 0 <= seq < 2 ^ 32;
  so_ack : 0 <= ack < 2 ^ 32;
  so_flags : 0 <= flags < 65536;
  so_window : 0 <= window < 65536;
  so_size : TCPHDRSIZE flags = 20 + slen opts;
  so_no_fin : Z.land flags TCPFLG_FIN = 0;
  so_no_rst : Z.land flags TCPFLG_RST = 0;
  so_short : slen opts + slen data <= 1440;
  so_acks : Z.land flags TCPFLG_ACK = 0 \/ exists m, 0 <= m <= slen R /\ ack = wrap32 (e_rbase e + m);
  so_data : data = [] \/ exists n, 0 <= n /\ n + slen data <= slen S /\ seq = wrap32 (e_base e + n) /\
    data = take (length data) (drop (Z.to_nat n) S)
}.

Definition pkt_ok (e : endpoint) (S R : bytes) (q : bytes * bytes) : Prop :=
  exists seq ack flags window opts data, seg_ok e S R seq ack flags window opts data /\
    q = (e_peer e, tcp_bytes (e_addr e) (e_peer e) (e_lport e) (e_pport e) seq ack flags window (opts ++ data)).

(** More may have been sent and received since. *)
Lemma pkt_ok_more e S R S' R' q : S `prefix_of` S' -> R `prefix_of` R' -> pkt_ok e S R q -> pkt_ok e S' R' q.
Proof.
  intros [x ->] [y ->] (seq & ack & fl & win & opts & data & H1 & ->). exists seq, ack, fl, win, opts, data. split; [|done].
  destruct H1 as [? ? ? ? ? ? ? ? Ha Hd]. split; try done.
  - destruct Ha as [Ha|(m & Hm & Ha)]; [by left|right]. exists m. unfold slen in *. rewrite length_app. split; [lia|done].
  - destruct Hd as [Hd|(n & Hn & Hl & Hs & Hd)]; [by left|right]. exists n. unfold slen in *. rewrite length_app. split; [done|]. split; [lia|]. split; [done|].
    rewrite Hd at 1. rewrite drop_app_le, take_app_le by (rewrite ?length_drop; lia). done.
Qed.

Lemma seq_diff b x y : - 2 ^ 31 <= x - y < 2 ^ 31 -> TCPSEQ_DIFF (wrap32 (b + x)) (wrap32 (b + y)) = x - y.
Proof.
  intros Hr. unfold TCPSEQ_DIFF, sint32, wrap32. rewrite <- Zminus_mod. replace (b + x - (b + y)) with (x - y) by lia.
  destruct (Z.ltb_spec ((x - y) mod 2 ^ 32) (2 ^ 31)) as [Hlt|Hge]; destruct (decide (0 <= x - y)).
  - rewrite Z.mod_small; lia.
  - rewrite <- (Z_mod_plus_full _ 1), Z.mod_small in * by lia. lia.
  - rewrite Z.mod_small in * by lia. lia.
  - rewrite <- (Z_mod_plus_full _ 1), Z.mod_small in * by lia. lia.
Qed.

Lemma wrap32_mod_add a b : wrap32 (wrap32 a + b) = wrap32 (a + b).
Proof. unfold wrap32. by rewrite Zplus_mod_idemp_l. Qed.

Lemma tx_length e S R U N D t : est e S R U N D t -> tmb_len (tcb_txbuf t) = slen S - U.
Proof.
  intros E. pose proof (contents_length _ _ (es_tx _ _ _ _ _ _ _ E)) as Hl. rewrite (es_txbuf _ _ _ _ _ _ _ E), length_drop in Hl.
  destruct E. unfold slen in *. lia.
Qed.

Lemma rx_length e S R U N D t : est e S R U N D t -> tmb_len (tcb_rxbuf t) = slen R - D.
Proof.
  intros E. pose proof (contents_length _ _ (es_rx _ _ _ _ _ _ _ E)) as Hl. rewrite (es_rxbuf _ _ _ _ _ _ _ E), length_drop in Hl.
  destruct E. unfold slen in *. lia.
Qed.

Lemma rx_window_range e S R U N D t : est e S R U N D t -> 0 <= rx_window t <= 65000.
Proof.
  intros E. destruct (es_rx _ _ _ _ _ _ _ E) as [(Hs & _) Hl _ _ _]. unfold rx_window, tmb_remlen, TCP_BUF_SIZE in *. case_test; lia.
Qed.

(** What an operation of one end does: it stays established and sends good packets. *)
Definition sends (e : endpoint) (S R : bytes) (r r' : rip) : Prop :=
  rec_ok (e_addr e) r' /\ exists ps, rec_sent r' = rec_sent r ++ ps /\ Forall (pkt_ok e S R) ps.

Lemma sends_nothing e S R r r' : rec_ok (e_addr e) r' -> rec_sent r' = rec_sent r -> sends e S R r r'.
Proof. intros H1 H2. split; [done|]. exists []. by rewrite app_nil_r. Qed.

Lemma sends_trans e S R a b c : sends e S R a b -> sends e S R b c -> sends e S R a c.
Proof.
  intros [_ (p & Hp & Fp)] [Ha (q & Hq & Fq)]. split; [done|]. exists (p ++ q). rewrite Hq, Hp, app_assoc. split; [done|]. by apply Forall_app.
Qed.

Lemma est_ack_sent e S R U N D t : est e S R U N D t -> est e S R U N D (ctl_sent t).
Proof. intros E. destruct E. unfold ctl_sent. cbn [tcb_txflags set_rcvack clear_flags set_flags]. rewrite es_txflags0. split; done. Qed.

Lemma ack_pkt_ok e S R U N D t : est e S R U N D t -> pkt_ok e S R (tcb_peeraddr t, ctl_bytes (e_addr e) t).
Proof.
  intros E. pose proof (rx_window_range _ _ _ _ _ _ _ E) as Hw. destruct E. unfold pkt_ok, ctl_bytes, ctl_flags, ctl_opts, ctl_syn.
  rewrite es_txflags0, es_peer0, es_pport0, es_lport0. change (truthy (Z.land TCPFLG_ACK TCPFLG_SYN)) with false. cbv iota.
  eexists _, _, _, _, [], []. split; [|reflexivity].
  split; try done; [rewrite es_sendnext0; apply wrap32_range|rewrite es_rcvnext0; apply wrap32_range|lia| |by left].
  right. exists (slen R). unfold slen. split; [lia|done].
Qed.

Lemma ack_ok e S R U N D r t : ep_ok e -> rec_ok (e_addr e) r -> est e S R U N D t ->
  exists t' r', _tcp_protosend r t = Some (t', r') /\ est e S R U N D t' /\ sends e S R r r'.
Proof.
  intros He Hr E. destruct (protosend_ok (e_addr e) r t Hr) as (t' & r' & -> & Hr' & Hc); [rewrite (es_peer _ _ _ _ _ _ _ E); apply He|].
  exists t', r'. split; [done|]. destruct Hc as [[-> Hs]|[-> Hs]].
  - split; [done|]. by apply sends_nothing.
  - split; [by apply est_ack_sent|]. split; [done|]. eexists. split; [exact Hs|]. constructor; [|constructor]. by eapply ack_pkt_ok.
Qed.

Lemma ctlmsg_ok e S R U N D ticks r t timeout : ep_ok e -> rec_ok (e_addr e) r -> est e S R U N D t ->
  exists t' r', _tcp_sendctlmsg ticks r t TCPFLG_ACK timeout = Some (t', r') /\ est e S R U N D t' /\ sends e S R r r'.
Proof.
  intros He Hr E. unfold _tcp_sendctlmsg. apply ack_ok; [done|done|]. destruct E. by destruct (0 <=? timeout).
Qed.

(** * Output *)

Lemma output_sendmax_ok e S R U N D t : est e S R U N D t ->
  exists M, output_sendmax t = wrap32 (e_base e + (U + M)) /\ 0 <= M <= slen S - U.
Proof.
  intros E. pose proof (tx_length _ _ _ _ _ _ _ E) as Hl. destruct E. unfold output_sendmax, tmb_curlen, TCPSEQ_GT. rewrite Hl, es_sendunack0.
  rewrite !wrap32_mod_add, <- !Z.add_assoc. rewrite seq_diff by lia. destruct (Z.ltb_spec 0 (U + (slen S - U) - (U + tcb_sendwindow t))).
  - rewrite seq_diff by lia. destruct (Z.ltb_spec 0 (U + tcb_sendwindow t - (U + 5 * 1400))).
    + exists (5 * 1400). split; [done|lia].
    + exists (tcb_sendwindow t). split; [done|lia].
  - rewrite seq_diff by lia. destruct (Z.ltb_spec 0 (U + (slen S - U) - (U + 5 * 1400))).
    + exists (5 * 1400). split; [done|lia].
    + exists (slen S - U). split; [done|lia].
Qed.

Definition data_flags : Z := Z.lor TCPFLG_ACK (TCPHDRFLG TCP_HDR_LENGTH).

Lemma data_pkt_ok e S R n l ack window : 0 <= n -> 0 <= l <= 1400 -> n + l <= slen S -> ack = wrap32 (e_rbase e + slen R) -> 0 <= window < 65536 ->
  pkt_ok e S R (e_peer e, tcp_bytes (e_addr e) (e_peer e) (e_lport e) (e_pport e) (wrap32 (e_base e + n)) ack data_flags window
                           (take (Z.to_nat l) (drop (Z.to_nat n) S))).
Proof.
  intros Hn Hl Hs -> Hw. eexists _, _, _, _, [], (take (Z.to_nat l) (drop (Z.to_nat n) S)). split; [|reflexivity]. unfold slen in *.
  assert (Hd : length (take (Z.to_nat l) (drop (Z.to_nat n) S)) = Z.to_nat l) by (rewrite length_take, length_drop; lia).
  split; try done; [apply wrap32_range|apply wrap32_range|unfold slen; rewrite Hd; cbn [length]; lia| |].
  - right. exists (slen R). unfold slen. split; [lia|done].
  - right. exists n. unfold slen. rewrite Hd. split; [done|]. split; [lia|]. done.
Qed.

(** One segment. *)
Lemma output_step e S R U N D ticks window r t (f : nat) sendmax M : ep_ok e -> rec_ok (e_addr e) r -> est e S R U N D t ->
  sendmax = wrap32 (e_base e + (U + M)) -> N < U + M -> 0 <= M <= slen S - U -> 0 <= window <= 65000 ->
  (exists r', output_loop (1 + f) ticks window sendmax r t = Some (t, r') /\ sends e S R r r') \/
  exists t' r' N', output_loop (1 + f) ticks window sendmax r t = output_loop f ticks window sendmax r' t' /\
    N < N' <= slen S /\ est e S R U N' D t' /\ sends e S R r r'.
Proof.
  intros He Hr E -> HN HM Hw. pose proof (tx_length _ _ _ _ _ _ _ E) as Htl. pose proof E as E0. destruct E. change (1 + f)%nat with (Datatypes.S f). cbn [output_loop].
  unfold TCPSEQ_LT. rewrite es_sendnext0, es_sendunack0, !seq_diff by lia. rewrite (proj2 (Z.ltb_lt _ _)) by lia.
  destruct (rec_alloc _ r Hr) as (o & r1 & -> & Hr1 & Hs1 & Hb). cbn [option_bind].
  destruct o as [b0|]; [|left; exists r1; split; [done|by apply sends_nothing]]. destruct Hb as (Hb & Hport & Hptr & Hpay). right.
  assert (Hl0 : eb_length b0 = 0) by (rewrite <- (payload_length b0 Hb), Hpay; done). rewrite Hl0, Z.add_0_r. fold data_flags.
  set (t1 := set_rcvack t (tcb_rcvnext t)).
  destruct (put_header_ok t1 data_flags window b0 Hb Hpay) as (b1 & -> & Hf1); [rewrite Hptr; unfold eb_size; lia|]. cbn [option_bind].
  change (tcb_txbuf t1) with (tcb_txbuf t). change (tcb_mtu t1) with (tcb_mtu t). rewrite es_mtu0.
  rewrite (tmb_copyout2_spec _ _ _ _ es_tx0) by lia. cbn [option_bind]. rewrite es_txbuf0, drop_drop, Htl.
  replace (Z.min 1400 (Z.max 0 (slen S - U - (N - U)))) with (Z.min 1400 (slen S - N)) by lia. set (l := Z.min 1400 (slen S - N)).
  assert (Hl : 0 < l <= 1400 /\ N + l <= slen S) by (unfold l; lia). rewrite <- Z2Nat.inj_add by lia. replace (U + (N - U)) with N by lia.
  set (data := take (Z.to_nat l) (drop (Z.to_nat N) S)). assert (Hdl : slen data = l) by (unfold data, slen in *; rewrite length_take, length_drop; lia).
  destruct (append_filled _ _ _ data Hf1) as (b2 & Ha & Hf2); [rewrite length_app, tcp_header_length, Hptr by done; unfold eb_size, slen in *; lia|].
  unfold ebuf_append_bytes in Ha. destruct (eb_write b1 (eb_ptr b1 + eb_length b1) data) as [b1'|] eqn:Ew; [|done]. cbn [option_bind].
  assert (Hlen1 : eb_length b1' = eb_length b1) by (unfold eb_write in Ew; destruct (_ && _); [|done]; by injection Ew as <-).
  injection Ha as Ha. assert (Hb2 : ebuf_setlength b1' (eb_length b1' + l) = b2) by (rewrite <- Ha, <- Hdl, Hlen1; done). rewrite Hb2.
  change (tcb_peeraddr (set_sendnext t1 _)) with (tcb_peeraddr t). rewrite es_peer0.
  destruct (put_checksum_ok (ip_getaddr r1) (e_peer e) b0 b2 _ _ _ _ _ _ _ Hf2) as (b3 & Hck & Hf3). fold (slen data) in Hck. rewrite Hdl, (Z.add_comm 20) in Hck.
  unfold TCP_HDR_LENGTH. rewrite Hck. cbn [option_bind].
  destruct (rec_send _ r1 b0 b3 (e_peer e) IPPROTO_TCP _ Hr1 Hport Hptr Hf3 (ep_peer e He)) as (r2 & -> & Hr2 & Hs2). cbn [option_bind].
  eexists _, r2, (N + l). split; [reflexivity|]. split; [lia|]. split.
  - split; try done; [|cbn; lia..]. cbn [tcb_sendnext clear_flags set_timer_retx set_sendnext set_flags set_rcvack t1]. rewrite es_sendnext0, wrap32_mod_add. f_equal. lia.
  - split; [done|]. eexists. split; [rewrite Hs2, Hs1; reflexivity|]. constructor; [|constructor]. replace (ip_getaddr r1) with (e_addr e) by (symmetry; apply Hr1).
    cbn [tcb_lclport tcb_peerport tcb_sendnext tcb_rcvack set_rcvack t1]. rewrite es_lport0, es_pport0, es_sendnext0. apply data_pkt_ok; lia || done.
Qed.

Lemma output_loop_ok e S R U D ticks window sendmax M f : forall N r t, ep_ok e -> rec_ok (e_addr e) r -> est e S R U N D t ->
  sendmax = wrap32 (e_base e + (U + M)) -> 0 <= M <= slen S - U -> 0 <= window <= 65000 -> U + M - N <= Z.of_nat f ->
  exists t' r' N', output_loop f ticks window sendmax r t = Some (t', r') /\ N <= N' /\ est e S R U N' D t' /\ sends e S R r r'.
Proof.
  induction f as [|f IH]; intros N r t He Hr E Hm HM Hw Hf.
  - exists t, r, N. split; [|split; [lia|split; [done|by apply sends_nothing]]]. destruct E. cbn [output_loop]. unfold TCPSEQ_LT.
    rewrite es_sendnext0, Hm, seq_diff by lia. by rewrite (proj2 (Z.ltb_ge _ _)) by lia.
  - destruct (decide (N < U + M)) as [HN|HN].
    + destruct (output_step e S R U N D ticks window r t f sendmax M He Hr E Hm HN HM Hw) as [(r' & E1 & Hs)|(t1 & r1 & N1 & E1 & HN1 & Ht1 & Hs1)]; cbn [Nat.add] in E1; rewrite E1.
      * exists t, r', N. split; [done|]. split; [lia|]. by split.
      * destruct (IH N1 r1 t1 He (proj1 Hs1) Ht1 Hm HM Hw) as (t2 & r2 & N2 & -> & HN2 & Ht2 & Hs2); [lia|].
        exists t2, r2, N2. split; [done|]. split; [lia|]. split; [done|]. by eapply sends_trans.
    + exists t, r, N. split; [|split; [lia|split; [done|by apply sends_nothing]]]. destruct E. cbn [output_loop]. unfold TCPSEQ_LT.
      rewrite es_sendnext0, Hm, seq_diff by lia. by rewrite (proj2 (Z.ltb_ge _ _)) by lia.
Qed.

(** [_tcp_output] returns: its loop sends at least one byte of the window each time. *)
Lemma output_ok e S R U N D ticks r t : ep_ok e -> rec_ok (e_addr e) r -> est e S R U N D t ->
  exists t' r' N', _tcp_output ticks r t = Some (t', r') /\ N <= N' /\ est e S R U N' D t' /\ sends e S R r r'.
Proof.
  intros He Hr E. unfold _tcp_output. destruct (output_sendmax_ok _ _ _ _ _ _ _ E) as (M & Hm & HM). pose proof (rx_window_range _ _ _ _ _ _ _ E) as Hw.
  eapply output_loop_ok; try done. rewrite Hm. destruct E. rewrite es_sendnext0, seq_diff by lia. lia.
Qed.

(** * Receiving *)

Lemma procack_est e S R U N D ticks t ack flags m : est e S R U N D t -> ack = wrap32 (e_base e + m) -> 0 <= m <= N ->
  exists t' U', _tcp_procack ticks t ack flags = Some t' /\ est e S R U' N D t'.
Proof.
  intros E -> Hm. pose proof (tx_length _ _ _ _ _ _ _ E) as Htl. pose proof E as E0. destruct E. unfold _tcp_procack, TCPSEQ_LEQ, tmb_curlen. rewrite es_state0, Htl, es_sendunack0.
  change (TCPSTATE_ESTABLISHED =? TCPSTATE_ESTABLISHED) with true. cbv iota. rewrite wrap32_mod_add, <- Z.add_assoc, !seq_diff by lia.
  rewrite (proj2 (Z.leb_le (m - _) _)) by lia. rewrite andb_true_r. destruct (Z.leb_spec (U - m) 0); cbn [negb]; [|by exists t, U].
  assert (Hout : forall t' U', est e S R U' N D t' -> exists t'' U'',
    (if truthy (tmb_len (tcb_txbuf t')) then Some (or_flags t' TCB_FLG_OUTPUT) else Some (set_timer_retx t' 0)) = Some t'' /\ est e S R U'' N D t'').
  { intros t' U' E'. destruct (truthy _); eexists _, U'; (split; [reflexivity|]); by destruct E'. }
  destruct (Z.ltb_spec 0 (m - U)).
  - destruct (tmb_adjust_spec _ _ (m - U) es_tx0) as (tx & -> & Htx & Hct); [lia|]. cbn [option_bind]. apply (Hout _ m).
    split; try done; [|cbn; lia..]. cbn [tcb_txbuf set_dup_ackcnt set_sendunack set_txflags set_txbuf]. rewrite Hct, es_txbuf0, drop_drop. f_equal. lia.
  - apply (Hout _ U). by destruct E0.
Qed.

Lemma prefix_take (R S : bytes) : R `prefix_of` S -> R = take (length R) S.
Proof. intros [x ->]. by rewrite take_app_length. Qed.

Lemma take_prefix (S : bytes) k : take k S `prefix_of` S.
Proof. exists (drop k S). by rewrite take_drop. Qed.

Lemma procdata_est e S R U N D t seq buf S' : est e S R U N D t -> holds buf -> R `prefix_of` S' -> slen S' < 2 ^ 30 -> slen (payload buf) <= 1440 ->
  payload buf = [] \/ (exists n, 0 <= n /\ n + slen (payload buf) <= slen S' /\ seq = wrap32 (e_rbase e + n) /\
    payload buf = take (length (payload buf)) (drop (Z.to_nat n) S')) ->
  exists o, procdata_data t seq buf = Some o /\
    match o with
    | None => True
    | Some t' => exists R', est e S R' U N D t' /\ R `prefix_of` R' /\ R' `prefix_of` S'
    end.
Proof.
  intros E Hb HR HS' Hsh Hd. pose proof (payload_length buf Hb) as Hpl. fold (slen (payload buf)) in Hpl. unfold procdata_data. rewrite <- Hpl.
  assert (Hsg : sint32 (slen (payload buf)) = slen (payload buf)) by (unfold sint32, slen in *; rewrite wrap32_small by lia; rewrite (proj2 (Z.ltb_lt _ _)) by lia; lia).
  rewrite Hsg. assert (Hstay : exists R', est e S R' U N D t /\ R `prefix_of` R' /\ R' `prefix_of` S') by (by exists R).
  destruct (Z.eqb_spec (slen (payload buf)) 0) as [H0|H0]; [by eexists|]. destruct Hd as [Hd|(n & Hn & Hns & -> & Hd)]; [by rewrite Hd in H0|].
  set (l := slen (payload buf)) in *. pose proof (prefix_length _ _ HR) as HRl. pose proof (rx_length _ _ _ _ _ _ _ E) as Hrl.
  pose proof E as E0. destruct E. unfold TCPSEQ_LEQ, TCPSEQ_LT. assert (Hl : 0 < l) by (unfold l, slen in *; lia). unfold slen in HS', es_R0.
  rewrite es_rcvnext0, wrap32_mod_add, <- Z.add_assoc, !seq_diff by (unfold slen in *; lia).
  destruct (Z.leb_spec (n - slen R) 0); [|by eexists]. destruct (Z.ltb_spec (slen R - (n + l)) 0); [|by eexists]. cbn [andb negb].
  pose proof (seq_diff (e_rbase e) (n + l) (slen R)) as Hdf. unfold TCPSEQ_DIFF in Hdf. rewrite Hdf by (unfold slen in *; lia).
  rewrite (proj2 (Z.ltb_lt _ _)) by lia. replace (wrap32 (wrap32 (e_rbase e + slen R) - wrap32 (e_rbase e + n))) with (slen R - n).
  2:{ unfold wrap32. rewrite <- Zminus_mod. rewrite Z.mod_small; unfold slen in *; lia. }
  destruct Hb as [B1 B2 B3 B4]. set (src := drop _ (eb_data buf)). assert (Hsrc : take (Z.to_nat (n + l - slen R)) src = take (Z.to_nat (n + l - slen R)) (drop (length R) S')).
  { transitivity (drop (Z.to_nat (slen R - n)) (payload buf)).
    - unfold src, payload. rewrite skipn_firstn_comm, drop_drop. f_equal; [lia|f_equal; lia].
    - rewrite Hd, skipn_firstn_comm, drop_drop. unfold l, slen in *. f_equal; [|f_equal]; lia. }
  assert (Hsl : n + l - slen R <= slen src) by (unfold src, slen in *; rewrite length_drop; lia).
  destruct (tmb_copyin_spec _ _ src (n + l - slen R) true es_rx0) as (rx & -> & Hrx & Hct); [unfold slen in *; lia|]. cbn [option_bind].
  set (k := Z.min _ _) in *. assert (Hk : 0 <= k <= n + l - slen R) by (destruct es_rx0 as [_ ? _ _ _]; unfold k; lia).
  set (R' := R ++ take (Z.to_nat k) (drop (length R) S')). assert (HR' : R' = take (length R + Z.to_nat k) S').
  { unfold R'. rewrite (prefix_take R S' HR) at 1. by rewrite <- take_drop_commut || by rewrite take_take_drop. }
  assert (Hlen : slen R' = slen R + k) by (rewrite HR'; unfold slen in *; rewrite length_take; lia).
  assert (E' : est e S R' U N D (set_rcvnext (set_rxbuf t rx) (wrap32 (wrap32 (e_rbase e + slen R) + k)))).
  { split; try done; cbn [tcb_rxbuf tcb_rcvnext set_rcvnext set_rxbuf]; [|rewrite wrap32_mod_add, Hlen; f_equal; lia|unfold slen in *; lia|rewrite Hlen; unfold slen in *; lia].
    rewrite Hct, es_rxbuf0. unfold R'. rewrite drop_app_le by (unfold slen in *; lia). f_equal.
    rewrite <- (take_take src (Z.to_nat k) (Z.to_nat (n + l - slen R))) at 1 || idtac. 
    transitivity (take (Z.to_nat k) (take (Z.to_nat (n + l - slen R)) src)); [rewrite take_take; f_equal; lia|]. rewrite Hsrc, take_take. f_equal. lia. }
  eexists. split; [reflexivity|]. exists R'. split; [|split; [by eexists|rewrite HR'; apply take_prefix]].
  destruct (truthy _); by destruct E'.
Qed.

Lemma est_clear e S R U N D t f : est e S R U N D t -> est e S R U N D (clear_flags t f).
Proof. by intros []. Qed.

Lemma rx_finish_ok e S R U N D ticks r t : ep_ok e -> rec_ok (e_addr e) r -> est e S R U N D t ->
  exists t' r' N', rx_finish ticks r t = Some (t', r') /\ N <= N' /\ est e S R U N' D t' /\ sends e S R r r'.
Proof.
  intros He Hr E. unfold rx_finish.
  assert (H1 : exists t1 r1 N1, (if truthy (Z.land (tcb_flags t) TCB_FLG_OUTPUT) then
    let? (t, r) := _tcp_output ticks r t in Some (clear_flags t (Z.lor TCB_FLG_OUTPUT TCB_FLG_SENDMSG), r) else Some (t, r)) = Some (t1, r1) /\
    N <= N1 /\ est e S R U N1 D t1 /\ sends e S R r r1).
  { destruct (truthy _); [|exists t, r, N; split; [done|]; split; [lia|]; split; [done|]; by apply sends_nothing].
    destruct (output_ok e S R U N D ticks r t He Hr E) as (t1 & r1 & N1 & -> & HN & E1 & Hs). cbn [option_bind].
    eexists _, _, N1. split; [reflexivity|]. split; [done|]. split; [by apply est_clear|done]. }
  destruct H1 as (t1 & r1 & N1 & -> & HN & E1 & Hs1). cbn [option_bind]. destruct (truthy _); [|by exists t1, r1, N1].
  destruct (ack_ok e S R U N1 D r1 t1 He (proj1 Hs1) E1) as (t2 & r2 & -> & E2 & Hs2). exists t2, r2, N1. split; [done|]. split; [done|]. split; [done|].
  by eapply sends_trans.
Qed.

(** A good segment of the peer, in the established state. *)
Lemma rx_data_ok e S R U N D ticks r t seq ack flags window opts data buf e' S' R' : ep_ok e -> rec_ok (e_addr e) r -> est e S R U N D t ->
  e_base e' = e_rbase e -> e_rbase e' = e_base e -> seg_ok e' S' R' seq ack flags window opts data -> holds buf -> payload buf = data ->
  R `prefix_of` S' -> slen S' < 2 ^ 30 -> slen R' <= slen S -> TCPSEQ_LEQ ack (tcb_sendnext t) = true ->
  exists t' r' R1 U', rx_data ticks r t seq ack flags buf = Some (t', r') /\ est e S R1 U' N D t' /\ sends e S R1 r r' /\
    R `prefix_of` R1 /\ R1 `prefix_of` S'.
Proof.
  intros He Hr E Hb1 Hb2 Hg Hb Hpay HR HS' HR' Hle. unfold rx_data.
  assert (H1 : exists t1 U1, (if truthy (Z.land flags TCPFLG_ACK) then _tcp_procack ticks t ack flags else Some t) = Some t1 /\ est e S R U1 N D t1).
  { destruct (so_acks _ _ _ _ _ _ _ _ _ Hg) as [->|(m & Hm & Ha)]; [by exists t, U|]. destruct (truthy _); [|by exists t, U].
    rewrite Hb2 in Ha. eapply (procack_est e S R U N D ticks t ack flags m); [done|done|]. split; [lia|].
    unfold TCPSEQ_LEQ in Hle. rewrite Ha in Hle. destruct E. rewrite es_sendnext0, seq_diff in Hle by lia. lia. }
  destruct H1 as (t1 & U1 & -> & E1). cbn [option_bind]. unfold _tcp_procdata.
  destruct (procdata_est e S R U1 N D t1 seq buf S' E1 Hb HR HS') as (o & -> & Ho).
  - rewrite Hpay. pose proof (so_short _ _ _ _ _ _ _ _ _ Hg). unfold slen in *. lia.
  - rewrite Hpay. destruct (so_data _ _ _ _ _ _ _ _ _ Hg) as [Hd|(n & Hn & Hl & Hs & Hd)]; [by left|right]. exists n. rewrite <- Hb1. done.
  - cbn [option_bind]. rewrite (so_no_fin _ _ _ _ _ _ _ _ _ Hg). change (truthy 0) with false. cbv iota. destruct o as [t2|].
    + destruct Ho as (R1 & E2 & P1 & P2). exists t2, r, R1, U1. split; [done|]. split; [done|]. split; [by apply sends_nothing|done].
    + exists t1, r, R, U1. split; [done|]. split; [done|]. split; [by apply sends_nothing|done].
Qed.

(** * Hosts *)

(** A host whose only control block, at [p], is the connection of socket [s]. *)
Record host (e : endpoint) (s p : Z) (S R : bytes) (U N D : Z) (ti : tcp_info (W := rip)) : Prop := {
  ho_list : ti_tcblist ti = [p];
  ho_sock : socket_at ti s = Some (Some p);
  ho_ip : rec_ok (e_addr e) (ti_ipinfo ti);
  ho_tcb : exists t, get_tcb ti p = Some t /\ est e S R U N D t
}.

Definition ti_sends (e : endpoint) (S R : bytes) (ti ti' : tcp_info (W := rip)) : Prop := sends e S R (ti_ipinfo ti) (ti_ipinfo ti').

Lemma host_with e s p S R U N D ti f : host e s p S R U N D ti ->
  (forall t, est e S R U N D t -> exists t' r' N', f (cfe_ticks ti) (ti_ipinfo ti) t = Some (t', r') /\ N <= N' /\ est e S R U N' D t' /\ sends e S R (ti_ipinfo ti) r') ->
  exists ti' N', with_tcb ti p f = Some ti' /\ N <= N' /\ host e s p S R U N' D ti' /\ ti_sends e S R ti ti' /\ cfe_ticks ti' = cfe_ticks ti.
Proof.
  intros [H1 H2 H3 (t & Ht & E)] Hf. unfold with_tcb. rewrite Ht. cbn [option_bind]. destruct (Hf t E) as (t' & r' & N' & -> & HN & E' & Hs). cbn [option_bind].
  eexists _, N'. split; [reflexivity|]. split; [done|]. split; [|done]. split; [done|done|apply Hs|]. exists t'. split; [apply lookup_insert_eq|done].
Qed.

Lemma host_put e s p S R U N D S' R' U' N' D' ti r t : host e s p S R U N D ti -> rec_ok (e_addr e) r -> est e S' R' U' N' D' t ->
  host e s p S' R' U' N' D' (set_ipinfo (put_tcb ti p t) r).
Proof. intros [H1 H2 H3 H4] Hr E. split; [done|done|done|]. exists t. split; [apply lookup_insert_eq|done]. Qed.

Lemma find_own e s p S R U N D ti g : host e s p S R U N D ti -> sg_srcport g = e_pport e -> sg_dstport g = e_lport e -> ep_ok e ->
  _tcp_find_tcb ti (sg_srcport g) (sg_dstport g) (e_peer e) = Some (Some p).
Proof.
  intros [H1 H2 H3 (t & Ht & E)] Hsp Hdp He. unfold _tcp_find_tcb. rewrite H1. cbn [find_list]. unfold get_tcb in Ht. rewrite Ht. cbn [option_bind].
  destruct E. rewrite es_pport0, es_lport0, es_peer0, Hsp, Hdp, !Z.eqb_refl, bytes_eqb_refl. destruct He. rewrite (proj2 (Z.eqb_neq _ _)) by lia. done.
Qed.

(** Receiving a packet. *)
Lemma host_rx e s p S R U N D ti buf e' S' R' q : ep_ok e -> host e s p S R U N D ti -> ep_ok e' ->
  e_addr e' = e_peer e -> e_peer e' = e_addr e -> e_lport e' = e_pport e -> e_pport e' = e_lport e ->
  e_base e' = e_rbase e -> e_rbase e' = e_base e -> pkt_ok e' S' R' q -> holds buf -> payload buf = q.2 ->
  R `prefix_of` S' -> slen S' < 2 ^ 30 -> slen R' <= slen S ->
  (forall t, get_tcb ti p = Some t -> TCPSEQ_LEQ (of_be (take 4 (drop 8 q.2))) (tcb_sendnext t) = true) ->
  exists b ti' R1 U' N', _tcp_rx_callback ti buf (e_addr e) (e_peer e) = Some (Dropped b, ti') /\
    host e s p S R1 U' N' D ti' /\ ti_sends e S R1 ti ti' /\ R `prefix_of` R1 /\ R1 `prefix_of` S'.
Proof.
  intros He Hh He' Ea Ep El Epp Eb Erb (seq & ack & flags & window & opts & data & Hg & ->) Hb Hpay HR HS' HR' Hle. cbn [snd] in *.
  pose proof Hg as Hg0. destruct Hg as [G1 G2 G3 G4 G5 G6 G7 G8 G9 G10].
  assert (Hack : of_be (take 4 (drop 8 (tcp_bytes (e_addr e') (e_peer e') (e_lport e') (e_pport e') seq ack flags window (opts ++ data)))) = ack).
  { unfold tcp_bytes, tcp_header. change (take 4 (drop 8 _)) with (be32 ack). by apply of_be_32. }
  rewrite Hack in Hle. unfold _tcp_rx_callback. rewrite Ea, Ep in Hpay.
  destruct (rx_header_ok buf (e_peer e) (e_addr e) _ _ _ _ _ _ _ _ Hb Hpay) as (b1 & -> & Hb1 & Hp1); try done; try apply He; try apply He'.
  { destruct (ep_pport e' He'). lia. }
  cbn [option_bind]. rewrite (find_own e s p S R U N D ti) by done. cbn [option_bind]. unfold rx_tcb. destruct (ho_tcb _ _ _ _ _ _ _ _ _ Hh) as (t & Ht & E). rewrite Ht. cbn [option_bind].
  cbn [sg_flags sg_window sg_srcport sg_seqnum sg_acknum]. rewrite G7. change (truthy 0) with false. cbv iota.
  set (t1 := if TCPSTATE_IN_SET _ _ then _ else _). assert (E1 : est e S R U N D t1) by (unfold t1; destruct (TCPSTATE_IN_SET _ _); by destruct E).
  assert (Hsn : tcb_sendnext t1 = tcb_sendnext t) by (unfold t1; by destruct (TCPSTATE_IN_SET _ _)). clearbody t1.
  assert (E2 : est e S R U N D (set_sendwindow t1 window)) by (by destruct E1).
  unfold rx_state. change (tcb_state (set_sendwindow t1 window)) with (tcb_state t1). rewrite (es_state _ _ _ _ _ _ _ E1). cbn [Z.eqb TCPSTATE_ESTABLISHED TCPSTATE_LISTEN TCPSTATE_SYN_SENT TCPSTATE_SYN_RECEIVED Pos.eqb orb].
  destruct (rx_data_ok e S R U N D (cfe_ticks ti) (ti_ipinfo ti) (set_sendwindow t1 window) seq ack flags window opts data b1 e' S' R')
    as (t2 & r2 & R1 & U1 & -> & E3 & Hs2 & P1 & P2); try done; [apply Hh|by cbn; rewrite Hsn; apply Hle|].
  cbn [option_bind]. pose proof (host_put e s p S R U N D _ _ _ _ _ ti r2 t2 Hh (proj1 Hs2) E3) as Hh2.
  destruct (host_with e s p S R1 U1 N D _ rx_finish Hh2) as (ti3 & N3 & -> & HN3 & Hh3 & Hs3 & _).
  { intros t3 Et3. apply rx_finish_ok; [done|apply Hh2|done]. }
  cbn [option_bind]. eexists _, ti3, R1, U1, N3. split; [reflexivity|]. split; [done|]. split; [|done]. eapply sends_trans; [exact Hs2|exact Hs3].
Qed.

(** Giving bytes to the connection. *)
Lemma host_send e s p S R U N D ti buf : ep_ok e -> host e s p S R U N D ti -> slen S + slen buf < 2 ^ 30 ->
  exists k ti' N', _tcp_send ti s buf (slen buf) = Some (k, ti') /\ 0 <= k <= slen buf /\
    let S' := S ++ take (Z.to_nat k) buf in host e s p S' R U N' D ti' /\ ti_sends e S' R ti ti'.
Proof.
  intros He Hh Hlen. destruct (ho_tcb _ _ _ _ _ _ _ _ _ Hh) as (t & Ht & E). unfold _tcp_send. rewrite (ho_sock _ _ _ _ _ _ _ _ _ Hh). cbn [option_bind].
  rewrite Ht. cbn [option_bind]. unfold send_tcb. rewrite (es_state _ _ _ _ _ _ _ E). change (TCPSTATE_IN_SET _ _) with true. cbn [negb].
  destruct (tmb_copyin_spec _ _ buf (slen buf) true (es_tx _ _ _ _ _ _ _ E)) as (tx & -> & Htx & Hct); [unfold slen; lia|]. cbn [option_bind].
  pose proof (tx_length _ _ _ _ _ _ _ E) as Htl. set (k := Z.min _ _) in *. set (S' := S ++ take (Z.to_nat k) buf).
  assert (Hk : 0 <= k <= slen buf) by (destruct (es_tx _ _ _ _ _ _ _ E) as [_ ? _ _ _]; unfold k, slen; lia).
  assert (Hl : slen S' = slen S + k) by (unfold S', slen in *; rewrite length_app, length_take; lia).
  assert (E1 : est e S' R U N D (set_txbuf t tx)).
  { destruct E. split; try done; cbn [tcb_txbuf set_txbuf]; [|lia..]. rewrite Hct, es_txbuf0. unfold S'. rewrite drop_app_le; [done|unfold slen in *; lia]. }
  assert (Ho : exists t2 r2 N2, (if (tmb_curlen (tcb_txbuf t) =? 0) || truthy (Z.land (tcb_sockflags (set_txbuf t tx)) TCPFLG_NODELAY)
    then _tcp_output (cfe_ticks ti) (ti_ipinfo ti) (set_txbuf t tx) else Some (set_txbuf t tx, ti_ipinfo ti)) = Some (t2, r2) /\
    N <= N2 /\ est e S' R U N2 D t2 /\ sends e S' R (ti_ipinfo ti) r2).
  { destruct (_ || _); [by apply output_ok; [|apply Hh|]|]. eexists _, _, N. split; [reflexivity|]. split; [lia|]. split; [done|]. apply sends_nothing; [apply Hh|done]. }
  destruct Ho as (t2 & r2 & N2 & -> & HN & E2 & Hs). cbn [option_bind]. eexists k, _, N2. split; [reflexivity|]. split; [done|]. split; [|exact Hs].
  eapply host_put; [exact Hh|apply Hs|done].
Qed.

(** Taking bytes from it. *)
Lemma host_recv e s p S R U N D ti len : host e s p S R U N D ti -> 0 <= len ->
  exists ti', let k := Z.min len (slen R - D) in
    _tcp_recv ti s len = Some (k, take (Z.to_nat k) (drop (Z.to_nat D) R), ti') /\ host e s p S R U N (D + k) ti' /\ ti_sends e S R ti ti'.
Proof.
  intros Hh Hlen. destruct (ho_tcb _ _ _ _ _ _ _ _ _ Hh) as (t & Ht & E). unfold _tcp_recv. rewrite (ho_sock _ _ _ _ _ _ _ _ _ Hh). cbn [option_bind].
  rewrite Ht. cbn [option_bind]. unfold recv_tcb. rewrite (es_state _ _ _ _ _ _ _ E). change (TCPSTATE_IN_SET _ _) with true. cbn [negb].
  destruct (tmb_copyout_spec _ _ len true (es_rx _ _ _ _ _ _ _ E) Hlen) as (rx & -> & Hrx & Hct). cbn [option_bind].
  pose proof (rx_length _ _ _ _ _ _ _ E) as Hrl. rewrite (es_rxbuf _ _ _ _ _ _ _ E) in *. rewrite Hrl in *. eexists. cbn zeta. split; [reflexivity|]. split; [|apply sends_nothing; [apply Hh|done]].
  destruct Hh as [H1 H2 H3 _]. split; [done|done|done|]. eexists. split; [apply lookup_insert_eq|].
  destruct E. split; try done; cbn [tcb_rxbuf set_rxbuf]; [|unfold slen in *; lia]. rewrite Hct, drop_drop. f_equal. unfold slen in *. lia.
Qed.

(** The timers. *)
Lemma fasttimo_ok e s p S R U N D ti : ep_ok e -> host e s p S R U N D ti ->
  exists ti' N', _tcp_fasttimo ti = Some ti' /\ N <= N' /\ host e s p S R U N' D ti' /\ ti_sends e S R ti ti'.
Proof.
  intros He Hh. unfold _tcp_fasttimo. set (ti0 := Ti _ _ _ _ _ _ _ _ _). assert (Hh0 : host e s p S R U N D ti0) by (by destruct Hh).
  rewrite (ho_list _ _ _ _ _ _ _ _ _ Hh0). cbn [each_tcb].
  destruct (host_with e s p S R U N D ti0 fasttimo_tcb Hh0) as (ti1 & N1 & -> & HN & [H1 H2 H3 H4] & Hs & _).
  - intros t E. unfold fasttimo_tcb. destruct (truthy _).
    + destruct (ctlmsg_ok e S R U N D (cfe_ticks ti0) (ti_ipinfo ti0) (clear_flags t TCB_FLG_DLYACK) (-1) He (ho_ip _ _ _ _ _ _ _ _ _ Hh0)) as (t' & r' & -> & E' & Hs);
        [by apply est_clear|]. exists t', r', N. split; [done|]. split; [lia|done].
    + exists t, (ti_ipinfo ti0), N. split; [done|]. split; [lia|]. split; [done|]. apply sends_nothing; [apply Hh0|done].
  - cbn [option_bind]. eexists _, N1. split; [reflexivity|]. split; [done|]. split; [by split|exact Hs].
Qed.

Lemma poll_tcb_ok e s p S R U N D ti : ep_ok e -> host e s p S R U N D ti ->
  exists ti' N', poll_tcb ti p = Some ti' /\ host e s p S R U N' D ti' /\ ti_sends e S R ti ti'.
Proof.
  intros He Hh. unfold poll_tcb.
  assert (H1 : exists ti1 N1, with_tcb ti p poll_retx = Some ti1 /\ host e s p S R U N1 D ti1 /\ ti_sends e S R ti ti1).
  { destruct (ho_tcb _ _ _ _ _ _ _ _ _ Hh) as (t & Ht & E). unfold with_tcb. rewrite Ht. cbn [option_bind]. unfold poll_retx.
    destruct (TIMER_EXPIRED _ _).
    - change (tcb_state (set_timer_retx t 0)) with (tcb_state t). rewrite (es_state _ _ _ _ _ _ _ E). change (TCPSTATE_ESTABLISHED =? TCPSTATE_ESTABLISHED) with true. cbv iota.
      set (t1 := set_sendnext _ _). assert (E1 : est e S R U U D t1).
      { destruct E. split; try done; lia. }
      destruct (output_ok e S R U U D (cfe_ticks ti) (ti_ipinfo ti) t1 He (ho_ip _ _ _ _ _ _ _ _ _ Hh) E1) as (t2 & r2 & N2 & -> & _ & E2 & Hs). cbn [option_bind].
      eexists _, N2. split; [reflexivity|]. split; [|exact Hs]. eapply host_put; [exact Hh|apply Hs|done].
    - cbn [option_bind]. eexists _, N. split; [reflexivity|]. split; [|apply sends_nothing; [apply Hh|done]]. eapply host_put; [exact Hh|apply Hh|done]. }
  destruct H1 as (ti1 & N1 & -> & Hh1 & Hs1). cbn [option_bind].
  destruct (host_with e s p S R U N1 D ti1 poll_keep Hh1) as (ti2 & N2 & -> & _ & Hh2 & Hs2 & _).
  { intros t E. exists (if TIMER_EXPIRED (cfe_ticks ti1) (tcb_timer_keep t) then set_timer_keep t 0 else t), (ti_ipinfo ti1), N1. unfold poll_keep.
    destruct (TIMER_EXPIRED _ _).
    - change (tcb_state (set_timer_keep t 0)) with (tcb_state t). rewrite (es_state _ _ _ _ _ _ _ E). change (TCPSTATE_IN_SET _ _) with false. cbv iota.
      split; [done|]. split; [lia|]. split; [by destruct E|]. apply sends_nothing; [apply Hh1|done].
    - split; [done|]. split; [lia|]. split; [done|]. apply sends_nothing; [apply Hh1|done]. }
  cbn [option_bind]. destruct (ho_tcb _ _ _ _ _ _ _ _ _ Hh2) as (t & Ht & E). rewrite Ht. cbn [option_bind].
  assert (Hs : ti_sends e S R ti ti2) by (by eapply sends_trans). destruct (TIMER_EXPIRED _ _); [|by exists ti2, N2].
  change (tcb_state (set_timer_2msl t 0)) with (tcb_state t). rewrite (es_state _ _ _ _ _ _ _ E). change (TCPSTATE_ESTABLISHED =? TCPSTATE_TIME_WAIT) with false. cbv iota.
  eexists _, N2. split; [reflexivity|]. split; [|exact Hs]. destruct Hh2 as [G1 G2 G3 _]. split; [done|done|done|]. eexists. split; [apply lookup_insert_eq|by destruct E].
Qed.

Lemma host_poll e s p S R U N D ti now : ep_ok e -> host e s p S R U N D ti ->
  exists ti' N', _tcp_poll (set_ticks ti now) = Some ti' /\ host e s p S R U N' D ti' /\ ti_sends e S R ti ti'.
Proof.
  intros He Hh. unfold _tcp_poll. set (ti0 := set_ticks ti now). assert (Hh0 : host e s p S R U N D ti0) by (by destruct Hh).
  assert (H1 : exists ti1 N1, (if TIMER_EXPIRED (cfe_ticks ti0) (ti_fasttimer ti0) then _tcp_fasttimo ti0 else Some ti0) = Some ti1 /\
    host e s p S R U N1 D ti1 /\ ti_sends e S R ti ti1).
  { destruct (TIMER_EXPIRED _ _).
    - destruct (fasttimo_ok e s p S R U N D ti0 He Hh0) as (ti1 & N1 & -> & _ & H1 & H2). by exists ti1, N1.
    - exists ti0, N. split; [done|]. split; [done|]. apply sends_nothing; [apply Hh|done]. }
  destruct H1 as (ti1 & N1 & -> & Hh1 & Hs1). cbn [option_bind]. rewrite (ho_list _ _ _ _ _ _ _ _ _ Hh1). cbn [each_tcb].
  destruct (poll_tcb_ok e s p S R U N1 D ti1 He Hh1) as (ti2 & N2 & -> & Hh2 & Hs2). exists ti2, N2. split; [done|]. split; [done|]. by eapply sends_trans.
Qed.

(** * Two hosts and a network *)

(** A host with the bytes its user has given to the connection and taken from it. *)
Record node := Node { n_ti : tcp_info (W := rip); n_sent : bytes; n_rcvd : bytes }.

(** Its address, its peer's, its socket and its control block. *)
Record conf := Conf { c_addr : bytes; c_peer : bytes; c_sock : Z; c_tcb : Z }.

(** The network is the packets ever sent: any of them can arrive at any time, any number of
    times, in a buffer with anything around it, or never. *)
Inductive node_op :=
  | NSend (buf : bytes)
  | NRecv (len : Z)
  | NPoll (now : Z)
  | NDeliver (k : nat) (addr status port : Z) (before after : bytes).

Definition packets (n : node) : list (bytes * bytes) := rec_sent (ti_ipinfo (n_ti n)).

(** A packet is timely when it does not acknowledge more than the host has sent since it
    last went back to retransmit. *)
Definition timely (c : conf) (n : node) (q : bytes) : bool :=
  match get_tcb (n_ti n) (c_tcb c) with
  | Some t => TCPSEQ_LEQ (of_be (take 4 (drop 8 q))) (tcb_sendnext t)
  | None => false
  end.

(** A step of one host; of the other one only its packets matter. *)
Definition node_step (c : conf) (o : node_op) (n other : node) : option node :=
  match o with
  | NSend buf =>
      if 2 ^ 30 <=? slen (n_sent n) + slen buf then Some n
      else let? (r, ti) := _tcp_send (n_ti n) (c_sock c) buf (slen buf) in Some (Node ti (n_sent n ++ take (Z.to_nat r) buf) (n_rcvd n))
  | NRecv len => let? (r, out, ti) := _tcp_recv (n_ti n) (c_sock c) len in Some (Node ti (n_sent n) (n_rcvd n ++ out))
  | NPoll now => let? ti := _tcp_poll (set_ticks (n_ti n) now) in Some (Node ti (n_sent n) (n_rcvd n))
  | NDeliver k addr status port before after =>
      match packets other !! k with
      | Some (dst, q) =>
          let buf := Ebuf addr (slen q) status port (slen before) (before ++ q ++ after) in
          if bytes_eqb dst (c_addr c) && (Z.of_nat eb_size =? slen (eb_data buf)) && timely c n q then
            let? (r, ti) := _tcp_rx_callback (n_ti n) buf (c_addr c) (c_peer c) in Some (Node ti (n_sent n) (n_rcvd n))
          else Some n
      | None => Some n
      end
  end.

Definition node_op_ok (o : node_op) : Prop := match o with NRecv len => 0 <= len | _ => True end.

Fixpoint net_run (ca cb : conf) (os : list (bool * node_op)) (a b : node) : option (node * node) :=
  match os with
  | [] => Some (a, b)
  | (true, o) :: os => let? a := node_step ca o a b in net_run ca cb os a b
  | (false, o) :: os => let? b := node_step cb o b a in net_run ca cb os a b
  end.

Record node_inv (e : endpoint) (c : conf) (n : node) (R : bytes) (U N D : Z) : Prop := {
  ni_host : host e (c_sock c) (c_tcb c) (n_sent n) R U N D (n_ti n);
  ni_rcvd : n_rcvd n = take (Z.to_nat D) R;
  ni_packets : Forall (pkt_ok e (n_sent n) R) (packets n)
}.

(** The two ends of one connection. *)
Record link (ea eb : endpoint) (ca cb : conf) : Prop := {
  lk_a : ep_ok ea;
  lk_b : ep_ok eb;
  lk_ca : c_addr ca = e_addr ea /\ c_peer ca = e_peer ea;
  lk_cb : c_addr cb = e_addr eb /\ c_peer cb = e_peer eb;
  lk_ab : e_addr eb = e_peer ea /\ e_peer eb = e_addr ea;
  lk_ports : e_lport eb = e_pport ea /\ e_pport eb = e_lport ea;
  lk_base : e_base eb = e_rbase ea /\ e_rbase eb = e_base ea
}.

Lemma link_sym ea eb ca cb : link ea eb ca cb -> link eb ea cb ca.
Proof. intros [? ? ? ? [] [] []]. by split. Qed.

Definition pair_inv (ea eb : endpoint) (ca cb : conf) (a b : node) : Prop :=
  exists Ra Ua Na Da Rb Ub Nb Db, node_inv ea ca a Ra Ua Na Da /\ node_inv eb cb b Rb Ub Nb Db /\
    Ra `prefix_of` n_sent b /\ Rb `prefix_of` n_sent a.

Lemma pair_inv_sym ea eb ca cb a b : pair_inv ea eb ca cb a b -> pair_inv eb ea cb ca b a.
Proof. intros (Ra & Ua & Na & Da & Rb & Ub & Nb & Db & H1 & H2 & H3 & H4). exists Rb, Ub, Nb, Db, Ra, Ua, Na, Da. done. Qed.

Lemma packets_more e S R S' R' (ti ti' : tcp_info (W := rip)) : S `prefix_of` S' -> R `prefix_of` R' ->
  Forall (pkt_ok e S R) (rec_sent (ti_ipinfo ti)) -> ti_sends e S' R' ti ti' -> Forall (pkt_ok e S' R') (rec_sent (ti_ipinfo ti')).
Proof.
  intros HS HR Hp [_ (ps & -> & Hps)]. apply Forall_app. split; [|done]. eapply Forall_impl; [exact Hp|]. intros q. by apply pkt_ok_more.
Qed.

Lemma node_step_ok ea eb ca cb o a b : link ea eb ca cb -> pair_inv ea eb ca cb a b -> node_op_ok o ->
  exists a', node_step ca o a b = Some a' /\ pair_inv ea eb ca cb a' b.
Proof.
  intros L (Ra & Ua & Na & Da & Rb & Ub & Nb & Db & [A1 A2 A3] & HB & P1 & P2) Ho. pose proof HB as [B1 B2 B3].
  assert (Hsame : pair_inv ea eb ca cb a b) by (by exists Ra, Ua, Na, Da, Rb, Ub, Nb, Db).
  destruct o as [buf|len|now|k addr status port before after]; cbn [node_step].
  - destruct (Z.leb_spec (2 ^ 30) (slen (n_sent a) + slen buf)) as [|Hlen]; [by exists a|].
    destruct (host_send _ _ _ _ _ _ _ _ _ buf (lk_a _ _ _ _ L) A1 Hlen) as (k & ti & N' & -> & Hk & Hh & Hs). cbn [option_bind]. eexists. split; [reflexivity|].
    exists Ra, Ua, N', Da, Rb, Ub, Nb, Db. split; [|split; [done|split; [done|cbn; by apply prefix_app_r]]]. split; [done|done|].
    eapply (packets_more ea (n_sent a) Ra _ _ (n_ti a)); [by eexists|done|done|done].
  - destruct (host_recv _ _ _ _ _ _ _ _ _ len A1 Ho) as (ti & -> & Hh & Hs). cbn [option_bind]. eexists. split; [reflexivity|].
    eexists Ra, Ua, Na, _, Rb, Ub, Nb, Db. split; [|done]. split; [exact Hh| |eapply (packets_more ea (n_sent a) Ra _ _ (n_ti a)); done].
    cbn [n_rcvd]. rewrite A2. destruct (ho_tcb _ _ _ _ _ _ _ _ _ A1) as (t & _ & E). destruct E. cbn in Ho. rewrite Z2Nat.inj_add by lia. by rewrite take_take_drop.
  - destruct (host_poll _ _ _ _ _ _ _ _ _ now (lk_a _ _ _ _ L) A1) as (ti & N' & -> & Hh & Hs). cbn [option_bind]. eexists. split; [reflexivity|].
    exists Ra, Ua, N', Da, Rb, Ub, Nb, Db. split; [|done]. split; [done|done|]. eapply (packets_more ea (n_sent a) Ra _ _ (n_ti a)); done.
  - destruct (packets b !! k) as [[dst q]|] eqn:Eq; [|by exists a]. destruct (_ && _) eqn:Ec; [|by exists a].
    apply andb_prop in Ec as [Ec Ht]. apply andb_prop in Ec as [Ed Es]. apply Z.eqb_eq in Es. cbn [eb_data] in Es.
    pose proof (Forall_lookup_1 _ _ _ _ B3 Eq) as Hq. destruct L as [L1 L2 [L3 L3'] [L4 L4'] [L5 L5'] [L6 L6'] [L7 L7']].
    set (buf := Ebuf _ _ _ _ _ _). unfold slen in Es. rewrite !length_app in Es.
    assert (Hb : holds buf) by (split; cbn; unfold slen, eb_size in *; rewrite ?length_app; lia).
    assert (Hpay : payload buf = q) by (unfold payload; cbn; unfold slen; rewrite !Nat2Z.id, drop_app_length; apply take_app_length).
    destruct (ho_tcb _ _ _ _ _ _ _ _ _ B1) as (tb & _ & Eb). destruct (ho_tcb _ _ _ _ _ _ _ _ _ A1) as (ta & Hta & Ea).
    destruct (host_rx ea _ _ (n_sent a) Ra Ua Na Da (n_ti a) buf eb (n_sent b) Rb (dst, q) L1 A1 L2) as (b' & ti & R1 & U1 & N1 & E & Hh & Hs & Q1 & Q2); try done.
    + apply (es_S _ _ _ _ _ _ _ Eb).
    + apply prefix_length in P2. unfold slen. lia.
    + intros t Et. unfold timely in Ht. rewrite Et in Ht. exact Ht.
    + rewrite L3, L3', E. cbn [option_bind]. eexists. split; [reflexivity|]. exists R1, U1, N1, Da, Rb, Ub, Nb, Db. split; [|done]. split; [done| |eapply (packets_more ea (n_sent a) Ra _ _ (n_ti a)); done].
      cbn [n_rcvd]. rewrite A2. destruct Q1 as [x ->]. destruct Ea. rewrite take_app_le; [done|unfold slen in *; lia].
Qed.

Lemma net_run_ok ea eb ca cb os : forall a b, link ea eb ca cb -> pair_inv ea eb ca cb a b -> Forall (fun o => node_op_ok o.2) os ->
  exists a' b', net_run ca cb os a b = Some (a', b') /\ pair_inv ea eb ca cb a' b'.
Proof.
  induction os as [|[[] o] os IH]; intros a b L Hp Ho; cbn [net_run]; [by eexists _, _| |]; apply Forall_cons in Ho as [Ho Hos].
  - destruct (node_step_ok ea eb ca cb o a b L Hp Ho) as (a1 & -> & H1). by apply IH.
  - destruct (node_step_ok eb ea cb ca o b a (link_sym _ _ _ _ L) (pair_inv_sym _ _ _ _ _ _ Hp) Ho) as (b1 & -> & H1). apply IH; [done| |done]. by apply pair_inv_sym.
Qed.

(** A connection that has just been established. *)
Record established (ea eb : endpoint) (ca cb : conf) (a b : node) : Prop := {
  eb_link : link ea eb ca cb;
  eb_a : host ea (c_sock ca) (c_tcb ca) [] [] 0 0 0 (n_ti a);
  eb_b : host eb (c_sock cb) (c_tcb cb) [] [] 0 0 0 (n_ti b);
  eb_empty : n_sent a = [] /\ n_rcvd a = [] /\ n_sent b = [] /\ n_rcvd b = [];
  eb_pa : Forall (pkt_ok ea [] []) (packets a);
  eb_pb : Forall (pkt_ok eb [] []) (packets b)
}.

(** C10 TCP is a stream: over a network that loses, repeats and reorders packets in any way,
    and with users that send, receive and let time pass in any order, every call returns
    and what a user has received is a prefix of what the other one has sent, in both
    directions.  A direction carries less than 2^30 bytes, so that sequence numbers
    do not come round, and an acknowledgement that runs ahead of a host that has gone back to
    retransmit counts as lost. *)
Theorem tcp_stream ea eb ca cb a b os : established ea eb ca cb a b -> Forall (fun o => node_op_ok o.2) os ->
  exists a' b', net_run ca cb os a b = Some (a', b') /\ n_rcvd b' `prefix_of` n_sent a' /\ n_rcvd a' `prefix_of` n_sent b'.
Proof.
  intros [L Ha Hb (E1 & E2 & E3 & E4) Hpa Hpb] Ho. destruct (net_run_ok ea eb ca cb os a b L) as (a' & b' & -> & Hp); [|done|].
  - exists [], 0, 0, 0, [], 0, 0, 0. split; [split; rewrite ?E1; done|]. split; [split; rewrite ?E3; done|]. split; apply prefix_nil.
  - destruct Hp as (Ra & Ua & Na & Da & Rb & Ub & Nb & Db & HA & HB & P1 & P2). exists a', b'. split; [done|].
    split; [rewrite (ni_rcvd _ _ _ _ _ _ _ HB)|rewrite (ni_rcvd _ _ _ _ _ _ _ HA)]; (etransitivity; [apply take_prefix|done]).
Qed.

(** * Opening a connection *)

(** Where an end stands while the connection is opened: nothing is in its buffers. *)
Record half (e : endpoint) (state una nxt rcv : Z) (t : tcb) : Prop := {
  hf_state : tcb_state t = state;
  hf_peer : tcb_peeraddr t = e_peer e;
  hf_pport : tcb_peerport t = e_pport e;
  hf_lport : tcb_lclport t = e_lport e;
  hf_mtu : tcb_mtu t = 1400;
  hf_tx : tmb_ok TCP_BUF_SIZE (tcb_txbuf t) /\ contents (tcb_txbuf t) = [];
  hf_rx : tmb_ok TCP_BUF_SIZE (tcb_rxbuf t) /\ contents (tcb_rxbuf t) = [];
  hf_una : tcb_sendunack t = una;
  hf_nxt : tcb_sendnext t = nxt;
  hf_rcv : tcb_rcvnext t = rcv;
  hf_window : 0 <= tcb_sendwindow t < 65536
}.

(** A socket that is not in use, and one that listens. *)
Record idle_tcb (t : tcb) : Prop := {
  id_state : tcb_state t <> TCPSTATE_LISTEN;
  id_peer : tcb_peerport t = 0;
  id_mtu : tcb_mtu t = 1400;
  id_tx : tmb_ok TCP_BUF_SIZE (tcb_txbuf t);
  id_rx : tmb_ok TCP_BUF_SIZE (tcb_rxbuf t)
}.

Record listening (e : endpoint) (t : tcb) : Prop := {
  ls_state : tcb_state t = TCPSTATE_LISTEN;
  ls_peer : tcb_peerport t = 0;
  ls_lport : tcb_lclport t = e_lport e;
  ls_mtu : tcb_mtu t = 1400;
  ls_tx : tmb_ok TCP_BUF_SIZE (tcb_txbuf t) /\ contents (tcb_txbuf t) = [];
  ls_rx : tmb_ok TCP_BUF_SIZE (tcb_rxbuf t) /\ contents (tcb_rxbuf t) = [];
  ls_una : tcb_sendunack t = 0;
  ls_nxt : tcb_sendnext t = 0
}.

(** A host with one socket whose control block satisfies [P]. *)
Record one (src : bytes) (s p : Z) (P : tcb -> Prop) (ti : tcp_info (W := rip)) : Prop := {
  on_list : ti_tcblist ti = [p];
  on_sock : socket_at ti s = Some (Some p);
  on_ip : rec_ok src (ti_ipinfo ti);
  on_tcb : exists t, get_tcb ti p = Some t /\ P t
}.

Definition sent_of (ti : tcp_info (W := rip)) : list (bytes * bytes) := rec_sent (ti_ipinfo ti).

Lemma one_put src s p (P Q : tcb -> Prop) ti r t : one src s p P ti -> rec_ok src r -> Q t -> one src s p Q (set_ipinfo (put_tcb ti p t) r).
Proof. intros [H1 H2 H3 H4] Hr Hq. split; [done|done|done|]. exists t. split; [apply lookup_insert_eq|done]. Qed.

(** A control message that is given a buffer. *)
Lemma sendctl_ok src ticks r t flags timeout : rec_ok src r -> length (tcb_peeraddr t) = 4%nat ->
  exists t' r', _tcp_sendctlmsg ticks r t flags timeout = Some (t', r') /\ rec_ok src r' /\
    forall q, rec_sent r' = rec_sent r ++ [q] -> exists retx,
      let t0 := set_timer_retx (set_retrycnt (set_txflags t flags) 0) retx in
      t' = ctl_sent t0 /\ q = (tcb_peeraddr t, ctl_bytes src t0).
Proof.
  intros Hr Hp. unfold _tcp_sendctlmsg. set (t1 := set_retrycnt _ 0). set (t2 := if 0 <=? timeout then _ else t1).
  assert (H2 : exists retx, t2 = set_timer_retx t1 retx) by (unfold t2; destruct (0 <=? timeout); eexists; [reflexivity|instantiate (1 := tcb_timer_retx t1); by destruct t1]).
  destruct H2 as (retx & ->). destruct (protosend_ok src r (set_timer_retx t1 retx) Hr Hp) as (t' & r' & -> & Hr' & Hc). exists t', r'. split; [done|]. split; [done|].
  intros q Hq. destruct Hc as [[_ Hs]|[-> Hs]].
  - rewrite Hs in Hq. apply (f_equal length) in Hq. rewrite length_app in Hq. cbn in Hq. lia.
  - rewrite Hs in Hq. apply app_inj_tail in Hq as [_ <-]. by exists retx.
Qed.

Lemma find_half e s p state una nxt rcv ti g : one (e_addr e) s p (half e state una nxt rcv) ti -> sg_srcport g = e_pport e -> sg_dstport g = e_lport e -> ep_ok e ->
  _tcp_find_tcb ti (sg_srcport g) (sg_dstport g) (e_peer e) = Some (Some p).
Proof.
  intros [H1 H2 H3 (t & Ht & E)] Hsp Hdp He. unfold _tcp_find_tcb. rewrite H1. cbn [find_list]. unfold get_tcb in Ht. rewrite Ht. cbn [option_bind].
  destruct E. rewrite hf_pport0, hf_lport0, hf_peer0, Hsp, Hdp, !Z.eqb_refl, bytes_eqb_refl. destruct He. rewrite (proj2 (Z.eqb_neq _ _)) by lia. done.
Qed.

Lemma find_listening e s p ti g saddr : one (e_addr e) s p (listening e) ti -> sg_dstport g = e_lport e ->
  _tcp_find_tcb ti (sg_srcport g) (sg_dstport g) saddr = Some (Some p).
Proof.
  intros [H1 H2 H3 (t & Ht & E)] Hdp. unfold _tcp_find_tcb. rewrite H1. cbn [find_list]. unfold get_tcb in Ht. rewrite Ht. cbn [option_bind].
  destruct E. rewrite ls_peer0, ls_lport0, Hdp, !Z.eqb_refl. done.
Qed.

(** A socket is told to listen. *)
Lemma listen_ok e s p ti : one (e_addr e) s p idle_tcb ti ->
  exists ti', _tcp_listen ti s (e_lport e) = Some (0, ti') /\ one (e_addr e) s p (listening e) ti' /\ sent_of ti' = sent_of ti.
Proof.
  intros [H1 H2 H3 (t & Ht & E)]. unfold _tcp_listen. rewrite H1. cbn [find_list]. pose proof Ht as Ht'. unfold get_tcb in Ht. rewrite Ht. cbn [option_bind].
  rewrite (proj2 (Z.eqb_neq (tcb_state t) TCPSTATE_LISTEN)) by apply E. rewrite andb_false_r. cbn [andb]. rewrite H2. cbn [option_bind]. rewrite Ht'. cbn [option_bind].
  eexists. split; [reflexivity|]. split; [|done]. split; [done|done|done|]. eexists. split; [apply lookup_insert_eq|]. destruct E.
  split; try done; cbn; by apply tmb_init_ok.
Qed.

(** A control message in one of these states: what it carries, and what becomes of the end. *)
Lemma half_ctl e state una nxt rcv ticks r t flags timeout : ep_ok e -> rec_ok (e_addr e) r -> half e state una nxt rcv t ->
  exists t' r', _tcp_sendctlmsg ticks r t flags timeout = Some (t', r') /\ rec_ok (e_addr e) r' /\
    forall q, rec_sent r' = rec_sent r ++ [q] ->
      half e state una (if truthy (Z.land flags (Z.lor TCPFLG_SYN TCPFLG_FIN)) then wrap32 (nxt + 1) else nxt) rcv t' /\
      tcb_txflags t' = flags /\
      exists window, 0 <= window < 65536 /\
        q = (e_peer e, tcp_bytes (e_addr e) (e_peer e) (e_lport e) (e_pport e) nxt rcv
               (Z.lor flags (if truthy (Z.land flags TCPFLG_SYN) then TCPHDRFLG 24 else TCPHDRFLG 20)) window
               ((if truthy (Z.land flags TCPFLG_SYN) then be16 TCP_MAX_SEG_OPT ++ be16 TCP_MAX_SEG_SIZE else []) ++ [])).
Proof.
  intros He Hr Ht. destruct Ht as [F1 F2 F3 F4 F5 F6 F7 F8 F9 F10 F11].
  destruct (sendctl_ok (e_addr e) ticks r t flags timeout Hr) as (t2 & r2 & E & Hr2 & Hq); [rewrite F2; apply He|].
  exists t2, r2. split; [exact E|]. split; [done|]. intros q Hs. destruct (Hq q Hs) as (retx & -> & ->). set (t0 := set_timer_retx _ retx).
  assert (Hx : tcb_txflags t0 = flags) by reflexivity. unfold ctl_sent, ctl_bytes, ctl_flags, ctl_opts, ctl_syn. cbn [tcb_txflags set_rcvack clear_flags set_flags]. rewrite Hx.
  split; [|split; [|exists (rx_window t0); split]].
  - destruct (truthy (Z.land flags (Z.lor TCPFLG_SYN TCPFLG_FIN))); split; try done. cbn [tcb_sendnext set_sendnext set_rcvack clear_flags set_flags]. by rewrite <- F9.
  - by destruct (truthy (Z.land flags (Z.lor TCPFLG_SYN TCPFLG_FIN))).
  - unfold rx_window, tmb_remlen. change (tcb_rxbuf t0) with (tcb_rxbuf t). destruct F7 as [[(Hsz & _) Hl _ _ _] _]. unfold TCP_BUF_SIZE in *. case_test; lia.
  - rewrite app_nil_r. change (tcb_peeraddr t0) with (tcb_peeraddr t). change (tcb_lclport t0) with (tcb_lclport t). change (tcb_peerport t0) with (tcb_peerport t).
    change (tcb_sendnext t0) with (tcb_sendnext t). change (tcb_rcvnext t0) with (tcb_rcvnext t). by rewrite F2, F3, F4, F9, F10.
Qed.

(** A socket is connected: the first packet is a SYN with the initial sequence number. *)
Lemma connect_ok e s p ti : ep_ok e -> one (e_addr e) s p (fun t => idle_tcb t /\ tcb_lclport t = e_lport e) ti ->
  exists ti', _tcp_connect ti s (e_peer e) (e_pport e) = Some (0, ti') /\
    forall q, sent_of ti' = sent_of ti ++ [q] ->
      one (e_addr e) s p (half e TCPSTATE_SYN_SENT (ti_iss ti) (wrap32 (ti_iss ti + 1)) 0) ti' /\
      exists window, 0 <= window < 65536 /\
        q = (e_peer e, tcp_bytes (e_addr e) (e_peer e) (e_lport e) (e_pport e) (ti_iss ti) 0 0x6002 window ((be16 TCP_MAX_SEG_OPT ++ be16 TCP_MAX_SEG_SIZE) ++ [])).
Proof.
  intros He [H1 H2 H3 (t & Ht & E & El)]. unfold _tcp_connect. rewrite H2. cbn [option_bind]. unfold with_tcb. rewrite Ht. cbn [option_bind].
  match goal with |- context [_tcp_sendctlmsg _ _ ?x _ _] => set (t1 := x) end.
  assert (F : half e TCPSTATE_SYN_SENT (ti_iss ti) (ti_iss ti) 0 t1).
  { destruct E as [E1 E2 E3 E4 E5]. split; try reflexivity; try done; [apply take_ge; rewrite (ep_peer e He); lia|by apply tmb_init_ok|by apply tmb_init_ok]. }
  clearbody t1. destruct (half_ctl e _ _ _ _ (cfe_ticks ti) (ti_ipinfo ti) t1 TCPFLG_SYN TCP_RETX_TIMER He H3 F) as (t2 & r2 & -> & Hr2 & Hq). cbn [option_bind].
  eexists. split; [reflexivity|]. intros q Hs. destruct (Hq q Hs) as (F2 & _ & window & Hw & ->). split.
  - split; [done|done|done|]. eexists. split; [apply lookup_insert_eq|exact F2].
  - exists window. done.
Qed.

(** The first packet, at the end that listens. *)
Lemma rx_syn e s p ti buf seq window opts : ep_ok e -> one (e_addr e) s p (listening e) ti -> holds buf ->
  payload buf = tcp_bytes (e_peer e) (e_addr e) (e_pport e) (e_lport e) seq 0 0x6002 window (opts ++ []) ->
  0 <= seq < 2 ^ 32 -> 0 <= window < 65536 -> slen opts = 4 ->
  exists b ti', _tcp_rx_callback ti buf (e_addr e) (e_peer e) = Some (Dropped b, ti') /\
    forall q, sent_of ti' = sent_of ti ++ [q] ->
      one (e_addr e) s p (half e TCPSTATE_SYN_RECEIVED 0 1 (wrap32 (seq + 1))) ti' /\
      exists window, 0 <= window < 65536 /\
        q = (e_peer e, tcp_bytes (e_addr e) (e_peer e) (e_lport e) (e_pport e) 0 (wrap32 (seq + 1)) 0x6012 window ((be16 TCP_MAX_SEG_OPT ++ be16 TCP_MAX_SEG_SIZE) ++ [])).
Proof.
  intros He Ho Hb Hpay Hs Hw Hl. unfold _tcp_rx_callback.
  destruct (rx_header_ok buf (e_peer e) (e_addr e) (e_pport e) (e_lport e) seq 0 0x6002 window opts [] Hb Hpay) as (b1 & -> & _); try done; try apply He; try lia.
  { destruct (ep_pport e He). lia. }
  { unfold slen in Hl. rewrite Hl. done. }
  cbn [option_bind]. rewrite (find_listening e s p ti) by done. cbn [option_bind]. unfold rx_tcb. destruct (on_tcb _ _ _ _ _ Ho) as (t & Ht & E). rewrite Ht. cbn [option_bind].
  destruct E as [E1 E2 E3 E4 E5 E6 E7 E8]. rewrite E1. change (TCPSTATE_IN_SET _ _) with false. cbv iota.
  cbn [sg_flags sg_window sg_srcport sg_seqnum sg_acknum]. change (truthy (Z.land 0x6002 TCPFLG_RST)) with false. cbv iota.
  unfold rx_state. change (tcb_state (set_sendwindow t window)) with (tcb_state t). rewrite E1. change (TCPSTATE_LISTEN =? TCPSTATE_LISTEN) with true. cbv iota.
  unfold rx_listen. change (truthy (Z.land 0x6002 TCPFLG_SYN)) with true. cbv iota.
  match goal with |- context [_tcp_sendctlmsg _ _ ?x _ _] => set (t1 := x) end.
  assert (F : half e TCPSTATE_SYN_RECEIVED 0 0 (wrap32 (seq + 1)) t1).
  { split; try reflexivity; try done. apply take_ge. rewrite (ep_peer e He). lia. }
  clearbody t1. destruct (half_ctl e _ _ _ _ (cfe_ticks ti) (ti_ipinfo ti) t1 (Z.lor TCPFLG_SYN TCPFLG_ACK) TCP_RETX_TIMER He (on_ip _ _ _ _ _ Ho) F) as (t2 & r2 & -> & Hr2 & Hq).
  cbn [option_bind]. eexists _, _. split; [reflexivity|]. intros q Hsq. destruct (Hq q Hsq) as (F2 & _ & w & Hw2 & ->). split; [|by exists w].
  eapply one_put; [exact Ho|done|exact F2].
Qed.

(** The answer, at the end that connects: it is established. *)
Lemma rx_syn_ack e s p ti buf iss window opts : ep_ok e -> one (e_addr e) s p (half e TCPSTATE_SYN_SENT iss (wrap32 (iss + 1)) 0) ti -> holds buf ->
  payload buf = tcp_bytes (e_peer e) (e_addr e) (e_pport e) (e_lport e) 0 (wrap32 (iss + 1)) 0x6012 window (opts ++ []) ->
  0 <= window < 65536 -> slen opts = 4 -> wrap32 (e_base e) = wrap32 (iss + 1) -> wrap32 (e_rbase e) = 1 ->
  exists b ti', _tcp_rx_callback ti buf (e_addr e) (e_peer e) = Some (Dropped b, ti') /\
    forall q, sent_of ti' = sent_of ti ++ [q] ->
      host e s p [] [] 0 0 0 ti' /\
      exists window, 0 <= window < 65536 /\
        q = (e_peer e, tcp_bytes (e_addr e) (e_peer e) (e_lport e) (e_pport e) (wrap32 (iss + 1)) 1 0x5010 window ([] ++ [])).
Proof.
  intros He Ho Hb Hpay Hw Hl Hbase Hrbase. unfold _tcp_rx_callback. pose proof (wrap32_range (iss + 1)) as Hr1.
  destruct (rx_header_ok buf (e_peer e) (e_addr e) (e_pport e) (e_lport e) 0 (wrap32 (iss + 1)) 0x6012 window opts [] Hb Hpay) as (b1 & -> & _); try done; try apply He; try lia.
  { destruct (ep_pport e He). lia. }
  { unfold slen in Hl. rewrite Hl. done. }
  cbn [option_bind]. rewrite (find_half e s p _ _ _ _ ti _ Ho) by done. cbn [option_bind]. unfold rx_tcb. destruct (on_tcb _ _ _ _ _ Ho) as (t & Ht & F). rewrite Ht. cbn [option_bind].
  destruct F as [F1 F2 F3 F4 F5 F6 F7 F8 F9 F10 F11]. rewrite F1. change (TCPSTATE_IN_SET _ _) with false. cbv iota.
  cbn [sg_flags sg_window sg_srcport sg_seqnum sg_acknum]. change (truthy (Z.land 0x6012 TCPFLG_RST)) with false. cbv iota.
  unfold rx_state. change (tcb_state (set_sendwindow t window)) with (tcb_state t). rewrite F1. change (TCPSTATE_SYN_SENT =? TCPSTATE_LISTEN) with false. change (TCPSTATE_SYN_SENT =? TCPSTATE_SYN_SENT) with true. cbv iota.
  unfold rx_syn_sent. change (truthy (Z.land 0x6012 TCPFLG_SYN)) with true. change (truthy (Z.land 0x6012 TCPFLG_ACK)) with true. change (tcb_sendunack (set_sendwindow t window)) with (tcb_sendunack t).
  rewrite F8, Z.eqb_refl. cbn [andb].
  match goal with |- context [_tcp_sendctlmsg _ _ ?x _ _] => set (t1 := x) end.
  assert (F : half e TCPSTATE_ESTABLISHED (wrap32 (iss + 1)) (wrap32 (iss + 1)) 1 t1) by (split; try reflexivity; done).
  clearbody t1. destruct (half_ctl e _ _ _ _ (cfe_ticks ti) (ti_ipinfo ti) t1 TCPFLG_ACK 0 He (on_ip _ _ _ _ _ Ho) F) as (t2 & r2 & -> & Hr2 & Hq).
  cbn [option_bind]. eexists _, _. split; [reflexivity|]. intros q Hsq. destruct (Hq q Hsq) as (G & Gx & w & Hw2 & ->). split; [|by exists w].
  destruct Ho as [O1 O2 O3 _]. split; [done|done|done|]. exists t2. split; [apply lookup_insert_eq|]. change (truthy (Z.land TCPFLG_ACK (Z.lor TCPFLG_SYN TCPFLG_FIN))) with false in G. cbv iota in G.
  destruct G as [G1 G2 G3 G4 G5 [G6 G6'] [G7 G7'] G8 G9 G10 G11].
  split; try done; unfold slen; cbn [length]; rewrite ?Z.add_0_r; try lia; congruence.
Qed.

(** The last packet, at the other end. *)
Lemma rx_last_ack e s p ti buf iss window : ep_ok e -> one (e_addr e) s p (half e TCPSTATE_SYN_RECEIVED 0 1 (wrap32 (iss + 1))) ti -> holds buf ->
  payload buf = tcp_bytes (e_peer e) (e_addr e) (e_pport e) (e_lport e) (wrap32 (iss + 1)) 1 0x5010 window ([] ++ []) ->
  0 <= window < 65536 -> wrap32 (e_base e) = 1 -> wrap32 (e_rbase e) = wrap32 (iss + 1) ->
  exists b ti', _tcp_rx_callback ti buf (e_addr e) (e_peer e) = Some (Dropped b, ti') /\
    forall q, sent_of ti' = sent_of ti ++ [q] ->
      host e s p [] [] 0 0 0 ti' /\
      exists window, 0 <= window < 65536 /\
        q = (e_peer e, tcp_bytes (e_addr e) (e_peer e) (e_lport e) (e_pport e) 1 (wrap32 (iss + 1)) 0x5010 window ([] ++ [])).
Proof.
  intros He Ho Hb Hpay Hw Hbase Hrbase. unfold _tcp_rx_callback. pose proof (wrap32_range (iss + 1)) as Hr1.
  destruct (rx_header_ok buf (e_peer e) (e_addr e) (e_pport e) (e_lport e) (wrap32 (iss + 1)) 1 0x5010 window [] [] Hb Hpay) as (b1 & -> & _); try done; try apply He; try lia.
  { destruct (ep_pport e He). lia. }
  cbn [option_bind]. rewrite (find_half e s p _ _ _ _ ti _ Ho) by done. cbn [option_bind]. unfold rx_tcb. destruct (on_tcb _ _ _ _ _ Ho) as (t & Ht & F). rewrite Ht. cbn [option_bind].
  destruct F as [F1 F2 F3 F4 F5 F6 F7 F8 F9 F10 F11]. rewrite F1. change (TCPSTATE_IN_SET _ _) with false. cbv iota.
  cbn [sg_flags sg_window sg_srcport sg_seqnum sg_acknum]. change (truthy (Z.land 0x5010 TCPFLG_RST)) with false. cbv iota.
  unfold rx_state. change (tcb_state (set_sendwindow t window)) with (tcb_state t). rewrite F1. change (TCPSTATE_SYN_RECEIVED =? TCPSTATE_LISTEN) with false.
  change (TCPSTATE_SYN_RECEIVED =? TCPSTATE_SYN_SENT) with false. change (TCPSTATE_SYN_RECEIVED =? TCPSTATE_SYN_RECEIVED) with true. cbv iota.
  unfold rx_syn_received. change (truthy (Z.land 0x5010 TCPFLG_SYN)) with false. change (truthy (Z.land 0x5010 TCPFLG_ACK)) with true. cbv iota.
  change (tcb_sendunack (set_sendwindow t window)) with (tcb_sendunack t). rewrite F8. change (1 =? wrap32 (0 + 1)) with true. cbn [andb].
  assert (F : half e TCPSTATE_SYN_RECEIVED 0 1 (wrap32 (iss + 1)) (set_sendwindow t window)) by (by split).
  destruct (half_ctl e _ _ _ _ (cfe_ticks ti) (ti_ipinfo ti) (set_sendwindow t window) TCPFLG_ACK 0 He (on_ip _ _ _ _ _ Ho) F) as (t2 & r2 & -> & Hr2 & Hq).
  cbn [option_bind]. eexists _, _. split; [reflexivity|]. intros q Hsq. destruct (Hq q Hsq) as (G & Gx & w & Hw2 & ->). split; [|by exists w].
  destruct Ho as [O1 O2 O3 _]. split; [done|done|done|]. eexists. split; [apply lookup_insert_eq|]. change (truthy (Z.land TCPFLG_ACK (Z.lor TCPFLG_SYN TCPFLG_FIN))) with false in G. cbv iota in G.
  destruct G as [G1 G2 G3 G4 G5 [G6 G6'] [G7 G7'] G8 G9 G10 G11].
  split; try done; unfold slen; cbn [length]; rewrite ?Z.add_0_r; try lia; try done; cbn [tcb_sendunack tcb_sendnext tcb_rcvnext _tcp_setstate set_state set_timer_keep set_sendnext set_sendunack]; congruence.
Qed.

Lemma empty_pkt_ok e seq ack flags window opts : 0 <= seq < 2 ^ 32 -> 0 <= ack < 2 ^ 32 -> 0 <= flags < 65536 -> 0 <= window < 65536 ->
  TCPHDRSIZE flags = 20 + slen opts -> Z.land flags TCPFLG_FIN = 0 -> Z.land flags TCPFLG_RST = 0 -> slen opts <= 1440 ->
  Z.land flags TCPFLG_ACK = 0 \/ ack = wrap32 (e_rbase e) ->
  pkt_ok e [] [] (e_peer e, tcp_bytes (e_addr e) (e_peer e) (e_lport e) (e_pport e) seq ack flags window (opts ++ [])).
Proof.
  intros. exists seq, ack, flags, window, opts, []. split; [|done]. split; try done; [unfold slen in *; cbn [length]; lia| |by left].
  destruct H7 as [|Ha]; [by left|right]. exists 0. by rewrite Z.add_0_r.
Qed.

(** Listening, connecting, and the three packets, each received by the other end in any
    buffer: every call returns, and when each packet could be sent the connection is
    established. *)
Definition opens (ea eb : endpoint) (ca cb : conf) (tia tib : tcp_info (W := rip)) : Prop :=
  exists tib0 tia1, _tcp_listen tib (c_sock cb) (e_lport eb) = Some (0, tib0) /\
    _tcp_connect tia (c_sock ca) (e_peer ea) (e_pport ea) = Some (0, tia1) /\
  forall q1 buf1, sent_of tia1 = [q1] -> holds buf1 -> payload buf1 = q1.2 ->
  exists b1 tib1, _tcp_rx_callback tib0 buf1 (e_addr eb) (e_peer eb) = Some (Dropped b1, tib1) /\
  forall q2 buf2, sent_of tib1 = [q2] -> holds buf2 -> payload buf2 = q2.2 ->
  exists b2 tia2, _tcp_rx_callback tia1 buf2 (e_addr ea) (e_peer ea) = Some (Dropped b2, tia2) /\
  forall q3 buf3, sent_of tia2 = [q1; q3] -> holds buf3 -> payload buf3 = q3.2 ->
  exists b3 tib2, _tcp_rx_callback tib1 buf3 (e_addr eb) (e_peer eb) = Some (Dropped b3, tib2) /\
  forall q4, sent_of tib2 = [q2; q4] -> established ea eb ca cb (Node tia2 [] []) (Node tib2 [] []).

Lemma handshake_ok ea eb ca cb tia tib : link ea eb ca cb ->
  one (e_addr ea) (c_sock ca) (c_tcb ca) (fun t => idle_tcb t /\ tcb_lclport t = e_lport ea) tia -> sent_of tia = [] ->
  one (e_addr eb) (c_sock cb) (c_tcb cb) idle_tcb tib -> sent_of tib = [] ->
  0 <= ti_iss tia < 2 ^ 32 -> e_base ea = wrap32 (ti_iss tia + 1) -> e_base eb = 1 ->
  opens ea eb ca cb tia tib.
Proof.
  intros L Ha Hna Hb Hnb Hiss Hba Hbb. pose proof L as L'. destruct L as [L1 L2 [L3 L3'] [L4 L4'] [L5 L5'] [L6 L6'] [L7 L7']].
  destruct (listen_ok eb _ _ tib Hb) as (tib0 & E0 & Hb0 & Hn0). destruct (connect_ok ea _ _ tia L1 Ha) as (tia1 & E1 & H1).
  exists tib0, tia1. split; [exact E0|]. split; [exact E1|]. intros q1 buf1 Hq1 Hbuf1 Hp1. rewrite Hna in H1. destruct (H1 q1 Hq1) as (Ha1 & w1 & Hw1 & ->). cbn [snd] in Hp1.
  assert (He1 : payload buf1 = tcp_bytes (e_peer eb) (e_addr eb) (e_pport eb) (e_lport eb) (ti_iss tia) 0 0x6002 w1 ((be16 TCP_MAX_SEG_OPT ++ be16 TCP_MAX_SEG_SIZE) ++ [])) by congruence.
  destruct (rx_syn eb _ _ tib0 buf1 _ _ _ L2 Hb0 Hbuf1 He1 Hiss Hw1) as (b1 & tib1 & E2 & H2); [done|]. exists b1, tib1. split; [exact E2|].
  intros q2 buf2 Hq2 Hbuf2 Hp2. rewrite Hn0, Hnb in H2. destruct (H2 q2 Hq2) as (Hb1 & w2 & Hw2 & ->). cbn [snd] in Hp2.
  assert (He2 : payload buf2 = tcp_bytes (e_peer ea) (e_addr ea) (e_pport ea) (e_lport ea) 0 (wrap32 (ti_iss tia + 1)) 0x6012 w2 ((be16 TCP_MAX_SEG_OPT ++ be16 TCP_MAX_SEG_SIZE) ++ [])) by congruence.
  assert (Wa : wrap32 (e_base ea) = wrap32 (ti_iss tia + 1)) by (rewrite Hba; apply wrap32_small, wrap32_range). assert (Wr : wrap32 (e_rbase ea) = 1) by (by rewrite <- L7, Hbb).
  destruct (rx_syn_ack ea _ _ tia1 buf2 _ _ _ L1 Ha1 Hbuf2 He2 Hw2 ltac:(done) Wa Wr) as (b2 & tia2 & E3 & H3). exists b2, tia2. split; [exact E3|].
  intros q3 buf3 Hq3 Hbuf3 Hp3. rewrite Hq1 in H3. destruct (H3 q3 Hq3) as (Ha2 & w3 & Hw3 & ->). cbn [snd] in Hp3.
  assert (He3 : payload buf3 = tcp_bytes (e_peer eb) (e_addr eb) (e_pport eb) (e_lport eb) (wrap32 (ti_iss tia + 1)) 1 0x5010 w3 ([] ++ [])) by congruence.
  destruct (rx_last_ack eb _ _ tib1 buf3 _ _ L2 Hb1 Hbuf3 He3 Hw3) as (b3 & tib2 & E4 & H4); [by rewrite Hbb|by rewrite L7'|]. exists b3, tib2. split; [exact E4|].
  intros q4 Hq4. rewrite Hq2 in H4. destruct (H4 q4 Hq4) as (Hb2 & w4 & Hw4 & ->). pose proof (wrap32_range (ti_iss tia + 1)) as Hr.
  split; try done.
  - unfold packets. cbn [n_ti]. fold (sent_of tia2). rewrite Hq3. repeat constructor; apply empty_pkt_ok; done || lia || (right; done) || by left.
  - unfold packets. cbn [n_ti]. fold (sent_of tib2). rewrite Hq4. repeat constructor; apply empty_pkt_ok; try done; try lia; right; by rewrite L7'.
Qed.

(** C11 The three packets of the handshake establish the connection, with the initial sequence
    number of each end as the other one knows it: one socket listens, one connects, and each of
    the three packets sent is received by the other end. *)
Theorem tcp_handshake ea eb ca cb tia tib : link ea eb ca cb ->
  one (e_addr ea) (c_sock ca) (c_tcb ca) (fun t => idle_tcb t /\ tcb_lclport t = e_lport ea) tia -> sent_of tia = [] ->
  one (e_addr eb) (c_sock cb) (c_tcb cb) idle_tcb tib -> sent_of tib = [] ->
  0 <= ti_iss tia < 2 ^ 32 -> e_base ea = wrap32 (ti_iss tia + 1) -> e_base eb = 1 ->
  opens ea eb ca cb tia tib.
Proof. apply handshake_ok. Qed.

End stream.

(** * Two boot loaders *)

Definition ex_ip1 : ip_info := ex_host ex_hw [OSetAddr [10; 0; 0; 1]; OArpAdd [10; 0; 0; 2] ex_far_hw].
Definition ex_ip2 : ip_info := ex_host ex_far_hw [OSetAddr [10; 0; 0; 2]; OArpAdd [10; 0; 0; 1] ex_hw].
Definition ex_mem : bytes := replicate (Z.to_nat TCP_BUF_SIZE) 0.
Definition ex_none (i : ip_info) : tcp_info (W := recorded ip_info) := Ti (Rec i []) 0 [] 0 0 [] ∅ (kmeminit 0 0) 0.
Definition ex_ti (i : ip_info) (now ticks : Z) : tcp_info (W := recorded ip_info) :=
  match _tcp_init (Rec i []) true 0 (kmeminit 4096 1000000) now ticks with
  | Some ti => match _tcp_socket ti ex_mem ex_mem with Some (_, ti) => ti | None => ex_none i end
  | None => ex_none i
  end.
Definition ex_tia : tcp_info := ex_ti ex_ip1 1000 305419896.
Definition ex_tib : tcp_info := ex_ti ex_ip2 2000 4660.
Definition ex_p (ti : tcp_info (W := recorded ip_info)) : Z := default 0 (head (ti_tcblist ti)).
Definition ex_ea : endpoint := Ep [10; 0; 0; 1] [10; 0; 0; 2] 2024 23 305419897 1.
Definition ex_eb : endpoint := Ep [10; 0; 0; 2] [10; 0; 0; 1] 23 2024 1 305419897.
Definition ex_ca : conf := Conf [10; 0; 0; 1] [10; 0; 0; 2] 0 (ex_p ex_tia).
Definition ex_cb : conf := Conf [10; 0; 0; 2] [10; 0; 0; 1] 0 (ex_p ex_tib).
Definition ex_buf (q : bytes) : ebuf := Ebuf 0 (slen q) 0 0 34 (replicate 34 0 ++ q ++ replicate (eb_size - 34 - length q) 0).

Lemma ex_link : link ex_ea ex_eb ex_ca ex_cb.
Proof. by repeat split. Qed.

Lemma ex_buf_ok q : slen q <= 1400 -> holds (ex_buf q) /\ payload (ex_buf q) = q.
Proof.
  unfold slen. intros Hq. split.
  - split; cbn; unfold slen; rewrite ?length_app, ?length_replicate; unfold eb_size; lia.
  - unfold payload, ex_buf. cbn [eb_length eb_ptr eb_data]. unfold slen. rewrite Nat2Z.id. change (Z.to_nat 34) with (length (replicate 34 0)). rewrite drop_app_length. apply take_app_length.
Qed.

Lemma ex_ip_ok1 : ip_ok ex_ip1.
Proof. apply ex_host_ok; [done|]. repeat (constructor; [cbn; lia|]). constructor. Qed.

Lemma ex_ip_ok2 : ip_ok ex_ip2.
Proof. apply ex_host_ok; [done|]. repeat (constructor; [cbn; lia|]). constructor. Qed.

Definition ex_socket_shape (ti : tcp_info (W := recorded ip_info)) (lport : Z) : bool :=
  match get_tcb ti (ex_p ti) with
  | Some t =>
      (tcb_state t =? 0) && (tcb_peerport t =? 0) && (tcb_mtu t =? 1400) && (tcb_lclport t =? lport) &&
      forallb (fun b => (tmb_bufsize b =? 65536) && (slen (tmb_buf b) =? 65536) && (tmb_len b =? 0) && (tmb_remptr b =? 0) && (tmb_addptr b =? 0))
        [tcb_txbuf t; tcb_rxbuf t] && (length (ti_tcblist ti) =? 1)%nat && bool_decide (socket_at ti 0 = Some (Some (ex_p ti))) && (length (sent_of ti) =? 0)%nat
  | None => false
  end.

Lemma ex_shape_a : ex_socket_shape ex_tia 2024 = true.
Proof. vm_compute. reflexivity. Qed.
Lemma ex_shape_b : ex_socket_shape ex_tib 3024 = true.
Proof. vm_compute. reflexivity. Qed.

Lemma ex_socket_ok ti lport src : ex_socket_shape ti lport = true -> rec_ok src (ti_ipinfo ti) ->
  one src 0 (ex_p ti) (fun t => idle_tcb t /\ tcb_lclport t = lport) ti /\ sent_of ti = [].
Proof.
  unfold ex_socket_shape. destruct (get_tcb ti (ex_p ti)) as [t|] eqn:Et; [|done]. intros Hs Hr. cbn [forallb] in Hs. rewrite !andb_true_iff in Hs. unfold slen in Hs.
  rewrite !Z.eqb_eq, !Nat.eqb_eq, bool_decide_eq_true in Hs. destruct Hs as [[[[[[[S1 S2] S3] S4] [[[[[T1 T2] T3] T4] T5] [[[[[R1 R2] R3] R4] R5] _]]] L] K] N].
  split; [|by apply nil_length_inv]. split; [|done|done|].
  - unfold ex_p in *. destruct (ti_tcblist ti) as [|p [|]]; done.
  - exists t. split; [done|]. split; [|done]. split; [rewrite S1; done|done|done| |].
    + split; unfold TCP_BUF_SIZE; rewrite ?T1, ?T3, ?T4, ?T5; try lia; done.
    + split; unfold TCP_BUF_SIZE; rewrite ?R1, ?R3, ?R4, ?R5; try lia; done.
Qed.

Lemma ex_rec1 : rec_ok [10; 0; 0; 1] (ti_ipinfo ex_tia).
Proof.
  replace (ti_ipinfo ex_tia) with (Rec (_ip_register ex_ip1 6 3 0) []) by (vm_compute; reflexivity).
  split; [|vm_compute; reflexivity]. apply (set_protocols_ok ex_ip1). exact ex_ip_ok1.
Qed.

Lemma ex_rec2 : rec_ok [10; 0; 0; 2] (ti_ipinfo ex_tib).
Proof.
  replace (ti_ipinfo ex_tib) with (Rec (_ip_register ex_ip2 6 3 0) []) by (vm_compute; reflexivity).
  split; [|vm_compute; reflexivity]. apply (set_protocols_ok ex_ip2). exact ex_ip_ok2.
Qed.

(** The states the handshake goes through. *)
Definition ex_snd {A} (r : option (A * tcp_info (W := recorded ip_info))) (d : tcp_info) : tcp_info := match r with Some (_, ti) => ti | None => d end.
Definition ex_q (ti : tcp_info (W := recorded ip_info)) (k : nat) : bytes * bytes := default ([], []) (sent_of ti !! k).
Definition ex_tib0 := ex_snd (_tcp_listen ex_tib 0 23) ex_tib.
Definition ex_tia1 := ex_snd (_tcp_connect ex_tia 0 [10; 0; 0; 2] 23) ex_tia.
Definition ex_tib1 := ex_snd (_tcp_rx_callback ex_tib0 (ex_buf (ex_q ex_tia1 0).2) [10; 0; 0; 2] [10; 0; 0; 1]) ex_tib.
Definition ex_tia2 := ex_snd (_tcp_rx_callback ex_tia1 (ex_buf (ex_q ex_tib1 0).2) [10; 0; 0; 1] [10; 0; 0; 2]) ex_tia.
Definition ex_tib2 := ex_snd (_tcp_rx_callback ex_tib1 (ex_buf (ex_q ex_tia2 1).2) [10; 0; 0; 2] [10; 0; 0; 1]) ex_tib.

Lemma ex_snd_eq {A} r (x : A) ti d : r = Some (x, ti) -> ti = ex_snd r d.
Proof. by intros ->. Qed.

Lemma ex_sent : sent_of ex_tia1 = [ex_q ex_tia1 0] /\ sent_of ex_tib1 = [ex_q ex_tib1 0] /\
  sent_of ex_tia2 = [ex_q ex_tia1 0; ex_q ex_tia2 1] /\ sent_of ex_tib2 = [ex_q ex_tib1 0; ex_q ex_tib2 1].
Proof. split; [vm_compute; reflexivity|]. split; [vm_compute; reflexivity|]. split; vm_compute; reflexivity. Qed.

Lemma ex_sizes : slen (ex_q ex_tia1 0).2 <= 1400 /\ slen (ex_q ex_tib1 0).2 <= 1400 /\ slen (ex_q ex_tia2 1).2 <= 1400.
Proof. vm_compute. split; [discriminate|]. split; discriminate. Qed.

Lemma one_weaken src s p (P Q : tcb -> Prop) (ti : tcp_info (W := recorded ip_info)) : (forall t, P t -> Q t) -> one src s p P ti -> one src s p Q ti.
Proof. intros HPQ [H1 H2 H3 (t & H4 & H5)]. split; [done..|]. exists t. split; [done|by apply HPQ]. Qed.

Lemma ex_opened : opens ex_ea ex_eb ex_ca ex_cb ex_tia ex_tib -> established ex_ea ex_eb ex_ca ex_cb (Node ex_tia2 [] []) (Node ex_tib2 [] []).
Proof.
  intros (tib0 & tia1 & E0 & E1 & H1). destruct ex_sent as (Q1 & Q2 & Q3 & Q4). destruct ex_sizes as (Z1 & Z2 & Z3).
  apply (ex_snd_eq _ _ _ ex_tib) in E0. apply (ex_snd_eq _ _ _ ex_tia) in E1.
  destruct (ex_buf_ok _ Z1) as [B1 P1]. destruct (ex_buf_ok _ Z2) as [B2 P2]. destruct (ex_buf_ok _ Z3) as [B3 P3].
  rewrite E1 in H1. destruct (H1 _ _ Q1 B1 P1) as (b1 & tib1 & E2 & H2). clear H1. rewrite E0 in E2. apply (ex_snd_eq _ _ _ ex_tib) in E2.
  rewrite E2 in H2. destruct (H2 _ _ Q2 B2 P2) as (b2 & tia2 & E3 & H3). clear H2. apply (ex_snd_eq _ _ _ ex_tia) in E3.
  rewrite E3 in H3. destruct (H3 _ _ Q3 B3 P3) as (b3 & tib2 & E4 & H4). clear H3. apply (ex_snd_eq _ _ _ ex_tib) in E4.
  rewrite E4 in H4. exact (H4 _ Q4).
Qed.

Lemma ex_a_ok : one [10; 0; 0; 1] 0 (ex_p ex_tia) (fun t => idle_tcb t /\ tcb_lclport t = 2024) ex_tia /\ sent_of ex_tia = [].
Proof. exact (ex_socket_ok ex_tia 2024 _ ex_shape_a ex_rec1). Qed.

Lemma ex_b_ok : one [10; 0; 0; 2] 0 (ex_p ex_tib) idle_tcb ex_tib /\ sent_of ex_tib = [].
Proof.
  destruct (ex_socket_ok ex_tib 3024 _ ex_shape_b ex_rec2) as [H1 H2]. split; [|done]. eapply one_weaken; [|exact H1]. by intros t [H _].
Qed.

Lemma ex_iss : 0 <= ti_iss ex_tia < 2 ^ 32 /\ e_base ex_ea = wrap32 (ti_iss ex_tia + 1).
Proof. vm_compute. split; [split; [discriminate|reflexivity]|reflexivity]. Qed.

Lemma tcp_handshake_witness : established ex_ea ex_eb ex_ca ex_cb (Node ex_tia2 [] []) (Node ex_tib2 [] []).
Proof.
  apply ex_opened. apply (tcp_handshake ex_ea ex_eb ex_ca ex_cb ex_tia ex_tib ex_link); [apply ex_a_ok|apply ex_a_ok|apply ex_b_ok|apply ex_b_ok|apply ex_iss|apply ex_iss|reflexivity].
Defined.

(** Five bytes are sent, lost, sent again after a second, and received twice; the other end
    answers. *)
Definition ex_deliver (k n : nat) : node_op := NDeliver k 0 0 0 (replicate 34 0) (replicate (eb_size - 34 - n) 0).
Definition ex_net_ops : list (bool * node_op) :=
  [(true, NSend [104; 101; 108; 108; 111]); (true, NPoll 1020); (false, ex_deliver 3 25); (false, ex_deliver 2 25); (false, NRecv 100);
   (false, NSend [111; 107]); (true, ex_deliver 2 22); (true, NRecv 1)].

Lemma tcp_stream_witness : exists a' b', net_run ex_ca ex_cb ex_net_ops (Node ex_tia2 [] []) (Node ex_tib2 [] []) = Some (a', b') /\
  n_rcvd b' `prefix_of` n_sent a' /\ n_rcvd a' `prefix_of` n_sent b'.
Proof.
  apply (tcp_stream ex_ea ex_eb ex_ca ex_cb).
  - apply ex_opened, handshake_ok; [exact ex_link|apply ex_a_ok|apply ex_a_ok|apply ex_b_ok|apply ex_b_ok|apply ex_iss|apply ex_iss|reflexivity].
  - repeat (constructor; [cbn; lia|]). constructor.
Defined.

Example ex_net : exists a' b', net_run ex_ca ex_cb ex_net_ops (Node ex_tia2 [] []) (Node ex_tib2 [] []) = Some (a', b') /\
  n_rcvd b' = [104; 101; 108; 108; 111] /\ n_rcvd a' = [111].
Proof.
  pose (r := net_run ex_ca ex_cb ex_net_ops (Node ex_tia2 [] []) (Node ex_tib2 [] [])).
  assert (H : match r with Some (a, b) => n_rcvd b = [104; 101; 108; 108; 111] /\ n_rcvd a = [111] | None => False end) by (vm_compute; split; reflexivity).
  fold r. destruct r as [[a' b']|]; [|done]. by exists a', b'.
Qed.
