(* ===== verification/TcpState.v ===== *)
(** The state machine of TCP: the states follow the diagram of the protocol, whatever
    arrives; and the places where the code does not do what the protocol asks for. *)

From S2P Require Import Prelude Malloc Tcpbuf Ether Ip IpApi Tcp TcpStream.
From Stdlib Require Import ZArith Lia Bool List String.
From stdpp Require Import base numbers list gmap relations.

#[local] Open Scope Z_scope.

(** * The diagram *)

(** What the state machine sees of a packet: the flags, whether it acknowledges exactly one
    number more than was acknowledged, and whether its text is none or begins at or before
    the next byte that is expected and ends behind it. *)
Record seen := Seen { sn_rst : bool; sn_syn : bool; sn_ack : bool; sn_fin : bool; sn_one : bool; sn_text : bool }.

Definition has (g : segment) (f : Z) : bool := truthy (Z.land (sg_flags g) f).

Definition seen_of (t : tcb) (g : segment) (len : Z) : seen :=
  Seen (has g TCPFLG_RST) (has g TCPFLG_SYN) (has g TCPFLG_ACK) (has g TCPFLG_FIN)
    (wrap32 (sg_acknum g - tcb_sendunack t) =? 1)
    ((len =? 0) || (TCPSEQ_LEQ (sg_seqnum g) (tcb_rcvnext t) && TCPSEQ_LT (tcb_rcvnext t) (sg_seqnum g + len))).

(** The transitions without a reset, the first that fits; where none does the state stays. *)
Definition rx_table : list (Z * (seen -> bool) * Z) :=
  [(TCPSTATE_LISTEN, sn_syn, TCPSTATE_SYN_RECEIVED);
   (TCPSTATE_SYN_SENT, fun n => sn_syn n && sn_ack n && sn_one n, TCPSTATE_ESTABLISHED);
   (TCPSTATE_SYN_SENT, sn_syn, TCPSTATE_SYN_RECEIVED);
   (TCPSTATE_SYN_RECEIVED, fun n => sn_ack n && sn_one n, TCPSTATE_ESTABLISHED);
   (TCPSTATE_ESTABLISHED, fun n => sn_fin n && sn_text n, TCPSTATE_CLOSE_WAIT);
   (TCPSTATE_FINWAIT_1, fun n => sn_ack n && sn_one n && sn_fin n, TCPSTATE_TIME_WAIT);
   (TCPSTATE_FINWAIT_1, fun n => sn_ack n && sn_one n, TCPSTATE_FINWAIT_2);
   (TCPSTATE_FINWAIT_1, fun n => sn_fin n && sn_text n && sn_ack n, TCPSTATE_TIME_WAIT);
   (TCPSTATE_FINWAIT_1, fun n => sn_fin n && sn_text n, TCPSTATE_CLOSING);
   (TCPSTATE_FINWAIT_2, fun n => sn_fin n && sn_text n, TCPSTATE_TIME_WAIT);
   (TCPSTATE_CLOSING, sn_one, TCPSTATE_TIME_WAIT);
   (TCPSTATE_LAST_ACK, sn_one, TCPSTATE_CLOSED)].

Fixpoint next_in (table : list (Z * (seen -> bool) * Z)) (s : Z) (n : seen) : Z :=
  match table with
  | [] => s
  | (from, fits, to) :: table => if (s =? from) && fits n then to else next_in table s n
  end.

Definition rx_next (s : Z) (n : seen) : Z :=
  if sn_rst n then if s =? TCPSTATE_SYN_RECEIVED then TCPSTATE_LISTEN else TCPSTATE_CLOSED
  else next_in rx_table s n.

(** What closing a socket may do. *)
Inductive close_edge : Z -> Z -> Prop :=
  | close_active s : s = TCPSTATE_SYN_RECEIVED \/ s = TCPSTATE_ESTABLISHED -> close_edge s TCPSTATE_FINWAIT_1
  | close_passive : close_edge TCPSTATE_CLOSE_WAIT TCPSTATE_LAST_ACK
  | close_idle s : s = TCPSTATE_CLOSED \/ s = TCPSTATE_LISTEN \/ s = TCPSTATE_SYN_SENT -> close_edge s TCPSTATE_CLOSED
  | close_again s : TCPSTATE_FINWAIT_1 <= s <= TCPSTATE_TIME_WAIT -> close_edge s s.

(** Case analysis on what a function returned. *)
Ltac peel E :=
  repeat match type of E with
  | (match ?x with Some _ => _ | None => None end) = Some _ => destruct x eqn:?; [|discriminate E]
  | (match ?x with pair _ _ => _ end) = _ => destruct x eqn:?
  | (match ?x with Some _ => _ | None => _ end) = Some _ => destruct x eqn:?
  end.

(** The outermost condition of what a function returned. *)
Ltac hyp_if E := match type of E with (if ?c then _ else _) = _ => destruct c end.
Ltac goal_if := match goal with |- context [if ?c then _ else _] => destruct c end.

Section state.
Context {W : Type} {IL : IpLayer W}.

Lemma output_state fuel ticks window sendmax (ip ip' : W) t t' :
  output_loop fuel ticks window sendmax ip t = Some (t', ip') -> tcb_state t' = tcb_state t.
Proof.
  revert ip t. induction fuel as [|fuel IH]; intros ip t; cbn [output_loop]; destruct (TCPSEQ_LT _ _); intros E; try discriminate E; [by injection E as <- _| |by injection E as <- _].
  destruct (ip_alloc ip) as [[[b|] ip1]|]; [|by injection E as <- _|discriminate E]. peel E. apply IH in E. exact E.
Qed.

Lemma protosend_state (ip ip' : W) t t' : _tcp_protosend ip t = Some (t', ip') -> tcb_state t' = tcb_state t.
Proof.
  unfold _tcp_protosend. intros E. destruct (ip_alloc ip) as [[[b|] ip1]|]; [|by injection E as <- _|discriminate E].
  cbn zeta in E. peel E. injection E as <- _.
  goal_if; reflexivity.
Qed.

Lemma sendctl_state ticks (ip ip' : W) t t' flags timeout : _tcp_sendctlmsg ticks ip t flags timeout = Some (t', ip') -> tcb_state t' = tcb_state t.
Proof. unfold _tcp_sendctlmsg. intros E. apply protosend_state in E. rewrite E. goal_if; reflexivity. Qed.

Lemma finish_state ticks (ip ip' : W) t t' : rx_finish ticks ip t = Some (t', ip') -> tcb_state t' = tcb_state t.
Proof.
  unfold rx_finish, _tcp_output. intros E. destruct (truthy (Z.land (tcb_flags t) TCB_FLG_OUTPUT)).
  - destruct (output_loop _ _ _ _ _ _) as [[t1 ip1]|] eqn:E1; [|discriminate E]. apply output_state in E1. destruct (truthy _); [apply protosend_state in E|injection E as <- _]; by rewrite <- E1.
  - destruct (truthy _); [by apply protosend_state in E|by injection E as <- _].
Qed.

End state.

(** Sequence numbers that differ by [d]. *)
Lemma diff_of a b d k : - 2 ^ 31 <= d < 2 ^ 31 -> a - b = d + k * 2 ^ 32 -> TCPSEQ_DIFF a b = d.
Proof.
  intros Hd E. unfold TCPSEQ_DIFF. rewrite E. transitivity (sint32 d); [|by apply sint32_small]. unfold sint32, wrap32. by rewrite Z_mod_plus_full.
Qed.

Lemma wrap32_ex z : exists k, wrap32 z = z + k * 2 ^ 32.
Proof. exists (- (z / 2 ^ 32)). unfold wrap32. pose proof (Z.div_mod z (2 ^ 32)). lia. Qed.

Lemma diff_ex a b : exists k, a = b + TCPSEQ_DIFF a b + k * 2 ^ 32.
Proof.
  destruct (wrap32_ex (a - b)) as (k & E). unfold TCPSEQ_DIFF, sint32. rewrite E. destruct (_ <? _); [exists (- k)|exists (1 - k)]; lia.
Qed.

Section rx.
Context {W : Type} {IL : IpLayer W} {WL : IpLaws W}.
Abbreviation rip := (recorded W).
Abbreviation tcp := (tcp_info (W := rip)).

(** * Every call returns *)

(** A control block from which packets can be built. *)
Record outable (t : tcb) : Prop := {
  ob_peer : length (tcb_peeraddr t) = 4%nat;
  ob_mtu : 0 < tcb_mtu t <= 1400;
  ob_tx : tmb_ok TCP_BUF_SIZE (tcb_txbuf t);
  ob_order : 0 <= TCPSEQ_DIFF (tcb_sendnext t) (tcb_sendunack t);
  ob_window : 0 <= tcb_sendwindow t < 65536
}.

Definition runs (src : bytes) (o : option (tcb * rip)) (P : tcb -> Prop) : Prop :=
  exists t' r', o = Some (t', r') /\ rec_ok src r' /\ P t'.

Lemma runs_same src r t (P : tcb -> Prop) : rec_ok src r -> P t -> runs src (Some (t, r)) P.
Proof. intros H1 H2. by exists t, r. Qed.

Lemma protosend_runs src r t (P : tcb -> Prop) : rec_ok src r -> length (tcb_peeraddr t) = 4%nat -> P t -> P (ctl_sent t) -> runs src (_tcp_protosend r t) P.
Proof. intros Hr Hp H1 H2. destruct (protosend_ok src r t Hr Hp) as (t' & r' & -> & Hr' & [[-> _]|[-> _]]); by eexists _, _. Qed.

Lemma sendctl_runs src ticks r t flags timeout (P : tcb -> Prop) : rec_ok src r -> length (tcb_peeraddr t) = 4%nat ->
  (forall retx, let t0 := set_timer_retx (set_retrycnt (set_txflags t flags) 0) retx in P t0 /\ P (ctl_sent t0)) -> runs src (_tcp_sendctlmsg ticks r t flags timeout) P.
Proof.
  intros Hr Hp HP. unfold _tcp_sendctlmsg. set (t1 := set_retrycnt _ 0).
  assert (exists retx, (if 0 <=? timeout then set_timer_retx t1 (if truthy timeout then ticks + timeout else 0) else t1) = set_timer_retx t1 retx) as (retx & ->).
  { destruct (0 <=? timeout); [by eexists|]. by exists (tcb_timer_retx t1). }
  by apply protosend_runs; [..|apply HP|apply HP].
Qed.

Lemma sendmax_range t : outable t -> exists M, output_sendmax t = wrap32 (tcb_sendunack t + M) /\ 0 <= M <= tmb_len (tcb_txbuf t).
Proof.
  intros [_ _ [(_ & _ & Hn) Hl _ _ _] _ Hw]. unfold output_sendmax, tmb_curlen, TCPSEQ_GT, TCP_BUF_SIZE in *.
  rewrite seq_diff by lia. destruct (Z.ltb_spec 0 (tmb_len (tcb_txbuf t) - tcb_sendwindow t)); rewrite seq_diff by lia; case_test; eexists; (split; [reflexivity|lia]).
Qed.

(** One segment of the loop, and the loop. *)
Lemma output_one src f ticks window sendmax r t M : rec_ok src r -> outable t -> sendmax = wrap32 (tcb_sendunack t + M) -> 0 <= M <= tmb_len (tcb_txbuf t) ->
  TCPSEQ_DIFF (tcb_sendnext t) (tcb_sendunack t) < M ->
  (exists r', output_loop (S f) ticks window sendmax r t = Some (t, r') /\ rec_ok src r') \/
  exists t' r' l, output_loop (S f) ticks window sendmax r t = output_loop f ticks window sendmax r' t' /\ rec_ok src r' /\ outable t' /\ 0 < l /\
    TCPSEQ_DIFF (tcb_sendnext t') (tcb_sendunack t') = TCPSEQ_DIFF (tcb_sendnext t) (tcb_sendunack t) + l /\ tcb_sendunack t' = tcb_sendunack t /\ tcb_txbuf t' = tcb_txbuf t.
Proof.
  intros Hr Ho -> HM HN. set (N := TCPSEQ_DIFF _ _) in HN. destruct Ho as [O1 O2 O3 O4 O5]. fold N in O4. pose proof O3 as [(_ & _ & Hn) Hl _ _ _]. unfold TCP_BUF_SIZE in Hl.
  destruct (diff_ex (tcb_sendnext t) (tcb_sendunack t)) as (k & Hk). fold N in Hk.
  cbn [output_loop]. destruct (wrap32_ex (tcb_sendunack t + M)) as (k1 & Hk1).
  assert (Hlt : TCPSEQ_LT (tcb_sendnext t) (wrap32 (tcb_sendunack t + M)) = true) by (unfold TCPSEQ_LT; rewrite (diff_of _ _ (N - M) (k - k1)) by lia; lia).
  rewrite Hlt. fold N. destruct (rec_alloc src r Hr) as (o & r1 & -> & Hr1 & _ & Hb). cbn [option_bind].
  destruct o as [b0|]; [|left; by exists r1]. right. destruct Hb as (Hb & Hport & Hptr & Hpay).
  assert (Hl0 : eb_length b0 = 0) by (rewrite <- (payload_length b0 Hb), Hpay; done). rewrite Hl0, Z.add_0_r. fold data_flags. set (t1 := set_rcvack t (tcb_rcvnext t)).
  destruct (put_header_ok t1 data_flags window b0 Hb Hpay) as (b1 & -> & Hf1); [rewrite Hptr; unfold eb_size; lia|]. cbn [option_bind].
  change (tcb_txbuf t1) with (tcb_txbuf t). change (tcb_mtu t1) with (tcb_mtu t). rewrite (tmb_copyout2_spec _ _ _ _ O3) by lia. cbn [option_bind].
  set (l := Z.min _ _). assert (Hls : 0 < l <= 1400 /\ N + l <= tmb_len (tcb_txbuf t)) by (unfold l; lia). set (data := take (Z.to_nat l) _).
  assert (Hdl : slen data = l) by (unfold data, slen; pose proof (contents_length _ _ O3); rewrite length_take, length_drop; lia).
  destruct (append_filled _ _ _ data Hf1) as (b2 & Ha & Hf2); [rewrite length_app, tcp_header_length, Hptr by done; unfold eb_size, slen in *; lia|].
  unfold ebuf_append_bytes in Ha. destruct (eb_write b1 (eb_ptr b1 + eb_length b1) data) as [b1'|] eqn:Ew; [|done]. cbn [option_bind].
  assert (Hlen1 : eb_length b1' = eb_length b1) by (unfold eb_write in Ew; destruct (_ && _); [|done]; by injection Ew as <-).
  injection Ha as Ha. assert (Hb2 : ebuf_setlength b1' (eb_length b1' + l) = b2) by (rewrite <- Ha, <- Hdl, Hlen1; done). rewrite Hb2.
  change (tcb_peeraddr (set_sendnext t1 _)) with (tcb_peeraddr t).
  destruct (put_checksum_ok (ip_getaddr r1) (tcb_peeraddr t) b0 b2 _ _ _ _ _ _ _ Hf2) as (b3 & Hck & Hf3). fold (slen data) in Hck. rewrite Hdl, (Z.add_comm 20) in Hck.
  unfold TCP_HDR_LENGTH. rewrite Hck. cbn [option_bind].
  destruct (rec_send src r1 b0 b3 (tcb_peeraddr t) IPPROTO_TCP _ Hr1 Hport Hptr Hf3 O1) as (r2 & -> & Hr2 & _). cbn [option_bind].
  destruct (wrap32_ex (tcb_sendnext t + l)) as (k2 & Hk2).
  assert (HD : TCPSEQ_DIFF (wrap32 (tcb_sendnext t + l)) (tcb_sendunack t) = N + l) by (apply (diff_of _ _ _ (k + k2)); lia).
  eexists _, r2, l. split; [reflexivity|]. split; [done|]. split; [|split; [lia|done]].
  split; try done. cbn [tcb_sendnext tcb_sendunack clear_flags set_flags set_timer_retx set_sendnext set_rcvack t1]. rewrite HD. lia.
Qed.

Lemma output_stops f ticks window (r : rip) t M : outable t -> 0 <= M <= tmb_len (tcb_txbuf t) -> M <= TCPSEQ_DIFF (tcb_sendnext t) (tcb_sendunack t) ->
  output_loop f ticks window (wrap32 (tcb_sendunack t + M)) r t = Some (t, r).
Proof.
  intros [_ _ [(_ & _ & Hn) Hl _ _ _] O4 _] HM HN. unfold TCP_BUF_SIZE in Hl. set (N := TCPSEQ_DIFF _ _) in *. destruct (diff_ex (tcb_sendnext t) (tcb_sendunack t)) as (k & Hk). fold N in Hk.
  destruct (wrap32_ex (tcb_sendunack t + M)) as (k1 & Hk1). assert (HN2 : N < 2 ^ 31) by (unfold N, TCPSEQ_DIFF; pose proof (sint32_range (tcb_sendnext t - tcb_sendunack t)); lia).
  assert (Hlt : TCPSEQ_LT (tcb_sendnext t) (wrap32 (tcb_sendunack t + M)) = false) by (unfold TCPSEQ_LT; rewrite (diff_of _ _ (N - M) (k - k1)) by lia; lia).
  destruct f; cbn [output_loop]; by rewrite Hlt.
Qed.

Lemma output_runs src f ticks window M : forall r t, rec_ok src r -> outable t -> 0 <= M <= tmb_len (tcb_txbuf t) ->
  M - TCPSEQ_DIFF (tcb_sendnext t) (tcb_sendunack t) <= Z.of_nat f -> runs src (output_loop f ticks window (wrap32 (tcb_sendunack t + M)) r t) outable.
Proof.
  induction f as [|f IH]; intros r t Hr Ho HM Hf; [rewrite output_stops by (done || lia); by apply runs_same|].
  destruct (Z.lt_ge_cases (TCPSEQ_DIFF (tcb_sendnext t) (tcb_sendunack t)) M) as [HN|HN]; [|rewrite output_stops by (done || lia); by apply runs_same].
  destruct (output_one src f ticks window _ r t M Hr Ho eq_refl HM HN) as [(r' & -> & Hr')|(t' & r' & l & -> & Hr' & Ho' & Hl & HD & HU & HT)]; [by apply runs_same|].
  rewrite <- HU. apply IH; [done|done|by rewrite HT|lia].
Qed.

(** What follows the switch always returns. *)
Lemma finish_runs src ticks r t : rec_ok src r -> outable t -> runs src (rx_finish ticks r t) (fun t' => tcb_state t' = tcb_state t).
Proof.
  intros Hr Ho. assert (H1 : exists t1 r1, (if truthy (Z.land (tcb_flags t) TCB_FLG_OUTPUT) then
      let? (t, r) := _tcp_output ticks r t in Some (clear_flags t (Z.lor TCB_FLG_OUTPUT TCB_FLG_SENDMSG), r) else Some (t, r)) = Some (t1, r1) /\ rec_ok src r1 /\ length (tcb_peeraddr t1) = 4%nat).
  { destruct (truthy _); [|exists t, r; split; [done|]; split; [done|apply Ho]]. unfold _tcp_output. destruct (sendmax_range t Ho) as (M & Hm & HM). rewrite Hm.
    destruct (output_runs src (Z.to_nat (TCPSEQ_DIFF (wrap32 (tcb_sendunack t + M)) (tcb_sendnext t))) ticks (rx_window t) M r t Hr Ho HM) as (t' & r' & -> & Hr' & Ho').
    - set (N := TCPSEQ_DIFF (tcb_sendnext t) _). destruct (diff_ex (tcb_sendnext t) (tcb_sendunack t)) as (k & Hk). fold N in Hk. destruct (wrap32_ex (tcb_sendunack t + M)) as (k1 & Hk1).
      pose proof (ob_order t Ho) as HN. fold N in HN. assert (HN2 : N < 2 ^ 31) by (unfold N, TCPSEQ_DIFF; pose proof (sint32_range (tcb_sendnext t - tcb_sendunack t)); lia).
      destruct (ob_tx t Ho) as [(_ & _ & Hn) Hl _ _ _]. unfold TCP_BUF_SIZE in Hl. rewrite (diff_of (wrap32 _) _ (M - N) (k1 - k)) by lia. lia.
    - cbn [option_bind]. eexists _, r'. split; [reflexivity|]. split; [done|apply Ho']. }
  destruct H1 as (t1 & r1 & E1 & Hr1 & Hp1). unfold rx_finish. rewrite E1. cbn [option_bind].
  assert (E : exists t' r', (if truthy (Z.land (tcb_flags t1) TCB_FLG_SENDMSG) then _tcp_protosend r1 t1 else Some (t1, r1)) = Some (t', r') /\ rec_ok src r').
  { destruct (truthy (Z.land (tcb_flags t1) TCB_FLG_SENDMSG)); [|by exists t1, r1]. destruct (protosend_ok src r1 t1 Hr1 Hp1) as (t' & r' & E & Hr' & _). by exists t', r'. }
  destruct E as (t' & r' & E & Hr'). exists t', r'. split; [done|]. split; [done|]. apply (finish_state ticks r r'). unfold rx_finish. by rewrite E1.
Qed.

(** * Packets *)

Lemma diff_wrap_r a b : TCPSEQ_DIFF a (wrap32 b) = TCPSEQ_DIFF a b.
Proof. unfold TCPSEQ_DIFF, sint32, wrap32. by rewrite Zminus_mod_idemp_r. Qed.

Lemma diff_range a b : - 2 ^ 31 <= TCPSEQ_DIFF a b < 2 ^ 31.
Proof. apply sint32_range. Qed.

(** The acknowledgement of exactly one number, as it is tested. *)
Lemma acks_one a u : 0 <= a < 2 ^ 32 -> (a =? wrap32 (u + 1)) = (wrap32 (a - u) =? 1).
Proof.
  intros Ha. destruct (wrap32_ex (u + 1)) as (k & Hk). pose proof (wrap32_range (u + 1)). destruct (wrap32_ex (a - u)) as (j & Hj). pose proof (wrap32_range (a - u)).
  destruct (Z.eqb_spec a (wrap32 (u + 1))) as [E|E], (Z.eqb_spec (wrap32 (a - u)) 1) as [F|F]; try done.
  - exfalso. apply F. rewrite E, Hk. unfold wrap32. replace (u + 1 + k * 2 ^ 32 - u) with (1 + k * 2 ^ 32) by lia. rewrite Z_mod_plus_full. done.
  - exfalso. apply E. lia.
Qed.

Lemma diff_one a u : (TCPSEQ_DIFF a u =? 1) = (wrap32 (a - u) =? 1).
Proof. unfold TCPSEQ_DIFF, sint32. pose proof (wrap32_range (a - u)). destruct (Z.ltb_spec (wrap32 (a - u)) (2 ^ 31)); [done|]. rewrite !(proj2 (Z.eqb_neq _ _)) by lia. done. Qed.

(** What the table has for the three states in which data are taken. *)
Definition after_ack (s : Z) (ack fin one : bool) : Z :=
  if (s =? TCPSTATE_FINWAIT_1) && ack && one then if fin then TCPSTATE_TIME_WAIT else TCPSTATE_FINWAIT_2 else s.
Definition after_fin (s : Z) (ack : bool) : Z :=
  if s =? TCPSTATE_ESTABLISHED then TCPSTATE_CLOSE_WAIT
  else if s =? TCPSTATE_FINWAIT_1 then if ack then TCPSTATE_TIME_WAIT else TCPSTATE_CLOSING
  else if s =? TCPSTATE_FINWAIT_2 then TCPSTATE_TIME_WAIT else s.

Lemma procack_ok ticks t g : outable t -> has g TCPFLG_ACK = true ->
  (tcb_state t = TCPSTATE_ESTABLISHED \/ tcb_state t = TCPSTATE_FINWAIT_1 -> 0 <= TCPSEQ_DIFF (tcb_sendnext t) (sg_acknum g)) ->
  exists t', _tcp_procack ticks t (sg_acknum g) (sg_flags g) = Some t' /\ outable t' /\ tcb_rxbuf t' = tcb_rxbuf t /\ tcb_rcvnext t' = tcb_rcvnext t /\
    tcb_state t' = after_ack (tcb_state t) true (has g TCPFLG_FIN) (wrap32 (sg_acknum g - tcb_sendunack t) =? 1).
Proof.
  intros Ho Ha Hn. unfold _tcp_procack, after_ack. fold (has g TCPFLG_FIN). rewrite diff_one, andb_true_r. pose proof Ho as [O1 O2 O3 O4 O5].
  destruct (Z.eqb_spec (tcb_state t) TCPSTATE_ESTABLISHED) as [Hs|Hs].
  - rewrite Hs. change (TCPSTATE_ESTABLISHED =? TCPSTATE_FINWAIT_1) with false. cbn [andb]. specialize (Hn (or_introl Hs)).
    unfold TCPSEQ_LEQ, tmb_curlen. rewrite diff_wrap_r. destruct (Z.leb_spec (TCPSEQ_DIFF (tcb_sendunack t) (sg_acknum g)) 0) as [H1|H1]; [|by exists t].
    destruct (Z.leb_spec (TCPSEQ_DIFF (sg_acknum g) (tcb_sendunack t + tmb_len (tcb_txbuf t))) 0) as [H2|H2]; [|by exists t]. cbn [andb negb].
    assert (Hout : forall t', outable t' -> tcb_rxbuf t' = tcb_rxbuf t -> tcb_rcvnext t' = tcb_rcvnext t -> tcb_state t' = TCPSTATE_ESTABLISHED -> exists t'',
      (if truthy (tmb_len (tcb_txbuf t')) then Some (or_flags t' TCB_FLG_OUTPUT) else Some (set_timer_retx t' 0)) = Some t'' /\ outable t'' /\
      tcb_rxbuf t'' = tcb_rxbuf t /\ tcb_rcvnext t'' = tcb_rcvnext t /\ tcb_state t'' = TCPSTATE_ESTABLISHED).
    { intros t' [] ? ? ?. destruct (truthy _); eexists; (split; [reflexivity|]); (split; [by split|done]). }
    destruct (Z.ltb_spec 0 (TCPSEQ_DIFF (sg_acknum g) (tcb_sendunack t))) as [H3|H3].
    + destruct (diff_ex (sg_acknum g) (tcb_sendunack t)) as (k & Hk). set (A := TCPSEQ_DIFF (sg_acknum g) (tcb_sendunack t)) in *. pose proof (diff_range (sg_acknum g) (tcb_sendunack t)) as HA. fold A in HA.
      pose proof O3 as [(_ & _ & Hsz) Hl _ _ _]. unfold TCP_BUF_SIZE in Hl. rewrite (diff_of _ _ (A - tmb_len (tcb_txbuf t)) k) in H2 by lia.
      destruct (tmb_adjust_spec _ _ A O3) as (tx & -> & Htx & _); [lia|]. cbn [option_bind]. apply Hout; [|done..]. by split.
    + cbn [option_bind]. apply Hout; [|done..]. by split.
  - destruct (Z.eqb_spec (tcb_state t) TCPSTATE_FINWAIT_1) as [Hf|Hf]; [|by exists t]. cbn [andb]. specialize (Hn (or_intror Hf)).
    destruct (wrap32 (sg_acknum g - tcb_sendunack t) =? 1); [|by exists t]. destruct (has g TCPFLG_FIN); eexists; (split; [reflexivity|]); (split; [by split|done]).
Qed.

Lemma data_ok t seq buf : outable t -> tmb_ok TCP_BUF_SIZE (tcb_rxbuf t) -> holds buf ->
  exists o, procdata_data t seq buf = Some o /\
    let text := (eb_length buf =? 0) || (TCPSEQ_LEQ seq (tcb_rcvnext t) && TCPSEQ_LT (tcb_rcvnext t) (seq + eb_length buf)) in
    match o with None => text = false | Some t' => text = true /\ outable t' /\ tcb_state t' = tcb_state t end.
Proof.
  intros Ho Hrx [B1 B2 B3 B4]. unfold procdata_data. assert (Hsg : sint32 (eb_length buf) = eb_length buf) by (apply sint32_small; unfold eb_size in *; lia). rewrite Hsg. cbn zeta.
  destruct (Z.eqb_spec (eb_length buf) 0) as [H0|H0]; [by eexists|]. cbn [orb]. unfold TCPSEQ_LEQ, TCPSEQ_LT. rewrite diff_wrap_r.
  destruct (diff_ex seq (tcb_rcvnext t)) as (k & Hk). pose proof (diff_range seq (tcb_rcvnext t)) as HD. set (D := TCPSEQ_DIFF seq (tcb_rcvnext t)) in *.
  destruct (Z.leb_spec D 0) as [H1|H1]; [|by eexists]. cbn [andb].
  destruct (Z.ltb_spec (TCPSEQ_DIFF (tcb_rcvnext t) (seq + eb_length buf)) 0) as [H2|H2]; [|by eexists]. cbn [negb].
  assert (Hx : - D < eb_length buf).
  { destruct (Z.eq_dec D (- 2 ^ 31)) as [E|E]; [rewrite (diff_of _ _ (2 ^ 31 - eb_length buf) (- k)) in H2; unfold eb_size in *; lia|].
    rewrite (diff_of _ _ (- D - eb_length buf) (- k)) in H2; unfold eb_size in *; lia. }
  destruct (wrap32_ex (seq + eb_length buf)) as (k1 & Hk1).
  pose proof (diff_of (wrap32 (seq + eb_length buf)) (tcb_rcvnext t) (D + eb_length buf) (k + k1)) as Hr. unfold TCPSEQ_DIFF in Hr. rewrite Hr by (unfold eb_size in *; lia).
  rewrite (proj2 (Z.ltb_lt _ _)) by lia.
  assert (Hw : wrap32 (tcb_rcvnext t - seq) = - D) by (replace (tcb_rcvnext t - seq) with (- D + (- k) * 2 ^ 32) by lia; unfold wrap32; rewrite Z_mod_plus_full; apply Z.mod_small; unfold eb_size in *; lia).
  rewrite Hw. destruct (tmb_copyin_spec _ _ (drop (Z.to_nat (eb_ptr buf + - D)) (eb_data buf)) (D + eb_length buf) true Hrx) as (rx & -> & _ & _); [rewrite length_drop; unfold eb_size in *; lia|].
  cbn [option_bind]. eexists. split; [reflexivity|]. destruct Ho. destruct (truthy _); (split; [done|split; [by split|done]]).
Qed.

Lemma fin_ok src ticks r t flags : rec_ok src r -> outable t ->
  runs src (procdata_fin ticks r t flags) (fun t' => outable t' /\ tcb_state t' = after_fin (tcb_state t) (truthy (Z.land flags TCPFLG_ACK))).
Proof.
  intros Hr Ho. unfold procdata_fin, after_fin. change (tcb_state (set_rcvnext t _)) with (tcb_state t). destruct Ho.
  destruct (tcb_state t =? TCPSTATE_ESTABLISHED).
  { apply sendctl_runs; [done|done|]. intros retx. cbn zeta. split; (split; [by split|done]). }
  destruct (tcb_state t =? TCPSTATE_FINWAIT_1); [destruct (truthy _); (apply runs_same; [done|split; [by split|done]])|].
  destruct (tcb_state t =? TCPSTATE_FINWAIT_2) ; (apply runs_same; [done|split; [by split|done]]).
Qed.

(** A packet that has come for a control block. *)
Record arrives (t : tcb) (g : segment) (srcaddr : bytes) (buf : ebuf) : Prop := {
  ar_buf : holds buf;
  ar_addr : length srcaddr = 4%nat;
  ar_ack : 0 <= sg_acknum g < 2 ^ 32;
  ar_window : 0 <= sg_window g < 65536;
  ar_acked : tcb_state t = TCPSTATE_ESTABLISHED \/ tcb_state t = TCPSTATE_FINWAIT_1 -> has g TCPFLG_ACK = true ->
    0 <= TCPSEQ_DIFF (tcb_sendnext t) (sg_acknum g)
}.

Lemma rx_data_runs src ticks r t g srcaddr buf : rec_ok src r -> outable t -> tmb_ok TCP_BUF_SIZE (tcb_rxbuf t) -> arrives t g srcaddr buf -> has g TCPFLG_RST = false ->
  tcb_state t = TCPSTATE_ESTABLISHED \/ tcb_state t = TCPSTATE_FINWAIT_1 \/ tcb_state t = TCPSTATE_FINWAIT_2 ->
  runs src (rx_data ticks r t (sg_seqnum g) (sg_acknum g) (sg_flags g) buf)
    (fun t' => outable t' /\ tcb_state t' = rx_next (tcb_state t) (seen_of t g (eb_length buf))).
Proof.
  intros Hr Ho Hrx Hg Hrst Hs. unfold rx_data, _tcp_procdata, rx_next, seen_of. cbn [sn_rst]. rewrite Hrst. fold (has g TCPFLG_ACK) (has g TCPFLG_FIN).
  set (one := wrap32 (sg_acknum g - tcb_sendunack t) =? 1). set (text := _ || _).
  assert (H1 : exists t1, (if has g TCPFLG_ACK then _tcp_procack ticks t (sg_acknum g) (sg_flags g) else Some t) = Some t1 /\ outable t1 /\
    tcb_rxbuf t1 = tcb_rxbuf t /\ tcb_rcvnext t1 = tcb_rcvnext t /\ tcb_state t1 = after_ack (tcb_state t) (has g TCPFLG_ACK) (has g TCPFLG_FIN) one).
  { destruct (has g TCPFLG_ACK) eqn:Ea; [apply procack_ok; [done|done|]; intros; by apply Hg|]. exists t. unfold after_ack. by rewrite andb_false_r. }
  destruct H1 as (t1 & -> & Ho1 & Hb1 & Hn1 & Hs1). cbn [option_bind]. rewrite <- Hb1 in Hrx.
  destruct (data_ok t1 (sg_seqnum g) buf Ho1 Hrx (ar_buf _ _ _ _ Hg)) as (o & -> & Hod). rewrite Hn1 in Hod. fold text in Hod. cbn [option_bind].
  assert (Htab : next_in rx_table (tcb_state t) (Seen false (has g TCPFLG_SYN) (has g TCPFLG_ACK) (has g TCPFLG_FIN) one text) =
    if has g TCPFLG_FIN && text then after_fin (tcb_state t1) (has g TCPFLG_ACK) else tcb_state t1).
  { rewrite Hs1. unfold after_ack. destruct Hs as [->|[-> | ->]]; destruct (has g TCPFLG_ACK), (has g TCPFLG_FIN), one, text; reflexivity. }
  rewrite Htab. destruct o as [t2|].
  - destruct Hod as (-> & Ho2 & Hs2). rewrite andb_true_r. destruct (has g TCPFLG_FIN); [|by apply runs_same]. rewrite <- Hs2.
    exact (fin_ok src ticks r t2 (sg_flags g) Hr Ho2).
  - rewrite Hod, andb_false_r. by apply runs_same.
Qed.

(** What the switch comes to. *)
Definition comes (src : bytes) (t : tcb) (s' : Z) (frees : bool) (o : option (rx_outcome (W := rip))) : Prop :=
  match o with
  | Some (RxReturn t' r) => rec_ok src r /\ tcb_state t' = s' /\ frees = false
  | Some (RxGoOn t' r) => rec_ok src r /\ outable t' /\ tcb_state t' = s' /\ frees = false
  | Some (RxFree t' r) => rec_ok src r /\ t' = _tcp_closetcb t /\ TCPSTATE_CLOSED = s' /\ frees = true
  | None => False
  end.

Lemma runs_return src t o s' : runs src o (fun t' => tcb_state t' = s') -> comes src t s' false (match o with Some (t, ip) => Some (RxReturn t ip) | None => None end).
Proof. by intros (t' & r' & -> & ? & ?). Qed.

Lemma runs_on src t o s' : runs src o (fun t' => outable t' /\ tcb_state t' = s') -> comes src t s' false (match o with Some (t, ip) => Some (RxGoOn t ip) | None => None end).
Proof. by intros (t' & r' & -> & ? & ? & ?). Qed.

(** A FIN or a SYN that is sent counts as one number. *)
Lemma outable_fin t t0 : outable t -> TCPSEQ_DIFF (tcb_sendnext t) (tcb_sendunack t) <= 2 ^ 30 ->
  tcb_peeraddr t0 = tcb_peeraddr t -> tcb_mtu t0 = tcb_mtu t -> tcb_txbuf t0 = tcb_txbuf t -> tcb_sendnext t0 = tcb_sendnext t ->
  tcb_sendunack t0 = tcb_sendunack t -> tcb_sendwindow t0 = tcb_sendwindow t -> outable t0 /\ outable (ctl_sent t0).
Proof.
  intros [O1 O2 O3 O4 O5] Hd E1 E2 E3 E4 E5 E6. assert (H0 : outable t0) by (split; rewrite ?E1, ?E2, ?E3, ?E4, ?E5, ?E6; done). split; [done|].
  unfold ctl_sent. destruct (truthy _); [|by destruct H0]. destruct H0. split; try done. cbn [tcb_sendnext tcb_sendunack set_sendnext set_rcvack clear_flags set_flags]. rewrite E4, E5.
  destruct (diff_ex (tcb_sendnext t) (tcb_sendunack t)) as (k & Hk). destruct (wrap32_ex (tcb_sendnext t + 1)) as (k1 & Hk1).
  rewrite (diff_of _ _ (TCPSEQ_DIFF (tcb_sendnext t) (tcb_sendunack t) + 1) (k + k1)) by lia. lia.
Qed.

Lemma rx_listen_runs src ticks r t srcaddr srcport seqnum flags : rec_ok src r -> length srcaddr = 4%nat ->
  runs src (rx_listen ticks r t srcaddr srcport seqnum flags) (fun t' => tcb_state t' = if truthy (Z.land flags TCPFLG_SYN) then TCPSTATE_SYN_RECEIVED else tcb_state t).
Proof.
  intros Hr Ha. unfold rx_listen. destruct (truthy _); [|by apply runs_same]. apply sendctl_runs; [done|done|]. intros retx. done.
Qed.

Lemma rx_syn_sent_runs src ticks r t seqnum acknum flags : rec_ok src r -> length (tcb_peeraddr t) = 4%nat -> 0 <= acknum < 2 ^ 32 ->
  runs src (rx_syn_sent ticks r t seqnum acknum flags) (fun t' => tcb_state t' =
    if truthy (Z.land flags TCPFLG_SYN) then if truthy (Z.land flags TCPFLG_ACK) && (wrap32 (acknum - tcb_sendunack t) =? 1) then TCPSTATE_ESTABLISHED else TCPSTATE_SYN_RECEIVED
    else tcb_state t).
Proof.
  intros Hr Hp Ha. unfold rx_syn_sent. rewrite acks_one by done. destruct (truthy (Z.land flags TCPFLG_SYN)); [|by apply runs_same].
  destruct (_ && _); (apply sendctl_runs; [done|done|]); intros retx; done.
Qed.

Lemma rx_syn_received_runs src ticks r t acknum flags : rec_ok src r -> length (tcb_peeraddr t) = 4%nat -> 0 <= acknum < 2 ^ 32 ->
  runs src (rx_syn_received ticks r t acknum flags) (fun t' => tcb_state t' =
    if truthy (Z.land flags TCPFLG_ACK) && (wrap32 (acknum - tcb_sendunack t) =? 1) then TCPSTATE_ESTABLISHED else tcb_state t).
Proof.
  intros Hr Hp Ha. unfold rx_syn_received.
  assert (H1 : runs src (if truthy (Z.land flags TCPFLG_SYN) then _tcp_sendctlmsg ticks r t (Z.lor TCPFLG_SYN TCPFLG_ACK) TCP_RETX_TIMER else Some (t, r))
    (fun t1 => tcb_state t1 = tcb_state t /\ tcb_sendunack t1 = tcb_sendunack t /\ tcb_peeraddr t1 = tcb_peeraddr t)).
  { destruct (truthy _); [apply sendctl_runs; [done|done|]; intros retx; done|by apply runs_same]. }
  destruct H1 as (t1 & r1 & -> & Hr1 & Hs1 & Hu1 & Hp1). cbn [option_bind]. rewrite Hu1, acks_one by done. destruct (_ && _); [|by apply runs_same].
  destruct (sendctl_runs src ticks r1 t1 TCPFLG_ACK 0 (fun _ => True) Hr1) as (t2 & r2 & -> & Hr2 & _); [by rewrite Hp1|done|]. cbn [option_bind]. by apply runs_same.
Qed.

(** The rows of the table. *)
Lemma row_listen n : sn_rst n = false -> rx_next TCPSTATE_LISTEN n = if sn_syn n then TCPSTATE_SYN_RECEIVED else TCPSTATE_LISTEN.
Proof. by destruct n as [[] [] ? ? ? ?]. Qed.
Lemma row_syn_sent n : sn_rst n = false -> rx_next TCPSTATE_SYN_SENT n =
  if sn_syn n then if sn_ack n && sn_one n then TCPSTATE_ESTABLISHED else TCPSTATE_SYN_RECEIVED else TCPSTATE_SYN_SENT.
Proof. by destruct n as [[] [] [] ? [] ?]. Qed.
Lemma row_syn_received n : sn_rst n = false -> rx_next TCPSTATE_SYN_RECEIVED n = if sn_ack n && sn_one n then TCPSTATE_ESTABLISHED else TCPSTATE_SYN_RECEIVED.
Proof. by destruct n as [[] ? [] ? [] ?]. Qed.
Lemma row_closing n : sn_rst n = false -> rx_next TCPSTATE_CLOSING n = if sn_one n then TCPSTATE_TIME_WAIT else TCPSTATE_CLOSING.
Proof. by destruct n as [[] ? ? ? [] ?]. Qed.
Lemma row_last_ack n : sn_rst n = false -> rx_next TCPSTATE_LAST_ACK n = if sn_one n then TCPSTATE_CLOSED else TCPSTATE_LAST_ACK.
Proof. by destruct n as [[] ? ? ? [] ?]. Qed.

Lemma rx_state_comes src ticks r t g srcaddr buf : rec_ok src r -> outable t -> tmb_ok TCP_BUF_SIZE (tcb_rxbuf t) ->
  TCPSEQ_DIFF (tcb_sendnext t) (tcb_sendunack t) <= 2 ^ 30 -> arrives t g srcaddr buf -> has g TCPFLG_RST = false ->
  let n := seen_of t g (eb_length buf) in
  comes src t (rx_next (tcb_state t) n) ((tcb_state t =? TCPSTATE_LAST_ACK) && sn_one n)
    (rx_state ticks r t srcaddr (sg_srcport g) (sg_seqnum g) (sg_acknum g) (sg_flags g) buf).
Proof.
  intros Hr Ho Hrx Hd Hg Hrst. pose proof (rx_data_runs src ticks r t g srcaddr buf Hr Ho Hrx Hg Hrst) as Hdata. unfold rx_state. cbn zeta.
  set (n := seen_of t g (eb_length buf)) in *. assert (Hn : sn_rst n = false) by done. pose proof (ar_ack _ _ _ _ Hg) as Hack. pose proof (ob_peer t Ho) as Hp.
  destruct (Z.eqb_spec (tcb_state t) TCPSTATE_LISTEN) as [Hs|N1].
  { rewrite Hs. apply runs_return. pose proof (rx_listen_runs src ticks r t srcaddr (sg_srcport g) (sg_seqnum g) (sg_flags g) Hr (ar_addr _ _ _ _ Hg)) as H.
    rewrite Hs in H. rewrite row_listen by done. exact H. }
  destruct (Z.eqb_spec (tcb_state t) TCPSTATE_SYN_SENT) as [Hs|N2].
  { rewrite Hs. apply runs_return. pose proof (rx_syn_sent_runs src ticks r t (sg_seqnum g) (sg_acknum g) (sg_flags g) Hr Hp Hack) as H. rewrite Hs in H. rewrite row_syn_sent by done. exact H. }
  destruct (Z.eqb_spec (tcb_state t) TCPSTATE_SYN_RECEIVED) as [Hs|N3].
  { rewrite Hs. apply runs_return. pose proof (rx_syn_received_runs src ticks r t (sg_acknum g) (sg_flags g) Hr Hp Hack) as H. rewrite Hs in H. rewrite row_syn_received by done. exact H. }
  destruct (_ || _) eqn:Hdt.
  { rewrite (proj2 (Z.eqb_neq (tcb_state t) TCPSTATE_LAST_ACK)) by (intros E; by rewrite E in Hdt). apply runs_on, Hdata. rewrite !orb_true_iff, !Z.eqb_eq in Hdt. tauto. }
  rewrite !orb_false_iff, !Z.eqb_neq in Hdt. destruct Hdt as [[N4 N5] N6].
  destruct (Z.eqb_spec (tcb_state t) TCPSTATE_CLOSING) as [Hs|N7].
  { rewrite Hs, acks_one, row_closing by done. change (sn_one n) with (wrap32 (sg_acknum g - tcb_sendunack t) =? 1). destruct (_ =? 1); (split; [done|]); [|done]. destruct Ho. split; [by split|done]. }
  destruct (Z.eqb_spec (tcb_state t) TCPSTATE_LAST_ACK) as [Hs|N8].
  { rewrite Hs, acks_one, row_last_ack by done. change (sn_one n) with (wrap32 (sg_acknum g - tcb_sendunack t) =? 1). destruct (wrap32 _ =? 1); [done|].
    apply runs_on, sendctl_runs; [done|done|]. intros retx. cbv beta zeta. set (t0 := set_timer_retx _ retx). destruct (outable_fin t t0 Ho Hd) as [F1 F2]; [reflexivity..|].
      assert (Hc : tcb_state (ctl_sent t0) = tcb_state t0) by (unfold ctl_sent; by destruct (truthy _)). rewrite Hc. split; (split; [done|exact Hs]). }
  assert (Hstay : rx_next (tcb_state t) n = tcb_state t).
  { unfold rx_next. rewrite Hn. unfold rx_table. cbn [next_in]. by rewrite !(proj2 (Z.eqb_neq (tcb_state t) _)) by done. }
  rewrite Hstay. cbn [andb]. destruct (Z.eqb_spec (tcb_state t) TCPSTATE_TIME_WAIT) as [Hs|N9]; [|done].
  fold (has g TCPFLG_RST). rewrite Hrst. cbn [negb]. destruct Ho. apply runs_on, protosend_runs; [done|done|..]; (split; [by split|done]).
Qed.

(** * Memory *)

(** The memory of a control block: its two buffers and the block itself. *)
Record owns (pool : mempool) (p : Z) (t : tcb) (live : blocks) : Prop := {
  ow_pool : pool_ok pool live;
  ow_tx : is_Some (live !! tmb_ptr (tcb_txbuf t));
  ow_rx : is_Some (live !! tmb_ptr (tcb_rxbuf t));
  ow_tcb : is_Some (live !! p);
  ow_apart : NoDup [tmb_ptr (tcb_txbuf t); tmb_ptr (tcb_rxbuf t); p]
}.

Definition given_back (p : Z) (t : tcb) (live : blocks) : blocks :=
  delete p (delete (tmb_ptr (tcb_rxbuf t)) (delete (tmb_ptr (tcb_txbuf t)) live)).

Lemma live_positive pool live p : pool_ok pool live -> is_Some (live !! p) -> 0 < p.
Proof.
  intros [Ht (Hb & _) _ Hal Hli] [x Hp]. destruct (Hli p x Hp) as (m & Hm & <-). destruct (Hal m Hm) as (s & al & _ & H1 & _).
  apply elem_of_alloc in Hm as [Hin _]. pose proof (tiles_elem _ _ _ _ Ht Hin). unfold memnode_data, sizeof_memnode in *. lia.
Qed.

Lemma tmb_free_ok pool live b : pool_ok pool live -> is_Some (live !! tmb_ptr b) ->
  exists pool', tmb_free pool b = Some (pool', Tmb 0 [] (tmb_bufsize b) (tmb_addptr b) (tmb_remptr b) (tmb_len b)) /\ pool_ok pool' (delete (tmb_ptr b) live).
Proof.
  intros Hp Hl. pose proof (live_positive _ _ _ Hp Hl) as Hpos. destruct Hl as [x Hx]. destruct (kfree_spec pool live _ x Hp Hx) as (pool' & E & Hp' & _).
  unfold tmb_free, truthy. rewrite (proj2 (Z.eqb_neq _ _)), E by lia. by exists pool'.
Qed.

Lemma freetcb_ok (ti : tcp) p t live : get_tcb ti p = Some t -> owns (kmempool ti) p t live ->
  exists ti' t', _tcp_freetcb ti p = Some ti' /\ get_tcb ti' p = Some t' /\ tcb_state t' = tcb_state t /\ tcb_socknum t' = -1 /\
    pool_ok (kmempool ti') (given_back p t live) /\ ti_tcblist ti' = filter (fun q => q <> p) (ti_tcblist ti) /\ ti_onqueue ti' = ti_onqueue ti - 1 /\
    ti_ipinfo ti' = ti_ipinfo ti /\ (tcb_socknum t < 0 -> ti_ports ti' = ti_ports ti) /\
    (tcb_peeraddr t' = tcb_peeraddr t /\ tcb_flags t' = tcb_flags t).
Proof.
  intros Ht [H1 H2 H3 H4 Hnd]. apply NoDup_cons in Hnd as [N1 Hnd]. apply NoDup_cons in Hnd as [N2 _].
  rewrite !elem_of_cons in N1. rewrite list_elem_of_singleton in N2. unfold _tcp_freetcb. rewrite Ht. cbn zeta. cbn [option_bind]. set (ti1 := if 0 <=? tcb_socknum t then _ else ti).
  assert (E1 : ti_tcblist ti1 = ti_tcblist ti /\ ti_onqueue ti1 = ti_onqueue ti /\ ti_ipinfo ti1 = ti_ipinfo ti /\ kmempool ti1 = kmempool ti /\ (tcb_socknum t < 0 -> ti_ports ti1 = ti_ports ti)).
  { unfold ti1. destruct (Z.leb_spec 0 (tcb_socknum t)); repeat split; lia. }
  destruct E1 as (E1 & E2 & E3 & E4 & E5). clearbody ti1. cbn [kmempool set_list]. rewrite E4. change (tcb_txbuf (set_socknum t (-1))) with (tcb_txbuf t). change (tcb_rxbuf (set_socknum t (-1))) with (tcb_rxbuf t).
  destruct (tmb_free_ok _ _ _ H1 H2) as (pool1 & -> & P1). cbn [option_bind].
  destruct (tmb_free_ok pool1 _ (tcb_rxbuf t) P1) as (pool2 & -> & P2); [rewrite lookup_delete_ne by (intros E; apply N1; auto); done|]. cbn [option_bind].
  destruct H4 as [x Hx]. destruct (kfree_spec pool2 _ p x P2) as (pool3 & -> & P3 & _).
  { rewrite !lookup_delete_ne; [done|intros E; apply N1; auto|intros E; apply N2; auto]. }
  cbn [option_bind]. eexists _, _. split; [reflexivity|]. split; [apply lookup_insert_eq|]. split; [done|]. split; [done|]. split; [exact P3|]. cbn. rewrite E1, E2. done.
Qed.

(** A control block on which packets have been exchanged as they should. *)
Record sound (src : bytes) (ti : tcp) (p : Z) (t : tcb) (live : blocks) : Prop := {
  sd_tcb : get_tcb ti p = Some t;
  sd_ip : rec_ok src (ti_ipinfo ti);
  sd_peer : length (tcb_peeraddr t) = 4%nat;
  sd_mtu : 0 < tcb_mtu t <= 1400;
  sd_tx : tmb_ok TCP_BUF_SIZE (tcb_txbuf t);
  sd_rx : tmb_ok TCP_BUF_SIZE (tcb_rxbuf t);
  sd_order : 0 <= TCPSEQ_DIFF (tcb_sendnext t) (tcb_sendunack t) <= 2 ^ 30;
  sd_owns : owns (kmempool ti) p t live
}.

(** The last acknowledgement of a closed connection gives its memory back. *)
Definition last_ack (s : Z) (n : seen) : bool := negb (sn_rst n) && (s =? TCPSTATE_LAST_ACK) && sn_one n.

Definition released (ti ti' : tcp) (p : Z) (t : tcb) (live : blocks) : Prop :=
  pool_ok (kmempool ti') (given_back p t live) /\ ti_tcblist ti' = filter (fun q => q <> p) (ti_tcblist ti) /\ ti_onqueue ti' = ti_onqueue ti - 1.

Definition keeps (ti ti' : tcp) : Prop :=
  kmempool ti' = kmempool ti /\ ti_tcblist ti' = ti_tcblist ti /\ ti_onqueue ti' = ti_onqueue ti.

Lemma with_tcb_runs src (ti : tcp) p t f (P : tcb -> Prop) : get_tcb ti p = Some t -> runs src (f (cfe_ticks ti) (ti_ipinfo ti) t) P ->
  exists ti' t', with_tcb ti p f = Some ti' /\ get_tcb ti' p = Some t' /\ P t' /\ keeps ti ti' /\ ti_ports ti' = ti_ports ti.
Proof.
  intros Ht (t' & r' & E & _ & HP). unfold with_tcb. rewrite Ht. cbn [option_bind]. rewrite E. cbn [option_bind]. eexists _, t'. split; [reflexivity|].
  split; [apply lookup_insert_eq|]. done.
Qed.

(** C12 What a packet does to its connection is what the table [rx_next] says, and every packet
    comes to an end: for a control block with its buffers and at most 2^30 numbers outstanding,
    and a packet that in ESTABLISHED and FINWAIT_1 acknowledges nothing beyond what was sent
    last, whatever its flags, numbers and contents, the processing returns (whether packet
    buffers can be had or not), the state is the one of the table, and the memory of the
    connection is given back exactly when the last acknowledgement has come.  The table is the
    protocol's with the liberties of the code: a reset is believed in any state, a FIN without
    text whatever its number, FINWAIT_1 takes a FIN with an acknowledgement of anything for
    the end of both directions, and CLOSING and LAST_ACK do not look at the flag of the
    acknowledgement. *)
Theorem tcp_rx_next src ti p t live g srcaddr buf : sound src ti p t live -> arrives t g srcaddr buf ->
  let n := seen_of t g (eb_length buf) in
  exists ti' t', rx_tcb ti p g srcaddr buf = Some ti' /\ get_tcb ti' p = Some t' /\ tcb_state t' = rx_next (tcb_state t) n /\
    if last_ack (tcb_state t) n then released ti ti' p t live else keeps ti ti'.
Proof.
  intros [S1 S2 S3 S4 S5 S6 S7 S8] Hg n. unfold rx_tcb. rewrite S1. cbn [option_bind]. set (t1 := if TCPSTATE_IN_SET _ _ then _ else t).
  assert (E1 : exists k, t1 = set_timer_keep t k) by (unfold t1; destruct (TCPSTATE_IN_SET _ _); [by eexists|exists (tcb_timer_keep t); by destruct t]).
  destruct E1 as (k & E1). clearbody t1. subst t1. fold (has g TCPFLG_RST). set (s := tcb_state t) in *. change (tcb_state (set_timer_keep t k)) with s.
  unfold rx_next, last_ack. change (sn_rst n) with (has g TCPFLG_RST). destruct (has g TCPFLG_RST) eqn:Hrst.
  { eexists _, _. split; [reflexivity|]. split; [apply lookup_insert_eq|]. split; [by destruct (s =? TCPSTATE_SYN_RECEIVED)|done]. }
  set (t1 := set_sendwindow (set_timer_keep t k) (sg_window g)). assert (Ho : outable t1) by (destruct Hg; split; try done; apply S7).
  assert (Hg1 : arrives t1 g srcaddr buf) by (by destruct Hg).
  rewrite take_ge by (rewrite (ar_addr _ _ _ _ Hg); done).
  pose proof (rx_state_comes src (cfe_ticks ti) (ti_ipinfo ti) t1 g srcaddr buf S2 Ho S6 (proj2 S7) Hg1 Hrst) as Hc.
  change (seen_of t1 g (eb_length buf)) with n in Hc. change (tcb_state t1) with s in Hc. unfold rx_next in Hc. change (sn_rst n) with (has g TCPFLG_RST) in Hc. rewrite Hrst in Hc.
  cbn [negb andb]. destruct (rx_state _ _ _ _ _ _ _ _ _) as [[t2 r2|t2 r2|t2 r2]|]; [..|done]; cbn [option_bind].
  - destruct Hc as (Hr2 & Hs2 & ->). eexists _, t2. split; [reflexivity|]. split; [apply lookup_insert_eq|]. done.
  - destruct Hc as (Hr2 & Ho2 & Hs2 & ->). destruct (with_tcb_runs src (set_ipinfo (put_tcb ti p t2) r2) p t2 rx_finish (fun t' => tcb_state t' = tcb_state t2)) as (ti' & t' & -> & G1 & G2 & G3 & _);
      [apply lookup_insert_eq|by apply finish_runs|]. exists ti', t'. rewrite G2. done.
  - destruct Hc as (Hr2 & -> & Hs2 & ->). set (ti2 := set_ipinfo _ r2). destruct (freetcb_ok ti2 p (_tcp_closetcb t1) live) as (ti3 & t3 & -> & G1 & G2 & _ & G3 & G4 & G5 & G6 & _ & G7 & G8).
    { apply lookup_insert_eq. } { by destruct S8. }
    cbn [option_bind]. destruct (with_tcb_runs src ti3 p t3 rx_finish (fun t' => tcb_state t' = tcb_state t3)) as (ti' & t' & -> & F1 & F2 & (F3 & F4 & F5) & _); [done| |].
    { unfold rx_finish. rewrite G8. change (tcb_flags (_tcp_closetcb t1)) with 0. change (truthy (Z.land 0 TCB_FLG_OUTPUT)) with false. cbv iota. cbn [option_bind]. rewrite G8.
      change (truthy (Z.land 0 TCB_FLG_SENDMSG)) with false. rewrite G6. by apply runs_same. }
    exists ti', t'. split; [done|]. split; [done|]. split; [by rewrite F2, G2, <- Hs2|]. unfold released. by rewrite F3, F4, F5, G4, G5.
Qed.

(** * Closing *)

Lemma protosend_socknum (r r' : rip) t t' : _tcp_protosend r t = Some (t', r') -> tcb_socknum t' = tcb_socknum t.
Proof.
  unfold _tcp_protosend. intros E. destruct (ip_alloc r) as [[[b|] ip1]|]; [|by injection E as <- _|discriminate E].
  cbn zeta in E. peel E. injection E as <- _. goal_if; reflexivity.
Qed.

Lemma unset_socket (ti : tcp) s o : socket_at ti s = Some o -> socket_at (set_sockets ti (<[Z.to_nat s := None]> (ti_ports ti))) s = Some None.
Proof.
  unfold socket_at. destruct (0 <=? s); [|done]. cbn [ti_ports set_sockets]. intros E. apply list_lookup_insert_eq. by apply lookup_lt_Some in E.
Qed.

(** The states of a connection that has not begun. *)
Definition idle (s : Z) : bool := (s =? TCPSTATE_CLOSED) || (s =? TCPSTATE_LISTEN) || (s =? TCPSTATE_SYN_SENT).

(** What closing does to the control block. *)
Definition closes (ti ti' : tcp) (p : Z) (t : tcb) (live : blocks) (s' : Z) : Prop :=
  exists t', get_tcb ti' p = Some t' /\ tcb_socknum t' = -1 /\ tcb_state t' = s' /\
    if idle (tcb_state t) then released ti ti' p t live else keeps ti ti'.

Lemma close_finish src (ti : tcp) p t live state : get_tcb ti p = Some t -> rec_ok src (ti_ipinfo ti) -> length (tcb_peeraddr t) = 4%nat -> tcb_socknum t = -1 -> idle (tcb_state t) = false ->
  exists ti', with_tcb ti p (fun ticks ip t => _tcp_sendctlmsg ticks ip (_tcp_setstate t state) (Z.lor TCPFLG_ACK TCPFLG_FIN) TCP_RETX_TIMER) = Some ti' /\
    ti_ports ti' = ti_ports ti /\ closes ti ti' p t live state.
Proof.
  intros Ht Hr Hp Hn Hi. destruct (with_tcb_runs src ti p t (fun ticks ip t => _tcp_sendctlmsg ticks ip (_tcp_setstate t state) (Z.lor TCPFLG_ACK TCPFLG_FIN) TCP_RETX_TIMER)
    (fun t' => tcb_socknum t' = -1 /\ tcb_state t' = state) Ht) as (ti' & t' & -> & G1 & (G2 & G3) & G4 & G5).
  - apply sendctl_runs; [done|done|]. intros retx. cbv beta zeta. unfold ctl_sent. by destruct (truthy _).
  - exists ti'. split; [done|]. split; [done|]. exists t'. by rewrite Hi.
Qed.

Lemma close_free (ti : tcp) p t live : get_tcb ti p = Some t -> owns (kmempool ti) p t live -> tcb_socknum t = -1 -> idle (tcb_state t) = true ->
  exists ti', _tcp_freetcb (put_tcb ti p (_tcp_closetcb t)) p = Some ti' /\ ti_ports ti' = ti_ports ti /\ closes ti ti' p t live TCPSTATE_CLOSED.
Proof.
  intros Ht Ho Hn Hi. destruct (freetcb_ok (put_tcb ti p (_tcp_closetcb t)) p (_tcp_closetcb t) live) as (ti' & t' & E & G1 & G2 & G3 & G4 & G5 & G6 & _ & G7 & _); [apply lookup_insert_eq|by destruct Ho|].
  exists ti'. split; [done|]. split; [apply G7; cbn; lia|]. exists t'. by rewrite Hi.
Qed.

(** The switch of [_tcp_close]. *)
Lemma closing (A : Type) (st : Z) (a b c d : A) (P : A -> Prop) : 0 <= st <= TCPSTATE_TIME_WAIT ->
  (close_edge st TCPSTATE_FINWAIT_1 -> idle st = false -> P a) -> (close_edge st TCPSTATE_CLOSED -> idle st = true -> P b) ->
  (close_edge st TCPSTATE_LAST_ACK -> idle st = false -> P c) -> (close_edge st st -> idle st = false -> P d) ->
  P (if (st =? TCPSTATE_SYN_RECEIVED) || (st =? TCPSTATE_ESTABLISHED) then a
     else if (st =? TCPSTATE_CLOSED) || (st =? TCPSTATE_LISTEN) || (st =? TCPSTATE_SYN_SENT) then b
     else if st =? TCPSTATE_CLOSE_WAIT then c else d).
Proof.
  intros Hr Ha Hb Hc Hd. fold (idle st).
  destruct (Z.eqb_spec st TCPSTATE_SYN_RECEIVED) as [->|N1]; [by apply Ha; [constructor; auto|]|].
  destruct (Z.eqb_spec st TCPSTATE_ESTABLISHED) as [->|N2]; [by apply Ha; [constructor; auto|]|]. cbn [orb].
  destruct (idle st) eqn:Hi; [apply Hb; [|done]; apply close_idle; unfold idle in Hi; rewrite !orb_true_iff, !Z.eqb_eq in Hi; tauto|].
  destruct (Z.eqb_spec st TCPSTATE_CLOSE_WAIT) as [->|N6]; [by apply Hc; [constructor|]|].
  unfold idle in Hi. rewrite !orb_false_iff, !Z.eqb_neq in Hi. destruct Hi as [[N3 N4] N5].
  apply Hd; [|done]. apply close_again. unfold TCPSTATE_SYN_RECEIVED, TCPSTATE_ESTABLISHED, TCPSTATE_CLOSED, TCPSTATE_LISTEN, TCPSTATE_SYN_SENT, TCPSTATE_CLOSE_WAIT, TCPSTATE_FINWAIT_1, TCPSTATE_TIME_WAIT in *. lia.
Qed.

(** C32 Closing a socket follows the diagram and gives the socket up: for a socket whose control
    block has its buffers, the call returns 0; a connection that is open goes on to FINWAIT_1,
    one that the peer has closed to LAST_ACK, with nothing freed, and one that is idle is closed,
    taken off the list, and its block and both buffers are given back to the allocator, which
    loses nothing else; the slot of the socket is free, and closing it again is an error. *)
Theorem tcp_close_edges src (ti : tcp) s p t live : socket_at ti s = Some (Some p) -> sound src ti p t live -> 0 <= tcb_state t <= TCPSTATE_TIME_WAIT ->
  exists ti' s', _tcp_close ti s = Some (0, ti') /\ socket_at ti' s = Some None /\ _tcp_close ti' s = Some (CFE_ERR_INV_PARAM, ti') /\
    close_edge (tcb_state t) s' /\ closes ti ti' p t live s'.
Proof.
  intros Hs [S1 S2 S3 S4 S5 S6 S7 S8] Hr. assert (Hc : exists ti' s', _tcp_close ti s = Some (0, ti') /\ socket_at ti' s = Some None /\ close_edge (tcb_state t) s' /\ closes ti ti' p t live s').
  2:{ destruct Hc as (ti' & s' & E & H1 & H2). exists ti', s'. split; [done|]. split; [done|]. split; [|done]. unfold _tcp_close. by rewrite H1. }
  unfold _tcp_close. rewrite Hs. cbn [option_bind]. set (ti1 := set_sockets ti _).
  assert (Hs1 : socket_at ti1 s = Some None) by (by eapply unset_socket). change (get_tcb ti1 p) with (get_tcb ti p). rewrite S1. cbn [option_bind].
  set (t1 := set_socknum t (-1)). change (tcb_state t1) with (tcb_state t). assert (Hp : get_tcb (put_tcb ti1 p t1) p = Some t1) by apply lookup_insert_eq. set (ti2 := put_tcb ti1 p t1) in *.
  assert (Hsock : forall ti' : tcp, ti_ports ti' = ti_ports ti2 -> socket_at ti' s = Some None) by (intros ti' E; rewrite <- Hs1; unfold socket_at; by rewrite E).
  match goal with |- context [match ?x with Some _ => _ | None => _ end] => assert (HX : exists ti' s', x = Some ti' /\ ti_ports ti' = ti_ports ti2 /\ close_edge (tcb_state t) s' /\ closes ti2 ti' p t1 live s') end.
  { apply closing; [done|intros He Hi..].
    - destruct (close_finish src ti2 p t1 live TCPSTATE_FINWAIT_1) as (ti' & E & H1 & H2); [done..|]. by exists ti', TCPSTATE_FINWAIT_1.
    - destruct (close_free ti2 p t1 live) as (ti' & E & H1 & H2); [done|by destruct S8|done..|]. by exists ti', TCPSTATE_CLOSED.
    - destruct (close_finish src ti2 p t1 live TCPSTATE_LAST_ACK) as (ti' & E & H1 & H2); [done..|]. by exists ti', TCPSTATE_LAST_ACK.
    - exists ti2, (tcb_state t). split; [done|]. split; [done|]. split; [done|]. exists t1. change (tcb_state t1) with (tcb_state t). by rewrite Hi. }
  destruct HX as (ti' & s' & -> & H1 & H2 & H3). cbn [option_bind]. exists ti', s'. split; [done|]. split; [by apply Hsock|]. done.
Qed.
End rx.

(** * Two witnesses, and what the code does besides the protocol *)

Definition ex_tcb (ti : tcp_info (W := recorded ip_info)) : tcb := default zero_tcb (get_tcb ti (ex_p ti)).
Definition ex_ip (ti : tcp_info (W := recorded ip_info)) : recorded ip_info := ti_ipinfo ti.
Definition ex_with (ti : tcp_info (W := recorded ip_info)) (f : tcb -> tcb) : tcp_info := put_tcb ti (ex_p ti) (f (ex_tcb ti)).
Definition ex_seg (seq ack flags : Z) : segment := Seg 23 2024 seq ack (Z.lor flags (TCPHDRFLG 20)) 1000.
Definition ex_rx (ti : tcp_info (W := recorded ip_info)) (g : segment) (data : bytes) : option tcp_info :=
  rx_tcb ti (ex_p ti) g [10; 0; 0; 2] (ex_buf data).
(** The state of the block and the number of packets sent. *)
Definition ex_view (r : option (tcp_info (W := recorded ip_info))) : option (Z * nat) :=
  match r with Some ti => Some (tcb_state (ex_tcb ti), length (sent_of ti)) | None => None end.

Lemma is_some {A} (o : option A) (P : A -> Prop) : match o with Some x => P x | None => False end -> exists x, o = Some x /\ P x.
Proof. destruct o as [x|]; [intros H; by exists x|done]. Qed.

(** The memory of the first host: a block and two buffers. *)
Definition ex_mops : list mop := [Kmalloc sizeof_tcb 0; Kmalloc TCP_BUF_SIZE 0; Kmalloc TCP_BUF_SIZE 0].
Definition ex_live : blocks := match mrun ex_mops (kmeminit 4096 1000000, ∅) with Some (_, live) => live | None => ∅ end.

Lemma some_pair {A B} (a c : A) (b d : B) : Some (a, b) = Some (c, d) -> a = c /\ b = d.
Proof. by intros [= -> ->]. Qed.

Lemma ex_mops_ok : Forall mop_ok ex_mops.
Proof. repeat (constructor; [split; [unfold sizeof_tcb, TCP_BUF_SIZE; lia|by left]|]). constructor. Qed.

Lemma ex_pool : mrun ex_mops (kmeminit 4096 1000000, ∅) = Some (kmempool ex_tia2, ex_live).
Proof. vm_compute. reflexivity. Qed.

Definition ex_has (p : Z) : bool := match ex_live !! p with Some _ => true | None => false end.
Lemma ex_shape_live : match get_tcb ex_tia2 (ex_p ex_tia) with
  | Some t => let l := [tmb_ptr (tcb_txbuf t); tmb_ptr (tcb_rxbuf t); ex_p ex_tia] in forallb ex_has l && bool_decide (NoDup l)
  | None => false
  end = true.
Proof. vm_compute. reflexivity. Qed.

Lemma ex_has_some p : ex_has p = true -> is_Some (ex_live !! p).
Proof. unfold ex_has. destruct (ex_live !! p); [by eexists|done]. Qed.

Lemma ex_sound : exists t, sound [10; 0; 0; 1] ex_tia2 (ex_p ex_tia) t ex_live /\ tcb_state t = TCPSTATE_ESTABLISHED /\
  tcb_sendnext t = 305419897 /\ tcb_sendunack t = 305419897 /\ tcb_rcvnext t = 1.
Proof.
  assert (Ho : opens ex_ea ex_eb ex_ca ex_cb ex_tia ex_tib).
  { apply (handshake_ok ex_ea ex_eb ex_ca ex_cb ex_tia ex_tib ex_link); [apply ex_a_ok|apply ex_a_ok|apply ex_b_ok|apply ex_b_ok|apply ex_iss|apply ex_iss|reflexivity]. }
  destruct (ex_opened Ho) as [_ [_ _ Hip (t & Ht & E)] _ _ _ _]. pose proof ex_shape_live as Hl. change (c_tcb ex_ca) with (ex_p ex_tia) in Ht. change (n_ti _) with ex_tia2 in *. rewrite Ht in Hl.
  cbn [forallb] in Hl. rewrite !andb_true_iff, bool_decide_eq_true in Hl. destruct Hl as [(L1 & L2 & L3 & _) Hnd]. exists t. destruct E.
  split; [|split; [exact es_state|split; [rewrite es_sendnext; reflexivity|split; [rewrite es_sendunack; reflexivity|rewrite es_rcvnext; reflexivity]]]].
  split; [exact Ht|exact Hip|rewrite es_peer; reflexivity|lia|exact es_tx|exact es_rx|rewrite es_sendnext, es_sendunack; vm_compute; split; discriminate|].
  destruct (mrun_spec ex_mops (kmeminit 4096 1000000) ∅) as (pool & live & Er & Hp & _); [apply kmeminit_ok; unfold sizeof_memnode; lia|exact ex_mops_ok|].
  rewrite ex_pool in Er. apply some_pair in Er as [<- <-]. split; [exact Hp|apply ex_has_some, L1|apply ex_has_some, L2|apply ex_has_some, L3|exact Hnd].
Qed.

Lemma ex_arrives t g data : tcb_state t = TCPSTATE_ESTABLISHED -> tcb_sendnext t = sg_acknum g -> 0 <= sg_acknum g < 2 ^ 32 -> 0 <= sg_window g < 65536 -> slen data <= 1400 ->
  arrives t g [10; 0; 0; 2] (ex_buf data).
Proof. intros H1 H2 H3 H4 H5. split; [by apply ex_buf_ok|done|done|done|]. intros _ _. rewrite H2. unfold TCPSEQ_DIFF. by rewrite Z.sub_diag. Qed.

Lemma tcp_rx_next_witness : exists ti' t', ex_rx ex_tia2 (ex_seg 1 305419897 (Z.lor TCPFLG_ACK TCPFLG_FIN)) [104; 105] = Some ti' /\
  get_tcb ti' (ex_p ex_tia) = Some t' /\ tcb_state t' = TCPSTATE_CLOSE_WAIT /\ keeps ex_tia2 ti'.
Proof.
  destruct ex_sound as (t & Hs & H1 & H2 & H3 & H4). set (g := ex_seg 1 305419897 (Z.lor TCPFLG_ACK TCPFLG_FIN)).
  destruct (tcp_rx_next _ _ _ t _ g [10; 0; 0; 2] (ex_buf [104; 105]) Hs) as (ti' & t' & E & G1 & G2 & G3);
    [apply ex_arrives; [exact H1|exact H2|cbn; lia|cbn; lia|unfold slen; cbn; lia]|].
  exists ti', t'. unfold last_ack in G3. unfold seen_of in G2, G3. rewrite H1, H3, H4 in G2. rewrite H1 in G3. split; [exact E|]. split; [exact G1|]. split; [exact G2|exact G3].
Defined.

Lemma tcp_close_edges_witness : exists ti' s', _tcp_close ex_tia2 0 = Some (0, ti') /\ socket_at ti' 0 = Some None /\ close_edge TCPSTATE_ESTABLISHED s'.
Proof.
  assert (Hs : socket_at ex_tia2 0 = Some (Some (ex_p ex_tia))) by (vm_compute; reflexivity).
  destruct ex_sound as (t & Ht & H1 & _).
  assert (Hr : 0 <= tcb_state t <= TCPSTATE_TIME_WAIT) by (rewrite H1; unfold TCPSTATE_ESTABLISHED, TCPSTATE_TIME_WAIT; lia).
  destruct (tcp_close_edges _ _ 0 _ t _ Hs Ht Hr) as (ti' & s' & E & G1 & _ & G2 & _). exists ti', s'. rewrite <- H1. split; [exact E|]. split; [exact G1|exact G2].
Defined.

(** In FINWAIT_1 a FIN with an acknowledgement of anything ends both directions. *)
Definition ex_finwait : tcp_info := ex_snd (_tcp_close ex_tia2 0) ex_tia2.
Example tcp_fin_unacked : ex_view (Some ex_finwait) = Some (TCPSTATE_FINWAIT_1, 3%nat) /\
  ex_view (ex_rx ex_finwait (ex_seg 1 305419897 (Z.lor TCPFLG_ACK TCPFLG_FIN)) []) = Some (TCPSTATE_TIME_WAIT, 4%nat).
Proof. split; vm_compute; reflexivity. Qed.

(** A reset is believed whatever its sequence number, in a listening socket too. *)
Example tcp_reset_believed :
  option_map (fun ti => tcb_state (ex_tcb ti)) (rx_tcb ex_tib0 (ex_p ex_tib0) (Seg 2024 23 99999 0 (Z.lor TCPFLG_RST (TCPHDRFLG 20)) 1000) [10; 0; 0; 1] (ex_buf [])) = Some TCPSTATE_CLOSED.
Proof. vm_compute. reflexivity. Qed.

(** After a retransmission has gone back to the oldest byte, an acknowledgement of more than
    what was sent again leaves the next number behind the oldest byte: the copy that builds
    the next packet then starts before the buffer. *)
Example tcp_ack_overtakes :
  let t := ex_tcb ex_tia2 in
  let t := set_sendwindow (set_txbuf t (Tmb (tmb_ptr (tcb_txbuf t)) (tmb_buf (tcb_txbuf t)) 65536 (65000 + 3000 - 65536) 65000 3000)) 5000 in
  match _tcp_procack 0 t (tcb_sendunack t + 1400) TCPFLG_ACK with
  | Some t => (tcb_sendunack t - tcb_sendnext t, match _tcp_output 0 (ex_ip ex_tia2) t with None => true | Some _ => false end)
  | None => (0, false)
  end = (1400, true).
Proof. vm_compute. reflexivity. Qed.

(** A FIN is believed whatever its sequence number. *)
Example tcp_fin_out_of_sequence : ex_view (ex_rx ex_tia2 (ex_seg 99999 305419897 (Z.lor TCPFLG_ACK TCPFLG_FIN)) []) = Some (TCPSTATE_CLOSE_WAIT, 3%nat).
Proof. vm_compute. reflexivity. Qed.

(** When data are unacknowledged as the socket is closed, the acknowledgement of the data and
    of the FIN is not taken. *)
Definition ex_closing : tcp_info := ex_snd (_tcp_close (ex_snd (_tcp_send ex_tia2 0 [1; 2; 3] 3) ex_tia2) 0) ex_tia2.
Example tcp_fin_after_data : ex_view (Some ex_closing) = Some (TCPSTATE_FINWAIT_1, 4%nat) /\
  ex_view (ex_rx ex_closing (ex_seg 1 (305419897 + 4) TCPFLG_ACK) []) = Some (TCPSTATE_FINWAIT_1, 4%nat).
Proof. split; vm_compute; reflexivity. Qed.

(** What is sent in CLOSE_WAIT stays unacknowledged. *)
Definition ex_waiting : tcp_info :=
  match ex_rx ex_tia2 (ex_seg 1 305419897 (Z.lor TCPFLG_ACK TCPFLG_FIN)) [] with Some ti => ex_snd (_tcp_send ti 0 [1; 2; 3] 3) ti | None => ex_tia2 end.
Example tcp_close_wait_unacked : ex_view (Some ex_waiting) = Some (TCPSTATE_CLOSE_WAIT, 4%nat) /\
  option_map (fun ti => tmb_len (tcb_txbuf (ex_tcb ti))) (ex_rx ex_waiting (ex_seg 2 (305419897 + 3) TCPFLG_ACK) []) = Some 3.
Proof. split; vm_compute; reflexivity. Qed.

(** The answer to a repeated SYN has the sequence number 1, although the first had 0. *)
Example tcp_syn_ack_renumbered :
  take 4 (drop 4 (ex_q ex_tib1 0).2) = be32 0 /\
  option_map (fun ti => take 4 (drop 4 (ex_q ti 1).2)) (rx_tcb ex_tib1 (ex_p ex_tib1) (Seg 2024 23 305419896 0 (Z.lor TCPFLG_SYN (TCPHDRFLG 20)) 1000) [10; 0; 0; 1] (ex_buf [])) =
    Some (be32 1).
Proof. split; vm_compute; reflexivity. Qed.

(** A listening socket whose connection was reset is listening still, but not found. *)
Example tcp_listener_lost :
  match rx_tcb ex_tib1 (ex_p ex_tib1) (Seg 2024 23 305419897 1 (Z.lor TCPFLG_RST (TCPHDRFLG 20)) 1000) [10; 0; 0; 1] (ex_buf []) with
  | Some ti => Some (tcb_state (ex_tcb ti), _tcp_find_tcb ti 2025 23 [10; 0; 0; 1])
  | None => None
  end = Some (TCPSTATE_LISTEN, Some None).
Proof. vm_compute. reflexivity. Qed.

(** A repeated SYN of the other end is not acknowledged once the connection is established. *)
Example tcp_syn_ack_repeated : ex_view (ex_rx ex_tia2 (ex_seg 0 305419897 (Z.lor TCPFLG_SYN TCPFLG_ACK)) []) = Some (TCPSTATE_ESTABLISHED, 2%nat).
Proof. vm_compute. reflexivity. Qed.
