(* ===== verification/Udp.v ===== *)
(** UDP of the boot loader: cfe/cfe/net/net_udp.c.

    Sockets with their queues of received datagrams, sending and receiving with the
    checksum, over the class [IpLayer] of the calls into IP. *)

From S2P Require Import Prelude Ether Ip IpApi.
From Stdlib Require Import ZArith Lia Bool List String.
From stdpp Require Import base numbers list.

#[local] Open Scope Z_scope.

Definition UDP_HDR_LENGTH := 8.
Definition UDP_PORTBASE := 1024.
Definition UDP_MAX_PORTS : nat := 4.
Definition IPPROTO_UDP := 17.
Definition CFE_ERR_ALREADYBOUND := -26.

(** A datagram that was received: the buffer, and its field [eb_usrdata], the port of the
    sender.  The field [eb_usrptr] points into a frame of the stack that is gone by the time
    anyone reads it, so it has no value here. *)
Record datagram := Dg { dg_buf : ebuf; eb_usrdata : Z }.

Record udp_port := UPort {
  up_destport : Z;
  up_srcport : Z;
  up_rxqueue : list datagram;
  up_maxqueue : Z;
  up_inuse : bool
}.

(** Without [ui_portbase] and [ui_ref], which nothing reads. *)
Record udp_info (W : Type) := Ui { ui_ipinfo : W; ui_ports : list udp_port }.
Arguments Ui {W}.
Arguments ui_ipinfo {W}.
Arguments ui_ports {W}.

Definition set_srcport (u : udp_port) (v : Z) : udp_port := UPort (up_destport u) v (up_rxqueue u) (up_maxqueue u) (up_inuse u).
Definition set_destport (u : udp_port) (v : Z) : udp_port := UPort v (up_srcport u) (up_rxqueue u) (up_maxqueue u) (up_inuse u).
Definition set_rxqueue (u : udp_port) (q : list datagram) : udp_port := UPort (up_destport u) (up_srcport u) q (up_maxqueue u) (up_inuse u).

(** The twelve bytes that the checksum covers besides the datagram. *)
Definition udp_pseudoheader (src dst : bytes) (len : Z) : bytes :=
  src ++ dst ++ [0; IPPROTO_UDP; Z.land (Z.shiftr len 8) 0xFF; Z.land len 0xFF].

Section udp.
Context {W : Type} `{IpLayer W}.
Abbreviation udp_info := (udp_info W).

Definition set_ip (ui : udp_info) (ip : W) : udp_info := Ui ip (ui_ports ui).
Definition set_udp_ports (ui : udp_info) (p : list udp_port) : udp_info := Ui (ui_ipinfo ui) p.

(** The table of ports; an index outside it is undefined. *)
Definition udp_at (ui : udp_info) (s : Z) : option udp_port := assert! (0 <=? s) in ui_ports ui !! Z.to_nat s.
Definition put_udp (ui : udp_info) (s : Z) (u : udp_port) : udp_info := set_udp_ports ui (<[Z.to_nat s := u]> (ui_ports ui)).

Fixpoint find_loop (i : Z) (ports : list udp_port) (f : udp_port -> bool) : option Z :=
  match ports with
  | [] => None
  | u :: ports => if f u then Some i else find_loop (i + 1) ports f
  end.

Definition _udp_find_port (ui : udp_info) (port : Z) : option Z :=
  find_loop 0 (ui_ports ui) (fun u => up_inuse u && (up_srcport u =? port)).

Fixpoint unused_srcport (fuel : nat) (ui : udp_info) (srcport : Z) : option Z :=
  match _udp_find_port ui srcport with
  | None => Some srcport
  | Some _ =>
      match fuel with
      | O => None
      | S fuel =>
          let srcport := wrap16 (srcport + 1) in
          unused_srcport fuel ui (if UDP_PORTBASE + 4096 <? srcport then UDP_PORTBASE else srcport)
      end
  end.

(** [ticks] is the cycle counter. *)
Definition _udp_socket (ui : udp_info) (port ticks : Z) : option (Z * udp_info) :=
  let? srcport := unused_srcport UDP_MAX_PORTS ui (wrap16 (UDP_PORTBASE + Z.land ticks 0xFFF)) in
  match find_loop 0 (ui_ports ui) (fun u => negb (up_inuse u)) with
  | None => Some (CFE_ERR_NOHANDLES, ui)
  | Some idx => Some (idx, put_udp ui idx (UPort port srcport [] 2 true))
  end.

Definition _udp_close (ui : udp_info) (s : Z) : option udp_info :=
  let? u := udp_at ui s in
  let ip := fold_left (fun ip d => ip_free ip (dg_buf d)) (up_rxqueue u) (ui_ipinfo ui) in
  Some (put_udp (set_ip ui ip) s (UPort 0 0 [] 0 false)).

Definition _udp_send (ui : udp_info) (s : Z) (buf : ebuf) (dest : bytes) : option (Z * udp_info) :=
  let? u := udp_at ui s in
  let udplen := sint32 (eb_length buf + UDP_HDR_LENGTH) in
  let pseudoheader := udp_pseudoheader (ip_getaddr (ui_ipinfo ui)) (take 4 dest) udplen in
  let buf := ebuf_seek buf (- UDP_HDR_LENGTH) in
  let udphdr := eb_ptr buf in
  let? buf := ebuf_put_u16_be buf (up_srcport u) in
  let? buf := ebuf_put_u16_be buf (up_destport u) in
  let? buf := ebuf_put_u16_be buf udplen in
  let? buf := ebuf_put_u16_be buf 0 in
  let buf := ebuf_prepend buf UDP_HDR_LENGTH in
  let? cksum := ip_chksum 0 pseudoheader in
  let? cksum := chksum_at cksum buf udphdr udplen in
  let cksum := not16 cksum in
  let cksum := if cksum =? 0 then 0xFFFF else cksum in
  let? buf := eb_write buf (udphdr + 6) [Z.land (Z.shiftr cksum 8) 0xFF; Z.land cksum 0xFF] in
  let? ip := ip_send (ui_ipinfo ui) buf dest IPPROTO_UDP in
  Some (0, set_ip ui ip).

Definition _udp_bind (ui : udp_info) (s port : Z) : option (Z * udp_info) :=
  let? u := udp_at ui s in
  match _udp_find_port ui port with
  | Some _ => Some (CFE_ERR_ALREADYBOUND, ui)
  | None => Some (0, put_udp ui s (set_srcport u port))
  end.

Definition _udp_connect (ui : udp_info) (s port : Z) : option (Z * udp_info) :=
  let? u := udp_at ui s in Some (0, put_udp ui s (set_destport u port)).

(** The checks of the checksum: the buffer, with the checksum zeroed if it was there, and
    whether it is good. *)
Definition udp_checked (buf : ebuf) (destaddr srcaddr : bytes) : option (bool * ebuf) :=
  let udplen := sint32 (eb_length buf) in
  let udphdr := eb_ptr buf in
  let? ck := eb_read buf (udphdr + 6) 2 in
  let origcksum := of_be ck in
  if truthy origcksum then
    let? buf := eb_write buf (udphdr + 6) [0; 0] in
    let? calccksum := ip_chksum 0 (udp_pseudoheader (take 4 srcaddr) (take 4 destaddr) udplen) in
    let? calccksum := chksum_at calccksum buf udphdr udplen in
    let calccksum := if calccksum =? 0xFFFF then calccksum else not16 calccksum in
    Some (calccksum =? origcksum, buf)
  else Some (true, buf).

Definition _udp_rx_callback (ui : udp_info) (buf : ebuf) (destaddr srcaddr : bytes) : option (rx_result * udp_info) :=
  let udplen := sint32 (eb_length buf) in
  let? (good, buf) := udp_checked buf destaddr srcaddr in
  if negb good then Some (Dropped buf, ui)
  else
    let? (srcport, buf) := ebuf_get_u16_be buf in
    let? (dstport, buf) := ebuf_get_u16_be buf in
    let? (udplen2, buf) := ebuf_get_u16_be buf in
    let buf := ebuf_skip buf 2 in
    if negb (udplen2 =? wrap16 udplen) then Some (Dropped buf, ui)
    else
      match _udp_find_port ui dstport with
      | None => Some (Dropped buf, ui)
      | Some s =>
          let? u := udp_at ui s in
          if up_maxqueue u <=? Z.of_nat (length (up_rxqueue u)) then Some (Dropped buf, ui)
          else
            let buf := ebuf_setlength buf (udplen2 - UDP_HDR_LENGTH) in
            Some (Kept, put_udp ui s (set_rxqueue u (up_rxqueue u ++ [Dg buf srcport])))
      end.

Definition _udp_recv (ui : udp_info) (s : Z) : option (option datagram * udp_info) :=
  let? u := udp_at ui s in
  match up_rxqueue u with
  | [] => Some (None, ui)
  | d :: q => Some (Some d, put_udp ui s (set_rxqueue u q))
  end.

(** [got] is whether KMALLOC gave the structure. *)
Definition udp_rx_cb := 4.
Definition _udp_init (ip : W) (got : bool) (info : Z) : option udp_info :=
  if negb got then None
  else Some (Ui (ip_register ip IPPROTO_UDP udp_rx_cb info) (replicate UDP_MAX_PORTS (UPort 0 0 [] 0 false))).

Definition _udp_uninit (ui : udp_info) : W :=
  let ip := ip_deregister (ui_ipinfo ui) IPPROTO_UDP in
  fold_left (fun ip u => if up_inuse u then fold_left (fun ip d => ip_free ip (dg_buf d)) (up_rxqueue u) ip else ip) (ui_ports ui) ip.

Definition _udp_alloc (ui : udp_info) : option (option ebuf * udp_info) :=
  let? (b, ip) := ip_alloc (ui_ipinfo ui) in
  match b with
  | None => Some (None, set_ip ui ip)
  | Some buf => Some (Some (ebuf_setlength (ebuf_seek buf UDP_HDR_LENGTH) 0), set_ip ui ip)
  end.

Definition _udp_free (ui : udp_info) (buf : ebuf) : udp_info := set_ip ui (ip_free (ui_ipinfo ui) buf).

End udp.

(** * Datagrams *)

Definition udp_header (sport dport len : Z) (ck : bytes) : bytes := be16 sport ++ be16 dport ++ be16 len ++ ck.

Definition udp_cksum (src dst s : bytes) : Z :=
  match ip_chksum 0 (udp_pseudoheader src dst (Z.of_nat (length s))) with
  | Some c => match ip_chksum c s with Some c => if c =? 0xFFFF then 0xFFFF else not16 c | None => 0 end
  | None => 0
  end.

(** What is sent for some data. *)
Definition udp_bytes (src dst : bytes) (sport dport : Z) (data : bytes) : bytes :=
  let h := udp_header sport dport (8 + Z.of_nat (length data)) in
  h (be16 (udp_cksum src dst (h [0; 0] ++ data))) ++ data.

Lemma udp_header_length sport dport len ck : length ck = 2%nat -> length (udp_header sport dport len ck) = 8%nat.
Proof. intros H. unfold udp_header. by rewrite !length_app, H. Qed.

Lemma udp_header_ck sport dport len ck data : length ck = 2%nat -> take 2 (drop 6 (udp_header sport dport len ck ++ data)) = ck.
Proof. intros H. destruct ck as [|c1 [|c2 [|]]]; done. Qed.

Lemma udp_header_splice sport dport len ck ck' data : length ck = 2%nat -> length ck' = 2%nat ->
  splice (udp_header sport dport len ck' ++ data) 6 ck = udp_header sport dport len ck ++ data.
Proof. intros H H'. destruct ck as [|c1 [|c2 [|]]]; [done..| |done]. destruct ck' as [|d1 [|d2 [|]]]; done. Qed.

Lemma not16_zero c : 0 <= c < 65536 -> (not16 c =? 0) = (c =? 0xFFFF).
Proof.
  intros Hc. unfold not16, wrap16. rewrite Z.lnot_eq_pred_opp. 
  replace ((- c - 1) mod 2 ^ 16) with (65535 - c); [destruct (Z.eqb_spec (65535 - c) 0), (Z.eqb_spec c 65535); try lia; done|].
  change (2 ^ 16) with 65536. apply (Z.mod_unique_pos _ _ (-1)); lia.
Qed.

Lemma not16_range c : 0 <= not16 c < 65536.
Proof. apply wrap16_range. Qed.

(** Both ends compute the same checksum. *)
Lemma udp_cksum_eq src dst s : exists c1 c2, ip_chksum 0 (udp_pseudoheader src dst (Z.of_nat (length s))) = Some c1 /\
  ip_chksum c1 s = Some c2 /\ (if not16 c2 =? 0 then 0xFFFF else not16 c2) = udp_cksum src dst s /\
  (if c2 =? 0xFFFF then c2 else not16 c2) = udp_cksum src dst s /\ 0 < udp_cksum src dst s < 65536.
Proof.
  destruct (ip_chksum_total 0 (udp_pseudoheader src dst (Z.of_nat (length s)))) as (c1 & H1 & R1); [lia|].
  destruct (ip_chksum_total c1 s R1) as (c2 & H2 & R2). exists c1, c2. unfold udp_cksum. rewrite H1, H2. pose proof (not16_zero c2 R2) as Hz.
  rewrite Hz. pose proof (not16_range c2). split; [done|]. split; [done|]. split; [done|]. destruct (Z.eqb_spec c2 0xFFFF) as [->|]; [done|]. split; [done|].
  apply Z.eqb_neq in Hz. lia.
Qed.

(** Sending. *)
Lemma udp_send_filled src dst b0 b sport dport data (A : Type) (k : ebuf -> option A) :
  filled b0 b data -> 8 <= eb_ptr b -> Z.of_nat (length data) < 65000 ->
  exists b', filled (ebuf_seek b0 (- 8)) b' (udp_bytes src dst sport dport data) /\
  (let udplen := sint32 (eb_length b + UDP_HDR_LENGTH) in
   let buf := ebuf_seek b (- UDP_HDR_LENGTH) in
   let udphdr := eb_ptr buf in
   let? buf := ebuf_put_u16_be buf sport in
   let? buf := ebuf_put_u16_be buf dport in
   let? buf := ebuf_put_u16_be buf udplen in
   let? buf := ebuf_put_u16_be buf 0 in
   let buf := ebuf_prepend buf UDP_HDR_LENGTH in
   let? cksum := ip_chksum 0 (udp_pseudoheader src dst udplen) in
   let? cksum := chksum_at cksum buf udphdr udplen in
   let cksum := not16 cksum in
   let cksum := if cksum =? 0 then 0xFFFF else cksum in
   let? buf := eb_write buf (udphdr + 6) [Z.land (Z.shiftr cksum 8) 0xFF; Z.land cksum 0xFF] in k buf) = k b'.
Proof.
  intros Hf Hptr Hlen. pose proof (filled_length _ _ _ Hf) as Hl. destruct Hf as [Hb Hp Hq Hs]. pose proof Hb as [B1 B2 B3 B4]. cbn zeta.
  assert (Hu : sint32 (eb_length b + UDP_HDR_LENGTH) = 8 + Z.of_nat (length data)).
  { unfold sint32, UDP_HDR_LENGTH. rewrite wrap32_small by lia. rewrite (proj2 (Z.ltb_lt _ _)); lia. }
  rewrite Hu. unfold ebuf_put_u16_be, UDP_HDR_LENGTH. change (- (8)) with (-8). set (s := ebuf_seek b (- 8)).
  assert (Hss : length (eb_data s) = eb_size) by done. assert (Hsp : 0 <= eb_ptr s) by (cbn; lia). assert (Hse : eb_ptr s + 8 <= Z.of_nat eb_size) by (cbn; lia).
  rewrite put_bind, put_bind, put_bind by (done || (rewrite ?length_app; cbn [length be16]; lia)).
  change (((be16 sport ++ be16 dport) ++ be16 (8 + Z.of_nat (length data))) ++ be16 0) with (udp_header sport dport (8 + Z.of_nat (length data)) [0; 0]).
  destruct (prepend_ok b (udp_header sport dport (8 + Z.of_nat (length data)) [0; 0]) 8 Hb) as (b1 & E1 & Hb1 & [_ Hp1] & Hq1 & Hl1 & Hs1); [done|lia|].
  change (- (8)) with (-8) in E1. fold s in E1. rewrite E1. cbn [option_bind]. unfold udp_bytes. cbn zeta. rewrite Hs in Hs1. set (d := udp_header _ _ _ [0; 0] ++ data) in *. set (b2 := ebuf_prepend b1 8) in *.
  assert (Hd : Z.of_nat (length d) = 8 + Z.of_nat (length data)) by (unfold d; rewrite length_app, udp_header_length by done; lia).
  destruct (udp_cksum_eq src dst d) as (c1 & c2 & C1 & C2 & Ck & _ & _). rewrite Hd in C1. rewrite C1. cbn [option_bind]. unfold chksum_at. rewrite (proj2 (Z.ltb_ge _ _)) by lia.
  assert (Hr : eb_read b2 (eb_ptr s) (8 + Z.of_nat (length data)) = Some d).
  { rewrite <- Hs1. rewrite <- (read_payload b2 Hb1). f_equal; [cbn in Hq1 |- *; lia|rewrite Hl1; lia]. }
  rewrite Hr, C2. cbn [option_bind]. rewrite Ck. set (ck := udp_cksum src dst d). change [Z.land (Z.shiftr ck 8) 0xFF; Z.land ck 0xFF] with (be16 ck).
  destruct (write_ok b2 6 (be16 ck) Hb1) as (b3 & E3 & Hb3 & [_ Hp3] & Hq3 & _ & Hs3); [lia|rewrite be16_length; lia|].
  replace (eb_ptr s + 6) with (eb_ptr b2 + 6) by (cbn in Hq1 |- *; lia). rewrite E3. exists b3. split; [|done]. split; [done|cbn; congruence|cbn in *; lia|].
  rewrite Hs3, Hs1. change (Z.to_nat 6) with 6%nat. unfold d at 1. by rewrite udp_header_splice.
Qed.

(** The fields of the header, and what is left. *)
Lemma udp_fields b sport dport len ck data (A : Type) (k : Z -> Z -> Z -> ebuf -> option A) :
  holds b -> payload b = udp_header sport dport len ck ++ data -> length ck = 2%nat ->
  0 <= sport < 65536 -> 0 <= dport < 65536 -> 0 <= len < 65536 ->
  exists b', holds b' /\ same_buf b b' /\ payload b' = data /\
  (let? (srcport, buf) := ebuf_get_u16_be b in
   let? (dstport, buf) := ebuf_get_u16_be buf in
   let? (udplen2, buf) := ebuf_get_u16_be buf in
   k srcport dstport udplen2 (ebuf_skip buf 2)) = k sport dport len b'.
Proof.
  intros H0 P0 Hck R1 R2 R3. unfold udp_header in P0. rewrite <- !app_assoc in P0.
  destruct (next_u16 b _ _ H0 P0 R1) as (-> & H1 & P1). cbn [option_bind].
  destruct (next_u16 _ _ _ H1 P1 R2) as (-> & H2 & P2). cbn [option_bind].
  destruct (next_u16 _ _ _ H2 P2 R3) as (-> & H3 & P3). cbn [option_bind].
  destruct (next_bytes _ 2 _ _ H3 P3) as (H4 & _ & P4 & _); [by rewrite Hck|]. eexists. split; [exact H4|]. by split.
Qed.

Lemma udp_checked_ok b src dst sport dport data : holds b -> payload b = udp_bytes src dst sport dport data -> length src = 4%nat -> length dst = 4%nat ->
  exists b', udp_checked b dst src = Some (true, b') /\ holds b' /\ same_buf b b' /\ eb_length b' = eb_length b /\
    payload b' = udp_header sport dport (8 + Z.of_nat (length data)) [0; 0] ++ data.
Proof.
  intros Hb Hpay Ls Ld. pose proof (payload_length b Hb) as Hpl. pose proof Hb as [B1 B2 B3 B4]. unfold eb_size in B4. unfold udp_bytes in Hpay. cbn zeta in Hpay.
  set (d := udp_header _ _ _ [0; 0] ++ data) in *. assert (Hd : Z.of_nat (length d) = eb_length b).
  { rewrite <- Hpl, Hpay. unfold d. by rewrite !length_app, !udp_header_length. }
  destruct (udp_cksum_eq src dst d) as (c1 & c2 & C1 & C2 & _ & Ck & Hr). revert Hpay Ck Hr. generalize (udp_cksum src dst d). intros ck Hpay Ck Hr.
  assert (Hl8 : 8 <= eb_length b) by (rewrite <- Hd; unfold d; rewrite length_app, udp_header_length by done; lia).
  unfold udp_checked. rewrite eb_read_at by (done || lia). cbn [option_bind]. rewrite Hpay. change (Z.to_nat 6) with 6%nat. change (Z.to_nat 2) with 2%nat.
  rewrite udp_header_ck, of_be_16 by (done || lia). replace (truthy ck) with true by (unfold truthy; destruct (Z.eqb_spec ck 0); [lia|done]).
  destruct (write_ok b 6 [0; 0] Hb) as (b1 & -> & H1 & Hsb & H3 & H4 & H5); [lia|cbn [length]; lia|]. cbn [option_bind].
  rewrite Hpay in H5. change (Z.to_nat 6) with 6%nat in H5. rewrite udp_header_splice in H5 by done. fold d in H5.
  assert (Hsg : sint32 (eb_length b) = eb_length b) by (unfold sint32; rewrite wrap32_small by lia; rewrite (proj2 (Z.ltb_lt _ _)) by lia; lia).
  rewrite Hsg, <- Hd, !take_ge, C1 by lia. cbn [option_bind]. unfold chksum_at. rewrite (proj2 (Z.ltb_ge _ _)) by lia.
  rewrite Hd, <- H3, <- H4, read_payload, H5, C2 by done. cbn [option_bind]. rewrite Ck, Z.eqb_refl. eauto 10.
Qed.

Section udp_hosts.
Context {W : Type} {IL : IpLayer W} {WL : IpLaws W}.
Abbreviation host := (udp_info (recorded W)).

(** A buffer as [_udp_alloc] hands it out, filled by the program. *)
Record udp_buf (ui : host) (b : ebuf) : Prop := {
  ub_holds : holds b;
  ub_port : eb_port b = ip_txport (rec_ip (ui_ipinfo ui));
  ub_ptr : eb_ptr b = 42
}.

Definition udp_sent (ui : host) : list (bytes * bytes) := rec_sent (ui_ipinfo ui).

Lemma udp_alloc_ok src (ui : host) : rec_ok src (ui_ipinfo ui) ->
  exists o ui', _udp_alloc ui = Some (o, ui') /\ ui_ports ui' = ui_ports ui /\ rec_ok src (ui_ipinfo ui') /\ udp_sent ui' = udp_sent ui /\
    match o with None => True | Some b => udp_buf ui' b /\ payload b = [] end.
Proof.
  intros Hr. destruct (rec_alloc src _ Hr) as (o & r' & E & H1 & H2 & H3). unfold _udp_alloc. rewrite E. cbn [option_bind]. destruct o as [b|].
  - destruct H3 as ([G1 G2 G3 G4] & H4 & H5 & _). eexists _, _. split; [reflexivity|]. split; [done|]. split; [done|]. split; [done|].
    split; [|done]. unfold eb_size, UDP_HDR_LENGTH in *. split; [split; cbn; rewrite ?H5; unfold eb_size; try done; lia|exact H4|cbn; lia].
  - by eexists _, _.
Qed.

Lemma udp_send_host src (ui : host) s u b dst : rec_ok src (ui_ipinfo ui) -> udp_at ui s = Some u -> udp_buf ui b -> length dst = 4%nat ->
  exists ui', _udp_send ui s b dst = Some (0, ui') /\ ui_ports ui' = ui_ports ui /\ rec_ok src (ui_ipinfo ui') /\
    udp_sent ui' = udp_sent ui ++ [(dst, udp_bytes src dst (up_srcport u) (up_destport u) (payload b))].
Proof.
  intros Hr Hu [Hb Hp Hq] Hd. pose proof (payload_length b Hb) as Hpl. pose proof Hb as [B1 B2 B3 B4]. unfold eb_size in B4.
  unfold _udp_send. rewrite Hu. cbn [option_bind]. cbn zeta. destruct Hr as [Hw Ha]. cbn [ip_getaddr recorded_layer] in *.
  assert (Hf0 : filled b b (payload b)) by done. assert (Hlt : Z.of_nat (length (payload b)) < 65000) by (rewrite Hpl; lia). assert (H8 : 8 <= eb_ptr b) by (rewrite Hq; lia).
  destruct (udp_send_filled src dst b b (up_srcport u) (up_destport u) (payload b) _
    (fun buf => let? ip := ip_send (ui_ipinfo ui) buf dst IPPROTO_UDP in Some (0, set_ip ui ip)) Hf0 H8 Hlt) as (b' & Hf & E).
  cbn zeta in E. rewrite (take_ge dst) by lia. rewrite Ha, E. assert (Hq0 : eb_ptr (ebuf_seek b (-8)) = 34) by (cbn; rewrite Hq; lia).
  destruct (rec_send src (ui_ipinfo ui) (ebuf_seek b (-8)) b' dst IPPROTO_UDP _ (conj Hw Ha) Hp Hq0 Hf Hd) as (r' & -> & H1 & H2).
  eexists. split; [reflexivity|]. done.
Qed.

Lemma udp_rx_ok (ui : host) buf src dst sport dport data t v : holds buf -> payload buf = udp_bytes src dst sport dport data ->
  length src = 4%nat -> length dst = 4%nat -> 0 <= sport < 65536 -> 0 <= dport < 65536 ->
  _udp_find_port ui dport = Some t -> udp_at ui t = Some v -> Z.of_nat (length (up_rxqueue v)) < up_maxqueue v ->
  exists b, _udp_rx_callback ui buf dst src = Some (Kept, put_udp ui t (set_rxqueue v (up_rxqueue v ++ [Dg b sport]))) /\
    holds b /\ same_buf buf b /\ payload b = data.
Proof.
  intros Hb Hpay Ls Ld R1 R2 Hf Hv Hq. pose proof (payload_length buf Hb) as Hpl. pose proof Hb as [B1 B2 B3 B4]. unfold eb_size in B4.
  assert (Hlen : eb_length buf = 8 + Z.of_nat (length data)) by (rewrite <- Hpl, Hpay; unfold udp_bytes; cbn zeta; rewrite length_app, udp_header_length by done; lia).
  destruct (udp_checked_ok buf src dst sport dport data Hb Hpay Ls Ld) as (b1 & E1 & Hb1 & Hs1 & _ & P1). unfold _udp_rx_callback. rewrite E1. cbn [option_bind negb].
  destruct (udp_fields b1 sport dport (8 + Z.of_nat (length data)) [0; 0] data _ (fun srcport dstport udplen2 buf0 =>
    if negb (udplen2 =? wrap16 (sint32 (eb_length buf))) then Some (Dropped buf0, ui)
    else match _udp_find_port ui dstport with
      | None => Some (Dropped buf0, ui)
      | Some s =>
          let? u := udp_at ui s in
          if up_maxqueue u <=? Z.of_nat (length (up_rxqueue u)) then Some (Dropped buf0, ui)
          else Some (Kept, put_udp ui s (set_rxqueue u (up_rxqueue u ++ [Dg (ebuf_setlength buf0 (udplen2 - UDP_HDR_LENGTH)) srcport])))
      end) Hb1 P1 eq_refl R1 R2) as (b2 & Hb2 & Hs2 & P2 & E2); [lia|].
  rewrite Hf, Hv in E2. cbn [option_bind] in E2. assert (Hsg : sint32 (eb_length buf) = eb_length buf) by (unfold sint32; rewrite wrap32_small by lia; rewrite (proj2 (Z.ltb_lt _ _)); lia).
  rewrite Hsg, Hlen, wrap16_small, Z.eqb_refl in E2 by lia. cbn [negb] in E2. rewrite (proj2 (Z.leb_gt _ _)) in E2 by done.
  pose proof (payload_length b2 Hb2) as Hpl2. rewrite P2 in Hpl2. assert (Hfin : ebuf_setlength b2 (8 + Z.of_nat (length data) - UDP_HDR_LENGTH) = b2).
  { unfold ebuf_setlength, ebuf_set, UDP_HDR_LENGTH. rewrite wrap32_small by lia. replace (8 + Z.of_nat (length data) - 8) with (eb_length b2) by lia. by destruct b2. }
  rewrite Hfin in E2. exists b2. split; [|split; [done|]; split; [|done]; destruct Hs1, Hs2; split; congruence].
  rewrite Hsg, Hlen, wrap16_small by lia. exact E2.
Qed.

(** Receiving [n] times. *)
Fixpoint udp_recvs (n : nat) (ui : host) (s : Z) : option (list datagram * host) :=
  match n with
  | O => Some ([], ui)
  | S n =>
      let? (o, ui) := _udp_recv ui s in
      match o with None => Some ([], ui) | Some d => let? (l, ui) := udp_recvs n ui s in Some (d :: l, ui) end
  end.

Lemma udp_at_put (ui : host) s u v : udp_at ui s = Some u -> udp_at (put_udp ui s v) s = Some v.
Proof.
  unfold udp_at. destruct (0 <=? s); [|done]. intros E. cbn [ui_ports put_udp set_udp_ports]. apply list_lookup_insert_eq. by apply lookup_lt_Some in E.
Qed.

Lemma udp_recvs_all (ui : host) s u : udp_at ui s = Some u -> exists ui', udp_recvs (length (up_rxqueue u)) ui s = Some (up_rxqueue u, ui').
Proof.
  remember (up_rxqueue u) as q eqn:Eq. revert ui u Eq. induction q as [|d q IH]; intros ui u Eq Hu; [by exists ui|]. cbn [udp_recvs length]. unfold _udp_recv. rewrite Hu. cbn [option_bind].
  rewrite <- Eq. destruct (IH (put_udp ui s (set_rxqueue u q)) (set_rxqueue u q) eq_refl (udp_at_put ui s u _ Hu)) as (ui' & ->). by exists ui'.
Qed.

(** C27 A datagram arrives as it was sent: what a socket sends to an address is one packet, and
    any host that receives this packet, in whatever buffer, while a socket is bound to the
    destination port and its queue is not full, hands exactly those bytes to the program
    that reads this socket, after what had arrived before, with the port of the sender. *)
Theorem udp_delivers src (near : host) s u b dst : rec_ok src (ui_ipinfo near) -> udp_at near s = Some u -> udp_buf near b ->
  length src = 4%nat -> length dst = 4%nat -> 0 <= up_srcport u < 65536 -> 0 <= up_destport u < 65536 ->
  exists near' q, _udp_send near s b dst = Some (0, near') /\ ui_ports near' = ui_ports near /\ udp_sent near' = udp_sent near ++ [(dst, q)] /\
  forall (far : host) t v buf, _udp_find_port far (up_destport u) = Some t -> udp_at far t = Some v ->
    Z.of_nat (length (up_rxqueue v)) < up_maxqueue v -> holds buf -> payload buf = q ->
    exists far' far'' d, _udp_rx_callback far buf dst src = Some (Kept, far') /\
      udp_recvs (S (length (up_rxqueue v))) far' t = Some (up_rxqueue v ++ [d], far'') /\
      payload (dg_buf d) = payload b /\ eb_usrdata d = up_srcport u /\ eb_addr (dg_buf d) = eb_addr buf.
Proof.
  intros Hr Hu Hb Ls Ld R1 R2. destruct (udp_send_host src near s u b dst Hr Hu Hb Ld) as (near' & E & Hp & _ & Hs).
  exists near', (udp_bytes src dst (up_srcport u) (up_destport u) (payload b)). split; [done|]. split; [done|]. split; [done|].
  intros far t v buf Hf Hv Hq Hbuf Hpay. destruct (udp_rx_ok far buf src dst _ _ _ t v Hbuf Hpay Ls Ld R1 R2 Hf Hv Hq) as (b' & E' & _ & [Ha _] & Hp').
  pose proof (udp_at_put far t v (set_rxqueue v (up_rxqueue v ++ [Dg b' (up_srcport u)])) Hv) as Hat.
  destruct (udp_recvs_all _ _ _ Hat) as (far'' & E''). cbn [up_rxqueue set_rxqueue] in E''. rewrite length_app, Nat.add_1_r in E''.
  eexists _, far'', (Dg b' (up_srcport u)). split; [exact E'|]. split; [exact E''|]. done.
Qed.
End udp_hosts.

(** * Sockets *)

(** What programs and packets may do.  [URecv] reads and frees. *)
Inductive udp_op :=
  | USocket (port ticks : Z)
  | UBind (s port : Z)
  | UConnect (s port : Z)
  | UClose (s : Z)
  | USend (s : Z) (data dst : bytes)
  | URecv (s : Z)
  | URx (buf : ebuf) (dst src : bytes).

Section sockets.
Context {W : Type} {IL : IpLayer W} {WL : IpLaws W}.

Definition udp_step (o : udp_op) (ui : udp_info W) : option (udp_info W) :=
  match o with
  | USocket port ticks => let? (r, ui) := _udp_socket ui port ticks in Some ui
  | UBind s port => let? (r, ui) := _udp_bind ui s port in Some ui
  | UConnect s port => let? (r, ui) := _udp_connect ui s port in Some ui
  | UClose s => _udp_close ui s
  | USend s data dst =>
      let? (o, ui) := _udp_alloc ui in
      match o with
      | None => Some ui
      | Some b => let? b := ebuf_append_bytes b data in let? (r, ui) := _udp_send ui s b dst in Some ui
      end
  | URecv s => let? (o, ui) := _udp_recv ui s in Some (match o with None => ui | Some d => _udp_free ui (dg_buf d) end)
  | URx buf dst src =>
      let? (r, ui) := _udp_rx_callback ui buf dst src in
      Some (match r with Dropped b => set_ip ui (ip_free (ui_ipinfo ui) b) | Kept => ui end)
  end.

Fixpoint udp_run (os : list udp_op) (ui : udp_info W) : option (udp_info W) :=
  match os with [] => Some ui | o :: os => let? ui := udp_step o ui in udp_run os ui end.

Definition valid_sock (s : Z) : Prop := 0 <= s < 4.
Definition udp_op_ok (o : udp_op) : Prop :=
  match o with
  | USocket _ _ => True
  | UBind s port | UConnect s port => valid_sock s /\ 0 <= port < 65536
  | UClose s | URecv s => valid_sock s
  | USend s data dst => valid_sock s /\ Z.of_nat (length data) <= 1472 /\ length dst = 4%nat
  | URx buf dst src => holds buf /\ eb_ptr buf + 8 <= Z.of_nat eb_size
  end.

Definition used_ports (l : list udp_port) : list Z := map up_srcport (filter (fun u => up_inuse u = true) l).

Record udp_ok (ui : udp_info W) : Prop := {
  uo_ip : ip_wf (ui_ipinfo ui);
  uo_len : length (ui_ports ui) = UDP_MAX_PORTS;
  uo_ports : NoDup (used_ports (ui_ports ui));
  uo_queue : Forall (fun u => (length (up_rxqueue u) <= 2)%nat /\ up_maxqueue u <= 2 /\ Forall (fun d => sized (dg_buf d)) (up_rxqueue u)) (ui_ports ui)
}.

Lemma find_loop_Some i l f r : find_loop i l f = Some r -> exists k u, r = i + Z.of_nat k /\ l !! k = Some u /\ f u = true.
Proof.
  revert i. induction l as [|u l IH]; intros i; cbn [find_loop]; [done|]. destruct (f u) eqn:E.
  - intros [= <-]. exists 0%nat, u. split; [lia|done].
  - intros (k & v & -> & H1 & H2)%IH. exists (S k), v. split; [lia|done].
Qed.

Lemma find_loop_None i l f : find_loop i l f = None -> Forall (fun u => f u = false) l.
Proof. revert i. induction l as [|u l IH]; intros i; cbn [find_loop]; [constructor|]. destruct (f u) eqn:E; [done|]. constructor; [done|]. by eapply IH. Qed.

Lemma find_port_None (ui : udp_info W) port : _udp_find_port ui port = None -> port ∉ used_ports (ui_ports ui).
Proof.
  intros E%find_loop_None. unfold used_ports. intros (u & -> & [Hu Hin]%list_elem_of_filter)%list_elem_of_fmap. rewrite Forall_forall in E.
  apply E in Hin. rewrite Hu, Z.eqb_refl in Hin. done.
Qed.

Lemma find_port_Some (ui : udp_info W) port s : _udp_find_port ui port = Some s -> port ∈ used_ports (ui_ports ui) /\ exists u, udp_at ui s = Some u.
Proof.
  intros (k & u & -> & H1 & [H2 H3]%andb_true_iff)%find_loop_Some. apply Z.eqb_eq in H3. split.
  - unfold used_ports. apply list_elem_of_fmap. exists u. split; [done|]. apply list_elem_of_filter. split; [done|]. by eapply list_elem_of_lookup_2.
  - exists u. unfold udp_at. rewrite Z.add_0_l, (proj2 (Z.leb_le _ _)) by lia. by rewrite Nat2Z.id.
Qed.

(** The search for a free port tries five ports in turn, of which four can be in use. *)
Definition next_port (x : Z) : Z := let x := wrap16 (x + 1) in if UDP_PORTBASE + 4096 <? x then UDP_PORTBASE else x.

Lemma next_port_iter x k : 1024 <= x <= 5120 -> Nat.iter k next_port x = 1024 + (x - 1024 + Z.of_nat k) mod 4097.
Proof.
  intros Hx. induction k as [|k IH]; [cbn; rewrite Z.mod_small; lia|]. cbn [Nat.iter nat_rect]. change (nat_rect _ _ _ _) with (Nat.iter k next_port x). rewrite IH.
  set (a := (x - 1024 + Z.of_nat k) mod 4097). assert (Ha : 0 <= a < 4097) by (apply Z.mod_pos_bound; lia). unfold next_port, UDP_PORTBASE. rewrite wrap16_small by lia.
  replace (x - 1024 + Z.of_nat (S k)) with (x - 1024 + Z.of_nat k + 1) by lia. rewrite <- Z.add_mod_idemp_l by lia. fold a.
  destruct (Z.ltb_spec (1024 + 4096) (1024 + a + 1)); [|rewrite Z.mod_small; lia]. replace a with 4096 by lia. done.
Qed.

Lemma unused_None fuel (ui : udp_info W) x : unused_srcport fuel ui x = None -> forall k, (k <= fuel)%nat -> Nat.iter k next_port x ∈ used_ports (ui_ports ui).
Proof.
  revert x. induction fuel as [|fuel IH]; intros x; cbn [unused_srcport]; destruct (_udp_find_port ui x) as [t|] eqn:E; try done; apply find_port_Some in E as [E _].
  - intros _ k Hk. by replace k with 0%nat by lia.
  - intros H k Hk. destruct k as [|k]; [done|]. rewrite Nat.iter_succ_r. apply (IH _ H). lia.
Qed.

Lemma unused_Some fuel (ui : udp_info W) x r : 1024 <= x <= 5120 -> unused_srcport fuel ui x = Some r -> r ∉ used_ports (ui_ports ui).
Proof.
  revert x. induction fuel as [|fuel IH]; intros x Hx; cbn [unused_srcport]; destruct (_udp_find_port ui x) as [t|] eqn:E; try done.
  - intros [= <-]. by apply find_port_None.
  - apply IH. unfold UDP_PORTBASE. rewrite wrap16_small by lia. destruct (Z.ltb_spec (1024 + 4096) (x + 1)); lia.
  - intros [= <-]. by apply find_port_None.
Qed.

Lemma used_length (l : list udp_port) : (length (used_ports l) <= length l)%nat.
Proof. unfold used_ports. rewrite length_fmap. apply length_filter. Qed.

Lemma unused_found (ui : udp_info W) x : length (ui_ports ui) = UDP_MAX_PORTS -> 1024 <= x <= 5120 -> exists r, unused_srcport UDP_MAX_PORTS ui x = Some r /\ r ∉ used_ports (ui_ports ui).
Proof.
  intros Hl Hx. destruct (unused_srcport UDP_MAX_PORTS ui x) as [r|] eqn:E; [exists r; split; [done|by eapply unused_Some]|].
  pose proof (unused_None _ _ _ E) as Hin. exfalso. pose proof (used_length (ui_ports ui)) as Hu. rewrite Hl in Hu.
  assert (Hc : (length (map (fun k => Nat.iter k next_port x) (seq 0 5)) <= length (used_ports (ui_ports ui)))%nat).
  { apply NoDup_incl_length.
    - apply NoDup_ListNoDup. apply NoDup_fmap_2_strong; [|apply NoDup_seq]. intros i j Hi%elem_of_seq Hj%elem_of_seq. rewrite !next_port_iter by done. intros Heq.
      assert (Hm : (x - 1024 + Z.of_nat i) mod 4097 = (x - 1024 + Z.of_nat j) mod 4097) by lia.
      pose proof (Z.div_mod (x - 1024 + Z.of_nat i) 4097). pose proof (Z.div_mod (x - 1024 + Z.of_nat j) 4097). nia.
    - intros r Hr. apply in_map_iff in Hr as (k & <- & Hk%in_seq). apply list_elem_of_In. apply Hin. unfold UDP_MAX_PORTS. lia. }
  rewrite length_map, length_seq in Hc. unfold UDP_MAX_PORTS in *. lia.
Qed.


Lemma used_insert l i u v : l !! i = Some u -> NoDup (used_ports l) ->
  (up_inuse v = true -> up_srcport v ∉ used_ports l \/ (up_inuse u = true /\ up_srcport u = up_srcport v)) ->
  NoDup (used_ports (<[i := v]> l)).
Proof.
  intros Hl Hn Hv. pose proof (lookup_lt_Some _ _ _ Hl) as Hlt. rewrite insert_take_drop by done. pose proof (take_drop_middle l i u Hl) as Hsp.
  remember (take i l) as a eqn:Ea. remember (drop (S i) l) as b eqn:Eb. clear Ea Eb Hl Hlt. subst l. revert Hn Hv. unfold used_ports. rewrite !filter_app, !fmap_app, !filter_cons. intros Hn Hv.
  apply NoDup_app in Hn as (N1 & N2 & N3). destruct (decide (up_inuse v = true)) as [Ev|Ev].
  - specialize (Hv Ev).
    assert (Hb : NoDup (up_srcport <$> filter (fun u => up_inuse u = true) b)) by (case_decide; [by apply NoDup_cons in N3 as [_ N3]|done]).
    assert (Hab : forall x, x ∈ up_srcport <$> filter (fun u => up_inuse u = true) a -> x ∉ up_srcport <$> filter (fun u => up_inuse u = true) b).
    { intros x Hx Hx'. apply (N2 x Hx). case_decide; [by right|done]. }
    apply NoDup_app. split; [done|]. split.
    + intros x Hx. cbn. intros [->|Hx']%elem_of_cons; [|by apply (Hab x)]. destruct Hv as [Hv|[Eu Hv]]; [apply Hv, elem_of_app; by left|].
      rewrite decide_True in N2 by done. apply (N2 _ Hx). rewrite <- Hv. left.
    + cbn. apply NoDup_cons. split; [|done]. intros Hx. destruct Hv as [Hv|[Eu Hv]]; [apply Hv, elem_of_app; right; case_decide; [by right|done]|].
      rewrite decide_True in N3 by done. cbn in N3. apply NoDup_cons in N3 as [N3 _]. by rewrite Hv in N3.
  - apply NoDup_app. split; [done|]. case_decide; [|done]. cbn in N2, N3. apply NoDup_cons in N3 as [_ N3]. split; [|done]. intros x Hx Hx'. apply (N2 x Hx). by right.
Qed.

Lemma udp_at_queue ui s u : udp_ok ui -> udp_at ui s = Some u -> (length (up_rxqueue u) <= 2)%nat /\ up_maxqueue u <= 2 /\ Forall (fun d => sized (dg_buf d)) (up_rxqueue u).
Proof. intros [H1 H2 H3 H4] Hu. unfold udp_at in Hu. destruct (0 <=? s); [|done]. by apply (Forall_lookup_1 _ _ _ _ H4 Hu). Qed.

Lemma udp_at_valid ui s : udp_ok ui -> valid_sock s -> exists u, udp_at ui s = Some u /\ (length (up_rxqueue u) <= 2)%nat /\ up_maxqueue u <= 2 /\
  Forall (fun d => sized (dg_buf d)) (up_rxqueue u).
Proof.
  intros [H1 H2 H3 H4] Hs. unfold valid_sock in Hs. unfold udp_at. rewrite (proj2 (Z.leb_le _ _)) by lia.
  destruct (lookup_lt_is_Some_2 (ui_ports ui) (Z.to_nat s)) as [u Hu]; [rewrite H2; unfold UDP_MAX_PORTS; lia|]. rewrite Hu. exists u. split; [done|].
  by apply (Forall_lookup_1 _ _ _ _ H4 Hu).
Qed.

Lemma put_udp_ok ui s u v ip : udp_ok ui -> udp_at ui s = Some u -> ip_wf ip -> (length (up_rxqueue v) <= 2)%nat -> up_maxqueue v <= 2 ->
  Forall (fun d => sized (dg_buf d)) (up_rxqueue v) ->
  (up_inuse v = true -> up_srcport v ∉ used_ports (ui_ports ui) \/ (up_inuse u = true /\ up_srcport u = up_srcport v)) ->
  udp_ok (put_udp (set_ip ui ip) s v).
Proof.
  intros [H1 H2 H3 H4] Hu Hi Hq Hm Hs Hv. unfold udp_at in Hu. destruct (0 <=? s); [|done]. split; cbn; [done|by rewrite length_insert|by eapply used_insert|].
  apply Forall_insert; [done|]. done.
Qed.

Lemma frees_ok (ip : W) ds : ip_wf ip -> Forall (fun d => sized (dg_buf d)) ds -> ip_wf (fold_left (fun ip d => ip_free ip (dg_buf d)) ds ip).
Proof. intros Hi Hd. revert ip Hi. induction Hd as [|d ds Hs _ IH]; intros ip Hi; [done|]. cbn [fold_left]. apply IH. by apply law_free. Qed.

Lemma same_ip_ok ui ip : udp_ok ui -> ip_wf ip -> udp_ok (set_ip ui ip).
Proof. intros [H1 H2 H3 H4] Hi. by split. Qed.

Lemma set_ip_id (ui : udp_info W) : set_ip ui (ui_ipinfo ui) = ui.
Proof. by destruct ui. Qed.

Lemma put_port_ok ui s u v : udp_ok ui -> udp_at ui s = Some u -> (length (up_rxqueue v) <= 2)%nat -> up_maxqueue v <= 2 ->
  Forall (fun d => sized (dg_buf d)) (up_rxqueue v) ->
  (up_inuse v = true -> up_srcport v ∉ used_ports (ui_ports ui) \/ (up_inuse u = true /\ up_srcport u = up_srcport v)) ->
  udp_ok (put_udp ui s v).
Proof. intros Hok Hu. pose proof (put_udp_ok ui s u v (ui_ipinfo ui) Hok Hu (uo_ip _ Hok)) as Hp. by rewrite set_ip_id in Hp. Qed.

Lemma socket_ok ui port ticks : udp_ok ui -> exists ui', udp_step (USocket port ticks) ui = Some ui' /\ udp_ok ui'.
Proof.
  intros Hok. cbn [udp_step]. unfold _udp_socket, UDP_PORTBASE. pose proof (Z.mod_pos_bound ticks 4096 ltac:(lia)) as Ht.
  change 0xFFF with (Z.ones 12). rewrite Z.land_ones by lia. change (2 ^ 12) with 4096. rewrite wrap16_small by lia.
  destruct (unused_found ui (1024 + ticks mod 4096) (uo_len _ Hok)) as (r & -> & Hr); [lia|]. cbn [option_bind].
  destruct (find_loop _ _ _) as [idx|] eqn:E; [|by exists ui]. eexists. split; [reflexivity|].
  apply find_loop_Some in E as (k & u & -> & Hu & _). apply (put_port_ok _ _ u); [done| |cbn; lia|done|constructor|by left].
  unfold udp_at. rewrite Z.add_0_l, (proj2 (Z.leb_le _ _)) by lia. by rewrite Nat2Z.id.
Qed.

Lemma get16_raw b : sized b -> 0 <= eb_ptr b -> eb_ptr b + 2 <= Z.of_nat eb_size -> exists v, ebuf_get_u16_be b = Some (v, ebuf_skip b 2).
Proof. intros Hs H1 H2. unfold ebuf_get_u16_be, ebuf_get_bytes. rewrite eb_read_ok by (done || lia). by eexists. Qed.

Lemma rx_step_ok ui buf dst src : udp_ok ui -> holds buf -> eb_ptr buf + 8 <= Z.of_nat eb_size ->
  exists ui', udp_step (URx buf dst src) ui = Some ui' /\ udp_ok ui'.
Proof.
  intros Hok Hb Hp. pose proof Hb as [B1 B2 B3 B4]. pose proof (uo_ip _ Hok) as Hip. cbn [udp_step]. unfold _udp_rx_callback.
  assert (Hck : exists g b, udp_checked buf dst src = Some (g, b) /\ sized b /\ eb_ptr b = eb_ptr buf).
  { unfold udp_checked. rewrite eb_read_ok by (done || lia). cbn [option_bind]. destruct (truthy _); [|by eexists _, _].
    rewrite eb_write_ok by (done || (cbn [length]; lia)). cbn [option_bind]. unfold eb_size in *.
    assert (Hsg : sint32 (eb_length buf) = eb_length buf) by (unfold sint32; rewrite wrap32_small by lia; rewrite (proj2 (Z.ltb_lt _ _)); lia). rewrite Hsg.
    destruct (ip_chksum_total 0 (udp_pseudoheader (take 4 src) (take 4 dst) (eb_length buf))) as (c1 & -> & R1); [lia|]. cbn [option_bind].
    unfold chksum_at. rewrite (proj2 (Z.ltb_ge _ _)) by lia. cbn [ebuf_store]. rewrite eb_read_ok; [|cbn; rewrite length_splice; cbn [length]; unfold eb_size; lia|lia|lia|unfold eb_size; lia]. cbn [option_bind].
    match goal with |- context [ip_chksum c1 ?s] => destruct (ip_chksum_total c1 s R1) as (c2 & -> & _) end. cbn [option_bind]. eexists _, _. split; [reflexivity|].
    split; [|done]. unfold sized. cbn. rewrite length_splice; cbn [length]; unfold eb_size; lia. }
  destruct Hck as (g & b & -> & Hs & Hpb). cbn [option_bind]. destruct g; cbn [negb]; [|eexists; split; [reflexivity|]; apply same_ip_ok; [done|by apply law_free]].
  destruct (get16_raw b Hs) as (v1 & ->); [lia..|]. cbn [option_bind].
  destruct (get16_raw (ebuf_skip b 2) Hs) as (v2 & ->); [cbn; lia..|]. cbn [option_bind].
  destruct (get16_raw (ebuf_skip (ebuf_skip b 2) 2) Hs) as (v3 & ->); [cbn; lia..|]. cbn [option_bind].
  set (b3 := ebuf_skip (ebuf_skip (ebuf_skip (ebuf_skip b 2) 2) 2) 2). assert (Hs3 : sized b3) by exact Hs.
  destruct (negb _); [eexists; split; [reflexivity|]; apply same_ip_ok; [done|by apply law_free]|].
  destruct (_udp_find_port ui v2) as [t|] eqn:E; [|eexists; split; [reflexivity|]; apply same_ip_ok; [done|by apply law_free]].
  apply find_port_Some in E as (_ & u & Hu). rewrite Hu. cbn [option_bind].
  destruct (Z.leb_spec (up_maxqueue u) (Z.of_nat (length (up_rxqueue u)))); [eexists; split; [reflexivity|]; apply same_ip_ok; [done|by apply law_free]|].
  eexists. split; [reflexivity|]. destruct (udp_at_queue ui t u Hok Hu) as (Q1 & Q2 & Q3). apply (put_port_ok _ _ u); [done|done|cbn; rewrite length_app; cbn; lia|done| |by right].
  cbn. apply Forall_app. split; [done|]. by constructor.
Qed.

Lemma udp_send_ok ui s data dst : udp_ok ui -> valid_sock s -> Z.of_nat (length data) <= 1472 -> length dst = 4%nat ->
  exists ui', udp_step (USend s data dst) ui = Some ui' /\ udp_ok ui'.
Proof.
  intros Hok Hs Hlen Hd. cbn [udp_step]. unfold _udp_alloc. destruct (law_alloc _ (uo_ip _ Hok)) as (o & ip & -> & Hip & _ & Hpt & Hb). cbn [option_bind].
  pose proof (same_ip_ok ui ip Hok Hip) as Hok1. destruct o as [b|]; [|by eexists]. destruct Hb as (Hb & Hp & Hq & Hpay). pose proof (payload_length b Hb) as Hl. rewrite Hpay in Hl.
  unfold IPHDR_LENGTH, ENET_DIX_HEADER in Hq. set (b0 := ebuf_setlength (ebuf_seek b UDP_HDR_LENGTH) 0). assert (Hb0 : filled b0 b0 []).
  { split; try done. pose proof Hb as [B1 B2 B3 B4]. unfold b0, eb_size, UDP_HDR_LENGTH in *. split; cbn; unfold eb_size; change (wrap32 0) with 0; try done; lia. }
  destruct (append_filled b0 b0 [] data Hb0) as (b1 & -> & Hf); [cbn; unfold UDP_HDR_LENGTH, eb_size; lia|]. cbn [option_bind app] in *.
  destruct (udp_at_valid _ s Hok1 Hs) as (u & Hu & _). unfold _udp_send. rewrite Hu. cbn [option_bind]. cbn zeta.
  assert (H8 : 8 <= eb_ptr b1) by (rewrite (fl_ptr _ _ _ Hf); cbn; unfold UDP_HDR_LENGTH; lia). assert (H65 : Z.of_nat (length data) < 65000) by lia.
  destruct (udp_send_filled (ip_getaddr ip) dst b0 b1 (up_srcport u) (up_destport u) data _
    (fun buf => let? ip := ip_send ip buf dst IPPROTO_UDP in Some (0, set_ip ui ip)) Hf H8 H65) as (b2 & Hf2 & E).
  cbn zeta in E. rewrite (take_ge dst) by lia. cbn [ui_ipinfo set_ip] in *. 
  destruct (law_send ip b2 dst IPPROTO_UDP Hip (fl_holds _ _ _ Hf2)) as (ip' & Es & Hip' & _); [rewrite (fl_port _ _ _ Hf2); exact Hp| |done|].
  { rewrite (fl_ptr _ _ _ Hf2). cbn. unfold IPHDR_LENGTH, ENET_DIX_HEADER, UDP_HDR_LENGTH. lia. }
  rewrite Es in E. cbn [option_bind] in E. exists (set_ip ui ip'). split; [|by apply same_ip_ok].
  match type of E with ?l = _ => match goal with |- match ?g with _ => _ end = _ => replace g with l; [by rewrite E|reflexivity] end end.
Qed.

Lemma udp_step_ok o ui : udp_ok ui -> udp_op_ok o -> exists ui', udp_step o ui = Some ui' /\ udp_ok ui'.
Proof.
  intros Hok Ho. destruct o as [port ticks|s port|s port|s|s data dst|s|buf dst src].
  - by apply socket_ok.
  - destruct Ho as [Hs Hp]. destruct (udp_at_valid ui s Hok Hs) as (u & Hu & Q1 & Q2 & Q3). cbn [udp_step]. unfold _udp_bind. rewrite Hu. cbn [option_bind].
    destruct (_udp_find_port ui port) as [t|] eqn:E; [by eexists|]. eexists. split; [reflexivity|]. apply (put_port_ok _ _ u); try done. left. by apply find_port_None.
  - destruct Ho as [Hs Hp]. destruct (udp_at_valid ui s Hok Hs) as (u & Hu & Q1 & Q2 & Q3). cbn [udp_step]. unfold _udp_connect. rewrite Hu.
    eexists. split; [reflexivity|]. apply (put_port_ok _ _ u); try done. by right.
  - destruct (udp_at_valid ui s Hok Ho) as (u & Hu & Q1 & Q2 & Q3). cbn [udp_step]. unfold _udp_close. rewrite Hu. eexists. split; [reflexivity|].
    apply (put_udp_ok _ _ u); try done; cbn; try lia. apply frees_ok; [apply (uo_ip _ Hok)|done].
  - destruct Ho as (Hs & Hl & Hd). by apply udp_send_ok.
  - destruct (udp_at_valid ui s Hok Ho) as (u & Hu & Q1 & Q2 & Q3). cbn [udp_step]. unfold _udp_recv. rewrite Hu. cbn [option_bind].
    destruct (up_rxqueue u) as [|d q] eqn:Eq; [by eexists|]. eexists. split; [reflexivity|]. apply Forall_cons in Q3 as [Hd Q3]. apply same_ip_ok.
    + apply (put_port_ok _ _ u); try done; [cbn in *; lia|by right].
    + apply law_free; [apply (uo_ip _ Hok)|done].
  - destruct Ho as (Hb & Hp). by apply rx_step_ok.
Qed.

Lemma init_ok ip : ip_wf ip -> udp_ok (Ui ip (replicate UDP_MAX_PORTS (UPort 0 0 [] 0 false))).
Proof. intros Hip. split; [done|done|constructor|]. repeat (constructor; [cbn; repeat split; try lia; constructor|]). constructor. Qed.

Lemma udp_sockets_ok os : forall ui, udp_ok ui -> Forall udp_op_ok os -> exists ui', udp_run os ui = Some ui' /\ udp_ok ui'.
Proof.
  induction os as [|o os IH]; intros ui Hok Ho; [by exists ui|]. apply Forall_cons in Ho as [Ho Hos]. cbn [udp_run].
  destruct (udp_step_ok o ui Hok Ho) as (ui1 & -> & Hok1). by apply IH.
Qed.

(** C31 Sockets do not get in each other's way: whatever programs do with valid sockets, with at most
    1472 bytes to send, and whatever packets arrive whose header and stated length lie in their buffer (IP
    checks no more than the header's claim, see [ip_length_trusted]), no operation fails, the ports of the open sockets stay distinct, so
    that a datagram has one receiver, and no more than two datagrams wait on a socket. *)
Theorem udp_sockets (ip : W) info os : ip_wf (ip_register ip IPPROTO_UDP udp_rx_cb info) -> Forall udp_op_ok os ->
  exists ui ui', _udp_init ip true info = Some ui /\ udp_run os ui = Some ui' /\
    length (ui_ports ui') = UDP_MAX_PORTS /\ NoDup (used_ports (ui_ports ui')) /\
    Forall (fun u => (length (up_rxqueue u) <= 2)%nat) (ui_ports ui').
Proof.
  intros Hip Ho. eexists. destruct (udp_sockets_ok os (Ui (ip_register ip IPPROTO_UDP udp_rx_cb info) (replicate UDP_MAX_PORTS (UPort 0 0 [] 0 false)))) as (ui' & E & [H1 H2 H3 H4]); [|done|].
  - by apply init_ok.
  - exists ui'. split; [reflexivity|]. split; [exact E|]. split; [done|]. split; [done|]. eapply Forall_impl; [exact H4|]. intros u Hu. apply Hu.
Qed.
End sockets.

(** * Two hosts *)

Definition ex_udp (i : ip_info) (os : list udp_op) : udp_info ip_info :=
  match _udp_init i true 0 with
  | Some ui => match udp_run os ui with Some ui => ui | None => Ui i [] end
  | None => Ui i []
  end.
Definition ex_near_udp : udp_info ip_info := ex_udp ex_near [USocket 69 5; UBind 0 2000].
Definition ex_far_udp : udp_info ip_info := ex_udp ex_far [USocket 2000 5; UBind 0 69].
Definition ex_recorded (ui : udp_info ip_info) : udp_info (recorded ip_info) := Ui (Rec (ui_ipinfo ui) []) (ui_ports ui).
Definition ex_udp_port (ui : udp_info ip_info) : udp_port := default (UPort 0 0 [] 0 false) (ui_ports ui !! 0%nat).
(** A buffer of the near host, filled, and the one that the far host receives into. *)
Definition ex_hold (port ptr : Z) (s : bytes) : ebuf :=
  Ebuf 0 (Z.of_nat (length s)) 0 port ptr (replicate (Z.to_nat ptr) 0 ++ s ++ replicate (eb_size - Z.to_nat ptr - length s) 0).

Lemma ex_hold_ok port ptr s : 0 <= ptr -> ptr + Z.of_nat (length s) <= 1500 -> holds (ex_hold port ptr s) /\ payload (ex_hold port ptr s) = s.
Proof.
  intros Hp Hs. split.
  - split; cbn; rewrite ?length_app, ?length_replicate; unfold eb_size; lia.
  - unfold payload, ex_hold. cbn [eb_length eb_ptr eb_data]. rewrite Nat2Z.id, drop_app_length' by (rewrite length_replicate; done). apply take_app_length.
Qed.

Lemma ex_near_udp_ok : udp_ok ex_near_udp /\ ui_ports ex_near_udp !! 0%nat = Some (UPort 69 2000 [] 2 true).
Proof.
  split; [|vm_compute; reflexivity]. unfold ex_near_udp, ex_udp. cbn [_udp_init negb].
  assert (Hip : ip_wf (ip_register ex_near IPPROTO_UDP udp_rx_cb 0)) by (apply (set_protocols_ok ex_near); exact ex_near_ok).
  destruct (udp_sockets_ok [USocket 69 5; UBind 0 2000] _ (init_ok _ Hip)) as (ui & -> & H); [repeat constructor; unfold valid_sock; try lia|done].
Qed.

Definition ex_dgram : ebuf := ex_hold (ip_port ex_near) 42 [1; 2; 3].
Definition ex_packet_bytes : bytes := udp_bytes [10; 0; 0; 1] [10; 0; 0; 2] 2000 69 [1; 2; 3].

Lemma udp_delivers_witness : exists near' far' far'' d,
  _udp_send (ex_recorded ex_near_udp) 0 ex_dgram [10; 0; 0; 2] = Some (0, near') /\
  _udp_rx_callback (ex_recorded ex_far_udp) (ex_hold 1 34 ex_packet_bytes) [10; 0; 0; 2] [10; 0; 0; 1] = Some (Kept, far') /\
  udp_recvs 1 far' 0 = Some ([d], far'') /\ payload (dg_buf d) = [1; 2; 3] /\ eb_usrdata d = 2000.
Proof.
  assert (Hr : rec_ok [10; 0; 0; 1] (ui_ipinfo (ex_recorded ex_near_udp))) by (split; [apply (uo_ip _ (proj1 ex_near_udp_ok))|vm_compute; reflexivity]).
  assert (Hu : udp_at (ex_recorded ex_near_udp) 0 = Some (UPort 69 2000 [] 2 true)) by exact (proj2 ex_near_udp_ok).
  destruct (ex_hold_ok (ip_port ex_near) 42 [1; 2; 3]) as [Hb Hp]; [lia|cbn; lia|]. fold ex_dgram in Hb, Hp.
  assert (Hub : udp_buf (ex_recorded ex_near_udp) ex_dgram) by (split; [exact Hb|vm_compute; reflexivity|reflexivity]).
  assert (Hq : match _udp_send (ex_recorded ex_near_udp) 0 ex_dgram [10; 0; 0; 2] with Some (_, ui) => udp_sent ui | None => [] end = [([10; 0; 0; 2], ex_packet_bytes)]) by (vm_compute; reflexivity).
  destruct (ex_hold_ok 1 34 ex_packet_bytes) as [Hb' Hp']; [lia|vm_compute; discriminate|].
  destruct (udp_delivers [10; 0; 0; 1] (ex_recorded ex_near_udp) 0 _ ex_dgram [10; 0; 0; 2] Hr Hu Hub eq_refl eq_refl) as (near' & q & E1 & _ & Hs & Hd); [cbn; lia|cbn; lia|].
  rewrite E1, Hs in Hq. change (udp_sent (ex_recorded ex_near_udp)) with (@nil (bytes * bytes)) in Hq. cbn [app] in Hq. injection Hq as Hq.
  assert (Hv : udp_at (ex_recorded ex_far_udp) 0 = Some (UPort 2000 69 [] 2 true)) by (vm_compute; reflexivity).
  assert (Hf : _udp_find_port (ex_recorded ex_far_udp) 69 = Some 0) by (vm_compute; reflexivity).
  destruct (Hd (ex_recorded ex_far_udp) 0 _ (ex_hold 1 34 ex_packet_bytes) Hf Hv ltac:(cbn; lia) Hb' (eq_trans Hp' (eq_sym Hq))) as (far' & far'' & d & E2 & E3 & E4 & E5 & _).
  exists near', far', far'', d. rewrite Hp in E4. split; [exact E1|]. split; [exact E2|]. split; [exact E3|]. split; [exact E4|exact E5].
Defined.

Lemma udp_sockets_witness : exists ui ui', _udp_init ex_near true 0 = Some ui /\
  udp_run [USocket 69 5; USocket 69 5; UBind 1 2000; USend 1 [1; 2; 3] [10; 0; 0; 2]; URx (ex_hold 1 34 ex_packet_bytes) [10; 0; 0; 1] [10; 0; 0; 2]; URecv 0; UClose 0] ui = Some ui' /\
  NoDup (used_ports (ui_ports ui')).
Proof.
  destruct (ex_hold_ok 1 34 ex_packet_bytes) as [Hb _]; [lia|vm_compute; discriminate|].
  destruct (udp_sockets ex_near 0 [USocket 69 5; USocket 69 5; UBind 1 2000; USend 1 [1; 2; 3] [10; 0; 0; 2]; URx (ex_hold 1 34 ex_packet_bytes) [10; 0; 0; 1] [10; 0; 0; 2]; URecv 0; UClose 0])
    as (ui & ui' & E1 & E2 & _ & E3 & _).
  - apply (set_protocols_ok ex_near). exact ex_near_ok.
  - repeat constructor; unfold valid_sock; try lia; try done; cbn; lia.
  - exists ui, ui'. split; [exact E1|]. split; [exact E2|exact E3].
Defined.

(** A datagram whose length is said to be four is taken, and its data are then said to be
    nearly four gigabytes. *)
Example udp_length_underflow :
  match _udp_rx_callback ex_far_udp (ebuf_setlength (ex_hold 1 34 [7; 208; 0; 69; 0; 4; 0; 0]) 4) [10; 0; 0; 2] [10; 0; 0; 1] with
  | Some (Kept, ui) => map (fun d => eb_length (dg_buf d)) (up_rxqueue (ex_udp_port ui))
  | _ => []
  end = [2 ^ 32 - 4].
Proof. vm_compute. reflexivity. Qed.
