(* ===== verification/Tftp.v ===== *)
(** TFTP of the boot loader: cfe/cfe/net/net_tftp.c.

    The client and the little server, as a file system: open, read, write, seek, close,
    over the class [UdpApi] of the calls of net_api.c that they make. *)

From S2P Require Import Prelude Ether Ip IpApi Tcp Udp.
From Stdlib Require Import ZArith Lia Bool List String.
From stdpp Require Import base numbers list.

#[local] Open Scope Z_scope.

(** The calls of net_api.c. *)
Class UdpApi (W : Type) := {
  udp_socket : W -> Z -> option (Z * W);
  udp_bind : W -> Z -> Z -> option (Z * W);
  udp_connect : W -> Z -> Z -> option (Z * W);
  udp_close : W -> Z -> option W;
  udp_alloc : W -> option (option ebuf * W);
  udp_free : W -> ebuf -> W;
  udp_send : W -> Z -> ebuf -> bytes -> option (Z * W);
  udp_recv_with_timeout : W -> Z -> Z -> option (option datagram * W)
}.

Definition UDP_PROTO_TFTP := 69.
Definition TFTP_BLOCKSIZE := 512.
Definition TFTP_OP_RRQ := 1.
Definition TFTP_OP_WRQ := 2.
Definition TFTP_OP_DATA := 3.
Definition TFTP_OP_ACK := 4.
Definition TFTP_OP_ERROR := 5.
Definition TFTP_ERR_DISKFULL := 3.
Definition TFTP_MAX_RETRIES : nat := 8.
Definition TFTP_RRQ_TIMEOUT := CFE_HZ.
Definition TFTP_RECV_TIMEOUT := CFE_HZ.
Definition FILE_MODE_READ := 1.
Definition FILE_MODE_WRITE := 2.
Definition FILE_SEEK_BEGINNING := 0.
Definition FILE_SEEK_CURRENT := 1.
Definition CFE_ERR_IOERR := -4.
Definition CFE_ERR_TIMEOUT := -21.
Definition CFE_ERR_PROTOCOLERR := -22.
Definition CFE_ERR_INTR := -41.

(** [tftp_data] always has 512 bytes. *)
Record tftp_info := Tftp {
  tftp_socket : Z;
  tftp_data : bytes;
  tftp_blklen : Z;
  tftp_blkoffset : Z;
  tftp_fileoffset : Z;
  tftp_blknum : Z;
  tftp_ipaddr : bytes;
  tftp_lastblock : Z;
  tftp_error : Z;
  tftp_filemode : Z
}.

Definition with_socket (t : tftp_info) (v : Z) : tftp_info :=
  Tftp v (tftp_data t) (tftp_blklen t) (tftp_blkoffset t) (tftp_fileoffset t) (tftp_blknum t) (tftp_ipaddr t) (tftp_lastblock t) (tftp_error t) (tftp_filemode t).
Definition with_data (t : tftp_info) (v : bytes) : tftp_info :=
  Tftp (tftp_socket t) v (tftp_blklen t) (tftp_blkoffset t) (tftp_fileoffset t) (tftp_blknum t) (tftp_ipaddr t) (tftp_lastblock t) (tftp_error t) (tftp_filemode t).
Definition with_blklen (t : tftp_info) (v : Z) : tftp_info :=
  Tftp (tftp_socket t) (tftp_data t) v (tftp_blkoffset t) (tftp_fileoffset t) (tftp_blknum t) (tftp_ipaddr t) (tftp_lastblock t) (tftp_error t) (tftp_filemode t).
Definition with_blkoffset (t : tftp_info) (v : Z) : tftp_info :=
  Tftp (tftp_socket t) (tftp_data t) (tftp_blklen t) v (tftp_fileoffset t) (tftp_blknum t) (tftp_ipaddr t) (tftp_lastblock t) (tftp_error t) (tftp_filemode t).
Definition with_fileoffset (t : tftp_info) (v : Z) : tftp_info :=
  Tftp (tftp_socket t) (tftp_data t) (tftp_blklen t) (tftp_blkoffset t) v (tftp_blknum t) (tftp_ipaddr t) (tftp_lastblock t) (tftp_error t) (tftp_filemode t).
Definition with_blknum (t : tftp_info) (v : Z) : tftp_info :=
  Tftp (tftp_socket t) (tftp_data t) (tftp_blklen t) (tftp_blkoffset t) (tftp_fileoffset t) v (tftp_ipaddr t) (tftp_lastblock t) (tftp_error t) (tftp_filemode t).
Definition with_ipaddr (t : tftp_info) (v : bytes) : tftp_info :=
  Tftp (tftp_socket t) (tftp_data t) (tftp_blklen t) (tftp_blkoffset t) (tftp_fileoffset t) (tftp_blknum t) v (tftp_lastblock t) (tftp_error t) (tftp_filemode t).
Definition with_lastblock (t : tftp_info) (v : Z) : tftp_info :=
  Tftp (tftp_socket t) (tftp_data t) (tftp_blklen t) (tftp_blkoffset t) (tftp_fileoffset t) (tftp_blknum t) (tftp_ipaddr t) v (tftp_error t) (tftp_filemode t).
Definition with_error (t : tftp_info) (v : Z) : tftp_info :=
  Tftp (tftp_socket t) (tftp_data t) (tftp_blklen t) (tftp_blkoffset t) (tftp_fileoffset t) (tftp_blknum t) (tftp_ipaddr t) (tftp_lastblock t) v (tftp_filemode t).
Definition with_filemode (t : tftp_info) (v : Z) : tftp_info :=
  Tftp (tftp_socket t) (tftp_data t) (tftp_blklen t) (tftp_blkoffset t) (tftp_fileoffset t) (tftp_blknum t) (tftp_ipaddr t) (tftp_lastblock t) (tftp_error t) v.

(** The bytes of a packet are copied to the start of [tftp_data], whose size is not
    looked at. *)
Definition get_block (t : tftp_info) (buf : ebuf) : option tftp_info :=
  let t := with_blklen t (sint32 (eb_length buf)) in
  assert! eb_length buf <=? TFTP_BLOCKSIZE in
  let? (s, _) := ebuf_get_bytes buf (eb_length buf) in
  Some (with_data t (splice (tftp_data t) 0 s)).

Section tftp.
Context {W : Type} `{UdpApi W}.

(** Host names: dns_lookup of net_dns.c. *)
Variable dns_lookup : W -> bytes -> option (Z * bytes * W).

(** Sending the request until a datagram arrives; the last result is what arrived. *)
Fixpoint request_loop (retries : nat) (w : W) (t : tftp_info) (filename : bytes) : option (option datagram * W) :=
  match retries with
  | O => Some (None, w)
  | S retries =>
      let? (b, w) := udp_alloc w in
      match b with
      | None => Some (None, w)
      | Some buf =>
          let? buf := ebuf_append_u16_be buf (if tftp_filemode t =? FILE_MODE_READ then TFTP_OP_RRQ else TFTP_OP_WRQ) in
          let? buf := ebuf_append_bytes buf (filename ++ [0]) in
          let? buf := ebuf_append_bytes buf [111; 99; 116; 101; 116; 0] in
          let? (_, w) := udp_send w (tftp_socket t) buf (tftp_ipaddr t) in
          let? (d, w) := udp_recv_with_timeout w (tftp_socket t) TFTP_RRQ_TIMEOUT in
          match d with Some d => Some (Some d, w) | None => request_loop retries w t filename end
      end
  end.

Definition _tftp_open (w : W) (t : tftp_info) (hostname filename : bytes) (mode : Z) : option (Z * tftp_info * W) :=
  let? (res, addr, w) := dns_lookup w hostname in
  if res <? 0 then Some (res, t, w)
  else
    let t := with_ipaddr t addr in
    let? (s, w) := udp_socket w UDP_PROTO_TFTP in
    let t := with_filemode (with_error (with_lastblock (with_socket t s) 0) 0) mode in
    let? (d, w) := request_loop TFTP_MAX_RETRIES w t filename in
    match d with
    | None => let? w := udp_close w (tftp_socket t) in Some (CFE_ERR_TIMEOUT, with_socket t (-1), w)
    | Some d =>
        let refuse buf := let? w := udp_close (udp_free w buf) (tftp_socket t) in Some (CFE_ERR_PROTOCOLERR, with_socket t (-1), w) in
        let? (type, buf) := ebuf_get_u16_be (dg_buf d) in
        if (type =? TFTP_OP_ACK) && (tftp_filemode t =? FILE_MODE_WRITE) then
          let? (_, w) := udp_connect w (tftp_socket t) (wrap16 (eb_usrdata d)) in
          Some (0, with_blklen (with_blknum t 1) 0, udp_free w buf)
        else if type =? TFTP_OP_ERROR then
          let? (error, buf) := ebuf_get_u16_be buf in refuse buf
        else if type =? TFTP_OP_DATA then
          let? (block, buf) := ebuf_get_u16_be buf in
          let? (_, w) := udp_connect w (tftp_socket t) (wrap16 (eb_usrdata d)) in
          let? t := get_block (with_blknum t block) buf in
          Some (0, if tftp_blklen t <? TFTP_BLOCKSIZE then with_lastblock t 1 else t, udp_free w buf)
        else refuse buf
    end.

(** A packet of an operation and a block number, with data or without. *)
Definition send_block (w : W) (t : tftp_info) (op : Z) (data : bytes) : option (option W * W) :=
  let? (b, w) := udp_alloc w in
  match b with
  | None => Some (None, w)
  | Some buf =>
      let? buf := ebuf_append_u16_be buf op in
      let? buf := ebuf_append_u16_be buf (tftp_blknum t) in
      let? buf := ebuf_append_bytes buf data in
      let? (_, w) := udp_send w (tftp_socket t) buf (tftp_ipaddr t) in
      Some (Some w, w)
  end.

(** The loop's result: what _tftp_readmore returns at once, or a block that was read. *)
Fixpoint readmore_loop (retries : nat) (w : W) (t : tftp_info) : option (Z * tftp_info * W) :=
  match retries with
  | O => Some (CFE_ERR_TIMEOUT, with_error t 1, w)
  | S retries =>
      let? (sent, w) := send_block w t TFTP_OP_ACK [] in
      match sent with
      | None => Some (-1, t, w)
      | Some w =>
          let? (d, w) := udp_recv_with_timeout w (tftp_socket t) TFTP_RECV_TIMEOUT in
          match d with
          | None => readmore_loop retries w t
          | Some d =>
              let? (cmd, buf) := ebuf_get_u16_be (dg_buf d) in
              if negb (cmd =? TFTP_OP_DATA) then readmore_loop retries (udp_free w buf) t
              else
                let? (block, buf) := ebuf_get_u16_be buf in
                if negb (block =? tftp_blknum t + 1) then readmore_loop retries (udp_free w buf) t
                else
                  let? t := get_block (with_blknum t block) buf in
                  Some (0, if tftp_blklen t <? TFTP_BLOCKSIZE then with_lastblock t 1 else t, udp_free w buf)
          end
      end
  end.

Definition _tftp_readmore (w : W) (t : tftp_info) : option (Z * tftp_info * W) :=
  if truthy (tftp_lastblock t) then Some (1, t, w)
  else if truthy (tftp_error t) then Some (CFE_ERR_TIMEOUT, t, w)
  else readmore_loop TFTP_MAX_RETRIES w t.

Fixpoint writemore_loop (retries : nat) (w : W) (t : tftp_info) : option (Z * tftp_info * W) :=
  match retries with
  | O => Some (CFE_ERR_TIMEOUT, with_error t 1, w)
  | S retries =>
      let? (sent, w) := send_block w t TFTP_OP_DATA (take (Z.to_nat (tftp_blklen t)) (tftp_data t)) in
      match sent with
      | None => Some (-1, t, w)
      | Some w =>
          let? (d, w) := udp_recv_with_timeout w (tftp_socket t) TFTP_RECV_TIMEOUT in
          match d with
          | None => writemore_loop retries w t
          | Some d =>
              let? (cmd, buf) := ebuf_get_u16_be (dg_buf d) in
              if cmd =? TFTP_OP_ERROR then
                let? (error, buf) := ebuf_get_u16_be buf in
                Some (CFE_ERR_IOERR, with_lastblock (with_error t 1) 1, udp_free w buf)
              else if negb (cmd =? TFTP_OP_ACK) then writemore_loop retries (udp_free w buf) t
              else
                let? (block, buf) := ebuf_get_u16_be buf in
                if negb (block =? tftp_blknum t) then writemore_loop retries (udp_free w buf) t
                else
                  let t := with_blknum t (wrap16 (tftp_blknum t + 1)) in
                  Some (0, if negb (tftp_blklen t =? TFTP_BLOCKSIZE) then with_lastblock t 1 else t, udp_free w buf)
          end
      end
  end.

Definition _tftp_writemore (w : W) (t : tftp_info) : option (Z * tftp_info * W) :=
  if truthy (tftp_lastblock t) then Some (1, t, w)
  else if truthy (tftp_error t) then Some (CFE_ERR_TIMEOUT, t, w)
  else writemore_loop TFTP_MAX_RETRIES w t.

Definition emsg : bytes := [116; 114; 97; 110; 115; 102; 101; 114; 32; 99; 97; 110; 99; 101; 108; 108; 101; 100].

Definition _tftp_close (w : W) (t : tftp_info) : option (Z * tftp_info * W) :=
  if tftp_socket t =? -1 then Some (0, t, w)
  else
    let? (t, w) :=
      if tftp_filemode t =? FILE_MODE_READ then
        let? (b, w) := udp_alloc w in
        match b with
        | None => Some (t, w)
        | Some buf =>
            let? buf :=
              if truthy (tftp_lastblock t) then
                let? buf := ebuf_append_u16_be buf TFTP_OP_ACK in
                ebuf_append_u16_be buf (tftp_blknum t)
              else
                let? buf := ebuf_append_u16_be buf TFTP_OP_ERROR in
                let? buf := ebuf_append_u16_be buf TFTP_ERR_DISKFULL in
                ebuf_append_bytes buf (emsg ++ [0]) in
            let? (_, w) := udp_send w (tftp_socket t) buf (tftp_ipaddr t) in Some (t, w)
        end
      else let? (_, t, w) := _tftp_writemore w t in Some (t, w) in
    let? w := udp_close w (tftp_socket t) in
    Some (0, with_socket t (-1), w).

(** * The file system *)

(** The host and the file of a name; a name without a separator has no file. *)
Fixpoint split_at (f : Z -> bool) (s : bytes) : option (bytes * bytes) :=
  match s with
  | [] => None
  | c :: s => if f c then Some ([], s) else let? (a, b) := split_at f s in Some (c :: a, b)
  end.

Definition lib_chop_filename (s : bytes) : bytes * option bytes :=
  match split_at (Z.eqb 58) s with
  | Some (host, file) => (host, Some file)
  | None => match split_at (Z.eqb 47) s with Some (host, file) => (host, Some file) | None => (s, None) end
  end.

(** Reading: the bytes copied, as many as are asked for unless the file ends. *)
Fixpoint read_loop (fuel : nat) (w : W) (t : tftp_info) (len : Z) : option (bytes * tftp_info * W) :=
  if len =? 0 then Some ([], t, w)
  else
    match fuel with
    | O => None
    | S fuel =>
        if tftp_blklen t <=? tftp_blkoffset t then Some ([], t, w)
        else
          let amtcopy := if tftp_blklen t - tftp_blkoffset t <? len then tftp_blklen t - tftp_blkoffset t else len in
          let s := take (Z.to_nat amtcopy) (drop (Z.to_nat (tftp_blkoffset t)) (tftp_data t)) in
          let t := with_fileoffset (with_blkoffset t (tftp_blkoffset t + amtcopy)) (tftp_fileoffset t + amtcopy) in
          let len := len - amtcopy in
          if tftp_blklen t <=? tftp_blkoffset t then
            let? (res, t, w) := _tftp_readmore w t in
            if negb (res =? 0) then Some (s, t, w)
            else let? (s', t, w) := read_loop fuel w (with_blkoffset t 0) len in Some (s ++ s', t, w)
          else let? (s', t, w) := read_loop fuel w t len in Some (s ++ s', t, w)
    end.

(** A negative length never runs out. *)
Definition tftp_fileop_read (w : W) (t : tftp_info) (len : Z) : option (Z * bytes * tftp_info * W) :=
  if truthy (tftp_error t) then Some (CFE_ERR_IOERR, [], t, w)
  else if tftp_filemode t =? FILE_MODE_WRITE then Some (CFE_ERR_UNSUPPORTED, [], t, w)
  else
    let? (s, t, w) := read_loop (S (Z.to_nat len)) w t len in
    Some (Z.of_nat (length s), s, t, w).

Fixpoint write_loop (fuel : nat) (w : W) (t : tftp_info) (buf : bytes) (copied : Z) : option (Z * tftp_info * W) :=
  match buf with
  | [] => Some (copied, t, w)
  | _ :: _ =>
      match fuel with
      | O => None
      | S fuel =>
          let len := Z.of_nat (length buf) in
          let amtcopy := if TFTP_BLOCKSIZE - tftp_blklen t <? len then TFTP_BLOCKSIZE - tftp_blklen t else len in
          let s := take (Z.to_nat amtcopy) buf in
          let t := with_data t (splice (tftp_data t) (Z.to_nat (tftp_blklen t)) s) in
          let t := with_fileoffset (with_blklen t (tftp_blklen t + amtcopy)) (tftp_fileoffset t + amtcopy) in
          if tftp_blklen t =? TFTP_BLOCKSIZE then
            let? (res, t, w) := _tftp_writemore w t in
            if negb (res =? 0) then Some (copied + amtcopy, t, w)
            else write_loop fuel w (with_blklen t 0) (drop (Z.to_nat amtcopy) buf) (copied + amtcopy)
          else write_loop fuel w t (drop (Z.to_nat amtcopy) buf) (copied + amtcopy)
      end
  end.

Definition tftp_fileop_write (w : W) (t : tftp_info) (buf : bytes) : option (Z * tftp_info * W) :=
  if truthy (tftp_error t) then Some (CFE_ERR_IOERR, t, w)
  else if tftp_filemode t =? FILE_MODE_READ then Some (CFE_ERR_UNSUPPORTED, t, w)
  else write_loop (S (length buf)) w t buf 0.

Definition tftp_fileop_seek (w : W) (t : tftp_info) (offset how : Z) : option (Z * tftp_info * W) :=
  if tftp_filemode t =? FILE_MODE_WRITE then Some (CFE_ERR_UNSUPPORTED, t, w)
  else
    let startloc := if how =? FILE_SEEK_BEGINNING then tftp_fileoffset t else 0 in
    let delta := sint32 (offset - startloc) in
    if delta <? 0 then Some (CFE_ERR_UNSUPPORTED, t, w)
    else
      let? (res, _, t, w) := tftp_fileop_read w t delta in
      if res <? 0 then Some (res, t, w) else Some (tftp_fileoffset t, t, w).

(** * The server *)

(** What the rescue mode of the server calls besides; [console_waiting] reads the characters
    that have been typed, as far as a control-C, and [eb_usrptr] is what is found where that field of a received
    datagram points, a frame of the stack that is no longer in use. *)
Class RescueApi := {
  console_waiting : W -> bytes * W;
  eb_usrptr : W -> bytes;
  net_setparam : W -> ip_param -> bytes -> W;
  net_setnetvars : W -> W;
  arp_delete : W -> bytes -> W;
  arp_add : W -> bytes -> bytes -> W
}.

(** The global variables. *)
Record rescue := Rescue { tftpipfrom : bytes; tftpipto : bytes; ackport : Z }.

Context `{RescueApi}.

Fixpoint typed (cs : bytes) (ch : Z) : Z :=
  match cs with [] => ch | c :: cs => if c =? 3 then 3 else typed cs c end.

Definition asuslink : bytes := [65; 83; 85; 83; 83; 80; 65; 67; 69; 76; 73; 78; 75].
Definition maclink : bytes := [115; 110] ++ replicate 11 120.

(** The answer to a read request of the rescue tool: the address it asks for is taken, and
    the buffer that was sent is returned to be freed again. *)
Definition rescue_link (w : W) (t : tftp_info) (g : rescue) (buf : ebuf) : option (option ebuf * rescue * W) :=
  let? a := eb_read buf (eb_ptr buf + 13) 4 in
  let g := Rescue (rev a) (eb_usrptr w) (ackport g) in
  let w := net_setparam w (NET_IPADDR) (tftpipfrom g) in
  let w := net_setnetvars (net_setparam w (NET_NETMASK) [255; 255; 255; 0]) in
  let? hwaddr := eb_read buf 6 6 in
  let? (b, w) := udp_alloc w in
  match b with
  | None => Some (None, g, w)
  | Some buf =>
      let? buf := ebuf_append_u16_be buf 3 in
      let? buf := ebuf_append_u16_be buf 1 in
      let w := arp_add (arp_delete w (tftpipto g)) (tftpipto g) hwaddr in
      let? (_, w) := udp_send w (tftp_socket t) buf (tftpipto g) in Some (Some buf, g, w)
  end.

Fixpoint listen_loop (retries : nat) (w : W) (t : tftp_info) (g : rescue) (ch : Z) : option (Z * tftp_info * rescue * W) :=
  match retries with
  | O => Some (CFE_ERR_TIMEOUT, t, g, w)
  | S retries =>
      let '(cs, w) := console_waiting w in
      let ch := typed cs ch in
      if ch =? 3 then Some (CFE_ERR_INTR, t, g, w)
      else
        let? (d, w) := udp_recv_with_timeout w (tftp_socket t) (TFTP_RECV_TIMEOUT / 3) in
        match d with
        | None => listen_loop retries w t g ch
        | Some d =>
            let? (type, buf) := ebuf_get_u16_be (dg_buf d) in
            if type =? TFTP_OP_RRQ then
              let? (_, w) := udp_connect w (tftp_socket t) (wrap16 (eb_usrdata d)) in
              let g := Rescue (tftpipfrom g) (tftpipto g) (wrap16 (eb_usrdata d)) in
              let t := with_blklen (with_blknum (with_ipaddr t (eb_usrptr w)) 1) 0 in
              let? name := eb_read buf (eb_ptr buf) 13 in
              if bytes_eqb name asuslink || bytes_eqb name maclink then
                let? (b, g, w) := rescue_link w t g buf in
                let? buf := b in Some (CFE_ERR_TIMEOUT, t, g, udp_free w buf)
              else Some (CFE_ERR_TIMEOUT, t, g, udp_free w buf)
            else if type =? TFTP_OP_WRQ then
              let? (_, w) := udp_connect w (tftp_socket t) (wrap16 (eb_usrdata d)) in
              let t := with_blknum (with_ipaddr t (eb_usrptr w)) 0 in
              let? (res, t, w) := _tftp_readmore w t in Some (res, t, g, udp_free w buf)
            else Some (CFE_ERR_PROTOCOLERR, t, g, udp_free w buf)
        end
  end.

Definition _tftpd_open (w : W) (t : tftp_info) (g : rescue) (mode : Z) : option (Z * tftp_info * rescue * W) :=
  let? (s, w) := udp_socket w UDP_PROTO_TFTP in
  let t := with_filemode (with_error (with_lastblock (with_socket t s) 0) 0) mode in
  let? (res, w) := udp_bind w (tftp_socket t) UDP_PROTO_TFTP in
  if res <? 0 then Some (res, t, g, w)
  else
    let? (res, t, g, w) := listen_loop TFTP_MAX_RETRIES w t g 0 in
    if truthy res then let? w := udp_close w (tftp_socket t) in Some (res, with_socket t (-1), g, w)
    else Some (res, t, g, w).

Definition send_rescueack (w : W) (g : rescue) (no lo : Z) : option (Z * W) :=
  let? (s, w) := udp_socket w UDP_PROTO_TFTP in
  let? (res, w) := udp_bind w s 69 in
  if res <? 0 then Some (res, w)
  else
    let? (_, w) := udp_connect w s (ackport g) in
    let? (b, w) := udp_alloc w in
    match b with
    | None => Some (-1, w)
    | Some buf =>
        let? buf := ebuf_append_u16_be buf no in
        let? buf := ebuf_append_u16_be buf lo in
        let? (_, w) := udp_send w s buf (tftpipto g) in
        let? w := udp_close (udp_free w buf) s in Some (0, w)
    end.

(** [got] is whether KMALLOC gave the structure, and [got_name] the copy of the name; a name
    without a host needs a file to look at. *)
Definition tftp_fileop_open (w : W) (g : rescue) (t : tftp_info) (got got_name : bool) (filename : bytes) (mode : Z) :
  option (Z * tftp_info * rescue * W) :=
  if negb (mode =? FILE_MODE_READ) && negb (mode =? FILE_MODE_WRITE) then Some (CFE_ERR_UNSUPPORTED, t, g, w)
  else if negb (got && got_name) then Some (CFE_ERR_NOMEM, t, g, w)
  else
    let '(host, file) := lib_chop_filename filename in
    let? file := file in
    let? (res, t, g, w) :=
      match host, file with
      | [], [] => _tftpd_open w t g mode
      | _, _ => let? (res, t, w) := _tftp_open w t host file mode in Some (res, t, g, w)
      end in
    Some (res, if res =? 0 then with_fileoffset (with_blkoffset t 0) 0 else t, g, w).

Definition tftp_fileop_close (w : W) (t : tftp_info) : option W :=
  let? (_, t, w) := _tftp_close w t in Some w.

End tftp.
