(* ===== verification/TftpFile.v ===== *)
(** What TFTP promises to a reader: the bytes that a client reads are those of the file the
    server serves, whatever packets are lost, repeated or delayed. *)

From S2P Require Import Prelude Ether Ip IpApi Tcp Udp Tftp.
From Stdlib Require Import ZArith Lia Bool List String.
From stdpp Require Import base numbers list.

#[local] Open Scope Z_scope.

(** * The other end *)

(** What has happened on the socket. *)
Inductive event := EvSend (p : bytes) | EvRecv (p : bytes) | EvNoBuf.

#[export] Instance event_eq_dec : EqDecision event.
Proof. solve_decision. Defined.

(** The blocks of a file: all full but the last, which may be empty. *)
Definition block (F : bytes) (n : Z) : bytes := take 512 (drop (Z.to_nat (512 * (n - 1))) F).
Definition has_block (F : bytes) (n : Z) : Prop := 1 <= n < 65536 /\ 512 * (n - 1) <= Z.of_nat (length F).
Definition data_packet (n : Z) (s : bytes) : bytes := be16 TFTP_OP_DATA ++ be16 n ++ s.
Definition ack_packet (n : Z) : bytes := be16 TFTP_OP_ACK ++ be16 n.

(** A server of [F] sends a block after the one before it was acknowledged; packets that are
    not data may be anything. *)
Definition served (F : bytes) (evs : list event) (p : bytes) : Prop :=
  (4 <= length p)%nat /\
  (take 2 p = be16 TFTP_OP_DATA ->
   exists n, p = data_packet n (block F n) /\ has_block F n /\ (n = 1 \/ EvSend (ack_packet (n - 1)) ∈ evs)).

(** The calls, with a peer that sends packets of which [good] holds at the time. *)
Class TftpPeer (W : Type) `{UdpApi W} := {
  pw_good : list event -> bytes -> Prop;
  pw_ok : W -> Prop;
  pw_trace : W -> list event;
  pw_open : W -> Z -> Prop;
  pw_tx : W -> ebuf -> Prop;
  peer_socket w port : pw_ok w -> exists s w', udp_socket w port = Some (s, w') /\ pw_ok w' /\ pw_trace w' = pw_trace w /\ pw_open w' s;
  peer_connect w s port : pw_ok w -> pw_open w s -> exists r w', udp_connect w s port = Some (r, w') /\ pw_ok w' /\ pw_trace w' = pw_trace w /\ pw_open w' s;
  peer_close w s : pw_ok w -> pw_open w s -> exists w', udp_close w s = Some w' /\ pw_ok w' /\ pw_trace w' = pw_trace w;
  peer_free w b s : pw_ok w -> sized b -> pw_open w s -> pw_ok (udp_free w b) /\ pw_trace (udp_free w b) = pw_trace w /\ pw_open (udp_free w b) s;
  peer_alloc w s : pw_ok w -> pw_open w s -> exists o w', udp_alloc w = Some (o, w') /\ pw_ok w' /\ pw_open w' s /\
    match o with
    | None => pw_trace w' = pw_trace w ++ [EvNoBuf]
    | Some b => pw_trace w' = pw_trace w /\ pw_tx w' b /\ holds b /\ payload b = [] /\ eb_ptr b = 42
    end;
  peer_send w s b0 b p dst : pw_ok w -> pw_open w s -> pw_tx w b0 -> filled b0 b p -> length dst = 4%nat ->
    exists r w', udp_send w s b dst = Some (r, w') /\ pw_ok w' /\ pw_open w' s /\ pw_trace w' = pw_trace w ++ [EvSend p];
  peer_recv w s ticks : pw_ok w -> pw_open w s -> exists o w', udp_recv_with_timeout w s ticks = Some (o, w') /\ pw_ok w' /\ pw_open w' s /\
    match o with
    | None => pw_trace w' = pw_trace w
    | Some d => holds (dg_buf d) /\ Forall byte_ok (payload (dg_buf d)) /\ pw_good (pw_trace w) (payload (dg_buf d)) /\ pw_trace w' = pw_trace w ++ [EvRecv (payload (dg_buf d))]
    end
}.

Section client.
Context {W : Type} {UA : UdpApi W} {TP : TftpPeer W}.

(** Packets that the client sends. *)
Lemma send_block_ok w t op data : pw_ok w -> pw_open w (tftp_socket t) -> length (tftp_ipaddr t) = 4%nat -> (length data <= 512)%nat ->
  exists o w', send_block w t op data = Some (o, w') /\ pw_ok w' /\ pw_open w' (tftp_socket t) /\
    match o with
    | None => pw_trace w' = pw_trace w ++ [EvNoBuf]
    | Some w1 => w1 = w' /\ pw_trace w' = pw_trace w ++ [EvSend (be16 op ++ be16 (tftp_blknum t) ++ data)]
    end.
Proof.
  intros Hw Hs Ha Hd. destruct (peer_alloc w _ Hw Hs) as (o & w1 & E & Hw1 & Hs1 & Ho). unfold send_block. rewrite E. cbn [option_bind].
  destruct o as [b|]; [|by eexists _, _]. destruct Ho as (Ht & Htx & Hb & Hp & Hq). assert (Hf : filled b b []) by done. unfold ebuf_append_u16_be.
  destruct (append_filled b b [] (be16 op) Hf) as (b1 & -> & F1); [rewrite Hq; cbn; unfold eb_size; lia|]. cbn [option_bind app] in *.
  destruct (append_filled b b1 _ (be16 (tftp_blknum t)) F1) as (b2 & -> & F2); [rewrite Hq, length_app; cbn; unfold eb_size; lia|]. cbn [option_bind].
  destruct (append_filled b b2 _ data F2) as (b3 & -> & F3); [rewrite Hq, !length_app; cbn [length be16]; unfold eb_size; lia|]. cbn [option_bind].
  destruct (peer_send w1 _ b b3 _ (tftp_ipaddr t) Hw1 Hs1 Htx F3 Ha) as (r & w2 & -> & Hw2 & Hs2 & Ht2). rewrite <- app_assoc in Ht2.
  eexists _, _. split; [reflexivity|]. split; [done|]. split; [done|]. split; [done|]. by rewrite Ht2, Ht.
Qed.

(** The first two numbers of a packet that was received. *)
Lemma be16_of_be x y : byte_ok x -> byte_ok y -> be16 (of_be [x; y]) = [x; y] /\ 0 <= of_be [x; y] < 65536.
Proof.
  unfold byte_ok. intros Hx Hy. assert (Hv : of_be [x; y] = x * 256 + y).
  { unfold of_be. cbn [fold_left]. rewrite !lor_byte by lia. lia. }
  rewrite Hv. split; [|lia]. unfold be16. rewrite !land_ff, Z.shiftr_div_pow2 by lia. change (2 ^ 8) with 256. f_equal; [|f_equal].
  - rewrite Z.div_add_l, Z.div_small, Z.mod_small by lia. lia.
  - rewrite Z.add_comm, Z.mod_add, Z.mod_small; lia.
Qed.

Lemma get_op b : holds b -> (4 <= length (payload b))%nat -> Forall byte_ok (payload b) ->
  exists op num rest, 0 <= op < 65536 /\ 0 <= num < 65536 /\ payload b = be16 op ++ be16 num ++ rest /\
    ebuf_get_u16_be b = Some (op, ebuf_skip b 2) /\ ebuf_get_u16_be (ebuf_skip b 2) = Some (num, ebuf_skip (ebuf_skip b 2) 2) /\
    holds (ebuf_skip (ebuf_skip b 2) 2) /\ payload (ebuf_skip (ebuf_skip b 2) 2) = rest.
Proof.
  intros Hb Hl HF. destruct (payload b) as [|a1 [|a2 [|a3 [|a4 rest]]]] eqn:Hp; cbn [length] in Hl; try lia.
  rewrite !Forall_cons in HF. destruct HF as (B1 & B2 & B3 & B4 & _). destruct (be16_of_be a1 a2 B1 B2) as [E1 R1]. destruct (be16_of_be a3 a4 B3 B4) as [E2 R2].
  assert (P1 : payload b = be16 (of_be [a1; a2]) ++ a3 :: a4 :: rest) by (by rewrite E1). destruct (next_u16 b _ _ Hb P1 R1) as (G1 & H1 & Q1).
  assert (P2 : payload (ebuf_skip b 2) = be16 (of_be [a3; a4]) ++ rest) by (by rewrite E2). destruct (next_u16 _ _ _ H1 P2 R2) as (G2 & H2 & Q2).
  exists (of_be [a1; a2]), (of_be [a3; a4]), rest. rewrite E1, E2. done.
Qed.

Lemma get_block_ok t b s : holds b -> payload b = s -> (length s <= 512)%nat -> length (tftp_data t) = 512%nat ->
  get_block t b = Some (with_data (with_blklen t (Z.of_nat (length s))) (splice (tftp_data t) 0 s)).
Proof.
  intros Hb Hp Hs Hd. pose proof (payload_length b Hb) as Hl. rewrite Hp in Hl. unfold get_block. cbn zeta.
  rewrite (proj2 (Z.leb_le _ _)) by (unfold TFTP_BLOCKSIZE; lia).
  assert (Hsg : sint32 (eb_length b) = eb_length b) by (unfold sint32; rewrite wrap32_small by lia; rewrite (proj2 (Z.ltb_lt _ _)); lia). rewrite Hsg.
  destruct (get_ok b (eb_length b) Hb) as (b' & -> & _); [lia|]. cbn [option_bind]. rewrite Hp, take_ge by lia. by rewrite <- Hl.
Qed.

(** * Reading *)

Section reading.
Context (F : bytes).
Hypothesis peer_serves : forall evs p, pw_good evs p -> served F evs p.

(** A client that holds a block of the file and has read a part of it. *)
Record reading (t : tftp_info) : Prop := {
  rd_mode : tftp_filemode t = FILE_MODE_READ;
  rd_addr : length (tftp_ipaddr t) = 4%nat;
  rd_data : length (tftp_data t) = 512%nat;
  rd_block : has_block F (tftp_blknum t);
  rd_len : tftp_blklen t = Z.of_nat (length (block F (tftp_blknum t)));
  rd_bytes : take (Z.to_nat (tftp_blklen t)) (tftp_data t) = block F (tftp_blknum t);
  rd_offset : 0 <= tftp_blkoffset t <= tftp_blklen t;
  rd_file : tftp_fileoffset t = 512 * (tftp_blknum t - 1) + tftp_blkoffset t;
  rd_last : tftp_lastblock t = if tftp_blklen t <? TFTP_BLOCKSIZE then 1 else 0
}.

(** The client has asked eight times for the block after one that it has. *)
Definition asked (n : Z) (evs : list event) : nat := length (filter (fun e => e = EvSend (ack_packet n)) evs).
Definition gave_up (evs : list event) : Prop := exists n, (TFTP_MAX_RETRIES <= asked n evs)%nat.

(** What can go wrong. *)
Definition failed (w : W) : Prop := gave_up (pw_trace w) \/ EvNoBuf ∈ pw_trace w.
Definition err_ok (t : tftp_info) (w : W) : Prop := tftp_error t = 0 \/ (tftp_error t = 1 /\ gave_up (pw_trace w)).

Lemma asked_app n a b : asked n (a ++ b) = (asked n a + asked n b)%nat.
Proof. unfold asked. by rewrite filter_app, length_app. Qed.

Lemma gave_up_prefix a b : a `prefix_of` b -> gave_up a -> gave_up b.
Proof. intros [c ->] [n Hn]. exists n. rewrite asked_app. lia. Qed.

Lemma failed_prefix (w w' : W) : pw_trace w `prefix_of` pw_trace w' -> failed w -> failed w'.
Proof. intros Hp [H|H]; [left; by eapply gave_up_prefix|right; by eapply elem_of_prefix]. Qed.

Lemma block_length n : (length (block F n) <= 512)%nat.
Proof. unfold block. rewrite length_take. lia. Qed.

(** Taking a packet with a block. *)
Lemma take_packet evs b n : pw_good evs (payload b) -> holds b -> payload b = be16 TFTP_OP_DATA ++ be16 n ++ payload (ebuf_skip (ebuf_skip b 2) 2) ->
  0 <= n < 65536 -> payload (ebuf_skip (ebuf_skip b 2) 2) = block F n /\ has_block F n /\ (n = 1 \/ EvSend (ack_packet (n - 1)) ∈ evs).
Proof.
  intros Hg Hb Hp Hn. destruct (peer_serves _ _ Hg) as [_ Hs]. destruct Hs as (m & Hm & H1 & H2); [by rewrite Hp|].
  rewrite Hm in Hp. unfold data_packet in Hp. apply app_inv_head in Hp. apply app_inj_1 in Hp as [He Hp]; [|done].
  assert (Hnm : m = n). { rewrite <- (of_be_16 m), <- (of_be_16 n) by (destruct H1; lia). by rewrite He. } by subst m.
Qed.

Record same_rest (t t' : tftp_info) : Prop := {
  sr_sock : tftp_socket t' = tftp_socket t;
  sr_mode : tftp_filemode t' = tftp_filemode t;
  sr_addr : tftp_ipaddr t' = tftp_ipaddr t;
  sr_off : tftp_blkoffset t' = tftp_blkoffset t;
  sr_file : tftp_fileoffset t' = tftp_fileoffset t
}.

(** A client that holds block [n]. *)
Record holding (n : Z) (t : tftp_info) : Prop := {
  hd_num : tftp_blknum t = n;
  hd_data : length (tftp_data t) = 512%nat;
  hd_len : tftp_blklen t = Z.of_nat (length (block F n));
  hd_bytes : take (Z.to_nat (tftp_blklen t)) (tftp_data t) = block F n;
  hd_last : tftp_lastblock t = if tftp_blklen t <? TFTP_BLOCKSIZE then 1 else 0
}.

Lemma take_splice_0 (obj s : bytes) : take (length s) (splice obj 0 s) = s.
Proof. unfold splice. rewrite take_0, app_nil_l. apply take_app_length. Qed.

Lemma block_taken t b n : holds b -> payload b = block F n -> length (tftp_data t) = 512%nat -> tftp_lastblock t = 0 ->
  exists t1, get_block (with_blknum t n) b = Some t1 /\ let t2 := if tftp_blklen t1 <? TFTP_BLOCKSIZE then with_lastblock t1 1 else t1 in
    same_rest t t2 /\ holding n t2 /\ tftp_error t2 = tftp_error t.
Proof.
  intros Hb Hp Hd Hl. pose proof (block_length n) as Hbl. rewrite (get_block_ok (with_blknum t n) b (block F n)) by done. eexists. split; [reflexivity|]. cbn zeta.
  cbn [tftp_blklen with_data with_blklen with_blknum tftp_data]. set (t2 := if _ <? _ then _ else _).
  assert (Ht : take (Z.to_nat (Z.of_nat (length (block F n)))) (splice (tftp_data t) 0 (block F n)) = block F n).
  { rewrite Nat2Z.id. apply take_splice_0. }
  assert (Hsp : length (splice (tftp_data t) 0 (block F n)) = 512%nat) by (rewrite length_splice; lia).
  unfold t2. destruct (Z.of_nat (length (block F n)) <? TFTP_BLOCKSIZE) eqn:E; (split; [by split|]; split; [|done]; split; cbn; rewrite ?E; done).
Qed.

(** The next block, after as many losses as the client will stand. *)
Lemma readmore_loop_ok k : forall w t, pw_ok w -> pw_open w (tftp_socket t) -> length (tftp_ipaddr t) = 4%nat -> length (tftp_data t) = 512%nat ->
  tftp_lastblock t = 0 -> exists r t' w', readmore_loop k w t = Some (r, t', w') /\ pw_ok w' /\ pw_open w' (tftp_socket t') /\ pw_trace w `prefix_of` pw_trace w' /\
  ((r = 0 /\ same_rest t t' /\ holding (tftp_blknum t + 1) t' /\ has_block F (tftp_blknum t + 1) /\ tftp_error t' = tftp_error t) \/
   (r <> 0 /\ ((t' = t /\ EvNoBuf ∈ pw_trace w') \/
     (t' = with_error t 1 /\ asked (tftp_blknum t) (pw_trace w) + k <= asked (tftp_blknum t) (pw_trace w'))%nat))).
Proof.
  induction k as [|k IH]; intros w t Hw Hs Ha Hd Hl; cbn [readmore_loop].
  { eexists _, _, w. split; [reflexivity|]. split; [done|]. split; [done|]. split; [done|]. right. split; [done|]. right. split; [done|lia]. }
  destruct (send_block_ok w t TFTP_OP_ACK [] Hw Hs Ha) as (o & w1 & -> & Hw1 & Hs1 & Ho); [cbn; lia|]. cbn [option_bind]. destruct o as [w1'|].
  2:{ eexists _, t, w1. split; [reflexivity|]. split; [done|]. split; [done|]. rewrite Ho. split; [by apply prefix_app_r|]. right. split; [done|].
      left. split; [done|]. apply elem_of_app. right. left. }
  destruct Ho as [-> Ht1]. assert (Hask : asked (tftp_blknum t) (pw_trace w1) = S (asked (tftp_blknum t) (pw_trace w))).
  { rewrite Ht1, asked_app, app_nil_r. change (be16 TFTP_OP_ACK ++ be16 (tftp_blknum t)) with (ack_packet (tftp_blknum t)). unfold asked at 2. rewrite filter_cons, decide_True by done. cbn. lia. }
  destruct (peer_recv w1 _ TFTP_RECV_TIMEOUT Hw1 Hs1) as (d & w2 & -> & Hw2 & Hs2 & Hd2). cbn [option_bind].
  destruct d as [d|].
  2:{ destruct (IH w2 t) as (r & t' & w' & -> & G1 & G2 & G3 & G4); try done. eexists _, _, _. split; [reflexivity|]. split; [done|]. split; [done|]. split.
      - etransitivity; [|exact G3]. rewrite Hd2, Ht1. by apply prefix_app_r.
      - destruct G4 as [G4|(G4 & [G5|(G5 & G6)])]; [by left|right; split; [done|]; by left|]. right. split; [done|]. right. split; [done|]. rewrite Hd2 in G6. lia. }
  destruct Hd2 as (Hb & HF & Hg & Ht2). destruct (get_op (dg_buf d) Hb (proj1 (peer_serves _ _ Hg)) HF) as (op & num & rest & Rop & Rnum & Hp & -> & -> & Hb2 & Hp2).
  cbn [option_bind]. assert (Hsz1 : sized (ebuf_skip (dg_buf d) 2)) by apply Hb. assert (Hsz2 : sized (ebuf_skip (ebuf_skip (dg_buf d) 2) 2)) by apply Hb.
  assert (Hpre : pw_trace w `prefix_of` pw_trace w2) by (rewrite Ht2, Ht1, <- app_assoc; by apply prefix_app_r).
  assert (Hagain : forall b, sized b -> exists r t' w', readmore_loop k (udp_free w2 b) t = Some (r, t', w') /\ pw_ok w' /\ pw_open w' (tftp_socket t') /\ pw_trace w `prefix_of` pw_trace w' /\
    ((r = 0 /\ same_rest t t' /\ holding (tftp_blknum t + 1) t' /\ has_block F (tftp_blknum t + 1) /\ tftp_error t' = tftp_error t) \/
     (r <> 0 /\ ((t' = t /\ EvNoBuf ∈ pw_trace w') \/
       (t' = with_error t 1 /\ asked (tftp_blknum t) (pw_trace w) + S k <= asked (tftp_blknum t) (pw_trace w'))%nat)))).
  { intros b Hsz. destruct (peer_free w2 b _ Hw2 Hsz Hs2) as (F1 & F2 & F3). destruct (IH (udp_free w2 b) t) as (r & t' & w' & -> & G1 & G2 & G3 & G4); try done.
    eexists _, _, _. split; [reflexivity|]. split; [done|]. split; [done|]. split; [etransitivity; [|exact G3]; by rewrite F2|].
    destruct G4 as [G4|(G4 & [G5|(G5 & G6)])]; [by left|right; split; [done|]; by left|]. right. split; [done|]. right. split; [done|].
    rewrite F2, Ht2, asked_app in G6. lia. }
  destruct (Z.eqb_spec op TFTP_OP_DATA) as [->|_]; cbn [negb]; [|by apply Hagain].
  destruct (Z.eqb_spec num (tftp_blknum t + 1)) as [->|_]; cbn [negb]; [|by apply Hagain].
  rewrite <- Hp2 in Hp. destruct (take_packet _ _ _ Hg Hb Hp Rnum) as (Hblk & Hhas & _).
  destruct (block_taken t _ _ Hb2 Hblk Hd Hl) as (t1 & -> & Hsr & Hh & He). cbn [option_bind]. destruct (peer_free w2 _ _ Hw2 Hsz2 Hs2) as (F1 & F2 & F3).
  eexists _, _, _. split; [reflexivity|]. split; [done|]. split; [by rewrite (sr_sock _ _ Hsr)|]. split; [by rewrite F2|]. left. done.
Qed.

(** A part of a block is a part of the file. *)
Lemma block_part n off k : has_block F n -> 0 <= off -> 0 <= k -> off + k <= Z.of_nat (length (block F n)) ->
  take (Z.to_nat k) (drop (Z.to_nat off) (block F n)) = take (Z.to_nat k) (drop (Z.to_nat (512 * (n - 1) + off)) F).
Proof.
  intros [Hn Hf] Ho Hk Hle. pose proof (block_length n) as Hb. unfold block in *. rewrite skipn_firstn_comm, take_take, drop_drop. f_equal; [lia|]. f_equal. lia.
Qed.

Lemma last_block n : has_block F n -> Z.of_nat (length (block F n)) < 512 -> 512 * (n - 1) + Z.of_nat (length (block F n)) = Z.of_nat (length F).
Proof. intros [Hn Hf]. unfold block. rewrite length_take, length_drop. lia. Qed.

(** At the end of a block the next has been asked for. *)
Definition settled (t : tftp_info) (w : W) : Prop := tftp_blkoffset t = tftp_blklen t -> tftp_lastblock t = 1 \/ failed w.

(** What has been read is the part of the file at the offset. *)
Definition has_read (w : W) (t : tftp_info) (s : bytes) (t' : tftp_info) (w' : W) : Prop :=
  pw_ok w' /\ pw_open w' (tftp_socket t') /\ pw_trace w `prefix_of` pw_trace w' /\ reading t' /\ settled t' w' /\
  tftp_fileoffset t' = tftp_fileoffset t + Z.of_nat (length s) /\
  s = take (length s) (drop (Z.to_nat (tftp_fileoffset t)) F).

Lemma has_read_app w t s t1 w1 s' t2 w2 : 0 <= tftp_fileoffset t -> has_read w t s t1 w1 -> has_read w1 t1 s' t2 w2 -> has_read w t (s ++ s') t2 w2.
Proof.
  intros H0 (A1 & A2 & A3 & A4 & A5 & A6 & A7) (B1 & B2 & B3 & B4 & B5 & B6 & B7). split; [done|]. split; [done|]. split; [by etransitivity|]. split; [done|]. split; [done|].
  rewrite length_app. split; [lia|]. rewrite <- take_take_drop, <- A7. f_equal. rewrite B7 at 1. f_equal. rewrite drop_drop. f_equal. lia.
Qed.

Lemma read_loop_ok fuel : forall w t len, pw_ok w -> pw_open w (tftp_socket t) -> reading t -> settled t w -> tftp_error t = 0 -> 0 <= len -> (Z.to_nat len < fuel)%nat ->
  exists s t' w', read_loop fuel w t len = Some (s, t', w') /\ has_read w t s t' w' /\ Z.of_nat (length s) <= len /\ err_ok t' w' /\
    (Z.of_nat (length s) < len -> failed w' \/ tftp_fileoffset t' = Z.of_nat (length F)).
Proof.
  induction fuel as [|fuel IH]; intros w t len Hw Hs Hr Hset He Hlen Hfuel; [lia|]. cbn [read_loop].
  destruct (Z.eqb_spec len 0) as [->|Hl0].
  { exists [], t, w. split; [done|]. split; [|cbn; split; [lia|]; split; [by left|lia]]. unfold has_read. cbn [length take]. split; [done|]. split; [done|]. split; [done|].
    split; [done|]. split; [done|]. split; [lia|done]. }
  pose proof Hr as [R1 R2 R3 R4 R5 R6 R7 R8 R9]. destruct (Z.leb_spec (tftp_blklen t) (tftp_blkoffset t)) as [Hle|Hlt].
  { exists [], t, w. split; [done|]. cbn [length]. split; [|split; [lia|]; split; [by left|]].
    - unfold has_read. cbn [length take]. split; [done|]. split; [done|]. split; [done|]. split; [done|]. split; [done|]. split; [lia|done].
    - intros _. destruct Hset as [Hlast|Hf]; [lia| |by left]. right. rewrite Hlast in R9. destruct (Z.ltb_spec (tftp_blklen t) TFTP_BLOCKSIZE) as [Hsm|]; [|done].
      unfold TFTP_BLOCKSIZE in Hsm. rewrite R8. rewrite R5 in Hsm. pose proof (last_block _ R4 Hsm). lia. }
  cbn zeta. set (amt := if _ <? len then _ else len). assert (Hamt : 0 < amt <= len /\ amt <= tftp_blklen t - tftp_blkoffset t) by (unfold amt; destruct (Z.ltb_spec (tftp_blklen t - tftp_blkoffset t) len); lia).
  set (s := take (Z.to_nat amt) _). set (t1 := with_fileoffset _ _).
  assert (Hs0 : s = take (Z.to_nat amt) (drop (Z.to_nat (tftp_blkoffset t)) (block F (tftp_blknum t)))).
  { rewrite <- R6. rewrite skipn_firstn_comm, take_take. unfold s. f_equal. lia. }
  assert (Hsl : length s = Z.to_nat amt) by (rewrite Hs0, length_take, length_drop; lia).
  assert (Hsf : s = take (length s) (drop (Z.to_nat (tftp_fileoffset t)) F)) by (rewrite Hsl, R8, Hs0; apply block_part; (done || lia)).
  assert (Hr1 : reading t1) by (split; cbn; try done; lia).
  assert (Hread : forall w1 t2, pw_ok w1 -> pw_open w1 (tftp_socket t2) -> pw_trace w `prefix_of` pw_trace w1 -> reading t2 -> settled t2 w1 ->
    tftp_fileoffset t2 = tftp_fileoffset t1 -> has_read w t s t2 w1).
  { intros w1 t2 G1 G2 G3 G4 G5 G6. unfold has_read.
 rewrite G6. split; [done|]. split; [done|]. split; [done|]. split; [done|]. split; [done|]. split; [cbn; lia|done]. }
  assert (Hfile : 0 <= tftp_fileoffset t) by (rewrite R8; destruct R4; lia).
  (* What follows the chunk. *)
  assert (Hgo : forall w1 t2, has_read w t s t2 w1 -> tftp_error t2 = 0 ->
    exists s' t' w', read_loop fuel w1 t2 (len - amt) = Some (s', t', w') /\ has_read w t (s ++ s') t' w' /\ Z.of_nat (length (s ++ s')) <= len /\
      err_ok t' w' /\ (Z.of_nat (length (s ++ s')) < len -> failed w' \/ tftp_fileoffset t' = Z.of_nat (length F))).
  { intros w1 t2 Hh He2. pose proof Hh as (G1 & G2 & G3 & G4 & G5 & _). destruct (IH w1 t2 (len - amt)) as (s' & t' & w' & E & H1 & H2 & H3 & H4); try done; [lia..|].
    exists s', t', w'. split; [done|]. split; [by eapply has_read_app|]. rewrite length_app. split; [lia|]. split; [done|]. intros Hlt'. apply H4. lia. }
  change (tftp_blklen t1) with (tftp_blklen t). change (tftp_blkoffset t1) with (tftp_blkoffset t + amt).
  destruct (Z.leb_spec (tftp_blklen t) (tftp_blkoffset t + amt)) as [Hend|Hmid].
  2:{ destruct (Hgo w t1) as (s' & t' & w' & -> & H1 & H2); [apply Hread; try done; intros Heq; cbn in Heq; lia|done|]. eexists _, _, _. split; [reflexivity|]. done. }
  assert (Hstop : forall w1 t2, has_read w t s t2 w1 -> err_ok t2 w1 -> failed w1 \/ tftp_fileoffset t2 = Z.of_nat (length F) ->
    exists s0 t' w', Some (s, t2, w1) = Some (s0, t', w') /\ has_read w t s0 t' w' /\ Z.of_nat (length s0) <= len /\ err_ok t' w' /\
      (Z.of_nat (length s0) < len -> failed w' \/ tftp_fileoffset t' = Z.of_nat (length F))).
  { intros w1 t2 Hh Her Hf. eexists _, _, _. split; [reflexivity|]. split; [done|]. split; [lia|]. split; [done|]. intros _. done. }
  unfold _tftp_readmore. change (tftp_lastblock t1) with (tftp_lastblock t). change (tftp_error t1) with (tftp_error t). rewrite He. cbn [truthy].
  destruct (Z.ltb_spec (tftp_blklen t) TFTP_BLOCKSIZE) as [Hsm|Hbig]; rewrite R9; cbn [truthy Z.eqb negb option_bind].
  { apply Hstop; [apply Hread; try done; intros _; by left|by left|]. right. cbn. rewrite R8. unfold TFTP_BLOCKSIZE in Hsm. rewrite R5 in Hsm.
    pose proof (last_block _ R4 Hsm). lia. }
  destruct (readmore_loop_ok TFTP_MAX_RETRIES w t1 Hw Hs R2 R3 R9) as (r & t2 & w2 & -> & G1 & G2 & G3 & [(-> & G4 & G5 & G6 & G7)|(G4 & Hbad)]); cbn [option_bind].
  - cbn [Z.eqb negb]. destruct G4 as [S1 S2 S3 S4 S5]. destruct G5 as [N1 N2 N3 N4 N5]. change (tftp_blknum t1) with (tftp_blknum t) in *.
    destruct (Hgo w2 (with_blkoffset t2 0)) as (s' & t' & w' & -> & H1 & H2).
    + apply Hread; try done.
      * pose proof (block_length (tftp_blknum t)) as Hb512. unfold TFTP_BLOCKSIZE in Hbig. split; cbn -[Z.mul]; rewrite ?N1; try done.
        -- by rewrite S2.
        -- by rewrite S3.
        -- rewrite N3. lia.
        -- rewrite S5. change (tftp_fileoffset t1) with (tftp_fileoffset t + amt). rewrite R8. lia.
      * intros Hz. cbn in Hz |- *. left. rewrite N5. cbn. by rewrite <- Hz.
    + cbn. by rewrite G7.
    + eexists _, _, _. split; [reflexivity|]. done.
  - destruct (Z.eqb_spec r 0) as [|_]; [done|]. cbn [negb].
    assert (Hr2 : reading t2 /\ tftp_fileoffset t2 = tftp_fileoffset t1 /\ err_ok t2 w2 /\ failed w2).
    { destruct Hbad as [[-> Hnb]|[-> Hask]].
      - split; [done|]. split; [done|]. split; [by left|by right].
      - assert (Hup : gave_up (pw_trace w2)) by (exists (tftp_blknum t1); lia).
        split; [destruct Hr1; by split|]. split; [done|]. split; [by right|by left]. }
    destruct Hr2 as (Hr2 & Ho2 & He2 & Hf2). apply Hstop; [|done|by left]. apply Hread; try done. intros _. by right.
Qed.

Lemma has_read_nothing w t : pw_ok w -> pw_open w (tftp_socket t) -> reading t -> settled t w -> has_read w t [] t w.
Proof. intros. unfold has_read. cbn [length take]. split; [done|]. split; [done|]. split; [done|]. split; [done|]. split; [done|]. split; [lia|done]. Qed.

Lemma fileop_read_ok w t len : pw_ok w -> pw_open w (tftp_socket t) -> reading t -> settled t w -> err_ok t w -> 0 <= len ->
  exists r s t' w', tftp_fileop_read w t len = Some (r, s, t', w') /\ has_read w t s t' w' /\ Z.of_nat (length s) <= len /\ err_ok t' w' /\
    (Z.of_nat (length s) < len -> failed w' \/ tftp_fileoffset t' = Z.of_nat (length F)).
Proof.
  intros Hw Hs Hr Hset He Hlen. unfold tftp_fileop_read. pose proof He as [He0|[He1 Hup]].
  - rewrite He0. cbn [truthy Z.eqb negb]. rewrite (rd_mode _ Hr). change (FILE_MODE_READ =? FILE_MODE_WRITE) with false. cbv iota.
    destruct (read_loop_ok (S (Z.to_nat len)) w t len Hw Hs Hr Hset He0 Hlen) as (s & t' & w' & -> & H1 & H2 & H3 & H4); [lia|].
    eexists _, s, t', w'. split; [reflexivity|]. done.
  - rewrite He1. eexists _, [], t, w. split; [reflexivity|]. split; [by apply has_read_nothing|]. split; [cbn; lia|]. split; [done|]. intros _. left. by left.
Qed.

(** Reading again and again. *)
Fixpoint reads (w : W) (t : tftp_info) (lens : list Z) : option (bytes * tftp_info * W) :=
  match lens with
  | [] => Some ([], t, w)
  | len :: lens =>
      let? (_, s, t, w) := tftp_fileop_read w t len in
      let? (s', t, w) := reads w t lens in Some (s ++ s', t, w)
  end.

Definition total (lens : list Z) : Z := fold_right Z.add 0 lens.

Lemma reads_ok lens : forall w t, pw_ok w -> pw_open w (tftp_socket t) -> reading t -> settled t w -> err_ok t w -> Forall (fun l => 0 <= l) lens ->
  exists s t' w', reads w t lens = Some (s, t', w') /\ has_read w t s t' w' /\ Z.of_nat (length s) <= total lens /\
    (Z.of_nat (length s) < total lens -> failed w' \/ tftp_fileoffset t' = Z.of_nat (length F)).
Proof.
  induction lens as [|len lens IH]; intros w t Hw Hs Hr Hset He Hl; cbn [reads total fold_right].
  { exists [], t, w. split; [done|]. split; [by apply has_read_nothing|cbn; lia]. }
  apply Forall_cons in Hl as [Hl Hls]. destruct (fileop_read_ok w t len Hw Hs Hr Hset He Hl) as (r & s & t1 & w1 & -> & H1 & H2 & H3 & H5). cbn [option_bind].
  pose proof H1 as (G1 & G2 & G3 & G4 & G5 & G6 & G7). destruct (IH w1 t1 G1 G2 G4 G5 H3 Hls) as (s' & t2 & w2 & -> & K1 & K2 & K5). cbn [option_bind].
  assert (Hfile : 0 <= tftp_fileoffset t) by (rewrite (rd_file _ Hr); destruct (rd_block _ Hr), (rd_offset _ Hr); lia).
  eexists _, _, _. split; [reflexivity|]. split; [by eapply has_read_app|]. rewrite length_app. fold (total lens). split; [lia|]. intros Hlt.
  destruct (decide (Z.of_nat (length s) < len)) as [Hsh|Hfull]; [|apply K5; lia]. destruct K1 as (_ & _ & K6 & _ & _ & K7 & K8). destruct (H5 Hsh) as [Hf|Hf].
  - left. by eapply failed_prefix.
  - right. rewrite Hf, Nat2Z.id, drop_ge, take_nil in K8 by lia. subst s'. cbn in K7. lia.
Qed.

(** * Opening *)

Context {RA : RescueApi (W := W)} (dns_lookup : W -> bytes -> option (Z * bytes * W)).
Hypothesis dns_ok : forall w h, pw_ok w -> exists res addr w', dns_lookup w h = Some (res, addr, w') /\ pw_ok w' /\ pw_trace w' = pw_trace w /\ length addr = 4%nat.

Definition no_acks (evs : list event) : Prop := forall n, EvSend (ack_packet n) ∉ evs.

Lemma no_acks_snoc evs e : no_acks evs -> (forall n, e <> EvSend (ack_packet n)) -> no_acks (evs ++ [e]).
Proof. intros H He n. intros [Hin|Hin%list_elem_of_singleton]%elem_of_app; [by apply (H n)|by apply (He n)]. Qed.

Lemma request_loop_ok k : forall w t filename, pw_ok w -> pw_open w (tftp_socket t) -> length (tftp_ipaddr t) = 4%nat -> (length filename <= 1400)%nat ->
  tftp_filemode t = FILE_MODE_READ -> no_acks (pw_trace w) ->
  exists d w', request_loop k w t filename = Some (d, w') /\ pw_ok w' /\ pw_open w' (tftp_socket t) /\
    match d with None => True | Some d => holds (dg_buf d) /\ Forall byte_ok (payload (dg_buf d)) /\ exists evs, no_acks evs /\ pw_good evs (payload (dg_buf d)) end.
Proof.
  induction k as [|k IH]; intros w t filename Hw Hs Ha Hf Hm Hna; cbn [request_loop]; [by eexists _, w|].
  destruct (peer_alloc w _ Hw Hs) as (o & w1 & -> & Hw1 & Hs1 & Ho). cbn [option_bind]. destruct o as [b|]; [|by eexists _, w1].
  destruct Ho as (Ht1 & Htx & Hb & Hp & Hq). assert (F0 : filled b b []) by done. rewrite Hm, Z.eqb_refl. unfold ebuf_append_u16_be.
  destruct (append_filled b b [] (be16 TFTP_OP_RRQ) F0) as (b1 & -> & F1); [rewrite Hq; cbn; unfold eb_size; lia|]. cbn [option_bind app] in *.
  destruct (append_filled b b1 _ (filename ++ [0]) F1) as (b2 & -> & F2); [rewrite Hq, !length_app; cbn [length be16]; unfold eb_size; lia|]. cbn [option_bind].
  destruct (append_filled b b2 _ [111; 99; 116; 101; 116; 0] F2) as (b3 & -> & F3); [rewrite Hq, !length_app; cbn [length be16]; unfold eb_size; lia|]. cbn [option_bind].
  destruct (peer_send w1 _ b b3 _ (tftp_ipaddr t) Hw1 Hs1 Htx F3 Ha) as (r & w2 & -> & Hw2 & Hs2 & Ht2). cbn [option_bind].
  assert (Hna2 : no_acks (pw_trace w2)) by (rewrite Ht2, Ht1; apply no_acks_snoc; [done|]; intros n Heq; discriminate Heq).
  destruct (peer_recv w2 _ TFTP_RRQ_TIMEOUT Hw2 Hs2) as (d & w3 & -> & Hw3 & Hs3 & Hd). cbn [option_bind]. destruct d as [d|].
  - eexists _, w3. split; [reflexivity|]. split; [done|]. split; [done|]. destruct Hd as (D1 & D2 & D3 & _). eauto.
  - apply IH; try done. by rewrite Hd.
Qed.

Lemma tftp_open_ok w t host filename : pw_ok w -> pw_trace w = [] -> (length filename <= 1400)%nat -> length (tftp_data t) = 512%nat ->
  exists r t' w', _tftp_open dns_lookup w t host filename FILE_MODE_READ = Some (r, t', w') /\ pw_ok w' /\
    (r = 0 -> pw_open w' (tftp_socket t') /\ reading (with_fileoffset (with_blkoffset t' 0) 0) /\ tftp_error t' = 0).
Proof.
  intros Hw Ht Hf Hd. unfold _tftp_open. destruct (dns_ok w host Hw) as (res & addr & w1 & -> & Hw1 & Ht1 & Hla). cbn [option_bind].
  destruct (Z.ltb_spec res 0); [eexists _, _, _; split; [reflexivity|]; split; [done|lia]|].
  destruct (peer_socket w1 UDP_PROTO_TFTP Hw1) as (s & w2 & -> & Hw2 & Ht2 & Hs2). cbn [option_bind]. set (t1 := with_filemode _ _).
  destruct (request_loop_ok TFTP_MAX_RETRIES w2 t1 filename Hw2 Hs2 Hla Hf eq_refl) as (d & w3 & -> & Hw3 & Hs3 & Hdg); [rewrite Ht2, Ht1, Ht; intros n Hin; by apply not_elem_of_nil in Hin|].
  cbn [option_bind]. destruct d as [d|].
  2:{ destruct (peer_close w3 _ Hw3 Hs3) as (w4 & -> & Hw4 & _). eexists _, _, _. split; [reflexivity|]. split; [done|]. discriminate. }
  destruct Hdg as (Hb & HF & evs & Hna & Hg). destruct (get_op (dg_buf d) Hb (proj1 (peer_serves _ _ Hg)) HF) as (op & num & rest & Rop & Rnum & Hp & -> & E2 & Hb2 & Hp2).
  cbn [option_bind]. change (tftp_filemode t1 =? FILE_MODE_WRITE) with false. rewrite andb_false_r, E2. cbn [option_bind].
  assert (Hrefuse : forall b, sized b -> exists r t' w', (let? w := udp_close (udp_free w3 b) (tftp_socket t1) in Some (CFE_ERR_PROTOCOLERR, with_socket t1 (-1), w)) = Some (r, t', w') /\
    pw_ok w' /\ (r = 0 -> pw_open w' (tftp_socket t') /\ reading (with_fileoffset (with_blkoffset t' 0) 0) /\ tftp_error t' = 0)).
  { intros b Hsz. destruct (peer_free w3 b _ Hw3 Hsz Hs3) as (G1 & _ & G3). destruct (peer_close _ _ G1 G3) as (w4 & -> & Hw4 & _). eexists _, _, _. split; [reflexivity|]. split; [done|]. discriminate. }
  destruct (Z.eqb_spec op TFTP_OP_ERROR); [apply Hrefuse; apply Hb|]. destruct (Z.eqb_spec op TFTP_OP_DATA) as [->|]; [|apply Hrefuse; apply Hb].
  rewrite <- Hp2 in Hp. destruct (take_packet _ _ _ Hg Hb Hp Rnum) as (Hblk & Hhas & [->|Hack]); [|by apply Hna in Hack].
  destruct (peer_connect w3 _ (wrap16 (eb_usrdata d)) Hw3 Hs3) as (r & w4 & -> & Hw4 & Ht4 & Hs4). cbn [option_bind].
  destruct (block_taken t1 _ 1 Hb2 Hblk Hd eq_refl) as (t2 & -> & Hsr & Hhd & He). cbn [option_bind].
  revert Hsr Hhd He. generalize (if tftp_blklen t2 <? TFTP_BLOCKSIZE then with_lastblock t2 1 else t2). intros t3 [S1 S2 S3 S4 S5] [N1 N2 N3 N4 N5] He.
  destruct (peer_free w4 (ebuf_skip (ebuf_skip (dg_buf d) 2) 2) _ Hw4 (h_size _ Hb2) Hs4) as (G1 & G2 & G3). eexists _, _, _. split; [reflexivity|]. split; [done|]. intros _.
  split; [by rewrite S1|]. split; [|done]. split; cbn -[Z.mul]; rewrite ?N1; try done; [by rewrite S3|rewrite N3; lia].
Qed.

Lemma split_colon host file : 58 ∉ host -> split_at (Z.eqb 58) (host ++ 58 :: file) = Some (host, file).
Proof.
  induction host as [|c host IH]; intros Hn; [done|]. apply not_elem_of_cons in Hn as [Hc Hn]. cbn [split_at app]. destruct (Z.eqb_spec 58 c); [done|]. by rewrite IH.
Qed.

End reading.
End client.

(** * A server *)

(** A server, given by its answers, over a network that delivers, at each wait of the client,
    either nothing or some packet that the server has ever sent: [sm_script] says which. *)
Record server := Server {
  sm_answer : bytes -> list bytes;
  sm_script : list (option nat);
  sm_sent : list bytes;
  sm_trace : list event;
  sm_bufs : nat
}.

Definition send_data (F : bytes) (n : Z) : list bytes :=
  if (n <? 65536) && (512 * (n - 1) <=? Z.of_nat (length F)) then [data_packet n (block F n)] else [].

Definition answer (F p : bytes) : list bytes :=
  if bytes_eqb (take 2 p) (be16 TFTP_OP_RRQ) then send_data F 1
  else if bytes_eqb (take 2 p) (be16 TFTP_OP_ACK) then
    match drop 2 p with
    | [a; b] => if (0 <=? a) && (a <? 256) && (0 <=? b) && (b <? 256) then send_data F (of_be [a; b] + 1) else []
    | _ => []
    end
  else [].

Definition fresh_buf : ebuf := Ebuf 0 0 0 0 42 (replicate eb_size 0).
Definition buf_with (p : bytes) : ebuf := Ebuf 0 (Z.of_nat (length p)) 0 0 42 (replicate 42 0 ++ p ++ replicate (eb_size - 42 - length p) 0).

#[export] Instance server_api : UdpApi server := {
  udp_socket w port := Some (0, w);
  udp_bind w s port := Some (0, w);
  udp_connect w s port := Some (0, w);
  udp_close w s := Some w;
  udp_alloc w :=
    match sm_bufs w with
    | O => Some (None, Server (sm_answer w) (sm_script w) (sm_sent w) (sm_trace w ++ [EvNoBuf]) O)
    | S n => Some (Some fresh_buf, Server (sm_answer w) (sm_script w) (sm_sent w) (sm_trace w) n)
    end;
  udp_free w b := w;
  udp_send w s b dst := Some (0, Server (sm_answer w) (sm_script w) (sm_sent w ++ sm_answer w (payload b)) (sm_trace w ++ [EvSend (payload b)]) (sm_bufs w));
  udp_recv_with_timeout w s ticks :=
    let '(k, l) := match sm_script w with [] => (Some (length (sm_sent w) - 1)%nat, []) | k :: l => (k, l) end in
    match (let? k := k in sm_sent w !! k) with
    | None => Some (None, Server (sm_answer w) l (sm_sent w) (sm_trace w) (sm_bufs w))
    | Some p => Some (Some (Dg (buf_with p) 2000), Server (sm_answer w) l (sm_sent w) (sm_trace w ++ [EvRecv p]) (sm_bufs w))
    end
}.

#[export] Instance server_rescue : RescueApi (W := server) := {
  console_waiting w := ([], w); eb_usrptr w := [10; 0; 0; 2]; net_setparam w p s := w; net_setnetvars w := w; arp_delete w a := w; arp_add w a h := w
}.

Definition server_dns (w : server) (h : bytes) : option (Z * bytes * server) := Some (1, [10; 0; 0; 2], w).

Lemma buf_with_ok p : (length p <= 1000)%nat -> holds (buf_with p) /\ payload (buf_with p) = p.
Proof.
  intros Hp. split.
  - split; cbn; rewrite ?length_app, ?length_replicate; unfold eb_size; lia.
  - unfold payload, buf_with. cbn [eb_length eb_ptr eb_data]. rewrite Nat2Z.id, drop_app_length' by (rewrite length_replicate; done). apply take_app_length.
Qed.

Lemma served_more F evs e p : served F evs p -> served F (evs ++ [e]) p.
Proof.
  intros [H1 H2]. split; [done|]. intros H. destruct (H2 H) as (n & Hp & Hb & [Hn|Hn]); exists n; (split; [done|]; split; [done|]); [by left|right]. apply elem_of_app. by left.
Qed.

Lemma be16_bytes n : Forall byte_ok (be16 n).
Proof. unfold be16, byte_ok. rewrite !Forall_cons, !land_ff. split; [apply Z.mod_pos_bound; lia|]. split; [apply Z.mod_pos_bound; lia|constructor]. Qed.

Lemma send_data_ok F n evs : Forall byte_ok F -> n = 1 \/ EvSend (ack_packet (n - 1)) ∈ evs -> 1 <= n ->
  Forall (fun p => served F evs p /\ Forall byte_ok p /\ (length p <= 1000)%nat) (send_data F n).
Proof.
  intros HF Hn H1. unfold send_data. destruct ((n <? 65536) && _) eqn:E; [|constructor]. apply andb_true_iff in E as [E1%Z.ltb_lt E2%Z.leb_le].
  constructor; [|constructor]. pose proof (block_length F n) as Hb. split; [|split].
  - split; [unfold data_packet; rewrite !length_app; cbn; lia|]. intros _. by exists n.
  - unfold data_packet. rewrite !Forall_app. split; [apply be16_bytes|]. split; [apply be16_bytes|]. unfold block. by apply Forall_take, Forall_drop.
  - unfold data_packet. rewrite !length_app. cbn. lia.
Qed.

Lemma answer_ok F p evs : Forall byte_ok F -> EvSend p ∈ evs -> Forall (fun p => served F evs p /\ Forall byte_ok p /\ (length p <= 1000)%nat) (answer F p).
Proof.
  intros HF Hin. unfold answer. destruct (bytes_eqb _ _); [apply send_data_ok; (done || by left)|].
  destruct (bytes_eqb (take 2 p) _) eqn:E; [|constructor]. apply bytes_eqb_true in E. destruct (drop 2 p) as [|a [|b [|]]] eqn:Ed; try constructor.
  destruct ((0 <=? a) && _ && _ && _) eqn:Er; [|constructor]. rewrite !andb_true_iff, !Z.leb_le, !Z.ltb_lt in Er. destruct Er as [[[R1 R2] R3] R4].
  destruct (be16_of_be a b) as [Hab Hr]; [split; done|split; done|]. apply send_data_ok; [done| |lia]. right. replace (of_be [a; b] + 1 - 1) with (of_be [a; b]) by lia.
  unfold ack_packet. rewrite Hab, <- E. by rewrite <- Ed, take_drop.
Qed.

(** Such a server is a peer, if its packets are good when they are sent and stay so. *)
Section peer.
Context (ans : bytes -> list bytes) (good : list event -> bytes -> Prop).
Definition good_packet (evs : list event) (p : bytes) : Prop := good evs p /\ Forall byte_ok p /\ (length p <= 1000)%nat.
Hypothesis good_more : forall evs e p, good evs p -> good (evs ++ [e]) p.
Hypothesis good_answer : forall evs p, EvSend p ∈ evs -> Forall (good_packet evs) (ans p).

Definition server_ok (w : server) : Prop := sm_answer w = ans /\ Forall (good_packet (sm_trace w)) (sm_sent w).

Lemma good_later evs e l : Forall (good_packet evs) l -> Forall (good_packet (evs ++ [e])) l.
Proof. intros H. eapply Forall_impl; [exact H|]. intros q (H1 & H2 & H3). split; [by apply good_more|done]. Qed.

Definition server_peer : TftpPeer server.
Proof.
  refine {| pw_good := good; pw_ok := server_ok; pw_trace := sm_trace; pw_open _ s := s = 0; pw_tx _ b := b = fresh_buf |}.
  - intros w port Hw. by exists 0, w.
  - intros w s port Hw Hs. by exists 0, w.
  - intros w s Hw Hs. by exists w.
  - done.
  - intros w s Hw Hs. cbn [udp_alloc server_api]. destruct w as [f sc se tr [|n]]; eexists _, _; (split; [reflexivity|]).
    + destruct Hw as [H1 H2]. split; [split; [done|by apply good_later]|done].
    + split; [done|]. split; [done|]. split; [done|]. split; [done|]. split; [|done]. split; cbn; rewrite ?length_replicate; unfold eb_size; lia.
  - intros w s b0 b p dst [Hf Hq] Hs -> Hb Hd. eexists _, _. split; [reflexivity|]. rewrite (fl_payload _ _ _ Hb), Hf. split; [|by split]. split; [done|]. cbn [sm_sent sm_trace].
    apply Forall_app. split; [by apply good_later|]. apply good_answer. apply elem_of_app. right. left.
  - intros w s ticks [Hf Hq] Hs. cbn [udp_recv_with_timeout server_api]. destruct (match sm_script w with [] => _ | _ => _ end) as [k l].
    match goal with |- context [match ?o with None => _ | Some _ => _ end] => destruct o as [p|] eqn:E end; (eexists _, _; split; [reflexivity|]); [|done].
    destruct k as [k|]; [|done]. cbn [option_bind] in E. pose proof (Forall_lookup_1 _ _ _ _ Hq E) as (G1 & G2 & G3). destruct (buf_with_ok p G3) as [B1 B2].
    cbn [dg_buf sm_trace]. rewrite B2. split; [|done]. split; [done|]. cbn [sm_sent]. by apply good_later.
Defined.
End peer.

(** A file of 600 bytes; the client asks for bytes in pieces of 100, 450 and 100. The request
    is lost twice, then the first block comes, then it comes again late, then the answer is
    lost, then the second block comes. *)
Definition a_file : bytes := map (fun n => Z.of_nat n mod 256) (seq 0 600).
Definition a_server : server := Server (answer a_file) [None; None; Some 0%nat; Some 0%nat; None; Some 3%nat] [] [] 20.
Definition a_client : tftp_info := Tftp 0 (replicate 512 0) 0 0 0 0 [0; 0; 0; 0] 0 0 0.
Definition a_rescue : rescue := Rescue [] [] 0.

Lemma a_file_bytes : Forall byte_ok a_file.
Proof. apply Forall_forall. intros x (n & -> & _)%list_elem_of_fmap. apply Z.mod_pos_bound. lia. Qed.

Definition transfer (w : server) (file : bytes) (lens : list Z) : option (Z * bytes * tftp_info * server) :=
  let? (r, t, _, w) := tftp_fileop_open server_dns w a_rescue a_client true true ([115; 58] ++ file) FILE_MODE_READ in
  let? (s, t, w) := reads w t lens in Some (r, s, t, w).


(** When the client has no packet buffer left, a file is read as if it ended there: the error
    is not recorded, and the next read returns 0. *)
Example no_buffer_looks_like_end :
  (let? (r, s, t, w) := transfer (Server (answer a_file) [] [] [] 1) [102] [600; 600] in Some (r, length s, tftp_error t)) = Some (0, 512%nat, 0).
Proof. vm_compute. reflexivity. Qed.

(** A first packet with more than 512 bytes is copied past the end of the block. *)
Definition long_packet (t : tftp_info) : option tftp_info := get_block t (ebuf_skip (ebuf_skip (buf_with (data_packet 1 (replicate 513 7))) 2) 2).

Example block_overflow : long_packet a_client = None.
Proof. vm_compute. reflexivity. Qed.

(** After block 65535 no packet is the next one. *)
Example no_block_after_65535 :
  (let? (r, t, w) := readmore_loop TFTP_MAX_RETRIES (Server (answer []) (replicate 8 (Some 0%nat)) [data_packet 0 []] [] 20) (with_blknum a_client 65535) in
   Some (r, tftp_error t)) = Some (CFE_ERR_TIMEOUT, 1).
Proof. vm_compute. reflexivity. Qed.
