(* ===== verification/TftpWrite.v ===== *)
(** What TFTP promises to a writer: the blocks that a client sends are those of the bytes it
    accepted, in order, and when nothing went wrong all of them have been acknowledged. *)

From Stdlib Require Import ZArith Lia Bool List String.
From stdpp Require Import base numbers list.
From S2P Require Import Prelude Ether Ip IpApi Tcp Udp Tftp TftpFile.

#[local] Open Scope Z_scope.

(** Block [n] has been acknowledged. *)
Definition acked (evs : list event) (n : Z) : Prop := exists rest, EvRecv (ack_packet n ++ rest) ∈ evs.

(** Every data packet that was sent is a block of [D], with at least [m] bytes, and it was sent
    after the one before it had been acknowledged. *)
Definition in_turn (m : Z) (D : bytes) (evs : list event) (p : bytes) : Prop :=
  take 2 p = be16 TFTP_OP_DATA ->
  exists n, p = data_packet n (block D n) /\ 1 <= n < 65536 /\ 512 * (n - 1) + m <= Z.of_nat (length D) /\ (n = 1 \/ acked evs (n - 1)).
Definition sends_blocks (m : Z) (D : bytes) (evs : list event) : Prop :=
  forall pre p post, evs = pre ++ EvSend p :: post -> in_turn m D pre p.

(** What can go wrong: a block was sent eight times in vain, there was no packet buffer, or the
    server reported an error. *)
Definition tries (p : bytes) (evs : list event) : nat := length (filter (fun e => e = EvSend p) evs).
Definition stopped (evs : list event) : Prop :=
  (exists n s, (TFTP_MAX_RETRIES <= tries (data_packet n s) evs)%nat) \/ EvNoBuf ∈ evs \/ exists rest, EvRecv (be16 TFTP_OP_ERROR ++ rest) ∈ evs.

Lemma tries_app p a b : tries p (a ++ b) = (tries p a + tries p b)%nat.
Proof. unfold tries. by rewrite filter_app, length_app. Qed.

Lemma acked_app a b n : acked a n -> acked (a ++ b) n.
Proof. intros [r H]. exists r. apply elem_of_app. by left. Qed.

Lemma stopped_app a b : stopped a -> stopped (a ++ b).
Proof.
  intros [(n & s & H)|[H|[r H]]].
  - left. exists n, s. rewrite tries_app. lia.
  - right. left. apply elem_of_app. by left.
  - right. right. exists r. apply elem_of_app. by left.
Qed.

Lemma sends_app m D a b : sends_blocks m D a -> (forall p, EvSend p ∈ b -> in_turn m D a p) -> sends_blocks m D (a ++ b).
Proof.
  intros Ha Hb pre p post He. destruct (app_eq_app _ _ _ _ He) as (l & [[-> He2]|[-> ->]]).
  - destruct l as [|e l]; cbn [app] in He2.
    + rewrite app_nil_r in Hb. apply Hb. rewrite <- He2. left.
    + injection He2 as <- _. by apply (Ha pre p l).
  - intros Hop. destruct (Hb p) as (n & H1 & H2 & H3 & H4); [apply elem_of_app; right; left|done|]. exists n. split; [done|]. split; [done|]. split; [done|].
    destruct H4 as [H4|H4]; [by left|right; by apply acked_app].
Qed.

(** A block that is full does not change when the file grows. *)
Lemma block_grows D s n : 1 <= n -> 512 * n <= Z.of_nat (length D) -> block (D ++ s) n = block D n.
Proof. intros H1 H2. unfold block. rewrite drop_app_le by lia. rewrite take_app_le; [done|]. rewrite length_drop. lia. Qed.

Lemma sends_less m m' D evs : m' <= m -> sends_blocks m D evs -> sends_blocks m' D evs.
Proof. intros Hm H pre p post He Hop. destruct (H pre p post He Hop) as (n & H1 & H2 & H3 & H4). exists n. split; [done|]. split; [done|]. split; [lia|done]. Qed.

(** Full blocks stay what they are. *)
Lemma sends_grows D s evs : sends_blocks 512 D evs -> sends_blocks 512 (D ++ s) evs.
Proof.
  intros H pre p post He Hop. destruct (H pre p post He Hop) as (n & -> & H2 & H3 & H4). exists n. rewrite block_grows by lia. split; [done|]. split; [done|].
  split; [|done]. rewrite length_app. lia.
Qed.

Section writer.
Context {W : Type} {UA : UdpApi W} {TP : TftpPeer W}.

(** No packet of the server is too short to have a number, and none has data. *)
Hypothesis peer_answers : forall evs p, pw_good evs p -> (4 <= length p)%nat /\ take 2 p <> be16 TFTP_OP_DATA.
Hypothesis open_valid : forall w s, pw_open w s -> s <> -1.

Definition this_block (t : tftp_info) : bytes := data_packet (tftp_blknum t) (take (Z.to_nat (tftp_blklen t)) (tftp_data t)).

Definition next_block (t : tftp_info) : tftp_info :=
  let t := with_blknum t (wrap16 (tftp_blknum t + 1)) in if negb (tftp_blklen t =? TFTP_BLOCKSIZE) then with_lastblock t 1 else t.

(** Sending a block until it is acknowledged. *)
Definition write_result (k : nat) (t : tftp_info) (r : Z) (t' : tftp_info) (evs : list event) : Prop :=
  (forall p, EvSend p ∈ evs -> p = this_block t) /\
  ((r = 0 /\ t' = next_block t /\ acked evs (tftp_blknum t)) \/
   (r <> 0 /\ ((t' = t /\ EvNoBuf ∈ evs) \/ (t' = with_error t 1 /\ (k <= tries (this_block t) evs)%nat) \/
     (t' = with_lastblock (with_error t 1) 1 /\ exists rest, EvRecv (be16 TFTP_OP_ERROR ++ rest) ∈ evs)))).

Lemma write_result_more k t r t' evs e1 : write_result k t r t' evs -> (forall p, EvSend p ∈ e1 -> p = this_block t) -> (1 <= tries (this_block t) e1)%nat ->
  write_result (S k) t r t' (e1 ++ evs).
Proof.
  intros [H1 H2] He Ht. split.
  - intros p [Hp|Hp]%elem_of_app; [by apply He|by apply H1].
  - destruct H2 as [(G1 & G2 & rest & G3)|(G1 & [[G2 G3]|[[G2 G3]|(G2 & rest & G3)]])].
    + left. split; [done|]. split; [done|]. exists rest. apply elem_of_app. by right.
    + right. split; [done|]. left. split; [done|]. apply elem_of_app. by right.
    + right. split; [done|]. right. left. split; [done|]. rewrite tries_app. lia.
    + right. split; [done|]. right. right. split; [done|]. exists rest. apply elem_of_app. by right.
Qed.

Lemma writemore_loop_ok k : forall w t, pw_ok w -> pw_open w (tftp_socket t) -> length (tftp_ipaddr t) = 4%nat -> tftp_blklen t <= 512 -> 0 <= tftp_blknum t < 65536 ->
  exists r t' w' evs, writemore_loop k w t = Some (r, t', w') /\ pw_ok w' /\ pw_open w' (tftp_socket t') /\ pw_trace w' = pw_trace w ++ evs /\ write_result k t r t' evs.
Proof.
  induction k as [|k IH]; intros w t Hw Hs Ha Hl Hn; cbn [writemore_loop].
  { eexists _, _, w, []. split; [reflexivity|]. rewrite app_nil_r. split; [done|]. split; [done|]. split; [done|]. split; [by intros p Hp%not_elem_of_nil|].
    right. split; [done|]. right. left. split; [done|lia]. }
  destruct (send_block_ok w t TFTP_OP_DATA (take (Z.to_nat (tftp_blklen t)) (tftp_data t)) Hw Hs Ha) as (o & w1 & -> & Hw1 & Hs1 & Ho); [rewrite length_take; lia|].
  cbn [option_bind]. destruct o as [w1'|].
  2:{ eexists _, t, w1, [EvNoBuf]. split; [reflexivity|]. split; [done|]. split; [done|]. split; [done|]. split; [by intros p Hp%list_elem_of_singleton|].
      right. split; [done|]. left. split; [done|left]. }
  destruct Ho as [-> Ht1]. change (be16 TFTP_OP_DATA ++ be16 (tftp_blknum t) ++ _) with (this_block t) in Ht1.
  destruct (peer_recv w1 _ TFTP_RECV_TIMEOUT Hw1 Hs1) as (d & w2 & -> & Hw2 & Hs2 & Hd2). cbn [option_bind].
  assert (Hmore : forall w3 e1, pw_ok w3 -> pw_open w3 (tftp_socket t) -> pw_trace w3 = pw_trace w ++ EvSend (this_block t) :: e1 -> (forall p, EvSend p ∉ e1) ->
    exists r t' w' evs, writemore_loop k w3 t = Some (r, t', w') /\ pw_ok w' /\ pw_open w' (tftp_socket t') /\ pw_trace w' = pw_trace w ++ evs /\ write_result (S k) t r t' evs).
  { intros w3 e1 G1 G2 G3 G4. destruct (IH w3 t G1 G2 Ha Hl Hn) as (r & t' & w' & evs & -> & K1 & K2 & K3 & K4). eexists r, t', w', ((EvSend (this_block t) :: e1) ++ evs).
    split; [done|]. split; [done|]. split; [done|]. split; [by rewrite K3, G3, <- app_assoc|]. apply write_result_more; [done| |].
    - intros p [Hp|Hp]%elem_of_cons; [by injection Hp|by apply G4 in Hp].
    - unfold tries. rewrite filter_cons, decide_True by done. cbn. lia. }
  destruct d as [d|]; [|by apply (Hmore w2 []); [..|rewrite Hd2, Ht1|intros p Hp%not_elem_of_nil]].
  destruct Hd2 as (Hb & HF & Hg & Ht2). destruct (peer_answers _ _ Hg) as [Hlong Hnd].
  destruct (get_op (dg_buf d) Hb Hlong HF) as (op & num & rest & Rop & Rnum & Hp & -> & E2 & Hb2 & Hp2). cbn [option_bind].
  rewrite Ht1, <- app_assoc in Ht2. cbn [app] in Ht2.
  assert (Hagain : forall b, sized b -> exists r t' w' evs, writemore_loop k (udp_free w2 b) t = Some (r, t', w') /\ pw_ok w' /\ pw_open w' (tftp_socket t') /\
    pw_trace w' = pw_trace w ++ evs /\ write_result (S k) t r t' evs).
  { intros b Hsz. destruct (peer_free w2 b _ Hw2 Hsz Hs2) as (F1 & F2 & F3). apply (Hmore _ [EvRecv (payload (dg_buf d))] F1 F3); [by rewrite F2, Ht2|]. by intros p Hq%list_elem_of_singleton. }
  assert (Hsent : forall p, EvSend p ∈ [EvSend (this_block t); EvRecv (payload (dg_buf d))] -> p = this_block t).
  { intros p [Hq|[Hq|Hq%not_elem_of_nil]%elem_of_cons]%elem_of_cons; [by injection Hq|done|done]. }
  assert (Hsz2 : sized (ebuf_skip (ebuf_skip (dg_buf d) 2) 2)) by apply Hb. destruct (peer_free w2 _ _ Hw2 Hsz2 Hs2) as (F1 & F2 & F3).
  destruct (Z.eqb_spec op TFTP_OP_ERROR) as [->|_].
  { rewrite E2. cbn [option_bind]. eexists _, _, _, _. split; [reflexivity|]. split; [done|]. split; [done|]. split; [by rewrite F2, Ht2|]. split; [done|].
    right. split; [done|]. right. right. split; [done|]. exists (be16 num ++ rest). rewrite <- Hp. right. left. }
  destruct (Z.eqb_spec op TFTP_OP_ACK) as [->|_]; cbn [negb]; [|by apply Hagain]. rewrite E2. cbn [option_bind].
  destruct (Z.eqb_spec num (tftp_blknum t)) as [->|_]; cbn [negb]; [|by apply Hagain]. eexists _, _, _, _. split; [reflexivity|]. split; [done|].
  assert (Hsock : tftp_socket (next_block t) = tftp_socket t) by (unfold next_block; cbn [tftp_blklen with_blknum]; by destruct (negb _)).
  split; [change (pw_open (udp_free w2 (ebuf_skip (ebuf_skip (dg_buf d) 2) 2)) (tftp_socket (next_block t))); by rewrite Hsock|]. split; [by rewrite F2, Ht2|]. split; [done|].
  left. split; [done|]. split; [done|]. exists rest. unfold ack_packet. rewrite <- app_assoc, <- Hp. right. left.
Qed.

(** A client that has accepted the bytes [D]. *)
Record writing (D : bytes) (t : tftp_info) (w : W) : Prop := {
  wr_ok : pw_ok w;
  wr_open : pw_open w (tftp_socket t);
  wr_mode : tftp_filemode t = FILE_MODE_WRITE;
  wr_addr : length (tftp_ipaddr t) = 4%nat;
  wr_data : length (tftp_data t) = 512%nat;
  wr_num : 1 <= tftp_blknum t < 65536;
  wr_len : 0 <= tftp_blklen t <= 512;
  wr_size : Z.of_nat (length D) = 512 * (tftp_blknum t - 1) + tftp_blklen t;
  wr_bytes : take (Z.to_nat (tftp_blklen t)) (tftp_data t) = drop (Z.to_nat (512 * (tftp_blknum t - 1))) D;
  wr_sends : sends_blocks 512 D (pw_trace w);
  wr_acked : forall n, 1 <= n < tftp_blknum t -> acked (pw_trace w) n;
  wr_error : if truthy (tftp_error t) then stopped (pw_trace w) else tftp_lastblock t = 0
}.

Lemma this_block_of D t w : writing D t w -> this_block t = data_packet (tftp_blknum t) (block D (tftp_blknum t)) /\ has_block D (tftp_blknum t).
Proof.
  intros H. pose proof (wr_size _ _ _ H) as Hs. pose proof (wr_len _ _ _ H). pose proof (wr_num _ _ _ H). split.
  - unfold this_block. rewrite (wr_bytes _ _ _ H). f_equal. unfold block. rewrite take_ge; [done|]. rewrite length_drop. lia.
  - split; [done|lia].
Qed.

(** Sending the block of such a client. *)
Lemma writemore_sends m D t w r t' w' evs : m <= tftp_blklen t -> writing D t w -> pw_trace w' = pw_trace w ++ evs -> write_result TFTP_MAX_RETRIES t r t' evs ->
  sends_blocks m D (pw_trace w') /\ (r <> 0 -> stopped (pw_trace w')) /\ (r = 0 -> acked (pw_trace w') (tftp_blknum t)).
Proof.
  intros Hm H Ht [Hp Hr]. destruct (this_block_of _ _ _ H) as [Hb Hh]. pose proof (wr_len _ _ _ H) as Hlen. pose proof (wr_size _ _ _ H) as Hsize. rewrite Ht. split; [|split].
  - apply sends_app; [eapply sends_less; [|apply (wr_sends _ _ _ H)]; lia|]. intros p Hin _. exists (tftp_blknum t). rewrite (Hp p Hin). split; [done|]. split; [apply Hh|]. split; [lia|].
    destruct (decide (tftp_blknum t = 1)); [by left|right]. apply (wr_acked _ _ _ H). pose proof (wr_num _ _ _ H). lia.
  - intros Hn. destruct Hr as [[? _]|(_ & [[_ Hb2]|[[_ Hb2]|(_ & rest & Hb2)]])]; [done|..].
    + right. left. apply elem_of_app. by right.
    + left. exists (tftp_blknum t), (block D (tftp_blknum t)). rewrite <- Hb, tries_app. lia.
    + right. right. exists rest. apply elem_of_app. by right.
  - intros Hz. destruct Hr as [(_ & _ & rest & Ha)|(? & _)]; [|done]. exists rest. apply elem_of_app. by right.
Qed.

(** What follows when a block is full. *)
Lemma tftp_full_block D t w : writing D t w -> tftp_error t = 0 -> tftp_blklen t = 512 -> Z.of_nat (length D) < 512 * 65535 ->
  exists r t' w', _tftp_writemore w t = Some (r, t', w') /\ pw_trace w `prefix_of` pw_trace w' /\
    ((r = 0 /\ tftp_error t' = 0 /\ tftp_blklen t' = 512 /\ writing D (with_blklen t' 0) w') \/ (r <> 0 /\ writing D t' w' /\ stopped (pw_trace w'))).
Proof.
  intros H He Hl Hd. unfold _tftp_writemore. pose proof (wr_error _ _ _ H) as Herr. rewrite He in Herr. cbn [truthy Z.eqb negb] in Herr. rewrite Herr, He. cbn [truthy Z.eqb negb].
  pose proof H as [H1 H2 H3 H4 H5 H6 H7 H8 H9 H10 H11 _].
  destruct (writemore_loop_ok TFTP_MAX_RETRIES w t H1 H2 H4) as (r & t' & w' & evs & -> & G1 & G2 & G3 & G4); [lia|lia|]. eexists _, _, _. split; [reflexivity|]. split; [rewrite G3; by apply prefix_app_r|].
  assert (H512 : 512 <= tftp_blklen t) by lia. destruct (writemore_sends 512 _ _ _ _ _ _ _ H512 H G3 G4) as (K1 & K2 & K3). destruct G4 as [_ [(-> & -> & _)|(Hr & Hb)]].
  - left. split; [done|]. unfold next_block. cbn [tftp_blklen with_blknum]. rewrite Hl. change (negb (512 =? TFTP_BLOCKSIZE)) with false. cbn iota.
    assert (Hw : wrap16 (tftp_blknum t + 1) = tftp_blknum t + 1) by (apply wrap16_small; lia). split; [done|]. split; [done|].
    unfold next_block in G2. cbn [tftp_blklen with_blknum] in G2. rewrite Hl in G2.
    split; cbn -[Z.mul]; rewrite ?Hw; try done; try lia.
    + rewrite take_0. symmetry. apply drop_ge. lia.
    + intros n Hn. destruct (decide (n = tftp_blknum t)) as [->|]; [by apply K3|]. rewrite G3. apply acked_app, H11. lia.
    + by rewrite He.
  - right. split; [done|]. specialize (K2 Hr). split; [|done].
    assert (Hwr : forall e l, (if truthy e then True else l = 0) -> pw_open w' (tftp_socket t) -> writing D (with_lastblock (with_error t e) l) w').
    { intros e l Hel Ho. split; cbn; try done. - intros n Hn. rewrite G3. by apply acked_app, H11. - by destruct (truthy e). }
    destruct Hb as [[-> _]|[[-> _]|[-> _]]].
    + replace t with (with_lastblock (with_error t (tftp_error t)) (tftp_lastblock t)) by (by destruct t). apply Hwr; [by rewrite He|done].
    + replace (with_error t 1) with (with_lastblock (with_error t 1) (tftp_lastblock t)) by (by destruct t). by apply Hwr.
    + by apply Hwr.
Qed.

(** What is copied to the block. *)
Lemma chunk_copied D t w s amt : writing D t w -> length s = Z.to_nat amt -> 0 <= amt -> tftp_blklen t + amt <= 512 ->
  writing (D ++ s) (with_fileoffset (with_blklen (with_data t (splice (tftp_data t) (Z.to_nat (tftp_blklen t)) s)) (tftp_blklen t + amt)) (tftp_fileoffset t + amt)) w.
Proof.
  intros [H1 H2 H3 H4 H5 H6 H7 H8 H9 H10 H11 H12] Hs Ha Hle. split; cbn -[Z.mul]; try done; try lia.
  - rewrite length_splice by lia. done.
  - rewrite length_app. lia.
  - rewrite drop_app_le by lia. rewrite <- H9. unfold splice. rewrite app_assoc. rewrite take_app_le by (rewrite length_app, length_take; lia).
    apply take_ge. rewrite length_app, length_take. lia.
  - by apply sends_grows.
Qed.

(** When a full block is left over, something went wrong. *)
Definition left_over (t : tftp_info) (w : W) : Prop := tftp_blklen t = 512 -> stopped (pw_trace w).

Lemma stopped_prefix (w w' : W) : pw_trace w `prefix_of` pw_trace w' -> stopped (pw_trace w) -> stopped (pw_trace w').
Proof. intros [evs ->]. apply stopped_app. Qed.

Definition has_written (w : W) (D : bytes) (buf : bytes) (n : Z) (t' : tftp_info) (w' : W) : Prop :=
  0 <= n <= Z.of_nat (length buf) /\ pw_trace w `prefix_of` pw_trace w' /\ writing (D ++ take (Z.to_nat n) buf) t' w' /\ left_over t' w' /\
  (n < Z.of_nat (length buf) -> stopped (pw_trace w')).

Lemma has_written_more w w1 D s buf n t' w' : pw_trace w `prefix_of` pw_trace w1 -> has_written w1 (D ++ s) buf n t' w' ->
  has_written w D (s ++ buf) (Z.of_nat (length s) + n) t' w'.
Proof.
  intros Hp (H1 & H2 & H3 & H4 & H5). split; [rewrite length_app; lia|]. split; [by etransitivity|]. split.
  - replace (Z.to_nat (Z.of_nat (length s) + n)) with (length s + Z.to_nat n)%nat by lia. by rewrite firstn_app_2, app_assoc.
  - split; [done|]. rewrite length_app. intros Hlt. apply H5. lia.
Qed.

Lemma write_loop_ok fuel : forall w t buf copied D, writing D t w -> tftp_error t = 0 -> left_over t w -> Z.of_nat (length D + length buf) < 512 * 65535 ->
  (length buf + (if (tftp_blklen t =? 512)%Z then 1 else 0) <= fuel)%nat ->
  exists n t' w', write_loop fuel w t buf copied = Some (copied + n, t', w') /\ has_written w D buf n t' w'.
Proof.
  induction fuel as [|fuel IH]; intros w t buf copied D H He Hlo Hd Hfuel.
  { destruct buf; [|cbn in Hfuel; lia]. exists 0, t, w. cbn [write_loop]. rewrite Z.add_0_r. split; [done|]. split; [done|]. split; [done|]. cbn. by rewrite app_nil_r. }
  destruct buf as [|c buf]; cbn [write_loop].
  { exists 0, t, w. rewrite Z.add_0_r. split; [done|]. split; [done|]. split; [done|]. cbn. by rewrite app_nil_r. }
  set (full := c :: buf) in *. pose proof (wr_len _ _ _ H) as Hlen. cbn zeta.
  assert (Hne : (0 < length full)%nat) by (cbn; lia). change TFTP_BLOCKSIZE with 512.
  set (amt := if 512 - tftp_blklen t <? Z.of_nat (length full) then 512 - tftp_blklen t else Z.of_nat (length full)).
  assert (Hamt : 0 <= amt <= Z.of_nat (length full) /\ amt <= 512 - tftp_blklen t /\ (tftp_blklen t < 512 -> 0 < amt)) by (unfold amt; destruct (Z.ltb_spec (512 - tftp_blklen t) (Z.of_nat (length full))); lia).
  set (s := take (Z.to_nat amt) full). assert (Hs : length s = Z.to_nat amt) by (unfold s; rewrite length_take; lia).
  set (t1 := with_fileoffset _ _). set (rest := drop (Z.to_nat amt) full). assert (Hsplit : full = s ++ rest) by (symmetry; apply take_drop).
  assert (Hrest : length rest = (length full - Z.to_nat amt)%nat) by apply length_drop.
  assert (H1 : writing (D ++ s) t1 w) by (refine (chunk_copied D t w s amt H Hs _ _); lia). change (tftp_blklen t1) with (tftp_blklen t + amt).
  assert (Hgo : forall w1 t2, pw_trace w `prefix_of` pw_trace w1 -> writing (D ++ s) t2 w1 -> tftp_error t2 = 0 -> left_over t2 w1 ->
    (length rest + (if (tftp_blklen t2 =? 512)%Z then 1 else 0) <= fuel)%nat ->
    exists n t' w', write_loop fuel w1 t2 rest (copied + amt) = Some (copied + n, t', w') /\ has_written w D full n t' w').
  { intros w1 t2 G1 G2 G3 G4 G5. destruct (IH w1 t2 rest (copied + amt) (D ++ s) G2 G3 G4) as (n & t' & w' & E & Hw); [rewrite length_app; lia|done|].
    exists (amt + n), t', w'. rewrite E. split; [do 3 f_equal; lia|]. rewrite Hsplit. replace amt with (Z.of_nat (length s)) by lia. by eapply has_written_more. }
  destruct (Z.eqb_spec (tftp_blklen t + amt) 512) as [Hfull|Hpart].
  - destruct (tftp_full_block _ t1 w H1 He Hfull) as (r & t2 & w2 & -> & Hpre & Hr); [rewrite length_app; lia|]. cbn [option_bind]. destruct Hr as [(-> & E1 & E2 & E3)|(Hr & E1 & E2)].
    + cbn [Z.eqb negb]. apply Hgo; try done. change (tftp_blklen (with_blklen t2 0)) with 0. cbn [Z.eqb]. destruct (Z.eqb_spec (tftp_blklen t) 512); lia.
    + destruct (Z.eqb_spec r 0) as [|_]; [done|]. exists amt, t2, w2. split; [done|]. split; [lia|]. split; [done|]. split; [done|]. split; [by intros _|by intros _].
  - apply Hgo; try done. + by intros Hbad. + change (tftp_blklen t1) with (tftp_blklen t + amt). destruct (Z.eqb_spec (tftp_blklen t + amt) 512); [done|]. lia.
Qed.

(** Writing again and again; the bytes that were accepted. *)
Fixpoint writes (w : W) (t : tftp_info) (bufs : list bytes) : option (bytes * tftp_info * W) :=
  match bufs with
  | [] => Some ([], t, w)
  | buf :: bufs =>
      let? (n, t, w) := tftp_fileop_write w t buf in
      let? (s, t, w) := writes w t bufs in Some (take (Z.to_nat n) buf ++ s, t, w)
  end.

Lemma fileop_write_ok w t buf D : writing D t w -> left_over t w -> Z.of_nat (length D + length buf) < 512 * 65535 ->
  exists r t' w', tftp_fileop_write w t buf = Some (r, t', w') /\ has_written w D buf (Z.max 0 r) t' w'.
Proof.
  intros H Hlo Hd. unfold tftp_fileop_write. pose proof (wr_error _ _ _ H) as He. unfold truthy in *. destruct (Z.eqb_spec (tftp_error t) 0) as [Hz|Hnz]; cbn [negb] in *.
  - rewrite (wr_mode _ _ _ H). change (FILE_MODE_WRITE =? FILE_MODE_READ) with false. cbn iota.
    destruct (write_loop_ok (S (length buf)) w t buf 0 D H Hz Hlo Hd) as (n & t' & w' & -> & Hw); [destruct (_ =? _); lia|]. eexists _, _, _. split; [reflexivity|].
    replace (Z.max 0 (0 + n)) with n; [done|]. destruct Hw as [Hn _]. lia.
  - eexists _, t, w. split; [reflexivity|]. change (Z.max 0 CFE_ERR_IOERR) with 0. split; [lia|]. split; [done|]. change (take (Z.to_nat 0) buf) with (@nil Z). rewrite app_nil_r. by split.
Qed.

Lemma writes_ok bufs : forall w t D, writing D t w -> left_over t w -> Z.of_nat (length D + length (concat bufs)) < 512 * 65535 ->
  exists s t' w', writes w t bufs = Some (s, t', w') /\ pw_trace w `prefix_of` pw_trace w' /\ writing (D ++ s) t' w' /\ left_over t' w' /\ (stopped (pw_trace w') \/ s = concat bufs).
Proof.
  induction bufs as [|buf bufs IH]; intros w t D H Hlo Hd; cbn [writes concat] in *.
  { exists [], t, w. rewrite app_nil_r. split; [done|]. split; [done|]. split; [done|]. split; [done|]. by right. }
  rewrite length_app in Hd. destruct (fileop_write_ok w t buf D H Hlo) as (r & t1 & w1 & -> & Hn & Hp & H1 & Hlo1 & Hst); [lia|]. cbn [option_bind].
  destruct (IH w1 t1 _ H1 Hlo1) as (s & t' & w' & -> & K1 & K2 & K3 & K4); [rewrite length_app, length_take; lia|]. cbn [option_bind].
  assert (Hr : Z.to_nat (Z.max 0 r) = Z.to_nat r) by lia. rewrite Hr, <- app_assoc in K2. eexists _, _, _. split; [reflexivity|]. split; [by etransitivity|]. split; [done|]. split; [done|].
  destruct (decide (Z.max 0 r < Z.of_nat (length buf))) as [Hlt|Hge]; [left; eapply stopped_prefix; [exact K1|by apply Hst]|].
  destruct K4 as [K4| ->]; [by left|right]. rewrite take_ge by lia. done.
Qed.

(** Closing sends the last block, which has less than 512 bytes. *)
Lemma close_ok w t D : writing D t w -> left_over t w ->
  exists w', tftp_fileop_close w t = Some w' /\ pw_trace w `prefix_of` pw_trace w' /\ sends_blocks 0 D (pw_trace w') /\
    (stopped (pw_trace w') \/ forall n, has_block D n -> acked (pw_trace w') n).
Proof.
  intros H Hlo. pose proof H as [H1 H2 H3 H4 H5 H6 H7 H8 H9 H10 H11 H12]. unfold tftp_fileop_close, _tftp_close.
  destruct (Z.eqb_spec (tftp_socket t) (-1)) as [Hbad|_]; [by apply open_valid in H2|]. rewrite H3. change (FILE_MODE_WRITE =? FILE_MODE_READ) with false. cbn iota.
  assert (Hend : forall w1 s, pw_ok w1 -> pw_open w1 s -> exists w', udp_close w1 s = Some w' /\ pw_trace w' = pw_trace w1).
  { intros w1 s G1 G2. destruct (peer_close w1 s G1 G2) as (w' & E & _ & Ht). by exists w'. }
  assert (Hstop : stopped (pw_trace w) -> exists w', udp_close w (tftp_socket t) = Some w' /\ pw_trace w `prefix_of` pw_trace w' /\ sends_blocks 0 D (pw_trace w') /\ (stopped (pw_trace w') \/ forall n, has_block D n -> acked (pw_trace w') n)).
  { intros Hst. destruct (Hend w _ H1 H2) as (w' & -> & Ht). exists w'. split; [done|]. rewrite Ht. split; [done|]. split; [eapply sends_less; [|exact H10]; lia|by left]. }
  unfold _tftp_writemore. unfold truthy in *. destruct (Z.eqb_spec (tftp_error t) 0) as [He|He]; cbn [negb] in H12 |- *.
  - rewrite H12. cbn [Z.eqb negb]. destruct (writemore_loop_ok TFTP_MAX_RETRIES w t H1 H2 H4) as (r & t' & w1 & evs & -> & G1 & G2 & G3 & G4); [lia|lia|].
    cbn [option_bind]. destruct (writemore_sends 0 _ _ _ _ _ _ _ (proj1 H7) H G3 G4) as (K1 & K2 & K3). destruct (Hend w1 _ G1 G2) as (w' & -> & Ht). exists w'. split; [done|]. rewrite Ht. split; [rewrite G3; by apply prefix_app_r|]. split; [done|].
    destruct (decide (tftp_blklen t = 512)) as [Hfull|Hpart]; [left; rewrite G3; by apply stopped_app, Hlo|]. destruct (decide (r = 0)) as [->|Hr]; [right|left; by apply K2].
    intros n [Hn Hf]. destruct (decide (n = tftp_blknum t)) as [->|]; [by apply K3|]. rewrite G3. apply acked_app, H11. lia.
  - destruct (Hstop H12) as (w' & E & Hw'). exists w'. by destruct (Z.eqb_spec (tftp_lastblock t) 0); cbn [negb option_bind]; rewrite E.
Qed.

Context {RA : RescueApi (W := W)} (dns_lookup : W -> bytes -> option (Z * bytes * W)).
Hypothesis dns_ok : forall w h, pw_ok w -> exists res addr w', dns_lookup w h = Some (res, addr, w') /\ pw_ok w' /\ pw_trace w' = pw_trace w /\ length addr = 4%nat.

Definition no_data (evs : list event) : Prop := forall p, EvSend p ∈ evs -> take 2 p <> be16 TFTP_OP_DATA.

Lemma no_data_snoc evs e : no_data evs -> (forall p, e = EvSend p -> take 2 p <> be16 TFTP_OP_DATA) -> no_data (evs ++ [e]).
Proof. intros H He p [Hin|Hin%list_elem_of_singleton]%elem_of_app; [by apply H|by apply He]. Qed.

Lemma write_request_ok k : forall w t filename, pw_ok w -> pw_open w (tftp_socket t) -> length (tftp_ipaddr t) = 4%nat -> (length filename <= 1400)%nat ->
  tftp_filemode t = FILE_MODE_WRITE -> no_data (pw_trace w) ->
  exists d w', request_loop k w t filename = Some (d, w') /\ pw_ok w' /\ pw_open w' (tftp_socket t) /\ no_data (pw_trace w') /\
    match d with None => True | Some d => holds (dg_buf d) /\ Forall byte_ok (payload (dg_buf d)) /\ exists evs, pw_good evs (payload (dg_buf d)) end.
Proof.
  induction k as [|k IH]; intros w t filename Hw Hs Ha Hf Hm Hna; cbn [request_loop]; [by eexists _, w|].
  destruct (peer_alloc w _ Hw Hs) as (o & w1 & -> & Hw1 & Hs1 & Ho). cbn [option_bind]. destruct o as [b|].
  2:{ eexists _, w1. split; [reflexivity|]. rewrite Ho. split; [done|]. split; [done|]. split; [|done]. by apply no_data_snoc. }
  destruct Ho as (Ht1 & Htx & Hb & Hp & Hq). assert (F0 : filled b b []) by done. rewrite Hm. change (FILE_MODE_WRITE =? FILE_MODE_READ) with false. cbn iota. unfold ebuf_append_u16_be.
  destruct (append_filled b b [] (be16 TFTP_OP_WRQ) F0) as (b1 & -> & F1); [rewrite Hq; cbn; unfold eb_size; lia|]. cbn [option_bind app] in *.
  destruct (append_filled b b1 _ (filename ++ [0]) F1) as (b2 & -> & F2); [rewrite Hq, !length_app; cbn [length be16]; unfold eb_size; lia|]. cbn [option_bind].
  destruct (append_filled b b2 _ [111; 99; 116; 101; 116; 0] F2) as (b3 & -> & F3); [rewrite Hq, !length_app; cbn [length be16]; unfold eb_size; lia|]. cbn [option_bind].
  destruct (peer_send w1 _ b b3 _ (tftp_ipaddr t) Hw1 Hs1 Htx F3 Ha) as (r & w2 & -> & Hw2 & Hs2 & Ht2). cbn [option_bind].
  assert (Hna2 : no_data (pw_trace w2)) by (rewrite Ht2, Ht1; apply no_data_snoc; [done|]; intros p Heq; injection Heq as <-; discriminate).
  destruct (peer_recv w2 _ TFTP_RRQ_TIMEOUT Hw2 Hs2) as (d & w3 & -> & Hw3 & Hs3 & Hd). cbn [option_bind]. destruct d as [d|].
  - destruct Hd as (D1 & D2 & D3 & D4). eexists _, w3. split; [reflexivity|]. rewrite D4. split; [done|]. split; [done|]. split; [by apply no_data_snoc|]. eauto.
  - apply IH; try done. by rewrite Hd.
Qed.

Lemma writing_start t w : pw_ok w -> pw_open w (tftp_socket t) -> length (tftp_ipaddr t) = 4%nat -> length (tftp_data t) = 512%nat -> tftp_filemode t = FILE_MODE_WRITE ->
  tftp_error t = 0 -> tftp_lastblock t = 0 -> tftp_blknum t = 1 -> tftp_blklen t = 0 -> no_data (pw_trace w) -> writing [] t w /\ left_over t w.
Proof.
  intros H1 H2 H3 H4 H5 H6 H7 H8 H9 H10. split; [|by unfold left_over; rewrite H9]. split; try done; rewrite ?H8, ?H9; try done.
  - intros pre p post He Hop. exfalso. apply (H10 p); [rewrite He; apply elem_of_app; right; left|done].
  - lia.
  - by rewrite H6.
Qed.

Lemma tftp_open_write_ok w t host filename : pw_ok w -> pw_trace w = [] -> (length filename <= 1400)%nat -> length (tftp_data t) = 512%nat ->
  exists r t' w', _tftp_open dns_lookup w t host filename FILE_MODE_WRITE = Some (r, t', w') /\
    (r = 0 -> let t' := with_fileoffset (with_blkoffset t' 0) 0 in writing [] t' w' /\ left_over t' w').
Proof.
  intros Hw Ht Hf Hd. unfold _tftp_open. destruct (dns_ok w host Hw) as (res & addr & w1 & -> & Hw1 & Ht1 & Hla). cbn [option_bind].
  destruct (Z.ltb_spec res 0); [eexists _, _, _; split; [reflexivity|]; lia|].
  destruct (peer_socket w1 UDP_PROTO_TFTP Hw1) as (s & w2 & -> & Hw2 & Ht2 & Hs2). cbn [option_bind]. set (t1 := with_filemode _ _).
  destruct (write_request_ok TFTP_MAX_RETRIES w2 t1 filename Hw2 Hs2 Hla Hf eq_refl) as (d & w3 & -> & Hw3 & Hs3 & Hnd & Hdg); [rewrite Ht2, Ht1, Ht; intros n Hin; by apply not_elem_of_nil in Hin|].
  cbn [option_bind]. destruct d as [d|].
  2:{ destruct (peer_close w3 _ Hw3 Hs3) as (w4 & -> & _). eexists _, _, _. split; [reflexivity|]. discriminate. }
  destruct Hdg as (Hb & HF & evs & Hg). destruct (peer_answers _ _ Hg) as [Hlong Hop].
  destruct (get_op (dg_buf d) Hb Hlong HF) as (op & num & rest & Rop & Rnum & Hp & -> & E2 & Hb2 & Hp2). cbn [option_bind].
  assert (Hrefuse : forall b, sized b -> exists r t' w', (let? w := udp_close (udp_free w3 b) (tftp_socket t1) in Some (CFE_ERR_PROTOCOLERR, with_socket t1 (-1), w)) = Some (r, t', w') /\
    (r = 0 -> let t' := with_fileoffset (with_blkoffset t' 0) 0 in writing [] t' w' /\ left_over t' w')).
  { intros b Hsz. destruct (peer_free w3 b _ Hw3 Hsz Hs3) as (G1 & _ & G3). destruct (peer_close _ _ G1 G3) as (w4 & -> & _). eexists _, _, _. split; [reflexivity|]. discriminate. }
  change (tftp_filemode t1 =? FILE_MODE_WRITE) with true. rewrite andb_true_r. destruct (Z.eqb_spec op TFTP_OP_ACK) as [->|_].
  { destruct (peer_connect w3 _ (wrap16 (eb_usrdata d)) Hw3 Hs3) as (r & w4 & -> & Hw4 & Ht4 & Hs4). cbn [option_bind].
    assert (Hsz : sized (ebuf_skip (dg_buf d) 2)) by apply Hb. destruct (peer_free w4 _ _ Hw4 Hsz Hs4) as (G1 & G2 & G3).
    eexists _, _, _. split; [reflexivity|]. intros _. apply writing_start; try done. by rewrite G2, Ht4. }
  rewrite E2. cbn [option_bind]. destruct (Z.eqb_spec op TFTP_OP_ERROR); [apply Hrefuse; apply Hb|]. destruct (Z.eqb_spec op TFTP_OP_DATA) as [->|_]; [|apply Hrefuse; apply Hb].
  exfalso. apply Hop. by rewrite Hp.
Qed.

(** C14 A file is written as it was given: whatever packets of the server are lost, repeated or
    delayed, a client that opens [host:file], writes any pieces and closes it sends only blocks
    of the bytes that were accepted, each after the one before was acknowledged; and either it
    has sent some block eight times in vain, or found no packet buffer, or was told of an error,
    or everything was accepted and every block acknowledged. *)
Theorem tftp_writes_file w g t host file bufs : pw_ok w -> pw_trace w = [] -> host <> [] -> 58 ∉ host -> (length file <= 1400)%nat -> length (tftp_data t) = 512%nat ->
  Z.of_nat (length (concat bufs)) < 512 * 65535 ->
  exists r t' g' w', tftp_fileop_open dns_lookup w g t true true (host ++ 58 :: file) FILE_MODE_WRITE = Some (r, t', g', w') /\
  (r = 0 -> exists D t'' w'' w3, writes w' t' bufs = Some (D, t'', w'') /\ tftp_fileop_close w'' t'' = Some w3 /\ sends_blocks 0 D (pw_trace w3) /\
    (stopped (pw_trace w3) \/ D = concat bufs /\ forall n, has_block D n -> acked (pw_trace w3) n)).
Proof.
  intros Hw Ht Hh Hc Hf Hd Hlen. unfold tftp_fileop_open. change (FILE_MODE_WRITE =? FILE_MODE_READ) with false. change (FILE_MODE_WRITE =? FILE_MODE_WRITE) with true. cbn [negb andb].
  unfold lib_chop_filename. rewrite split_colon by done. cbn [option_bind]. destruct (tftp_open_write_ok w t host file Hw Ht Hf Hd) as (r & t1 & w1 & E & Hr).
  destruct host as [|c host]; [done|]. rewrite E. cbn [option_bind]. eexists r, _, g, w1. split; [reflexivity|]. intros ->. destruct (Hr eq_refl) as [H1 H2]. cbn [Z.eqb].
  destruct (writes_ok bufs w1 _ [] H1 H2) as (s & t2 & w2 & -> & _ & H3 & H4 & H5); [done|]. cbn [app] in H3.
  destruct (close_ok w2 t2 s H3 H4) as (w3 & E3 & Hp & H6 & H7). exists s, t2, w2, w3. split; [done|]. split; [done|]. split; [done|].
  destruct H7 as [H7|H7]; [by left|]. destruct H5 as [H5|H5]; [|by right]. left. by eapply stopped_prefix.
Qed.
End writer.

(** * A server that takes a file *)

Definition take_answer (p : bytes) : list bytes :=
  if bytes_eqb (take 2 p) (be16 TFTP_OP_WRQ) then [ack_packet 0]
  else if bytes_eqb (take 2 p) (be16 TFTP_OP_DATA) then
    match drop 2 p with
    | a :: b :: _ => if (0 <=? a) && (a <? 256) && (0 <=? b) && (b <? 256) then [be16 TFTP_OP_ACK ++ [a; b]] else []
    | _ => []
    end
  else [].

Definition not_data (evs : list event) (p : bytes) : Prop := (4 <= length p)%nat /\ take 2 p <> be16 TFTP_OP_DATA.

Lemma take_answer_ok evs p : EvSend p ∈ evs -> Forall (good_packet not_data evs) (take_answer p).
Proof.
  intros _. unfold take_answer. destruct (bytes_eqb _ _).
  { constructor; [|constructor]. split; [split; [cbn; lia|discriminate]|]. split; [|cbn; lia]. unfold ack_packet. rewrite Forall_app. split; apply be16_bytes. }
  destruct (bytes_eqb _ _); [|constructor]. destruct (drop 2 p) as [|a [|b l]]; try constructor.
  destruct ((0 <=? a) && _ && _ && _) eqn:E; [|constructor]. rewrite !andb_true_iff, !Z.leb_le, !Z.ltb_lt in E. constructor; [|constructor].
  split; [split; [cbn; lia|discriminate]|]. split; [|cbn; lia]. rewrite Forall_app. split; [apply be16_bytes|]. unfold byte_ok. repeat constructor; lia.
Qed.

(** Three pieces of 700, 0 and 400 bytes.  The request is answered at once, the first
    acknowledgement is lost, and the second comes again for the second block. *)
Definition a_taker : server := Server take_answer [Some 0%nat; None; Some 1%nat; Some 1%nat; Some 3%nat; Some 5%nat] [] [] 20.
Definition some_pieces : list bytes := [take 700 (a_file ++ a_file); []; take 400 a_file].

Definition delivery (w : server) (file : bytes) (bufs : list bytes) : option (Z * bytes * server) :=
  let? (r, t, _, w) := tftp_fileop_open server_dns w a_rescue a_client true true ([115; 58] ++ file) FILE_MODE_WRITE in
  let? (s, t, w) := writes w t bufs in
  let? w := tftp_fileop_close w t in Some (r, s, w).

Definition data_sent (w : server) : list bytes :=
  omap (fun e => match e with EvSend p => if bytes_eqb (take 2 p) (be16 TFTP_OP_DATA) then Some (drop 2 p) else None | _ => None end) (sm_trace w).

Lemma tftp_writes_file_witness :
  (let? (r, s, w) := delivery a_taker [102] some_pieces in Some (r, s, map (fun p => (take 2 p, length p)) (data_sent w))) =
    Some (0, concat some_pieces, [([0; 1], 514%nat); ([0; 1], 514%nat); ([0; 2], 514%nat); ([0; 2], 514%nat); ([0; 3], 78%nat)]) /\
  exists r t' g' w', tftp_fileop_open server_dns a_taker a_rescue a_client true true ([115] ++ 58 :: [102]) FILE_MODE_WRITE = Some (r, t', g', w') /\
  (r = 0 -> exists D t'' w'' w3, writes w' t' some_pieces = Some (D, t'', w'') /\ tftp_fileop_close w'' t'' = Some w3 /\ sends_blocks 0 D (sm_trace w3) /\
    (stopped (sm_trace w3) \/ D = concat some_pieces /\ forall n, has_block D n -> acked (sm_trace w3) n)).
Proof.
  split; [vm_compute; reflexivity|].
  apply (@tftp_writes_file server server_api (server_peer take_answer not_data (fun evs e p H => H) take_answer_ok)).
  - exact (fun evs p H => H).
  - intros w s ->. discriminate.
  - intros w h Hw. by exists 1, [10; 0; 0; 2], w.
  - split; [reflexivity|constructor].
  - reflexivity.
  - discriminate.
  - rewrite list_elem_of_singleton. discriminate.
  - cbn. lia.
  - reflexivity.
  - vm_compute. reflexivity.
Defined.

(** Closing does not say that the last block was lost: of 5 bytes none arrive. *)
Example close_hides_failure :
  (let? (r, s, w) := delivery (Server take_answer (Some 0%nat :: replicate 8 None) [] [] 20) [102] [[1; 2; 3; 4; 5]] in Some (r, length s)) = Some (0, 5%nat).
Proof. vm_compute. reflexivity. Qed.

(** A short data packet is taken for the answer to a write request: everything is accepted
    after it, and nothing is ever sent. *)
Example data_answers_write :
  (let? (r, s, w) := delivery (Server (fun p => if bytes_eqb (take 2 p) (be16 TFTP_OP_WRQ) then [data_packet 1 [9; 9]] else take_answer p) (replicate 9 (Some 0%nat)) [] [] 20) [102] [[1; 2]] in
   Some (r, s, data_sent w)) = Some (0, [1; 2], []).
Proof. vm_compute. reflexivity. Qed.
