(* ===== verification/Fat.v ===== *)
(** The FAT file system of the boot loader: cfe/cfe/main/cfe_fatfs.c.

    Volumes with 12-bit and 16-bit tables, with or without a partition table, directories
    with long names, and reading of files.  The disk and the allocator are behind the class
    [FatApi]; what the code caches, a sector of the table, one of a directory and one of the
    open file, is part of the state. *)

From Stdlib Require Import ZArith Lia Bool List String.
From stdpp Require Import base numbers list.
From S2P Require Import Prelude.

#[local] Open Scope Z_scope.

Definition SECTORSIZE := 512.
Definition DIRENTRYSIZE := 32.
Definition DIRPERSECTOR := 16.
Definition BPB_JMPINSTR : nat := 0.
Definition BPB_JMPINSTR_VALUE := 0xEB.
Definition BPB_SEAL : nat := 0x1FE.
Definition BPB_SEAL_VALUE := 0xAA55.
Definition BPB_BYTESPERSECTOR : nat := 0x0B.
Definition BPB_SECTORSPERCLUSTER : nat := 0x0D.
Definition BPB_RESERVEDSECTORS : nat := 0x0E.
Definition BPB_NUMFATS : nat := 0x10.
Definition BPB_MAXROOTDIR : nat := 0x11.
Definition BPB_TOTALSECTORS : nat := 0x13.
Definition BPB_SECTORSPERFAT : nat := 0x16.
Definition BPB_SECTORSPERTRACK : nat := 0x18.
Definition BPB_NUMHEADS : nat := 0x1A.
Definition BPB_HIDDENSECTORS : nat := 0x1C.
Definition BPB_SYSTEMID : nat := 54.
Definition BPB_MEDIADESCRIPTOR : nat := 21.
Definition BPB_SIGNATURE : nat := 38.
Definition BPB_SIGNATURE_VALUE1 := 0x28.
Definition BPB_SIGNATURE_VALUE2 := 0x29.
Definition PARTTYPE_FAT12 := 1.
Definition PARTTYPE_FAT16 := 4.
Definition PARTTYPE_FAT16BIG := 6.
Definition PTABLE_STATUS : nat := 0.
Definition PTABLE_TYPE : nat := 4.
Definition PTABLE_BOOTSECTOR : nat := 8.
Definition PTABLE_SIZE : nat := 16.
Definition PTABLE_COUNT : nat := 4.
Definition PTABLE_OFFSET : nat := 512 - 2 - PTABLE_COUNT * PTABLE_SIZE.
Definition PTABLE_STATUS_ACTIVE := 0x80.
Definition ATTRIB_LABEL := 0x08.
Definition ATTRIB_DIR := 0x10.
Definition ATTRIB_LFN := 0x0F.
Definition DIRENTRY_LAST := 0.
Definition DIRENTRY_DELETED := 0xE5.
Definition DIRENTRY_PARENTDIR := 0x2E.
Definition LFNIDX_MASK := 0x1F.
Definition LFNIDX_END := 0x40.
Definition LFNIDX_MAX := 20.

Definition CFE_ERR_IOERR := -4.
Definition CFE_ERR_UNSUPPORTED := -19.
Definition CFE_ERR_NOMEM := -5.
Definition CFE_ERR_INV_PARAM := -8.
Definition CFE_ERR_BADFILESYS := -29.
Definition CFE_ERR_FILENOTFOUND := -18.
Definition FILE_MODE_READ := 1.
Definition FILE_SEEK_BEGINNING := 0.
Definition FILE_SEEK_CURRENT := 1.

(** The disk and the allocator.  [cfe_readblk] gives its result and the bytes it has put at
    the start of the buffer; [KMALLOC] gives an address, or nothing. *)
Class FatApi (W : Type) := {
  cfe_open : W -> bytes -> Z * W;
  cfe_close : W -> Z -> W;
  cfe_readblk : W -> Z -> Z -> Z -> Z * bytes * W;
  KMALLOC : W -> Z -> option Z * W;
  KFREE : W -> Z -> W
}.

(** * Fields of a sector *)

Definition READBYTE (buffer : bytes) (x : nat) : Z := at_ buffer x.
Definition READWORD (buffer : bytes) (x : nat) : Z := Z.lor (READBYTE buffer x) (Z.shiftl (READBYTE buffer (x + 1)) 8).
Definition READWORD32 (buffer : bytes) (x : nat) : Z := Z.lor (READWORD buffer x) (Z.shiftl (READWORD buffer (x + 2)) 16).

Definition DIRENTRY_CHECKSUM (e : bytes) : Z := READBYTE e 13.
Definition DIRENTRY_FILELENGTH (e : bytes) : Z := READWORD32 e 28.
Definition DIRENTRY_STARTCLUSTER (e : bytes) : Z := READWORD e 26.
Definition DIRENTRY_ATTRIB (e : bytes) : Z := READBYTE e 11.
Definition DIRENTRY_LFNIDX (e : bytes) : Z := READBYTE e 0.

(** A byte at a computed place. *)
Definition byte_of (buffer : bytes) (i : Z) : option Z := assert! 0 <=? i in buffer !! Z.to_nat i.

(** * State *)

Record bpb_t := Bpb {
  bpb_bytespersector : Z;
  bpb_sectorspercluster : Z;
  bpb_reservedsectors : Z;
  bpb_numfats : Z;
  bpb_maxrootdir : Z;
  bpb_totalsectors : Z;
  bpb_sectorsperfat : Z;
  bpb_sectorspertrack : Z;
  bpb_numheads : Z;
  bpb_hiddensectors : Z
}.

(** The two buffers always have 512 bytes. *)
Record fatfs_t := Fatfs {
  fat_fh : Z;
  fat_refcnt : Z;
  fat_bpb : bpb_t;
  fat_twelvebit : bool;
  fat_partstart : Z;
  fat_dirsector : bytes;
  fat_dirsecnum : Z;
  fat_fatsector : bytes;
  fat_fatsecnum : Z
}.

(** [fat_entries] is an array in memory: its address and its elements. *)
Record fatchain_t := Chain {
  fat_start : Z;
  fat_entries : option (Z * list Z);
  fat_count : Z
}.

Record fatfile_t := Fatfile {
  ff_filelength : Z;
  ff_chain : fatchain_t;
  ff_curpos : Z;
  ff_cursector : Z;
  ff_sector : bytes
}.

Definition set_fh (f : fatfs_t) (v : Z) : fatfs_t :=
  Fatfs v (fat_refcnt f) (fat_bpb f) (fat_twelvebit f) (fat_partstart f) (fat_dirsector f) (fat_dirsecnum f) (fat_fatsector f) (fat_fatsecnum f).
Definition set_refcnt (f : fatfs_t) (v : Z) : fatfs_t :=
  Fatfs (fat_fh f) v (fat_bpb f) (fat_twelvebit f) (fat_partstart f) (fat_dirsector f) (fat_dirsecnum f) (fat_fatsector f) (fat_fatsecnum f).
Definition set_bpb (f : fatfs_t) (b : bpb_t) (t : bool) : fatfs_t :=
  Fatfs (fat_fh f) (fat_refcnt f) b t (fat_partstart f) (fat_dirsector f) (fat_dirsecnum f) (fat_fatsector f) (fat_fatsecnum f).
Definition set_partstart (f : fatfs_t) (v : Z) : fatfs_t :=
  Fatfs (fat_fh f) (fat_refcnt f) (fat_bpb f) (fat_twelvebit f) v (fat_dirsector f) (fat_dirsecnum f) (fat_fatsector f) (fat_fatsecnum f).
Definition set_dir (f : fatfs_t) (s : bytes) (n : Z) : fatfs_t :=
  Fatfs (fat_fh f) (fat_refcnt f) (fat_bpb f) (fat_twelvebit f) (fat_partstart f) s n (fat_fatsector f) (fat_fatsecnum f).
Definition set_fat (f : fatfs_t) (s : bytes) (n : Z) : fatfs_t :=
  Fatfs (fat_fh f) (fat_refcnt f) (fat_bpb f) (fat_twelvebit f) (fat_partstart f) (fat_dirsector f) (fat_dirsecnum f) s n.

Section fat.
Context {W : Type} `{FatApi W}.

(** * Sectors *)

Definition fat_readsector (w : W) (f : fatfs_t) (sector numsec : Z) (buffer : bytes) : option (Z * bytes * W) :=
  let '(res, s, w) := cfe_readblk w (fat_fh f) (sint32 ((sector + fat_partstart f) * SECTORSIZE) mod 2 ^ 64) (numsec * SECTORSIZE) in
  assert! (length s <=? length buffer)%nat in
  let buffer := splice buffer 0 s in
  Some (if res =? numsec * SECTORSIZE then 0 else CFE_ERR_IOERR, buffer, w).

(** A sector into a buffer of the caller. *)
Definition read_boot (w : W) (f : fatfs_t) : option (Z * bytes * W) := fat_readsector w f 0 1 (replicate 512 0).

Definition fat_type (buffer : bytes) (part : nat) : bool :=
  let t := READBYTE buffer (part + PTABLE_TYPE) in
  (t =? PARTTYPE_FAT12) || (t =? PARTTYPE_FAT16) || (t =? PARTTYPE_FAT16BIG).

(** The first of [n] entries of the partition table for which [ok] holds. *)
Fixpoint find_partition (n : nat) (ok : nat -> bool) (part : nat) : option nat :=
  match n with
  | O => None
  | S n => if ok part then Some part else find_partition n ok (part + PTABLE_SIZE)
  end.

Definition fat_findpart (w : W) (f : fatfs_t) : option (Z * fatfs_t * W) :=
  let f := set_partstart f 0 in
  let? (res, buffer, w) := read_boot w f in
  if res <? 0 then Some (res, f, w)
  else if negb (READWORD buffer BPB_SEAL =? BPB_SEAL_VALUE) then Some (CFE_ERR_BADFILESYS, f, w)
  else
    match find_partition PTABLE_COUNT (fun part => (READBYTE buffer (part + PTABLE_STATUS) =? PTABLE_STATUS_ACTIVE) && fat_type buffer part) PTABLE_OFFSET with
    | None => Some (CFE_ERR_BADFILESYS, f, w)
    | Some part => Some (0, set_partstart f (sint32 (READWORD32 buffer (part + PTABLE_BOOTSECTOR))), w)
    end.

Definition bpb_of (buffer : bytes) : bpb_t :=
  Bpb (READWORD buffer BPB_BYTESPERSECTOR) (READBYTE buffer BPB_SECTORSPERCLUSTER) (READWORD buffer BPB_RESERVEDSECTORS)
    (READBYTE buffer BPB_NUMFATS) (READWORD buffer BPB_MAXROOTDIR) (READWORD buffer BPB_TOTALSECTORS) (READWORD buffer BPB_SECTORSPERFAT)
    (READWORD buffer BPB_SECTORSPERTRACK) (READWORD buffer BPB_NUMHEADS) (READWORD buffer BPB_HIDDENSECTORS).

Definition FAT16_ : bytes := [70; 65; 84; 49; 54; 32; 32; 32].

Definition fat_readbpb (w : W) (f : fatfs_t) : option (Z * fatfs_t * W) :=
  let? (res, buffer, w) := read_boot w f in
  if res <? 0 then Some (res, f, w)
  else if negb (READBYTE buffer BPB_JMPINSTR =? BPB_JMPINSTR_VALUE) then Some (CFE_ERR_BADFILESYS, f, w)
  else if negb (READWORD buffer BPB_SEAL =? BPB_SEAL_VALUE) then Some (CFE_ERR_BADFILESYS, f, w)
  else
    let b := bpb_of buffer in
    let f := set_bpb f b (negb (bytes_eqb (take 8 (drop 0x36 buffer)) FAT16_)) in
    if negb (bpb_bytespersector b =? SECTORSIZE) then Some (CFE_ERR_BADFILESYS, f, w)
    else if 2 <? bpb_numfats b then Some (CFE_ERR_BADFILESYS, f, w)
    else Some (0, f, w).

(** * The table *)

(** A sector of the table into the cache, and the same unless it is there already. *)
Definition fat_fetch (w : W) (f : fatfs_t) (n : Z) : option (Z * fatfs_t * W) :=
  let? (res, buffer, w) := fat_readsector w f (sint32 (n + bpb_reservedsectors (fat_bpb f))) 1 (fat_fatsector f) in
  if res <? 0 then Some (res, set_fat f buffer (fat_fatsecnum f), w) else Some (0, set_fat f buffer n, w).

Definition fat_cached (w : W) (f : fatfs_t) (n : Z) : option (Z * fatfs_t * W) :=
  if fat_fatsecnum f =? n then Some (0, f, w) else fat_fetch w f n.

(** The [k]-th byte after [fatoffset], which may be in the sector after [n]. *)
Definition fat_cross (w : W) (f : fatfs_t) (n fatoffset k : Z) : option (Z * Z * fatfs_t * W) :=
  if SECTORSIZE <=? fatoffset + k then
    let? (res, f, w) := fat_fetch w f (n + 1) in Some (res, fatoffset - SECTORSIZE, f, w)
  else Some (0, fatoffset, f, w).

Definition fat_getfatentry (w : W) (f : fatfs_t) (entry : Z) : option (Z * fatfs_t * W) :=
  if fat_twelvebit f then
    let odd := Z.odd entry in
    let byteoffset := Z.quot (Z.land entry (-2) * 3) 2 in
    let fatsect := Z.quot byteoffset SECTORSIZE in
    let fatoffset := Z.rem byteoffset SECTORSIZE in
    let? (res, f, w) := fat_cached w f fatsect in
    if res <? 0 then Some (res, f, w)
    else
      let? b1 := byte_of (fat_fatsector f) fatoffset in
      let? (res, fatoffset, f, w) := fat_cross w f fatsect fatoffset 1 in
      if res <? 0 then Some (res, f, w)
      else
        let? b2 := byte_of (fat_fatsector f) (fatoffset + 1) in
        let? (res, fatoffset, f, w) := fat_cross w f fatsect fatoffset 2 in
        if res <? 0 then Some (res, f, w)
        else
          let? b3 := byte_of (fat_fatsector f) (fatoffset + 2) in
          if odd then Some (Z.shiftl b3 4 + Z.shiftr (Z.land b2 0xF0) 4, f, w)
          else Some (Z.shiftl (Z.land b2 0x0F) 8 + b1, f, w)
  else
    let byteoffset := entry * 2 in
    let fatsect := Z.quot byteoffset SECTORSIZE in
    let fatoffset := Z.rem byteoffset SECTORSIZE in
    let? (res, f, w) := fat_cached w f fatsect in
    if res <? 0 then Some (res, f, w)
    else
      let? b1 := byte_of (fat_fatsector f) fatoffset in
      let? b2 := byte_of (fat_fatsector f) (fatoffset + 1) in
      Some (b1 + Z.shiftl b2 8, f, w).

(** More steps than a table has entries. *)
Definition FAT_FUEL : nat := Z.to_nat 65537.

(** Walking a chain; [None] when it does not end within the fuel. *)
Fixpoint walk_loop {A} (fuel : nat) (ending_e : Z) (func : Z -> Z -> A -> option (Z * A)) (w : W) (f : fatfs_t) (e prev_e : Z) (arg : A) :
  option (Z * A * fatfs_t * W) :=
  if ending_e <=? e then Some (0, arg, f, w)
  else
    match fuel with
    | O => None
    | S fuel =>
        let? (res, arg) := func e prev_e arg in
        if truthy res then Some (res, arg, f, w)
        else
          let? (e', f, w) := fat_getfatentry w f e in
          if e' <? 0 then Some (e', arg, f, w)
          else walk_loop fuel ending_e func w f e' e arg
    end.

Definition ending_entry (f : fatfs_t) : Z := if fat_twelvebit f then 0xFF8 else 0xFFF8.

Definition fat_walkfatchain {A} (fuel : nat) (w : W) (f : fatfs_t) (start : Z) (func : Z -> Z -> A -> option (Z * A)) (arg : A) : option (Z * A * fatfs_t * W) :=
  walk_loop fuel (ending_entry f) func w f start 0 arg.

Definition fat_getwalkfunc (e prev_e : Z) (chain : fatchain_t) : option (Z * fatchain_t) :=
  let? entries :=
    match fat_entries chain with
    | None => Some None
    | Some (p, l) => assert! fat_count chain <? Z.of_nat (length l) in Some (Some (p, <[Z.to_nat (fat_count chain) := wrap16 e]> l))
    end in
  Some (0, Chain (fat_start chain) entries (fat_count chain + 1)).

Definition fat_getchain (fuel : nat) (w : W) (f : fatfs_t) (start : Z) : option (Z * fatchain_t * fatfs_t * W) :=
  let? (res, chain, f, w) := fat_walkfatchain fuel w f start fat_getwalkfunc (Chain start None 0) in
  if res <? 0 then Some (res, chain, f, w)
  else if fat_count chain =? 0 then Some (0, chain, f, w)
  else
    let '(p, w) := KMALLOC w ((fat_count chain + 1) * 2) in
    let entries := let? p := p in Some (p, replicate (Z.to_nat (fat_count chain + 1)) 0) in
    let? (res, chain, f, w) := fat_walkfatchain fuel w f start fat_getwalkfunc (Chain start entries 0) in
    if res <? 0 then Some (res, chain, f, w) else Some (fat_count chain, chain, f, w).

Definition fat_freechain (w : W) (chain : fatchain_t) : W :=
  match fat_entries chain with None => w | Some (p, _) => KFREE w p end.

Definition fat_clusteridx (chain : fatchain_t) (idx : Z) : option Z :=
  if fat_count chain <=? idx then Some CFE_ERR_INV_PARAM
  else
    let? (p, l) := fat_entries chain in
    assert! 0 <=? idx in l !! Z.to_nat idx.

(** The arithmetic is unsigned, as the fields of the parameter block are. *)
Definition fat_sectoridx (f : fatfs_t) (chain : fatchain_t) (idx : Z) : option Z :=
  let b := fat_bpb f in
  assert! negb (bpb_sectorspercluster b =? 0) in
  let clusteridx := sint32 (wrap32 idx / bpb_sectorspercluster b) in
  let sectoridx := wrap32 idx mod bpb_sectorspercluster b in
  let? fatentry := fat_clusteridx chain clusteridx in
  Some (sint32 (bpb_reservedsectors b + bpb_maxrootdir b * DIRENTRYSIZE / SECTORSIZE + bpb_numfats b * bpb_sectorsperfat b
    + (fatentry - 2) * bpb_sectorspercluster b + sectoridx)).

(** * Directories *)

(** An entry that has not been read yet is [None]. *)
Abbreviation direntry := (option bytes).

(** The sector [n] of a directory into the cache, and an entry out of it. *)
Definition dir_entry (w : W) (f : fatfs_t) (n idx : Z) (entry : direntry) : option (Z * direntry * fatfs_t * W) :=
  let? (res, f, w) :=
    if fat_dirsecnum f =? n then Some (0, f, w)
    else
      let? (res, buffer, w) := fat_readsector w f n 1 (fat_dirsector f) in
      Some (res, set_dir f buffer (if res <? 0 then fat_dirsecnum f else n), w) in
  if res <? 0 then Some (res, entry, f, w)
  else
    assert! 0 <=? idx in
    Some (0, Some (take 32 (drop (Z.to_nat (Z.rem idx DIRPERSECTOR * DIRENTRYSIZE)) (fat_dirsector f))), f, w).

Definition fat_getrootdirentry (w : W) (f : fatfs_t) (entryidx : Z) (entry : direntry) : option (Z * direntry * fatfs_t * W) :=
  let b := fat_bpb f in
  if bpb_maxrootdir b <=? wrap32 entryidx then Some (CFE_ERR_INV_PARAM, Some (replicate 32 0), f, w)
  else
    let rootdirstart := sint32 (bpb_reservedsectors b + bpb_numfats b * bpb_sectorsperfat b) in
    dir_entry w f (rootdirstart + Z.quot entryidx DIRPERSECTOR) entryidx entry.

Definition fat_getsubdirentry (w : W) (f : fatfs_t) (chain : fatchain_t) (idx : Z) (entry : direntry) : option (Z * direntry * fatfs_t * W) :=
  let? sector := fat_sectoridx f chain (Z.quot idx DIRPERSECTOR) in
  if sector <? 0 then Some (sector, entry, f, w) else dir_entry w f sector idx entry.

(** Of the root directory, or of that of a chain. *)
Definition get_direntry (w : W) (f : fatfs_t) (chain : option fatchain_t) (idx : Z) (entry : direntry) : option (direntry * fatfs_t * W) :=
  let? (_, entry, f, w) :=
    match chain with
    | Some chain => fat_getsubdirentry w f chain idx entry
    | None => fat_getrootdirentry w f idx entry
    end in
  Some (entry, f, w).

Definition fat_checksumname (name : bytes) : Z :=
  fold_left (fun sum c => wrap8 (Z.lor (Z.shiftr sum 1) (if truthy (Z.land sum 1) then 0x80 else 0) + c)) (take 11 name) 0.

(** The characters before the first space. *)
Fixpoint upto_space (s : bytes) : bytes :=
  match s with [] => [] | c :: s => if c =? 32 then [] else c :: upto_space s end.

(** What is in [name] as a string. *)
Definition fat_getshortname (e : bytes) : bytes :=
  cstr (upto_space (take 8 e) ++ (if READBYTE e 8 =? 32 then [] else [46]) ++ upto_space (take 3 (drop 8 e))).

Definition lfn_chars (e : bytes) : bytes :=
  map (fun idx => at_ e (idx * 2 + 1)) (seq 0 5) ++ map (fun idx => at_ e (idx * 2 + 14)) (seq 0 6) ++ map (fun idx => at_ e (idx * 2 + 28)) (seq 0 2).

(** The loop of fat_getlongname: whether the name is bad, and what is in [longname], which
    has room for 280 characters.  The loop does not look at entry 0. *)
Fixpoint lfn_loop (diridx : nat) (w : W) (f : fatfs_t) (chain : option fatchain_t) (checksum lfnidx : Z) (e : direntry) (longname : bytes) :
  option (bool * bytes * fatfs_t * W) :=
  match diridx with
  | O => Some (false, longname, f, w)
  | S prev =>
      let? (e, f, w) := get_direntry w f chain (Z.of_nat diridx) e in
      let? s := e in
      if negb (DIRENTRY_CHECKSUM s =? checksum) || negb (Z.land (DIRENTRY_LFNIDX s) LFNIDX_MASK =? lfnidx) || negb (DIRENTRY_ATTRIB s =? ATTRIB_LFN)
      then Some (true, longname, f, w)
      else
        assert! (length longname + 13 <? 280)%nat in
        let longname := longname ++ lfn_chars s in
        if truthy (Z.land (DIRENTRY_LFNIDX s) LFNIDX_END) then Some (false, longname, f, w)
        else if LFNIDX_MAX <? lfnidx + 1 then Some (true, longname, f, w)
        else lfn_loop prev w f chain checksum (lfnidx + 1) e longname
  end.

Definition fat_getlongname (w : W) (f : fatfs_t) (chain : option fatchain_t) (diridx : nat) (shortentry : bytes) : option (Z * bytes * fatfs_t * W) :=
  let? (badlfn, longname, f, w) := lfn_loop (pred diridx) w f chain (fat_checksumname shortentry) 1 None [] in
  Some (if badlfn then CFE_ERR_FILENOTFOUND else 0, if badlfn then [] else cstr longname, f, w).

Definition lib_toupper (c : Z) : Z := if (97 <=? c) && (c <=? 122) then c - 32 else c.

Fixpoint lib_strcmpi (dest src : bytes) : Z :=
  match dest, src with
  | d :: dest, s :: src =>
      let dc := lib_toupper (schar d) in
      let sc := lib_toupper (schar s) in
      if dc <? sc then -1 else if sc <? dc then 1 else lib_strcmpi dest src
  | _ :: _, [] => 1
  | [], _ :: _ => -1
  | [], [] => 0
  end.

(** Entries that are not names: deleted ones, those of this and of the parent directory, parts
    of long names, and labels. *)
Definition dir_skipped (s : bytes) : bool :=
  (READBYTE s 0 =? DIRENTRY_DELETED) || (READBYTE s 0 =? DIRENTRY_PARENTDIR) || (DIRENTRY_ATTRIB s =? ATTRIB_LFN)
    || truthy (Z.land (DIRENTRY_ATTRIB s) ATTRIB_LABEL).

Fixpoint scan_loop (n idx : nat) (w : W) (f : fatfs_t) (chain : option fatchain_t) (name : option bytes) (e : direntry) : option (Z * direntry * fatfs_t * W) :=
  match n with
  | O => Some (0, e, f, w)
  | S n =>
      let? (e, f, w) := get_direntry w f chain (Z.of_nat idx) e in
      let? s := e in
      if READBYTE s 0 =? DIRENTRY_LAST then Some (0, e, f, w)
      else if dir_skipped s then scan_loop n (S idx) w f chain name e
      else
        let shortname := fat_getshortname s in
        let? (_, longname, f, w) := fat_getlongname w f chain idx s in
        match name with
        | Some name =>
            if (lib_strcmpi name shortname =? 0) || negb (bytes_eqb longname []) && (lib_strcmpi name longname =? 0) then Some (1, e, f, w)
            else scan_loop n (S idx) w f chain (Some name) e
        | None => scan_loop n (S idx) w f chain None e
        end
  end.

(** Without a name the directory is printed. *)
Definition fat_scandir (w : W) (f : fatfs_t) (chain : option fatchain_t) (name : option bytes) (e : direntry) : option (Z * direntry * fatfs_t * W) :=
  let count :=
    match chain with
    | Some c => sint32 (fat_count c * bpb_sectorspercluster (fat_bpb f) * DIRPERSECTOR)
    | None => bpb_maxrootdir (fat_bpb f)
    end in
  scan_loop (Z.to_nat count) 0 w f chain name e.

Definition is_slash (c : Z) : bool := (c =? 47) || (c =? 92).

(** The characters before the next slash, and those behind it. *)
Fixpoint next_piece (s : bytes) : bytes * bytes :=
  match s with
  | [] => ([], [])
  | c :: s => if is_slash c then ([], s) else let '(a, b) := next_piece s in (c :: a, b)
  end.

(** An empty piece ends the loop. *)
Fixpoint find_loop (depth fuel : nat) (w : W) (f : fatfs_t) (res : Z) (namepart ptr : bytes) (e : direntry) : option (Z * direntry * fatfs_t * W) :=
  match namepart with
  | [] => Some (res, e, f, w)
  | _ :: _ =>
      match depth with
      | O => None
      | S depth =>
          let? s := e in
          let? (_, chain, f, w) := fat_getchain fuel w f (DIRENTRY_STARTCLUSTER s) in
          let? (res, e, f, w) := fat_scandir w f (Some chain) (Some namepart) e in
          if res =? 0 then Some (0, e, f, w)
          else
            let w := fat_freechain w chain in
            let '(namepart, ptr) := next_piece ptr in
            let? s := e in
            let res := if negb (bytes_eqb namepart []) && negb (truthy (Z.land (DIRENTRY_ATTRIB s) ATTRIB_DIR)) then 0 else res in
            find_loop depth fuel w f res namepart ptr e
      end
  end.

Definition fat_findfile (fuel : nat) (w : W) (f : fatfs_t) (name : bytes) (e : direntry) : option (Z * direntry * fatfs_t * W) :=
  let '(namecopy, w) := KMALLOC w (Z.of_nat (length name) + 1) in
  let? namecopy := namecopy in
  let ptr := match name with c :: s => if is_slash c then s else name | [] => name end in
  let '(namepart, ptr) := next_piece ptr in
  let? (res, e, f, w) := fat_scandir w f None (Some namepart) e in
  if res =? 0 then Some (0, e, f, KFREE w namecopy)
  else
    let '(namepart, ptr) := next_piece ptr in
    let? (res, e, f, w) := find_loop (S (length name)) fuel w f res namepart ptr e in
    let w := KFREE w namecopy in
    if 0 <? res then
      let? s := e in Some (if truthy (Z.land (DIRENTRY_ATTRIB s) ATTRIB_DIR) then 0 else res, e, f, w)
    else Some (res, e, f, w).

(** * The file system *)

Definition FAT_ : bytes := [70; 65; 84].

Definition fatfs_check_for_partition_table (w : W) (f : fatfs_t) : option (Z * fatfs_t * W) :=
  let f := set_partstart f 0 in
  let? (res, buffer, w) := read_boot w f in
  if res <? 0 then Some (res, f, w)
  else if negb (READWORD buffer BPB_SEAL =? BPB_SEAL_VALUE) then Some (CFE_ERR_BADFILESYS, f, w)
  else
    let sig := READBYTE buffer BPB_SIGNATURE in
    if ((sig =? BPB_SIGNATURE_VALUE1) || (sig =? BPB_SIGNATURE_VALUE2)) && bytes_eqb (take 3 (drop BPB_SYSTEMID buffer)) FAT_
      && (READWORD buffer BPB_BYTESPERSECTOR =? 512) then Some (0, f, w)
    else if (READWORD buffer BPB_BYTESPERSECTOR =? 512) && (1 <=? READWORD buffer BPB_RESERVEDSECTORS)
      && (Z.land (READWORD buffer BPB_MEDIADESCRIPTOR) 0xF0 =? 0xF0) then Some (0, f, w)
    else
      match find_partition PTABLE_COUNT (fun part =>
        ((READBYTE buffer (part + PTABLE_STATUS) =? PTABLE_STATUS_ACTIVE) || (READBYTE buffer (part + PTABLE_STATUS) =? 0)) && fat_type buffer part) PTABLE_OFFSET with
      | Some _ => Some (1, f, w)
      | None => Some (CFE_ERR_BADFILESYS, f, w)
      end.

Definition zero_fatfs (fh : Z) : fatfs_t := Fatfs fh 0 (Bpb 0 0 0 0 0 0 0 0 0 0) false 0 (replicate 512 0) (-1) (replicate 512 0) (-1).

Definition fat_init (w : W) (name : bytes) (part : Z) : option (Z * fatfs_t * W) :=
  let '(fh, w) := cfe_open w name in
  let f := zero_fatfs fh in
  if fh <? 0 then Some (fh, f, w)
  else
    let? (res, f, w) := fatfs_check_for_partition_table w f in
    let part := if 0 <=? res then res else part in
    let? (res, f, w) := if truthy part then fat_findpart w f else Some (0, f, w) in
    if res <? 0 then Some (res, set_fh f (-1), cfe_close w (fat_fh f))
    else
      let? (res, f, w) := fat_readbpb w f in
      if negb (res =? 0) then Some (res, set_fh f (-1), cfe_close w (fat_fh f)) else Some (0, f, w).

Definition fat_uninit (w : W) (f : fatfs_t) : fatfs_t * W :=
  (set_fh f (-1), if 0 <=? fat_fh f then cfe_close w (fat_fh f) else w).

Definition fatfs_fileop_dir (w : W) (f : fatfs_t) : option (Z * fatfs_t * W) :=
  let? (_, _, f, w) := fat_scandir w f None None None in Some (0, f, w).

Definition sizeof_fatfs := 1088.
Definition sizeof_fatfile := 540.

(** The context with its address. *)
Definition fatfs_fileop_init (w : W) (devname : bytes) (part : Z) : option (Z * option (Z * fatfs_t) * W) :=
  let '(p, w) := KMALLOC w sizeof_fatfs in
  match p with
  | None => Some (CFE_ERR_NOMEM, None, w)
  | Some p =>
      let? (res, f, w) := fat_init w devname part in
      if negb (res =? 0) then Some (res, None, KFREE w p) else Some (0, Some (p, f), w)
  end.

Definition fatfs_fileop_xinit (w : W) (dev : bytes) : option (Z * option (Z * fatfs_t) * W) := fatfs_fileop_init w dev 0.
Definition fatfs_fileop_pinit (w : W) (dev : bytes) : option (Z * option (Z * fatfs_t) * W) := fatfs_fileop_init w dev 1.

(** The file with its address. *)
Definition fatfs_fileop_open (fuel : nat) (w : W) (f : fatfs_t) (name : bytes) (mode : Z) : option (Z * option (Z * fatfile_t) * fatfs_t * W) :=
  if negb (mode =? FILE_MODE_READ) then Some (CFE_ERR_UNSUPPORTED, None, f, w)
  else
    let '(p, w) := KMALLOC w sizeof_fatfile in
    match p with
    | None => Some (CFE_ERR_NOMEM, None, f, w)
    | Some p =>
        let? (res, e, f, w) := fat_findfile fuel w f name None in
        if res <=? 0 then Some (CFE_ERR_FILENOTFOUND, None, f, w)
        else
          let? s := e in
          let? (res, chain, f, w) := fat_getchain fuel w f (DIRENTRY_STARTCLUSTER s) in
          if res <? 0 then Some (res, None, f, KFREE w p)
          else
            let ff := Fatfile (sint32 (DIRENTRY_FILELENGTH s)) chain 0 (-1) (replicate 512 0) in
            Some (0, Some (p, ff), set_refcnt f (fat_refcnt f + 1), w)
    end.

Definition fatfs_fileop_close (w : W) (f : fatfs_t) (p : Z) (ff : fatfile_t) : fatfs_t * W :=
  (set_refcnt f (fat_refcnt f - 1), KFREE (fat_freechain w (ff_chain ff)) p).

Definition fatfs_fileop_uninit (w : W) (p : Z) (f : fatfs_t) : W := let '(f, w) := fat_uninit w f in KFREE w p.

Definition set_curpos (ff : fatfile_t) (v : Z) : fatfile_t := Fatfile (ff_filelength ff) (ff_chain ff) v (ff_cursector ff) (ff_sector ff).
Definition set_sector (ff : fatfile_t) (n : Z) (s : bytes) : fatfile_t := Fatfile (ff_filelength ff) (ff_chain ff) (ff_curpos ff) n s.

Definition fatfs_fileop_seek (ff : fatfile_t) (offset how : Z) : Z * fatfile_t :=
  let pos :=
    if how =? FILE_SEEK_BEGINNING then offset
    else if how =? FILE_SEEK_CURRENT then sint32 (ff_curpos ff + offset)
    else ff_curpos ff in
  let pos := if ff_filelength ff <=? pos then ff_filelength ff else pos in
  (pos, set_curpos ff pos).

(** The loop of fatfs_fileop_read: [inl] is a result returned at once, [inr] the last result
    of a read of the disk; and the bytes copied. *)
Fixpoint read_loop (fuel : nat) (w : W) (f : fatfs_t) (ff : fatfile_t) (len : Z) : option ((Z + Z) * bytes * fatfile_t * W) :=
  if len =? 0 then Some (inr 0, [], ff, w)
  else
    match fuel with
    | O => None
    | S fuel =>
        let offset := Z.rem (ff_curpos ff) SECTORSIZE in
        let secidx := Z.quot (ff_curpos ff) SECTORSIZE in
        let? sector := fat_sectoridx f (ff_chain ff) secidx in
        if sector <? 0 then Some (inl sector, [], ff, w)
        else
          let amtcopy := if SECTORSIZE - offset <? len then SECTORSIZE - offset else len in
          let? (res, buf, ff, w) :=
            if (offset =? 0) && (amtcopy =? SECTORSIZE) then
              let? (res, buf, w) := fat_readsector w f sector 1 (replicate 512 0) in Some (res, buf, ff, w)
            else if ff_cursector ff =? sector then Some (0, ff_sector ff, ff, w)
            else
              let? (res, buf, w) := fat_readsector w f sector 1 (ff_sector ff) in
              Some (res, buf, set_sector ff (if res <? 0 then ff_cursector ff else sector) buf, w) in
          if res <? 0 then Some (inr res, [], ff, w)
          else
            assert! (0 <=? offset) && (0 <=? amtcopy) in
            let s := take (Z.to_nat amtcopy) (drop (Z.to_nat offset) buf) in
            let ff := set_curpos ff (ff_curpos ff + amtcopy) in
            if ff_filelength ff <=? ff_curpos ff then Some (inr 0, s, ff, w)
            else let? (r, s', ff, w) := read_loop fuel w f ff (len - amtcopy) in Some (r, s ++ s', ff, w)
    end.

(** The result and what was copied to the buffer. *)
Definition fatfs_fileop_read (w : W) (f : fatfs_t) (ff : fatfile_t) (len : Z) : option (Z * bytes * fatfile_t * W) :=
  let origpos := ff_curpos ff in
  let len := if ff_filelength ff <? sint32 (ff_curpos ff + len) then ff_filelength ff - ff_curpos ff else len in
  let? (r, s, ff, w) := read_loop (S (Z.to_nat len)) w f ff len in
  match r with
  | inl res => Some (res, s, ff, w)
  | inr res => if res <? 0 then Some (res, s, set_curpos ff origpos, w) else Some (Z.of_nat (length s), s, ff, w)
  end.

Definition fatfs_fileop_write : Z := CFE_ERR_UNSUPPORTED.
End fat.
