(* ===== verification/FatFile.v ===== *)
(** What the FAT file system promises: a name finds the entry that the directories of the
    volume have for it, and reading gives the bytes of its chain of clusters.  The volume is
    specified on the image of the disk, without the caches; [FatDisk] states the laws of the
    disk and the allocator.  At the end a small volume, and what the code does at its edges. *)

From Stdlib Require Import ZArith Lia Bool List String.
From stdpp Require Import base numbers list.
From S2P Require Import Prelude Fat.

#[local] Open Scope Z_scope.

(** A disk without errors, and memory that does not run out. *)
Class FatDisk (W : Type) `{FatApi W} := {
  disk : W -> bytes;
  disk_ok : W -> Prop;
  disk_read w fh off len : disk_ok w -> 0 <= off -> 0 <= len -> off + len <= Z.of_nat (length (disk w)) ->
    exists w', cfe_readblk w fh off len = (len, take (Z.to_nat len) (drop (Z.to_nat off) (disk w)), w') /\ disk_ok w' /\ disk w' = disk w;
  disk_open w name : disk_ok w -> exists fh w', cfe_open w name = (fh, w') /\ 0 <= fh /\ disk_ok w' /\ disk w' = disk w;
  disk_close w fh : disk_ok w -> disk_ok (cfe_close w fh) /\ disk (cfe_close w fh) = disk w;
  disk_malloc w n : disk_ok w -> 0 <= n -> exists p w', KMALLOC w n = (Some p, w') /\ disk_ok w' /\ disk w' = disk w;
  disk_free w p : disk_ok w -> disk_ok (KFREE w p) /\ disk (KFREE w p) = disk w
}.

(** * The volume, without caches *)

Record geometry := Geo { g_bpb : bpb_t; g_twelve : bool; g_part : Z }.
Definition geo_of (f : fatfs_t) : geometry := Geo (fat_bpb f) (fat_twelvebit f) (fat_partstart f).

Section volume.
Context (img : bytes) (g : geometry).
Abbreviation b := (g_bpb g).
Abbreviation spc := (bpb_sectorspercluster b).

Definition sect (n : Z) : bytes := take 512 (drop (Z.to_nat ((n + g_part g) * 512)) img).
Definition on_disk (n : Z) : Prop := 0 <= n /\ (n + g_part g + 1) * 512 <= Z.of_nat (length img).

(** An entry of the table, read out of the bytes of the first copy: one and a half bytes, or
    two. *)
Definition table_byte (o : Z) : option Z := img !! Z.to_nat ((g_part g + bpb_reservedsectors b) * 512 + o).
Definition fat_entry (n : Z) : option Z :=
  if g_twelve g then
    let? x := table_byte (n + n / 2) in
    let? y := table_byte (n + n / 2 + 1) in
    let? z := table_byte (n + n / 2 + 2) in
    Some (if Z.odd n then (x + 256 * y) / 16 else (x + 256 * y) mod 4096)
  else
    let? x := table_byte (2 * n) in
    let? y := table_byte (2 * n + 1) in
    Some (x + 256 * y).

Definition ending : Z := if g_twelve g then 0xFF8 else 0xFFF8.

(** The clusters of a chain, if it ends. *)
Fixpoint clusters (n : nat) (e : Z) : option (list Z) :=
  if ending <=? e then Some []
  else
    match n with
    | O => None
    | S n => let? e' := fat_entry e in let? l := clusters n e' in Some (e :: l)
    end.

Definition root_start : Z := bpb_reservedsectors b + bpb_numfats b * bpb_sectorsperfat b.
Definition data_start : Z := bpb_reservedsectors b + bpb_maxrootdir b * 32 / 512 + bpb_numfats b * bpb_sectorsperfat b.
Definition cluster_start (c : Z) : Z := data_start + (c - 2) * spc.
Definition cluster_ok (c : Z) : bool := (2 <=? c) && ((cluster_start c + spc + g_part g) * 512 <=? Z.of_nat (length img)).
Definition cluster (c : Z) : bytes := take (Z.to_nat (spc * 512)) (drop (Z.to_nat ((cluster_start c + g_part g) * 512)) img).

(** The contents of a chain, of less than two gigabytes. *)
Definition contents (fuel : nat) (start : Z) : option bytes :=
  let? l := clusters fuel start in
  assert! forallb cluster_ok l && (Z.of_nat (length l) * spc * 512 <? 2 ^ 31) in
  Some (concat (map cluster l)).

(** The numbers of the parameter block make sense for the disk. *)
Record volume_ok : Prop := {
  vo_bytes : Forall byte_ok img;
  vo_size : Z.of_nat (length img) < 2 ^ 31 /\ Z.of_nat (length img) mod 512 = 0;
  vo_part : 0 <= g_part g;
  vo_spc : 0 < spc;
  vo_reserved : 0 < bpb_reservedsectors b;
  vo_fats : 0 <= bpb_numfats b * bpb_sectorsperfat b;
  vo_root : 0 <= bpb_maxrootdir b;
  vo_end : (g_part g + root_start) * 512 + bpb_maxrootdir b * 32 <= Z.of_nat (length img)
}.

Definition root_dir : bytes := take (Z.to_nat (bpb_maxrootdir b * 32)) (drop (Z.to_nat ((root_start + g_part g) * 512)) img).
End volume.

(** * Directories as lists of entries *)

Definition dirent (d : bytes) (i : nat) : bytes := take 32 (drop (32 * i) d).

(** The long name in the [n] entries before an entry: its parts, the first one last, with the
    checksum of the short name and their numbers, up to the one that is marked as the end;
    none when a part is missing. *)
Fixpoint lfn_spec (d : bytes) (n : nat) (checksum lfnidx : Z) (longname : bytes) : bytes :=
  match n with
  | O => []
  | S n =>
      let s := dirent d n in
      if negb (DIRENTRY_CHECKSUM s =? checksum) || negb (Z.land (DIRENTRY_LFNIDX s) LFNIDX_MASK =? lfnidx) || negb (DIRENTRY_ATTRIB s =? ATTRIB_LFN)
      then []
      else
        let longname := longname ++ lfn_chars s in
        if truthy (Z.land (DIRENTRY_LFNIDX s) LFNIDX_END) then cstr longname
        else if LFNIDX_MAX <? lfnidx + 1 then []
        else lfn_spec d n checksum (lfnidx + 1) longname
  end.

Definition long_name (d : bytes) (i : nat) : bytes := lfn_spec d i (fat_checksumname (dirent d i)) 1 [].

(** Names are the same up to the case of letters. *)
Definition fold_case (s : bytes) : bytes := map (fun c => lib_toupper (schar c)) s.
Definition same_name (a c : bytes) : bool := bytes_eqb (fold_case a) (fold_case c).

Definition has_name (d : bytes) (name : bytes) (i : nat) : bool :=
  same_name name (fat_getshortname (dirent d i)) || negb (bytes_eqb (long_name d i) []) && same_name name (long_name d i).

(** The entries before the first one that ends the directory, and the first of them that is
    not skipped and has the name. *)
Fixpoint live (d : bytes) (n i : nat) : list nat :=
  match n with
  | O => []
  | S n => if READBYTE (dirent d i) 0 =? DIRENTRY_LAST then [] else i :: live d n (S i)
  end.

Definition dir_find (d : bytes) (name : bytes) : option bytes :=
  let? i := head (filter (fun i => dir_skipped (dirent d i) = false /\ has_name d name i = true) (live d (length d / 32) 0)) in
  Some (dirent d i).

(** A path: the pieces between slashes, up to an empty one. *)
Fixpoint pieces (n : nat) (ptr : bytes) : list bytes :=
  match n with
  | O => []
  | S n => let '(p, ptr) := next_piece ptr in if bytes_eqb p [] then [] else p :: pieces n ptr
  end.

Definition path (name : bytes) : bytes * list bytes :=
  let '(p, ptr) := next_piece (match name with c :: s => if is_slash c then s else name | [] => name end) in
  (p, pieces (S (length name)) ptr).

Section lookup.
Context (img : bytes) (g : geometry) (fuel : nat).

Definition is_dir (e : bytes) : bool := truthy (Z.land (DIRENTRY_ATTRIB e) ATTRIB_DIR).

(** Following a path through directories; [None] when a chain on it is broken. *)
Fixpoint follow (d : bytes) (p : bytes) (ps : list bytes) : option (option bytes) :=
  match dir_find d p with
  | None => Some None
  | Some e =>
      match ps with
      | [] => Some (Some e)
      | p :: ps => if is_dir e then let? d := contents img g fuel (DIRENTRY_STARTCLUSTER e) in follow d p ps else Some None
      end
  end.

Definition lookup_file (name : bytes) : option (option bytes) :=
  let '(p, ps) := path name in
  let? r := follow (root_dir img g) p ps in
  Some (let? e := r in assert! negb (is_dir e) in Some e).

(** Where the code reads a volume as it should: the first entry of a directory is not a part
    of a long name, and the second one, if it is one, is all of it; and of what is found on
    the way of a path, all but the last is a directory. *)
Definition dir_plain (d : bytes) : bool :=
  negb (DIRENTRY_ATTRIB (dirent d 0) =? ATTRIB_LFN) && (negb (DIRENTRY_ATTRIB (dirent d 1) =? ATTRIB_LFN) || truthy (Z.land (DIRENTRY_LFNIDX (dirent d 1)) LFNIDX_END)).

Fixpoint regular (d : bytes) (p : bytes) (ps : list bytes) : bool :=
  dir_plain d &&
  match dir_find d p with
  | None => true
  | Some e =>
      match ps with
      | [] => true
      | p :: ps => is_dir e && match contents img g fuel (DIRENTRY_STARTCLUSTER e) with Some d => regular d p ps | None => true end
      end
  end.

Definition regular_path (name : bytes) : bool := let '(p, ps) := path name in regular (root_dir img g) p ps.

(** Both, from an entry on. *)
Definition follow_on (e : bytes) (ps : list bytes) : option (option bytes) :=
  match ps with
  | [] => Some (Some e)
  | p :: ps => if is_dir e then let? d := contents img g fuel (DIRENTRY_STARTCLUSTER e) in follow d p ps else Some None
  end.
Definition regular_on (e : bytes) (ps : list bytes) : bool :=
  match ps with
  | [] => true
  | p :: ps => is_dir e && match contents img g fuel (DIRENTRY_STARTCLUSTER e) with Some d => regular d p ps | None => true end
  end.

Lemma follow_step d p ps : follow d p ps = match dir_find d p with None => Some None | Some e => follow_on e ps end.
Proof. by destruct ps. Qed.
Lemma regular_step d p ps : regular d p ps = dir_plain d && match dir_find d p with None => true | Some e => regular_on e ps end.
Proof. by destruct ps. Qed.
End lookup.

(** * What the caches hold *)

Record fs_ok (img : bytes) (g : geometry) (f : fatfs_t) : Prop := {
  fo_geo : geo_of f = g;
  fo_fatlen : length (fat_fatsector f) = 512%nat;
  fo_fat : fat_fatsecnum f = -1 \/ fat_fatsector f = sect img g (fat_fatsecnum f + bpb_reservedsectors (g_bpb g));
  fo_dirlen : length (fat_dirsector f) = 512%nat;
  fo_dir : fat_dirsecnum f = -1 \/ fat_dirsector f = sect img g (fat_dirsecnum f)
}.

Lemma readsector_gen {W} {FA : FatApi W} {FD : FatDisk W} (w : W) f n buf : disk_ok w -> 0 <= fat_partstart f -> 0 <= n ->
  (n + fat_partstart f + 1) * 512 <= Z.of_nat (length (disk w)) -> Z.of_nat (length (disk w)) < 2 ^ 31 -> length buf = 512%nat ->
  exists w', fat_readsector w f n 1 buf = Some (0, take 512 (drop (Z.to_nat ((n + fat_partstart f) * 512)) (disk w)), w') /\ disk_ok w' /\ disk w' = disk w.
Proof.
  intros Hw Hp Hn Hl Hs Hb. unfold fat_readsector, SECTORSIZE.
  assert (Hoff : sint32 ((n + fat_partstart f) * 512) mod 2 ^ 64 = (n + fat_partstart f) * 512).
  { rewrite sint32_small by lia. apply Z.mod_small. lia. }
  rewrite Hoff. destruct (disk_read w (fat_fh f) ((n + fat_partstart f) * 512) (1 * 512) Hw) as (w' & -> & Hw' & Hi'); [lia|lia|lia|].
  change (Z.to_nat (1 * 512)) with 512%nat. set (s := take 512 _). assert (Hls : length s = 512%nat) by (unfold s; rewrite length_take, length_drop; lia).
  rewrite Hls, Hb. cbn [Nat.leb]. rewrite Z.eqb_refl. exists w'. split; [|done].
  do 3 f_equal. unfold splice. rewrite take_0, Hls. rewrite drop_ge by lia. by rewrite app_nil_r.
Qed.

Section fat_disk.
Context {W : Type} {FA : FatApi W} {FD : FatDisk W}.
Context (img : bytes) (g : geometry) (Hvol : volume_ok img g).

Record st_ok (w : W) (f : fatfs_t) : Prop := {
  st_disk : disk_ok w;
  st_img : disk w = img;
  st_fs : fs_ok img g f
}.

Lemma sect_length n : on_disk img g n -> length (sect img g n) = 512%nat.
Proof. intros [H1 H2]. pose proof (vo_part _ _ Hvol). unfold sect. rewrite length_take, length_drop. lia. Qed.

Lemma readsector_ok w f n buf : disk_ok w -> disk w = img -> geo_of f = g -> on_disk img g n -> length buf = 512%nat ->
  exists w', fat_readsector w f n 1 buf = Some (0, sect img g n, w') /\ disk_ok w' /\ disk w' = img.
Proof.
  intros Hw Hi Hg [N1 N2] Hb. pose proof (vo_part _ _ Hvol). pose proof (vo_size _ _ Hvol) as [Hs _]. assert (Hp : fat_partstart f = g_part g) by (by rewrite <- Hg).
  destruct (readsector_gen w f n buf Hw) as (w' & E & Hw' & Hi'); [by rewrite Hp|done|by rewrite Hp, Hi|by rewrite Hi|done|].
  exists w'. rewrite E, Hi', Hp, Hi. done.
Qed.

Lemma sect_byte n i : on_disk img g n -> 0 <= i < 512 -> byte_of (sect img g n) i = img !! Z.to_nat ((n + g_part g) * 512 + i).
Proof.
  intros [H1 H2] Hi. pose proof (vo_part _ _ Hvol). unfold byte_of. rewrite (proj2 (Z.leb_le _ _)) by lia. unfold sect. rewrite lookup_take_lt by lia. rewrite lookup_drop. f_equal. lia.
Qed.

Abbreviation rsv := (bpb_reservedsectors (g_bpb g)).

(** The cache of the table. *)
Lemma fat_fetch_ok w f n : st_ok w f -> 0 <= n -> on_disk img g (n + rsv) ->
  exists f' w', fat_fetch w f n = Some (0, f', w') /\ st_ok w' f' /\ fat_fatsecnum f' = n /\ fat_fatsector f' = sect img g (n + rsv).
Proof.
  intros [Hw Hi Hf] Hn Hd. pose proof (vo_size _ _ Hvol) as [Hs _]. pose proof (vo_part _ _ Hvol). unfold fat_fetch. assert (Hb : fat_bpb f = g_bpb g) by (by rewrite <- (fo_geo _ _ _ Hf)). rewrite Hb.
  assert (Hsn : sint32 (n + rsv) = n + rsv) by (pose proof (vo_reserved _ _ Hvol); destruct Hd; apply sint32_small; lia).
  rewrite Hsn. destruct (readsector_ok w f (n + rsv) (fat_fatsector f) Hw Hi (fo_geo _ _ _ Hf) Hd (fo_fatlen _ _ _ Hf)) as (w' & -> & Hw' & Hi').
  cbn [option_bind]. change (0 <? 0) with false. cbv iota. eexists _, w'. split; [reflexivity|]. split; [|done]. split; [done|done|].
  destruct Hf as [F1 F2 F3 F4 F5]. split; cbn; try done; [by apply sect_length|by right].
Qed.

Lemma fat_cached_ok w f n : st_ok w f -> 0 <= n -> on_disk img g (n + rsv) ->
  exists f' w', fat_cached w f n = Some (0, f', w') /\ st_ok w' f' /\ fat_fatsecnum f' = n /\ fat_fatsector f' = sect img g (n + rsv).
Proof.
  intros H Hn Hd. unfold fat_cached. destruct (Z.eqb_spec (fat_fatsecnum f) n) as [<-|]; [|by apply fat_fetch_ok].
  exists f, w. split; [done|]. split; [done|]. split; [done|]. destruct (fo_fat _ _ _ (st_fs _ _ H)) as [|]; [lia|done].
Qed.

(** The byte at [o] of the table is in some sector of it. *)
Lemma table_sector o : 0 <= o -> (g_part g + rsv) * 512 + o < Z.of_nat (length img) -> on_disk img g (o / 512 + rsv).
Proof.
  intros Ho Hl. pose proof (vo_size _ _ Hvol) as [_ Hm]. pose proof (vo_reserved _ _ Hvol). pose proof (Z.div_mod o 512). pose proof (Z.mod_pos_bound o 512).
  pose proof (Z.div_mod (Z.of_nat (length img)) 512). split; lia.
Qed.

Lemma table_byte_in o : 0 <= o -> (g_part g + rsv) * 512 + o < Z.of_nat (length img) -> byte_of (sect img g (o / 512 + rsv)) (o mod 512) = table_byte img g o.
Proof.
  intros Ho Hl. rewrite sect_byte; [|by apply table_sector|by apply Z.mod_pos_bound]. unfold table_byte. do 2 f_equal. pose proof (Z.div_mod o 512). lia.
Qed.

(** The [k]-th byte behind [o], after the sector of [o] or the next one is in the cache. *)
Lemma fat_cross_ok w f o k : st_ok w f -> fat_fatsecnum f = o / 512 -> fat_fatsector f = sect img g (o / 512 + rsv) -> 0 <= o -> 0 <= k <= 2 ->
  (g_part g + rsv) * 512 + o + k < Z.of_nat (length img) ->
  exists off f' w', fat_cross w f (o / 512) (o mod 512) k = Some (0, off, f', w') /\ st_ok w' f' /\ byte_of (fat_fatsector f') (off + k) = table_byte img g (o + k) /\
    ((off = o mod 512 /\ f' = f /\ o mod 512 + k < 512) \/ (off = o mod 512 - 512 /\ fat_fatsector f' = sect img g (o / 512 + 1 + rsv))).
Proof.
  intros H Hn Hs Ho Hk Hl. pose proof (Z.div_mod o 512). pose proof (Z.mod_pos_bound o 512). unfold fat_cross, SECTORSIZE. destruct (Z.leb_spec 512 (o mod 512 + k)) as [Hx|Hx].
  - assert (Hd : (o + k) / 512 = o / 512 + 1) by (symmetry; apply Z.div_unique with (o mod 512 + k - 512); lia).
    assert (Hm : (o + k) mod 512 = o mod 512 - 512 + k) by (symmetry; apply Z.mod_unique with (o / 512 + 1); lia).
    destruct (fat_fetch_ok w f (o / 512 + 1) H) as (f' & w' & -> & H' & G1 & H2); [pose proof (Z.div_pos o 512); lia|rewrite <- Hd; apply table_sector; lia|].
    cbn [option_bind]. eexists _, f', w'. split; [reflexivity|]. split; [done|]. split; [|by right]. rewrite H2, <- Hd, <- Hm. apply table_byte_in; lia.
  - eexists _, f, w. split; [reflexivity|]. split; [done|]. split; [|by left]. rewrite Hs.
    assert (Hd : (o + k) / 512 = o / 512) by (symmetry; apply Z.div_unique with (o mod 512 + k); lia).
    assert (Hm : (o + k) mod 512 = o mod 512 + k) by (symmetry; apply Z.mod_unique with (o / 512); lia). rewrite <- Hd, <- Hm. apply table_byte_in; lia.
Qed.

Lemma byte_split x : 0 <= x < 256 -> Z.shiftr (Z.land x 0xF0) 4 = x / 16 /\ Z.land x 0x0F = x mod 16.
Proof.
  intros Hx. pose proof (forallb_Z_below (fun x => (Z.shiftr (Z.land x 0xF0) 4 =? x / 16) && (Z.land x 0x0F =? x mod 16)) 256 ltac:(vm_compute; reflexivity) x) as H.
  cbn beta in H. specialize (H ltac:(lia)). bool_simpl. done.
Qed.

Lemma table_byte_range o x : table_byte img g o = Some x -> 0 <= x < 256.
Proof. intros H. eapply Forall_lookup_1 in H; [|apply (vo_bytes _ _ Hvol)]. exact H. Qed.

Lemma table_byte_bound o x : 0 <= o -> table_byte img g o = Some x -> (g_part g + rsv) * 512 + o < Z.of_nat (length img).
Proof. intros Ho H. apply lookup_lt_Some in H. pose proof (vo_part _ _ Hvol). pose proof (vo_reserved _ _ Hvol). lia. Qed.

(** Where the entry of [n] begins, for even [n] and the next. *)
Lemma entry_offset n : 0 <= n -> Z.quot (Z.land n (-2) * 3) 2 = 3 * (n / 2) /\ n + n / 2 = if Z.odd n then 3 * (n / 2) + 1 else 3 * (n / 2).
Proof.
  intros Hn. pose proof (Z.div_mod n 2 ltac:(lia)) as Hdm. assert (Hodd : n mod 2 = if Z.odd n then 1 else 0) by apply Zmod_odd. split; [|destruct (Z.odd n); lia].
  change (-2) with (Z.lnot (Z.ones 1)). rewrite <- Z.ldiff_land, Z.ldiff_ones_r, Z.shiftl_mul_pow2, Z.shiftr_div_pow2 by lia. change (2 ^ 1) with 2.
  pose proof (Z.div_pos n 2). rewrite Z.quot_div_nonneg by lia. replace (n / 2 * 2 * 3) with (3 * (n / 2) * 2) by lia. apply Z.div_mul. lia.
Qed.

Lemma table_byte_some o : 0 <= o -> (g_part g + rsv) * 512 + o < Z.of_nat (length img) -> exists c, table_byte img g o = Some c /\ 0 <= c < 256.
Proof.
  intros Ho Hl. pose proof (vo_part _ _ Hvol). pose proof (vo_reserved _ _ Hvol). destruct (table_byte img g o) as [c|] eqn:E.
  - exists c. split; [done|]. by eapply table_byte_range.
  - apply lookup_ge_None_1 in E. lia.
Qed.

(** The three bytes from [o] on, through the cache. *)
Lemma three_bytes w f o : st_ok w f -> 0 <= o -> (g_part g + rsv) * 512 + o + 2 < Z.of_nat (length img) ->
  exists f1 w1 off f2 w2 off' f3 w3, fat_cached w f (o / 512) = Some (0, f1, w1) /\ byte_of (fat_fatsector f1) (o mod 512) = table_byte img g o /\
    fat_cross w1 f1 (o / 512) (o mod 512) 1 = Some (0, off, f2, w2) /\ byte_of (fat_fatsector f2) (off + 1) = table_byte img g (o + 1) /\
    fat_cross w2 f2 (o / 512) off 2 = Some (0, off', f3, w3) /\ byte_of (fat_fatsector f3) (off' + 2) = table_byte img g (o + 2) /\ st_ok w3 f3.
Proof.
  intros H Ho Hl. pose proof (Z.mod_pos_bound o 512 ltac:(lia)) as Hmod. pose proof (Z.div_mod o 512 ltac:(lia)) as Hdm.
  destruct (fat_cached_ok w f (o / 512) H) as (f1 & w1 & E1 & H1 & N1 & S1); [apply Z.div_pos; lia|apply table_sector; lia|].
  destruct (fat_cross_ok w1 f1 o 1 H1 N1 S1 Ho) as (off & f2 & w2 & E2 & H2 & B2 & Hcase); [lia|lia|].
  assert (Hthird : exists off' f3 w3, fat_cross w2 f2 (o / 512) off 2 = Some (0, off', f3, w3) /\ st_ok w3 f3 /\ byte_of (fat_fatsector f3) (off' + 2) = table_byte img g (o + 2)).
  { destruct Hcase as [(-> & -> & Hlt)|(-> & S2)].
    - destruct (fat_cross_ok w2 f1 o 2 H2 N1 S1 Ho) as (off' & f3 & w3 & E & H3 & B3 & _); [lia|lia|]. by exists off', f3, w3.
    - exists (o mod 512 - 512), f2, w2. unfold fat_cross, SECTORSIZE. rewrite (proj2 (Z.leb_gt _ _)) by lia. split; [done|]. split; [done|].
      assert (Hlow : 0 <= o mod 512 - 512 + 1).
      { destruct (table_byte_some (o + 1)) as (c & C & _); [lia|lia|]. rewrite C in B2. unfold byte_of in B2. by destruct (Z.leb_spec 0 (o mod 512 - 512 + 1)). }
      assert (Hd : (o + 2) / 512 = o / 512 + 1) by (symmetry; apply Z.div_unique with (o mod 512 - 510); lia).
      assert (Hm : (o + 2) mod 512 = o mod 512 - 512 + 2) by (symmetry; apply Z.mod_unique with (o / 512 + 1); lia).
      rewrite S2, <- Hd, <- Hm. apply table_byte_in; lia. }
  destruct Hthird as (off' & f3 & w3 & E3 & H3 & B3). exists f1, w1, off, f2, w2, off', f3, w3. split; [done|]. split; [rewrite S1; apply table_byte_in; lia|]. done.
Qed.

Lemma entry12 c1 c2 c3 : 0 <= c1 < 256 -> 0 <= c2 < 256 -> 0 <= c3 < 256 ->
  Z.shiftl c3 4 + Z.shiftr (Z.land c2 0xF0) 4 = (c2 + 256 * c3) / 16 /\ Z.shiftl (Z.land c2 0x0F) 8 + c1 = (c1 + 256 * c2) mod 4096 /\ 0 <= (c2 + 256 * c3) / 16 < 4096.
Proof.
  intros Q1 Q2 Q3. destruct (byte_split c2 Q2) as [-> ->]. rewrite !Z.shiftl_mul_pow2 by lia. change (2 ^ 4) with 16. change (2 ^ 8) with 256. split; [|split].
  - replace (c2 + 256 * c3) with (c3 * 16 * 16 + c2) by lia. rewrite Z.div_add_l by lia. done.
  - apply Z.mod_unique with (c2 / 16); [pose proof (Z.mod_pos_bound c2 16); lia|]. pose proof (Z.div_mod c2 16). lia.
  - split; [apply Z.div_pos; lia|apply Z.div_lt_upper_bound; lia].
Qed.

(** The code's way of reading an entry, over sector boundaries, gives the entry. *)
Lemma fat_getfatentry_ok w f n v : st_ok w f -> 0 <= n -> fat_entry img g n = Some v ->
  exists f' w', fat_getfatentry w f n = Some (v, f', w') /\ st_ok w' f' /\ 0 <= v < 65536.
Proof.
  intros H Hn Hv. unfold fat_getfatentry, fat_entry in *. assert (Htw : fat_twelvebit f = g_twelve g) by (by rewrite <- (fo_geo _ _ _ (st_fs _ _ H))). rewrite Htw.
  unfold SECTORSIZE. destruct (g_twelve g).
  - destruct (entry_offset n Hn) as [-> Hoo]. pose proof (Z.div_pos n 2). set (o := 3 * (n / 2)) in *.
    destruct (table_byte img g (n + n / 2)) as [x|] eqn:E1; [|done]. destruct (table_byte img g (n + n / 2 + 1)) as [y|] eqn:E2; [|done]. destruct (table_byte img g (n + n / 2 + 2)) as [z|] eqn:E3; [|done].
    cbn [option_bind] in Hv. injection Hv as <-. pose proof (table_byte_bound (n + n / 2 + 2) _ ltac:(lia) E3) as Hb3.
    assert (Hlast : (g_part g + rsv) * 512 + o + 2 < Z.of_nat (length img)) by (destruct (Z.odd n); lia). assert (Ho0 : 0 <= o) by (unfold o; lia).
    rewrite Z.quot_div_nonneg, Z.rem_mod_nonneg by lia. destruct (three_bytes w f o H Ho0 Hlast) as (f1 & w1 & off & f2 & w2 & off' & f3 & w3 & -> & B1 & -> & B2 & -> & B3 & H3).
    destruct (table_byte_some o) as (c1 & C1 & Q1); [lia|lia|]. destruct (table_byte_some (o + 1)) as (c2 & C2 & Q2); [lia|lia|]. destruct (table_byte_some (o + 2)) as (c3 & C3 & Q3); [lia|lia|].
    cbn [option_bind]. change (0 <? 0) with false. cbv iota. rewrite B1, C1. cbn [option_bind]. rewrite B2, C2. cbn [option_bind]. rewrite B3, C3. cbn [option_bind].
    destruct (entry12 c1 c2 c3 Q1 Q2 Q3) as (-> & -> & R). rewrite Hoo in E1, E2. destruct (Z.odd n).
    + rewrite <- Z.add_assoc in E2. change (1 + 1) with 2 in E2. rewrite C2 in E1. rewrite C3 in E2. injection E1 as <-. injection E2 as <-. eexists _, _. split; [reflexivity|]. split; [done|lia].
    + rewrite C1 in E1. rewrite C2 in E2. injection E1 as <-. injection E2 as <-. eexists _, _. split; [reflexivity|]. split; [done|]. pose proof (Z.mod_pos_bound (c1 + 256 * c2) 4096). lia.
  - destruct (table_byte img g (2 * n)) as [x|] eqn:E1; [|done]. destruct (table_byte img g (2 * n + 1)) as [y|] eqn:E2; [|done]. cbn [option_bind] in Hv. injection Hv as <-.
    pose proof (table_byte_bound (2 * n + 1) _ ltac:(lia) E2) as Hb. pose proof (table_byte_range _ _ E1). pose proof (table_byte_range _ _ E2).
    replace (n * 2) with (2 * n) by lia. rewrite Z.quot_div_nonneg, Z.rem_mod_nonneg by lia. destruct (fat_cached_ok w f (2 * n / 512) H) as (f1 & w1 & -> & K1 & N1 & S1); [apply Z.div_pos; lia|apply table_sector; lia|].
    cbn [option_bind]. change (0 <? 0) with false. cbv iota. rewrite S1, table_byte_in, E1 by lia. cbn [option_bind].
    assert (Hm : 2 * n mod 512 < 511). { change 512 with (2 * 256). rewrite Z.mul_mod_distr_l by lia. pose proof (Z.mod_pos_bound n 256). lia. }
    pose proof (Z.div_mod (2 * n) 512 ltac:(lia)). pose proof (Z.mod_pos_bound (2 * n) 512 ltac:(lia)).
    assert (Hd : (2 * n + 1) / 512 = 2 * n / 512) by (symmetry; apply Z.div_unique with (2 * n mod 512 + 1); lia).
    assert (Hmm : (2 * n + 1) mod 512 = 2 * n mod 512 + 1) by (symmetry; apply Z.mod_unique with (2 * n / 512); lia).
    rewrite <- Hmm, <- Hd, table_byte_in, E2 by lia. cbn [option_bind]. rewrite Z.shiftl_mul_pow2 by lia. change (2 ^ 8) with 256. eexists _, _. split; [do 3 f_equal; lia|]. split; [done|lia].
Qed.

(** * Chains *)

Lemma st_geo w f : st_ok w f -> geo_of f = g.
Proof. intros H. apply (fo_geo _ _ _ (st_fs _ _ H)). Qed.

Lemma st_ending w f : st_ok w f -> ending_entry f = ending g.
Proof. intros H. unfold ending_entry, ending. by rewrite <- (st_geo _ _ H). Qed.

Lemma st_bpb w f : st_ok w f -> fat_bpb f = g_bpb g.
Proof. intros H. by rewrite <- (st_geo _ _ H). Qed.

(** The walk visits the clusters of the chain, whatever is done for each. *)
Lemma walk_loop_ok {A} (func : Z -> Z -> A -> option (Z * A)) (step : Z -> A -> A) (inv : list Z -> A -> Prop) n :
  (forall e l prev a, inv (e :: l) a -> func e prev a = Some (0, step e a) /\ inv l (step e a)) ->
  forall w f e l prev a, st_ok w f -> 0 <= e -> clusters img g n e = Some l -> inv l a ->
  exists f' w', walk_loop n (ending g) func w f e prev a = Some (0, fold_left (fun a e => step e a) l a, f', w') /\ st_ok w' f'.
Proof.
  intros Hstep. induction n as [|n IH]; intros w f e l prev a H He Hc Hi; cbn [clusters walk_loop] in *; destruct (Z.leb_spec (ending g) e).
  - injection Hc as <-. by exists f, w.
  - done.
  - injection Hc as <-. by exists f, w.
  - destruct (fat_entry img g e) as [e'|] eqn:E; [|done]. cbn [option_bind] in Hc. destruct (clusters img g n e') as [l'|] eqn:El; [|done]. cbn [option_bind] in Hc. injection Hc as <-.
    destruct (Hstep e l' prev a Hi) as [-> Hi']. cbn [option_bind truthy Z.eqb negb]. destruct (fat_getfatentry_ok w f e e' H He E) as (f1 & w1 & -> & H1 & R). cbn [option_bind].
    rewrite (proj2 (Z.ltb_ge _ _)) by lia. destruct (IH w1 f1 e' l' e (step e a) H1) as (f2 & w2 & -> & H2); [lia|done|done|]. by exists f2, w2.
Qed.

Lemma clusters_range n : forall e l, 0 <= e -> clusters img g n e = Some l -> Forall (fun c => 0 <= c < 65536) l.
Proof.
  induction n as [|n IH]; intros e l He Hc; cbn [clusters] in Hc; destruct (Z.leb_spec (ending g) e) as [|Hlt].
  1,3: injection Hc as <-; constructor.
  - done.
  - destruct (fat_entry img g e) as [e'|] eqn:E; [|done]. cbn [option_bind] in Hc. destruct (clusters img g n e') as [l'|] eqn:El; [|done]. cbn [option_bind] in Hc. injection Hc as <-.
    constructor; [unfold ending in Hlt; destruct (g_twelve g); lia|]. apply (IH e'); [|done]. clear -E Hvol.
    unfold fat_entry in E. destruct (g_twelve g).
    + destruct (table_byte img g (e + e / 2)) as [x|] eqn:E1; [|done]. destruct (table_byte img g (e + e / 2 + 1)) as [y|] eqn:E2; [|done]. destruct (table_byte img g (e + e / 2 + 2)) as [z|]; [|done].
      cbn [option_bind] in E. injection E as <-. pose proof (table_byte_range _ _ E1). pose proof (table_byte_range _ _ E2). destruct (Z.odd e); [apply Z.div_pos; lia|apply Z.mod_pos_bound; lia].
    + destruct (table_byte img g (2 * e)) as [x|] eqn:E1; [|done]. destruct (table_byte img g (2 * e + 1)) as [y|] eqn:E2; [|done].
      cbn [option_bind] in E. injection E as <-. pose proof (table_byte_range _ _ E1). pose proof (table_byte_range _ _ E2). lia.
Qed.

Definition chain_is (c : fatchain_t) (l : list Z) : Prop :=
  fat_count c = Z.of_nat (length l) /\ (l = [] \/ exists p arr, fat_entries c = Some (p, arr) /\ take (length l) arr = l).

Definition count_step (e : Z) (c : fatchain_t) : fatchain_t :=
  Chain (fat_start c) (match fat_entries c with None => None | Some (p, l) => Some (p, <[Z.to_nat (fat_count c) := wrap16 e]> l) end) (fat_count c + 1).

Lemma count_none l c : fat_entries c = None -> fold_left (fun a e => count_step e a) l c = Chain (fat_start c) None (fat_count c + Z.of_nat (length l)).
Proof.
  revert c. induction l as [|e l IH]; intros [s en n] He; cbn in He |- *; subst en; [by rewrite Z.add_0_r|]. rewrite IH by done. cbn. f_equal. lia.
Qed.

Lemma fill_some l : forall s p arr (i : nat), Forall (fun c => 0 <= c < 65536) l -> (i + length l <= length arr)%nat ->
  fold_left (fun a e => count_step e a) l (Chain s (Some (p, arr)) (Z.of_nat i)) = Chain s (Some (p, splice arr i l)) (Z.of_nat (i + length l)).
Proof.
  induction l as [|e l IH]; intros s p arr i Hl Hi; cbn [fold_left length] in *.
  - by rewrite splice_nil, Nat.add_0_r.
  - apply Forall_cons in Hl as [He Hl]. unfold count_step at 2. cbn [fat_start fat_entries fat_count]. rewrite Nat2Z.id, wrap16_small by done.
    replace (Z.of_nat i + 1) with (Z.of_nat (S i)) by lia. rewrite IH by (rewrite ?length_insert; (done || lia)). f_equal; [|lia]. do 2 f_equal.
    assert (Hins : <[i:=e]> arr = splice arr i [e]).
    { apply list_eq. intros j. rewrite lookup_splice by (cbn; lia). cbn [length]. destruct (decide (j = i)) as [->|].
      - rewrite list_lookup_insert_eq by lia. rewrite decide_True by lia. by rewrite Nat.sub_diag.
      - rewrite list_lookup_insert_ne by done. rewrite decide_False by lia. done. }
    rewrite Hins. replace (S i) with (i + length [e])%nat by (cbn; lia). rewrite splice_splice by (cbn; lia). done.
Qed.

Lemma fat_getchain_ok fuel w f start l : st_ok w f -> 0 <= start -> clusters img g fuel start = Some l ->
  exists r c f' w', fat_getchain fuel w f start = Some (r, c, f', w') /\ 0 <= r /\ chain_is c l /\ st_ok w' f'.
Proof.
  intros H Hs Hc. unfold fat_getchain, fat_walkfatchain. rewrite (st_ending _ _ H). pose proof (clusters_range _ _ _ Hs Hc) as Hr.
  assert (Hstep0 : forall e (l : list Z) prev c, fat_entries c = None -> fat_getwalkfunc e prev c = Some (0, count_step e c) /\ fat_entries (count_step e c) = None).
  { intros e l0 prev c E. unfold fat_getwalkfunc, count_step. rewrite E. by split. }
  destruct (walk_loop_ok fat_getwalkfunc count_step (fun _ c => fat_entries c = None) fuel Hstep0 w f start l 0 (Chain start None 0) H Hs Hc eq_refl) as (f1 & w1 & -> & H1).
  cbn [option_bind]. change (0 <? 0) with false. cbv iota. rewrite count_none by done. cbn [fat_start fat_count]. rewrite Z.add_0_l. destruct (Z.eqb_spec (Z.of_nat (length l)) 0) as [Hz|Hz].
  { eexists _, _, _, _. split; [reflexivity|]. split; [lia|]. split; [|done]. split; [done|]. left. by destruct l. }
  destruct (disk_malloc w1 ((Z.of_nat (length l) + 1) * 2) (st_disk _ _ H1)) as (p & w2 & -> & D2 & I2); [lia|]. cbn [option_bind].
  assert (H2 : st_ok w2 f1) by (destruct H1 as [_ I1 F1]; split; [done|by rewrite I2|done]). rewrite (st_ending _ _ H1).
  set (arr := replicate _ 0). assert (Ha : length arr = S (length l)) by (unfold arr; rewrite length_replicate; lia).
  assert (Hstep1 : forall e (l1 : list Z) prev c, (exists q a, fat_entries c = Some (q, a) /\ 0 <= fat_count c /\ (Z.to_nat (fat_count c) + length (e :: l1) <= length a)%nat) ->
    fat_getwalkfunc e prev c = Some (0, count_step e c) /\ (exists q a, fat_entries (count_step e c) = Some (q, a) /\ 0 <= fat_count (count_step e c) /\ (Z.to_nat (fat_count (count_step e c)) + length l1 <= length a)%nat)).
  { intros e l1 prev c (q & a & E & E0 & E1). cbn [length] in E1. unfold fat_getwalkfunc, count_step. rewrite E, (proj2 (Z.ltb_lt _ _)) by lia. split; [done|].
    eexists q, _. split; [done|]. cbn [fat_count]. rewrite length_insert. lia. }
  destruct (walk_loop_ok fat_getwalkfunc count_step (fun l1 c => exists q a, fat_entries c = Some (q, a) /\ 0 <= fat_count c /\ (Z.to_nat (fat_count c) + length l1 <= length a)%nat)
    fuel Hstep1 w2 f1 start l 0 (Chain start (Some (p, arr)) 0) H2 Hs Hc) as (f3 & w3 & -> & H3); [exists p, arr; split; [done|]; cbn [fat_count]; lia|].
  cbn [option_bind]. change (0 <? 0) with false. cbv iota. change (Chain start (Some (p, arr)) 0) with (Chain start (Some (p, arr)) (Z.of_nat 0)). rewrite fill_some by (done || lia).
  eexists _, _, _, _. split; [reflexivity|]. cbn [fat_count]. split; [lia|]. split; [|done]. split; [done|]. right. eexists p, _. split; [done|].
  unfold splice. rewrite take_0, app_nil_l. apply take_app_length.
Qed.

(** * Sectors of a chain *)

Abbreviation spc := (bpb_sectorspercluster (g_bpb g)).

Definition small_chain (l : list Z) : Prop := forallb (cluster_ok img g) l = true /\ Z.of_nat (length l) * spc * 512 < 2 ^ 31.

Lemma data_start_pos : 0 <= data_start g.
Proof. pose proof (vo_reserved _ _ Hvol). pose proof (vo_fats _ _ Hvol). pose proof (vo_root _ _ Hvol). unfold data_start. pose proof (Z.div_pos (bpb_maxrootdir (g_bpb g) * 32) 512). lia. Qed.

Lemma cluster_bounds c : cluster_ok img g c = true -> 2 <= c /\ 0 <= cluster_start g c /\ (cluster_start g c + spc + g_part g) * 512 <= Z.of_nat (length img).
Proof.
  unfold cluster_ok. intros H. bool_simpl. split; [done|]. split; [|done]. unfold cluster_start. pose proof data_start_pos. pose proof (vo_spc _ _ Hvol). nia.
Qed.

Lemma cluster_length c : cluster_ok img g c = true -> length (cluster img g c) = Z.to_nat (spc * 512).
Proof.
  intros Hc. destruct (cluster_bounds c Hc) as (H1 & H2 & H3). pose proof (vo_spc _ _ Hvol). pose proof (vo_part _ _ Hvol). unfold cluster. rewrite length_take, length_drop. lia.
Qed.

(** A part of a concatenation of lists of the same length that lies in one of them. *)
Lemma concat_part {A} (L : list (list A)) k i j m s : Forall (fun s => length s = k) L -> L !! i = Some s -> (j + m <= k)%nat ->
  take m (drop (k * i + j) (concat L)) = take m (drop j s).
Proof.
  revert i. induction L as [|s0 L IH]; intros i HL Hi Hj; [done|]. apply Forall_cons in HL as [H0 HL]. cbn [concat]. destruct i as [|i].
  - injection Hi as ->. rewrite Nat.mul_0_r, Nat.add_0_l. rewrite drop_app_le by lia. rewrite take_app_le; [done|]. rewrite length_drop. lia.
  - rewrite drop_app_ge by lia. rewrite H0. replace (k * S i + j - k)%nat with (k * i + j)%nat by lia. by apply IH.
Qed.

Lemma clusters_length l : forallb (cluster_ok img g) l = true -> Forall (fun s => length s = Z.to_nat (spc * 512)) (map (cluster img g) l).
Proof. intros H. rewrite forallb_forall in H. apply Forall_forall. intros s (c & <- & Hc)%list_elem_of_In%in_map_iff. apply cluster_length. by apply H. Qed.

Lemma fat_contents_length l : forallb (cluster_ok img g) l = true -> Z.of_nat (length (concat (map (cluster img g) l))) = Z.of_nat (length l) * spc * 512.
Proof.
  intros H. pose proof (clusters_length l H) as HF. pose proof (vo_spc _ _ Hvol). clear H. induction l as [|c l IH]; [done|]. cbn [map concat length] in *. apply Forall_cons in HF as [Hc HF].
  rewrite length_app, Hc, Nat2Z.inj_add, IH by done. lia.
Qed.

Lemma sectoridx_ok w f c l idx : st_ok w f -> chain_is c l -> small_chain l -> Forall (fun c => 0 <= c < 65536) l -> 0 <= idx < Z.of_nat (length l) * spc ->
  exists n, fat_sectoridx f c idx = Some n /\ on_disk img g n /\ sect img g n = take 512 (drop (Z.to_nat (512 * idx)) (concat (map (cluster img g) l))).
Proof.
  intros H [Hn Hc] [Hok Hsm] Hr Hidx. pose proof (vo_spc _ _ Hvol) as Hspc. pose proof (vo_part _ _ Hvol). pose proof (vo_size _ _ Hvol) as [Hsz _]. unfold fat_sectoridx. rewrite (st_bpb _ _ H).
  rewrite (proj2 (Z.eqb_neq spc 0)) by lia. cbn [negb]. rewrite wrap32_small by lia. pose proof (Z.div_mod idx spc ltac:(lia)) as Hdm. pose proof (Z.mod_pos_bound idx spc ltac:(lia)) as Hmod.
  set (i := idx / spc) in *. set (j := idx mod spc) in *. assert (Hi : 0 <= i < Z.of_nat (length l)) by nia.
  assert (Hs32 : sint32 i = i) by (apply sint32_small; nia). rewrite Hs32.
  destruct (lookup_lt_is_Some_2 l (Z.to_nat i)) as [e He]; [lia|]. unfold fat_clusteridx. rewrite Hn, (proj2 (Z.leb_gt _ _)) by lia.
  destruct Hc as [->|(p & arr & -> & Harr)]; [done|]. cbn [option_bind]. rewrite (proj2 (Z.leb_le 0 i)) by lia.
  assert (Hae : arr !! Z.to_nat i = Some e) by (rewrite <- He, <- Harr at 1; rewrite lookup_take_lt by lia; done). rewrite Hae. cbn [option_bind].
  assert (Heok : cluster_ok img g e = true) by (rewrite forallb_forall in Hok; apply Hok, list_elem_of_In; by eapply list_elem_of_lookup_2).
  destruct (cluster_bounds e Heok) as (B1 & B2 & B3). set (n := _ + _ + _ + _ + _). assert (Hne : n = cluster_start g e + j) by (unfold n, cluster_start, data_start, DIRENTRYSIZE, SECTORSIZE; lia).
  assert (Hsn : sint32 n = n) by (apply sint32_small; lia). exists n. rewrite Hsn. split; [done|]. split; [split; lia|].
  replace (Z.to_nat (512 * idx)) with (Z.to_nat (spc * 512) * Z.to_nat i + Z.to_nat (512 * j))%nat by nia.
  rewrite (concat_part _ (Z.to_nat (spc * 512)) (Z.to_nat i) (Z.to_nat (512 * j)) 512 (cluster img g e) (clusters_length l Hok)); [|by rewrite list_lookup_fmap, He|lia].
  unfold cluster. rewrite skipn_firstn_comm, take_take, drop_drop, Nat.min_l by lia. unfold sect. do 2 f_equal. lia.
Qed.

(** * Directories *)

Definition dir_is (chain : option fatchain_t) (d : bytes) : Prop :=
  match chain with
  | None => d = root_dir img g
  | Some c => exists l, chain_is c l /\ small_chain l /\ Forall (fun c => 0 <= c < 65536) l /\ d = concat (map (cluster img g) l)
  end.

Lemma root_length : Z.of_nat (length (root_dir img g)) = bpb_maxrootdir (g_bpb g) * 32.
Proof.
  pose proof (vo_end _ _ Hvol). pose proof (vo_root _ _ Hvol). pose proof (vo_part _ _ Hvol). pose proof (vo_reserved _ _ Hvol). pose proof (vo_fats _ _ Hvol).
  unfold root_dir. rewrite length_take, length_drop. unfold root_start in *. lia.
Qed.

Lemma dir_entry_ok w f n (i : nat) e s : st_ok w f -> on_disk img g n -> take 32 (drop (Z.to_nat (Z.of_nat i mod 16 * 32)) (sect img g n)) = s ->
  exists f' w', dir_entry w f n (Z.of_nat i) e = Some (0, Some s, f', w') /\ st_ok w' f'.
Proof.
  intros H Hn Hs. pose proof H as [Hw Hi Hf]. unfold dir_entry, DIRPERSECTOR, DIRENTRYSIZE. rewrite Z.rem_mod_nonneg by lia. destruct (Z.eqb_spec (fat_dirsecnum f) n) as [Heq|Hne].
  - cbn [option_bind]. change (0 <? 0) with false. cbv iota. rewrite (proj2 (Z.leb_le 0 _)) by lia. destruct (fo_dir _ _ _ Hf) as [Hd|Hd]; [destruct Hn; lia|]. rewrite Hd, Heq, Hs. by exists f, w.
  - destruct (readsector_ok w f n (fat_dirsector f) Hw Hi (fo_geo _ _ _ Hf) Hn (fo_dirlen _ _ _ Hf)) as (w' & -> & Hw' & Hi'). cbn [option_bind]. change (0 <? 0) with false. cbv iota.
    rewrite (proj2 (Z.leb_le 0 _)) by lia. cbn [fat_dirsector set_dir]. rewrite Hs. eexists _, w'. split; [reflexivity|]. split; [done|done|].
    destruct Hf as [F1 F2 F3 F4 F5]. split; cbn; try done; [by apply sect_length|by right].
Qed.

Lemma sub_entry (d : bytes) (i : nat) (k : Z) : 0 <= k -> k = Z.of_nat i / 16 ->
  take 32 (drop (Z.to_nat (Z.of_nat i mod 16 * 32)) (take 512 (drop (Z.to_nat (512 * k)) d))) = dirent d i.
Proof.
  intros Hk Hki. pose proof (Z.div_mod (Z.of_nat i) 16). pose proof (Z.mod_pos_bound (Z.of_nat i) 16). rewrite skipn_firstn_comm, take_take, drop_drop. unfold dirent. f_equal; [lia|]. f_equal. lia.
Qed.

Lemma get_direntry_ok w f chain d (i : nat) e : st_ok w f -> dir_is chain d -> 32 * (Z.of_nat i + 1) <= Z.of_nat (length d) ->
  exists f' w', get_direntry w f chain (Z.of_nat i) e = Some (Some (dirent d i), f', w') /\ st_ok w' f'.
Proof.
  intros H Hd Hl. pose proof (vo_size _ _ Hvol) as [Hsz Hmod]. pose proof (vo_part _ _ Hvol) as Hp. pose proof (Z.div_mod (Z.of_nat i) 16 ltac:(lia)) as Hdm. pose proof (Z.mod_pos_bound (Z.of_nat i) 16 ltac:(lia)) as Hm.
  unfold get_direntry. destruct chain as [c|]; cbn [dir_is] in Hd.
  - destruct Hd as (l & Hc & Hsm & Hr & ->). rewrite fat_contents_length in Hl by apply Hsm. unfold fat_getsubdirentry, DIRPERSECTOR. rewrite Z.quot_div_nonneg by lia.
    destruct (sectoridx_ok w f c l (Z.of_nat i / 16) H Hc Hsm Hr) as (n & -> & Hn & Hs); [lia|]. cbn [option_bind]. rewrite (proj2 (Z.ltb_ge n 0)) by (destruct Hn; lia).
    destruct (dir_entry_ok w f n i e (dirent (concat (map (cluster img g) l)) i) H Hn) as (f' & w' & -> & H'); [rewrite Hs; apply sub_entry; lia|]. by exists f', w'.
  - subst d. rewrite root_length in Hl. pose proof (vo_reserved _ _ Hvol). pose proof (vo_fats _ _ Hvol). pose proof (vo_end _ _ Hvol) as Hend. assert (Hrs : 0 <= root_start g) by (unfold root_start; lia). unfold fat_getrootdirentry. rewrite (st_bpb _ _ H).
    rewrite wrap32_small by lia. rewrite (proj2 (Z.leb_gt _ _)) by lia. unfold DIRPERSECTOR. rewrite Z.quot_div_nonneg by lia. fold (root_start g) in *.
    assert (Hr32 : sint32 (root_start g) = root_start g) by (unfold root_start in *; apply sint32_small; lia). rewrite Hr32.
    pose proof (Z.div_mod (Z.of_nat (length img)) 512 ltac:(lia)) as Hq.
    destruct (dir_entry_ok w f (root_start g + Z.of_nat i / 16) i e (dirent (root_dir img g) i) H) as (f' & w' & -> & H').
    + split; lia.
    + unfold sect, dirent, root_dir. rewrite !skipn_firstn_comm, !take_take, !drop_drop, !Nat.min_l by lia. do 2 f_equal. lia.
    + by exists f', w'.
Qed.

Lemma lfn_loop_ok chain d checksum i : forall w f lfnidx e acc, st_ok w f -> dir_is chain d -> 32 * (Z.of_nat i + 1) <= Z.of_nat (length d) ->
  1 <= lfnidx <= 20 -> Z.of_nat (length acc) = 13 * (lfnidx - 1) -> dir_plain d = true -> (i = 0%nat -> acc = []) ->
  exists bad s f' w', lfn_loop i w f chain checksum lfnidx e acc = Some (bad, s, f', w') /\ st_ok w' f' /\ (if bad then [] else cstr s) = lfn_spec d (S i) checksum lfnidx acc.
Proof.
  induction i as [|i IH]; intros w f lfnidx e acc H Hd Hl Hx Ha Hp H0; cbn [lfn_loop].
  - exists false, acc, f, w. split; [done|]. split; [done|]. rewrite H0 by done. cbn [lfn_spec]. apply andb_true_iff in Hp as [Hp _]. rewrite Hp. by rewrite !orb_true_r.
  - destruct (get_direntry_ok w f chain d (S i) e H Hd Hl) as (f1 & w1 & -> & H1). cbn [option_bind]. cbn [lfn_spec]. set (s := dirent d (S i)).
    destruct (_ || _) eqn:Eb; [by exists true, acc, f1, w1|]. rewrite (proj2 (Nat.ltb_lt _ _)) by lia. destruct (truthy (Z.land (DIRENTRY_LFNIDX s) LFNIDX_END)) eqn:Ee; [by eexists false, _, f1, w1|].
    unfold LFNIDX_MAX. destruct (Z.ltb_spec 20 (lfnidx + 1)); [by eexists true, _, f1, w1|]. apply IH; try done; [lia|lia|rewrite length_app; cbn [length lfn_chars map app seq]; lia|].
    intros ->. exfalso. apply andb_true_iff in Hp as [_ Hp]. fold s in Hp. rewrite Ee, orb_false_r in Hp. rewrite Hp, orb_true_r in Eb. done.
Qed.

Lemma fat_getlongname_ok w f chain d i : st_ok w f -> dir_is chain d -> 32 * (Z.of_nat i + 1) <= Z.of_nat (length d) -> dir_plain d = true ->
  exists r f' w', fat_getlongname w f chain i (dirent d i) = Some (r, long_name d i, f', w') /\ st_ok w' f'.
Proof.
  intros H Hd Hl Hp. unfold fat_getlongname, long_name.
  destruct (lfn_loop_ok chain d (fat_checksumname (dirent d i)) (pred i) w f 1 None [] H Hd) as (bad & s & f' & w' & -> & H' & E); [lia|lia|done|done|done|].
  cbn [option_bind]. rewrite E. destruct i as [|i]; [|by eexists _, f', w']. cbn [pred] in *. apply andb_true_iff in Hp as [Hp _].
  assert (E0 : lfn_spec d 1 (fat_checksumname (dirent d 0)) 1 [] = []) by (cbn [lfn_spec]; by rewrite Hp, !orb_true_r). rewrite E0. by eexists _, f', w'.
Qed.

Lemma strcmpi_same a : forall c, (lib_strcmpi a c =? 0) = same_name a c.
Proof.
  unfold same_name, fold_case. induction a as [|x a IH]; intros [|y c]; cbn [lib_strcmpi map]; try done. set (dx := lib_toupper (schar x)). set (dy := lib_toupper (schar y)).
  assert (Hne : dx <> dy -> bytes_eqb (dx :: map (fun c => lib_toupper (schar c)) a) (dy :: map (fun c => lib_toupper (schar c)) c) = false).
  { intros Hd. apply bytes_eqb_false. congruence. }
  destruct (Z.ltb_spec dx dy); [rewrite Hne by lia; done|]. destruct (Z.ltb_spec dy dx); [rewrite Hne by lia; done|]. assert (Hxy : dx = dy) by lia. rewrite Hxy, IH.
  destruct (bytes_eqb (map _ a) _) eqn:E; symmetry.
  - apply bytes_eqb_true in E. apply bytes_eqb_true. by f_equal.
  - apply bytes_eqb_false in E. apply bytes_eqb_false. congruence.
Qed.

Definition matches (d name : bytes) (i : nat) : Prop := dir_skipped (dirent d i) = false /\ has_name d name i = true.
#[local] Instance matches_dec d name i : Decision (matches d name i) := _.

Lemma scan_loop_ok chain d name n : dir_plain d = true -> forall i w f e, st_ok w f -> dir_is chain d -> 32 * (Z.of_nat i + Z.of_nat n) <= Z.of_nat (length d) ->
  exists r e' f' w', scan_loop n i w f chain (Some name) e = Some (r, e', f', w') /\ st_ok w' f' /\
    match head (filter (matches d name) (live d n i)) with Some j => r = 1 /\ e' = Some (dirent d j) | None => r = 0 end.
Proof.
  intros Hp. induction n as [|n IH]; intros i w f e H Hd Hl; cbn [scan_loop live]; [by eexists _, _, f, w|].
  destruct (get_direntry_ok w f chain d i e H Hd) as (f1 & w1 & -> & H1); [lia|]. cbn [option_bind]. set (s := dirent d i).
  destruct (READBYTE s 0 =? DIRENTRY_LAST); [by eexists _, _, f1, w1|]. destruct (dir_skipped s) eqn:Es.
  - rewrite filter_cons_False by (unfold matches; fold s; intros [Hb _]; congruence). apply IH; (done || lia).
  - destruct (fat_getlongname_ok w1 f1 chain d i H1 Hd) as (r & f2 & w2 & E2 & H2); [lia|done|]. fold s in E2. rewrite E2. cbn [option_bind]. rewrite !strcmpi_same. unfold s at 1. fold (has_name d name i).
    destruct (has_name d name i) eqn:Eh.
    + rewrite filter_cons_True by (split; done). by eexists _, _, f2, w2.
    + rewrite filter_cons_False by (intros [_ Hb]; congruence). apply IH; (done || lia).
Qed.

Lemma dir_count w f chain d : st_ok w f -> dir_is chain d ->
  Z.to_nat (match chain with Some c => sint32 (fat_count c * bpb_sectorspercluster (fat_bpb f) * DIRPERSECTOR) | None => bpb_maxrootdir (fat_bpb f) end) = (length d / 32)%nat.
Proof.
  intros H Hd. rewrite (st_bpb _ _ H). pose proof (vo_spc _ _ Hvol). destruct chain as [c|]; cbn [dir_is] in Hd.
  - destruct Hd as (l & [Hc _] & [Hok Hsm] & _ & ->). pose proof (fat_contents_length l Hok) as Hl. rewrite Hc. unfold DIRPERSECTOR.
    assert (Hs : sint32 (Z.of_nat (length l) * spc * 16) = Z.of_nat (length l) * spc * 16) by (apply sint32_small; lia). rewrite Hs.
    apply Nat.div_unique with 0%nat; lia.
  - subst d. pose proof root_length as Hr. pose proof (vo_root _ _ Hvol). apply Nat.div_unique with 0%nat; lia.
Qed.

Lemma fat_scandir_ok w f chain d name e : st_ok w f -> dir_is chain d -> dir_plain d = true ->
  exists r e' f' w', fat_scandir w f chain (Some name) e = Some (r, e', f', w') /\ st_ok w' f' /\
    match dir_find d name with Some s => r = 1 /\ e' = Some s | None => r = 0 end.
Proof.
  intros H Hd Hp. unfold fat_scandir. cbn zeta. rewrite (dir_count w f chain d H Hd). destruct (scan_loop_ok chain d name (length d / 32) Hp 0 w f e H Hd) as (r & e' & f' & w' & E & H' & Hr).
  { pose proof (Nat.div_mod_eq (length d) 32). lia. }
  exists r, e', f', w'. split; [exact E|]. split; [done|]. unfold dir_find. fold (matches d name).
  replace (filter (fun i => dir_skipped (dirent d i) = false /\ has_name d name i = true) (live d (length d / 32) 0)) with (filter (matches d name) (live d (length d / 32) 0)) by done.
  destruct (head _) as [j|]; [|done]. by destruct Hr as [-> ->].
Qed.

(** * Paths *)

Lemma free_ok w f p : st_ok w f -> st_ok (KFREE w p) f.
Proof. intros [H1 H2 H3]. destruct (disk_free w p H1) as [D I]. split; [done|by rewrite I|done]. Qed.

Lemma freechain_ok w f c : st_ok w f -> st_ok (fat_freechain w c) f.
Proof. intros H. unfold fat_freechain. destruct (fat_entries c) as [[p l]|]; [by apply free_ok|done]. Qed.

Lemma le16_range e i : 0 <= READWORD e i \/ ~ Forall byte_ok e.
Proof.
  destruct (decide (Forall byte_ok e)) as [He|]; [left|by right]. assert (Hb : forall j, 0 <= READBYTE e j).
  { intros j. unfold READBYTE, at_. destruct (nth_in_or_default j e 0) as [Hin| ->]; [|lia]. rewrite Forall_forall in He. apply He. by apply list_elem_of_In. }
  unfold READWORD. apply Z.lor_nonneg. split; [apply Hb|apply Z.shiftl_nonneg, Hb].
Qed.

Lemma dir_bytes chain d : dir_is chain d -> Forall byte_ok d.
Proof.
  destruct chain as [c|]; cbn [dir_is].
  - intros (l & _ & _ & _ & ->). clear c. induction l as [|c l IH]; [constructor|]. cbn [map concat]. apply Forall_app. split; [|done]. unfold cluster. apply Forall_take, Forall_drop, Hvol.
  - intros ->. unfold root_dir. apply Forall_take, Forall_drop, Hvol.
Qed.

Lemma dir_find_start chain d name s : dir_is chain d -> dir_find d name = Some s -> 0 <= DIRENTRY_STARTCLUSTER s.
Proof.
  intros Hd Hf. unfold dir_find in Hf. destruct (head _) as [i|]; [|done]. cbn [option_bind] in Hf. injection Hf as <-. destruct (le16_range (dirent d i) 26) as [H|H]; [done|].
  exfalso. apply H. unfold dirent. apply Forall_take, Forall_drop. by eapply dir_bytes.
Qed.

Lemma contents_chain fuel w f start d : st_ok w f -> 0 <= start -> contents img g fuel start = Some d ->
  exists r c l f' w', fat_getchain fuel w f start = Some (r, c, f', w') /\ 0 <= r /\ st_ok w' f' /\ chain_is c l /\ small_chain l /\ Forall (fun c => 0 <= c < 65536) l /\
    d = concat (map (cluster img g) l).
Proof.
  intros H Hs Hc. unfold contents in Hc. destruct (clusters img g fuel start) as [l|] eqn:El; [|done]. cbn [option_bind] in Hc. destruct (forallb _ l && _) eqn:Eb; [|done]. bool_simpl. injection Hc as <-.
  destruct (fat_getchain_ok fuel w f start l H Hs El) as (r & c & f' & w' & E & Hr & Hc' & H'). exists r, c, l, f', w'. split; [done|]. split; [done|]. split; [done|]. split; [done|]. split; [by split|]. split; [exact (clusters_range _ _ _ Hs El)|done].
Qed.

Lemma next_piece_length s : forall p ptr, next_piece s = (p, ptr) -> (length p + length ptr <= length s)%nat.
Proof.
  induction s as [|c s IH]; intros p ptr; cbn [next_piece]; [intros [= <- <-]; cbn; lia|]. destruct (is_slash c); [intros [= <- <-]; cbn; lia|].
  destruct (next_piece s) as [a b0] eqn:E. intros [= <- <-]. specialize (IH a b0 eq_refl). cbn. lia.
Qed.

(** The pieces that are left when [namepart] is the next. *)
Definition left_pieces (n : nat) (namepart ptr : bytes) : list bytes := if bytes_eqb namepart [] then [] else namepart :: pieces n ptr.

Lemma pieces_left n ptr p ptr' : next_piece ptr = (p, ptr') -> pieces (S n) ptr = left_pieces n p ptr'.
Proof. intros E. cbn [pieces]. by rewrite E. Qed.

Lemma find_loop_ok fuel ps : forall depth n w f res namepart ptr s r, st_ok w f -> 0 <= DIRENTRY_STARTCLUSTER s -> left_pieces n namepart ptr = ps ->
  (length ps <= depth)%nat -> (namepart <> [] -> (length ptr < n)%nat) -> (ps = [] -> res = 1) ->
  follow_on img g fuel s ps = Some r -> regular_on img g fuel s ps = true ->
  exists res' e' f' w', find_loop depth fuel w f res namepart ptr (Some s) = Some (res', e', f', w') /\ st_ok w' f' /\
    match r with Some s' => res' = 1 /\ e' = Some s' /\ 0 <= DIRENTRY_STARTCLUSTER s' | None => res' = 0 end.
Proof.
  induction ps as [|p ps IH]; intros depth n w f res namepart ptr s r H Hs Hl Hd Hn Hres Hr Hreg; unfold left_pieces in Hl; cbn [follow_on regular_on] in Hr, Hreg.
  - destruct namepart as [|c namepart]; [|done]. injection Hr as <-. rewrite Hres by done. exists 1, (Some s), f, w. split; [by destruct depth|]. by split.
  - destruct namepart as [|c namepart]; [done|]. cbn [bytes_eqb] in Hl. change (bytes_eqb (c :: namepart) []) with false in Hl. cbv iota in Hl. injection Hl as Hp Hps.
    destruct depth as [|depth]; [cbn in Hd; lia|]. cbn [find_loop option_bind]. apply andb_true_iff in Hreg as [Hdir0 Hreg]. rewrite Hdir0 in Hr.
    destruct (contents img g fuel (DIRENTRY_STARTCLUSTER s)) as [d|] eqn:Ed; [|done]. cbn [option_bind] in Hr. rewrite regular_step in Hreg. apply andb_true_iff in Hreg as [Hpl Hreg].
    destruct (contents_chain fuel w f _ d H Hs Ed) as (r0 & c0 & l & f1 & w1 & -> & _ & H1 & Hc & Hsm & Hrg & Hdd). cbn [option_bind].
    assert (Hdir : dir_is (Some c0) d) by (exists l; done). rewrite Hp. destruct (fat_scandir_ok w1 f1 (Some c0) d p (Some s) H1 Hdir Hpl) as (r1 & e1 & f2 & w2 & -> & H2 & Hf). cbn [option_bind].
    rewrite follow_step in Hr. destruct (dir_find d p) as [s'|] eqn:Ef; [|injection Hr as <-; subst r1; rewrite Z.eqb_refl; eexists _, _, f2, w2; by split]. destruct Hf as [-> ->]. change (1 =? 0) with false. cbv iota.
    destruct (next_piece ptr) as [np ptr'] eqn:En. pose proof (next_piece_length _ _ _ En) as Hlen. specialize (Hn ltac:(done)). destruct n as [|n]; [lia|]. rewrite (pieces_left n ptr np ptr' En) in Hps. cbn [option_bind].
    eapply IH; [by apply freechain_ok|by eapply dir_find_start|exact Hps|cbn in Hd; lia| | |exact Hr|exact Hreg].
    + intros Hne. destruct np; [done|]. cbn in Hlen. lia.
    + intros ->. unfold left_pieces in Hps. by destruct np.
Qed.

Lemma pieces_length n ptr : (length (pieces n ptr) <= n)%nat.
Proof. revert ptr. induction n as [|n IH]; intros ptr; [done|]. cbn [pieces]. destruct (next_piece ptr) as [p ptr']. destruct (bytes_eqb p []); cbn; [lia|]. specialize (IH ptr'). lia. Qed.

Lemma root_is : dir_is None (root_dir img g).
Proof. done. Qed.

Lemma fat_findfile_ok fuel w f name r : st_ok w f -> lookup_file img g fuel name = Some r -> regular_path img g fuel name = true ->
  exists res e f' w', fat_findfile fuel w f name None = Some (res, e, f', w') /\ st_ok w' f' /\
    match r with Some s => res = 1 /\ e = Some s /\ 0 <= DIRENTRY_STARTCLUSTER s | None => res = 0 end.
Proof.
  intros H Hr Hreg. unfold fat_findfile. destruct (disk_malloc w (Z.of_nat (length name) + 1) (st_disk _ _ H)) as (p & w1 & -> & D1 & I1); [lia|]. cbn [option_bind].
  assert (H1 : st_ok w1 f) by (destruct H as [_ I F]; split; [done|by rewrite I1|done]). unfold lookup_file, regular_path, path in Hr, Hreg.
  set (start := match name with [] => name | c :: s => if is_slash c then s else name end) in *. destruct (next_piece start) as [np ptr] eqn:En.
  assert (Hst : (length start <= length name)%nat) by (unfold start; destruct name as [|c s]; [done|]; destruct (is_slash c); cbn; lia). pose proof (next_piece_length _ _ _ En) as Hlen.
  rewrite regular_step in Hreg. apply andb_true_iff in Hreg as [Hpl Hreg].
  destruct (fat_scandir_ok w1 f None (root_dir img g) np None H1 root_is Hpl) as (r1 & e1 & f2 & w2 & -> & H2 & Hf). cbn [option_bind].
  rewrite follow_step in Hr. destruct (dir_find (root_dir img g) np) as [s|] eqn:Ef.
  2:{ subst r1. injection Hr as <-. rewrite Z.eqb_refl. eexists _, _, _, _. split; [reflexivity|]. split; [by apply free_ok|done]. }
  destruct Hf as [-> ->]. change (1 =? 0) with false. cbv iota. destruct (next_piece ptr) as [np2 ptr2] eqn:En2. pose proof (next_piece_length _ _ _ En2) as Hlen2.
  pose proof (pieces_left (length name) ptr np2 ptr2 En2) as Hps. destruct (follow_on img g fuel s (pieces (S (length name)) ptr)) as [o|] eqn:Eo; [|done].
  cbn [option_bind] in Hr. destruct (find_loop_ok fuel _ (S (length name)) (length name) w2 f2 1 np2 ptr2 s o H2 (dir_find_start None _ np s root_is Ef) (eq_sym Hps)) as (res' & e' & f3 & w3 & -> & H3 & Ho).
  - apply pieces_length.
  - intros Hne. destruct np2; [done|]. cbn in Hlen2. lia.
  - done.
  - exact Eo.
  - exact Hreg.
  - cbn [option_bind]. injection Hr as <-. destruct o as [s'|].
    + destruct Ho as (-> & -> & Hs'). cbn [option_bind]. change (0 <? 1) with true. cbv iota. eexists _, _, _, _. split; [reflexivity|]. split; [by apply free_ok|]. unfold is_dir. by destruct (truthy _).
    + subst res'. change (0 <? 0) with false. cbv iota. eexists _, _, _, _. split; [reflexivity|]. split; [by apply free_ok|done].
Qed.

(** * Reading *)

(** An open file with the contents [s] and the position [pos]. *)
Record file_is (ff : fatfile_t) (s : bytes) (pos : Z) : Prop := {
  fi_len : ff_filelength ff = Z.of_nat (length s);
  fi_pos : ff_curpos ff = pos;
  fi_seclen : length (ff_sector ff) = 512%nat;
  fi_sector : ff_cursector ff = -1 \/ ff_sector ff = sect img g (ff_cursector ff);
  fi_chain : s = [] \/ exists l, chain_is (ff_chain ff) l /\ small_chain l /\ Forall (fun c => 0 <= c < 65536) l /\
    (length s <= length (concat (map (cluster img g) l)))%nat /\ s = take (length s) (concat (map (cluster img g) l))
}.

Lemma take_drop_split (s : bytes) p a n : (a <= n)%nat -> take n (drop p s) = take a (drop p s) ++ take (n - a) (drop (p + a) s).
Proof. intros Ha. rewrite <- drop_drop. replace n with (a + (n - a))%nat at 1 by lia. by rewrite take_take_drop. Qed.

Lemma fat_read_loop_ok fuel : forall w f ff s pos len, st_ok w f -> file_is ff s pos -> 0 <= len -> 0 <= pos -> pos + len <= Z.of_nat (length s) -> (Z.to_nat len < fuel)%nat ->
  exists ff' w', read_loop fuel w f ff len = Some (inr 0, take (Z.to_nat len) (drop (Z.to_nat pos) s), ff', w') /\ st_ok w' f /\ file_is ff' s (pos + len).
Proof.
  induction fuel as [|fuel IH]; intros w f ff s pos len H Hff Hlen Hpos Hle Hfuel; [lia|]. cbn [read_loop]. destruct (Z.eqb_spec len 0) as [->|Hl0].
  { exists ff, w. rewrite take_0, Z.add_0_r. done. }
  pose proof Hff as [F1 F2 F3 F4 [Hnil|(l & Hc & Hsm & Hr & Hsl & Hs)]]; [rewrite Hnil in Hle; cbn in Hle; lia|]. rewrite F2. unfold SECTORSIZE. rewrite Z.quot_div_nonneg, Z.rem_mod_nonneg by lia.
  pose proof (Z.div_mod pos 512 ltac:(lia)) as Hdm. pose proof (Z.mod_pos_bound pos 512 ltac:(lia)) as Hm. set (offset := pos mod 512) in *. set (k := pos / 512) in *.
  pose proof (fat_contents_length l (proj1 Hsm)) as Hcl. destruct (sectoridx_ok w f (ff_chain ff) l k H Hc Hsm Hr) as (n & -> & Hn & Hsect); [lia|]. cbn [option_bind].
  rewrite (proj2 (Z.ltb_ge n 0)) by (destruct Hn; lia). set (amt := if 512 - offset <? len then 512 - offset else len).
  assert (Hamt : 0 < amt <= len /\ amt <= 512 - offset) by (unfold amt; destruct (Z.ltb_spec (512 - offset) len); lia).
  (* The sector, wherever it comes from. *)
  assert (Hsec : exists ff1 w1, (if (offset =? 0) && (amt =? 512) then let? (res, buf, w) := fat_readsector w f n 1 (replicate 512 0) in Some (res, buf, ff, w)
    else if ff_cursector ff =? n then Some (0, ff_sector ff, ff, w)
    else let? (res, buf, w) := fat_readsector w f n 1 (ff_sector ff) in Some (res, buf, set_sector ff (if res <? 0 then ff_cursector ff else n) buf, w)) = Some (0, sect img g n, ff1, w1) /\
    st_ok w1 f /\ file_is ff1 s pos).
  { pose proof H as [Hw Hi Hf]. destruct (_ && _).
    - destruct (readsector_ok w f n (replicate 512 0) Hw Hi (fo_geo _ _ _ Hf) Hn eq_refl) as (w' & -> & Hw' & Hi'). exists ff, w'. by split.
    - destruct (Z.eqb_spec (ff_cursector ff) n) as [<-|Hne].
      + destruct F4 as [F4|F4]; [destruct Hn; lia|]. exists ff, w. by rewrite F4.
      + destruct (readsector_ok w f n (ff_sector ff) Hw Hi (fo_geo _ _ _ Hf) Hn F3) as (w' & -> & Hw' & Hi'). cbn [option_bind]. change (0 <? 0) with false. cbv iota.
        eexists _, w'. split; [reflexivity|]. split; [by split|]. split; cbn; try done; [by apply sect_length|by right|right; by exists l]. }
  destruct Hsec as (ff1 & w1 & -> & H1 & Hff1). cbn [option_bind]. change (0 <? 0) with false. cbv iota. rewrite (proj2 (Z.leb_le 0 offset)), (proj2 (Z.leb_le 0 amt)) by lia. cbn [andb].
  assert (Hpart : take (Z.to_nat amt) (drop (Z.to_nat offset) (sect img g n)) = take (Z.to_nat amt) (drop (Z.to_nat pos) s)).
  { rewrite Hsect, Hs, !skipn_firstn_comm, !take_take, !drop_drop. f_equal; [lia|]. f_equal. lia. }
  rewrite Hpart. pose proof Hff1 as [G1 G2 G3 G4 G5]. cbn [ff_filelength ff_curpos set_curpos]. rewrite G1, G2.
  assert (Hff2 : file_is (set_curpos ff1 (pos + amt)) s (pos + amt)) by (split; done).
  destruct (Z.leb_spec (Z.of_nat (length s)) (pos + amt)) as [Hend|Hmore].
  - assert (amt = len) as -> by lia. by exists (set_curpos ff1 (pos + len)), w1.
  - destruct (IH w1 f (set_curpos ff1 (pos + amt)) s (pos + amt) (len - amt) H1 Hff2) as (ff3 & w3 & -> & H3 & Hff3); [lia|lia|lia|lia|]. cbn [option_bind].
    exists ff3, w3. split; [|split; [done|by replace (pos + len) with (pos + amt + (len - amt)) by lia]].
    do 4 f_equal. rewrite (take_drop_split s (Z.to_nat pos) (Z.to_nat amt) (Z.to_nat len)) by lia. do 2 f_equal; [lia|]. f_equal. lia.
Qed.

Lemma fat_fileop_read_ok w f ff s pos len : st_ok w f -> file_is ff s pos -> 0 <= len -> 0 <= pos <= Z.of_nat (length s) -> Z.of_nat (length s) + len < 2 ^ 31 ->
  let n := Z.min len (Z.of_nat (length s) - pos) in
  exists ff' w', fatfs_fileop_read w f ff len = Some (n, take (Z.to_nat n) (drop (Z.to_nat pos) s), ff', w') /\ st_ok w' f /\ file_is ff' s (pos + n).
Proof.
  intros H Hff Hlen Hpos Hsz n. pose proof Hff as [F1 F2 _ _ _]. unfold fatfs_fileop_read. rewrite F1, F2.
  assert (Hs : sint32 (pos + len) = pos + len) by (apply sint32_small; lia). rewrite Hs.
  assert (Hn : (if Z.of_nat (length s) <? pos + len then Z.of_nat (length s) - pos else len) = n) by (unfold n; destruct (Z.ltb_spec (Z.of_nat (length s)) (pos + len)); lia). rewrite Hn.
  destruct (fat_read_loop_ok (S (Z.to_nat n)) w f ff s pos n H Hff) as (ff' & w' & -> & H' & Hff'); [lia..|]. cbn [option_bind]. change (0 <? 0) with false. cbv iota.
  exists ff', w'. split; [|done]. rewrite length_take, length_drop. do 4 f_equal. lia.
Qed.

Lemma fileop_seek_ok ff s pos offset how : file_is ff s pos -> let target := if how =? FILE_SEEK_BEGINNING then offset else if how =? FILE_SEEK_CURRENT then pos + offset else pos in
  0 <= target < 2 ^ 31 -> let pos' := Z.min target (Z.of_nat (length s)) in exists ff', fatfs_fileop_seek ff offset how = (pos', ff') /\ file_is ff' s pos'.
Proof.
  intros [F1 F2 F3 F4 F5] target Ht pos'. unfold fatfs_fileop_seek. rewrite F1, F2.
  assert (Hs : (if how =? FILE_SEEK_BEGINNING then offset else if how =? FILE_SEEK_CURRENT then sint32 (pos + offset) else pos) = target).
  { unfold target in *. destruct (how =? FILE_SEEK_BEGINNING); [done|]. destruct (how =? FILE_SEEK_CURRENT); [|done]. apply sint32_small; lia. }
  rewrite Hs. assert (Hm : (if Z.of_nat (length s) <=? target then Z.of_nat (length s) else target) = pos') by (unfold pos'; destruct (Z.leb_spec (Z.of_nat (length s)) target); lia). rewrite Hm.
  eexists. split; [reflexivity|]. by split.
Qed.
End fat_disk.

(** What a program does with an open file, and what it gets: results and bytes. *)
Inductive file_op := FRead (len : Z) | FSeek (offset how : Z).

Fixpoint file_run {W} `{FatApi W} (w : W) (f : fatfs_t) (ff : fatfile_t) (ops : list file_op) : option (list (Z * bytes) * fatfile_t * W) :=
  match ops with
  | [] => Some ([], ff, w)
  | FRead len :: ops =>
      let? (r, s, ff, w) := fatfs_fileop_read w f ff len in
      let? (l, ff, w) := file_run w f ff ops in Some ((r, s) :: l, ff, w)
  | FSeek offset how :: ops =>
      let '(r, ff) := fatfs_fileop_seek ff offset how in
      let? (l, ff, w) := file_run w f ff ops in Some ((r, []) :: l, ff, w)
  end.

(** The same for a file that is a string and a position. *)
Definition seek_target (pos offset how : Z) : Z := if how =? FILE_SEEK_BEGINNING then offset else if how =? FILE_SEEK_CURRENT then pos + offset else pos.

Definition file_step (s : bytes) (pos : Z) (op : file_op) : Z * bytes * Z :=
  match op with
  | FRead len => let n := Z.min len (Z.of_nat (length s) - pos) in (n, take (Z.to_nat n) (drop (Z.to_nat pos) s), pos + n)
  | FSeek offset how => let pos := Z.min (seek_target pos offset how) (Z.of_nat (length s)) in (pos, [], pos)
  end.

Fixpoint file_spec (s : bytes) (pos : Z) (ops : list file_op) : list (Z * bytes) :=
  match ops with [] => [] | op :: ops => let '(r, b, pos) := file_step s pos op in (r, b) :: file_spec s pos ops end.

(** No lengths that overflow, and no seeking before the start. *)
Definition op_ok (s : bytes) (pos : Z) (op : file_op) : Prop :=
  match op with
  | FRead len => 0 <= len /\ Z.of_nat (length s) + len < 2 ^ 31
  | FSeek offset how => 0 <= seek_target pos offset how < 2 ^ 31
  end.

Fixpoint ops_ok (s : bytes) (pos : Z) (ops : list file_op) : Prop :=
  match ops with [] => True | op :: ops => op_ok s pos op /\ ops_ok s (snd (file_step s pos op)) ops end.

(** The bytes of the file of a directory entry, if its chain is long enough for its length. *)
Definition file_data (img : bytes) (g : geometry) (fuel : nat) (e : bytes) : option bytes :=
  let len := Z.to_nat (DIRENTRY_FILELENGTH e) in
  let? l := clusters img g fuel (DIRENTRY_STARTCLUSTER e) in
  if (len =? 0)%nat then Some []
  else
    let? d := contents img g fuel (DIRENTRY_STARTCLUSTER e) in
    assert! (len <=? length d)%nat in Some (take len d).

Section reading.
Context {W : Type} {FA : FatApi W} {FD : FatDisk W}.

Lemma file_run_ok img g (Hvol : volume_ok img g) ops : forall (w : W) f ff s pos, st_ok img g w f -> file_is img g ff s pos -> 0 <= pos <= Z.of_nat (length s) -> ops_ok s pos ops ->
  exists ff' w', file_run w f ff ops = Some (file_spec s pos ops, ff', w').
Proof.
  induction ops as [|op ops IH]; intros w f ff s pos H Hff Hpos Hops; cbn [file_run file_spec]; [by exists ff, w|]. destruct Hops as [Hop Hops]. destruct op as [len|offset how]; cbn [op_ok file_step] in *.
  - destruct Hop as [O1 O2]. destruct (fat_fileop_read_ok img g Hvol w f ff s pos len H Hff O1 Hpos O2) as (ff1 & w1 & -> & H1 & Hff1). cbn [option_bind].
    destruct (IH w1 f ff1 s _ H1 Hff1) as (ff2 & w2 & ->); [lia|done|]. by exists ff2, w2.
  - destruct (fileop_seek_ok img g ff s pos offset how Hff Hop) as (ff1 & -> & Hff1).
    destruct (IH w f ff1 s _ H Hff1) as (ff2 & w2 & ->); [fold (seek_target pos offset how); lia|done|]. by exists ff2, w2.
Qed.

(** ** Mounting *)

Lemma read_boot_ok (w : W) f : disk_ok w -> 0 <= fat_partstart f -> (fat_partstart f + 1) * 512 <= Z.of_nat (length (disk w)) -> Z.of_nat (length (disk w)) < 2 ^ 31 ->
  exists s w', read_boot w f = Some (0, s, w') /\ disk_ok w' /\ disk w' = disk w.
Proof. intros. destruct (readsector_gen w f 0 (replicate 512 0)) as (w' & E & H'); try done. eexists _, w'. split; [exact E|done]. Qed.

Lemma fat_init_ok (w w' : W) dev part f : disk_ok w -> fat_init w dev part = Some (0, f, w') -> volume_ok (disk w) (geo_of f) -> st_ok (disk w) (geo_of f) w' f.
Proof.
  intros Hw E Hvol. pose proof (vo_size _ _ Hvol) as [Hs _]. pose proof (vo_part _ _ Hvol) as Hp. pose proof (vo_end _ _ Hvol) as He. pose proof (vo_root _ _ Hvol). pose proof (vo_reserved _ _ Hvol). pose proof (vo_fats _ _ Hvol).
  assert (Hd : (fat_partstart f + 1) * 512 <= Z.of_nat (length (disk w))) by (unfold root_start in He; cbn in *; lia). cbn in Hp.
  unfold fat_init in E. destruct (disk_open w dev Hw) as (fh & w0 & Eo & Hfh & Hw0 & Hi0). rewrite Eo, (proj2 (Z.ltb_ge fh 0)) in E by lia. rewrite <- Hi0 in *.
  unfold fatfs_check_for_partition_table in E. destruct (read_boot_ok w0 (set_partstart (zero_fatfs fh) 0) Hw0) as (s1 & w1 & E1 & Hw1 & Hi1); [cbn; lia|cbn; lia|done|]. rewrite E1 in E. cbn [option_bind] in E. change (0 <? 0) with false in E. cbv iota in E.
  match type of E with (match ?o with _ => _ end) = _ => assert (Hc : exists r, o = Some (r, set_partstart (zero_fatfs fh) 0, w1)) by
    (destruct (negb _); [by eexists|]; cbn zeta; destruct (_ && _ && _); [by eexists|]; destruct (_ && _ && _); [by eexists|]; destruct (find_partition _ _ _); by eexists) end.
  destruct Hc as [r Hc]. rewrite Hc in E. cbn [option_bind] in E. clear Hc. rewrite <- Hi1 in *.
  assert (Hpart : forall part' : Z, exists res x w2, (if truthy part' then fat_findpart w1 (set_partstart (zero_fatfs fh) 0) else Some (0, set_partstart (zero_fatfs fh) 0, w1)) = Some (res, set_partstart (zero_fatfs fh) x, w2) /\ disk_ok w2 /\ disk w2 = disk w1).
  { intros part'. destruct (truthy part'); [|by exists 0, 0, w1]. unfold fat_findpart. destruct (read_boot_ok w1 (set_partstart (set_partstart (zero_fatfs fh) 0) 0) Hw1) as (s2 & w2 & E2 & Hw2 & Hi2); [cbn; lia|cbn; lia|done|].
    rewrite E2. cbn [option_bind]. change (0 <? 0) with false. cbv iota. destruct (negb _); [by eexists _, 0, w2|]. destruct (find_partition _ _ _); [by eexists _, _, w2|by eexists _, 0, w2]. }
  destruct (Hpart (if 0 <=? r then r else part)) as (res & x & w2 & E2 & Hw2 & Hi2). rewrite E2 in E. cbn [option_bind] in E. destruct (Z.ltb_spec res 0); [injection E as ? _ _; lia|]. rewrite <- Hi2 in *.
  unfold fat_readbpb in E. destruct (read_boot w2 (set_partstart (zero_fatfs fh) x)) as [[[res2 s2] w3]|] eqn:E3; [|done]. cbn [option_bind] in E.
  assert (Hshape : exists b t, f = set_bpb (set_partstart (zero_fatfs fh) x) b t /\ w' = w3).
  { destruct (Z.ltb_spec res2 0).
    { cbn [option_bind] in E. rewrite (proj2 (Z.eqb_neq res2 0)) in E by lia. cbn [negb] in E. injection E as ? _ _. lia. }
    destruct (negb (READBYTE s2 BPB_JMPINSTR =? _)); [discriminate E|]. destruct (negb (READWORD s2 BPB_SEAL =? _)); [discriminate E|].
    destruct (negb (bpb_bytespersector (bpb_of s2) =? SECTORSIZE)); [discriminate E|]. destruct (2 <? bpb_numfats (bpb_of s2)); [discriminate E|].
    cbn [option_bind] in E. change (negb (0 =? 0)) with false in E. cbv iota in E. injection E as <- <-. by eexists _, _. }
  destruct Hshape as (b & t & -> & ->). cbn [fat_partstart set_bpb set_partstart geo_of g_part] in *.
  destruct (read_boot_ok w2 (set_partstart (zero_fatfs fh) x) Hw2) as (s3 & w4 & E4 & Hw4 & Hi4); [done|done|done|]. rewrite E4 in E3. injection E3 as _ _ <-. split; [done|done|].
  split; cbn; try done; by left.
Qed.

Lemma fatfs_init_ok (w w' : W) dev part p f : disk_ok w -> fatfs_fileop_init w dev part = Some (0, Some (p, f), w') -> volume_ok (disk w) (geo_of f) -> st_ok (disk w) (geo_of f) w' f.
Proof.
  intros Hw E Hvol. unfold fatfs_fileop_init in E. destruct (disk_malloc w sizeof_fatfs Hw) as (q & w1 & Em & Hw1 & Hi1); [done|]. rewrite Em in E.
  destruct (fat_init w1 dev part) as [[[res f1] w2]|] eqn:Ei; [|done]. cbn [option_bind] in E. destruct (Z.eqb_spec res 0) as [->|]; cbn [negb] in E; [|discriminate E]. injection E as _ <- <-.
  rewrite <- Hi1 in *. by apply (fat_init_ok _ _ dev part).
Qed.

Lemma file_data_length img g fuel e s : file_data img g fuel e = Some s -> length s = Z.to_nat (DIRENTRY_FILELENGTH e).
Proof.
  unfold file_data. destruct (clusters _ _ _ _); [|done]. cbn [option_bind]. destruct (Nat.eqb_spec (Z.to_nat (DIRENTRY_FILELENGTH e)) 0) as [Hz|]; [intros [= <-]; by rewrite Hz|].
  destruct (contents _ _ _ _) as [d|]; [|done]. cbn [option_bind]. destruct (Nat.leb_spec (Z.to_nat (DIRENTRY_FILELENGTH e)) (length d)); [|done]. intros [= <-]. rewrite length_take. lia.
Qed.

(** Opening the file of an entry. *)
Lemma fat_open_ok img g (Hvol : volume_ok img g) fuel (w : W) f name e s : st_ok img g w f -> lookup_file img g fuel name = Some (Some e) -> regular_path img g fuel name = true -> file_data img g fuel e = Some s ->
  0 <= DIRENTRY_FILELENGTH e < 2 ^ 31 -> exists q ff f' w', fatfs_fileop_open fuel w f name FILE_MODE_READ = Some (0, Some (q, ff), f', w') /\ st_ok img g w' f' /\ file_is img g ff s 0.
Proof.
  intros H Hl Hreg Hs Hlen. unfold fatfs_fileop_open. change (negb (FILE_MODE_READ =? FILE_MODE_READ)) with false. cbv iota.
  destruct (disk_malloc w sizeof_fatfile (st_disk _ _ _ _ H)) as (q & w1 & -> & D1 & I1); [done|]. assert (H1 : st_ok img g w1 f) by (destruct H as [_ I F]; split; [done|by rewrite I1|done]).
  destruct (fat_findfile_ok img g Hvol fuel w1 f name (Some e) H1 Hl Hreg) as (res & e' & f2 & w2 & -> & H2 & -> & -> & Hst). cbn [option_bind]. change (1 <=? 0) with false. cbv iota.
  pose proof (file_data_length _ _ _ _ _ Hs) as Hsl. unfold file_data in Hs. destruct (clusters img g fuel (DIRENTRY_STARTCLUSTER e)) as [l|] eqn:El; [|done]. cbn [option_bind] in Hs.
  destruct (fat_getchain_ok img g Hvol fuel w2 f2 _ l H2 Hst El) as (r & c & f3 & w3 & -> & Hr & Hc & H3). cbn [option_bind]. rewrite (proj2 (Z.ltb_ge r 0)) by lia.
  eexists _, _, _, w3. split; [reflexivity|]. split; [destruct H3 as [D3 I3 [F1 F2 F3 F4 F5]]; by split|].
  assert (Hs32 : sint32 (DIRENTRY_FILELENGTH e) = DIRENTRY_FILELENGTH e) by (apply sint32_small; lia).
  split; cbn -[sint32]; [rewrite Hs32, Hsl; lia|done|done|by left|].
  destruct (Nat.eqb_spec (Z.to_nat (DIRENTRY_FILELENGTH e)) 0); [left; by injection Hs as <-|]. right. unfold contents in Hs. rewrite El in Hs. cbn [option_bind] in Hs.
  destruct (forallb _ l && _) eqn:Eb; [|done]. bool_simpl. destruct (Nat.leb_spec (Z.to_nat (DIRENTRY_FILELENGTH e)) (length (concat (map (cluster img g) l)))) as [Hle|]; [|done]. injection Hs as <-.
  exists l. split; [done|]. split; [by split|]. split; [exact (clusters_range img g Hvol _ _ _ Hst El)|]. rewrite !length_take. split; [lia|]. by rewrite Nat.min_l by lia.
Qed.

(** C15 A file is what the volume has under its name: on any disk that holds a volume, once the
    file system is mounted, a path that follows the directories to a file, by short or long
    names, opens it, and whatever is then read and sought gives exactly the bytes of its chain of
    clusters up to its length; and a path that the directories do not have is not found.  Two
    kinds of paths are left out ([regular_path]), since the code gets them wrong: those with a
    directory whose first entry is a part of a long name (or whose second is one without the
    rest), see [fat_first_longname], and those with a file on the way,
    see [fat_path_through_file]. *)
Theorem fat_reads_file (w w1 : W) dev part p f fuel name r : disk_ok w -> fatfs_fileop_init w dev part = Some (0, Some (p, f), w1) ->
  let img := disk w in let g := geo_of f in volume_ok img g -> lookup_file img g fuel name = Some r -> regular_path img g fuel name = true ->
  match r with
  | None => exists f' w', fatfs_fileop_open fuel w1 f name FILE_MODE_READ = Some (CFE_ERR_FILENOTFOUND, None, f', w')
  | Some e => forall s, file_data img g fuel e = Some s -> 0 <= DIRENTRY_FILELENGTH e < 2 ^ 31 ->
      exists q ff f' w', fatfs_fileop_open fuel w1 f name FILE_MODE_READ = Some (0, Some (q, ff), f', w') /\
      forall ops, ops_ok s 0 ops -> exists ff' w'', file_run w' f' ff ops = Some (file_spec s 0 ops, ff', w'')
  end.
Proof.
  intros Hw E img g Hvol Hl Hreg. pose proof (fatfs_init_ok _ _ _ _ _ _ Hw E Hvol) as H. destruct r as [e|].
  - intros s Hs Hlen. destruct (fat_open_ok img g Hvol fuel w1 f name e s H Hl Hreg Hs Hlen) as (q & ff & f' & w' & Eo & H' & Hff). exists q, ff, f', w'. split; [done|]. intros ops Hops.
    apply (file_run_ok img g Hvol ops w' f' ff s 0 H' Hff); [lia|done].
  - unfold fatfs_fileop_open. change (negb (FILE_MODE_READ =? FILE_MODE_READ)) with false. cbv iota.
    destruct (disk_malloc w1 sizeof_fatfile (st_disk _ _ _ _ H)) as (q & w2 & -> & D2 & I2); [done|]. assert (H2 : st_ok img g w2 f) by (destruct H as [_ I F]; split; [done|by rewrite I2|done]).
    destruct (fat_findfile_ok img g Hvol fuel w2 f name None H2 Hl Hreg) as (res & e' & f3 & w3 & -> & _ & ->). cbn [option_bind]. change (0 <=? 0) with true. cbv iota. by eexists _, _.
Qed.
End reading.

(** * Chains that end, and chains that do not *)

Section ends.
Context (img : bytes) (g : geometry).

Lemma clusters_more n : forall m e l, clusters img g n e = Some l -> (n <= m)%nat -> clusters img g m e = Some l.
Proof.
  induction n as [|n IH]; intros m e l Hc Hm; destruct m as [|m]; try lia; cbn [clusters] in *; destruct (ending g <=? e); try done.
  destruct (fat_entry img g e) as [e'|]; [|done]. cbn [option_bind] in *. destruct (clusters img g n e') as [l'|] eqn:E; [|done]. rewrite (IH m e' l' E) by lia. done.
Qed.

Lemma clusters_det n m e l l' : clusters img g n e = Some l -> clusters img g m e = Some l' -> l = l'.
Proof.
  intros H1 H2. apply (clusters_more _ (n + m)) in H1; [|lia]. apply (clusters_more _ (n + m)) in H2; [|lia]. congruence.
Qed.

Lemma clusters_step n e c l : clusters img g n e = Some (c :: l) -> c = e /\ exists m e', n = S m /\ fat_entry img g e = Some e' /\ clusters img g m e' = Some l.
Proof.
  destruct n as [|n]; cbn [clusters]; (destruct (ending g <=? e); [done|]); [done|]. destruct (fat_entry img g e) as [e'|] eqn:E; [|done]. cbn [option_bind].
  destruct (clusters img g n e') as [l'|] eqn:El; [|done]. cbn [option_bind]. intros [= <- <-]. split; [done|]. by exists n, e'.
Qed.

(** From a cluster of a chain on, the chain is a part of it. *)
Lemma clusters_suffix n : forall e l c, clusters img g n e = Some l -> c ∈ l -> exists m l', clusters img g m c = Some l' /\ (length l' <= length l)%nat.
Proof.
  induction n as [|n IH]; intros e l c Hc Hin; (destruct l as [|x l]; [by apply not_elem_of_nil in Hin|]); destruct (clusters_step _ _ _ _ Hc) as (-> & m & e' & Hn & _ & Hl); [done|].
  injection Hn as <-. apply elem_of_cons in Hin as [->|Hin]; [by eexists _, _|]. destruct (IH e' l c Hl Hin) as (m & l' & H1 & H2). exists m, l'. split; [done|cbn; lia].
Qed.

Lemma clusters_nodup n : forall e l, clusters img g n e = Some l -> NoDup l.
Proof.
  induction n as [|n IH]; intros e l Hc; (destruct l as [|x l]; [constructor|]); destruct (clusters_step _ _ _ _ Hc) as (-> & m & e' & Hn & _ & Hl); [done|]. injection Hn as <-.
  constructor; [|by eapply IH]. intros Hin. destruct (clusters_suffix _ _ _ _ Hl Hin) as (m & l' & H1 & H2). pose proof (clusters_det _ _ _ _ _ Hc H1) as <-. cbn in H2. lia.
Qed.

Lemma nodup_bounded (l : list Z) (k : nat) : NoDup l -> Forall (fun c => 0 <= c < Z.of_nat k) l -> (length l <= k)%nat.
Proof.
  intros Hn Hb. rewrite <- (length_seq k 0), <- (length_map Z.of_nat). apply NoDup_incl_length; [by apply NoDup_ListNoDup|]. intros c Hc. apply list_elem_of_In in Hc.
  rewrite Forall_forall in Hb. specialize (Hb c Hc). apply in_map_iff. exists (Z.to_nat c). split; [lia|]. apply in_seq. lia.
Qed.

Lemma clusters_nil n e m : clusters img g n e = Some [] -> clusters img g m e = Some [].
Proof.
  intros Hc. assert (He : (ending g <=? e) = true).
  { destruct n as [|n]; cbn [clusters] in Hc; destruct (ending g <=? e); [done|done|done|]. destruct (fat_entry img g e) as [e'|]; [|done]. cbn [option_bind] in Hc. by destruct (clusters img g n e'). }
  destruct m; cbn [clusters]; by rewrite He.
Qed.

Lemma clusters_exact n : forall e l, clusters img g n e = Some l -> clusters img g (length l) e = Some l.
Proof.
  induction n as [|n IH]; intros e l Hc; (destruct l as [|x l]; [by eapply clusters_nil|]); destruct (clusters_step _ _ _ _ Hc) as (-> & m & e' & Hn & He & Hl); [done|]. injection Hn as <-.
  cbn [length clusters] in *. destruct (ending g <=? e); [done|]. rewrite He. cbn [option_bind]. by rewrite (IH e' l Hl).
Qed.

(** A chain that ends does so within the steps that the walk is given. *)
Lemma clusters_fuel (Hvol : volume_ok img g) n e l : 0 <= e -> clusters img g n e = Some l -> clusters img g FAT_FUEL e = Some l.
Proof.
  intros He Hc. apply (clusters_more (length l)); [by eapply clusters_exact|]. pose proof (nodup_bounded l (Z.to_nat 65536) (clusters_nodup _ _ _ Hc)) as Hb.
  rewrite Z2Nat.id in Hb by lia. specialize (Hb (clusters_range img g Hvol _ _ _ He Hc)). unfold FAT_FUEL. lia.
Qed.
End ends.

(** The walk of a chain of clusters: on a volume whose table is on the disk, collecting a
    chain ends, within a step for every entry that a table can have, exactly when the chain
    has an end; the clusters of a table with a loop are walked for ever. *)
Theorem fat_walk_ends {W} {FA : FatApi W} {FD : FatDisk W} (w : W) f img g start : volume_ok img g -> st_ok img g w f -> 0 <= start ->
  (forall e, 0 <= e < ending g -> exists e', fat_entry img g e = Some e') ->
  (exists n l, clusters img g n start = Some l) /\ (exists r c f' w', fat_getchain FAT_FUEL w f start = Some (r, c, f', w') /\ 0 <= r) \/
  (forall n, clusters img g n start = None) /\ (forall fuel, fat_getchain fuel w f start = None).
Proof.
  intros Hvol H Hs Htab. destruct (clusters img g FAT_FUEL start) as [l|] eqn:E.
  - left. split; [by exists FAT_FUEL, l|]. destruct (fat_getchain_ok img g Hvol FAT_FUEL w f start l H Hs E) as (r & c & f' & w' & E' & Hr & _). by exists r, c, f', w'.
  - right. assert (Hnone : forall n, clusters img g n start = None).
    { intros n. destruct (clusters img g n start) as [l|] eqn:El; [|done]. by rewrite (clusters_fuel img g Hvol n start l Hs El) in E. }
    split; [done|]. intros fuel. unfold fat_getchain, fat_walkfatchain. rewrite (st_ending img g w f H). specialize (Hnone fuel). clear E.
    match goal with |- (let? _ := ?o in _) = None => assert (Ho : o = None); [|by rewrite Ho] end.
    assert (Hgen : forall prev c, fat_entries c = None -> walk_loop fuel (ending g) fat_getwalkfunc w f start prev c = None); [|by apply Hgen].
    revert w f start H Hs Hnone. induction fuel as [|fuel IH]; intros w f start H Hs Hnone prev c Hc; cbn [clusters walk_loop] in *; destruct (Z.leb_spec (ending g) start); try done.
    destruct (Htab start) as [e' He']; [lia|]. rewrite He' in Hnone. cbn [option_bind] in Hnone. destruct (clusters img g fuel e') as [l|] eqn:El; [done|].
    unfold fat_getwalkfunc. rewrite Hc. cbn [option_bind truthy Z.eqb negb]. destruct (fat_getfatentry_ok img g Hvol w f start e' H Hs He') as (f1 & w1 & -> & H1 & R). cbn [option_bind].
    rewrite (proj2 (Z.ltb_ge e' 0)) by lia. apply IH; (done || lia).
Qed.

(** * A disk, to run the definitions on *)

(** A disk and memory: the image, which is read as far as it goes, a sector whose reads fail
    after some bytes, the next address and the addresses in use. *)
Record drive := Drive { dr_img : bytes; dr_bad : option Z; dr_next : Z; dr_live : list Z }.

#[export] Instance drive_api : FatApi drive := {
  cfe_open w name := (3, w);
  cfe_close w fh := w;
  cfe_readblk w fh off len :=
    let s := take (Z.to_nat (Z.min len (Z.of_nat (length (dr_img w))))) (drop (Z.to_nat (Z.min off (Z.of_nat (length (dr_img w))))) (dr_img w)) in
    if match dr_bad w with Some n => n * 512 =? off | None => false end then (CFE_ERR_IOERR, replicate 100 170, w) else (Z.of_nat (length s), s, w);
  KMALLOC w n := (Some (dr_next w), Drive (dr_img w) (dr_bad w) (dr_next w + n) (dr_next w :: dr_live w));
  KFREE w p := Drive (dr_img w) (dr_bad w) (dr_next w) (filter (fun q => q <> p) (dr_live w))
}.

#[export] Instance drive_disk : FatDisk drive.
Proof.
  refine {| disk := dr_img; disk_ok w := dr_bad w = None |}.
  - intros w fh off len Hw H0 H1 H2. cbn. rewrite Hw. exists w. split; [|done]. do 2 f_equal; [rewrite length_take, length_drop; lia|]. do 2 f_equal; lia.
  - intros w name Hw. by exists 3, w.
  - done.
  - intros w n Hw Hn. by eexists _, _.
  - done.
Defined.

Definition padded (n : nat) (fill : Z) (s : bytes) : bytes := take n (s ++ replicate n fill).

(** An entry of a directory: the name of eleven characters, the attributes, the first cluster
    and the length. *)
Definition an_entry (name : bytes) (attrib cluster len : Z) : bytes :=
  padded 11 32 name ++ [attrib] ++ replicate 14 0 ++ [cluster mod 256; cluster / 256; len mod 256; len / 256; 0; 0].

(** The only part of a long name. *)
Definition a_longname (name checksum : bytes) : bytes :=
  let c i := [nth i (name ++ 0 :: replicate 13 255) 0; 0] in
  [0x41] ++ concat (map c (seq 0 5)) ++ [ATTRIB_LFN; 0] ++ checksum ++ concat (map c (seq 5 6)) ++ [0; 0] ++ concat (map c (seq 11 2)).

(** Two entries of a table of 12 bits. *)
Fixpoint table12 (l : list Z) : bytes :=
  match l with
  | a :: c :: l => [a mod 256; a / 256 + 16 * (c mod 16); c / 16] ++ table12 l
  | _ => []
  end.

Definition a_text : bytes := map (fun i => 60 + Z.of_nat i mod 60) (seq 0 700).
Definition readme : bytes := [82; 69; 65; 68; 77; 69; 32; 32; 84; 88; 84].
Definition read_me_txt : bytes := [82; 101; 97; 100; 32; 109; 101; 46; 116; 120; 116].

(** A volume of 16 sectors, each a cluster, with a table of a sector.  README.TXT, with a long
    name, is in clusters 2 and 4; the directory SUB in cluster 3 has A.TXT of five bytes in
    cluster 7 and the file LOOP, whose clusters 5 and 6 follow each other. *)
Definition boot_sector (spc : Z) : bytes :=
  padded 510 0 ([0xEB; 0x3C; 0x90] ++ replicate 8 32 ++ [0; 2; spc; 1; 0; 1; 16; 0; 16; 0; 0xF8; 1; 0]) ++ [0x55; 0xAA].

Definition a_label : bytes := an_entry [66; 79; 79; 84] ATTRIB_LABEL 0 0.

Definition a_volume (spc : Z) (label text : bytes) : bytes :=
  boot_sector spc ++ padded 512 0 (table12 [0xFF8; 0xFFF; 4; 0xFFF; 0xFFF; 6; 5; 0xFFF])
  ++ padded 512 0 (label ++ a_longname read_me_txt [fat_checksumname readme] ++ an_entry readme 0x20 2 (Z.of_nat (length text)) ++ an_entry [83; 85; 66] ATTRIB_DIR 3 0)
  ++ padded 512 0 text
  ++ padded 512 0 (an_entry [46] ATTRIB_DIR 3 0 ++ an_entry [65; 32; 32; 32; 32; 32; 32; 32; 84; 88; 84] 0x20 7 5 ++ an_entry [76; 79; 79; 80] 0x20 5 9)
  ++ padded 512 0 (drop 512 text) ++ replicate 1024 0 ++ padded 512 0 [104; 101; 108; 108; 111] ++ replicate 3584 0.

Definition a_drive : drive := Drive (a_volume 1 a_label a_text) None 0x1000 [].
Definition opened (fuel : nat) (w : drive) (name : bytes) : option (Z * option (Z * fatfile_t) * fatfs_t * drive) :=
  let? (_, pf, w) := fatfs_fileop_init w [102] 0 in
  let? (_, f) := pf in
  fatfs_fileop_open fuel w f name FILE_MODE_READ.

(** Opens a file, runs the operations and closes it. *)
Definition session (fuel : nat) (w : drive) (name : bytes) (ops : list file_op) : option (list (Z * bytes) * list Z) :=
  let? (_, pq, f, w) := opened fuel w name in
  let? (q, ff) := pq in
  let? (l, ff, w) := file_run w f ff ops in
  let '(f, w) := fatfs_fileop_close w f q ff in Some (l, dr_live w).

(** The mounted file system. *)
Definition mounted : option (fatfs_t * drive) := let? (_, pf, w) := fatfs_fileop_init a_drive [102] 0 in let? (_, f) := pf in Some (f, w).
Definition a_fs : fatfs_t := match mounted with Some (f, _) => f | None => zero_fatfs 0 end.
Definition a_mounted : drive := match mounted with Some (_, w) => w | None => a_drive end.

Lemma a_mount : fatfs_fileop_init a_drive [102] 0 = Some (0, Some (0x1000, a_fs), a_mounted).
Proof. vm_compute. reflexivity. Qed.

Lemma a_drive_ok : disk_ok a_drive.
Proof. reflexivity. Qed.

Lemma a_volume_ok : volume_ok (disk a_drive) (geo_of a_fs).
Proof.
  split; try (by vm_compute).
  apply Forall_forall. intros x Hx. assert (H : forallb (fun x => (0 <=? x) && (x <? 256)) (disk a_drive) = true) by (vm_compute; reflexivity).
  rewrite forallb_forall in H. apply list_elem_of_In in Hx. specialize (H x Hx). bool_simpl. done.
Qed.

Definition SUB_A : bytes := [47; 83; 117; 98; 92; 97; 46; 116; 120; 116].
Definition some_ops : list file_op := [FRead 600; FSeek 510 FILE_SEEK_BEGINNING; FRead 5; FSeek 1000 FILE_SEEK_CURRENT; FRead 9].

Lemma fat_reads_file_witness :
  session 20 a_drive (47 :: read_me_txt) some_ops = Some ([(600, take 600 a_text); (510, []); (5, take 5 (drop 510 a_text)); (700, []); (0, [])], [0x1000]) /\
  match lookup_file (disk a_drive) (geo_of a_fs) 20 SUB_A with
  | Some (Some e) => exists q ff f' w', fatfs_fileop_open 20 a_mounted a_fs SUB_A FILE_MODE_READ = Some (0, Some (q, ff), f', w') /\
      exists ff' w'', file_run w' f' ff [FRead 9] = Some ([(5, [104; 101; 108; 108; 111])], ff', w'')
  | _ => False
  end.
Proof.
  split; [vm_compute; reflexivity|].
  assert (Hl : lookup_file (disk a_drive) (geo_of a_fs) 20 SUB_A = Some (Some (an_entry [65; 32; 32; 32; 32; 32; 32; 32; 84; 88; 84] 0x20 7 5))) by (vm_compute; reflexivity).
  assert (Hreg : regular_path (disk a_drive) (geo_of a_fs) 20 SUB_A = true) by (vm_compute; reflexivity).
  rewrite Hl. destruct (fat_reads_file a_drive a_mounted [102] 0 0x1000 a_fs 20 SUB_A _ a_drive_ok a_mount a_volume_ok Hl Hreg [104; 101; 108; 108; 111]) as (q & ff & f' & w' & E & Hr); [vm_compute; reflexivity|vm_compute; split; [discriminate|reflexivity]|].
  exists q, ff, f', w'. split; [exact E|]. apply (Hr [FRead 9]). vm_compute. repeat split; discriminate.
Defined.

Lemma fat_walk_ends_witness :
  clusters (disk a_drive) (geo_of a_fs) 9 2 = Some [2; 4] /\ clusters (disk a_drive) (geo_of a_fs) 100 5 = None /\
  ((exists n l, clusters (disk a_drive) (geo_of a_fs) n 5 = Some l) /\ (exists r c f' w', fat_getchain FAT_FUEL a_mounted a_fs 5 = Some (r, c, f', w') /\ 0 <= r) \/
   (forall n, clusters (disk a_drive) (geo_of a_fs) n 5 = None) /\ (forall fuel, fat_getchain fuel a_mounted a_fs 5 = None)).
Proof.
  split; [vm_compute; reflexivity|]. split; [vm_compute; reflexivity|].
  apply fat_walk_ends; [exact a_volume_ok|exact (fatfs_init_ok a_drive a_mounted [102] 0 0x1000 a_fs a_drive_ok a_mount a_volume_ok)|lia|].
  intros e He. assert (H : forallb (fun n => bool_decide (is_Some (fat_entry (disk a_drive) (geo_of a_fs) (Z.of_nat n)))) (seq 0 4088) = true) by (vm_compute; reflexivity).
  rewrite forallb_forall in H. specialize (H (Z.to_nat e)). rewrite Z2Nat.id in H by lia.
  destruct (fat_entry (disk a_drive) (geo_of a_fs) e) as [e'|]; [by exists e'|]. apply bool_decide_eq_true_1 in H; [by destruct H|]. apply in_seq. change (ending _) with 4088 in He. lia.
Defined.

(** * What the code does at its edges *)

(** A long name in the first entry of a directory is not read: with the label gone the same
    volume has README.TXT under its short name only. *)
Example fat_first_longname :
  lookup_file (a_volume 1 [] a_text) (geo_of a_fs) 20 read_me_txt = Some (Some (an_entry readme 0x20 2 700)) /\
  session 20 (Drive (a_volume 1 [] a_text) None 0x1000 []) read_me_txt [FRead 1] = None /\
  session 20 (Drive (a_volume 1 [] a_text) None 0x1000 []) [114; 101; 97; 100; 109; 101; 46; 116; 120; 116] [FRead 1] = Some ([(1, [60])], [0x1000]) /\
  session 20 a_drive read_me_txt [FRead 1] = Some ([(1, [60])], [0x1000]).
Proof. repeat split; vm_compute; reflexivity. Qed.

(** A path goes through a file: the bytes of README.TXT are looked up as if they were entries. *)
Example fat_path_through_file :
  let through := [82; 69; 65; 68; 77; 69; 46; 84; 88; 84; 47] ++ [60; 61; 62; 63; 64; 97; 98; 99; 46; 100; 101; 102] in
  lookup_file (disk a_drive) (geo_of a_fs) 20 through = Some None /\
  (let? (r, q, _, _) := opened 20 a_drive through in let? (_, ff) := q in Some (r, ff_filelength ff)) = Some (0, 0x5B5A5958).
Proof. split; vm_compute; reflexivity. Qed.

(** What stays allocated when a file is not found: the file's own memory, and the chain of the
    directory in which it is missing. *)
Example fat_open_leaks :
  (let? (r, _, _, w) := opened 20 a_drive [98] in Some (r, dr_live w)) = Some (CFE_ERR_FILENOTFOUND, [0x1000 + sizeof_fatfs; 0x1000]) /\
  (let? (r, _, _, w) := opened 20 a_drive [83; 117; 98; 47; 98] in Some (r, length (dr_live w))) = Some (CFE_ERR_FILENOTFOUND, 3%nat).
Proof. split; vm_compute; reflexivity. Qed.

(** A parameter block without sectors in a cluster: reading divides by zero. *)
Example fat_no_sectors_per_cluster :
  (let? (r, q, _, _) := opened 20 (Drive (a_volume 0 a_label a_text) None 0x1000 []) read_me_txt in let? (_, ff) := q in Some (r, ff_filelength ff)) = Some (0, 700) /\
  session 20 (Drive (a_volume 0 a_label a_text) None 0x1000 []) read_me_txt [FRead 1] = None.
Proof. split; vm_compute; reflexivity. Qed.

(** After a read that failed the cache has bytes of it under the number of the sector before:
    the entry of README.TXT is read back, without an error, as what the failed read left. *)
Example fat_stale_directory :
  let w := Drive (a_volume 1 a_label a_text) (Some 4) 0x1000 [] in
  (let? (r1, e1, f, w) := fat_getrootdirentry w a_fs 2 None in
   let? (r2, _, f, w) := fat_getsubdirentry w f (Chain 3 (Some (0, [3; 0])) 1) 0 None in
   let? (r3, e3, f, w) := fat_getrootdirentry w f 2 None in Some (r1, e1, r2, r3, e3)) =
  Some (0, Some (an_entry readme 0x20 2 700), CFE_ERR_IOERR, 0, Some (replicate 32 170)).
Proof. vm_compute. reflexivity. Qed.

(** Seeking before the start of a file is not refused; a read would then start before the buffer of the sector. *)
Example fat_seek_negative :
  (let '(r, ff) := fatfs_fileop_seek (Fatfile 700 (Chain 2 (Some (0, [2; 4; 0])) 2) 0 (-1) (replicate 512 0)) (-10) FILE_SEEK_BEGINNING in Some (r, ff_curpos ff)) = Some (-10, -10).
Proof. reflexivity. Qed.
