(* ===== verification/Filesys.v ===== *)
(** The file systems of the boot loader behind one interface: cfe/cfe/main/cfe_filesys.c,
    with the raw device (cfe_rawfs.c), memory (cfe_memfs.c) and the FAT volumes of [Fat].

    [FileLaws] states what the loaders rely on when they read a file; the raw device and FAT
    have it. *)

From Stdlib Require Import ZArith Lia Bool List String Ascii.
From stdpp Require Import base numbers list.
From S2P Require Import Prelude Fat FatFile.

#[local] Open Scope Z_scope.

Definition CFE_ERR_FSNOTAVAIL := -30.
Definition LOADFLG_SPECADDR := 0x0004.
Definition LOADFLG_NOBB := 0x0008.

(** * The dispatch table *)

(** What a file system keeps for a device and for an open file is its own; a reading gives the
    result and the bytes stored in the buffer. *)
Record fileio_dispatch (W : Type) := Dispatch {
  method : bytes;
  loadflags : Z;
  fs_ctx : Type;
  fs_file : Type;
  d_init : W -> bytes -> option (Z * option fs_ctx * W);
  d_open : W -> fs_ctx -> bytes -> Z -> option (Z * option fs_file * fs_ctx * W);
  d_read : W -> fs_ctx -> fs_file -> Z -> option (Z * bytes * fs_file * fs_ctx * W);
  d_write : W -> fs_ctx -> fs_file -> bytes -> Z;
  d_seek : W -> fs_ctx -> fs_file -> Z -> Z -> option (Z * fs_file * fs_ctx * W);
  d_close : W -> fs_ctx -> fs_file -> fs_ctx * W;
  d_uninit : W -> fs_ctx -> W
}.
Arguments Dispatch {W}.
Arguments method {W}. Arguments loadflags {W}. Arguments fs_ctx {W}. Arguments fs_file {W}.
Arguments d_init {W}. Arguments d_open {W}. Arguments d_read {W}. Arguments d_write {W}.
Arguments d_seek {W}. Arguments d_close {W}. Arguments d_uninit {W}.

(** A file system in use, at an address; and an open file on one. *)
Record fileio_ctx_t (W : Type) := Ctx { c_addr : Z; c_ops : fileio_dispatch W; c_fsctx : fs_ctx c_ops }.
Arguments Ctx {W}. Arguments c_addr {W}. Arguments c_ops {W}. Arguments c_fsctx {W}.

Record opened (W : Type) := Opened { o_addr : Z; o_ops : fileio_dispatch W; o_fsctx : fs_ctx o_ops; o_ref : fs_file o_ops }.
Arguments Opened {W}. Arguments o_addr {W}. Arguments o_ops {W}. Arguments o_fsctx {W}. Arguments o_ref {W}.

Definition sizeof_fileio_ctx := 8.

Section filesys.
Context {W : Type} `{FatApi W}.

(** The table depends on the configuration. *)
Definition cfe_findfilesys (cfe_filesystems : list (fileio_dispatch W)) (name : bytes) : option (fileio_dispatch W) :=
  find (fun d => bytes_eqb (method d) name) cfe_filesystems.

Definition fs_init (table : list (fileio_dispatch W)) (w : W) (fsname device : bytes) : option (Z * option (fileio_ctx_t W) * W) :=
  match cfe_findfilesys table fsname with
  | None => Some (CFE_ERR_FSNOTAVAIL, None, w)
  | Some ops =>
      let '(p, w) := KMALLOC w sizeof_fileio_ctx in
      match p with
      | None => Some (CFE_ERR_NOMEM, None, w)
      | Some p =>
          let? (res, ctx, w) := d_init ops w device in
          if truthy res then Some (res, None, KFREE w p)
          else let? ctx := ctx in Some (0, Some (Ctx p ops ctx), w)
      end
  end.

(** [wrap] gives the context of the filter its dispatch table makes out of the one it is put
    on; on success the context reads through the filter. *)
Definition fs_hook (filters : list (bytes * (W -> fileio_ctx_t W -> option (Z * fileio_ctx_t W * W)))) (w : W) (ctx : fileio_ctx_t W) (fsname : bytes) :
  option (Z * fileio_ctx_t W * W) :=
  match find (fun f => bytes_eqb (fst f) fsname) filters with
  | None => Some (CFE_ERR_FSNOTAVAIL, ctx, w)
  | Some (_, init) =>
      let? (res, hooked, w) := init w ctx in
      Some (res, if truthy res then ctx else hooked, w)
  end.

Definition fs_uninit (w : W) (ctx : fileio_ctx_t W) : W := KFREE (d_uninit (c_ops ctx) w (c_fsctx ctx)) (c_addr ctx).

(** The file that was opened, or the context as it is now. *)
Definition fs_open (w : W) (ctx : fileio_ctx_t W) (filename : bytes) (mode : Z) : option (Z * (opened W + fileio_ctx_t W) * W) :=
  let? (res, ref, c, w) := d_open (c_ops ctx) w (c_fsctx ctx) filename mode in
  if truthy res then Some (res, inr (Ctx (c_addr ctx) (c_ops ctx) c), w)
  else let? ref := ref in Some (0, inl (Opened (c_addr ctx) (c_ops ctx) c ref), w).

Definition fs_close (w : W) (o : opened W) : fileio_ctx_t W * W :=
  let '(c, w) := d_close (o_ops o) w (o_fsctx o) (o_ref o) in (Ctx (o_addr o) (o_ops o) c, w).

Definition fs_read (w : W) (o : opened W) (len : Z) : option (Z * bytes * opened W * W) :=
  let? (res, s, ref, c, w) := d_read (o_ops o) w (o_fsctx o) (o_ref o) len in
  Some (res, s, Opened (o_addr o) (o_ops o) c ref, w).

Definition fs_write (w : W) (o : opened W) (s : bytes) : Z := d_write (o_ops o) w (o_fsctx o) (o_ref o) s.

Definition fs_seek (w : W) (o : opened W) (offset how : Z) : option (Z * opened W * W) :=
  let? (res, ref, c, w) := d_seek (o_ops o) w (o_fsctx o) (o_ref o) offset how in
  Some (res, Opened (o_addr o) (o_ops o) c ref, w).
End filesys.

(** * Numbers in file names *)

Definition xdigit (c : Z) : option Z :=
  if (ch "0"%char <=? c) && (c <=? ch "9"%char) then Some (c - ch "0"%char)
  else if (ch "A"%char <=? c) && (c <=? ch "F"%char) then Some (10 + c - ch "A"%char)
  else if (ch "a"%char <=? c) && (c <=? ch "f"%char) then Some (10 + c - ch "a"%char)
  else None.

(** The arithmetic of an int wraps. *)
Fixpoint digits (base : Z) (digit : Z -> option Z) (s : bytes) (x : Z) : Z :=
  match s with
  | [] => x
  | c :: s => match digit (schar c) with None => x | Some d => digits base digit s (sint32 (x * base + d)) end
  end.

Definition skip_0x (s : bytes) : option bytes :=
  match s with a :: x :: s => assert! (a =? ch "0"%char) && (x =? ch "x"%char) in Some s | _ => None end.

Definition lib_xtoi (dest : bytes) : Z := digits 16 xdigit (match skip_0x dest with Some s => s | None => dest end) 0.

Definition lib_atoi (dest : bytes) : Z :=
  match skip_0x dest with
  | Some s => lib_xtoi s
  | None => digits 10 (fun c => assert! (ch "0"%char <=? c) && (c <=? ch "9"%char) in Some (c - ch "0"%char)) dest 0
  end.

(** lib_strcpy to an overlapping place below: the bytes move down. *)
Definition lib_trimleading (path : bytes) : bytes :=
  match path with c :: s => if c =? ch "/"%char then s else path | [] => path end.

(** * The raw device *)

Record raw_fsctx_t := RawCtx { raw_addr : Z; raw_dev : Z; raw_isconsole : bool; raw_refcnt : Z }.
Record raw_file_t := RawFile { raw_ref : Z; raw_fileoffset : Z; raw_baseoffset : Z; raw_length : Z }.

Definition set_fileoffset (f : raw_file_t) (v : Z) : raw_file_t := RawFile (raw_ref f) v (raw_baseoffset f) (raw_length f).
Definition sizeof_raw_fsctx := 12.
Definition sizeof_raw_file := 16.

(** What is before the first comma, and what is behind it. *)
Fixpoint at_comma (s : bytes) : bytes * option bytes :=
  match s with
  | [] => ([], None)
  | c :: s => if c =? ch ","%char then ([], Some s) else let '(a, b) := at_comma s in (c :: a, b)
  end.

Section raw.
Context {W : Type} `{FatApi W} (console : option (bytes * Z)).

Definition raw_fileop_init (w : W) (devicename : bytes) : option (Z * option raw_fsctx_t * W) :=
  let '(p, w) := KMALLOC w sizeof_raw_fsctx in
  match p with
  | None => Some (CFE_ERR_NOMEM, None, w)
  | Some p =>
      let '(fsctx, w) :=
        match console with
        | Some (name, handle) =>
            if bytes_eqb devicename name then (RawCtx p handle true 0, w)
            else let '(d, w) := cfe_open w devicename in (RawCtx p d false 0, w)
        | None => let '(d, w) := cfe_open w devicename in (RawCtx p d false 0, w)
        end in
      if 0 <=? raw_dev fsctx then Some (0, Some fsctx, w) else Some (CFE_ERR_FILENOTFOUND, None, KFREE w p)
  end.

(** A name of a hundred characters or more leaves the copy on the stack without an end. *)
Definition raw_fileop_open (w : W) (fsctx : raw_fsctx_t) (filename : bytes) (mode : Z) : option (Z * option raw_file_t * raw_fsctx_t * W) :=
  if negb (mode =? FILE_MODE_READ) then Some (CFE_ERR_UNSUPPORTED, None, fsctx, w)
  else
    let '(p, w) := KMALLOC w sizeof_raw_file in
    match p with
    | None => Some (CFE_ERR_NOMEM, None, fsctx, w)
    | Some p =>
        let temp := lib_trimleading filename in
        assert! (length temp <? 100)%nat in
        let '(temp, len) := at_comma temp in
        let base := match temp with [] => 0 | _ :: _ => lib_atoi temp end in
        let length := match len with Some len => lib_atoi len | None => -1 end in
        Some (0, Some (RawFile p 0 base length), RawCtx (raw_addr fsctx) (raw_dev fsctx) (raw_isconsole fsctx) (raw_refcnt fsctx + 1), w)
    end.

Definition raw_fileop_read (w : W) (fsctx : raw_fsctx_t) (file : raw_file_t) (len : Z) : option (Z * bytes * raw_file_t * raw_fsctx_t * W) :=
  let len := if (0 <=? raw_length file) && (sint32 (raw_length file - raw_fileoffset file) <? len) then sint32 (raw_length file - raw_fileoffset file) else len in
  if len =? 0 then Some (0, [], file, fsctx, w)
  else
    let '(res, s, w) := cfe_readblk w (raw_dev fsctx) (sint32 (raw_baseoffset file + raw_fileoffset file) mod 2 ^ 64) len in
    Some (res, s, if 0 <? res then set_fileoffset file (sint32 (raw_fileoffset file + res)) else file, fsctx, w).

Definition raw_fileop_write : Z := CFE_ERR_UNSUPPORTED.

Definition raw_fileop_seek (file : raw_file_t) (offset how : Z) : Z * raw_file_t :=
  let pos :=
    if how =? FILE_SEEK_BEGINNING then offset
    else if how =? FILE_SEEK_CURRENT then
      let pos := sint32 (raw_fileoffset file + offset) in if pos <? 0 then 0 else pos
    else raw_fileoffset file in
  let pos := if (0 <=? raw_length file) && (raw_length file <? pos) then raw_length file else pos in
  (pos, set_fileoffset file pos).

Definition raw_fileop_close (w : W) (fsctx : raw_fsctx_t) (file : raw_file_t) : raw_fsctx_t * W :=
  (RawCtx (raw_addr fsctx) (raw_dev fsctx) (raw_isconsole fsctx) (raw_refcnt fsctx - 1), KFREE w (raw_ref file)).

Definition raw_fileop_uninit (w : W) (fsctx : raw_fsctx_t) : W :=
  KFREE (if raw_isconsole fsctx then w else cfe_close w (raw_dev fsctx)) (raw_addr fsctx).

Definition raw_fileops : fileio_dispatch W :=
  Dispatch [114; 97; 119] 0 raw_fsctx_t raw_file_t raw_fileop_init raw_fileop_open raw_fileop_read (fun _ _ _ _ => raw_fileop_write)
    (fun w c f offset how => let '(r, f) := raw_fileop_seek f offset how in Some (r, f, c, w)) raw_fileop_close raw_fileop_uninit.
End raw.

(** * Memory as a file *)

(** [memory_start] is an address, [byte_at] what is there. *)
Record memory_file_t := MemFile { memory_ref : Z; memory_offset : Z; memory_start : Z }.

Section memory.
Context {W : Type} `{FatApi W} (byte_at : W -> Z -> Z).

Definition sizeof_memory_fsctx := 4.
Definition sizeof_memory_file := 20.

Definition memory_fileop_init (w : W) (dev : bytes) : option (Z * option Z * W) :=
  let '(p, w) := KMALLOC w sizeof_memory_fsctx in
  match p with None => Some (CFE_ERR_NOMEM, None, w) | Some p => Some (0, Some p, w) end.

Definition memory_fileop_open (w : W) (fsctx : Z) (filename : bytes) (mode : Z) : option (Z * option memory_file_t * Z * W) :=
  if negb (mode =? FILE_MODE_READ) then Some (CFE_ERR_UNSUPPORTED, None, fsctx, w)
  else
    let '(p, w) := KMALLOC w sizeof_memory_file in
    match p with
    | None => Some (CFE_ERR_NOMEM, None, fsctx, w)
    | Some p =>
        let filename := match filename with c :: s => if c =? ch ":"%char then s else filename | [] => filename end in
        Some (0, Some (MemFile p 0 (lib_xtoi filename)), fsctx, w)
    end.

Definition memory_fileop_read (w : W) (fsctx : Z) (file : memory_file_t) (len : Z) : option (Z * bytes * memory_file_t * Z * W) :=
  assert! 0 <=? len in
  Some (len, map (fun i => byte_at w (wrap32 (memory_start file + memory_offset file + Z.of_nat i))) (seq 0 (Z.to_nat len)),
    MemFile (memory_ref file) (sint32 (memory_offset file + len)) (memory_start file), fsctx, w).

Definition memory_fileop_write : Z := CFE_ERR_UNSUPPORTED.

Definition memory_fileop_seek (file : memory_file_t) (offset how : Z) : Z * memory_file_t :=
  let newoffset :=
    if how =? FILE_SEEK_BEGINNING then offset
    else if how =? FILE_SEEK_CURRENT then sint32 (memory_offset file + offset)
    else offset in
  (newoffset, MemFile (memory_ref file) newoffset (memory_start file)).

Definition memory_fileop_close (w : W) (fsctx : Z) (file : memory_file_t) : Z * W := (fsctx, KFREE w (memory_ref file)).
Definition memory_fileop_uninit (w : W) (fsctx : Z) : W := KFREE w fsctx.

Definition memory_fileops : fileio_dispatch W :=
  Dispatch [109; 101; 109; 111; 114; 121] LOADFLG_SPECADDR Z memory_file_t memory_fileop_init memory_fileop_open memory_fileop_read (fun _ _ _ _ => memory_fileop_write)
    (fun w c f offset how => let '(r, f) := memory_fileop_seek f offset how in Some (r, f, c, w)) memory_fileop_close memory_fileop_uninit.
End memory.

(** * FAT volumes *)

Section fat.
Context {W : Type} `{FatApi W} (fuel : nat).

Definition fat_dispatch (name : bytes) (init : W -> bytes -> option (Z * option (Z * fatfs_t) * W)) : fileio_dispatch W :=
  Dispatch name LOADFLG_NOBB (Z * fatfs_t) (Z * fatfile_t) init
    (fun w '(p, f) filename mode => let? (res, ref, f, w) := fatfs_fileop_open fuel w f filename mode in Some (res, ref, (p, f), w))
    (fun w '(p, f) '(q, ff) len => let? (res, s, ff, w) := fatfs_fileop_read w f ff len in Some (res, s, (q, ff), (p, f), w))
    (fun _ _ _ _ => fatfs_fileop_write)
    (fun w c '(q, ff) offset how => let '(r, ff) := fatfs_fileop_seek ff offset how in Some (r, (q, ff), c, w))
    (fun w '(p, f) '(q, ff) => let '(f, w) := fatfs_fileop_close w f q ff in ((p, f), w))
    (fun w '(p, f) => fatfs_fileop_uninit w p f).

Definition fatfs_fileops : fileio_dispatch W := fat_dispatch [114; 102; 97; 116] fatfs_fileop_xinit.
Definition pfatfs_fileops : fileio_dispatch W := fat_dispatch [102; 97; 116] fatfs_fileop_pinit.
End fat.

(** * What the loaders rely on *)

(** [file_at w c f F pos]: the open file has the contents [F] and stands at [pos]. *)
Class FileLaws {W : Type} `{FatApi W} (d : fileio_dispatch W) := {
  file_at : W -> fs_ctx d -> fs_file d -> bytes -> Z -> Prop;
  file_pos w c f F pos : file_at w c f F pos -> 0 <= pos <= Z.of_nat (length F);
  file_small w c f F pos : file_at w c f F pos -> Z.of_nat (length F) < 2 ^ 30;
  file_read w c f F pos len : file_at w c f F pos -> 0 <= len -> pos + len <= Z.of_nat (length F) ->
    exists f' c' w', d_read d w c f len = Some (len, take (Z.to_nat len) (drop (Z.to_nat pos) F), f', c', w') /\ file_at w' c' f' F (pos + len);
  file_seek w c f F pos off : file_at w c f F pos -> 0 <= off <= Z.of_nat (length F) ->
    exists f' c' w', d_seek d w c f off FILE_SEEK_BEGINNING = Some (off, f', c', w') /\ file_at w' c' f' F off;
  file_malloc w c f F pos n : file_at w c f F pos -> 0 <= n -> exists p w', KMALLOC w n = (Some p, w') /\ file_at w' c f F pos;
  file_free w c f F pos p : file_at w c f F pos -> file_at (KFREE w p) c f F pos
}.

Section laws.
Context {W : Type} {FA : FatApi W} {FD : FatDisk W}.

(** A file on a raw device is a part of the disk. *)
Record raw_at (w : W) (c : raw_fsctx_t) (f : raw_file_t) (F : bytes) (pos : Z) : Prop := {
  ra_disk : disk_ok w;
  ra_small : Z.of_nat (length F) < 2 ^ 30;
  ra_pos : 0 <= pos <= Z.of_nat (length F);
  ra_base : 0 <= raw_baseoffset f /\ raw_baseoffset f + Z.of_nat (length F) <= Z.of_nat (length (disk w)) < 2 ^ 31;
  ra_data : F = take (length F) (drop (Z.to_nat (raw_baseoffset f)) (disk w));
  ra_offset : raw_fileoffset f = pos;
  ra_length : raw_length f = -1 \/ raw_length f = Z.of_nat (length F)
}.

#[export] Instance raw_laws console : FileLaws (raw_fileops console).
Proof.
  refine {| file_at w (c : fs_ctx (raw_fileops console)) (f : fs_file (raw_fileops console)) F pos := raw_at w c f F pos |}.
  - by intros ????? [].
  - by intros ????? [].
  - intros w c f F pos len [Hw Hs Hp [Hb Hd] HF Ho Hl] H0 H1. cbn [d_read raw_fileops]. unfold raw_fileop_read. rewrite Ho.
    assert (Hlen : (if (0 <=? raw_length f) && (sint32 (raw_length f - pos) <? len) then sint32 (raw_length f - pos) else len) = len).
    { destruct Hl as [-> | ->]; [done|]. rewrite sint32_small by lia. destruct (_ && _) eqn:E; [|done]. bool_simpl. lia. }
    rewrite Hlen. destruct (Z.eqb_spec len 0) as [->|Hn].
    { exists f, c, w. cbn. rewrite Z.add_0_r. split; [done|]. by split. }
    rewrite sint32_small, Z.mod_small by lia. destruct (disk_read w (raw_dev c) (raw_baseoffset f + pos) len Hw) as (w' & -> & Hw' & Hi); [lia..|].
    rewrite (proj2 (Z.ltb_lt 0 len)) by lia. rewrite sint32_small by lia. eexists _, c, w'. split.
    + f_equal. do 4 f_equal. rewrite HF, skipn_firstn_comm, firstn_firstn, Nat.min_l, drop_drop by lia. do 2 f_equal. lia.
    + split; cbn; rewrite ?Hi; (done || lia || by split).
  - intros w c f F pos off [Hw Hs Hp [Hb Hd] HF Ho Hl] H0. cbn [d_seek raw_fileops]. unfold raw_fileop_seek. change (FILE_SEEK_BEGINNING =? FILE_SEEK_BEGINNING) with true. cbv iota.
    assert (Hoff : (if (0 <=? raw_length f) && (raw_length f <? off) then raw_length f else off) = off).
    { destruct Hl as [-> | ->]; [done|]. destruct (_ && _) eqn:E; [|done]. bool_simpl. lia. }
    rewrite Hoff. eexists _, c, w. split; [reflexivity|]. by split.
  - intros w c f F pos n [Hw Hs Hp Hb HF Ho Hl] Hn. destruct (disk_malloc w n Hw Hn) as (p & w' & -> & Hw' & Hi). exists p, w'. split; [done|]. split; rewrite ?Hi; done.
  - intros w c f F pos p [Hw Hs Hp Hb HF Ho Hl]. destruct (disk_free w p Hw) as [Hw' Hi]. split; rewrite ?Hi; done.
Defined.

(** A file on a FAT volume is what [FatFile] says. *)
Definition fat_at (w : W) (c : Z * fatfs_t) (f : Z * fatfile_t) (F : bytes) (pos : Z) : Prop :=
  exists img g, volume_ok img g /\ st_ok img g w c.2 /\ file_is img g f.2 F pos /\ 0 <= pos <= Z.of_nat (length F) /\ Z.of_nat (length F) < 2 ^ 30.

#[export] Instance fat_laws fuel name init : FileLaws (fat_dispatch fuel name init).
Proof.
  refine {| file_at w (c : fs_ctx (fat_dispatch fuel name init)) (f : fs_file (fat_dispatch fuel name init)) F pos := fat_at w c f F pos |}.
  - by intros ????? (img & g & _ & _ & _ & H & _).
  - by intros ????? (img & g & _ & _ & _ & _ & H).
  - intros w [p fs] [q ff] F pos len (img & g & Hv & Hst & Hf & Hp & Hs) H0 H1. cbn [d_read fat_dispatch fst snd] in *.
    destruct (fat_fileop_read_ok img g Hv w fs ff F pos len Hst Hf H0 Hp) as (ff' & w' & -> & Hst' & Hf'); [lia|]. rewrite Z.min_l in * by lia. cbn [option_bind].
    eexists _, _, w'. split; [reflexivity|]. exists img, g. cbn. repeat (split; [done|]). lia.
  - intros w [p fs] [q ff] F pos off (img & g & Hv & Hst & Hf & Hp & Hs) H0. cbn [d_seek fat_dispatch fst snd] in *.
    destruct (fileop_seek_ok img g ff F pos off FILE_SEEK_BEGINNING Hf) as (ff' & Hk & Hf'); [cbn; lia|]. cbn [Z.eqb FILE_SEEK_BEGINNING] in Hk, Hf'. rewrite Z.min_l in * by lia. rewrite Hk.
    eexists _, _, w. split; [reflexivity|]. exists img, g. cbn. repeat (split; [done|]). lia.
  - intros w c f F pos n (img & g & Hv & [Hw Hi Hfs] & Hr) Hn. destruct (disk_malloc w n Hw Hn) as (p & w' & -> & Hw' & Hi'). exists p, w'. split; [done|]. exists img, g. split; [done|]. split; [|done]. split; [done|congruence|done].
  - intros w c f F pos p (img & g & Hv & Hst & Hr). exists img, g. split; [done|]. split; [by apply free_ok|done].
Defined.
End laws.
