(* ===== verification/Elf.v ===== *)
(** The boot loader's ELF loader: cfe/cfe/main/cfe_ldr_elf.c, with the loader table of
    cfe_loader.c.

    The file is behind [Filesys]; the areas that may be loaded are those of [Arena].  What the
    loader puts in memory is the sequence of its stores. *)

From Stdlib Require Import ZArith Lia Bool List String Ascii.
From stdpp Require Import base numbers list.
From S2P Require Import Prelude Arena Fat FatFile Filesys.

#[local] Open Scope Z_scope.

Definition CFE_ERR_NOTELF := -11.
Definition CFE_ERR_NOT32BIT := -12.
Definition CFE_ERR_WRONGENDIAN := -13.
Definition CFE_ERR_BADELFVERS := -14.
Definition CFE_ERR_NOTMIPS := -15.
Definition CFE_ERR_BADADDR := -17.
Definition CFE_ERR_BADELFFMT := -16.

(** * The structures of a file *)

Definition EI_CLASS : nat := 4.
Definition EI_DATA : nat := 5.
Definition EI_VERSION : nat := 6.
Definition ELFMAG : bytes := [0x7F; 69; 76; 70].
Definition ELFCLASS32 := 1.
Definition ELFDATA2LSB := 1.
Definition ELFDATA2MSB := 2.
Definition EV_CURRENT := 1.
Definition EM_MIPS := 8.
Definition PT_NULL := 0.
Definition PT_LOAD := 1.
Definition sizeof_Ehdr := 52.
Definition sizeof_Phdr := 32.
Definition sizeof_Shdr := 40.

Section elf.
(** Whether the processor is big-endian. *)
Context (big : bool).

(** A number of [n] bytes at [off]. *)
Fixpoint le_number (s : bytes) : Z := match s with [] => 0 | c :: s => c + 256 * le_number s end.
Definition field (n : nat) (s : bytes) (off : nat) : Z :=
  let b := take n (drop off s) in le_number (if big then rev b else b).

Record Elf32_Ehdr := Ehdr {
  e_ident : bytes;
  e_type : Z;
  e_machine : Z;
  e_version : Z;
  e_entry : Z;
  e_phoff : Z;
  e_shoff : Z;
  e_flags : Z;
  e_ehsize : Z;
  e_phentsize : Z;
  e_phnum : Z;
  e_shentsize : Z;
  e_shnum : Z;
  e_shstrndx : Z
}.

Definition ehdr_of (s : bytes) : Elf32_Ehdr :=
  Ehdr (take 16 s) (field 2 s 16) (field 2 s 18) (field 4 s 20) (field 4 s 24) (field 4 s 28) (field 4 s 32) (field 4 s 36)
    (field 2 s 40) (field 2 s 42) (field 2 s 44) (field 2 s 46) (field 2 s 48) (field 2 s 50).

Record Elf32_Phdr := Phdr {
  p_type : Z;
  p_offset : Z;
  p_vaddr : Z;
  p_paddr : Z;
  p_filesz : Z;
  p_memsz : Z;
  p_flags : Z;
  p_align : Z
}.

Definition phdr_of (s : bytes) : Elf32_Phdr :=
  Phdr (field 4 s 0) (field 4 s 4) (field 4 s 8) (field 4 s 12) (field 4 s 16) (field 4 s 20) (field 4 s 24) (field 4 s 28).

Definition phtab_of (n : nat) (s : bytes) : list Elf32_Phdr := map (fun i => phdr_of (take 32 (drop (32 * i) s))) (seq 0 n).

Definition set_p_type (ph : Elf32_Phdr) (t : Z) : Elf32_Phdr :=
  Phdr t (p_offset ph) (p_vaddr ph) (p_paddr ph) (p_filesz ph) (p_memsz ph) (p_flags ph) (p_align ph).

(** * Loading *)

(** Bytes put at an address, and the size of the area that was checked for them. *)
Record store := Store { st_addr : Z; st_size : Z; st_bytes : bytes }.

Section load.
Context {W : Type} `{FatApi W} (arena : arena_t).

Definition readprogsegment (w : W) (o : opened W) (addr size : Z) (st : list store) : option (Z * list store * opened W * W) :=
  if negb (cfe_arena_loadcheck arena addr (wrap32 size)) then Some (CFE_ERR_BADADDR, st, o, w)
  else
    let? (res, s, o, w) := fs_read w o size in
    let st := st ++ [Store addr (wrap32 size) s] in
    Some (if res <? 0 then CFE_ERR_IOERR else if negb (res =? size) then CFE_ERR_BADELFFMT else size, st, o, w).

Definition readclearbss (addr size : Z) (st : list store) : Z * list store :=
  if negb (cfe_arena_loadcheck arena addr (wrap32 size)) then (CFE_ERR_BADADDR, st)
  else (size, if 0 <? size then st ++ [Store addr (wrap32 size) (replicate (Z.to_nat size) 0)] else st).

(** The address of the section headers; what they are is not looked at. *)
Definition elfgetshdr (w : W) (o : opened W) (ep : Elf32_Ehdr) : option (option Z * opened W * W) :=
  let size := e_shnum ep * sizeof_Shdr in
  let '(shtab, w) := KMALLOC w size in
  match shtab with
  | None => Some (None, o, w)
  | Some shtab =>
      let? (r, o, w) := fs_seek w o (sint32 (e_shoff ep)) FILE_SEEK_BEGINNING in
      if negb (wrap32 r =? e_shoff ep) then Some (None, o, KFREE w shtab)
      else
        let? (r, s, o, w) := fs_read w o size in
        assert! (length s <=? Z.to_nat size)%nat in
        if negb (wrap32 r =? size) then Some (None, o, KFREE w shtab) else Some (Some shtab, o, w)
  end.

(** The loadable entry of the least offset, of those below [lowest_offset]; the first of them. *)
Fixpoint nearest (i : nat) (phtab : list Elf32_Phdr) (lowest_offset : Z) (ph : option nat) : option nat :=
  match phtab with
  | [] => ph
  | p :: phtab =>
      if (p_type p =? PT_LOAD) && (p_offset p <? lowest_offset) then nearest (S i) phtab (p_offset p) (Some i)
      else nearest (S i) phtab lowest_offset ph
  end.

Definition free_opt (w : W) (p : option Z) : W := match p with Some p => KFREE w p | None => w end.

(** One segment: [None] to go on, or the result of the function. *)
Definition load_segment (w : W) (o : opened W) (ph : Elf32_Phdr) (st : list store) : option (option Z * list store * opened W * W) :=
  let? (failed, st, o, w) :=
    if truthy (p_filesz ph) then
      let? (r, o, w) := fs_seek w o (sint32 (p_offset ph)) FILE_SEEK_BEGINNING in
      if negb (wrap32 r =? p_offset ph) then Some (Some CFE_ERR_BADELFFMT, st, o, w)
      else
        let? (res, st, o, w) := readprogsegment w o (p_vaddr ph) (sint32 (p_filesz ph)) st in
        Some (if negb (wrap32 res =? p_filesz ph) then Some res else None, st, o, w)
    else Some (None, st, o, w) in
  match failed with
  | Some res => Some (Some res, st, o, w)
  | None =>
      if p_filesz ph <? p_memsz ph then
        let '(res, st) := readclearbss (wrap32 (p_vaddr ph + p_filesz ph)) (sint32 (p_memsz ph - p_filesz ph)) st in
        Some (if res <? 0 then Some res else None, st, o, w)
      else Some (None, st, o, w)
  end.

(** Every turn takes an entry out of the table, so there are no more than entries. *)
Fixpoint load_loop (fuel : nat) (w : W) (o : opened W) (phtab : list Elf32_Phdr) (st : list store) : option (option Z * list store * opened W * W) :=
  match nearest 0 phtab 0xFFFFFFFF None with
  | None => Some (None, st, o, w)
  | Some i =>
      match fuel with
      | O => None
      | S fuel =>
          let? ph := phtab !! i in
          let? (failed, st, o, w) := load_segment w o ph st in
          match failed with
          | Some res => Some (Some res, st, o, w)
          | None => load_loop fuel w o (<[i := set_p_type ph PT_NULL]> phtab) st
          end
      end
  end.

(** What the tests of the header let through. *)
Definition check_ehdr (ep : Elf32_Ehdr) : Z :=
  if negb (bytes_eqb (take 4 (e_ident ep)) ELFMAG) then CFE_ERR_NOTELF
  else if negb (at_ (e_ident ep) EI_CLASS =? ELFCLASS32) then CFE_ERR_NOT32BIT
  else if negb (at_ (e_ident ep) EI_DATA =? if big then ELFDATA2MSB else ELFDATA2LSB) then CFE_ERR_WRONGENDIAN
  else if negb (at_ (e_ident ep) EI_VERSION =? EV_CURRENT) then CFE_ERR_BADELFVERS
  else if negb (e_machine ep =? EM_MIPS) then CFE_ERR_NOTMIPS
  else if (e_phoff ep =? 0) || (e_phnum ep =? 0) || negb (e_phentsize ep =? sizeof_Phdr) then CFE_ERR_BADELFFMT
  else 0.

(** The result, the entry point where it is set, and the stores. *)
Definition elfload_internal (w : W) (o : opened W) : option (Z * option Z * list store * opened W * W) :=
  let? (r, s, o, w) := fs_read w o sizeof_Ehdr in
  assert! (length s <=? Z.to_nat sizeof_Ehdr)%nat in
  if negb (r =? sizeof_Ehdr) then Some (CFE_ERR_IOERR, None, [], o, w)
  else
    assert! (length s =? Z.to_nat sizeof_Ehdr)%nat in
    let ep := ehdr_of s in
    if negb (check_ehdr ep =? 0) then Some (check_ehdr ep, None, [], o, w)
    else
      let nbytes := e_phnum ep * sizeof_Phdr in
      let '(tab, w) := KMALLOC w nbytes in
      match tab with
      | None => Some (CFE_ERR_NOMEM, None, [], o, w)
      | Some tab =>
          let? (r, o, w) := fs_seek w o (sint32 (e_phoff ep)) FILE_SEEK_BEGINNING in
          if negb (wrap32 r =? e_phoff ep) then Some (CFE_ERR_IOERR, None, [], o, KFREE w tab)
          else
            let? (r, s, o, w) := fs_read w o nbytes in
            assert! (length s <=? Z.to_nat nbytes)%nat in
            if negb (wrap32 r =? nbytes) then Some (CFE_ERR_IOERR, None, [], o, KFREE w tab)
            else
              assert! (length s =? Z.to_nat nbytes)%nat in
              let phtab := phtab_of (Z.to_nat (e_phnum ep)) s in
              let? ph0 := head phtab in
              let? (shtab, o, w) := if e_shoff ep <? p_offset ph0 then elfgetshdr w o ep else Some (None, o, w) in
              let? (failed, st, o, w) := load_loop (length phtab) w o phtab [] in
              match failed with
              | Some res => Some (res, None, st, o, KFREE (free_opt w shtab) tab)
              | None => Some (0, Some (e_entry ep), st, o, KFREE w tab)
              end
      end.

(** What is asked for, and the entry point that is set. *)
Record cfe_loadargs := LoadArgs { la_filename : bytes; la_filesys : bytes; la_device : bytes; la_flags : Z }.
Definition LOADFLG_COMPRESSED := 0x0020.

(** The result, the entry point and the stores. *)
Definition cfe_elfload (table : list (fileio_dispatch W)) (filters : list (bytes * (W -> fileio_ctx_t W -> option (Z * fileio_ctx_t W * W)))) (w : W) (la : cfe_loadargs) :
  option (Z * Z * list store * W) :=
  let? (res, fsctx, w) := fs_init table w (la_filesys la) (la_device la) in
  if truthy res then Some (res, 0, [], w)
  else
    let? fsctx := fsctx in
    let? (res, fsctx, w) := if truthy (Z.land (la_flags la) LOADFLG_COMPRESSED) then fs_hook filters w fsctx [ch "z"%char] else Some (0, fsctx, w) in
    if truthy res then Some (res, 0, [], w)
    else
      let? (res, ref, w) := fs_open w fsctx (la_filename la) FILE_MODE_READ in
      match ref with
      | inr fsctx => Some (CFE_ERR_FILENOTFOUND, 0, [], fs_uninit w fsctx)
      | inl o =>
          let? (res, entry, st, o, w) := elfload_internal w o in
          let '(fsctx, w) := fs_close w o in
          Some (res, match entry with Some e => e | None => 0 end, st, fs_uninit w fsctx)
      end.
End load.
End elf.

(** * The loader table *)

Definition CFE_ERR_LDRNOTAVAIL := -35.

Inductive cfe_loader := elfloader | rawloader | srecloader.

(** [minimal] is CFG_MINIMAL_SIZE. *)
Definition cfe_loaders (minimal : bool) : list (bytes * cfe_loader) :=
  [([101; 108; 102], elfloader); ([114; 97; 119], rawloader)] ++ (if minimal then [] else [([115; 114; 101; 99], srecloader)]).

Definition cfe_findloader (minimal : bool) (name : bytes) : option cfe_loader :=
  option_map snd (find (fun ldr => bytes_eqb name (fst ldr)) (cfe_loaders minimal)).

(** [load] calls a loader on the arguments. *)
Definition cfe_load_program {A} (minimal : bool) (load : cfe_loader -> Z * A) (none : A) (name : bytes) : Z * A :=
  match cfe_findloader minimal name with
  | None => (CFE_ERR_LDRNOTAVAIL, none)
  | Some ldr => load ldr
  end.
