(* ===== verification/ElfLoad.v ===== *)
(** What the ELF loader promises: a program is in memory as its headers say, whatever their
    order, and no file makes the loader store where the memory map does not allow it. *)

From Stdlib Require Import ZArith Lia Bool List String Ascii Sorted.
From stdpp Require Import base numbers list.
From S2P Require Import Prelude Arena Fat FatFile Filesys Elf.

#[local] Open Scope Z_scope.

(** * Numbers in a file *)

Section numbers.
Context (big : bool).

Lemma le_number_range s : Forall byte_ok s -> 0 <= le_number s < 256 ^ Z.of_nat (length s).
Proof.
  induction 1 as [|c s Hc _ IH]; [done|]. cbn [le_number length]. rewrite Nat2Z.inj_succ, Z.pow_succ_r by lia. unfold byte_ok in Hc. lia.
Qed.

Lemma field_range n s off : Forall byte_ok s -> 0 <= field big n s off < 256 ^ Z.of_nat n.
Proof.
  intros Hs. unfold field. set (b := take n (drop off s)).
  assert (Hb : Forall byte_ok (if big then rev b else b)) by (destruct big; [rewrite rev_alt; apply Forall_reverse|]; by apply Forall_take, Forall_drop).
  pose proof (le_number_range _ Hb) as Hr. assert (Hl : (length (if big then rev b else b) <= n)%nat) by (destruct big; rewrite ?length_rev; unfold b; rewrite length_take; lia).
  assert (256 ^ Z.of_nat (length (if big then rev b else b)) <= 256 ^ Z.of_nat n) by (apply Z.pow_le_mono_r; lia). lia.
Qed.
End numbers.

(** * The program of a file *)

Section program.
Context (big : bool) (F : bytes).

Definition header : Elf32_Ehdr := ehdr_of big (take 52 F).
Definition phtab : list Elf32_Phdr := phtab_of big (Z.to_nat (e_phnum header)) (take (Z.to_nat (e_phnum header * sizeof_Phdr)) (drop (Z.to_nat (e_phoff header)) F)).
Definition is_load (ph : Elf32_Phdr) : bool := p_type ph =? PT_LOAD.
Definition segments : list Elf32_Phdr := List.filter is_load phtab.

(** The bytes of a segment: those of the file, and zeros behind them. *)
Definition in_segment (x : Z) (ph : Elf32_Phdr) : bool := (p_vaddr ph <=? x) && (x <? p_vaddr ph + Z.max (p_filesz ph) (p_memsz ph)).
Definition segment_byte (ph : Elf32_Phdr) (x : Z) : Z :=
  let i := x - p_vaddr ph in if i <? p_filesz ph then at_ F (Z.to_nat (p_offset ph + i)) else 0.

(** The image of the program, where no two segments meet. *)
Definition image (x : Z) : option Z := match List.filter (in_segment x) segments with ph :: _ => Some (segment_byte ph x) | [] => None end.
Definition apart : Prop := forall x, (length (List.filter (in_segment x) segments) <= 1)%nat.

Definition seg_stores (ph : Elf32_Phdr) : list store :=
  (if p_filesz ph =? 0 then [] else [Store (p_vaddr ph) (p_filesz ph) (take (Z.to_nat (p_filesz ph)) (drop (Z.to_nat (p_offset ph)) F))]) ++
  (if p_filesz ph <? p_memsz ph then [Store (p_vaddr ph + p_filesz ph) (p_memsz ph - p_filesz ph) (replicate (Z.to_nat (p_memsz ph - p_filesz ph)) 0)] else []).

(** A segment that is in the file and whose areas may be loaded. *)
Record segment_ok (arena : arena_t) (ph : Elf32_Phdr) : Prop := {
  so_file : p_offset ph + p_filesz ph <= Z.of_nat (length F);
  so_addr : p_vaddr ph + Z.max (p_filesz ph) (p_memsz ph) < 2 ^ 32 /\ p_memsz ph < 2 ^ 31;
  so_data : p_filesz ph <> 0 -> cfe_arena_loadcheck arena (p_vaddr ph) (p_filesz ph) = true;
  so_bss : p_filesz ph < p_memsz ph -> cfe_arena_loadcheck arena (p_vaddr ph + p_filesz ph) (p_memsz ph - p_filesz ph) = true
}.

Record elf_ok (arena : arena_t) : Prop := {
  eo_bytes : Forall byte_ok F;
  eo_length : sizeof_Ehdr <= Z.of_nat (length F);
  eo_check : check_ehdr big header = 0;
  eo_table : e_phoff header + e_phnum header * sizeof_Phdr <= Z.of_nat (length F);
  eo_sections : forall ph, head phtab = Some ph -> e_shoff header < p_offset ph -> e_shoff header + e_shnum header * sizeof_Shdr <= Z.of_nat (length F);
  eo_segments : Forall (segment_ok arena) segments
}.
End program.

(** What is in memory after the stores, where they have been. *)
Definition stored (s : store) (x : Z) : option Z := assert! st_addr s <=? x in st_bytes s !! Z.to_nat (x - st_addr s).

Fixpoint memory (st : list store) (x : Z) : option Z :=
  match st with
  | [] => None
  | s :: st => match memory st x with Some b => Some b | None => stored s x end
  end.

Lemma memory_app st st' x : memory (st ++ st') x = match memory st' x with Some b => Some b | None => memory st x end.
Proof. induction st as [|s st IH]; cbn; [by destruct (memory st' x)|]. rewrite IH. by destruct (memory st' x). Qed.

(** The numbers of a header are 32 bits wide. *)
Record phdr_ok (ph : Elf32_Phdr) : Prop := {
  po_offset : 0 <= p_offset ph < 2 ^ 32;
  po_vaddr : 0 <= p_vaddr ph < 2 ^ 32;
  po_filesz : 0 <= p_filesz ph < 2 ^ 32;
  po_memsz : 0 <= p_memsz ph < 2 ^ 32
}.

Lemma phdr_of_ok big s : Forall byte_ok s -> phdr_ok (phdr_of big s).
Proof. intros Hs. split; cbn; apply (field_range big 4 s _ Hs). Qed.

Lemma phtab_of_ok big n s : Forall byte_ok s -> Forall phdr_ok (phtab_of big n s).
Proof. intros Hs. apply Forall_map, Forall_forall. intros i _. by apply phdr_of_ok, Forall_take, Forall_drop. Qed.

(** * What is in memory after the stores of the segments *)

Section image.
Context (big : bool) (F : bytes) (arena : arena_t).

Lemma seg_memory ph x : phdr_ok ph -> segment_ok F arena ph -> memory (seg_stores F ph) x = if in_segment x ph then Some (segment_byte F ph x) else None.
Proof.
  intros [O1 O2 O3 O4] [S1 [S2 _] _ _]. unfold seg_stores, in_segment, segment_byte. rewrite memory_app.
  assert (Hdata : forall y, stored (Store (p_vaddr ph) (p_filesz ph) (take (Z.to_nat (p_filesz ph)) (drop (Z.to_nat (p_offset ph)) F))) y =
    if (p_vaddr ph <=? y) && (y <? p_vaddr ph + p_filesz ph) then Some (at_ F (Z.to_nat (p_offset ph + (y - p_vaddr ph)))) else None).
  { intros y. unfold stored. cbn [st_addr st_bytes]. destruct (Z.leb_spec (p_vaddr ph) y); [|done]. cbn [andb]. destruct (Z.ltb_spec y (p_vaddr ph + p_filesz ph)).
    - rewrite lookup_take_lt, lookup_drop by lia. replace (Z.to_nat (p_offset ph) + Z.to_nat (y - p_vaddr ph))%nat with (Z.to_nat (p_offset ph + (y - p_vaddr ph))) by lia.
      destruct (F !! _) as [c|] eqn:E; [unfold at_; by rewrite (nth_lookup_Some _ _ 0 _ E)|]. apply lookup_ge_None_1 in E. lia.
    - apply lookup_take_ge. lia. }
  assert (Hz : forall a n y, stored (Store a n (replicate (Z.to_nat n) 0)) y = if (a <=? y) && (y <? a + n) then Some 0 else None).
  { intros a n y. unfold stored. cbn [st_addr st_bytes]. destruct (Z.leb_spec a y); [|done]. cbn [andb]. destruct (Z.ltb_spec y (a + n)); [apply lookup_replicate_2; lia|]. apply lookup_ge_None_2. rewrite length_replicate. lia. }
  destruct (Z.eqb_spec (p_filesz ph) 0) as [Hf|Hf], (Z.ltb_spec (p_filesz ph) (p_memsz ph)) as [Hm|Hm]; cbn [memory]; rewrite ?Hdata, ?Hz;
    repeat match goal with |- context [?a <=? ?b] => destruct (Z.leb_spec a b) | |- context [?a <? ?b] => destruct (Z.ltb_spec a b) end; cbn [andb]; try done; try lia.
Qed.

Lemma segs_memory l x : Forall phdr_ok l -> Forall (segment_ok F arena) l -> (length (List.filter (in_segment x) l) <= 1)%nat ->
  memory (concat (map (seg_stores F) l)) x = match List.filter (in_segment x) l with ph :: _ => Some (segment_byte F ph x) | [] => None end.
Proof.
  induction l as [|ph l IH]; [done|]. intros HP HS Hone. apply Forall_cons_1 in HP as [P1 P2]. apply Forall_cons_1 in HS as [S1 S2]. cbn [map concat List.filter] in *. rewrite memory_app, (seg_memory ph x P1 S1).
  destruct (in_segment x ph) eqn:E; cbn [length] in Hone; rewrite IH by (done || lia); [|by destruct (List.filter _ l)].
  destruct (List.filter (in_segment x) l); [done|cbn in Hone; lia].
Qed.
End image.

(** * The order of loading *)

(** The entry that is taken: loadable, and no loadable entry has a lower offset. *)
Lemma nearest_spec tab : forall i lowest best,
  (nearest i tab lowest best = best /\ Forall (fun ph => is_load ph = true -> lowest <= p_offset ph) tab) \/
  exists j ph, nearest i tab lowest best = Some (i + j)%nat /\ tab !! j = Some ph /\ is_load ph = true /\ p_offset ph < lowest /\
    Forall (fun ph' => is_load ph' = true -> p_offset ph <= p_offset ph') tab.
Proof.
  induction tab as [|p tab IH]; intros i lowest best; cbn [nearest]; [by left|]. fold (is_load p). destruct (is_load p) eqn:El; cbn [andb].
  - destruct (Z.ltb_spec (p_offset p) lowest) as [Hlt|Hge].
    + right. destruct (IH (S i) (p_offset p) (Some i)) as [[-> Hall]|(j & ph & -> & Hj & Hl & Ho & Hall)].
      * exists 0%nat, p. rewrite Nat.add_0_r. repeat (split; [done|]). constructor; [lia|done].
      * exists (S j), ph. rewrite Nat.add_succ_r. repeat (split; [done|]). split; [lia|]. constructor; [lia|done].
    + destruct (IH (S i) lowest best) as [[-> Hall]|(j & ph & -> & Hj & Hl & Ho & Hall)]; [left; split; [done|]; by constructor|].
      right. exists (S j), ph. rewrite Nat.add_succ_r. repeat (split; [done|]). constructor; [lia|done].
  - destruct (IH (S i) lowest best) as [[-> Hall]|(j & ph & -> & Hj & Hl & Ho & Hall)].
    + left. split; [done|]. constructor; [congruence|done].
    + right. exists (S j), ph. rewrite Nat.add_succ_r. repeat (split; [done|]). constructor; [congruence|done].
Qed.

Lemma filter_taken tab i ph : tab !! i = Some ph -> is_load ph = true ->
  List.filter is_load tab ≡ₚ ph :: List.filter is_load (<[i := set_p_type ph PT_NULL]> tab).
Proof.
  intros Hi Hl. rewrite <- (take_drop_middle tab i ph Hi) at 1. rewrite insert_take_drop by (by eapply lookup_lt_Some).
  rewrite !List.filter_app. cbn [List.filter]. rewrite Hl. change (is_load (set_p_type ph PT_NULL)) with false. cbv iota. symmetry. apply Permutation_middle.
Qed.

Lemma nearest_load tab i : nearest 0 tab 0xFFFFFFFF None = Some i -> exists ph, tab !! i = Some ph /\ is_load ph = true /\
  Forall (fun ph' => is_load ph' = true -> p_offset ph <= p_offset ph') tab.
Proof. destruct (nearest_spec tab 0 0xFFFFFFFF None) as [[-> _]|(j & ph & -> & Hj & Hl & _ & Hall)]; [done|]. cbn. intros [= <-]. by exists ph. Qed.

Lemma nearest_none tab : nearest 0 tab 0xFFFFFFFF None = None -> Forall (fun ph => p_offset ph < 0xFFFFFFFF) (List.filter is_load tab) -> List.filter is_load tab = [].
Proof.
  intros En Hlow. destruct (nearest_spec tab 0 0xFFFFFFFF None) as [[_ Hall]|(j & ph & Hx & _)]; [|congruence]. destruct (List.filter is_load tab) as [|ph l] eqn:E; [done|].
  assert (Hin : ph ∈ List.filter is_load tab) by (rewrite E; constructor). apply list_elem_of_In, List.filter_In in Hin as [Hin Hload]. apply list_elem_of_In in Hin.
  rewrite Forall_forall in Hall. specialize (Hall ph Hin Hload). apply Forall_cons_1 in Hlow as [Hl1 _]. lia.
Qed.

Lemma filter_length_insert tab i ph : tab !! i = Some ph -> is_load ph = true ->
  length (List.filter is_load tab) = S (length (List.filter is_load (<[i := set_p_type ph PT_NULL]> tab))).
Proof. intros Hi Hl. by rewrite (Permutation_length (filter_taken tab i ph Hi Hl)). Qed.

(** * Loading a program *)

Section loading.
Context {W : Type} {FA : FatApi W} (d : fileio_dispatch W) {FL : FileLaws d} (arena : arena_t) (big : bool) (p : Z).

Lemma fs_read_at w c f F pos len : file_at w c f F pos -> 0 <= len -> pos + len <= Z.of_nat (length F) ->
  exists c' f' w', fs_read w (Opened p d c f) len = Some (len, take (Z.to_nat len) (drop (Z.to_nat pos) F), Opened p d c' f', w') /\ file_at w' c' f' F (pos + len).
Proof.
  intros H H0 H1. destruct (file_read w c f F pos len H H0 H1) as (f' & c' & w' & E & H'). exists c', f', w'. split; [|done]. unfold fs_read. cbn [o_ops o_fsctx o_ref o_addr]. by rewrite E.
Qed.

Lemma fs_seek_at w c f F pos off : file_at w c f F pos -> 0 <= off <= Z.of_nat (length F) ->
  exists c' f' w', fs_seek w (Opened p d c f) (sint32 off) FILE_SEEK_BEGINNING = Some (off, Opened p d c' f', w') /\ wrap32 off = off /\ file_at w' c' f' F off.
Proof.
  intros H H0. pose proof (file_small _ _ _ _ _ H). rewrite sint32_small by lia. destruct (file_seek w c f F pos off H H0) as (f' & c' & w' & E & H'). exists c', f', w'.
  split; [unfold fs_seek; cbn [o_ops o_fsctx o_ref o_addr]; by rewrite E|]. split; [apply wrap32_small; lia|done].
Qed.

Lemma read_length (F : bytes) pos len : 0 <= pos -> 0 <= len -> pos + len <= Z.of_nat (length F) -> length (take (Z.to_nat len) (drop (Z.to_nat pos) F)) = Z.to_nat len.
Proof. intros. rewrite length_take, length_drop. lia. Qed.

Lemma load_segment_ok w c f F pos ph st : file_at w c f F pos -> phdr_ok ph -> segment_ok F arena ph ->
  exists c' f' w' pos', load_segment arena w (Opened p d c f) ph st = Some (None, st ++ seg_stores F ph, Opened p d c' f', w') /\ file_at w' c' f' F pos'.
Proof.
  intros H [O1 O2 O3 O4] [S1 [S2 S3] S4 S5]. pose proof (file_small _ _ _ _ _ H) as Hs. unfold load_segment, seg_stores, truthy.
  assert (Hbss : forall w c f pos st, file_at w c f F pos -> exists c' f' w' pos', (if p_filesz ph <? p_memsz ph then
      let '(res, st) := readclearbss arena (wrap32 (p_vaddr ph + p_filesz ph)) (sint32 (p_memsz ph - p_filesz ph)) st in Some (if res <? 0 then Some res else None, st, Opened p d c f, w)
      else Some (None, st, Opened p d c f, w)) =
      Some (None, st ++ (if p_filesz ph <? p_memsz ph then [Store (p_vaddr ph + p_filesz ph) (p_memsz ph - p_filesz ph) (replicate (Z.to_nat (p_memsz ph - p_filesz ph)) 0)] else []), Opened p d c' f', w') /\ file_at w' c' f' F pos').
  { intros w1 c1 f1 pos1 st1 H1. exists c1, f1, w1, pos1. split; [|done]. destruct (Z.ltb_spec (p_filesz ph) (p_memsz ph)) as [Hlt|]; [|by rewrite app_nil_r].
    unfold readclearbss. rewrite sint32_small, !wrap32_small, (S5 Hlt) by lia. cbn [negb]. rewrite (proj2 (Z.ltb_lt 0 _)), (proj2 (Z.ltb_ge _ 0)) by lia. done. }
  destruct (Z.eqb_spec (p_filesz ph) 0) as [Hz|Hz]; cbn [negb].
  - cbn [option_bind]. rewrite app_nil_l. by apply Hbss with pos.
  - destruct (fs_seek_at w c f F pos (p_offset ph) H) as (c1 & f1 & w1 & -> & Hw1 & H1); [lia|]. cbn [option_bind]. rewrite Hw1, Z.eqb_refl. cbn [negb].
    unfold readprogsegment. rewrite sint32_small, wrap32_small, (S4 Hz) by lia. cbn [negb].
    destruct (fs_read_at w1 c1 f1 F _ (p_filesz ph) H1) as (c2 & f2 & w2 & -> & H2); [lia|lia|]. cbn [option_bind]. rewrite (proj2 (Z.ltb_ge _ 0)), Z.eqb_refl by lia. cbn [negb option_bind].
    rewrite wrap32_small, Z.eqb_refl by lia. cbn [negb]. rewrite app_assoc. by apply Hbss with (p_offset ph + p_filesz ph).
Qed.

(** The loop takes the loadable entries in the order of their offsets. *)
Lemma elf_loop_ok F n : forall w c f pos tab st, file_at w c f F pos -> Forall phdr_ok tab -> Forall (segment_ok F arena) (List.filter is_load tab) ->
  Forall (fun ph => p_offset ph < 0xFFFFFFFF) (List.filter is_load tab) -> (length (List.filter is_load tab) <= n)%nat ->
  exists l c' f' w' pos', load_loop arena n w (Opened p d c f) tab st = Some (None, st ++ concat (map (seg_stores F) l), Opened p d c' f', w') /\ file_at w' c' f' F pos' /\
    l ≡ₚ List.filter is_load tab /\ StronglySorted (fun a b => p_offset a <= p_offset b) l.
Proof.
  induction n as [|n IH]; intros w c f pos tab st H Hok Hseg Hlow Hn.
  - exists [], c, f, w, pos. destruct (List.filter is_load tab) eqn:E; [|cbn in Hn; lia]. cbn [load_loop]. destruct (nearest 0 tab 0xFFFFFFFF None) as [i|] eqn:En.
    + apply nearest_load in En as (ph & Hi & Hl & _). pose proof (filter_length_insert tab i ph Hi Hl) as Hx. rewrite E in Hx. cbn in Hx. lia.
    + rewrite app_nil_r. split; [done|]. split; [done|]. split; [done|constructor].
  - cbn [load_loop]. destruct (nearest 0 tab 0xFFFFFFFF None) as [i|] eqn:En.
    + apply nearest_load in En as (ph & Hi & Hl & Hmin). rewrite Hi. cbn [option_bind]. pose proof (filter_taken tab i ph Hi Hl) as Hp.
      rewrite Hp in Hseg, Hlow. apply Forall_cons_1 in Hseg as [Hs1 Hs2]. apply Forall_cons_1 in Hlow as [Hl1 Hl2]. rewrite (Permutation_length Hp) in Hn. cbn [length] in Hn.
      assert (Hph : phdr_ok ph) by (by eapply Forall_lookup_1). destruct (load_segment_ok w c f F pos ph st H Hph Hs1) as (c1 & f1 & w1 & pos1 & -> & H1). cbn [option_bind].
      set (tab' := <[i := set_p_type ph PT_NULL]> tab) in *.
      assert (Hok' : Forall phdr_ok tab') by (apply Forall_insert; [done|destruct Hph; by split]).
      destruct (IH w1 c1 f1 pos1 tab' (st ++ seg_stores F ph) H1 Hok' Hs2 Hl2) as (l & c2 & f2 & w2 & pos2 & -> & H2 & Hperm & Hsort); [lia|].
      exists (ph :: l), c2, f2, w2, pos2. cbn [map concat]. rewrite app_assoc. split; [done|]. split; [done|]. split; [by rewrite Hp, Hperm|].
      constructor; [done|]. rewrite Hperm. apply Forall_forall. intros ph' Hin. apply list_elem_of_In in Hin. apply List.filter_In in Hin as [Hin Hload].
      assert (Hin' : ph' ∈ List.filter is_load tab) by (rewrite Hp; apply list_elem_of_further, list_elem_of_In, List.filter_In; done).
      apply list_elem_of_In, List.filter_In in Hin' as [Hin' _]. apply list_elem_of_In in Hin'. rewrite Forall_forall in Hmin. by apply Hmin.
    + pose proof (nearest_none tab En Hlow) as Hnil.
      exists [], c, f, w, pos. rewrite Hnil, app_nil_r. split; [done|]. split; [done|]. split; [done|constructor].
Qed.

Lemma header_ok F : Forall byte_ok F -> 0 <= e_phoff (header big F) < 2 ^ 32 /\ 0 <= e_phnum (header big F) < 2 ^ 16 /\ 0 <= e_shoff (header big F) < 2 ^ 32 /\ 0 <= e_shnum (header big F) < 2 ^ 16.
Proof. intros HF. assert (Hb : Forall byte_ok (take 52 F)) by by apply Forall_take. repeat split; (apply (field_range big 4 _ _ Hb) || apply (field_range big 2 _ _ Hb)). Qed.

Lemma elfgetshdr_ok w c f F pos ep : file_at w c f F pos -> 0 <= e_shoff ep -> 0 <= e_shnum ep -> e_shoff ep + e_shnum ep * sizeof_Shdr <= Z.of_nat (length F) ->
  exists s c' f' w' pos', elfgetshdr w (Opened p d c f) ep = Some (Some s, Opened p d c' f', w') /\ file_at w' c' f' F pos'.
Proof.
  unfold elfgetshdr, sizeof_Shdr. intros H H0 H1 H2. pose proof (file_small _ _ _ _ _ H) as Hs. destruct (file_malloc w c f F pos (e_shnum ep * 40) H) as (s & w1 & -> & Hm); [lia|].
  destruct (fs_seek_at w1 c f F pos (e_shoff ep) Hm) as (c2 & f2 & w2 & -> & Hw & Hk); [lia|]. cbn [option_bind]. rewrite Hw, Z.eqb_refl. cbn [negb].
  destruct (fs_read_at w2 c2 f2 F _ (e_shnum ep * 40) Hk) as (c3 & f3 & w3 & -> & H3); [lia|lia|]. cbn [option_bind]. rewrite read_length, Nat.leb_refl, wrap32_small, Z.eqb_refl by lia. cbn [negb].
  exists s, c3, f3, w3. by eexists.
Qed.

Lemma check_ehdr_table ep : check_ehdr big ep = 0 -> e_phnum ep <> 0.
Proof.
  unfold check_ehdr. intros Hc. destruct (Z.eqb_spec (e_phnum ep) 0); [|done]. rewrite orb_true_r in Hc. cbn [orb] in Hc. by repeat case_match.
Qed.

Lemma phtab_head n s : (0 < n)%nat -> exists ph, head (phtab_of big n s) = Some ph.
Proof. destruct n; [lia|]. intros _. by eexists. Qed.

Lemma elfload_ok w c f F : file_at w c f F 0 -> elf_ok big F arena ->
  exists l c' f' w' pos', elfload_internal big arena w (Opened p d c f) = Some (0, Some (e_entry (header big F)), concat (map (seg_stores F) l), Opened p d c' f', w') /\
    file_at w' c' f' F pos' /\ l ≡ₚ segments big F /\ StronglySorted (fun a b => p_offset a <= p_offset b) l.
Proof.
  intros H [E1 E2 E3 E4 E5 E6]. pose proof (file_small _ _ _ _ _ H) as Hs. destruct (header_ok F E1) as (H1 & H2 & H3 & H4). pose proof (check_ehdr_table _ E3) as Hnz. unfold sizeof_Ehdr in *. unfold elfload_internal, sizeof_Ehdr.
  destruct (fs_read_at w c f F 0 52 H) as (c1 & f1 & w1 & -> & R1); [lia|lia|]. cbn [option_bind]. rewrite read_length, Nat.leb_refl, Z.eqb_refl, Nat.eqb_refl by lia. cbn [negb].
  change (take (Z.to_nat 52) (drop (Z.to_nat 0) F)) with (take 52 F). fold (header big F). rewrite E3. cbn [Z.eqb negb].
  unfold sizeof_Phdr in *. destruct (file_malloc w1 c1 f1 F _ (e_phnum (header big F) * 32) R1) as (t & w2 & -> & R2); [lia|].
  destruct (fs_seek_at w2 c1 f1 F _ (e_phoff (header big F)) R2) as (c3 & f3 & w3 & -> & Hw & R3); [lia|]. cbn [option_bind]. rewrite Hw, Z.eqb_refl. cbn [negb].
  destruct (fs_read_at w3 c3 f3 F _ (e_phnum (header big F) * 32) R3) as (c4 & f4 & w4 & -> & R4); [lia|lia|]. cbn [option_bind]. rewrite read_length, Nat.leb_refl, wrap32_small, Z.eqb_refl, Nat.eqb_refl by lia. cbn [negb].
  change (phtab_of big (Z.to_nat (e_phnum (header big F))) (take (Z.to_nat (e_phnum (header big F) * 32)) (drop (Z.to_nat (e_phoff (header big F))) F))) with (phtab big F).
  assert (Hhead : exists ph, head (phtab big F) = Some ph) by (apply phtab_head; lia). destruct Hhead as [ph0 Hph]. rewrite Hph. cbn [option_bind].
  assert (Hsh : exists sh c5 f5 w5 pos5, (if e_shoff (header big F) <? p_offset ph0 then elfgetshdr w4 (Opened p d c4 f4) (header big F) else Some (None, Opened p d c4 f4, w4)) = Some (sh, Opened p d c5 f5, w5) /\ file_at w5 c5 f5 F pos5).
  { destruct (Z.ltb_spec (e_shoff (header big F)) (p_offset ph0)) as [Hlt|]; [|by eexists None, c4, f4, w4, _]. specialize (E5 ph0 Hph Hlt).
    destruct (elfgetshdr_ok w4 c4 f4 F _ (header big F) R4) as (s & c5 & f5 & w5 & pos5 & -> & R5); [lia|lia|lia|]. by exists (Some s), c5, f5, w5, pos5. }
  destruct Hsh as (sh & c5 & f5 & w5 & pos5 & -> & R5). cbn [option_bind].
  assert (Htab : Forall phdr_ok (phtab big F)) by by apply phtab_of_ok, Forall_take, Forall_drop.
  assert (Hlow : Forall (fun ph => p_offset ph < 0xFFFFFFFF) (segments big F)).
  { apply Forall_forall. intros ph Hin. rewrite Forall_forall in E6. pose proof (so_file _ _ _ (E6 ph Hin)). apply list_elem_of_In, List.filter_In in Hin as [Hin _]. apply list_elem_of_In in Hin.
    rewrite Forall_forall in Htab. destruct (Htab ph Hin). lia. }
  destruct (elf_loop_ok F (length (phtab big F)) w5 c5 f5 pos5 (phtab big F) [] R5 Htab E6 Hlow) as (l & c6 & f6 & w6 & pos6 & -> & R6 & Hp & Hsort); [apply filter_length_le|].
  cbn [option_bind]. exists l, c6, f6, (KFREE w6 t), pos6. split; [done|]. split; [by apply file_free|]. done.
Qed.
End loading.

Lemma filter_perm {A} (P : A -> bool) l l' : l ≡ₚ l' -> List.filter P l ≡ₚ List.filter P l'.
Proof. induction 1 as [|x l l' _ IH|x y l|l l1 l2 _ IH1 _ IH2]; cbn; [done|destruct (P x); by rewrite ?IH|destruct (P x), (P y); try done; constructor|by rewrite IH1]. Qed.

Lemma loaded_image big F arena l x : elf_ok big F arena -> l ≡ₚ segments big F -> apart big F -> memory (concat (map (seg_stores F) l)) x = image big F x.
Proof.
  intros [E1 _ _ _ _ E6] Hp Hap. specialize (Hap x). pose proof (filter_perm (in_segment x) _ _ Hp) as Hf.
  assert (Htab : Forall phdr_ok (segments big F)).
  { apply Forall_forall. intros ph Hin. apply list_elem_of_In, List.filter_In in Hin as [Hin _]. apply list_elem_of_In in Hin. revert Hin. apply Forall_forall. by apply phtab_of_ok, Forall_take, Forall_drop. }
  rewrite <- Hp in Htab, E6. rewrite (segs_memory F arena l x Htab E6) by (by rewrite Hf). unfold image.
  destruct (List.filter (in_segment x) (segments big F)) as [|ph [|]] eqn:E; [by apply Permutation_nil_r in Hf as ->| |cbn in Hap; lia]. by apply Permutation_singleton_r in Hf as ->.
Qed.

(** C17 A program is loaded as its headers say: from any file system that reads its files, an
    ELF file with a good header, whose segments are in the file and in areas that may be
    loaded, is loaded in the order of the offsets, and where its segments do not meet memory is
    the image of the program, each byte that of the file or zero, with nothing stored outside. *)
Theorem elf_loads {W} {FA : FatApi W} (d : fileio_dispatch W) {FL : FileLaws d} big arena table filters w w1 w2 la p c0 c f F :
  Z.land (la_flags la) LOADFLG_COMPRESSED = 0 ->
  fs_init table w (la_filesys la) (la_device la) = Some (0, Some (Ctx p d c0), w1) ->
  fs_open w1 (Ctx p d c0) (la_filename la) FILE_MODE_READ = Some (0, inl (Opened p d c f), w2) ->
  file_at w2 c f F 0 -> elf_ok big F arena ->
  exists l st w', cfe_elfload big arena table filters w la = Some (0, e_entry (header big F), st, w') /\
    l ≡ₚ segments big F /\ StronglySorted (fun a b => p_offset a <= p_offset b) l /\ st = concat (map (seg_stores F) l) /\
    (apart big F -> forall x, memory st x = image big F x).
Proof.
  intros Hz Hi Ho Hf Hok. unfold cfe_elfload. rewrite Hi, Hz. cbn [option_bind truthy Z.eqb negb]. rewrite Ho. cbn [option_bind].
  destruct (elfload_ok d arena big p w2 c f F Hf Hok) as (l & c' & f' & w' & pos' & -> & _ & Hp & Hs). cbn [option_bind]. destruct (fs_close w' _) as [ctx w3].
  exists l. eexists _, _. split; [reflexivity|]. split; [done|]. split; [done|]. split; [done|]. intros Hap x. by apply (loaded_image big F arena).
Qed.

(** * Any file *)

(** A file system that gives some answer to every reading and seeking, and never more bytes
    than were asked for. *)
Class FileSane {W : Type} `{FatApi W} (d : fileio_dispatch W) := {
  sane : W -> fs_ctx d -> fs_file d -> Prop;
  sane_read w c f len : sane w c f -> - 2 ^ 31 <= len < 2 ^ 31 -> exists res s f' c' w', d_read d w c f len = Some (res, s, f', c', w') /\ sane w' c' f' /\
    Z.of_nat (length s) <= wrap32 len /\ Forall byte_ok s /\ - 2 ^ 31 <= res < 2 ^ 31 /\ (0 <= res -> Z.of_nat (length s) = res);
  sane_seek w c f off : sane w c f -> exists res f' c' w', d_seek d w c f off FILE_SEEK_BEGINNING = Some (res, f', c', w') /\ sane w' c' f';
  sane_malloc w c f n : sane w c f -> sane (snd (KMALLOC w n)) c f;
  sane_free w c f p : sane w c f -> sane (KFREE w p) c f
}.

Definition store_safe (arena : arena_t) (s : store) : Prop :=
  Z.of_nat (length (st_bytes s)) <= st_size s /\ 0 <= st_addr s /\ cfe_arena_loadcheck arena (st_addr s) (st_size s) = true.

Section any.
Context {W : Type} {FA : FatApi W} (d : fileio_dispatch W) {FS : FileSane d} (arena : arena_t) (big : bool) (p : Z).

Lemma any_read w c f len : sane w c f -> - 2 ^ 31 <= len < 2 ^ 31 -> exists res s c' f' w', fs_read w (Opened p d c f) len = Some (res, s, Opened p d c' f', w') /\ sane w' c' f' /\
  Z.of_nat (length s) <= wrap32 len /\ Forall byte_ok s /\ - 2 ^ 31 <= res < 2 ^ 31 /\ (0 <= res -> Z.of_nat (length s) = res).
Proof. intros H Hlen. destruct (sane_read w c f len H Hlen) as (res & s & f' & c' & w' & E & R). exists res, s, c', f', w'. split; [|done]. unfold fs_read. cbn [o_ops o_fsctx o_ref o_addr]. by rewrite E. Qed.

Lemma any_seek w c f off : sane w c f -> exists res c' f' w', fs_seek w (Opened p d c f) off FILE_SEEK_BEGINNING = Some (res, Opened p d c' f', w') /\ sane w' c' f'.
Proof. intros H. destruct (sane_seek w c f off H) as (res & f' & c' & w' & E & R). exists res, c', f', w'. split; [|done]. unfold fs_seek. cbn [o_ops o_fsctx o_ref o_addr]. by rewrite E. Qed.

Lemma sane_free_opt w c f q : sane w c f -> sane (free_opt w q) c f.
Proof. destruct q; [apply sane_free|done]. Qed.

Lemma load_segment_safe w c f ph st : sane w c f -> phdr_ok ph -> Forall (store_safe arena) st ->
  exists r st' c' f' w', load_segment arena w (Opened p d c f) ph st = Some (r, st', Opened p d c' f', w') /\ sane w' c' f' /\ Forall (store_safe arena) st'.
Proof.
  intros H [O1 O2 O3 O4] Hst. unfold load_segment.
  assert (Hbss : forall w c f st, sane w c f -> Forall (store_safe arena) st -> exists r st' c' f' w', (if p_filesz ph <? p_memsz ph then
      let '(res, st) := readclearbss arena (wrap32 (p_vaddr ph + p_filesz ph)) (sint32 (p_memsz ph - p_filesz ph)) st in Some (if res <? 0 then Some res else None, st, Opened p d c f, w)
      else Some (None, st, Opened p d c f, w)) = Some (r, st', Opened p d c' f', w') /\ sane w' c' f' /\ Forall (store_safe arena) st').
  { intros w1 c1 f1 st1 H1 Hst1. destruct (p_filesz ph <? p_memsz ph); [|by eexists _, _, c1, f1, w1]. unfold readclearbss. set (a := wrap32 (p_vaddr ph + p_filesz ph)). set (n := sint32 (p_memsz ph - p_filesz ph)).
    destruct (cfe_arena_loadcheck arena a (wrap32 n)) eqn:E; cbn [negb]; eexists _, _, c1, f1, w1; (split; [reflexivity|]); (split; [done|]); [|done].
    destruct (Z.ltb_spec 0 n); [|done]. apply Forall_app. split; [done|]. constructor; [|done]. split; [|split; [apply wrap32_range|done]]. cbn.
    assert (Hn : n < 2 ^ 31) by (unfold n, sint32; pose proof (wrap32_range (p_memsz ph - p_filesz ph)); case_match; lia). rewrite length_replicate, wrap32_small; lia. }
  destruct (truthy (p_filesz ph)); cbn [option_bind]; [|by apply Hbss].
  destruct (any_seek w c f (sint32 (p_offset ph)) H) as (r1 & c1 & f1 & w1 & -> & H1). cbn [option_bind]. destruct (wrap32 r1 =? p_offset ph); cbn [negb option_bind]; [|by eexists _, _, c1, f1, w1].
  unfold readprogsegment. destruct (cfe_arena_loadcheck arena (p_vaddr ph) (wrap32 (sint32 (p_filesz ph)))) eqn:E; cbn [negb option_bind].
  - destruct (any_read w1 c1 f1 (sint32 (p_filesz ph)) H1 (sint32_range _)) as (r2 & s & c2 & f2 & w2 & -> & H2 & Hl & Hb & _). cbn [option_bind].
    assert (Hst2 : Forall (store_safe arena) (st ++ [Store (p_vaddr ph) (wrap32 (sint32 (p_filesz ph))) s])).
    { apply Forall_app. split; [done|]. constructor; [|done]. split; [done|]. cbn. split; [lia|done]. }
    match goal with |- context [negb ?b] => destruct b end; cbn [negb]; [by apply Hbss|by eexists _, _, c2, f2, w2].
  - match goal with |- context [negb ?b] => destruct b end; cbn [negb]; [by apply Hbss|by eexists _, _, c1, f1, w1].
Qed.

Lemma elf_loop_safe n : forall w c f tab st, sane w c f -> Forall phdr_ok tab -> (length (List.filter is_load tab) <= n)%nat -> Forall (store_safe arena) st ->
  exists r st' c' f' w', load_loop arena n w (Opened p d c f) tab st = Some (r, st', Opened p d c' f', w') /\ sane w' c' f' /\ Forall (store_safe arena) st'.
Proof.
  induction n as [|n IH]; intros w c f tab st H Hok Hn Hst; cbn [load_loop]; destruct (nearest 0 tab 0xFFFFFFFF None) as [i|] eqn:En; try (by eexists _, _, c, f, w);
    apply nearest_load in En as (ph & Hi & Hl & _); pose proof (filter_length_insert tab i ph Hi Hl) as Hx; [lia|].
  rewrite Hi. cbn [option_bind]. assert (Hph : phdr_ok ph) by (by eapply Forall_lookup_1). destruct (load_segment_safe w c f ph st H Hph Hst) as (r & st1 & c1 & f1 & w1 & -> & H1 & Hst1). cbn [option_bind].
  destruct r; [by eexists _, _, c1, f1, w1|]. apply IH; [done| |lia|done]. apply Forall_insert; [done|destruct Hph; by split].
Qed.

Lemma elfgetshdr_safe w c f ep : 0 <= e_shnum ep < 2 ^ 16 -> sane w c f -> exists r c' f' w', elfgetshdr w (Opened p d c f) ep = Some (r, Opened p d c' f', w') /\ sane w' c' f'.
Proof.
  intros Hn H. unfold elfgetshdr, sizeof_Shdr. pose proof (sane_malloc w c f (e_shnum ep * 40) H) as Hm. destruct (KMALLOC w (e_shnum ep * 40)) as [[s|] w1]; cbn [snd] in Hm; [|by eexists _, c, f, w1].
  destruct (any_seek w1 c f (sint32 (e_shoff ep)) Hm) as (r1 & c1 & f1 & w2 & -> & H1). cbn [option_bind]. destruct (wrap32 r1 =? e_shoff ep); cbn [negb]; [|eexists _, c1, f1, _; split; [reflexivity|by apply sane_free]].
  destruct (any_read w2 c1 f1 (e_shnum ep * 40) H1) as (r2 & x & c2 & f2 & w3 & -> & H2 & Hl & _); [lia|]. cbn [option_bind]. rewrite wrap32_small in Hl by lia. rewrite (proj2 (Nat.leb_le _ _)) by lia.
  destruct (wrap32 r2 =? e_shnum ep * 40); cbn [negb]; eexists _, c2, f2, _; (split; [reflexivity|]); [done|by apply sane_free].
Qed.

Lemma elfload_safe w c f : sane w c f ->
  exists r e st c' f' w', elfload_internal big arena w (Opened p d c f) = Some (r, e, st, Opened p d c' f', w') /\ Forall (store_safe arena) st.
Proof.
  intros H. unfold elfload_internal, sizeof_Ehdr, sizeof_Phdr. destruct (any_read w c f 52 H) as (r1 & s & c1 & f1 & w1 & -> & H1 & Hl & Hb & _ & Hr); [lia|]. cbn [option_bind].
  rewrite wrap32_small in Hl by lia. rewrite (proj2 (Nat.leb_le _ _)) by lia. destruct (Z.eqb_spec r1 52) as [->|]; cbn [negb]; [|by eexists _, _, _, c1, f1, w1].
  rewrite (proj2 (Nat.eqb_eq _ _)) by lia. set (ep := ehdr_of big s). assert (Hn : 0 <= e_phnum ep < 2 ^ 16) by apply (field_range big 2 s 44 Hb). assert (Hsn : 0 <= e_shnum ep < 2 ^ 16) by apply (field_range big 2 s 48 Hb).
  destruct (Z.eqb_spec (check_ehdr big ep) 0) as [Hc|]; cbn [negb]; [|by eexists _, _, _, c1, f1, w1]. pose proof (check_ehdr_table big ep Hc) as Hnz.
  pose proof (sane_malloc w1 c1 f1 (e_phnum ep * 32) H1) as Hm. destruct (KMALLOC w1 (e_phnum ep * 32)) as [[t|] w2]; cbn [snd] in Hm; [|by eexists _, _, _, c1, f1, w2].
  destruct (any_seek w2 c1 f1 (sint32 (e_phoff ep)) Hm) as (r2 & c3 & f3 & w3 & -> & H3). cbn [option_bind]. destruct (wrap32 r2 =? e_phoff ep); cbn [negb]; [|by eexists _, _, _, c3, f3, _].
  destruct (any_read w3 c3 f3 (e_phnum ep * 32) H3) as (r4 & x & c4 & f4 & w4 & -> & H4 & Hl4 & Hb4 & Hi4 & Hr4); [lia|]. cbn [option_bind]. rewrite wrap32_small in Hl4 by lia. rewrite (proj2 (Nat.leb_le _ _)) by lia.
  destruct (Z.eqb_spec (wrap32 r4) (e_phnum ep * 32)) as [He|]; cbn [negb]; [|by eexists _, _, _, c4, f4, _].
  assert (Hr4' : r4 = e_phnum ep * 32) by (unfold wrap32 in He; destruct (Z.le_gt_cases 0 r4); [rewrite Z.mod_small in He by lia; done|rewrite <- (Z.mod_add r4 1), Z.mod_small in He by lia; lia]).
  rewrite (proj2 (Nat.eqb_eq _ _)) by lia. assert (Hhead : exists ph, head (phtab_of big (Z.to_nat (e_phnum ep)) x) = Some ph) by (apply phtab_head; lia). destruct Hhead as [ph0 ->]. cbn [option_bind].
  assert (Hsh : exists sh c5 f5 w5, (if e_shoff ep <? p_offset ph0 then elfgetshdr w4 (Opened p d c4 f4) ep else Some (None, Opened p d c4 f4, w4)) = Some (sh, Opened p d c5 f5, w5) /\ sane w5 c5 f5).
  { destruct (_ <? _); [by apply elfgetshdr_safe|by eexists None, c4, f4, w4]. }
  destruct Hsh as (sh & c5 & f5 & w5 & -> & H5). cbn [option_bind].
  destruct (elf_loop_safe (length (phtab_of big (Z.to_nat (e_phnum ep)) x)) w5 c5 f5 (phtab_of big (Z.to_nat (e_phnum ep)) x) [] H5) as (r & st & c6 & f6 & w6 & -> & _ & Hst); [by apply phtab_of_ok|apply filter_length_le|done|]. cbn [option_bind].
  destruct r; by eexists _, _, st, c6, f6, _.
Qed.
End any.

(** C6 No ELF file can make the loader store in the firmware, unless an area it names runs over
    the end of the address space: whatever the file system gives, the loader comes to an end,
    every area it stores in was checked and is the boot area or installed memory clear of the
    firmware and the boot ROM, and no store is longer than the area that was checked for it. *)
Theorem elf_load_safe {W} {FA : FatApi W} (d : fileio_dispatch W) {FS : FileSane d} big room tot bot top w p c f :
  (9 <= room)%nat -> 0 <= tot <= 2 ^ 22 -> memlo bot < memhi top -> sane w c f ->
  exists room' arena, cfe_arena_init room tot bot top = Some (room', arena) /\
    exists r e st o w', elfload_internal big arena w (Opened p d c f) = Some (r, e, st, o, w') /\
      Forall (fun s => Z.of_nat (length (st_bytes s)) <= st_size s /\
        (st_size s = 0 \/ 2 ^ 32 <= st_addr s + st_size s \/ loadable tot bot top (st_addr s) (st_size s))) st.
Proof.
  intros Hr Ht Hlt H. destruct (firmware_map room tot bot top Hr Ht Hlt) as (room' & arena & Ha & _ & _ & _ & Hc). exists room', arena. split; [done|].
  destruct (elfload_safe d arena big p w c f H) as (r & e & st & c' & f' & w' & E & Hst). exists r, e, st. eexists _, w'. split; [exact E|].
  eapply Forall_impl; [exact Hst|]. intros s (H1 & H2 & H3). split; [done|]. destruct (Z.eq_dec (st_size s) 0); [by left|]. right. destruct (Z.le_gt_cases (2 ^ 32) (st_addr s + st_size s)); [by left|]. right.
  apply Hc; [done|lia|lia|done].
Qed.

(** A device that reads no more than it is asked for makes the raw file system answer. *)
Class DiskSane (W : Type) `{FatApi W} := {
  dsane : W -> Prop;
  dsane_read w fh off len : dsane w -> - 2 ^ 31 <= len < 2 ^ 31 -> exists res s w', cfe_readblk w fh off len = (res, s, w') /\ dsane w' /\
    Z.of_nat (length s) <= wrap32 len /\ Forall byte_ok s /\ - 2 ^ 31 <= res < 2 ^ 31 /\ (0 <= res -> Z.of_nat (length s) = res);
  dsane_malloc w n : dsane w -> dsane (snd (KMALLOC w n));
  dsane_free w p : dsane w -> dsane (KFREE w p)
}.

(** A whole device: with a length in its name the raw file system may ask for more bytes than
    it was asked for. *)
#[export] Instance raw_sane {W} {FA : FatApi W} {DS : DiskSane W} console : FileSane (raw_fileops console).
Proof.
  refine {| sane w (c : fs_ctx (raw_fileops console)) (f : fs_file (raw_fileops console)) := dsane w /\ raw_length f = -1 |}.
  - intros w c f len [Hw Hl] Hlen. cbn [d_read raw_fileops]. unfold raw_fileop_read. rewrite Hl. cbn [Z.leb Z.compare andb]. destruct (Z.eqb_spec len 0) as [->|].
    + exists 0, [], f, c, w. split; [done|]. split; [done|]. split; [done|]. split; [done|]. done.
    + destruct (dsane_read w (raw_dev c) (sint32 (raw_baseoffset f + raw_fileoffset f) mod 2 ^ 64) len Hw Hlen) as (res & s & w' & -> & Hw' & R). eexists res, s, _, c, w'. split; [reflexivity|]. split; [|done]. split; [done|]. by destruct (0 <? res).
  - intros w c f off [Hw Hl]. cbn [d_seek raw_fileops]. destruct (raw_fileop_seek f off FILE_SEEK_BEGINNING) as [r f'] eqn:E. exists r, f', c, w. split; [done|]. split; [done|].
    unfold raw_fileop_seek in E. injection E as _ <-. done.
  - intros w c f n [Hw Hl]. split; [by apply dsane_malloc|done].
  - intros w c f q [Hw Hl]. split; [by apply dsane_free|done].
Defined.

#[export] Instance drive_sane : DiskSane drive.
Proof.
  refine {| dsane w := Forall byte_ok (dr_img w) /\ Z.of_nat (length (dr_img w)) < 2 ^ 31 /\ dr_bad w = None |}.
  - intros w fh off len (Hb & Hl & Hn) Hlen. cbn. rewrite Hn. eexists _, _, w. split; [reflexivity|]. split; [done|].
    assert (Hlt : Z.of_nat (length (take (Z.to_nat (Z.min len (Z.of_nat (length (dr_img w))))) (drop (Z.to_nat (Z.min off (Z.of_nat (length (dr_img w))))) (dr_img w)))) <= Z.max 0 (Z.min len (Z.of_nat (length (dr_img w))))).
    { rewrite length_take. lia. }
    split; [|split; [by apply Forall_take, Forall_drop|split; [lia|done]]]. pose proof (wrap32_range len). destruct (Z.le_gt_cases 0 len); [rewrite wrap32_small by lia|]; lia.
  - done.
  - done.
Defined.

(** * Booting from a FAT volume *)

(** C16 A kernel on a FAT volume boots: when the path names a file of the volume (by short or long
    names, through directories; paths that the code looks up wrongly, those that are not
    [regular_path], are left out), and the bytes of its chain are a good ELF file, the loader finds it, reads it through the chain of
    clusters and leaves the image of the program in memory. *)
Theorem elf_boots_from_fat {W} {FA : FatApi W} {FD : FatDisk W} fuel nm part big arena table filters (w w1 : W) la q fs e F :
  let d := fat_dispatch fuel nm (fun w dev => fatfs_fileop_init w dev part) in
  Z.land (la_flags la) LOADFLG_COMPRESSED = 0 -> cfe_findfilesys table (la_filesys la) = Some d ->
  disk_ok w -> fatfs_fileop_init (snd (KMALLOC w sizeof_fileio_ctx)) (la_device la) part = Some (0, Some (q, fs), w1) ->
  volume_ok (disk w) (geo_of fs) -> lookup_file (disk w) (geo_of fs) fuel (la_filename la) = Some (Some e) -> regular_path (disk w) (geo_of fs) fuel (la_filename la) = true ->
  file_data (disk w) (geo_of fs) fuel e = Some F -> 0 <= DIRENTRY_FILELENGTH e < 2 ^ 30 -> elf_ok big F arena ->
  exists st w', cfe_elfload big arena table filters w la = Some (0, e_entry (header big F), st, w') /\ (apart big F -> forall x, memory st x = image big F x).
Proof.
  intros d Hz Hfind Hw Hinit Hvol Hl Hreg HF Hlen Hok. destruct (disk_malloc w sizeof_fileio_ctx Hw) as (p & w0 & Em & Hw0 & Hi0); [done|]. rewrite Em in Hinit. cbn [snd] in Hinit.
  assert (Hi : fs_init table w (la_filesys la) (la_device la) = Some (0, Some (Ctx p d (q, fs)), w1)).
  { unfold fs_init. rewrite Hfind, Em. unfold d at 1. cbn [d_init fat_dispatch]. by rewrite Hinit. }
  assert (Hvol0 : volume_ok (disk w0) (geo_of fs)) by by rewrite Hi0. pose proof (fatfs_init_ok w0 w1 (la_device la) part q fs Hw0 Hinit Hvol0) as Hst. rewrite Hi0 in Hst.
  destruct (fat_open_ok (disk w) (geo_of fs) Hvol fuel w1 fs (la_filename la) e F Hst Hl Hreg HF) as (r & ff & f2 & w2 & Eo & Hst2 & Hff); [lia|].
  assert (Ho : fs_open w1 (Ctx p d (q, fs)) (la_filename la) FILE_MODE_READ = Some (0, inl (Opened p d (q, f2) (r, ff)), w2)).
  { unfold fs_open, d. cbn [c_ops c_fsctx c_addr d_open fat_dispatch]. by rewrite Eo. }
  assert (Hat : fat_at w2 (q, f2) (r, ff) F 0).
  { exists (disk w), (geo_of fs). split; [done|]. split; [done|]. split; [done|]. pose proof (file_data_length _ _ _ _ _ HF). lia. }
  unfold cfe_elfload. rewrite Hi, Hz. cbn [option_bind truthy Z.eqb negb]. rewrite Ho. cbn [option_bind].
  destruct (@elfload_ok W FA d (fat_laws fuel nm _) arena big p w2 (q, f2) (r, ff) F Hat Hok) as (l & c' & f' & w' & pos' & -> & _ & Hp & Hs). cbn [option_bind]. destruct (fs_close w' _) as [ctx w3].
  eexists _, _. split; [reflexivity|]. intros Hap x. by apply (loaded_image big F arena).
Qed.

(** * A program, to run the definitions on *)

Fixpoint le_bytes (n : nat) (z : Z) : bytes := match n with O => [] | S n => z mod 256 :: le_bytes n (z / 256) end.

Definition elf_file (entry shoff shnum : Z) (phs : list (Z * Z * Z * Z * Z)) (rest : bytes) : bytes :=
  ELFMAG ++ [ELFCLASS32; ELFDATA2LSB; EV_CURRENT] ++ replicate 9 0 ++ le_bytes 2 2 ++ le_bytes 2 EM_MIPS ++ le_bytes 4 1 ++ le_bytes 4 entry ++ le_bytes 4 52 ++ le_bytes 4 shoff ++ le_bytes 4 0
  ++ le_bytes 2 52 ++ le_bytes 2 32 ++ le_bytes 2 (Z.of_nat (length phs)) ++ le_bytes 2 40 ++ le_bytes 2 shnum ++ le_bytes 2 0
  ++ concat (map (fun '(type, offset, vaddr, filesz, memsz) => le_bytes 4 type ++ le_bytes 4 offset ++ le_bytes 4 vaddr ++ le_bytes 4 vaddr ++ le_bytes 4 filesz ++ le_bytes 4 memsz ++ le_bytes 4 7 ++ le_bytes 4 4096) phs)
  ++ rest.

(** Two segments, the later one of the file first, with a note between; a section header in
    front of them. *)
Definition an_elf : bytes :=
  elf_file 0x80001000 148 1 [(PT_LOAD, 192, 0x80002000, 4, 8); (4, 0, 0, 0, 0); (PT_LOAD, 188, 0x80001000, 4, 4)] (replicate 40 9 ++ [1; 2; 3; 4] ++ [5; 6; 7; 8]).

(** Sixteen megabytes with the firmware at seven. *)
Definition an_arena : arena_t := match cfe_arena_init 9 (16 * 1024) 0x80700000 0x80800000 with Some (_, a) => a | None => Arena [] 0 0 end.

Definition fat_drive : drive := Drive (a_volume 1 a_label an_elf) None 0x1000 [].
Definition raw_drive (s : bytes) : drive := Drive s None 0x1000 [].
Definition a_table : list (fileio_dispatch drive) := [raw_fileops None; fatfs_fileops 20; pfatfs_fileops 20].
Definition from_fat : cfe_loadargs := LoadArgs (47 :: read_me_txt) [114; 102; 97; 116] [102] 0.
Definition from_raw : cfe_loadargs := LoadArgs [] [114; 97; 119] [102] 0.

(** The result, the entry point, the stores, and what stays allocated. *)
Definition boot (w : drive) (la : cfe_loadargs) : option (Z * Z * list store * list Z) :=
  let? (r, e, st, w) := cfe_elfload false an_arena a_table [] w la in Some (r, e, st, dr_live w).

Lemma bytes_check s : forallb (fun x => (0 <=? x) && (x <? 256)) s = true -> Forall byte_ok s.
Proof. intros H. apply Forall_forall. intros x Hx. rewrite forallb_forall in H. apply list_elem_of_In in Hx. specialize (H x Hx). by bool_simpl. Qed.

Lemma an_elf_ok : elf_ok false an_elf an_arena.
Proof.
  split.
  - by apply bytes_check.
  - vm_compute. discriminate.
  - vm_compute. reflexivity.
  - vm_compute. discriminate.
  - intros ph Hh. vm_compute in Hh. injection Hh as <-. vm_compute. discriminate.
  - assert (Hs : segments false an_elf = [Phdr PT_LOAD 192 0x80002000 0x80002000 4 8 7 4096; Phdr PT_LOAD 188 0x80001000 0x80001000 4 4 7 4096]) by (vm_compute; reflexivity). rewrite Hs.
    repeat constructor; cbn; (vm_compute; done) || (intros _; vm_compute; done) || lia.
Qed.

Lemma an_elf_apart : apart false an_elf.
Proof.
  intros x. assert (Hs : segments false an_elf = [Phdr PT_LOAD 192 0x80002000 0x80002000 4 8 7 4096; Phdr PT_LOAD 188 0x80001000 0x80001000 4 4 7 4096]) by (vm_compute; reflexivity). rewrite Hs.
  cbn [List.filter]. destruct (in_segment x _) eqn:E1, (in_segment x (Phdr _ 188 _ _ _ _ _ _)) eqn:E2; cbn [length]; try lia. unfold in_segment in *. cbn [p_vaddr p_filesz p_memsz] in *. bool_simpl. lia.
Qed.

Lemma raw_an_elf : raw_at (Drive an_elf None 0x1024 [0x1014; 0x1008; 0x1000]) (RawCtx 0x1008 3 false 1) (RawFile 0x1014 0 0 (-1)) an_elf 0.
Proof. split; try (vm_compute; (reflexivity || done)). by left. Qed.

Lemma raw_init_an_elf : fs_init a_table (raw_drive an_elf) (la_filesys from_raw) (la_device from_raw) = Some (0, Some (Ctx 0x1000 (raw_fileops None) (RawCtx 0x1008 3 false 0)), Drive an_elf None 0x1014 [0x1008; 0x1000]).
Proof. unfold fs_init. change (cfe_findfilesys a_table (la_filesys from_raw)) with (Some (raw_fileops (W := drive) None)). reflexivity. Qed.

Lemma raw_open_an_elf : fs_open (Drive an_elf None 0x1014 [0x1008; 0x1000]) (Ctx 0x1000 (raw_fileops None) (RawCtx 0x1008 3 false 0)) (la_filename from_raw) FILE_MODE_READ =
  Some (0, inl (Opened 0x1000 (raw_fileops None) (RawCtx 0x1008 3 false 1) (RawFile 0x1014 0 0 (-1))), Drive an_elf None 0x1024 [0x1014; 0x1008; 0x1000]).
Proof. unfold fs_open. cbn [c_ops c_fsctx c_addr d_open raw_fileops]. reflexivity. Qed.

Lemma elf_loads_witness :
  boot (raw_drive an_elf) from_raw = Some (0, 0x80001000, [Store 0x80001000 4 [1; 2; 3; 4]; Store 0x80002000 4 [5; 6; 7; 8]; Store 0x80002004 4 [0; 0; 0; 0]], [0x1084]) /\
  exists l st w', cfe_elfload false an_arena a_table [] (raw_drive an_elf) from_raw = Some (0, e_entry (header false an_elf), st, w') /\ l ≡ₚ segments false an_elf /\
    forall x, memory st x = image false an_elf x.
Proof.
  split; [vm_compute; reflexivity|].
  destruct (elf_loads (FL := raw_laws None) (raw_fileops None) false an_arena a_table [] (raw_drive an_elf) (Drive an_elf None 0x1014 [0x1008; 0x1000]) (Drive an_elf None 0x1024 [0x1014; 0x1008; 0x1000]) from_raw
    0x1000 (RawCtx 0x1008 3 false 0) (RawCtx 0x1008 3 false 1) (RawFile 0x1014 0 0 (-1)) an_elf eq_refl raw_init_an_elf raw_open_an_elf raw_an_elf an_elf_ok) as (l & st & w' & H1 & H2 & _ & _ & H3).
  exists l, st, w'. split; [exact H1|]. split; [exact H2|]. apply H3. exact an_elf_apart.
Defined.

Definition fat_mounted : option (Z * fatfs_t * drive) := let? (_, pf, w) := fatfs_fileop_init (snd (KMALLOC fat_drive sizeof_fileio_ctx)) [102] 0 in let? (p, f) := pf in Some (p, f, w).
Definition fat_fs : fatfs_t := match fat_mounted with Some (_, f, _) => f | None => zero_fatfs 0 end.
Definition fat_w : drive := match fat_mounted with Some (_, _, w) => w | None => fat_drive end.

Lemma fat_mount : fatfs_fileop_init (snd (KMALLOC fat_drive sizeof_fileio_ctx)) [102] 0 = Some (0, Some (0x1008, fat_fs), fat_w).
Proof. vm_compute. reflexivity. Qed.

Lemma fat_drive_ok : disk_ok fat_drive /\ volume_ok (disk fat_drive) (geo_of fat_fs).
Proof. split; [reflexivity|]. split; try (by vm_compute). by apply bytes_check. Qed.

Lemma fat_found : cfe_findfilesys a_table (la_filesys from_fat) = Some (fat_dispatch 20 [114; 102; 97; 116] (fun w dev => fatfs_fileop_init w dev 0)).
Proof. reflexivity. Qed.

Lemma elf_boots_from_fat_witness :
  (let? (r, e, st, _) := boot fat_drive from_fat in Some (r, e, map st_addr st)) = Some (0, 0x80001000, [0x80001000; 0x80002000; 0x80002004]) /\
  exists st w', cfe_elfload false an_arena a_table [] fat_drive from_fat = Some (0, e_entry (header false an_elf), st, w') /\ forall x, memory st x = image false an_elf x.
Proof.
  split; [vm_compute; reflexivity|]. assert (Hl : lookup_file (disk fat_drive) (geo_of fat_fs) 20 (la_filename from_fat) = Some (Some (an_entry readme 0x20 2 196))) by (vm_compute; reflexivity).
  assert (HF : file_data (disk fat_drive) (geo_of fat_fs) 20 (an_entry readme 0x20 2 196) = Some an_elf) by (vm_compute; reflexivity). assert (Hlen : 0 <= DIRENTRY_FILELENGTH (an_entry readme 0x20 2 196) < 2 ^ 30) by (vm_compute; split; [discriminate|reflexivity]).
  destruct (elf_boots_from_fat 20 [114; 102; 97; 116] 0 false an_arena a_table [] fat_drive fat_w from_fat 0x1008 fat_fs (an_entry readme 0x20 2 196) an_elf) as (st & w' & H1 & H2).
  - reflexivity.
  - exact fat_found.
  - exact (proj1 fat_drive_ok).
  - exact fat_mount.
  - exact (proj2 fat_drive_ok).
  - exact Hl.
  - vm_compute. reflexivity.
  - exact HF.
  - exact Hlen.
  - exact an_elf_ok.
  - exists st, w'. split; [exact H1|]. apply H2. exact an_elf_apart.
Defined.

(** * What the code does at its edges *)

(** A segment whose size runs over the end of the address space passes the check at the address
    of the firmware: what the file still has is stored there, and then the file is refused. *)
Definition over_firmware : bytes := elf_file 0x80700000 0xFFFFFFFF 0 [(PT_LOAD, 84, 0x80700000, 0x7F900000, 0)] [65; 65; 65; 65].

Example elf_overwrites_firmware :
  cfe_arena_loadcheck an_arena 0x80700000 4 = false /\
  boot (raw_drive over_firmware) from_raw = Some (CFE_ERR_BADELFFMT, 0, [Store 0x80700000 0x7F900000 [65; 65; 65; 65]], []).
Proof. split; vm_compute; reflexivity. Qed.

(** The error code of a refused segment is compared with its size: a segment of that size
    counts as loaded, and the program is started without it. *)
Example elf_error_is_size : boot (raw_drive (elf_file 0x80000000 0xFFFFFFFF 0 [(PT_LOAD, 84, 0x80000000, 0xFFFFFFEF, 0)] [])) from_raw = Some (0, 0x80000000, [], []).
Proof. vm_compute. reflexivity. Qed.

(** The section headers, which nothing reads, stay allocated after a program was loaded. *)
Example elf_shtab_leaks :
  option_map snd (boot (raw_drive an_elf) from_raw) = Some [0x1084] /\
  option_map snd (boot (raw_drive (elf_file 0x80001000 148 1 [(PT_LOAD, 84, 0x80001000, 4, 4)] [1; 2; 3; 4])) from_raw) = Some [].
Proof. split; vm_compute; reflexivity. Qed.

Lemma elf_load_safe_witness :
  exists room' arena, cfe_arena_init 9 (16 * 1024) 0x80700000 0x80800000 = Some (room', arena) /\
    exists r e st o w', elfload_internal false arena (Drive over_firmware None 0x1024 []) (Opened 0x1000 (raw_fileops None) (RawCtx 0x1008 3 false 1) (RawFile 0x1014 0 0 (-1))) = Some (r, e, st, o, w') /\
      Forall (fun s => Z.of_nat (length (st_bytes s)) <= st_size s /\
        (st_size s = 0 \/ 2 ^ 32 <= st_addr s + st_size s \/ loadable (16 * 1024) 0x80700000 0x80800000 (st_addr s) (st_size s))) st.
Proof.
  apply (elf_load_safe (raw_fileops None)); [lia|lia|vm_compute; reflexivity|]. split; [|reflexivity]. split; [by apply bytes_check|]. split; [by vm_compute|reflexivity].
Defined.
