(* ===== verification/Raw.v ===== *)
(** The boot loader's raw loader: cfe/cfe/main/cfe_ldr_raw.c, with the boot block of
    include/cfe_bootblock.h.

    A program without a format is copied to the boot area: from a disk or a flash device the
    part that a boot block with a checksum names, otherwise all that there is. *)

From Stdlib Require Import ZArith Lia Bool List String Ascii Sorted.
From stdpp Require Import base numbers list.
From S2P Require Import Prelude Arena Fat FatFile Filesys Elf ElfLoad.

#[local] Open Scope Z_scope.

Definition BOOT_BLOCK_MAXLOC : nat := 16.
Definition BOOT_BLOCK_SIZE := 40.
Definition BOOT_MAGIC_NUMBER := 0x43465631424f4f54.
Definition BOOT_HDR_CHECKSUM_MASK := 0x00000000FFFFFFFF.
Definition BOOT_SECSIZE_MASK := 0x00000000FFFFFFFF.
Definition BOOT_DATA_CHECKSUM_MASK := 0xFFFFFFFF00000000.
Definition BOOT_DATA_CHECKSUM_SHIFT := 32.
Definition sizeof_boot_block := 512.
Definition CFE_ERR_INVBOOTBLOCK := -31.
Definition CFE_ERR_BBCHECKSUM := -33.
Definition CFE_ERR_BOOTPROGCHKSUM := -34.
Definition CFE_DEV_MASK := 0x0F.
Definition CFE_DEV_DISK := 2.
Definition CFE_DEV_FLASH := 3.

Section rawload.
Context (big : bool).

(** The 64-bit words of a boot block. *)
Definition bb_data (b : bytes) (i : nat) : Z := field big 8 b (8 * i).
Definition bb_magic (b : bytes) : Z := bb_data b 59.
Definition bb_hdrinfo (b : bytes) : Z := bb_data b 60.
Definition bb_secstart (b : bytes) : Z := bb_data b 61.
Definition bb_secsize (b : bytes) : Z := bb_data b 62.

(** bb_hdrinfo &= ~BOOT_HDR_CHECKSUM_MASK. *)
Definition clear_checksum (b : bytes) : bytes := splice b (if big then 484 else 480) (replicate 4 0).

(** The sum of the [words] 32-bit words of [data]. *)
Definition sum_words (data : bytes) (words : nat) : Z := fold_left (fun sum i => wrap32 (sum + field big 4 data (4 * i))) (seq 0 words) 0.
Definition CHECKSUM_BOOT_DATA (data : bytes) (len : Z) : Z := sum_words data (Z.to_nat (wrap32 len / 4)).

Section load.
Context {W : Type} `{FatApi W} (cfe_getdevinfo : W -> bytes -> Z) (before : Z -> Z).

(** The blocks that are left, the last one read, and its checksums; the second is not set
    before a block with the magic number was read.  [inl] is an error returned at once. *)
Fixpoint bb_loop (n : nat) (w : W) (o : opened W) (block : bytes) (checksum : Z) (calcsum : option Z) : option ((Z + bytes * Z * option Z) * opened W * W) :=
  match n with
  | O => Some (inr (block, checksum, calcsum), o, w)
  | S n =>
      let? (res, s, o, w) := fs_read w o sizeof_boot_block in
      assert! (length s <=? 512)%nat in
      if negb (res =? sizeof_boot_block) then Some (inl CFE_ERR_IOERR, o, w)
      else
        assert! (length s =? 512)%nat in
        if negb (bb_magic s =? BOOT_MAGIC_NUMBER) then bb_loop n w o s checksum calcsum
        else
          let checksum := Z.land (bb_hdrinfo s) BOOT_HDR_CHECKSUM_MASK in
          let s := clear_checksum s in
          let calcsum := CHECKSUM_BOOT_DATA (drop 472 s) BOOT_BLOCK_SIZE in
          if checksum =? calcsum then Some (inr (s, checksum, Some calcsum), o, w)
          else bb_loop n w o s checksum (Some calcsum)
  end.

(** The result, and the boot block. *)
Definition cfe_findbootblock (w : W) (o : opened W) : option (Z * bytes * opened W * W) :=
  let? (_, o, w) := fs_seek w o 0 FILE_SEEK_BEGINNING in
  let? (r, o, w) := bb_loop BOOT_BLOCK_MAXLOC w o [] 0 None in
  match r with
  | inl res => Some (res, [], o, w)
  | inr (block, checksum, calcsum) =>
      if negb (bb_magic block =? BOOT_MAGIC_NUMBER) then Some (CFE_ERR_INVBOOTBLOCK, block, o, w)
      else
        let? calcsum := calcsum in
        Some (if negb (checksum =? calcsum) then CFE_ERR_BBCHECKSUM else 0, block, o, w)
  end.

(** The reads of the program: the last result, the bytes copied and the stores. *)
Fixpoint copy_loop (fuel : nat) (w : W) (o : opened W) (ptr amtcopy onedot ttlcopy res : Z) (st : list store) : option (Z * Z * list store * opened W * W) :=
  if amtcopy <=? 0 then Some (res, ttlcopy, st, o, w)
  else
    match fuel with
    | O => None
    | S fuel =>
        let thisamt := if amtcopy <? onedot then amtcopy else onedot in
        let? (res, s, o, w) := fs_read w o thisamt in
        let st := st ++ [Store ptr thisamt s] in
        if res <=? 0 then Some (res, ttlcopy, st, o, w)
        else copy_loop fuel w o (wrap32 (ptr + res)) (amtcopy - res) onedot (ttlcopy + res) res st
    end.

(** The part that is read between two dots. *)
Definition dot_size (amtcopy : Z) : Z :=
  let onedot := Z.quot amtcopy 10 in
  let onedot := if onedot <? 4096 then 4096 else onedot in
  Z.ldiff (onedot + 1) 4095.

(** What is in memory after the stores, [before] them elsewhere. *)
Definition loaded (st : list store) (a : Z) (n : nat) : bytes :=
  map (fun i => match memory st (a + Z.of_nat i) with Some b => b | None => before (a + Z.of_nat i) end) (seq 0 n).

(** [la_device] is [None] for a null pointer; the size is an int. *)
Record cfe_rawargs := RawArgs { ra_filename : bytes; ra_filesys : bytes; ra_device : bytes; ra_hasdevice : bool; ra_flags : Z; ra_address : Z; ra_maxsize : Z }.

(** Where to, how much, and whether there is to be a boot block. *)
Definition load_area (w : W) (la : cfe_rawargs) : Z * Z * bool :=
  if truthy (Z.land (ra_flags la) LOADFLG_SPECADDR) then (ra_address la, sint32 (ra_maxsize la), false)
  else
    let devinfo := if ra_hasdevice la then cfe_getdevinfo w (ra_device la) else 0 in
    (BOOT_START_ADDRESS, BOOT_AREA_SIZE, (0 <=? devinfo) && ((Z.land devinfo CFE_DEV_MASK =? CFE_DEV_DISK) || (Z.land devinfo CFE_DEV_MASK =? CFE_DEV_FLASH))).

(** The result, the entry point where it is set, and the stores. *)
Definition cfe_rawload (table : list (fileio_dispatch W)) (filters : list (bytes * (W -> fileio_ctx_t W -> option (Z * fileio_ctx_t W * W)))) (w : W) (la : cfe_rawargs) :
  option (Z * option Z * list store * W) :=
  let '(bootcode, maxsize, findbb) := load_area w la in
  match cfe_findfilesys table (ra_filesys la) with
  | None => Some (CFE_ERR_FSNOTAVAIL, None, [], w)
  | Some ops =>
      let loadflags := Z.lor (ra_flags la) (loadflags ops) in
      let findbb := if truthy (Z.land loadflags LOADFLG_NOBB) then false else findbb in
      let? (res, fsctx, w) := fs_init table w (ra_filesys la) (ra_device la) in
      if truthy res then Some (res, None, [], w)
      else
        let? fsctx := fsctx in
        let? (res, fsctx, w) := if negb findbb && truthy (Z.land (ra_flags la) LOADFLG_COMPRESSED) then fs_hook filters w fsctx [ch "z"%char] else Some (0, fsctx, w) in
        if truthy res then Some (res, None, [], w)
        else
          let? (res, ref, w) := fs_open w fsctx (ra_filename la) FILE_MODE_READ in
          match ref with
          | inr fsctx => Some (res, None, [], fs_uninit w fsctx)
          | inl o =>
              let? (res, block, o, w) := if findbb then cfe_findbootblock w o else Some (0, [], o, w) in
              if truthy res then let '(fsctx, w) := fs_close w o in Some (res, None, [], fs_uninit w fsctx)
              else
                let maxsize := if findbb then sint32 (Z.land (bb_secsize block) BOOT_SECSIZE_MASK) else maxsize in
                let? (_, o, w) := if findbb then fs_seek w o (sint32 (bb_secstart block)) FILE_SEEK_BEGINNING else Some (0, o, w) in
                let? (res, ttlcopy, st, o, w) := copy_loop (Z.to_nat maxsize) w o bootcode maxsize (dot_size maxsize) 0 res [] in
                let '(fsctx, w) := fs_close w o in
                let w := fs_uninit w fsctx in
                if findbb && negb (Z.shiftr (Z.land (bb_secsize block) BOOT_DATA_CHECKSUM_MASK) BOOT_DATA_CHECKSUM_SHIFT =? CHECKSUM_BOOT_DATA (loaded st bootcode (Z.to_nat (wrap32 maxsize))) maxsize)
                then Some (CFE_ERR_BOOTPROGCHKSUM, None, st, w)
                else Some (if res <? 0 then res else ttlcopy, Some bootcode, st, w)
          end
  end.
End load.
End rawload.

(** * What it promises *)

Lemma splice_before (b s : bytes) p off n : (off + n <= p)%nat -> (p <= length b)%nat -> take n (drop off (splice b p s)) = take n (drop off b).
Proof.
  intros H1 H2. unfold splice. rewrite <- (take_drop p b) at 3. rewrite !drop_app_le, !take_app_le by (rewrite ?length_drop, length_take; lia). done.
Qed.

Lemma splice_after (b s : bytes) p off n : (p + length s <= off)%nat -> (p <= length b)%nat -> take n (drop off (splice b p s)) = take n (drop off b).
Proof.
  intros H1 H2. unfold splice. rewrite app_assoc, drop_app_ge by (rewrite length_app, length_take; lia). rewrite drop_drop, length_app, length_take. do 2 f_equal. lia.
Qed.

Section blocks.
Context (big : bool) (F : bytes).

Definition block_at (k : nat) : bytes := take 512 (drop (512 * k) F).
Definition block_valid (k : nat) : bool :=
  (bb_magic big (block_at k) =? BOOT_MAGIC_NUMBER) &&
  (Z.land (bb_hdrinfo big (block_at k)) BOOT_HDR_CHECKSUM_MASK =? CHECKSUM_BOOT_DATA big (drop 472 (clear_checksum big (block_at k))) BOOT_BLOCK_SIZE).

(** The boot block is the first valid one of the first sixteen. *)
Record boot_block (k : nat) : Prop := {
  bk_range : (k < 16)%nat /\ (512 * (k + 1) <= length F)%nat;
  bk_before : forall j, (j < k)%nat -> block_valid j = false;
  bk_valid : block_valid k = true
}.

(** The program it names, and whether its checksum is right. *)
Definition boot_size (k : nat) : Z := Z.land (bb_secsize big (block_at k)) BOOT_SECSIZE_MASK.
Definition boot_start (k : nat) : Z := bb_secstart big (block_at k).
Definition boot_program (k : nat) : bytes := take (Z.to_nat (boot_size k)) (drop (Z.to_nat (boot_start k)) F).
Definition boot_sum_ok (k : nat) : bool :=
  Z.shiftr (Z.land (bb_secsize big (block_at k)) BOOT_DATA_CHECKSUM_MASK) BOOT_DATA_CHECKSUM_SHIFT =? CHECKSUM_BOOT_DATA big (boot_program k) (boot_size k).

Lemma clear_data b i : length b = 512%nat -> i <> 60%nat -> bb_data big (clear_checksum big b) i = bb_data big b i.
Proof.
  intros Hb Hi. unfold bb_data, clear_checksum, field. assert (H : take 8 (drop (8 * i) (splice b (if big then 484 else 480) (replicate 4 0))) = take 8 (drop (8 * i) b)); [|by rewrite H].
  destruct (Nat.le_gt_cases i 59); [apply splice_before|apply splice_after]; destruct big; rewrite ?length_replicate; lia.
Qed.

Lemma boot_block_length k : (512 * (k + 1) <= length F)%nat -> length (block_at k) = 512%nat.
Proof. intros H. unfold block_at. rewrite length_take, length_drop. lia. Qed.
End blocks.

Section loading.
Context {W : Type} {FA : FatApi W} (d : fileio_dispatch W) {FL : FileLaws d} (big : bool) (p : Z).

Lemma bb_loop_ok F k n : forall j w c f b (cs : Z) (cc : option Z), boot_block big F k -> file_at w c f F (512 * Z.of_nat j) -> (j <= k < j + n)%nat ->
  exists x c' f' w', bb_loop big n w (Opened p d c f) b cs cc = Some (inr (clear_checksum big (block_at F k), x, Some x), Opened p d c' f', w') /\ file_at w' c' f' F (512 * (Z.of_nat k + 1)).
Proof.
  induction n as [|n IH]; intros j w c f b cs cc Hk H Hj; [lia|]. pose proof Hk as [[K1 K2] K3 K4]. cbn [bb_loop]. unfold sizeof_boot_block.
  destruct (fs_read_at d p w c f F _ 512 H) as (c1 & f1 & w1 & -> & H1); [lia|lia|]. cbn [option_bind]. replace (Z.to_nat (512 * Z.of_nat j)) with (512 * j)%nat by lia. change (Z.to_nat 512) with 512%nat. fold (block_at F j).
  rewrite (boot_block_length F j) by lia. change (512 <=? 512)%nat with true. change (512 =? 512) with true. change (512 =? 512)%nat with true. cbn [negb].
  assert (Hval : block_valid big F j = bool_decide (j = k)) by (case_bool_decide as E; [by rewrite E|apply K3; lia]). unfold block_valid in Hval.
  assert (H1' : file_at w1 c1 f1 F (512 * Z.of_nat (S j))) by (replace (512 * Z.of_nat (S j)) with (512 * Z.of_nat j + 512) by lia; done).
  assert (Hlt : bool_decide (j = k) = false -> (S j <= k < S j + n)%nat) by (intros E; apply bool_decide_eq_false in E; lia).
  destruct (bb_magic big (block_at F j) =? BOOT_MAGIC_NUMBER) eqn:Em; cbn [negb andb] in *; [|by apply (IH (S j)); auto].
  cbv zeta. rewrite Hval. destruct (bool_decide (j = k)) eqn:Ek; [|by apply (IH (S j)); auto]. apply bool_decide_eq_true in Ek as ->. apply Z.eqb_eq in Hval. rewrite Hval.
  eexists _, c1, f1, w1. split; [reflexivity|]. by replace (512 * (Z.of_nat k + 1)) with (512 * Z.of_nat k + 512) by lia.
Qed.

Lemma findbootblock_ok F k w c f : boot_block big F k -> file_at w c f F 0 ->
  exists c' f' w', cfe_findbootblock big w (Opened p d c f) = Some (0, clear_checksum big (block_at F k), Opened p d c' f', w') /\ file_at w' c' f' F (512 * (Z.of_nat k + 1)).
Proof.
  intros Hk H. unfold cfe_findbootblock. destruct (fs_seek_at d p w c f F 0 0 H) as (c1 & f1 & w1 & E & _ & H1); [lia|]. change (sint32 0) with 0 in E. rewrite E. cbn [option_bind].
  destruct (bb_loop_ok F k BOOT_BLOCK_MAXLOC 0 w1 c1 f1 [] 0 None Hk H1) as (cs & c2 & f2 & w2 & -> & H2); [destruct Hk as [[]]; unfold BOOT_BLOCK_MAXLOC; lia|]. cbn [option_bind].
  destruct Hk as [[K1 K2] _ K4]. unfold block_valid in K4. bool_simpl. unfold bb_magic in *. rewrite clear_data by (done || by apply boot_block_length). rewrite (proj2 (Z.eqb_eq _ _)) by done. rewrite Z.eqb_refl. cbn [negb].
  by exists c2, f2, w2.
Qed.

Lemma copy_loop_ok F onedot fuel : forall w c f pos ptr amt ttl res st, file_at w c f F pos -> 0 < onedot -> 0 <= amt -> pos + amt <= Z.of_nat (length F) -> 0 <= ptr -> ptr + amt < 2 ^ 32 -> 0 <= res -> (Z.to_nat amt <= fuel)%nat ->
  exists res' st' c' f' w', copy_loop fuel w (Opened p d c f) ptr amt onedot ttl res st = Some (res', ttl + amt, st ++ st', Opened p d c' f', w') /\ 0 <= res' /\ file_at w' c' f' F (pos + amt) /\
    forall x, memory st' x = if (ptr <=? x) && (x <? ptr + amt) then Some (at_ F (Z.to_nat (pos + (x - ptr)))) else None.
Proof.
  induction fuel as [|fuel IH]; intros w c f pos ptr amt ttl res st H Hone Hamt Hin Hptr Hwrap Hres Hfuel; pose proof (file_pos _ _ _ _ _ H) as Hpos.
  - cbn [copy_loop]. assert (amt = 0) as -> by lia. cbn [Z.leb Z.compare]. exists res, [], c, f, w. rewrite app_nil_r, !Z.add_0_r. split; [done|]. split; [done|]. split; [done|]. intros x. destruct (_ && _) eqn:E; [bool_simpl; lia|done].
  - cbn [copy_loop]. destruct (Z.leb_spec amt 0).
    { assert (amt = 0) as -> by lia. exists res, [], c, f, w. rewrite app_nil_r, !Z.add_0_r. split; [done|]. split; [done|]. split; [done|]. intros x. destruct (_ && _) eqn:E; [bool_simpl; lia|done]. }
    set (this := if amt <? onedot then amt else onedot). assert (Ht : 0 < this <= amt) by (unfold this; destruct (Z.ltb_spec amt onedot); lia).
    destruct (fs_read_at d p w c f F pos this H) as (c1 & f1 & w1 & -> & H1); [lia|lia|]. cbn [option_bind]. rewrite (proj2 (Z.leb_gt this 0)), wrap32_small by lia.
    destruct (IH w1 c1 f1 (pos + this) (ptr + this) (amt - this) (ttl + this) this (st ++ [Store ptr this (take (Z.to_nat this) (drop (Z.to_nat pos) F))]) H1) as (res' & st' & c' & f' & w' & -> & Hr & H' & Hm); [lia..|].
    eexists res', (_ :: st'), c', f', w'. split; [rewrite <- app_assoc; do 5 f_equal; lia|]. split; [done|]. split; [by replace (pos + amt) with (pos + this + (amt - this)) by lia|].
    intros x. cbn [memory]. rewrite Hm. unfold stored. cbn [st_addr st_bytes].
    destruct (Z.leb_spec (ptr + this) x), (Z.ltb_spec x (ptr + this + (amt - this))), (Z.leb_spec ptr x), (Z.ltb_spec x (ptr + amt)); cbn [andb]; try lia; try done.
    + do 3 f_equal. lia.
    + apply lookup_take_ge. lia.
    + rewrite lookup_take_lt, lookup_drop by lia. replace (Z.to_nat pos + Z.to_nat (x - ptr))%nat with (Z.to_nat (pos + (x - ptr))) by lia.
      destruct (F !! _) as [z|] eqn:E; [unfold at_; by rewrite (nth_lookup_Some _ _ 0 _ E)|]. apply lookup_ge_None_1 in E. lia.
Qed.
End loading.

Lemma dot_size_pos n : 0 <= n < 2 ^ 31 -> 0 < dot_size n.
Proof.
  intros Hn. unfold dot_size. set (x := if _ <? 4096 then _ else _). assert (Hx : 4096 <= x) by (unfold x; destruct (Z.ltb_spec (Z.quot n 10) 4096); lia).
  change 4095 with (Z.ones 12). rewrite Z.ldiff_ones_r, Z.shiftl_mul_pow2, Z.shiftr_div_pow2 by lia. change (2 ^ 12) with 4096. pose proof (Z.div_le_mono 4096 (x + 1) 4096 ltac:(lia) ltac:(lia)) as Hd. rewrite Z.div_same in Hd by lia. lia.
Qed.

Lemma loaded_program before F st a n start : (Z.of_nat n + start <= Z.of_nat (length F)) -> 0 <= start ->
  (forall x, memory st x = if (a <=? x) && (x <? a + Z.of_nat n) then Some (at_ F (Z.to_nat (start + (x - a)))) else None) -> loaded before st a n = take n (drop (Z.to_nat start) F).
Proof.
  intros Hn Hs Hm. apply list_eq_same_length with n; [rewrite length_take, length_drop; lia|unfold loaded; by rewrite length_map, length_seq|].
  intros i x y Hi Hx Hy. unfold loaded in Hx. rewrite list_lookup_fmap in Hx. rewrite lookup_seq_lt in Hx by done. cbn in Hx. rewrite Hm in Hx.
  rewrite (proj2 (Z.leb_le _ _)), (proj2 (Z.ltb_lt _ _)) in Hx by lia. cbn [andb] in Hx. rewrite lookup_take_lt, lookup_drop in Hy by done.
  replace (start + (a + Z.of_nat i - a)) with (start + Z.of_nat i) in Hx by lia. replace (Z.to_nat start + i)%nat with (Z.to_nat (start + Z.of_nat i)) in Hy by lia. apply (nth_lookup_Some _ _ 0) in Hy. unfold at_ in Hx. congruence.
Qed.

Lemma boot_range big F k : Forall byte_ok F -> 0 <= boot_size big F k < 2 ^ 32 /\ 0 <= boot_start big F k.
Proof.
  intros HF. assert (Hb : Forall byte_ok (block_at F k)) by by apply Forall_take, Forall_drop. split; [|apply (field_range big 8 _ _ Hb)].
  unfold boot_size, BOOT_SECSIZE_MASK. change 0xFFFFFFFF with (Z.ones 32). rewrite Z.land_ones by lia. by apply Z.mod_pos_bound.
Qed.

(** C18 A disk boots from its boot block: when a device has the contents [F], the first block
    of the first sixteen with the magic number and its checksum right names a part of the
    device, and that part is what is copied to the boot area, byte for byte and nothing
    else, provided that it fits the boot area (the loader does not look, see [boot_area_unchecked]);
    the result is its length when its checksum is right, and an error otherwise. *)
Theorem raw_boots {W} {FA : FatApi W} (d : fileio_dispatch W) {FL : FileLaws d} big getdevinfo before table filters w w1 w2 la p c0 c f F k :
  load_area getdevinfo w la = (BOOT_START_ADDRESS, BOOT_AREA_SIZE, true) -> cfe_findfilesys table (ra_filesys la) = Some d -> Z.land (Z.lor (ra_flags la) (loadflags d)) LOADFLG_NOBB = 0 ->
  fs_init table w (ra_filesys la) (ra_device la) = Some (0, Some (Ctx p d c0), w1) ->
  fs_open w1 (Ctx p d c0) (ra_filename la) FILE_MODE_READ = Some (0, inl (Opened p d c f), w2) ->
  file_at w2 c f F 0 -> Forall byte_ok F -> boot_block big F k -> boot_start big F k + boot_size big F k <= Z.of_nat (length F) -> boot_size big F k <= BOOT_AREA_SIZE ->
  exists st w', cfe_rawload big getdevinfo before table filters w la =
      Some (if boot_sum_ok big F k then (boot_size big F k, Some BOOT_START_ADDRESS, st, w') else (CFE_ERR_BOOTPROGCHKSUM, None, st, w')) /\
    (forall x, memory st x = if (BOOT_START_ADDRESS <=? x) && (x <? BOOT_START_ADDRESS + boot_size big F k) then Some (at_ F (Z.to_nat (boot_start big F k + (x - BOOT_START_ADDRESS)))) else None) /\
    (forall x, is_Some (memory st x) -> BOOT_START_ADDRESS <= x < BOOT_START_ADDRESS + BOOT_AREA_SIZE).
Proof.
  intros Ha Hfs Hnobb Hi Ho Hf HF Hk Hin Hfit. pose proof (file_small _ _ _ _ _ Hf) as Hs. destruct (boot_range big F k HF) as [Hn Hst]. set (n := boot_size big F k) in *. set (start := boot_start big F k) in *.
  unfold cfe_rawload. rewrite Ha, Hfs, Hnobb. cbn [truthy Z.eqb negb andb]. rewrite Hi. cbn [option_bind truthy Z.eqb negb]. rewrite Ho. cbn [option_bind].
  destruct (findbootblock_ok d big p F k w2 c f Hk Hf) as (c1 & f1 & w3 & -> & H1). cbn [option_bind truthy Z.eqb negb].
  assert (Hdata : bb_secsize big (clear_checksum big (block_at F k)) = bb_secsize big (block_at F k) /\ bb_secstart big (clear_checksum big (block_at F k)) = start).
  { destruct Hk as [[K1 K2] _ _]. split; apply clear_data; (done || by apply boot_block_length). }
  destruct Hdata as [-> ->]. fold (boot_size big F k). fold n. rewrite (sint32_small n) by lia.
  destruct (fs_seek_at d p w3 c1 f1 F _ start H1) as (c4 & f4 & w4 & -> & _ & H4); [lia|]. cbn [option_bind].
  destruct (copy_loop_ok d p F (dot_size n) (Z.to_nat n) w4 c4 f4 start BOOT_START_ADDRESS n 0 0 [] H4) as (res & st & c5 & f5 & w5 & -> & Hres & H5 & Hm); try (unfold BOOT_START_ADDRESS; lia); [apply dot_size_pos; lia|]. cbn [option_bind].
  destruct (fs_close w5 _) as [ctx w6]. rewrite app_nil_l. cbv zeta.
  assert (Hprog : loaded before st BOOT_START_ADDRESS (Z.to_nat (wrap32 n)) = boot_program big F k).
  { rewrite wrap32_small by lia. unfold boot_program. fold n start. apply loaded_program; [lia|done|]. by rewrite Z2Nat.id by lia. }
  rewrite Hprog. unfold boot_sum_ok. fold n. rewrite (proj2 (Z.ltb_ge res 0)) by lia.
  assert (Harea : forall x, is_Some (memory st x) -> BOOT_START_ADDRESS <= x < BOOT_START_ADDRESS + BOOT_AREA_SIZE).
  { intros x. rewrite Hm. destruct (_ && _) eqn:E; [bool_simpl; lia|by intros [? ?]]. }
  destruct (_ =? CHECKSUM_BOOT_DATA _ _ _); cbn [negb]; by eexists _, _.
Qed.

(** * A disk with a boot block *)

Definition a_program : bytes := [1; 2; 3; 4; 5; 6; 7; 8; 9; 10; 11; 12].

(** The last five words of a boot block, with the checksum [sum] of the header. *)
Definition boot_words (sum secstart secsize datasum : Z) : bytes :=
  le_bytes 8 BOOT_MAGIC_NUMBER ++ le_bytes 8 (2 ^ 32 + sum) ++ le_bytes 8 secstart ++ le_bytes 8 (datasum * 2 ^ 32 + secsize) ++ le_bytes 8 0.

Definition a_bootblock (secstart secsize datasum : Z) : bytes :=
  replicate 472 7 ++ boot_words (CHECKSUM_BOOT_DATA false (boot_words 0 secstart secsize datasum) BOOT_BLOCK_SIZE) secstart secsize datasum.

(** The block in the second place, and the program behind it. *)
Definition a_disk (datasum : Z) : bytes := replicate 512 3 ++ a_bootblock 1024 12 datasum ++ a_program ++ replicate 100 0.
Definition a_sum : Z := CHECKSUM_BOOT_DATA false a_program 12.

Definition raw_args : cfe_rawargs := RawArgs [] [114; 97; 119] [102] true 0 0 0.
Definition disk_info (w : drive) (name : bytes) : Z := CFE_DEV_DISK.
Definition raw_boot (s : bytes) : option (Z * option Z * list store * list Z) :=
  let? (r, e, st, w) := cfe_rawload false disk_info (fun _ => 0) a_table [] (raw_drive s) raw_args in Some (r, e, st, dr_live w).

Lemma raw_init s : fs_init a_table (raw_drive s) (ra_filesys raw_args) (ra_device raw_args) = Some (0, Some (Ctx 0x1000 (raw_fileops None) (RawCtx 0x1008 3 false 0)), Drive s None 0x1014 [0x1008; 0x1000]).
Proof. unfold fs_init. change (cfe_findfilesys a_table (ra_filesys raw_args)) with (Some (raw_fileops (W := drive) None)). reflexivity. Qed.

Lemma raw_open s : fs_open (Drive s None 0x1014 [0x1008; 0x1000]) (Ctx 0x1000 (raw_fileops None) (RawCtx 0x1008 3 false 0)) (ra_filename raw_args) FILE_MODE_READ =
  Some (0, inl (Opened 0x1000 (raw_fileops None) (RawCtx 0x1008 3 false 1) (RawFile 0x1014 0 0 (-1))), Drive s None 0x1024 [0x1014; 0x1008; 0x1000]).
Proof. unfold fs_open. cbn [c_ops c_fsctx c_addr d_open raw_fileops]. reflexivity. Qed.

Lemma raw_file s : Z.of_nat (length s) < 2 ^ 30 -> raw_at (Drive s None 0x1024 [0x1014; 0x1008; 0x1000]) (RawCtx 0x1008 3 false 1) (RawFile 0x1014 0 0 (-1)) s 0.
Proof. intros Hs. split; cbn [raw_baseoffset raw_fileoffset raw_length disk drive_disk dr_img]; first [done|lia|by rewrite firstn_all|by left]. Qed.

Lemma a_boot_block datasum : datasum = a_sum \/ datasum = 0 -> boot_block false (a_disk datasum) 1.
Proof. intros [-> | ->]; (split; [vm_compute; lia|intros [|j] Hj; [vm_compute; reflexivity|lia]|vm_compute; reflexivity]). Qed.

(** A block may name a program that is longer than the boot area; it is accepted. *)
Example boot_area_unchecked : let F := replicate 512 3 ++ a_bootblock 1024 0x50000 0 in boot_block false F 1 /\ boot_size false F 1 = 0x50000 /\ BOOT_AREA_SIZE < 0x50000.
Proof. split; [split; [vm_compute; lia|intros [|j] Hj; [vm_compute; reflexivity|lia]|vm_compute; reflexivity]|split; vm_compute; reflexivity]. Qed.

Lemma raw_boots_witness :
  raw_boot (a_disk a_sum) = Some (12, Some BOOT_START_ADDRESS, [Store BOOT_START_ADDRESS 12 a_program], []) /\
  raw_boot (a_disk 0) = Some (CFE_ERR_BOOTPROGCHKSUM, None, [Store BOOT_START_ADDRESS 12 a_program], []) /\
  exists st w', cfe_rawload false disk_info (fun _ => 0) a_table [] (raw_drive (a_disk a_sum)) raw_args = Some (12, Some BOOT_START_ADDRESS, st, w') /\
    forall x, memory st x = if (BOOT_START_ADDRESS <=? x) && (x <? BOOT_START_ADDRESS + 12) then Some (at_ (a_disk a_sum) (Z.to_nat (1024 + (x - BOOT_START_ADDRESS)))) else None.
Proof.
  split; [vm_compute; reflexivity|]. split; [vm_compute; reflexivity|].
  destruct (raw_boots (FL := raw_laws None) (raw_fileops None) false disk_info (fun _ => 0) a_table [] (raw_drive (a_disk a_sum)) (Drive (a_disk a_sum) None 0x1014 [0x1008; 0x1000]) (Drive (a_disk a_sum) None 0x1024 [0x1014; 0x1008; 0x1000]) raw_args
    0x1000 (RawCtx 0x1008 3 false 0) (RawCtx 0x1008 3 false 1) (RawFile 0x1014 0 0 (-1)) (a_disk a_sum) 1) as (st & w' & H1 & H2 & _).
  - reflexivity.
  - reflexivity.
  - reflexivity.
  - exact (raw_init _).
  - exact (raw_open _).
  - apply raw_file. by vm_compute.
  - by apply bytes_check.
  - apply a_boot_block. by left.
  - vm_compute. discriminate.
  - vm_compute. discriminate.
  - assert (Hok : boot_sum_ok false (a_disk a_sum) 1 = true) by (vm_compute; reflexivity). assert (Hsz : boot_size false (a_disk a_sum) 1 = 12) by (vm_compute; reflexivity).
    assert (Hst : boot_start false (a_disk a_sum) 1 = 1024) by (vm_compute; reflexivity). rewrite Hok, Hsz in H1. rewrite Hsz, Hst in H2. exists st, w'. split; [exact H1|exact H2].
Defined.
