(* ===== verification/Wifi.v ===== *)
(** Channel specifications: shared/bcmwifi.c and include/bcmwifi.h.

    A channel number with its band, its width and, for 40 MHz, which half is the control
    channel, packed in 16 bits, and its form as a string. *)

From Stdlib Require Import ZArith Lia Bool List String Ascii.
From stdpp Require Import base numbers list.
From S2P Require Import Prelude CString Format.

#[local] Open Scope Z_scope.

Definition CH_20MHZ_APART := 4.
Definition CH_10MHZ_APART := 2.
Definition WLC_MAX_2G_CHANNEL := 14.
Definition MAXCHANNEL := 224.
Definition WL_CHANSPEC_CHAN_MASK := 0x00ff.
Definition WL_CHANSPEC_CTL_SB_MASK := 0x0300.
Definition WL_CHANSPEC_CTL_SB_LOWER := 0x0100.
Definition WL_CHANSPEC_CTL_SB_UPPER := 0x0200.
Definition WL_CHANSPEC_CTL_SB_NONE := 0x0300.
Definition WL_CHANSPEC_BW_MASK := 0x0C00.
Definition WL_CHANSPEC_BW_10 := 0x0400.
Definition WL_CHANSPEC_BW_20 := 0x0800.
Definition WL_CHANSPEC_BW_40 := 0x0C00.
Definition WL_CHANSPEC_BAND_MASK := 0xf000.
Definition WL_CHANSPEC_BAND_5G := 0x1000.
Definition WL_CHANSPEC_BAND_2G := 0x2000.

Definition LOWER_20_SB (channel : Z) : Z := if CH_10MHZ_APART <? channel then channel - CH_10MHZ_APART else 0.
Definition UPPER_20_SB (channel : Z) : Z := if channel <? MAXCHANNEL - CH_10MHZ_APART then channel + CH_10MHZ_APART else 0.
Definition NEXT_20MHZ_CHAN (channel : Z) : Z := if channel <? MAXCHANNEL - CH_20MHZ_APART then channel + CH_20MHZ_APART else 0.
Definition band_of (channel : Z) : Z := if channel <=? WLC_MAX_2G_CHANNEL then WL_CHANSPEC_BAND_2G else WL_CHANSPEC_BAND_5G.
Definition CH20MHZ_CHSPEC (channel : Z) : Z := wrap16 (Z.lor (Z.lor (Z.lor (wrap16 channel) WL_CHANSPEC_BW_20) WL_CHANSPEC_CTL_SB_NONE) (band_of channel)).
Definition CH40MHZ_CHSPEC (channel ctlsb : Z) : Z := wrap16 (Z.lor (Z.lor (Z.lor channel ctlsb) WL_CHANSPEC_BW_40) (band_of channel)).

Definition CHSPEC_CHANNEL (chspec : Z) : Z := wrap8 (Z.land chspec WL_CHANSPEC_CHAN_MASK).
Definition CHSPEC_CTL_SB (chspec : Z) : Z := Z.land chspec WL_CHANSPEC_CTL_SB_MASK.
Definition CHSPEC_BW (chspec : Z) : Z := Z.land chspec WL_CHANSPEC_BW_MASK.
Definition CHSPEC_BAND (chspec : Z) : Z := Z.land chspec WL_CHANSPEC_BAND_MASK.
Definition CHSPEC_IS10 (chspec : Z) : bool := CHSPEC_BW chspec =? WL_CHANSPEC_BW_10.
Definition CHSPEC_IS20 (chspec : Z) : bool := CHSPEC_BW chspec =? WL_CHANSPEC_BW_20.
Definition CHSPEC_IS40 (chspec : Z) : bool := CHSPEC_BW chspec =? WL_CHANSPEC_BW_40.
Definition CHSPEC_IS5G (chspec : Z) : bool := CHSPEC_BAND chspec =? WL_CHANSPEC_BAND_5G.
Definition CHSPEC_IS2G (chspec : Z) : bool := CHSPEC_BAND chspec =? WL_CHANSPEC_BAND_2G.
Definition CHSPEC_SB_NONE (chspec : Z) : bool := CHSPEC_CTL_SB chspec =? WL_CHANSPEC_CTL_SB_NONE.
Definition CHSPEC_SB_UPPER (chspec : Z) : bool := CHSPEC_CTL_SB chspec =? WL_CHANSPEC_CTL_SB_UPPER.
Definition CHSPEC_SB_LOWER (chspec : Z) : bool := CHSPEC_CTL_SB chspec =? WL_CHANSPEC_CTL_SB_LOWER.

(** What is in [buf]; sprintf is that of shared/bcmstdlib.c, and prints an unsigned channel
    as it is passed. *)
Definition wf_chspec_ntoa (chspec : Z) : option bytes :=
  let channel := CHSPEC_CHANNEL chspec in
  let band := if CHSPEC_IS2G chspec then str "b" else str "a" in
  let '(channel, bw, sb) :=
    if CHSPEC_IS40 chspec then
      if CHSPEC_SB_UPPER chspec then (wrap32 (channel + CH_10MHZ_APART), [], str "u") else (wrap32 (channel - CH_10MHZ_APART), [], str "l")
    else if CHSPEC_IS10 chspec then (channel, str "n", [])
    else (channel, [], []) in
  format (str "%d%s%s%s") [VInt channel; VStr (Some band); VStr (Some bw); VStr (Some sb)].

Definition tolower (c : Z) : Z := if bcm_isupper c then schar c + ch "a"%char - ch "A"%char else schar c.

(** The variables of the loop; the bandwidth is set exactly when [bw_set] is, and so is the
    control sideband. *)
Record aton_vars := Aton { channel : Z; band : Z; bw : Z; ctl_sb : Z; band_set : bool; bw_set : bool; ctl_sb_set : bool }.

(** One character: [None] is an error. *)
Definition aton_step (v : aton_vars) (c : Z) : option aton_vars :=
  let c := tolower c in
  if (c =? ch "a"%char) || (c =? ch "b"%char) then
    if band_set v then None
    else Some (Aton (channel v) (if c =? ch "a"%char then WL_CHANSPEC_BAND_5G else WL_CHANSPEC_BAND_2G) (bw v) (ctl_sb v) true (bw_set v) (ctl_sb_set v))
  else if c =? ch "n"%char then
    if bw_set v then None
    else Some (Aton (channel v) (band v) WL_CHANSPEC_BW_10 (ctl_sb v) (band_set v) true (ctl_sb_set v))
  else if (c =? ch "l"%char) || (c =? ch "u"%char) then
    if negb (ctl_sb_set v) && negb (bw_set v) then
      if c =? ch "l"%char then Some (Aton (UPPER_20_SB (channel v)) (band v) WL_CHANSPEC_BW_40 WL_CHANSPEC_CTL_SB_LOWER (band_set v) true true)
      else Some (Aton (LOWER_20_SB (channel v)) (band v) WL_CHANSPEC_BW_40 WL_CHANSPEC_CTL_SB_UPPER (band_set v) true true)
    else None
  else None.

(** The loop stops at the first error. *)
Fixpoint aton_loop (v : aton_vars) (a : bytes) : option aton_vars :=
  match a with
  | [] => Some v
  | c :: a => let? v := aton_step v c in aton_loop v a
  end.

Definition wf_chspec_aton (a : bytes) : Z :=
  let '(channel, endp) := bcm_strtoul a 10 in
  if (length endp =? length a)%nat then 0
  else if MAXCHANNEL <? channel then 0
  else
    match aton_loop (Aton channel (band_of channel) WL_CHANSPEC_BW_20 WL_CHANSPEC_CTL_SB_NONE false false false) endp with
    | None => 0
    | Some v =>
        if bw_set v && (bw v =? WL_CHANSPEC_BW_40) && negb (ctl_sb_set v) then 0
        else if ctl_sb_set v && negb (bw_set v) then 0
        else wrap16 (Z.lor (Z.lor (Z.lor (Wifi.channel v) (Wifi.band v)) (Wifi.bw v)) (Wifi.ctl_sb v))
    end.

(** * What a specification is *)

(** A band, a width, a control sideband when and only when it is 40 MHz wide, and a channel
    that is there, with its control channel. *)
Definition chanspec_ok (cs : Z) : bool :=
  (0 <=? cs) && (cs <? 2 ^ 16) && (CHSPEC_IS2G cs || CHSPEC_IS5G cs) && (CHSPEC_CHANNEL cs <=? MAXCHANNEL) &&
  (if CHSPEC_IS40 cs then CHSPEC_SB_UPPER cs || CHSPEC_SB_LOWER cs else (CHSPEC_IS10 cs || CHSPEC_IS20 cs) && CHSPEC_SB_NONE cs).

(** Where the control channel is a channel. *)
Definition control_ok (cs : Z) : bool :=
  if CHSPEC_IS40 cs then if CHSPEC_SB_UPPER cs then CHSPEC_CHANNEL cs + 2 <=? MAXCHANNEL else (2 <=? CHSPEC_CHANNEL cs) && (CHSPEC_CHANNEL cs <? MAXCHANNEL) else true.

(** A test of the [n] numbers from [z] on. *)
Fixpoint all_from (P : Z -> bool) (n : nat) (z : Z) : bool := match n with O => true | S n => if P z then all_from P n (z + 1) else false end.

Lemma all_from_spec P n : forall z x, all_from P n z = true -> z <= x < z + Z.of_nat n -> P x = true.
Proof.
  induction n as [|n IH]; intros z x H Hx; [lia|]. cbn [all_from] in H. destruct (P z) eqn:E; [|done]. destruct (Z.eq_dec x z) as [->|]; [done|]. apply (IH (z + 1)); [done|lia].
Qed.

Lemma chanspec_roundtrip_all :
  all_from (fun cs => if chanspec_ok cs && control_ok cs then match wf_chspec_ntoa cs with Some s => wf_chspec_aton s =? cs | None => false end else true) (Z.to_nat 65536) 0 = true.
Proof. vm_compute. reflexivity. Qed.

(** Printing a channel specification and parsing it gives it back, for every band, width
    and control sideband whose control channel is a channel. *)
Theorem chanspec_roundtrip cs : chanspec_ok cs = true -> control_ok cs = true -> exists s, wf_chspec_ntoa cs = Some s /\ wf_chspec_aton s = cs.
Proof.
  intros Hc Hk. assert (Hr : 0 <= cs < 65536) by (unfold chanspec_ok in Hc; bool_simpl; lia). pose proof (all_from_spec _ _ _ cs chanspec_roundtrip_all) as H.
  rewrite Z2Nat.id in H by lia. specialize (H ltac:(lia)). cbv beta in H. rewrite Hc, Hk in H. cbn [andb] in H. destruct (wf_chspec_ntoa cs) as [s|]; [|done]. exists s. split; [done|]. by apply Z.eqb_eq.
Qed.

Lemma chanspec_roundtrip_witness : wf_chspec_ntoa (CH40MHZ_CHSPEC 38 WL_CHANSPEC_CTL_SB_LOWER) = Some (str "36al") /\ exists s, wf_chspec_ntoa 0x1d26 = Some s /\ wf_chspec_aton s = 0x1d26.
Proof. split; [vm_compute; reflexivity|]. apply (chanspec_roundtrip 0x1d26); vm_compute; reflexivity. Defined.

Lemma strtoul_nonneg a base : 0 <= (bcm_strtoul a base).1.
Proof.
  unfold bcm_strtoul. destruct (strtoul_sign _) as [m s]. destruct (strtoul_base base s) as [b s']. assert (H : forall s r, 0 <= r -> 0 <= (strtoul_digits b r s).1).
  { intros t. induction t as [|c t IH]; intros r Hr; cbn [strtoul_digits fst]; [done|]. destruct (_ && _); [|done]. apply IH, wrap32_range. }
  specialize (H s' 0 ltac:(lia)). destruct (strtoul_digits b 0 s') as [r e]. cbn [fst] in *. destruct m; [apply wrap32_range|done].
Qed.

(** ** What a string means *)

Definition is_band (c : Z) : bool := (c =? ch "a"%char) || (c =? ch "b"%char).
Definition is_width (c : Z) : bool := (c =? ch "n"%char) || (c =? ch "l"%char) || (c =? ch "u"%char).

(** The number with the letter of the band and that of the width, if any: without a letter the
    band goes by the number and the width is 20 MHz; the number with l or u is that of the
    control channel, the channel two above or below it. *)
Definition meaning (n : Z) (b w : option Z) : Z :=
  match w with
  | None => n + WL_CHANSPEC_BW_20 + WL_CHANSPEC_CTL_SB_NONE
  | Some c =>
      if c =? ch "n"%char then n + WL_CHANSPEC_BW_10 + WL_CHANSPEC_CTL_SB_NONE
      else if c =? ch "l"%char then (if n + 2 <? MAXCHANNEL then n + 2 else 0) + WL_CHANSPEC_BW_40 + WL_CHANSPEC_CTL_SB_LOWER
      else (if 2 <? n then n - 2 else 0) + WL_CHANSPEC_BW_40 + WL_CHANSPEC_CTL_SB_UPPER
  end +
  match b with
  | None => if n <=? 14 then WL_CHANSPEC_BAND_2G else WL_CHANSPEC_BAND_5G
  | Some c => if c =? ch "a"%char then WL_CHANSPEC_BAND_5G else WL_CHANSPEC_BAND_2G
  end.

(** A number up to 224 and letters in any order and case: one at most for the band, one at most
    for the width, and no others. *)
Definition chanspec_of (a : bytes) : Z :=
  let '(n, rest) := bcm_strtoul a 10 in
  let letters := map tolower rest in
  let bs := filter is_band letters in
  let ws := filter is_width letters in
  if (length rest <? length a)%nat && (n <=? MAXCHANNEL) && (length bs <=? 1)%nat && (length ws <=? 1)%nat && (length bs + length ws =? length letters)%nat
  then meaning n (head bs) (head ws) else 0.

(** The variables of the loop when these letters have been read. *)
Definition vars_of (n : Z) (b w : option Z) : aton_vars :=
  let half := match w with Some c => (c =? ch "l"%char) || (c =? ch "u"%char) | None => false end in
  Aton (match w with Some c => if c =? ch "l"%char then UPPER_20_SB n else if c =? ch "u"%char then LOWER_20_SB n else n | None => n end)
    (match b with Some c => if c =? ch "a"%char then WL_CHANSPEC_BAND_5G else WL_CHANSPEC_BAND_2G | None => band_of n end)
    (match w with Some c => if c =? ch "n"%char then WL_CHANSPEC_BW_10 else WL_CHANSPEC_BW_40 | None => WL_CHANSPEC_BW_20 end)
    (match w with Some c => if c =? ch "l"%char then WL_CHANSPEC_CTL_SB_LOWER else if c =? ch "u"%char then WL_CHANSPEC_CTL_SB_UPPER else WL_CHANSPEC_CTL_SB_NONE | None => WL_CHANSPEC_CTL_SB_NONE end)
    (match b with Some _ => true | None => false end) (match w with Some _ => true | None => false end) half.

(** One more letter. *)
Definition one_more (o : option Z) (l : list Z) : option (option Z) :=
  match o, l with None, [] => Some None | None, [c] => Some (Some c) | Some c, [] => Some (Some c) | _, _ => None end.

Lemma step_vars n b w c : aton_step (vars_of n b w) c =
  let c := tolower c in
  if is_band c then match b with None => Some (vars_of n (Some c) w) | Some _ => None end
  else if is_width c then match w with None => Some (vars_of n b (Some c)) | Some _ => None end
  else None.
Proof.
  unfold aton_step, is_band, is_width. cbn zeta. set (x := tolower c).
  destruct (Z.eqb_spec x (ch "a"%char)) as [->|]; [by destruct b|]. destruct (Z.eqb_spec x (ch "b"%char)) as [->|]; [by destruct b|]. cbn [orb].
  destruct (Z.eqb_spec x (ch "n"%char)) as [->|]; [by destruct w|]. destruct (Z.eqb_spec x (ch "l"%char)) as [->|]; [destruct w; [cbn; by rewrite andb_false_r|done]|].
  destruct (Z.eqb_spec x (ch "u"%char)) as [->|]; [destruct w; [cbn; by rewrite andb_false_r|done]|]. done.
Qed.

Lemma one_more_cons o c l : one_more o (c :: l) = match o with None => one_more (Some c) l | Some _ => None end.
Proof. by destruct o, l. Qed.

Lemma band_not_width c : is_band c = true -> is_width c = false.
Proof. unfold is_band. rewrite orb_true_iff, !Z.eqb_eq. by intros [-> | ->]. Qed.

Lemma filter_bool (f : Z -> bool) c l : filter f (c :: l) = if f c then c :: filter f l else filter f l.
Proof. rewrite filter_cons. case_decide as H; by destruct (f c). Qed.

Lemma loop_vars s : forall n b w,
  aton_loop (vars_of n b w) s =
  let letters := map tolower s in
  if (length (filter is_band letters) + length (filter is_width letters) =? length letters)%nat then
    match one_more b (filter is_band letters), one_more w (filter is_width letters) with Some b, Some w => Some (vars_of n b w) | _, _ => None end
  else None.
Proof.
  assert (Hle : forall l : bytes, (length (filter is_band l) + length (filter is_width l) <= length l)%nat).
  { induction l as [|c l IH]; [done|]. rewrite !filter_bool. pose proof (band_not_width c). destruct (is_band c), (is_width c); cbn; naive_solver lia. }
  induction s as [|c s IH]; intros n b w; cbn [aton_loop map length]; cbn zeta; [by destruct b, w|]. rewrite step_vars. cbn zeta. rewrite !filter_bool. pose proof (band_not_width (tolower c)) as Hbw.
  destruct (is_band (tolower c)).
  - rewrite Hbw by done. cbn [length Nat.add Nat.eqb]. destruct b as [x|].
    + cbn [option_bind]. destruct (_ =? _)%nat; [|done]. by rewrite one_more_cons.
    + cbn [option_bind]. rewrite IH. cbn zeta. by rewrite one_more_cons.
  - destruct (is_width (tolower c)).
    + cbn [length]. rewrite Nat.add_succ_r. cbn [Nat.eqb]. destruct w as [x|].
      * cbn [option_bind]. destruct (_ =? _)%nat; [|done]. rewrite one_more_cons. by destruct (one_more b _).
      * cbn [option_bind]. rewrite IH. cbn zeta. by rewrite one_more_cons.
    + cbn [option_bind]. specialize (Hle (map tolower s)). destruct (Nat.eqb_spec (length (filter is_band (map tolower s)) + length (filter is_width (map tolower s))) (S (length (map tolower s)))); [lia|done].
Qed.

Lemma strtoul_rest a : (length (bcm_strtoul a 10).2 <= length a)%nat.
Proof.
  unfold bcm_strtoul. assert (H1 : (length (skip_space a) <= length a)%nat) by (induction a as [|c a IH]; cbn [skip_space length]; [lia|]; destruct (bcm_isspace c); cbn [length]; lia).
  assert (H2 : forall s, (length (strtoul_sign s).2 <= length s)%nat) by (intros s; unfold strtoul_sign; destruct (_ =? _); [|destruct (_ =? _)]; cbn [snd]; rewrite ?length_drop; lia).
  specialize (H2 (skip_space a)). destruct (strtoul_sign (skip_space a)) as [m s]. cbn [snd] in H2. change (strtoul_base 10 s) with (10, s). cbv beta iota zeta.
  assert (H3 : forall b t r, (length (strtoul_digits b r t).2 <= length t)%nat).
  { intros b t. induction t as [|c t IH]; intros r; cbn [strtoul_digits snd length]; [lia|]. destruct (_ && _); [|cbn [snd length]; lia]. specialize (IH (wrap32 (r * b + digit_value c))). lia. }
  specialize (H3 10 s 0). destruct (strtoul_digits 10 0 s) as [r e]. cbn [snd] in *. lia.
Qed.

Definition band_letters : list (option Z) := [None; Some (ch "a"%char); Some (ch "b"%char)].
Definition width_letters : list (option Z) := [None; Some (ch "n"%char); Some (ch "l"%char); Some (ch "u"%char)].

(** What the end of the function makes of the variables. *)
Definition aton_result (v : aton_vars) : Z :=
  if bw_set v && (bw v =? WL_CHANSPEC_BW_40) && negb (ctl_sb_set v) then 0
  else if ctl_sb_set v && negb (bw_set v) then 0
  else wrap16 (Z.lor (Z.lor (Z.lor (channel v) (band v)) (bw v)) (ctl_sb v)).

Lemma meaning_all : forallb (fun n => forallb (fun b => forallb (fun w =>
  (aton_result (vars_of n b w) =? meaning n b w) && chanspec_ok (meaning n b w)) width_letters) band_letters) (seqZ 0 225) = true.
Proof. vm_compute. reflexivity. Qed.

Lemma meaning_ok n b w : 0 <= n <= MAXCHANNEL -> b ∈ band_letters -> w ∈ width_letters -> aton_result (vars_of n b w) = meaning n b w /\ chanspec_ok (meaning n b w) = true.
Proof.
  intros Hn Hb Hw. pose proof meaning_all as H. rewrite forallb_forall in H. specialize (H n (proj1 (list_elem_of_In _ _) (proj2 (elem_of_seqZ 0 225 n) ltac:(unfold MAXCHANNEL in *; lia)))). cbv beta in H.
  rewrite forallb_forall in H. specialize (H b (proj1 (list_elem_of_In _ _) Hb)). cbv beta in H. rewrite forallb_forall in H. specialize (H w (proj1 (list_elem_of_In _ _) Hw)). cbv beta in H.
  by apply andb_true_iff in H as [->%Z.eqb_eq ->].
Qed.

Lemma head_band l : (length (filter is_band l) <= 1)%nat -> one_more None (filter is_band l) = Some (head (filter is_band l)) /\ head (filter is_band l) ∈ band_letters.
Proof.
  intros Hl. pose proof (list_elem_of_filter is_band) as Hf. destruct (filter is_band l) as [|c [|? ?]] eqn:E; [split; [done|by left]| |cbn in Hl; lia].
  split; [done|]. assert (Hc : is_band c) by (apply (Hf l); rewrite E; by left). unfold is_band in Hc. apply Is_true_true in Hc. rewrite orb_true_iff, !Z.eqb_eq in Hc.
  destruct Hc as [-> | ->]; cbn [head]; [right; by left|do 2 right; by left].
Qed.

Lemma head_width l : (length (filter is_width l) <= 1)%nat -> one_more None (filter is_width l) = Some (head (filter is_width l)) /\ head (filter is_width l) ∈ width_letters.
Proof.
  intros Hl. pose proof (list_elem_of_filter is_width) as Hf. destruct (filter is_width l) as [|c [|? ?]] eqn:E; [split; [done|by left]| |cbn in Hl; lia].
  split; [done|]. assert (Hc : is_width c) by (apply (Hf l); rewrite E; by left). unfold is_width in Hc. apply Is_true_true in Hc. rewrite !orb_true_iff, !Z.eqb_eq in Hc.
  destruct Hc as [[-> | ->]| ->]; cbn [head]; [right; by left|do 2 right; by left|do 3 right; by left].
Qed.

Lemma one_more_many (l : list Z) : (1 < length l)%nat -> one_more None l = None.
Proof. destruct l as [|? [|? ?]]; cbn; (done || lia). Qed.

(** C36 Parsing a channel specification means what the string says: for every string, the result
    is that of a number up to 224, as [strtoul] reads it (spaces or a sign alone are 0), followed by letters in any order and case, at most one of a
    and b for the band and at most one of n, l and u for the width and the half, with l and u
    the number is that of the control channel; every other string gives 0.  What is not 0 is well
    formed: one band, one width, a control sideband exactly at 40 MHz, and a channel of at most
    224 (which is 0 for the number 0 and for a pair that does not exist, see
    [aton_no_such_pair]). *)
Theorem aton_parses a : wf_chspec_aton a = chanspec_of a /\ (chanspec_of a = 0 \/ chanspec_ok (chanspec_of a) = true).
Proof.
  unfold wf_chspec_aton, chanspec_of. pose proof (strtoul_nonneg a 10) as Hn. pose proof (strtoul_rest a) as Hr. destruct (bcm_strtoul a 10) as [n rest]. cbn [fst snd] in Hn, Hr.
  destruct (Nat.eqb_spec (length rest) (length a)) as [Hl|Hl]; [rewrite (proj2 (Nat.ltb_ge _ _)) by lia; split; [done|by left]|]. rewrite (proj2 (Nat.ltb_lt _ _)) by lia. cbn [andb].
  destruct (Z.ltb_spec MAXCHANNEL n) as [Hm|Hm]; [rewrite (proj2 (Z.leb_gt _ _)) by lia; split; [done|by left]|]. rewrite (proj2 (Z.leb_le _ _)) by lia. cbn [andb].
  change (Aton n (band_of n) WL_CHANSPEC_BW_20 WL_CHANSPEC_CTL_SB_NONE false false false) with (vars_of n None None). rewrite loop_vars. cbn zeta. set (l := map tolower rest).
  destruct (Nat.leb_spec (length (filter is_band l)) 1) as [Hb|Hb]; [|rewrite (one_more_many (filter is_band l)) by lia; split; [by destruct (_ =? _)%nat|by left]]. destruct (head_band l Hb) as [-> Hb'].
  destruct (Nat.leb_spec (length (filter is_width l)) 1) as [Hw|Hw]; [|rewrite (one_more_many (filter is_width l)) by lia; split; [by destruct (_ =? _)%nat|by left]]. destruct (head_width l Hw) as [-> Hw'].
  cbn [andb]. destruct (_ =? _)%nat; [|split; [done|by left]]. destruct (meaning_ok n _ _ (conj Hn Hm) Hb' Hw') as [<- Hok]. split; [done|by right].
Qed.

Example chanspec_of_letters : chanspec_of (str "36Al") = CH40MHZ_CHSPEC 38 WL_CHANSPEC_CTL_SB_LOWER /\ chanspec_of (str "7n") = 0x2707 /\ chanspec_of (str "7ab") = 0.
Proof. vm_compute. done. Qed.

(** The upper half of a pair that does not exist gives channel 0, where the comment says that
    an error returns 0. *)
Example aton_no_such_pair : wf_chspec_aton (str "2bu") = 0x2e00 /\ chanspec_ok 0x2e00 = true /\ CHSPEC_CHANNEL 0x2e00 = 0.
Proof. vm_compute. done. Qed.

(** Printing does not check: a channel below 2 has a control channel of -2 or -1. *)
Example ntoa_negative : wf_chspec_ntoa (CH40MHZ_CHSPEC 0 WL_CHANSPEC_CTL_SB_LOWER) = Some (str "-2bl").
Proof. vm_compute. reflexivity. Qed.
