(* ===== verification/Background.v ===== *)
(** The background tasks of the boot loader: cfe/cfe/main/cfe_background.c, and the clock of
    cfe/cfe/include/cfe_timer.h as the programs that wait see it. *)

From S2P Require Import Prelude.
From Stdlib Require Import ZArith Lia Bool List String.
From stdpp Require Import base numbers list.

#[local] Open Scope Z_scope.

Definition MAX_BACKGROUND_TASKS : nat := 16.

(** The two arrays; a null function is 0. *)
Record bg_tasks := Bg { cfe_bg_tasklist : list Z; cfe_bg_args : list Z }.

Definition cfe_bg_init (g : bg_tasks) : bg_tasks := Bg (replicate MAX_BACKGROUND_TASKS 0) (cfe_bg_args g).

(** The first place of the list where a function is. *)
Fixpoint find_task (idx : nat) (tasks : list Z) (func : Z) : option nat :=
  match tasks with
  | [] => None
  | f :: tasks => if f =? func then Some idx else find_task (S idx) tasks func
  end.

Definition cfe_bg_add (g : bg_tasks) (func arg : Z) : bg_tasks :=
  match find_task 0 (cfe_bg_tasklist g) 0 with
  | Some idx => Bg (<[idx := func]> (cfe_bg_tasklist g)) (<[idx := arg]> (cfe_bg_args g))
  | None => g
  end.

(** The entries above [idx] move down by one, [n] of them. *)
Fixpoint shift_down (n idx : nat) (l : list Z) : option (nat * list Z) :=
  match n with
  | O => Some (idx, l)
  | S n => let? v := l !! S idx in shift_down n (S idx) (<[idx := v]> l)
  end.

Definition cfe_bg_remove (g : bg_tasks) (func : Z) : option bg_tasks :=
  match find_task 0 (cfe_bg_tasklist g) func with
  | None => Some g
  | Some idx =>
      let n := (MAX_BACKGROUND_TASKS - 1 - idx)%nat in
      let? (last, tasks) := shift_down n idx (cfe_bg_tasklist g) in
      let? (_, args) := shift_down n idx (cfe_bg_args g) in
      Some (Bg (<[last := 0]> tasks) (<[last := 0]> args))
  end.

Section background.
Context {W : Type} (tasks_of : W -> bg_tasks) (call : Z -> Z -> W -> option W).

(** The table is read again after every call. *)
Fixpoint background_loop (n idx : nat) (w : W) : option W :=
  match n with
  | O => Some w
  | S n =>
      let? func := cfe_bg_tasklist (tasks_of w) !! idx in
      if func =? 0 then Some w
      else
        let? arg := cfe_bg_args (tasks_of w) !! idx in
        let? w := call func arg w in background_loop n (S idx) w
  end.

Definition background (w : W) : option W := background_loop MAX_BACKGROUND_TASKS 0 w.
End background.

(** * Waiting *)

(** What a program that waits sees: the clock, and POLL, which lets the others run. *)
Class PollApi (W : Type) := {
  clock : W -> Z;
  POLL : W -> option W
}.

(** The clock does not stand still: after some number of polls a time has passed. *)
Class PollLaws (W : Type) `{PollApi W} := {
  polling_ok : W -> Prop;
  polls_until : Z -> W -> nat;
  law_poll t w : polling_ok w -> clock w <= t -> exists w', POLL w = Some w' /\ polling_ok w' /\ (polls_until t w' < polls_until t w)%nat
}.

(** * The list of tasks *)

(** The tasks are at the start of the arrays, and null is behind them. *)
Record bg_holds (g : bg_tasks) (ts : list (Z * Z)) : Prop := {
  bh_tasks : cfe_bg_tasklist g = map fst ts ++ replicate (MAX_BACKGROUND_TASKS - length ts) 0;
  bh_args : take (length ts) (cfe_bg_args g) = map snd ts;
  bh_len : length (cfe_bg_args g) = MAX_BACKGROUND_TASKS;
  bh_max : (length ts <= MAX_BACKGROUND_TASKS)%nat;
  bh_funcs : Forall (fun t => fst t <> 0) ts
}.

Definition add_task (ts : list (Z * Z)) (func arg : Z) : list (Z * Z) :=
  if (length ts <? MAX_BACKGROUND_TASKS)%nat then ts ++ [(func, arg)] else ts.

Fixpoint remove_task (ts : list (Z * Z)) (func : Z) : list (Z * Z) :=
  match ts with
  | [] => []
  | t :: ts => if t.1 =? func then ts else t :: remove_task ts func
  end.

Lemma find_task_spec (func : Z) (l : list Z) i :
  match find_task i l func with
  | Some k => exists l1 l2, k = (i + length l1)%nat /\ l = l1 ++ func :: l2 /\ Forall (fun f => f <> func) l1
  | None => Forall (fun f => f <> func) l
  end.
Proof.
  revert i. induction l as [|f l IH]; intros i; cbn [find_task]; [constructor|]. destruct (Z.eqb_spec f func) as [->|Hn].
  - exists [], l. cbn. split; [lia|]. by split.
  - specialize (IH (S i)). destruct (find_task _ _ _) as [k|]; [|by constructor]. destruct IH as (l1 & l2 & -> & -> & H).
    exists (f :: l1), l2. cbn. split; [lia|]. split; [done|by constructor].
Qed.

Lemma find_task_app l1 l2 func i : Forall (fun f => f <> func) l1 -> find_task i (l1 ++ func :: l2) func = Some (i + length l1)%nat.
Proof.
  revert i. induction l1 as [|f l1 IH]; intros i H; cbn [app find_task length].
  - by rewrite Z.eqb_refl, Nat.add_0_r.
  - apply Forall_cons in H as [H1 H2]. rewrite (proj2 (Z.eqb_neq _ _)), IH by done. f_equal. lia.
Qed.

(** Moving down closes the gap. *)
Lemma shift_down_spec b : forall a x, shift_down (length b) (length a) (a ++ x :: b) =
  Some ((length a + length b)%nat, a ++ b ++ [default x (last b)]).
Proof.
  induction b as [|y b IH]; intros a x; cbn [shift_down length].
  - by rewrite Nat.add_0_r.
  - rewrite lookup_app_r, Nat.sub_succ_l, Nat.sub_diag by lia. cbn [lookup list_lookup option_bind].
    rewrite insert_app_r_alt, Nat.sub_diag by lia. cbn [insert list_insert].
    change (a ++ y :: y :: b) with (a ++ [y] ++ y :: b). rewrite (app_assoc a [y]).
    replace (S (length a)) with (length (a ++ [y])) by (rewrite length_app; cbn; lia). rewrite IH, length_app, <- app_assoc. cbn [length app].
    do 2 f_equal; [lia|]. f_equal. f_equal. f_equal. rewrite last_cons. by destruct (last b).
Qed.

Lemma shift_clear a x b v : (let? (k, l) := shift_down (length b) (length a) (a ++ x :: b) in Some (<[k := v]> l)) = Some (a ++ b ++ [v]).
Proof.
  rewrite shift_down_spec. cbn [option_bind]. f_equal. rewrite insert_app_r. f_equal.
  rewrite insert_app_r_alt, Nat.sub_diag by lia. done.
Qed.

Lemma remove_at ts1 t ts2 func : Forall (fun f => f <> func) (map fst ts1) -> t.1 = func -> remove_task (ts1 ++ t :: ts2) func = ts1 ++ ts2.
Proof.
  intros H Ht. induction ts1 as [|u ts1 IH]; cbn [app remove_task map] in *.
  - by rewrite Ht, Z.eqb_refl.
  - apply Forall_cons in H as [H1 H2]. rewrite (proj2 (Z.eqb_neq _ _)), IH by done. done.
Qed.

Lemma remove_none ts func : Forall (fun f => f <> func) (map fst ts) -> remove_task ts func = ts.
Proof. induction ts as [|t ts IH]; intros H; cbn in *; [done|]. apply Forall_cons in H as [H1 H2]. by rewrite (proj2 (Z.eqb_neq _ _)), IH. Qed.

Lemma bg_init_ok g : length (cfe_bg_args g) = MAX_BACKGROUND_TASKS -> bg_holds (cfe_bg_init g) [].
Proof. intros H. split; [done|done|done|cbn; lia|constructor]. Qed.

Lemma funcs_nonzero ts : Forall (fun t : Z * Z => fst t <> 0) ts <-> Forall (fun f => f <> 0) (map fst ts).
Proof. symmetry. apply Forall_fmap. Qed.

Lemma bg_add_ok g ts func arg : bg_holds g ts -> func <> 0 -> bg_holds (cfe_bg_add g func arg) (add_task ts func arg).
Proof.
  intros [H1 H2 H3 H4 H5] Hf. unfold cfe_bg_add, add_task. rewrite H1. apply funcs_nonzero in H5 as H5'. destruct (Nat.ltb_spec (length ts) MAX_BACKGROUND_TASKS) as [Hl|Hl].
  - replace (MAX_BACKGROUND_TASKS - length ts)%nat with (S (MAX_BACKGROUND_TASKS - S (length ts))) by lia. cbn [replicate].
    rewrite find_task_app, Nat.add_0_l by done. split; cbn [cfe_bg_tasklist cfe_bg_args].
    + rewrite map_app, length_app, insert_app_r_alt, Nat.sub_diag by done. rewrite <- app_assoc, Nat.add_1_r. done.
    + rewrite length_app, map_app, Nat.add_1_r, length_map. erewrite take_S_r by (apply list_lookup_insert_eq; lia). by rewrite take_insert_ge, H2 by lia.
    + by rewrite length_insert.
    + rewrite length_app, Nat.add_1_r. lia.
    + apply Forall_app. split; [done|]. by constructor.
  - assert (length ts = MAX_BACKGROUND_TASKS) as E by lia. pose proof (find_task_spec 0 (map fst ts ++ replicate (MAX_BACKGROUND_TASKS - length ts) 0) 0) as F.
    rewrite E, Nat.sub_diag in F |- *. cbn [replicate] in F |- *. rewrite app_nil_r in F |- *. destruct (find_task _ _ _) as [k|]; [|by split].
    destruct F as (l1 & l2 & _ & F & _). rewrite F in H5'. apply Forall_app in H5' as [_ H5']. by apply Forall_cons in H5' as [? _].
Qed.

Lemma split_at_task (ts : list (Z * Z)) l1 func l2 : func <> 0 -> map fst ts ++ replicate (MAX_BACKGROUND_TASKS - length ts) 0 = l1 ++ func :: l2 ->
  exists ts1 t ts2, ts = ts1 ++ t :: ts2 /\ map fst ts1 = l1 /\ t.1 = func /\ l2 = map fst ts2 ++ replicate (MAX_BACKGROUND_TASKS - length ts) 0.
Proof.
  intros Hf. generalize (MAX_BACKGROUND_TASKS - length ts)%nat. revert l1. induction ts as [|t ts IH]; intros l1 n E.
  - cbn in E. exfalso. apply Hf. assert (Hin : func ∈ replicate n 0) by (rewrite E; apply elem_of_app; right; left). by apply elem_of_replicate in Hin as [-> _].
  - destruct l1 as [|f l1]; cbn in E; injection E as E1 E2.
    + exists [], t, ts. by split.
    + destruct (IH l1 n E2) as (ts1 & u & ts2 & -> & <- & H & ->). exists (t :: ts1), u, ts2. cbn. by rewrite E1.
Qed.

Lemma bg_remove_ok g ts func : bg_holds g ts -> func <> 0 -> exists g', cfe_bg_remove g func = Some g' /\ bg_holds g' (remove_task ts func).
Proof.
  intros [H1 H2 H3 H4 H5] Hf. unfold cfe_bg_remove. rewrite H1. pose proof (find_task_spec func (map fst ts ++ replicate (MAX_BACKGROUND_TASKS - length ts) 0) 0) as F.
  destruct (find_task _ _ _) as [k|].
  2:{ exists g. split; [done|]. apply Forall_app in F as [F _]. by rewrite remove_none. }
  destruct F as (l1 & l2 & -> & F & F1). rewrite Nat.add_0_l. rewrite F. destruct (split_at_task ts l1 func l2 Hf F) as (ts1 & t & ts2 & -> & <- & Ht & El2).
  rewrite length_app, length_map in *. cbn [length] in *. set (n := (MAX_BACKGROUND_TASKS - (length ts1 + S (length ts2)))%nat) in *.
  assert (Hn : (MAX_BACKGROUND_TASKS - 1 - length ts1)%nat = length l2) by (rewrite El2, length_app, length_map, length_replicate; lia). rewrite Hn.
  rewrite <- (take_drop (length ts1) (cfe_bg_args g)). assert (Ha : length (take (length ts1) (cfe_bg_args g)) = length ts1) by (rewrite length_take; lia).
  destruct (drop (length ts1) (cfe_bg_args g)) as [|x b] eqn:Hd; [apply (f_equal length) in Hd; rewrite length_drop in Hd; cbn in Hd; lia|].
  assert (Hb : length b = length l2) by (apply (f_equal length) in Hd; rewrite length_drop in Hd; cbn in Hd; lia).
  pose proof (shift_clear (map fst ts1) func l2 0) as S1. pose proof (shift_clear (take (length ts1) (cfe_bg_args g)) x b 0) as S2.
  rewrite shift_down_spec in S1, S2. rewrite length_map, Ha, Hb in *. cbn [option_bind] in *. injection S1 as S1. injection S2 as S2.
  pose proof (shift_down_spec l2 (map fst ts1) func) as D1. pose proof (shift_down_spec b (take (length ts1) (cfe_bg_args g)) x) as D2.
  rewrite length_map in D1. rewrite Ha, Hb in D2. rewrite D1, D2. cbn [option_bind]. eexists. split; [reflexivity|]. rewrite S1, S2, remove_at by done.
  rewrite map_app in H2. cbn [map] in H2. assert (Hargs : take (length ts1) (cfe_bg_args g) = map snd ts1 /\ take (length ts2) b = map snd ts2).
  { rewrite <- (take_drop (length ts1) (cfe_bg_args g)), Hd in H2. rewrite take_app_ge, Ha in H2 by lia. replace (length ts1 + S (length ts2) - length ts1)%nat with (S (length ts2)) in H2 by lia.
    cbn [take] in H2. apply app_inj_1 in H2 as [E1 E2]; [|by rewrite length_map]. injection E2 as _ E2. done. }
  destruct Hargs as [A1 A2]. split; cbn [cfe_bg_tasklist cfe_bg_args].
  - rewrite El2, map_app, length_app, <- !app_assoc. f_equal. f_equal. fold n. rewrite <- replicate_S_end. f_equal. lia.
  - rewrite length_app, map_app, take_app_ge, Ha by lia. f_equal; [exact A1|]. replace (length ts1 + length ts2 - length ts1)%nat with (length ts2) by lia.
    rewrite take_app_le; [done|]. rewrite Hb, El2, length_app, length_map. lia.
  - rewrite !length_app, Ha. cbn. lia.
  - rewrite length_app. lia.
  - apply Forall_app in H5 as [H5 H6]. apply Forall_cons in H6 as [_ H6]. by apply Forall_app.
Qed.

(** * Running the tasks *)

Inductive bg_op := BgAdd (func arg : Z) | BgRemove (func : Z).
Definition bg_op_ok (o : bg_op) : Prop := match o with BgAdd func _ | BgRemove func => func <> 0 end.

Fixpoint bg_run (os : list bg_op) (g : bg_tasks) : option bg_tasks :=
  match os with
  | [] => Some g
  | BgAdd func arg :: os => bg_run os (cfe_bg_add g func arg)
  | BgRemove func :: os => let? g := cfe_bg_remove g func in bg_run os g
  end.

Fixpoint tasks_run (os : list bg_op) (ts : list (Z * Z)) : list (Z * Z) :=
  match os with
  | [] => ts
  | BgAdd func arg :: os => tasks_run os (add_task ts func arg)
  | BgRemove func :: os => tasks_run os (remove_task ts func)
  end.

Lemma bg_run_ok os : forall g ts, bg_holds g ts -> Forall bg_op_ok os -> exists g', bg_run os g = Some g' /\ bg_holds g' (tasks_run os ts).
Proof.
  induction os as [|[func arg|func] os IH]; intros g ts Hg Ho; [by exists g|..]; apply Forall_cons in Ho as [Hf Ho]; cbn [bg_run tasks_run].
  - by apply IH; [apply bg_add_ok|].
  - destruct (bg_remove_ok g ts func Hg Hf) as (g' & -> & Hg'). by apply IH.
Qed.

Section running.
Context {W : Type} (tasks_of : W -> bg_tasks) (call : Z -> Z -> W -> option W).

Fixpoint call_all (ts : list (Z * Z)) (w : W) : option W :=
  match ts with [] => Some w | t :: ts => let? w := call t.1 t.2 w in call_all ts w end.

Hypothesis calls_keep : forall func arg w w', call func arg w = Some w' -> tasks_of w' = tasks_of w.

Lemma arg_at g ts1 t ts2 : bg_holds g (ts1 ++ t :: ts2) -> cfe_bg_tasklist g !! length ts1 = Some t.1 /\ cfe_bg_args g !! length ts1 = Some t.2.
Proof.
  intros [H1 H2 _ _ _]. rewrite length_app in H2. cbn [length] in H2. split.
  - rewrite H1, map_app, <- app_assoc, lookup_app_r, length_map, Nat.sub_diag by (rewrite length_map; lia). done.
  - rewrite <- (lookup_take_lt _ (length ts1 + S (length ts2))) by lia. rewrite H2, map_app, lookup_app_r, length_map, Nat.sub_diag by (rewrite length_map; lia). done.
Qed.

Lemma background_from ts2 : forall ts1 w, bg_holds (tasks_of w) (ts1 ++ ts2) ->
  background_loop tasks_of call (MAX_BACKGROUND_TASKS - length ts1) (length ts1) w = call_all ts2 w.
Proof.
  induction ts2 as [|t ts2 IH]; intros ts1 w Hw; cbn [call_all].
  - rewrite app_nil_r in Hw. destruct Hw as [H1 _ _ H4 _]. destruct (MAX_BACKGROUND_TASKS - length ts1)%nat eqn:E; [done|]. cbn [background_loop].
    rewrite H1, lookup_app_r, length_map, Nat.sub_diag by (rewrite length_map; lia). done.
  - pose proof (bh_max _ _ Hw) as Hm. rewrite length_app in Hm. cbn [length] in Hm.
    replace (MAX_BACKGROUND_TASKS - length ts1)%nat with (S (MAX_BACKGROUND_TASKS - length (ts1 ++ [t]))) by (rewrite length_app; cbn [length]; lia).
    cbn [background_loop]. destruct (arg_at _ _ _ _ Hw) as [-> ->]. cbn [option_bind].
    pose proof (bh_funcs _ _ Hw) as Hf. apply Forall_app in Hf as [_ Hf]. apply Forall_cons in Hf as [Hf _]. rewrite (proj2 (Z.eqb_neq _ _)) by done.
    destruct (call t.1 t.2 w) as [w'|] eqn:Hc; [|done]. cbn [option_bind]. replace (S (length ts1)) with (length (ts1 ++ [t])) by (rewrite length_app; cbn; lia).
    apply IH. rewrite <- app_assoc, (calls_keep _ _ _ _ Hc). done.
Qed.

(** After any additions and removals one round runs the tasks that are left, each once and
    in the order in which they were added; no more than sixteen are kept, and a seventeenth is
    lost without a sign. *)
Theorem background_runs g os w : length (cfe_bg_args g) = MAX_BACKGROUND_TASKS -> Forall bg_op_ok os ->
  bg_run os (cfe_bg_init g) = Some (tasks_of w) ->
  (length (tasks_run os []) <= MAX_BACKGROUND_TASKS)%nat /\ background tasks_of call w = call_all (tasks_run os []) w.
Proof.
  intros Hg Ho Hr. destruct (bg_run_ok os _ [] (bg_init_ok g Hg) Ho) as (g' & E & H). rewrite E in Hr. injection Hr as ->.
  split; [exact (bh_max _ _ H)|]. exact (background_from (tasks_run os []) [] w H).
Qed.
End running.

(** * An example *)

(** Tasks that write their argument down, and one added after sixteen others. *)
Definition ex_log (func arg : Z) (w : bg_tasks * list Z) : option (bg_tasks * list Z) := Some (w.1, w.2 ++ [func; arg]).
Definition ex_bg : bg_tasks := Bg (replicate 16 5) (replicate 16 0).
Definition ex_bg_ops : list bg_op := [BgAdd 1 10; BgAdd 2 20; BgAdd 3 30; BgRemove 2; BgAdd 2 21; BgRemove 7].

Lemma background_runs_witness : exists g, bg_run ex_bg_ops (cfe_bg_init ex_bg) = Some g /\
  background fst ex_log (g, []) = Some (g, [1; 10; 3; 30; 2; 21]).
Proof.
  eexists. split; [vm_compute; reflexivity|]. set (g := Bg _ _).
  destruct (background_runs fst ex_log ltac:(intros func arg w w' E; injection E as <-; reflexivity) ex_bg ex_bg_ops (g, []) eq_refl) as [_ H].
  - unfold ex_bg_ops. repeat constructor; discriminate.
  - vm_compute. reflexivity.
  - rewrite H. reflexivity.
Defined.

Example seventeenth_lost : bg_run (map (fun k => BgAdd (Z.of_nat k) 0) (seq 1 17)) (cfe_bg_init ex_bg) =
  bg_run (map (fun k => BgAdd (Z.of_nat k) 0) (seq 1 16)) (cfe_bg_init ex_bg).
Proof. vm_compute. reflexivity. Qed.
