(* ===== verification/Icmp.v ===== *)
(** ICMP of the boot loader: cfe/cfe/net/net_icmp.c.

    The answers to echo requests and the ping command, over the class [IpLayer] of the calls
    into IP; what ping waits for arrives while it polls. *)

From S2P Require Import Prelude Background Ether Ip IpApi Tcp Udp.
From Stdlib Require Import ZArith Lia Bool List String.
From stdpp Require Import base numbers list.

#[local] Open Scope Z_scope.

Definition ICMP_CODE_ECHO := 0.
Definition ICMP_TYPE_ECHOREPLY := 0.
Definition ICMP_TYPE_ECHOREQ := 8.
Definition IPPROTO_ICMP := 1.
Definition ICMPMSG (type code : Z) : Z := Z.lor (Z.shiftl type 8) code.

Record icmp_info (W : Type) := Icmp { icmp_ipinfo : W; icmp_echoreplies : list ebuf; icmp_maxreplies : Z }.
Arguments Icmp {W}.
Arguments icmp_ipinfo {W}.
Arguments icmp_echoreplies {W}.
Arguments icmp_maxreplies {W}.

Section icmp.
Context {W : Type} `{IpLayer W}.
Abbreviation icmp_info := (icmp_info W).

Definition set_icmp_ip (ic : icmp_info) (ip : W) : icmp_info := Icmp ip (icmp_echoreplies ic) (icmp_maxreplies ic).
Definition set_replies (ic : icmp_info) (q : list ebuf) : icmp_info := Icmp (icmp_ipinfo ic) q (icmp_maxreplies ic).
Definition set_maxreplies (ic : icmp_info) (n : Z) : icmp_info := Icmp (icmp_ipinfo ic) (icmp_echoreplies ic) n.

(** The checksum of a message that starts at [icmphdr], put in its place. *)
Definition install_cksum (b : ebuf) (icmphdr : Z) : option ebuf :=
  let? cksum := chksum_at 0 b icmphdr (sint32 (eb_length b)) in
  let cksum := not16 cksum in
  eb_write b (icmphdr + 2) [Z.land (Z.shiftr cksum 8) 0xFF; Z.land cksum 0xFF].

(** The answer is never given back, since [ip_send] takes every buffer. *)
Definition icmp_rx_callback (ic : icmp_info) (buf : ebuf) (dst src : bytes) : option (rx_result * icmp_info) :=
  let? msg := eb_read buf (eb_ptr buf) 2 in
  let imsg := of_be msg in
  if imsg =? ICMPMSG ICMP_TYPE_ECHOREQ ICMP_CODE_ECHO then
    let? (txbuf, ip) := ip_alloc (icmp_ipinfo ic) in
    match txbuf with
    | None => Some (Dropped buf, set_icmp_ip ic ip)
    | Some txbuf =>
        let icmphdr := eb_ptr txbuf in
        let? s := eb_read buf (eb_ptr buf) (eb_length buf) in
        let? txbuf := ebuf_append_bytes txbuf s in
        let? txbuf := eb_write txbuf icmphdr [ICMP_TYPE_ECHOREPLY; ICMP_CODE_ECHO; 0; 0] in
        let? txbuf := install_cksum txbuf icmphdr in
        let? ip := ip_send ip txbuf src IPPROTO_ICMP in
        Some (Dropped buf, set_icmp_ip ic ip)
    end
  else if imsg =? ICMPMSG ICMP_TYPE_ECHOREPLY ICMP_CODE_ECHO then
    if Z.of_nat (length (icmp_echoreplies ic)) <? icmp_maxreplies ic
    then Some (Kept, set_replies ic (icmp_echoreplies ic ++ [buf]))
    else Some (Dropped buf, ic)
  else Some (Dropped buf, ic).

(** [got] is whether KMALLOC gave the structure. *)
Definition icmp_rx_cb := 5.
Definition _icmp_init (ip : W) (got : bool) (info : Z) : option icmp_info :=
  if negb got then None else Some (Icmp (ip_register ip IPPROTO_ICMP icmp_rx_cb info) [] 0).

(** What is left of the layer below; replies that are queued are forgotten. *)
Definition _icmp_uninit (ic : icmp_info) : W := ip_deregister (icmp_ipinfo ic) IPPROTO_ICMP.

(** The [n] bytes of data from number [idx] on. *)
Fixpoint append_data (n : nat) (idx : Z) (buf : ebuf) : option ebuf :=
  match n with
  | O => Some buf
  | S n => let? buf := ebuf_append_u8 buf (Z.land (idx + 0x40) 0xFF) in append_data n (idx + 1) buf
  end.

(** * Ping *)

(** The stack is a part of what changes while ping polls. *)
Context {V : Type} `{PollApi V} (icmp_of : V -> icmp_info) (set_icmp : V -> icmp_info -> V).

(** The checks of a reply: whether it is the one that is waited for, and the buffer then. *)
Definition reply_matches (buf : ebuf) (id seq : Z) : option (bool * ebuf) :=
  let? cksum := chksum_at 0 buf (eb_ptr buf) (sint32 (eb_length buf)) in
  if cksum =? 0xFFFF then
    let buf := ebuf_skip (ebuf_skip buf 2) 2 in
    let? (rxid, buf) := ebuf_get_u16_be buf in
    let? (rxseq, buf) := ebuf_get_u16_be buf in
    Some ((id =? rxid) && (wrap16 seq =? rxseq), buf)
  else Some (false, buf).

(** The loop's result, and the last value of [buf]: a packet that did not match has been
    freed by then. *)
Fixpoint ping_wait (fuel : nat) (w : V) (timer id seq : Z) (buf : option ebuf) : option (Z * option ebuf * V) :=
  if TIMER_EXPIRED (clock w) timer then Some (0, buf, w)
  else
    match fuel with
    | O => None
    | S fuel =>
        let? w := POLL w in
        let ic := icmp_of w in
        match icmp_echoreplies ic with
        | [] => ping_wait fuel w timer id seq None
        | b :: q =>
            let ic := set_replies ic q in
            let? (matched, b) := reply_matches b id seq in
            if matched then Some (1, Some b, set_icmp w ic)
            else ping_wait fuel (set_icmp w (set_icmp_ip ic (ip_free (icmp_ipinfo ic) b))) timer id seq (Some b)
        end
    end.

Definition _icmp_ping (fuel : nat) (w : V) (dest : bytes) (seq len : Z) : option (Z * V) :=
  let ic := icmp_of w in
  let? (buf, ip) := ip_alloc (icmp_ipinfo ic) in
  let ic := set_icmp_ip ic ip in
  match buf with
  | None => Some (-1, set_icmp w ic)
  | Some buf =>
      let icmphdr := eb_ptr buf in
      let id := wrap16 (clock w) in
      let? buf := ebuf_append_u8 buf 8 in
      let? buf := ebuf_append_u8 buf 0 in
      let? buf := ebuf_append_u16_be buf 0 in
      let? buf := ebuf_append_u16_be buf id in
      let? buf := ebuf_append_u16_be buf (wrap16 seq) in
      let? buf := append_data (Z.to_nat len) 0 buf in
      let? buf := install_cksum buf icmphdr in
      let ic := set_maxreplies ic 1 in
      let? ip := ip_send (icmp_ipinfo ic) buf dest IPPROTO_ICMP in
      let w := set_icmp w (set_icmp_ip ic ip) in
      let? (result, buf, w) := ping_wait fuel w (clock w + 2 * CFE_HZ) id seq None in
      let ic := set_maxreplies (icmp_of w) 0 in
      let ic := match buf with Some b => set_icmp_ip ic (ip_free (icmp_ipinfo ic) b) | None => ic end in
      Some (result, set_icmp w ic)
  end.
End icmp.

(** * Messages *)

Definition icmp_cksum (s : bytes) : Z := match ip_chksum 0 s with Some c => not16 c | None => 0 end.

(** A message of a type with the code 0, with its checksum. *)
Definition icmp_bytes (type : Z) (rest : bytes) : bytes := [type; 0] ++ be16 (icmp_cksum ([type; 0; 0; 0] ++ rest)) ++ rest.

Definition ping_data (len : Z) : bytes := map (fun k => Z.land (Z.of_nat k + 0x40) 0xFF) (seq 0 (Z.to_nat len)).
Definition ping_rest (id seq len : Z) : bytes := be16 id ++ be16 (wrap16 seq) ++ ping_data len.

Lemma icmp_cksum_range s : 0 <= icmp_cksum s < 65536.
Proof. unfold icmp_cksum. destruct (ip_chksum 0 s); [apply not16_range|lia]. Qed.

Lemma wsum_app2 a b s : wsum (a :: b :: s) = a * 256 + b + wsum s.
Proof. done. Qed.

Lemma be16_wsum c s : 0 <= c < 65536 -> wsum (be16 c ++ s) = c + wsum s.
Proof.
  intros Hc. unfold be16. cbn [app]. rewrite wsum_app2, !land_ff, Z.shiftr_div_pow2 by lia. change (2 ^ 8) with 256.
  rewrite (Z.mod_small (c / 256)); [pose proof (Z.div_mod c 256); lia|]. split; [apply Z.div_pos; lia|]. apply Z.div_lt_upper_bound; lia.
Qed.

Lemma be16_ok c : Forall byte_ok (be16 c).
Proof. unfold be16, byte_ok. rewrite !land_ff. repeat constructor; apply Z.mod_pos_bound; lia. Qed.

(** A message with its checksum adds up to all ones. *)
Lemma icmp_sealed type rest : byte_ok type -> Forall byte_ok rest -> Z.of_nat (length rest) <= 65000 ->
  ip_chksum 0 (icmp_bytes type rest) = Some 0xFFFF.
Proof.
  intros Ht Hr Hl. unfold icmp_bytes. set (z := [type; 0; 0; 0] ++ rest). pose proof (icmp_cksum_range z) as Hc. revert Hc.
  assert (Hz : Forall byte_ok z) by (unfold z; cbn [app]; repeat (apply Forall_cons; split; [unfold byte_ok in *; lia|]); done).
  assert (Hlz : Z.of_nat (length z) <= 65535) by (unfold z; rewrite length_app; cbn [length]; lia).
  unfold icmp_cksum. rewrite (ip_chksum_spec 0 z) by (done || lia). pose proof (wsum_bound z Hz) as Hw. cbv zeta. rewrite Z.add_0_l. intros Hc.
  assert (Hn : forall c, 0 <= c < 65536 -> not16 c = 65535 - c).
  { intros c H. unfold not16, wrap16. rewrite Z.lnot_eq_pred_opp. change (2 ^ 16) with 65536. symmetry. apply (Z.mod_unique_pos _ _ (-1)); lia. }
  set (c := if wsum z =? 0 then 0 else _) in *. pose proof (Z.mod_pos_bound (wsum z) 65535 ltac:(lia)) as Hm.
  assert (Hcr : 0 <= c < 65536 /\ c mod 65535 = wsum z mod 65535 /\ (wsum z = 0 -> c = 0)).
  { unfold c. destruct (Z.eqb_spec (wsum z) 0) as [->|]; [done|]. destruct (Z.eqb_spec (wsum z mod 65535) 0) as [E|]; [rewrite E; split; [lia|split; [done|lia]]|].
    rewrite Z.mod_mod by lia. split; [lia|]. split; [done|lia]. }
  destruct Hcr as (H1 & H2 & H3). rewrite Hn in * by done. rewrite ip_chksum_spec.
  - change ([type; 0] ++ be16 (65535 - c) ++ rest) with (type :: 0 :: (be16 (65535 - c) ++ rest)). rewrite wsum_app2, be16_wsum by lia.
    change (wsum z) with (type * 256 + 0 + (0 * 256 + 0 + wsum rest)) in *. set (t := type * 256 + 0 + _) in *.
    replace (0 + (type * 256 + 0 + (65535 - c + wsum rest))) with (t + (65535 - c)) by (unfold t; lia).
    rewrite (proj2 (Z.eqb_neq _ _)) by (destruct (Z.eq_dec t 0) as [E|]; [rewrite (H3 E)|]; lia). cbv zeta.
    replace ((t + (65535 - c)) mod 65535) with 0; [done|]. symmetry.
    rewrite Zplus_mod, (Zminus_mod 65535 c), H2, <- Zminus_mod, <- Zplus_mod. replace (t + (65535 - t)) with 65535 by lia. done.
  - cbn [app]. repeat (apply Forall_cons; split; [unfold byte_ok in *; lia|]). apply Forall_app. split; [apply be16_ok|done].
  - lia.
  - rewrite !length_app. cbn [length be16]. lia.
Qed.

(** The checksum of a message whose place for it holds zeros. *)
Lemma install_ok b0 b type rest : filled b0 b ([type; 0; 0; 0] ++ rest) ->
  exists b', install_cksum b (eb_ptr b) = Some b' /\ filled b0 b' (icmp_bytes type rest).
Proof.
  intros Hf. pose proof (filled_length _ _ _ Hf) as Hl. destruct Hf as [Hb Hp Hq Hs]. pose proof Hb as [B1 B2 B3 B4]. unfold eb_size in B4.
  unfold install_cksum, chksum_at. rewrite sint32_small by lia. rewrite (proj2 (Z.ltb_ge _ _)), read_payload, Hs by (done || lia). cbn [option_bind].
  destruct (ip_chksum_total 0 ([type; 0; 0; 0] ++ rest)) as (c & Hc & _); [lia|]. rewrite Hc. cbn [option_bind].
  change [Z.land (Z.shiftr (not16 c) 8) 0xFF; Z.land (not16 c) 0xFF] with (be16 (not16 c)).
  destruct (write_ok b 2 (be16 (not16 c)) Hb) as (b' & -> & H1 & [_ H2] & H3 & _ & H5); [lia|rewrite Hl, be16_length, length_app; cbn [length]; lia|].
  exists b'. split; [done|]. split; [done|congruence|congruence|]. rewrite H5, Hs. unfold icmp_bytes, icmp_cksum. by rewrite Hc.
Qed.

Section answers.
Context {W : Type} {IL : IpLayer W} {WL : IpLaws W}.
Abbreviation host := (icmp_info (recorded W)).

Definition icmp_sent (ic : host) : list (bytes * bytes) := rec_sent (icmp_ipinfo ic).

(** An echo request is answered to its sender with the same identifier, number and data and a
    good checksum, unless there is no buffer to be had; nothing else is ever sent. *)
Theorem echo_answer addr (ic : host) b dst src ck rest : rec_ok addr (icmp_ipinfo ic) -> holds b -> length src = 4%nat ->
  payload b = [ICMP_TYPE_ECHOREQ; 0] ++ ck ++ rest -> length ck = 2%nat -> Z.of_nat (length rest) <= 1482 ->
  exists ic', icmp_rx_callback ic b dst src = Some (Dropped b, ic') /\ rec_ok addr (icmp_ipinfo ic') /\
    icmp_echoreplies ic' = icmp_echoreplies ic /\ icmp_maxreplies ic' = icmp_maxreplies ic /\
    ((exists r, ip_alloc (icmp_ipinfo ic) = Some (None, r) /\ icmp_sent ic' = icmp_sent ic) \/
     icmp_sent ic' = icmp_sent ic ++ [(src, icmp_bytes ICMP_TYPE_ECHOREPLY rest)]).
Proof.
  intros Hr Hb Hsrc Hp Hck Hl. pose proof (payload_length b Hb) as Hpl. rewrite Hp, !length_app, Hck in Hpl. cbn [length] in Hpl.
  unfold icmp_rx_callback. rewrite payload_take, Hp by (done || lia). cbn [option_bind]. cbv zeta. change (of_be _ =? ICMPMSG ICMP_TYPE_ECHOREQ ICMP_CODE_ECHO) with true. cbv iota.
  destruct (rec_alloc addr _ Hr) as (o & r & E & Hr1 & Hs1 & Ho). rewrite E. cbn [option_bind]. unfold icmp_sent. destruct o as [tb|].
  2:{ eexists. split; [reflexivity|]. split; [done|]. split; [done|]. split; [done|]. left. by exists r. }
  destruct Ho as (H1 & H2 & H3 & H4). rewrite read_payload, Hp by done. cbn [option_bind].
  assert (Hf0 : filled tb tb []) by done. destruct (append_filled tb tb [] ([8; 0] ++ ck ++ rest) Hf0) as (b1 & E1 & F1).
  { rewrite H3, !app_nil_l, !length_app, Hck. cbn [length]. unfold eb_size. lia. }
  change ICMP_TYPE_ECHOREQ with 8. rewrite E1. cbn [option_bind app] in *.
  destruct (write_ok b1 0 [0; 0; 0; 0] (fl_holds _ _ _ F1)) as (b2 & E2 & G1 & [_ G2] & G3 & _ & G5); [lia|rewrite (filled_length _ _ _ F1); cbn [length]; rewrite length_app, Hck; lia|].
  rewrite Z.add_0_r, (fl_ptr _ _ _ F1) in E2. change [ICMP_TYPE_ECHOREPLY; ICMP_CODE_ECHO; 0; 0] with [0; 0; 0; 0]. rewrite E2. cbn [option_bind].
  assert (F2 : filled tb b2 ([0; 0; 0; 0] ++ rest)).
  { destruct F1 as [_ K2 K3 K4]. split; [done|congruence|congruence|]. rewrite G5, K4. destruct ck as [|c1 [|c2 [|]]]; done. }
  destruct (install_ok tb b2 0 rest F2) as (b3 & E3 & F3). rewrite (fl_ptr _ _ _ F2) in E3. rewrite E3. cbn [option_bind].
  destruct (rec_send addr r tb b3 src IPPROTO_ICMP _ Hr1 H2 H3 F3 Hsrc) as (r2 & -> & Hr2 & Hs2). cbn [option_bind].
  eexists. split; [reflexivity|]. split; [done|]. split; [done|]. split; [done|]. right. cbn [icmp_ipinfo set_icmp_ip]. by rewrite Hs2, Hs1.
Qed.
End answers.

(** A reply is recognised. *)
Lemma own_reply b id n len : holds b -> 0 <= id < 65536 -> 0 <= len <= 1400 -> payload b = icmp_bytes ICMP_TYPE_ECHOREPLY (ping_rest id n len) ->
  exists b', reply_matches b id n = Some (true, b') /\ sized b'.
Proof.
  intros Hb Hid Hlen Hp. pose proof (payload_length b Hb) as Hl. pose proof Hb as [B1 B2 B3 B4]. unfold eb_size in B4.
  unfold reply_matches, chksum_at. rewrite sint32_small by lia. rewrite (proj2 (Z.ltb_ge _ _)), read_payload, Hp by (done || lia). cbn [option_bind].
  assert (Hpd : Forall byte_ok (ping_data len)).
  { apply Forall_fmap, Forall_true. intros k. unfold compose, byte_ok. rewrite land_ff. apply Z.mod_pos_bound. lia. }
  assert (Hrest : Forall byte_ok (ping_rest id n len)) by (unfold ping_rest; repeat (apply Forall_app; split); try apply be16_ok; done).
  rewrite icmp_sealed; [|unfold byte_ok, ICMP_TYPE_ECHOREPLY; lia|done|].
  2:{ unfold ping_rest, ping_data. rewrite !length_app, length_map, length_seq. cbn [length be16]. lia. }
  cbn [option_bind]. rewrite Z.eqb_refl. destruct (next_bytes b 2 [0; 0] _ Hb Hp) as (H1 & _ & P1 & _); [done|].
  destruct (next_bytes _ 2 _ _ H1 P1) as (H2 & _ & P2 & _); [done|]. unfold ping_rest in P2.
  destruct (next_u16 _ _ _ H2 P2 Hid) as (-> & H3 & P3). cbn [option_bind]. destruct (next_u16 _ _ _ H3 P3 (wrap16_range n)) as (-> & H4 & P4). cbn [option_bind].
  rewrite !Z.eqb_refl. eexists. split; [reflexivity|]. apply H4.
Qed.

(** * Sending the request *)

Lemma append_data_ok b0 n : forall idx b s, filled b0 b s -> eb_ptr b0 + Z.of_nat (length s) + Z.of_nat n <= Z.of_nat eb_size ->
  exists b', append_data n (Z.of_nat idx) b = Some b' /\ filled b0 b' (s ++ map (fun k => Z.land (Z.of_nat k + 0x40) 0xFF) (seq idx n)).
Proof.
  induction n as [|n IH]; intros idx b s Hf Hl; cbn [append_data seq map].
  - exists b. by rewrite app_nil_r.
  - unfold ebuf_append_u8. destruct (append_filled b0 b s [wrap8 (Z.land (Z.of_nat idx + 0x40) 0xFF)] Hf) as (b1 & -> & F1); [rewrite length_app; cbn [length]; lia|].
    cbn [option_bind]. replace (Z.of_nat idx + 1) with (Z.of_nat (S idx)) by lia. destruct (IH (S idx) b1 _ F1) as (b2 & -> & F2); [rewrite length_app; cbn [length]; lia|].
    exists b2. split; [done|]. rewrite <- app_assoc in F2. replace (wrap8 _) with (Z.land (Z.of_nat idx + 64) 255) in F2; [exact F2|].
    rewrite land_ff. unfold wrap8. change (2 ^ 8) with 256. by rewrite Z.mod_mod by lia.
Qed.

Lemma request_ok b id n len : holds b -> eb_ptr b = 34 -> payload b = [] -> 0 <= len <= 1400 ->
  exists b', filled b b' (icmp_bytes ICMP_TYPE_ECHOREQ (ping_rest id n len)) /\ forall A (k : ebuf -> option A),
  (let? buf := ebuf_append_u8 b 8 in
   let? buf := ebuf_append_u8 buf 0 in
   let? buf := ebuf_append_u16_be buf 0 in
   let? buf := ebuf_append_u16_be buf id in
   let? buf := ebuf_append_u16_be buf (wrap16 n) in
   let? buf := append_data (Z.to_nat len) 0 buf in
   let? buf := install_cksum buf (eb_ptr b) in k buf) = k b'.
Proof.
  intros Hb Hq Hp Hl. assert (F0 : filled b b []) by done. unfold ebuf_append_u8, ebuf_append_u16_be.
  destruct (append_filled b b [] [wrap8 8] F0) as (b1 & E1 & F1); [cbn; unfold eb_size; lia|]. cbn [app] in F1.
  destruct (append_filled b b1 _ [wrap8 0] F1) as (b2 & E2 & F2); [cbn; unfold eb_size; lia|]. cbn [app] in F2.
  destruct (append_filled b b2 _ (be16 0) F2) as (b3 & E3 & F3); [cbn; unfold eb_size; lia|]. cbn [app] in F3.
  destruct (append_filled b b3 _ (be16 id) F3) as (b4 & E4 & F4); [cbn; unfold eb_size; lia|].
  destruct (append_filled b b4 _ (be16 (wrap16 n)) F4) as (b5 & E5 & F5); [cbn; unfold eb_size; lia|].
  destruct (append_data_ok b (Z.to_nat len) 0 b5 _ F5) as (b6 & E6 & F6); [cbn; unfold eb_size; lia|]. change (Z.of_nat 0) with 0 in E6.
  assert (F7 : filled b b6 ([ICMP_TYPE_ECHOREQ; 0; 0; 0] ++ ping_rest id n len)).
  { destruct F6 as [K1 K2 K3 K4]. split; [done..|]. rewrite K4. unfold ping_rest, ping_data. by rewrite <- !app_assoc. }
  destruct (install_ok b b6 _ _ F7) as (b7 & E7 & F8). rewrite (fl_ptr _ _ _ F7) in E7. exists b7. split; [exact F8|]. intros A k.
  rewrite E1. cbn [option_bind]. rewrite E2. cbn [option_bind]. rewrite E3. cbn [option_bind]. rewrite E4. cbn [option_bind].
  rewrite E5. cbn [option_bind]. rewrite E6. cbn [option_bind]. by rewrite E7.
Qed.

(** * Waiting for the reply *)

Section ping.
Context {W : Type} {IL : IpLayer W} {WL : IpLaws W}.
Abbreviation host := (icmp_info (recorded W)).
Context {V : Type} {PA : PollApi V} {PL : PollLaws V} (icmp_of : V -> host) (set_icmp : V -> host -> V).
Context (addr : bytes).

(** Packets in the queue are as IP passes them up. *)
Record icmp_ok (ic : host) : Prop := {
  ico_ip : rec_ok addr (icmp_ipinfo ic);
  ico_replies : Forall (fun b => holds b /\ eb_ptr b + 8 <= Z.of_nat eb_size) (icmp_echoreplies ic)
}.

(** The stack is a part of the world, and polling keeps it in order. *)
Hypothesis get_set : forall w ic, icmp_of (set_icmp w ic) = ic.
Hypothesis clock_set : forall w ic, clock (set_icmp w ic) = clock w.
Hypothesis world_ok : forall w, polling_ok w -> icmp_ok (icmp_of w).
Hypothesis set_ok : forall w ic t, polling_ok w -> icmp_ok ic -> polling_ok (set_icmp w ic) /\ polls_until t (set_icmp w ic) = polls_until t w.

Lemma rec_free_ok (r : recorded W) b : rec_ok addr r -> sized b -> rec_ok addr (ip_free r b) /\ rec_sent (ip_free r b) = rec_sent r.
Proof. intros [H1 H2] Hb. destruct (law_free (rec_ip r) b H1 Hb) as (L1 & L2 & _). split; [|done]. split; [done|]. change (ip_getaddr (ip_free (rec_ip r) b) = addr). by rewrite L2. Qed.

Lemma icmp_free_ok ic b : icmp_ok ic -> sized b -> icmp_ok (set_icmp_ip ic (ip_free (icmp_ipinfo ic) b)).
Proof. intros [H1 H2] Hb. split; [|done]. by apply rec_free_ok. Qed.

Lemma reply_total b id n : holds b -> eb_ptr b + 8 <= Z.of_nat eb_size -> exists m b', reply_matches b id n = Some (m, b') /\ sized b'.
Proof.
  intros Hb Hq. pose proof Hb as [B1 B2 B3 B4]. unfold eb_size in B4. unfold reply_matches, chksum_at. rewrite sint32_small by lia.
  rewrite (proj2 (Z.ltb_ge _ _)), read_payload by (done || lia). cbn [option_bind]. destruct (ip_chksum_total 0 (payload b)) as (c & -> & _); [lia|]. cbn [option_bind].
  destruct (c =? 0xFFFF); [|by exists false, b]. unfold ebuf_get_u16_be, ebuf_get_bytes.
  do 2 (rewrite eb_read_ok by (done || (cbn; lia)); cbn [option_bind]). eexists _, _. by split.
Qed.

(** The wait ends, whatever arrives. *)
Lemma wait_ends timer id n : 0 < timer -> forall k w buf, (polls_until timer w <= k)%nat -> polling_ok w -> match buf with Some b => sized b | None => True end ->
  exists r buf' w', ping_wait icmp_of set_icmp (S k) w timer id n buf = Some (r, buf', w') /\ (r = 0 \/ r = 1) /\ polling_ok w' /\
    match buf' with Some b => sized b | None => True end.
Proof.
  intros Ht. induction k as [k IH] using lt_wf_ind. intros w buf Hk Hw Hbuf. cbn [ping_wait]. destruct (TIMER_EXPIRED (clock w) timer) eqn:Ex.
  { eexists _, _, _. split; [reflexivity|]. split; [by left|done]. }
  assert (Hc : clock w <= timer).
  { unfold TIMER_EXPIRED, truthy in Ex. rewrite (proj2 (Z.eqb_neq timer 0)) in Ex by lia. cbn [negb andb] in Ex. by apply Z.ltb_ge in Ex. }
  destruct (law_poll timer w Hw Hc) as (w1 & -> & Hw1 & Hd). cbn [option_bind]. pose proof (world_ok w1 Hw1) as [I1 I2]. destruct k as [|k]; [lia|].
  destruct (icmp_echoreplies (icmp_of w1)) as [|b q] eqn:Eq; [apply IH; [lia|lia|done|done]|]. apply Forall_cons in I2 as [[Ib Iq] I2].
  destruct (reply_total b id n Ib Iq) as (m & b' & -> & Hb'). cbn [option_bind]. assert (Hs : icmp_ok (set_replies (icmp_of w1) q)) by (by split).
  destruct m.
  - eexists _, _, _. split; [reflexivity|]. split; [by right|]. split; [by apply (set_ok w1 _ timer)|done].
  - destruct (set_ok w1 _ timer Hw1 (icmp_free_ok _ b' Hs Hb')) as [G1 G2]. apply IH; [lia|lia|done|done].
Qed.

(** What ping does before and after it waits. *)
Lemma ping_sends w dest n len : icmp_ok (icmp_of w) -> length dest = 4%nat -> 0 <= len <= 1400 ->
  (exists ic, (forall fuel, _icmp_ping icmp_of set_icmp fuel w dest n len = Some (-1, set_icmp w ic)) /\ icmp_ok ic /\
    exists r, ip_alloc (icmp_ipinfo (icmp_of w)) = Some (None, r)) \/
  exists ic, icmp_ok ic /\ icmp_sent ic = icmp_sent (icmp_of w) ++ [(dest, icmp_bytes ICMP_TYPE_ECHOREQ (ping_rest (wrap16 (clock w)) n len))] /\
    icmp_maxreplies ic = 1 /\ icmp_echoreplies ic = icmp_echoreplies (icmp_of w) /\
    forall fuel, _icmp_ping icmp_of set_icmp fuel w dest n len =
      let? (result, buf, w) := ping_wait icmp_of set_icmp fuel (set_icmp w ic) (clock w + 20) (wrap16 (clock w)) n None in
      let ic := set_maxreplies (icmp_of w) 0 in
      let ic := match buf with Some b => set_icmp_ip ic (ip_free (icmp_ipinfo ic) b) | None => ic end in
      Some (result, set_icmp w ic).
Proof.
  intros [H1 H2] Hd Hl. unfold _icmp_ping. destruct (rec_alloc addr _ H1) as (o & r & -> & Hr & Hs & Ho). cbn [option_bind].
  destruct o as [b|]; [|left; exists (set_icmp_ip (icmp_of w) r); split; [done|]; split; [by split|by exists r]]. right. destruct Ho as (B1 & B2 & B3 & B4).
  set (ic0 := set_maxreplies (set_icmp_ip (icmp_of w) r) 1).
  destruct (request_ok b (wrap16 (clock w)) n len B1 B3 B4 Hl) as (b' & Fb & E).
  destruct (rec_send addr r b b' dest IPPROTO_ICMP _ Hr B2 B3 Fb Hd) as (r2 & E2 & Hr2 & Hs2).
  exists (set_icmp_ip ic0 r2). split; [by split|]. split; [unfold icmp_sent; cbn [icmp_ipinfo set_icmp_ip]; by rewrite Hs2, Hs|]. split; [done|]. split; [done|].
  intros fuel. cbv zeta. rewrite E. cbn [icmp_ipinfo set_icmp_ip set_maxreplies ic0]. rewrite E2. cbn [option_bind]. by rewrite clock_set.
Qed.

(** Ping comes to an end whatever arrives while it waits, with 1 for an answer, 0 for none and
    -1 when no buffer could be had, and leaves the stack in order. *)
Theorem ping_ends w dest n len : polling_ok w -> 0 <= clock w -> length dest = 4%nat -> 0 <= len <= 1400 ->
  exists fuel r w', _icmp_ping icmp_of set_icmp fuel w dest n len = Some (r, w') /\ (r = -1 \/ r = 0 \/ r = 1) /\ polling_ok w' /\ icmp_ok (icmp_of w').
Proof.
  intros Hw Hc Hd Hl. set (t := clock w + 20). exists (S (polls_until t w)).
  destruct (ping_sends w dest n len (world_ok w Hw) Hd Hl) as [(ic & -> & Hic & _)|(ic & Hic & _ & _ & _ & ->)].
  { destruct (set_ok w ic t Hw Hic) as [G1 _]. eexists _, _. split; [reflexivity|]. split; [by left|]. split; [done|by apply world_ok]. }
  destruct (set_ok w ic t Hw Hic) as [G1 G2]. destruct (wait_ends t (wrap16 (clock w)) n ltac:(lia) (polls_until t w) (set_icmp w ic) None) as (r & buf & w2 & E & Hr & Hw2 & Hb); [lia|done|done|].
  fold t. rewrite E. cbn [option_bind]. cbv zeta. assert (Hok : icmp_ok (set_maxreplies (icmp_of w2) 0)) by (destruct (world_ok w2 Hw2); by split).
  assert (Hok2 : icmp_ok (match buf with Some b => set_icmp_ip (set_maxreplies (icmp_of w2) 0) (ip_free (icmp_ipinfo (set_maxreplies (icmp_of w2) 0)) b) | None => set_maxreplies (icmp_of w2) 0 end)) by (destruct buf; [by apply icmp_free_ok|done]).
  eexists _, _. split; [reflexivity|]. split; [by right|]. destruct (set_ok w2 _ t Hw2 Hok2) as [G3 _]. split; [exact G3|by apply world_ok].
Qed.

(** While ping polls, nothing comes at first, and then a packet. *)
Inductive comes (timer : Z) (b : ebuf) : V -> V -> Prop :=
| CNow w w' q : TIMER_EXPIRED (clock w) timer = false -> POLL w = Some w' -> icmp_echoreplies (icmp_of w') = b :: q -> comes timer b w w'
| CLater w w1 w' : TIMER_EXPIRED (clock w) timer = false -> POLL w = Some w1 -> icmp_echoreplies (icmp_of w1) = [] -> comes timer b w1 w' -> comes timer b w w'.

Lemma wait_gets timer id n b w w' : comes timer b w w' -> forall b', reply_matches b id n = Some (true, b') -> forall buf,
  exists fuel, ping_wait icmp_of set_icmp fuel w timer id n buf = Some (1, Some b', set_icmp w' (set_replies (icmp_of w') (tail (icmp_echoreplies (icmp_of w'))))).
Proof.
  induction 1 as [w w' q Ex Hp Hq|w w1 w' Ex Hp Hq _ IH]; intros b' Hm buf.
  - exists 1%nat. cbn [ping_wait]. rewrite Ex, Hp. cbn [option_bind]. rewrite Hq, Hm. done.
  - destruct (IH b' Hm None) as [fuel E]. exists (S fuel). cbn [ping_wait]. rewrite Ex, Hp. cbn [option_bind]. by rewrite Hq, E.
Qed.

(** C29 A ping of another host is answered and the answer is recognised: the far host answers the
    request that ping sends (of at most 1400 bytes), each of them unless it has no packet buffer,
    and if a packet with the bytes of that answer is the first that comes in
    time, ping says that the host is alive and takes no more replies. *)
Theorem ping_round_trip w dest n len : icmp_ok (icmp_of w) -> length dest = 4%nat -> 0 <= len <= 1400 ->
  let rest := ping_rest (wrap16 (clock w)) n len in
  (exists r, ip_alloc (icmp_ipinfo (icmp_of w)) = Some (None, r)) \/
  exists ic, icmp_sent ic = icmp_sent (icmp_of w) ++ [(dest, icmp_bytes ICMP_TYPE_ECHOREQ rest)] /\
    icmp_maxreplies ic = 1 /\ icmp_echoreplies ic = icmp_echoreplies (icmp_of w) /\
    forall (far : host) faraddr fb, rec_ok faraddr (icmp_ipinfo far) -> length addr = 4%nat -> holds fb -> payload fb = icmp_bytes ICMP_TYPE_ECHOREQ rest ->
    exists far', icmp_rx_callback far fb dest addr = Some (Dropped fb, far') /\
      ((exists r, ip_alloc (icmp_ipinfo far) = Some (None, r)) \/
       exists answer, icmp_sent far' = icmp_sent far ++ [(addr, answer)] /\
         forall b w2, holds b -> payload b = answer -> comes (clock w + 20) b (set_icmp w ic) w2 ->
         exists fuel w', _icmp_ping icmp_of set_icmp fuel w dest n len = Some (1, w') /\ icmp_maxreplies (icmp_of w') = 0).
Proof.
  intros Hok Hd Hl. cbv zeta. destruct (ping_sends w dest n len Hok Hd Hl) as [(ic & _ & _ & Hn)|(ic & _ & Hs & Hmax & Hq & Hping)]; [by left|right].
  exists ic. split; [done|]. split; [done|]. split; [done|].
  intros far faraddr fb Hfar Ha Hfb Hfp.
  destruct (echo_answer faraddr far fb dest addr _ _ Hfar Hfb Ha Hfp (be16_length _)) as (far' & -> & _ & _ & _ & Hans).
  { unfold ping_rest, ping_data. rewrite !length_app, length_map, length_seq. cbn [length be16]. lia. }
  exists far'. split; [done|]. destruct Hans as [(r' & E & _)|Hans]; [left; by exists r'|]. right. eexists. split; [exact Hans|].
  intros b w2 Hb Hbp Hcomes. destruct (own_reply b (wrap16 (clock w)) n len Hb (wrap16_range _) Hl Hbp) as (b' & Hm & _).
  destruct (wait_gets _ _ n b _ _ Hcomes b' Hm None) as [fuel E]. exists fuel. rewrite Hping, E. cbn [option_bind]. cbv zeta. eexists. split; [reflexivity|]. by rewrite get_set.
Qed.
End ping.

(** * Examples *)

(** A world where the clock counts the polls and some of them bring a packet. *)
Record quiet := Quiet { qt_icmp : icmp_info (recorded ip_info); qt_now : Z; qt_script : list (option ebuf) }.
Definition qt_set (w : quiet) (ic : icmp_info (recorded ip_info)) : quiet := Quiet ic (qt_now w) (qt_script w).
Definition qt_arrive (ic : icmp_info (recorded ip_info)) (o : option ebuf) : icmp_info (recorded ip_info) :=
  match o with
  | Some b => if Z.of_nat (length (icmp_echoreplies ic)) <? icmp_maxreplies ic then set_replies ic (icmp_echoreplies ic ++ [b]) else ic
  | None => ic
  end.

#[local] Instance quiet_polls : PollApi quiet := {
  clock := qt_now;
  POLL w := match qt_script w with
            | [] => Some (Quiet (qt_icmp w) (qt_now w + 1) [])
            | o :: s => Some (Quiet (qt_arrive (qt_icmp w) o) (qt_now w + 1) s)
            end
}.

Definition arrival_ok (o : option ebuf) : Prop := match o with Some b => holds b /\ eb_ptr b + 8 <= Z.of_nat eb_size | None => True end.
Definition ex_addr : bytes := [10; 0; 0; 1].

#[local] Instance quiet_laws : PollLaws quiet.
Proof.
  refine {| polling_ok w := icmp_ok ex_addr (qt_icmp w) /\ Forall arrival_ok (qt_script w); polls_until t w := Z.to_nat (t + 1 - qt_now w) |}.
  intros t [ic now s] [[H1 H2] Hs] Ht. cbn in *. destruct s as [|o s]; cbn; eexists; (split; [reflexivity|]); cbn; (split; [|lia]); [split; [by split|constructor]|].
  apply Forall_cons in Hs as [Ho Hs]. split; [|done]. destruct o as [b|]; cbn [qt_arrive]; [|by split]. destruct (_ <? _); [|by split].
  split; [done|]. cbn. apply Forall_app. split; [done|]. by constructor.
Defined.

Lemma quiet_set_ok w ic t : polling_ok w -> icmp_ok ex_addr ic -> polling_ok (qt_set w ic) /\ polls_until t (qt_set w ic) = polls_until t w.
Proof. intros [_ H] Hic. by repeat split; try apply Hic. Qed.

Definition ex_icmp (i : ip_info) : icmp_info (recorded ip_info) := Icmp (Rec (_ip_register i IPPROTO_ICMP icmp_rx_cb 0) []) [] 0.
Definition ex_answer : bytes := icmp_bytes ICMP_TYPE_ECHOREPLY (ping_rest 7 1 4).
Definition ex_quiet : quiet := Quiet (ex_icmp ex_near) 7 [None; Some (ex_hold 1 34 ex_answer); None].

Lemma ex_icmp_ok : icmp_ok ex_addr (ex_icmp ex_near).
Proof. split; [|constructor]. split; [|vm_compute; reflexivity]. apply (set_protocols_ok ex_near). exact ex_near_ok. Qed.

Lemma ex_quiet_ok : polling_ok ex_quiet.
Proof.
  split; [exact ex_icmp_ok|]. destruct (ex_hold_ok 1 34 ex_answer) as [Hb _]; [lia|vm_compute; discriminate|].
  apply Forall_cons; split; [exact I|]. apply Forall_cons; split; [split; [exact Hb|vm_compute; discriminate]|]. apply Forall_cons; split; [exact I|constructor].
Qed.

Lemma ping_ends_witness : exists fuel r w', _icmp_ping qt_icmp qt_set fuel ex_quiet [10; 0; 0; 2] 2 4 = Some (r, w') /\ (r = -1 \/ r = 0 \/ r = 1).
Proof.
  destruct (ping_ends (PA := quiet_polls) (PL := quiet_laws) qt_icmp qt_set ex_addr ltac:(reflexivity) ltac:(intros w H; apply H) quiet_set_ok ex_quiet [10; 0; 0; 2] 2 4 ex_quiet_ok)
    as (fuel & r & w' & E & H & _); [vm_compute; discriminate|reflexivity|lia|]. exists fuel, r, w'. by split.
Defined.

Definition ex_request : bytes := icmp_bytes ICMP_TYPE_ECHOREQ (ping_rest 7 1 4).

Lemma ex_far_icmp_ok : rec_ok [10; 0; 0; 2] (icmp_ipinfo (ex_icmp ex_far)).
Proof. split; [|vm_compute; reflexivity]. apply (set_protocols_ok ex_far). exact ex_far_ok. Qed.

Lemma ping_round_trip_witness : exists fuel w', _icmp_ping qt_icmp qt_set fuel ex_quiet [10; 0; 0; 2] 1 4 = Some (1, w') /\ icmp_maxreplies (qt_icmp w') = 0.
Proof.
  destruct (ping_round_trip (PA := quiet_polls) qt_icmp qt_set ex_addr ltac:(reflexivity) ltac:(reflexivity)
    ex_quiet [10; 0; 0; 2] 1 4 ex_icmp_ok eq_refl ltac:(lia)) as [(r & H)|(ic & Hs & Hmax & Hq & H)]; [vm_compute in H; discriminate|].
  destruct (ex_hold_ok 1 34 ex_request) as [Hb Hp]; [lia|vm_compute; discriminate|].
  destruct (H (ex_icmp ex_far) [10; 0; 0; 2] (ex_hold 1 34 ex_request) ex_far_icmp_ok eq_refl Hb Hp) as (far' & E & [(r & H')|(ans & Ha & Hfin)]); [vm_compute in H'; discriminate|].
  assert (Hans : match icmp_rx_callback (ex_icmp ex_far) (ex_hold 1 34 ex_request) [10; 0; 0; 2] ex_addr with Some (_, f) => icmp_sent f | None => [] end = [(ex_addr, ex_answer)])
    by (vm_compute; reflexivity).
  rewrite E, Ha in Hans. change (icmp_sent (ex_icmp ex_far)) with (@nil (bytes * bytes)) in Hans. cbn [app] in Hans. injection Hans as ->.
  destruct (ex_hold_ok 1 34 ex_answer) as [Hb2 Hp2]; [lia|vm_compute; discriminate|]. change (icmp_echoreplies (qt_icmp ex_quiet)) with (@nil ebuf) in Hq.
  apply (Hfin (ex_hold 1 34 ex_answer) (Quiet (set_replies ic [ex_hold 1 34 ex_answer]) 9 [None]) Hb2 Hp2).
  apply (CLater qt_icmp _ _ _ (Quiet ic 8 [Some (ex_hold 1 34 ex_answer); None])); [reflexivity|reflexivity|exact Hq|].
  apply (CNow qt_icmp _ _ _ _ []); [reflexivity| |reflexivity]. cbn. by rewrite Hq, Hmax.
Defined.

(** * A packet freed twice *)

(** The stack of a host that runs [net_poll] for the frames that come. *)
Record live := Live { lv_icmp : icmp_info ip_info; lv_now : Z; lv_frames : list rx_input }.
Definition lv_set (w : live) (ic : icmp_info ip_info) : live := Live ic (lv_now w) (lv_frames w).
Definition lv_protocol (cb ref : Z) (w : live) (b : ebuf) (dst src : bytes) : option (rx_result * live) :=
  if cb =? icmp_rx_cb then let? (r, ic) := icmp_rx_callback (lv_icmp w) b dst src in Some (r, lv_set w ic) else Some (Dropped b, w).

#[local] Instance live_polls : PollApi live := {
  clock := lv_now;
  POLL w := let w1 := Live (lv_icmp w) (lv_now w + 1) (tail (lv_frames w)) in
            net_poll (fun w => icmp_ipinfo (lv_icmp w)) (fun w i => lv_set w (set_icmp_ip (lv_icmp w) i)) lv_protocol w1 (default NoInput (head (lv_frames w)))
}.

(** The answer to another ping comes with the last poll before the time is up. *)
Definition ex_reply_frame (id : Z) : rx_input :=
  RxFrame (ip_frame ex_far ex_hw ex_addr (icmp_bytes ICMP_TYPE_ECHOREPLY (ping_rest id 1 4)) IPPROTO_ICMP ++ replicate 14 0).
Definition ex_live (frames : list rx_input) : live :=
  Live (Icmp (_ip_register ex_near IPPROTO_ICMP icmp_rx_cb 0) [] 0) 7 frames.
Definition lv_free (w : live) : list Z := free_addrs (eth_info (icmp_ipinfo (lv_icmp w))).

Definition ex_ping (frames : list rx_input) : option (Z * list Z * Z) :=
  match _icmp_ping lv_icmp lv_set 60 (ex_live frames) [10; 0; 0; 2] 1 4 with Some (r, w) => Some (r, lv_free w, lv_now w) | None => None end.

(** The far host answers at once, after a packet of another ping, or not at all. *)
Example ping_whole_stack :
  option_map (fun x => (x.1.1, x.2)) (ex_ping [ex_reply_frame 7]) = Some (1, 8) /\
  option_map (fun x => (x.1.1, x.2)) (ex_ping [NoInput; ex_reply_frame 6; ex_reply_frame 7]) = Some (1, 10) /\
  option_map (fun x => (x.1.1, x.2)) (ex_ping []) = Some (0, 28).
Proof. vm_compute. done. Qed.

(** The packet that does not match is freed in the loop, the time is up, and [buf] still points to it
    when what is left over is freed: a buffer is then twice in the list of free ones, nine
    buffers in a pool of eight. *)
Example ping_frees_twice : exists free,
  ex_ping (replicate 20 NoInput ++ [ex_reply_frame 6]) = Some (0, free ++ [12096; 12096], 28) /\ length free = 7%nat /\ length (lv_free (ex_live [])) = 8%nat.
Proof. exists [13696; 15296; 4096; 7296; 5696; 8896; 10496]. vm_compute. done. Qed.

(** The length of a message is what the IP header says, whatever the frame's length is: a request of
    four bytes that says to have 1400 is answered with what an earlier packet left in
    the buffer, and one that says to have more than a buffer holds makes the copy leave it. *)
Definition ex_claim (len : Z) : ebuf := ebuf_setlength (ex_hold 1 34 ([8; 0; 0; 0] ++ replicate 1400 7)) len.
Definition ex_leak : list (bytes * bytes) :=
  match icmp_rx_callback (ex_icmp ex_far) (ex_claim 1400) [10; 0; 0; 2] ex_addr with Some (_, f) => icmp_sent f | None => [] end.

Example echo_of_claimed_length :
  map (fun m => drop 4 m.2) ex_leak = [replicate 1396 7] /\
  icmp_rx_callback (ex_icmp ex_far) (ex_claim 2000) [10; 0; 0; 2] ex_addr = None /\
  (exists b, ip_parse ex_far (ex_hold 1 14 (ip_header 2020 1 IPPROTO_ICMP (be16 (header_chksum 2020 1 IPPROTO_ICMP ex_addr [10; 0; 0; 2])) ex_addr [10; 0; 0; 2] ++ [8; 0; 0; 0])) =
     Some (IpData IPPROTO_ICMP [10; 0; 0; 2] ex_addr b) /\ eb_length b = 2000).
Proof. vm_compute. split; [done|]. split; [done|]. by eexists. Qed.
