(* ===== verification/Dns.v ===== *)
(** Names of the boot loader: cfe/cfe/net/net_dns.c, and lib_parseipaddr of
    cfe/cfe/lib/lib_misc.c.

    A lookup over the class [UdpApi] of the calls of net_api.c and [DnsApi] of the others
    that it makes; it polls while it waits. *)

From S2P Require Import Prelude Background Ether Ip IpApi Tcp Udp Tftp TftpFile Filesys.
From Stdlib Require Import ZArith Lia Bool List Ascii String.
From stdpp Require Import base numbers list.

#[local] Open Scope Z_scope.

Definition UDP_PORT_DNS := 53.
Definition DNS_FLG_QUERY := 0x0000.
Definition DNS_FLG_RESPONSE := 0x8000.
Definition DNS_OPCODE_QUERY := 0x0000.
Definition DNS_FLG_RD := 0x0100.
Definition DNS_RCODE_MASK := 0x000F.
Definition DNS_RCODE_OK := 0x0000.
Definition QTYPE_HOSTADDR := 1.
Definition QCLASS_INTERNET := 1.
Definition DNS_QUERY_TIMEOUT := 1.
Definition DNS_RETRY_COUNT : nat := 8.
Definition CFE_ERR_HOSTUNKNOWN := -20.
Definition CFE_ERR_NETDOWN := -23.
Definition CFE_ERR_NONAMESERVER := -24.

(** What a lookup calls besides. *)
Class DnsApi (W : Type) := {
  udp_recv : W -> Z -> option (option datagram * W);
  net_getparam : W -> ip_param -> option bytes
}.

(** * Addresses in text *)

Definition strchr (s : bytes) (c : Z) : option bytes := let? (_, rest) := split_at (Z.eqb c) s in Some rest.

(** [None] is the code's -1. *)
Definition lib_parseipaddr (ipaddr : bytes) : option bytes :=
  assert! forallb (fun c => (c =? ch "."%char) || ((ch "0"%char <=? c) && (c <=? ch "9"%char))) ipaddr in
  let a := lib_atoi ipaddr in
  let? x := strchr ipaddr (ch "."%char) in
  let b := lib_atoi x in
  let? x := strchr x (ch "."%char) in
  let c := lib_atoi x in
  let? x := strchr x (ch "."%char) in
  let d := lib_atoi x in
  let bad v := (v <? 0) || (255 <? v) in
  if bad a || bad b || bad c || bad d then None else Some [wrap8 a; wrap8 b; wrap8 c; wrap8 d].

(** * Queries *)

(** The name in pieces, each behind its length. *)
Fixpoint append_labels (fuel : nat) (buf : ebuf) (ptr : bytes) : option ebuf :=
  match split_at (Z.eqb (ch "."%char)) ptr with
  | Some (l, rest) =>
      match fuel with
      | O => None
      | S fuel =>
          let? buf := ebuf_append_u8 buf (Z.of_nat (length l)) in
          let? buf := ebuf_append_bytes buf l in append_labels fuel buf rest
      end
  | None =>
      let? buf := ebuf_append_u8 buf (Z.of_nat (length ptr)) in ebuf_append_bytes buf ptr
  end.

Definition dns_query (buf : ebuf) (id : Z) (hostname : bytes) : option ebuf :=
  let? buf := ebuf_append_u16_be buf id in
  let? buf := ebuf_append_u16_be buf (Z.lor (Z.lor DNS_FLG_QUERY DNS_OPCODE_QUERY) DNS_FLG_RD) in
  let? buf := ebuf_append_u16_be buf 1 in
  let? buf := ebuf_append_u16_be buf 0 in
  let? buf := ebuf_append_u16_be buf 0 in
  let? buf := ebuf_append_u16_be buf 0 in
  let? buf := append_labels (length hostname) buf hostname in
  let? buf := ebuf_append_u8 buf 0 in
  let? buf := ebuf_append_u16_be buf QTYPE_HOSTADDR in
  ebuf_append_u16_be buf QCLASS_INTERNET.

(** * Replies *)

(** What is made of a datagram: dropped, no such name, or an address; and the buffer, to be
    freed. *)
Inductive dns_reply := DnsDrop (b : ebuf) | DnsNameErr (b : ebuf) | DnsAddr (a : bytes) (b : ebuf).

(** The name of a question; it may lead to the goto, as the second result says.  The length
    is unsigned: it is only found to be at its end when it is zero.  Each round takes
    a byte of the data, so [eb_size] rounds are enough. *)
Fixpoint skip_name (fuel : nat) (buf : ebuf) : option (ebuf * bool) :=
  match fuel with
  | O => None
  | S fuel =>
      let? (tmpb, buf) := ebuf_get_u8 buf in
      if tmpb =? 0 then Some (buf, false)
      else
        let buf := ebuf_skip buf tmpb in
        if eb_length buf <=? 0 then Some (buf, true) else skip_name fuel buf
  end.

Fixpoint skip_questions (nqr : nat) (buf : ebuf) : option (ebuf * bool) :=
  match nqr with
  | O => Some (buf, false)
  | S nqr =>
      if eb_length buf <=? 0 then Some (buf, true)
      else
        let? (buf, drop) := skip_name (S eb_size) buf in
        if drop then Some (buf, true)
        else skip_questions nqr (ebuf_skip (ebuf_skip buf 2) 2)
  end.

(** The records up to the first that has an address. *)
Fixpoint find_answer (nar : nat) (buf : ebuf) : option dns_reply :=
  match nar with
  | O => Some (DnsDrop buf)
  | S nar =>
      let? (rname, buf) := ebuf_get_u16_be buf in
      let? (rtype, buf) := ebuf_get_u16_be buf in
      let? (rclass, buf) := ebuf_get_u16_be buf in
      let buf := ebuf_skip buf 4 in
      let? (dlen, buf) := ebuf_get_u16_be buf in
      if negb (rtype =? QTYPE_HOSTADDR) then find_answer nar (ebuf_skip buf dlen)
      else if negb (rclass =? QCLASS_INTERNET) then find_answer nar (ebuf_skip buf dlen)
      else if negb (dlen =? IP_ADDR_LEN) then find_answer nar (ebuf_skip buf dlen)
      else let? (ipaddr, buf) := ebuf_get_bytes buf IP_ADDR_LEN in Some (DnsAddr ipaddr buf)
  end.

Definition dns_read (buf : ebuf) (id : Z) : option dns_reply :=
  let? (tmp, buf) := ebuf_get_u16_be buf in
  if negb (id =? tmp) then Some (DnsDrop buf)
  else
    let? (tmp, buf) := ebuf_get_u16_be buf in
    if Z.land tmp DNS_FLG_RESPONSE =? 0 then Some (DnsDrop buf)
    else if negb (Z.land tmp DNS_RCODE_MASK =? DNS_RCODE_OK) then Some (DnsNameErr buf)
    else
      let? (nqr, buf) := ebuf_get_u16_be buf in
      let? (nar, buf) := ebuf_get_u16_be buf in
      let? (nns, buf) := ebuf_get_u16_be buf in
      let? (nxr, buf) := ebuf_get_u16_be buf in
      if nar =? 0 then Some (DnsDrop buf)
      else
        let? (buf, drop) := skip_questions (Z.to_nat nqr) buf in
        if drop then Some (DnsDrop buf) else find_answer (Z.to_nat nar) buf.

(** * Lookups *)

Section dns.
Context {W : Type} `{UdpApi W} `{DnsApi W} `{PollApi W}.

(** Whether the time was up, the number of results, and the address. *)
Fixpoint dns_wait (fuel : nat) (w : W) (s timer id : Z) (ipaddr : bytes) : option (bool * Z * bytes * W) :=
  if TIMER_EXPIRED (clock w) timer then Some (true, 0, ipaddr, w)
  else
    match fuel with
    | O => None
    | S fuel =>
        let? w := POLL w in
        let? (d, w) := udp_recv w s in
        match d with
        | None => dns_wait fuel w s timer id ipaddr
        | Some d =>
            let? r := dns_read (dg_buf d) id in
            match r with
            | DnsDrop b => dns_wait fuel (udp_free w b) s timer id ipaddr
            | DnsNameErr b => Some (false, 0, ipaddr, udp_free w b)
            | DnsAddr a b => Some (false, 1, a, udp_free w b)
            end
        end
    end.

Definition dns_dolookup (fuel : nat) (w : W) (s : Z) (server hostname ipaddr : bytes) : option (Z * bytes * W) :=
  let id := wrap16 (clock w) in
  let? (buf, w) := udp_alloc w in
  let? buf := buf in
  let? buf := dns_query buf id hostname in
  let? (_, w) := udp_send w s buf server in
  let? (expired, nres, ipaddr, w) := dns_wait fuel w s (clock w + DNS_QUERY_TIMEOUT * CFE_HZ) id ipaddr in
  if (expired : bool) then Some (CFE_ERR_TIMEOUT, ipaddr, w)
  else if nres =? 0 then Some (CFE_ERR_HOSTUNKNOWN, ipaddr, w)
  else Some (nres, ipaddr, w).

Fixpoint lookup_loop (retries : nat) (fuel : nat) (w : W) (s : Z) (server hostname ipaddr : bytes) (nres : Z) : option (Z * bytes * W) :=
  match retries with
  | O => Some (nres, ipaddr, w)
  | S retries =>
      let? (nres, ipaddr, w) := dns_dolookup fuel w s server hostname ipaddr in
      if nres =? CFE_ERR_TIMEOUT then lookup_loop retries fuel w s server hostname ipaddr nres
      else if 0 <=? nres then Some (nres, ipaddr, w)
      else lookup_loop retries fuel w s server hostname ipaddr nres
  end.

(** The name with the domain is put in an array of 100 bytes. *)
Definition add_domain (w : W) (hostname : bytes) : option bytes :=
  match strchr hostname (ch "."%char) with
  | Some _ => Some hostname
  | None =>
      match net_getparam w NET_DOMAIN with
      | None => Some hostname
      | Some tok => let name := hostname ++ [ch "."%char] ++ tok in assert! Z.of_nat (length name) <? 100 in Some name
      end
  end.

Definition dns_lookup (fuel : nat) (w : W) (hostname ipaddr : bytes) : option (Z * bytes * W) :=
  match lib_parseipaddr hostname with
  | Some a => Some (1, a, w)
  | None =>
      let? hostname := add_domain w hostname in
      match net_getparam w NET_NAMESERVER with
      | None => Some (CFE_ERR_NETDOWN, ipaddr, w)
      | Some server =>
          if ip_addriszero server then Some (CFE_ERR_NONAMESERVER, ipaddr, w)
          else
            let? (s, w) := udp_socket w UDP_PORT_DNS in
            if s <? 0 then Some (CFE_ERR_NOHANDLES, ipaddr, w)
            else
              let? (nres, ipaddr, w) := lookup_loop DNS_RETRY_COUNT fuel w s server hostname ipaddr 0 in
              let? w := udp_close w s in
              Some (nres, ipaddr, w)
      end
  end.
End dns.

(** * Addresses *)

(** A byte in decimal, and an address with dots. *)
Definition dec (n : Z) : bytes :=
  if n <? 10 then [48 + n] else if n <? 100 then [48 + n / 10; 48 + n mod 10] else [48 + n / 100; 48 + n / 10 mod 10; 48 + n mod 10].
Definition dotted (a b c d : Z) : bytes := dec a ++ ch "."%char :: dec b ++ ch "."%char :: dec c ++ ch "."%char :: dec d.

(** A property of each byte. *)
Ltac each_byte := let l := eval vm_compute in (seqZ 0 256) in change (seqZ 0 256) with l.

Lemma byte_cases (P : Z -> Prop) : Forall P (seqZ 0 256) -> forall n, byte_ok n -> P n.
Proof. intros H n Hn. rewrite Forall_forall in H. apply H, elem_of_seqZ. unfold byte_ok in Hn. lia. Qed.

Lemma atoi_dec n : byte_ok n -> (forall s, lib_atoi (dec n ++ ch "."%char :: s) = n) /\ lib_atoi (dec n) = n.
Proof.
  revert n. apply byte_cases. each_byte. repeat (apply Forall_cons; split; [split; reflexivity|]). constructor.
Qed.

Definition addr_char (c : Z) : bool := (c =? ch "."%char) || ((ch "0"%char <=? c) && (c <=? ch "9"%char)).

Lemma dec_chars n : byte_ok n -> forallb addr_char (dec n) = true /\ split_at (Z.eqb (ch "."%char)) (dec n) = None.
Proof. revert n. apply byte_cases. each_byte. repeat (apply Forall_cons; split; [split; reflexivity|]). constructor. Qed.

Lemma split_at_dot a s : split_at (Z.eqb (ch "."%char)) a = None -> split_at (Z.eqb (ch "."%char)) (a ++ ch "."%char :: s) = Some (a, s).
Proof.
  induction a as [|c a IH]; intros H; [done|]. cbn [split_at app] in *. destruct (Z.eqb _ c); [done|]. rewrite IH; [done|]. by destruct (split_at _ a) as [[]|].
Qed.

(** Reading an address that is written with dots gives the address. *)
Theorem parse_dotted a b c d : Forall byte_ok [a; b; c; d] -> lib_parseipaddr (dotted a b c d) = Some [a; b; c; d].
Proof.
  rewrite !Forall_cons. intros (Ha & Hb & Hc & Hd & _). unfold lib_parseipaddr, dotted, strchr. fold addr_char.
  destruct (dec_chars a Ha) as [Ca Ea], (dec_chars b Hb) as [Cb Eb], (dec_chars c Hc) as [Cc Ec], (dec_chars d Hd) as [Cd _].
  do 3 (rewrite forallb_app; cbn [forallb]). rewrite Ca, Cb, Cc, Cd. cbn [andb]. change (addr_char (ch "."%char)) with true. cbn [andb].
  do 3 (rewrite split_at_dot by done; cbn [option_bind]).
  rewrite (proj1 (atoi_dec a Ha)), (proj1 (atoi_dec b Hb)), (proj1 (atoi_dec c Hc)), (proj2 (atoi_dec d Hd)). unfold byte_ok in *.
  rewrite !(proj2 (Z.ltb_ge _ _)) by lia. cbn [orb]. unfold wrap8. rewrite !Z.mod_small by (change (2 ^ 8) with 256; lia). done.
Qed.

(** Parts may be missing, numbers may be too large for an int, and what is behind the fourth part
    is not looked at. *)
Example parse_strange :
  lib_parseipaddr [46; 46; 46] = Some [0; 0; 0; 0] /\
  lib_parseipaddr (dotted 10 0 255 1 ++ [46; 46; 50; 52]) = Some [10; 0; 255; 1] /\
  lib_parseipaddr ([52; 50; 57; 52; 57; 54; 55; 50; 57; 55] ++ [46; 49; 46; 49; 46; 49]) = Some [1; 1; 1; 1].
Proof. vm_compute. done. Qed.

(** * The packets *)

Definition name_bytes (ls : list bytes) : bytes := concat (map (fun l => Z.of_nat (length l) :: l) ls) ++ [0].
Definition label_ok (l : bytes) : Prop := 0 < Z.of_nat (length l) < 256.

(** A question, and a resource record. *)
Record question := Qn { q_name : list bytes; q_type : Z; q_class : Z }.
Record rr := Rr { rr_name : Z; rr_type : Z; rr_class : Z; rr_ttl : bytes; rr_data : bytes }.

Definition question_bytes (q : question) : bytes := name_bytes (q_name q) ++ be16 (q_type q) ++ be16 (q_class q).
Definition rr_bytes (r : rr) : bytes :=
  be16 (rr_name r) ++ be16 (rr_type r) ++ be16 (rr_class r) ++ rr_ttl r ++ be16 (Z.of_nat (length (rr_data r))) ++ rr_data r.

(** A reply: its flags, the questions and the answers; what is behind is not looked at. *)
Record reply := Reply { r_id : Z; r_flags : Z; r_questions : list question; r_answers : list rr; r_ns : Z; r_ar : Z; r_tail : bytes }.

Definition reply_bytes (r : reply) : bytes :=
  be16 (r_id r) ++ be16 (r_flags r) ++ be16 (Z.of_nat (length (r_questions r))) ++ be16 (Z.of_nat (length (r_answers r))) ++ be16 (r_ns r) ++ be16 (r_ar r) ++
  concat (map question_bytes (r_questions r)) ++ concat (map rr_bytes (r_answers r)) ++ r_tail r.

Definition u16 (v : Z) : Prop := 0 <= v < 65536.
Record rr_ok (r : rr) : Prop := {
  rk_name : u16 (rr_name r); rk_type : u16 (rr_type r); rk_class : u16 (rr_class r);
  rk_ttl : length (rr_ttl r) = 4%nat; rk_data : Z.of_nat (length (rr_data r)) < 65536
}.
Record reply_ok (r : reply) : Prop := {
  ro_id : u16 (r_id r); ro_flags : u16 (r_flags r); ro_ns : u16 (r_ns r); ro_ar : u16 (r_ar r);
  ro_nq : Z.of_nat (length (r_questions r)) < 65536; ro_na : Z.of_nat (length (r_answers r)) < 65536;
  ro_questions : Forall (fun q => Forall label_ok (q_name q)) (r_questions r);
  ro_answers : Forall rr_ok (r_answers r)
}.

(** The record that is looked for, and what a reply says. *)
Definition host_rr (r : rr) : bool := (rr_type r =? QTYPE_HOSTADDR) && (rr_class r =? QCLASS_INTERNET) && (Z.of_nat (length (rr_data r)) =? IP_ADDR_LEN).

Inductive said := SaysNothing | SaysUnknown | SaysAddr (a : bytes).

Definition reply_says (id : Z) (r : reply) : said :=
  if negb (id =? r_id r) then SaysNothing
  else if Z.land (r_flags r) DNS_FLG_RESPONSE =? 0 then SaysNothing
  else if negb (Z.land (r_flags r) DNS_RCODE_MASK =? DNS_RCODE_OK) then SaysUnknown
  else match List.find host_rr (r_answers r) with Some a => SaysAddr (rr_data a) | None => SaysNothing end.

Definition as_reply (s : said) (b : ebuf) : dns_reply :=
  match s with SaysNothing => DnsDrop b | SaysUnknown => DnsNameErr b | SaysAddr a => DnsAddr a b end.

(** * Reading them *)

Lemma next_u8 b c Q : holds b -> payload b = c :: Q -> ebuf_get_u8 b = Some (c, ebuf_skip b 1) /\ holds (ebuf_skip b 1) /\ payload (ebuf_skip b 1) = Q.
Proof. intros Hb HP. destruct (next_bytes b 1 [c] Q Hb HP) as (H1 & _ & H3 & H4); [done|]. unfold ebuf_get_u8. rewrite H4. by split. Qed.

Lemma more_left b c Q : holds b -> payload b = c :: Q -> (eb_length b <=? 0) = false.
Proof. intros Hb HP. apply Z.leb_gt. rewrite <- (payload_length b Hb), HP. cbn [length]. lia. Qed.

Lemma name_cons ls : exists c Q, name_bytes ls = c :: Q.
Proof. destruct ls as [|l ls]; eexists _, _; reflexivity. Qed.

Lemma skip_name_ok ls : forall fuel b Q, Forall label_ok ls -> (length ls < fuel)%nat -> holds b -> payload b = name_bytes ls ++ Q ->
  exists b', skip_name fuel b = Some (b', false) /\ holds b' /\ payload b' = Q.
Proof.
  induction ls as [|l ls IH]; intros [|fuel] b Q Hls Hf Hb Hp; cbn [length] in Hf; try lia; cbn [skip_name].
  - destruct (next_u8 b 0 Q Hb Hp) as (-> & H1 & H2). cbn [option_bind]. by eexists.
  - apply Forall_cons in Hls as [[Hl1 Hl2] Hls]. unfold name_bytes in Hp. cbn [map concat app] in Hp. rewrite <- !app_assoc in Hp. rewrite app_assoc in Hp.
    rewrite <- app_assoc in Hp. destruct (next_u8 b _ _ Hb Hp) as (-> & H1 & P1). cbn [option_bind]. rewrite (proj2 (Z.eqb_neq _ _)) by lia.
    destruct (next_bytes _ _ l _ H1 P1 eq_refl) as (H2 & _ & P2 & _). cbv zeta. rewrite app_assoc in P2. change (payload (ebuf_skip (ebuf_skip b 1) (Z.of_nat (length l))) = name_bytes ls ++ Q) in P2.
    destruct (name_cons ls) as (c & Q' & Ec). pose proof P2 as P2'. rewrite Ec in P2'. rewrite (more_left _ _ _ H2 P2'). apply (IH fuel _ Q Hls); [lia|done|done].
Qed.

Lemma name_length ls : (length ls < length (name_bytes ls))%nat.
Proof.
  unfold name_bytes. rewrite length_app. cbn [length]. assert (length ls <= length (concat (map (fun l => Z.of_nat (length l) :: l) ls)))%nat; [|lia].
  induction ls as [|l ls IH]; cbn [map concat length app]; [lia|]. rewrite length_app. lia.
Qed.

Lemma skip_questions_ok qs : forall b Q, Forall (fun q => Forall label_ok (q_name q)) qs -> holds b -> payload b = concat (map question_bytes qs) ++ Q ->
  exists b', skip_questions (length qs) b = Some (b', false) /\ holds b' /\ payload b' = Q.
Proof.
  induction qs as [|q qs IH]; intros b Q Hqs Hb Hp; cbn [skip_questions length map concat] in *; [by exists b|]. apply Forall_cons in Hqs as [Hq Hqs].
  unfold question_bytes in Hp. rewrite <- !app_assoc in Hp. destruct (name_cons (q_name q)) as (c & Q' & Ec). pose proof Hp as Hp'. rewrite Ec in Hp'.
  rewrite (more_left _ _ _ Hb Hp'). assert (Hf : (length (q_name q) < S eb_size)%nat).
  { pose proof (name_length (q_name q)) as Hn. pose proof (payload_length b Hb) as Hl. rewrite Hp, length_app in Hl. pose proof Hb as [B1 B2 B3 B4]. unfold eb_size in *. lia. }
  destruct (skip_name_ok _ _ b _ Hq Hf Hb Hp) as (b1 & -> & H1 & P1). cbn [option_bind].
  destruct (next_bytes b1 2 _ _ H1 P1) as (H2 & _ & P2 & _); [done|]. destruct (next_bytes _ 2 _ _ H2 P2) as (H3 & _ & P3 & _); [done|]. by apply IH.
Qed.

(** The fields of a record. *)
Lemma rr_fields {A} r b Q (k : Z -> Z -> Z -> ebuf -> option A) : rr_ok r -> holds b -> payload b = rr_bytes r ++ Q ->
  exists b', holds b' /\ payload b' = rr_data r ++ Q /\
  (let? (rname, buf) := ebuf_get_u16_be b in
   let? (rtype, buf) := ebuf_get_u16_be buf in
   let? (rclass, buf) := ebuf_get_u16_be buf in
   let buf := ebuf_skip buf 4 in
   let? (dlen, buf) := ebuf_get_u16_be buf in k rtype rclass dlen buf) = k (rr_type r) (rr_class r) (Z.of_nat (length (rr_data r))) b'.
Proof.
  intros [R1 R2 R3 R4 R5] Hb Hp. unfold rr_bytes in Hp. rewrite <- !app_assoc in Hp. unfold u16 in *.
  destruct (next_u16 b _ _ Hb Hp R1) as (-> & H1 & P1). cbn [option_bind]. destruct (next_u16 _ _ _ H1 P1 R2) as (-> & H2 & P2). cbn [option_bind].
  destruct (next_u16 _ _ _ H2 P2 R3) as (-> & H3 & P3). cbn [option_bind]. destruct (next_bytes _ 4 _ _ H3 P3) as (H4 & _ & P4 & _); [by rewrite R4|]. cbv zeta.
  destruct (next_u16 _ _ _ H4 P4) as (-> & H5 & P5); [lia|]. cbn [option_bind]. by eexists.
Qed.

Lemma find_answer_ok rs : forall b Q, Forall rr_ok rs -> holds b -> payload b = concat (map rr_bytes rs) ++ Q ->
  exists b', find_answer (length rs) b = Some (match List.find host_rr rs with Some a => DnsAddr (rr_data a) b' | None => DnsDrop b' end) /\ sized b'.
Proof.
  induction rs as [|r rs IH]; intros b Q Hrs Hb Hp; cbn [length map concat List.find] in *; [exists b; split; [done|apply Hb]|].
  apply Forall_cons in Hrs as [Hr Hrs]. rewrite <- app_assoc in Hp.
  destruct (rr_fields r b _ (fun rtype rclass dlen buf =>
      if negb (rtype =? QTYPE_HOSTADDR) then find_answer (length rs) (ebuf_skip buf dlen)
      else if negb (rclass =? QCLASS_INTERNET) then find_answer (length rs) (ebuf_skip buf dlen)
      else if negb (dlen =? IP_ADDR_LEN) then find_answer (length rs) (ebuf_skip buf dlen)
      else let? (ipaddr, buf) := ebuf_get_bytes buf IP_ADDR_LEN in Some (DnsAddr ipaddr buf)) Hr Hb Hp) as (b1 & H1 & P1 & E).
  match type of E with _ = ?R => change (find_answer (S (length rs)) b = R) in E end. rewrite E. clear E.
  destruct (next_bytes b1 _ _ _ H1 P1 eq_refl) as (H2 & _ & P2 & G2). pose proof (IH _ _ Hrs H2 P2) as Hrest. unfold host_rr at 1.
  destruct (rr_type r =? QTYPE_HOSTADDR); cbn [negb andb]; [|exact Hrest]. destruct (rr_class r =? QCLASS_INTERNET); cbn [negb andb]; [|exact Hrest].
  destruct (Z.eqb_spec (Z.of_nat (length (rr_data r))) IP_ADDR_LEN) as [Hl|]; cbn [negb]; [|exact Hrest].
  rewrite <- Hl, G2. cbn [option_bind]. eexists. split; [reflexivity|]. apply H2.
Qed.

Lemma dns_read_ok b id r : reply_ok r -> holds b -> payload b = reply_bytes r -> exists b', dns_read b id = Some (as_reply (reply_says id r) b') /\ sized b'.
Proof.
  intros [R1 R2 R3 R4 R5 R6 R7 R8] Hb Hp. unfold dns_read, reply_says, reply_bytes, u16 in *.
  destruct (next_u16 b _ _ Hb Hp R1) as (-> & H1 & P1). cbn [option_bind]. destruct (negb (id =? r_id r)); [eexists; split; [reflexivity|apply H1]|].
  destruct (next_u16 _ _ _ H1 P1 R2) as (-> & H2 & P2). cbn [option_bind]. destruct (_ =? 0); [eexists; split; [reflexivity|apply H2]|].
  destruct (negb _); [eexists; split; [reflexivity|apply H2]|].
  destruct (next_u16 _ _ _ H2 P2) as (-> & H3 & P3); [lia|]. cbn [option_bind]. destruct (next_u16 _ _ _ H3 P3) as (-> & H4 & P4); [lia|]. cbn [option_bind].
  destruct (next_u16 _ _ _ H4 P4 R3) as (-> & H5 & P5). cbn [option_bind]. destruct (next_u16 _ _ _ H5 P5 R4) as (-> & H6 & P6). cbn [option_bind].
  rewrite !Nat2Z.id. destruct (Z.eqb_spec (Z.of_nat (length (r_answers r))) 0) as [Hz|Hz].
  { destruct (r_answers r); [|cbn in Hz; lia]. eexists. split; [reflexivity|apply H6]. }
  destruct (skip_questions_ok _ _ _ R7 H6 P6) as (b' & -> & H7 & P7). cbn [option_bind]. destruct (find_answer_ok _ _ _ R8 H7 P7) as (b2 & -> & Hs).
  exists b2. split; [|done]. by destruct (List.find _ _).
Qed.

(** * The query *)

Fixpoint labels (s : bytes) : list bytes :=
  match s with
  | [] => [[]]
  | c :: s => if ch "."%char =? c then [] :: labels s else match labels s with l :: ls => (c :: l) :: ls | [] => [[c]] end
  end.

Definition query_bytes (id : Z) (name : bytes) : bytes :=
  be16 id ++ be16 DNS_FLG_RD ++ be16 1 ++ be16 0 ++ be16 0 ++ be16 0 ++ question_bytes (Qn (labels name) QTYPE_HOSTADDR QCLASS_INTERNET).

Lemma labels_split s : match split_at (Z.eqb (ch "."%char)) s with Some (l, rest) => labels s = l :: labels rest /\ length s = S (length l + length rest) | None => labels s = [s] end.
Proof.
  induction s as [|c s IH]; [done|]. cbn [split_at labels]. destruct (ch "."%char =? c); [done|].
  destruct (split_at _ s) as [[l rest]|]; cbn [option_bind]; [destruct IH as [-> IH]; split; [done|cbn [length]; lia]|by rewrite IH].
Qed.

Lemma append_labels_ok b0 fuel : forall s b p, filled b0 b p -> (length s <= fuel)%nat -> Z.of_nat (length s) < 256 ->
  eb_ptr b0 + Z.of_nat (length p) + Z.of_nat (length s) + 1 <= Z.of_nat eb_size ->
  exists b', append_labels fuel b s = Some b' /\ filled b0 b' (p ++ concat (map (fun l => Z.of_nat (length l) :: l) (labels s))).
Proof.
  induction fuel as [|fuel IH]; intros s b p Hb Hf Hl Hr; cbn [append_labels]; pose proof (labels_split s) as H; destruct (split_at _ s) as [[l rest]|].
  - destruct H as [_ H]. lia.
  - rewrite H. cbn [map concat]. rewrite app_nil_r. destruct s; [|cbn in Hf; lia]. unfold ebuf_append_u8.
    destruct (append_filled b0 b p [wrap8 (Z.of_nat (length (@nil Z)))] Hb) as (b1 & -> & F1); [rewrite length_app; cbn [length] in *; lia|]. cbn [option_bind].
    destruct (append_filled b0 b1 _ [] F1) as (b2 & -> & F2); [rewrite app_nil_r, length_app; cbn [length] in *; lia|]. exists b2. split; [done|]. by rewrite app_nil_r in F2.
  - destruct H as [-> H]. cbn [map concat]. unfold ebuf_append_u8.
    destruct (append_filled b0 b p [wrap8 (Z.of_nat (length l))] Hb) as (b1 & -> & F1); [rewrite length_app; cbn [length]; lia|]. cbn [option_bind].
    destruct (append_filled b0 b1 _ l F1) as (b2 & -> & F2); [rewrite !length_app; cbn [length]; lia|]. cbn [option_bind].
    assert (Hw : wrap8 (Z.of_nat (length l)) = Z.of_nat (length l)) by (unfold wrap8; apply Z.mod_small; change (2 ^ 8) with 256; lia). rewrite Hw in F2.
    destruct (IH rest b2 _ F2) as (b3 & -> & F3); [lia|lia|rewrite !length_app; cbn [length]; lia|]. exists b3. split; [done|].
    cbn [app]. by rewrite <- !app_assoc in F3.
  - rewrite H. cbn [map concat]. rewrite app_nil_r. unfold ebuf_append_u8.
    destruct (append_filled b0 b p [wrap8 (Z.of_nat (length s))] Hb) as (b1 & -> & F1); [rewrite length_app; cbn [length]; lia|]. cbn [option_bind].
    destruct (append_filled b0 b1 _ s F1) as (b2 & -> & F2); [rewrite !length_app; cbn [length]; lia|]. exists b2. split; [done|].
    assert (Hw : wrap8 (Z.of_nat (length s)) = Z.of_nat (length s)) by (unfold wrap8; apply Z.mod_small; change (2 ^ 8) with 256; lia). rewrite Hw in F2. by rewrite <- app_assoc in F2.
Qed.

Lemma labels_length s : length (concat (map (fun l : bytes => Z.of_nat (length l) :: l) (labels s))) = S (length s).
Proof.
  induction s as [|c s IH]; [done|]. cbn [labels]. destruct (ch "."%char =? c); [cbn [map concat app length]; by rewrite IH|].
  destruct (labels s) as [|l ls]; [done|]. cbn [map concat app length] in *. rewrite length_app in *. lia.
Qed.

Lemma dns_query_ok b0 b id name : filled b0 b [] -> eb_ptr b0 <= 100 -> Z.of_nat (length name) < 256 ->
  exists b', dns_query b id name = Some b' /\ filled b0 b' (query_bytes id name).
Proof.
  intros F0 Hq Hl. unfold dns_query, ebuf_append_u16_be. change (Z.lor (Z.lor DNS_FLG_QUERY DNS_OPCODE_QUERY) DNS_FLG_RD) with DNS_FLG_RD.
  pose proof (labels_length name) as Hll. set (n := concat _) in Hll.
  destruct (append_filled b0 b _ (be16 id) F0) as (b1 & -> & F1); [cbn; unfold eb_size; lia|]. cbn [option_bind].
  destruct (append_filled b0 b1 _ (be16 DNS_FLG_RD) F1) as (b2 & -> & F2); [cbn; unfold eb_size; lia|]. cbn [option_bind].
  destruct (append_filled b0 b2 _ (be16 1) F2) as (b3 & -> & F3); [cbn; unfold eb_size; lia|]. cbn [option_bind].
  destruct (append_filled b0 b3 _ (be16 0) F3) as (b4 & -> & F4); [cbn; unfold eb_size; lia|]. cbn [option_bind].
  destruct (append_filled b0 b4 _ (be16 0) F4) as (b5 & -> & F5); [cbn; unfold eb_size; lia|]. cbn [option_bind].
  destruct (append_filled b0 b5 _ (be16 0) F5) as (b6 & -> & F6); [cbn; unfold eb_size; lia|]. cbn [option_bind].
  destruct (append_labels_ok b0 (length name) name b6 _ F6) as (b7 & -> & F7); [lia|lia|cbn; unfold eb_size; lia|]. fold n in F7. cbn [option_bind]. unfold ebuf_append_u8.
  set (h := _ ++ n) in F7. assert (Hh : length h = (12 + S (length name))%nat) by (unfold h; rewrite length_app, Hll; done).
  destruct (append_filled b0 b7 _ [wrap8 0] F7) as (b8 & -> & F8); [rewrite length_app, Hh; cbn [length]; unfold eb_size; lia|]. cbn [option_bind].
  destruct (append_filled b0 b8 _ (be16 QTYPE_HOSTADDR) F8) as (b9 & -> & F9); [rewrite !length_app, Hh; cbn [length be16]; unfold eb_size; lia|]. cbn [option_bind].
  destruct (append_filled b0 b9 _ (be16 QCLASS_INTERNET) F9) as (b10 & -> & F10); [rewrite !length_app, Hh; cbn [length be16]; unfold eb_size; lia|].
  exists b10. split; [done|]. destruct F10 as [K1 K2 K3 K4]. split; [done..|]. rewrite K4. unfold h, query_bytes, question_bytes, name_bytes. cbn [q_name q_type q_class]. fold n. by rewrite <- !app_assoc.
Qed.

(** * Looking a name up *)

(** What a lookup relies on: a network that it polls, whose name server sends replies that
    are well formed, and buffers to send with. *)
Class DnsPeer (W : Type) `{TftpPeer W} `{DnsApi W} `{PollApi W} := {
  dp_polls : Z -> W -> nat;
  dp_clock w : pw_ok w -> 0 <= clock w;
  dp_poll t w s : pw_ok w -> pw_open w s -> clock w <= t ->
    exists w', POLL w = Some w' /\ pw_ok w' /\ pw_open w' s /\ pw_trace w' = pw_trace w /\ (dp_polls t w' < dp_polls t w)%nat;
  dp_recv w s : pw_ok w -> pw_open w s -> exists o w', udp_recv w s = Some (o, w') /\ pw_ok w' /\ pw_open w' s /\ (forall t, (dp_polls t w' <= dp_polls t w)%nat) /\
    match o with
    | None => pw_trace w' = pw_trace w
    | Some d => holds (dg_buf d) /\ pw_good (pw_trace w) (payload (dg_buf d)) /\ pw_trace w' = pw_trace w ++ [EvRecv (payload (dg_buf d))]
    end;
  dp_free t w b s : pw_ok w -> pw_open w s -> sized b -> (dp_polls t (udp_free w b) <= dp_polls t w)%nat;
  dp_good evs p : pw_good evs p -> exists r, reply_ok r /\ p = reply_bytes r;
  dp_alloc w s : pw_ok w -> pw_open w s -> exists b w', udp_alloc w = Some (Some b, w')
}.

Section lookup.
Context {W : Type} {UA : UdpApi W} {TP : TftpPeer W} {DA : DnsApi W} {PA : PollApi W} {DP : DnsPeer W}.

(** The answer [a] is in a packet that was received after a query with its identifier was sent. *)
Definition answered (name a : bytes) (evs : list event) : Prop :=
  exists l1 l2 id r, evs = l1 ++ [EvSend (query_bytes id name)] ++ l2 ++ [EvRecv (reply_bytes r)] /\ reply_ok r /\ reply_says id r = SaysAddr a.

(** Enough fuel gives one result, which satisfies [P]. *)
Definition ends {A} (f : nat -> option A) (P : A -> Prop) : Prop := exists n r, (forall fuel, (n <= fuel)%nat -> f fuel = Some r) /\ P r.

Lemma ends_bind {A B} (f : nat -> option A) (g : nat -> A -> option B) P Q : ends f P -> (forall r, P r -> ends (fun n => g n r) Q) ->
  ends (fun n => let? r := f n in g n r) Q.
Proof.
  intros (n & r & Hf & Hr) Hg. destruct (Hg r Hr) as (m & r' & Hm & Hq). exists (n `max` m)%nat, r'. split; [|done].
  intros fuel Hfuel. rewrite Hf by lia. apply Hm. lia.
Qed.

Lemma ends_ret {A} (r : A) (P : A -> Prop) : P r -> ends (fun _ => Some r) P.
Proof. intros H. exists 0%nat, r. by split. Qed.

Definition wait_post (l1 : list event) (w : W) (s id : Z) (ipaddr : bytes) (x : bool * Z * bytes * W) : Prop :=
  let '(expired, nres, a, w') := x in
  pw_ok w' /\ pw_open w' s /\
  ((nres = 0 /\ a = ipaddr) \/
   (expired = false /\ nres = 1 /\ exists l2 r, pw_trace w' = l1 ++ l2 ++ [EvRecv (reply_bytes r)] /\ reply_ok r /\ reply_says id r = SaysAddr a)).

Lemma dns_wait_ends timer id ipaddr s l1 : 0 < timer -> forall k w l2, (dp_polls timer w < k)%nat -> pw_ok w -> pw_open w s -> pw_trace w = l1 ++ l2 ->
  exists x, (forall fuel, (k <= fuel)%nat -> dns_wait fuel w s timer id ipaddr = Some x) /\ wait_post l1 w s id ipaddr x.
Proof.
  intros Ht. induction k as [|k IH]; intros w l2 Hk Hw Hs Hl; [lia|]. destruct (TIMER_EXPIRED (clock w) timer) eqn:Ex.
  { eexists. split; [intros [|fuel] _; cbn [dns_wait]; rewrite Ex; reflexivity|]. cbn. split; [done|]. split; [done|]. by left. }
  assert (Hc : clock w <= timer).
  { unfold TIMER_EXPIRED, truthy in Ex. rewrite (proj2 (Z.eqb_neq timer 0)) in Ex by lia. cbn [negb andb] in Ex. by apply Z.ltb_ge in Ex. }
  destruct (dp_poll timer w s Hw Hs Hc) as (w1 & E1 & Hw1 & Hs1 & Ht1 & Hd1). destruct (dp_recv w1 s Hw1 Hs1) as (o & w2 & E2 & Hw2 & Hs2 & Hd2 & Ho). specialize (Hd2 timer).
  assert (Hstep : forall fuel, (S k <= fuel)%nat -> exists f, fuel = S f /\ (k <= f)%nat) by (intros [|f] Hf; [lia|]; exists f; split; [done|lia]).
  destruct o as [d|].
  2:{ destruct (IH w2 l2) as (x & Hx & Hp); [lia|done|done|by rewrite Ho, Ht1|]. exists x. split; [|done]. intros fuel Hf. destruct (Hstep fuel Hf) as (f & -> & Hf').
      cbn [dns_wait]. rewrite Ex, E1. cbn [option_bind]. rewrite E2. cbn [option_bind]. by apply Hx. }
  destruct Ho as (Hb & Hg & Ht2). destruct (dp_good _ _ Hg) as (r & Hr & Hp). destruct (dns_read_ok (dg_buf d) id r Hr Hb Hp) as (b' & E3 & Hb').
  destruct (peer_free w2 b' s Hw2 Hb' Hs2) as (Hw3 & Ht3 & Hs3). pose proof (dp_free timer w2 b' s Hw2 Hs2 Hb') as Hd3.
  assert (Htr : pw_trace (udp_free w2 b') = l1 ++ l2 ++ [EvRecv (reply_bytes r)]) by (by rewrite Ht3, Ht2, Ht1, Hl, Hp, <- app_assoc).
  assert (Hgo : forall fuel, (S k <= fuel)%nat -> exists f, (k <= f)%nat /\ dns_wait fuel w s timer id ipaddr =
     match as_reply (reply_says id r) b' with
     | DnsDrop b => dns_wait f (udp_free w2 b) s timer id ipaddr
     | DnsNameErr b => Some (false, 0, ipaddr, udp_free w2 b)
     | DnsAddr a b => Some (false, 1, a, udp_free w2 b) end).
  { intros fuel Hf. destruct (Hstep fuel Hf) as (f & -> & Hf'). exists f. split; [done|]. cbn [dns_wait]. rewrite Ex, E1. cbn [option_bind]. rewrite E2. cbn [option_bind]. by rewrite E3. }
  destruct (reply_says id r) as [| |a] eqn:Er; cbn [as_reply] in Hgo.
  - destruct (IH (udp_free w2 b') _ ltac:(lia) Hw3 Hs3 Htr) as (x & Hx & Hpost). exists x. split; [|done]. intros fuel Hf. destruct (Hgo fuel Hf) as (f & Hf' & ->). by apply Hx.
  - eexists. split; [intros fuel Hf; destruct (Hgo fuel Hf) as (f & Hf' & ->); reflexivity|]. cbn. split; [done|]. split; [done|]. by left.
  - eexists. split; [intros fuel Hf; destruct (Hgo fuel Hf) as (f & Hf' & ->); reflexivity|]. cbn. split; [done|]. split; [done|]. right. split; [done|]. split; [done|].
    by exists l2, r.
Qed.

Definition lookup_post (s : Z) (name ipaddr : bytes) (x : Z * bytes * W) : Prop :=
  let '(res, a, w') := x in
  pw_ok w' /\ pw_open w' s /\ (((res = CFE_ERR_TIMEOUT \/ res = CFE_ERR_HOSTUNKNOWN) /\ a = ipaddr) \/ (res = 1 /\ answered name a (pw_trace w'))).

Lemma dolookup_ends w s server name ipaddr : pw_ok w -> pw_open w s -> length server = 4%nat -> Z.of_nat (length name) < 256 ->
  ends (fun fuel => dns_dolookup fuel w s server name ipaddr) (lookup_post s name ipaddr).
Proof.
  intros Hw Hs Hsv Hn. unfold dns_dolookup. destruct (dp_alloc w s Hw Hs) as (b & w1 & E1). destruct (peer_alloc w s Hw Hs) as (o & w1' & E1' & Hw1 & Hs1 & Ho).
  rewrite E1 in E1'. injection E1' as <- <-. destruct Ho as (Ht1 & Htx & Hb & Hp & Hq). rewrite E1. cbn [option_bind].
  assert (F0 : filled b b []) by done. destruct (dns_query_ok b b (wrap16 (clock w)) name F0 ltac:(lia) Hn) as (b' & -> & F1). cbn [option_bind].
  destruct (peer_send w1 s b b' _ server Hw1 Hs1 Htx F1 Hsv) as (r & w2 & -> & Hw2 & Hs2 & Ht2). cbn [option_bind].
  pose proof (dp_clock w2 Hw2) as Hc. change (DNS_QUERY_TIMEOUT * CFE_HZ) with 10.
  assert (Ht10 : 0 < clock w2 + 10) by lia.
  destruct (dns_wait_ends (clock w2 + 10) (wrap16 (clock w)) ipaddr s (pw_trace w2) Ht10 (S (dp_polls (clock w2 + 10) w2)) w2 []
    (Nat.lt_succ_diag_r _) Hw2 Hs2 (eq_sym (app_nil_r _))) as ([[[ex nres] a] w3] & Hx & Hw3 & Hs3 & Hpost).
  destruct Hpost as [[-> ->]|(-> & -> & l2 & rep & Htr & Hr & Hsays)].
  - exists (S (dp_polls (clock w2 + 10) w2)), (if ex then CFE_ERR_TIMEOUT else CFE_ERR_HOSTUNKNOWN, ipaddr, w3).
    split; [intros fuel Hf; rewrite (Hx fuel Hf); by destruct ex|]. split; [done|]. split; [done|]. left. split; [|done]. destruct ex; [by left|by right].
  - eexists _, _. split; [intros fuel Hf; rewrite (Hx fuel Hf); reflexivity|]. split; [done|]. split; [done|]. right. split; [done|].
    exists (pw_trace w1), l2, (wrap16 (clock w)), rep. split; [|done]. by rewrite Htr, Ht2, <- app_assoc.
Qed.

Lemma lookup_loop_ends s server name n : forall w ipaddr nres, pw_ok w -> pw_open w s -> length server = 4%nat -> Z.of_nat (length name) < 256 ->
  nres = CFE_ERR_TIMEOUT \/ nres = CFE_ERR_HOSTUNKNOWN -> ends (fun fuel => lookup_loop n fuel w s server name ipaddr nres) (lookup_post s name ipaddr).
Proof.
  induction n as [|n IH]; intros w ipaddr nres Hw Hs Hsv Hn Hres; cbn [lookup_loop].
  - apply ends_ret. cbn. split; [done|]. split; [done|]. by left.
  - apply (ends_bind _ (fun fuel x => let '(nres, ipaddr, w) := x in if nres =? CFE_ERR_TIMEOUT then lookup_loop n fuel w s server name ipaddr nres
      else if 0 <=? nres then Some (nres, ipaddr, w) else lookup_loop n fuel w s server name ipaddr nres) _ _ (dolookup_ends w s server name ipaddr Hw Hs Hsv Hn)).
    intros [[r a] w'] (Hw' & Hs' & [[Hr ->]|[-> Ha]]).
    + destruct Hr as [-> | ->]; cbn [Z.eqb Z.leb]; (apply IH; [done|done|done|done|by (left + right)]).
    + apply ends_ret. split; [done|]. split; [done|]. by right.
Qed.

End lookup.

(** * A name server *)

(** A clock beside the little server of [TftpFile], and buffers without end. *)
Record resolver := Resolver { rs_srv : server; rs_now : Z }.

#[local] Instance resolver_udp : UdpApi resolver := {
  udp_socket w port := let? (r, s) := udp_socket (rs_srv w) port in Some (r, Resolver s (rs_now w));
  udp_bind w s port := let? (r, v) := udp_bind (rs_srv w) s port in Some (r, Resolver v (rs_now w));
  udp_connect w s port := let? (r, v) := udp_connect (rs_srv w) s port in Some (r, Resolver v (rs_now w));
  udp_close w s := let? v := udp_close (rs_srv w) s in Some (Resolver v (rs_now w));
  udp_alloc w := Some (Some fresh_buf, w);
  udp_free w b := Resolver (udp_free (rs_srv w) b) (rs_now w);
  udp_send w s b dst := let? (r, v) := udp_send (rs_srv w) s b dst in Some (r, Resolver v (rs_now w));
  udp_recv_with_timeout w s t := let? (d, v) := udp_recv_with_timeout (rs_srv w) s t in Some (d, Resolver v (rs_now w))
}.

Definition a_nameserver : bytes := [10; 0; 0; 9].
#[local] Instance resolver_dns : DnsApi resolver := {
  udp_recv w s := let? (d, v) := udp_recv_with_timeout (rs_srv w) s 0 in Some (d, Resolver v (rs_now w));
  net_getparam w p := match p with NET_NAMESERVER => Some a_nameserver | NET_DOMAIN => Some [108; 97; 110] | _ => None end
}.
#[local] Instance resolver_polls : PollApi resolver := { clock := rs_now; POLL w := Some (Resolver (rs_srv w) (rs_now w + 1)) }.

(** The answer to a query: another record first, and then the address. *)
Definition an_answer (p : bytes) : reply :=
  Reply (wrap16 (of_be (take 2 p))) 0x8180 [Qn [[112; 99]; [108; 97; 110]] 1 1] [Rr 0xC00C 5 1 [0; 0; 0; 60] [1; 120; 0]; Rr 0xC00C 1 1 [0; 0; 0; 60] [10; 0; 0; 7]] 0 0 [].
Definition is_reply (evs : list event) (p : bytes) : Prop := exists r, reply_ok r /\ p = reply_bytes r.

Lemma an_answer_ok p : reply_ok (an_answer p).
Proof.
  split; unfold u16; try (cbn; lia); [apply wrap16_range|..]; cbn.
  - repeat constructor; unfold label_ok; cbn; lia.
  - repeat constructor; unfold u16; cbn; lia.
Qed.

Lemma an_answer_good evs p : EvSend p ∈ evs -> Forall (good_packet is_reply evs) [reply_bytes (an_answer p)].
Proof.
  intros _. constructor; [|constructor]. split; [by exists (an_answer p); split; [apply an_answer_ok|]|]. split; [|cbn; lia].
  unfold reply_bytes. cbn [r_id an_answer]. apply Forall_app. split; [apply be16_bytes|].
  match goal with |- Forall _ ?l => let v := eval vm_compute in l in change l with v end.
  repeat (apply Forall_cons; split; [split; [discriminate|reflexivity]|]). constructor.
Qed.

Lemma is_reply_more evs e p : is_reply evs p -> is_reply (evs ++ [e]) p.
Proof. done. Qed.

Definition a_peer : TftpPeer server := server_peer (fun p => [reply_bytes (an_answer p)]) is_reply is_reply_more an_answer_good.

#[local] Instance resolver_peer : TftpPeer resolver.
Proof.
  refine {| pw_good := is_reply; pw_ok w := @pw_ok _ _ a_peer (rs_srv w) /\ 0 <= rs_now w; pw_trace w := sm_trace (rs_srv w); pw_open _ s := s = 0; pw_tx _ b := b = fresh_buf |}.
  - intros [v n] port Hw. by exists 0, (Resolver v n).
  - intros [v n] s port Hw Hs. by exists 0, (Resolver v n).
  - intros [v n] s Hw Hs. by exists (Resolver v n).
  - intros [v n] b s Hw Hb Hs. done.
  - intros w s Hw Hs. eexists _, _. split; [reflexivity|]. split; [done|]. split; [done|]. split; [done|]. split; [done|]. split; [|done].
    split; cbn; rewrite ?length_replicate; unfold eb_size; lia.
  - intros [v n] s b0 b p dst [Hw Hn] Hs Hb Hf Hd. destruct (@peer_send _ _ a_peer v s b0 b p dst Hw Hs Hb Hf Hd) as (r & v' & E & Hw' & Hs' & Ht).
    exists r, (Resolver v' n). cbn [udp_send resolver_udp rs_srv]. rewrite E. done.
  - intros [v n] s t [Hw Hn] Hs. destruct (@peer_recv _ _ a_peer v s t Hw Hs) as (o & v' & E & Hw' & Hs' & Ho).
    exists o, (Resolver v' n). cbn [udp_recv_with_timeout resolver_udp rs_srv]. rewrite E. done.
Defined.

#[local] Instance resolver_names : DnsPeer resolver.
Proof.
  refine {| dp_polls t w := Z.to_nat (t + 1 - rs_now w) |}.
  - intros w [_ H]. exact H.
  - intros t [v n] s [Hw Hn] Hs Ht. eexists. split; [reflexivity|]. cbn in *. split; [split; [done|lia]|]. split; [done|]. split; [done|lia].
  - intros [v n] s [Hw Hn] Hs. destruct (@peer_recv _ _ a_peer v s 0 Hw Hs) as (o & v' & E & Hw' & Hs' & Ho).
    exists o, (Resolver v' n). cbn [udp_recv resolver_dns rs_srv]. rewrite E. split; [done|]. split; [done|]. split; [done|]. split; [intros t; cbn; lia|].
    destruct o as [d|]; [|exact Ho]. destruct Ho as (H1 & _ & H2 & H3). done.
  - intros t [v n] b s Hw Hs Hb. done.
  - intros evs p H. exact H.
  - intros w s Hw Hs. by eexists _, _.
Defined.

(** Two polls bring nothing, and then an answer to the first query comes. *)
Definition a_resolver : resolver := Resolver (Server (fun p => [reply_bytes (an_answer p)]) [None; None; Some 0%nat] [] [] 0) 5.
Definition a_name : bytes := [112; 99].


Lemma parse_dotted_witness : lib_parseipaddr (dotted 192 168 1 1) = Some [192; 168; 1; 1].
Proof. apply parse_dotted. repeat constructor; cbn; lia. Defined.

(** * What goes wrong *)

(** The records are read without a look at the length: of a packet of twelve bytes that
    promises an answer, the address is what an earlier packet has left behind it in the buffer, and
    of one that promises many the end of the buffer is passed. *)
Definition header_only (na : Z) : bytes := be16 7 ++ be16 0x8180 ++ be16 0 ++ be16 na ++ be16 0 ++ be16 0.
Definition stale_buf (na : Z) (s : bytes) : ebuf := ebuf_setlength (buf_with (header_only na ++ s)) 12.

Example dns_reads_stale :
  payload (stale_buf 1 (rr_bytes (Rr 0xC00C 1 1 [0; 0; 0; 60] [6; 6; 6; 6]))) = header_only 1 /\
  (exists b, dns_read (stale_buf 1 (rr_bytes (Rr 0xC00C 1 1 [0; 0; 0; 60] [6; 6; 6; 6]))) 7 = Some (DnsAddr [6; 6; 6; 6] b)) /\
  dns_read (stale_buf 0xFFFF []) 7 = None.
Proof. vm_compute. split; [done|]. split; [by eexists|done]. Qed.

(** A name of an answer that is spelled out, as a server may do, is taken for two bytes. *)
Example dns_plain_name : exists b,
  dns_read (buf_with (header_only 1 ++ name_bytes [[112]; [113]] ++ be16 1 ++ be16 1 ++ [0; 0; 0; 60] ++ be16 4 ++ [10; 0; 0; 7])) 7 = Some (DnsDrop b).
Proof. eexists. vm_compute. reflexivity. Qed.

(** A long name and a domain do not fit into the array. *)
Example domain_overflow : add_domain a_resolver (replicate 96 97) = None /\ add_domain a_resolver (replicate 95 97) = Some (replicate 95 97 ++ [46; 108; 97; 110]).
Proof. vm_compute. done. Qed.

(** Without a buffer the query is written through a null pointer. *)
Example dns_no_buffer : dns_dolookup (H0 := {| udp_recv w s := Some (None, w); net_getparam w p := None |}) (H1 := {| clock _ := 5; POLL w := Some w |})
  9 (Server (fun p => []) [] [] [] 0) 0 a_nameserver a_name [0; 0; 0; 0] = None.
Proof. reflexivity. Qed.
