(* ===== verification/NetDev.v ===== *)
(** The life of the network of the boot loader: eth_init, eth_uninit and the controls of
    cfe/cfe/net/net_ether.c, net_init, net_uninit and the parameters of
    cfe/cfe/net/net_api.c, with the memory and the devices that they hold. *)

From S2P Require Import Prelude Background Ether Ip IpApi Tcp Udp Icmp.
From Stdlib Require Import ZArith Lia Bool List Permutation.
From stdpp Require Import base numbers list.

#[local] Open Scope Z_scope.

(** * The machine *)

(** The calls of the device layer and of the allocator, the clock and the passing of time, the
    cycle counter, and what happens to be in memory that was just allocated. *)
Class Machine (S : Type) := {
  cfe_open : S -> bytes -> Z * S;
  cfe_close : S -> Z -> S;
  cfe_ioctl : S -> Z -> Z -> bytes -> Z * bytes * S;
  cfe_inpstat : S -> Z -> bool;
  cfe_read : S -> Z -> rx_input * S;
  KMALLOC : S -> Z -> option Z * S;
  KFREE : S -> Z -> S;
  sys_ticks : S -> Z;
  sys_pass : S -> S;
  _getticks : S -> Z;
  mem_bytes : S -> Z -> nat -> bytes;
  mem_entries : S -> Z -> list arpentry
}.

(** What is held: blocks of memory and open devices. *)
Inductive res := RMem (p : Z) | RDev (h : Z).

(** The calls as their documentation has them: what is handed out is held until it is given
    back, and the others change nothing of that. *)
Class MachineLaws (S : Type) `{Machine S} := {
  held : S -> list res;
  law_open s name : let '(h, s') := cfe_open s name in held s' ≡ₚ if h <? 0 then held s else RDev h :: held s;
  law_close s h l : held s ≡ₚ RDev h :: l -> held (cfe_close s h) ≡ₚ l;
  law_ioctl s h cmd b : let '(_, b', s') := cfe_ioctl s h cmd b in held s' ≡ₚ held s /\ length b' = length b;
  law_malloc s n : let '(p, s') := KMALLOC s n in held s' ≡ₚ match p with Some p => RMem p :: held s | None => held s end;
  law_kfree s p l : held s ≡ₚ RMem p :: l -> held (KFREE s p) ≡ₚ l;
  law_bytes s p n : length (mem_bytes s p n) = eb_size;
  law_entries s p : table_ok (mem_entries s p)
}.

Definition IOCTL_ETHER_GETHWADDR := 1.
Definition IOCTL_ETHER_GETSPEED := 3.
Definition IOCTL_ETHER_SETSPEED := 4.
Definition IOCTL_ETHER_GETLOOPBACK := 7.
Definition IOCTL_ETHER_SETLOOPBACK := 8.

(** The sizes of the structures, with pointers and ints of four bytes. *)
Definition sizeof_ether_info := 28.
Definition sizeof_ether_port := 28.
Definition sizeof_ebuf := 1556.
Definition sizeof_ip_info := 100.
Definition sizeof_arpentry := 40.
Definition sizeof_udp_info := 92.
Definition sizeof_icmp_info := 16.
Definition sizeof_net_ctx := 32.

(** An int in memory, the low byte first. *)
Definition le_int (v : Z) : bytes := let v := wrap32 v in [v mod 256; v / 256 mod 256; v / 65536 mod 256; v / 16777216].
Definition of_le (s : bytes) : Z := sint32 (fold_right (fun b acc => b + 256 * acc) 0 s).

Section netdev.
Context {S : Type} `{Machine S}.

(** An Ethernet context, with the addresses of its parts. *)
Record eth_dev := EthDev { ed_self : Z; ed_ports : Z; ed_bufpool : Z; ed_info : ether_info }.

(** eth_init of net_ether.c; [Ether.eth_init] is what it leaves in memory when it succeeds. *)
Definition eth_init (s : S) (devname : bytes) : option eth_dev * S :=
  let '(devhandle, s) := cfe_open s devname in
  if devhandle <? 0 then (None, s)
  else
    let '(eth, s) := KMALLOC s sizeof_ether_info in
    match eth with
    | None => (None, cfe_close s devhandle)
    | Some eth =>
        let '(_, hwaddr, s) := cfe_ioctl s devhandle IOCTL_ETHER_GETHWADDR (replicate 6 0) in
        let '(ports, s) := KMALLOC s (Z.of_nat ETH_MAX_PORTS * sizeof_ether_port) in
        match ports with
        | None => (None, KFREE (cfe_close s devhandle) eth)
        | Some ports =>
            let '(pool, s) := KMALLOC s (sizeof_ebuf * Z.of_nat ETH_MAX_BUFFERS) in
            match pool with
            | None => (None, KFREE (KFREE (cfe_close s devhandle) ports) eth)
            | Some pool => (Some (EthDev eth ports pool (Ether.eth_init devhandle hwaddr pool sizeof_ebuf (mem_bytes s pool))), s)
            end
        end
    end.

Definition eth_uninit (s : S) (self ports bufpool devhandle : Z) : S :=
  KFREE (KFREE (KFREE (cfe_close s devhandle) bufpool) ports) self.

Definition eth_setspeed (s : S) (e : ether_info) (speed : Z) : Z * S :=
  let '(r, _, s) := cfe_ioctl s (eth_devhandle e) IOCTL_ETHER_SETSPEED (le_int speed) in (r, s).
Definition eth_setloopback (s : S) (e : ether_info) (loop : Z) : Z * S :=
  let '(r, _, s) := cfe_ioctl s (eth_devhandle e) IOCTL_ETHER_SETLOOPBACK (le_int loop) in (r, s).

(** The int the caller points to, before and after. *)
Definition eth_getspeed (s : S) (e : ether_info) (speed : Z) : Z * Z * S :=
  let '(r, b, s) := cfe_ioctl s (eth_devhandle e) IOCTL_ETHER_GETSPEED (le_int speed) in (r, of_le b, s).
Definition eth_getloopback (s : S) (e : ether_info) (loop : Z) : Z * Z * S :=
  let '(r, b, s) := cfe_ioctl s (eth_devhandle e) IOCTL_ETHER_GETLOOPBACK (le_int loop) in (r, of_le b, s).

Definition lib_strdup (s : S) (str : bytes) : option Z * S := KMALLOC s (Z.of_nat (length str) + 1).

(** A pointer that may be null is freed if it is not. *)
Definition free_opt (s : S) (p : option Z) : S := match p with Some p => KFREE s p | None => s end.

(** * The stack *)

(** The context of net_api.c with all that it points to: the IP layer with the Ethernet layer in
    it, the UDP sockets, the queue of ICMP, and the addresses of the blocks.  [nc_eth] is the
    context, its ports and its buffers. *)
Record net_ctx := NetCtx {
  nc_self : Z;
  nc_timer : Z;
  nc_devname : option Z * bytes;
  nc_eth : Z * Z * Z;
  nc_ipptr : Z;
  nc_arpptr : option Z;
  nc_strings : option Z * option Z;
  nc_udpptr : Z;
  nc_icmpptr : Z;
  nc_ip : ip_info;
  nc_ports : list udp_port;
  nc_replies : list ebuf;
  nc_maxreplies : Z
}.

Definition set_nc_timer (c : net_ctx) (t : Z) : net_ctx :=
  NetCtx (nc_self c) t (nc_devname c) (nc_eth c) (nc_ipptr c) (nc_arpptr c) (nc_strings c) (nc_udpptr c) (nc_icmpptr c) (nc_ip c) (nc_ports c) (nc_replies c) (nc_maxreplies c).
Definition set_nc_ip (c : net_ctx) (i : ip_info) : net_ctx :=
  NetCtx (nc_self c) (nc_timer c) (nc_devname c) (nc_eth c) (nc_ipptr c) (nc_arpptr c) (nc_strings c) (nc_udpptr c) (nc_icmpptr c) i (nc_ports c) (nc_replies c) (nc_maxreplies c).
Definition set_nc_strings (c : net_ctx) (p : option Z * option Z) : net_ctx :=
  NetCtx (nc_self c) (nc_timer c) (nc_devname c) (nc_eth c) (nc_ipptr c) (nc_arpptr c) p (nc_udpptr c) (nc_icmpptr c) (nc_ip c) (nc_ports c) (nc_replies c) (nc_maxreplies c).

(** The layers share the IP layer. *)
Definition udp_of (c : net_ctx) : udp_info ip_info := Ui (nc_ip c) (nc_ports c).
Definition put_nc_udp (c : net_ctx) (u : udp_info ip_info) : net_ctx :=
  NetCtx (nc_self c) (nc_timer c) (nc_devname c) (nc_eth c) (nc_ipptr c) (nc_arpptr c) (nc_strings c) (nc_udpptr c) (nc_icmpptr c) (ui_ipinfo u) (ui_ports u) (nc_replies c) (nc_maxreplies c).
Definition icmp_of (c : net_ctx) : icmp_info ip_info := Icmp (nc_ip c) (nc_replies c) (nc_maxreplies c).
Definition put_nc_icmp (c : net_ctx) (ic : icmp_info ip_info) : net_ctx :=
  NetCtx (nc_self c) (nc_timer c) (nc_devname c) (nc_eth c) (nc_ipptr c) (nc_arpptr c) (nc_strings c) (nc_udpptr c) (nc_icmpptr c) (icmp_ipinfo ic) (nc_ports c) (icmp_echoreplies ic) (icmp_maxreplies ic).

(** The world: the machine, the context if there is one, and the background tasks. *)
Record net := Net { nt_sys : S; nt_ctx : option net_ctx; nt_bg : bg_tasks }.

Definition net_poll_task := 7.

(** What the IP layer frees. *)
Definition ip_uninit (s : S) (ipptr : Z) (arpptr : option Z) (strings : option Z * option Z) (i : ip_info) : option S :=
  let? _ := _ip_uninit i in
  let? table := arpptr in
  Some (KFREE (free_opt (free_opt (KFREE s table) strings.1) strings.2) ipptr).

Definition eth_down (s : S) (eth : Z * Z * Z) (i : ip_info) : S := eth_uninit s eth.1.1 eth.1.2 eth.2 (eth_devhandle (eth_info i)).

Definition ip_init (s : S) (e : ether_info) : option (option (Z * option Z * ip_info) * S) :=
  let '(ipi, s) := KMALLOC s sizeof_ip_info in
  match ipi with
  | None => Some (None, s)
  | Some ipi =>
      let '(table, s) := KMALLOC s (Z.of_nat ARP_TABLE_SIZE * sizeof_arpentry) in
      let? (i, _) := _ip_init e true (let? p := table in Some (mem_entries s p)) in
      match i with
      | None => Some (None, KFREE (free_opt s table) ipi)
      | Some i => Some (Some (ipi, table, i), s)
      end
  end.

Definition net_uninit (w : net) : option net :=
  match nt_ctx w with
  | None => Some w
  | Some c =>
      let i := _icmp_uninit (icmp_of c) in
      let s := KFREE (nt_sys w) (nc_icmpptr c) in
      let i := _udp_uninit (Ui i (nc_ports c)) in
      let s := KFREE s (nc_udpptr c) in
      let? s := ip_uninit s (nc_ipptr c) (nc_arpptr c) (nc_strings c) i in
      let s := eth_down s (nc_eth c) i in
      let s := KFREE (free_opt s (nc_devname c).1) (nc_self c) in
      let? bg := cfe_bg_remove (nt_bg w) net_poll_task in
      Some (Net s None bg)
  end.

(** The layers above the Ethernet; the result is what has to be taken down again when there is
    none, and the layers otherwise. *)
Definition layers_init (s : S) (eth : Z * Z * Z) (e : ether_info) : option (option (Z * option Z * Z * Z * ip_info) * S) :=
  let? (ip, s) := ip_init s e in
  match ip with
  | None => Some (None, eth_uninit s eth.1.1 eth.1.2 eth.2 (eth_devhandle e))
  | Some (ipi, table, i) =>
      let '(udp, s) := KMALLOC s sizeof_udp_info in
      match udp with
      | None => let? s := ip_uninit s ipi table (None, None) i in Some (None, eth_down s eth i)
      | Some udp =>
          let? u := _udp_init i true ipi in
          let i := ui_ipinfo u in
          let '(icmp, s) := KMALLOC s sizeof_icmp_info in
          match icmp with
          | None =>
              let i := _udp_uninit u in
              let? s := ip_uninit (KFREE s udp) ipi table (None, None) i in Some (None, eth_down s eth i)
          | Some icmp =>
              let? ic := _icmp_init i true icmp in Some (Some (ipi, table, udp, icmp, icmp_ipinfo ic), s)
          end
      end
  end.

(** The copy of the name and the context itself stay allocated when a layer fails. *)
Definition net_init (w : net) (devname : bytes) : option (Z * net) :=
  let? w := net_uninit w in
  let '(ctx, s) := KMALLOC (nt_sys w) sizeof_net_ctx in
  match ctx with
  | None => Some (-1, Net s None (nt_bg w))
  | Some ctx =>
      let '(name, s) := lib_strdup s devname in
      let '(eth, s) := eth_init s devname in
      match eth with
      | None => Some (-1, Net s None (nt_bg w))
      | Some ed =>
          let eth := (ed_self ed, ed_ports ed, ed_bufpool ed) in
          let? (layers, s) := layers_init s eth (ed_info ed) in
          match layers with
          | None => Some (-1, Net s None (nt_bg w))
          | Some (ipi, table, udp, icmp, i) =>
              let c := NetCtx ctx (sys_ticks s + CFE_HZ) (name, devname) eth ipi table (None, None) udp icmp i
                         (replicate UDP_MAX_PORTS (UPort 0 0 [] 0 false)) [] 0 in
              Some (0, Net s (Some c) (cfe_bg_add (nt_bg w) net_poll_task ctx))
          end
      end
  end.

(** * Parameters *)

(** A domain or host name is freed if there is one, and replaced by a copy. *)
Definition new_string (s : S) (old : option Z) (ptr : option bytes) : option Z * S :=
  let s := free_opt s old in
  match ptr with Some str => lib_strdup s str | None => (None, s) end.

Definition is_some {A} (o : option A) : bool := match o with Some _ => true | None => false end.

Definition net_setparam (w : net) (param : ip_param) (ptr : option bytes) : option (Z * net) :=
  match nt_ctx w with
  | None => Some (0, w)
  | Some c =>
      let '(res, strings, s) :=
        match param, ptr with
        | NET_DOMAIN, _ => let '(p, s) := new_string (nt_sys w) (nc_strings c).1 ptr in (0, (p, (nc_strings c).2), s)
        | NET_HOSTNAME, _ => let '(p, s) := new_string (nt_sys w) (nc_strings c).2 ptr in (0, ((nc_strings c).1, p), s)
        | NET_SPEED, Some v => let '(r, s) := eth_setspeed (nt_sys w) (eth_info (nc_ip c)) (of_le (take 4 v)) in (r, nc_strings c, s)
        | NET_LOOPBACK, Some v => let '(r, s) := eth_setloopback (nt_sys w) (eth_info (nc_ip c)) (of_le (take 4 v)) in (r, nc_strings c, s)
        | _, _ => (0, nc_strings c, nt_sys w)
        end in
      let got := match param with NET_DOMAIN => is_some strings.1 | NET_HOSTNAME => is_some strings.2 | _ => true end in
      let? (r, i) := _ip_setparam (nc_ip c) param ptr got res in
      Some (r, Net s (Some (set_nc_ip (set_nc_strings c strings) i)) (nt_bg w))
  end.

(** The parameter of the device's name is apart from the others. *)
Definition net_getdevname (w : net) : option bytes := let? c := nt_ctx w in let? _ := (nc_devname c).1 in Some (nc_devname c).2.
Definition net_getparam (w : net) (param : ip_param) : option bytes := let? c := nt_ctx w in _ip_getparam (nc_ip c) param.
End netdev.
Arguments Net {S}.
Arguments nt_sys {S}.
Arguments nt_ctx {S}.
Arguments nt_bg {S}.

(** * What is held *)

Section lifetime.
Context {S : Type} {MA : Machine S} {ML : MachineLaws S}.

Definition opt_res (p : option Z) : list res := match p with Some p => [RMem p] | None => [] end.
Definition eth_res (eth : Z * Z * Z) (h : Z) : list res := [RMem eth.2; RMem eth.1.2; RMem eth.1.1; RDev h].

Lemma free_opt_held s p l : held s ≡ₚ opt_res p ++ l -> held (free_opt s p) ≡ₚ l.
Proof. destruct p as [p|]; [apply law_kfree|done]. Qed.

Lemma eth_uninit_held s self ports pool h l : held s ≡ₚ eth_res (self, ports, pool) h ++ l -> held (eth_uninit s self ports pool h) ≡ₚ l.
Proof.
  intros Hs. unfold eth_uninit. apply law_kfree, law_kfree, law_kfree, law_close. rewrite Hs. unfold eth_res. cbn. solve_Permutation.
Qed.

(** An Ethernet context holds the device and three blocks, and one that could not be made holds
    nothing. *)
Lemma eth_init_held s devname : let '(e, s') := eth_init s devname in
  match e with
  | None => held s' ≡ₚ held s
  | Some ed => held s' ≡ₚ eth_res (ed_self ed, ed_ports ed, ed_bufpool ed) (eth_devhandle (ed_info ed)) ++ held s /\
      exists hw data, ed_info ed = Ether.eth_init (eth_devhandle (ed_info ed)) hw (ed_bufpool ed) sizeof_ebuf data /\ length hw = 6%nat /\ forall n, length (data n) = eb_size
  end.
Proof.
  unfold eth_init. pose proof (law_open s devname) as Ho. destruct (cfe_open s devname) as [h s1]. destruct (h <? 0); [done|].
  pose proof (law_malloc s1 sizeof_ether_info) as H1. destruct (KMALLOC s1 _) as [[p1|] s2]; [|apply (law_close s2 h); by rewrite H1].
  pose proof (law_ioctl s2 h IOCTL_ETHER_GETHWADDR (replicate 6 0)) as H2. destruct (cfe_ioctl s2 h _ _) as [[r hw] s3]. destruct H2 as [H2 Hhw].
  pose proof (law_malloc s3 (Z.of_nat ETH_MAX_PORTS * sizeof_ether_port)) as H3. destruct (KMALLOC s3 _) as [[p2|] s4].
  2:{ apply law_kfree, law_close. rewrite H3, H2, H1, Ho. solve_Permutation. }
  pose proof (law_malloc s4 (sizeof_ebuf * Z.of_nat ETH_MAX_BUFFERS)) as H4. destruct (KMALLOC s4 _) as [[p3|] s5].
  2:{ apply law_kfree, law_kfree, law_close. rewrite H4, H3, H2, H1, Ho. solve_Permutation. }
  cbn [ed_self ed_ports ed_bufpool ed_info eth_devhandle Ether.eth_init]. split; [rewrite H4, H3, H2, H1, Ho; unfold eth_res; cbn; solve_Permutation|].
  exists hw, (mem_bytes s5 p3). split; [done|]. split; [done|]. apply law_bytes.
Qed.

(** What the layers above it hold. *)
Definition ip_res (ipi : Z) (table : option Z) (strings : option Z * option Z) : list res :=
  opt_res table ++ opt_res strings.1 ++ opt_res strings.2 ++ [RMem ipi].

Lemma close_entries e t : exists t' e', table_pass close_entry e t = Some (t', e').
Proof.
  revert e. induction t as [|ae t IH]; intros e; cbn [table_pass]; [by eexists _, _|]. unfold close_entry at 1. cbn [option_bind].
  destruct (if bool_decide _ then _ else _) as [ae' e1]. destruct (IH e1) as (t' & e' & ->). by eexists _, _.
Qed.

Lemma dix_port e i p : dix e i p -> exists q, port_at e i = Some q.
Proof. intros (q & H & _). by exists q. Qed.

Lemma ip_uninit_total i : ip_ok i -> exists e, _ip_uninit i = Some e.
Proof.
  intros Hok. unfold _ip_uninit, eth_close. destruct (dix_port _ _ _ (io_ip i Hok)) as [p Hp]. rewrite Hp. cbn [option_bind].
  unfold _arp_uninit, eth_close. cbn [eth_info set_eth arp_port arp_table]. destruct (dix_port _ _ _ (io_arp i Hok)) as [q Hq]. destruct (io_table i Hok) as (t & Ht & _).
  set (e1 := set_ports _ _). assert (Hq1 : exists q1, port_at e1 (arp_port i) = Some q1).
  { unfold port_at in *. destruct (0 <=? arp_port i); [|done]. cbn [eth_ports e1 set_ports]. apply lookup_lt_is_Some. rewrite length_insert. apply lookup_lt_is_Some. by exists q. }
  destruct Hq1 as [q1 ->]. cbn [option_bind]. rewrite Ht. cbn [option_bind].
  match goal with |- context [table_pass close_entry ?e t] => destruct (close_entries e t) as (t' & e' & ->) end. by eexists.
Qed.

Lemma ip_uninit_held s ipi t strings i l : ip_ok i -> held s ≡ₚ ip_res ipi (Some t) strings ++ l ->
  exists s', ip_uninit s ipi (Some t) strings i = Some s' /\ held s' ≡ₚ l.
Proof.
  intros Hok Hs. unfold ip_uninit. destruct (ip_uninit_total i Hok) as [e ->]. cbn [option_bind]. eexists. split; [reflexivity|].
  apply law_kfree, free_opt_held, free_opt_held, law_kfree. rewrite Hs. unfold ip_res. cbn. solve_Permutation.
Qed.

(** The one allocation whose failure is not noticed is assumed to succeed. *)
Hypothesis arp_table_given : forall s, exists p s', KMALLOC s (Z.of_nat ARP_TABLE_SIZE * sizeof_arpentry) = (Some p, s').

Lemma ip_init_held s h hw pool data : length hw = 6%nat -> (forall n, length (data n) = eb_size) ->
  exists o s', ip_init s (Ether.eth_init h hw pool sizeof_ebuf data) = Some (o, s') /\
    match o with
    | None => held s' ≡ₚ held s
    | Some (ipi, table, i) => held s' ≡ₚ ip_res ipi table (None, None) ++ held s /\ (exists t, table = Some t) /\ ip_ok i /\ eth_devhandle (eth_info i) = h
    end.
Proof.
  intros Hhw Hd. unfold ip_init. pose proof (law_malloc s sizeof_ip_info) as H1. destruct (KMALLOC s _) as [[ipi|] s1]; [|eexists _, _; split; [reflexivity|done]].
  pose proof (law_malloc s1 (Z.of_nat ARP_TABLE_SIZE * sizeof_arpentry)) as H2. destruct (arp_table_given s1) as (t & s2 & E2). rewrite E2 in H2 |- *. cbn [option_bind].
  destruct (ip_init_ok h hw pool sizeof_ebuf data (mem_entries s2 t) Hhw Hd (law_entries s2 t)) as (i & e & E & Hok & _). rewrite E. cbn [option_bind].
  eexists _, _. split; [reflexivity|]. split; [rewrite H2, H1; unfold ip_res; cbn; solve_Permutation|]. split; [by exists t|]. split; [done|].
  assert (Hh : match _ip_init (Ether.eth_init h hw pool sizeof_ebuf data) true (Some (mem_entries s2 t)) with Some (Some i, _) => eth_devhandle (eth_info i) = h | _ => True end) by (cbn; done).
  by rewrite E in Hh.
Qed.

(** The device of a stack stays the same. *)
Definition device (i : ip_info) : Z := eth_devhandle (eth_info i).

Lemma alloc_device e port b e' : eth_alloc e port = Some (b, e') -> eth_devhandle e' = eth_devhandle e.
Proof. unfold eth_alloc. destruct (eth_freelist e); [by intros [= _ <-]|]. destruct (port_at e port); [|done]. by intros [= _ <-]. Qed.

Lemma send_device e b dest b' e' : eth_send e b dest = Some (b', e') -> eth_devhandle e' = eth_devhandle e.
Proof.
  unfold eth_send. destruct (port_at e _) as [p|]; [|done]. cbn [option_bind]. destruct (_ =? _); [|by intros [= _ <-]].
  repeat match goal with |- (let? x := ?o in _) = _ -> _ => destruct o; [cbn [option_bind]|done] end. by intros [= _ <-].
Qed.

Lemma query_device i dest i' : arp_tx_query i dest = Some i' -> device i' = device i.
Proof.
  unfold arp_tx_query, device. destruct (eth_alloc _ _) as [[b e]|] eqn:E; [|done]. cbn [option_bind]. apply alloc_device in E. destruct b as [b|]; [|by intros [= <-]].
  repeat match goal with |- (match ?o with Some b => _ | None => None end) = _ -> _ => lazymatch o with eth_send _ _ _ => fail | _ => destruct o; [cbn [option_bind]|done] end end.
  match goal with |- context [eth_send ?x ?y ?z] => destruct (eth_send x y z) as [[? ?]|] eqn:E1 end; [|done]. cbn [option_bind]. intros [= <-].
  apply send_device in E1. cbn. congruence.
Qed.

Lemma frees_device ds : forall i, device (fold_left (fun ip d => ip_free ip (dg_buf d)) ds i) = device i.
Proof. induction ds as [|d ds IH]; intros i; [done|]. cbn [fold_left]. by rewrite IH. Qed.

Definition queues_ok (ports : list udp_port) : Prop := Forall (fun u => Forall (fun d => sized (dg_buf d)) (up_rxqueue u)) ports.

Lemma udp_uninit_ok i ports : ip_ok i -> queues_ok ports -> ip_ok (_udp_uninit (Ui i ports)) /\ device (_udp_uninit (Ui i ports)) = device i.
Proof.
  intros Hi Hq. unfold _udp_uninit. cbn [ui_ipinfo ui_ports]. destruct (set_protocols_ok i (map (fun p => if pd_protocol p =? wrap8 IPPROTO_UDP then Pdisp 0 0 0 else p) (ip_protocols i)) Hi) as [H1 _].
  change (set_protocols i _) with (ip_deregister i IPPROTO_UDP) in H1. assert (H2 : device (ip_deregister i IPPROTO_UDP) = device i) by done.
  revert H1 H2. generalize (ip_deregister i IPPROTO_UDP). induction Hq as [|u ports Hu _ IH]; intros j Hj Hd; [done|]. cbn [fold_left]. apply IH.
  - destruct (up_inuse u); [|done]. by apply (frees_ok (WL := ip_info_laws)).
  - destruct (up_inuse u); [|done]. by rewrite frees_device.
Qed.

(** * The context *)

(** Everything that a context holds, and the rest. *)
Definition ctx_res (c : net_ctx) : list res :=
  RMem (nc_self c) :: opt_res (nc_devname c).1 ++ eth_res (nc_eth c) (device (nc_ip c)) ++ ip_res (nc_ipptr c) (nc_arpptr c) (nc_strings c) ++ [RMem (nc_udpptr c); RMem (nc_icmpptr c)].

Record net_ok (base : list res) (ts : list (Z * Z)) (w : net) (c : net_ctx) : Prop := {
  no_ctx : nt_ctx w = Some c;
  no_ip : ip_ok (nc_ip c);
  no_table : exists t, nc_arpptr c = Some t;
  no_queues : queues_ok (nc_ports c);
  no_held : held (nt_sys w) ≡ₚ ctx_res c ++ base;
  no_tasks : bg_holds (nt_bg w) ts
}.

Lemma net_uninit_ok base ts w c : net_ok base ts w c -> exists w', net_uninit w = Some w' /\ nt_ctx w' = None /\ held (nt_sys w') ≡ₚ base /\
  bg_holds (nt_bg w') (remove_task ts net_poll_task).
Proof.
  intros [Hc Hip [t Ht] Hq Hh Hb]. unfold net_uninit. rewrite Hc. unfold ctx_res in Hh. rewrite Ht in *.
  destruct (set_protocols_ok (nc_ip c) (map (fun p => if pd_protocol p =? wrap8 IPPROTO_ICMP then Pdisp 0 0 0 else p) (ip_protocols (nc_ip c))) Hip) as [H1 _].
  change (set_protocols (nc_ip c) _) with (_icmp_uninit (icmp_of c)) in H1. assert (H2 : device (_icmp_uninit (icmp_of c)) = device (nc_ip c)) by done.
  destruct (udp_uninit_ok _ (nc_ports c) H1 Hq) as [H3 H4]. set (i := _udp_uninit _) in *. cbv zeta.
  destruct (ip_uninit_held (KFREE (KFREE (nt_sys w) (nc_icmpptr c)) (nc_udpptr c)) (nc_ipptr c) t (nc_strings c) i
    (RMem (nc_self c) :: opt_res (nc_devname c).1 ++ eth_res (nc_eth c) (device (nc_ip c)) ++ base) H3) as (s1 & -> & Hs1).
  { apply law_kfree, law_kfree. rewrite Hh. solve_Permutation. }
  cbn [option_bind]. destruct (bg_remove_ok (nt_bg w) ts net_poll_task Hb) as (g & -> & Hg); [done|]. cbn [option_bind]. eexists. split; [reflexivity|].
  split; [done|]. split; [|done]. cbn [nt_sys]. apply law_kfree, free_opt_held. unfold eth_down. fold (device i). rewrite H4, H2. destruct (nc_eth c) as [[a b] d]. cbn [fst snd].
  apply eth_uninit_held. rewrite Hs1. solve_Permutation.
Qed.

Lemma layers_held s eth h hw data : length hw = 6%nat -> (forall n, length (data n) = eb_size) -> forall base, held s ≡ₚ eth_res eth h ++ base ->
  exists o s', layers_init s eth (Ether.eth_init h hw eth.2 sizeof_ebuf data) = Some (o, s') /\
    match o with
    | None => held s' ≡ₚ base
    | Some (ipi, table, udp, icmp, i) => held s' ≡ₚ eth_res eth h ++ ip_res ipi table (None, None) ++ [RMem udp; RMem icmp] ++ base /\ (exists t, table = Some t) /\ ip_ok i /\ device i = h
    end.
Proof.
  intros Hhw Hd base Hs. destruct eth as [[a b] d]. cbn [fst snd] in *. unfold layers_init.
  destruct (ip_init_held s h hw d data Hhw Hd) as (o & s1 & -> & Ho). cbn [option_bind]. destruct o as [[[ipi table] i]|].
  2:{ eexists _, _. split; [reflexivity|]. cbn [eth_devhandle Ether.eth_init fst snd]. apply eth_uninit_held. by rewrite Ho. }
  destruct Ho as (H1 & [t ->] & Hok & Hdev). pose proof (law_malloc s1 sizeof_udp_info) as H2. destruct (KMALLOC s1 _) as [[udp|] s2].
  2:{ destruct (ip_uninit_held s2 ipi t (None, None) i (eth_res (a, b, d) h ++ base) Hok) as (s3 & -> & H3); [by rewrite H2, H1, Hs|]. cbn [option_bind].
      eexists _, _. split; [reflexivity|]. unfold eth_down. rewrite Hdev. cbn [fst snd]. by apply eth_uninit_held. }
  cbn [_udp_init negb option_bind ui_ipinfo]. change (ip_register i IPPROTO_UDP udp_rx_cb ipi) with (_ip_register i IPPROTO_UDP udp_rx_cb ipi).
  destruct (set_protocols_ok i (register_loop (ip_protocols i) (Pdisp (wrap8 IPPROTO_UDP) udp_rx_cb ipi)) Hok) as [Hu _].
  change (set_protocols i _) with (_ip_register i IPPROTO_UDP udp_rx_cb ipi) in Hu. set (iu := _ip_register i IPPROTO_UDP udp_rx_cb ipi) in *.
  pose proof (law_malloc s2 sizeof_icmp_info) as H3. destruct (KMALLOC s2 _) as [[icmp|] s3].
  - cbn [_icmp_init negb option_bind icmp_ipinfo]. eexists _, _. split; [reflexivity|]. split; [rewrite H3, H2, H1, Hs; unfold ip_res; cbn; solve_Permutation|].
    split; [by exists t|]. split; [|done]. apply set_protocols_ok. exact Hu.
  - destruct (udp_uninit_ok iu (replicate UDP_MAX_PORTS (UPort 0 0 [] 0 false)) Hu) as [H4 H5]; [repeat constructor|].
    destruct (ip_uninit_held (KFREE s3 udp) ipi t (None, None) _ (eth_res (a, b, d) h ++ base) H4) as (s4 & -> & H6).
    { apply law_kfree. rewrite H3, H2, H1, Hs. solve_Permutation. }
    cbn [option_bind]. eexists _, _. split; [reflexivity|]. unfold eth_down. fold (device (_udp_uninit (Ui iu (replicate UDP_MAX_PORTS (UPort 0 0 [] 0 false))))). rewrite H5.
    change (device iu) with (device i). unfold device. rewrite Hdev. cbn [fst snd]. by apply eth_uninit_held.
Qed.

Lemma new_string_held s old ptr l : held s ≡ₚ opt_res old ++ l -> let '(p, s') := new_string s old ptr in held s' ≡ₚ opt_res p ++ l.
Proof.
  intros Hs. unfold new_string. pose proof (free_opt_held s old l Hs) as H1. destruct ptr as [str|]; [|done]. unfold lib_strdup.
  pose proof (law_malloc (free_opt s old) (Z.of_nat (length str) + 1)) as H2. destruct (KMALLOC _ _) as [[p|] s']; by rewrite H2, H1.
Qed.

(** Parameters that a program may set, with values of the size that is copied. *)
Definition param_ok (param : ip_param) (ptr : option bytes) : Prop :=
  match param, ptr with
  | NET_DOMAIN, _ | NET_HOSTNAME, _ => True
  | NET_HWADDR, Some v => (6 <= length v)%nat
  | _, Some v => (4 <= length v)%nat
  | _, None => False
  end.

Lemma setparam_ip i param ptr got res : ip_ok i -> param_ok param ptr ->
  exists r i', _ip_setparam i param ptr got res = Some (r, i') /\ ip_ok i' /\ device i' = device i.
Proof.
  intros Hok Hp. assert (Hn : forall n, length (ip_addr n) = 4%nat -> length (ip_gateway n) = 4%nat -> ip_ok (set_net i n) /\ device (set_net i n) = device i).
  { intros n L1 L2. split; [by apply set_net_ok|done]. }
  pose proof (io_addr i Hok) as La. pose proof (io_gw i Hok) as Lg.
  destruct param, ptr as [v|]; cbn [param_ok] in Hp; try done; cbn [_ip_setparam];
    try (eexists _, _; split; [reflexivity|]; apply Hn; first [done|by apply take_4]); try (eexists _, _; split; [reflexivity|]; done).
  - set (n := NetInfo _ _ _ _ _ _). destruct (Hn n (take_4 _ Hp) Lg) as [H1 H2]. unfold _arp_send_gratuitous. destruct (ip_addriszero _); [by eexists _, _|].
    destruct (arp_tx_query_ok (set_net i n) (ip_addr n) H1 (take_4 _ Hp)) as (i2 & E & [Hm _] & _). cbn [net_inf set_net] in *. rewrite E. cbn [option_bind].
    eexists _, _. split; [reflexivity|]. split; [done|]. rewrite (query_device _ _ _ E). exact H2.
  - eexists _, _. split; [reflexivity|]. split; [|done]. destruct Hok as [[E1 E2] H2 H3 H4 H5 H6 H7 H8]. split; cbn; try done; rewrite ?length_take; try lia. split; [cbn; rewrite length_take; lia|done].
Qed.

Lemma ioctl_held s h cmd b : held (cfe_ioctl s h cmd b).2 ≡ₚ held s.
Proof. pose proof (law_ioctl s h cmd b) as Hi. destruct (cfe_ioctl s h cmd b) as [[r b'] s']. apply Hi. Qed.

Lemma net_setparam_ok base ts w c param ptr : net_ok base ts w c -> param_ok param ptr ->
  exists r w' c', net_setparam w param ptr = Some (r, w') /\ net_ok base ts w' c'.
Proof.
  intros [Hc Hip Ht Hq Hh Hb] Hp. unfold net_setparam. rewrite Hc.
  assert (Hgo : forall got res strings s, held s ≡ₚ ctx_res (set_nc_strings c strings) ++ base ->
    exists r w' c', (let? (r, i) := _ip_setparam (nc_ip c) param ptr got res in Some (r, Net s (Some (set_nc_ip (set_nc_strings c strings) i)) (nt_bg w))) = Some (r, w') /\ net_ok base ts w' c').
  { intros got res strings s Hs. destruct (setparam_ip (nc_ip c) param ptr got res Hip Hp) as (r & i & -> & Hi & Hd). cbn [option_bind].
    eexists _, _, _. split; [reflexivity|]. split; try done. cbn [nt_sys]. unfold ctx_res in *. cbn [nc_ip set_nc_ip nc_devname nc_eth nc_ipptr nc_arpptr nc_strings nc_udpptr nc_icmpptr nc_self set_nc_strings] in *. by rewrite Hd. }
  assert (Hid : forall s, held s ≡ₚ held (nt_sys w) -> held s ≡ₚ ctx_res (set_nc_strings c (nc_strings c)) ++ base) by (intros s ->; by destruct c).
  assert (Hdom : held (nt_sys w) ≡ₚ opt_res (nc_strings c).1 ++ (ctx_res (set_nc_strings c (None, (nc_strings c).2)) ++ base)) by (rewrite Hh; unfold ctx_res, ip_res; cbn; solve_Permutation).
  assert (Hhost : held (nt_sys w) ≡ₚ opt_res (nc_strings c).2 ++ (ctx_res (set_nc_strings c ((nc_strings c).1, None)) ++ base)) by (rewrite Hh; unfold ctx_res, ip_res; cbn; solve_Permutation).
  destruct param, ptr as [v|]; cbn [param_ok] in Hp; try done; try (apply Hgo, Hid; done).
  - pose proof (new_string_held _ _ (Some v) _ Hdom) as H1. destruct (new_string _ _ _) as [p s]. apply Hgo. rewrite H1. unfold ctx_res, ip_res. cbn. solve_Permutation.
  - pose proof (new_string_held _ _ None _ Hdom) as H1. destruct (new_string _ _ _) as [p s]. apply Hgo. rewrite H1. unfold ctx_res, ip_res. cbn. solve_Permutation.
  - pose proof (new_string_held _ _ (Some v) _ Hhost) as H1. destruct (new_string _ _ _) as [p s]. apply Hgo. rewrite H1. unfold ctx_res, ip_res. cbn. solve_Permutation.
  - pose proof (new_string_held _ _ None _ Hhost) as H1. destruct (new_string _ _ _) as [p s]. apply Hgo. rewrite H1. unfold ctx_res, ip_res. cbn. solve_Permutation.
  - unfold eth_setspeed. pose proof (ioctl_held (nt_sys w) (eth_devhandle (eth_info (nc_ip c))) IOCTL_ETHER_SETSPEED (le_int (of_le (take 4 v)))) as H1. destruct (cfe_ioctl _ _ _ _) as [[r b'] s]. by apply Hgo, Hid.
  - unfold eth_setloopback. pose proof (ioctl_held (nt_sys w) (eth_devhandle (eth_info (nc_ip c))) IOCTL_ETHER_SETLOOPBACK (le_int (of_le (take 4 v)))) as H1. destruct (cfe_ioctl _ _ _ _) as [[r b'] s]. by apply Hgo, Hid.
Qed.

Fixpoint net_setparams (ps : list (ip_param * option bytes)) (w : net) : option net :=
  match ps with [] => Some w | p :: ps => let? (_, w) := net_setparam w p.1 p.2 in net_setparams ps w end.

Lemma net_setparams_ok base ts ps : forall w c, net_ok base ts w c -> Forall (fun p => param_ok p.1 p.2) ps -> exists w' c', net_setparams ps w = Some w' /\ net_ok base ts w' c'.
Proof.
  induction ps as [|p ps IH]; intros w c Hw Hps; cbn [net_setparams]; [by exists w, c|]. apply Forall_cons in Hps as [Hp Hps].
  destruct (net_setparam_ok base ts w c p.1 p.2 Hw Hp) as (r & w1 & c1 & -> & H1). by apply (IH w1 c1).
Qed.

Lemma add_remove ts arg : Forall (fun t => t.1 <> net_poll_task) ts -> remove_task (add_task ts net_poll_task arg) net_poll_task = ts.
Proof.
  intros H. assert (Forall (fun f => f <> net_poll_task) (map fst ts)) by (by apply Forall_fmap). unfold add_task. destruct (_ <? _)%nat.
  - rewrite remove_at by done. apply app_nil_r.
  - by apply remove_none.
Qed.

(** C28 The network can be turned on and off, if the memory for the table of ARP, the one allocation
    that is not checked ([no_table_unnoticed]), is always given: if it comes up, then after any setting of parameters it is
    taken down with every block of memory and the device given back, and its background task is gone; if it does not
    come up, all that stays allocated is the context and the copy of the device's name. *)
Theorem net_lifetime w devname ts : nt_ctx w = None -> bg_holds (nt_bg w) ts -> Forall (fun t => t.1 <> net_poll_task) ts ->
  exists r w1, net_init w devname = Some (r, w1) /\
    ((r = -1 /\ nt_ctx w1 = None /\ exists lost, held (nt_sys w1) ≡ₚ lost ++ held (nt_sys w) /\
        (lost = [] \/ exists ctx name, lost = opt_res name ++ [RMem ctx])) \/
     (r = 0 /\ forall ps, Forall (fun p => param_ok p.1 p.2) ps ->
        exists w2 w3, net_setparams ps w1 = Some w2 /\ net_uninit w2 = Some w3 /\ nt_ctx w3 = None /\
          held (nt_sys w3) ≡ₚ held (nt_sys w) /\ bg_holds (nt_bg w3) ts)).
Proof.
  intros Hc Hb Hts. unfold net_init. replace (net_uninit w) with (Some w) by (unfold net_uninit; by rewrite Hc). cbn [option_bind].
  pose proof (law_malloc (nt_sys w) sizeof_net_ctx) as H1. destruct (KMALLOC (nt_sys w) _) as [[ctx|] s1].
  2:{ eexists _, _. split; [reflexivity|]. left. split; [done|]. split; [done|]. exists []. split; [done|by left]. }
  unfold lib_strdup. pose proof (law_malloc s1 (Z.of_nat (length devname) + 1)) as H2. destruct (KMALLOC s1 _) as [name s2].
  assert (H2' : held s2 ≡ₚ opt_res name ++ RMem ctx :: held (nt_sys w)) by (rewrite H2; destruct name; by rewrite H1).
  assert (Hlost : forall s, held s ≡ₚ opt_res name ++ RMem ctx :: held (nt_sys w) -> exists lost, held s ≡ₚ lost ++ held (nt_sys w) /\ (lost = [] \/ exists ctx name, lost = opt_res name ++ [RMem ctx])).
  { intros s Hs. exists (opt_res name ++ [RMem ctx]). split; [by rewrite Hs, <- app_assoc|]. right. by exists ctx, name. }
  pose proof (eth_init_held s2 devname) as H3. destruct (eth_init s2 devname) as [[ed|] s3].
  2:{ eexists _, _. split; [reflexivity|]. left. split; [done|]. split; [done|]. apply Hlost. by rewrite H3. }
  destruct H3 as (H3 & hw & data & Ei & Hhw & Hd). rewrite Ei.
  destruct (layers_held s3 (ed_self ed, ed_ports ed, ed_bufpool ed) (eth_devhandle (ed_info ed)) hw data Hhw Hd _ H3) as (o & s4 & E4 & Ho).
  cbn [fst snd] in E4. rewrite E4. cbn [option_bind]. destruct o as [[[[[ipi table] udp] icmp] i]|].
  2:{ eexists _, _. split; [reflexivity|]. left. split; [done|]. split; [done|]. apply Hlost. by rewrite Ho. }
  destruct Ho as (H4 & Ht & Hi & Hdev). eexists _, _. split; [reflexivity|]. right. split; [done|]. intros ps Hps. set (w1 := Net s4 _ _).
  assert (Hw1 : exists c, net_ok (held (nt_sys w)) (add_task ts net_poll_task ctx) w1 c).
  { eexists. split; [reflexivity|done|done|repeat constructor| |by apply bg_add_ok]. cbn [nt_sys w1]. rewrite H4, H2'. unfold ctx_res. cbn [nc_self nc_devname nc_eth nc_ip nc_ipptr nc_arpptr nc_strings nc_udpptr nc_icmpptr fst]. rewrite Hdev. solve_Permutation. }
  destruct Hw1 as [c1 Hw1]. destruct (net_setparams_ok _ _ ps w1 c1 Hw1 Hps) as (w2 & c2 & E2 & Hw2). destruct (net_uninit_ok _ _ w2 c2 Hw2) as (w3 & E3 & Hc3 & Hh3 & Hb3).
  exists w2, w3. split; [done|]. split; [done|]. split; [done|]. split; [done|]. by rewrite add_remove in Hb3.
Qed.
End lifetime.

(** * A machine *)

(** Memory is handed out from a place upwards, and the device delivers the frames of [bx_in];
    each round of polls is a tick. *)
Record box := Box { bx_next : Z; bx_held : list res; bx_in : list rx_input; bx_now : Z }.

#[local] Instance res_eq_dec : EqDecision res.
Proof. solve_decision. Defined.

Fixpoint remove_res (x : res) (l : list res) : list res :=
  match l with [] => [] | y :: l => if decide (x = y) then l else y :: remove_res x l end.

Lemma remove_res_spec x l l' : l ≡ₚ x :: l' -> remove_res x l ≡ₚ l'.
Proof.
  intros H. assert (Hr : forall l, x ∈ l -> l ≡ₚ x :: remove_res x l).
  { clear. induction l as [|y l IH]; intros Hin; [by apply not_elem_of_nil in Hin|]. cbn [remove_res]. case_decide as Hd; [by subst|].
    apply elem_of_cons in Hin as [?|Hin]; [done|]. rewrite (IH Hin) at 1. apply perm_swap. }
  apply (Permutation_cons_inv (a := x)). rewrite <- Hr; [done|]. rewrite H. left.
Qed.

Definition bx_hwaddr : bytes := [0; 16; 24; 1; 2; 3].

(** There is no memory for the sizes of a list. *)
Section box.
Context (short : list Z).

#[local] Instance box_machine : Machine box := {
  cfe_open s name := (3, Box (bx_next s) (RDev 3 :: bx_held s) (bx_in s) (bx_now s));
  cfe_close s h := Box (bx_next s) (remove_res (RDev h) (bx_held s)) (bx_in s) (bx_now s);
  cfe_ioctl s h cmd b := if cmd =? IOCTL_ETHER_GETHWADDR then (0, if (length b =? 6)%nat then bx_hwaddr else b, s) else (CFE_ERR_UNSUPPORTED, b, s);
  cfe_inpstat s h := match bx_in s with [] | NoInput :: _ => false | _ => true end;
  cfe_read s h := match bx_in s with [] => (NoInput, s) | f :: l => (f, Box (bx_next s) (bx_held s) l (bx_now s)) end;
  KMALLOC s n := if existsb (Z.eqb n) short then (None, s)
                 else (Some (bx_next s), Box (bx_next s + n) (RMem (bx_next s) :: bx_held s) (bx_in s) (bx_now s));
  KFREE s p := Box (bx_next s) (remove_res (RMem p) (bx_held s)) (bx_in s) (bx_now s);
  sys_ticks := bx_now;
  sys_pass s := Box (bx_next s) (bx_held s) (match bx_in s with NoInput :: l => l | l => l end) (bx_now s + 1);
  _getticks s := 0;
  mem_bytes s p n := replicate eb_size 0;
  mem_entries s p := ex_table
}.

#[local] Instance box_laws : MachineLaws box.
Proof.
  refine {| held := bx_held |}.
  - intros s name. cbn. done.
  - intros s h l Hl. by apply remove_res_spec.
  - intros s h cmd b. cbn. unfold IOCTL_ETHER_GETHWADDR. destruct (cmd =? 1); (split; [done|]); [|done]. destruct (Nat.eqb_spec (length b) 6) as [->|]; done.
  - intros s n. cbn. by destruct (existsb _ _).
  - intros s p l Hl. by apply remove_res_spec.
  - intros s p n. apply length_replicate.
  - intros s p. split; [done|]. repeat (constructor; [done|]). constructor.
Defined.
End box.

Definition ex_box (frames : list rx_input) : net := Net (Box 0x1000 [RMem 1] frames 5) None (Bg (replicate 16 0) (replicate 16 0)).
Definition ex_params : list (ip_param * option bytes) :=
  [(NET_IPADDR, Some [10; 0; 0; 1]); (NET_DOMAIN, Some [108; 97; 110]); (NET_DOMAIN, Some [120]); (NET_HOSTNAME, Some [104]); (NET_DOMAIN, None); (NET_SPEED, Some [1; 0; 0; 0])].

Lemma net_lifetime_witness : exists w1 w2 w3, net_init (H := box_machine []) (ex_box []) [101] = Some (0, w1) /\
  net_setparams (MA := box_machine []) ex_params w1 = Some w2 /\ net_uninit (H := box_machine []) w2 = Some w3 /\ bx_held (nt_sys w3) ≡ₚ [RMem 1].
Proof.
  assert (Hz : option_map fst (net_init (H := box_machine []) (ex_box []) [101]) = Some 0) by (vm_compute; reflexivity).
  destruct (net_lifetime (ML := box_laws []) ltac:(intros s; eexists _, _; reflexivity) (ex_box []) [101] []) as (r & w1 & E1 & [(-> & _)|(-> & H)]); [done|split; [done|done|done|cbn; lia|constructor]|constructor| |].
  - rewrite E1 in Hz. exfalso. clear -Hz. inversion Hz.
  - destruct (H ex_params) as (w2 & w3 & E2 & E3 & _ & Hh & _); [repeat (apply Forall_cons; split; [cbn; first [exact I|lia]|]); constructor|]. exists w1, w2, w3. split; [exact E1|]. split; [exact E2|]. split; [exact E3|exact Hh].
Defined.

(** It comes up; without memory for the UDP layer it does not, and two blocks are lost. *)
Example net_init_runs :
  option_map fst (net_init (H := box_machine []) (ex_box []) [101]) = Some 0 /\
  (let? (r, w) := net_init (H := box_machine [sizeof_udp_info]) (ex_box []) [101] in Some (r, bx_held (nt_sys w))) = Some (-1, [RMem (0x1000 + 32); RMem 0x1000; RMem 1]).
Proof. vm_compute. done. Qed.

(** Without memory for the ARP table the network comes up all the same, and taking it down goes
    through a null pointer. *)
Example no_table_unnoticed : exists w,
  net_init (H := box_machine [Z.of_nat ARP_TABLE_SIZE * sizeof_arpentry]) (ex_box []) [101] = Some (0, w) /\
  net_uninit (H := box_machine [Z.of_nat ARP_TABLE_SIZE * sizeof_arpentry]) w = None.
Proof. eexists. split; [vm_compute; reflexivity|vm_compute; reflexivity]. Qed.
