(* ===== verification/NetApi.v ===== *)
(** The calls that programs make of the network: cfe/cfe/net/net_api.c.

    The stack under its context, polled as a background task; the calls that wait; and the
    classes of [Tftp] and [Dns] for programs over it. *)

From S2P Require Import Prelude Background Ether Ip IpApi Tcp Udp Icmp Tftp TftpFile Filesys Dns NetDev.
From Stdlib Require Import ZArith Lia Bool List.
From stdpp Require Import base numbers list.

#[local] Open Scope Z_scope.

(** * The stack *)

Section api.
Context {M : Type} `{Machine M}.
Abbreviation net := (@net M).

(** The callbacks that are registered with IP. *)
Definition protocol (cb ref : Z) (c : net_ctx) (b : ebuf) (dst src : bytes) : option (rx_result * net_ctx) :=
  if cb =? udp_rx_cb then let? (r, u) := _udp_rx_callback (udp_of c) b dst src in Some (r, put_nc_udp c u)
  else if cb =? icmp_rx_cb then let? (r, ic) := icmp_rx_callback (icmp_of c) b dst src in Some (r, put_nc_icmp c ic)
  else None.

(** A frame is only read when there is a buffer for it. *)
Definition net_rx_poll (w : net) (c : net_ctx) : option net :=
  let h := eth_devhandle (eth_info (nc_ip c)) in
  if negb (cfe_inpstat (nt_sys w) h) then Some w
  else
    match eth_freelist (eth_info (nc_ip c)) with
    | [] => Some w
    | _ :: _ =>
        let '(input, s) := cfe_read (nt_sys w) h in
        let? c := Ip.net_poll nc_ip set_nc_ip protocol c input in
        Some (Net s (Some c) (nt_bg w))
    end.

Definition net_poll (w : net) : option net :=
  match nt_ctx w with
  | None => Some w
  | Some c =>
      let? w := net_rx_poll w c in
      let? c := nt_ctx w in
      if TIMER_EXPIRED (sys_ticks (nt_sys w)) (nc_timer c) then
        let? i := _ip_timer_tick (nc_ip c) in
        Some (Net (nt_sys w) (Some (set_nc_timer (set_nc_ip c i) (sys_ticks (nt_sys w) + CFE_HZ))) (nt_bg w))
      else Some w
  end.

(** Other tasks, and how long a program may have to wait for a time. *)
Context (others : Z -> Z -> net -> option net) (patience : Z -> net -> nat).

Definition run_task (func arg : Z) (w : net) : option net := if func =? net_poll_task then net_poll w else others func arg w.

#[export] Instance net_polls : PollApi net := {
  clock w := sys_ticks (nt_sys w);
  POLL w := background nt_bg run_task (Net (sys_pass (nt_sys w)) (nt_ctx w) (nt_bg w))
}.

(** * UDP *)

Definition set_nt_udp (w : net) (c : net_ctx) (u : udp_info ip_info) : net := Net (nt_sys w) (Some (put_nc_udp c u)) (nt_bg w).

(** Without a context nothing is done, and the result is that of an error. *)
Definition with_ctx {A} (w : net) (none : A) (f : net_ctx -> option (A * udp_info ip_info)) : option (A * net) :=
  match nt_ctx w with
  | None => Some (none, w)
  | Some c => let? (a, u) := f c in Some (a, set_nt_udp w c u)
  end.

Definition net_udp_alloc (w : net) : option (option ebuf * net) := with_ctx w None (fun c => _udp_alloc (udp_of c)).
Definition net_udp_free (w : net) (buf : ebuf) : net :=
  match nt_ctx w with None => w | Some c => set_nt_udp w c (_udp_free (udp_of c) buf) end.
Definition net_udp_socket (w : net) (port : Z) : option (Z * net) :=
  with_ctx w (-1) (fun c => _udp_socket (udp_of c) port (_getticks (nt_sys w))).
Definition net_udp_close (w : net) (portnum : Z) : option net :=
  let? (_, w) := with_ctx w tt (fun c => let? u := _udp_close (udp_of c) portnum in Some (tt, u)) in Some w.
Definition net_udp_send (w : net) (s : Z) (buf : ebuf) (dest : bytes) : option (Z * net) := with_ctx w (-1) (fun c => _udp_send (udp_of c) s buf dest).
Definition net_udp_bind (w : net) (s port : Z) : option (Z * net) := with_ctx w (-1) (fun c => _udp_bind (udp_of c) s port).
Definition net_udp_connect (w : net) (s port : Z) : option (Z * net) := with_ctx w (-1) (fun c => _udp_connect (udp_of c) s port).
Definition net_udp_recv (w : net) (s : Z) : option (option datagram * net) := with_ctx w None (fun c => _udp_recv (udp_of c) s).

(** * ARP and ICMP *)

Definition set_nt_ip (w : net) (c : net_ctx) (i : ip_info) : net := Net (nt_sys w) (Some (set_nc_ip c i)) (nt_bg w).

Definition net_arp_add (w : net) (destip desthw : bytes) : option net :=
  match nt_ctx w with None => Some w | Some c => let? i := _arp_add (nc_ip c) destip desthw in Some (set_nt_ip w c i) end.
Definition net_arp_lookup (w : net) (destip : bytes) : option (option bytes * net) :=
  match nt_ctx w with None => Some (None, w) | Some c => let? (r, i) := _arp_lookup (nc_ip c) destip in Some (r, set_nt_ip w c i) end.
Definition net_arp_enumerate (w : net) (entrynum : Z) : option (Z * option (bytes * bytes)) :=
  match nt_ctx w with None => Some (-1, None) | Some c => _arp_enumerate (nc_ip c) entrynum end.
Definition net_arp_delete (w : net) (ipaddr : bytes) : option (Z * net) :=
  match nt_ctx w with None => Some (-1, w) | Some c => let? (r, i) := _arp_delete (nc_ip c) ipaddr in Some (r, set_nt_ip w c i) end.

(** Ping keeps a pointer into the context while it polls: a task must not take the network
    down. *)
Record up := Up { up_sys : M; up_ctx : net_ctx; up_bg : bg_tasks }.
Definition up_icmp (u : up) : icmp_info ip_info := icmp_of (up_ctx u).
Definition set_up_icmp (u : up) (ic : icmp_info ip_info) : up := Up (up_sys u) (put_nc_icmp (up_ctx u) ic) (up_bg u).

#[export] Instance up_polls : PollApi up := {
  clock u := sys_ticks (up_sys u);
  POLL u := let? w := POLL (Net (up_sys u) (Some (up_ctx u)) (up_bg u)) in let? c := nt_ctx w in Some (Up (nt_sys w) c (nt_bg w))
}.

Definition net_icmp_ping (w : net) (dest : bytes) (seq len : Z) : option (Z * net) :=
  match nt_ctx w with
  | None => Some (-1, w)
  | Some c =>
      let? (r, u) := _icmp_ping up_icmp set_up_icmp (patience (sys_ticks (nt_sys w) + 2 * CFE_HZ) w) (Up (nt_sys w) c (nt_bg w)) dest seq len in
      Some (r, Net (up_sys u) (Some (up_ctx u)) (up_bg u))
  end.

(** * Waiting for a datagram *)

Fixpoint recv_loop (fuel : nat) (w : net) (s timer : Z) : option (option datagram * net) :=
  if TIMER_EXPIRED (clock w) timer then Some (None, w)
  else
    match fuel with
    | O => None
    | S fuel =>
        let? w := POLL w in
        let? (buf, w) := net_udp_recv w s in
        match buf with Some d => Some (Some d, w) | None => recv_loop fuel w s timer end
    end.

Definition net_udp_recv_with_timeout (w : net) (s n : Z) : option (option datagram * net) :=
  match nt_ctx w with
  | None => Some (None, w)
  | Some _ => recv_loop (patience (clock w + n) w) w s (clock w + n)
  end.

(** The classes of the programs above. *)
#[export] Instance net_udp_api : UdpApi net := {
  udp_socket := net_udp_socket;
  udp_bind := net_udp_bind;
  udp_connect := net_udp_connect;
  udp_close := net_udp_close;
  udp_alloc := net_udp_alloc;
  udp_free := net_udp_free;
  udp_send := net_udp_send;
  udp_recv_with_timeout := net_udp_recv_with_timeout
}.

#[export] Instance net_dns_api : DnsApi net := {
  udp_recv := net_udp_recv;
  Dns.net_getparam := net_getparam
}.

Definition net_dns_lookup (w : net) (hostname : bytes) : option (Z * bytes * net) :=
  dns_lookup (patience (clock w + 9 * CFE_HZ) w) w hostname (replicate 4 0).

(** * The wait ends *)

Context {PL : @PollLaws net net_polls}.
Hypothesis patient : forall t w, polling_ok w -> (polls_until t w < patience t w)%nat.
Hypothesis recv_ok : forall w s, polling_ok w -> exists d w', net_udp_recv w s = Some (d, w') /\ polling_ok w' /\ clock w' = clock w /\ forall t, (polls_until t w' <= polls_until t w)%nat.

Lemma recv_loop_ends s timer : 0 < timer -> forall fuel w, polling_ok w -> (polls_until timer w < fuel)%nat ->
  exists d w', recv_loop fuel w s timer = Some (d, w') /\ polling_ok w' /\ (d = None -> timer < clock w').
Proof.
  intros Ht. induction fuel as [|fuel IH]; intros w Hw Hf; [lia|]. cbn [recv_loop]. destruct (TIMER_EXPIRED (clock w) timer) eqn:Ex.
  - exists None, w. split; [done|]. split; [done|]. intros _. unfold TIMER_EXPIRED in Ex. apply andb_true_iff in Ex as [_ Ex]. by apply Z.ltb_lt in Ex.
  - assert (Hc : clock w <= timer).
    { unfold TIMER_EXPIRED, truthy in Ex. rewrite (proj2 (Z.eqb_neq timer 0)) in Ex by lia. cbn [negb andb] in Ex. by apply Z.ltb_ge in Ex. }
    destruct (law_poll timer w Hw Hc) as (w1 & -> & Hw1 & Hp). cbn [option_bind]. destruct (recv_ok w1 s Hw1) as (d & w2 & -> & Hw2 & _ & Hd). cbn [option_bind].
    destruct d as [d|]; [by exists (Some d), w2|]. apply IH; [done|]. specialize (Hd timer). lia.
Qed.

(** Waiting for a datagram ends: with one, or when more than the given number of ticks has passed. *)
Theorem recv_with_timeout_ends w s n : polling_ok w -> nt_ctx w <> None -> 0 <= clock w -> 0 < n ->
  exists d w', net_udp_recv_with_timeout w s n = Some (d, w') /\ polling_ok w' /\ (d = None -> clock w + n < clock w').
Proof.
  intros Hw Hc H0 Hn. unfold net_udp_recv_with_timeout. destruct (nt_ctx w); [|done]. apply recv_loop_ends; [lia|done|]. by apply patient.
Qed.
End api.

(** * The whole stack *)

(** The machine of [NetDev], with no other tasks; a wait takes as many polls as ticks. *)
#[local] Instance the_box : Machine box := box_machine [].
Definition bx_patience (t : Z) (w : @net box) : nat := Z.to_nat (t + 2 - sys_ticks (nt_sys w)).
Definition no_task (func arg : Z) (w : @net box) : option (@net box) := Some w.

Definition ex_arp_frame : rx_input :=
  RxFrame (bx_hwaddr ++ ex_far_hw ++ [8; 6; 0; 1; 8; 0; 6; 4; 0; 2] ++ ex_far_hw ++ [10; 0; 0; 2] ++ bx_hwaddr ++ [10; 0; 0; 1] ++ replicate 18 0).
Definition ex_dns_frame (id : Z) : rx_input :=
  RxFrame (ip_frame ex_far bx_hwaddr [10; 0; 0; 1] (udp_bytes [10; 0; 0; 2] [10; 0; 0; 1] 53 1024 (reply_bytes (an_answer (be16 id)))) 17).
Definition ex_net_params : list (ip_param * option bytes) :=
  [(NET_IPADDR, Some [10; 0; 0; 1]); (NET_NETMASK, Some [255; 255; 255; 0]); (NET_NAMESERVER, Some [10; 0; 0; 2]); (NET_DOMAIN, Some [108; 97; 110])].

(** The network comes up, and a name is looked up over it. *)
Definition ex_lookup (frames : list rx_input) : option (Z * bytes * Z * nat) :=
  let? (r, w) := net_init (ex_box frames) [101] in
  let? w := net_setparams ex_net_params w in
  let? (r, a, w) := net_dns_lookup no_task bx_patience w a_name in
  let? c := nt_ctx w in
  Some (r, a, bx_now (nt_sys w), length (eth_freelist (eth_info (nc_ip c)))).

(** The lookup finds the address once the name server is known to ARP, and gives up with a timeout
    when no one answers; then two of the eight packet buffers still wait in the ARP table. *)
Example lookup_whole_stack :
  ex_lookup [NoInput; ex_arp_frame; NoInput; ex_dns_frame 5] = Some (1, [10; 0; 0; 7], 7, 8%nat) /\
  ex_lookup [] = Some (CFE_ERR_TIMEOUT, [0; 0; 0; 0], 93, 6%nat).
Proof. by vm_compute. Qed.
