(* ===== verification/Shutils.v ===== *)
(** Helpers of the router's programs: router/shared/shutils.c and shutils.h.

    Lists of words in a string, the unit numbers of interface names, and the names and
    indices of interfaces in nvram.  A string is the list of its bytes before the NUL. *)

From S2P Require Import Prelude.
From Stdlib Require Import ZArith Lia Bool List Ascii String.
From stdpp Require Import base numbers list.

#[local] Open Scope Z_scope.

Definition EINVAL := 22.
Definition EMSGSIZE := 97.
Definition NVRAM_MAX_PARAM_LEN : nat := 64.
Definition MAX_NVPARSE : nat := 255.

Definition space : Z := ch " "%char.
Definition is_digit (c : Z) : bool := (ch "0"%char <=? c) && (c <=? ch "9"%char).

(** strstr of the C library: where the first occurrence is. *)
Fixpoint strstr (s sub : bytes) : option nat :=
  if bytes_eqb (take (length sub) s) sub then Some O
  else match s with [] => None | _ :: s => option_map S (strstr s sub) end.

(** * Lists of words *)

(** The loop of remove_from_list, from the place [occ] on; strncpy moves the bytes behind the
    word down one after the other. *)
Fixpoint remove_loop (fuel : nat) (name list : bytes) (occ : nat) : option (Z * bytes) :=
  if (occ <? length list)%nat then
    match fuel with
    | O => None
    | S fuel =>
        match strstr (drop occ list) name with
        | None => Some (EINVAL, list)
        | Some i =>
            let occ := (occ + i)%nat in
            match list !! (occ + length name)%nat with
            | None => Some (0, take (if (occ =? 0)%nat then O else (occ - 1)%nat) list)
            | Some c =>
                if c =? space then Some (0, take occ list ++ drop (occ + length name + 1) list)
                else remove_loop fuel name list (S occ)
            end
        end
    end
  else Some (0, list).

Definition remove_from_list (name list : bytes) (listsize : Z) : option (Z * bytes) :=
  if listsize <=? 0 then Some (EINVAL, list) else remove_loop (length list) name list 0.

Definition add_to_list (name list : bytes) (listsize : Z) : Z * bytes :=
  let listlen := Z.of_nat (length list) in
  let namelen := Z.of_nat (length name) in
  let there :=
    match strstr list name with
    | Some i => match list !! (i + length name)%nat with None => true | Some c => c =? space end
    | None => false
    end in
  if listsize <=? 0 then (EINVAL, list)
  else if there then (0, list)
  else if listsize <=? listlen + namelen + 1 then (EMSGSIZE, list)
  else (0, (match list with [] => [] | _ => list ++ [space] end) ++ name).

Fixpoint strspn1 (s : bytes) : nat := match s with c :: s => if c =? space then S (strspn1 s) else O | [] => O end.
Fixpoint strcspn1 (s : bytes) : nat := match s with c :: s => if c =? space then O else S (strcspn1 s) | [] => O end.
Definition strchr1 (s : bytes) : option bytes := let r := drop (strcspn1 s) s in match r with [] => None | _ => Some r end.

(** A word for the array [word] of [size] bytes: strncpy leaves it without a NUL when the rest of the list is as long,
    and then strcspn reads on. *)
Definition get_word (size : nat) (next : bytes) : option bytes :=
  let word := take (strcspn1 (take size next)) next in
  assert! (length word <? size)%nat in Some (take (size - 1) word).

(** The words that the body of [foreach] sees. *)
Fixpoint foreach_loop (fuel size : nat) (next : bytes) : option (list bytes) :=
  let? word := get_word size next in
  match word with
  | [] => Some []
  | _ :: _ =>
      match fuel with
      | O => None
      | S fuel =>
          let next := match strchr1 next with Some next => drop (strspn1 next) next | None => [] end in
          let? words := foreach_loop fuel size next in Some (word :: words)
      end
  end.

Definition foreach (size : nat) (wordlist : bytes) : option (list bytes) :=
  foreach_loop (length wordlist) size (drop (strspn1 wordlist) wordlist).

(** * Units *)

(** [rest] is the string up to the place [p] with the last byte first; [None] is reading before the
    string: the loop ends when [p] is at the start, but the first step is taken before that is
    looked at. *)
Fixpoint strrspn_loop (rest : bytes) (accept : Z -> bool) (i : nat) : option nat :=
  match rest with
  | [] => None
  | c :: rest => if accept c then match rest with [_] => Some (S i) | _ => strrspn_loop rest accept (S i) end else Some i
  end.

Definition sh_strrspn (s : bytes) (accept : Z -> bool) : option nat :=
  match s with [] => Some O | _ => strrspn_loop (rev s) accept O end.

Fixpoint digits_value (acc : Z) (s : bytes) : Z :=
  match s with c :: s => if is_digit c then digits_value (acc * 10 + (c - ch "0"%char)) s else acc | [] => acc end.

(** strtol of digits, with a long of 32 bits: it stops at the largest. *)
Definition strtol (s : bytes) : Z := Z.min (digits_value 0 s) (2 ^ 31 - 1).

(** The result, the unit and the subunit. *)
Definition get_ifname_unit (ifname : bytes) : option (Z * Z * Z) :=
  if (64 <? length ifname + 1)%nat then Some (-1, -1, -1)
  else
    let? len := sh_strrspn ifname is_digit in
    if (len =? 0)%nat then Some (-1, -1, -1)
    else
      let p := (length ifname - len)%nat in
      let val := strtol (drop p ifname) in
      if (p =? 0)%nat || negb (deref (drop (p - 1) ifname) =? ch "."%char) then Some (0, val, -1)
      else
        let subunit := val in
        let p := (p - 1)%nat in
        let str := take p ifname in
        let? len := sh_strrspn str is_digit in
        if (len =? 0)%nat then Some (-1, -1, subunit)
        else Some (0, strtol (drop (p - len) str), subunit).

(** * Names *)

Fixpoint dec_loop (fuel : nat) (n : Z) (acc : bytes) : bytes :=
  match fuel with
  | O => acc
  | S fuel => let acc := (ch "0"%char + n mod 10) :: acc in if n <? 10 then acc else dec_loop fuel (n / 10) acc
  end.

(** An int as %d prints it. *)
Definition decimal (n : Z) : bytes := if n <? 0 then ch "-"%char :: dec_loop 10 (- n) [] else dec_loop 10 n [].

Definition atoi (s : bytes) : Z :=
  match s with
  | c :: t => if c =? ch "-"%char then Z.max (- digits_value 0 t) (- 2 ^ 31) else strtol s
  | [] => 0
  end.

Definition txt (s : String.string) : bytes := map (fun a => Z.of_nat (nat_of_ascii a)) (list_ascii_of_string s).
Definition snprintf (size : nat) (s : bytes) : bytes := take (size - 1) s.

(** What the helpers call of the nvram library. *)
Class NvramApi (W : Type) := {
  nvram_get : W -> bytes -> option bytes;
  nvram_set : W -> bytes -> bytes -> W;
  nvram_unset : W -> bytes -> W;
  nvram_commit : W -> W
}.

Section names.
Context {W : Type} `{NvramApi W}.

Definition nvram_match (w : W) (name value : bytes) : bool :=
  match nvram_get w name with Some v => bytes_eqb v value | None => false end.

(** strncpy into an array: a string that fills it has no end. *)
Definition strncpy (len : nat) (s : bytes) : option bytes := assert! (length s <? len)%nat in Some s.

(** The result, and the name in the array. *)
Definition nvifname_to_osifname (w : W) (nvifname : bytes) (len : nat) : option (Z * bytes) :=
  match nvifname with
  | [] => Some (-1, [])
  | _ =>
      if bool_decide (is_Some (strstr nvifname (txt "eth"))) || bool_decide (is_Some (strstr nvifname (txt ".")))
      then let? s := strncpy len nvifname in Some (0, s)
      else
        match nvram_get w (snprintf NVRAM_MAX_PARAM_LEN (nvifname ++ txt "_ifname")) with
        | Some [] | None => Some (-1, [])
        | Some ptr => let? s := strncpy len ptr in Some (0, s)
        end
  end.

Definition wl_name (pri : Z) : bytes := txt "wl" ++ decimal pri.
Definition wl_subname (pri sec : Z) : bytes := wl_name pri ++ txt "." ++ decimal sec.

(** The first of some names whose variable has the value. *)
Fixpoint first_match (w : W) (names : list bytes) (osifname : bytes) : option bytes :=
  match names with
  | [] => None
  | n :: names => if nvram_match w (snprintf NVRAM_MAX_PARAM_LEN (n ++ txt "_ifname")) osifname then Some n else first_match w names osifname
  end.

Definition counted : list Z := map Z.of_nat (seq 0 MAX_NVPARSE).
Definition sub_names : list bytes := concat (map (fun pri => map (wl_subname pri) counted) counted).

(** The result, and the name; on failure the array is as it was, which memset with its
    arguments in the wrong order leaves it. *)
Definition osifname_to_nvifname (w : W) (osifname old : bytes) (len : nat) : option (Z * bytes) :=
  match osifname with
  | [] => Some (-1, old)
  | _ =>
      if bool_decide (is_Some (strstr osifname (txt "wl"))) then let? s := strncpy len osifname in Some (0, s)
      else
        match first_match w (map wl_name counted) osifname with
        | Some n => Some (0, snprintf len n)
        | None => match first_match w sub_names osifname with Some n => Some (0, snprintf len n) | None => Some (-1, old) end
        end
  end.

Definition lan_var (index : Z) : bytes := txt "lan" ++ decimal index ++ txt "_ifname".

(** The search through the lan variables. *)
Fixpoint find_lan (n : nat) (index : Z) (w : W) (wl_ifname : bytes) : Z * W :=
  match n with
  | O => (-1, w)
  | S n =>
      if nvram_match w (snprintf 64 (lan_var index)) wl_ifname then
        (index, nvram_commit (nvram_set w (snprintf 64 (wl_ifname ++ txt "_ipconfig_index")) (snprintf 64 (decimal index))))
      else find_lan n (index + 1) w wl_ifname
  end.

Definition get_ipconfig_index (w : W) (eth_ifname : bytes) : option (Z * W) :=
  match eth_ifname with
  | [] => Some (-1, w)
  | _ =>
      let? (r, wl_ifname) := osifname_to_nvifname w eth_ifname [] 64 in
      if negb (r =? 0) then Some (-1, w)
      else
        let varname := snprintf 64 (wl_ifname ++ txt "_ipconfig_index") in
        match nvram_get w varname with
        | Some (c :: s) =>
            let index := atoi (c :: s) in
            match nvram_get w (snprintf 64 (lan_var index)) with
            | Some ifname => if bytes_eqb ifname wl_ifname then Some (index, w) else Some (find_lan MAX_NVPARSE 0 (nvram_unset w varname) wl_ifname)
            | None => Some (find_lan MAX_NVPARSE 0 (nvram_unset w varname) wl_ifname)
            end
        | _ => Some (find_lan MAX_NVPARSE 0 w wl_ifname)
        end
  end.

Definition set_ipconfig_index (w : W) (eth_ifname : bytes) (index : Z) : option (Z * W) :=
  match eth_ifname with
  | [] => Some (-1, w)
  | _ =>
      if Z.of_nat MAX_NVPARSE <=? index then Some (-1, w)
      else
        let? (r, wl_ifname) := osifname_to_nvifname w eth_ifname [] 64 in
        if negb (r =? 0) then Some (-1, w)
        else
          let w := nvram_set w (snprintf 255 (wl_ifname ++ txt "_ipconfig_index")) (snprintf 16 (decimal index)) in
          let w := nvram_set w (snprintf 255 (lan_var index)) wl_ifname in
          Some (0, nvram_commit w)
  end.

(** The static array keeps at most 255 bytes; one that is full has no end. *)
Definition get_bridged_interfaces (w : W) (bridge_name : bytes) : option (option bytes) :=
  match nvram_get w (snprintf 64 (bridge_name ++ txt "_ifnames")) with
  | Some ifnames => let? s := strncpy 255 ifnames in Some (Some s)
  | None => Some None
  end.
End names.

(** * Words *)

(** Words with a space after each, and a list of words. *)
Definition spaced (ws : list bytes) : bytes := concat (map (fun w => w ++ [space]) ws).
Fixpoint join (ws : list bytes) : bytes :=
  match ws with [] => [] | [w] => w | w :: ws => w ++ space :: join ws end.

Definition word_ok (w : bytes) : Prop := w <> [] /\ space ∉ w.

(** A name that is not a part of another word. *)
Definition apart (name : bytes) (ws : list bytes) : Prop := Forall (fun w => w = name \/ strstr w name = None) ws.

Fixpoint remove_first (name : bytes) (ws : list bytes) : list bytes :=
  match ws with [] => [] | w :: ws => if bytes_eqb w name then ws else w :: remove_first name ws end.

Lemma join_cons w ws : ws <> [] -> join (w :: ws) = w ++ space :: join ws.
Proof. by destruct ws. Qed.

Lemma join_app a b : b <> [] -> join (a ++ b) = spaced a ++ join b.
Proof.
  intros Hb. induction a as [|w a IH]; [done|]. cbn [app]. rewrite join_cons by (destruct a; [done|discriminate]). rewrite IH. unfold spaced. cbn [map concat]. by rewrite <- !app_assoc.
Qed.

Lemma spaced_join ws : ws <> [] -> spaced ws = join ws ++ [space].
Proof.
  induction ws as [|w ws IH]; intros H; [done|]. destruct ws as [|v ws]; [unfold spaced; cbn; by rewrite app_nil_r|].
  rewrite join_cons by done. unfold spaced in *. cbn [map concat] in *. rewrite IH by done. by rewrite <- !app_assoc.
Qed.

Lemma strstr_self name s : strstr (name ++ s) name = Some 0%nat.
Proof. destruct (name ++ s) eqn:E; cbn [strstr]; rewrite <- E, take_app_length, (proj2 (bytes_eqb_true _ _)) by done; done. Qed.

(** An occurrence does not run over a space. *)
Lemma strstr_skip w s name : strstr w name = None -> name <> [] -> space ∉ name ->
  strstr (w ++ space :: s) name = option_map (fun i => (length w + 1 + i)%nat) (strstr s name).
Proof.
  intros Hw Hn Hs. induction w as [|c w IH]; cbn [app strstr] in *.
  - destruct name as [|x name]; [done|]. cbn [length take]. destruct (bytes_eqb (space :: _) (x :: name)) eqn:E; [|by destruct (strstr s _)].
    apply bytes_eqb_true in E. assert (Hx : x = space) by congruence. exfalso. apply Hs. rewrite Hx. left.
  - destruct (bytes_eqb (take (length name) (c :: w)) name) eqn:E; [done|]. destruct (strstr w name) as [i|]; [done|]. rewrite IH by done.
    destruct (bytes_eqb (take (length name) (c :: w ++ space :: s)) name) eqn:E2; [exfalso|by destruct (strstr s name)].
    apply bytes_eqb_true in E2. change (c :: w ++ space :: s) with ((c :: w) ++ space :: s) in E2. destruct (Nat.le_gt_cases (length name) (length (c :: w))) as [Hl|Hl].
    + rewrite take_app_le in E2 by done. by rewrite (proj2 (bytes_eqb_true _ _) E2) in E.
    + rewrite take_app_ge in E2 by lia. destruct (length name - length (c :: w))%nat eqn:Ed; [lia|]. apply Hs. rewrite <- E2. apply elem_of_app. right. left.
Qed.

Lemma strstr_spaced ws s name : Forall (fun w => strstr w name = None) ws -> name <> [] -> space ∉ name ->
  strstr (spaced ws ++ s) name = option_map (fun i => (length (spaced ws) + i)%nat) (strstr s name).
Proof.
  intros Hw Hn Hs. induction Hw as [|w ws H _ IH]; [cbn; by destruct (strstr s name)|]. unfold spaced in *. cbn [map concat]. rewrite <- !app_assoc. cbn [app].
  rewrite strstr_skip, IH by done. destruct (strstr s name); cbn [option_map]; [|done]. f_equal. rewrite !length_app. cbn [length]. lia.
Qed.

(** Where a name is in a list of words. *)
Lemma apart_split name ws : apart name ws ->
  (exists pre post, ws = pre ++ name :: post /\ Forall (fun w => w <> name) pre /\ Forall (fun w => strstr w name = None) pre) \/
  ((name ∉ ws) /\ Forall (fun w => strstr w name = None) ws).
Proof.
  induction 1 as [|w ws H Hws IH]; [right; split; [apply not_elem_of_nil|constructor]|]. destruct (bytes_eqb w name) eqn:E.
  - apply bytes_eqb_true in E as ->. left. by exists [], ws.
  - assert (Hne : w <> name) by (intros ->; by rewrite (proj2 (bytes_eqb_true name name)) in E). destruct H as [?|H]; [done|].
    destruct IH as [(pre & post & -> & H1 & H2)|[H1 H2]]; [left; exists (w :: pre), post; split; [done|]; split; by constructor|right].
    split; [|by constructor]. intros Hin. apply elem_of_cons in Hin as [?|?]; [by symmetry in H0|done].
Qed.

Lemma strstr_none_join ws name : Forall (fun w => strstr w name = None) ws -> name <> [] -> space ∉ name -> strstr (join ws) name = None.
Proof.
  intros Hw Hn Hs. destruct ws as [|w ws] using rev_ind; [cbn; by destruct name|]. apply Forall_app in Hw as [H1 H2]. apply Forall_cons in H2 as [H2 _].
  rewrite join_app by done. rewrite strstr_spaced by done. cbn [join]. by rewrite H2.
Qed.

Lemma remove_first_at pre name post : Forall (fun w => w <> name) pre -> remove_first name (pre ++ name :: post) = pre ++ post.
Proof.
  induction 1 as [|w pre H _ IH]; cbn [app remove_first]; [by rewrite (proj2 (bytes_eqb_true _ _))|]. destruct (bytes_eqb w name) eqn:E; [by apply bytes_eqb_true in E|]. by rewrite IH.
Qed.

(** A word that is no part of another is removed from a list, with its space, and the other words
    stay as they are; one that is not in the list is reported. *)
Theorem remove_word name ws listsize : word_ok name -> Forall word_ok ws -> apart name ws -> 0 < listsize ->
  remove_from_list name (join ws) listsize =
    Some (if decide (name ∈ ws) then (0, join (remove_first name ws)) else (match ws with [] => 0 | _ => EINVAL end, join ws)).
Proof.
  intros [Hn Hs] Hws Ha Hsz. unfold remove_from_list. rewrite (proj2 (Z.leb_gt _ _)) by lia. destruct (apart_split name ws Ha) as [(pre & post & -> & Hne & Hpre)|[Hnin Hno]].
  - rewrite decide_True by (apply elem_of_app; right; left). rewrite remove_first_at by done.
    assert (Hnl : (0 < length name)%nat) by (destruct name; [done|cbn; lia]).
    rewrite join_app by done. set (list := spaced pre ++ join (name :: post)).
    assert (Hf : strstr list name = Some (length (spaced pre))).
    { unfold list. rewrite strstr_spaced by done. destruct post as [|p post]; [cbn [join]; rewrite <- (app_nil_r name) at 1|rewrite join_cons by done];
        rewrite strstr_self; cbn [option_map]; f_equal; lia. }
    assert (Hlen : (length (spaced pre) + length name <= length list)%nat).
    { unfold list. rewrite length_app. destruct post; [done|]. rewrite join_cons, length_app by done. lia. }
    destruct (length list) as [|k] eqn:Ek; [lia|]. cbn [remove_loop]. rewrite Ek. cbn [Nat.ltb Nat.leb]. rewrite drop_0, Hf. cbn [Nat.add].
    destruct post as [|p post].
    + assert (Hend : list !! (length (spaced pre) + length name)%nat = None) by (apply lookup_ge_None; unfold list; rewrite length_app; cbn [join]; lia). rewrite Hend, app_nil_r.
      do 2 f_equal. unfold list. cbn [join]. destruct pre as [|w pre] using rev_ind; [done|]. rewrite spaced_join by (by destruct pre).
      rewrite length_app, (proj2 (Nat.eqb_neq _ _)) by (cbn [length]; lia). cbn [length]. rewrite <- app_assoc, take_app_le by lia. apply take_ge. lia.
    + assert (Hsp : list = spaced pre ++ name ++ [space] ++ join (p :: post)) by (unfold list; by rewrite join_cons). rewrite Hsp at 1.
      rewrite lookup_app_r, lookup_app_r by lia. replace (_ - _ - _)%nat with 0%nat by lia. cbn [app lookup list_lookup]. rewrite Z.eqb_refl, join_app by done. do 2 f_equal. rewrite Hsp.
      rewrite take_app_length. f_equal. rewrite !app_assoc. rewrite drop_app_length'; [done|]. rewrite !length_app. cbn [length]. lia.
  - rewrite decide_False by done. destruct ws as [|w ws]; [done|].
    assert (Hl : (0 < length (join (w :: ws)))%nat).
    { apply Forall_cons in Hws as [[Hw _] _]. destruct ws; [cbn [join]|rewrite join_cons, length_app by done]; destruct w; (done || cbn; lia). }
    pose proof (strstr_none_join _ _ Hno Hn Hs) as E. destruct (length (join (w :: ws))) as [|k] eqn:Ek; [lia|]. cbn [remove_loop]. rewrite Ek. cbn [Nat.ltb Nat.leb].
    rewrite drop_0, E. done.
Qed.

(** A word that is not there is put at the end, when the list still fits. *)
Theorem add_word name ws listsize : word_ok name -> apart name ws -> Z.of_nat (length (join ws) + length name) + 1 < listsize ->
  Forall word_ok ws -> add_to_list name (join ws) listsize = (0, join (if decide (name ∈ ws) then ws else ws ++ [name])).
Proof.
  intros [Hn Hs] Ha Hsz Hws. unfold add_to_list. rewrite (proj2 (Z.leb_gt _ _)) by lia.
  destruct (apart_split name ws Ha) as [(pre & post & -> & _ & Hpre)|[Hnin Hno]].
  - rewrite decide_True by (apply elem_of_app; right; left). rewrite join_app by done. rewrite strstr_spaced by done.
    assert (Hf : strstr (join (name :: post)) name = Some 0%nat) by (destruct post; [cbn [join]; rewrite <- (app_nil_r name) at 1|rewrite join_cons by done]; apply strstr_self).
    rewrite Hf. cbn [option_map]. rewrite lookup_app_r by lia. replace (_ + 0 + _ - _)%nat with (length name) by lia.
    destruct post as [|p post]; [cbn [join]; by rewrite lookup_ge_None_2|]. rewrite join_cons by done. rewrite lookup_app_r, Nat.sub_diag by lia. done.
  - rewrite decide_False by done. rewrite strstr_none_join by done. rewrite (proj2 (Z.leb_gt _ _)) by lia.
    destruct ws as [|w ws]; [done|]. rewrite join_app, spaced_join by done. assert (Hj : join (w :: ws) <> []).
    { apply Forall_cons in Hws as [[Hw _] _]. destruct ws; [done|]. rewrite join_cons by done. by destruct w. }
    destruct (join (w :: ws)) eqn:E; [done|]. reflexivity.
Qed.

(** * The words that [foreach] sees *)

Lemma strcspn1_word w s : space ∉ w -> strcspn1 (w ++ space :: s) = length w.
Proof. induction w as [|c w IH]; intros H; [done|]. cbn [app strcspn1 length]. rewrite (proj2 (Z.eqb_neq c space)) by (intros ->; apply H; left). rewrite IH; [done|]. intros ?; apply H; by right. Qed.

Lemma strcspn1_all w : space ∉ w -> strcspn1 w = length w.
Proof. induction w as [|c w IH]; intros H; [done|]. cbn [strcspn1 length]. rewrite (proj2 (Z.eqb_neq c space)) by (intros ->; apply H; left). rewrite IH; [done|]. intros ?; apply H; by right. Qed.

Lemma strspn1_word w s : word_ok w -> strspn1 (w ++ s) = O.
Proof. intros [H Hs]. destruct w as [|c w]; [done|]. cbn [app strspn1]. by rewrite (proj2 (Z.eqb_neq c space)) by (intros ->; apply Hs; left). Qed.

Lemma get_word_first size w s : space ∉ w -> (length w < size)%nat -> get_word size (w ++ space :: s) = Some w.
Proof.
  intros Hs Hl. unfold get_word. rewrite (take_app_ge w _ size) by lia. destruct (size - length w)%nat eqn:E; [lia|]. cbn [take]. rewrite strcspn1_word by done.
  rewrite take_app_length, (proj2 (Nat.ltb_lt _ _)) by done. apply (f_equal Some). apply take_ge. lia.
Qed.

Lemma get_word_last size w : space ∉ w -> (length w < size)%nat -> get_word size w = Some w.
Proof.
  intros Hs Hl. unfold get_word. rewrite (take_ge _ size) by lia. rewrite strcspn1_all, firstn_all, (proj2 (Nat.ltb_lt _ _)) by done. apply (f_equal Some). apply take_ge. lia.
Qed.

Lemma foreach_loop_join size ws fuel : Forall word_ok ws -> Forall (fun w => (length w < size)%nat) ws -> (0 < size)%nat -> (length (join ws) <= fuel)%nat ->
  foreach_loop fuel size (join ws) = Some ws.
Proof.
  revert fuel. induction ws as [|w ws IH]; intros fuel Hok Hl Hsz Hf.
  - destruct fuel; cbn [join foreach_loop]; rewrite get_word_last by (cbn; try lia; apply not_elem_of_nil); done.
  - apply Forall_cons in Hok as [[Hw Hs] Hok]. apply Forall_cons in Hl as [Hl Hls].
    destruct ws as [|v ws].
    + cbn [join] in *. destruct w as [|c w]; [done|]. destruct fuel as [|fuel]; [cbn in Hf; lia|]. cbn [foreach_loop]. rewrite get_word_last by done.
      unfold strchr1. rewrite strcspn1_all, drop_all by done. specialize (IH fuel Hok Hls Hsz). cbn [join] in IH. rewrite IH by (cbn; lia). done.
    + rewrite join_cons in * by done. pose proof (get_word_first size w (join (v :: ws)) Hs Hl) as Hg. assert (Hlen := Hf). rewrite length_app in Hlen. cbn [length] in Hlen.
      destruct fuel as [|fuel]; [lia|]. cbn [foreach_loop]. rewrite Hg. destruct w as [|c w]; [done|].
      unfold strchr1. rewrite strcspn1_word, drop_app_length by done. cbn [strspn1]. rewrite Z.eqb_refl. cbn [drop].
      assert (Hd : strspn1 (join (v :: ws)) = O).
      { apply Forall_cons in Hok as [Hv _]. destruct ws; [cbn [join]; rewrite <- (app_nil_r v)|rewrite join_cons by done]; by apply strspn1_word. }
      rewrite Hd. cbn [drop length] in *. rewrite IH by (done || lia). done.
Qed.

(** The body of [foreach] sees the words of a list in their order, whatever the size of its array as
    long as each of them fits; after a word has been added, and another removed, it sees just those. *)
Theorem word_lists (size : nat) ws name old listsize :
  Forall word_ok ws -> Forall (fun w => (length w < size)%nat) (name :: ws) -> word_ok name -> name ∉ ws -> apart name ws ->
  old ∈ ws -> apart old (ws ++ [name]) -> Z.of_nat (length (join ws) + length name) + 1 < listsize ->
  foreach size (join ws) = Some ws /\
  add_to_list name (join ws) listsize = (0, join (ws ++ [name])) /\
  exists list, remove_from_list old (join (ws ++ [name])) listsize = Some (0, list) /\ foreach size list = Some (remove_first old ws ++ [name]).
Proof.
  intros Hok Hl Hn Hnin Ha Hold Hao Hsz. apply Forall_cons in Hl as [Hnl Hl]. assert (Hsz0 : (0 < size)%nat) by lia.
  assert (Hok' : Forall word_ok (ws ++ [name])) by (apply Forall_app; split; [done|by constructor]).
  assert (Hsame : forall l, Forall word_ok l -> Forall (fun w => (length w < size)%nat) l -> foreach size (join l) = Some l).
  { intros l Hl1 Hl2. unfold foreach. replace (strspn1 (join l)) with O; [by apply foreach_loop_join|].
    destruct l as [|w [|v l]]; [done|..]; apply Forall_cons in Hl1 as [Hw _]; [cbn [join]; rewrite <- (app_nil_r w)|rewrite join_cons by done]; symmetry; by apply strspn1_word. }
  split; [by apply Hsame|]. split; [rewrite add_word by done; by rewrite decide_False|].
  assert (Hin : old ∈ ws ++ [name]) by (apply elem_of_app; by left). assert (Holdok : word_ok old) by (by apply (proj1 (Forall_forall _ _) Hok)).
  exists (join (remove_first old ws ++ [name])). split.
  - rewrite remove_word, decide_True by (done || lia). do 3 f_equal. clear -Hold. induction ws as [|w ws IH]; [by apply not_elem_of_nil in Hold|].
    cbn [remove_first app]. destruct (bytes_eqb w old) eqn:E; [done|]. cbn [app]. rewrite IH; [done|].
    apply elem_of_cons in Hold as [->|?]; [by rewrite (proj2 (bytes_eqb_true _ _)) in E|done].
  - assert (Hsub : forall P : bytes -> Prop, Forall P ws -> Forall P (remove_first old ws)).
    { clear. intros P. induction 1 as [|w l H HF IH]; cbn [remove_first]; [constructor|]. destruct (bytes_eqb w old); [done|by constructor]. }
    apply Hsame; apply Forall_app; (split; [by apply Hsub|by constructor]).
Qed.

Lemma word_lists_witness :
  let ws := [txt "vlan0"; txt "eth1"] in
  foreach 32 (join ws) = Some ws /\ add_to_list (txt "wl0") (join ws) 32 = (0, txt "vlan0 eth1 wl0") /\
  exists list, remove_from_list (txt "eth1") (txt "vlan0 eth1 wl0") 32 = Some (0, list) /\ foreach 32 list = Some [txt "vlan0"; txt "wl0"].
Proof.
  apply (word_lists 32 [txt "vlan0"; txt "eth1"] (txt "wl0") (txt "eth1") 32).
  - repeat constructor; try discriminate; apply (bool_decide_unpack _); vm_compute; exact I.
  - apply (bool_decide_unpack _); vm_compute; exact I.
  - split; [discriminate|]. apply (bool_decide_unpack _); vm_compute; exact I.
  - apply (bool_decide_unpack _); vm_compute; exact I.
  - apply (bool_decide_unpack _); vm_compute; exact I.
  - apply (bool_decide_unpack _); vm_compute; exact I.
  - apply (bool_decide_unpack _); vm_compute; exact I.
  - reflexivity.
Defined.

(** * The units of a name *)

Lemma is_digit_of d : 0 <= d < 10 -> is_digit (ch "0"%char + d) = true.
Proof. intros Hd. unfold is_digit. change (ch "0"%char) with 48. change (ch "9"%char) with 57. apply andb_true_iff. split; apply Z.leb_le; lia. Qed.

Lemma digits_value_snoc s : forall acc d, Forall (fun c => is_digit c = true) s -> 0 <= d < 10 ->
  digits_value acc (s ++ [ch "0"%char + d]) = digits_value acc s * 10 + d.
Proof.
  induction s as [|c s IH]; intros acc d H Hd; cbn [app digits_value].
  - rewrite is_digit_of by done. lia.
  - apply Forall_cons in H as [Hc H]. rewrite Hc. by apply IH.
Qed.

Lemma dec_loop_spec fuel : forall n acc, 0 <= n < 10 ^ Z.of_nat (S fuel) -> exists ds, dec_loop (S fuel) n acc = ds ++ acc /\
  Forall (fun c => is_digit c = true) ds /\ (0 < length ds <= S fuel)%nat /\ digits_value 0 ds = n.
Proof.
  induction fuel as [|fuel IH]; intros n acc Hn.
  - rewrite Z.pow_1_r in Hn. exists [ch "0"%char + n]. cbn [dec_loop]. rewrite Z.mod_small, (proj2 (Z.ltb_lt _ _)) by lia. split; [done|].
    split; [constructor; [apply is_digit_of; lia|constructor]|]. split; [cbn; lia|].
    apply (digits_value_snoc [] 0 n); [constructor|lia].
  - remember (S fuel) as k. cbn [dec_loop]. pose proof (Z.mod_pos_bound n 10 ltac:(lia)) as Hm. destruct (Z.ltb_spec n 10) as [Hl|Hl].
    + exists [ch "0"%char + n mod 10]. split; [done|]. split; [constructor; [apply is_digit_of; lia|constructor]|].
      split; [cbn; lia|]. etransitivity; [apply (digits_value_snoc [] 0 (n mod 10)); [constructor|lia]|]. cbn [digits_value]. rewrite Z.mod_small; lia.
    + destruct (IH (n / 10) ((ch "0"%char + n mod 10) :: acc)) as (ds & -> & Hd & Hlen & Hv).
      { rewrite Nat2Z.inj_succ, Z.pow_succ_r in Hn by lia. split; [apply Z.div_pos; lia|apply Z.div_lt_upper_bound; lia]. }
      exists (ds ++ [ch "0"%char + n mod 10]). rewrite <- app_assoc. split; [done|]. split; [apply Forall_app; split; [done|]; constructor; [apply is_digit_of; lia|constructor]|].
      rewrite length_app. split; [cbn [length]; lia|]. rewrite digits_value_snoc, Hv by done. pose proof (Z.div_mod n 10). lia.
Qed.

(** An int that is not negative, as its digits. *)
Lemma decimal_spec n : 0 <= n < 2 ^ 31 -> Forall (fun c => is_digit c = true) (decimal n) /\ (0 < length (decimal n) <= 10)%nat /\ strtol (decimal n) = n.
Proof.
  intros Hn. unfold decimal. rewrite (proj2 (Z.ltb_ge _ _)) by lia. destruct (dec_loop_spec 9 n []) as (ds & -> & Hd & Hl & Hv); [cbn; lia|].
  rewrite app_nil_r. split; [done|]. split; [done|]. unfold strtol. lia.
Qed.

Lemma atoi_decimal n : 0 <= n < 2 ^ 31 -> atoi (decimal n) = n.
Proof.
  intros Hn. destruct (decimal_spec n Hn) as (Hd & Hl & Hv). destruct (decimal n) as [|c s]; [cbn in Hl; lia|]. cbn [atoi].
  apply Forall_cons in Hd as [Hc _]. destruct (c =? ch "-"%char) eqn:E; [apply Z.eqb_eq in E; subst; discriminate|done].
Qed.

Lemma strrspn_loop_at accept v c r : forall i, Forall (fun c => accept c = true) v -> accept c = false ->
  strrspn_loop (v ++ c :: r) accept i = Some (i + length v)%nat.
Proof.
  induction v as [|a v IH]; intros i H Hc; cbn [app strrspn_loop length]; [rewrite Hc; f_equal; lia|].
  apply Forall_cons in H as [-> H]. destruct v as [|b v].
  - cbn [app]. destruct r; cbn [strrspn_loop]; [|rewrite Hc]; f_equal; cbn; lia.
  - specialize (IH (S i) H Hc). cbn [app] in *. destruct (v ++ c :: r) eqn:E; [by destruct v|]. rewrite IH. f_equal. cbn. lia.
Qed.

Lemma sh_strrspn_at accept pre c ds : Forall (fun c => accept c = true) ds -> accept c = false -> sh_strrspn ((pre ++ [c]) ++ ds) accept = Some (length ds).
Proof.
  intros Hd Hc. unfold sh_strrspn. destruct ((pre ++ [c]) ++ ds) eqn:E; [by destruct pre|]. rewrite <- E, !rev_app_distr. cbn [rev app].
  rewrite strrspn_loop_at; [by rewrite length_rev| |done]. by apply Forall_rev.
Qed.

(** The unit and the subunit of a name that was made of them are found: the digits at the end of a
    name that another character comes before are the unit, and with a dot and digits behind them
    those are the subunit, for all numbers that an int holds. *)
Theorem unit_of_name pre c unit subunit : 0 <= unit < 2 ^ 31 -> 0 <= subunit < 2 ^ 31 -> is_digit c = false -> c <> ch "."%char -> (length pre <= 41)%nat ->
  get_ifname_unit ((pre ++ [c]) ++ decimal unit) = Some (0, unit, -1) /\
  get_ifname_unit ((pre ++ [c]) ++ decimal unit ++ txt "." ++ decimal subunit) = Some (0, unit, subunit).
Proof.
  intros Hu Hs Hc Hdot Hl. destruct (decimal_spec unit Hu) as (Hud & Hul & Huv). destruct (decimal_spec subunit Hs) as (Hsd & Hsl & Hsv).
  assert (Hlen : length (pre ++ [c]) = S (length pre)) by (rewrite length_app; cbn; lia). unfold get_ifname_unit. split.
  - rewrite (proj2 (Nat.ltb_ge _ _)) by (rewrite length_app; lia). rewrite sh_strrspn_at by done. rewrite (proj2 (Nat.eqb_neq _ _)) by lia.
    replace (length ((pre ++ [c]) ++ decimal unit) - length (decimal unit))%nat with (length (pre ++ [c])) by (rewrite (length_app (pre ++ [c])); lia). rewrite drop_app_length, Huv.
    rewrite Hlen. replace (S (length pre) - 1)%nat with (length pre) by lia. rewrite <- app_assoc, drop_app_length. cbn [deref app].
    rewrite (proj2 (Z.eqb_neq _ _)) by done. by rewrite orb_true_r.
  - set (mid := (pre ++ [c]) ++ decimal unit). assert (Hmid : length mid = (S (length pre) + length (decimal unit))%nat) by (unfold mid; rewrite length_app; lia).
    replace ((pre ++ [c]) ++ decimal unit ++ txt "." ++ decimal subunit) with ((mid ++ [ch "."%char]) ++ decimal subunit) by (unfold mid; by rewrite <- !app_assoc).
    assert (Hall : length ((mid ++ [ch "."%char]) ++ decimal subunit) = (S (length mid) + length (decimal subunit))%nat) by (rewrite !length_app; cbn [length]; lia).
    rewrite (proj2 (Nat.ltb_ge _ _)) by lia. rewrite sh_strrspn_at by done. rewrite (proj2 (Nat.eqb_neq _ _)) by lia.
    replace (length ((mid ++ [ch "."%char]) ++ decimal subunit) - length (decimal subunit))%nat with (length (mid ++ [ch "."%char])) by (rewrite Hall, length_app; cbn [length]; lia).
    rewrite drop_app_length, Hsv. rewrite length_app. cbn [length]. replace (length mid + 1 - 1)%nat with (length mid) by lia.
    rewrite (proj2 (Nat.eqb_neq (_ + 1) 0)) by lia. rewrite <- app_assoc, drop_app_length, take_app_length. cbn [deref app orb negb]. rewrite Z.eqb_refl. cbn [negb].
    unfold mid at 1. rewrite sh_strrspn_at by done. rewrite (proj2 (Nat.eqb_neq _ _)) by lia.
    replace (length mid - length (decimal unit))%nat with (length (pre ++ [c])) by lia. unfold mid. by rewrite drop_app_length, Huv.
Qed.

Lemma unit_of_name_witness : get_ifname_unit (txt "wl1") = Some (0, 1, -1) /\ get_ifname_unit (txt "wl1.12") = Some (0, 1, 12).
Proof. apply (unit_of_name (txt "w") 108 1 12); (reflexivity || lia || discriminate || (cbn; lia)). Defined.

(** * The index of an interface *)

(** What the index relies on: nvram is a map, and committing does not change it. *)
Class NvramLaws (W : Type) `{NvramApi W} : Prop := {
  law_set : forall w n v k, nvram_get (nvram_set w n v) k = if bytes_eqb n k then Some v else nvram_get w k;
  law_commit : forall w k, nvram_get (nvram_commit w) k = nvram_get w k
}.

Section laws.
Context {W : Type} `{NvramLaws W}.

Lemma snprintf_all size s : (length s < size)%nat -> snprintf size s = s.
Proof. intros Hl. apply take_ge. lia. Qed.

Lemma decimal_short n : 0 <= n < 2 ^ 31 -> (length (decimal n) <= 10)%nat.
Proof. intros Hn. by destruct (decimal_spec n Hn) as (_ & [_ ?] & _). Qed.

(** The names of the wireless interfaces, with what they are made of. *)
Lemma wl_names_spec n : n ∈ map wl_name counted ++ sub_names -> exists m, n = ch "w"%char :: m /\ (length n <= 23)%nat.
Proof.
  assert (Hc : forall i, i ∈ counted -> 0 <= i < 2 ^ 31).
  { intros i Hi. unfold counted in Hi. apply list_elem_of_In, in_map_iff in Hi as (k & <- & Hk). apply in_seq in Hk. change MAX_NVPARSE with 255%nat in Hk. lia. }
  intros Hn. apply elem_of_app in Hn as [Hn|Hn].
  - apply list_elem_of_In, in_map_iff in Hn as (i & <- & Hi%list_elem_of_In). pose proof (decimal_short i (Hc i Hi)). eexists. split; [reflexivity|]. unfold wl_name. rewrite length_app. cbn [length txt map]. change (length (txt "wl")) with 2%nat. lia.
  - apply list_elem_of_In, in_concat in Hn as (l & Hl & Hn). apply in_map_iff in Hl as (i & <- & Hi%list_elem_of_In). apply in_map_iff in Hn as (j & <- & Hj%list_elem_of_In).
    pose proof (decimal_short i (Hc i Hi)). pose proof (decimal_short j (Hc j Hj)). eexists. split; [reflexivity|].
    unfold wl_subname, wl_name. rewrite !length_app. change (length (txt "wl")) with 2%nat. change (length (txt ".")) with 1%nat. lia.
Qed.

Lemma first_match_in w ns v n : first_match w ns v = Some n -> n ∈ ns.
Proof. induction ns as [|m ns IH]; cbn [first_match]; [done|]. destruct (nvram_match _ _ _); [intros [= ->]; left|intros E; right; auto]. Qed.

Lemma first_match_same w w' ns v : (forall n, n ∈ ns -> nvram_get w' (snprintf NVRAM_MAX_PARAM_LEN (n ++ txt "_ifname")) = nvram_get w (snprintf NVRAM_MAX_PARAM_LEN (n ++ txt "_ifname"))) ->
  first_match w' ns v = first_match w ns v.
Proof.
  induction ns as [|n ns IH]; intros Hs; cbn [first_match]; [done|]. unfold nvram_match. rewrite Hs by left. rewrite IH; [done|]. intros; apply Hs; by right.
Qed.

Lemma osifname_same w w' osifname len : (forall n, n ∈ map wl_name counted ++ sub_names -> nvram_get w' (n ++ txt "_ifname") = nvram_get w (n ++ txt "_ifname")) ->
  osifname_to_nvifname w' osifname [] len = osifname_to_nvifname w osifname [] len.
Proof.
  intros Hs. assert (Hk : forall n, n ∈ map wl_name counted ++ sub_names ->
    nvram_get w' (snprintf NVRAM_MAX_PARAM_LEN (n ++ txt "_ifname")) = nvram_get w (snprintf NVRAM_MAX_PARAM_LEN (n ++ txt "_ifname"))).
  { intros n Hn. destruct (wl_names_spec n Hn) as (m & _ & Hl). rewrite snprintf_all; [by apply Hs|].
    rewrite length_app. change (length (txt "_ifname")) with 7%nat. change NVRAM_MAX_PARAM_LEN with 64%nat. lia. }
  unfold osifname_to_nvifname. rewrite (first_match_same w w' (map wl_name counted)) by (intros n Hn; apply Hk, elem_of_app; by left).
  by rewrite (first_match_same w w' sub_names) by (intros n Hn; apply Hk, elem_of_app; by right).
Qed.

Lemma bytes_eqb_neq (a b : bytes) : a <> b -> bytes_eqb a b = false.
Proof. intros Hn. destruct (bytes_eqb a b) eqn:E; [by apply bytes_eqb_true in E|done]. Qed.

Lemma ifname_not_index (a b : bytes) : a ++ txt "_ipconfig_index" <> b ++ txt "_ifname".
Proof.
  change (txt "_ipconfig_index") with (txt "_ipconfig_inde" ++ [120]). change (txt "_ifname") with (txt "_ifnam" ++ [101]). rewrite !app_assoc.
  intros E%app_inj_tail. by destruct E.
Qed.

(** The name found for an interface. *)
Lemma osifname_found w eth wl : osifname_to_nvifname w eth [] 64 = Some (0, wl) -> (length eth <= 48)%nat -> (length wl <= 48)%nat.
Proof.
  unfold osifname_to_nvifname. intros E He. destruct eth as [|c eth]; [done|]. destruct (bool_decide _).
  { unfold strncpy in E. destruct (length (c :: eth) <? 64)%nat; [by injection E as <-|done]. }
  assert (Hn : forall n, n ∈ map wl_name counted ++ sub_names -> (length (snprintf 64 n) <= 48)%nat).
  { intros n Hn. destruct (wl_names_spec n Hn) as (_ & _ & Hl). unfold snprintf. rewrite length_take. lia. }
  destruct (first_match w (map wl_name counted) _) eqn:E1; [injection E as <-; apply Hn, elem_of_app; left; by eapply first_match_in|].
  destruct (first_match w sub_names _) eqn:E2; [injection E as <-; apply Hn, elem_of_app; right; by eapply first_match_in|done].
Qed.

(** The index that was set for an interface is the one that is found for it, and the finding changes nothing. *)
Theorem index_round_trip w eth index w' : 0 <= index -> (length eth <= 48)%nat -> set_ipconfig_index w eth index = Some (0, w') ->
  get_ipconfig_index w' eth = Some (index, w').
Proof.
  intros Hi He. unfold set_ipconfig_index, get_ipconfig_index. destruct eth as [|c eth]; [by intros [=]|]. destruct (Z.leb_spec (Z.of_nat MAX_NVPARSE) index) as [?|Hlt]; [by intros [=]|].
  change (Z.of_nat MAX_NVPARSE) with 255 in Hlt. pose proof (decimal_short index ltac:(lia)) as Hdl.
  destruct (osifname_to_nvifname w (c :: eth) [] 64) as [[r wl]|] eqn:E; [|done]. destruct (r =? 0) eqn:Er; [apply Z.eqb_eq in Er as ->; cbn [negb]|by intros [=]].
  pose proof (osifname_found _ _ _ E He) as Hwl. assert (Hlan : length (lan_var index) = (10 + length (decimal index))%nat).
  { unfold lan_var. rewrite !length_app. change (length (txt "lan")) with 3%nat. change (length (txt "_ifname")) with 7%nat. lia. }
  assert (Hkey : length (wl ++ txt "_ipconfig_index") = (length wl + 15)%nat) by (by rewrite length_app).
  rewrite (snprintf_all 255 (wl ++ _)), (snprintf_all 16), (snprintf_all 255 (lan_var _)) by lia. intros [= <-].
  set (w1 := nvram_set _ (lan_var index) wl).
  assert (Hget : forall k, nvram_get (nvram_commit w1) k =
    if bytes_eqb (lan_var index) k then Some wl else if bytes_eqb (wl ++ txt "_ipconfig_index") k then Some (decimal index) else nvram_get w k).
  { intros k. rewrite law_commit. unfold w1. by rewrite !law_set. }
  rewrite (osifname_same w), E; [cbn [Z.eqb negb]|].
  - rewrite (snprintf_all 64 (wl ++ _)), Hget by lia. rewrite bytes_eqb_neq by (unfold lan_var; rewrite app_assoc; apply not_eq_sym, ifname_not_index).
    rewrite (proj2 (bytes_eqb_true _ _)) by done. pose proof (atoi_decimal index ltac:(lia)) as Ha. destruct (decimal_spec index ltac:(lia)) as (_ & Hl & _).
    destruct (decimal index) as [|d s] eqn:Ed; [cbn in Hl; lia|]. rewrite Ha. rewrite (snprintf_all 64), Hget by lia.
    by rewrite !(proj2 (bytes_eqb_true _ _)) by done.
  - intros n Hn. rewrite Hget. destruct (wl_names_spec n Hn) as (m & -> & _). rewrite !bytes_eqb_neq; [done|apply ifname_not_index|discriminate].
Qed.
End laws.

(** ** Examples *)

(** A store that is an association list. *)
#[local] Instance list_nvram : NvramApi (list (bytes * bytes)) := {
  nvram_get w k := option_map snd (find (fun p => bytes_eqb (fst p) k) w);
  nvram_set w k v := (k, v) :: w;
  nvram_unset w k := filter (fun p => negb (bytes_eqb (fst p) k)) w;
  nvram_commit w := w
}.

#[local] Instance list_nvram_laws : NvramLaws (list (bytes * bytes)).
Proof. split; [|done]. intros w n v k. cbn. by destruct (bytes_eqb n k). Qed.

Lemma index_round_trip_witness :
  let w := [(txt "wl0.1_ifname", txt "eth2")] in
  let w' := (txt "lan7_ifname", txt "wl0.1") :: (txt "wl0.1_ipconfig_index", txt "7") :: w in
  set_ipconfig_index w (txt "eth2") 7 = Some (0, w') /\ get_ipconfig_index w' (txt "eth2") = Some (7, w').
Proof.
  assert (E : set_ipconfig_index [(txt "wl0.1_ifname", txt "eth2")] (txt "eth2") 7 =
    Some (0, (txt "lan7_ifname", txt "wl0.1") :: (txt "wl0.1_ipconfig_index", txt "7") :: [(txt "wl0.1_ifname", txt "eth2")])) by (vm_compute; reflexivity).
  split; [exact E|]. refine (index_round_trip _ (txt "eth2") 7 _ _ _ E); [lia|cbn; lia].
Defined.

(** The words that are a part of another one: the end of [veth0] is removed for [eth0], and [eth1] is not added where
    [veth1] is there. *)
Example part_of_word :
  remove_from_list (txt "eth0") (txt "veth0 vlan1") 64 = Some (0, txt "vvlan1") /\ add_to_list (txt "eth1") (txt "veth1") 64 = (0, txt "veth1") /\
  add_to_list (txt "eth1") (txt "eth10 eth1") 64 = (0, txt "eth10 eth1 eth1").
Proof. by vm_compute. Qed.

(** The first character of a name is not looked at, one digit alone reads before the string, and the
    subunit is kept although the name has no unit. *)
Example unit_strange :
  get_ifname_unit (txt "12") = Some (0, 2, -1) /\ get_ifname_unit (txt "7") = None /\ get_ifname_unit (txt "wl.3") = Some (-1, -1, 3).
Proof. by vm_compute. Qed.

(** A name with a dot is not looked up, and an array that a name fills has no end. *)
Example osifname_strange :
  nvifname_to_osifname [(txt "wl0.1_ifname", txt "eth2")] (txt "wl0.1") 16 = Some (0, txt "wl0.1") /\
  nvifname_to_osifname [] (txt "eth0") 4 = None.
Proof. by vm_compute. Qed.
